(* ===== verification/_CoqProject ===== *)
-Q . S2P
Prelude.v
Guard.v
Bits.v
EptEntry.v
Buddy.v
BuddyTree.v
BuddyProofs.v
BuddySpec.v
PageSource.v
EptMmap.v
EptTables.v
EptProofs.v
ObjAlloc.v
ObjAllocProofs.v
MemMgr.v
MemMgrProofs.v
Malloc.v
EptSpec.v
EptAccess.v
Mtrrs.v
MtrrsProofs.v
EptHelpers.v
EptHelpersProofs.v
X64Entry.v
GuestPaging.v
GuestPagingProofs.v
Hook.v
HookProofs.v
HookSteps.v
HookWitness.v
Elf.v
ElfFrame.v
ElfSyms.v
ElfResolve.v
ElfImage.v
ElfParse.v
ElfHeader.v
Driver.v
LinuxEntry.v
DriverMem.v
DriverProofs.v
ThreadContext.v
DriverSpec.v
DebugRing.v
DebugRingProofs.v
Vcpu.v
VcpuProofs.v
Vmcs.v
MsrFields.v
X64MsrFields.v
VmcsControl.v
VmcsGuest.v
VmcsHost.v
VmcsExit.v
VmcsProofs.v
Crs.v
Check.v
CheckControl.v
CheckGuest.v
CheckHost.v
CheckAll.v
Descriptors.v
ExitHandler.v
ExitHandlerProofs.v
HostState.v
VmcsWitness.v
GuestState.v
GuestValid.v
Vmexit.v
VmexitProofs.v
EptPointer.v
Sample.v
ElfWitness.v
DriverWitness.v
VcpuDriver.v
