(* ===== verification/Prelude.v ===== *)
(** * A verification of GEVisor

    GEVisor is a hypervisor that isolates the memory GPUs and SGX enclaves work
    on.  It is built on Bareflank ([src/bareflank]) and its extended APIs
    ([src/extended_apis]), and adds its own hooks ([src/gevisor]).  This library
    models the parts that carry its guarantees and proves what they promise.

    ** The program and its models

    The driver in the host kernel loads the hypervisor.  [bfelf_loader.h] parses
    the ELF modules, copies their segments, and resolves and relocates symbols:
    [Elf.v].  [common.c] and the Linux [platform.c] keep the modules, the stack
    and the thread-local storage and call the hypervisor on every CPU:
    [Driver.v].  [entry.c] is the device the management tool opens:
    [LinuxEntry.v].  The driver leaves a thread context on the stack, which
    [threadcontext.asm] finds again inside the hypervisor: [ThreadContext.v].
    Kernel memory, CPUs and the hypervisor's answers are a parameter, the class
    [Kernel], with the laws [KernelLaws] of [DriverMem.v].

    Inside the hypervisor, [memory_manager.cpp] serves all memory from three
    buddy allocators ([buddy_allocator.h]: [Buddy.v]) and nine slabs
    ([object_allocator.h]: [ObjAlloc.v]) and keeps the translations between
    virtual and physical addresses: [MemMgr.v], [Malloc.v].  What page tables
    need of it is the class [PageSource] with the laws [PageSourceLaws]
    ([PageSource.v]), which the memory manager is shown to satisfy.

    Guest memory goes through extended page tables.  [ept.h] defines the entries
    ([EptEntry.v], on the bit functions of [bfbitmanip.h] and [bfupperlower.h]:
    [Bits.v]), [ept/mmap.h] the map ([EptMmap.v]), [ept/helpers.h] maps of whole
    ranges and changes of page size ([EptHelpers.v]), and [mtrrs.cpp] the memory
    types the map has to respect ([Mtrrs.v]).

    GEVisor itself is [vcpu_factory_hook.cpp]: [Hook.v] has the tables of
    enclave pages and protected GPU buffers, the functions that give and take
    permissions in the map of guest memory, and every exit handler.
    [paging_utils.h] walks the guest's own page tables: [GuestPaging.v], on the
    entries of the x64 [paging.h] in [X64Entry.v].

    The hypervisor runs one virtual CPU per processor.  [entry.cpp] answers the
    requests of the driver, [bfmanager.h] and [vcpu.h] keep the virtual CPUs and
    their delegates ([Vcpu.v]), guarded by [bfgsl.h] and [bfexception.h]
    ([Guard.v]); [VcpuDriver.v] joins them with the driver.  What the hypervisor
    prints goes to the ring of [bfdebugringinterface.h]: [DebugRing.v].

    A virtual CPU is described by the control structure of the processor, the
    VMCS.  [Vmcs.v] has the processor as the code sees it and the accessors of
    [vmx.h] and [vmcs/helpers.h]; the registers of the headers [vmcs/*.h],
    [msrs.h] and [crs.h], with their flags, fields and conditions, are
    [VmcsControl.v], [VmcsGuest.v], [VmcsHost.v], [VmcsExit.v], [MsrFields.v],
    [X64MsrFields.v] and [Crs.v].  What the processor answers is the class
    [Processor].  The checks of the VMCS ([check_vmcs_*.cpp]) are [Check.v],
    [CheckControl.v], [CheckGuest.v], [CheckHost.v] and [CheckAll.v]; the tables
    of descriptors ([gdt.h], [idt.h]) [Descriptors.v].  [exit_handler.cpp],
    [vmcs.cpp] and [vmcs_resume.asm], the dispatch of exits and the handlers of
    the base hypervisor, are [ExitHandler.v], and the function that makes the running
    system the guest is [GuestState.v]; the handlers of the extended APIs
    ([vmexit/*.cpp], [ept.cpp], [vpid.cpp], [encls.cpp], [microcode.cpp] and
    their part of [apis.cpp]) are [Vmexit.v].

    ** How the code is translated

    A function is a computation of the monad [M] below: it takes the state of
    its component and returns a value or throws, and leaves a state behind in
    both cases, since a C++ exception does not undo what was written.  A state
    is a record with the fields of the class or the globals of the C file;
    pages and C memory are maps from addresses to words or bytes.  Integers are
    in [Z], reduced by [w64], [add64] and the like where the code computes at 64
    bits.  [expects] of the GSL throws [fail_fast]; an access of C code outside
    its memory is [segfault], a loop that would not end [diverges].  Locks,
    statistics and debug output are left out; an operation is one step.

    ** What is proved

    - The map of guest memory ([EptTables.v], [EptProofs.v], [EptSpec.v],
      [EptAccess.v]): the processor's walk of the tables is the reference;
      mapping, unmapping, releasing and looking up change or report the walk of
      exactly the addresses of one page, whatever fails on the way; after any
      sequence of operations in which no page is mapped at an address that a
      larger page maps, the tables are a tree of pages that were allocated for
      it.  The code does not enforce that condition, and [map_inside_larger]
      shows what happens without it.
    - Ranges and memory types ([EptHelpersProofs.v], [MtrrsProofs.v]): the map
      of all memory gives every address to itself with the type of a range that
      its page lies in or that ends where it starts; changes of page size keep
      all other addresses; the separation of the ranges ends and yields a
      partition.
    - The hooks ([HookProofs.v], [HookSteps.v], [HookWitness.v]): permissions
      are taken from and given back to exactly the listed pages, and cached
      translations are invalidated after; a buffer that is added is found and
      listed, with the number of pages that the code computes, which is right
      only below 4096 bytes; over all orders of exits, the channel to the enclave
      is never mapped.
    - The guest's tables ([GuestPagingProofs.v], [X64Entry.v]): translation
      agrees with the processor's walk unless the walk meets frame 0; the search
      finds the frames of the enclave page cache and the one after it, in entries
      that are present or not.
    - The allocators ([BuddyTree.v], [BuddyProofs.v], [BuddySpec.v],
      [ObjAllocProofs.v], [MemMgrProofs.v], [Malloc.v]): blocks are disjoint,
      aligned and large enough, allocation by a buddy fails exactly if there is
      none, [alloc] dies on a null pointer only if a slab has to grow without
      pages, and freeing gives back the block; address translations are inverse.
    - The loader ([ElfFrame.v], [ElfSyms.v], [ElfResolve.v], [ElfImage.v],
      [ElfParse.v], [ElfHeader.v]): the search by hash finds what the plain search finds,
      names are bound by the rule for strong and weak symbols, relocations
      store the words of the ABI, an image holds its segments over zeros, files
      with a bad header are refused with the right code, and the others are parsed
      into what their tables describe.
    - The driver ([DriverProofs.v], [DriverSpec.v]): its operations refine a
      small state machine, the blocks it holds are those it owes the kernel, a
      load gives the hypervisor its requests in order, CPUs are started and stopped in order, and everything is released.
    - Virtual CPUs ([VcpuProofs.v], [VcpuDriver.v], [DebugRingProofs.v]): the
      requests refine a machine that holds the set of running virtual CPUs; with
      the driver, one per processor after a start and none after a stop; the ring
      keeps the most recent text.
    - The VMCS ([VmcsProofs.v], [HostState.v], [GuestState.v], [GuestValid.v],
      [CheckAll.v], [Descriptors.v]): every part of a register lies inside it, but for the
      reserved bits of the access rights, and is
      read back as it was set, without a change of other parts; the host, control
      and guest state that the constructor writes, on a kernel in long mode, passes
      all 195 checks; descriptors are read back.
    - Exits ([ExitHandlerProofs.v], [VmexitProofs.v], [EptPointer.v]): the handler
      of exits never returns: the handlers of the reason are asked, the last one
      added first, and it enters the guest or stops; registers that the
      VMCS holds for the guest and the hidden bit of CR4 are read back as the
      guest wrote them; the bitmaps trap exactly what was asked for where the code
      can address it; the guard of microcode updates holds for the number of the
      register alone; a map that is loaded passes the checks of its pointer, and
      unloading it restores the state.

    [Sample.v], [ElfWitness.v], [DriverWitness.v], [VmcsWitness.v] and the ends of the other
    files apply the theorems to concrete machines.

    ** Bounds

    Recursion in the C++ code is structural on fuel that the theorems show to be
    enough: the depth of the buddy tree, the number of bytes of memory for C
    strings, the number of symbols for hash chains, the number of CPUs, the
    number of 4 KB pages of a range for [identity_map], and 2^72 rounds, written
    in binary, for the separation of memory types, which each remove an address
    from some range.  A chain of symbols that is a cycle is the one loop that
    does not end, and is reported as such.

    ** What is not modelled

    [vmcs_promote], which loads the state of the guest back into the processor,
    only leaves the hypervisor. The page tables of the host ([cr3/mmap.h]) are
    built the way the map of guest memory is, and [make_unique_map] is reduced
    to its preconditions; memory that a string instruction reads or writes is
    therefore an argument in [Vmexit.v]. The logs of the extended handlers and
    the registration of each with the exit handler are left out, and the wait
    for another processor in INIT is an argument. Of CPUID, the leaves that are
    read; VT-d and the other registers of the interrupt controller are names of
    hardware bits that the hypervisor does not use. Functions that only print,
    device I/O (PCI, interrupt controller, serial ports), the unwinder, the C
    run-time, the management tool and the drivers for other systems are left
    out. *)
From Stdlib Require Export ZArith Lia Bool.
From stdpp Require Export base tactics option list gmap fin_maps numbers strings.

Open Scope Z_scope.

(** ** Machine integers *)

(** Reduction of an integer to [uint64_t]. *)
Definition w64 (x : Z) : Z := x mod 2 ^ 64.

(** Reduction of an integer to [uint32_t]. *)
Definition w32 (x : Z) : Z := x mod 2 ^ 32.

(** The values of [uint64_t]. *)
Definition u64 (x : Z) : Prop := 0 <= x < 2 ^ 64.

(** [a + b], [a - b], [a << n] and [~a] at 64 bits. *)
Definition add64 (a b : Z) : Z := w64 (a + b).
Definition sub64 (a b : Z) : Z := w64 (a - b).
Definition mul64 (a b : Z) : Z := w64 (a * b).
Definition shl64 (a n : Z) : Z := w64 (Z.shiftl a n).
Definition not64 (a : Z) : Z := Z.ldiff (Z.ones 64) a.

(** ** Exceptions and the state-and-exception monad *)

(** The exceptions the modelled code throws.  [expects] of the GSL throws
    [fail_fast] (the VMM is built with GSL_THROW_ON_CONTRACT_VIOLATION), and
    so does [span::at] out of range.  Control also leaves code for good where it
    goes back to the guest, gives the processor back to the host, or stops. *)
Inductive leaving : Type := resumed | launched | promoted | halted.

Inductive exn : Type :=
| bad_alloc
| runtime_error (what : string)
| invalid_argument (what : string)
| logic_error (what : string)
| fail_fast
| out_of_range
| null_deref
| stack_overflow
| segfault      (** a C access outside the memory that is mapped *)
| bad_free      (** a C deallocation of what is not a live block *)
| diverges      (** a C loop that does not end *)
| terminated    (** [std::terminate]: an exception left a [noexcept] function *)
| general_protection  (** a fault of the processor in the hypervisor itself *)
| left (how : leaving).  (** no exception: control has left the hypervisor for good *)

#[export] Instance leaving_eq_dec : EqDecision leaving.
Proof. solve_decision. Defined.

#[export] Instance exn_eq_dec : EqDecision exn.
Proof. solve_decision. Defined.

(** A computation either returns a value or throws, and in both cases leaves
    a state behind: a C++ exception does not roll back what was written. *)
Inductive outcome (S A : Type) : Type :=
| Ok (a : A) (s : S)
| Err (e : exn) (s : S).
Arguments Ok {S A} a s.
Arguments Err {S A} e s.

Definition M (S A : Type) : Type := S -> outcome S A.

Definition ret {S A} (a : A) : M S A := fun s => Ok a s.
Definition throw {S A} (e : exn) : M S A := fun s => Err e s.
Definition bind {S A B} (m : M S A) (k : A -> M S B) : M S B :=
  fun s => match m s with Ok a s' => k a s' | Err e s' => Err e s' end.
Definition get {S} : M S S := fun s => Ok s s.
Definition put {S} (s : S) : M S unit := fun _ => Ok tt s.
Definition modify {S} (f : S -> S) : M S unit := fun s => Ok tt (f s).
Definition gets {S A} (f : S -> A) : M S A := fun s => Ok (f s) s.
Definition expects {S} (b : bool) : M S unit := if b then ret tt else throw fail_fast.
Definition catch {S A} (m : M S A) (h : exn -> M S A) : M S A :=
  fun s => match m s with Ok a s' => Ok a s' | Err e s' => h e s' end.

Declare Scope vmm_scope.
Delimit Scope vmm_scope with vmm.
Notation "x <- m ;; k" := (bind m (fun x => k))
  (at level 100, m at next level, right associativity) : vmm_scope.
Notation "m ;;; k" := (bind m (fun _ => k))
  (at level 100, right associativity) : vmm_scope.

(** [ret = m; if (ret != SUCCESS) return ret;], as the C code writes it. *)
Definition or_return {S} (m : M S Z) (k : M S Z) : M S Z :=
  bind m (fun r => if r =? 0 then k else ret r).
Notation "m '!;;' k" := (or_return m k) (at level 100, right associativity) : vmm_scope.

(** The final state of an outcome, and its value if there is one. *)
Definition out_state {S A} (o : outcome S A) : S :=
  match o with Ok _ s => s | Err _ s => s end.
Definition out_value {S A} (o : outcome S A) : option A :=
  match o with Ok a _ => Some a | Err _ _ => None end.

Lemma bind_get {S A} (k : S -> M S A) (s : S) : bind get k s = k s s.
Proof. done. Qed.

Lemma bind_assoc {S A B C} (m : M S A) (k : A -> M S B) (k' : B -> M S C) s :
  bind (bind m k) k' s = bind m (fun a => bind (k a) k') s.
Proof. unfold bind. by destruct (m s). Qed.

Lemma bind_ok {S A B} (m : M S A) (k : A -> M S B) a s s' : m s = Ok a s' -> bind m k s = k a s'.
Proof. intros Hm. unfold bind. by rewrite Hm. Qed.

(** A loop over a list of indices, as a [for] over a range is written. *)
Fixpoint for_each {S A} (l : list A) (body : A -> M S unit) : M S unit :=
  match l with
  | [] => ret tt
  | x :: l' => bind (body x) (fun _ => for_each l' body)
  end.

(** A loop whose body returns a code, left at the first failure. *)
Fixpoint until_error {S A} (l : list A) (body : A -> M S Z) : M S Z :=
  match l with
  | [] => ret 0
  | x :: l' => or_return (body x) (until_error l' body)
  end.

(** ** Weakest preconditions of outcomes *)

Definition wp {S A} (m : M S A) (Q : A -> S -> Prop) (E : exn -> S -> Prop) (s : S) : Prop :=
  match m s with Ok a s' => Q a s' | Err e s' => E e s' end.

Lemma wp_ret {S A} (a : A) (Q : A -> S -> Prop) E s : Q a s -> wp (ret a) Q E s.
Proof. done. Qed.

Lemma wp_bind {S A B} (m : M S A) (k : A -> M S B) Q E s :
  wp m (fun a s' => wp (k a) Q E s') E s -> wp (bind m k) Q E s.
Proof. unfold wp, bind. by destruct (m s). Qed.

Lemma wp_step {S A B} (m : M S A) (k : A -> M S B) a s s' Q E :
  m s = Ok a s' -> wp (k a) Q E s' -> wp (bind m k) Q E s.
Proof. unfold wp, bind. by intros ->. Qed.

Lemma wp_get {S A} (k : S -> M S A) Q E s : wp (k s) Q E s -> wp (bind get k) Q E s.
Proof. done. Qed.

Lemma wp_modify {S A} (f : S -> S) (k : unit -> M S A) Q E s : wp (k tt) Q E (f s) -> wp (bind (modify f) k) Q E s.
Proof. done. Qed.

Lemma wp_mono {S A} (m : M S A) (Q Q' : A -> S -> Prop) (E E' : exn -> S -> Prop) s :
  wp m Q E s -> (forall a s', Q a s' -> Q' a s') -> (forall e s', E e s' -> E' e s') ->
  wp m Q' E' s.
Proof. unfold wp. destruct (m s); auto. Qed.

(** The rule of a [for] loop: an invariant indexed by what is left. *)
Lemma wp_for_each {S A} (body : A -> M S unit) (I : list A -> S -> Prop) E l s :
  I l s ->
  (forall x l' s', I (x :: l') s' -> wp (body x) (fun _ s'' => I l' s'') E s') ->
  wp (for_each l body) (fun _ s' => I [] s') E s.
Proof.
  revert s. induction l as [|x l IH]; intros s Hi Hb; simpl; [done|].
  apply wp_bind. eapply wp_mono; [by apply Hb| |done].
  intros a s' ?. by apply IH.
Qed.

(** The same for a loop that stops at an error. *)
Lemma wp_until_error {S A} (body : A -> M S Z) (I : list A -> S -> Prop) (Q : Z -> S -> Prop) E l s :
  I l s -> (forall s, I [] s -> Q 0 s) ->
  (forall x l' s', I (x :: l') s' -> wp (body x) (fun r s'' => if r =? 0 then I l' s'' else Q r s'') E s') ->
  wp (until_error l body) Q E s.
Proof.
  revert s. induction l as [|x l IH]; intros s Hi Hq Hb; [by apply wp_ret, Hq|].
  simpl. unfold or_return. apply wp_bind. eapply wp_mono; [by apply Hb| |done].
  intros r s'. cbv beta. destruct (r =? 0); intros Hr; [by apply IH|by apply wp_ret].
Qed.

(** [while (!body());], at most [p] times: [p] is written in binary, so that a
    bound as large as a machine integer is executable.  The result tells
    whether the loop has ended. *)
Fixpoint repeat_until {S} (p : positive) (body : M S bool) : M S bool :=
  match p with
  | xH => body
  | xO q => bind (repeat_until q body) (fun b => if b then ret true else repeat_until q body)
  | xI q => bind body (fun b => if b then ret true else
      bind (repeat_until q body) (fun b => if b then ret true else repeat_until q body))
  end.

(** Such a loop ends within the bound if a measure decreases. *)
Lemma wp_repeat_steps {S} (body : M S bool) (I Q : S -> Prop) (mu : S -> Z) E p s :
  (forall s, I s -> wp body (fun b s' => if b then Q s' else I s' /\ mu s' < mu s) E s) -> I s ->
  wp (repeat_until p body) (fun b s' => if b then Q s' else I s' /\ mu s' <= mu s - Z.pos p) E s.
Proof.
  intros Hb. assert (forall s, I s -> wp body (fun b s' => if b then Q s' else I s' /\ mu s' <= mu s - 1) E s) as Hb1.
  { intros s1 Hi. eapply wp_mono; [by apply Hb| |done]. intros b s'. cbv beta. destruct b; [done|]. intros [? ?]. split; [done|lia]. }
  revert s. induction p as [q IH|q IH|]; intros s Hi; cbn [repeat_until]; [| |by apply Hb1].
  - apply wp_bind. eapply wp_mono; [by apply Hb1| |done]. intros b s1. cbv beta. destruct b; [done|]. intros [Hi1 Hm1].
    apply wp_bind. eapply wp_mono; [by apply IH| |done]. intros b s2. cbv beta. destruct b; [done|]. intros [Hi2 Hm2].
    eapply wp_mono; [by apply IH| |done]. intros b s3. cbv beta. destruct b; [done|]. intros [? ?]. split; [done|lia].
  - apply wp_bind. eapply wp_mono; [by apply IH| |done]. intros b s2. cbv beta. destruct b; [done|]. intros [Hi2 Hm2].
    eapply wp_mono; [by apply IH| |done]. intros b s3. cbv beta. destruct b; [done|]. intros [? ?]. split; [done|lia].
Qed.

Lemma wp_repeat_until {S} (body : M S bool) (I Q : S -> Prop) (mu : S -> Z) E p s :
  (forall s, I s -> wp body (fun b s' => if b then Q s' else I s' /\ mu s' < mu s) E s) ->
  (forall s, I s -> 0 <= mu s) -> I s -> mu s < Z.pos p ->
  wp (repeat_until p body) (fun b s' => b = true /\ Q s') E s.
Proof.
  intros Hb Hmu Hi Hp. eapply wp_mono; [by apply wp_repeat_steps| |done]. intros b s'. cbv beta.
  destruct b; [done|]. intros [Hi' Hm]. specialize (Hmu s' Hi'). lia.
Qed.

Lemma for_each_app {S A} (l1 l2 : list A) (body : A -> M S unit) s :
  for_each (l1 ++ l2) body s = bind (for_each l1 body) (fun _ => for_each l2 body) s.
Proof.
  revert s. induction l1 as [|x l1 IH]; intros s; [done|].
  unfold bind in *. simpl. unfold bind. destruct (body x s); [|done]. apply IH.
Qed.

(** ** Bitwise reasoning on integers *)

Create HintDb bits.
Create Rewrite HintDb bits.

Lemma testbit_w64 x i : 0 <= i -> Z.testbit (w64 x) i = (i <? 64) && Z.testbit x i.
Proof.
  intros Hi. unfold w64. destruct (Z.ltb_spec i 64).
  - by rewrite Z.mod_pow2_bits_low.
  - by rewrite Z.mod_pow2_bits_high by lia.
Qed.

Lemma testbit_ones n i : 0 <= n -> 0 <= i -> Z.testbit (Z.ones n) i = (i <? n).
Proof.
  intros Hn Hi. destruct (Z.ltb_spec i n).
  - by rewrite Z.ones_spec_low.
  - by rewrite Z.ones_spec_high.
Qed.

Lemma testbit_shiftl a n i : 0 <= n -> 0 <= i ->
  Z.testbit (Z.shiftl a n) i = (n <=? i) && Z.testbit a (i - n).
Proof.
  intros Hn Hi. rewrite Z.shiftl_spec by done. destruct (Z.leb_spec n i); [done|].
  by rewrite Z.testbit_neg_r by lia.
Qed.

Lemma testbit_not64 a i : 0 <= i -> Z.testbit (not64 a) i = (i <? 64) && negb (Z.testbit a i).
Proof. intros Hi. unfold not64. by rewrite Z.ldiff_spec, testbit_ones. Qed.

Lemma testbit_one i : 0 <= i -> Z.testbit 1 i = (i =? 0).
Proof. intros Hi. change 1 with (Z.ones 1). rewrite testbit_ones by lia. lia. Qed.

Lemma testbit_u64_high x i : u64 x -> 64 <= i -> Z.testbit x i = false.
Proof.
  intros [??] ?. rewrite <- (Z.mod_small x (2 ^ 64)) by lia.
  by rewrite Z.mod_pow2_bits_high by lia.
Qed.

#[export] Hint Rewrite Z.land_spec Z.lor_spec Z.lxor_spec Z.ldiff_spec Z.bits_0 : bits.
#[export] Hint Rewrite Z.shiftr_spec testbit_w64 testbit_ones testbit_shiftl testbit_not64
  testbit_one using lia : bits.

(** Equality of integers bit by bit, the non-negative ones compared. *)
Ltac bits_ext i Hi := apply Z.bits_inj'; intros i Hi; autorewrite with bits.

(** Split on every comparison of the goal and finish by computation. *)
Ltac bits_cases :=
  repeat match goal with
  | |- context [?a <? ?b] => destruct (Z.ltb_spec a b)
  | |- context [?a <=? ?b] => destruct (Z.leb_spec a b)
  | |- context [?a =? ?b] => destruct (Z.eqb_spec a b)
  end; simpl; rewrite ?andb_true_r, ?andb_false_r, ?orb_false_r, ?orb_true_r; try lia; try done.

Ltac bits_solve := let i := fresh "i" in let Hi := fresh "Hi" in bits_ext i Hi; bits_cases.

Lemma u64_w64 x : u64 (w64 x).
Proof. unfold u64, w64. apply Z.mod_pos_bound. lia. Qed.

Lemma w64_small x : u64 x -> w64 x = x.
Proof. intros ?. unfold w64. by apply Z.mod_small. Qed.

(** A non-negative integer with no bit from 64 on is a [uint64_t]. *)
Lemma u64_of_bits x : 0 <= x -> (forall i, 64 <= i -> Z.testbit x i = false) -> u64 x.
Proof.
  intros Hx Hb. assert (x = w64 x) as ->.
  { bits_ext i Hi. destruct (Z.ltb_spec i 64); simpl; [done|]. by rewrite Hb. }
  apply u64_w64.
Qed.

Lemma u64_land_l x y : u64 x -> u64 (Z.land x y).
Proof.
  intros Hx. apply u64_of_bits.
  - apply Z.land_nonneg. left. apply Hx.
  - intros i Hi. by rewrite Z.land_spec, testbit_u64_high.
Qed.

Lemma u64_lor x y : u64 x -> u64 y -> u64 (Z.lor x y).
Proof.
  intros Hx Hy. apply u64_of_bits.
  - apply Z.lor_nonneg. split; [apply Hx|apply Hy].
  - intros i Hi. by rewrite Z.lor_spec, !testbit_u64_high.
Qed.

Lemma u64_not64 x : u64 (not64 x).
Proof.
  apply u64_of_bits.
  - unfold not64. apply Z.ldiff_nonneg. left. done.
  - intros i Hi. rewrite testbit_not64 by lia. bits_cases.
Qed.

#[export] Hint Resolve u64_w64 u64_land_l u64_lor u64_not64 : bits.

(** Masking with [2^n - 1] is the remainder. *)
Lemma land_ones_mod x n : 0 <= n -> Z.land x (Z.ones n) = x mod 2 ^ n.
Proof. apply Z.land_ones. Qed.

(** ** Pairs of a list *)

(** A relation between every element of a list and every later one. *)
Lemma fop_lookup {A} (R : A -> A -> Prop) l :
  (forall (i j : nat) x y, (i < j)%nat -> l !! i = Some x -> l !! j = Some y -> R x y) ->
  ForallOrdPairs R l.
Proof.
  induction l as [|a l IH]; intros H; constructor.
  - apply List.Forall_forall. intros y Hy. apply list_elem_of_In, list_elem_of_lookup_1 in Hy as [j Hj].
    by apply (H 0%nat (S j)); [lia|..].
  - apply IH. intros i j x y Hij Hx Hy. apply (H (S i) (S j)); [lia|done..].
Qed.

Lemma fop_perm {A} (R : A -> A -> Prop) l l' : (forall x y, R x y -> R y x) ->
  l ≡ₚ l' -> ForallOrdPairs R l -> ForallOrdPairs R l'.
Proof.
  intros Hs. induction 1 as [|x l l' Hp IH|x y l|l1 l2 l3 _ IH1 _ IH2]; intros Hf; auto.
  - inversion Hf; subst. constructor; [|auto]. by rewrite <- Hp.
  - inversion Hf as [|a1 l1 F1 F2]; subst. inversion F2 as [|a2 l2 F3 F4]; subst. inversion F1; subst.
    repeat constructor; auto.
Qed.

Lemma fop_app {A} (R : A -> A -> Prop) l1 l2 :
  ForallOrdPairs R (l1 ++ l2) <->
  ForallOrdPairs R l1 /\ ForallOrdPairs R l2 /\ forall x y, x ∈ l1 -> y ∈ l2 -> R x y.
Proof.
  induction l1 as [|a l1 IH]; simpl.
  - split; [|tauto]. intros Hl. split_and!; [constructor|done|]. intros x y Hx. by apply elem_of_nil in Hx.
  - split.
    + intros Hf. inversion Hf as [|? ? F1 F2]; subst. apply IH in F2 as (I1 & I2 & I3).
      apply Forall_app in F1 as [G1 G2]. split_and!; [by constructor|done|].
      intros x y [->|Hx]%elem_of_cons Hy; [|auto]. by eapply Forall_forall in G2; [|exact Hy].
    + intros (Hf & H2 & H3). inversion Hf as [|? ? F1 F2]; subst. constructor.
      * apply Forall_app. split; [done|]. apply Forall_forall. intros y Hy. apply H3; [set_solver|done].
      * apply IH. split_and!; [done..|]. intros x y Hx. apply H3. set_solver.
Qed.

Lemma fop_submseteq {A} (R : A -> A -> Prop) l l' : (forall x y, R x y -> R y x) ->
  l ⊆+ l' -> ForallOrdPairs R l' -> ForallOrdPairs R l.
Proof.
  intros Hs [k Hk]%submseteq_Permutation Hf. apply (fop_perm R _ _ Hs Hk) in Hf.
  by apply fop_app in Hf as (? & _).
Qed.

Lemma elem_of_flat_map {A B} (f : A -> list B) l y : y ∈ flat_map f l <-> exists x, x ∈ l /\ y ∈ f x.
Proof.
  rewrite list_elem_of_In, in_flat_map. setoid_rewrite list_elem_of_In. done.
Qed.

(** Rounding down to a multiple of [2 ^ n]. *)
Lemma land_not64_ones x n : u64 x -> 0 <= n -> Z.land x (not64 (Z.ones n)) = x / 2 ^ n * 2 ^ n.
Proof.
  intros Hu Hn. rewrite <- Z.shiftr_div_pow2, <- Z.shiftl_mul_pow2 by lia.
  apply Z.bits_inj'. intros i Hi. rewrite Z.shiftl_spec, Z.land_spec, testbit_not64, testbit_ones by lia.
  destruct (decide (i < n)).
  - rewrite (Z.testbit_neg_r _ (i - n)) by lia. replace (i <? n) with true by lia. by rewrite !andb_false_r.
  - rewrite Z.shiftr_spec by lia. replace (i - n + n) with i by lia. replace (i <? n) with false by lia.
    rewrite andb_true_r. destruct (Z.ltb_spec i 64); [by rewrite andb_true_r|].
    rewrite andb_false_r. symmetry. by apply testbit_u64_high.
Qed.
