(* ===== verification/Guard.v ===== *)
(** * Scope guards and exceptions

    The guards of [bareflank/bfsdk/include/bfgsl.h] and [guard_exceptions] of
    [bfexception.h]. *)
From S2P Require Import Prelude.

Local Open Scope vmm_scope.

(** What a C++ handler can catch. *)
Definition catchable (e : exn) : bool :=
  match e with
  | bad_alloc | runtime_error _ | invalid_argument _ | logic_error _ | fail_fast | out_of_range => true
  | _ => false
  end.

(** The destructor of a guard is [noexcept]: an exception that leaves its
    action ends the hypervisor. *)
Definition noexcept {S A} (f : M S A) : M S A :=
  catch f (fun e => throw (if catchable e then terminated else e)).

(** [gsl::on_failure(f)] around the rest [m] of the scope *)
Definition on_failure {S A} (f : M S unit) (m : M S A) : M S A :=
  catch m (fun e => if catchable e then noexcept f ;;; throw e else throw e).

(** [gsl::finally(f)] around the rest [m] of the scope *)
Definition finally {S A} (f : M S unit) (m : M S A) : M S A :=
  a <- on_failure f m ;; noexcept f ;;; ret a.

Definition SUCCESS : Z := 0.
Definition BF_BAD_ALLOC : Z := 0x8000000100000000.

(** [guard_exceptions(error_code, func)]; the messages it prints are left out. *)
Definition guard_exceptions {S A} (error_code : Z) (func : M S A) : M S Z :=
  catch (func ;;; ret SUCCESS) (fun e =>
    match e with
    | bad_alloc => ret BF_BAD_ALLOC
    | _ => if catchable e then ret error_code else throw e
    end).

