(* ===== verification/Bits.v ===== *)
(** * Bit manipulation helpers

    Models [bareflank/bfsdk/include/bfbitmanip.h] (bit and mask helpers on
    64-bit integers and on byte views) and
    [bareflank/bfsdk/include/bfupperlower.h] (split of an address at a bit). *)
From S2P Require Import Prelude.

(** ** bfbitmanip.h, integer overloads *)

Definition set_bit (t b : Z) : Z := Z.lor t (shl64 1 b).

Definition clear_bit (t b : Z) : Z := Z.land t (not64 (shl64 1 b)).

Definition get_bit (t b : Z) : Z := Z.shiftr (Z.land t (shl64 1 b)) b.

Definition is_bit_set (t b : Z) : bool := negb (get_bit t b =? 0).

Definition is_bit_cleared (t b : Z) : bool := get_bit t b =? 0.

(** [std::bitset<64>{t}.count()]. *)
Definition num_bits_set (t : Z) : Z :=
  Z.of_nat (length (filter (fun i => Z.testbit t i = true) (seqZ 0 64))).

Definition get_bits (t m : Z) : Z := Z.land t m.

Definition set_bits (t m v : Z) : Z := Z.lor (Z.land t (not64 m)) (Z.land v m).

(** ** bfbitmanip.h, byte-view overloads

    The view is the list of its bytes; [byte_view.at] out of range throws. *)

Definition byte_at (view : list Z) (i : Z) : option Z :=
  if decide (0 <= i) then view !! Z.to_nat i else None.

Definition view_set_bit (b : Z) : M (list Z) unit := fun view =>
  match byte_at view (Z.shiftr b 3) with
  | Some x => Ok tt (<[Z.to_nat (Z.shiftr b 3) := Z.lor x (Z.shiftl 1 (Z.land b 7))]> view)
  | None => Err fail_fast view
  end.

Definition view_clear_bit (b : Z) : M (list Z) unit := fun view =>
  match byte_at view (Z.shiftr b 3) with
  | Some x =>
      Ok tt (<[Z.to_nat (Z.shiftr b 3) :=
                Z.land x (Z.land (Z.lnot (Z.shiftl 1 (Z.land b 7))) 255)]> view)
  | None => Err fail_fast view
  end.

Definition view_get_bit (b : Z) : M (list Z) Z := fun view =>
  match byte_at view (Z.shiftr b 3) with
  | Some x => Ok (Z.land x (Z.shiftl 1 (Z.land b 7))) view
  | None => Err fail_fast view
  end.

(** ** bfupperlower.h *)

Definition lower12 (val : Z) : Z := Z.land val 0xFFF.
Definition lower (val from : Z) : Z := Z.land val (sub64 (shl64 1 from) 1).
Definition upper12 (val : Z) : Z := Z.land val (not64 0xFFF).
Definition upper (val from : Z) : Z := Z.land val (not64 (sub64 (shl64 1 from) 1)).

(** ** Bit-level behaviour of each helper *)

Lemma shl64_1 b : 0 <= b < 64 -> shl64 1 b = 2 ^ b.
Proof.
  intros. unfold shl64. rewrite Z.shiftl_1_l. apply w64_small. split; [lia|].
  apply Z.pow_lt_mono_r; lia.
Qed.

Lemma testbit_pow2 b i : 0 <= b -> 0 <= i -> Z.testbit (2 ^ b) i = (i =? b).
Proof.
  intros. destruct (Z.eqb_spec i b) as [->|].
  - by apply Z.pow2_bits_true.
  - apply Z.pow2_bits_false. lia.
Qed.

Lemma testbit_set_bit t b i : 0 <= b < 64 -> 0 <= i ->
  Z.testbit (set_bit t b) i = (i =? b) || Z.testbit t i.
Proof.
  intros. unfold set_bit. rewrite Z.lor_spec, shl64_1, testbit_pow2 by lia. apply orb_comm.
Qed.

Lemma testbit_clear_bit t b i : u64 t -> 0 <= b < 64 -> 0 <= i ->
  Z.testbit (clear_bit t b) i = negb (i =? b) && Z.testbit t i.
Proof.
  intros. unfold clear_bit. rewrite Z.land_spec, testbit_not64, shl64_1, testbit_pow2 by lia.
  destruct (Z.ltb_spec i 64); simpl; [apply andb_comm|].
  rewrite testbit_u64_high by (done || lia). by rewrite !andb_false_r.
Qed.

Lemma testbit_b2z x i : 0 <= i -> Z.testbit (Z.b2z x) i = (i =? 0) && x.
Proof. intros. destruct x; simpl; [by rewrite testbit_one, andb_true_r|]. by rewrite Z.bits_0, andb_false_r. Qed.

Lemma is_bit_set_testbit t b : 0 <= b < 64 -> is_bit_set t b = Z.testbit t b.
Proof.
  intros. unfold is_bit_set, get_bit. rewrite shl64_1 by lia.
  replace (Z.shiftr (Z.land t (2 ^ b)) b) with (Z.b2z (Z.testbit t b)).
  { by destruct (Z.testbit t b). }
  bits_ext i Hi. rewrite testbit_b2z, testbit_pow2 by lia.
  destruct (Z.eqb_spec i 0) as [->|]; simpl.
  - rewrite Z.eqb_refl. by rewrite andb_true_r.
  - replace (i + b =? b) with false by lia. by rewrite andb_false_r.
Qed.

Lemma is_bit_cleared_negb t b : is_bit_cleared t b = negb (is_bit_set t b).
Proof. unfold is_bit_set, is_bit_cleared. by rewrite negb_involutive. Qed.

Lemma testbit_set_bits t m v i : u64 m -> 0 <= i < 64 ->
  Z.testbit (set_bits t m v) i = if Z.testbit m i then Z.testbit v i else Z.testbit t i.
Proof.
  intros. unfold set_bits. autorewrite with bits; [|lia..].
  replace (i <? 64) with true by lia. simpl.
  destruct (Z.testbit m i); simpl; by rewrite ?andb_false_r, ?andb_true_r, ?orb_false_r.
Qed.

Lemma u64_set_bit t b : u64 t -> u64 (set_bit t b).
Proof. intros. unfold set_bit, shl64. auto with bits. Qed.

Lemma u64_clear_bit t b : u64 t -> u64 (clear_bit t b).
Proof. intros. unfold clear_bit. auto with bits. Qed.

Lemma u64_set_bits t m v : u64 t -> u64 m -> u64 (set_bits t m v).
Proof.
  intros. unfold set_bits. apply u64_lor; [auto with bits|].
  rewrite Z.land_comm. auto with bits.
Qed.

#[export] Hint Resolve u64_set_bit u64_clear_bit u64_set_bits : bits.

Lemma sub64_shl64_ones from : 0 <= from < 64 -> sub64 (shl64 1 from) 1 = Z.ones from.
Proof.
  intros. rewrite shl64_1 by lia. unfold sub64. rewrite Z.ones_equiv, <- Z.sub_1_r.
  apply w64_small. assert (0 < 2 ^ from) by (apply Z.pow_pos_nonneg; lia).
  assert (2 ^ from < 2 ^ 64) by (apply Z.pow_lt_mono_r; lia). unfold u64. lia.
Qed.

Lemma lower_mod val from : 0 <= from < 64 -> lower val from = val mod 2 ^ from.
Proof. intros. unfold lower. rewrite sub64_shl64_ones by lia. apply Z.land_ones; lia. Qed.

Lemma lower12_lower val : lower12 val = lower val 12.
Proof. unfold lower12, lower. f_equal. Qed.

Lemma upper12_upper val : upper12 val = upper val 12.
Proof. unfold upper12, upper. f_equal. Qed.

Lemma upper_sub val from : u64 val -> 0 <= from < 64 -> upper val from = val - val mod 2 ^ from.
Proof.
  intros Hv Hf. unfold upper. rewrite sub64_shl64_ones by lia.
  assert (Z.land val (not64 (Z.ones from)) = Z.shiftl (Z.shiftr val from) from) as ->.
  { bits_ext i Hi. destruct (Z.leb_spec from i); simpl.
    - rewrite Z.shiftr_spec by lia. replace (i - from + from) with i by lia.
      replace (i <? from) with false by lia. destruct (Z.ltb_spec i 64); simpl.
      + by rewrite andb_true_r.
      + by rewrite testbit_u64_high by (done || lia).
    - replace (i <? from) with true by lia. simpl. by rewrite !andb_false_r. }
  rewrite Z.shiftl_mul_pow2, Z.shiftr_div_pow2 by lia.
  rewrite Z.mod_eq by (apply Z.pow_nonzero; lia). lia.
Qed.

(** ** Byte views as bit vectors *)

(** The bit [b] of a byte view, the abstract value of the view overloads. *)
Definition view_bit (view : list Z) (b : Z) : bool :=
  match byte_at view (Z.shiftr b 3) with
  | Some x => Z.testbit x (Z.land b 7)
  | None => false
  end.

Lemma land7_bound b : 0 <= Z.land b 7 < 8.
Proof. change 7 with (Z.ones 3). rewrite Z.land_ones by lia. apply Z.mod_pos_bound. lia. Qed.

Lemma shiftr3_land7 b b' :
  Z.shiftr b 3 = Z.shiftr b' 3 -> Z.land b 7 = Z.land b' 7 -> b = b'.
Proof.
  change 7 with (Z.ones 3). rewrite !Z.land_ones, !Z.shiftr_div_pow2 by lia.
  change (2 ^ 3) with 8. pose proof (Z.div_mod b 8). pose proof (Z.div_mod b' 8). lia.
Qed.

Lemma byte_at_in_range view b : 0 <= b < 8 * Z.of_nat (length view) ->
  exists x, byte_at view (Z.shiftr b 3) = Some x.
Proof.
  intros Hb. unfold byte_at. rewrite Z.shiftr_div_pow2 by lia. change (2 ^ 3) with 8.
  assert (0 <= b / 8 < Z.of_nat (length view)).
  { split; [apply Z.div_pos; lia|]. apply Z.div_lt_upper_bound; lia. }
  rewrite decide_True by lia. apply lookup_lt_is_Some_2. lia.
Qed.

Lemma byte_at_out_of_range view b : 8 * Z.of_nat (length view) <= b ->
  byte_at view (Z.shiftr b 3) = None.
Proof.
  intros Hb. unfold byte_at. rewrite Z.shiftr_div_pow2 by lia. change (2 ^ 3) with 8.
  assert (Z.of_nat (length view) <= b / 8) by (apply Z.div_le_lower_bound; lia).
  rewrite decide_True by lia. apply lookup_ge_None_2. lia.
Qed.

Lemma byte_at_insert (view : list Z) b b' x y : byte_at view b = Some x ->
  byte_at (<[Z.to_nat b := y]> view) b' = if b' =? b then Some y else byte_at view b'.
Proof.
  unfold byte_at. repeat case_decide; try done; intros Hx; destruct (Z.eqb_spec b' b) as [->|]; try lia; try done.
  - apply list_lookup_insert_eq. by eapply lookup_lt_Some.
  - apply list_lookup_insert_ne. lia.
Qed.

(** Writing a byte whose bits differ from the old one only at [b & 7] changes
    only the bit [b] of the view. *)
Lemma view_bit_insert (view : list Z) b b' x y v : byte_at view (Z.shiftr b 3) = Some x ->
  (forall i, 0 <= i < 8 -> Z.testbit y i = if i =? Z.land b 7 then v else Z.testbit x i) ->
  view_bit (<[Z.to_nat (Z.shiftr b 3) := y]> view) b' = if b' =? b then v else view_bit view b'.
Proof.
  intros Hx Hy. unfold view_bit. rewrite (byte_at_insert _ _ _ x) by done.
  destruct (Z.eqb_spec (Z.shiftr b' 3) (Z.shiftr b 3)) as [E|E].
  - rewrite Hy by apply land7_bound. rewrite E, Hx.
    destruct (Z.eqb_spec (Z.land b' 7) (Z.land b 7)) as [E'|E'].
    + by rewrite (shiftr3_land7 b' b), Z.eqb_refl.
    + destruct (Z.eqb_spec b' b) as [->|]; done.
  - destruct (Z.eqb_spec b' b) as [->|]; done.
Qed.

Lemma view_get_bit_spec view b x : byte_at view (Z.shiftr b 3) = Some x ->
  exists r, view_get_bit b view = Ok r view /\ (r <> 0 <-> view_bit view b = true).
Proof.
  intros Hx. unfold view_get_bit, view_bit. rewrite Hx. eexists. split; [done|].
  pose proof (land7_bound b) as Hb. rewrite Z.shiftl_1_l. split.
  - intros Hne. destruct (Z.testbit x (Z.land b 7)) eqn:E; [done|]. exfalso. apply Hne.
    bits_ext i Hi. rewrite testbit_pow2 by lia. bits_cases. by subst.
  - intros E Hz. apply (f_equal (fun z => Z.testbit z (Z.land b 7))) in Hz.
    rewrite Z.land_spec, E, Z.pow2_bits_true, Z.bits_0 in Hz by lia. done.
Qed.

(** ** Theorems *)

(** writing a masked field of a 64-bit word and reading it back returns the
    value restricted to the mask, and every bit outside the mask keeps its old
    value: [set_bits] and [get_bits] are a field update and a field read. *)
Theorem set_bits_get_bits t m v : u64 t -> u64 m ->
  get_bits (set_bits t m v) m = get_bits v m /\
  get_bits (set_bits t m v) (not64 m) = get_bits t (not64 m).
Proof.
  intros Ht Hm. unfold get_bits, set_bits. split; bits_ext i Hi;
    (destruct (Z.ltb_spec i 64); simpl;
      [destruct (Z.testbit m i), (Z.testbit t i), (Z.testbit v i); done
      |rewrite ?(testbit_u64_high t), ?(testbit_u64_high m) by (done || lia);
       rewrite ?andb_false_r; done]).
Qed.

Lemma set_bits_get_bits_witness :
  get_bits (set_bits 0x0123456789ABCDEF 0x0000FFFFFFFFF000 0x00000000FEE00000) 0x0000FFFFFFFFF000
    = 0xFEE00000 /\
  get_bits (set_bits 0x0123456789ABCDEF 0x0000FFFFFFFFF000 0x00000000FEE00000)
    (not64 0x0000FFFFFFFFF000) = get_bits 0x0123456789ABCDEF (not64 0x0000FFFFFFFFF000).
Proof.
  apply (set_bits_get_bits 0x0123456789ABCDEF 0x0000FFFFFFFFF000 0x00000000FEE00000);
    unfold u64; lia.
Defined.

(** on a byte view, setting (clearing) a bit in range succeeds, makes exactly
    that bit read back as set (clear) and leaves every other bit of the view
    alone; reading tells the bit's value by a zero test; an index past the view
    makes all three throw with the view unchanged. *)
Theorem view_bits_spec view b : 0 <= b ->
  if decide (b < 8 * Z.of_nat (length view)) then
    (exists v1, view_set_bit b view = Ok tt v1 /\ length v1 = length view /\
      forall b', view_bit v1 b' = if b' =? b then true else view_bit view b') /\
    (exists v2, view_clear_bit b view = Ok tt v2 /\ length v2 = length view /\
      forall b', view_bit v2 b' = if b' =? b then false else view_bit view b') /\
    (exists r, view_get_bit b view = Ok r view /\ (r <> 0 <-> view_bit view b = true))
  else
    view_set_bit b view = Err fail_fast view /\
    view_clear_bit b view = Err fail_fast view /\
    view_get_bit b view = Err fail_fast view.
Proof.
  intros Hb. pose proof (land7_bound b) as H7. case_decide as Hlt.
  - destruct (byte_at_in_range view b) as [x Hx]; [lia|].
    split_and!; [| |by eapply view_get_bit_spec].
    + unfold view_set_bit. rewrite Hx. eexists; split_and!; [done|apply length_insert|].
      intros b'. eapply view_bit_insert; [done|]. intros i Hi.
      rewrite Z.lor_spec, Z.shiftl_1_l, testbit_pow2 by lia. bits_cases.
    + unfold view_clear_bit. rewrite Hx. eexists; split_and!; [done|apply length_insert|].
      intros b'. eapply view_bit_insert; [done|]. intros i Hi. change 255 with (Z.ones 8).
      rewrite !Z.land_spec, Z.lnot_spec, Z.shiftl_1_l, testbit_pow2, testbit_ones by lia. bits_cases.
  - unfold view_set_bit, view_clear_bit, view_get_bit.
    by rewrite byte_at_out_of_range by lia.
Qed.

Lemma view_bits_spec_witness :
  exists v, view_set_bit 11 [0; 1; 0] = Ok tt v /\ length v = 3%nat /\ view_bit v 11 = true.
Proof.
  destruct (view_bits_spec [0; 1; 0] 11) as [(v & H1 & H2 & H3) _]; [lia|].
  exists v. split_and!; [exact H1|exact H2|]. rewrite H3. reflexivity.
Defined.

(** [upper] and [lower] split a 64-bit address at bit [from]: the lower part
    is the remainder modulo [2^from], the upper part is a multiple of [2^from],
    both are at most the address and they add up to it. *)
Theorem upper_lower_split val from : u64 val -> 0 <= from < 64 ->
  upper val from + lower val from = val /\ 0 <= lower val from < 2 ^ from /\
  (2 ^ from | upper val from) /\ Z.land (upper val from) (lower val from) = 0.
Proof.
  intros Hv Hf. assert (0 < 2 ^ from) by (apply Z.pow_pos_nonneg; lia).
  split_and!.
  - rewrite upper_sub, lower_mod by done. lia.
  - rewrite lower_mod by done. apply Z.mod_pos_bound. lia.
  - rewrite lower_mod by done. apply Z.mod_pos_bound. lia.
  - rewrite upper_sub by done. exists (val / 2 ^ from). rewrite Z.mod_eq by lia. lia.
  - unfold upper, lower. rewrite sub64_shl64_ones by lia. bits_ext i Hi.
    destruct (i <? from), (i <? 64), (Z.testbit val i); done.
Qed.

Lemma upper_lower_split_witness :
  upper 0x12345678 21 + lower 0x12345678 21 = 0x12345678 /\ 0 <= lower 0x12345678 21 < 2 ^ 21 /\
  (2 ^ 21 | upper 0x12345678 21) /\ Z.land (upper 0x12345678 21) (lower 0x12345678 21) = 0.
Proof. apply upper_lower_split; [unfold u64; lia|lia]. Defined.
