(* ===== verification/EptEntry.v ===== *)
(** * Layout of the extended page-table entries

    Models [bareflank/bfintrinsics/include/arch/intel_x64/ept.h].  Every
    one-bit namespace of the header ([read_access], [ps], ...) has the same four
    functions over its own [mask] and [from], every multi-bit namespace
    ([memory_type], [phys_addr]) the same [get] and [set]: a namespace is a
    [flag] or a [field], and the functions take it as an argument. *)
From S2P Require Import Prelude Bits.

(** A one-bit namespace: its [mask] and [from]. *)
Record flag := Flag { flag_mask : Z; flag_from : Z }.

Definition is_enabled (f : flag) (entry : Z) : bool := is_bit_set entry (flag_from f).
Definition is_disabled (f : flag) (entry : Z) : bool := negb (is_bit_set entry (flag_from f)).
Definition enable (f : flag) (entry : Z) : Z := set_bit entry (flag_from f).
Definition disable (f : flag) (entry : Z) : Z := clear_bit entry (flag_from f).

(** A multi-bit namespace: its [mask] and [from]. *)
Record field := Field { field_mask : Z; field_from : Z }.

Definition field_get (f : field) (entry : Z) : Z :=
  Z.shiftr (get_bits entry (field_mask f)) (field_from f).
Definition field_set (f : field) (entry val : Z) : Z :=
  set_bits entry (field_mask f) (shl64 val (field_from f)).

(** ** PML4 tables *)
Module pml4.

Definition num_entries : Z := 512.
Definition from : Z := 39.
Definition index (virt : Z) : Z :=
  Z.shiftr (Z.land virt (shl64 0x1FF from)) from.
Definition read_access : flag := Flag 0x0000000000000001 0.
Definition write_access : flag := Flag 0x0000000000000002 1.
Definition execute_access : flag := Flag 0x0000000000000004 2.
Definition accessed_flag : flag := Flag 0x0000000000000100 8.
Definition execute_access_user : flag := Flag 0x0000000000000400 10.
Definition phys_addr : field := Field 0x0000FFFFFFFFF000 0.
Definition suppress_ve : flag := Flag 0x8000000000000000 63.

End pml4.

(** ** Page-directory-pointer tables *)
Module pdpt.

Definition num_entries : Z := 512.
Definition from : Z := 30.
Definition page_size : Z := 0x40000000.
Definition index (virt : Z) : Z :=
  Z.shiftr (Z.land virt (shl64 0x1FF from)) from.
Definition read_access : flag := Flag 0x0000000000000001 0.
Definition write_access : flag := Flag 0x0000000000000002 1.
Definition execute_access : flag := Flag 0x0000000000000004 2.
Definition memory_type : field := Field 0x0000000000000038 3.
Definition uncacheable : Z := 0x0.
Definition write_combining : Z := 0x1.
Definition write_through : Z := 0x4.
Definition write_protected : Z := 0x5.
Definition write_back : Z := 0x6.
Definition ignore_pat : flag := Flag 0x0000000000000040 6.
Definition ps : flag := Flag 0x0000000000000080 7.
Definition accessed_flag : flag := Flag 0x0000000000000100 8.
Definition dirty : flag := Flag 0x0000000000000200 9.
Definition execute_access_user : flag := Flag 0x0000000000000400 10.
Definition phys_addr : field := Field 0x0000FFFFFFFFF000 0.
Definition suppress_ve : flag := Flag 0x8000000000000000 63.

End pdpt.

(** ** Page directories *)
Module pd.

Definition num_entries : Z := 512.
Definition from : Z := 21.
Definition page_size : Z := 0x200000.
Definition index (virt : Z) : Z :=
  Z.shiftr (Z.land virt (shl64 0x1FF from)) from.
Definition read_access : flag := Flag 0x0000000000000001 0.
Definition write_access : flag := Flag 0x0000000000000002 1.
Definition execute_access : flag := Flag 0x0000000000000004 2.
Definition memory_type : field := Field 0x0000000000000038 3.
Definition uncacheable : Z := 0x0.
Definition write_combining : Z := 0x1.
Definition write_through : Z := 0x4.
Definition write_protected : Z := 0x5.
Definition write_back : Z := 0x6.
Definition ignore_pat : flag := Flag 0x0000000000000040 6.
Definition ps : flag := Flag 0x0000000000000080 7.
Definition accessed_flag : flag := Flag 0x0000000000000100 8.
Definition dirty : flag := Flag 0x0000000000000200 9.
Definition execute_access_user : flag := Flag 0x0000000000000400 10.
Definition phys_addr : field := Field 0x0000FFFFFFFFF000 0.
Definition suppress_ve : flag := Flag 0x8000000000000000 63.

End pd.

(** ** Page tables *)
Module pt.

Definition num_entries : Z := 512.
Definition from : Z := 12.
Definition page_size : Z := 0x1000.
Definition index (virt : Z) : Z :=
  Z.shiftr (Z.land virt (shl64 0x1FF from)) from.
Definition read_access : flag := Flag 0x0000000000000001 0.
Definition write_access : flag := Flag 0x0000000000000002 1.
Definition execute_access : flag := Flag 0x0000000000000004 2.
Definition memory_type : field := Field 0x0000000000000038 3.
Definition uncacheable : Z := 0x0.
Definition write_combining : Z := 0x1.
Definition write_through : Z := 0x4.
Definition write_protected : Z := 0x5.
Definition write_back : Z := 0x6.
Definition ignore_pat : flag := Flag 0x0000000000000040 6.
Definition ps : flag := Flag 0x0000000000000080 7.
Definition accessed_flag : flag := Flag 0x0000000000000100 8.
Definition dirty : flag := Flag 0x0000000000000200 9.
Definition execute_access_user : flag := Flag 0x0000000000000400 10.
Definition phys_addr : field := Field 0x0000FFFFFFFFF000 0.
Definition suppress_ve : flag := Flag 0x8000000000000000 63.

End pt.
(** ** Flags *)

Definition flag_wf (f : flag) : Prop := 0 <= flag_from f < 64.

Lemma is_enabled_testbit f e : flag_wf f -> is_enabled f e = Z.testbit e (flag_from f).
Proof. apply is_bit_set_testbit. Qed.

Lemma is_disabled_negb f e : is_disabled f e = negb (is_enabled f e).
Proof. done. Qed.

Lemma is_enabled_enable f g e : flag_wf f -> flag_wf g ->
  is_enabled g (enable f e) = (flag_from g =? flag_from f) || is_enabled g e.
Proof.
  intros Hf Hg. rewrite !is_enabled_testbit by done. unfold enable.
  by rewrite testbit_set_bit by (done || apply Hg).
Qed.

Lemma is_enabled_disable f g e : u64 e -> flag_wf f -> flag_wf g ->
  is_enabled g (disable f e) = negb (flag_from g =? flag_from f) && is_enabled g e.
Proof.
  intros He Hf Hg. rewrite !is_enabled_testbit by done. unfold disable.
  by rewrite testbit_clear_bit by (done || apply Hg).
Qed.

Lemma u64_enable f e : u64 e -> u64 (enable f e).
Proof. apply u64_set_bit. Qed.

Lemma u64_disable f e : u64 e -> u64 (disable f e).
Proof. apply u64_clear_bit. Qed.

Lemma enable_nonzero f e : flag_wf f -> enable f e <> 0.
Proof.
  intros Hf Hz. pose proof (is_enabled_enable f f e Hf Hf) as H.
  rewrite Hz, Z.eqb_refl, is_enabled_testbit, Z.bits_0 in H; done.
Qed.

Lemma flag_bit_nonzero f e : flag_wf f -> is_enabled f e = true -> e <> 0.
Proof. intros Hf H ->. rewrite is_enabled_testbit, Z.bits_0 in H; done. Qed.

#[export] Hint Resolve u64_enable u64_disable : bits.

(** ** Fields *)

(** A contiguous mask of [w] bits starting at bit [b]. *)
Definition mask_is (m b w : Z) : Prop := m = Z.shiftl (Z.ones w) b /\ 0 <= b /\ 0 <= w /\ b + w <= 64.

Lemma testbit_mask m b w i : mask_is m b w -> 0 <= i ->
  Z.testbit m i = (b <=? i) && (i <? b + w).
Proof.
  intros (-> & ? & ? & ?) ?. rewrite testbit_shiftl by lia. destruct (Z.leb_spec b i); [|done].
  rewrite testbit_ones by lia. simpl. lia.
Qed.

Lemma mask_u64 m b w : mask_is m b w -> u64 m.
Proof.
  intros Hm. apply u64_of_bits.
  - destruct Hm as (-> & ? & ? & ?). apply Z.shiftl_nonneg. rewrite Z.ones_equiv.
    assert (0 < 2 ^ w) by (apply Z.pow_pos_nonneg; lia). lia.
  - intros i Hi. rewrite (testbit_mask _ _ _ _ Hm) by lia. destruct Hm as (_ & ? & ? & ?). lia.
Qed.

(** What a flag outside the mask sees of a field write. *)
Lemma is_enabled_field_set f g e v b w : u64 e -> flag_wf g -> mask_is (field_mask f) b w ->
  ~ b <= flag_from g < b + w ->
  is_enabled g (field_set f e v) = is_enabled g e.
Proof.
  intros He Hg Hm Hout. rewrite !is_enabled_testbit by done. unfold field_set, flag_wf in *.
  rewrite testbit_set_bits by (eauto using mask_u64).
  rewrite (testbit_mask _ _ _ _ Hm) by lia. destruct ((b <=? _) && _) eqn:E; [lia|done].
Qed.

Lemma u64_field_set f e v b w : u64 e -> mask_is (field_mask f) b w -> u64 (field_set f e v).
Proof. intros. eapply u64_set_bits; eauto using mask_u64. Qed.

(** Reading a field after setting a flag outside its mask. *)
Lemma field_get_enable f g e b w : flag_wf g -> mask_is (field_mask f) b w ->
  ~ b <= flag_from g < b + w -> field_get f (enable g e) = field_get f e.
Proof.
  intros Hg Hm Hout. unfold field_get, get_bits, enable, flag_wf in *. f_equal.
  bits_ext i Hi. rewrite testbit_set_bit, (testbit_mask _ _ _ _ Hm) by lia. bits_cases.
Qed.

Lemma field_get_disable f g e b w : u64 e -> flag_wf g -> mask_is (field_mask f) b w ->
  ~ b <= flag_from g < b + w -> field_get f (disable g e) = field_get f e.
Proof.
  intros He Hg Hm Hout. unfold field_get, get_bits, disable, flag_wf in *. f_equal.
  bits_ext i Hi. rewrite testbit_clear_bit, (testbit_mask _ _ _ _ Hm) by (done || lia). bits_cases.
Qed.

(** Two disjoint fields do not disturb each other. *)
Lemma field_get_set_disjoint f g e v b w b' w' : u64 e ->
  mask_is (field_mask f) b w -> mask_is (field_mask g) b' w' ->
  (b + w <= b' \/ b' + w' <= b) -> field_get f (field_set g e v) = field_get f e.
Proof.
  intros He Hf Hg Hd. unfold field_get, get_bits, field_set. f_equal. bits_ext i Hi.
  rewrite (testbit_mask _ _ _ _ Hf) by lia. 
  destruct (Z.ltb_spec i 64).
  - rewrite testbit_set_bits, (testbit_mask _ _ _ _ Hg) by (eauto using mask_u64 || lia). bits_cases.
  - destruct Hf as (_ & ? & ? & ?). replace (i <? b + w) with false by lia. by rewrite !andb_false_r.
Qed.

(** The physical-address field of every level: bits 12 to 47. *)
Definition phys_addr_mask_is : mask_is 0x0000FFFFFFFFF000 12 36.
Proof. split; [reflexivity|lia]. Defined.

Definition memory_type_mask_is : mask_is 0x0000000000000038 3 3.
Proof. split; [reflexivity|lia]. Defined.

#[export] Hint Resolve phys_addr_mask_is memory_type_mask_is : bits.

(** A page-aligned physical address below 2^48: what the field can hold. *)
Definition page_addr (p : Z) : Prop := 0 <= p < 2 ^ 48 /\ lower12 p = 0.

Lemma page_addr_u64 p : page_addr p -> u64 p.
Proof. intros [??]. unfold u64. lia. Qed.

Lemma page_addr_mask p : page_addr p -> Z.land p 0x0000FFFFFFFFF000 = p.
Proof.
  intros [Hp Hl]. bits_ext i Hi. rewrite (testbit_mask _ _ _ _ phys_addr_mask_is) by lia.
  destruct (Z.leb_spec 12 i); simpl; [destruct (Z.ltb_spec i (12 + 36))|].
  - by rewrite andb_true_r.
  - rewrite andb_false_r. rewrite <- (Z.mod_small p (2 ^ 48)) by lia.
    by rewrite Z.mod_pow2_bits_high by lia.
  - rewrite andb_false_r. apply (f_equal (fun z => Z.testbit z i)) in Hl.
    unfold lower12 in Hl. change 0xFFF with (Z.ones 12) in Hl.
    rewrite Z.land_spec, testbit_ones, Z.bits_0 in Hl by lia.
    replace (i <? 12) with true in Hl by lia. by rewrite andb_true_r in Hl.
Qed.

(** A page address written into an address field is read back, whatever else
    the entry holds. *)
Lemma phys_addr_get_set e p : u64 e -> page_addr p ->
  field_get (Field 0x0000FFFFFFFFF000 0) (field_set (Field 0x0000FFFFFFFFF000 0) e p) = p.
Proof.
  intros He Hp. unfold field_get, field_set, get_bits. cbn [field_mask field_from].
  rewrite Z.shiftr_0_r. unfold shl64. rewrite Z.shiftl_0_r, w64_small by (by apply page_addr_u64).
  rewrite <- (page_addr_mask p Hp) at 2. unfold set_bits. bits_ext i Hi.
  rewrite (testbit_mask _ _ _ _ phys_addr_mask_is) by lia.
  bits_cases; by rewrite ?orb_false_l.
Qed.

Lemma phys_addr_get_page e : page_addr (field_get (Field 0x0000FFFFFFFFF000 0) e).
Proof.
  unfold field_get, get_bits. cbn [field_mask field_from]. rewrite Z.shiftr_0_r.
  assert (forall i, 0 <= i -> Z.testbit (Z.land e 0x0000FFFFFFFFF000) i =
    Z.testbit e i && ((12 <=? i) && (i <? 48))) as Hb.
  { intros i Hi. by rewrite Z.land_spec, (testbit_mask _ _ _ _ phys_addr_mask_is). }
  split.
  - assert (Z.land e 0x0000FFFFFFFFF000 = Z.land e 0x0000FFFFFFFFF000 mod 2 ^ 48) as ->.
    { apply Z.bits_inj'. intros i Hi. destruct (Z.ltb_spec i 48).
      - by rewrite Z.mod_pow2_bits_low.
      - rewrite Z.mod_pow2_bits_high, Hb by lia. bits_cases. }
    apply Z.mod_pos_bound. lia.
  - unfold lower12. change 0xFFF with (Z.ones 12). apply Z.bits_inj'. intros i Hi.
    rewrite Z.land_spec, Hb, testbit_ones, Z.bits_0 by lia. bits_cases.
Qed.

(** ** Indices *)

Lemma index_div va from : 0 <= from <= 55 ->
  Z.shiftr (Z.land va (shl64 0x1FF from)) from = (va / 2 ^ from) mod 512.
Proof.
  intros Hf. change 512 with (2 ^ 9). rewrite <- Z.land_ones, <- Z.shiftr_div_pow2 by lia.
  change 0x1FF with (Z.ones 9). unfold shl64. bits_ext i Hi.
  destruct (Z.ltb_spec (i + from) 64); bits_cases.
Qed.

Lemma index_range va from : 0 <= from <= 55 ->
  0 <= Z.shiftr (Z.land va (shl64 0x1FF from)) from < 512.
Proof. intros. rewrite index_div by done. apply Z.mod_pos_bound. lia. Qed.

Lemma pml4_index_range va : 0 <= pml4.index va < 512.
Proof. by apply index_range. Qed.
Lemma pdpt_index_range va : 0 <= pdpt.index va < 512.
Proof. by apply index_range. Qed.
Lemma pd_index_range va : 0 <= pd.index va < 512.
Proof. by apply index_range. Qed.
Lemma pt_index_range va : 0 <= pt.index va < 512.
Proof. by apply index_range. Qed.

(** Splitting off the top 9 bits below bit [from + 9]. *)
Lemma mod_split_index va from : 0 <= from <= 55 ->
  va mod 2 ^ (from + 9) = (va / 2 ^ from) mod 512 * 2 ^ from + va mod 2 ^ from.
Proof.
  intros. rewrite Z.pow_add_r by lia.
  assert (0 < 2 ^ from) by (apply Z.pow_pos_nonneg; lia).
  rewrite Z.rem_mul_r by lia. change (2 ^ 9) with 512. lia.
Qed.

Lemma index_digits va :
  va mod 2 ^ 48 = pml4.index va * (512 * 0x40000000) + pdpt.index va * 0x40000000 +
    pd.index va * 0x200000 + pt.index va * 0x1000 + lower12 va.
Proof.
  unfold pml4.index, pdpt.index, pd.index, pt.index.
  rewrite !index_div by (cbv; split; discriminate).
  rewrite lower12_lower, lower_mod by lia. unfold pml4.from, pdpt.from, pd.from, pt.from.
  assert (va mod 2 ^ 48 = (va / 2 ^ 39) mod 512 * 2 ^ 39 + va mod 2 ^ 39) as ->
    by (apply (mod_split_index va 39); lia).
  assert (va mod 2 ^ 39 = (va / 2 ^ 30) mod 512 * 2 ^ 30 + va mod 2 ^ 30) as ->
    by (apply (mod_split_index va 30); lia).
  assert (va mod 2 ^ 30 = (va / 2 ^ 21) mod 512 * 2 ^ 21 + va mod 2 ^ 21) as ->
    by (apply (mod_split_index va 21); lia).
  assert (va mod 2 ^ 21 = (va / 2 ^ 12) mod 512 * 2 ^ 12 + va mod 2 ^ 12) as ->
    by (apply (mod_split_index va 12); lia).
  generalize ((va / 2 ^ 39) mod 512) ((va / 2 ^ 30) mod 512) ((va / 2 ^ 21) mod 512)
    ((va / 2 ^ 12) mod 512) (va mod 2 ^ 12). clear. intros. lia.
Qed.

(** The masks the header gives to the namespaces of one level. *)
Definition level_masks (flags : list flag) (fields : list field) : list Z :=
  map flag_mask flags ++ map field_mask fields.

Fixpoint pairwise_disjoint (l : list Z) : bool :=
  match l with
  | [] => true
  | m :: l' => forallb (fun m' => Z.land m m' =? 0) l' && pairwise_disjoint l'
  end.

Definition flag_mask_ok (f : flag) : bool := flag_mask f =? 2 ^ flag_from f.

Definition pml4_flags : list flag :=
  [pml4.read_access; pml4.write_access; pml4.execute_access; pml4.accessed_flag;
   pml4.execute_access_user; pml4.suppress_ve].
Definition pdpt_flags : list flag :=
  [pdpt.read_access; pdpt.write_access; pdpt.execute_access; pdpt.ignore_pat; pdpt.ps;
   pdpt.accessed_flag; pdpt.dirty; pdpt.execute_access_user; pdpt.suppress_ve].
Definition pd_flags : list flag :=
  [pd.read_access; pd.write_access; pd.execute_access; pd.ignore_pat; pd.ps;
   pd.accessed_flag; pd.dirty; pd.execute_access_user; pd.suppress_ve].
Definition pt_flags : list flag :=
  [pt.read_access; pt.write_access; pt.execute_access; pt.ignore_pat; pt.ps;
   pt.accessed_flag; pt.dirty; pt.execute_access_user; pt.suppress_ve].

(** ** Theorems *)

(** at every level the namespaces of an EPT entry occupy pairwise disjoint
    bits, each flag's mask is the single bit its [from] names, and the three
    access bits, the page-size bit and the address field sit at the same place
    at the page-directory-pointer, page-directory and page-table levels (which
    is what lets the hook edit a 2 MB entry with the 4 KB accessors). *)
Theorem ept_layout :
  pairwise_disjoint (level_masks pml4_flags [pml4.phys_addr]) = true /\
  pairwise_disjoint (level_masks pdpt_flags [pdpt.memory_type; pdpt.phys_addr]) = true /\
  pairwise_disjoint (level_masks pd_flags [pd.memory_type; pd.phys_addr]) = true /\
  pairwise_disjoint (level_masks pt_flags [pt.memory_type; pt.phys_addr]) = true /\
  forallb flag_mask_ok (pml4_flags ++ pdpt_flags ++ pd_flags ++ pt_flags) = true /\
  pdpt_flags = pd_flags /\ pd_flags = pt_flags /\
  pdpt.phys_addr = pd.phys_addr /\ pd.phys_addr = pt.phys_addr /\
  pdpt.memory_type = pd.memory_type /\ pd.memory_type = pt.memory_type.
Proof. repeat split. Qed.

(** the four table indices and the page offset of a guest physical address
    are its 48-bit digits: each index is below 512 and the address (modulo 2^48)
    is the sum of the indices weighted by their level's page size plus the
    page offset. *)
Theorem ept_index_digits va :
  0 <= pml4.index va < pml4.num_entries /\ 0 <= pdpt.index va < pdpt.num_entries /\
  0 <= pd.index va < pd.num_entries /\ 0 <= pt.index va < pt.num_entries /\
  va mod 2 ^ 48 = pml4.index va * (pdpt.num_entries * pdpt.page_size) +
    pdpt.index va * pdpt.page_size + pd.index va * pd.page_size +
    pt.index va * pt.page_size + lower12 va.
Proof.
  split; [exact (pml4_index_range va)|]. split; [exact (pdpt_index_range va)|].
  split; [exact (pd_index_range va)|]. split; [exact (pt_index_range va)|].
  apply index_digits.
Qed.
