(* ===== verification/Buddy.v ===== *)
(** * The buddy allocator

    Models [bareflank/bfvmm/include/memory_manager/buddy_allocator.h]: a binary
    tree of nodes kept in a caller-provided array, a block of the managed buffer
    per node, and the state of a node in the two top bits of its size word. *)
From S2P Require Import Prelude Bits EptEntry.

Definition BAREFLANK_PAGE_SIZE : Z := 0x1000.

(** [next_power_2]: smear the highest set bit of [size - 1] down and add one. *)
Definition next_power_2 (size0 : Z) : Z :=
  let size := sub64 size0 1 in
  let size := Z.lor size (Z.shiftr size 1) in
  let size := Z.lor size (Z.shiftr size 2) in
  let size := Z.lor size (Z.shiftr size 4) in
  let size := Z.lor size (Z.shiftr size 8) in
  let size := Z.lor size (Z.shiftr size 16) in
  let size := Z.lor size (Z.shiftr size 32) in
  add64 size 1.

(** [node_t]; a [node_t *] is the index of the node in [m_nodes], [None] is the
    null pointer. *)
Record node_t := Node {
  child0 : option nat;
  child1 : option nat;
  nptr : Z;
  nsize : Z;
}.

#[export] Instance node_t_eq_dec : EqDecision node_t.
Proof. solve_decision. Defined.

(** A node of a zero-filled node-tree buffer. *)
Definition node_zero : node_t := Node None None 0 0.

Definition get_size (n : node_t) : Z := get_bits (nsize n) 0x0FFFFFFFFFFFFFFF.
Definition is_unused (n : node_t) : bool :=
  get_bits (nsize n) 0xC000000000000000 =? 0x0000000000000000.
Definition is_leaf (n : node_t) : bool :=
  get_bits (nsize n) 0xC000000000000000 =? 0x4000000000000000.
Definition is_parent (n : node_t) : bool :=
  get_bits (nsize n) 0xC000000000000000 =? 0x8000000000000000.
Definition is_full (n : node_t) : bool :=
  get_bits (nsize n) 0xC000000000000000 =? 0xC000000000000000.

Definition with_size (n : node_t) (sz : Z) : node_t := Node (child0 n) (child1 n) (nptr n) sz.

Definition set_unused (n : node_t) : node_t :=
  with_size n (set_bits (nsize n) 0xC000000000000000 0x0000000000000000).
Definition set_leaf (n : node_t) : node_t :=
  with_size n (set_bits (nsize n) 0xC000000000000000 0x4000000000000000).
Definition set_parent (n : node_t) : node_t :=
  with_size n (set_bits (nsize n) 0xC000000000000000 0x8000000000000000).
Definition set_full (n : node_t) : node_t :=
  with_size n (set_bits (nsize n) 0xC000000000000000 0xC000000000000000).

(** The members of [buddy_allocator].  [m_nodes] is the memory behind
    [m_nodes_view]; the view's own bound is [m_view_size], kept apart because
    the constructor computes it from [node_tree_size], a number of bytes. *)
Record buddy := Buddy {
  m_buffer : Z;
  m_buffer_size : Z;
  m_nodes : list node_t;
  m_view_size : Z;
  m_root : nat;
  m_node_index : Z;
}.

Definition with_nodes (s : buddy) (l : list node_t) : buddy :=
  Buddy (m_buffer s) (m_buffer_size s) l (m_view_size s) (m_root s) (m_node_index s).
Definition with_index (s : buddy) (i : Z) : buddy :=
  Buddy (m_buffer s) (m_buffer_size s) (m_nodes s) (m_view_size s) (m_root s) i.

Definition buffer_size (k : Z) : Z := mul64 (shl64 1 k) BAREFLANK_PAGE_SIZE.

(** [sizeof(node_t)] is four words. *)
Definition node_tree_size (k : Z) : Z := mul64 (sub64 (shl64 2 k) 1) 32.

(** The integer-pointer constructor; [node_tree] is the memory it is given. *)
Definition buddy_allocator (buffer k : Z) (node_tree : list node_t) : buddy :=
  let root := default node_zero (node_tree !! 0%nat) in
  Buddy buffer (buffer_size k)
    (<[0%nat := Node (child0 root) (child1 root) buffer (buffer_size k)]> node_tree)
    (node_tree_size k) 0 1.

(** Dereferences of a node pointer. *)
Definition load (i : nat) : M buddy node_t := fun s =>
  match m_nodes s !! i with Some n => Ok n s | None => Err out_of_range s end.
Definition store (i : nat) (f : node_t -> node_t) : M buddy unit := fun s =>
  match m_nodes s !! i with
  | Some n => Ok tt (with_nodes s (<[i := f n]> (m_nodes s)))
  | None => Err out_of_range s
  end.
Definition deref (p : option nat) : M buddy nat :=
  match p with Some i => ret i | None => throw null_deref end.

(** [&m_nodes_view[m_node_index++]]: the index is advanced, then the span
    checks the old value against its bound. *)
Definition next_node : M buddy nat := fun s =>
  let i := m_node_index s in
  let s' := with_index s (add64 i 1) in
  if (0 <=? i) && (i <? m_view_size s) then Ok (Z.to_nat i) s' else Err fail_fast s'.

Section Operations.
Local Open Scope vmm_scope.

Definition get_nodes (parent : nat) : M buddy unit :=
  c0 <- next_node ;;
  c1 <- next_node ;;
  p <- load parent ;;
  store c0 (fun n => with_size n (Z.shiftr (get_size p) 1)) ;;;
  store c1 (fun n => with_size n (Z.shiftr (get_size p) 1)) ;;;
  store c0 (fun n => Node (child0 n) (child1 n) (nptr p) (nsize n)) ;;;
  n0 <- load c0 ;;
  store c1 (fun n => Node (child0 n) (child1 n) (add64 (nptr p) (nsize n0)) (nsize n)) ;;;
  store parent (fun n => Node (Some c0) (Some c1) (nptr n) (nsize n)).

(** The four [set_full] tests that follow a successful allocation below
    [parent]. *)
Definition retag_allocated (parent : nat) : M buddy unit :=
  store parent set_parent ;;;
  p <- load parent ;;
  c0 <- deref (child0 p) ;;
  c1 <- deref (child1 p) ;;
  n0 <- load c0 ;;
  n1 <- load c1 ;;
  (if is_leaf n0 && is_leaf n1 then store parent set_full else ret tt) ;;;
  (if is_leaf n0 && is_full n1 then store parent set_full else ret tt) ;;;
  (if is_full n0 && is_leaf n1 then store parent set_full else ret tt) ;;;
  (if is_full n0 && is_full n1 then store parent set_full else ret tt).

Definition private_allocate_next (rec : nat -> M buddy Z) (parent node : nat) : M buddy Z :=
  ptr <- rec node ;;
  (if negb (ptr =? 0) then retag_allocated parent else ret tt) ;;;
  ret ptr.

(** One [if (size == ...) ... else ...] block of [private_allocate]: the attempt
    below one child. *)
Definition try_child (rec : nat -> M buddy Z) (size : Z) (node child : nat) : M buddy Z :=
  n <- load child ;;
  if size =? get_size n then
    if is_unused n then private_allocate_next rec node child else ret 0
  else
    if negb (is_full n) && negb (is_leaf n) then private_allocate_next rec node child
    else ret 0.

(** [private_allocate]; the fuel bounds the depth of the C++ recursion. *)
Fixpoint private_allocate (fuel : nat) (size : Z) (node : nat) : M buddy Z :=
  match fuel with
  | O => throw stack_overflow
  | S fuel' =>
      n <- load node ;;
      if is_leaf n || is_full n then ret 0
      else if size =? get_size n then
        if is_unused n then
          store node set_leaf ;;;
          n' <- load node ;;
          ret (nptr n')
        else ret 0
      else
        (match child0 n with None => get_nodes node | Some _ => ret tt end) ;;;
        n' <- load node ;;
        c0 <- deref (child0 n') ;;
        p0 <- try_child (private_allocate fuel' size) size node c0 ;;
        if negb (p0 =? 0) then ret p0
        else
          n'' <- load node ;;
          c1 <- deref (child1 n'') ;;
          try_child (private_allocate fuel' size) size node c1
  end.

(** The depth of the C++ recursion is at most 53: one level per power of two
    between the page size and 2^64. *)
Definition max_depth : nat := 64.

Definition allocate (size : Z) : M buddy Z :=
  s <- get ;;
  if (m_buffer_size s <? size) || (size =? 0) then throw bad_alloc
  else
    let size := if size <? BAREFLANK_PAGE_SIZE then BAREFLANK_PAGE_SIZE else size in
    ptr <- private_allocate max_depth (next_power_2 size) (m_root s) ;;
    if negb (ptr =? 0) then ret ptr else throw bad_alloc.

Definition private_deallocate_next (rec : nat -> M buddy bool) (parent node : nat)
    : M buddy bool :=
  res <- rec node ;;
  (if res then
     store parent set_parent ;;;
     p <- load parent ;;
     c0 <- deref (child0 p) ;;
     c1 <- deref (child1 p) ;;
     n0 <- load c0 ;;
     n1 <- load c1 ;;
     if is_unused n0 && is_unused n1 then store parent set_unused else ret tt
   else ret tt) ;;;
  ret res.

Fixpoint private_deallocate (fuel : nat) (ptr : Z) (node : nat) : M buddy bool :=
  match fuel with
  | O => throw stack_overflow
  | S fuel' =>
      n <- load node ;;
      if is_leaf n then store node set_unused ;;; ret true
      else
        match child0 n with
        | None => ret false
        | Some c0 =>
            n0 <- load c0 ;;
            if ptr <? add64 (nptr n0) (get_size n0) then
              private_deallocate_next (private_deallocate fuel' ptr) node c0
            else
              c1 <- deref (child1 n) ;;
              private_deallocate_next (private_deallocate fuel' ptr) node c1
        end
  end.

Definition deallocate (ptr : Z) : M buddy unit :=
  if ptr =? 0 then ret tt
  else s <- get ;; private_deallocate max_depth ptr (m_root s) ;;; ret tt.

Fixpoint private_size (fuel : nat) (ptr : Z) (node : nat) : M buddy Z :=
  match fuel with
  | O => throw stack_overflow
  | S fuel' =>
      n <- load node ;;
      if is_leaf n then ret (get_size n)
      else
        match child0 n with
        | None => ret 0
        | Some c0 =>
            n0 <- load c0 ;;
            if ptr <? add64 (nptr n0) (get_size n0) then private_size fuel' ptr c0
            else c1 <- deref (child1 n) ;; private_size fuel' ptr c1
        end
  end.

Definition block_size (ptr : Z) : M buddy Z :=
  if ptr =? 0 then ret 0 else s <- get ;; private_size max_depth ptr (m_root s).

Definition contains (ptr : Z) (s : buddy) : bool :=
  (m_buffer s <=? ptr) && (ptr <? add64 (m_buffer s) (m_buffer_size s)).

End Operations.
