(* ===== verification/BuddyTree.v ===== *)
(** * The buddy tree, abstractly

    The contract of [buddy_allocator.h] on an inductive binary tree: which
    blocks of the buffer are allocated, and what allocation, deallocation and
    the size query do to them.  [BuddyProofs.v] shows that the node array of
    [Buddy.v] implements this tree. *)
From S2P Require Import Prelude.

(** The state of a node (bits 62-63 of its size word). *)
Inductive tag := Unused | Leaf | Parent | Full.

#[export] Instance tag_eq_dec : EqDecision tag.
Proof. solve_decision. Defined.

(** A node with no children yet, or with two; [i] is its place in the array. *)
Inductive btree :=
| Tip (i : nat) (g : tag)
| Bin (i : nat) (g : tag) (l r : btree).

Definition root_idx (t : btree) : nat := match t with Tip i _ => i | Bin i _ _ _ => i end.
Definition tag_of (t : btree) : tag := match t with Tip _ g => g | Bin _ g _ _ => g end.
Definition set_tag (g : tag) (t : btree) : btree :=
  match t with Tip i _ => Tip i g | Bin i _ l r => Bin i g l r end.

Fixpoint indices (t : btree) : list nat :=
  match t with Tip i _ => [i] | Bin i _ l r => i :: indices l ++ indices r end.

(** The size of a block of order [o]. *)
Definition psize (o : nat) : Z := 0x1000 * 2 ^ Z.of_nat o.

(** The allocated blocks of a tree of order [ord] at [base]: address and order. *)
Fixpoint blocks (ord : nat) (base : Z) (t : btree) {struct t} : list (Z * nat) :=
  match t with
  | Tip _ Leaf | Bin _ Leaf _ _ => [(base, ord)]
  | Tip _ _ => []
  | Bin _ _ l r =>
      match ord with
      | O => []
      | S ord' => blocks ord' base l ++ blocks ord' (base + psize ord') r
      end
  end.

Definition taken (g : tag) : bool := match g with Leaf | Full => true | _ => false end.

(** The tag a node with children must have, from theirs. *)
Definition combine (gl gr : tag) : tag :=
  if taken gl && taken gr then Full
  else match gl, gr with Unused, Unused => Unused | _, _ => Parent end.

(** Well-formed trees: a childless node is free or allocated; the children of
    an allocated node are free; any other node's tag is [combine] of theirs. *)
Fixpoint wf (ord : nat) (t : btree) {struct t} : Prop :=
  match t with
  | Tip _ g => g = Unused \/ g = Leaf
  | Bin _ g l r =>
      match ord with
      | O => False
      | S ord' =>
          wf ord' l /\ wf ord' r /\
          match g with
          | Leaf => tag_of l = Unused /\ tag_of r = Unused
          | _ => g = combine (tag_of l) (tag_of r)
          end
      end
  end.

(** Allocation of a block of order [o] below a node of order [ord] at [base];
    [nx] is the first unused place of the node array. *)
Fixpoint talloc (o ord : nat) (base : Z) (nx : nat) (t : btree) {struct ord}
    : option (btree * Z * nat) :=
  if taken (tag_of t) then None
  else if decide (o = ord) then
    match tag_of t with Unused => Some (set_tag Leaf t, base, nx) | _ => None end
  else
    match ord with
    | O => None
    | S ord' =>
        let '(i, l, r, nx) :=
          match t with
          | Tip i _ => (i, Tip nx Unused, Tip (S nx) Unused, S (S nx))
          | Bin i _ l r => (i, l, r, nx)
          end in
        match talloc o ord' base nx l with
        | Some (l', p, nx') => Some (Bin i (combine (tag_of l') (tag_of r)) l' r, p, nx')
        | None =>
            match talloc o ord' (base + psize ord') nx r with
            | Some (r', p, nx') => Some (Bin i (combine (tag_of l) (tag_of r')) l r', p, nx')
            | None => None
            end
        end
    end.

(** Deallocation of the block that holds [ptr]. *)
Fixpoint tdealloc (ptr : Z) (ord : nat) (base : Z) (t : btree) {struct t} : option btree :=
  match tag_of t with
  | Leaf => Some (set_tag Unused t)
  | _ =>
      match t, ord with
      | Bin i _ l r, S ord' =>
          if ptr <? base + psize ord' then
            match tdealloc ptr ord' base l with
            | Some l' => Some (Bin i (combine (tag_of l') (tag_of r)) l' r)
            | None => None
            end
          else
            match tdealloc ptr ord' (base + psize ord') r with
            | Some r' => Some (Bin i (combine (tag_of l) (tag_of r')) l r')
            | None => None
            end
      | _, _ => None
      end
  end.

(** The size of the block that holds [ptr], 0 if there is none. *)
Fixpoint tsize (ptr : Z) (ord : nat) (base : Z) (t : btree) {struct t} : Z :=
  match tag_of t with
  | Leaf => psize ord
  | _ =>
      match t, ord with
      | Bin _ _ l r, S ord' =>
          if ptr <? base + psize ord' then tsize ptr ord' base l
          else tsize ptr ord' (base + psize ord') r
      | _, _ => 0
      end
  end.

(** ** Sizes *)

Lemma psize_pos o : 0 < psize o.
Proof. unfold psize. assert (0 < 2 ^ Z.of_nat o) by (apply Z.pow_pos_nonneg; lia). lia. Qed.

Lemma psize_S o : psize (S o) = 2 * psize o.
Proof. unfold psize. rewrite Nat2Z.inj_succ, Z.pow_succ_r by lia. lia. Qed.

Lemma psize_inj o o' : psize o = psize o' -> o = o'.
Proof.
  unfold psize. intros H. assert (2 ^ Z.of_nat o = 2 ^ Z.of_nat o') as H' by lia.
  apply Z.pow_inj_r in H'; lia.
Qed.

Lemma psize_divide o o' : (o <= o')%nat -> (psize o | psize o').
Proof.
  intros. exists (2 ^ (Z.of_nat o' - Z.of_nat o)). unfold psize.
  replace (Z.of_nat o') with ((Z.of_nat o' - Z.of_nat o) + Z.of_nat o) at 1 by lia.
  rewrite Z.pow_add_r by lia. lia.
Qed.

Lemma psize_le o o' : (o <= o')%nat -> psize o <= psize o'.
Proof.
  intros. unfold psize. assert (2 ^ Z.of_nat o <= 2 ^ Z.of_nat o') by (apply Z.pow_le_mono_r; lia).
  lia.
Qed.

(** ** Tags *)

Lemma tag_of_set_tag g t : tag_of (set_tag g t) = g.
Proof. by destruct t. Qed.
Lemma root_idx_set_tag g t : root_idx (set_tag g t) = root_idx t.
Proof. by destruct t. Qed.
Lemma indices_set_tag g t : indices (set_tag g t) = indices t.
Proof. by destruct t. Qed.

Lemma combine_unused gl gr : combine gl gr = Unused -> gl = Unused /\ gr = Unused.
Proof. by destruct gl, gr. Qed.
Lemma combine_full gl gr : combine gl gr = Full -> taken gl = true /\ taken gr = true.
Proof. by destruct gl, gr. Qed.
Lemma combine_not_leaf gl gr : combine gl gr <> Leaf.
Proof. by destruct gl, gr. Qed.

(** ** Blocks *)

(** The half-open interval of a block. *)
Definition in_block (x : Z) (b : Z * nat) : Prop := fst b <= x < fst b + psize (snd b).

(** Two intervals with no address in common. *)
Definition apart (b1 b2 : Z * nat) : Prop :=
  fst b1 + psize (snd b1) <= fst b2 \/ fst b2 + psize (snd b2) <= fst b1.

Lemma blocks_not_leaf i g l r ord base : g <> Leaf ->
  blocks (S ord) base (Bin i g l r) = blocks ord base l ++ blocks ord (base + psize ord) r.
Proof. by destruct g. Qed.

Lemma wf_bin ord i g l r : wf (S ord) (Bin i g l r) -> g <> Leaf ->
  wf ord l /\ wf ord r /\ g = combine (tag_of l) (tag_of r).
Proof. simpl. intros (? & ? & ?) ?. by destruct g. Qed.

Lemma wf_combine ord i l r : wf ord l -> wf ord r ->
  wf (S ord) (Bin i (combine (tag_of l) (tag_of r)) l r).
Proof.
  intros. simpl. split_and!; [done..|]. by destruct (tag_of l), (tag_of r).
Qed.

Lemma blocks_unused ord base t : wf ord t -> tag_of t = Unused -> blocks ord base t = [].
Proof.
  revert ord base. induction t as [i g|i g l IHl r IHr]; intros ord base Hwf Ht; simpl in Ht; subst.
  - done.
  - destruct ord as [|ord]; [done|]. apply wf_bin in Hwf as (Hl & Hr & Hg); [|done].
    symmetry in Hg. apply combine_unused in Hg as [??].
    rewrite blocks_not_leaf by done. by rewrite IHl, IHr.
Qed.

Lemma blocks_nonempty ord base t : wf ord t -> tag_of t <> Unused -> exists b, b ∈ blocks ord base t.
Proof.
  revert ord base. induction t as [i g|i g l IHl r IHr]; intros ord base Hwf Ht; simpl in Ht.
  - destruct Hwf as [->| ->]; [done|]. eexists. by apply list_elem_of_singleton.
  - destruct ord as [|ord]; [done|]. destruct (decide (g = Leaf)) as [->|Hg].
    { eexists. by apply list_elem_of_singleton. }
    rewrite blocks_not_leaf by done. apply wf_bin in Hwf as (Hl & Hr & Hc); [|done].
    destruct (decide (tag_of l = Unused)) as [El|El].
    + destruct (IHr ord (base + psize ord)) as [b Hb]; [done| |].
      { intros Er. rewrite El, Er in Hc. done. }
      exists b. rewrite elem_of_app. auto.
    + destruct (IHl ord base) as [b Hb]; [done..|]. exists b. rewrite elem_of_app. auto.
Qed.

(** Every allocated block lies in the node's range, aligned to its own size. *)
Lemma blocks_range ord base t a o : wf ord t -> (a, o) ∈ blocks ord base t ->
  base <= a /\ a + psize o <= base + psize ord /\ (psize o | a - base) /\ (o <= ord)%nat.
Proof.
  revert ord base. induction t as [i g|i g l IHl r IHr]; intros ord base Hwf Hb.
  - destruct Hwf as [->| ->]; simpl in Hb; [set_solver|].
    apply list_elem_of_singleton in Hb. simplify_eq. split_and!; try lia. rewrite Z.sub_diag. apply Z.divide_0_r.
  - destruct ord as [|ord]; [done|]. destruct (decide (g = Leaf)) as [->|Hg].
    { apply list_elem_of_singleton in Hb. simplify_eq. split_and!; try lia. rewrite Z.sub_diag. apply Z.divide_0_r. }
    rewrite blocks_not_leaf in Hb by done. apply wf_bin in Hwf as (Hl & Hr & _); [|done].
    pose proof (psize_pos ord). rewrite psize_S. apply elem_of_app in Hb as [Hb|Hb].
    + apply IHl in Hb as (?&?&?&?); [|done]. split_and!; try done; lia.
    + apply IHr in Hb as (?&?&Hd&?); [|done]. split_and!; try lia.
      replace (a - base) with (a - (base + psize ord) + psize ord) by lia.
      apply Z.divide_add_r; [done|]. by apply psize_divide.
Qed.

(** Distinct allocated blocks are apart. *)
Lemma blocks_apart ord base t (i j : nat) b1 b2 : wf ord t -> i <> j ->
  blocks ord base t !! i = Some b1 -> blocks ord base t !! j = Some b2 -> apart b1 b2.
Proof.
  revert ord base i j. induction t as [k g|k g l IHl r IHr]; intros ord base i j Hwf Hij H1 H2.
  - destruct Hwf as [->| ->]; [done|]. apply list_lookup_singleton_Some in H1 as [? _], H2 as [? _]. lia.
  - destruct ord as [|ord]; [done|]. destruct (decide (g = Leaf)) as [->|Hg].
    { apply list_lookup_singleton_Some in H1 as [? _], H2 as [? _]. lia. }
    rewrite blocks_not_leaf in H1, H2 by done. apply wf_bin in Hwf as (Hl & Hr & _); [|done].
    destruct b1 as [a1 o1], b2 as [a2 o2].
    apply lookup_app_Some in H1 as [H1|[L1 H1]], H2 as [H2|[L2 H2]].
    + eapply IHl; [done| |done..]. done.
    + apply list_elem_of_lookup_2, blocks_range in H1, H2; [|done..]. left. simpl. lia.
    + apply list_elem_of_lookup_2, blocks_range in H1, H2; [|done..]. right. simpl. lia.
    + eapply (IHr _ _ (i - _)%nat (j - _)%nat); [done| |done..]. lia.
Qed.

(** A node tagged allocated or full is covered by its blocks. *)
Lemma blocks_cover ord base t x : wf ord t -> taken (tag_of t) = true ->
  base <= x < base + psize ord -> exists b, b ∈ blocks ord base t /\ in_block x b.
Proof.
  revert ord base. induction t as [i g|i g l IHl r IHr]; intros ord base Hwf Ht Hx; simpl in Ht.
  - destruct Hwf as [->| ->]; [done|]. exists (base, ord). split; [by apply list_elem_of_singleton|done].
  - destruct ord as [|ord]; [done|]. destruct (decide (g = Leaf)) as [->|Hg].
    { exists (base, S ord). split; [by apply list_elem_of_singleton|done]. }
    rewrite blocks_not_leaf by done. apply wf_bin in Hwf as (Hl & Hr & Hc); [|done].
    assert (g = Full) as -> by (by destruct g). symmetry in Hc. apply combine_full in Hc as [Tl Tr].
    rewrite psize_S in Hx. destruct (Z.lt_ge_cases x (base + psize ord)).
    + destruct (IHl ord base) as (b & ? & ?); [done..|lia|]. exists b. rewrite elem_of_app. auto.
    + destruct (IHr ord (base + psize ord)) as (b & ? & ?); [done..|lia|]. exists b. rewrite elem_of_app. auto.
Qed.

(** ** Allocation *)

(** The children [talloc] works on: the node's own, or two new free ones. *)
Definition kids (t : btree) (nx : nat) : btree * btree * nat :=
  match t with
  | Tip _ _ => (Tip nx Unused, Tip (S nx) Unused, S (S nx))
  | Bin _ _ l r => (l, r, nx)
  end.

Lemma talloc_S o ord base nx t l r nx1 :
  taken (tag_of t) = false -> o <> S ord -> kids t nx = (l, r, nx1) ->
  talloc o (S ord) base nx t =
    match talloc o ord base nx1 l with
    | Some (l', p, nx') =>
        Some (Bin (root_idx t) (combine (tag_of l') (tag_of r)) l' r, p, nx')
    | None =>
        match talloc o ord (base + psize ord) nx1 r with
        | Some (r', p, nx') =>
            Some (Bin (root_idx t) (combine (tag_of l) (tag_of r')) l r', p, nx')
        | None => None
        end
    end.
Proof.
  intros Ht Ho Hk. cbn [talloc]. rewrite Ht, decide_False by done.
  destruct t; simpl in *; by simplify_eq.
Qed.

Lemma talloc_taken o ord base nx t : taken (tag_of t) = true -> talloc o ord base nx t = None.
Proof. intros Ht. destruct ord; simpl; by rewrite Ht. Qed.

Lemma talloc_exact ord base nx t : taken (tag_of t) = false ->
  talloc ord ord base nx t =
    match tag_of t with Unused => Some (set_tag Leaf t, base, nx) | _ => None end.
Proof. intros Ht. destruct ord; cbn [talloc]; by rewrite Ht, decide_True. Qed.

(** The children's facts, read off a well-formed node that is not taken. *)
Lemma wf_kids ord t nx l r nx1 : wf (S ord) t -> taken (tag_of t) = false ->
  kids t nx = (l, r, nx1) ->
  wf ord l /\ wf ord r /\ combine (tag_of l) (tag_of r) = tag_of t /\
  forall base, blocks (S ord) base t = blocks ord base l ++ blocks ord (base + psize ord) r.
Proof.
  intros Hwf Ht Hk. destruct t as [i g|i g l0 r0]; simpl in Hk; simplify_eq.
  - destruct Hwf as [->| ->]; [|done]. split_and!; [by left|by left|done|done].
  - assert (g <> Leaf) as Hg by (by intros ->).
    apply wf_bin in Hwf as (? & ? & ?); [|done]. split_and!; try done.
    intros base. by apply blocks_not_leaf.
Qed.

Lemma wf_set_leaf ord t : wf ord t -> tag_of t = Unused -> wf ord (set_tag Leaf t).
Proof.
  destruct t as [|i g l r]; simpl; [by right|]. destruct ord as [|ord]; [done|].
  intros (? & ? & Hc) ->. symmetry in Hc. by apply combine_unused in Hc as [??].
Qed.

Lemma blocks_set_leaf ord base t : blocks ord base (set_tag Leaf t) = [(base, ord)].
Proof. by destruct t. Qed.

(** What a successful allocation does: the tree stays well formed and gains
    exactly one block, of the requested order. *)
Lemma talloc_sound o ord base nx t t' p nx' : wf ord t ->
  talloc o ord base nx t = Some (t', p, nx') ->
  wf ord t' /\ blocks ord base t' ≡ₚ (p, o) :: blocks ord base t /\ (o <= ord)%nat.
Proof.
  revert base nx t t' p nx'. induction ord as [|ord IH]; intros base nx t t' p nx' Hwf Ha.
  - cbn [talloc] in Ha. repeat case_match; simplify_eq.
    rewrite blocks_set_leaf, blocks_unused by done. split_and!; [by apply wf_set_leaf|done|lia].
  - destruct (taken (tag_of t)) eqn:Ht; [by rewrite talloc_taken in Ha|].
    destruct (decide (o = S ord)) as [->|Ho].
    { rewrite talloc_exact in Ha by done. case_match; simplify_eq.
      rewrite blocks_set_leaf, blocks_unused by done. split_and!; [by apply wf_set_leaf|done|lia]. }
    destruct (kids t nx) as [[l r] nx1] eqn:Hk.
    destruct (wf_kids _ _ _ _ _ _ Hwf Ht Hk) as (Hl & Hr & _ & ->).
    rewrite (talloc_S _ _ _ _ _ _ _ _ Ht Ho Hk) in Ha.
    destruct (talloc o ord base nx1 l) as [[[l' p'] nx2]|] eqn:El.
    + simplify_eq. apply IH in El as (? & Hp & ?); [|done]. split_and!; [by apply wf_combine| |lia].
      rewrite blocks_not_leaf by apply combine_not_leaf. by rewrite Hp.
    + destruct (talloc o ord _ nx1 r) as [[[r' p'] nx2]|] eqn:Er; [|done].
      simplify_eq. apply IH in Er as (? & Hp & ?); [|done]. split_and!; [by apply wf_combine| |lia].
      rewrite blocks_not_leaf by apply combine_not_leaf. rewrite Hp. by rewrite Permutation_middle.
Qed.

(** The returned address is the address of a block in range. *)
Lemma talloc_range o ord base nx t t' p nx' : wf ord t ->
  talloc o ord base nx t = Some (t', p, nx') -> base <= p < base + psize ord.
Proof.
  intros Hwf Ha. destruct (talloc_sound _ _ _ _ _ _ _ _ Hwf Ha) as (Hwf' & Hp & _).
  assert ((p, o) ∈ blocks ord base t') as Hin by (rewrite Hp; apply elem_of_cons; by left).
  apply blocks_range in Hin as (?&?&_); [|done]. pose proof (psize_pos o). lia.
Qed.

(** A free node of sufficient order always satisfies the request. *)
Lemma talloc_unused o ord base nx t : wf ord t -> tag_of t = Unused -> (o <= ord)%nat ->
  talloc o ord base nx t <> None.
Proof.
  revert base nx t. induction ord as [|ord IH]; intros base nx t Hwf Ht Ho.
  - replace o with 0%nat by lia. rewrite talloc_exact by (by rewrite Ht). by rewrite Ht.
  - destruct (decide (o = S ord)) as [->|Hne].
    { rewrite talloc_exact by (by rewrite Ht). by rewrite Ht. }
    destruct (kids t nx) as [[l r] nx1] eqn:Hk.
    assert (taken (tag_of t) = false) as Hf by (by rewrite Ht).
    destruct (wf_kids _ _ _ _ _ _ Hwf Hf Hk) as (Hl & Hr & Hc & _).
    rewrite Ht in Hc. apply combine_unused in Hc as [Tl Tr].
    rewrite (talloc_S _ _ _ _ _ _ _ _ Hf Hne Hk).
    specialize (IH base nx1 l Hl Tl ltac:(lia)). by destruct (talloc o ord base nx1 l) as [[[??]?]|].
Qed.

(** An aligned block of order at most [ord] lies in one half of its parent. *)
Lemma aligned_half o ord base a : (o <= ord)%nat -> base <= a ->
  a + psize o <= base + psize (S ord) -> (psize o | a - base) ->
  a + psize o <= base + psize ord \/
  base + psize ord <= a /\ (psize o | a - (base + psize ord)).
Proof.
  intros Ho Ha Hb [q Hq]. destruct (psize_divide o ord Ho) as [d Hd].
  pose proof (psize_pos o). rewrite psize_S in Hb. rewrite Hd in *.
  destruct (Z.lt_ge_cases q d); [left; nia|]. right. split; [nia|]. exists (q - d). lia.
Qed.

(** What a refused allocation means: every aligned block of the requested
    order in the node's range meets an allocated block. *)
Lemma talloc_complete o ord base nx t a : wf ord t -> (o <= ord)%nat ->
  talloc o ord base nx t = None ->
  base <= a -> a + psize o <= base + psize ord -> (psize o | a - base) ->
  exists b, b ∈ blocks ord base t /\ ~ apart (a, o) b.
Proof.
  revert base nx t a. induction ord as [|ord IH]; intros base nx t a Hwf Ho Ha H1 H2 H3.
  - assert (tag_of t <> Unused) as Hu.
    { intros Hu. by apply (talloc_unused o 0 base nx t Hwf Hu Ho). }
    destruct (blocks_nonempty 0 base t Hwf Hu) as [[b ob] Hb]. exists (b, ob). split; [done|].
    apply blocks_range in Hb as (?&?&_&?); [|done]. replace ob with o in * by lia.
    replace o with 0%nat in * by lia. pose proof (psize_pos 0). unfold apart. simpl. lia.
  - destruct (taken (tag_of t)) eqn:Ht.
    { destruct (blocks_cover (S ord) base t a Hwf Ht) as ([b ob] & Hb & Hx).
      { pose proof (psize_pos o). lia. }
      exists (b, ob). split; [done|]. pose proof (psize_pos o). unfold in_block, apart in *. simpl in *. lia. }
    destruct (decide (o = S ord)) as [->|Hne].
    { assert (tag_of t <> Unused) as Hu.
      { intros Hu. by apply (talloc_unused (S ord) (S ord) base nx t Hwf Hu Ho). }
      destruct (blocks_nonempty _ base t Hwf Hu) as [[b ob] Hb]. exists (b, ob). split; [done|].
      apply blocks_range in Hb as (?&?&_&?); [|done]. pose proof (psize_pos ob).
      unfold apart. simpl. lia. }
    destruct (kids t nx) as [[l r] nx1] eqn:Hk.
    destruct (wf_kids _ _ _ _ _ _ Hwf Ht Hk) as (Hl & Hr & _ & ->).
    rewrite (talloc_S _ _ _ _ _ _ _ _ Ht Hne Hk) in Ha.
    destruct (talloc o ord base nx1 l) as [[[??]?]|] eqn:El; [done|].
    destruct (talloc o ord (base + psize ord) nx1 r) as [[[??]?]|] eqn:Er; [done|].
    destruct (aligned_half o ord base a) as [?|[??]]; [lia..|done| |].
    + destruct (IH _ _ _ a Hl ltac:(lia) El) as (b & ? & ?); [lia..|done|].
      exists b. rewrite elem_of_app. auto.
    + rewrite psize_S in H2. destruct (IH _ _ _ a Hr ltac:(lia) Er) as (b & ? & ?); [lia..|done|].
      exists b. rewrite elem_of_app. auto.
Qed.

(** ** Deallocation and size *)

Lemma wf_set_unused ord t : wf ord t -> tag_of t = Leaf -> wf ord (set_tag Unused t).
Proof.
  destruct t as [|i g l r]; simpl; [by left|]. destruct ord as [|ord]; [done|].
  intros (? & ? & Hg) ->. destruct Hg as [-> ->]. done.
Qed.

Lemma tdealloc_bin ptr ord base i g l r : g <> Leaf ->
  tdealloc ptr (S ord) base (Bin i g l r) =
    if ptr <? base + psize ord then
      match tdealloc ptr ord base l with
      | Some l' => Some (Bin i (combine (tag_of l') (tag_of r)) l' r) | None => None end
    else
      match tdealloc ptr ord (base + psize ord) r with
      | Some r' => Some (Bin i (combine (tag_of l) (tag_of r')) l r') | None => None end.
Proof. by destruct g. Qed.

(** Any deallocation keeps the tree well formed. *)
Lemma tdealloc_wf ptr ord base t t' : wf ord t -> tdealloc ptr ord base t = Some t' -> wf ord t'.
Proof.
  revert ord base t'. induction t as [i g|i g l IHl r IHr]; intros ord base t' Hwf Hd.
  - destruct Hwf as [->| ->]; simpl in Hd; simplify_eq. by left.
  - destruct ord as [|ord]; [done|]. destruct (decide (g = Leaf)) as [->|Hg].
    { simpl in Hd. simplify_eq. by apply (wf_set_unused (S ord) (Bin i Leaf l r)). }
    rewrite tdealloc_bin in Hd by done. apply wf_bin in Hwf as (Hl & Hr & _); [|done].
    repeat case_match; simplify_eq; apply wf_combine; eauto.
Qed.

(** Deallocating the address of an allocated block removes exactly that block. *)
Lemma tdealloc_sound p o ord base t : wf ord t -> (p, o) ∈ blocks ord base t ->
  exists t', tdealloc p ord base t = Some t' /\ wf ord t' /\
    blocks ord base t ≡ₚ (p, o) :: blocks ord base t'.
Proof.
  revert ord base. induction t as [i g|i g l IHl r IHr]; intros ord base Hwf Hb.
  - destruct Hwf as [->| ->]; simpl in Hb; [set_solver|]. apply list_elem_of_singleton in Hb. simplify_eq.
    exists (Tip i Unused). split_and!; [done|by left|done].
  - destruct ord as [|ord]; [done|]. destruct (decide (g = Leaf)) as [->|Hg].
    { apply list_elem_of_singleton in Hb. simplify_eq. eexists. split_and!; [done|by apply wf_set_unused|].
      rewrite (blocks_unused (S ord) _ (set_tag Unused (Bin i Leaf l r))); [done| |by rewrite tag_of_set_tag].
      by apply wf_set_unused. }
    rewrite tdealloc_bin, blocks_not_leaf by done. rewrite blocks_not_leaf in Hb by done.
    apply wf_bin in Hwf as (Hl & Hr & _); [|done]. apply elem_of_app in Hb as [Hb|Hb].
    + pose proof (blocks_range _ _ _ _ _ Hl Hb) as (?&?&_). pose proof (psize_pos o).
      replace (p <? base + psize ord) with true by lia.
      destruct (IHl _ _ Hl Hb) as (l' & -> & ? & Hp). eexists. split_and!; [done|by apply wf_combine|].
      rewrite blocks_not_leaf by apply combine_not_leaf. by rewrite Hp.
    + pose proof (blocks_range _ _ _ _ _ Hr Hb) as (?&?&_).
      replace (p <? base + psize ord) with false by lia.
      destruct (IHr _ _ Hr Hb) as (r' & -> & ? & Hp). eexists. split_and!; [done|by apply wf_combine|].
      rewrite blocks_not_leaf by apply combine_not_leaf. rewrite Hp. by rewrite Permutation_middle.
Qed.

Lemma tsize_sound p o ord base t : wf ord t -> (p, o) ∈ blocks ord base t ->
  tsize p ord base t = psize o.
Proof.
  revert ord base. induction t as [i g|i g l IHl r IHr]; intros ord base Hwf Hb.
  - destruct Hwf as [->| ->]; simpl in Hb; [set_solver|]. apply list_elem_of_singleton in Hb. by simplify_eq.
  - destruct ord as [|ord]; [done|]. destruct (decide (g = Leaf)) as [->|Hg].
    { apply list_elem_of_singleton in Hb. by simplify_eq. }
    assert (tsize p (S ord) base (Bin i g l r) =
      if p <? base + psize ord then tsize p ord base l else tsize p ord (base + psize ord) r) as ->
      by (by destruct g).
    rewrite blocks_not_leaf in Hb by done.
    apply wf_bin in Hwf as (Hl & Hr & _); [|done]. apply elem_of_app in Hb as [Hb|Hb].
    + pose proof (blocks_range _ _ _ _ _ Hl Hb) as (?&?&_). pose proof (psize_pos o).
      replace (p <? base + psize ord) with true by lia. eauto.
    + pose proof (blocks_range _ _ _ _ _ Hr Hb) as (?&?&_).
      replace (p <? base + psize ord) with false by lia. eauto.
Qed.
