(* ===== verification/BuddyProofs.v ===== *)
(** * The node array implements the buddy tree

    The simulation between [Buddy.v] (the node array with its pointers, tag
    bits and lazily created children) and [BuddyTree.v] (the inductive tree),
    and the theorems on [allocate], [deallocate], [size] and [next_power_2]. *)
From S2P Require Import Prelude Bits EptEntry Buddy BuddyTree.

(** ** [next_power_2] *)

(** [x] has the bits of [n] smeared down by less than [w] places. *)
Definition smeared (n x w : Z) : Prop :=
  0 <= x /\ forall i, 0 <= i -> (Z.testbit x i = true <-> exists d, 0 <= d < w /\ Z.testbit n (i + d) = true).

Lemma smear_step n x w : 0 < w -> smeared n x w -> smeared n (Z.lor x (Z.shiftr x w)) (2 * w).
Proof.
  intros Hw [Hx Hs]. split; [by rewrite Z.lor_nonneg, Z.shiftr_nonneg|].
  intros i Hi. rewrite Z.lor_spec, Z.shiftr_spec, orb_true_iff by lia.
  rewrite (Hs i), (Hs (i + w)) by lia. split.
  - intros [(d & ? & ?)|(d & ? & Hd)]; [exists d; split; [lia|done]|].
    exists (w + d). split; [lia|]. by replace (i + (w + d)) with (i + w + d) by lia.
  - intros (d & Hd & Hb). destruct (Z.lt_ge_cases d w); [left; exists d; split; [lia|done]|].
    right. exists (d - w). split; [lia|]. by replace (i + w + (d - w)) with (i + d) by lia.
Qed.

Lemma smeared_ones n x : 0 < n < 2 ^ 64 -> smeared n x 64 -> x = Z.ones (Z.log2 n + 1).
Proof.
  intros Hn [Hx Hs]. pose proof (Z.log2_nonneg n) as Hl.
  assert (Z.log2 n < 64) by (apply Z.log2_lt_pow2; lia).
  apply Z.bits_inj'. intros i Hi. rewrite testbit_ones by lia.
  destruct (Z.ltb_spec i (Z.log2 n + 1)).
  - apply Hs; [done|]. exists (Z.log2 n - i). split; [lia|].
    replace (i + (Z.log2 n - i)) with (Z.log2 n) by lia. apply Z.bit_log2. lia.
  - apply not_true_iff_false. rewrite (Hs i) by done. intros (d & ? & Hb).
    rewrite Z.bits_above_log2 in Hb; [done|lia|lia].
Qed.

Lemma next_power_2_log2_up s : 2 <= s <= 2 ^ 63 -> next_power_2 s = 2 ^ Z.log2_up s.
Proof.
  intros Hs. unfold next_power_2, sub64. rewrite w64_small by (unfold u64; lia). cbv zeta.
  set (n := s - 1).
  assert (smeared n n 1) as H1.
  { split; [subst n; lia|]. intros i Hi. split; [intros; exists 0; by rewrite Z.add_0_r|]. intros (d & ? & ?).
    replace d with 0 in * by lia. by rewrite Z.add_0_r in *. }
  apply smear_step in H1; [change (2 * 1) with 2 in H1|lia].
  apply smear_step in H1; [change (2 * 2) with 4 in H1|lia].
  apply smear_step in H1; [change (2 * 4) with 8 in H1|lia].
  apply smear_step in H1; [change (2 * 8) with 16 in H1|lia].
  apply smear_step in H1; [change (2 * 16) with 32 in H1|lia].
  apply smear_step in H1; [change (2 * 32) with 64 in H1|lia].
  match type of H1 with smeared _ ?x _ => set (y := x) in * end.
  rewrite (smeared_ones n y) by (done || (subst n; lia)).
  assert (Z.log2 n < 63) as Hlt by (apply Z.log2_lt_pow2; subst n; lia).
  pose proof (Z.log2_nonneg n). rewrite Z.ones_equiv.
  assert (0 < 2 ^ (Z.log2 n + 1)) by (apply Z.pow_pos_nonneg; lia).
  assert (2 ^ (Z.log2 n + 1) < 2 ^ 64) by (apply Z.pow_lt_mono_r; lia).
  unfold add64. rewrite w64_small by (unfold u64; lia).
  rewrite Z.log2_up_eqn by lia. replace (Z.pred s) with n by (subst n; lia).
  rewrite <- Z.add_1_r. lia.
Qed.

(** The smallest order whose block holds [s] bytes. *)
Definition order_of (s : Z) : nat := Z.to_nat (Z.log2_up (Z.max s 0x1000) - 12).

Lemma log2_up_page s : 0x1000 <= s -> 12 <= Z.log2_up s.
Proof. intros. change 12 with (Z.log2_up 0x1000). apply Z.log2_up_le_mono. lia. Qed.

Lemma psize_order_of s : 0 < s -> psize (order_of s) = 2 ^ Z.log2_up (Z.max s 0x1000).
Proof.
  intros. unfold psize, order_of. pose proof (log2_up_page (Z.max s 0x1000) ltac:(lia)).
  rewrite Z2Nat.id by lia. change 0x1000 with (2 ^ 12) at 1. rewrite <- Z.pow_add_r by lia.
  f_equal. lia.
Qed.

Lemma order_of_le s ord : 0 < s -> s <= psize ord -> (order_of s <= ord)%nat.
Proof.
  intros Hs Hle. unfold order_of. assert (Z.log2_up (Z.max s 0x1000) <= 12 + Z.of_nat ord); [|lia].
  rewrite <- (Z.log2_up_pow2 (12 + Z.of_nat ord)) by lia. apply Z.log2_up_le_mono.
  rewrite Z.pow_add_r by lia. unfold psize in Hle. change (2 ^ 12) with 0x1000.
  assert (0 < 2 ^ Z.of_nat ord) by (apply Z.pow_pos_nonneg; lia). lia.
Qed.

(** ** Size words *)

Definition tagbits (g : tag) : Z :=
  match g with
  | Unused => 0x0000000000000000
  | Leaf => 0x4000000000000000
  | Parent => 0x8000000000000000
  | Full => 0xC000000000000000
  end.

Definition sized (ord : nat) (g : tag) : Z := psize ord + tagbits g.

Lemma tagbits_shift g : exists c, tagbits g = c * 2 ^ 62 /\ 0 <= c < 4.
Proof. destruct g; [exists 0|exists 1|exists 2|exists 3]; split; (reflexivity || lia). Qed.

Lemma psize_bound ord : (ord <= 47)%nat -> 0 < psize ord < 2 ^ 60.
Proof.
  intros. split; [apply psize_pos|]. pose proof (psize_le ord 47 ltac:(lia)).
  change (psize 47) with (2 ^ 59) in *. lia.
Qed.

Lemma land_shiftl x m n : 0 <= n -> Z.land x (Z.shiftl m n) = Z.shiftl (Z.land (Z.shiftr x n) m) n.
Proof.
  intros. bits_ext i Hi. destruct (Z.leb_spec n i); simpl; [|by rewrite andb_false_r].
  autorewrite with bits. by replace (i - n + n) with i by lia.
Qed.

Lemma get_tag sz g : 0 <= sz < 2 ^ 62 ->
  get_bits (sz + tagbits g) 0xC000000000000000 = tagbits g.
Proof.
  intros Hsz. destruct (tagbits_shift g) as (c & -> & Hc). unfold get_bits.
  change 0xC000000000000000 with (Z.shiftl (Z.ones 2) 62).
  rewrite land_shiftl, Z.shiftr_div_pow2, Z.div_add, Z.div_small, Z.land_ones by lia.
  rewrite Z.shiftl_mul_pow2, Z.mod_small by lia. lia.
Qed.

Lemma set_tag_bits sz g g' : 0 <= sz < 2 ^ 62 ->
  set_bits (sz + tagbits g) 0xC000000000000000 (tagbits g') = sz + tagbits g'.
Proof.
  intros Hsz. unfold set_bits.
  pose proof (get_tag 0 g' ltac:(lia)) as Hg. unfold get_bits in Hg. rewrite Z.add_0_l in Hg.
  rewrite Hg. change (not64 0xC000000000000000) with (Z.ones 62).
  destruct (tagbits_shift g) as (c & -> & Hc). rewrite Z.land_ones, Z.mod_add, Z.mod_small by lia.
  symmetry. apply Z.add_nocarry_lor. destruct (tagbits_shift g') as (c' & -> & Hc').
  rewrite <- Z.shiftl_mul_pow2, land_shiftl, Z.shiftr_div_pow2, Z.div_small by lia. done.
Qed.

Section SizeWord.
Variables (ord : nat) (g : tag) (n : node_t).
Hypothesis Hord : (ord <= 47)%nat.
Hypothesis Hn : nsize n = sized ord g.

Lemma psize_62 : 0 <= psize ord < 2 ^ 62.
Proof. pose proof (psize_bound ord Hord). lia. Qed.

Lemma get_size_sized : get_size n = psize ord.
Proof.
  unfold get_size, get_bits. rewrite Hn. change 0x0FFFFFFFFFFFFFFF with (Z.ones 60).
  unfold sized. destruct (tagbits_shift g) as (c & -> & Hc). rewrite Z.land_ones by lia.
  replace (c * 2 ^ 62) with ((c * 4) * 2 ^ 60) by lia. rewrite Z.mod_add by lia.
  apply Z.mod_small. pose proof (psize_bound ord Hord). lia.
Qed.

Lemma is_unused_sized : is_unused n = bool_decide (g = Unused).
Proof. unfold is_unused. rewrite Hn. unfold sized. rewrite get_tag by apply psize_62. by destruct g. Qed.
Lemma is_leaf_sized : is_leaf n = bool_decide (g = Leaf).
Proof. unfold is_leaf. rewrite Hn. unfold sized. rewrite get_tag by apply psize_62. by destruct g. Qed.
Lemma is_full_sized : is_full n = bool_decide (g = Full).
Proof. unfold is_full. rewrite Hn. unfold sized. rewrite get_tag by apply psize_62. by destruct g. Qed.

Lemma set_unused_sized : set_unused n = with_size n (sized ord Unused).
Proof. unfold set_unused. rewrite Hn. f_equal. exact (set_tag_bits _ g Unused psize_62). Qed.
Lemma set_leaf_sized : set_leaf n = with_size n (sized ord Leaf).
Proof. unfold set_leaf. rewrite Hn. f_equal. exact (set_tag_bits _ g Leaf psize_62). Qed.
Lemma set_parent_sized : set_parent n = with_size n (sized ord Parent).
Proof. unfold set_parent. rewrite Hn. f_equal. exact (set_tag_bits _ g Parent psize_62). Qed.
Lemma set_full_sized : set_full n = with_size n (sized ord Full).
Proof. unfold set_full. rewrite Hn. f_equal. exact (set_tag_bits _ g Full psize_62). Qed.

Lemma is_taken_sized : is_leaf n || is_full n = taken g.
Proof. rewrite is_leaf_sized, is_full_sized. by destruct g. Qed.
End SizeWord.

(** ** Representation of a tree in the node array *)

(** The array entry of the root of [t], a node of order [ord] at [base]. *)
Definition node_of (ord : nat) (base : Z) (t : btree) : node_t :=
  match t with
  | Tip _ g => Node None None base (sized ord g)
  | Bin _ g l r => Node (Some (root_idx l)) (Some (root_idx r)) base (sized ord g)
  end.

Fixpoint tree_at (nodes : list node_t) (ord : nat) (base : Z) (t : btree) {struct t} : Prop :=
  nodes !! root_idx t = Some (node_of ord base t) /\
  match t with
  | Tip _ _ => True
  | Bin _ _ l r =>
      match ord with
      | O => False
      | S ord' => tree_at nodes ord' base l /\ tree_at nodes ord' (base + psize ord') r
      end
  end.

(** The part of the allocator's state that the tree does not describe: [nx]
    nodes are in use and the rest of the array is still zero. *)
Definition state_ok (s : buddy) (nx : nat) : Prop :=
  m_node_index s = Z.of_nat nx /\
  Z.of_nat (length (m_nodes s)) <= m_view_size s /\
  Z.of_nat (length (m_nodes s)) < 2 ^ 63 /\
  forall j, (nx <= j < length (m_nodes s))%nat -> m_nodes s !! j = Some node_zero.

(** Everything but the nodes [I] and the nodes from [nx] on is the same. *)
Definition frame (s s' : buddy) (nx : nat) (I : list nat) : Prop :=
  m_buffer s' = m_buffer s /\ m_buffer_size s' = m_buffer_size s /\
  m_view_size s' = m_view_size s /\ m_root s' = m_root s /\
  length (m_nodes s') = length (m_nodes s) /\
  forall j, (j < nx)%nat -> j ∉ I -> m_nodes s' !! j = m_nodes s !! j.

(** How many nodes a tree of order [ord] can still gain. *)
Fixpoint missing (ord : nat) (t : btree) {struct t} : nat :=
  match t, ord with
  | Bin _ _ l r, S ord' => missing ord' l + missing ord' r
  | Tip _ _, _ => 2 ^ (S ord) - 2
  | _, _ => 0
  end.

Lemma root_idx_in t : root_idx t ∈ indices t.
Proof. destruct t; simpl; set_solver. Qed.

Lemma tree_at_root nodes ord base t : tree_at nodes ord base t ->
  nodes !! root_idx t = Some (node_of ord base t).
Proof. destruct t; by intros [? _]. Qed.

Lemma nsize_node_of ord base t : nsize (node_of ord base t) = sized ord (tag_of t).
Proof. by destruct t. Qed.
Lemma nptr_node_of ord base t : nptr (node_of ord base t) = base.
Proof. by destruct t. Qed.

(** A tree only depends on the nodes it owns. *)
Lemma tree_at_ext nodes nodes' ord base t : tree_at nodes ord base t ->
  (forall i, i ∈ indices t -> nodes' !! i = nodes !! i) -> tree_at nodes' ord base t.
Proof.
  revert ord base. induction t as [i g|i g l IHl r IHr]; intros ord base [H Ht] He.
  - split; [|done]. rewrite He; [done|apply root_idx_in].
  - split; [rewrite He; [done|apply root_idx_in]|]. destruct ord as [|ord]; [done|].
    simpl in He. destruct Ht. split; [apply IHl|apply IHr]; try done; intros j Hj; apply He;
      rewrite elem_of_cons, elem_of_app; auto.
Qed.

Lemma tree_at_lt nodes ord base t i : tree_at nodes ord base t -> i ∈ indices t ->
  (i < length nodes)%nat.
Proof.
  revert ord base. induction t as [j g|j g l IHl r IHr]; intros ord base [H Ht] Hi; simpl in Hi.
  - apply list_elem_of_singleton in Hi. subst. by eapply lookup_lt_Some.
  - destruct ord as [|ord]; [done|]. destruct Ht. rewrite elem_of_cons, elem_of_app in Hi.
    destruct Hi as [->|[?|?]]; eauto using lookup_lt_Some.
Qed.

Lemma frame_refl s nx I : frame s s nx I.
Proof. done. Qed.

Lemma frame_trans s s1 s2 nx nx1 I1 I2 I : frame s s1 nx I1 -> frame s1 s2 nx1 I2 ->
  (nx <= nx1)%nat -> I1 ⊆ I -> (forall j, j ∈ I2 -> j ∈ I \/ (nx <= j)%nat) -> frame s s2 nx I.
Proof.
  intros (?&?&?&?&?&F1) (?&?&?&?&?&F2) Hn HI HI2. split_and!; try congruence.
  intros j Hj HjI. rewrite F2, F1; [done|done| |lia|].
  - intros ?. by apply HjI, HI.
  - intros ?. destruct (HI2 j); [done..|lia].
Qed.

Lemma frame_weaken s s' nx I J : frame s s' nx I -> I ⊆ J -> frame s s' nx J.
Proof. intros (?&?&?&?&?&F) HI. split_and!; auto. Qed.

(** ** Stepping through the monadic code *)

Lemma bind_load {A} i n (k : node_t -> M buddy A) s :
  m_nodes s !! i = Some n -> bind (load i) k s = k n s.
Proof. intros H. unfold bind, load. by rewrite H. Qed.

Lemma bind_store {A} i f n (k : unit -> M buddy A) s : m_nodes s !! i = Some n ->
  bind (store i f) k s = k tt (with_nodes s (<[i := f n]> (m_nodes s))).
Proof. intros H. unfold bind, store. by rewrite H. Qed.

Lemma store_ok i f n s : m_nodes s !! i = Some n ->
  store i f s = Ok tt (with_nodes s (<[i := f n]> (m_nodes s))).
Proof. intros H. unfold store. by rewrite H. Qed.

Lemma bind_next {A} (k : nat -> M buddy A) s nx : state_ok s nx -> (nx < length (m_nodes s))%nat ->
  bind next_node k s = k nx (with_index s (Z.of_nat (S nx))).
Proof.
  intros (Hi & Hv & Hl & _) Hn. unfold bind, next_node. rewrite Hi.
  replace (0 <=? Z.of_nat nx) with true by lia. replace (Z.of_nat nx <? m_view_size s) with true by lia.
  simpl. rewrite Nat2Z.id. unfold add64. rewrite w64_small by (unfold u64; lia).
  by replace (Z.of_nat nx + 1) with (Z.of_nat (S nx)) by lia.
Qed.

(** Lookups through a chain of updates of one array. *)
Ltac lk :=
  cbn [m_nodes with_nodes with_index];
  repeat first [rewrite list_lookup_insert_ne by lia
               |rewrite list_lookup_insert_eq by (rewrite ?length_insert; lia)];
  eauto.

Lemma get_nodes_spec s nx i ord base g : state_ok s nx -> (S (S nx) <= length (m_nodes s))%nat ->
  (i < nx)%nat -> (S ord <= 47)%nat -> 0 <= base -> base + psize (S ord) < 2 ^ 64 ->
  m_nodes s !! i = Some (Node None None base (sized (S ord) g)) ->
  exists s', get_nodes i s = Ok tt s' /\ state_ok s' (S (S nx)) /\ frame s s' nx [i] /\
    m_nodes s' !! i = Some (Node (Some nx) (Some (S nx)) base (sized (S ord) g)) /\
    m_nodes s' !! nx = Some (Node None None base (sized ord Unused)) /\
    m_nodes s' !! S nx = Some (Node None None (base + psize ord) (sized ord Unused)).
Proof.
  intros Hok Hlen Hi Hord Hb Hb' Hn. pose proof Hok as (Hidx & Hv & Hl & Hz).
  assert (m_nodes s !! nx = Some node_zero) as Hz0 by (apply Hz; lia).
  assert (m_nodes s !! S nx = Some node_zero) as Hz1 by (apply Hz; lia).
  unfold get_nodes. erewrite bind_next by (done || lia).
  erewrite (bind_next _ _ (S nx)); [|split_and!; simpl; try done; intros; apply Hz; lia|simpl; lia].
  erewrite bind_load by lk. erewrite get_size_sized by (done || lia).
  assert (Z.shiftr (psize (S ord)) 1 = psize ord) as ->.
  { rewrite psize_S, Z.shiftr_div_pow2 by lia. change (2 ^ 1) with 2. rewrite Z.mul_comm. by apply Z.div_mul. }
  pose proof (psize_pos ord). rewrite psize_S in Hb'.
  erewrite bind_store by lk. erewrite bind_store by lk. erewrite bind_store by lk.
  erewrite bind_load by lk. erewrite bind_store by lk. erewrite store_ok by lk.
  cbn [with_size nsize nptr child0 child1 node_zero]. eexists. split; [done|].
  assert (sized ord Unused = psize ord) as -> by (unfold sized; simpl; lia).
  unfold add64. rewrite w64_small by (unfold u64; lia).
  unfold state_ok, frame.
  split_and!; cbn [m_nodes with_nodes with_index m_buffer m_buffer_size m_view_size m_root m_node_index];
    rewrite ?length_insert; try done; try (lk; done).
  - intros j Hj. lk. apply Hz. lia.
  - intros j Hj HjI. assert (j <> i) by set_solver. lk.
Qed.

Lemma retag_allocated_spec s i c0 c1 b ord g n0 n1 ord0 g0 g1 :
  (ord <= 47)%nat -> (ord0 <= 47)%nat ->
  m_nodes s !! i = Some (Node (Some c0) (Some c1) b (sized ord g)) ->
  m_nodes s !! c0 = Some n0 -> nsize n0 = sized ord0 g0 ->
  m_nodes s !! c1 = Some n1 -> nsize n1 = sized ord0 g1 ->
  i <> c0 -> i <> c1 -> (g0 <> Unused \/ g1 <> Unused) ->
  retag_allocated i s = Ok tt (with_nodes s
    (<[i := Node (Some c0) (Some c1) b (sized ord (combine g0 g1))]> (m_nodes s))).
Proof.
  intros Ho Ho0 Hi H0 E0 H1 E1 N0 N1 Hg. pose proof (lookup_lt_Some _ _ _ Hi).
  unfold retag_allocated. erewrite bind_store by done.
  erewrite bind_load by lk. erewrite (set_parent_sized ord g) by done.
  cbn [with_size child0 child1 nptr nsize deref].
  unfold bind at 1. cbn [ret]. unfold bind at 1. cbn [ret].
  erewrite bind_load by lk. erewrite bind_load by lk.
  rewrite (is_leaf_sized ord0 g0 n0), (is_full_sized ord0 g0 n0), (is_leaf_sized ord0 g1 n1),
    (is_full_sized ord0 g1 n1) by done.
  assert (forall s', s' = with_nodes s (<[i:=Node (Some c0) (Some c1) b (sized ord Parent)]> (m_nodes s)) ->
    store i set_full s' = Ok tt (with_nodes s (<[i:=Node (Some c0) (Some c1) b (sized ord Full)]> (m_nodes s)))) as Hf.
  { intros s' ->. erewrite store_ok by lk. erewrite (set_full_sized ord Parent) by done.
    cbn. by rewrite list_insert_insert_eq. }
  destruct g0, g1; simpl; unfold bind, ret; try rewrite Hf by done; try done; by destruct Hg.
Qed.

(** ** Indices and room in the node array *)

Lemma pow2_ge_2 n : (2 <= 2 ^ S n)%nat.
Proof. pose proof (Nat.pow_nonzero 2 n). simpl. lia. Qed.

(** The two children [talloc] works on, as owners of array places. *)
Lemma kids_indices ord t nx l r nx1 : wf (S ord) t -> NoDup (indices t) ->
  (forall i, i ∈ indices t -> (i < nx)%nat) -> kids t nx = (l, r, nx1) ->
  NoDup (root_idx t :: indices l ++ indices r) /\
  (forall i, i ∈ indices l ++ indices r -> i ∈ indices t \/ (nx <= i < nx1)%nat) /\
  indices t ⊆ root_idx t :: indices l ++ indices r /\ (nx <= nx1)%nat /\
  (nx1 + missing ord l + missing ord r = nx + missing (S ord) t)%nat.
Proof.
  intros Hwf Hnd Hlt Hk. destruct t as [i g|i g l0 r0]; simpl in Hk; simplify_eq.
  - simpl. assert (i < nx)%nat by (apply Hlt; simpl; set_solver).
    split_and!; [|set_solver by lia|set_solver|lia|].
    + repeat (apply NoDup_cons_2; [rewrite ?not_elem_of_cons; split_and?; (lia || apply not_elem_of_nil)|]).
      apply NoDup_nil_2.
    + pose proof (pow2_ge_2 ord). simpl in *. lia.
  - split_and!; [done| |done|lia|simpl; lia]. intros j Hj. left. simpl. set_solver.
Qed.

(** Replacing one child's places by a list that only adds fresh places. *)
Lemma nodup_replace (i lo : nat) (A A' B : list nat) : NoDup (i :: A ++ B) -> NoDup A' ->
  (forall j, j ∈ i :: A ++ B -> (j < lo)%nat) -> (forall j, j ∈ A' -> j ∈ A \/ (lo <= j)%nat) ->
  NoDup (i :: A' ++ B).
Proof.
  rewrite !NoDup_cons, !NoDup_app, !elem_of_app. intros (Hi & HA & Hd & HB) HA' Hlo Hsub.
  split_and!; [|done| |done].
  - intros [Hx|Hx]; [|tauto]. apply Hsub in Hx as [Hx|Hx]; [tauto|].
    assert (i < lo)%nat by (apply Hlo; by left). lia.
  - intros j Hj HjB. apply Hsub in Hj as [Hj|Hj]; [by eapply Hd|].
    assert (j < lo)%nat by (apply Hlo; right; apply elem_of_app; by right). lia.
Qed.

Lemma talloc_indices o ord base nx t t' p nx' : wf ord t -> NoDup (indices t) ->
  (forall i, i ∈ indices t -> (i < nx)%nat) -> talloc o ord base nx t = Some (t', p, nx') ->
  root_idx t' = root_idx t /\ NoDup (indices t') /\ (nx <= nx')%nat /\
  (forall i, i ∈ indices t' -> i ∈ indices t \/ (nx <= i < nx')%nat) /\
  (nx' + missing ord t' = nx + missing ord t)%nat.
Proof.
  revert base nx t t' p nx'. induction ord as [|ord IH]; intros base nx t t' p nx' Hwf Hnd Hlt Ha.
  - cbn [talloc] in Ha. repeat case_match; simplify_eq.
    rewrite root_idx_set_tag, indices_set_tag. split_and!; auto; by destruct t.
  - destruct (taken (tag_of t)) eqn:Ht; [by rewrite talloc_taken in Ha|].
    destruct (decide (o = S ord)) as [->|Ho].
    { rewrite talloc_exact in Ha by done. case_match; simplify_eq.
      rewrite root_idx_set_tag, indices_set_tag. split_and!; auto; by destruct t. }
    destruct (kids t nx) as [[l r] nx1] eqn:Hk.
    destruct (wf_kids _ _ _ _ _ _ Hwf Ht Hk) as (Hl & Hr & _).
    destruct (kids_indices _ _ _ _ _ _ Hwf Hnd Hlt Hk) as (Hn & Hi & Hsub & Hnx & Hm).
    assert (root_idx t < nx)%nat by (apply Hlt, root_idx_in).
    assert (forall i, i ∈ indices l ++ indices r -> (i < nx1)%nat) as Hlt1.
    { intros i Hin. destruct (Hi i Hin) as [Hin'|]; [apply Hlt in Hin'|]; lia. }
    assert (forall j, j ∈ root_idx t :: indices l ++ indices r -> (j < nx1)%nat) as Hlt2.
    { intros j [->|Hj]%elem_of_cons; [lia|by apply Hlt1]. }
    pose proof Hn as Hn'. rewrite NoDup_cons, NoDup_app in Hn'. destruct Hn' as (_ & Hnl & _ & Hnr).
    rewrite (talloc_S _ _ _ _ _ _ _ _ Ht Ho Hk) in Ha.
    setoid_rewrite elem_of_app in Hi. setoid_rewrite elem_of_app in Hlt1.
    destruct (talloc o ord base nx1 l) as [[[l' p'] nx2]|] eqn:El.
    + simplify_eq. apply IH in El as (E1 & E2 & E3 & E4 & E5); [|by auto..].
      split_and!; [done| |lia| |simpl; lia]; cbn [indices].
      * eapply nodup_replace; [done..|]. intros j Hj. apply E4 in Hj as [?|?]; [by left|right; lia].
      * intros j [->|[Hj|Hj]%elem_of_app]%elem_of_cons; [left; apply root_idx_in|..].
        -- apply E4 in Hj as [Hj|Hj]; [|lia]. destruct (Hi j); [by left|by left|lia].
        -- destruct (Hi j); [by right|by left|lia].
    + destruct (talloc o ord _ nx1 r) as [[[r' p'] nx2]|] eqn:Er; [|done].
      simplify_eq. apply IH in Er as (E1 & E2 & E3 & E4 & E5); [|by auto..].
      split_and!; [done| |lia| |simpl; lia]; cbn [indices].
      * rewrite (Permutation_app_comm (indices l)). rewrite (Permutation_app_comm (indices l)) in Hn.
        eapply nodup_replace; [done..| |].
        -- intros j Hj. apply Hlt2. by rewrite (Permutation_app_comm (indices l)).
        -- intros j Hj. apply E4 in Hj as [?|?]; [by left|right; lia].
      * intros j [->|[Hj|Hj]%elem_of_app]%elem_of_cons; [left; apply root_idx_in|..].
        -- destruct (Hi j); [by left|by left|lia].
        -- apply E4 in Hj as [Hj|Hj]; [|lia]. destruct (Hi j); [by right|by left|lia].
Qed.

(** ** Simulation of allocation *)

(** Creating the children of a childless node, or keeping those it has. *)
Lemma split_spec s nx ord base t l r nx1 : state_ok s nx ->
  (forall i, i ∈ indices t -> (i < nx)%nat) -> (S ord <= 47)%nat ->
  0 <= base -> base + psize (S ord) < 2 ^ 64 -> wf (S ord) t -> taken (tag_of t) = false ->
  tree_at (m_nodes s) (S ord) base t -> kids t nx = (l, r, nx1) ->
  (nx1 <= length (m_nodes s))%nat ->
  exists s1,
    match child0 (node_of (S ord) base t) with
    | None => get_nodes (root_idx t) | Some _ => ret tt end s = Ok tt s1 /\
    state_ok s1 nx1 /\ frame s s1 nx (indices t) /\
    tree_at (m_nodes s1) (S ord) base (Bin (root_idx t) (tag_of t) l r).
Proof.
  intros Hok Hlt Ho Hb Hb' Hwf Ht Hta Hk Hlen.
  destruct t as [i g|i g l0 r0]; simpl in Hk; simplify_eq; cbn [node_of child0 root_idx tag_of].
  - destruct (get_nodes_spec s nx i ord base g) as (s1 & H1 & H2 & H3 & H4 & H5 & H6); try done; [|by apply tree_at_root in Hta|].
    { apply Hlt. simpl. by apply list_elem_of_singleton. }
    exists s1. split_and!; try done.
  - exists s. split_and!; try done; apply Hta.
Qed.

(** The attempt below one child, in terms of the child's own simulation. *)
Lemma try_child_spec rec s i o ord base nx tc : (ord <= 47)%nat -> (o <= ord)%nat ->
  tree_at (m_nodes s) ord base tc ->
  (talloc o ord base nx tc = None -> rec (root_idx tc) s = Ok 0 s) ->
  try_child rec (psize o) i (root_idx tc) s =
    match talloc o ord base nx tc with
    | Some _ => private_allocate_next rec i (root_idx tc) s
    | None => Ok 0 s
    end.
Proof.
  intros Ho Hle Hta Hrec. unfold try_child. erewrite bind_load by (by apply tree_at_root).
  erewrite get_size_sized by (done || apply nsize_node_of).
  assert (talloc o ord base nx tc = None -> private_allocate_next rec i (root_idx tc) s = Ok 0 s) as Hnx.
  { intros Hn. unfold private_allocate_next, bind. by rewrite Hrec. }
  rewrite (is_unused_sized ord (tag_of tc)), (is_full_sized ord (tag_of tc)),
    (is_leaf_sized ord (tag_of tc)) by (done || apply nsize_node_of).
  destruct (Z.eqb_spec (psize o) (psize ord)) as [E|E].
  - apply psize_inj in E as ->. destruct (taken (tag_of tc)) eqn:Ht.
    + rewrite talloc_taken by done. rewrite bool_decide_eq_false_2; [done|]. by intros E; rewrite E in Ht.
    + rewrite talloc_exact by done. by destruct (tag_of tc).
  - destruct (taken (tag_of tc)) eqn:Ht.
    + rewrite talloc_taken by done. by destruct (tag_of tc).
    + assert (negb (bool_decide (tag_of tc = Full)) && negb (bool_decide (tag_of tc = Leaf)) = true) as ->
        by (by destruct (tag_of tc)).
      destruct (talloc o ord base nx tc) eqn:Ea; [done|by apply Hnx].
Qed.

Lemma talloc_tag o ord base nx t t' p nx' : wf ord t ->
  talloc o ord base nx t = Some (t', p, nx') -> tag_of t' <> Unused.
Proof.
  intros Hwf Ha Hu. destruct (talloc_sound _ _ _ _ _ _ _ _ Hwf Ha) as (Hwf' & Hp & _).
  rewrite (blocks_unused ord base t') in Hp by done. by apply Permutation_nil_cons in Hp.
Qed.

(** The root's place is not reused below it. *)
Definition root_fresh (t : btree) : Prop :=
  match t with Tip _ _ => True | Bin i _ l r => i ∉ indices l /\ i ∉ indices r end.

Lemma nodup_root_fresh t : NoDup (indices t) -> root_fresh t.
Proof. destruct t; [done|]. simpl. rewrite NoDup_cons, elem_of_app. tauto. Qed.

(** Rewriting the size word of a root that is in place retags its tree and moves
    no other node. *)
Lemma retag_tree s nx nx' ord base t g : tree_at (m_nodes s) ord base t -> root_fresh t ->
  state_ok s nx' -> (root_idx t < nx <= nx')%nat ->
  let s2 := with_nodes s (<[root_idx t := with_size (node_of ord base t) (sized ord g)]> (m_nodes s)) in
  state_ok s2 nx' /\ frame s s2 nx [root_idx t] /\ tree_at (m_nodes s2) ord base (set_tag g t).
Proof.
  intros Hta Hfr (?&?&?&Hz) Hnx. pose proof (tree_at_root _ _ _ _ Hta) as Hi.
  pose proof (lookup_lt_Some _ _ _ Hi). cbn. split_and!.
  - unfold state_ok. cbn. rewrite length_insert. split_and!; try done.
    intros j Hj. rewrite list_lookup_insert_ne; [by apply Hz|lia].
  - unfold frame. cbn. rewrite length_insert. split_and!; try done.
    intros j _ Hj. rewrite list_lookup_insert_ne; [done|]. rewrite list_elem_of_singleton in Hj. congruence.
  - destruct t as [i g0|i g0 l r]; (split; [by apply list_lookup_insert_eq|]); [done|].
    destruct Hta as [_ Hta]. destruct ord as [|ord]; [done|]. destruct Hta, Hfr.
    split; (eapply tree_at_ext; [done|]; intros j Hj; apply list_lookup_insert_ne; simpl; congruence).
Qed.

(** What a parent node and its two subtrees own. *)
Lemma owned_split (i nx : nat) (A B : list nat) : NoDup (i :: A ++ B) ->
  (forall j, j ∈ i :: A ++ B -> (j < nx)%nat) ->
  (NoDup A /\ NoDup B /\ i ∉ A /\ i ∉ B /\ (forall j, j ∈ A -> j ∉ B)) /\
  (i < nx)%nat /\ (forall j, j ∈ A -> (j < nx)%nat) /\ (forall j, j ∈ B -> (j < nx)%nat).
Proof.
  rewrite NoDup_cons, NoDup_app, elem_of_app. intros Hnd Hlt. split; [tauto|].
  setoid_rewrite elem_of_cons in Hlt. setoid_rewrite elem_of_app in Hlt.
  split_and!; intros; apply Hlt; auto.
Qed.

(** After a successful allocation below a child, the parent is retagged and the
    new tree is in place; the left child, then the right one. *)
Lemma next_spec rec s s1 nx nx' i c p g ord base l r I : (S ord <= 47)%nat -> p <> 0 ->
  rec c s = Ok p s1 -> state_ok s1 nx' -> frame s s1 nx I -> (i < nx <= nx')%nat ->
  tree_at (m_nodes s1) (S ord) base (Bin i g l r) -> root_fresh (Bin i g l r) ->
  (tag_of l <> Unused \/ tag_of r <> Unused) ->
  exists s2, private_allocate_next rec i c s = Ok p s2 /\ state_ok s2 nx' /\
    frame s s2 nx (i :: I) /\
    tree_at (m_nodes s2) (S ord) base (Bin i (combine (tag_of l) (tag_of r)) l r).
Proof.
  intros Ho Hp Hrec Hok Hfr Hnx Hta Hrf Hg.
  destruct (retag_tree s1 nx nx' (S ord) base (Bin i g l r) (combine (tag_of l) (tag_of r)))
    as (H1 & H2 & H3); try done.
  destruct Hta as (Hi & Hl & Hr). destruct Hrf as [Il Ir].
  unfold private_allocate_next, bind at 1. rewrite Hrec.
  replace (p =? 0) with false by lia. cbn [negb]. unfold bind.
  erewrite (retag_allocated_spec s1 i _ _ base (S ord) g _ _ ord (tag_of l) (tag_of r));
    try done; try (by apply tree_at_root); try apply nsize_node_of; try lia.
  - eexists. split_and!; [done|done| |done]. eapply (frame_trans _ s1 _ nx nx _ [i]); [done..|lia| |].
    + intros j Hj. apply elem_of_cons. by right.
    + intros j ->%list_elem_of_singleton. left. apply elem_of_cons. by left.
  - intros E. apply Il. rewrite E. apply root_idx_in.
  - intros E. apply Ir. rewrite E. apply root_idx_in.
Qed.

Lemma next_left_spec rec s s1 nx nx' i g o ord base l r l' p : (S ord <= 47)%nat -> 0 < base ->
  wf ord l -> talloc o ord base nx l = Some (l', p, nx') ->
  tree_at (m_nodes s) (S ord) base (Bin i g l r) ->
  NoDup (i :: indices l ++ indices r) -> (forall j, j ∈ i :: indices l ++ indices r -> (j < nx)%nat) ->
  rec (root_idx l) s = Ok p s1 -> state_ok s1 nx' -> frame s s1 nx (indices l) ->
  tree_at (m_nodes s1) ord base l' ->
  exists s2, private_allocate_next rec i (root_idx l) s = Ok p s2 /\ state_ok s2 nx' /\
    frame s s2 nx (i :: indices l) /\
    tree_at (m_nodes s2) (S ord) base (Bin i (combine (tag_of l') (tag_of r)) l' r).
Proof.
  intros Ho Hb Hwf Ha [Hi [Hl Hr]] Hnd Hlt Hrec Hok Hfr Hl'.
  destruct (owned_split i nx _ _ Hnd Hlt) as ((Nl & Nr & Il & Ir & Dis) & Li & Ll & Lr).
  destruct (talloc_indices o ord base nx l l' p nx') as (R1 & R2 & R3 & R4 & _); [by auto..|].
  pose proof (talloc_range _ _ _ _ _ _ _ _ Hwf Ha) as Hp.
  pose proof Hfr as (_ & _ & _ & _ & _ & Hsame).
  eapply (next_spec _ s s1 nx nx' _ _ p g); try done; try lia.
  - cbn. rewrite Hsame, R1 by done. split_and!; [done..|]. eapply tree_at_ext; [done|].
    intros j Hj. apply Hsame; [auto|]. intros Hjl. by eapply Dis.
  - split; [|done]. intros Hx. apply R4 in Hx as [?|?]; [done|lia].
  - left. by eapply talloc_tag.
Qed.

Lemma next_right_spec rec s s1 nx nx' i g o ord base l r r' p : (S ord <= 47)%nat -> 0 < base ->
  wf ord r -> talloc o ord (base + psize ord) nx r = Some (r', p, nx') ->
  tree_at (m_nodes s) (S ord) base (Bin i g l r) ->
  NoDup (i :: indices l ++ indices r) -> (forall j, j ∈ i :: indices l ++ indices r -> (j < nx)%nat) ->
  rec (root_idx r) s = Ok p s1 -> state_ok s1 nx' -> frame s s1 nx (indices r) ->
  tree_at (m_nodes s1) ord (base + psize ord) r' ->
  exists s2, private_allocate_next rec i (root_idx r) s = Ok p s2 /\ state_ok s2 nx' /\
    frame s s2 nx (i :: indices r) /\
    tree_at (m_nodes s2) (S ord) base (Bin i (combine (tag_of l) (tag_of r')) l r').
Proof.
  intros Ho Hb Hwf Ha [Hi [Hl Hr]] Hnd Hlt Hrec Hok Hfr Hr'.
  destruct (owned_split i nx _ _ Hnd Hlt) as ((Nl & Nr & Il & Ir & Dis) & Li & Ll & Lr).
  destruct (talloc_indices o ord (base + psize ord) nx r r' p nx') as (R1 & R2 & R3 & R4 & _); [by auto..|].
  pose proof (talloc_range _ _ _ _ _ _ _ _ Hwf Ha) as Hp. pose proof (psize_pos ord).
  pose proof Hfr as (_ & _ & _ & _ & _ & Hsame).
  eapply (next_spec _ s s1 nx nx' _ _ p g); try done; try lia.
  - cbn. rewrite Hsame, R1 by done. split_and!; [done| |done]. eapply tree_at_ext; [done|].
    intros j Hj. apply Hsame; [auto|]. by apply Dis.
  - split; [done|]. intros Hx. apply R4 in Hx as [?|?]; [done|lia].
  - right. by eapply talloc_tag.
Qed.

(** The simulation: below a node whose tree is in place, [private_allocate]
    computes [talloc]; a refused request changes nothing at all. *)
Definition sim_result (o ord : nat) (base : Z) (nx : nat) (t : btree)
    (m : M buddy Z) (s : buddy) : Prop :=
  match talloc o ord base nx t with
  | Some (t', p, nx') =>
      exists s', m s = Ok p s' /\ state_ok s' nx' /\ frame s s' nx (indices t) /\
        tree_at (m_nodes s') ord base t'
  | None => m s = Ok 0 s
  end.

(** The exact-size case: a free node becomes a leaf. *)
Lemma exact_spec s nx ord base t : (ord <= 47)%nat -> tree_at (m_nodes s) ord base t ->
  root_fresh t -> state_ok s nx -> (root_idx t < nx)%nat ->
  exists s', (store (root_idx t) set_leaf ;;; n' <- load (root_idx t) ;; ret (nptr n'))%vmm s
      = Ok base s' /\
    state_ok s' nx /\ frame s s' nx (indices t) /\ tree_at (m_nodes s') ord base (set_tag Leaf t).
Proof.
  intros Ho Hta Hrf Hok Hlt. pose proof (tree_at_root _ _ _ _ Hta) as Hi.
  destruct (retag_tree s nx nx ord base t Leaf) as (H1 & H2 & H3); try done.
  pose proof (lookup_lt_Some _ _ _ Hi). erewrite bind_store by done.
  erewrite set_leaf_sized by (done || apply nsize_node_of).
  erewrite bind_load by (cbn; by apply list_lookup_insert_eq). unfold ret.
  eexists. split_and!; [cbn; by rewrite nptr_node_of|done| |done].
  eapply (frame_trans _ _ _ nx nx [root_idx t] []); [done|apply frame_refl|lia| |].
  - intros j ->%list_elem_of_singleton. apply root_idx_in.
  - intros j Hj. by apply elem_of_nil in Hj.
Qed.

(** The two attempts below a node whose children are in place. *)
Lemma attempts_spec rec (m : M buddy unit) s s1 i g o ord base nx l r :
  (ord <= 47)%nat -> (o <= ord)%nat -> m s = Ok tt s1 ->
  tree_at (m_nodes s1) (S ord) base (Bin i g l r) ->
  (talloc o ord base nx l = None -> rec (root_idx l) s1 = Ok 0 s1) ->
  (talloc o ord (base + psize ord) nx r = None -> rec (root_idx r) s1 = Ok 0 s1) ->
  (forall t' p nx', talloc o ord base nx l = Some (t', p, nx') ->
    exists s2, p <> 0 /\ private_allocate_next rec i (root_idx l) s1 = Ok p s2) ->
  (m ;;; n' <- load i ;; c0 <- deref (child0 n') ;;
   p0 <- try_child rec (psize o) i c0 ;;
   if negb (p0 =? 0) then ret p0
   else n'' <- load i ;; c1 <- deref (child1 n'') ;; try_child rec (psize o) i c1)%vmm s =
  match talloc o ord base nx l, talloc o ord (base + psize ord) nx r with
  | Some _, _ => private_allocate_next rec i (root_idx l) s1
  | None, Some _ => private_allocate_next rec i (root_idx r) s1
  | None, None => Ok 0 s1
  end.
Proof.
  intros Ho Hle Hm (Hi & Hl & Hr) Rl Rr Rn. unfold bind at 1. rewrite Hm.
  erewrite bind_load by done. cbn [child0 child1 node_of deref]. unfold bind at 1. cbn [ret].
  unfold bind at 1. rewrite (try_child_spec _ s1 _ o ord base nx l) by done.
  destruct (talloc o ord base nx l) as [[[l' p] nx']|] eqn:El.
  - destruct (Rn l' p nx' eq_refl) as (s2 & Hp & ->). by replace (p =? 0) with false by lia.
  - cbn [Z.eqb negb]. erewrite bind_load by done. cbn [child0 child1 node_of deref].
    unfold bind at 1. cbn [ret]. by rewrite (try_child_spec _ s1 _ o ord (base + psize ord) nx r).
Qed.

Lemma private_allocate_sim fuel o ord base nx t s : (ord < fuel)%nat -> (ord <= 47)%nat ->
  (o <= ord)%nat -> 0 < base -> base + psize ord < 2 ^ 64 -> wf ord t ->
  tree_at (m_nodes s) ord base t -> NoDup (indices t) ->
  (forall i, i ∈ indices t -> (i < nx)%nat) -> state_ok s nx ->
  (nx + missing ord t <= length (m_nodes s))%nat ->
  sim_result o ord base nx t (private_allocate fuel (psize o) (root_idx t)) s.
Proof.
  revert fuel base nx t s. induction ord as [|ord IH];
    intros fuel base nx t s Hf Ho47 Ho Hb Hb' Hwf Hta Hnd Hlt Hok Hroom;
    (destruct fuel as [|fuel]; [lia|]); unfold sim_result; cbn [private_allocate];
    erewrite bind_load by (by apply tree_at_root);
    erewrite is_taken_sized by (done || apply nsize_node_of);
    (destruct (taken (tag_of t)) eqn:Ht; [by rewrite talloc_taken|]);
    erewrite get_size_sized by (done || apply nsize_node_of);
    erewrite is_unused_sized by (done || apply nsize_node_of);
    assert (root_idx t < nx)%nat by (apply Hlt, root_idx_in);
    pose proof (nodup_root_fresh _ Hnd) as Hrf.
  { replace o with 0%nat by lia. rewrite Z.eqb_refl, talloc_exact by done.
    destruct (tag_of t) eqn:Et; try done. by apply exact_spec. }
  destruct (decide (o = S ord)) as [->|Hne].
  { rewrite Z.eqb_refl, talloc_exact by done.
    destruct (tag_of t) eqn:Et; try done. by apply exact_spec. }
  replace (psize o =? psize (S ord)) with false
    by (symmetry; apply Z.eqb_neq; intros E; by apply psize_inj in E).
  destruct (kids t nx) as [[l r] nx1] eqn:Hk.
  destruct (wf_kids _ _ _ _ _ _ Hwf Ht Hk) as (Hl & Hr & _).
  destruct (kids_indices _ _ _ _ _ _ Hwf Hnd Hlt Hk) as (Hn & Hi & Hsub & Hnx & Hm).
  pose proof (psize_pos ord). rewrite (talloc_S _ _ _ _ _ _ _ _ Ht Hne Hk).
  destruct (split_spec s nx ord base t l r nx1) as (s1 & Hs1 & Hok1 & Hfr1 & Hta1); try done; [lia..|].
  assert (forall j, j ∈ root_idx t :: indices l ++ indices r -> (j < nx1)%nat) as Hlt1.
  { intros j [->|Hj]%elem_of_cons; [lia|]. destruct (Hi j Hj) as [Hj'|]; [apply Hlt in Hj'|]; lia. }
  destruct (owned_split _ nx1 _ _ Hn Hlt1) as ((Nl & Nr & Il & Ir & Dis) & Li & Ll & Lr).
  assert (length (m_nodes s1) = length (m_nodes s)) as Hlen by apply Hfr1.
  pose proof Hta1 as (Hroot1 & Hl1 & Hr1). rewrite psize_S in Hb'.
  pose proof (IH fuel base nx1 l s1 ltac:(lia) ltac:(lia) ltac:(lia) Hb ltac:(lia) Hl Hl1 Nl Ll Hok1 ltac:(lia)) as SimL.
  pose proof (IH fuel (base + psize ord) nx1 r s1 ltac:(lia) ltac:(lia) ltac:(lia) ltac:(lia) ltac:(lia) Hr Hr1 Nr Lr Hok1 ltac:(lia)) as SimR.
  unfold sim_result in SimL, SimR.
  rewrite (attempts_spec (private_allocate fuel (psize o)) _ s s1 (root_idx t) (tag_of t) o ord base nx1 l r);
    [|lia|lia|done|done|by intros E; rewrite E in SimL|by intros E; rewrite E in SimR|].
  2: { intros l' p nx' El. rewrite El in SimL. destruct SimL as (s2 & Hrec & Hok2 & Hfr2 & Hta2).
    destruct (next_left_spec (private_allocate fuel (psize o)) s1 s2 nx1 nx' (root_idx t) (tag_of t) o ord base l r l' p)
      as (s3 & -> & _); try done.
    pose proof (talloc_range _ _ _ _ _ _ _ _ Hl El). exists s3. split; [lia|done]. }
  destruct (talloc o ord base nx1 l) as [[[l' p] nx']|] eqn:El.
  - destruct SimL as (s2 & Hrec & Hok2 & Hfr2 & Hta2).
    destruct (next_left_spec (private_allocate fuel (psize o)) s1 s2 nx1 nx' (root_idx t) (tag_of t) o ord base l r l' p)
      as (s3 & -> & Hok3 & Hfr3 & Hta3); try done.
    exists s3. split_and!; try done. eapply frame_trans; [done..|]. intros j [->|Hj]%elem_of_cons.
    + left. apply root_idx_in.
    + destruct (Hi j); [by apply elem_of_app; left|by left|right; lia].
  - destruct (talloc o ord (base + psize ord) nx1 r) as [[[r' p] nx']|] eqn:Er.
    + destruct SimR as (s2 & Hrec & Hok2 & Hfr2 & Hta2).
      destruct (next_right_spec (private_allocate fuel (psize o)) s1 s2 nx1 nx' (root_idx t) (tag_of t) o ord base l r r' p)
        as (s3 & -> & Hok3 & Hfr3 & Hta3); try done.
      exists s3. split_and!; try done. eapply frame_trans; [done..|]. intros j [->|Hj]%elem_of_cons.
      * left. apply root_idx_in.
      * destruct (Hi j); [by apply elem_of_app; right|by left|right; lia].
    + (* a node without children is free, and a free node never refuses *)
      destruct t as [i g|i g l0 r0]; [|by injection Hs1 as <-]. simpl in Hk. simplify_eq.
      exfalso. apply (talloc_unused o ord base (S (S nx)) (Tip nx Unused)); [by left|done|lia|done].
Qed.

(** ** Simulation of deallocation and of the size query *)

Lemma tdealloc_shape ptr ord base t t' : wf ord t -> tdealloc ptr ord base t = Some t' ->
  indices t' = indices t /\ root_idx t' = root_idx t /\ missing ord t' = missing ord t /\
  taken (tag_of t') = false.
Proof.
  revert ord base t'. induction t as [i g|i g l IHl r IHr]; intros ord base t' Hwf Hd.
  - destruct Hwf as [->| ->]; simpl in Hd; by simplify_eq.
  - destruct ord as [|ord]; [done|]. destruct (decide (g = Leaf)) as [->|Hg].
    { simpl in Hd. by simplify_eq. }
    rewrite tdealloc_bin in Hd by done. apply wf_bin in Hwf as (Hl & Hr & _); [|done].
    repeat case_match; simplify_eq; simpl.
    + match goal with H : tdealloc _ _ _ _ = _ |- _ => destruct (IHl _ _ _ Hl H) as (E1 & _ & E2 & Ht) end.
      rewrite E1, E2. split_and!; [done..|]. unfold combine. rewrite Ht. simpl. by repeat case_match.
    + match goal with H : tdealloc _ _ _ _ = _ |- _ => destruct (IHr _ _ _ Hr H) as (E1 & _ & E2 & Ht) end.
      rewrite E1, E2. split_and!; [done..|]. unfold combine. rewrite Ht, andb_false_r. by repeat case_match.
Qed.

(** After a successful deallocation below a child, the parent is retagged. *)
Lemma dealloc_next_spec rec s s1 nx i c g ord base l r I : (S ord <= 47)%nat ->
  rec c s = Ok true s1 -> state_ok s1 nx -> frame s s1 nx I -> (i < nx)%nat ->
  tree_at (m_nodes s1) (S ord) base (Bin i g l r) -> root_fresh (Bin i g l r) ->
  (taken (tag_of l) = false \/ taken (tag_of r) = false) ->
  exists s2, private_deallocate_next rec i c s = Ok true s2 /\ state_ok s2 nx /\
    frame s s2 nx (i :: I) /\
    tree_at (m_nodes s2) (S ord) base (Bin i (combine (tag_of l) (tag_of r)) l r).
Proof.
  intros Ho Hrec Hok Hfr Hnx Hta Hrf Hg.
  destruct (retag_tree s1 nx nx (S ord) base (Bin i g l r) (combine (tag_of l) (tag_of r)))
    as (H1 & H2 & H3); try done.
  destruct Hta as (Hi & Hl & Hr). destruct Hrf as [Il Ir]. pose proof (lookup_lt_Some _ _ _ Hi).
  apply tree_at_root in Hl, Hr.
  assert (i <> root_idx l) by (intros E; apply Il; rewrite E; apply root_idx_in).
  assert (i <> root_idx r) by (intros E; apply Ir; rewrite E; apply root_idx_in).
  cbn [root_idx] in *. eexists. split_and!; [|done| |done].
  - unfold private_deallocate_next, bind at 1. rewrite Hrec. unfold bind at 1.
    erewrite bind_store by done. erewrite bind_load by lk.
    erewrite (set_parent_sized (S ord) g) by done.
    cbn [with_size child0 child1 nptr nsize deref node_of].
    unfold bind at 1. cbn [ret]. unfold bind at 1. cbn [ret].
    erewrite bind_load by lk. erewrite bind_load by lk.
    rewrite (is_unused_sized ord (tag_of l)), (is_unused_sized ord (tag_of r)) by (lia || apply nsize_node_of).
    assert (store i set_unused (with_nodes s1 (<[i:=Node (Some (root_idx l)) (Some (root_idx r)) base
      (sized (S ord) Parent)]> (m_nodes s1))) = Ok tt (with_nodes s1 (<[i:=Node (Some (root_idx l))
      (Some (root_idx r)) base (sized (S ord) Unused)]> (m_nodes s1)))) as Hu.
    { erewrite store_ok by lk. erewrite (set_unused_sized (S ord) Parent) by done.
      cbn. by rewrite list_insert_insert_eq. }
    destruct (tag_of l), (tag_of r); unfold bind, ret, with_size; simpl;
      try rewrite Hu; try done; by destruct Hg.
  - eapply (frame_trans _ s1 _ nx nx _ [i]); [done..|lia| |].
    + intros j Hj. apply elem_of_cons. by right.
    + intros j ->%list_elem_of_singleton. left. apply elem_of_cons. by left.
Qed.

Lemma dealloc_left_spec rec s s1 nx i g ptr ord base l r l' : (S ord <= 47)%nat ->
  wf ord l -> tdealloc ptr ord base l = Some l' ->
  tree_at (m_nodes s) (S ord) base (Bin i g l r) -> NoDup (indices (Bin i g l r)) ->
  (forall j, j ∈ indices (Bin i g l r) -> (j < nx)%nat) ->
  rec (root_idx l) s = Ok true s1 -> state_ok s1 nx -> frame s s1 nx (indices l) ->
  tree_at (m_nodes s1) ord base l' ->
  exists s2, private_deallocate_next rec i (root_idx l) s = Ok true s2 /\ state_ok s2 nx /\
    frame s s2 nx (indices (Bin i g l r)) /\
    tree_at (m_nodes s2) (S ord) base (Bin i (combine (tag_of l') (tag_of r)) l' r).
Proof.
  intros Ho Hw Ed (Hi & Hl & Hr) Hnd Hlt Hrec Hok1 Hfr1 Hta1.
  destruct (owned_split i nx _ _ Hnd Hlt) as ((Nl & Nr & Il & Ir & Dis) & Li & Ll & Lr).
  destruct (tdealloc_shape _ _ _ _ _ Hw Ed) as (E1 & E2 & _ & Ht).
  pose proof Hfr1 as (_ & _ & _ & _ & _ & Hsame).
  destruct (dealloc_next_spec rec s s1 nx i (root_idx l) g ord base l' r (indices l))
    as (s2 & Hs2 & Hok2 & Hfr2 & Hta2); try done.
  - cbn. rewrite Hsame, E2 by done. split_and!; [done..|].
    eapply tree_at_ext; [done|]. intros j Hj. apply Hsame; [auto|]. intros Hjl. by eapply Dis.
  - simpl. by rewrite E1.
  - by left.
  - exists s2. split_and!; try done. eapply frame_weaken; [done|].
    intros j. simpl. rewrite !elem_of_cons, elem_of_app. tauto.
Qed.

Lemma dealloc_right_spec rec s s1 nx i g ptr ord base l r r' : (S ord <= 47)%nat ->
  wf ord r -> tdealloc ptr ord (base + psize ord) r = Some r' ->
  tree_at (m_nodes s) (S ord) base (Bin i g l r) -> NoDup (indices (Bin i g l r)) ->
  (forall j, j ∈ indices (Bin i g l r) -> (j < nx)%nat) ->
  rec (root_idx r) s = Ok true s1 -> state_ok s1 nx -> frame s s1 nx (indices r) ->
  tree_at (m_nodes s1) ord (base + psize ord) r' ->
  exists s2, private_deallocate_next rec i (root_idx r) s = Ok true s2 /\ state_ok s2 nx /\
    frame s s2 nx (indices (Bin i g l r)) /\
    tree_at (m_nodes s2) (S ord) base (Bin i (combine (tag_of l) (tag_of r')) l r').
Proof.
  intros Ho Hw Ed (Hi & Hl & Hr) Hnd Hlt Hrec Hok1 Hfr1 Hta1.
  destruct (owned_split i nx _ _ Hnd Hlt) as ((Nl & Nr & Il & Ir & Dis) & Li & Ll & Lr).
  destruct (tdealloc_shape _ _ _ _ _ Hw Ed) as (E1 & E2 & _ & Ht).
  pose proof Hfr1 as (_ & _ & _ & _ & _ & Hsame).
  destruct (dealloc_next_spec rec s s1 nx i (root_idx r) g ord base l r' (indices r))
    as (s2 & Hs2 & Hok2 & Hfr2 & Hta2); try done.
  - cbn. rewrite Hsame, E2 by done. split_and!; [done| |done].
    eapply tree_at_ext; [done|]. intros j Hj. apply Hsame; [auto|]. intros Hjl. by eapply Dis.
  - simpl. by rewrite E1.
  - by right.
  - exists s2. split_and!; try done. eapply frame_weaken; [done|].
    intros j. simpl. rewrite !elem_of_cons, elem_of_app. tauto.
Qed.

(** The test that chooses a child compares with the end of the left one. *)
Lemma left_end ord base t : (ord <= 47)%nat -> 0 <= base -> base + psize ord < 2 ^ 64 ->
  add64 (nptr (node_of ord base t)) (get_size (node_of ord base t)) = base + psize ord.
Proof.
  intros. erewrite nptr_node_of, get_size_sized by (done || apply nsize_node_of).
  pose proof (psize_pos ord). unfold add64. apply w64_small. unfold u64. lia.
Qed.

Lemma private_deallocate_sim fuel ptr ord base nx t s : (ord < fuel)%nat -> (ord <= 47)%nat ->
  0 <= base -> base + psize ord < 2 ^ 64 -> wf ord t ->
  tree_at (m_nodes s) ord base t -> NoDup (indices t) ->
  (forall i, i ∈ indices t -> (i < nx)%nat) -> state_ok s nx ->
  match tdealloc ptr ord base t with
  | Some t' =>
      exists s', private_deallocate fuel ptr (root_idx t) s = Ok true s' /\ state_ok s' nx /\
        frame s s' nx (indices t) /\ tree_at (m_nodes s') ord base t'
  | None => private_deallocate fuel ptr (root_idx t) s = Ok false s
  end.
Proof.
  revert fuel ord base s. induction t as [i g|i g l IHl r IHr];
    intros fuel ord base s Hf Ho Hb Hb' Hwf Hta Hnd Hlt Hok;
    (destruct fuel as [|fuel]; [lia|]); cbn [private_deallocate];
    pose proof (tree_at_root _ _ _ _ Hta) as Hi; pose proof (lookup_lt_Some _ _ _ Hi);
    (erewrite bind_load by done); (erewrite is_leaf_sized by (done || apply nsize_node_of));
    cbn [root_idx tag_of] in *; (assert (i < nx)%nat by (apply Hlt; simpl; set_solver));
    pose proof (nodup_root_fresh _ Hnd) as Hrf.
  - destruct Hwf as [->| ->]; simpl; [done|]. eexists.
    erewrite bind_store by done. erewrite set_unused_sized by done. split; [done|].
    by destruct (retag_tree s nx nx ord base (Tip i Leaf) Unused) as (? & ? & ?).
  - destruct ord as [|ord]; [done|]. destruct (decide (g = Leaf)) as [->|Hg].
    { simpl. eexists. erewrite bind_store by done. erewrite set_unused_sized by done. split; [done|].
      destruct (retag_tree s nx nx (S ord) base (Bin i Leaf l r) Unused) as (? & Hfr & ?); try done.
      split; [done|split; [|done]]. eapply frame_weaken; [done|].
      intros j ->%list_elem_of_singleton. apply elem_of_cons. by left. }
    rewrite bool_decide_eq_false_2, tdealloc_bin by done. cbn [node_of child0 child1 deref].
    apply wf_bin in Hwf as (Hl & Hr & _); [|done]. destruct Hta as (_ & Hal & Har).
    destruct (owned_split i nx _ _ Hnd Hlt) as ((Nl & Nr & Il & Ir & Dis) & Li & Ll & Lr).
    rewrite psize_S in Hb'. pose proof (psize_pos ord).
    erewrite bind_load by (by apply tree_at_root). rewrite left_end by lia.
    pose proof (IHl fuel ord base s ltac:(lia) ltac:(lia) Hb ltac:(lia) Hl Hal Nl Ll Hok) as SimL.
    pose proof (IHr fuel ord (base + psize ord) s ltac:(lia) ltac:(lia) ltac:(lia) ltac:(lia) Hr Har Nr Lr Hok) as SimR.
    destruct (ptr <? base + psize ord).
    + destruct (tdealloc ptr ord base l) as [l'|] eqn:El.
      * destruct SimL as (s1 & ? & ? & ? & ?). by eapply dealloc_left_spec.
      * unfold private_deallocate_next, bind. by rewrite SimL.
    + destruct (tdealloc ptr ord (base + psize ord) r) as [r'|] eqn:Er.
      * destruct SimR as (s1 & ? & ? & ? & ?). unfold bind at 1. cbn [ret]. by eapply dealloc_right_spec.
      * unfold bind at 1. cbn [ret]. unfold private_deallocate_next, bind. by rewrite SimR.
Qed.

Lemma private_size_sim fuel ptr ord base t s : (ord < fuel)%nat -> (ord <= 47)%nat ->
  0 <= base -> base + psize ord < 2 ^ 64 -> wf ord t -> tree_at (m_nodes s) ord base t ->
  private_size fuel ptr (root_idx t) s = Ok (tsize ptr ord base t) s.
Proof.
  revert fuel ord base. induction t as [i g|i g l IHl r IHr];
    intros fuel ord base Hf Ho Hb Hb' Hwf Hta;
    (destruct fuel as [|fuel]; [lia|]); cbn [private_size];
    pose proof (tree_at_root _ _ _ _ Hta) as Hi; erewrite bind_load by done;
    erewrite is_leaf_sized by (done || apply nsize_node_of);
    erewrite get_size_sized by (done || apply nsize_node_of); cbn [root_idx tag_of] in *.
  - by destruct Hwf as [->| ->].
  - destruct ord as [|ord]; [done|]. destruct (decide (g = Leaf)) as [->|Hg]; [done|].
    assert (tsize ptr (S ord) base (Bin i g l r) =
      if ptr <? base + psize ord then tsize ptr ord base l else tsize ptr ord (base + psize ord) r) as ->
      by (by destruct g).
    rewrite bool_decide_eq_false_2 by done. cbn [node_of child0 child1 deref].
    apply wf_bin in Hwf as (Hl & Hr & _); [|done]. destruct Hta as (_ & Hal & Har).
    rewrite psize_S in Hb'. pose proof (psize_pos ord).
    erewrite bind_load by (by apply tree_at_root). rewrite left_end by lia.
    destruct (ptr <? base + psize ord); [apply IHl; (done || lia)|].
    unfold bind. cbn [ret]. apply IHr; (done || lia).
Qed.
