(* ===== verification/BuddySpec.v ===== *)
(** * The contract of the buddy allocator

    [buddy_ok k base bs s]: the allocator state [s] manages the [2^k] pages at
    [base] and [bs] are its live blocks.  Every operation of [Buddy.v] is
    described by what it does to [bs]; [run_refines] puts the descriptions
    together for arbitrary sequences of calls. *)
From S2P Require Import Prelude Bits EptEntry Buddy BuddyTree BuddyProofs.

Record buddy_tree_ok (k : nat) (base : Z) (t : btree) (nx : nat) (s : buddy) : Prop := {
  bok_k : (k <= 47)%nat;
  bok_base : 0 < base;
  bok_end : base + psize k < 2 ^ 64;
  bok_buffer : m_buffer s = base;
  bok_size : m_buffer_size s = psize k;
  bok_root : m_root s = root_idx t;
  bok_wf : wf k t;
  bok_tree : tree_at (m_nodes s) k base t;
  bok_nodup : NoDup (indices t);
  bok_used : forall i, i ∈ indices t -> (i < nx)%nat;
  bok_state : state_ok s nx;
  bok_room : (nx + missing k t <= length (m_nodes s))%nat;
}.

(** The live blocks are a multiset: their order is of no consequence. *)
Definition buddy_ok (k : nat) (base : Z) (bs : list (Z * nat)) (s : buddy) : Prop :=
  exists t nx, buddy_tree_ok k base t nx s /\ blocks k base t ≡ₚ bs.

#[export] Instance buddy_ok_proper k base : Proper (Permutation ==> eq ==> iff) (buddy_ok k base).
Proof.
  intros bs bs' Hbs s s' <-. split; intros (t & nx & ? & Hp); exists t, nx; (split; [done|]);
    by rewrite Hp, Hbs.
Qed.

Lemma max_depth_enough k : (k <= 47)%nat -> (k < max_depth)%nat.
Proof. unfold max_depth. lia. Qed.

(** A new state with the same buffer whose tree is in place is again ok. *)
Lemma buddy_tree_step k base t nx s t' nx' s' : buddy_tree_ok k base t nx s ->
  frame s s' nx (indices t) -> state_ok s' nx' -> tree_at (m_nodes s') k base t' -> wf k t' ->
  NoDup (indices t') -> (forall i, i ∈ indices t' -> (i < nx')%nat) -> root_idx t' = root_idx t ->
  (nx' + missing k t' = nx + missing k t)%nat -> buddy_tree_ok k base t' nx' s'.
Proof.
  intros [] (?&?&?&?&?&_) **. split; try done; try congruence; lia.
Qed.

(** ** The constructor *)

Lemma psize_buffer k : (k <= 47)%nat -> buffer_size (Z.of_nat k) = psize k.
Proof.
  intros Hk. unfold buffer_size, shl64, mul64, BAREFLANK_PAGE_SIZE, psize.
  assert (0 < 2 ^ Z.of_nat k) by (apply Z.pow_pos_nonneg; lia).
  assert (2 ^ Z.of_nat k <= 2 ^ 47) by (apply Z.pow_le_mono_r; lia).
  rewrite Z.shiftl_1_l, (w64_small (2 ^ _)), w64_small by (unfold u64; lia). lia.
Qed.

Lemma node_tree_size_eq k : (k <= 47)%nat ->
  node_tree_size (Z.of_nat k) = 32 * (2 ^ (Z.of_nat k + 1) - 1).
Proof.
  intros Hk. unfold node_tree_size, shl64, sub64, mul64.
  assert (0 < 2 ^ Z.of_nat k) by (apply Z.pow_pos_nonneg; lia).
  assert (2 ^ Z.of_nat k <= 2 ^ 47) by (apply Z.pow_le_mono_r; lia).
  rewrite Z.shiftl_mul_pow2, Z.pow_add_r by lia. change (2 ^ 1) with 2.
  rewrite (w64_small (2 * 2 ^ _)), (w64_small (2 * 2 ^ _ - 1)), w64_small by (unfold u64; lia). lia.
Qed.

Lemma pow2_nat_Z k : Z.of_nat (2 ^ k) = 2 ^ Z.of_nat k.
Proof. by rewrite Nat2Z.inj_pow. Qed.

Lemma buddy_allocator_tree k base : (k <= 47)%nat -> 0 < base -> base + psize k < 2 ^ 64 ->
  buddy_tree_ok k base (Tip 0 Unused) 1
    (buddy_allocator base (Z.of_nat k) (replicate (2 ^ S k - 1) node_zero)).
Proof.
  intros Hk Hb He. pose proof (pow2_ge_2 k) as H2.
  assert (Z.of_nat (2 ^ S k - 1) = 2 ^ (Z.of_nat k + 1) - 1) as Hlen.
  { rewrite Nat2Z.inj_sub, pow2_nat_Z by lia. do 2 f_equal. lia. }
  assert (0 < 2 ^ Z.of_nat k) by (apply Z.pow_pos_nonneg; lia).
  assert (2 ^ Z.of_nat k <= 2 ^ 47) by (apply Z.pow_le_mono_r; lia).
  rewrite Z.pow_add_r in Hlen by lia.
  assert (replicate (2 ^ S k - 1) node_zero !! 0%nat = Some node_zero) as Hz
    by (apply lookup_replicate_2; lia).
  unfold buddy_allocator. rewrite Hz, psize_buffer by done. cbn [from_option default child0 child1 node_zero id].
  split; cbn [m_buffer m_buffer_size m_nodes m_root root_idx]; try done.
  - by left.
  - split; [|done]. cbn [root_idx node_of]. rewrite list_lookup_insert_eq by (rewrite length_replicate; lia).
    unfold sized, tagbits. by rewrite Z.add_0_r.
  - apply NoDup_singleton.
  - intros i ->%list_elem_of_singleton. lia.
  - split_and!; cbn [m_nodes m_view_size m_node_index]; rewrite ?length_insert, ?length_replicate.
    + done.
    + rewrite node_tree_size_eq, Z.pow_add_r by lia. lia.
    + lia.
    + intros j Hj. rewrite list_lookup_insert_ne by lia. apply lookup_replicate_2. lia.
  - rewrite length_insert, length_replicate. cbn [missing]. lia.
Qed.

(** ** What the operations do to the live blocks *)

Section Operations.
Context (k : nat) (base : Z) (bs : list (Z * nat)) (s : buddy).
Hypothesis Hok : buddy_ok k base bs s.

Lemma allocate_refused size : size = 0 \/ psize k < size -> allocate size s = Err bad_alloc s.
Proof using Hok.
  destruct Hok as (t & nx & [] & _). intros Hs. unfold allocate, bind at 1, get. rewrite bok_size0.
  by replace ((psize k <? size) || (size =? 0)) with true by lia.
Qed.

Lemma rounded_size size : 0 < size -> size <= psize k -> (k <= 47)%nat ->
  next_power_2 (if size <? BAREFLANK_PAGE_SIZE then BAREFLANK_PAGE_SIZE else size) =
    psize (order_of size).
Proof using.
  intros H1 H2 Hk. unfold BAREFLANK_PAGE_SIZE. pose proof (psize_bound k Hk).
  rewrite psize_order_of by done.
  replace (if size <? 0x1000 then 0x1000 else size) with (Z.max size 0x1000) by (case_match; lia).
  apply next_power_2_log2_up. lia.
Qed.

Lemma size_le_order size : 0 < size -> size <= psize (order_of size).
Proof using.
  intros. rewrite psize_order_of by done.
  pose proof (Z.log2_up_spec (Z.max size 0x1000) ltac:(lia)). lia.
Qed.

Lemma allocate_cases size : 0 < size -> size <= psize k ->
  (exists p s' bs', allocate size s = Ok p s' /\ buddy_ok k base bs' s' /\
     bs' ≡ₚ (p, order_of size) :: bs) \/
  allocate size s = Err bad_alloc s /\
    forall a, base <= a -> a + psize (order_of size) <= base + psize k ->
      (psize (order_of size) | a - base) ->
      exists b, b ∈ bs /\ ~ apart (a, order_of size) b.
Proof using Hok.
  intros H1 H2. destruct Hok as (t & nx & Ht & Hbs). pose proof Ht as [].
  pose proof (order_of_le size k H1 H2) as Ho.
  pose proof (private_allocate_sim max_depth (order_of size) k base nx t s (max_depth_enough k bok_k0)
    bok_k0 Ho bok_base0 bok_end0 bok_wf0 bok_tree0 bok_nodup0 bok_used0 bok_state0 bok_room0) as Sim.
  unfold allocate, bind, get. rewrite bok_size0, bok_root0.
  replace ((psize k <? size) || (size =? 0)) with false by lia. rewrite rounded_size by done.
  unfold sim_result in Sim. destruct (talloc (order_of size) k base nx t) as [[[t' p] nx']|] eqn:Ea.
  - left. destruct Sim as (s' & Hs' & Hok' & Hfr & Hta).
    pose proof (talloc_range _ _ _ _ _ _ _ _ bok_wf0 Ea).
    destruct (talloc_sound _ _ _ _ _ _ _ _ bok_wf0 Ea) as (Hwf' & Hp & _).
    destruct (talloc_indices _ _ _ _ _ _ _ _ bok_wf0 bok_nodup0 bok_used0 Ea) as (E1 & E2 & E3 & E4 & E5).
    exists p, s', (blocks k base t'). rewrite Hs'. replace (p =? 0) with false by lia.
    split_and!; [done| |by rewrite Hp, Hbs]. exists t', nx'. split; [|done].
    eapply buddy_tree_step; try done. intros i Hi. apply E4 in Hi as [Hi|]; [apply bok_used0 in Hi|]; lia.
  - right. rewrite Sim. split; [done|]. intros a Ha1 Ha2 Ha3.
    destruct (talloc_complete _ _ _ _ _ a bok_wf0 Ho Ea) as (b & Hb & ?); try done.
    exists b. by rewrite <- Hbs.
Qed.

Lemma deallocate_live p o : (p, o) ∈ bs ->
  exists s' bs', deallocate p s = Ok tt s' /\ buddy_ok k base bs' s' /\ bs ≡ₚ (p, o) :: bs'.
Proof using Hok.
  intros Hp. destruct Hok as (t & nx & Ht & Hbs). pose proof Ht as [].
  rewrite <- Hbs in Hp. pose proof (blocks_range _ _ _ _ _ bok_wf0 Hp).
  destruct (tdealloc_sound p o k base t bok_wf0 Hp) as (t' & Hd & Hwf' & Hperm).
  pose proof (private_deallocate_sim max_depth p k base nx t s (max_depth_enough k bok_k0) bok_k0
    ltac:(lia) bok_end0 bok_wf0 bok_tree0 bok_nodup0 bok_used0 bok_state0) as Sim.
  rewrite Hd in Sim. destruct Sim as (s' & Hs' & Hok' & Hfr & Hta).
  destruct (tdealloc_shape _ _ _ _ _ bok_wf0 Hd) as (E1 & E2 & E3 & _).
  exists s', (blocks k base t'). unfold deallocate. replace (p =? 0) with false by lia.
  unfold bind, get. rewrite bok_root0, Hs'. split_and!; [done| |by rewrite <- Hbs].
  exists t', nx. split; [|done]. eapply buddy_tree_step; try done; rewrite ?E1; try done. lia.
Qed.

Lemma block_size_live p o : (p, o) ∈ bs -> block_size p s = Ok (psize o) s.
Proof using Hok.
  intros Hp. destruct Hok as (t & nx & [] & Hbs). rewrite <- Hbs in Hp.
  pose proof (blocks_range _ _ _ _ _ bok_wf0 Hp). unfold block_size.
  replace (p =? 0) with false by lia. unfold bind, get. rewrite bok_root0.
  rewrite (private_size_sim _ _ k base) by (done || lia || by apply max_depth_enough).
  by rewrite (tsize_sound p o).
Qed.

Lemma live_range p o : (p, o) ∈ bs ->
  base <= p /\ p + psize o <= base + psize k /\ (psize o | p - base) /\ (o <= k)%nat.
Proof using Hok.
  intros Hp. destruct Hok as (t & nx & [] & Hbs). rewrite <- Hbs in Hp. by apply (blocks_range k base t).
Qed.

Lemma apart_sym b1 b2 : apart b1 b2 -> apart b2 b1.
Proof using. unfold apart. tauto. Qed.

Lemma live_apart : ForallOrdPairs apart bs.
Proof using Hok.
  destruct Hok as (t & nx & [] & Hbs).
  assert (ForallOrdPairs apart (blocks k base t)) as Hf; [|by eapply (fop_perm apart); eauto using apart_sym].
  apply fop_lookup. intros i j b1 b2 Hij. eapply blocks_apart; [done|lia].
Qed.

Lemma contains_iff p : u64 p -> contains p s = bool_decide (base <= p < base + psize k).
Proof using Hok.
  destruct Hok as (t & nx & [] & _). intros Hp. unfold contains. rewrite bok_buffer0, bok_size0.
  pose proof (psize_pos k). unfold add64. rewrite w64_small by (unfold u64; lia).
  case_bool_decide; lia.
Qed.

Lemma node_index_bound : m_node_index s <= Z.of_nat (length (m_nodes s)).
Proof using Hok.
  destruct Hok as (t & nx & [] & _). destruct bok_state0 as (-> & _). lia.
Qed.
End Operations.

(** ** Clients *)

(** A client of the allocator: [own] is what it has been given and not given
    back, as (address, order of the block it asked for). *)
Inductive client_step : list (Z * nat) * buddy -> list (Z * nat) * buddy -> Prop :=
| client_alloc own s size p s' :
    u64 size -> allocate size s = Ok p s' -> client_step (own, s) ((p, order_of size) :: own, s')
| client_refused own s size e s' :
    u64 size -> allocate size s = Err e s' -> client_step (own, s) (own, s')
| client_free own1 own2 s p o s' :
    deallocate p s = Ok tt s' -> client_step (own1 ++ (p, o) :: own2, s) (own1 ++ own2, s')
| client_size own s p n s' :
    block_size p s = Ok n s' -> client_step (own, s) (own, s').

Lemma private_size_state fuel ptr i s n s' : private_size fuel ptr i s = Ok n s' -> s' = s.
Proof.
  revert i. induction fuel as [|fuel IH]; intros i; [done|]. cbn [private_size].
  unfold bind, load, deref, ret, throw. intros H. repeat case_match; simplify_eq; eauto.
Qed.

Lemma allocate_ok k base bs s size p s' : buddy_ok k base bs s -> u64 size ->
  allocate size s = Ok p s' -> buddy_ok k base ((p, order_of size) :: bs) s'.
Proof.
  intros Hok [H0 _] Ha. destruct (decide (0 < size <= psize k)) as [[??]|Hn].
  - destruct (allocate_cases _ _ _ _ Hok size) as [(p' & s2 & bs' & E & H' & Hp)|[E _]]; [done..| |congruence].
    rewrite E in Ha. simplify_eq. by rewrite <- Hp.
  - rewrite (allocate_refused _ _ _ _ Hok) in Ha by lia. done.
Qed.

Lemma allocate_err k base bs s size e s' : buddy_ok k base bs s -> u64 size ->
  allocate size s = Err e s' -> e = bad_alloc /\ s' = s.
Proof.
  intros Hok [H0 _] Ha. destruct (decide (0 < size <= psize k)) as [[??]|Hn].
  - destruct (allocate_cases _ _ _ _ Hok size) as [(p' & s2 & bs' & E & H' & Hp)|[E _]]; [done..|congruence|].
    rewrite E in Ha. by simplify_eq.
  - rewrite (allocate_refused _ _ _ _ Hok) in Ha by lia. by simplify_eq.
Qed.

Lemma client_step_ok k base own s own' s' : buddy_ok k base own s ->
  client_step (own, s) (own', s') -> buddy_ok k base own' s'.
Proof.
  intros Hok Hs. inversion Hs as [? ? size p ? Hu Ha|? ? size e ? Hu Ha|own1 own2 ? p o ? Hd|? ? p n ? Hz]; subst.
  - by eapply allocate_ok.
  - by apply (allocate_err _ _ _ _ _ _ _ Hok Hu) in Ha as [_ ->].
  - destruct (deallocate_live _ _ _ _ Hok p o) as (s2 & bs' & E & H' & Hp).
    { rewrite elem_of_app, elem_of_cons. auto. }
    rewrite E in Hd. simplify_eq. rewrite <- Permutation_middle in Hp.
    apply Permutation_cons_inv in Hp. by rewrite Hp.
  - unfold block_size in Hz. case_match; [unfold ret in Hz; by simplify_eq|].
    rewrite bind_get in Hz. apply private_size_state in Hz. by rewrite Hz.
Qed.

Lemma client_reach_ok k base own s own' s' : buddy_ok k base own s ->
  rtc client_step (own, s) (own', s') -> buddy_ok k base own' s'.
Proof.
  intros Hok Hr. remember (own, s) as x eqn:Ex. remember (own', s') as y eqn:Ey.
  revert own s Ex Hok. induction Hr as [|? [own1 s1] ? Hst _ IH]; intros own s -> Hok; simplify_eq; [done|].
  eapply IH; [done..|]. by eapply client_step_ok.
Qed.

(** ** The theorems *)

(** [next_power_2] returns the least power of two that is not below its
    argument, for every argument from 2 to 2^63. *)
Theorem next_power_2_least size : 2 <= size <= 2 ^ 63 ->
  next_power_2 size = 2 ^ Z.log2_up size /\ size <= next_power_2 size /\
  forall e, 0 <= e -> size <= 2 ^ e -> next_power_2 size <= 2 ^ e.
Proof.
  intros H. rewrite next_power_2_log2_up by done. split; [done|].
  split; [apply Z.log2_up_spec; lia|]. intros e He Hle. apply Z.pow_le_mono_r; [lia|].
  rewrite <- (Z.log2_up_pow2 e) by done. by apply Z.log2_up_le_mono.
Qed.

Lemma next_power_2_least_witness : next_power_2 0x1801 = 0x2000 /\ 0x1801 <= next_power_2 0x1801.
Proof.
  split; [reflexivity|]. apply (next_power_2_least 0x1801). lia.
Defined.

(** [allocate] on a state whose live blocks are [bs]: a size of zero or
    beyond the buffer is refused; any other request either returns a block of
    the least sufficient order, inside the buffer, aligned to its size and
    apart from every live block, which becomes live; or it throws [bad_alloc]
    with the state untouched, and then every aligned place of that order meets
    a live block. *)
Theorem buddy_allocate_correct k base bs s size : buddy_ok k base bs s -> u64 size ->
  if (size =? 0) || (psize k <? size) then allocate size s = Err bad_alloc s
  else
    let o := order_of size in
    size <= psize o /\
    ((exists p s', allocate size s = Ok p s' /\ buddy_ok k base ((p, o) :: bs) s' /\
        base <= p /\ p + psize o <= base + psize k /\ (psize o | p - base) /\
        Forall (apart (p, o)) bs) \/
     allocate size s = Err bad_alloc s /\
       forall a, base <= a -> a + psize o <= base + psize k -> (psize o | a - base) ->
         exists b, b ∈ bs /\ ~ apart (a, o) b).
Proof.
  intros Hok Hu. destruct ((size =? 0) || (psize k <? size)) eqn:E.
  { apply (allocate_refused _ _ _ _ Hok). lia. }
  destruct Hu as [Hu _]. split; [apply size_le_order; lia|].
  destruct (allocate_cases _ _ _ _ Hok size) as [(p & s' & bs' & Ha & Hok' & Hp)|?]; [lia..| |by right].
  left. exists p, s'. rewrite Hp in Hok'.
  destruct (live_range _ _ _ _ Hok' p (order_of size)) as (?&?&?&_); [set_solver|]. split_and!; try done.
  pose proof (live_apart _ _ _ _ Hok') as Hf. by inversion Hf.
Qed.

(** A concrete allocator of four pages, for the examples below: fresh, and
    after one allocation of a page. *)
Definition pool4 : buddy := buddy_allocator 0x100000 2 (replicate 7 node_zero).
Definition pool4_one : buddy := out_state (allocate 1 pool4).

Lemma pool4_ok : buddy_ok 2 0x100000 [] pool4.
Proof.
  exists (Tip 0 Unused), 1%nat. split; [|done]. apply (buddy_allocator_tree 2 0x100000); first [lia|vm_compute; reflexivity].
Qed.

Lemma pool4_one_ok : buddy_ok 2 0x100000 [(0x100000, 0%nat)] pool4_one.
Proof. apply (allocate_ok 2 0x100000 [] pool4 1); [apply pool4_ok|unfold u64; lia|vm_compute; reflexivity]. Qed.

Lemma buddy_allocate_correct_witness :
  buddy_ok 2 0x100000 [(0x100000, 0%nat)] pool4_one /\ u64 0x1001 /\
  order_of 0x1001 = 1%nat /\ out_value (allocate 0x1001 pool4_one) = Some 0x102000 /\ 0x1001 <= psize 1.
Proof.
  split; [apply pool4_one_ok|]. split; [unfold u64; lia|]. split; [reflexivity|]. split; [vm_compute; reflexivity|].
  exact (proj1 (buddy_allocate_correct 2 0x100000 _ pool4_one 0x1001 pool4_one_ok ltac:(unfold u64; lia))).
Defined.

(** [deallocate] of the address of a live block succeeds and frees exactly
    that block. *)
Theorem buddy_deallocate_correct k base bs s p o : buddy_ok k base ((p, o) :: bs) s ->
  exists s', deallocate p s = Ok tt s' /\ buddy_ok k base bs s'.
Proof.
  intros Hok. destruct (deallocate_live _ _ _ _ Hok p o) as (s' & bs' & E & Hok' & Hp); [set_solver|].
  exists s'. split; [done|]. apply Permutation_cons_inv in Hp. by rewrite Hp.
Qed.

Lemma buddy_deallocate_correct_witness :
  exists s', deallocate 0x100000 pool4_one = Ok tt s' /\ buddy_ok 2 0x100000 [] s'.
Proof. apply (buddy_deallocate_correct 2 0x100000 [] pool4_one 0x100000 0 pool4_one_ok). Defined.

(** [size] of a live block's address is the size of the block, and
    [contains] holds of exactly the addresses of the buffer. *)
Theorem buddy_size_correct k base bs s p o : buddy_ok k base bs s -> (p, o) ∈ bs ->
  block_size p s = Ok (psize o) s /\
  forall a, u64 a -> contains a s = bool_decide (base <= a < base + psize k).
Proof.
  intros Hok Hp. split; [by eapply block_size_live|]. intros a Ha. by eapply contains_iff.
Qed.

Lemma buddy_size_correct_witness : block_size 0x100000 pool4_one = Ok 0x1000 pool4_one.
Proof.
  apply (buddy_size_correct 2 0x100000 [(0x100000, 0%nat)] pool4_one 0x100000 0 pool4_one_ok).
  apply list_elem_of_singleton. reflexivity.
Defined.

(** C40: Whatever sequence of calls a client makes on a freshly constructed
    allocator, as long as it gives back only what it holds: the blocks it holds
    are inside the buffer, aligned to their size and pairwise apart, and the
    number of nodes in use never exceeds the node array. *)
Theorem buddy_client_safe k base own s : (k <= 47)%nat -> 0 < base -> base + psize k < 2 ^ 64 ->
  rtc client_step
    ([], buddy_allocator base (Z.of_nat k) (replicate (2 ^ S k - 1) node_zero)) (own, s) ->
  buddy_ok k base own s /\ ForallOrdPairs apart own /\
  (forall p o, (p, o) ∈ own ->
     base <= p /\ p + psize o <= base + psize k /\ (psize o | p - base)) /\
  m_node_index s <= Z.of_nat (length (m_nodes s)).
Proof.
  intros Hk Hb He Hr. assert (buddy_ok k base own s) as Hok.
  { eapply client_reach_ok; [|done]. exists (Tip 0 Unused), 1%nat. split; [by apply buddy_allocator_tree|done]. }
  split_and!; [done|by eapply live_apart| |by eapply node_index_bound].
  intros p o Hp. by apply (live_range _ _ _ _ Hok) in Hp as (?&?&?&_).
Qed.

Lemma buddy_client_safe_witness :
  ForallOrdPairs apart [(0x102000, 1%nat)] /\ m_node_index (out_state (deallocate 0x100000
    (out_state (allocate 0x1001 pool4_one)))) <= 7.
Proof.
  assert (rtc client_step ([], pool4) ([(0x102000, 1%nat)],
    out_state (deallocate 0x100000 (out_state (allocate 0x1001 pool4_one))))) as Hr.
  { eapply rtc_l; [apply (client_alloc [] pool4 1 0x100000 pool4_one); [unfold u64; lia|vm_compute; reflexivity]|].
    eapply rtc_l; [apply (client_alloc _ pool4_one 0x1001 0x102000 (out_state (allocate 0x1001 pool4_one)));
      [unfold u64; lia|vm_compute; reflexivity]|].
    eapply rtc_l; [|apply rtc_refl].
    apply (client_free [(0x102000, 1%nat)] [] _ 0x100000 0). vm_compute. reflexivity. }
  destruct (buddy_client_safe 2 0x100000 _ _ ltac:(lia) ltac:(lia) ltac:(vm_compute; reflexivity) Hr)
    as (_ & H1 & _ & H2).
  split; [exact H1|exact H2].
Defined.
