(* ===== verification/PageSource.v ===== *)
(** * The memory manager, as the page-table code sees it

    The page tables call four functions of the memory manager: [alloc_page],
    [free_page], [virtptr_to_physint] and [physint_to_virtptr].  [PageSource]
    names them and [PageSourceLaws] states what the page tables rely on; the
    page-table theorems are proved against the laws and [MemMgr.v] discharges
    them for the memory manager itself. *)
From S2P Require Import Prelude Bits EptEntry.

Class PageSource (A : Type) := {
  (** [alloc_page]: the address of a page, [None] for the null pointer *)
  ps_alloc : A -> option (Z * A);
  (** [free_page] *)
  ps_free : Z -> A -> A;
  (** [virtptr_to_physint] and [physint_to_virtptr], [None] when they throw *)
  ps_phys : A -> Z -> option Z;
  ps_virt : A -> Z -> option Z;
}.

Class PageSourceLaws (A : Type) `{PageSource A} := {
  (** the states the memory manager can be in, with their pages in use *)
  ps_ok : A -> gset Z -> Prop;
  ps_alloc_ok a L v a' : ps_ok a L -> ps_alloc a = Some (v, a') ->
    v ∉ L /\ ps_ok a' ({[ v ]} ∪ L) /\
    (forall x, ps_virt a' x = ps_virt a x) /\ (forall x, ps_phys a' x = ps_phys a x);
  ps_free_ok a L v : ps_ok a L -> v ∈ L ->
    ps_ok (ps_free v a) (L ∖ {[ v ]}) /\
    (forall x, ps_virt (ps_free v a) x = ps_virt a x) /\
    (forall x, ps_phys (ps_free v a) x = ps_phys a x);
  ps_live_phys a L v : ps_ok a L -> v ∈ L ->
    exists p, ps_phys a v = Some p /\ ps_virt a p = Some v /\ page_addr p /\ p <> 0;
  ps_live_apart a L v v' : ps_ok a L -> v ∈ L -> v' ∈ L -> v <> v' ->
    v + 0x1000 <= v' \/ v' + 0x1000 <= v;
  ps_live_nonzero a L v : ps_ok a L -> v ∈ L -> v <> 0;
}.
