(* ===== verification/EptMmap.v ===== *)
(** * The EPT memory map

    Models [extended_apis/bfvmm/include/hve/arch/intel_x64/ept/mmap.h]: the
    class [mmap], which builds the four levels of extended page tables in pages
    of the memory manager and caches the last table it used at each level. *)
From S2P Require Import Prelude Bits EptEntry PageSource.

Inductive attr_type :=
| none | read_only | write_only | execute_only | read_write | read_execute | read_write_execute.

Inductive memory_type :=
| uncacheable | write_combining | write_through | write_protected | write_back.

(** [pair]: a span over a table (address and number of entries) and the table's
    physical address; the default pair is an empty span. *)
Record tpair := Pair { virt_addr : Z; num_entries : Z; phys_addr : Z }.

Definition no_pair : tpair := Pair 0 0 0.

(** The members of [mmap], and what they point to: [heap] is the contents of
    the pages that hold tables, [pool] the memory manager. *)
Record mmap (A : Type) := MMap {
  heap : gmap Z (list Z);
  pool : A;
  m_pml4 : tpair;
  m_pdpt : tpair;
  m_pd : tpair;
  m_pt : tpair;
}.
Arguments MMap {A}.
Arguments heap {A}.
Arguments pool {A}.
Arguments m_pml4 {A}.
Arguments m_pdpt {A}.
Arguments m_pd {A}.
Arguments m_pt {A}.

Section Mmap.
Context {A : Type} `{PageSource A}.
Local Open Scope vmm_scope.

Definition with_heap (s : mmap A) h := MMap h (pool s) (m_pml4 s) (m_pdpt s) (m_pd s) (m_pt s).
Definition with_pool (s : mmap A) (p : A) := MMap (heap s) p (m_pml4 s) (m_pdpt s) (m_pd s) (m_pt s).
Definition with_pml4 (s : mmap A) p := MMap (heap s) (pool s) p (m_pdpt s) (m_pd s) (m_pt s).
Definition with_pdpt (s : mmap A) p := MMap (heap s) (pool s) (m_pml4 s) p (m_pd s) (m_pt s).
Definition with_pd (s : mmap A) p := MMap (heap s) (pool s) (m_pml4 s) (m_pdpt s) p (m_pt s).
Definition with_pt (s : mmap A) p := MMap (heap s) (pool s) (m_pml4 s) (m_pdpt s) (m_pd s) p.

(** A reference to an entry ([entry_type &]): a table and an index. *)
Definition eref : Type := Z * Z.

(** [span::at] *)
Definition span_at (p : tpair) (i : Z) : M (mmap A) eref :=
  if (0 <=? i) && (i <? num_entries p) then ret (virt_addr p, i) else throw fail_fast.

Definition read (r : eref) : M (mmap A) Z := fun s =>
  match heap s !! r.1 ≫= (.!! Z.to_nat r.2) with
  | Some e => Ok e s | None => Err out_of_range s end.

Definition write (r : eref) (e : Z) : M (mmap A) unit := fun s =>
  match heap s !! r.1 with
  | Some t => Ok tt (with_heap s (<[r.1 := <[Z.to_nat r.2 := e]> t]> (heap s)))
  | None => Err out_of_range s end.

(** [alloc_page]: a zeroed page; the [memset] of the null pointer it is given
    when there is none does not return. *)
Definition alloc_page : M (mmap A) Z := fun s =>
  match ps_alloc (pool s) with
  | Some (v, a) => Ok v (with_heap (with_pool s a) (<[v := replicate 512 0]> (heap s)))
  | None => Err null_deref s
  end.

Definition free_page (v : Z) : M (mmap A) unit := fun s =>
  Ok tt (with_heap (with_pool s (ps_free v (pool s))) (delete v (heap s))).

Definition virtptr_to_physint (v : Z) : M (mmap A) Z := fun s =>
  match ps_phys (pool s) v with
  | Some p => Ok p s | None => Err (runtime_error "virtint_to_physint failed") s end.

Definition physint_to_virtptr (p : Z) : M (mmap A) Z := fun s =>
  match ps_virt (pool s) p with
  | Some v => Ok v s | None => Err (runtime_error "physint_to_virtint failed") s end.

Definition allocate_span (num : Z) : M (mmap A) (Z * Z) :=
  v <- alloc_page ;; ret (v, num).

Definition allocate (num : Z) : M (mmap A) tpair :=
  v <- alloc_page ;;
  p <- virtptr_to_physint v ;;
  ret (Pair v num p).

Definition free (p : tpair) : M (mmap A) unit := free_page (virt_addr p).

Definition phys_to_pair (phys num : Z) : M (mmap A) tpair :=
  v <- physint_to_virtptr phys ;; ret (Pair v num phys).

(** The constructor, on a memory manager [a]. *)
Definition mmap_new (a : A) : outcome (mmap A) unit :=
  (sp <- allocate_span pml4.num_entries ;;
   modify (fun s => with_pml4 s (Pair sp.1 sp.2 0)))
  (MMap ∅ a no_pair no_pair no_pair no_pair).

Definition eptp : M (mmap A) Z :=
  s <- get ;;
  (if phys_addr (m_pml4 s) =? 0 then
     p <- virtptr_to_physint (virt_addr (m_pml4 s)) ;;
     modify (fun s => with_pml4 s (Pair (virt_addr (m_pml4 s)) (num_entries (m_pml4 s)) p))
   else ret tt) ;;;
  gets (fun s => phys_addr (m_pml4 s)).

Definition map_pdpt (pml4i : Z) : M (mmap A) unit :=
  s <- get ;;
  entry <- span_at (m_pml4 s) pml4i ;;
  e <- read entry ;;
  if negb (e =? 0) then
    let phys := field_get pml4.phys_addr e in
    if phys_addr (m_pdpt s) =? phys then ret tt
    else p <- phys_to_pair phys pdpt.num_entries ;; modify (fun s => with_pdpt s p)
  else
    p <- allocate pdpt.num_entries ;;
    modify (fun s => with_pdpt s p) ;;;
    let e := field_set pml4.phys_addr e (phys_addr p) in
    let e := enable pml4.read_access e in
    let e := enable pml4.write_access e in
    let e := enable pml4.execute_access e in
    write entry e.

Definition map_pd (pdpti : Z) : M (mmap A) unit :=
  s <- get ;;
  entry <- span_at (m_pdpt s) pdpti ;;
  e <- read entry ;;
  if negb (e =? 0) then
    let phys := field_get pdpt.phys_addr e in
    if phys_addr (m_pd s) =? phys then ret tt
    else p <- phys_to_pair phys pd.num_entries ;; modify (fun s => with_pd s p)
  else
    p <- allocate pd.num_entries ;;
    modify (fun s => with_pd s p) ;;;
    let e := field_set pdpt.phys_addr e (phys_addr p) in
    let e := enable pdpt.read_access e in
    let e := enable pdpt.write_access e in
    let e := enable pdpt.execute_access e in
    write entry e.

Definition map_pt (pdi : Z) : M (mmap A) unit :=
  s <- get ;;
  entry <- span_at (m_pd s) pdi ;;
  e <- read entry ;;
  if negb (e =? 0) then
    let phys := field_get pd.phys_addr e in
    if phys_addr (m_pt s) =? phys then ret tt
    else p <- phys_to_pair phys pt.num_entries ;; modify (fun s => with_pt s p)
  else
    p <- allocate pt.num_entries ;;
    modify (fun s => with_pt s p) ;;;
    let e := field_set pd.phys_addr e (phys_addr p) in
    let e := enable pd.read_access e in
    let e := enable pd.write_access e in
    let e := enable pd.execute_access e in
    write entry e.

(** The [switch (attr)] and [switch (cache)] of [map_pdpte], [map_pde] and
    [map_pte], over the level's own namespaces. *)
Definition set_attr (r w x : flag) (attr : attr_type) (e : Z) : Z :=
  match attr with
  | none => e
  | read_only => enable r e
  | write_only => enable w e
  | execute_only => enable x e
  | read_write => enable w (enable r e)
  | read_execute => enable x (enable r e)
  | read_write_execute => enable x (enable w (enable r e))
  end.

Definition set_cache (mt : field) (uc wc wt wp wb : Z) (cache : memory_type) (e : Z) : Z :=
  match cache with
  | uncacheable => field_set mt e uc
  | write_combining => field_set mt e wc
  | write_through => field_set mt e wt
  | write_protected => field_set mt e wp
  | write_back => field_set mt e wb
  end.

Definition map_pdpte (va phys : Z) (attr : attr_type) (cache : memory_type) : M (mmap A) eref :=
  s <- get ;;
  entry <- span_at (m_pdpt s) (pdpt.index va) ;;
  e <- read entry ;;
  if negb (e =? 0) then throw (runtime_error "map_pdpte: map failed, virt / phys map already exists: ")
  else
    let e := field_set pdpt.phys_addr e phys in
    let e := set_attr pdpt.read_access pdpt.write_access pdpt.execute_access attr e in
    let e := set_cache pdpt.memory_type pdpt.uncacheable pdpt.write_combining
               pdpt.write_through pdpt.write_protected pdpt.write_back cache e in
    let e := enable pdpt.ps e in
    write entry e ;;; ret entry.

Definition map_pde (va phys : Z) (attr : attr_type) (cache : memory_type) : M (mmap A) eref :=
  s <- get ;;
  entry <- span_at (m_pd s) (pd.index va) ;;
  e <- read entry ;;
  if negb (e =? 0) then throw (runtime_error "map_pde: map failed, virt / phys map already exists: ")
  else
    let e := field_set pd.phys_addr e phys in
    let e := set_attr pd.read_access pd.write_access pd.execute_access attr e in
    let e := set_cache pd.memory_type pd.uncacheable pd.write_combining
               pd.write_through pd.write_protected pd.write_back cache e in
    let e := enable pd.ps e in
    write entry e ;;; ret entry.

Definition map_pte (va phys : Z) (attr : attr_type) (cache : memory_type) : M (mmap A) eref :=
  s <- get ;;
  entry <- span_at (m_pt s) (pt.index va) ;;
  e <- read entry ;;
  if negb (e =? 0) then throw (runtime_error "map_pte: map failed, virt / phys map already exists: ")
  else
    let e := field_set pt.phys_addr e phys in
    let e := set_attr pt.read_access pt.write_access pt.execute_access attr e in
    let e := set_cache pt.memory_type pt.uncacheable pt.write_combining
               pt.write_through pt.write_protected pt.write_back cache e in
    write entry e ;;; ret entry.

Definition map_1g (va phys : Z) (attr : attr_type) (cache : memory_type) : M (mmap A) eref :=
  map_pdpt (pml4.index va) ;;;
  map_pdpte va phys attr cache.

Definition map_2m (va phys : Z) (attr : attr_type) (cache : memory_type) : M (mmap A) eref :=
  map_pdpt (pml4.index va) ;;;
  map_pd (pdpt.index va) ;;;
  map_pde va phys attr cache.

Definition map_4k (va phys : Z) (attr : attr_type) (cache : memory_type) : M (mmap A) eref :=
  map_pdpt (pml4.index va) ;;;
  map_pd (pdpt.index va) ;;;
  map_pt (pd.index va) ;;;
  map_pte va phys attr cache.

Definition unmap (va : Z) : M (mmap A) unit :=
  map_pdpt (pml4.index va) ;;;
  s <- get ;;
  pdpte <- span_at (m_pdpt s) (pdpt.index va) ;;
  e <- read pdpte ;;
  if e =? 0 then ret tt
  else if is_enabled pdpt.ps e then write pdpte 0
  else
    map_pd (pdpt.index va) ;;;
    s <- get ;;
    pde <- span_at (m_pd s) (pd.index va) ;;
    e <- read pde ;;
    if e =? 0 then ret tt
    else if is_enabled pd.ps e then write pde 0
    else
      map_pt (pd.index va) ;;;
      s <- get ;;
      pte <- span_at (m_pt s) (pt.index va) ;;
      write pte 0.

Definition entry (va : Z) : M (mmap A) eref :=
  map_pdpt (pml4.index va) ;;;
  s <- get ;;
  pdpte <- span_at (m_pdpt s) (pdpt.index va) ;;
  e <- read pdpte ;;
  if e =? 0 then throw (runtime_error "entry: pdpte not mapped")
  else if is_enabled pdpt.ps e then ret pdpte
  else
    map_pd (pdpt.index va) ;;;
    s <- get ;;
    pde <- span_at (m_pd s) (pd.index va) ;;
    e <- read pde ;;
    if e =? 0 then throw (runtime_error "entry: pde not mapped")
    else if is_enabled pd.ps e then ret pde
    else
      map_pt (pd.index va) ;;;
      s <- get ;;
      pte <- span_at (m_pt s) (pt.index va) ;;
      e <- read pte ;;
      if e =? 0 then throw (runtime_error "entry: pte not mapped") else ret pte.

Definition virt_to_phys (va : Z) : M (mmap A) Z :=
  map_pdpt (pml4.index va) ;;;
  s <- get ;;
  pdpte <- span_at (m_pdpt s) (pdpt.index va) ;;
  e <- read pdpte ;;
  if e =? 0 then throw (runtime_error "virt_to_phys: pdpte not mapped")
  else if is_enabled pdpt.ps e then ret (field_get pdpt.phys_addr e)
  else
    map_pd (pdpt.index va) ;;;
    s <- get ;;
    pde <- span_at (m_pd s) (pd.index va) ;;
    e <- read pde ;;
    if e =? 0 then throw (runtime_error "virt_to_phys: pde not mapped")
    else if is_enabled pd.ps e then ret (field_get pd.phys_addr e)
    else
      map_pt (pd.index va) ;;;
      s <- get ;;
      pte <- span_at (m_pt s) (pt.index va) ;;
      e <- read pte ;;
      if e =? 0 then throw (runtime_error "virt_to_phys: pte not mapped")
      else ret (field_get pt.phys_addr e).

Definition from (va : Z) : M (mmap A) Z :=
  map_pdpt (pml4.index va) ;;;
  s <- get ;;
  pdpte <- span_at (m_pdpt s) (pdpt.index va) ;;
  e <- read pdpte ;;
  if e =? 0 then throw (runtime_error "from: pdpte not mapped")
  else if is_enabled pdpt.ps e then ret pdpt.from
  else
    map_pd (pdpt.index va) ;;;
    s <- get ;;
    pde <- span_at (m_pd s) (pd.index va) ;;
    e <- read pde ;;
    if e =? 0 then throw (runtime_error "from: pde not mapped")
    else if is_enabled pd.ps e then ret pd.from
    else
      map_pt (pd.index va) ;;;
      s <- get ;;
      pte <- span_at (m_pt s) (pt.index va) ;;
      e <- read pte ;;
      if e =? 0 then throw (runtime_error "from: pte not mapped") else ret pt.from.

Definition is_1g (va : Z) : M (mmap A) bool := f <- from va ;; ret (f =? pdpt.from).
Definition is_2m (va : Z) : M (mmap A) bool := f <- from va ;; ret (f =? pd.from).
Definition is_4k (va : Z) : M (mmap A) bool := f <- from va ;; ret (f =? pt.from).

(** The [for] loop that sets [empty] to false at a non-zero entry. *)
Definition all_zero (p : tpair) (n : Z) : M (mmap A) bool :=
  (fix go (l : list Z) (empty : bool) : M (mmap A) bool :=
     match l with
     | [] => ret empty
     | i :: l' => r <- span_at p i ;; e <- read r ;; go l' (if negb (e =? 0) then false else empty)
     end) (seqZ 0 n) true.

Definition release_pte (va : Z) : M (mmap A) bool :=
  map_pt (pd.index va) ;;;
  s <- get ;;
  pte <- span_at (m_pt s) (pt.index va) ;;
  write pte 0 ;;;
  empty <- all_zero (m_pt s) pt.num_entries ;;
  if empty : bool then free (m_pt s) ;;; ret true else ret false.

Definition release_pde (va : Z) : M (mmap A) bool :=
  map_pd (pdpt.index va) ;;;
  s <- get ;;
  entry <- span_at (m_pd s) (pd.index va) ;;
  e <- read entry ;;
  go_on <- (if is_disabled pd.ps e then release_pte va else ret true) ;;
  if go_on : bool then
    write entry 0 ;;;
    s <- get ;;
    empty <- all_zero (m_pd s) pd.num_entries ;;
    if empty : bool then free (m_pd s) ;;; ret true else ret false
  else ret false.

Definition release_pdpte (va : Z) : M (mmap A) bool :=
  map_pdpt (pml4.index va) ;;;
  s <- get ;;
  entry <- span_at (m_pdpt s) (pdpt.index va) ;;
  e <- read entry ;;
  go_on <- (if is_disabled pdpt.ps e then release_pde va else ret true) ;;
  if go_on : bool then
    write entry 0 ;;;
    s <- get ;;
    empty <- all_zero (m_pdpt s) pdpt.num_entries ;;
    if empty : bool then free (m_pdpt s) ;;; ret true else ret false
  else ret false.

Definition release (va : Z) : M (mmap A) unit :=
  b <- release_pdpte va ;;
  if b : bool then
    s <- get ;; r <- span_at (m_pml4 s) (pml4.index va) ;; write r 0
  else ret tt.

Definition clear_pt (pdi : Z) : M (mmap A) unit :=
  map_pt pdi ;;;
  s <- get ;;
  free (m_pt s) ;;;
  modify (fun s => with_pt s no_pair).

Definition clear_pd (pdpti : Z) : M (mmap A) unit :=
  map_pd pdpti ;;;
  for_each (seqZ 0 pd.num_entries) (fun pdi =>
    s <- get ;;
    entry <- span_at (m_pd s) pdi ;;
    e <- read entry ;;
    if e =? 0 then ret tt
    else
      (if is_disabled pd.ps e then clear_pt pdi else ret tt) ;;;
      write entry 0) ;;;
  s <- get ;;
  free (m_pd s) ;;;
  modify (fun s => with_pd s no_pair).

Definition clear_pdpt (pml4i : Z) : M (mmap A) unit :=
  map_pdpt pml4i ;;;
  for_each (seqZ 0 pdpt.num_entries) (fun pdpti =>
    s <- get ;;
    entry <- span_at (m_pdpt s) pdpti ;;
    e <- read entry ;;
    if e =? 0 then ret tt
    else
      (if is_disabled pdpt.ps e then clear_pd pdpti else ret tt) ;;;
      write entry 0) ;;;
  s <- get ;;
  free (m_pdpt s) ;;;
  modify (fun s => with_pdpt s no_pair).

(** The destructor. *)
Definition mmap_delete : M (mmap A) unit :=
  for_each (seqZ 0 pml4.num_entries) (fun pml4i =>
    s <- get ;;
    entry <- span_at (m_pml4 s) pml4i ;;
    e <- read entry ;;
    if e =? 0 then ret tt else clear_pdpt pml4i) ;;;
  s <- get ;;
  free_page (virt_addr (m_pml4 s)).

End Mmap.
