(* ===== verification/EptTables.v ===== *)
(** * Page tables in a heap

    The tables that hang off a root page, named by the indices that lead to
    them, the walk a processor makes through them, and what changing one entry,
    linking a new table or unlinking an empty one does to both.  Nothing here
    depends on [mmap]; [EptProofs.v] applies it to the operations. *)
From S2P Require Import Prelude Bits EptEntry.

(** Levels count down: 3 is the PML4, 0 the page table. *)
Definition level_index (l : nat) (va : Z) : Z :=
  match l with
  | 0%nat => pt.index va | 1%nat => pd.index va | 2%nat => pdpt.index va | _ => pml4.index va
  end.

Lemma level_index_range l va : 0 <= level_index l va < 512.
Proof.
  destruct l as [|[|[|l]]]; auto using pml4_index_range, pdpt_index_range, pd_index_range, pt_index_range.
Qed.

(** An entry that maps a page at this level, as opposed to a lower table. *)
Definition large (l : nat) (e : Z) : bool :=
  match l with
  | 0%nat => true | 1%nat => is_enabled pd.ps e | 2%nat => is_enabled pdpt.ps e | _ => false
  end.

Definition frame_of (e : Z) : Z := field_get pml4.phys_addr e.

Definition entry_at (h : gmap Z (list Z)) (v i : Z) : option Z :=
  if 0 <=? i then h !! v ≫= (.!! Z.to_nat i) else None.

(** The indices from the root to the [n]th table of the walk of [va], the last
    one first. *)
Fixpoint path (va : Z) (n : nat) : list Z :=
  match n with O => [] | S n' => level_index (3 - n') va :: path va n' end.

Lemma length_path va n : length (path va n) = n.
Proof. induction n; simpl; congruence. Qed.

Lemma path_suffix va n m : (n <= m)%nat -> path va n `suffix_of` path va m.
Proof.
  induction 1 as [|m Hm IH]; [done|]. cbn [path]. by apply suffix_cons_r.
Qed.

Section Tables.
Context (pv : Z -> option Z) (root : Z).

(** The lower table an entry points to. *)
Definition child (h : gmap Z (list Z)) (l : nat) (v i : Z) : option Z :=
  e ← entry_at h v i; if (e =? 0) || large l e then None else pv (frame_of e).

Fixpoint tbl (h : gmap Z (list Z)) (p : list Z) : option Z :=
  match p with
  | [] => Some root
  | i :: p' => v ← tbl h p'; child h (3 - length p') v i
  end.

(** The walk: the level and the entry that maps [va], if one does. *)
Fixpoint walk_at (h : gmap Z (list Z)) (l : nat) (v va : Z) : option (nat * Z) :=
  e ← entry_at h v (level_index l va);
  if e =? 0 then None
  else if large l e then Some (l, e)
  else match l with O => None | S l' => v' ← pv (frame_of e); walk_at h l' v' va end.

Definition walk (h : gmap Z (list Z)) (va : Z) : option (nat * Z) := walk_at h 3 root va.

(** The tables are whole pages, linked to addresses that resolve, each reached
    by one path only, and nothing else is in the heap. *)
Record tables_ok (h : gmap Z (list Z)) : Prop := {
  t_page p v : tbl h p = Some v -> exists t, h !! v = Some t /\ length t = 512%nat /\ Forall u64 t;
  t_link p v i e : tbl h p = Some v -> entry_at h v i = Some e -> e <> 0 ->
    large (3 - length p) e = false -> frame_of e <> 0 /\ is_Some (pv (frame_of e));
  t_inj p q v : tbl h p = Some v -> tbl h q = Some v -> p = q;
  t_own v t : h !! v = Some t -> exists p, tbl h p = Some v;
}.

Lemma entry_at_table h v t i : h !! v = Some t -> length t = 512%nat -> 0 <= i < 512 ->
  exists e, entry_at h v i = Some e /\ t !! Z.to_nat i = Some e.
Proof.
  intros Ht Hl Hi. destruct (lookup_lt_is_Some_2 t (Z.to_nat i)) as [e He]; [lia|].
  exists e. unfold entry_at. replace (0 <=? i) with true by lia. by rewrite Ht.
Qed.

Lemma entry_at_range h v t i e : h !! v = Some t -> length t = 512%nat ->
  entry_at h v i = Some e -> 0 <= i < 512.
Proof.
  intros Ht Hl. unfold entry_at. destruct (Z.leb_spec 0 i); [|done]. rewrite Ht. simpl.
  intros He%lookup_lt_Some. lia.
Qed.

Lemma tbl_depth h p v : tbl h p = Some v -> (length p <= 3)%nat.
Proof.
  destruct p as [|i p]; simpl; [lia|]. destruct (tbl h p) as [w|]; simpl; [|done].
  unfold child. destruct (entry_at h w i) as [e|]; simpl; [|done].
  destruct (Nat.le_gt_cases (length p) 2); [lia|]. replace (3 - length p)%nat with 0%nat by lia.
  simpl. by rewrite orb_true_r.
Qed.

Lemma tbl_suffix_none h p q : tbl h p = None -> p `suffix_of` q -> tbl h q = None.
Proof. intros Hp [k ->]. induction k as [|i k IH]; [done|]. simpl. by rewrite IH. Qed.

(** A table with a table below it is not empty. *)
Lemma tbl_parent h i p w : tbl h (i :: p) = Some w ->
  exists v e, tbl h p = Some v /\ entry_at h v i = Some e /\ e <> 0.
Proof.
  cbn [tbl]. destruct (tbl h p) as [v|]; [cbn [mbind option_bind]|done]. unfold child.
  destruct (entry_at h v i) as [e|] eqn:He; [cbn [mbind option_bind]|done].
  destruct (Z.eqb_spec e 0); [done|]. eauto.
Qed.

(** ** Changing one entry *)

Section Update.
Context (h : gmap Z (list Z)) (p0 : list Z) (v0 : Z) (t : list Z) (i e : Z).
Hypothesis Hok : tables_ok h.
Hypothesis Hv0 : tbl h p0 = Some v0.
Hypothesis Ht : h !! v0 = Some t.
Hypothesis Hi : 0 <= i < 512.
Let h' := <[v0 := <[Z.to_nat i := e]> t]> h.

Lemma update_length : length t = 512%nat.
Proof using Hok Hv0 Ht. destruct (t_page _ Hok _ _ Hv0) as (t' & ? & ? & ?). by simplify_eq. Qed.

Lemma entry_at_update v j :
  entry_at h' v j = if decide (v = v0 /\ j = i) then Some e else entry_at h v j.
Proof using Hok Hv0 Ht Hi.
  unfold entry_at, h'. destruct (Z.leb_spec 0 j).
  2: { destruct (decide _) as [[??]|]; [lia|done]. }
  destruct (decide (v = v0)) as [->|Hv].
  - rewrite lookup_insert_eq, Ht. simpl. destruct (decide (j = i)) as [->|Hj].
    + rewrite decide_True by done. apply list_lookup_insert_eq. rewrite update_length. lia.
    + rewrite decide_False by tauto. apply list_lookup_insert_ne. lia.
  - rewrite decide_False by tauto. by rewrite lookup_insert_ne.
Qed.

(** Tables not below the changed entry stay where they are. *)
Lemma tbl_update_outside p : ~ (i :: p0) `suffix_of` p -> tbl h' p = tbl h p.
Proof using Hok Hv0 Ht Hi.
  induction p as [|j p IH]; intros Hp; [done|]. simpl.
  rewrite IH; [|intros Hs; by apply Hp, suffix_cons_r].
  destruct (tbl h p) as [w|] eqn:Hw; [|done]. simpl. unfold child. rewrite entry_at_update.
  destruct (decide _) as [[-> ->]|]; [|done].
  assert (p = p0) as -> by (by eapply (t_inj _ Hok)). by destruct Hp.
Qed.

Lemma tbl_update_root : tbl h' p0 = Some v0.
Proof using Hok Hv0 Ht Hi.
  rewrite tbl_update_outside; [done|]. intros Hk%suffix_length. simpl in Hk. lia.
Qed.

Lemma tbl_update_child : tbl h' (i :: p0) =
  if (e =? 0) || large (3 - length p0) e then None else pv (frame_of e).
Proof using Hok Hv0 Ht Hi.
  simpl. rewrite tbl_update_root. simpl. unfold child. by rewrite entry_at_update, decide_True.
Qed.

(** An update that neither removes nor adds a table. *)
Lemma tbl_update_same p : child h (3 - length p0) v0 i = None ->
  (e =? 0) || large (3 - length p0) e = true -> tbl h' p = tbl h p.
Proof using Hok Hv0 Ht Hi.
  intros Hc He. destruct (decide ((i :: p0) `suffix_of` p)) as [Hs|Hs].
  - rewrite (tbl_suffix_none h' (i :: p0)), (tbl_suffix_none h (i :: p0)); try done.
    + simpl. by rewrite Hv0.
    + by rewrite tbl_update_child, He.
  - by apply tbl_update_outside.
Qed.

Lemma page_update p v : u64 e -> tbl h p = Some v ->
  exists t', h' !! v = Some t' /\ length t' = 512%nat /\ Forall u64 t'.
Proof using Hok Hv0 Ht Hi.
  intros Hu Hp. destruct (t_page _ Hok _ _ Hp) as (t' & ? & ? & ?). unfold h'.
  destruct (decide (v = v0)) as [->|Hv].
  - simplify_eq. rewrite lookup_insert_eq. eexists. rewrite length_insert. split_and!; [done..|].
    by apply Forall_insert.
  - rewrite lookup_insert_ne by done. eauto.
Qed.

Lemma update_leaf_ok : u64 e -> child h (3 - length p0) v0 i = None ->
  (e =? 0) || large (3 - length p0) e = true -> tables_ok h'.
Proof using Hok Hv0 Ht Hi.
  intros Hu Hc He. pose proof (fun p => tbl_update_same p Hc He) as Hsame. split.
  - intros p v. rewrite Hsame. by apply page_update.
  - intros p v j e'. rewrite Hsame, entry_at_update. intros Hp. destruct (decide _) as [[-> ->]|].
    + assert (p = p0) as -> by (by eapply (t_inj _ Hok)). intros [= <-] ? Hl.
      rewrite Hl in He. lia.
    + by apply (t_link _ Hok).
  - intros p q v. rewrite !Hsame. by apply (t_inj _ Hok).
  - intros v t' Hv. unfold h' in Hv. destruct (decide (v = v0)) as [->|].
    + exists p0. by rewrite Hsame.
    + rewrite lookup_insert_ne in Hv by done. destruct (t_own _ Hok _ _ Hv) as [p Hp]. exists p. by rewrite Hsame.
Qed.
End Update.

(** ** Walks *)

(** Two heaps that agree on the entries a walk reads give the same walk. *)
Lemma walk_agree h h' l v va : tables_ok h -> tbl h (path va (3 - l)) = Some v -> (l <= 3)%nat ->
  (forall n w, (n <= 3)%nat -> tbl h (path va n) = Some w ->
    entry_at h' w (level_index (3 - n) va) = entry_at h w (level_index (3 - n) va)) ->
  walk_at h' l v va = walk_at h l v va.
Proof.
  intros Hok Hv Hl Ha. revert v Hv Hl. induction l as [|l IH]; intros v Hv Hl;
    pose proof (Ha (3 - _)%nat v ltac:(lia) Hv) as He;
    match type of He with context [(3 - (3 - ?l))%nat] => replace (3 - (3 - l))%nat with l in He by lia end.
  - cbn [walk_at]. by rewrite He.
  - cbn [walk_at]. rewrite He. destruct (entry_at h v _) as [e|] eqn:Ee; [|done]. cbn [mbind option_bind].
    destruct (e =? 0) eqn:E0; [done|]. destruct (large (S l) e) eqn:El; [done|].
    destruct (pv (frame_of e)) as [w|] eqn:Ew; [|done]. simpl. apply IH; [|lia].
    replace (3 - l)%nat with (S (3 - S l)) by lia. cbn [path tbl].
    rewrite Hv. cbn [mbind option_bind]. rewrite length_path.
    replace (3 - (3 - S l))%nat with (S l) by lia. unfold child. rewrite Ee. cbn [mbind option_bind].
    by rewrite E0, El.
Qed.

(** A walk passes through every table on its path. *)
Lemma walk_down h va n v : (n <= 3)%nat -> tbl h (path va n) = Some v ->
  walk h va = walk_at h (3 - n) v va.
Proof.
  revert v. induction n as [|n IH]; intros v Hn Hv; [by injection Hv as <-|].
  cbn [path tbl] in Hv. destruct (tbl h (path va n)) as [w|] eqn:Ew; [|done]. cbn [mbind option_bind] in Hv.
  rewrite length_path in Hv. rewrite (IH w) by (done || lia).
  replace (3 - n)%nat with (S (3 - S n)) in Hv |- * by lia. cbn [walk_at].
  unfold child in Hv. destruct (entry_at h w _) as [e|]; [|discriminate Hv]. cbn [mbind option_bind] in *.
  destruct (e =? 0); [discriminate Hv|]. destruct (large _ e); [discriminate Hv|]. cbn [orb] in Hv. by rewrite Hv.
Qed.

Lemma walk_entry h va n v e : (n <= 3)%nat -> tbl h (path va n) = Some v ->
  entry_at h v (level_index (3 - n) va) = Some e ->
  e = 0 \/ large (3 - n) e = true ->
  walk h va = if e =? 0 then None else Some ((3 - n)%nat, e).
Proof.
  intros Hn Hv He Hl. rewrite (walk_down h va n v) by done.
  destruct (3 - n)%nat; cbn [walk_at]; rewrite He; cbn [mbind option_bind];
    destruct (Z.eqb_spec e 0); try done; destruct Hl as [?|Hl]; try done; by rewrite Hl.
Qed.

(** A walk ends at a non-empty entry that maps a page, never in the PML4. *)
Lemma walk_at_level h l v va l' e : walk_at h l v va = Some (l', e) ->
  (l' <= l)%nat /\ large l' e = true /\ e <> 0.
Proof.
  revert v. induction l as [|l IH]; intros v; cbn [walk_at];
    (destruct (entry_at h v _) as [e0|]; [cbn [mbind option_bind]|done]);
    (destruct (Z.eqb_spec e0 0); [done|]).
  - intros [= <- <-]. done.
  - destruct (large (S l) e0) eqn:Hl; [intros [= <- <-]; done|].
    destruct (pv (frame_of e0)) as [w|]; [cbn [mbind option_bind]|done].
    intros (?&?&?)%IH. split_and!; try done. lia.
Qed.

Lemma walk_level h va l e : walk h va = Some (l, e) -> (l <= 2)%nat /\ large l e = true /\ e <> 0.
Proof.
  intros (?&Hl&?)%walk_at_level. split_and!; try done. destruct l as [|[|[|[|l]]]]; done || lia.
Qed.

(** Where a walk ends. *)
Lemma walk_at_found h va l e k : (k <= 3)%nat -> forall v, tbl h (path va (3 - k)) = Some v ->
  walk_at h k v va = Some (l, e) -> exists w, tbl h (path va (3 - l)) = Some w /\ entry_at h w (level_index l va) = Some e.
Proof.
  induction k as [|k IH]; intros Hk v Hv; cbn [walk_at];
    (destruct (entry_at h v _) as [e0|] eqn:E0; [cbn [mbind option_bind]|done]);
    (destruct (Z.eqb_spec e0 0); [done|]).
  - intros [= <- <-]. eauto.
  - destruct (large (S k) e0) eqn:Hl; [intros [= <- <-]; eauto|].
    destruct (pv (frame_of e0)) as [w|] eqn:Ew; [cbn [mbind option_bind]|done]. apply IH; [lia|].
    replace (3 - k)%nat with (S (3 - S k)) by lia. cbn [path tbl]. rewrite Hv. cbn [mbind option_bind].
    rewrite length_path. replace (3 - (3 - S k))%nat with (S k) by lia. unfold child. rewrite E0. cbn [mbind option_bind].
    rewrite Hl. by replace (e0 =? 0) with false by lia.
Qed.

Lemma walk_found h va l e : walk h va = Some (l, e) ->
  exists w, tbl h (path va (3 - l)) = Some w /\ entry_at h w (level_index l va) = Some e.
Proof. by apply (walk_at_found h va l e 3). Qed.

(** [va'] goes through the entry of level [l] that [va] goes through. *)
Definition same_entry (l : nat) (va va' : Z) : Prop := path va' (4 - l) = path va (4 - l).

#[global] Instance same_entry_dec l va va' : Decision (same_entry l va va').
Proof using. unfold same_entry. apply _. Defined.

(** A walk that misses the changed entry is not affected. *)
Lemma walk_update_outside h p0 v0 t i e va : tables_ok h -> tbl h p0 = Some v0 ->
  h !! v0 = Some t -> 0 <= i < 512 -> path va (S (length p0)) <> i :: p0 ->
  walk (<[v0 := <[Z.to_nat i := e]> t]> h) va = walk h va.
Proof.
  intros Hok Hv Ht Hi Hp. apply walk_agree; [done..|]. intros n w Hn Hw.
  rewrite (entry_at_update h p0 v0 t i e Hok Hv Ht Hi). destruct (decide _) as [[-> Hj]|]; [|done].
  destruct Hp. assert (path va n = p0) as <- by (by eapply (t_inj _ Hok)).
  rewrite length_path. cbn [path]. by rewrite Hj.
Qed.

(** Replacing a leaf or empty entry by a leaf or empty one. *)
Lemma walk_update_leaf h n v0 t e va va' : tables_ok h -> (n <= 3)%nat ->
  tbl h (path va n) = Some v0 -> h !! v0 = Some t ->
  e = 0 \/ large (3 - n) e = true ->
  walk (<[v0 := <[Z.to_nat (level_index (3 - n) va) := e]> t]> h) va' =
    if decide (same_entry (3 - n) va va') then (if e =? 0 then None else Some ((3 - n)%nat, e))
    else walk h va'.
Proof.
  intros Hok Hn Hv Ht He. pose proof (level_index_range (3 - n) va) as Hi.
  destruct (decide (same_entry (3 - n) va va')) as [Hs|Hs]; unfold same_entry in Hs;
    replace (4 - (3 - n))%nat with (S n) in Hs by lia.
  - cbn [path] in Hs. injection Hs as E1 E2. eapply walk_entry; [done| | |done].
    + rewrite E2. by eapply tbl_update_root.
    + rewrite E1, (entry_at_update h (path va n)) by done. by rewrite decide_True.
  - eapply walk_update_outside; [done..|]. by rewrite length_path.
Qed.

(** ** Linking a new table *)

Definition zero_page : list Z := replicate 512 0.

Lemma zero_page_entry h w i : 0 <= i < 512 -> entry_at (<[w := zero_page]> h) w i = Some 0.
Proof.
  intros. unfold entry_at. replace (0 <=? i) with true by lia. rewrite lookup_insert_eq. simpl.
  apply lookup_replicate_2. lia.
Qed.

Section Link.
Context (h : gmap Z (list Z)) (p0 : list Z) (v0 : Z) (t : list Z) (i e w : Z).
Hypothesis Hok : tables_ok h.
Hypothesis Hv0 : tbl h p0 = Some v0.
Hypothesis Ht : h !! v0 = Some t.
Hypothesis Hi : 0 <= i < 512.
Hypothesis Hzero : entry_at h v0 i = Some 0.
Hypothesis Hw : h !! w = None.
Hypothesis He : e <> 0.
Hypothesis Hu : u64 e.
Hypothesis Hlarge : large (3 - length p0) e = false.
Hypothesis Hpv : pv (frame_of e) = Some w.
Hypothesis Hframe : frame_of e <> 0.
Let h1 := <[v0 := <[Z.to_nat i := e]> t]> h.
Let h2 := <[v0 := <[Z.to_nat i := e]> t]> (<[w := zero_page]> h).

Lemma link_neq : v0 <> w.
Proof using Ht Hw. congruence. Qed.

Lemma link_comm : h2 = <[w := zero_page]> h1.
Proof using Ht Hw. unfold h1, h2. rewrite insert_insert_ne; [done|]. pose proof link_neq. congruence. Qed.

Lemma link_entry v j : v <> w -> entry_at h2 v j = entry_at h1 v j.
Proof using Ht Hw. intros. rewrite link_comm. unfold entry_at. by rewrite lookup_insert_ne. Qed.

Lemma link_entry_new j : 0 <= j < 512 -> entry_at h2 w j = Some 0.
Proof using Ht Hw. intros. rewrite link_comm. by apply zero_page_entry. Qed.

Lemma table_not_new p v : tbl h p = Some v -> v <> w.
Proof using Hok Hw. intros Hp ->. destruct (t_page _ Hok _ _ Hp) as (? & ? & _). congruence. Qed.

Lemma link_child_none : tbl h (i :: p0) = None.
Proof using Hv0 Hzero. simpl. rewrite Hv0. simpl. unfold child. by rewrite Hzero. Qed.

Lemma tbl_link p : tbl h2 p = if decide (p = i :: p0) then Some w else tbl h p.
Proof using All.
  induction p as [|j p IH]; [done|]. cbn [tbl]. rewrite IH.
  destruct (decide (p = i :: p0)) as [->|Hp].
  - rewrite decide_False by (intros E%(f_equal length); simpl in E; lia).
    rewrite link_child_none. cbn [mbind option_bind]. unfold child.
    destruct (entry_at h2 w j) as [e'|] eqn:E; [|done].
    destruct (decide (0 <= j < 512)); [rewrite link_entry_new in E by done; by simplify_eq|].
    unfold entry_at in E. destruct (Z.leb_spec 0 j); [|done]. rewrite link_comm, lookup_insert_eq in E.
    apply lookup_lt_Some in E. unfold zero_page in E. rewrite length_replicate in E. lia.
  - destruct (tbl h p) as [v|] eqn:Ev.
    2: { rewrite decide_False; [done|]. intros [= -> ->]. congruence. }
    cbn [mbind option_bind]. unfold child. rewrite link_entry by (by eapply table_not_new).
    unfold h1. rewrite (entry_at_update h p0 v0 t i e Hok Hv0 Ht Hi).
    destruct (decide (v = v0 /\ j = i)) as [[-> ->]|Hn].
    + assert (p = p0) as -> by (by eapply (t_inj _ Hok)). rewrite decide_True by done.
      cbn [mbind option_bind]. rewrite Hlarge. by replace (e =? 0) with false by lia.
    + rewrite decide_False; [done|]. intros [= -> ->]. apply Hn. split; [congruence|done].
Qed.

Lemma link_ok : tables_ok h2.
Proof using All.
  assert (h2 !! w = Some zero_page) as H2w by (rewrite link_comm; apply lookup_insert_eq).
  split.
  - intros p v. rewrite tbl_link. destruct (decide _) as [->|Hp].
    + intros [= <-]. exists zero_page. split_and!; [done|apply length_replicate|].
      apply Forall_replicate. unfold u64. lia.
    + intros Hv. rewrite link_comm, lookup_insert_ne by (apply not_eq_sym; by eapply table_not_new).
      by eapply page_update.
  - intros p v j e'. rewrite tbl_link. destruct (decide _) as [->|Hp].
    + intros [= <-] Hj. destruct (decide (0 <= j < 512)); [rewrite link_entry_new in Hj by done; by simplify_eq|].
      eapply entry_at_range in Hj; [done|done|apply length_replicate].
    + intros Hv. rewrite link_entry by (by eapply table_not_new). unfold h1.
      rewrite (entry_at_update h p0 v0 t i e Hok Hv0 Ht Hi). destruct (decide _) as [[-> ->]|].
      * intros [= <-] _ _. rewrite Hpv. by eauto.
      * by apply (t_link _ Hok).
  - intros p q v. rewrite !tbl_link. destruct (decide _) as [->|Hp], (decide _) as [->|Hq]; try done.
    + intros [= <-] Hv. by apply table_not_new in Hv.
    + intros Hv [= <-]. by apply table_not_new in Hv.
    + by apply (t_inj _ Hok).
  - intros v t' Ht'. rewrite link_comm in Ht'. destruct (decide (v = w)) as [->|Hv].
    + exists (i :: p0). by rewrite tbl_link, decide_True.
    + rewrite lookup_insert_ne in Ht' by done. unfold h1 in Ht'.
      assert (is_Some (h !! v)) as [t2 Ht2].
      { destruct (decide (v = v0)) as [->|]; [eauto|]. rewrite lookup_insert_ne in Ht' by done. eauto. }
      destruct (t_own _ Hok _ _ Ht2) as [p Hp]. exists p. rewrite tbl_link, decide_False; [done|].
      intros ->. by rewrite link_child_none in Hp.
Qed.

Lemma walk_link va : walk h2 va = walk h va.
Proof using All.
  destruct (decide (path va (S (length p0)) = i :: p0)) as [Hp|Hp].
  - cbn [path] in Hp. injection Hp as Ei Ep. pose proof (tbl_depth _ _ _ Hv0) as Hd.
    assert (length p0 <= 2)%nat.
    { destruct (Nat.le_gt_cases (length p0) 2); [done|]. replace (3 - length p0)%nat with 0%nat in Hlarge by lia. done. }
    rewrite (walk_entry h va (length p0) v0 0); [|done|by rewrite Ep|by rewrite Ei|by left].
    rewrite (walk_entry h2 va (S (length p0)) w 0); [done|lia| |apply link_entry_new, level_index_range|by left].
    cbn [path]. by rewrite Ei, Ep, tbl_link, decide_True.
  - apply walk_agree; [done..|]. intros n v Hn Hv. rewrite link_entry by (by eapply table_not_new).
    unfold h1. rewrite (entry_at_update h p0 v0 t i e Hok Hv0 Ht Hi).
    destruct (decide _) as [[-> Hj]|]; [|done].
    destruct Hp. assert (path va n = p0) as <- by (by eapply (t_inj _ Hok)).
    rewrite length_path. cbn [path]. by rewrite Hj.
Qed.
End Link.

(** ** Unlinking an empty table *)

Section Unlink.
Context (h : gmap Z (list Z)) (p0 : list Z) (v0 : Z) (t : list Z) (i w : Z).
Hypothesis Hok : tables_ok h.
Hypothesis Hv0 : tbl h p0 = Some v0.
Hypothesis Ht : h !! v0 = Some t.
Hypothesis Hi : 0 <= i < 512.
Hypothesis Hw : tbl h (i :: p0) = Some w.
Hypothesis Hempty : forall j e, entry_at h w j = Some e -> e = 0.
Let h1 := <[v0 := <[Z.to_nat i := 0]> t]> h.
Let h2 := <[v0 := <[Z.to_nat i := 0]> t]> (delete w h).

Lemma unlink_neq : v0 <> w.
Proof using Hok Hv0 Hw Ht.
  intros ->. pose proof (t_inj _ Hok _ _ _ Hv0 Hw) as E%(f_equal length). simpl in E. lia.
Qed.

Lemma unlink_comm : h2 = delete w h1.
Proof using Hok Hv0 Hw Ht. unfold h1, h2. by rewrite delete_insert_ne by (apply not_eq_sym, unlink_neq). Qed.

Lemma unlink_entry v j : v <> w -> entry_at h2 v j = entry_at h1 v j.
Proof using Hok Hv0 Hw Ht. intros. rewrite unlink_comm. unfold entry_at. by rewrite lookup_delete_ne. Qed.

(** Nothing hangs off an empty table. *)
Lemma below_empty p : (i :: p0) `suffix_of` p -> p <> i :: p0 -> tbl h p = None.
Proof using Hw Hempty.
  intros [k ->] Hne. destruct k as [|j k _] using rev_ind; [done|].
  rewrite <- app_assoc. eapply tbl_suffix_none; [|by exists k].
  cbn [app tbl]. cbn [tbl] in Hw. rewrite Hw. cbn [mbind option_bind]. unfold child.
  destruct (entry_at h w j) as [e|] eqn:E; [|done]. by rewrite (Hempty _ _ E).
Qed.

Lemma tbl_unlink p : tbl h2 p = if decide (p = i :: p0) then None else tbl h p.
Proof using All.
  assert (forall q, ~ (i :: p0) `suffix_of` q -> tbl h2 q = tbl h q) as Hout.
  { intros q Hq. rewrite <- (tbl_update_outside h p0 v0 t i 0 Hok Hv0 Ht Hi q Hq). fold h1.
    induction q as [|j q IH]; [done|]. cbn [tbl].
    assert (~ (i :: p0) `suffix_of` q) as Hq' by (intros Hs; by apply Hq, suffix_cons_r).
    rewrite IH by done. destruct (tbl h1 q) as [v|] eqn:Ev; [|done]. cbn [mbind option_bind]. unfold child.
    rewrite unlink_entry; [done|]. intros ->.
    unfold h1 in Ev. rewrite (tbl_update_outside h p0 v0 t i 0 Hok Hv0 Ht Hi q Hq') in Ev.
    apply Hq'. by rewrite (t_inj _ Hok _ _ _ Ev Hw). }
  destruct (decide ((i :: p0) `suffix_of` p)) as [Hs|Hs].
  - rewrite (tbl_suffix_none h2 (i :: p0) p); [|cbn [tbl]|done].
    { destruct (decide _); [done|]. by rewrite below_empty. }
    rewrite Hout, Hv0; [|intros Hk%suffix_length; simpl in Hk; lia].
    cbn [mbind option_bind]. unfold child. rewrite unlink_entry by apply unlink_neq. unfold h1.
    by rewrite (entry_at_update h p0 v0 t i 0 Hok Hv0 Ht Hi), decide_True.
  - rewrite Hout by done. rewrite decide_False; [done|]. by intros ->.
Qed.

Lemma unlink_ok : tables_ok h2.
Proof using All.
  assert (forall p v, p <> i :: p0 -> tbl h p = Some v -> v <> w) as Hnw.
  { intros p v Hp Hv ->. apply Hp. by eapply (t_inj _ Hok). }
  split.
  - intros p v. rewrite tbl_unlink. destruct (decide _) as [->|Hp]; [done|]. intros Hv.
    rewrite unlink_comm, lookup_delete_ne by (apply not_eq_sym; eauto).
    eapply page_update; done || (unfold u64; lia).
  - intros p v j e. rewrite tbl_unlink. destruct (decide _) as [->|Hp]; [done|]. intros Hv.
    rewrite unlink_entry by eauto. unfold h1. rewrite (entry_at_update h p0 v0 t i 0 Hok Hv0 Ht Hi).
    destruct (decide _) as [[-> ->]|]; [by intros [= <-]|]. by apply (t_link _ Hok).
  - intros p q v. rewrite !tbl_unlink. destruct (decide _), (decide _); try done. by apply (t_inj _ Hok).
  - intros v t' Ht'. rewrite unlink_comm in Ht'.
    destruct (decide (v = w)) as [->|Hv]; [by rewrite lookup_delete_eq in Ht'|].
    rewrite lookup_delete_ne in Ht' by done. unfold h1 in Ht'.
    assert (is_Some (h !! v)) as [t2 Ht2].
    { destruct (decide (v = v0)) as [->|]; [eauto|]. rewrite lookup_insert_ne in Ht' by done. eauto. }
    destruct (t_own _ Hok _ _ Ht2) as [p Hp]. exists p. rewrite tbl_unlink, decide_False; [done|].
    intros ->. congruence.
Qed.

Lemma walk_unlink va : walk h2 va = walk h va.
Proof using All.
  pose proof (tbl_depth _ _ _ Hw) as Hd. simpl in Hd.
  destruct (decide (path va (S (length p0)) = i :: p0)) as [Hp|Hp].
  - assert (exists e, entry_at h w (level_index (3 - S (length p0)) va) = Some e) as [e He].
    { destruct (t_page _ Hok _ _ Hw) as (t' & ? & ? & _).
      destruct (entry_at_table h w t' (level_index (3 - S (length p0)) va)) as (e & ? & _); eauto using level_index_range. }
    pose proof (Hempty _ _ He) as ->.
    rewrite (walk_entry h va (S (length p0)) w 0); [|lia|by rewrite Hp|done|by left].
    cbn [path] in Hp. injection Hp as Ei Ep.
    rewrite (walk_entry h2 va (length p0) v0 0); [done|lia| | |by left].
    + rewrite Ep, tbl_unlink, decide_False; [done|]. intros E%(f_equal length). simpl in E. lia.
    + rewrite Ei, unlink_entry by apply unlink_neq. unfold h1.
      by rewrite (entry_at_update h p0 v0 t i 0 Hok Hv0 Ht Hi), decide_True.
  - apply walk_agree; [done..|]. intros n v Hn Hv.
    assert (path va n <> i :: p0) as Hne.
    { intros E. apply Hp. pose proof (f_equal length E) as El. rewrite length_path in El. simpl in El. by subst n. }
    rewrite unlink_entry by (intros ->; apply Hne; by eapply (t_inj _ Hok)).
    unfold h1. rewrite (entry_at_update h p0 v0 t i 0 Hok Hv0 Ht Hi).
    destruct (decide _) as [[-> Hj]|]; [|done]. destruct Hp.
    assert (path va n = p0) as <- by (by eapply (t_inj _ Hok)). rewrite length_path. cbn [path]. by rewrite Hj.
Qed.
End Unlink.
End Tables.
