(* ===== verification/EptProofs.v ===== *)
(** * Correctness of the EPT memory map

    The operations of [EptMmap.v] against the walk of [EptTables.v]: what each
    does to the mapping of every address, that the tables stay a tree whose
    pages are exactly the pages taken from the memory manager, and which
    failures are possible. *)
From S2P Require Import Prelude Bits EptEntry PageSource EptMmap EptTables.

Section EptProofs.
Context {A : Type} `{PageSourceLaws A}.
Local Open Scope vmm_scope.

Notation state := (mmap A).

(** ** The three table functions are one *)

Definition cache (l : nat) (s : state) : tpair :=
  match l with 0%nat => m_pt s | 1%nat => m_pd s | 2%nat => m_pdpt s | _ => m_pml4 s end.

Definition with_cache (l : nat) (s : state) (p : tpair) : state :=
  match l with 0%nat => with_pt s p | 1%nat => with_pd s p | 2%nat => with_pdpt s p | _ => with_pml4 s p end.

(** The entry that points to the table at [phys]. *)
Definition link_entry (e phys : Z) : Z :=
  enable pml4.execute_access (enable pml4.write_access (enable pml4.read_access
    (field_set pml4.phys_addr e phys))).

Definition map_tbl (l : nat) (i : Z) : M state unit :=
  s <- get ;;
  entry <- span_at (cache (S l) s) i ;;
  e <- read entry ;;
  if negb (e =? 0) then
    if phys_addr (cache l s) =? frame_of e then ret tt
    else p <- phys_to_pair (frame_of e) 512 ;; modify (fun s => with_cache l s p)
  else
    p <- allocate 512 ;;
    modify (fun s => with_cache l s p) ;;;
    write entry (link_entry e (phys_addr p)).

Lemma map_pdpt_tbl i : map_pdpt i = map_tbl 2 i.
Proof. done. Qed.
Lemma map_pd_tbl i : map_pd i = map_tbl 1 i.
Proof. done. Qed.
Lemma map_pt_tbl i : map_pt i = map_tbl 0 i.
Proof. done. Qed.

Lemma heap_with_cache l s p : heap (with_cache l s p) = heap s.
Proof. by destruct l as [|[|[|l]]]. Qed.
Lemma pool_with_cache l s p : pool (with_cache l s p) = pool s.
Proof. by destruct l as [|[|[|l]]]. Qed.
Lemma cache_with_cache_eq l s p : cache l (with_cache l s p) = p.
Proof. by destruct l as [|[|[|l]]]. Qed.
Lemma cache_with_cache_ne l l' s p : l <> l' -> (l <= 3)%nat -> (l' <= 3)%nat ->
  cache l' (with_cache l s p) = cache l' s.
Proof. intros. destruct l as [|[|[|[|l]]]], l' as [|[|[|[|l']]]]; done || lia. Qed.
Lemma cache_with_heap l s h : cache l (with_heap s h) = cache l s.
Proof. by destruct l as [|[|[|l]]]. Qed.
Lemma cache_with_pool l s a : cache l (with_pool s a) = cache l s.
Proof. by destruct l as [|[|[|l]]]. Qed.

(** ** The entry that links a table *)

Lemma link_entry_spec e phys : u64 e -> page_addr phys ->
  u64 (link_entry e phys) /\ link_entry e phys <> 0 /\ frame_of (link_entry e phys) = phys /\
  is_enabled pdpt.ps (link_entry e phys) = is_enabled pdpt.ps e.
Proof.
  intros He Hp. unfold link_entry, frame_of.
  assert (forall b m, 0 <= b < 12 -> flag_wf (Flag m b)) as Hwf by (unfold flag_wf; simpl; lia).
  assert (u64 (field_set pml4.phys_addr e phys)) by (eapply u64_field_set; [done|apply phys_addr_mask_is]).
  split_and!.
  - by repeat apply u64_enable.
  - apply enable_nonzero, Hwf. lia.
  - erewrite !field_get_enable; try apply phys_addr_mask_is; try (apply Hwf; lia); try (simpl; lia).
    by apply phys_addr_get_set.
  - rewrite !is_enabled_enable by (apply Hwf; lia). simpl.
    erewrite is_enabled_field_set; [|done|apply Hwf; lia|apply phys_addr_mask_is|simpl; lia]. done.
Qed.

(** ** Invariant *)

(** [others]: the pages in use that are not page tables of this map. *)
Record mmap_ok (pv : Z -> option Z) (root : Z) (others : gset Z) (s : state) : Prop := {
  mo_pool : ps_ok (pool s) (others ∪ dom (heap s));
  mo_virt x : ps_virt (pool s) x = pv x;
  mo_root : virt_addr (m_pml4 s) = root /\ num_entries (m_pml4 s) = 512;
  mo_tables : tables_ok pv root (heap s);
  mo_others : others ## dom (heap s);
  mo_cache l : (l <= 2)%nat -> phys_addr (cache l s) <> 0 ->
    num_entries (cache l s) = 512 /\ pv (phys_addr (cache l s)) = Some (virt_addr (cache l s));
}.

Section Ops.
Context (pv : Z -> option Z) (root : Z) (others : gset Z).
Notation ok := (mmap_ok pv root others).
Notation tbl := (tbl pv root).
Notation walk := (walk pv root).

(** The table of level [l] in use is the one at path [p]. *)
Definition at_table (l : nat) (p : list Z) (s : state) : Prop :=
  tbl (heap s) p = Some (virt_addr (cache l s)) /\ num_entries (cache l s) = 512.

Lemma span_at_ok p i (s : state) : num_entries p = 512 -> 0 <= i < 512 ->
  span_at p i s = Ok (virt_addr p, i) s.
Proof. intros Hn Hi. unfold span_at. rewrite Hn. by replace ((0 <=? i) && (i <? 512)) with true by lia. Qed.

Lemma read_ok (s : state) v i e : 0 <= i -> entry_at (heap s) v i = Some e -> read (v, i) s = Ok e s.
Proof. intros Hi. unfold entry_at, read. replace (0 <=? i) with true by lia. simpl. by intros ->. Qed.

(** The entry a table function looks at. *)
Lemma at_entry l p s i : ok s -> at_table l p s -> 0 <= i < 512 ->
  exists t e, heap s !! virt_addr (cache l s) = Some t /\ length t = 512%nat /\ Forall u64 t /\
    entry_at (heap s) (virt_addr (cache l s)) i = Some e /\ u64 e.
Proof.
  intros Hok [Ht _] Hi. destruct (t_page _ _ _ (mo_tables _ _ _ _ Hok) _ _ Ht) as (t & Hh & Hl & Hu).
  destruct (entry_at_table (heap s) _ t i Hh Hl Hi) as (e & He & He').
  exists t, e. split_and!; try done. by eapply Forall_lookup_1.
Qed.

(** A changed heap and memory manager under the same cached tables. *)
Lemma mmap_ok_cache l s p : ok s -> (l <= 2)%nat ->
  num_entries p = 512 -> pv (phys_addr p) = Some (virt_addr p) -> ok (with_cache l s p).
Proof.
  intros [] Hl Hn Hp. split; rewrite ?heap_with_cache, ?pool_with_cache; try done.
  - by destruct l as [|[|[|l]]]; [..|lia].
  - intros l' Hl'. destruct (decide (l = l')) as [->|].
    + by rewrite cache_with_cache_eq.
    + rewrite cache_with_cache_ne by (done || lia). by apply mo_cache0.
Qed.

(** What a table function leaves alone: the mapping, every table but the one at
    [q0] that it enters or creates, and the other cached tables. *)
Record grown (l : nat) (q0 : list Z) (s s' : state) : Prop := {
  gr_ok : ok s';
  gr_tbl q v : tbl (heap s) q = Some v -> tbl (heap s') q = Some v;
  gr_walk va : walk (heap s') va = walk (heap s) va;
  gr_cache l' : (l' <= 3)%nat -> l' <> l -> cache l' s' = cache l' s;
  gr_only q : q <> q0 -> tbl (heap s') q = tbl (heap s) q;
}.

(** Entering an existing lower table. *)
Lemma map_tbl_enter l p s i e : (l <= 2)%nat -> (length p = 2 - l)%nat -> ok s ->
  at_table (S l) p s -> 0 <= i < 512 -> entry_at (heap s) (virt_addr (cache (S l) s)) i = Some e ->
  e <> 0 -> large (S l) e = false ->
  exists s', map_tbl l i s = Ok tt s' /\ grown l (i :: p) s s' /\ at_table l (i :: p) s' /\ heap s' = heap s.
Proof.
  intros Hl Hp Hok Hat Hi He Hnz Hlg. pose proof Hat as [Ht Hn]. pose proof (mo_tables _ _ _ _ Hok) as Htb.
  assert (3 - length p = S l)%nat as Hlen by lia.
  destruct (t_link _ _ _ Htb _ _ _ _ Ht He Hnz) as [Hf [w Hw]]; [by rewrite Hlen|].
  assert (tbl (heap s) (i :: p) = Some w) as Hc.
  { cbn [EptTables.tbl]. rewrite Ht. cbn [mbind option_bind]. unfold child. rewrite He, Hlen.
    cbn [mbind option_bind]. rewrite Hlg. by replace (e =? 0) with false by lia. }
  unfold map_tbl. rewrite bind_get. erewrite bind_ok by (by apply span_at_ok).
  erewrite bind_ok by (apply read_ok; [lia|done]). replace (e =? 0) with false by lia. cbn [negb].
  destruct (Z.eqb_spec (phys_addr (cache l s)) (frame_of e)) as [E|E].
  - exists s. destruct (mo_cache _ _ _ _ Hok l Hl) as [Hn' Hv']; [congruence|].
    split_and!; try done. split; [|done]. rewrite Hc, <- Hw, <- E. done.
  - unfold phys_to_pair, physint_to_virtptr, bind. rewrite (mo_virt _ _ _ _ Hok), Hw. cbn [ret modify].
    exists (with_cache l s (Pair w 512 (frame_of e))). split; [done|]. rewrite heap_with_cache.
    split_and!; [|split; [rewrite heap_with_cache|]; by rewrite cache_with_cache_eq|done].
    split; rewrite ?heap_with_cache; try done; [by apply mmap_ok_cache|].
    intros l' Hl' Hne. apply cache_with_cache_ne; lia || done.
Qed.

(** Creating a lower table. *)
Lemma map_tbl_create l p s i : (l <= 2)%nat -> (length p = 2 - l)%nat -> ok s ->
  at_table (S l) p s -> 0 <= i < 512 ->
  entry_at (heap s) (virt_addr (cache (S l) s)) i = Some 0 ->
  (map_tbl l i s = Err null_deref s /\ ps_alloc (pool s) = None) \/
  exists s', map_tbl l i s = Ok tt s' /\ grown l (i :: p) s s' /\ at_table l (i :: p) s'.
Proof.
  intros Hl Hp Hok Hat Hi He. pose proof Hat as [Ht Hn]. pose proof (mo_tables _ _ _ _ Hok) as Htb.
  destruct (at_entry _ _ _ i Hok Hat Hi) as (t & e & Hh & Hlt & Hut & He' & _). simplify_eq.
  unfold map_tbl. rewrite bind_get. erewrite bind_ok by (by apply span_at_ok).
  erewrite bind_ok by (apply read_ok; [lia|done]). cbn [Z.eqb negb].
  destruct (ps_alloc (pool s)) as [[w a']|] eqn:Ea.
  2: { left. split; [|done]. unfold allocate, alloc_page, bind. by rewrite Ea. }
  right.
  destruct (ps_alloc_ok _ _ _ _ (mo_pool _ _ _ _ Hok) Ea) as (Hnew & Hok' & Hvirt & Hphys).
  destruct (ps_live_phys a' _ w Hok') as (ph & Hph & Hpv & Hpa & Hp0); [set_solver|].
  rewrite Hvirt, (mo_virt _ _ _ _ Hok) in Hpv.
  destruct (link_entry_spec 0 ph) as (Lu & Lnz & Lf & Lps); [unfold u64; lia|done|].
  assert (heap s !! w = None) as Hw.
  { apply not_elem_of_dom. intros Hd. apply Hnew. set_solver. }
  assert (3 - length p = S l)%nat as Hlen by lia.
  assert (large (3 - length p) (link_entry 0 ph) = false) as Hlg.
  { rewrite Hlen. destruct l as [|[|l]]; [exact Lps|exact Lps|done]. }
  assert (virt_addr (cache (S l) s) <> w) as Hvw by congruence.
  set (h2 := <[virt_addr (cache (S l) s) := <[Z.to_nat i := link_entry 0 ph]> t]> (<[w := zero_page]> (heap s))).
  exists (with_heap (with_cache l (with_pool s a') (Pair w 512 ph)) h2).
  rewrite <- Lf in Hpv, Hp0.
  pose proof (link_ok _ _ _ _ _ _ _ _ w Htb Ht Hh Hi He Hw Lnz Lu Hlg Hpv Hp0) as Hok2.
  pose proof (tbl_link _ _ _ _ _ _ _ _ w Htb Ht Hh Hi He Hw Lnz Lu Hlg Hpv Hp0) as Htbl2.
  pose proof (walk_link _ _ _ _ _ _ _ _ w Htb Ht Hh Hi He Hw Lnz Lu Hlg Hpv Hp0) as Hwalk2.
  fold h2 in Hok2, Htbl2, Hwalk2. rewrite Lf in Hpv, Hp0.
  split_and!.
  - unfold allocate, alloc_page, virtptr_to_physint, bind. rewrite Ea. cbn [pool with_heap with_pool].
    rewrite Hph. cbn [ret modify]. unfold write. rewrite heap_with_cache. cbn [fst snd heap with_heap with_pool].
    rewrite lookup_insert_ne, Hh by congruence. cbn [phys_addr]. f_equal. by destruct l as [|[|[|l]]].
  - split.
    + split; cbn [heap with_heap pool]; rewrite ?pool_with_cache; cbn [pool with_pool]; try done.
      * replace (others ∪ dom h2) with ({[w]} ∪ (others ∪ dom (heap s))); [done|].
        assert (virt_addr (cache (S l) s) ∈ dom (heap s)) by (by eapply elem_of_dom_2).
        unfold h2. rewrite !dom_insert_L. set_solver.
      * intros x. by rewrite Hvirt, (mo_virt _ _ _ _ Hok).
      * pose proof (mo_root _ _ _ _ Hok). by destruct l as [|[|[|l]]]; [..|lia].
      * pose proof (mo_others _ _ _ _ Hok). unfold h2. rewrite !dom_insert_L.
        assert (virt_addr (cache (S l) s) ∈ dom (heap s)) by (by eapply elem_of_dom_2). set_solver.
      * intros l' Hl'. rewrite cache_with_heap. destruct (decide (l = l')) as [->|].
        -- by rewrite cache_with_cache_eq.
        -- rewrite cache_with_cache_ne, cache_with_pool by (done || lia). by apply (mo_cache _ _ _ _ Hok).
    + intros q v Hq. cbn [heap with_heap]. rewrite Htbl2. destruct (decide _) as [->|]; [|done].
      by rewrite (link_child_none _ _ _ _ _ _ Ht He) in Hq.
    + done.
    + intros l' Hl' Hne. by rewrite cache_with_heap, cache_with_cache_ne, cache_with_pool by (done || lia).
    + intros q Hq. cbn [heap with_heap]. rewrite Htbl2. by rewrite decide_False.
  - split; rewrite cache_with_heap, cache_with_cache_eq; [|done]. cbn [heap with_heap virt_addr].
    by rewrite Htbl2, decide_True.
Qed.

Lemma map_tbl_spec l p s i : (l <= 2)%nat -> (length p = 2 - l)%nat -> ok s ->
  at_table (S l) p s -> 0 <= i < 512 ->
  (forall e, entry_at (heap s) (virt_addr (cache (S l) s)) i = Some e -> e = 0 \/ large (S l) e = false) ->
  (map_tbl l i s = Err null_deref s /\ ps_alloc (pool s) = None) \/
  exists s', map_tbl l i s = Ok tt s' /\ grown l (i :: p) s s' /\ at_table l (i :: p) s'.
Proof.
  intros Hl Hp Hok Hat Hi Hnl.
  destruct (at_entry _ _ _ i Hok Hat Hi) as (t & e & _ & _ & _ & He & _).
  destruct (decide (e = 0)) as [->|Hnz]; [by apply (map_tbl_create l p)|].
  destruct (Hnl e He) as [?|Hlg]; [done|]. right.
  destruct (map_tbl_enter l p s i e) as (s' & ? & ? & ? & _); eauto.
Qed.

(** A state with the same mapping and at least the same tables. *)
Record same_map (s s' : state) : Prop := {
  sm_ok : ok s';
  sm_tbl q v : tbl (heap s) q = Some v -> tbl (heap s') q = Some v;
  sm_walk va : walk (heap s') va = walk (heap s) va;
}.

Lemma same_map_refl s : ok s -> same_map s s.
Proof. by split. Qed.

Lemma same_map_trans s1 s2 s3 : same_map s1 s2 -> same_map s2 s3 -> same_map s1 s3.
Proof. intros [] []. split; [done|auto|]. intros va. congruence. Qed.

(** The one failure of the table functions: the memory manager has no page
    left; the mapping is as before. *)
Definition oom {B} (o : outcome state B) (s : state) : Prop :=
  exists s1, o = Err null_deref s1 /\ ps_alloc (pool s1) = None /\ same_map s s1.

Lemma oom_trans {B} (o : outcome state B) s s' : same_map s s' -> oom o s' -> oom o s.
Proof. intros Hs (s1 & ? & ? & ?). exists s1. eauto using same_map_trans. Qed.

Lemma at_root s : ok s -> at_table 3 [] s.
Proof. intros Hok. destruct (mo_root _ _ _ _ Hok) as [E ?]. split; [simpl; by rewrite E|done]. Qed.

(** One level of a walk: enter or create the table of level [l], then take a
    reference to the entry of [va] in it. *)
Definition stage_in {B} (l : nat) (va : Z) (k : tpair -> eref -> M state B) : M state B :=
  map_tbl l (level_index (S l) va) ;;;
  s <- get ;;
  r <- span_at (cache l s) (level_index l va) ;;
  k (cache l s) r.

Definition stage {B} (l : nat) (va : Z) (k : eref -> M state B) : M state B :=
  stage_in l va (fun _ => k).

Lemma path_below l va : (l <= 2)%nat -> level_index (S l) va :: path va (2 - l) = path va (3 - l).
Proof. intros Hl. replace (3 - l)%nat with (S (2 - l)) by lia. cbn [path]. by replace (3 - (2 - l))%nat with (S l) by lia. Qed.

Lemma stage_in_spec {B} l va (k : tpair -> eref -> M state B) s : (l <= 2)%nat -> ok s ->
  at_table (S l) (path va (2 - l)) s ->
  (forall e, entry_at (heap s) (virt_addr (cache (S l) s)) (level_index (S l) va) = Some e ->
     e = 0 \/ large (S l) e = false) ->
  oom (stage_in l va k s) s \/
  exists s' e, stage_in l va k s = k (cache l s') (virt_addr (cache l s'), level_index l va) s' /\
    same_map s s' /\ at_table l (path va (3 - l)) s' /\
    entry_at (heap s') (virt_addr (cache l s')) (level_index l va) = Some e /\ u64 e /\
    (forall l', (l' <= 3)%nat -> l' <> l -> cache l' s' = cache l' s) /\
    forall q, q <> path va (3 - l) -> tbl (heap s') q = tbl (heap s) q.
Proof.
  intros Hl Hok Hat Hnl. unfold stage_in. rewrite <- path_below by lia.
  destruct (map_tbl_spec l (path va (2 - l)) s (level_index (S l) va)) as [[Herr Ha]|(s' & Hs' & Hg & Hat')];
    try done; [by rewrite length_path|apply level_index_range|left|right].
  - exists s. unfold bind at 1. rewrite Herr. eauto using same_map_refl.
  - destruct (at_entry _ _ _ (level_index l va) (gr_ok _ _ _ _ Hg) Hat') as (t & e & _ & _ & _ & He & Hu);
      [apply level_index_range|].
    exists s', e. unfold bind at 1. rewrite Hs', bind_get.
    erewrite bind_ok by (apply span_at_ok; [apply Hat'|apply level_index_range]).
    destruct Hg. by split_and!.
Qed.

Lemma stage_spec {B} l va (k : eref -> M state B) s : (l <= 2)%nat -> ok s ->
  at_table (S l) (path va (2 - l)) s ->
  (forall e, entry_at (heap s) (virt_addr (cache (S l) s)) (level_index (S l) va) = Some e ->
     e = 0 \/ large (S l) e = false) ->
  oom (stage l va k s) s \/
  exists s' e, stage l va k s = k (virt_addr (cache l s'), level_index l va) s' /\
    same_map s s' /\ at_table l (path va (3 - l)) s' /\
    entry_at (heap s') (virt_addr (cache l s')) (level_index l va) = Some e /\ u64 e /\
    (forall l', (l' <= 3)%nat -> l' <> l -> cache l' s' = cache l' s) /\
    forall q, q <> path va (3 - l) -> tbl (heap s') q = tbl (heap s) q.
Proof. apply stage_in_spec. Qed.

(** What an entry found by the walk of [va] says about the walk. *)
Lemma at_walk l va s e : (l <= 3)%nat -> at_table l (path va (3 - l)) s ->
  entry_at (heap s) (virt_addr (cache l s)) (level_index l va) = Some e ->
  e = 0 \/ large l e = true -> walk (heap s) va = if e =? 0 then None else Some (l, e).
Proof.
  intros Hl [Ht _] He Hc. assert (3 - (3 - l) = l)%nat as E by lia.
  pose proof (walk_entry pv root (heap s) va (3 - l) _ e ltac:(lia) Ht) as Hw. rewrite E in Hw. auto.
Qed.

Lemma same_entry_inv l va va' : (l <= 3)%nat -> same_entry l va va' ->
  path va' (3 - l) = path va (3 - l) /\ level_index l va' = level_index l va.
Proof.
  intros Hl Hs. unfold same_entry in Hs. replace (4 - l)%nat with (S (3 - l)) in Hs by lia.
  cbn [path] in Hs. replace (3 - (3 - l))%nat with l in Hs by lia. by injection Hs.
Qed.

(** The same for every address that goes through the entry. *)
Lemma at_walk_same l va va' s e : (l <= 3)%nat -> at_table l (path va (3 - l)) s ->
  entry_at (heap s) (virt_addr (cache l s)) (level_index l va) = Some e ->
  e = 0 \/ large l e = true -> same_entry l va va' ->
  walk (heap s) va' = if e =? 0 then None else Some (l, e).
Proof.
  intros Hl Hat He Hc [E1 E2]%same_entry_inv; [|done]. rewrite <- E1 in Hat. rewrite <- E2 in He.
  by apply at_walk.
Qed.

(** Writing a leaf or empty entry where there was a leaf or empty one. *)
Lemma write_leaf l va s e0 e : (l <= 3)%nat -> ok s -> at_table l (path va (3 - l)) s ->
  entry_at (heap s) (virt_addr (cache l s)) (level_index l va) = Some e0 ->
  e0 = 0 \/ large l e0 = true -> e = 0 \/ large l e = true -> u64 e ->
  exists s', write (virt_addr (cache l s), level_index l va) e s = Ok tt s' /\ ok s' /\
    (forall va', walk (heap s') va' =
      if decide (same_entry l va va') then (if e =? 0 then None else Some (l, e)) else walk (heap s) va') /\
    (forall q, tbl (heap s') q = tbl (heap s) q) /\
    (forall l', cache l' s' = cache l' s) /\ pool s' = pool s.
Proof.
  intros Hl Hok Hat He0 Hc0 Hc Hu. pose proof (level_index_range l va) as Hi.
  destruct (at_entry _ _ _ _ Hok Hat Hi) as (t & e1 & Hh & _ & _ & He1 & _). simplify_eq.
  pose proof Hat as [Ht Hn]. pose proof (mo_tables _ _ _ _ Hok) as Htb.
  assert (3 - length (path va (3 - l)) = l)%nat as Hlen by (rewrite length_path; lia).
  assert ((e =? 0) || large (3 - length (path va (3 - l))) e = true) as Hc'.
  { rewrite Hlen. destruct Hc as [->| ->]; [done|apply orb_true_r]. }
  assert (child pv (heap s) (3 - length (path va (3 - l))) (virt_addr (cache l s)) (level_index l va) = None) as Hch.
  { unfold child. rewrite He0, Hlen. cbn [mbind option_bind]. destruct Hc0 as [->| ->]; [done|by rewrite orb_true_r]. }
  unfold write. cbn [fst snd]. rewrite Hh. eexists. split; [done|]. cbn [heap with_heap]. split_and!.
  - split; cbn [heap with_heap pool]; rewrite ?dom_insert_lookup_L by eauto; try apply Hok.
    by eapply update_leaf_ok.
  - intros va'. assert (3 - (3 - l) = l)%nat as E by lia.
    pose proof (walk_update_leaf pv root (heap s) (3 - l) _ t e va va' Htb ltac:(lia) Ht Hh) as Hw.
    rewrite E in Hw. auto.
  - intros q. by eapply tbl_update_same.
  - intros l'. apply cache_with_heap.
  - done.
Qed.

(** ** Looking an address up *)

(** The common shape of [unmap], [entry], [virt_to_phys] and [from]: [z l] at an
    empty entry of level [l], [k l] at a large one, [last] at the page table. *)
Definition visit {B} (z : nat -> M state B) (k : nat -> eref -> Z -> M state B)
    (last : eref -> M state B) (va : Z) : M state B :=
  stage 2 va (fun r => e <- read r ;;
    if e =? 0 then z 2%nat else if is_enabled pdpt.ps e then k 2%nat r e
    else stage 1 va (fun r => e <- read r ;;
      if e =? 0 then z 1%nat else if is_enabled pd.ps e then k 1%nat r e
      else stage 0 va last)).

(** Where a lookup of [va] stops: at an entry [e] of level [l] that is empty or
    maps [va], in a state [s'] with the mapping of [s]. *)
Record stops (va : Z) (s s' : state) (l : nat) (e : Z) : Prop := {
  st_level : (l <= 2)%nat;
  st_same : same_map s s';
  st_at : at_table l (path va (3 - l)) s';
  st_entry : entry_at (heap s') (virt_addr (cache l s')) (level_index l va) = Some e;
  st_u64 : u64 e;
  st_leaf : e = 0 \/ large l e = true;
  st_walk : walk (heap s) va = if e =? 0 then None else Some (l, e);
}.

Lemma visit_level l va (s s1 s2 : state) e :
  (l <= 2)%nat -> same_map s s1 -> same_map s1 s2 -> at_table l (path va (3 - l)) s2 ->
  entry_at (heap s2) (virt_addr (cache l s2)) (level_index l va) = Some e -> u64 e ->
  (e = 0 \/ large l e = true -> stops va s s2 l e).
Proof.
  intros Hl H1 H2 Hat He Hu Hc. split; try done.
  - by eapply same_map_trans.
  - rewrite <- (sm_walk _ _ H1), <- (sm_walk _ _ H2). by apply at_walk; [lia|..].
Qed.

Lemma visit_spec {B} (z : nat -> M state B) k last va s : ok s ->
  oom (visit z k last va s) s \/
  exists s' l e, stops va s s' l e /\
    visit z k last va s =
      match l with
      | O => last (virt_addr (cache l s'), level_index l va) s'
      | _ => if e =? 0 then z l s' else k l (virt_addr (cache l s'), level_index l va) e s'
      end.
Proof.
  intros Hok. unfold visit.
  match goal with |- context [stage 2 va ?f] => set (k2 := f) end.
  destruct (stage_spec 2 va k2 s) as [?|(s2 & e2 & -> & Hs2 & Hat2 & He2 & Hu2 & _)];
    [lia|done|by apply at_root|by right|by left|].
  assert (same_map s s) as Hss by (by apply same_map_refl).
  unfold k2. erewrite bind_ok by (apply read_ok; [apply level_index_range|done]).
  destruct (Z.eqb_spec e2 0) as [->|Hz2].
  { right. exists s2, 2%nat, 0. split; [|done]. apply (visit_level 2 va s s); auto. }
  destruct (is_enabled pdpt.ps e2) eqn:Hps2.
  { right. exists s2, 2%nat, e2. replace (e2 =? 0) with false by lia. split; [|done]. apply (visit_level 2 va s s); auto. }
  match goal with |- context [stage 1 va ?f] => set (k1 := f) end.
  destruct (stage_spec 1 va k1 s2) as [?|(s1 & e1 & -> & Hs1 & Hat1 & He1 & Hu1 & _)];
    [lia|apply Hs2|done| |left; by apply (oom_trans _ s s2)|].
  { intros e He. simplify_eq. by right. }
  unfold k1. erewrite bind_ok by (apply read_ok; [apply level_index_range|done]).
  destruct (Z.eqb_spec e1 0) as [->|Hz1].
  { right. exists s1, 1%nat, 0. split; [|done]. apply (visit_level 1 va s s2); auto. }
  destruct (is_enabled pd.ps e1) eqn:Hps1.
  { right. exists s1, 1%nat, e1. replace (e1 =? 0) with false by lia. split; [|done]. apply (visit_level 1 va s s2); auto. }
  pose proof (same_map_trans _ _ _ Hs2 Hs1) as Hs21.
  destruct (stage_spec 0 va last s1) as [?|(s0 & e0 & -> & Hs0 & Hat0 & He0 & Hu0 & _)];
    [lia|apply Hs1|done| |left; by apply (oom_trans _ s s1)|].
  { intros e He. simplify_eq. by right. }
  right. exists s0, 0%nat, e0. split; [|done]. apply (visit_level 0 va s s1); auto with lia.
Qed.

Lemma unmap_visit va : unmap va =
  visit (fun _ => ret tt) (fun _ r _ => write r 0) (fun r => write r 0) va.
Proof. done. Qed.

Lemma entry_visit va : entry va =
  visit (fun l => throw (runtime_error (if decide (l = 2%nat) then "entry: pdpte not mapped" else "entry: pde not mapped")))
    (fun _ r _ => ret r)
    (fun r => e <- read r ;; if e =? 0 then throw (runtime_error "entry: pte not mapped") else ret r) va.
Proof. done. Qed.

Lemma virt_to_phys_visit va : virt_to_phys va =
  visit (fun l => throw (runtime_error (if decide (l = 2%nat) then "virt_to_phys: pdpte not mapped"
                                        else "virt_to_phys: pde not mapped")))
    (fun _ _ e => ret (frame_of e))
    (fun r => e <- read r ;; if e =? 0 then throw (runtime_error "virt_to_phys: pte not mapped")
              else ret (frame_of e)) va.
Proof. done. Qed.

Lemma from_visit va : from va =
  visit (fun l => throw (runtime_error (if decide (l = 2%nat) then "from: pdpte not mapped" else "from: pde not mapped")))
    (fun l _ _ => ret (12 + 9 * Z.of_nat l))
    (fun r => e <- read r ;; if e =? 0 then throw (runtime_error "from: pte not mapped") else ret 12) va.
Proof. done. Qed.

(** The mapping after [unmap] of [va]. *)
Definition unmapped (s : state) (va va' : Z) : option (nat * Z) :=
  match walk (heap s) va with
  | Some (l, _) => if decide (same_entry l va va') then None else walk (heap s) va'
  | None => walk (heap s) va'
  end.

Lemma unmap_spec va s : ok s ->
  oom (unmap va s) s \/
  exists s', unmap va s = Ok tt s' /\ ok s' /\
    forall va', walk (heap s') va' = unmapped s va va'.
Proof.
  intros Hok. rewrite unmap_visit.
  destruct (visit_spec (fun _ => ret tt) (fun _ r _ => write r 0) (fun r => write r 0) va s Hok)
    as [?|(s' & l & e & [] & ->)]; [by left|right].
  unfold unmapped. rewrite st_walk0.
  destruct (write_leaf l va s' e 0) as (s2 & Hs2 & Hok2 & Hw2 & _);
    [lia|apply st_same0|done|done|done|by left|unfold u64; lia|].
  assert (forall va', walk (heap s2) va' = match (if e =? 0 then None else Some (l, e)) with
    | Some (l', _) => if decide (same_entry l' va va') then None else walk (heap s) va'
    | None => walk (heap s) va' end) as Hw.
  { intros va'. rewrite Hw2, <- (sm_walk _ _ st_same0). destruct (Z.eqb_spec e 0) as [->|]; [|done].
    destruct (decide _) as [Hs|]; [|done]. symmetry. by apply (at_walk_same l va va' s' 0); [lia|..]. }
  destruct l as [|l]; [by exists s2|]. destruct (Z.eqb_spec e 0) as [->|]; [|by exists s2].
  exists s'. split_and!; [done|apply st_same0|apply st_same0].
Qed.

Lemma lookup_spec va s : ok s ->
  (oom (entry va s) s \/ exists s', same_map s s' /\
    match walk (heap s) va with
    | Some (l, e) => exists v, entry va s = Ok (v, level_index l va) s' /\
        tbl (heap s') (path va (3 - l)) = Some v /\ entry_at (heap s') v (level_index l va) = Some e
    | None => exists what, entry va s = Err (runtime_error what) s'
    end) /\
  (oom (virt_to_phys va s) s \/ exists s', same_map s s' /\
    match walk (heap s) va with
    | Some (l, e) => virt_to_phys va s = Ok (frame_of e) s'
    | None => exists what, virt_to_phys va s = Err (runtime_error what) s'
    end) /\
  (oom (from va s) s \/ exists s', same_map s s' /\
    match walk (heap s) va with
    | Some (l, e) => from va s = Ok (12 + 9 * Z.of_nat l) s'
    | None => exists what, from va s = Err (runtime_error what) s'
    end).
Proof.
  intros Hok. rewrite entry_visit, virt_to_phys_visit, from_visit.
  split; [|split]; lazymatch goal with |- context [visit ?z ?k ?last ?a ?st] =>
    destruct (visit_spec z k last a st Hok) as [?|(s' & l & e & [] & Hv)]; [by left|right];
    rewrite Hv; exists s'; split; [done|]; rewrite st_walk0; destruct l as [|l];
    try (erewrite bind_ok by (apply read_ok; [apply level_index_range|done]));
    destruct (Z.eqb_spec e 0) as [->|]; try (by eauto) end.
  all: eexists; split_and!; [done|by destruct st_at0|done].
Qed.

(** ** Mapping *)

(** The entry that maps a page of level [l], written over [e]. *)
Definition leaf_over (l : nat) (e phys : Z) (attr : attr_type) (mt : memory_type) : Z :=
  let e := field_set pt.phys_addr e phys in
  let e := set_attr pt.read_access pt.write_access pt.execute_access attr e in
  let e := set_cache pt.memory_type pt.uncacheable pt.write_combining pt.write_through
             pt.write_protected pt.write_back mt e in
  match l with O => e | _ => enable pd.ps e end.

Definition leaf_entry (l : nat) := leaf_over l 0.

Definition map_leaf (l : nat) (msg : string) (phys : Z) (attr : attr_type) (mt : memory_type)
    (r : eref) : M state eref :=
  e <- read r ;;
  if negb (e =? 0) then throw (runtime_error msg)
  else write r (leaf_over l e phys attr mt) ;;; ret r.

Lemma map_1g_stage va phys attr mt : map_1g va phys attr mt =
  stage 2 va (map_leaf 2 "map_pdpte: map failed, virt / phys map already exists: " phys attr mt).
Proof. done. Qed.

Lemma map_2m_stage va phys attr mt : map_2m va phys attr mt =
  (map_tbl 2 (level_index 3 va) ;;;
   stage 1 va (map_leaf 1 "map_pde: map failed, virt / phys map already exists: " phys attr mt)).
Proof. done. Qed.

Lemma map_4k_stage va phys attr mt : map_4k va phys attr mt =
  (map_tbl 2 (level_index 3 va) ;;; map_tbl 1 (level_index 2 va) ;;;
   stage 0 va (map_leaf 0 "map_pte: map failed, virt / phys map already exists: " phys attr mt)).
Proof. done. Qed.

Definition attr_read (a : attr_type) : bool :=
  match a with read_only | read_write | read_execute | read_write_execute => true | _ => false end.
Definition attr_write (a : attr_type) : bool :=
  match a with write_only | read_write | read_write_execute => true | _ => false end.
Definition attr_exec (a : attr_type) : bool :=
  match a with execute_only | read_execute | read_write_execute => true | _ => false end.
Definition memory_type_code (mt : memory_type) : Z :=
  match mt with
  | uncacheable => 0 | write_combining => 1 | write_through => 4 | write_protected => 5 | write_back => 6
  end.

Lemma memory_type_get_set e v : u64 e -> 0 <= v < 8 ->
  field_get pt.memory_type (field_set pt.memory_type e v) = v.
Proof.
  intros He Hv. unfold field_get, field_set, get_bits. cbn [field_mask field_from pt.memory_type].
  unfold shl64, set_bits. bits_ext i Hi.
  rewrite !(testbit_mask _ _ _ _ memory_type_mask_is) by lia.
  destruct (Z.ltb_spec i 3).
  - rewrite <- (Z.mod_small v (2 ^ 3)) by lia. bits_cases.
    all: replace (i + 3 - 3) with i by lia; rewrite ?andb_false_r, ?orb_false_l, ?andb_true_r; done.
  - rewrite <- (Z.mod_small v (2 ^ 3)) by lia. rewrite (Z.mod_pow2_bits_high _ 3 i) by lia. bits_cases.
Qed.

Lemma flag_wf_12 m b : 0 <= b < 12 -> flag_wf (Flag m b).
Proof. unfold flag_wf. simpl. lia. Qed.

Lemma u64_set_attr attr e : u64 e ->
  u64 (set_attr pt.read_access pt.write_access pt.execute_access attr e).
Proof. destruct attr; simpl; auto using u64_enable. Qed.

Lemma set_attr_bits attr e f : flag_wf f ->
  is_enabled f (set_attr pt.read_access pt.write_access pt.execute_access attr e) =
    (flag_from f =? 0) && attr_read attr || (flag_from f =? 1) && attr_write attr
    || (flag_from f =? 2) && attr_exec attr || is_enabled f e.
Proof.
  intros Hf. destruct attr; simpl;
    rewrite ?is_enabled_enable by (done || apply flag_wf_12; lia); simpl;
    rewrite ?andb_false_r, ?andb_true_r, ?orb_false_l, ?orb_assoc; try done;
    destruct (is_enabled f e); rewrite ?orb_true_r, ?orb_false_r; try done; bits_cases.
Qed.

Lemma set_attr_field f attr e b w : mask_is (field_mask f) b w -> 3 <= b ->
  field_get f (set_attr pt.read_access pt.write_access pt.execute_access attr e) = field_get f e.
Proof.
  intros Hm Hb. destruct attr; simpl;
    repeat (erewrite field_get_enable; [|apply flag_wf_12; lia|done|simpl; lia]); done.
Qed.

Lemma set_cache_eq mt e : set_cache pt.memory_type pt.uncacheable pt.write_combining pt.write_through
  pt.write_protected pt.write_back mt e = field_set pt.memory_type e (memory_type_code mt).
Proof. by destruct mt. Qed.

(** The bits of a mapping entry. *)
Lemma leaf_entry_bits l phys attr mt :
  u64 (leaf_entry l phys attr mt) /\
  is_enabled pt.ps (leaf_entry l phys attr mt) = negb (l =? 0)%nat /\
  (page_addr phys -> frame_of (leaf_entry l phys attr mt) = phys) /\
  is_enabled pt.read_access (leaf_entry l phys attr mt) = attr_read attr /\
  is_enabled pt.write_access (leaf_entry l phys attr mt) = attr_write attr /\
  is_enabled pt.execute_access (leaf_entry l phys attr mt) = attr_exec attr /\
  field_get pt.memory_type (leaf_entry l phys attr mt) = memory_type_code mt.
Proof.
  unfold leaf_entry, leaf_over. cbv zeta. rewrite set_cache_eq.
  set (e1 := field_set pt.phys_addr 0 phys).
  set (e2 := set_attr _ _ _ attr e1). set (e3 := field_set pt.memory_type e2 (memory_type_code mt)).
  assert (u64 e1) as U1 by (eapply u64_field_set; [unfold u64; lia|apply phys_addr_mask_is]).
  assert (u64 e2) as U2 by (by apply u64_set_attr).
  assert (u64 e3) as U3 by (eapply u64_field_set; [done|apply memory_type_mask_is]).
  assert (forall f, 0 <= flag_from f < 3 \/ flag_from f = 7 -> is_enabled f e3 =
    (flag_from f =? 0) && attr_read attr || (flag_from f =? 1) && attr_write attr
    || (flag_from f =? 2) && attr_exec attr) as Hbits.
  { intros [m b] Hb. cbn [flag_from] in *. unfold e3. erewrite is_enabled_field_set; [|done|apply flag_wf_12; lia|apply memory_type_mask_is|simpl; lia].
    unfold e2. rewrite set_attr_bits by (apply flag_wf_12; lia). unfold e1.
    erewrite is_enabled_field_set; [|unfold u64; lia|apply flag_wf_12; lia|apply phys_addr_mask_is|simpl; lia].
    rewrite is_enabled_testbit, Z.bits_0 by (apply flag_wf_12; lia). cbn [flag_from]. by rewrite orb_false_r. }
  assert (page_addr phys -> frame_of e3 = phys) as Hf.
  { intros Hp. unfold frame_of, e3. erewrite field_get_set_disjoint; [|done|apply phys_addr_mask_is|apply memory_type_mask_is|lia].
    unfold e2. erewrite set_attr_field; [|apply phys_addr_mask_is|lia]. apply phys_addr_get_set; [unfold u64; lia|done]. }
  assert (field_get pt.memory_type e3 = memory_type_code mt) as Hm.
  { apply memory_type_get_set; [done|]. destruct mt; simpl; lia. }
  assert (forall f, flag_wf f -> flag_from f <> 7 -> is_enabled f (enable pd.ps e3) = is_enabled f e3) as Hps.
  { intros f Hf' Hne. rewrite is_enabled_enable by (done || apply flag_wf_12; lia). simpl. by replace (flag_from f =? 7) with false by lia. }
  destruct l as [|l].
  - split_and!; try done; rewrite Hbits by (simpl; lia); simpl; by rewrite ?orb_false_r.
  - split_and!.
    + by apply u64_enable.
    + rewrite is_enabled_enable by (apply flag_wf_12; lia). done.
    + unfold frame_of. erewrite field_get_enable; [done|apply flag_wf_12; lia|apply phys_addr_mask_is|simpl; lia].
    + rewrite Hps, Hbits by (try apply flag_wf_12; simpl; lia). simpl. by rewrite ?orb_false_r.
    + rewrite Hps, Hbits by (try apply flag_wf_12; simpl; lia). simpl. by rewrite ?orb_false_r.
    + rewrite Hps, Hbits by (try apply flag_wf_12; simpl; lia). done.
    + erewrite field_get_enable; [done|apply flag_wf_12; lia|apply memory_type_mask_is|simpl; lia].
Qed.

(** No page larger than level [l] maps [va]. *)
Definition fits (l : nat) (va : Z) (s : state) : Prop :=
  forall l' e, walk (heap s) va = Some (l', e) -> (l' <= l)%nat.

Lemma fits_not_large l va s e : ok s -> (l <= 2)%nat -> fits l va s ->
  at_table (S l) (path va (2 - l)) s ->
  entry_at (heap s) (virt_addr (cache (S l) s)) (level_index (S l) va) = Some e ->
  e = 0 \/ large (S l) e = false.
Proof.
  intros Hok Hl Hf Hat He. destruct (decide (e = 0)) as [|Hnz]; [by left|right].
  apply not_true_is_false. intros Hlg.
  assert (walk (heap s) va = Some (S l, e)) as Hw.
  { rewrite (at_walk (S l) va s e); [by replace (e =? 0) with false by lia|lia| |done|by right].
    by replace (3 - S l)%nat with (2 - l)%nat by lia. }
  apply Hf in Hw. lia.
Qed.

Lemma fits_same l va s s' : same_map s s' -> fits l va s -> fits l va s'.
Proof. intros Hs Hf l' e. rewrite (sm_walk _ _ Hs). apply Hf. Qed.

Lemma fits_le l l' va s : (l <= l')%nat -> fits l va s -> fits l' va s.
Proof. intros Hl Hf l2 e Hw. apply Hf in Hw. lia. Qed.

(** Going down one level on the way to a mapping. *)
Lemma descend {B} l va (m : M state B) s : (l <= 2)%nat -> ok s -> fits l va s ->
  at_table (S l) (path va (2 - l)) s ->
  oom ((map_tbl l (level_index (S l) va) ;;; m) s) s \/
  exists s', (map_tbl l (level_index (S l) va) ;;; m) s = m s' /\ same_map s s' /\
    at_table l (path va (3 - l)) s' /\ forall q, q <> path va (3 - l) -> tbl (heap s') q = tbl (heap s) q.
Proof.
  intros Hl Hok Hf Hat. rewrite <- path_below by lia.
  destruct (map_tbl_spec l (path va (2 - l)) s (level_index (S l) va)) as [[Herr Ha]|(s' & Hs' & Hg & Hat')];
    try done; [by rewrite length_path|apply level_index_range| |left|right].
  - intros e He. by eapply fits_not_large.
  - exists s. unfold bind. rewrite Herr. eauto using same_map_refl.
  - exists s'. unfold bind. rewrite Hs'. destruct Hg. by split_and!.
Qed.

(** [va] is taken at level [l]: mapped there, or a lower table is in place. *)
Definition taken_at (l : nat) (va : Z) (s : state) : Prop :=
  (exists e, walk (heap s) va = Some (l, e)) \/ exists v, tbl (heap s) (path va (4 - l)) = Some v.

(** The tables that are not on the way of [va] to an entry of level [l] stay. *)
Definition along (l : nat) (va : Z) (s s' : state) : Prop :=
  forall q, (forall n, (n <= 3 - l)%nat -> q <> path va n) -> tbl (heap s') q = tbl (heap s) q.

Lemma along_trans l va s1 s2 s3 : along l va s1 s2 -> along l va s2 s3 -> along l va s1 s3.
Proof. intros H1 H2 q Hq. by rewrite H2, H1. Qed.

Lemma along_step l l' va s s' : (l <= l' <= 3)%nat ->
  (forall q, q <> path va (3 - l') -> tbl (heap s') q = tbl (heap s) q) -> along l va s s'.
Proof. intros Hl H1 q Hq. apply H1, Hq. lia. Qed.

Definition map_result (l : nat) (va phys : Z) (attr : attr_type) (mt : memory_type)
    (o : outcome state eref) (s : state) : Prop :=
  oom o s \/
  (exists s' what, o = Err (runtime_error what) s' /\ same_map s s' /\ taken_at l va s) \/
  exists s' v, o = Ok (v, level_index l va) s' /\ ok s' /\
    entry_at (heap s') v (level_index l va) = Some (leaf_entry l phys attr mt) /\
    ~ taken_at l va s /\ along l va s s' /\
    forall va', walk (heap s') va' =
      if decide (same_entry l va va')
      then (if leaf_entry l phys attr mt =? 0 then None else Some (l, leaf_entry l phys attr mt))
      else walk (heap s) va'.

Lemma taken_same l va s s' : (l <= 3)%nat -> same_map s s' -> along l va s s' -> taken_at l va s' -> taken_at l va s.
Proof.
  intros Hl Hs Ha [[e Hw]|[v Hv]]; [left; exists e; by rewrite <- (sm_walk _ _ Hs)|right].
  exists v. rewrite <- Ha; [done|]. intros n Hn Hq. apply (f_equal length) in Hq. rewrite !length_path in Hq. lia.
Qed.

Lemma map_result_same l va phys attr mt o s s' : (l <= 3)%nat -> same_map s s' -> along l va s s' ->
  map_result l va phys attr mt o s' -> map_result l va phys attr mt o s.
Proof.
  intros Hl Hs Ha [?|[(s1 & what & ? & ? & ?)|(s1 & v & ? & ? & ? & Hn & ? & Hw)]].
  - left. by eapply oom_trans.
  - right. left. exists s1, what. split_and!; try done; [by eapply same_map_trans|by eapply taken_same].
  - right. right. exists s1, v. split_and!; try done.
    + intros [[e Hx]|[w Hx]]; apply Hn; [left; exists e; by rewrite (sm_walk _ _ Hs)|].
      right. exists w. by apply (sm_tbl _ _ Hs).
    + by eapply along_trans.
    + intros va'. by rewrite Hw, (sm_walk _ _ Hs).
Qed.

(** The mapping itself, below a table of level [S l]. *)
Lemma map_leaf_spec l va msg phys attr mt s : (l <= 2)%nat -> ok s -> fits l va s ->
  at_table (S l) (path va (2 - l)) s ->
  map_result l va phys attr mt (stage l va (map_leaf l msg phys attr mt) s) s.
Proof.
  intros Hl Hok Hf Hat.
  destruct (stage_spec l va (map_leaf l msg phys attr mt) s) as [?|(s' & e & -> & Hs & Hat' & He & Hu & _ & Hal)];
    try done; [|by left|].
  { intros e He. by eapply fits_not_large. }
  apply (map_result_same _ _ _ _ _ _ _ s'); [lia|done|by apply (along_step l l); [lia|]|]. pose proof (sm_ok _ _ Hs) as Hok'.
  unfold map_leaf. erewrite bind_ok by (apply read_ok; [apply level_index_range|done]).
  destruct (Z.eqb_spec e 0) as [->|Hnz]; cbn [negb].
  - right. right. destruct (leaf_entry_bits l phys attr mt) as (U & P & _).
    assert (leaf_entry l phys attr mt = 0 \/ large l (leaf_entry l phys attr mt) = true) as Hlg.
    { right. destruct l as [|[|[|l]]]; [done|exact P|exact P|lia]. }
    destruct (write_leaf l va s' 0 (leaf_entry l phys attr mt)) as (s2 & Hs2 & Hok2 & Hw2 & Htb2 & Hc2 & _);
      try done; [lia|by left|].
    exists s2, (virt_addr (cache l s')). split_and!; try done.
    + erewrite bind_ok by exact Hs2. done.
    + pose proof Hat' as [Ht _]. unfold write in Hs2. cbn [fst snd] in Hs2.
      destruct (at_entry _ _ _ _ Hok' Hat' (level_index_range l va)) as (t & e1 & Hh & _).
      rewrite Hh in Hs2. injection Hs2 as <-. cbn [heap with_heap].
      rewrite (entry_at_update pv root (heap s') (path va (3 - l)) _ t _ _ (mo_tables _ _ _ _ Hok') Ht Hh (level_index_range l va)).
      by rewrite decide_True.
    + intros [[e Hw]|[w Hw]].
      * rewrite (at_walk l va s' 0) in Hw; [done|lia|done|done|by left].
      * replace (4 - l)%nat with (S (3 - l)) in Hw by lia. cbn [path EptTables.tbl] in Hw.
        destruct Hat' as [Ht _]. rewrite Ht in Hw. cbn [mbind option_bind] in Hw. unfold child in Hw.
        replace (3 - (3 - l))%nat with l in Hw by lia. by rewrite He in Hw.
    + intros q _. apply Htb2.
  - right. left. exists s', msg. split_and!; [done|by apply same_map_refl|].
    destruct (large l e) eqn:Hlg.
    + left. exists e. rewrite (at_walk l va s' e); [by replace (e =? 0) with false by lia|lia|done|done|by right].
    + right. destruct Hat' as [Ht _].
      assert (3 - length (path va (3 - l)) = l)%nat as Hlen by (rewrite length_path; lia).
      destruct (t_link _ _ _ (mo_tables _ _ _ _ Hok') _ _ _ _ Ht He Hnz) as [_ [w Hw]]; [by rewrite Hlen|].
      exists w. replace (4 - l)%nat with (S (3 - l)) by lia. cbn [path EptTables.tbl].
      rewrite Ht. cbn [mbind option_bind]. replace (3 - (3 - l))%nat with l by lia. unfold child. rewrite He, Hlen.
      cbn [mbind option_bind]. rewrite Hlg. by replace (e =? 0) with false by lia.
Qed.

Lemma map_1g_spec va phys attr mt s : ok s ->
  map_result 2 va phys attr mt (map_1g va phys attr mt s) s.
Proof.
  intros Hok. rewrite map_1g_stage. apply map_leaf_spec; try done; [|by apply at_root].
  intros l e Hw. by apply walk_level in Hw as [? _].
Qed.

Lemma map_2m_spec va phys attr mt s : ok s -> fits 1 va s ->
  map_result 1 va phys attr mt (map_2m va phys attr mt s) s.
Proof.
  intros Hok Hf. rewrite map_2m_stage.
  destruct (descend 2 va (stage 1 va (map_leaf 1 "map_pde: map failed, virt / phys map already exists: "
    phys attr mt)) s) as [?|(s' & -> & Hs & Hat & Hal)]; [lia|done|by apply (fits_le 1); [lia|]|by apply at_root|by left|].
  apply (map_result_same _ _ _ _ _ _ _ s'); [lia|done|by apply (along_step 1 2); [lia|]|].
  apply map_leaf_spec; [lia|apply Hs|by eapply fits_same|done].
Qed.

Lemma map_4k_spec va phys attr mt s : ok s -> fits 0 va s ->
  map_result 0 va phys attr mt (map_4k va phys attr mt s) s.
Proof.
  intros Hok Hf. rewrite map_4k_stage.
  destruct (descend 2 va (map_tbl 1 (level_index 2 va) ;;;
    stage 0 va (map_leaf 0 "map_pte: map failed, virt / phys map already exists: " phys attr mt)) s)
    as [?|(s2 & -> & Hs2 & Hat2 & Hal2)]; [lia|done|by apply (fits_le 0); [lia|]|by apply at_root|by left|].
  apply (map_result_same _ _ _ _ _ _ _ s2); [lia|done|by apply (along_step 0 2); [lia|]|].
  destruct (descend 1 va (stage 0 va (map_leaf 0 "map_pte: map failed, virt / phys map already exists: "
    phys attr mt)) s2) as [?|(s' & -> & Hs & Hat & Hal)];
    [lia|apply Hs2|apply (fits_le 0); [lia|by eapply fits_same]|done|by left|].
  apply (map_result_same _ _ _ _ _ _ _ s'); [lia|done|by apply (along_step 0 1); [lia|]|].
  apply map_leaf_spec; [lia|apply Hs| |done].
  eapply fits_same; [done|]. by eapply fits_same.
Qed.

(** ** Releasing *)

Definition empty_table (s : state) (v : Z) : Prop :=
  forall j e, entry_at (heap s) v j = Some e -> e = 0.

Lemma all_zero_spec p s t : num_entries p = 512 -> heap s !! virt_addr p = Some t ->
  length t = 512%nat ->
  exists b, all_zero p 512 s = Ok b s /\ (b = true <-> empty_table s (virt_addr p)).
Proof.
  intros Hn Ht Hl. unfold all_zero.
  match goal with |- context [?f (seqZ 0 512) true] => set (go := f) end.
  assert (forall l b, (forall i, i ∈ l -> 0 <= i < 512) ->
    exists b', go l b s = Ok b' s /\
      (b' = true <-> b = true /\ forall i e, i ∈ l -> entry_at (heap s) (virt_addr p) i = Some e -> e = 0)) as Hgo.
  { induction l as [|i l IH]; intros b Hr.
    - exists b. split; [done|]. split; [|tauto]. intros ->. split; [done|]. by intros i e Hi%elem_of_nil.
    - destruct (entry_at_table (heap s) _ t i Ht Hl) as (e & He & _); [apply Hr; set_solver|].
      destruct (IH (if negb (e =? 0) then false else b)) as (b' & Hb' & Hiff); [intros; apply Hr; set_solver|].
      exists b'. split.
      + cbn [go]. fold go. erewrite bind_ok by (apply span_at_ok; [done|apply Hr; set_solver]).
        erewrite bind_ok; [exact Hb'|]. apply read_ok; [|done]. assert (0 <= i < 512) by (apply Hr; set_solver). lia.
      + rewrite Hiff. setoid_rewrite elem_of_cons. destruct (Z.eqb_spec e 0) as [->|Hnz]; simpl.
        * split; intros [-> Ha]; (split; [done|]).
          -- intros i' e' [->|Hi'] He'; [congruence|eauto].
          -- eauto.
        * split; intros [? Ha]; [done|]. destruct Hnz. eauto. }
  destruct (Hgo (seqZ 0 512) true) as (b & Hb & Hiff); [intros i ?%elem_of_seqZ; lia|].
  exists b. split; [done|]. rewrite Hiff. unfold empty_table. split.
  - intros [_ Ha] j e He. apply (Ha j); [|done]. apply elem_of_seqZ. pose proof (entry_at_range _ _ _ _ _ Ht Hl He). lia.
  - intros Ha. split; [done|]. eauto.
Qed.

(** The state after [free_page v]. *)
Definition freed (v : Z) (s : state) : state :=
  with_heap (with_pool s (ps_free v (pool s))) (delete v (heap s)).

(** Unlinking an empty table that has just been freed. *)
Lemma unlink_spec l p i s w : (l <= 3)%nat -> ok s -> at_table l p s -> 0 <= i < 512 ->
  tbl (heap s) (i :: p) = Some w -> empty_table s w ->
  exists s', write (virt_addr (cache l s), i) 0 (freed w s) = Ok tt s' /\ ok s' /\
    (forall va, walk (heap s') va = walk (heap s) va) /\
    (forall q, tbl (heap s') q = if decide (q = i :: p) then None else tbl (heap s) q) /\
    (forall l', cache l' s' = cache l' s) /\ entry_at (heap s') (virt_addr (cache l s)) i = Some 0.
Proof.
  intros Hl Hok Hat Hi Hw Hem. pose proof Hat as [Ht Hn]. pose proof (mo_tables _ _ _ _ Hok) as Htb.
  destruct (at_entry _ _ _ i Hok Hat Hi) as (t & e & Hh & _).
  pose proof (unlink_neq _ _ _ _ _ _ _ _ Htb Ht Hh Hw) as Hne.
  assert (w ∈ dom (heap s)) as Hwd.
  { destruct (t_page _ _ _ Htb _ _ Hw) as (tw & Htw & _). by eapply elem_of_dom_2. }
  pose proof (mo_others _ _ _ _ Hok) as Hdis.
  destruct (ps_free_ok (pool s) _ w (mo_pool _ _ _ _ Hok)) as (F1 & F2 & F3); [set_solver|].
  assert (virt_addr (cache l s) ∈ dom (heap s)) as Hvd by (by eapply elem_of_dom_2).
  unfold write, freed. cbn [fst snd heap with_heap]. rewrite lookup_delete_ne, Hh by done.
  eexists. split; [done|]. cbn [heap with_heap with_pool pool]. split_and!.
  - split; cbn [heap with_heap with_pool pool]; try done.
    + rewrite dom_insert_L, dom_delete_L.
      replace (others ∪ ({[virt_addr (cache l s)]} ∪ dom (heap s) ∖ {[w]}))
        with ((others ∪ dom (heap s)) ∖ {[w]}); [done|set_solver].
    + intros x. by rewrite F2, (mo_virt _ _ _ _ Hok).
    + apply Hok.
    + by eapply unlink_ok.
    + rewrite dom_insert_L, dom_delete_L. set_solver.
    + apply Hok.
  - intros va. by eapply walk_unlink.
  - intros q. by eapply tbl_unlink.
  - intros l'. by rewrite !cache_with_heap, cache_with_pool.
  - rewrite (unlink_entry pv root (heap s) p _ t i w) by done.
    rewrite (entry_at_update pv root (heap s) p _ t i 0 Htb Ht Hh Hi). by rewrite decide_True.
Qed.

(** The deepest table on the path of [va] has a non-empty entry. *)
Definition trimmed (va : Z) (s : state) : Prop :=
  exists n v j e, tbl (heap s) (path va n) = Some v /\ entry_at (heap s) v j = Some e /\ e <> 0 /\
    tbl (heap s) (path va (S n)) = None.

(** What releasing the entry of [va] in the table of level [l] does: nothing for
    want of a page; or [va] is unmapped and the table stays, not empty; or [va]
    is unmapped and the table, empty, has been freed. *)
Definition released (l : nat) (va : Z) (o : outcome state bool) (s : state) : Prop :=
  oom o s \/
  exists s1, ok s1 /\ (forall va', walk (heap s1) va' = unmapped s va va') /\
    at_table l (path va (3 - l)) s1 /\
    (forall l', (l < l' <= 3)%nat -> cache l' s1 = cache l' s) /\
    (forall q v, (length q <= 3 - l)%nat -> tbl (heap s) q = Some v -> tbl (heap s1) q = Some v) /\
    (o = Ok false s1 /\ trimmed va s1 \/
     o = Ok true (freed (virt_addr (cache l s1)) s1) /\ empty_table s1 (virt_addr (cache l s1))).

(** The common end of the release functions: the entry is empty by now, and the
    table is freed if all of it is. *)
Definition finish (p : tpair) : M state bool :=
  empty <- all_zero p 512 ;; if empty : bool then free p ;;; ret true else ret false.

Lemma finish_spec l va s s1 : (l <= 3)%nat -> ok s1 -> at_table l (path va (3 - l)) s1 ->
  entry_at (heap s1) (virt_addr (cache l s1)) (level_index l va) = Some 0 ->
  (forall va', walk (heap s1) va' = unmapped s va va') ->
  (forall l', (l < l' <= 3)%nat -> cache l' s1 = cache l' s) ->
  (forall q v, (length q <= 3 - l)%nat -> tbl (heap s) q = Some v -> tbl (heap s1) q = Some v) ->
  released l va (finish (cache l s1) s1) s.
Proof.
  intros Hl Hok Hat He Hw Hc Htb. right. exists s1. split_and!; try done.
  destruct (at_entry _ _ _ _ Hok Hat (level_index_range l va)) as (t & e & Hh & Hlt & _ & _).
  pose proof Hat as [Ht Hn].
  destruct (all_zero_spec (cache l s1) s1 t Hn Hh Hlt) as (b & Hb & Hiff).
  unfold finish. erewrite !bind_ok by exact Hb. destruct b.
  - right. split; [done|]. by apply Hiff.
  - left. split; [done|].
    assert (Exists (fun e => e <> 0) t) as Hex.
    { destruct (decide (Exists (fun e => e <> 0) t)) as [|Hn']; [done|]. exfalso.
      assert (false = true) as [=]. apply Hiff. intros j e' He'.
      apply not_Exists_Forall in Hn'; [|intros; apply _]. destruct (decide (e' = 0)) as [|Hnz]; [done|].
      pose proof (entry_at_range _ _ _ _ _ Hh Hlt He'). unfold entry_at in He'.
      replace (0 <=? j) with true in He' by lia. rewrite Hh in He'. simpl in He'.
      by destruct (Forall_lookup_1 _ _ _ _ Hn' He' Hnz). }
    apply Exists_exists in Hex as (e' & [j Hj]%list_elem_of_lookup_1 & Hnz).
    exists (3 - l)%nat, (virt_addr (cache l s1)), (Z.of_nat j), e'. split_and!; try done.
    + unfold entry_at. rewrite (proj2 (Z.leb_le 0 _)) by apply Nat2Z.is_nonneg. by rewrite Hh, Nat2Z.id.
    + cbn [path EptTables.tbl]. rewrite Ht. cbn [mbind option_bind]. unfold child.
      replace (3 - (3 - l))%nat with l by lia. by rewrite He.
Qed.

Lemma release_pte_stage va : release_pte va =
  stage_in 0 va (fun p r => write r 0 ;;; finish p).
Proof. done. Qed.

Definition release_level (l : nat) (va : Z) (next : M state bool) : M state bool :=
  stage_in l va (fun _ r =>
    e <- read r ;;
    go_on <- (if is_disabled pd.ps e then next else ret true) ;;
    if go_on : bool then write r 0 ;;; s <- get ;; finish (cache l s) else ret false).

Lemma release_pde_stage va : release_pde va = release_level 1 va (release_pte va).
Proof. done. Qed.
Lemma release_pdpte_stage va : release_pdpte va = release_level 2 va (release_pde va).
Proof. done. Qed.

Lemma unmapped_same s s' va va' : same_map s s' -> unmapped s' va va' = unmapped s va va'.
Proof. intros Hs. unfold unmapped. by rewrite !(sm_walk _ _ Hs). Qed.

Lemma released_same l va o s s' : same_map s s' ->
  (forall l', (l < l' <= 3)%nat -> cache l' s' = cache l' s) ->
  released l va o s' -> released l va o s.
Proof.
  intros Hs Hc [?|(s1 & H1 & H2 & H3 & H4 & H5 & H6)]; [left; by eapply oom_trans|right].
  exists s1. split_and!; try done.
  - intros va'. rewrite H2. by apply unmapped_same.
  - intros l' Hl'. by rewrite H4, Hc.
  - intros q v Hq Hv. apply H5; [done|]. by apply (sm_tbl _ _ Hs).
Qed.

(** Emptying a leaf or empty entry, then the common end. *)
Lemma release_leaf_spec l va s e : (l <= 2)%nat -> ok s -> at_table l (path va (3 - l)) s ->
  entry_at (heap s) (virt_addr (cache l s)) (level_index l va) = Some e ->
  e = 0 \/ large l e = true ->
  released l va ((write (virt_addr (cache l s), level_index l va) 0 ;;; s <- get ;; finish (cache l s)) s) s.
Proof.
  intros Hl Hok Hat He Hc.
  destruct (write_leaf l va s e 0) as (s2 & Hs2 & Hok2 & Hw2 & Htb2 & Hc2 & _);
    [lia|done..|by left|unfold u64; lia|].
  erewrite bind_ok by exact Hs2. rewrite bind_get.
  assert (at_table l (path va (3 - l)) s2) as Hat2.
  { destruct Hat. split; rewrite Hc2; [by rewrite Htb2|done]. }
  apply finish_spec; [lia|done|done| | | |].
  - destruct (at_entry _ _ _ _ Hok Hat (level_index_range l va)) as (t & e1 & Hh & _). destruct Hat as [Ht _].
    rewrite Hc2. unfold write in Hs2. cbn [fst snd] in Hs2. rewrite Hh in Hs2. injection Hs2 as <-. cbn [heap with_heap].
    rewrite (entry_at_update pv root (heap s) (path va (3 - l)) _ t _ _ (mo_tables _ _ _ _ Hok) Ht Hh (level_index_range l va)).
    by rewrite decide_True.
  - intros va'. rewrite Hw2. unfold unmapped. rewrite (at_walk l va s e) by (done || lia). cbn [Z.eqb].
    destruct (Z.eqb_spec e 0) as [->|]; [|done]. destruct (decide _) as [Hs|]; [|done].
    symmetry. by apply (at_walk_same l va va' s 0); [lia|..].
  - intros. apply Hc2.
  - intros q v _ Hq. by rewrite Htb2.
Qed.

Lemma bind_oom {B C} (m : M state B) (k : B -> M state C) s s' : oom (m s') s -> oom (bind m k s') s.
Proof. intros (s1 & E & ?). exists s1. unfold bind. by rewrite E. Qed.

Lemma release_level_spec l va next s : (1 <= l <= 2)%nat -> ok s ->
  at_table (S l) (path va (2 - l)) s ->
  (forall e, entry_at (heap s) (virt_addr (cache (S l) s)) (level_index (S l) va) = Some e ->
     e = 0 \/ large (S l) e = false) ->
  (forall s', ok s' -> at_table l (path va (3 - l)) s' ->
    (forall e, entry_at (heap s') (virt_addr (cache l s')) (level_index l va) = Some e ->
       e = 0 \/ large l e = false) -> released (l - 1) va (next s') s') ->
  released l va (release_level l va next s) s.
Proof.
  intros Hl Hok Hat Hnl Hnext. unfold release_level.
  match goal with |- context [stage_in l va ?f] => set (k := f) end.
  destruct (stage_in_spec l va k s) as [?|(s' & e & -> & Hs & Hat' & He & Hu & Hc)]; [lia|done..|by left|].
  apply (released_same _ _ _ _ s' Hs); [intros; apply Hc; lia|].
  unfold k. erewrite bind_ok by (apply read_ok; [apply level_index_range|done]).
  assert (large l e = is_enabled pd.ps e) as Hlg by (destruct l as [|[|[|l]]]; done || lia).
  rewrite is_disabled_negb. destruct (is_enabled pd.ps e); cbn [negb].
  { erewrite bind_ok by done. apply (release_leaf_spec _ _ _ e); [lia|apply Hs|done..|by right]. }
  destruct (Hnext s') as [Hoom|(s1 & Hok1 & Hw1 & Hat1 & Hc1 & Htb1 & [[Ho Htr]|[Ho Hem]])];
    [apply Hs|done|intros e' He'; simplify_eq; by right|left; by apply bind_oom| |].
  - erewrite bind_ok by exact Ho. right. exists s1. split_and!; try done.
    + destruct Hat' as [Ht' Hn']. split; rewrite Hc1 by lia; [|done]. apply Htb1; [rewrite length_path; lia|done].
    + intros l' Hl'. apply Hc1. lia.
    + intros q v Hq. apply Htb1. lia.
    + by left.
  - assert (at_table l (path va (3 - l)) s1) as Hatl.
    { destruct Hat' as [Ht' Hn']. split; rewrite Hc1 by lia; [|done]. apply Htb1; [rewrite length_path; lia|done]. }
    assert (tbl (heap s1) (level_index l va :: path va (3 - l)) = Some (virt_addr (cache (l - 1) s1))) as Hw.
    { destruct Hat1 as [Ht1 _]. replace (3 - (l - 1))%nat with (S (3 - l)) in Ht1 by lia. cbn [path] in Ht1.
      by replace (3 - (3 - l))%nat with l in Ht1 by lia. }
    destruct (unlink_spec l _ _ s1 _ ltac:(lia) Hok1 Hatl (level_index_range l va) Hw Hem)
      as (s3 & Hs3 & Hok3 & Hw3 & Htb3 & Hc3 & He3).
    erewrite bind_ok by exact Ho. rewrite <- (Hc1 l) by lia. erewrite bind_ok by exact Hs3. rewrite bind_get.
    assert (forall q, (length q <= 3 - l)%nat -> tbl (heap s3) q = tbl (heap s1) q) as Htb3'.
    { intros q Hq. rewrite Htb3, decide_False; [done|]. intros ->. simpl in Hq. rewrite length_path in Hq. lia. }
    apply finish_spec; [lia|done| | | | |].
    + destruct Hatl. split; rewrite Hc3; [rewrite Htb3' by (rewrite length_path; lia)|]; done.
    + by rewrite Hc3.
    + intros va'. by rewrite Hw3, Hw1.
    + intros l' Hl'. rewrite Hc3. apply Hc1. lia.
    + intros q v Hq Hv. rewrite Htb3' by done. apply Htb1; [lia|done].
Qed.

Lemma release_pte_spec va s : ok s -> at_table 1 (path va 2) s ->
  (forall e, entry_at (heap s) (virt_addr (cache 1 s)) (level_index 1 va) = Some e ->
     e = 0 \/ large 1 e = false) -> released 0 va (release_pte va s) s.
Proof.
  intros Hok Hat Hnl. rewrite release_pte_stage.
  match goal with |- context [stage_in 0 va ?f] => set (k := f) end.
  destruct (stage_in_spec 0 va k s) as [?|(s' & e & -> & Hs & Hat' & He & Hu & Hc)]; [lia|done..|by left|].
  apply (released_same _ _ _ _ s' Hs); [intros; apply Hc; lia|]. unfold k.
  pose proof (release_leaf_spec 0 va s' e ltac:(lia) (sm_ok _ _ Hs) Hat' He ltac:(by right)) as Hr.
  destruct (write_leaf 0 va s' e 0) as (s2 & Hs2 & _ & _ & _ & Hc2 & _);
    [lia|apply Hs|done|done|by right|by left|unfold u64; lia|].
  erewrite bind_ok in Hr |- * by exact Hs2. rewrite bind_get in Hr. by rewrite <- (Hc2 0%nat).
Qed.

(** [release] unmaps [va] and takes every table that holds nothing any more
    out of the tree. *)
Lemma release_spec va s : ok s ->
  oom (release va s) s \/
  exists s', release va s = Ok tt s' /\ ok s' /\
    (forall va', walk (heap s') va' = unmapped s va va') /\
    forall n v, (1 <= n)%nat -> tbl (heap s') (path va n) = Some v -> ~ empty_table s' v.
Proof.
  intros Hok. unfold release. rewrite release_pdpte_stage.
  destruct (release_level_spec 2 va (release_pde va) s) as [Ho|(s1 & Hok1 & Hw1 & Hat1 & Hc1 & Htb1 & Ho)];
    [lia|done|by apply at_root|by right| |left; by apply bind_oom|right].
  { intros s2 Hok2 Hat2 Hnl2. rewrite release_pde_stage. apply release_level_spec; try done; [lia|].
    intros. by apply release_pte_spec. }
  destruct Ho as [[Ho Htr]|[Ho Hem]]; erewrite !bind_ok by exact Ho.
  - exists s1. split_and!; try done. destruct Htr as (n & v & j & e & Hv & He & Hnz & Hnone).
    intros n' v' Hn' Hv' Hemp. destruct (lt_eq_lt_dec n' n) as [[Hlt| ->]|Hgt].
    + assert (is_Some (tbl (heap s1) (path va (S n')))) as [w Hw].
      { destruct (tbl (heap s1) (path va (S n'))) eqn:E; [eauto|].
        by rewrite (tbl_suffix_none _ _ _ _ _ E (path_suffix va (S n') n Hlt)) in Hv. }
      cbn [path] in Hw. apply tbl_parent in Hw as (v2 & e2 & Hv2 & He2 & Hnz2).
      rewrite Hv2 in Hv'. injection Hv' as ->. by apply Hemp in He2.
    + simplify_eq. by apply Hemp in He.
    + by rewrite (tbl_suffix_none _ _ _ _ _ Hnone (path_suffix va (S n) n' Hgt)) in Hv'.
  - destruct Hat1 as [Ht1 _].
    destruct (unlink_spec 3 [] (pml4.index va) s1 (virt_addr (cache 2 s1))) as (s3 & Hs3 & Hok3 & Hw3 & Htb3 & _);
      try done; [by apply at_root|apply pml4_index_range|].
    exists s3. rewrite bind_get. split_and!; try done.
    + erewrite bind_ok by (apply span_at_ok; [apply (mo_root _ _ _ _ Hok1)|apply pml4_index_range]). exact Hs3.
    + intros va'. by rewrite Hw3.
    + intros n v Hn Hv. assert (tbl (heap s3) (path va 1) = None) as Hnone by (by rewrite Htb3, decide_True).
      by rewrite (tbl_suffix_none _ _ _ _ _ Hnone (path_suffix va 1 n Hn)) in Hv.
Qed.
End Ops.
End EptProofs.
