(* ===== verification/ObjAlloc.v ===== *)
(** * The slab allocator

    Models [basic_object_allocator] of
    [bareflank/bfvmm/include/memory_manager/object_allocator.h]: fixed-size
    objects cut from pages, kept on a free stack and a used stack that are
    linked through object descriptors; the descriptors and the list of pages
    live in pages of their own. *)
From S2P Require Import Prelude Bits EptEntry Buddy PageSource.

Definition pagepool_size : Z := 255.
Definition objtpool_size : Z := 255.

(** [object_t]; a pointer to one is its place in [objects]. *)
Record object_t := Object { addr : Z; onext : option nat }.

(** [page_stack_t] and [object_stack_t]: the page that holds the chunk and what
    is in it; a chunk of descriptors is described by its [index] alone, since
    [get_next_object] hands them out in order and never takes them back. *)
Record page_stack_t := PageStack { ps_page : Z; ps_pool : list Z }.
Record object_stack_t := ObjStack { os_page : Z; os_index : Z }.

(** The members of [basic_object_allocator]; the stacks of chunks are lists,
    the top first. *)
Record oalloc := OAlloc {
  objects : list object_t;
  m_free_stack_top : option nat;
  m_used_stack_top : option nat;
  m_page_stack_top : list page_stack_t;
  m_objt_stack_top : list object_stack_t;
  m_size : Z;
  m_max_pages : Z;
  m_pages_consumed : Z;
}.

Definition set_objects (o : oalloc) x := OAlloc x (m_free_stack_top o) (m_used_stack_top o)
  (m_page_stack_top o) (m_objt_stack_top o) (m_size o) (m_max_pages o) (m_pages_consumed o).
Definition set_free (o : oalloc) x := OAlloc (objects o) x (m_used_stack_top o)
  (m_page_stack_top o) (m_objt_stack_top o) (m_size o) (m_max_pages o) (m_pages_consumed o).
Definition set_used (o : oalloc) x := OAlloc (objects o) (m_free_stack_top o) x
  (m_page_stack_top o) (m_objt_stack_top o) (m_size o) (m_max_pages o) (m_pages_consumed o).
Definition set_pages (o : oalloc) x n := OAlloc (objects o) (m_free_stack_top o) (m_used_stack_top o)
  x (m_objt_stack_top o) (m_size o) (m_max_pages o) n.
Definition set_objt (o : oalloc) x := OAlloc (objects o) (m_free_stack_top o) (m_used_stack_top o)
  (m_page_stack_top o) x (m_size o) (m_max_pages o) (m_pages_consumed o).

Section ObjAlloc.
Context {A : Type} `{PageSource A}.
Local Open Scope vmm_scope.

(** The allocator and the memory manager below it. *)
Definition ostate : Type := A * oalloc.

Definition upd (f : oalloc -> oalloc) : M ostate unit := modify (fun s => (s.1, f s.2)).

(** [alloc_page] zeroes the page it is given before it returns. *)
Definition oa_alloc_page : M ostate Z := fun s =>
  match ps_alloc s.1 with
  | Some (v, a) => Ok v (a, s.2)
  | None => Err null_deref s
  end.

Definition oa_free_page (v : Z) : M ostate unit := modify (fun s => (ps_free v s.1, s.2)).

Definition load_obj (i : nat) : M ostate object_t := fun s =>
  match objects s.2 !! i with Some o => Ok o s | None => Err out_of_range s end.
Definition store_obj (i : nat) (f : object_t -> object_t) : M ostate unit := fun s =>
  match objects s.2 !! i with
  | Some o => Ok tt (s.1, set_objects s.2 (<[i := f o]> (objects s.2)))
  | None => Err out_of_range s
  end.

(** [__oa_alloc]; the test for a null pointer comes after [alloc_page]. *)
Definition oa_alloc : M ostate Z :=
  p <- oa_alloc_page ;;
  if p =? 0 then throw (runtime_error "__oa_alloc: out of memory") else ret p.

Definition expand_page_stack : M ostate unit :=
  next <- oa_alloc ;;
  upd (fun o => set_pages o (PageStack next [] :: m_page_stack_top o) (m_pages_consumed o)).

Definition expand_object_stack : M ostate unit :=
  next <- oa_alloc ;;
  upd (fun o => set_objt o (ObjStack next 0 :: m_objt_stack_top o)).

(** [get_next_page]: the address of the page it adds. *)
Definition get_next_page : M ostate Z :=
  s <- get ;;
  (if negb (m_max_pages s.2 =? 0) && (m_max_pages s.2 <=? m_pages_consumed s.2)
   then throw (runtime_error "object_allocator: out of memory") else ret tt) ;;;
  (match m_page_stack_top s.2 with
   | [] => expand_page_stack
   | c :: _ => if Z.of_nat (length (ps_pool c)) =? pagepool_size then expand_page_stack else ret tt
   end) ;;;
  page <- oa_alloc_page ;;
  s <- get ;;
  match m_page_stack_top s.2 with
  | [] => throw null_deref
  | c :: rest =>
      if Z.of_nat (length (ps_pool c)) <? pagepool_size then
        upd (fun o => set_pages o (PageStack (ps_page c) (ps_pool c ++ [page]) :: rest)
                        (add64 (m_pages_consumed o) 1)) ;;;
        ret page
      else throw fail_fast
  end.

(** A descriptor of a fresh chunk is zero, as the page is. *)
Definition get_next_object : M ostate nat :=
  s <- get ;;
  (match m_objt_stack_top s.2 with
   | [] => expand_object_stack
   | c :: _ => if os_index c =? objtpool_size then expand_object_stack else ret tt
   end) ;;;
  s <- get ;;
  match m_objt_stack_top s.2 with
  | [] => throw null_deref
  | c :: rest =>
      if os_index c <? objtpool_size then
        upd (fun o => set_objects (set_objt o (ObjStack (os_page c) (os_index c + 1) :: rest))
                        (objects o ++ [Object 0 None])) ;;;
        ret (length (objects s.2))
      else throw fail_fast
  end.

Definition free_stack_push (next : nat) : M ostate unit :=
  s <- get ;;
  store_obj next (fun o => Object (addr o) (m_free_stack_top s.2)) ;;;
  upd (fun o => set_free o (Some next)).

Definition used_stack_push (next : nat) : M ostate unit :=
  s <- get ;;
  store_obj next (fun o => Object (addr o) (m_used_stack_top s.2)) ;;;
  upd (fun o => set_used o (Some next)).

(** The loop of [add_to_free_stack] over the offsets of the objects of a page;
    the offsets are [0, m_size, 2 * m_size, ...] as long as an object fits.
    ([m_size] is never 0 here: the constructor replaces 0 by 1, and an allocator
    that has been cleaned up is not used again.) *)
Definition add_to_free_stack : M ostate unit :=
  page <- get_next_page ;;
  s <- get ;;
  for_each (map (fun k => k * m_size s.2) (seqZ 0 (BAREFLANK_PAGE_SIZE / m_size s.2))) (fun i =>
    object <- get_next_object ;;
    free_stack_push object ;;;
    store_obj object (fun o => Object (page + i) (onext o))).

Definition free_stack_pop : M ostate nat :=
  s <- get ;;
  (match m_free_stack_top s.2 with None => add_to_free_stack | Some _ => ret tt end) ;;;
  s <- get ;;
  match m_free_stack_top s.2 with
  | None => throw null_deref
  | Some top =>
      o <- load_obj top ;;
      upd (fun x => set_free x (onext o)) ;;;
      store_obj top (fun o => Object (addr o) None) ;;;
      ret top
  end.

Definition used_stack_pop : M ostate nat :=
  s <- get ;;
  (match m_used_stack_top s.2 with
   | None => object <- get_next_object ;; used_stack_push object
   | Some _ => ret tt end) ;;;
  s <- get ;;
  match m_used_stack_top s.2 with
  | None => throw null_deref
  | Some top =>
      o <- load_obj top ;;
      upd (fun x => set_used x (onext o)) ;;;
      store_obj top (fun o => Object (addr o) None) ;;;
      ret top
  end.

Definition oa_allocate : M ostate Z :=
  objt <- free_stack_pop ;;
  used_stack_push objt ;;;
  o <- load_obj objt ;;
  ret (addr o).

Definition oa_deallocate (p : Z) : M ostate unit :=
  objt <- used_stack_pop ;;
  free_stack_push objt ;;;
  store_obj objt (fun o => Object p (onext o)).

Definition oa_contains (p : Z) (o : oalloc) : bool :=
  existsb (fun c => existsb (fun s => (s <=? p) && (p <? s + BAREFLANK_PAGE_SIZE)) (ps_pool c))
    (m_page_stack_top o).

Definition oa_size (ptr : Z) (o : oalloc) : Z := m_size o.

(** The counters of the stacks; [fuel] bounds the walk of a linked stack, which
    has no more elements than there are descriptors. *)
Definition page_stack_size (o : oalloc) : Z := Z.of_nat (length (m_page_stack_top o)).
Definition objt_stack_size (o : oalloc) : Z := Z.of_nat (length (m_objt_stack_top o)).
Definition num_page (o : oalloc) : Z :=
  fold_right Z.add 0 (map (fun c => Z.of_nat (length (ps_pool c))) (m_page_stack_top o)).
Fixpoint stack_length (fuel : nat) (objs : list object_t) (top : option nat) : Z :=
  match fuel, top with
  | S fuel', Some i =>
      match objs !! i with Some o => 1 + stack_length fuel' objs (onext o) | None => 0 end
  | _, _ => 0
  end.
Definition num_free (o : oalloc) : Z := stack_length (S (length (objects o))) (objects o) (m_free_stack_top o).
Definition num_used (o : oalloc) : Z := stack_length (S (length (objects o))) (objects o) (m_used_stack_top o).

Definition oa_cleanup : M ostate unit :=
  s <- get ;;
  for_each (m_page_stack_top s.2) (fun c =>
    for_each (ps_pool c) oa_free_page ;;; oa_free_page (ps_page c)) ;;;
  for_each (m_objt_stack_top s.2) (fun c => oa_free_page (os_page c)) ;;;
  upd (fun _ => OAlloc [] None None [] [] 0 0 0).

(** The constructor; [guard_exceptions] swallows what [add_to_free_stack]
    throws and keeps what it did. *)
Definition basic_object_allocator (size max_pages : Z) (a : A) : ostate :=
  let size := if size =? 0 then 1 else size in
  out_state (for_each (seqZ 0 max_pages) (fun _ => add_to_free_stack)
    (a, OAlloc [] None None [] [] size max_pages 0)).

(** The destructor. *)
Definition oa_delete : M ostate unit :=
  s <- get ;;
  match m_used_stack_top s.2 with Some _ => ret tt | None => oa_cleanup end.

(** Move assignment from [other]; returns [other] as it is left behind. *)
Definition oa_move (other : oalloc) : M ostate oalloc :=
  s <- get ;;
  (match m_used_stack_top s.2 with Some _ => ret tt | None => oa_cleanup end) ;;;
  upd (fun _ => other) ;;;
  ret (OAlloc (objects other) None None [] [] 0 0 0).

End ObjAlloc.
