(* ===== verification/ObjAllocProofs.v ===== *)
(** * Correctness of the slab allocator

    [oa_ok others live s]: the addresses [live] are allocated from [s].  The
    descriptors of the used stack only count: [deallocate] takes whichever is on
    top and writes the freed address into it, so what the invariant relates is
    the multiset of addresses, free and live, and the objects of the pages. *)
From S2P Require Import Prelude Bits EptEntry Buddy PageSource ObjAlloc.

Section ObjAllocProofs.
Context {A : Type} `{PageSourceLaws A}.
Local Open Scope vmm_scope.
Notation state := (ostate (A := A)).

(** The linked stack from [top] goes through the descriptors [ids]. *)
Fixpoint chain (objs : list object_t) (top : option nat) (ids : list nat) : Prop :=
  match ids with
  | [] => top = None
  | i :: ids' => top = Some i /\ exists o, objs !! i = Some o /\ chain objs (onext o) ids'
  end.

Definition addrs (objs : list object_t) (ids : list nat) : list Z :=
  map (fun i => from_option addr 0 (objs !! i)) ids.

(** The addresses of the objects of a page. *)
Definition slots (size page : Z) : list Z :=
  map (fun k => page + k * size) (seqZ 0 (BAREFLANK_PAGE_SIZE / size)).

Definition object_pages (o : oalloc) : list Z := flat_map ps_pool (m_page_stack_top o).

(** Every page the allocator has taken. *)
Definition oa_pages (o : oalloc) : list Z :=
  object_pages o ++ map ps_page (m_page_stack_top o) ++ map os_page (m_objt_stack_top o).

Record oa_base (others : gset Z) (s : state) : Prop := {
  ob_size : 0 < m_size s.2 <= 0x1000;
  ob_pool : ps_ok s.1 (others ∪ list_to_set (oa_pages s.2));
  ob_nodup : NoDup (oa_pages s.2);
  ob_others : others ## list_to_set (oa_pages s.2);
  ob_chunks : Forall (fun c => 0 <= os_index c <= 255) (m_objt_stack_top s.2);
  ob_pages : Forall (fun c => (length (ps_pool c) <= 255)%nat) (m_page_stack_top s.2);
}.

(** [rem]: objects of the pages that are still to be put on the free stack. *)
Record oa_inv (others : gset Z) (live rem : list Z) (s : state) : Prop := {
  oi_base : oa_base others s;
  oi_stacks : exists fids uids,
    chain (objects s.2) (m_free_stack_top s.2) fids /\
    chain (objects s.2) (m_used_stack_top s.2) uids /\
    NoDup (fids ++ uids) /\ length uids = length live /\
    addrs (objects s.2) fids ++ live ++ rem ⊆+ flat_map (slots (m_size s.2)) (object_pages s.2);
}.

Definition oa_ok (others : gset Z) (live : list Z) : state -> Prop := oa_inv others live [].

(** ** Linked stacks *)

Lemma chain_lt objs top ids i : chain objs top ids -> i ∈ ids -> (i < length objs)%nat.
Proof.
  revert top. induction ids as [|j ids IH]; intros top Hc Hi; [by apply elem_of_nil in Hi|].
  destruct Hc as (_ & o & Ho & Hc). apply elem_of_cons in Hi as [->|Hi]; [by eapply lookup_lt_Some|eauto].
Qed.

(** A stack does not see changes outside it. *)
Lemma chain_ext objs objs' top ids : chain objs top ids ->
  (forall i o, i ∈ ids -> objs !! i = Some o -> exists a, objs' !! i = Some (Object a (onext o))) ->
  chain objs' top ids.
Proof.
  revert top. induction ids as [|j ids IH]; intros top Hc He; [done|].
  destruct Hc as (-> & o & Ho & Hc). split; [done|].
  destruct (He j o) as [a Ha]; [set_solver|done|]. exists (Object a (onext o)). split; [done|].
  apply IH; [done|]. intros. apply He; [set_solver|done].
Qed.

Lemma chain_insert objs top ids i o : chain objs top ids -> i ∉ ids -> chain (<[i := o]> objs) top ids.
Proof.
  intros Hc Hi. eapply chain_ext; [done|]. intros j [a n] Hj Ho.
  exists a. rewrite list_lookup_insert_ne; [done|]. by intros ->.
Qed.

Lemma chain_app objs objs' top ids : chain objs top ids -> chain (objs ++ objs') top ids.
Proof.
  intros Hc. eapply chain_ext; [done|]. intros j [a n] Hj Ho. exists a. by apply lookup_app_l_Some.
Qed.

Lemma addrs_insert objs ids i o : i ∉ ids -> addrs (<[i := o]> objs) ids = addrs objs ids.
Proof.
  intros Hi. unfold addrs. apply map_ext_in. intros j Hj%list_elem_of_In.
  rewrite list_lookup_insert_ne; [done|]. by intros ->.
Qed.

Lemma addrs_app objs objs' ids : (forall i, i ∈ ids -> (i < length objs)%nat) ->
  addrs (objs ++ objs') ids = addrs objs ids.
Proof.
  intros Hl. unfold addrs. apply map_ext_in. intros j Hj%list_elem_of_In.
  by rewrite lookup_app_l by auto.
Qed.

(** ** Getting pages and descriptors *)

(** Only the memory manager's pages can run out. *)
Definition no_page {B} (o : outcome state B) : Prop :=
  exists s, o = Err null_deref s /\ ps_alloc s.1 = None.

(** Taking one more page. *)
Lemma take_page others s v a' : oa_base others s -> ps_alloc s.1 = Some (v, a') ->
  v <> 0 /\ v ∉ others /\ v ∉ oa_pages s.2 /\ ps_ok a' ({[v]} ∪ (others ∪ list_to_set (oa_pages s.2))).
Proof.
  intros [] Ha. destruct (ps_alloc_ok _ _ _ _ ob_pool0 Ha) as (Hn & Hok & _).
  assert (v <> 0) by (eapply ps_live_nonzero; [done|set_solver]). set_solver.
Qed.

(** A new chunk page keeps the base invariant. *)
Lemma base_grow others s a' v o' : oa_base others s -> ps_alloc s.1 = Some (v, a') ->
  oa_pages o' ≡ₚ v :: oa_pages s.2 -> m_size o' = m_size s.2 ->
  Forall (fun c => 0 <= os_index c <= 255) (m_objt_stack_top o') ->
  Forall (fun c => (length (ps_pool c) <= 255)%nat) (m_page_stack_top o') -> oa_base others (a', o').
Proof.
  intros Hb Ha Hp Hs H1 H2. destruct (take_page _ _ _ _ Hb Ha) as (? & ? & ? & Hok). destruct Hb.
  assert (list_to_set (oa_pages o') = {[v]} ∪ list_to_set (C := gset Z) (oa_pages s.2)) as E.
  { apply leibniz_equiv. by rewrite Hp. }
  split; cbn [fst snd]; try done.
  - by rewrite Hs.
  - rewrite E. by replace (others ∪ ({[v]} ∪ list_to_set (oa_pages s.2)))
      with ({[v]} ∪ (others ∪ list_to_set (C := gset Z) (oa_pages s.2))) by set_solver.
  - rewrite Hp. by constructor.
  - rewrite E. set_solver.
Qed.

(** Everything but the descriptors and their chunks is the same. *)
Record same_stacks (s s' : state) : Prop := {
  ss_free : m_free_stack_top s'.2 = m_free_stack_top s.2;
  ss_used : m_used_stack_top s'.2 = m_used_stack_top s.2;
  ss_pages : m_page_stack_top s'.2 = m_page_stack_top s.2;
  ss_size : m_size s'.2 = m_size s.2;
}.

Lemma oa_alloc_spec others s : oa_base others s ->
  (oa_alloc s = Err null_deref s /\ ps_alloc s.1 = None) \/
  exists v a', ps_alloc s.1 = Some (v, a') /\ oa_alloc s = Ok v (a', s.2).
Proof.
  intros Hb. unfold oa_alloc, oa_alloc_page, bind. destruct (ps_alloc s.1) as [[v a']|] eqn:Ea; [right|by left].
  destruct (take_page _ _ _ _ Hb Ea) as (Hv & _). exists v, a'. by replace (v =? 0) with false by lia.
Qed.

(** After the test at the head of [get_next_object] the top chunk has room. *)
Lemma object_room others s : oa_base others s ->
  let m := match m_objt_stack_top s.2 with
           | [] => expand_object_stack
           | c :: _ => if os_index c =? objtpool_size then expand_object_stack else ret tt
           end in
  (m s = Err null_deref s /\ ps_alloc s.1 = None) \/
  exists s1 c rest, m s = Ok tt s1 /\ m_objt_stack_top s1.2 = c :: rest /\ 0 <= os_index c < 255 /\
    oa_base others s1 /\ same_stacks s s1 /\ objects s1.2 = objects s.2.
Proof.
  intros Hb m. assert (m = expand_object_stack \/
    m = ret tt /\ exists c rest, m_objt_stack_top s.2 = c :: rest /\ 0 <= os_index c < 255) as [Hm|(Hm & c & rest & Hc & Hi)].
  { subst m. pose proof (ob_chunks _ _ Hb) as Hch. destruct (m_objt_stack_top s.2) as [|c rest] eqn:Hc; [by left|].
    unfold objtpool_size. destruct (Z.eqb_spec (os_index c) 255); [by left|right]. split; [done|].
    exists c, rest. split; [done|]. inversion Hch; subst. lia. }
  - rewrite Hm. unfold expand_object_stack, bind.
    destruct (oa_alloc_spec others s Hb) as [[-> Ha]|(v & a' & Ha & ->)]; [by left|right].
    eexists _, (ObjStack v 0), (m_objt_stack_top s.2). cbn [upd modify fst snd].
    split_and!; try done. eapply base_grow; [done..| |done| |apply Hb].
    + unfold oa_pages, object_pages. cbn. by rewrite <- !Permutation_middle.
    + constructor; [simpl; lia|apply Hb].
  - rewrite Hm. right. exists s, c, rest. do 5 (split; [done|]). done.
Qed.

Lemma get_next_object_spec others s : oa_base others s ->
  (get_next_object s = Err null_deref s /\ ps_alloc s.1 = None) \/
  exists s', get_next_object s = Ok (length (objects s.2)) s' /\ oa_base others s' /\
    same_stacks s s' /\ objects s'.2 = objects s.2 ++ [Object 0 None].
Proof.
  intros Hb. unfold get_next_object. rewrite bind_get.
  destruct (object_room others s Hb) as [[Herr Ha]|(s1 & c & rest & Hm & Hc & Hi & Hb1 & Hss & Ho)];
    [left; unfold bind; by rewrite Herr|right].
  erewrite (bind_ok _ _ _ _ _ Hm). rewrite bind_get, Hc. unfold objtpool_size.
  replace (os_index c <? 255) with true by lia. rewrite Ho. eexists. split; [done|].
  split; [|split; [by destruct Hss|cbn; by rewrite Ho]].
  destruct Hb1. unfold oa_pages, object_pages in *. rewrite Hc in *.
  split; cbn [fst snd m_size set_objects set_objt]; unfold oa_pages, object_pages; cbn; try done.
  inversion ob_chunks0; subst. constructor; [simpl; lia|done].
Qed.

(** The same for [get_next_page]. *)
Lemma page_room others s : oa_base others s ->
  let m := match m_page_stack_top s.2 with
           | [] => expand_page_stack
           | c :: _ => if Z.of_nat (length (ps_pool c)) =? pagepool_size then expand_page_stack else ret tt
           end in
  (m s = Err null_deref s /\ ps_alloc s.1 = None) \/
  exists s1 c rest, m s = Ok tt s1 /\ m_page_stack_top s1.2 = c :: rest /\
    (length (ps_pool c) < 255)%nat /\ oa_base others s1 /\ object_pages s1.2 = object_pages s.2 /\
    m_free_stack_top s1.2 = m_free_stack_top s.2 /\ m_used_stack_top s1.2 = m_used_stack_top s.2 /\
    m_size s1.2 = m_size s.2 /\ objects s1.2 = objects s.2.
Proof.
  intros Hb m. assert (m = expand_page_stack \/
    m = ret tt /\ exists c rest, m_page_stack_top s.2 = c :: rest /\ (length (ps_pool c) < 255)%nat) as [Hm|(Hm & c & rest & Hc & Hi)].
  { subst m. pose proof (ob_pages _ _ Hb) as Hch. destruct (m_page_stack_top s.2) as [|c rest] eqn:Hc; [by left|].
    unfold pagepool_size. destruct (Z.eqb_spec (Z.of_nat (length (ps_pool c))) 255); [by left|right]. split; [done|].
    exists c, rest. split; [done|]. inversion Hch; subst. lia. }
  - rewrite Hm. unfold expand_page_stack, bind.
    destruct (oa_alloc_spec others s Hb) as [[-> Ha]|(v & a' & Ha & ->)]; [by left|right].
    eexists _, (PageStack v []), (m_page_stack_top s.2). cbn [upd modify fst snd].
    split_and!; try done; [simpl; lia|]. eapply base_grow; [done..| |done|apply Hb|].
    + unfold oa_pages, object_pages. cbn. by rewrite <- !Permutation_middle.
    + constructor; [simpl; lia|apply Hb].
  - rewrite Hm. right. exists s, c, rest. do 8 (split; [done|]). done.
Qed.

(** A failed call leaves the stacks as they were. *)
Lemma get_next_page_spec others live s : oa_ok others live s ->
  (exists e s', get_next_page s = Err e s' /\ oa_ok others live s' /\
     (e = null_deref /\ ps_alloc s'.1 = None \/ e = runtime_error "object_allocator: out of memory")) \/
  exists page s', get_next_page s = Ok page s' /\ m_size s'.2 = m_size s.2 /\
    oa_inv others live (slots (m_size s.2) page) s'.
Proof.
  intros [Hb (fids & uids & Hf & Hu & Hnd & Hlen & Hsub)]. rewrite app_nil_r in Hsub.
  unfold get_next_page. rewrite bind_get.
  destruct (negb (m_max_pages s.2 =? 0) && (m_max_pages s.2 <=? m_pages_consumed s.2)).
  { left. eexists _, s. split; [done|]. split; [|by right]. split; [done|]. exists fids, uids. by rewrite app_nil_r. }
  erewrite bind_ok by done.
  destruct (page_room others s Hb) as [[Herr Ha]|(s1 & c & rest & Hm & Hc & Hi & Hb1 & Hp & E1 & E2 & E3 & E4)].
  { left. exists null_deref, s. split; [unfold bind; by rewrite Herr|]. split; [|by left].
    split; [done|]. exists fids, uids. by rewrite app_nil_r. }
  erewrite (bind_ok _ _ _ _ _ Hm).
  destruct (ps_alloc s1.1) as [[v a']|] eqn:Ha.
  2: { left. exists null_deref, s1. split; [unfold bind, oa_alloc_page; by rewrite Ha|]. split; [|by left]. split; [done|].
       exists fids, uids. rewrite app_nil_r, E1, E2, E3, E4, Hp. done. }
  right. erewrite (bind_ok _ _ v s1 (a', s1.2)) by (unfold oa_alloc_page; by rewrite Ha).
  rewrite bind_get. cbn [fst snd]. rewrite Hc. unfold pagepool_size.
  replace (Z.of_nat (length (ps_pool c)) <? 255) with true by lia.
  eexists v, _. split; [done|]. cbn [fst snd upd modify]. split; [done|]. 
  assert (object_pages (set_pages s1.2 (PageStack (ps_page c) (ps_pool c ++ [v]) :: rest) (add64 (m_pages_consumed s1.2) 1))
    ≡ₚ v :: object_pages s1.2) as Hpg.
  { unfold object_pages. cbn. rewrite Hc. cbn. rewrite <- app_assoc. cbn [app]. by rewrite <- Permutation_middle. }
  split.
  - eapply base_grow; [done..| |done|apply Hb1|].
    + unfold oa_pages. rewrite Hpg. cbn. rewrite Hc. done.
    + pose proof (ob_pages _ _ Hb1) as Hch. rewrite Hc in Hch. inversion Hch; subst. cbn.
      constructor; [cbn; rewrite length_app; simpl; lia|done].
  - exists fids, uids. cbn [fst snd objects m_free_stack_top m_used_stack_top m_size set_pages].
    rewrite E1, E2, E3, E4. split_and!; try done. rewrite Hpg. cbn [flat_map]. rewrite Hp.
    rewrite (Permutation_app_comm (slots _ _)), app_assoc. by apply submseteq_app.
Qed.

(** ** Filling the free stack *)

Lemma oa_inv_drop others live rem s : oa_inv others live rem s -> oa_ok others live s.
Proof.
  intros [Hb (fids & uids & ? & ? & ? & ? & Hsub)]. split; [done|]. exists fids, uids. split_and!; try done.
  rewrite app_nil_r. etrans; [|done]. rewrite app_assoc. by apply submseteq_inserts_r.
Qed.

Lemma oa_base_objects others a o objs f u : oa_base others (a, o) ->
  oa_base others (a, set_objects (set_free (set_used o u) f) objs).
Proof. intros []. by split. Qed.

(** One round of the loop: a new descriptor for the first address that is left. *)
Lemma fill_step others live x rem s : oa_inv others live (x :: rem) s ->
  let m := (object <- get_next_object ;; free_stack_push object ;;;
            store_obj object (fun o => Object x (onext o))) in
  (m s = Err null_deref s /\ ps_alloc s.1 = None) \/
  exists s', m s = Ok tt s' /\ oa_inv others live rem s' /\ m_size s'.2 = m_size s.2 /\
    m_free_stack_top s'.2 <> None.
Proof.
  intros [Hb (fids & uids & Hf & Hu & Hnd & Hlen & Hsub)] m. subst m.
  destruct (get_next_object_spec others s Hb) as [[Herr Ha]|(s1 & Hs1 & Hb1 & [E1 E2 E3 E4] & Ho)];
    [left; unfold bind; by rewrite Herr|right].
  set (i := length (objects s.2)) in *. erewrite bind_ok by exact Hs1.
  assert (objects s1.2 !! i = Some (Object 0 None)) as Hi.
  { rewrite Ho. by apply list_lookup_middle. }
  assert (forall j, j ∈ fids ++ uids -> j <> i) as Hfresh.
  { intros j [Hj|Hj]%elem_of_app ->; eapply chain_lt in Hj; try done; unfold i in Hj; lia. }
  unfold free_stack_push, store_obj, upd, modify, bind, get. rewrite Hi. cbn [fst snd set_free set_objects objects].
  rewrite list_lookup_insert_eq by (by eapply lookup_lt_Some). cbn [addr onext].
  rewrite list_insert_insert_eq. eexists. split; [done|]. cbn [fst snd]. split; [|done].
  assert (chain (<[i := Object x (m_free_stack_top s1.2)]> (objects s1.2)) (m_free_stack_top s1.2) fids) as Hf1.
  { rewrite E1. apply chain_insert; [rewrite Ho; by apply chain_app|]. intros Hj. apply (Hfresh i); set_solver. }
  split; [destruct s1 as [a1 o1]; exact (oa_base_objects others a1 o1 _ _ _ Hb1)|].
  exists (i :: fids), uids. cbn [fst snd objects m_free_stack_top m_used_stack_top m_size set_free set_objects].
  split_and!.
  - split; [done|]. eexists. split; [apply list_lookup_insert_eq; by eapply lookup_lt_Some|]. done.
  - rewrite E2. apply chain_insert; [rewrite Ho; by apply chain_app|]. intros Hj. apply (Hfresh i); set_solver.
  - simpl. constructor; [|done]. intros Hj. by apply (Hfresh i).
  - done.
  - unfold object_pages. cbn [m_page_stack_top set_free set_objects]. rewrite E3, E4. etrans; [|exact Hsub].
    cbn [addrs map]. rewrite list_lookup_insert_eq by (by eapply lookup_lt_Some). cbn [from_option addr].
    fold (addrs (<[i:=Object x (m_free_stack_top s1.2)]> (objects s1.2)) fids).
    rewrite addrs_insert, Ho, addrs_app.
    + cbn [app]. rewrite !app_assoc. rewrite <- (Permutation_middle (addrs (objects s.2) fids ++ live) rem x). by rewrite <- app_assoc.
    + intros j Hj. by eapply chain_lt in Hj.
    + intros Hj. apply (Hfresh i); set_solver.
Qed.

Lemma fill_spec others live page offs s :
  oa_inv others live (map (Z.add page) offs) s ->
  let m := for_each offs (fun i =>
    object <- get_next_object ;; free_stack_push object ;;;
    store_obj object (fun o => Object (page + i) (onext o))) in
  (exists s', m s = Err null_deref s' /\ oa_ok others live s' /\ ps_alloc s'.1 = None) \/
  exists s', m s = Ok tt s' /\ oa_ok others live s' /\ (offs <> [] -> m_free_stack_top s'.2 <> None).
Proof.
  revert s. induction offs as [|i offs IH]; intros s Hinv m; subst m; cbn [for_each].
  { right. exists s. by split_and!. }
  pose proof (fill_step others live (page + i) (map (Z.add page) offs) s Hinv) as [[Herr Ha]|(s1 & Hs1 & Hi1 & Hz & Hne)].
  { left. exists s. split_and!; [unfold bind at 1; by rewrite Herr|by eapply oa_inv_drop|done]. }
  erewrite !bind_ok by exact Hs1. destruct offs as [|j offs].
  { right. exists s1. split_and!; [done..|]. by intros _. }
  destruct (IH s1 Hi1) as [?|(s2 & ? & ? & Hf)]; [by left|]. right. exists s2. split_and!; [done..|].
  intros _. by apply Hf.
Qed.

Lemma add_to_free_stack_spec others live s : oa_ok others live s ->
  (exists e s', add_to_free_stack s = Err e s' /\ oa_ok others live s' /\
     (e = null_deref /\ ps_alloc s'.1 = None \/ e = runtime_error "object_allocator: out of memory")) \/
  exists s', add_to_free_stack s = Ok tt s' /\ oa_ok others live s' /\ m_free_stack_top s'.2 <> None.
Proof.
  intros Hok. unfold add_to_free_stack.
  destruct (get_next_page_spec others live s Hok) as [(e & s' & He & ? & ?)|(page & s' & Hs' & Hz & Hinv)].
  { left. exists e, s'. unfold bind at 1. by rewrite He. }
  erewrite bind_ok by exact Hs'. rewrite bind_get, Hz. unfold slots in Hinv.
  set (offs := map (fun k => k * m_size s.2) (seqZ 0 (BAREFLANK_PAGE_SIZE / m_size s.2))).
  destruct (fill_spec others live page offs s') as [(s1 & ? & ? & ?)|(s1 & Hs1 & ? & Hf)].
  - unfold offs. by rewrite map_map.
  - left. exists null_deref, s1. auto.
  - right. exists s1. split_and!; try done. apply Hf. unfold offs.
    pose proof (ob_size _ _ (oi_base _ _ _ _ Hok)) as Hsz. unfold BAREFLANK_PAGE_SIZE.
    assert (1 <= 0x1000 / m_size s.2) by (apply Z.div_le_lower_bound; lia).
    rewrite seqZ_cons by lia. done.
Qed.

(** ** Allocation and deallocation *)

Lemma oa_inv_objects others a o objs f u live : oa_base others (a, o) ->
  (exists fids uids, chain objs f fids /\ chain objs u uids /\ NoDup (fids ++ uids) /\
     length uids = length live /\
     addrs objs fids ++ live ⊆+ flat_map (slots (m_size o)) (object_pages o)) ->
  oa_ok others live (a, set_objects (set_free (set_used o u) f) objs).
Proof.
  intros Hb (fids & uids & ? & ? & ? & ? & ?). split; [by apply oa_base_objects|].
  exists fids, uids. rewrite app_nil_r. by split_and!.
Qed.

Lemma bind_load_obj {B} i o (k : object_t -> M state B) s : objects s.2 !! i = Some o ->
  bind (load_obj i) k s = k o s.
Proof. intros Ho. unfold bind, load_obj. by rewrite Ho. Qed.

Lemma bind_store_obj {B} i f o (k : unit -> M state B) s : objects s.2 !! i = Some o ->
  bind (store_obj i f) k s = k tt (s.1, set_objects s.2 (<[i := f o]> (objects s.2))).
Proof. intros Ho. unfold bind, store_obj. by rewrite Ho. Qed.

Lemma store_obj_ok i f o (s : state) : objects s.2 !! i = Some o ->
  store_obj i f s = Ok tt (s.1, set_objects s.2 (<[i := f o]> (objects s.2))).
Proof. intros Ho. unfold store_obj. by rewrite Ho. Qed.

Lemma bind_upd {B} f (k : unit -> M state B) s : bind (upd f) k s = k tt (s.1, f s.2).
Proof. done. Qed.

(** Lookups through updates of the descriptor array. *)
Ltac olk := cbn [fst snd objects set_objects set_free set_used];
  rewrite ?list_lookup_insert_eq by (rewrite ?length_insert; done); done.

Lemma oa_allocate_spec others live s : oa_ok others live s ->
  (exists e s', oa_allocate s = Err e s' /\ oa_ok others live s' /\
     (e = null_deref /\ ps_alloc s'.1 = None \/ e = runtime_error "object_allocator: out of memory")) \/
  exists p s', oa_allocate s = Ok p s' /\ oa_ok others (p :: live) s'.
Proof.
  intros Hok. unfold oa_allocate, free_stack_pop. rewrite !bind_assoc, bind_get, !bind_assoc.
  assert ((exists e s', (match m_free_stack_top s.2 with None => add_to_free_stack | Some _ => ret tt end) s = Err e s' /\
      oa_ok others live s' /\ (e = null_deref /\ ps_alloc s'.1 = None \/ e = runtime_error "object_allocator: out of memory")) \/
    exists s', (match m_free_stack_top s.2 with None => add_to_free_stack | Some _ => ret tt end) s = Ok tt s' /\
      oa_ok others live s' /\ m_free_stack_top s'.2 <> None) as [(e & s' & He & ? & ?)|(s1 & Hs1 & Hok1 & Hne)].
  { destruct (m_free_stack_top s.2) eqn:Ef; [right; exists s; by rewrite Ef|by apply add_to_free_stack_spec]. }
  { left. exists e, s'. unfold bind at 1. by rewrite He. }
  right. erewrite bind_ok by exact Hs1. rewrite bind_assoc, bind_get.
  destruct s1 as [a o]. destruct Hok1 as [Hb (fids & uids & Hf & Hu & Hnd & Hlen & Hsub)]. cbn [fst snd] in *.
  destruct fids as [|i fids]; [by rewrite Hf in Hne|]. destruct Hf as (Hi & [x nx] & Hx & Hf). rewrite Hi.
  cbn [app] in Hnd. apply NoDup_cons in Hnd as [Hni Hnd]. rewrite not_elem_of_app in Hni. destruct Hni as [Nf Nu].
  pose proof (lookup_lt_Some _ _ _ Hx) as Hlt.
  exists x. rewrite !bind_assoc. erewrite bind_load_obj by olk. rewrite bind_assoc, bind_upd, bind_assoc.
  erewrite bind_store_obj by olk. unfold used_stack_push.
  erewrite bind_ok by done. rewrite bind_assoc, bind_get, bind_assoc.
  erewrite bind_store_obj by olk. rewrite bind_upd. erewrite bind_load_obj by olk.
  cbn [fst snd objects set_objects set_free set_used addr onext m_used_stack_top].
  rewrite list_insert_insert_eq. eexists. split; [done|].
  apply (oa_inv_objects others a o _ nx (Some i)); [done|]. exists fids, (i :: uids). split_and!.
  - by apply chain_insert.
  - split; [done|]. eexists. split; [by apply list_lookup_insert_eq|]. cbn [onext]. by apply chain_insert.
  - rewrite <- Permutation_middle. constructor; [by rewrite not_elem_of_app|done].
  - simpl. by rewrite Hlen.
  - cbn [objects set_objects]. rewrite addrs_insert by done. cbn [addrs map] in Hsub. rewrite Hx, app_nil_r in Hsub.
    by rewrite <- Permutation_middle.
Qed.

Lemma oa_deallocate_spec others live p s : oa_ok others (p :: live) s ->
  exists s', oa_deallocate p s = Ok tt s' /\ oa_ok others live s'.
Proof.
  intros [Hb (fids & uids & Hf & Hu & Hnd & Hlen & Hsub)]. destruct s as [a o]. cbn [fst snd] in *.
  destruct uids as [|i uids]; [done|]. destruct Hu as (Hi & [x nx] & Hx & Hu).
  rewrite <- Permutation_middle in Hnd. apply NoDup_cons in Hnd as [Hni Hnd].
  rewrite not_elem_of_app in Hni. destruct Hni as [Nf Nu].
  pose proof (lookup_lt_Some _ _ _ Hx) as Hlt.
  unfold oa_deallocate, used_stack_pop. rewrite bind_assoc, bind_get, bind_assoc. cbn [fst snd]. rewrite Hi.
  erewrite bind_ok by done. rewrite bind_assoc, bind_get. cbn [fst snd]. rewrite Hi.
  rewrite bind_assoc. erewrite bind_load_obj by olk. rewrite bind_assoc, bind_upd, bind_assoc.
  erewrite bind_store_obj by olk. erewrite bind_ok by done. unfold free_stack_push.
  rewrite bind_assoc, bind_get, bind_assoc. erewrite bind_store_obj by olk. rewrite bind_upd.
  erewrite store_obj_ok by olk.
  cbn [fst snd objects set_objects set_free set_used addr onext m_free_stack_top].
  rewrite !list_insert_insert_eq. eexists. split; [done|].
  apply (oa_inv_objects others a o _ (Some i) nx); [done|]. exists (i :: fids), uids. split_and!.
  - split; [done|]. eexists. split; [by apply list_lookup_insert_eq|]. cbn [onext]. by apply chain_insert.
  - by apply chain_insert.
  - simpl. constructor; [by rewrite not_elem_of_app|done].
  - by injection Hlen.
  - cbn [addrs map]. rewrite list_lookup_insert_eq by done. cbn [from_option addr].
    fold (addrs (<[i:=Object p (m_free_stack_top o)]> (objects o)) fids). rewrite addrs_insert by done.
    rewrite app_nil_r in Hsub. by rewrite <- Permutation_middle in Hsub.
Qed.

(** ** The object size never changes *)

Definition keeps_size {B} (m : M state B) : Prop := forall s, m_size (out_state (m s)).2 = m_size s.2.

Lemma keeps_bind {B C} (m : M state B) (k : B -> M state C) :
  keeps_size m -> (forall b, keeps_size (k b)) -> keeps_size (bind m k).
Proof.
  intros Hm Hk s. specialize (Hm s). unfold bind. destruct (m s) as [b s1|e s1]; simpl in *; [|done].
  by rewrite Hk.
Qed.

Lemma keeps_get {C} (k : state -> M state C) : (forall s, keeps_size (k s)) -> keeps_size (bind get k).
Proof. intros Hk s. rewrite bind_get. apply Hk. Qed.

Lemma keeps_upd f : (forall o, m_size (f o) = m_size o) -> keeps_size (upd f).
Proof. intros Hf s. apply Hf. Qed.

Lemma keeps_load i : keeps_size (load_obj i).
Proof. intros s. unfold load_obj. by destruct (objects s.2 !! i). Qed.

Lemma keeps_store i f : keeps_size (store_obj i f).
Proof. intros s. unfold store_obj. by destruct (objects s.2 !! i). Qed.

Lemma keeps_alloc_page : keeps_size oa_alloc_page.
Proof. intros s. unfold oa_alloc_page. by destruct (ps_alloc s.1) as [[??]|]. Qed.

Lemma keeps_for_each {X} (l : list X) body : (forall x, keeps_size (body x)) -> keeps_size (for_each l body).
Proof. intros Hb. induction l; cbn [for_each]; [done|]. by apply keeps_bind. Qed.

Lemma keeps_ret {B} (b : B) : keeps_size (ret b).
Proof. done. Qed.
Lemma keeps_throw {B} e : keeps_size (throw (A := B) e).
Proof. done. Qed.

Ltac keeps :=
  repeat lazymatch goal with
  | |- keeps_size (bind get _) => apply keeps_get; intros
  | |- keeps_size (bind _ _) => apply keeps_bind; [|intros]
  | |- keeps_size (ret _) => apply keeps_ret
  | |- keeps_size (throw _) => apply keeps_throw
  | |- keeps_size (upd _) => apply keeps_upd; done
  | |- keeps_size (load_obj _) => apply keeps_load
  | |- keeps_size (store_obj _ _) => apply keeps_store
  | |- keeps_size oa_alloc_page => apply keeps_alloc_page
  | |- keeps_size (for_each _ _) => apply keeps_for_each; intros
  | |- keeps_size (match ?x with _ => _ end) => destruct x
  end; auto.

Lemma keeps_oa_alloc : keeps_size oa_alloc.
Proof. unfold oa_alloc. keeps. Qed.
Lemma keeps_next_page : keeps_size get_next_page.
Proof. unfold get_next_page, expand_page_stack. keeps; apply keeps_oa_alloc. Qed.
Lemma keeps_next_object : keeps_size get_next_object.
Proof. unfold get_next_object, expand_object_stack. keeps; apply keeps_oa_alloc. Qed.
Lemma keeps_free_push i : keeps_size (free_stack_push i).
Proof. unfold free_stack_push. keeps. Qed.
Lemma keeps_used_push i : keeps_size (used_stack_push i).
Proof. unfold used_stack_push. keeps. Qed.
Lemma keeps_add : keeps_size add_to_free_stack.
Proof.
  unfold add_to_free_stack. keeps; auto using keeps_next_page, keeps_next_object, keeps_free_push.
Qed.

Lemma oa_allocate_size s : m_size (out_state (oa_allocate s)).2 = m_size s.2.
Proof. revert s. change (keeps_size oa_allocate). unfold oa_allocate, free_stack_pop. keeps; auto using keeps_add, keeps_used_push. Qed.

Lemma oa_deallocate_size p s : m_size (out_state (oa_deallocate p s)).2 = m_size s.2.
Proof. revert s. change (keeps_size (oa_deallocate p)). unfold oa_deallocate, used_stack_pop. keeps; auto using keeps_next_object, keeps_free_push, keeps_used_push. Qed.

(** ** The objects of the pages do not overlap *)

Definition objects_apart (size p q : Z) : Prop := p + size <= q \/ q + size <= p.

Lemma slots_range size page p : 0 < size -> p ∈ slots size page ->
  page <= p /\ p + size <= page + 0x1000.
Proof.
  intros Hs (k & -> & Hk%elem_of_seqZ)%list_elem_of_fmap. unfold BAREFLANK_PAGE_SIZE in Hk.
  assert ((0x1000 / size) * size <= 0x1000) by (pose proof (Z.mul_div_le 0x1000 size); lia). nia.
Qed.

Lemma slots_apart size page : 0 < size -> ForallOrdPairs (objects_apart size) (slots size page).
Proof.
  intros Hs. apply fop_lookup. intros i j x y Hij Hx Hy. unfold slots in *.
  rewrite list_lookup_fmap in Hx, Hy.
  apply fmap_Some in Hx as (a & [-> ?]%lookup_seqZ & ->), Hy as (b & [-> ?]%lookup_seqZ & ->). left. nia.
Qed.

Lemma slots_pages_apart size pages : 0 < size -> NoDup pages ->
  (forall v v', v ∈ pages -> v' ∈ pages -> v <> v' -> v + 0x1000 <= v' \/ v' + 0x1000 <= v) ->
  ForallOrdPairs (objects_apart size) (flat_map (slots size) pages).
Proof.
  intros Hs. induction pages as [|v l IH]; intros Hnd Hap; [constructor|]. cbn [flat_map].
  apply NoDup_cons in Hnd as [Hv Hnd]. apply fop_app. split_and!.
  - by apply slots_apart.
  - apply IH; [done|]. intros. apply Hap; set_solver.
  - intros x y Hx (v' & Hv' & Hy)%elem_of_flat_map.
    apply slots_range in Hx, Hy; [|lia..]. assert (v <> v') by (by intros ->).
    destruct (Hap v v'); [set_solver|set_solver|done|..]; unfold objects_apart; lia.
Qed.

Lemma pages_apart others s : oa_base others s ->
  ForallOrdPairs (objects_apart (m_size s.2)) (flat_map (slots (m_size s.2)) (object_pages s.2)).
Proof.
  intros []. unfold oa_pages in *. apply slots_pages_apart; [lia| |].
  - by apply NoDup_app in ob_nodup0 as (? & _ & _).
  - intros v v' Hv Hv'. apply (ps_live_apart _ _ _ _ ob_pool0); set_solver.
Qed.

Lemma oa_contains_page o page p : page ∈ object_pages o -> page <= p < page + 0x1000 ->
  oa_contains p o = true.
Proof.
  intros (c & Hc & Hpg)%elem_of_flat_map Hp. unfold oa_contains. apply existsb_exists.
  exists c. split; [by apply list_elem_of_In|]. apply existsb_exists. exists page.
  split; [by apply list_elem_of_In|]. unfold BAREFLANK_PAGE_SIZE. lia.
Qed.

Lemma live_slot others live s p : oa_ok others live s -> p ∈ live ->
  exists page, page ∈ object_pages s.2 /\ page <= p /\ p + m_size s.2 <= page + 0x1000.
Proof.
  intros [[] (fids & uids & _ & _ & _ & _ & Hsub)] Hp.
  assert (p ∈ flat_map (slots (m_size s.2)) (object_pages s.2)) as (page & ? & Hs)%elem_of_flat_map.
  { eapply elem_of_submseteq; [|done]. rewrite !elem_of_app. auto. }
  exists page. split; [done|]. apply slots_range; [lia|done].
Qed.

Lemma live_objects_apart others live s : oa_ok others live s ->
  ForallOrdPairs (objects_apart (m_size s.2)) live.
Proof.
  intros [Hb (fids & uids & _ & _ & _ & _ & Hsub)]. eapply fop_submseteq; [| |by eapply pages_apart].
  - unfold objects_apart. tauto.
  - etrans; [|done]. rewrite app_nil_r. by apply submseteq_inserts_l.
Qed.
End ObjAllocProofs.

(** ** Theorems *)

Section Claims.
Context {A : Type} `{PageSourceLaws A}.

(** A slab allocator whose live objects are [live] either returns an object
    of [m_size] bytes that lies inside one of the allocator's pages, is found
    by [contains] and overlaps no live object, and that object becomes live; or
    it throws (the memory manager is out of pages or the page limit is
    reached) and the live objects are as before. *)
Theorem slab_allocate_correct others live (s : ostate (A := A)) : oa_ok others live s ->
  (exists p s', oa_allocate s = Ok p s' /\ oa_ok others (p :: live) s' /\
     oa_contains p s'.2 = true /\
     (exists page, page ∈ object_pages s'.2 /\ page <= p /\ p + m_size s'.2 <= page + 0x1000) /\
     Forall (objects_apart (m_size s'.2) p) live) \/
  (exists e s', oa_allocate s = Err e s' /\ oa_ok others live s' /\
     (e = null_deref /\ ps_alloc s'.1 = None \/
      e = runtime_error "object_allocator: out of memory")).
Proof.
  intros Hok. destruct (oa_allocate_spec others live s Hok) as [?|(p & s' & Ha & Hok')]; [by right|left].
  destruct (live_slot _ _ _ p Hok') as (page & Hpg & H1 & H2); [set_solver|].
  pose proof (ob_size _ _ (oi_base _ _ _ _ Hok')) as Hsz.
  exists p, s'. split_and!; try done.
  - eapply oa_contains_page; [done|]. lia.
  - eauto.
  - pose proof (live_objects_apart _ _ _ Hok') as Hf. by inversion Hf.
Qed.

(** [deallocate] of a live object succeeds and leaves the other live
    objects live, whatever order objects are given back in. *)
Theorem slab_deallocate_correct others live live' p (s : ostate (A := A)) :
  oa_ok others live s -> live ≡ₚ p :: live' ->
  exists s', oa_deallocate p s = Ok tt s' /\ oa_ok others live' s'.
Proof.
  intros [Hb (fids & uids & ? & ? & ? & Hlen & Hsub)] Hp. apply oa_deallocate_spec. split; [done|].
  exists fids, uids. rewrite <- Hp. by split_and!; [..|rewrite Hlen, Hp|].
Qed.
End Claims.
