(* ===== verification/MemMgr.v ===== *)
(** * The memory manager

    Models [bareflank/bfvmm/src/memory_manager/memory_manager.cpp]: the page,
    huge and memory-map pools, the nine slabs and the virtual/physical maps,
    with the C allocation functions on top. *)
From S2P Require Import Prelude Bits EptEntry Buddy PageSource ObjAlloc.

Definition PAGE_POOL_K : Z := 15.
Definition HUGE_POOL_K : Z := 15.
Definition MEM_MAP_POOL_K : Z := 15.
Definition MEM_MAP_POOL_START : Z := 0x200000.

(** [virt_t] and [phys_t]: the other address and the attributes. *)
Record virt_t := Virt { vphys : Z; vattr : Z }.
Record phys_t := Phys { pvirt : Z; pattr : Z }.

(** The page pool and the maps: what [alloc_page], [free_page] and the address
    conversions work on. *)
Record pages := Pages {
  g_page_pool : buddy;
  m_virt_map : gmap Z virt_t;
  m_phys_map : gmap Z phys_t;
}.

(** [alloc_page] of the class: every exception becomes a null pointer. *)
Definition page_alloc (a : pages) : option (Z * pages) :=
  match allocate BAREFLANK_PAGE_SIZE (g_page_pool a) with
  | Ok p b => Some (p, Pages b (m_virt_map a) (m_phys_map a))
  | Err _ _ => None
  end.

Definition page_free (ptr : Z) (a : pages) : pages :=
  Pages (out_state (deallocate ptr (g_page_pool a))) (m_virt_map a) (m_phys_map a).

Definition virt_to_phys_opt (a : pages) (virt : Z) : option Z :=
  match m_virt_map a !! upper12 virt with
  | Some e => Some (Z.lor (vphys e) (lower12 virt))
  | None => None
  end.

Definition phys_to_virt_opt (a : pages) (phys : Z) : option Z :=
  match m_phys_map a !! upper12 phys with
  | Some e => Some (Z.lor (pvirt e) (lower12 phys))
  | None => None
  end.

(** The members of [memory_manager]; [slabs] are [slab010] to [slab800] in the
    order of their sizes. *)
Record mm := MM {
  mm_pages : pages;
  g_huge_pool : buddy;
  g_mem_map_pool : buddy;
  slabs : list oalloc;
}.

Definition slab_sizes : list Z :=
  [0x010; 0x020; 0x030; 0x040; 0x080; 0x100; 0x200; 0x400; 0x800].

#[export] Instance pages_source : PageSource pages := {
  ps_alloc := page_alloc;
  ps_free := page_free;
  ps_phys := virt_to_phys_opt;
  ps_virt := phys_to_virt_opt;
}.

Section MemMgr.
Local Open Scope vmm_scope.

Definition with_pages (s : mm) p := MM p (g_huge_pool s) (g_mem_map_pool s) (slabs s).
Definition with_huge (s : mm) p := MM (mm_pages s) p (g_mem_map_pool s) (slabs s).
Definition with_mem_map (s : mm) p := MM (mm_pages s) (g_huge_pool s) p (slabs s).

(** The constructor: the pools over their static buffers, the slabs empty. *)
Definition memory_manager (page_buffer huge_buffer : Z) : mm :=
  MM (Pages (buddy_allocator page_buffer PAGE_POOL_K (replicate (2 ^ 16 - 1) node_zero)) ∅ ∅)
     (buddy_allocator huge_buffer HUGE_POOL_K (replicate (2 ^ 16 - 1) node_zero))
     (buddy_allocator MEM_MAP_POOL_START MEM_MAP_POOL_K (replicate (2 ^ 16 - 1) node_zero))
     (map (fun size => OAlloc [] None None [] [] size 0 0) slab_sizes).

(** The C++ exceptions, which a [catch (...)] stops; a wild or null pointer it
    does not. *)
Definition is_exception (e : exn) : bool :=
  match e with null_deref | stack_overflow | out_of_range => false | _ => true end.

(** [try { m } catch (...) { }] followed by [return nullptr]. *)
Definition or_null (m : M mm Z) : M mm Z :=
  catch m (fun e => if is_exception e then ret 0 else throw e).

(** Running an operation of one slab or of one pool. *)
Definition in_slab {B} (i : nat) (m : M (pages * oalloc) B) : M mm B := fun s =>
  match slabs s !! i with
  | None => Err out_of_range s
  | Some o =>
      match m (mm_pages s, o) with
      | Ok b (a, o') => Ok b (MM a (g_huge_pool s) (g_mem_map_pool s) (<[i := o']> (slabs s)))
      | Err e (a, o') => Err e (MM a (g_huge_pool s) (g_mem_map_pool s) (<[i := o']> (slabs s)))
      end
  end.

Definition in_pages {B} (m : M buddy B) : M mm B := fun s =>
  match m (g_page_pool (mm_pages s)) with
  | Ok b p => Ok b (with_pages s (Pages p (m_virt_map (mm_pages s)) (m_phys_map (mm_pages s))))
  | Err e p => Err e (with_pages s (Pages p (m_virt_map (mm_pages s)) (m_phys_map (mm_pages s))))
  end.
Definition in_huge {B} (m : M buddy B) : M mm B := fun s =>
  match m (g_huge_pool s) with
  | Ok b p => Ok b (with_huge s p) | Err e p => Err e (with_huge s p) end.
Definition in_mem_map {B} (m : M buddy B) : M mm B := fun s =>
  match m (g_mem_map_pool s) with
  | Ok b p => Ok b (with_mem_map s p) | Err e p => Err e (with_mem_map s p) end.

Definition mm_alloc_page : M mm Z := or_null (in_pages (allocate BAREFLANK_PAGE_SIZE)).

Definition alloc_map (size : Z) : M mm Z := or_null (in_mem_map (allocate size)).

(** The first slab whose objects hold [size] bytes: the chain of tests of
    [alloc]. *)
Fixpoint find_slab (size : Z) (l : list Z) (i : nat) : option nat :=
  match l with
  | [] => None
  | z :: l' => if size <=? z then Some i else find_slab size l' (S i)
  end.

Definition alloc (size : Z) : M mm Z :=
  if size =? 0 then ret 0
  else or_null
    (match find_slab size slab_sizes 0 with
     | Some i => in_slab i oa_allocate
     | None =>
         if BAREFLANK_PAGE_SIZE <? size then in_huge (allocate size) else mm_alloc_page
     end).

(** The first slab that contains [ptr]. *)
Fixpoint slab_of (ptr : Z) (l : list oalloc) (i : nat) : option nat :=
  match l with
  | [] => None
  | o :: l' => if oa_contains ptr o then Some i else slab_of ptr l' (S i)
  end.

Definition mm_free_page (ptr : Z) : M mm unit := in_pages (deallocate ptr).

Definition free (ptr : Z) : M mm unit :=
  s <- get ;;
  match slab_of ptr (slabs s) 0 with
  | Some i => in_slab i (oa_deallocate ptr)
  | None =>
      if contains ptr (g_huge_pool s) then in_huge (deallocate ptr) else mm_free_page ptr
  end.

Definition free_map (ptr : Z) : M mm unit := in_mem_map (deallocate ptr).

Definition size_page (ptr : Z) : M mm Z :=
  s <- get ;;
  if contains ptr (g_page_pool (mm_pages s)) then in_pages (block_size ptr) else ret 0.

Definition size_map (ptr : Z) : M mm Z :=
  s <- get ;;
  if contains ptr (g_mem_map_pool s) then in_mem_map (block_size ptr) else ret 0.

Definition mm_size (ptr : Z) : M mm Z :=
  s <- get ;;
  match slab_of ptr (slabs s) 0 with
  | Some i => gets (fun s => from_option (oa_size ptr) 0 (slabs s !! i))
  | None =>
      if contains ptr (g_huge_pool s) then in_huge (block_size ptr) else size_page ptr
  end.

Definition virtint_to_physint (virt : Z) : M mm Z := fun s =>
  match virt_to_phys_opt (mm_pages s) virt with
  | Some p => Ok p s | None => Err (runtime_error "virtint_to_physint failed: ") s end.

Definition physint_to_virtint (phys : Z) : M mm Z := fun s =>
  match phys_to_virt_opt (mm_pages s) phys with
  | Some v => Ok v s | None => Err (runtime_error "physint_to_virtint failed: ") s end.

(** [m_virt_map.erase(virt); m_phys_map.erase(phys)] *)
Definition erase_md (virt phys : Z) (s : mm) : mm :=
  with_pages s (Pages (g_page_pool (mm_pages s)) (delete virt (m_virt_map (mm_pages s)))
    (delete phys (m_phys_map (mm_pages s)))).

(** [add_md]; the [on_failure] action runs when the body throws. *)
Definition add_md (virt phys attr : Z) : M mm unit :=
  catch
    (expects (lower12 virt =? 0) ;;;
     expects (lower12 phys =? 0) ;;;
     s <- get ;;
     match m_virt_map (mm_pages s) !! virt with
     | Some _ => throw (runtime_error "memory_manager::add_md: virt already added: ")
     | None =>
         match m_phys_map (mm_pages s) !! phys with
         | Some _ => throw (runtime_error "memory_manager::add_md: phys already added: ")
         | None =>
             put (with_pages s (Pages (g_page_pool (mm_pages s))
               (<[virt := Virt phys attr]> (m_virt_map (mm_pages s)))
               (<[phys := Phys virt attr]> (m_phys_map (mm_pages s)))))
         end
     end)
    (fun e => modify (erase_md virt phys) ;;; throw e).

Definition remove_md (virt phys : Z) : M mm unit :=
  expects (lower12 virt =? 0) ;;;
  expects (lower12 phys =? 0) ;;;
  modify (erase_md virt phys).

(** [memory_descriptor]: physical, virtual, attributes. *)
Definition descriptors (s : mm) : list (Z * Z * Z) :=
  map (fun p => (vphys p.2, p.1, vattr p.2)) (map_to_list (m_virt_map (mm_pages s))).

Definition malloc_r (size : Z) : M mm Z := alloc size.
Definition free_r (ptr : Z) : M mm unit := free ptr.

(** [_calloc_r]: the pointer and the number of bytes it sets to zero. *)
Definition calloc_r (nmemb size : Z) : M mm (Z * Z) :=
  ptr <- alloc (mul64 nmemb size) ;;
  if negb (ptr =? 0) then ret (ptr, mul64 nmemb size) else ret (0, 0).

(** [_realloc_r]: the pointer and the number of bytes it copies to it. *)
Definition realloc_r (ptr size : Z) : M mm (Z * Z) :=
  old_sze <- mm_size ptr ;;
  new_ptr <- alloc size ;;
  if (new_ptr =? 0) || (old_sze =? 0) then ret (0, 0)
  else if negb (ptr =? 0) then
    free ptr ;;; ret (new_ptr, if old_sze <? size then old_sze else size)
  else ret (new_ptr, 0).

End MemMgr.

