(* ===== verification/Malloc.v ===== *)
(** * The contract of [alloc] and [free]

    The blocks that [alloc] has handed out, across the nine slabs, the page
    pool and the huge pool: they never overlap, and [free] takes back exactly
    the block it is given. *)
From S2P Require Import Prelude Bits EptEntry Buddy BuddyTree BuddyProofs BuddySpec.
From S2P Require Import PageSource ObjAlloc ObjAllocProofs MemMgr MemMgrProofs.

(** The part of a slab's invariant that does not mention the memory manager. *)
Definition slab_inv (live : list Z) (o : oalloc) : Prop :=
  0 < m_size o <= 0x1000 /\
  Forall (fun c => 0 <= os_index c <= 255) (m_objt_stack_top o) /\
  Forall (fun c => (length (ps_pool c) <= 255)%nat) (m_page_stack_top o) /\
  exists fids uids,
    chain (objects o) (m_free_stack_top o) fids /\ chain (objects o) (m_used_stack_top o) uids /\
    NoDup (fids ++ uids) /\ length uids = length live /\
    addrs (objects o) fids ++ live ⊆+ flat_map (slots (m_size o)) (object_pages o).

Section Malloc.
Context (k : nat) (base : Z) (kh : nat) (baseh : Z).
#[local] Existing Instance pages_laws.
#[local] Instance laws : PageSourceLaws pages := pages_laws k base.

Lemma slab_inv_iff others live a o :
  oa_ok others live (a, o) <->
  slab_inv live o /\ pages_ok k base a (others ∪ list_to_set (oa_pages o)) /\
  NoDup (oa_pages o) /\ others ## list_to_set (oa_pages o).
Proof.
  split.
  - intros [[] (fids & uids & ? & ? & ? & ? & Hs)]. cbn [fst snd] in *. rewrite app_nil_r in Hs.
    split_and!; try done. split_and!; try done; try lia. exists fids, uids. by split_and!.
  - intros ((? & ? & ? & fids & uids & ? & ? & ? & ? & ?) & ? & ? & ?). split; [by split|].
    exists fids, uids. rewrite app_nil_r. by split_and!.
Qed.

(** All pages of the slabs. *)
Definition slab_pages (l : list oalloc) : list Z := flat_map oa_pages l.

(** [lives]: the live objects of each slab; [plive]: the pages given out by
    [alloc_page]; [hlive]: the live blocks of the huge pool. *)
Record mm_inv (lives : list (list Z)) (plive : list Z) (hlive : list (Z * nat)) (s : mm) : Prop := {
  mi_slabs : Forall2 slab_inv lives (slabs s);
  mi_sizes : map m_size (slabs s) = slab_sizes;
  mi_nodup : NoDup (slab_pages (slabs s) ++ plive);
  mi_pages : pages_ok k base (mm_pages s) (list_to_set (slab_pages (slabs s) ++ plive));
  mi_huge : buddy_ok kh baseh hlive (g_huge_pool s);
}.

Lemma slab_pages_split l i o : l !! i = Some o ->
  slab_pages l ≡ₚ oa_pages o ++ slab_pages (delete i l).
Proof.
  intros Hi. unfold slab_pages. rewrite (delete_Permutation l i o Hi) at 1. done.
Qed.

Lemma slab_pages_insert l i o o' : l !! i = Some o ->
  slab_pages (<[i := o']> l) ≡ₚ oa_pages o' ++ slab_pages (delete i l).
Proof.
  intros Hi. rewrite (slab_pages_split _ i o').
  - rewrite !delete_take_drop, take_insert_ge, drop_insert_lt by lia. done.
  - apply list_lookup_insert_eq. by eapply lookup_lt_Some.
Qed.

(** The pages that are not slab [i]'s. *)
Definition not_slab (i : nat) (plive : list Z) (s : mm) : gset Z :=
  list_to_set (slab_pages (delete i (slabs s)) ++ plive).

Lemma slab_enter lives plive hlive s i o li : mm_inv lives plive hlive s ->
  slabs s !! i = Some o -> lives !! i = Some li ->
  oa_ok (not_slab i plive s) li (mm_pages s, o).
Proof.
  intros [] Ho Hl. apply slab_inv_iff. pose proof (Forall2_lookup_lr _ _ _ _ _ _ mi_slabs0 Hl Ho) as Hinv.
  rewrite (slab_pages_split _ i o Ho), <- app_assoc in mi_nodup0. apply NoDup_app in mi_nodup0 as (N1 & N2 & _).
  split_and!; try done.
  - replace (not_slab i plive s ∪ list_to_set (oa_pages o))
      with (list_to_set (C := gset Z) (slab_pages (slabs s) ++ plive)); [done|].
    apply leibniz_equiv. rewrite (slab_pages_split _ i o Ho). unfold not_slab. set_solver.
  - intros x Hx Hx'. unfold not_slab in Hx. apply elem_of_list_to_set in Hx, Hx'. by eapply N2.
Qed.

Lemma slab_leave lives plive hlive s i o li' a' o' : mm_inv lives plive hlive s ->
  slabs s !! i = Some o -> m_size o' = m_size o -> oa_ok (not_slab i plive s) li' (a', o') ->
  mm_inv (<[i := li']> lives) plive hlive (MM a' (g_huge_pool s) (g_mem_map_pool s) (<[i := o']> (slabs s))).
Proof.
  intros [] Ho Hz (Hinv & Hp & N1 & Hdis)%slab_inv_iff.
  pose proof (slab_pages_insert _ _ _ o' Ho) as Hpg.
  split; cbn [slabs mm_pages g_huge_pool].
  - by apply Forall2_insert.
  - rewrite list_fmap_insert, Hz. rewrite list_insert_id; [done|]. by rewrite list_lookup_fmap, Ho.
  - rewrite Hpg, <- app_assoc. apply NoDup_app. split_and!; [done| |].
    + intros x Hx Hx'. apply (Hdis x); apply elem_of_list_to_set; done.
    + rewrite (slab_pages_split _ i o Ho), <- app_assoc in mi_nodup0. by apply NoDup_app in mi_nodup0 as (_ & _ & ?).
  - replace (list_to_set (C := gset Z) (slab_pages (<[i:=o']> (slabs s)) ++ plive))
      with (not_slab i plive s ∪ list_to_set (oa_pages o')); [done|].
    apply leibniz_equiv. rewrite Hpg. unfold not_slab. set_solver.
  - done.
Qed.

(** ** The blocks handed out *)

(** A block: its address and its size. *)
Definition bapart (b c : Z * Z) : Prop := fst b + snd b <= fst c \/ fst c + snd c <= fst b.

Lemma bapart_sym b c : bapart b c -> bapart c b.
Proof using. unfold bapart. tauto. Qed.

Definition slab_blocks (z : Z) (live : list Z) : list (Z * Z) := map (fun p => (p, z)) live.

Definition slabs_blocks (zs : list Z) (lives : list (list Z)) : list (Z * Z) :=
  concat (zip_with slab_blocks zs lives).

Definition page_blocks (plive : list Z) : list (Z * Z) := map (fun p => (p, 0x1000)) plive.
Definition huge_blocks (hlive : list (Z * nat)) : list (Z * Z) := map (fun b => (fst b, psize (snd b))) hlive.

Definition mm_blocks (lives : list (list Z)) (plive : list Z) (hlive : list (Z * nat)) : list (Z * Z) :=
  slabs_blocks slab_sizes lives ++ page_blocks plive ++ huge_blocks hlive.

(** Changing what one slab has handed out. *)
Lemma slabs_blocks_insert zs lives i z li li' : zs !! i = Some z -> lives !! i = Some li ->
  slabs_blocks zs (<[i := li']> lives) ++ slab_blocks z li ≡ₚ
  slabs_blocks zs lives ++ slab_blocks z li'.
Proof using.
  unfold slabs_blocks. revert zs i. induction lives as [|l0 lives IH]; intros [|z0 zs] [|i] Hz Hl; simplify_eq/=.
  - rewrite !(Permutation_app_comm (slab_blocks _ _ ++ _)), !app_assoc.
    by rewrite (Permutation_app_comm (slab_blocks z li')).
  - rewrite <- !app_assoc. by rewrite IH.
Qed.

(** Objects of one slab lie in its pages, and do not overlap. *)
Lemma slab_live_in live o p : slab_inv live o -> p ∈ live ->
  exists page, page ∈ object_pages o /\ page <= p /\ p + m_size o <= page + 0x1000.
Proof using.
  intros (Hz & _ & _ & fids & uids & _ & _ & _ & _ & Hs) Hp.
  assert (p ∈ flat_map (slots (m_size o)) (object_pages o)) as (page & ? & ?)%elem_of_flat_map.
  { eapply elem_of_submseteq; [|done]. rewrite !elem_of_app. auto. }
  exists page. split; [done|]. apply slots_range; [lia|done].
Qed.
Definition separate (P : list Z) : Prop :=
  forall v v', v ∈ P -> v' ∈ P -> v <> v' -> v + 0x1000 <= v' \/ v' + 0x1000 <= v.

Lemma slab_live_apart live o : slab_inv live o -> NoDup (object_pages o) -> separate (object_pages o) ->
  ForallOrdPairs bapart (slab_blocks (m_size o) live).
Proof using.
  intros (Hz & _ & _ & fids & uids & _ & _ & _ & _ & Hs) Hnd Hsep.
  assert (ForallOrdPairs (objects_apart (m_size o)) live) as Hf.
  { eapply fop_submseteq; [| |apply slots_pages_apart; [|done..]; lia].
    - unfold objects_apart. tauto.
    - etrans; [|done]. by apply submseteq_inserts_l. }
  clear -Hf. induction Hf as [|p l Hp Hl IH]; [constructor|]. cbn [slab_blocks map]. constructor; [|done].
  apply Forall_map. eapply Forall_impl; [done|]. intros q Hq. exact Hq.
Qed.

Lemma slabs_live_in lives l b : Forall2 slab_inv lives l ->
  b ∈ slabs_blocks (map m_size l) lives ->
  exists page, page ∈ slab_pages l /\ page <= fst b /\ fst b + snd b <= page + 0x1000.
Proof using.
  intros Hf. unfold slabs_blocks, slab_pages.
  induction Hf as [|live o lives l Hinv _ IH]; simpl; [by intros ?%elem_of_nil|].
  rewrite elem_of_app. setoid_rewrite elem_of_app. intros [Hb|Hb].
  - apply list_elem_of_fmap in Hb as (p & -> & Hp). destruct (slab_live_in _ _ p Hinv Hp) as (page & Hpg & ?).
    exists page. split; [left|done]. unfold oa_pages. set_solver.
  - destruct (IH Hb) as (page & ? & ?). eauto.
Qed.

Lemma slabs_live_apart lives l : Forall2 slab_inv lives l -> NoDup (slab_pages l) -> separate (slab_pages l) ->
  ForallOrdPairs bapart (slabs_blocks (map m_size l) lives).
Proof using.
  intros Hf. unfold slab_pages. induction Hf as [|live o lives l Hinv Hf IH]; cbn [flat_map map]; intros Hnd Hsep; [constructor|].
  unfold slabs_blocks in *. cbn [zip_with concat]. apply NoDup_app in Hnd as (N1 & N2 & N3).
  apply fop_app. split_and!.
  - apply slab_live_apart; [done| |].
    + unfold oa_pages in N1. by apply NoDup_app in N1 as (? & _).
    + intros v v' Hv Hv'. apply Hsep; unfold oa_pages; set_solver.
  - apply IH; [done|]. intros v v' Hv Hv'. apply Hsep; set_solver.
  - intros b c (p & -> & Hp)%list_elem_of_fmap Hc.
    destruct (slab_live_in _ _ p Hinv Hp) as (page & Hpg & ? & ?).
    destruct (slabs_live_in _ _ c Hf Hc) as (page' & Hpg' & ? & ?).
    assert (page <> page') by (intros ->; apply (N2 page'); [unfold oa_pages; set_solver|done]).
    destruct (Hsep page page') as [?|?]; [unfold oa_pages; set_solver|set_solver|done|..]; unfold bapart; cbn [fst snd]; lia.
Qed.

(** ** No two blocks overlap *)

Section Inv.
Context (lives : list (list Z)) (plive : list Z) (hlive : list (Z * nat)) (s : mm).
Hypothesis Hinv : mm_inv lives plive hlive s.
Hypothesis Hregions : base + psize k <= baseh \/ baseh + psize kh <= base.

Lemma mm_page_range v : v ∈ slab_pages (slabs s) ++ plive -> base <= v /\ v + 0x1000 <= base + psize k.
Proof using Hinv.
  intros Hv. destruct Hinv as [_ _ _ Hp _].
  destruct (page_in_use k base _ _ v Hp) as (? & ? & _); [by apply elem_of_list_to_set|]. done.
Qed.

Lemma mm_separate : separate (slab_pages (slabs s) ++ plive).
Proof using Hinv.
  destruct Hinv as [_ _ _ Hp _]. intros v v' Hv Hv'.
  apply (pages_apart_ok k base _ _ _ _ Hp); by apply elem_of_list_to_set.
Qed.

(** A block that is not of the huge pool lies in one page. *)
Lemma small_in_page b : b ∈ slabs_blocks slab_sizes lives ++ page_blocks plive ->
  exists page, page ∈ slab_pages (slabs s) ++ plive /\ page <= fst b /\ fst b + snd b <= page + 0x1000.
Proof using Hinv.
  destruct Hinv as [Hf Hz _ _ _]. rewrite <- Hz. intros [Hb|Hb]%elem_of_app.
  - destruct (slabs_live_in _ _ _ Hf Hb) as (page & ? & ?). exists page. rewrite elem_of_app. auto.
  - apply list_elem_of_fmap in Hb as (p & -> & Hp). exists p. rewrite elem_of_app. cbn [fst snd]. split; [auto|lia].
Qed.

Lemma mm_blocks_apart : ForallOrdPairs bapart (mm_blocks lives plive hlive).
Proof using Hinv Hregions.
  pose proof mm_separate as Hsep. pose proof Hinv as [Hf Hz Hnd Hp Hh]. unfold mm_blocks.
  rewrite app_assoc. apply fop_app. split_and!.
  - apply NoDup_app in Hnd as (N1 & N2 & N3). apply fop_app. split_and!.
    + rewrite <- Hz. apply slabs_live_apart; [done..|]. intros v v' Hv Hv'. apply Hsep; set_solver.
    + clear -N3 Hsep. unfold page_blocks.
      assert (separate plive) as Hsep' by (intros v v' Hv Hv'; apply Hsep; set_solver). clear Hsep.
      induction plive as [|v l IH]; [constructor|]. cbn [map]. apply NoDup_cons in N3 as [Hv N3].
      constructor; [|apply IH; [done|]; intros x y Hx Hy; apply Hsep'; set_solver].
      apply Forall_map, Forall_forall. intros x Hx. unfold bapart. cbn [fst snd].
      apply Hsep'; [set_solver..|]. by intros ->.
    + intros b c Hb Hc. rewrite <- Hz in Hb. destruct (slabs_live_in _ _ _ Hf Hb) as (page & Hpg & ? & ?).
      apply list_elem_of_fmap in Hc as (p & -> & Hp'). unfold bapart. cbn [fst snd].
      destruct (Hsep page p); [set_solver|set_solver| |lia..]. intros ->. by apply (N2 p).
  - pose proof (live_apart _ _ _ _ Hh) as Hf'. clear -Hf'. unfold huge_blocks.
    induction Hf' as [|b l Hb Hl IH]; [constructor|]. cbn [map]. constructor; [|done].
    apply Forall_map. eapply Forall_impl; [done|]. intros c Hc. exact Hc.
  - intros b c (page & Hpg & ? & ?)%small_in_page (h & -> & Hin)%list_elem_of_fmap.
    apply mm_page_range in Hpg. destruct h as [p o]. destruct (live_range _ _ _ _ Hh _ _ Hin) as (? & ? & _).
    unfold bapart. cbn [fst snd]. lia.
Qed.
End Inv.

(** ** [alloc] *)

Lemma find_slab_spec size l i j : find_slab size l i = Some j ->
  exists z, (i <= j)%nat /\ l !! (j - i)%nat = Some z /\ size <= z.
Proof using.
  revert i. induction l as [|z l IH]; intros i; simpl; [done|].
  destruct (Z.leb_spec size z).
  - intros [= <-]. exists z. by rewrite Nat.sub_diag.
  - intros (z' & ? & ? & ?)%IH. exists z'. split_and!; [lia| |done].
    by replace (j - i)%nat with (S (j - S i)) by lia.
Qed.

Lemma find_slab_none size l i : find_slab size l i = None -> forall z, z ∈ l -> z < size.
Proof using.
  revert i. induction l as [|z l IH]; intros i; simpl; [set_solver|].
  destruct (Z.leb_spec size z); [done|]. intros Hn z' [->|Hz']%elem_of_cons; [done|eauto].
Qed.

(** The slab, its size and what it has handed out. *)
Lemma slab_at lives plive hlive s i z : mm_inv lives plive hlive s -> slab_sizes !! i = Some z ->
  exists o li, slabs s !! i = Some o /\ lives !! i = Some li /\ m_size o = z.
Proof using.
  intros [Hf Hz _ _ _] Hi. rewrite <- Hz, list_lookup_fmap in Hi.
  apply fmap_Some in Hi as (o & Ho & ->). destruct (Forall2_lookup_r _ _ _ _ _ Hf Ho) as (li & Hl & _).
  eauto.
Qed.

(** The page pool has no page left for the slab that serves [size] bytes. *)
Definition slab_exhausted (size : Z) (s : mm) : Prop :=
  page_alloc (mm_pages s) = None /\ exists z, z ∈ slab_sizes /\ size <= z.

(** The three results of [alloc]. *)
Definition alloc_result (size : Z) lives plive hlive (o : outcome mm Z) : Prop :=
  (exists s', o = Ok 0 s' /\ mm_inv lives plive hlive s') \/
  (exists s', o = Err null_deref s' /\ slab_exhausted size s' /\ mm_inv lives plive hlive s') \/
  exists p cap s' lives' plive' hlive', o = Ok p s' /\ p <> 0 /\ size <= cap /\
    mm_inv lives' plive' hlive' s' /\
    mm_blocks lives' plive' hlive' ≡ₚ (p, cap) :: mm_blocks lives plive hlive.

Lemma alloc_slab_spec size lives plive hlive s i z : mm_inv lives plive hlive s ->
  slab_sizes !! i = Some z -> size <= z ->
  alloc_result size lives plive hlive (or_null (in_slab i oa_allocate) s).
Proof using.
  intros Hinv Hz Hle. destruct (slab_at _ _ _ _ _ _ Hinv Hz) as (o & li & Ho & Hl & Hoz).
  pose proof (slab_enter _ _ _ _ _ _ _ Hinv Ho Hl) as Hok.
  pose proof (oa_allocate_size (mm_pages s, o)) as Hsz. unfold or_null, catch, in_slab. rewrite Ho.
  destruct (oa_allocate_spec _ _ _ Hok) as [(e & [a' o'] & Ha & Hok' & He)|(p & [a' o'] & Ha & Hok')];
    rewrite Ha in Hsz |- *; cbn [out_state fst snd] in *.
  - destruct He as [[-> He]| ->]; cbn [is_exception throw ret].
    + right. left. eexists. split; [done|]. split.
      * split; [exact He|]. exists z. split; [by eapply list_elem_of_lookup_2|done].
      * rewrite <- (list_insert_id lives i li Hl). by eapply slab_leave.
    + left. eexists. split; [done|]. rewrite <- (list_insert_id lives i li Hl). by eapply slab_leave.
  - right. right. exists p, z. eexists _, (<[i := p :: li]> lives), plive, hlive. split; [done|].
    destruct (live_slot _ _ _ p Hok') as (page & Hpg & ? & ?); [set_solver|].
    pose proof (slab_leave _ _ _ _ _ _ _ _ _ Hinv Ho Hsz Hok') as Hinv'.
    split_and!; [|done|done|].
    + destruct (mm_page_range _ _ _ _ Hinv' page) as [? _].
      { cbn [slabs]. rewrite (slab_pages_insert _ _ _ _ Ho). unfold oa_pages. cbn [snd] in Hpg. set_solver. }
      destruct (mi_pages _ _ _ _ Hinv) as (bs & (t & nx & [] & _) & _). lia.
    + unfold mm_blocks. pose proof (slabs_blocks_insert slab_sizes lives i z li (p :: li) Hz Hl) as Hp.
      cbn [slab_blocks map] in Hp. rewrite <- Permutation_middle in Hp.
      rewrite app_comm_cons in Hp. apply Permutation_app_inv_r in Hp. by rewrite Hp.
Qed.

Lemma alloc_page_spec size lives plive hlive s : mm_inv lives plive hlive s -> size <= 0x1000 ->
  alloc_result size lives plive hlive (mm_alloc_page s).
Proof using.
  intros Hinv Hs. pose proof Hinv as [Hf Hz Hnd Hp Hh].
  unfold mm_alloc_page, or_null, catch, in_pages.
  destruct (allocate BAREFLANK_PAGE_SIZE (g_page_pool (mm_pages s))) as [p b|e b] eqn:E.
  - right. right. assert (page_alloc (mm_pages s) = Some (p, Pages b (m_virt_map (mm_pages s)) (m_phys_map (mm_pages s)))) as Ha
      by (unfold page_alloc; by rewrite E).
    destruct (pages_alloc_ok k base _ _ _ _ Hp Ha) as (Hn & Hp' & _).
    rewrite elem_of_list_to_set in Hn.
    exists p, 0x1000. eexists _, lives, (p :: plive), hlive. split; [done|].
    assert (NoDup (slab_pages (slabs s) ++ p :: plive)) as Hnd'.
    { rewrite <- Permutation_middle. by constructor. }
    assert ({[p]} ∪ list_to_set (slab_pages (slabs s) ++ plive) =
      list_to_set (C := gset Z) (slab_pages (slabs s) ++ p :: plive)) as Es.
    { apply leibniz_equiv. rewrite <- Permutation_middle. done. }
    rewrite Es in Hp'. destruct (page_in_use k base _ _ p Hp') as (? & ? & ? & ?); [set_solver|].
    split_and!; [lia|done|by split|]. unfold mm_blocks, page_blocks. cbn [map app]. by rewrite <- Permutation_middle.
  - left. destruct Hp as (bs & Hb & Hp').
    apply (allocate_err _ _ _ _ _ _ _ Hb) in E as [-> ->]; [|unfold u64, BAREFLANK_PAGE_SIZE; lia].
    cbn [is_exception ret]. eexists. split; [done|].
    by destruct s as [[] ? ? ?].
Qed.

Lemma alloc_huge_spec size lives plive hlive s : mm_inv lives plive hlive s -> u64 size ->
  alloc_result size lives plive hlive (or_null (in_huge (allocate size)) s).
Proof using.
  intros Hinv Hu. pose proof Hinv as [Hf Hz Hnd Hp Hh]. unfold or_null, catch, in_huge.
  destruct (allocate size (g_huge_pool s)) as [p b|e b] eqn:E.
  - right. right. pose proof (allocate_ok _ _ _ _ _ _ _ Hh Hu E) as Hh'.
    exists p, (psize (order_of size)). eexists _, lives, plive, ((p, order_of size) :: hlive). split; [done|].
    destruct (live_range _ _ _ _ Hh' p (order_of size)) as (? & _); [set_solver|].
    split_and!; [| |by split|].
    + destruct Hh as (t & nx & [] & _). lia.
    + destruct (Z.eq_dec size 0) as [->|]; [pose proof (psize_pos (order_of 0)); lia|].
      apply size_le_order. destruct Hu. lia.
    + unfold mm_blocks, huge_blocks. cbn [map fst snd]. rewrite !app_assoc. by rewrite <- Permutation_middle.
  - left. apply (allocate_err _ _ _ _ _ _ _ Hh Hu) in E as [-> ->].
    cbn [is_exception ret]. eexists. split; [done|]. by destruct s as [[] ? ? ?].
Qed.

Lemma or_null_id m s : (forall e s', m s = Err e s' -> is_exception e = false) -> or_null m s = m s.
Proof using.
  intros He. unfold or_null, catch. destruct (m s) as [|e s'] eqn:E; [done|]. by rewrite (He e s').
Qed.

Lemma alloc_spec size lives plive hlive s : mm_inv lives plive hlive s -> u64 size ->
  alloc_result size lives plive hlive (alloc size s).
Proof using.
  intros Hinv Hu. unfold alloc. destruct (Z.eqb_spec size 0) as [->|].
  { left. by exists s. }
  destruct (find_slab size slab_sizes 0) as [i|] eqn:Ef.
  - apply find_slab_spec in Ef as (z & _ & Hz & Hle). rewrite Nat.sub_0_r in Hz. by eapply alloc_slab_spec.
  - destruct (Z.ltb_spec BAREFLANK_PAGE_SIZE size); [by apply alloc_huge_spec|].
    pose proof (alloc_page_spec size lives plive hlive s Hinv ltac:(unfold BAREFLANK_PAGE_SIZE in *; lia)) as Hr.
    rewrite or_null_id; [done|]. intros e s' He. rewrite He in Hr.
    destruct Hr as [(? & ? & _)|[(? & [= -> ->] & _)|(? & ? & ? & ? & ? & ? & ? & _)]]; done.
Qed.

(** ** [free] and [size] *)

Lemma oa_contains_inv p o : oa_contains p o = true ->
  exists page, page ∈ object_pages o /\ page <= p < page + 0x1000.
Proof using.
  unfold oa_contains. intros (c & Hc & (page & Hpg & Hp)%existsb_exists)%existsb_exists.
  unfold BAREFLANK_PAGE_SIZE in Hp. exists page. split; [|lia].
  unfold object_pages. apply elem_of_flat_map. exists c. by rewrite !list_elem_of_In.
Qed.

Lemma slab_of_spec p l n :
  match slab_of p l n with
  | Some i => exists o, (n <= i)%nat /\ l !! (i - n)%nat = Some o /\ oa_contains p o = true
  | None => forall o, o ∈ l -> oa_contains p o = false
  end.
Proof using.
  revert n. induction l as [|o l IH]; intros n; simpl; [set_solver|].
  destruct (oa_contains p o) eqn:E; [exists o; by rewrite Nat.sub_diag|].
  specialize (IH (S n)). destruct (slab_of p l (S n)) as [i|].
  - destruct IH as (o' & ? & ? & ?). exists o'. split_and!; [lia| |done]. by replace (i - n)%nat with (S (i - S n)) by lia.
  - intros o' [->|?]%elem_of_cons; auto.
Qed.

Section Free.
Context (lives : list (list Z)) (plive : list Z) (hlive : list (Z * nat)) (s : mm).
Hypothesis Hinv : mm_inv lives plive hlive s.
Hypothesis Hregions : base + psize k <= baseh \/ baseh + psize kh <= base.

(** The page an address lies in decides which slab contains it. *)
Lemma slab_of_page p page : page ∈ slab_pages (slabs s) ++ plive -> page <= p < page + 0x1000 ->
  match slab_of p (slabs s) 0 with
  | Some i => exists o, slabs s !! i = Some o /\ page ∈ object_pages o
  | None => forall o, o ∈ slabs s -> page ∉ object_pages o
  end.
Proof using Hinv Hregions.
  intros Hpg Hp. pose proof (slab_of_spec p (slabs s) 0) as Hs.
  destruct (slab_of p (slabs s) 0) as [i|].
  - destruct Hs as (o & _ & Ho & (page' & Hpg' & ?)%oa_contains_inv). rewrite Nat.sub_0_r in Ho.
    exists o. split; [done|]. destruct (decide (page = page')) as [->|]; [done|].
    assert (page' ∈ slab_pages (slabs s) ++ plive) as Hin.
    { apply elem_of_app. left. apply elem_of_flat_map. exists o. split; [by eapply list_elem_of_lookup_2|].
      unfold oa_pages. set_solver. }
    destruct (mm_separate _ _ _ _ Hinv page page'); [done..| |]; lia.
  - intros o Ho Hin. specialize (Hs o Ho). by rewrite (oa_contains_page o page p) in Hs.
Qed.

Lemma page_owner i j o o' page : slabs s !! i = Some o -> slabs s !! j = Some o' ->
  page ∈ oa_pages o -> page ∈ oa_pages o' -> i = j.
Proof using Hinv Hregions.
  intros Ho Ho' Hp Hp'. destruct (decide (i = j)) as [|Hne]; [done|]. exfalso.
  pose proof (mi_nodup _ _ _ _ Hinv) as Hnd. rewrite (slab_pages_split _ i o Ho), <- app_assoc in Hnd.
  apply NoDup_app in Hnd as (_ & Hd & _). apply (Hd page Hp). apply elem_of_app. left.
  apply elem_of_flat_map. exists o'. split; [|done].
  assert (o' ∈ slabs s) as Hin by (by eapply list_elem_of_lookup_2).
  rewrite delete_take_drop. rewrite <- (take_drop_middle _ _ _ Ho) in Ho'.
  apply list_elem_of_lookup. destruct (decide (j < i)%nat) as [Hlt|].
  - exists j. rewrite lookup_app_l in Ho' |- * by (rewrite length_take; apply lookup_lt_Some in Ho; lia). done.
  - apply lookup_lt_Some in Ho as Hil. rewrite lookup_app_r in Ho' by (rewrite length_take; lia).
    rewrite length_take, Nat.min_l in Ho' by lia. destruct (j - i)%nat as [|m] eqn:En; [lia|]. cbn in Ho'.
    exists (i + m)%nat. rewrite lookup_app_r by (rewrite length_take; lia).
    rewrite length_take, Nat.min_l by lia. by replace (i + m - i)%nat with m by lia.
Qed.

Lemma huge_outside p o : (p, o) ∈ hlive -> forall page, page ∈ slab_pages (slabs s) ++ plive ->
  ~ page <= p < page + 0x1000.
Proof using Hinv Hregions.
  intros Hp page Hpg. destruct (mm_page_range _ _ _ _ Hinv page Hpg).
  destruct (live_range _ _ _ _ (mi_huge _ _ _ _ Hinv) _ _ Hp) as (? & ? & _). pose proof (psize_pos o). lia.
Qed.

(** Which allocator [free] and [size] turn to. *)
Lemma route_slab i o li p : slabs s !! i = Some o -> lives !! i = Some li -> p ∈ li ->
  slab_of p (slabs s) 0 = Some i.
Proof using Hinv Hregions.
  intros Ho Hl Hp. pose proof (Forall2_lookup_lr _ _ _ _ _ _ (mi_slabs _ _ _ _ Hinv) Hl Ho) as Hsl.
  destruct (slab_live_in _ _ _ Hsl Hp) as (page & Hpg & ? & ?). pose proof (proj1 Hsl).
  assert (page ∈ slab_pages (slabs s)) as Hin.
  { apply elem_of_flat_map. exists o. split; [by eapply list_elem_of_lookup_2|]. unfold oa_pages. set_solver. }
  pose proof (slab_of_page p page ltac:(set_solver) ltac:(lia)) as Hs.
  destruct (slab_of p (slabs s) 0) as [j|].
  - destruct Hs as (o' & Ho' & Hpg'). f_equal. eapply (page_owner _ _ _ _ page); [done..| |]; unfold oa_pages; set_solver.
  - by destruct (Hs o); [eapply list_elem_of_lookup_2|].
Qed.

Lemma route_page p : p ∈ plive ->
  slab_of p (slabs s) 0 = None /\ contains p (g_huge_pool s) = false.
Proof using Hinv Hregions.
  intros Hp. assert (p ∈ slab_pages (slabs s) ++ plive) as Hpg by set_solver.
  pose proof (slab_of_page p p Hpg ltac:(lia)) as Hs. destruct (mm_page_range _ _ _ _ Hinv p Hpg). split.
  - destruct (slab_of p (slabs s) 0) as [j|]; [|done]. destruct Hs as (o & Ho & Hin). exfalso.
    pose proof (mi_nodup _ _ _ _ Hinv) as Hnd. apply NoDup_app in Hnd as (_ & Hd & _). apply (Hd p); [|done].
    apply elem_of_flat_map. exists o. split; [by eapply list_elem_of_lookup_2|]. unfold oa_pages. set_solver.
  - pose proof (mi_huge _ _ _ _ Hinv) as Hh. rewrite (contains_iff _ _ _ _ Hh).
    + apply bool_decide_eq_false_2. lia.
    + destruct (mi_pages _ _ _ _ Hinv) as (bs & (t & nx & [] & _) & _). unfold u64. lia.
Qed.

Lemma route_huge p o : (p, o) ∈ hlive ->
  slab_of p (slabs s) 0 = None /\ contains p (g_huge_pool s) = true.
Proof using Hinv Hregions.
  intros Hp. pose proof (mi_huge _ _ _ _ Hinv) as Hh. split.
  - pose proof (slab_of_spec p (slabs s) 0) as Hs. destruct (slab_of p (slabs s) 0) as [j|]; [|done].
    destruct Hs as (o' & _ & Ho & (page & Hpg & ?)%oa_contains_inv). rewrite Nat.sub_0_r in Ho. exfalso.
    apply (huge_outside p o Hp page); [|done]. apply elem_of_app. left. apply elem_of_flat_map.
    exists o'. split; [by eapply list_elem_of_lookup_2|]. unfold oa_pages. set_solver.
  - destruct (live_range _ _ _ _ Hh _ _ Hp) as (? & ? & _). pose proof (psize_pos o).
    rewrite (contains_iff _ _ _ _ Hh); [apply bool_decide_eq_true_2; lia|].
    destruct Hh as (t & nx & [] & _). unfold u64. lia.
Qed.

(** A block belongs to a slab, to the page pool or to the huge pool. *)
Lemma block_cases p cap : (p, cap) ∈ mm_blocks lives plive hlive ->
  (exists i o li, slab_sizes !! i = Some cap /\ slabs s !! i = Some o /\ lives !! i = Some li /\
     m_size o = cap /\ p ∈ li) \/
  (p ∈ plive /\ cap = 0x1000) \/ exists o, (p, o) ∈ hlive /\ cap = psize o.
Proof using Hinv Hregions.
  intros [Hb|[Hb|Hb]%elem_of_app]%elem_of_app.
  - left. unfold slabs_blocks in Hb. apply list_elem_of_In, in_concat in Hb as (l & Hl & Hb).
    apply list_elem_of_In in Hl, Hb. apply elem_of_lookup_zip_with in Hl as (i & z & li & -> & Hz & Hl).
    apply list_elem_of_fmap in Hb as (q & [= -> ->] & Hq).
    destruct (slab_at _ _ _ _ _ _ Hinv Hz) as (o & li' & Ho & Hl' & Hoz). simplify_eq.
    exists i, o, li. by split_and!.
  - right. left. apply list_elem_of_fmap in Hb as (q & [= -> ->] & Hq). done.
  - right. right. apply list_elem_of_fmap in Hb as ([q o] & [= -> ->] & Hq). eauto.
Qed.

Lemma free_spec p cap : (p, cap) ∈ mm_blocks lives plive hlive ->
  exists s' lives' plive' hlive', free p s = Ok tt s' /\ mm_inv lives' plive' hlive' s' /\
    mm_blocks lives plive hlive ≡ₚ (p, cap) :: mm_blocks lives' plive' hlive'.
Proof using Hinv Hregions.
  intros [(i & o & li & Hz & Ho & Hl & Hoz & Hp)|[[Hp ->]|(o & Hp & ->)]]%block_cases; unfold free; rewrite bind_get.
  - rewrite (route_slab i o li p) by done. unfold in_slab. rewrite Ho.
    pose proof (slab_enter _ _ _ _ _ _ _ Hinv Ho Hl) as Hok. apply elem_of_Permutation in Hp as [li' Hli].
    assert (oa_ok (not_slab i plive s) (p :: li') (mm_pages s, o)) as Hok'.
    { destruct Hok as [Hb (fids & uids & ? & ? & ? & Hlen & Hsub)]. split; [done|]. exists fids, uids.
      rewrite <- Hli. by split_and!; [..|rewrite Hlen, Hli|]. }
    destruct (oa_deallocate_spec _ _ _ _ Hok') as ([a' o'] & Hd & Hok2).
    pose proof (oa_deallocate_size p (mm_pages s, o)) as Hsz. rewrite Hd in Hsz |- *. cbn [out_state fst snd] in Hsz.
    eexists _, (<[i := li']> lives), plive, hlive. split; [done|]. split; [by eapply slab_leave|].
    unfold mm_blocks. pose proof (slabs_blocks_insert slab_sizes lives i cap li li' Hz Hl) as Hpm.
    unfold slab_blocks in Hpm at 1 2. rewrite Hli in Hpm. cbn [map] in Hpm. rewrite <- Permutation_middle in Hpm.
    rewrite app_comm_cons in Hpm. apply Permutation_app_inv_r in Hpm. by rewrite <- Hpm.
  - destruct (route_page p Hp) as [-> ->]. apply elem_of_Permutation in Hp as [pl Hpl].
    pose proof Hinv as [Hf Hz Hnd Hpg Hh]. rewrite Hpl, <- Permutation_middle in Hnd. apply NoDup_cons in Hnd as [Hn Hnd].
    destruct (pages_free_ok k base _ _ p Hpg) as (b & Hd & Hok); [rewrite Hpl; set_solver|].
    unfold mm_free_page, in_pages. rewrite Hd. eexists _, lives, pl, hlive. split; [done|]. split.
    + split; cbn [slabs mm_pages with_pages g_huge_pool]; try done.
      unfold page_free in Hok. rewrite Hd in Hok. cbn [out_state] in Hok.
      replace (list_to_set (C := gset Z) (slab_pages (slabs s) ++ pl))
        with (list_to_set (C := gset Z) (slab_pages (slabs s) ++ plive) ∖ {[p]}); [done|].
      apply leibniz_equiv. rewrite Hpl. rewrite <- Permutation_middle. cbn [list_to_set].
      rewrite <- (elem_of_list_to_set (C := gset Z)) in Hn. set_solver.
    + unfold mm_blocks, page_blocks. rewrite Hpl. cbn [map app]. by rewrite <- Permutation_middle.
  - destruct (route_huge p o Hp) as [-> ->]. pose proof Hinv as [Hf Hz Hnd Hpg Hh].
    destruct (deallocate_live _ _ _ _ Hh p o Hp) as (b & hl & Hd & Hh' & Hhl).
    unfold in_huge. rewrite Hd. eexists _, lives, plive, hl. split; [done|]. split; [by split|].
    unfold mm_blocks, huge_blocks. rewrite Hhl. cbn [map fst snd]. rewrite !app_assoc. by rewrite <- Permutation_middle.
Qed.

Lemma size_spec p cap : (p, cap) ∈ mm_blocks lives plive hlive -> mm_size p s = Ok cap s.
Proof using Hinv Hregions.
  intros [(i & o & li & Hz & Ho & Hl & Hoz & Hp)|[[Hp ->]|(o & Hp & ->)]]%block_cases; unfold mm_size; rewrite bind_get.
  - rewrite (route_slab i o li p) by done. unfold gets. rewrite Ho. cbn [from_option]. unfold oa_size. by rewrite Hoz.
  - destruct (route_page p Hp) as [-> ->]. unfold size_page. rewrite bind_get.
    assert (p ∈ slab_pages (slabs s) ++ plive) as Hin by set_solver.
    pose proof (mi_pages _ _ _ _ Hinv) as Hpg. destruct (page_in_use k base _ _ p Hpg) as (? & ? & _ & ?); [by apply elem_of_list_to_set|].
    destruct Hpg as (bs & Hb & Hd & Hz0 & Hset & _). rewrite (contains_iff _ _ _ _ Hb) by (unfold u64; lia).
    rewrite bool_decide_eq_true_2 by lia. unfold in_pages.
    assert ((p, 0%nat) ∈ bs) as Hpb.
    { rewrite <- (elem_of_list_to_set (C := gset Z)), Hset, elem_of_list_to_set in Hin.
      apply list_elem_of_fmap in Hin as ([q o] & -> & Hq). by rewrite <- (Hz0 _ Hq). }
    rewrite (block_size_live _ _ _ _ Hb p 0 Hpb). rewrite psize_0. by destruct s as [[] ? ? ?].
  - destruct (route_huge p o Hp) as [-> ->]. unfold in_huge.
    rewrite (block_size_live _ _ _ _ (mi_huge _ _ _ _ Hinv) p o Hp). by destruct s as [[] ? ? ?].
Qed.
End Free.
End Malloc.

(** ** Theorems *)

(** Every page of the buffer of [2^k] pages at [base] is in both maps. *)
Definition maps_cover (k : nat) (base : Z) (vm : gmap Z virt_t) (pm : gmap Z phys_t) : Prop :=
  forall v, base <= v -> v + 0x1000 <= base + psize k -> (0x1000 | v) ->
    exists e f, vm !! v = Some e /\ pm !! vphys e = Some f /\ pvirt f = v /\
      page_addr (vphys e) /\ vphys e <> 0.

Lemma empty_slab size : 0 < size <= 0x1000 -> slab_inv [] (OAlloc [] None None [] [] size 0 0).
Proof.
  intros Hs. split; [done|]. split; [constructor|]. split; [constructor|]. exists [], []. split_and!; try done.
  apply NoDup_nil_2.
Qed.

Lemma mm_inv_init k base kh baseh hlive vm pm pool huge mmp :
  buddy_ok k base [] pool -> (0x1000 | base) -> buddy_ok kh baseh hlive huge -> maps_cover k base vm pm ->
  mm_inv k base kh baseh (replicate 9 []) [] hlive
    (MM (Pages pool vm pm) huge mmp (map (fun size => OAlloc [] None None [] [] size 0 0) slab_sizes)).
Proof.
  intros Hb Hd Hh Hc. split; cbn [slabs mm_pages g_huge_pool]; try done.
  - unfold slab_sizes. cbn [map replicate]. repeat (constructor; [apply empty_slab; lia|]). constructor.
  - simpl. apply NoDup_nil_2.
  - exists []. split_and!; try done. intros b Hbn. by apply elem_of_nil in Hbn.
Qed.

(** The memory manager as its constructor builds it, once the pages of the
    page pool have been added to the maps, has no block handed out and is in a
    state from which [alloc] and [free] are correct. *)
Theorem memory_manager_init page_buffer huge_buffer vm pm :
  0 < page_buffer -> page_buffer + psize 15 < 2 ^ 64 -> (0x1000 | page_buffer) ->
  0 < huge_buffer -> huge_buffer + psize 15 < 2 ^ 64 -> maps_cover 15 page_buffer vm pm ->
  let s := memory_manager page_buffer huge_buffer in
  mm_inv 15 page_buffer 15 huge_buffer (replicate 9 []) [] []
    (with_pages s (Pages (g_page_pool (mm_pages s)) vm pm)) /\
  mm_blocks (replicate 9 []) [] [] = [].
Proof.
  intros H1 H2 H3 H4 H5 Hc. split; [|done]. unfold memory_manager, with_pages. cbv zeta.
  cbn [mm_pages g_page_pool g_huge_pool g_mem_map_pool slabs].
  assert (15 <= 47)%nat by lia.
  apply mm_inv_init; try done; exists (Tip 0 Unused), 1%nat; (split; [|done]).
  - exact (buddy_allocator_tree 15 page_buffer ltac:(lia) H1 H2).
  - exact (buddy_allocator_tree 15 huge_buffer ltac:(lia) H4 H5).
Qed.

(** C38: [alloc] of [size] bytes either returns the null pointer with no block
    lost or gained; or returns a block of at least [size] bytes that overlaps
    none of the blocks handed out and is from then on one of them; or it dies on
    the null pointer that [memset] gets, with the blocks as they were.  The
    last happens only where [size] is served by a slab and the page pool has
    no page left for it to grow. *)
Theorem malloc_correct k base kh baseh lives plive hlive s size :
  base + psize k <= baseh \/ baseh + psize kh <= base ->
  mm_inv k base kh baseh lives plive hlive s -> u64 size ->
  (exists s', alloc size s = Ok 0 s' /\ mm_inv k base kh baseh lives plive hlive s') \/
  (exists p cap s' lives' plive' hlive', alloc size s = Ok p s' /\ p <> 0 /\ size <= cap /\
     mm_inv k base kh baseh lives' plive' hlive' s' /\
     mm_blocks lives' plive' hlive' ≡ₚ (p, cap) :: mm_blocks lives plive hlive /\
     Forall (bapart (p, cap)) (mm_blocks lives plive hlive)) \/
  (exists s', alloc size s = Err null_deref s' /\ slab_exhausted size s' /\
     mm_inv k base kh baseh lives plive hlive s').
Proof.
  intros Hr Hinv Hu.
  destruct (alloc_spec k base kh baseh size lives plive hlive s Hinv Hu)
    as [?|[?|(p & cap & s' & lv & pl & hl & Ha & Hp & Hc & Hinv' & Hb)]]; [by left|by right; right|right; left].
  exists p, cap, s', lv, pl, hl. split_and!; try done.
  pose proof (mm_blocks_apart k base kh baseh lv pl hl s' Hinv' Hr) as Hf.
  apply (fop_perm bapart _ _ bapart_sym Hb) in Hf. by inversion Hf.
Qed.

(** C39: [free] of a block that [alloc] handed out succeeds, whatever pool it
    came from, and takes back exactly that block; [size] of it is its size. *)
Theorem free_correct k base kh baseh lives plive hlive s p cap :
  base + psize k <= baseh \/ baseh + psize kh <= base ->
  mm_inv k base kh baseh lives plive hlive s -> (p, cap) ∈ mm_blocks lives plive hlive ->
  mm_size p s = Ok cap s /\
  exists s' lives' plive' hlive', free p s = Ok tt s' /\ mm_inv k base kh baseh lives' plive' hlive' s' /\
    mm_blocks lives plive hlive ≡ₚ (p, cap) :: mm_blocks lives' plive' hlive'.
Proof.
  intros Hr Hinv Hin. split; [by eapply size_spec|by eapply free_spec].
Qed.

(** *** A small memory manager *)

(** Maps that send the [n] pages at [base] to those at [phys]. *)
Definition linear_virt (base phys n : Z) : gmap Z virt_t :=
  list_to_map (map (fun q => (base + q * 0x1000, Virt (phys + q * 0x1000) 0)) (seqZ 0 n)).
Definition linear_phys (base phys n : Z) : gmap Z phys_t :=
  list_to_map (map (fun q => (phys + q * 0x1000, Phys (base + q * 0x1000) 0)) (seqZ 0 n)).

Lemma linear_lookup {B} (f : Z -> Z) (g : Z -> B) n q : (forall x y, f x = f y -> x = y) -> 0 <= q < n ->
  list_to_map (M := gmap Z B) (map (fun q => (f q, g q)) (seqZ 0 n)) !! f q = Some (g q).
Proof.
  intros Hf Hq. apply elem_of_list_to_map_1.
  - rewrite map_map. cbn [fst]. apply NoDup_fmap_2; [intros x y; apply Hf|apply NoDup_seqZ].
  - apply list_elem_of_fmap. exists q. split; [done|]. apply elem_of_seqZ. lia.
Qed.

Lemma linear_cover k base phys : (0x1000 | base) -> (0x1000 | phys) -> 0 < phys -> phys + psize k < 2 ^ 48 ->
  maps_cover k base (linear_virt base phys (2 ^ Z.of_nat k)) (linear_phys base phys (2 ^ Z.of_nat k)).
Proof.
  intros [b Hb] [c Hc] Hp He v H1 H2 [q Hq]. unfold psize in *. set (n := 2 ^ Z.of_nat k) in *.
  assert (0 <= q - b < n) as Hr by lia. unfold linear_virt, linear_phys.
  replace v with (base + (q - b) * 0x1000) by lia.
  eexists _, _. split; [by apply (linear_lookup (fun q => base + q * 0x1000)); [lia|]|]. cbn [vphys].
  split; [by apply (linear_lookup (fun q => phys + q * 0x1000)); [lia|]|]. split; [done|]. split; [|lia].
  split; [lia|]. apply page_lower12. exists (c + (q - b)). lia.
Qed.

Definition small_huge : buddy := buddy_allocator 0x200000 1 (replicate 3 node_zero).
Definition small_mm (huge : buddy) : mm :=
  MM (Pages pool4 (linear_virt 0x100000 0x500000 4) (linear_phys 0x100000 0x500000 4)) huge
     (buddy_allocator 0x300000 1 (replicate 3 node_zero))
     (map (fun size => OAlloc [] None None [] [] size 0 0) slab_sizes).

Lemma small_huge_ok : buddy_ok 1 0x200000 [] small_huge.
Proof.
  exists (Tip 0 Unused), 1%nat. split; [|done].
  apply (buddy_allocator_tree 1 0x200000); first [lia|vm_compute; reflexivity].
Qed.

Lemma small_mm_ok huge hlive : buddy_ok 1 0x200000 hlive huge ->
  mm_inv 2 0x100000 1 0x200000 (replicate 9 []) [] hlive (small_mm huge).
Proof.
  intros Hh. apply mm_inv_init; [apply pool4_ok|by exists 0x100|done|].
  apply (linear_cover 2 0x100000 0x500000); [by exists 0x100|by exists 0x500|lia|vm_compute; reflexivity].
Qed.

Lemma memory_manager_init_witness :
  mm_inv 15 0x10000000 15 0x20000000 (replicate 9 []) [] []
    (with_pages (memory_manager 0x10000000 0x20000000)
       (Pages (g_page_pool (mm_pages (memory_manager 0x10000000 0x20000000)))
          (linear_virt 0x10000000 0x50000000 (2 ^ 15)) (linear_phys 0x10000000 0x50000000 (2 ^ 15)))).
Proof.
  apply (memory_manager_init 0x10000000 0x20000000).
  - lia.
  - vm_compute. reflexivity.
  - exists 0x10000. reflexivity.
  - lia.
  - vm_compute. reflexivity.
  - apply (linear_cover 15 0x10000000 0x50000000); [exists 0x10000; reflexivity|exists 0x50000; reflexivity|lia|].
    vm_compute. reflexivity.
Defined.

Lemma malloc_correct_witness :
  out_value (alloc 0x18 (small_mm small_huge)) = Some 0x101FE0 /\
  ~ (exists s', alloc 0x18 (small_mm small_huge) = Err null_deref s') /\
  ((exists s', alloc 0x18 (small_mm small_huge) = Ok 0 s' /\
      mm_inv 2 0x100000 1 0x200000 (replicate 9 []) [] [] s') \/
   (exists p cap s' lives' plive' hlive', alloc 0x18 (small_mm small_huge) = Ok p s' /\ p <> 0 /\ 0x18 <= cap /\
      mm_inv 2 0x100000 1 0x200000 lives' plive' hlive' s' /\
      mm_blocks lives' plive' hlive' ≡ₚ (p, cap) :: mm_blocks (replicate 9 []) [] [] /\
      Forall (bapart (p, cap)) (mm_blocks (replicate 9 []) [] [])) \/
   (exists s', alloc 0x18 (small_mm small_huge) = Err null_deref s' /\ slab_exhausted 0x18 s' /\
      mm_inv 2 0x100000 1 0x200000 (replicate 9 []) [] [] s')).
Proof.
  split; [vm_compute; reflexivity|]. split; [intros (s' & Hs); vm_compute in Hs; discriminate Hs|].
  apply (malloc_correct 2 0x100000 1 0x200000).
  - left. vm_compute. discriminate.
  - apply small_mm_ok, small_huge_ok.
  - unfold u64. lia.
Defined.

Lemma free_correct_witness :
  mm_size 0x200000 (small_mm (out_state (allocate 0x2000 small_huge))) =
    Ok 0x2000 (small_mm (out_state (allocate 0x2000 small_huge))).
Proof.
  apply (free_correct 2 0x100000 1 0x200000 (replicate 9 []) [] [(0x200000, 1%nat)] _ 0x200000 0x2000).
  - left. vm_compute. discriminate.
  - apply small_mm_ok. apply (allocate_ok 1 0x200000 [] small_huge 0x2000); [apply small_huge_ok|unfold u64; lia|].
    vm_compute. reflexivity.
  - apply list_elem_of_singleton. reflexivity.
Defined.

Definition small_pages : pages := mm_pages (small_mm small_huge).
Definition small_slab : oalloc := OAlloc [] None None [] [] 0x800 0 0.
Definition small_slab_one : pages * oalloc := out_state (oa_allocate (small_pages, small_slab)).

Lemma small_slab_ok : oa_ok (H0 := pages_laws 2 0x100000) ∅ [] (small_pages, small_slab).
Proof.
  apply slab_inv_iff. split; [apply empty_slab; lia|].
  split; [|split; [apply NoDup_nil_2|set_solver]].
  exact (mi_pages _ _ _ _ _ _ _ _ (small_mm_ok small_huge [] small_huge_ok)).
Qed.

Lemma slab_allocate_correct_witness :
  out_value (oa_allocate (small_pages, small_slab)) = Some 0x101800 /\
  ((exists p s', oa_allocate (small_pages, small_slab) = Ok p s' /\
      oa_ok (H0 := pages_laws 2 0x100000) ∅ [p] s' /\ oa_contains p s'.2 = true /\
      (exists page, page ∈ object_pages s'.2 /\ page <= p /\ p + m_size s'.2 <= page + 0x1000) /\
      Forall (objects_apart (m_size s'.2) p) []) \/
   (exists e s', oa_allocate (small_pages, small_slab) = Err e s' /\
      oa_ok (H0 := pages_laws 2 0x100000) ∅ [] s' /\
      (e = null_deref /\ ps_alloc s'.1 = None \/ e = runtime_error "object_allocator: out of memory"))).
Proof.
  split; [vm_compute; reflexivity|].
  apply (slab_allocate_correct (H0 := pages_laws 2 0x100000) ∅ [] (small_pages, small_slab) small_slab_ok).
Defined.

Lemma small_slab_one_ok : oa_ok (H0 := pages_laws 2 0x100000) ∅ [0x101800] small_slab_one.
Proof.
  destruct (oa_allocate_spec (H0 := pages_laws 2 0x100000) ∅ [] _ small_slab_ok) as [(e & s' & E & _)|(p & s' & E & Hok)].
  - exfalso. assert (out_value (oa_allocate (small_pages, small_slab)) = Some 0x101800) as Hv by (vm_compute; reflexivity).
    by rewrite E in Hv.
  - assert (out_value (oa_allocate (small_pages, small_slab)) = Some 0x101800) as Hv by (vm_compute; reflexivity).
    unfold small_slab_one. rewrite E in Hv |- *. by injection Hv as ->.
Qed.

Lemma slab_deallocate_correct_witness :
  exists s', oa_deallocate 0x101800 small_slab_one = Ok tt s' /\ oa_ok (H0 := pages_laws 2 0x100000) ∅ [] s'.
Proof.
  apply (slab_deallocate_correct (H0 := pages_laws 2 0x100000) ∅ [0x101800] [] 0x101800 small_slab_one small_slab_one_ok).
  reflexivity.
Defined.
