(* ===== verification/EptSpec.v ===== *)
(** * The contract of the EPT memory map

    What every operation of [ept/mmap.h] does to the mapping of every guest
    address, and what holds after any sequence of operations. *)
From S2P Require Import Prelude Bits EptEntry Buddy BuddyTree BuddySpec PageSource EptMmap EptTables EptProofs.
From S2P Require Import ObjAlloc MemMgr MemMgrProofs Malloc.

Section Constructor.
Context {A : Type} `{PageSourceLaws A}.
Local Open Scope vmm_scope.

(** A map with only its root table. *)
Lemma root_only pv root h : h = {[ root := zero_page ]} ->
  tables_ok pv root h /\ forall va, walk pv root h va = None.
Proof.
  intros ->. assert (forall v j e, entry_at {[root := zero_page]} v j = Some e -> v = root /\ e = 0) as He.
  { intros v j e. unfold entry_at. destruct (0 <=? j); [|done].
    destruct (decide (v = root)) as [->|].
    - rewrite lookup_singleton_eq. cbn [mbind option_bind]. unfold zero_page. intros Hj. split; [done|].
      by apply lookup_replicate_1 in Hj as [-> _].
    - by rewrite lookup_singleton_ne by done. }
  assert (forall p v, tbl pv root {[root := zero_page]} p = Some v -> p = [] /\ v = root) as Ht.
  { intros [|i p] v; cbn [tbl]; [by intros [= <-]|]. destruct (tbl _ _ _ p) as [w|]; [cbn [mbind option_bind]|done].
    unfold child. destruct (entry_at _ w i) as [e|] eqn:E; [|done]. destruct (He _ _ _ E) as [_ ->]. done. }
  split; [split|].
  - intros p v [-> ->]%Ht. exists zero_page. rewrite lookup_singleton_eq.
    split_and!; [done|apply length_replicate|]. apply Forall_replicate. unfold u64. lia.
  - intros p v i e _ [_ ->]%He. done.
  - by intros p q v [-> _]%Ht [-> _]%Ht.
  - intros v t [<- _]%lookup_singleton_Some. by exists [].
  - intros va. unfold walk. cbn [walk_at]. destruct (entry_at _ root _) as [e|] eqn:E; [|done].
    destruct (He _ _ _ E) as [_ ->]. done.
Qed.

Lemma mmap_new_spec (a : A) L : ps_ok a L ->
  (ps_alloc a = None /\ exists s, mmap_new a = Err null_deref s) \/
  exists root s, mmap_new a = Ok tt s /\ mmap_ok (ps_virt a) root L s /\
    forall va, walk (ps_virt a) root (heap s) va = None.
Proof.
  intros Hok. unfold mmap_new, allocate_span, alloc_page, bind. cbn [pool].
  destruct (ps_alloc a) as [[v a']|] eqn:Ea; [right|left; eauto].
  destruct (ps_alloc_ok _ _ _ _ Hok Ea) as (Hn & Hok' & Hv & _).
  exists v. eexists. split; [done|]. cbn [heap with_pml4 with_heap with_pool fst snd].
  destruct (root_only (ps_virt a) v (<[v := replicate 512 0]> ∅)) as [Ht Hw]; [by rewrite insert_empty|].
  split; [|exact Hw]. split; cbn [pool heap m_pml4 with_pml4 with_heap with_pool fst snd]; try done.
  - replace (L ∪ dom (<[v:=replicate 512 0]> ∅)) with ({[v]} ∪ L); [done|]. rewrite dom_insert_L, dom_empty_L. set_solver.
  - rewrite dom_insert_L, dom_empty_L. set_solver.
  - intros l Hl Hp. by destruct l as [|[|[|l]]]; [..|lia].
Qed.
End Constructor.

(** ** Sequences of operations *)

Section Steps.
Context {A : Type} `{PageSourceLaws A}.
Context (pv : Z -> option Z) (root : Z) (others : gset Z).

Inductive ept_op :=
| Map1g (va phys : Z) (attr : attr_type) (mt : memory_type)
| Map2m (va phys : Z) (attr : attr_type) (mt : memory_type)
| Map4k (va phys : Z) (attr : attr_type) (mt : memory_type)
| Unmap (va : Z) | Release (va : Z) | Entry (va : Z) | VirtToPhys (va : Z) | From (va : Z) | Eptp.

(** The state an operation leaves behind, whether it returns or throws. *)
Definition ept_run (op : ept_op) (s : mmap A) : mmap A :=
  match op with
  | Map1g va phys attr mt => out_state (map_1g va phys attr mt s)
  | Map2m va phys attr mt => out_state (map_2m va phys attr mt s)
  | Map4k va phys attr mt => out_state (map_4k va phys attr mt s)
  | Unmap va => out_state (unmap va s)
  | Release va => out_state (release va s)
  | Entry va => out_state (entry va s)
  | VirtToPhys va => out_state (virt_to_phys va s)
  | From va => out_state (from va s)
  | Eptp => out_state (eptp s)
  end.

(** What a caller has to respect: a page is not mapped at an address that a larger
    page maps. *)
Definition ept_legal (op : ept_op) (s : mmap A) : Prop :=
  match op with
  | Map2m va _ _ _ => fits pv root 1 va s
  | Map4k va _ _ _ => fits pv root 0 va s
  | _ => True
  end.

Inductive ept_step (s : mmap A) : mmap A -> Prop :=
| ept_do op : ept_legal op s -> ept_step s (ept_run op s).

Lemma oom_ok {B} (o : outcome (mmap A) B) s : oom pv root others o s -> mmap_ok pv root others (out_state o).
Proof using. intros (s1 & -> & _ & []). done. Qed.

Lemma map_result_ok l va phys attr mt o s : map_result pv root others l va phys attr mt o s ->
  mmap_ok pv root others (out_state o).
Proof using.
  intros [?|[(s' & what & -> & [] & _)|(s' & v & -> & ? & _)]]; [by eapply oom_ok|done|done].
Qed.

Lemma eptp_ok s : mmap_ok pv root others s -> exists p, eptp s = Ok p (out_state (eptp s)) /\
  mmap_ok pv root others (out_state (eptp s)) /\ heap (out_state (eptp s)) = heap s.
Proof using.
  intros Hok. pose proof (mo_tables _ _ _ _ Hok) as Ht. destruct (mo_root _ _ _ _ Hok) as [Hr Hn].
  unfold eptp. rewrite bind_get. destruct (Z.eqb_spec (phys_addr (m_pml4 s)) 0) as [E|E].
  - destruct (ps_live_phys (pool s) _ root (mo_pool _ _ _ _ Hok)) as (p & Hp & _).
    { apply elem_of_union_r. destruct (t_page _ _ _ Ht [] root eq_refl) as (t & Hh & _). by eapply elem_of_dom_2. }
    unfold virtptr_to_physint, bind. rewrite Hr, Hp. eexists. split; [done|]. split; [|done].
    destruct Hok. split; try done. intros l Hl. specialize (mo_cache l Hl). by destruct l as [|[|[|l]]]; [..|lia].
  - eexists. by split_and!.
Qed.

Lemma ept_run_ok op s : mmap_ok pv root others s -> ept_legal op s -> mmap_ok pv root others (ept_run op s).
Proof using.
  intros Hok Hl. destruct op as [va phys attr mt|va phys attr mt|va phys attr mt|va|va|va|va|va|]; cbn [ept_run ept_legal] in *.
  - eapply map_result_ok. by apply map_1g_spec.
  - eapply map_result_ok. by apply map_2m_spec.
  - eapply map_result_ok. by apply map_4k_spec.
  - destruct (unmap_spec pv root others va s Hok) as [?|(s' & -> & ? & _)]; [by eapply oom_ok|done].
  - destruct (release_spec pv root others va s Hok) as [?|(s' & -> & ? & _)]; [by eapply oom_ok|done].
  - destruct (proj1 (lookup_spec pv root others va s Hok)) as [?|(s' & [] & Hm)]; [by eapply oom_ok|].
    destruct (walk _ _ _ va) as [[l e]|]; [destruct Hm as (v & -> & _)|destruct Hm as (w & ->)]; done.
  - destruct (proj1 (proj2 (lookup_spec pv root others va s Hok))) as [?|(s' & [] & Hm)]; [by eapply oom_ok|].
    destruct (walk _ _ _ va) as [[l e]|]; [rewrite Hm|destruct Hm as (w & ->)]; done.
  - destruct (proj2 (proj2 (lookup_spec pv root others va s Hok))) as [?|(s' & [] & Hm)]; [by eapply oom_ok|].
    destruct (walk _ _ _ va) as [[l e]|]; [rewrite Hm|destruct Hm as (w & ->)]; done.
  - by destruct (eptp_ok s Hok) as (p & _ & ? & _).
Qed.

Lemma ept_steps_ok s s' : mmap_ok pv root others s -> rtc ept_step s s' -> mmap_ok pv root others s'.
Proof using.
  intros Hok Hr. induction Hr as [|s1 s2 s3 [op Hl] _ IH]; [done|]. apply IH. by apply ept_run_ok.
Qed.
End Steps.

(** ** Addresses that share an entry share a page *)

(** The number of the page of level [l] that holds [va], in the 48-bit space. *)
Definition page_number (l : nat) (va : Z) : Z := (va mod 2 ^ 48) / 2 ^ (12 + 9 * Z.of_nat l).

Lemma page_number_digits va :
  page_number 3 va = pml4.index va /\
  page_number 2 va = pml4.index va * 512 + pdpt.index va /\
  page_number 1 va = (pml4.index va * 512 + pdpt.index va) * 512 + pd.index va /\
  page_number 0 va = ((pml4.index va * 512 + pdpt.index va) * 512 + pd.index va) * 512 + pt.index va.
Proof.
  unfold page_number. rewrite index_digits.
  pose proof (pml4_index_range va). pose proof (pdpt_index_range va). pose proof (pd_index_range va).
  pose proof (pt_index_range va). pose proof (lower12_range va).
  generalize dependent (pml4.index va). generalize dependent (pdpt.index va).
  generalize dependent (pd.index va). generalize dependent (pt.index va). generalize dependent (lower12 va).
  intros o ? d ? c ? b ? a ?.
  split_and!.
  - change (2 ^ (12 + 9 * Z.of_nat 3)) with 0x8000000000. symmetry. apply (Z.div_unique _ _ _ (b * 0x40000000 + c * 0x200000 + d * 0x1000 + o)); lia.
  - change (2 ^ (12 + 9 * Z.of_nat 2)) with 0x40000000. symmetry. apply (Z.div_unique _ _ _ (c * 0x200000 + d * 0x1000 + o)); lia.
  - change (2 ^ (12 + 9 * Z.of_nat 1)) with 0x200000. symmetry. apply (Z.div_unique _ _ _ (d * 0x1000 + o)); lia.
  - change (2 ^ (12 + 9 * Z.of_nat 0)) with 0x1000. symmetry. apply (Z.div_unique _ _ _ o); lia.
Qed.

Lemma same_entry_page l va va' : (l <= 3)%nat ->
  same_entry l va va' <-> page_number l va = page_number l va'.
Proof.
  intros Hl. destruct (page_number_digits va) as (A3 & A2 & A1 & A0).
  destruct (page_number_digits va') as (B3 & B2 & B1 & B0).
  pose proof (pdpt_index_range va). pose proof (pd_index_range va). pose proof (pt_index_range va).
  pose proof (pdpt_index_range va'). pose proof (pd_index_range va'). pose proof (pt_index_range va').
  unfold same_entry. destruct l as [|[|[|[|l]]]]; [..|lia]; cbn [Nat.sub path level_index];
    rewrite ?A3, ?A2, ?A1, ?A0, ?B3, ?B2, ?B1, ?B0; split.
  all: try (intros [=]; congruence).
  all: intros E; repeat (apply (f_equal2 cons); [lia|]); done.
Qed.

(** ** Theorems *)

Section Claims.
Context {A : Type} `{PageSourceLaws A}.
Context (pv : Z -> option Z) (root : Z) (others : gset Z).
Implicit Types s : mmap A.
Notation walk := (walk pv root).
Notation ok := (mmap_ok pv root others).

(** C1: [map_1g], [map_2m] and [map_4k] of a page address, where no larger page
    maps the guest address, either make the walk of exactly the addresses of
    that guest page end in the entry that maps them to [phys] with the
    permissions and the memory type asked for, and leave every other address
    as it was; or throw, because the address is mapped at that size already or
    has smaller tables below it, and change no mapping; or run out of pages
    and change no mapping. *)
Theorem ept_map_correct va phys attr mt s : ok s -> page_addr phys ->
  map_result pv root others 2 va phys attr mt (map_1g va phys attr mt s) s /\
  (fits pv root 1 va s -> map_result pv root others 1 va phys attr mt (map_2m va phys attr mt s) s) /\
  (fits pv root 0 va s -> map_result pv root others 0 va phys attr mt (map_4k va phys attr mt s) s).
Proof using.
  intros Hok Hp. split_and!; [by apply map_1g_spec|by apply map_2m_spec|by apply map_4k_spec].
Qed.

(** [unmap] ends the mapping of the page that holds the address, at
    whatever size it is mapped, and leaves every other address as it was. *)
Theorem ept_unmap_correct va s : ok s ->
  oom pv root others (unmap va s) s \/
  exists s', unmap va s = Ok tt s' /\ ok s' /\
    forall va', walk (heap s') va' =
      match walk (heap s) va with
      | Some (l, _) => if decide (page_number l va = page_number l va') then None else walk (heap s) va'
      | None => walk (heap s) va'
      end.
Proof using.
  intros Hok. destruct (unmap_spec pv root others va s Hok) as [?|(s' & ? & ? & Hw)]; [by left|right].
  exists s'. split_and!; try done. intros va'. rewrite Hw. unfold unmapped.
  destruct (EptTables.walk pv root (heap s) va) as [[l e]|] eqn:E; [|done]. apply walk_level in E as [Hl _].
  pose proof (same_entry_page l va va' ltac:(lia)) as Hs. repeat case_decide; tauto || done.
Qed.

(** C37: [release] of an address unmaps its page if it is mapped, leaves every
    other address as it was, and leaves no empty table below the root on the
    path of the address. *)
Theorem ept_release_correct va s : ok s ->
  oom pv root others (release va s) s \/
  exists s', release va s = Ok tt s' /\ ok s' /\ walk (heap s') va = None /\
    (forall va', (forall l e, walk (heap s) va = Some (l, e) -> page_number l va <> page_number l va') ->
       walk (heap s') va' = walk (heap s) va') /\
    forall n v, (1 <= n)%nat -> tbl pv root (heap s') (path va n) = Some v -> ~ empty_table s' v.
Proof using.
  intros Hok. destruct (release_spec pv root others va s Hok) as [?|(s' & ? & ? & Hw & ?)]; [by left|right].
  exists s'. split_and!; try done.
  - rewrite Hw. unfold unmapped. destruct (EptTables.walk pv root (heap s) va) as [[l e]|] eqn:E; [|done].
    by rewrite decide_True.
  - intros va' Hne. rewrite Hw. unfold unmapped.
    destruct (EptTables.walk pv root (heap s) va) as [[l e]|] eqn:E; [|done].
    rewrite decide_False; [done|]. rewrite same_entry_page by (apply walk_level in E; lia). eauto.
Qed.

(** [entry], [virt_to_phys] and [from] report what the walk of the address
    finds (a reference to the entry, the frame it maps, the bit number of its
    page size), throw where the walk finds nothing, and change no mapping. *)
Theorem ept_lookup_correct va s : ok s ->
  (oom pv root others (entry va s) s \/ exists s', same_map pv root others s s' /\
    match walk (heap s) va with
    | Some (l, e) => exists v, entry va s = Ok (v, level_index l va) s' /\
        entry_at (heap s') v (level_index l va) = Some e
    | None => exists what, entry va s = Err (runtime_error what) s'
    end) /\
  (oom pv root others (virt_to_phys va s) s \/ exists s', same_map pv root others s s' /\
    match walk (heap s) va with
    | Some (l, e) => virt_to_phys va s = Ok (frame_of e) s'
    | None => exists what, virt_to_phys va s = Err (runtime_error what) s'
    end) /\
  (oom pv root others (from va s) s \/ exists s', same_map pv root others s s' /\
    match walk (heap s) va with
    | Some (l, e) => from va s = Ok (12 + 9 * Z.of_nat l) s'
    | None => exists what, from va s = Err (runtime_error what) s'
    end).
Proof using.
  intros Hok. destruct (lookup_spec pv root others va s Hok) as (H1 & H2 & H3). split_and!; [|done|done].
  destruct H1 as [?|(s' & ? & Hm)]; [by left|right]. exists s'. split; [done|].
  destruct (EptTables.walk pv root (heap s) va) as [[l e]|]; [|done]. destruct Hm as (v & ? & _ & ?). eauto.
Qed.
End Claims.

(** The entry written for a page holds its physical address, exactly the
    permissions of the attribute, the memory type's code, and the page-size
    bit at the two upper levels only. *)
Theorem ept_leaf_entry l phys attr mt : page_addr phys ->
  u64 (leaf_entry l phys attr mt) /\
  is_enabled pt.ps (leaf_entry l phys attr mt) = negb (l =? 0)%nat /\
  frame_of (leaf_entry l phys attr mt) = phys /\
  is_enabled pt.read_access (leaf_entry l phys attr mt) = attr_read attr /\
  is_enabled pt.write_access (leaf_entry l phys attr mt) = attr_write attr /\
  is_enabled pt.execute_access (leaf_entry l phys attr mt) = attr_exec attr /\
  field_get pt.memory_type (leaf_entry l phys attr mt) = memory_type_code mt.
Proof. intros Hp. destruct (leaf_entry_bits l phys attr mt) as (? & ? & Hf & ?). split_and!; naive_solver. Qed.

(** C2: After any sequence of operations on a freshly constructed map, whether
    they return or throw, in which no page is mapped at an address that a larger
    page maps already: the pages taken from the memory manager are exactly the
    pages of the map's tables, no page is a table twice, and every entry that is
    neither empty nor a mapped page points to a table of the map.  Without that
    condition it does not hold, as [map_inside_larger] below shows. *)
Theorem ept_reachable {A : Type} `{PageSourceLaws A} (a : A) L s0 s :
  ps_ok a L -> mmap_new a = Ok tt s0 ->
  let root := virt_addr (m_pml4 s0) in
  rtc (ept_step (ps_virt a) root) s0 s ->
  ps_ok (pool s) (L ∪ dom (heap s)) /\ L ## dom (heap s) /\
  (forall v, v ∈ dom (heap s) <-> exists p, tbl (ps_virt a) root (heap s) p = Some v) /\
  (forall p q v, tbl (ps_virt a) root (heap s) p = Some v -> tbl (ps_virt a) root (heap s) q = Some v -> p = q) /\
  (forall p v i e, tbl (ps_virt a) root (heap s) p = Some v -> entry_at (heap s) v i = Some e -> e <> 0 ->
     large (3 - length p) e = false -> is_Some (tbl (ps_virt a) root (heap s) (i :: p))).
Proof.
  intros Hok Hnew root Hr.
  destruct (mmap_new_spec a L Hok) as [(_ & s1 & E)|(r & s1 & E & Hok0 & _)]; [congruence|].
  rewrite E in Hnew. injection Hnew as ->. assert (r = root) as -> by (symmetry; apply Hok0).
  pose proof (ept_steps_ok _ _ _ _ _ Hok0 Hr) as [Hp _ _ Ht Hd _]. split_and!; try done.
  - intros v. rewrite elem_of_dom. split; [intros [t Hv]; by eapply (t_own _ _ _ Ht)|].
    intros [p Hv]. destruct (t_page _ _ _ Ht _ _ Hv) as (t & ? & _). eauto.
  - intros p q v. apply (t_inj _ _ _ Ht).
  - intros p v i e Hv He Hnz Hl. destruct (t_link _ _ _ Ht _ _ _ _ Hv He Hnz Hl) as [_ [w Hw]].
    exists w. cbn [tbl]. rewrite Hv. cbn [mbind option_bind]. unfold child. rewrite He. cbn [mbind option_bind].
    rewrite Hl. by replace (e =? 0) with false by lia.
Qed.

(** ** A page mapped inside a larger one *)

(** A map whose root, the first of four pages, is at the physical address of 6 MB.
    The 2 MB page at that address is mapped for the guest, and then a 4 KB page
    inside it. *)
Definition inside_pages : pages := Pages pool4 (linear_virt 0x100000 0x600000 4) (linear_phys 0x100000 0x600000 4).
Definition inside_map : mmap pages := ept_run (Map2m 0x600000 0x600000 read_write write_back) (out_state (mmap_new inside_pages)).
Definition inside_mapped : mmap pages := ept_run (Map4k 0x601000 0x3000 read_write write_back) inside_map.

(** [map_4k] takes the frame of the 2 MB page for a page table and writes there:
    it returns, and the root now has an entry that points to no table. *)
Lemma map_inside_larger :
  walk (ps_virt inside_pages) 0x100000 (heap inside_map) 0x601000 = Some (1%nat, 0x6000B3) /\
  entry_at (heap inside_map) 0x100000 1 = Some 0 /\
  out_value (map_4k 0x601000 0x3000 read_write write_back inside_map) = Some (0x100000, 1) /\
  entry_at (heap inside_mapped) 0x100000 1 = Some 0x3033 /\
  tbl (ps_virt inside_pages) 0x100000 (heap inside_mapped) [1] = None.
Proof. vm_compute. by split_and!. Qed.

(** ** A concrete map, in a memory manager of four pages *)

#[local] Instance small_laws : PageSourceLaws pages := pages_laws 2 0x100000.
Definition small_map : mmap pages := out_state (mmap_new small_pages).
Definition small_mapped : mmap pages := ept_run (Map4k 0x7000 0x3000 read_write write_back) small_map.
Notation small_ok := (mmap_ok (ps_virt small_pages) 0x100000 ∅).
Notation small_walk := (walk (ps_virt small_pages) 0x100000).

Lemma small_pages_ok : ps_ok small_pages ∅.
Proof. exact (mi_pages _ _ _ _ _ _ _ _ (small_mm_ok small_huge [] small_huge_ok)). Qed.

Lemma small_map_ok : small_ok small_map /\ forall va, small_walk (heap small_map) va = None.
Proof.
  destruct (mmap_new_spec small_pages ∅ small_pages_ok) as [(E & _)|(root & s & E & Hok & Hw)];
    [vm_compute in E; discriminate E|].
  assert (small_map = s) as <- by (unfold small_map; by rewrite E).
  assert (root = 0x100000) as -> by (rewrite <- (proj1 (mo_root _ _ _ _ Hok)); vm_compute; reflexivity). done.
Qed.

Lemma small_map_fits l : fits (ps_virt small_pages) 0x100000 l 0x7000 small_map.
Proof. intros l' e E. by rewrite (proj2 small_map_ok) in E. Qed.

Lemma small_mapped_step : ept_step (ps_virt small_pages) 0x100000 small_map small_mapped.
Proof. unfold small_mapped. constructor. apply small_map_fits. Qed.

Lemma small_mapped_ok : small_ok small_mapped.
Proof. destruct small_mapped_step as [op Hl]. by apply ept_run_ok; [apply small_map_ok|]. Qed.

Lemma ept_map_correct_witness :
  out_value (map_4k 0x7000 0x3000 read_write write_back small_map) = Some (0x103000, 7) /\
  map_result (ps_virt small_pages) 0x100000 ∅ 0 0x7000 0x3000 read_write write_back
    (map_4k 0x7000 0x3000 read_write write_back small_map) small_map.
Proof.
  split; [vm_compute; reflexivity|].
  apply (ept_map_correct (ps_virt small_pages) 0x100000 ∅); [apply small_map_ok|by compute|apply small_map_fits].
Defined.

Lemma ept_unmap_correct_witness :
  small_walk (heap small_mapped) 0x7FFF = Some (0%nat, 0x3033) /\
  out_value (unmap 0x7000 small_mapped) = Some tt /\
  (oom (ps_virt small_pages) 0x100000 ∅ (unmap 0x7000 small_mapped) small_mapped \/
   exists s', unmap 0x7000 small_mapped = Ok tt s' /\ small_ok s' /\
    forall va', small_walk (heap s') va' =
      match small_walk (heap small_mapped) 0x7000 with
      | Some (l, _) => if decide (page_number l 0x7000 = page_number l va') then None
                       else small_walk (heap small_mapped) va'
      | None => small_walk (heap small_mapped) va'
      end).
Proof.
  split; [vm_compute; reflexivity|]. split; [vm_compute; reflexivity|].
  apply (ept_unmap_correct (ps_virt small_pages) 0x100000 ∅ 0x7000 small_mapped small_mapped_ok).
Defined.

Lemma ept_release_correct_witness :
  out_value (release 0x7000 small_mapped) = Some tt /\
  (oom (ps_virt small_pages) 0x100000 ∅ (release 0x7000 small_mapped) small_mapped \/
   exists s', release 0x7000 small_mapped = Ok tt s' /\ small_ok s' /\ small_walk (heap s') 0x7000 = None /\
    (forall va', (forall l e, small_walk (heap small_mapped) 0x7000 = Some (l, e) ->
         page_number l 0x7000 <> page_number l va') ->
       small_walk (heap s') va' = small_walk (heap small_mapped) va') /\
    forall n v, (1 <= n)%nat -> tbl (ps_virt small_pages) 0x100000 (heap s') (path 0x7000 n) = Some v ->
      ~ empty_table s' v).
Proof.
  split; [vm_compute; reflexivity|].
  apply (ept_release_correct (ps_virt small_pages) 0x100000 ∅ 0x7000 small_mapped small_mapped_ok).
Defined.

Lemma ept_lookup_correct_witness :
  out_value (virt_to_phys 0x7123 small_mapped) = Some 0x3000 /\
  (oom (ps_virt small_pages) 0x100000 ∅ (from 0x7123 small_mapped) small_mapped \/
   exists s', same_map (ps_virt small_pages) 0x100000 ∅ small_mapped s' /\
    match small_walk (heap small_mapped) 0x7123 with
    | Some (l, e) => from 0x7123 small_mapped = Ok (12 + 9 * Z.of_nat l) s'
    | None => exists what, from 0x7123 small_mapped = Err (runtime_error what) s'
    end).
Proof.
  split; [vm_compute; reflexivity|].
  apply (ept_lookup_correct (ps_virt small_pages) 0x100000 ∅ 0x7123 small_mapped small_mapped_ok).
Defined.

Lemma ept_leaf_entry_witness :
  leaf_entry 1 0x40000000 read_execute write_back = 0x400000B5 /\
  frame_of (leaf_entry 1 0x40000000 read_execute write_back) = 0x40000000.
Proof.
  split; [vm_compute; reflexivity|].
  apply (ept_leaf_entry 1 0x40000000 read_execute write_back). by compute.
Defined.

Lemma ept_reachable_witness :
  dom (heap small_mapped) = {[ 0x100000; 0x101000; 0x102000; 0x103000 ]} /\
  ps_ok (pool small_mapped) (∅ ∪ dom (heap small_mapped)).
Proof.
  split; [vm_compute; reflexivity|].
  apply (ept_reachable small_pages ∅ small_map small_mapped small_pages_ok).
  - vm_compute. reflexivity.
  - apply rtc_once, small_mapped_step.
Defined.
