(* ===== verification/EptAccess.v ===== *)
(** * Changing the entry of a mapped address

    [entry], [from] and the page-size tests on an address that is mapped need
    no page and change no table; a write to the entry that [entry] returns
    changes the mapping of that page alone. *)
From S2P Require Import Prelude Bits EptEntry PageSource EptMmap EptTables EptProofs.
Open Scope Z_scope.

Section Access.
Context {A : Type} `{PageSourceLaws A}.
Context (pv : Z -> option Z) (root : Z) (others : gset Z).
Local Open Scope vmm_scope.
Implicit Types s : mmap A.
Notation tbl := (tbl pv root).
Notation walk := (walk pv root).
Notation ok := (mmap_ok pv root others).

(** A table that exists is entered, not created. *)
Lemma stage_enter {B} l va (k : eref -> M (mmap A) B) v s : (l <= 2)%nat -> ok s ->
  at_table pv root (S l) (path va (2 - l)) s -> tbl (heap s) (path va (3 - l)) = Some v ->
  exists s', stage l va k s = k (v, level_index l va) s' /\ ok s' /\ heap s' = heap s /\
    at_table pv root l (path va (3 - l)) s'.
Proof.
  intros Hl Hok Hat Hv. rewrite <- path_below in * by lia.
  pose proof Hv as Hc. cbn [EptTables.tbl] in Hc. destruct Hat as [Ht Hn]. rewrite Ht in Hc. cbn [mbind option_bind] in Hc.
  rewrite length_path in Hc. replace (3 - (2 - l))%nat with (S l) in Hc by lia. unfold child in Hc.
  destruct (entry_at (heap s) _ _) as [e|] eqn:He; [|done]. cbn [mbind option_bind] in Hc.
  destruct (Z.eqb_spec e 0) as [|Hnz]; [done|]. destruct (large (S l) e) eqn:Hlg; [done|].
  destruct (map_tbl_enter pv root others l (path va (2 - l)) s (level_index (S l) va) e)
    as (s' & Hs' & Hg & Hat' & Hh); try done; [by rewrite length_path|apply level_index_range|].
  exists s'. unfold stage, stage_in. unfold bind at 1. rewrite Hs', bind_get.
  assert (virt_addr (cache l s') = v) as Ev by (destruct Hat' as [Hx _]; rewrite Hh, Hv in Hx; by injection Hx).
  erewrite bind_ok by (apply span_at_ok; [apply Hat'|apply level_index_range]). rewrite Ev.
  split_and!; [done|apply Hg|done|done].
Qed.

(** The tables above a table exist. *)
Lemma tbl_above h va n m v : (m <= n)%nat -> tbl h (path va n) = Some v -> exists w, tbl h (path va m) = Some w.
Proof.
  intros Hm. revert v. induction n as [|n IH]; intros v Hv; [assert (m = 0%nat) as -> by lia; eauto|].
  destruct (decide (m = S n)) as [->|]; [eauto|]. cbn [path EptTables.tbl] in Hv.
  destruct (EptTables.tbl pv root h (path va n)) as [w|]; [|done]. apply (IH ltac:(lia) w eq_refl).
Qed.

(** A link is not a leaf. *)
Lemma link_not_leaf h va n v w e : (n <= 2)%nat -> tbl h (path va n) = Some v -> tbl h (path va (S n)) = Some w ->
  entry_at h v (level_index (3 - n) va) = Some e -> e <> 0 /\ large (3 - n) e = false.
Proof.
  intros Hn Hv Hw He. cbn [path EptTables.tbl] in Hw. rewrite Hv, length_path in Hw. cbn [mbind option_bind] in Hw. unfold child in Hw.
  rewrite He in Hw. cbn [mbind option_bind] in Hw. destruct (Z.eqb_spec e 0); [done|].
  by destruct (large (3 - n) e).
Qed.

(** A lookup of a mapped address goes to its entry and changes no table. *)
Lemma visit_found {B} (z : nat -> M (mmap A) B) k last va l e s : ok s -> walk (heap s) va = Some (l, e) ->
  exists s' v, ok s' /\ heap s' = heap s /\ tbl (heap s) (path va (3 - l)) = Some v /\
    entry_at (heap s) v (level_index l va) = Some e /\
    visit z k last va s =
      match l with
      | O => last (v, level_index l va) s'
      | _ => k l (v, level_index l va) e s'
      end.
Proof.
  intros Hok Hw. destruct (walk_found _ _ _ _ _ _ Hw) as (v & Hv & He). destruct (walk_level _ _ _ _ _ _ Hw) as (Hl & Hlg & Hnz).
  unfold visit. destruct (tbl_above (heap s) va (3 - l) 1 v ltac:(lia) Hv) as [v2 Hv2].
  match goal with |- context [stage 2 va ?f] => set (k2 := f) end.
  destruct (stage_enter 2 va k2 v2 s) as (s2 & -> & Hok2 & Hh2 & Hat2); [lia|done|by apply (at_root pv root others)|done|].
  destruct (at_entry pv root others _ _ _ _ Hok2 Hat2 (level_index_range 2 va)) as (t2 & e2 & _ & _ & _ & He2 & _).
  destruct Hat2 as [Ht2 Hn2]. assert (virt_addr (cache 2 s2) = v2) as Ev2 by (change (3 - 2)%nat with 1%nat in Ht2; rewrite Hh2, Hv2 in Ht2; by injection Ht2).
  rewrite Ev2 in He2. unfold k2. erewrite bind_ok by (apply read_ok; [apply level_index_range|exact He2]). rewrite Hh2 in He2.
  destruct (decide (l = 2%nat)) as [->|Hl2].
  { assert (v2 = v) as -> by congruence. assert (e2 = e) as -> by congruence.
    replace (e =? 0) with false by lia. change (is_enabled pdpt.ps e) with (large 2 e). rewrite Hlg. by exists s2, v. }
  destruct (tbl_above (heap s) va (3 - l) 2 v ltac:(lia) Hv) as [v1 Hv1].
  destruct (link_not_leaf (heap s) va 1 v2 v1 e2) as [Hz2 Hlg2]; try done; [lia|].
  replace (e2 =? 0) with false by lia. change (is_enabled pdpt.ps e2) with (large (3 - 1) e2). rewrite Hlg2.
  match goal with |- context [stage 1 va ?f] => set (k1 := f) end.
  destruct (stage_enter 1 va k1 v1 s2) as (s1 & -> & Hok1 & Hh1 & Hat1); [lia|done|by split|by rewrite Hh2|].
  destruct (at_entry pv root others _ _ _ _ Hok1 Hat1 (level_index_range 1 va)) as (t1 & e1 & _ & _ & _ & He1 & _).
  destruct Hat1 as [Ht1 Hn1]. assert (virt_addr (cache 1 s1) = v1) as Ev1 by (change (3 - 1)%nat with 2%nat in Ht1; rewrite Hh1, Hh2, Hv1 in Ht1; by injection Ht1).
  rewrite Ev1 in He1. unfold k1. erewrite bind_ok by (apply read_ok; [apply level_index_range|exact He1]). rewrite Hh1, Hh2 in He1.
  destruct (decide (l = 1%nat)) as [->|Hl1].
  { assert (v1 = v) as -> by congruence. assert (e1 = e) as -> by congruence.
    replace (e =? 0) with false by lia. change (is_enabled pd.ps e) with (large 1 e). rewrite Hlg.
    exists s1, v. by rewrite Hh1, Hh2. }
  assert (l = 0%nat) as -> by lia. destruct (link_not_leaf (heap s) va 2 v1 v e1) as [Hz1 Hlg1]; try done.
  replace (e1 =? 0) with false by lia. change (is_enabled pd.ps e1) with (large (3 - 2) e1). rewrite Hlg1.
  destruct (stage_enter 0 va last v s1) as (s0 & -> & Hok0 & Hh0 & _); [lia|done|by split|by rewrite Hh1, Hh2|].
  exists s0, v. by rewrite Hh0, Hh1, Hh2.
Qed.

Lemma entry_found va l e s : ok s -> walk (heap s) va = Some (l, e) ->
  exists s' v, entry va s = Ok (v, level_index l va) s' /\ ok s' /\ heap s' = heap s /\
    tbl (heap s) (path va (3 - l)) = Some v /\ entry_at (heap s) v (level_index l va) = Some e.
Proof.
  intros Hok Hw. rewrite entry_visit.
  match goal with |- context [visit ?z ?k ?last va s] =>
    destruct (visit_found z k last va l e s Hok Hw) as (s' & v & Hok' & Hh & Hv & He & Hr) end.
  rewrite Hr. exists s', v. split_and!; try done. destruct (walk_level _ _ _ _ _ _ Hw) as (_ & _ & Hnz).
  destruct l as [|l]; [|done]. erewrite bind_ok by (apply read_ok; [apply level_index_range|by rewrite Hh]).
  by replace (e =? 0) with false by lia.
Qed.

Lemma from_found va l e s : ok s -> walk (heap s) va = Some (l, e) ->
  exists s', from va s = Ok (12 + 9 * Z.of_nat l) s' /\ ok s' /\ heap s' = heap s.
Proof.
  intros Hok Hw. rewrite from_visit.
  match goal with |- context [visit ?z ?k ?last va s] =>
    destruct (visit_found z k last va l e s Hok Hw) as (s' & v & Hok' & Hh & Hv & He & Hr) end.
  rewrite Hr. exists s'. split_and!; try done. destruct (walk_level _ _ _ _ _ _ Hw) as (_ & _ & Hnz).
  destruct l as [|l]; [|done]. erewrite bind_ok by (apply read_ok; [apply level_index_range|by rewrite Hh]).
  by replace (e =? 0) with false by lia.
Qed.

(** A write to the entry of a mapped address. *)
Lemma write_found va l e v e' s : ok s -> walk (heap s) va = Some (l, e) -> tbl (heap s) (path va (3 - l)) = Some v ->
  e' = 0 \/ large l e' = true -> u64 e' ->
  exists s', write (v, level_index l va) e' s = Ok tt s' /\ ok s' /\
    forall va', walk (heap s') va' =
      if decide (same_entry l va va') then (if e' =? 0 then None else Some (l, e')) else walk (heap s) va'.
Proof.
  intros Hok Hw Hv Hc Hu. destruct (walk_found _ _ _ _ _ _ Hw) as (w & Hv' & He). simplify_eq.
  destruct (walk_level _ _ _ _ _ _ Hw) as (Hl & Hlg & Hnz). pose proof (mo_tables _ _ _ _ Hok) as Htb.
  destruct (t_page _ _ _ Htb _ _ Hv) as (t & Hh & Hlt & Hut). pose proof (level_index_range l va) as Hi.
  assert (3 - length (path va (3 - l)) = l)%nat as Hlen by (rewrite length_path; lia).
  unfold write. cbn [fst snd]. rewrite Hh. eexists. split; [done|]. cbn [heap with_heap]. split.
  - split; cbn [heap with_heap pool]; rewrite ?dom_insert_lookup_L by eauto; try apply Hok.
    eapply update_leaf_ok; try done.
    + unfold child. rewrite He, Hlen. cbn [mbind option_bind]. by rewrite Hlg, orb_true_r.
    + rewrite Hlen. destruct Hc as [->| ->]; [done|apply orb_true_r].
  - intros va'. pose proof (walk_update_leaf pv root (heap s) (3 - l) _ t e' va va' Htb ltac:(lia) Hv Hh) as Hx.
    replace (3 - (3 - l))%nat with l in Hx by lia. auto.
Qed.
End Access.
