(* ===== verification/Mtrrs.v ===== *)
(** * Memory type range registers

    Models [extended_apis/bfvmm/include/hve/arch/intel_x64/mtrrs.h] and
    [src/hve/arch/intel_x64/mtrrs.cpp]: the ranges read from the MTRRs, broken
    up until they are disjoint and cover all of memory. *)
From stdpp Require Import sorting.
From S2P Require Import Prelude Bits EptEntry PageSource EptMmap.
Open Scope Z_scope.

Definition invalid : Z := 0xFFFFFFFFFFFFFFFF.

Record range_t := Range { r_type : memory_type; r_base : Z; r_size : Z }.

#[export] Instance memory_type_eq_dec : EqDecision memory_type.
Proof. solve_decision. Defined.
#[export] Instance range_eq_dec : EqDecision range_t.
Proof. solve_decision. Defined.

Definition contains (r : range_t) (addr : Z) : bool :=
  (r_base r <=? addr) && (addr <=? add64 (r_base r) (r_size r)).

Definition distance (r : range_t) (addr : Z) : Z := sub64 (r_size r) (sub64 addr (r_base r)).

(** The default member initialisers. *)
Definition no_range : range_t := Range uncacheable invalid invalid.

Record mtrrs := Mtrrs { m_num : Z; m_ranges : list range_t }.
Definition no_mtrrs : mtrrs := Mtrrs 0 (replicate 256 no_range).

(** The fields of the registers. *)
Definition mtrr_type_mask : field := Field 0xFF 0.
Definition mtrr_base_mask : field := Field 0x000FFFFFFFFFF000 12.
Definition def_type_mask : field := Field 0x7 0.
Definition mtrr_valid : flag := Flag 0x800 11.
Definition mtrr_enable : flag := Flag 0x800 11.
Definition vcnt : field := Field 0xFF 0.
Definition ia32_mtrr_physbase : Z := 0x200.
Definition ia32_mtrr_physmask : Z := 0x201.
Definition ia32_mtrrcap : Z := 0xFE.
Definition ia32_mtrr_def_type : Z := 0x2FF.

Definition physbase_to_base (physbase : Z) : Z := shl64 physbase 12.

Definition physmask_to_size (addr_size physmask : Z) : Z :=
  add64 (Z.land (not64 (shl64 physmask 12)) (sub64 (shl64 1 addr_size) 1)) 1.

(** The [switch] on a type. *)
Definition mtrr_type (t : Z) : memory_type :=
  if t =? 6 then write_back else if t =? 5 then write_protected else if t =? 4 then write_through
  else if t =? 1 then write_combining else uncacheable.

Definition is_subset (range1 range2 : range_t) : bool :=
  (r_base range1 <=? r_base range2) &&
  (add64 (r_base range2) (r_size range2) <=? add64 (r_base range1) (r_size range1)).

Definition is_intersecting (range1 range2 : range_t) : bool :=
  (r_base range1 <? r_base range2) && (r_base range2 <? add64 (r_base range1) (r_size range1)).

Definition compare (range1 range2 : range_t) : bool :=
  if r_base range1 =? r_base range2 then r_size range2 <? r_size range1 else r_base range1 <? r_base range2.

(** What [std::sort] promises of an order that [compare] leaves undecided for
    ranges of the same extent. *)
Class Sort := {
  std_sort : list range_t -> list range_t;
  std_sort_perm l : std_sort l ≡ₚ l;
  std_sort_sorted l : StronglySorted (fun a b => compare b a = false) (std_sort l);
}.

Section Mtrrs.
Context `{Sort}.
Local Open Scope vmm_scope.

Definition add_range (range : range_t) : M mtrrs unit :=
  s <- get ;;
  expects (m_num s <? 255) ;;;
  expects (pt.page_size <=? r_size range) ;;;
  put (Mtrrs (m_num s + 1) (<[Z.to_nat (m_num s) := range]> (m_ranges s))).

(** [m_ranges.at(i)] *)
Definition range_at (i : Z) : M mtrrs range_t := fun s =>
  match m_ranges s !! Z.to_nat i with Some r => Ok r s | None => Err out_of_range s end.

(** The [for] loop of [make_continuous], at the indices that are left. *)
Fixpoint scan (l : list Z) : M mtrrs bool :=
  match l with
  | [] => ret true
  | i :: l' =>
    r1 <- range_at i ;;
    r2 <- range_at (i + 1) ;;
    if is_subset r1 r2 then
      let size1 := sub64 (r_base r2) (r_base r1) in
      let size2 := sub64 (sub64 (add64 (r_base r1) (r_size r1)) (r_base r2)) (r_size r2) in
      (if negb (size1 =? 0) then add_range (Range (r_type r1) (r_base r1) size1) else ret tt) ;;;
      (if negb (size2 =? 0) then add_range (Range (r_type r1) (add64 (r_base r2) (r_size r2)) size2) else ret tt) ;;;
      modify (fun s => Mtrrs (m_num s - 1) (<[Z.to_nat i := no_range]> (m_ranges s))) ;;;
      ret false
    else if is_intersecting r1 r2 then throw (runtime_error "Unable to create mutually exclusive MTRRs")
    else scan l'
  end.

Definition make_continuous : M mtrrs bool :=
  modify (fun s => Mtrrs (m_num s) (std_sort (m_ranges s))) ;;;
  s <- get ;; scan (seqZ 0 (m_num s - 1)).

(** [while (this->make_continuous() == false);] *)
Definition settle : M mtrrs unit :=
  b <- repeat_until (2 ^ 72) make_continuous ;; if b : bool then ret tt else throw diverges.

Definition get_fixed_ranges : M mtrrs unit := add_range (Range uncacheable 0 0x100000).

(** [add_range] of a pair of registers. *)
Definition add_variable (addr_size physbase physmask : Z) : M mtrrs unit :=
  add_range (Range (mtrr_type (field_get mtrr_type_mask physbase))
    (physbase_to_base (field_get mtrr_base_mask physbase))
    (physmask_to_size addr_size (field_get mtrr_base_mask physmask))).

(** The processor's registers: [rdmsr] reads one, [addr_size] is the number of
    physical address bits that [cpuid] reports. *)
Context (rdmsr : Z -> Z) (addr_size : Z).

Definition get_variable_ranges : M mtrrs unit :=
  for_each (seqZ 0 (field_get vcnt (rdmsr ia32_mtrrcap))) (fun k =>
    let i := 2 * k in
    let physbase := rdmsr (ia32_mtrr_physbase + i) in
    let physmask := rdmsr (ia32_mtrr_physmask + i) in
    if is_disabled mtrr_valid physmask then ret tt else add_variable addr_size physbase physmask).

(** The body of the constructor, and the constructor: a failure clears the
    list. *)
Definition read_ranges : M mtrrs unit :=
  if is_disabled mtrr_enable (rdmsr ia32_mtrr_def_type) then add_range (Range write_back 0 0xFFFFFFFFFFFFFFFF)
  else
    get_fixed_ranges ;;;
    get_variable_ranges ;;;
    settle ;;;
    add_range (Range (mtrr_type (field_get def_type_mask (rdmsr ia32_mtrr_def_type))) 0 0xFFFFFFFFFFFFFFFF) ;;;
    settle.

Definition mtrrs_new : outcome mtrrs unit :=
  catch read_ranges (fun _ => modify (fun _ => no_mtrrs)) no_mtrrs.

(** [ranges()] up to [size()]. *)
Definition ranges (s : mtrrs) : list range_t := take (Z.to_nat (m_num s)) (m_ranges s).
End Mtrrs.
