(* ===== verification/MtrrsProofs.v ===== *)
(** * Correctness of the memory type ranges

    The loop that breaks the ranges up ends, and what it leaves is a partition
    of memory into pieces of the ranges it was given. *)
From stdpp Require Import sorting.
From S2P Require Import Prelude Bits EptEntry PageSource EptMmap Mtrrs.
Open Scope Z_scope.

(** The end of a range, which no valid range wraps around. *)
Definition r_end (r : range_t) : Z := r_base r + r_size r.

Record fine (r : range_t) : Prop := {
  fi_base : 0 <= r_base r;
  fi_size : 0x1000 <= r_size r;
  fi_end : r_end r <= invalid;
}.

Definition inside (r r0 : range_t) : Prop :=
  r_base r0 <= r_base r /\ r_end r <= r_end r0 /\ r_type r = r_type r0.

(** A range is left of the ones after it, where it is apart from the next. *)
Definition apart (r1 r2 : range_t) : Prop := r_end r1 <= r_base r2.

(** The addresses a list of ranges covers. *)
Definition covered (L : list range_t) (x : Z) : Prop := exists r, r ∈ L /\ r_base r <= x < r_end r.

Definition total (L : list range_t) : Z := foldr (fun r a => r_size r + a) 0 L.

(** The pieces of [r1] that are not in [r2]. *)
Definition pieces (r1 r2 : range_t) : list range_t :=
  (if r_base r2 - r_base r1 =? 0 then [] else [Range (r_type r1) (r_base r1) (r_base r2 - r_base r1)]) ++
  (if r_end r1 - r_end r2 =? 0 then [] else [Range (r_type r1) (r_end r2) (r_end r1 - r_end r2)]).

(** The ranges [L] stand at the beginning of the array, or anywhere in it. *)
Record listed (L : list range_t) (s : mtrrs) : Prop := {
  li_num : m_num s = Z.of_nat (length L);
  li_len : (length L <= 255)%nat;
  li_array : m_ranges s = L ++ replicate (256 - length L) no_range;
  li_fine : Forall fine L;
}.

Record scattered (L : list range_t) (s : mtrrs) : Prop := {
  sc_num : m_num s = Z.of_nat (length L);
  sc_len : (length L <= 255)%nat;
  sc_array : m_ranges s ≡ₚ L ++ replicate (256 - length L) no_range;
  sc_fine : Forall fine L;
}.

Lemma listed_scattered L s : listed L s -> scattered L s.
Proof. intros [? ? E ?]. split; try done. by rewrite E. Qed.

Lemma listed_ranges L s : listed L s -> ranges s = L.
Proof. intros [En _ Er _]. unfold ranges. rewrite En, Er, Nat2Z.id. apply take_app_length. Qed.

Lemma total_perm L L' : L ≡ₚ L' -> total L = total L'.
Proof. unfold total. induction 1; simpl; lia. Qed.

#[local] Instance total_proper : Proper ((≡ₚ) ==> eq) total.
Proof. intros L L'. apply total_perm. Qed.

Lemma total_app L L' : total (L ++ L') = total L + total L'.
Proof. unfold total. induction L as [|r L IH]; simpl; [done|]. lia. Qed.

Lemma total_bound L : Forall fine L -> 0 <= total L <= invalid * Z.of_nat (length L).
Proof.
  induction 1 as [|r L [] _ IH]; cbn -[invalid Z.mul]; [lia|]. fold (total L). unfold r_end in *. lia.
Qed.

(** ** Sorting *)

Section Proofs.
Context `{Sort}.
Local Open Scope vmm_scope.

Definition before (a b : range_t) : Prop := compare b a = false.

Lemma fine_before r : fine r -> compare r no_range = true.
Proof.
  intros [H0 H1 H2]. unfold compare, r_end, no_range, invalid in *. cbn [r_base r_size].
  replace (r_base r =? _) with false by lia. lia.
Qed.

(** The empty entries of the array end up behind the ranges. *)
Lemma sort_split l L k : StronglySorted before l -> l ≡ₚ L ++ replicate k no_range -> Forall fine L ->
  exists L', l = L' ++ replicate k no_range /\ L' ≡ₚ L /\ StronglySorted before L'.
Proof.
  intros Hs. revert L. induction Hs as [|a l Hs IH Ha]; intros L Hp Hf.
  { apply Permutation_nil in Hp. apply app_eq_nil in Hp as [-> Hk]. rewrite Hk. exists []. split; [done|]. split; [done|constructor]. }
  destruct (decide (a = no_range)) as [->|Hne].
  - assert (L = []) as ->.
    { destruct L as [|x L]; [done|]. exfalso. apply Forall_cons in Hf as [Hx _].
      assert (x ∈ no_range :: l) as Hin by (rewrite Hp; set_solver).
      apply elem_of_cons in Hin as [->|Hin]; [destruct Hx; unfold r_end, no_range, invalid in *; cbn in *; lia|].
      rewrite Forall_forall in Ha. specialize (Ha x Hin). unfold before in Ha. by rewrite fine_before in Ha. }
    exists []. cbn [app] in *. split; [|split; [done|constructor]]. symmetry. by apply replicate_Permutation.
  - assert (a ∈ L) as Hin.
    { assert (a ∈ L ++ replicate k no_range) as Hin by (rewrite <- Hp; by left).
      apply elem_of_app in Hin as [|Hin]; [done|]. by apply elem_of_replicate in Hin as [? _]. }
    apply elem_of_Permutation in Hin as [L1 HL]. destruct (IH L1) as (L' & -> & Hp' & Hs').
    + apply (Permutation_cons_inv (a := a)). by rewrite Hp, HL.
    + rewrite HL in Hf. by apply Forall_cons in Hf as [_ ?].
    + exists (a :: L'). split; [done|]. split; [by rewrite HL, Hp'|]. constructor; [done|].
      by apply Forall_app in Ha as [? _].
Qed.

Lemma sort_listed L s : scattered L s ->
  exists L', L' ≡ₚ L /\ StronglySorted before L' /\ listed L' (Mtrrs (m_num s) (std_sort (m_ranges s))).
Proof.
  intros [Hn Hl Ha Hf]. destruct (sort_split (std_sort (m_ranges s)) L (256 - length L)) as (L' & E & Hp & Hs).
  - apply std_sort_sorted.
  - by rewrite std_sort_perm.
  - done.
  - exists L'. split; [done|]. split; [done|]. pose proof (Permutation_length Hp) as El.
    split; cbn [m_num m_ranges]; [by rewrite El|lia|by rewrite El|by rewrite Hp].
Qed.

(** ** One pass *)

Lemma range_at_ok L s i r : listed L s -> L !! i = Some r -> range_at (Z.of_nat i) s = Ok r s.
Proof.
  intros [_ _ Ha _] Hi. unfold range_at. rewrite Nat2Z.id, Ha, lookup_app_l; [by rewrite Hi|by eapply lookup_lt_Some].
Qed.

(** The comparisons on ranges that do not wrap around. *)
Lemma fine_arith r1 r2 : fine r1 -> fine r2 ->
  is_subset r1 r2 = (r_base r1 <=? r_base r2) && (r_end r2 <=? r_end r1) /\
  is_intersecting r1 r2 = (r_base r1 <? r_base r2) && (r_base r2 <? r_end r1).
Proof.
  intros [] []. unfold is_subset, is_intersecting, r_end, invalid, add64 in *.
  by rewrite !w64_small by (unfold u64; lia).
Qed.

Lemma add_range_ok L s r : listed L s -> fine r ->
  (add_range r s = Err fail_fast s /\ length L = 255%nat) \/
  exists s', add_range r s = Ok tt s' /\ listed (L ++ [r]) s'.
Proof.
  intros [Hn Hl Ha Hf] Hr. unfold add_range. rewrite bind_get, Hn. destruct Hr as [? ? ?].
  destruct (Z.ltb_spec (Z.of_nat (length L)) 255); [right|left; split; [done|lia]].
  replace (pt.page_size <=? r_size r) with true by (unfold pt.page_size; lia). eexists. split; [done|].
  rewrite Nat2Z.id, Ha. split; cbn [m_num m_ranges]; rewrite ?length_app; simpl; [lia|lia| |].
  - replace (256 - length L)%nat with (S (256 - (length L + 1))) by lia. cbn [replicate].
    by rewrite insert_app_r_alt, Nat.sub_diag, <- app_assoc by lia.
  - apply Forall_app. split; [done|]. by repeat constructor.
Qed.

(** A new piece, if it is not empty, refused if it is smaller than a page. *)
Lemma add_piece L s t b z : listed L s -> 0 <= b -> 0 <= z -> b + z <= invalid ->
  (exists s', (if negb (z =? 0) then add_range (Range t b z) else ret tt) s = Err fail_fast s') \/
  exists s', (if negb (z =? 0) then add_range (Range t b z) else ret tt) s = Ok tt s' /\
    listed (L ++ (if z =? 0 then [] else [Range t b z])) s'.
Proof.
  intros HL Hb Hz He. destruct (Z.eqb_spec z 0) as [->|Hnz]; cbn [negb].
  { right. exists s. by rewrite app_nil_r. }
  destruct (decide (0x1000 <= z)) as [Hge|Hlt].
  - destruct (add_range_ok L s (Range t b z)) as [[-> _]|(s' & -> & ?)]; [done|by split|left; eauto|right; eauto].
  - left. unfold add_range. rewrite bind_get. destruct (m_num s <? 255); [|by eexists].
    unfold bind, expects. cbn [r_size]. replace (pt.page_size <=? z) with false by (unfold pt.page_size; lia). by eexists.
Qed.

(** What the ranges are after one pass that broke [r1] up. *)
Definition broken (L L' : list range_t) : Prop := exists l1 r1 r2 l2,
  L = l1 ++ r1 :: r2 :: l2 /\ r_base r1 <= r_base r2 /\ r_end r2 <= r_end r1 /\
  L' ≡ₚ l1 ++ r2 :: l2 ++ pieces r1 r2.

Lemma drop_range l1 r1 l2 s : listed (l1 ++ r1 :: l2) s ->
  scattered (l1 ++ l2) (Mtrrs (m_num s - 1) (<[length l1 := no_range]> (m_ranges s))).
Proof.
  intros [Hn Hl Ha Hf]. rewrite length_app in *. cbn [length] in *.
  split; cbn [m_num m_ranges]; rewrite ?length_app; [lia|lia| |].
  - rewrite Ha, <- app_assoc, insert_app_r_alt, Nat.sub_diag by lia. cbn [app insert list_insert].
    rewrite <- app_assoc. apply Permutation_app_head.
    replace (256 - (length l1 + length l2))%nat with (S (256 - (length l1 + S (length l2)))) by lia.
    cbn [replicate]. apply Permutation_middle.
  - apply Forall_app in Hf as [? [_ ?]%Forall_cons]. by apply Forall_app.
Qed.

(** The verdict on one pair. *)
Definition bad (e : exn) : Prop := e = fail_fast \/ exists what, e = runtime_error what.

Lemma break_ok l1 r1 r2 l2 s : listed (l1 ++ r1 :: r2 :: l2) s ->
  r_base r1 <= r_base r2 -> r_end r2 <= r_end r1 ->
  wp (let size1 := sub64 (r_base r2) (r_base r1) in
      let size2 := sub64 (sub64 (add64 (r_base r1) (r_size r1)) (r_base r2)) (r_size r2) in
      (if negb (size1 =? 0) then add_range (Range (r_type r1) (r_base r1) size1) else ret tt) ;;;
      (if negb (size2 =? 0) then add_range (Range (r_type r1) (add64 (r_base r2) (r_size r2)) size2) else ret tt) ;;;
      modify (fun s => Mtrrs (m_num s - 1) (<[length l1 := no_range]> (m_ranges s))) ;;;
      ret false)
    (fun b s' => b = false /\ exists L', broken (l1 ++ r1 :: r2 :: l2) L' /\ scattered L' s') (fun e _ => bad e) s.
Proof.
  intros HL H1 H2. pose proof (li_fine _ _ HL) as Hf. rewrite Forall_app, !Forall_cons in Hf.
  destruct Hf as (_ & [A1 A2 A3] & [B1 B2 B3] & _). unfold r_end in *.
  assert (sub64 (r_base r2) (r_base r1) = r_base r2 - r_base r1) as -> by (apply w64_small; unfold u64, invalid in *; lia).
  assert (add64 (r_base r1) (r_size r1) = r_base r1 + r_size r1) as -> by (apply w64_small; unfold u64, invalid in *; lia).
  assert (add64 (r_base r2) (r_size r2) = r_base r2 + r_size r2) as -> by (apply w64_small; unfold u64, invalid in *; lia).
  assert (sub64 (sub64 (r_base r1 + r_size r1) (r_base r2)) (r_size r2) = r_base r1 + r_size r1 - (r_base r2 + r_size r2)) as ->.
  { unfold sub64. rewrite (w64_small (_ - r_base r2)) by (unfold u64, invalid in *; lia).
    rewrite w64_small by (unfold u64, invalid in *; lia). lia. }
  cbv zeta. apply wp_bind. unfold wp at 1.
  destruct (add_piece _ s (r_type r1) (r_base r1) (r_base r2 - r_base r1) HL) as [(s' & ->)|(s1 & -> & HL1)];
    [lia|lia|lia|by left|]. apply wp_bind. unfold wp at 1.
  destruct (add_piece _ s1 (r_type r1) (r_base r2 + r_size r2) (r_base r1 + r_size r1 - (r_base r2 + r_size r2)) HL1)
    as [(s' & ->)|(s2 & -> & HL2)]; [lia|lia|lia|by left|]. apply wp_modify, wp_ret. split; [done|].
  rewrite <- !app_assoc in HL2. cbn [app] in HL2. eexists. split; [|by eapply drop_range].
  exists l1, r1, r2, l2. split_and!; try done.
Qed.

(** Every range is left of the next. *)
Definition in_order (L : list range_t) : Prop :=
  forall i r1 r2, L !! i = Some r1 -> L !! S i = Some r2 -> apart r1 r2.

(** In a sorted list, a range that is neither a part of the one before it nor
    intersects it is right of it. *)
Lemma neither_apart r1 r2 : fine r1 -> fine r2 -> before r1 r2 ->
  is_subset r1 r2 = false -> is_intersecting r1 r2 = false -> apart r1 r2.
Proof.
  intros F1 F2 Hb Hs Hi. destruct (fine_arith r1 r2 F1 F2) as [Es Ei]. rewrite Es in Hs. rewrite Ei in Hi.
  unfold before, compare in Hb. destruct F1, F2. unfold apart, r_end in *.
  destruct (Z.eqb_spec (r_base r2) (r_base r1)); lia.
Qed.

Lemma sorted_next L k r1 r2 : StronglySorted before L -> L !! k = Some r1 -> L !! S k = Some r2 -> before r1 r2.
Proof.
  intros Hs. revert k. induction Hs as [|a L Hs IH Ha]; intros k H1 H2; [done|]. destruct k as [|k]; [|by apply (IH k)].
  injection H1 as ->. by eapply Forall_lookup_1 in Ha.
Qed.

Lemma scan_ok L s d k : listed L s -> StronglySorted before L -> (k + S d = length L)%nat ->
  (forall i r1 r2, (i < k)%nat -> L !! i = Some r1 -> L !! S i = Some r2 -> apart r1 r2) ->
  wp (scan (seqZ (Z.of_nat k) (Z.of_nat d)))
    (fun b s' => if b then s' = s /\ in_order L else exists L', broken L L' /\ scattered L' s') (fun e _ => bad e) s.
Proof.
  intros HL Hs. revert k. induction d as [|d IH]; intros k Hk Hap.
  - apply wp_ret. split; [done|]. intros i r1 r2 H1 H2. apply (Hap i); [|done..]. apply lookup_lt_Some in H2. lia.
  - rewrite seqZ_cons by lia. cbn [scan].
    destruct (lookup_lt_is_Some_2 L k) as [r1 E1]; [lia|]. destruct (lookup_lt_is_Some_2 L (S k)) as [r2 E2]; [lia|].
    eapply wp_step; [by eapply range_at_ok|]. replace (Z.of_nat k + 1) with (Z.of_nat (S k)) by lia.
    eapply wp_step; [by eapply range_at_ok|]. cbv beta. pose proof (li_fine _ _ HL) as Hf.
    assert (fine r1 /\ fine r2) as [F1 F2] by (split; by eapply Forall_lookup_1).
    destruct (fine_arith r1 r2 F1 F2) as [Es Ei]. destruct (is_subset r1 r2) eqn:Esub.
    + assert (L = take k L ++ r1 :: r2 :: drop (S (S k)) L) as EL.
      { rewrite <- (take_drop_middle L k r1 E1) at 1. f_equal. f_equal.
        by rewrite (drop_S L r2 (S k) E2). }
      symmetry in Es. apply andb_true_iff in Es as [Hb1 Hb2]. rewrite EL in HL.
      assert (length (take k L) = k) as Hlk by (rewrite length_take; lia).
      pose proof (break_ok (take k L) r1 r2 (drop (S (S k)) L) s HL ltac:(lia) ltac:(lia)) as Hbr.
      rewrite Hlk in Hbr. rewrite Nat2Z.id. eapply wp_mono; [exact Hbr| |done].
      intros b s' [-> HL']. by rewrite <- EL in HL'.
    + destruct (is_intersecting r1 r2) eqn:Eint; [right; by eexists|].
      replace (Z.succ (Z.of_nat k)) with (Z.of_nat (S k)) by lia. replace (Z.pred (Z.of_nat (S d))) with (Z.of_nat d) by lia.
      apply IH; [lia|]. intros i a1 a2 Hi. destruct (decide (i = k)) as [->|]; [|apply Hap; lia].
      intros ? ?. simplify_eq. apply neither_apart; try done.
      by eapply (sorted_next L k).
Qed.

(** ** The loop *)

(** Pieces cover what was covered, and are parts of the same ranges. *)
Definition cut (L0 L : list range_t) : Prop :=
  (forall x, covered L x <-> covered L0 x) /\ forall r, r ∈ L -> exists r0, r0 ∈ L0 /\ inside r r0.

Lemma cut_refl L : cut L L.
Proof. split; [done|]. intros r Hr. exists r. by unfold inside. Qed.

Lemma cut_perm L0 L L' : L ≡ₚ L' -> cut L0 L -> cut L0 L'.
Proof.
  intros Hp [Hc Hi]. split.
  - intros x. rewrite <- Hc. unfold covered. by setoid_rewrite Hp.
  - intros r. rewrite <- Hp. apply Hi.
Qed.

Lemma elem_of_pieces r1 r2 r : r ∈ pieces r1 r2 <->
  (r = Range (r_type r1) (r_base r1) (r_base r2 - r_base r1) /\ r_base r2 <> r_base r1) \/
  (r = Range (r_type r1) (r_end r2) (r_end r1 - r_end r2) /\ r_end r1 <> r_end r2).
Proof.
  unfold pieces. rewrite elem_of_app. destruct (Z.eqb_spec (r_base r2 - r_base r1) 0), (Z.eqb_spec (r_end r1 - r_end r2) 0);
    rewrite ?list_elem_of_singleton, ?elem_of_nil; intuition (try lia).
Qed.

Lemma cut_trans L0 L1 L2 : cut L0 L1 -> cut L1 L2 -> cut L0 L2.
Proof.
  intros [C1 I1] [C2 I2]. split; [intros x; by rewrite C2|]. intros r (r1 & H1 & (? & ? & ?))%I2.
  destruct (I1 r1 H1) as (r0 & Hr0 & (? & ? & ?)). exists r0. split; [done|]. unfold inside. split_and!; [lia|lia|congruence].
Qed.

Lemma broken_cut L L' : broken L L' -> Forall fine L -> cut L L'.
Proof.
  intros (l1 & r1 & r2 & l2 & -> & H1 & H2 & Hp) Hf. apply (cut_perm _ _ _ (symmetry Hp)).
  rewrite Forall_app, !Forall_cons in Hf. destruct Hf as (_ & [A1 A2 A3] & [B1 B2 B3] & _). split.
  - intros x. unfold covered. split.
    + intros (r & Hr & Hx). rewrite elem_of_app, elem_of_cons, elem_of_app, elem_of_pieces in Hr.
      destruct Hr as [Hr|[->|[Hr|[[-> _]|[-> _]]]]]; [exists r; set_solver|exists r2; set_solver|exists r; set_solver|..];
        exists r1; (split; [set_solver|]); unfold r_end in *; cbn [r_base r_size] in *; lia.
    + intros (r & Hr & Hx). rewrite elem_of_app, !elem_of_cons in Hr.
      destruct Hr as [Hr|[->|[->|Hr]]]; [exists r; set_solver| |exists r2; set_solver|exists r; set_solver].
      destruct (decide (r_base r2 <= x < r_end r2)) as [|Hn]; [exists r2; set_solver|].
      destruct (decide (x < r_base r2)).
      * exists (Range (r_type r1) (r_base r1) (r_base r2 - r_base r1)). split.
        -- rewrite elem_of_app, elem_of_cons, elem_of_app, elem_of_pieces. right. right. right. left. split; [done|lia].
        -- unfold r_end in *. cbn [r_base r_size]. lia.
      * exists (Range (r_type r1) (r_end r2) (r_end r1 - r_end r2)). split.
        -- rewrite elem_of_app, elem_of_cons, elem_of_app, elem_of_pieces. right. right. right. right. split; [done|lia].
        -- unfold r_end in *. cbn [r_base r_size]. lia.
  - intros r Hr. rewrite elem_of_app, elem_of_cons, elem_of_app, elem_of_pieces in Hr.
    destruct Hr as [Hr|[->|[Hr|[[-> _]|[-> _]]]]]; [exists r|exists r2|exists r|exists r1|exists r1];
      (split; [set_solver|]); unfold inside, r_end in *; cbn [r_base r_size r_type]; split_and!; try done; lia.
Qed.

Lemma broken_total L L' : broken L L' -> Forall fine L -> total L' < total L.
Proof.
  intros (l1 & r1 & r2 & l2 & -> & H1 & H2 & Hp) Hf. rewrite (total_perm _ _ Hp), total_app, total_app.
  rewrite Forall_app, !Forall_cons in Hf. destruct Hf as (_ & [A1 A2 A3] & [B1 B2 B3] & _).
  change (r2 :: l2 ++ pieces r1 r2) with ((r2 :: l2) ++ pieces r1 r2). rewrite total_app. unfold pieces. rewrite total_app.
  unfold r_end in *. cbn [total foldr]. fold (total l2).
  destruct (Z.eqb_spec (r_base r2 - r_base r1) 0), (Z.eqb_spec (r_base r1 + r_size r1 - (r_base r2 + r_size r2)) 0);
    cbn [total foldr r_size]; lia.
Qed.

(** The sum of the sizes, on the array. *)
Definition weight (s : mtrrs) : Z := total (filter (fun r => r_base r <> invalid) (m_ranges s)).

Lemma weight_scattered L s : scattered L s -> weight s = total L.
Proof.
  intros [_ _ Ha Hf]. unfold weight. rewrite Ha, filter_app, total_app.
  assert (forall k, filter (fun r => r_base r <> invalid) (replicate k no_range) = []) as ->.
  { intros k. induction k as [|k IH]; [done|]. cbn [replicate]. rewrite filter_cons_False; [done|]. cbn. tauto. }
  cbn [total foldr]. rewrite Z.add_0_r. f_equal.
  clear Ha. induction Hf as [|r L [? ? ?] Hf IH]; [done|]. rewrite filter_cons_True; [by rewrite IH|]. unfold r_end, invalid in *. lia.
Qed.

(** The state between two passes, and the one after the last. *)
Definition settling (L0 : list range_t) (s : mtrrs) : Prop :=
  exists L, scattered L s /\ cut L0 L /\ L <> [].
Definition settled (L0 : list range_t) (s : mtrrs) : Prop :=
  exists L, listed L s /\ cut L0 L /\ L <> [] /\ in_order L.

Lemma make_continuous_ok L0 s : settling L0 s ->
  wp make_continuous (fun b s' => if b then settled L0 s' else settling L0 s' /\ weight s' < weight s) (fun e _ => bad e) s.
Proof.
  intros (L & HL & Hc & Hn). unfold make_continuous. apply wp_modify, wp_get.
  destruct (sort_listed L s HL) as (L1 & Hp & Hs & HL1). set (s1 := Mtrrs _ _) in *.
  assert (L1 <> []) as Hn1. { intros ->. apply Permutation_nil in Hp. done. }
  assert (exists d, length L1 = S d) as [d Hd] by (destruct L1; [done|by eexists]).
  rewrite (li_num _ _ HL1). replace (Z.of_nat (length L1) - 1) with (Z.of_nat d) by lia.
  eapply wp_mono; [apply (scan_ok L1 s1 d 0); [done|done|lia|intros; lia]| |done].
  intros b s'. cbv beta. destruct b.
  - intros [-> Ho]. exists L1. split_and!; try done. by apply (cut_perm _ L L1).
  - intros (L2 & Hb & Hsc). pose proof (li_fine _ _ HL1) as Hf. split.
    + exists L2. split; [done|]. split.
      * eapply cut_trans; [|by apply broken_cut]. by apply (cut_perm _ L L1).
      * intros ->. destruct Hb as (? & ? & ? & ? & _ & _ & _ & Hx). apply Permutation_nil in Hx. by apply app_nil in Hx as [_ ?].
    + rewrite (weight_scattered _ _ Hsc), (weight_scattered _ _ HL), <- (total_perm _ _ Hp). by apply broken_total.
Qed.

Lemma settle_ok L0 s : settling L0 s -> wp settle (fun _ s' => settled L0 s') (fun e _ => bad e) s.
Proof.
  intros Hs. unfold settle. apply wp_bind. eapply wp_mono.
  - apply (wp_repeat_until make_continuous (settling L0) (settled L0) weight).
    + apply make_continuous_ok.
    + intros s1 (L & HL & _ & _). rewrite (weight_scattered _ _ HL). apply total_bound, HL.
    + done.
    + destruct Hs as (L & HL & _ & _). rewrite (weight_scattered _ _ HL). pose proof (total_bound L (sc_fine _ _ HL)).
      pose proof (sc_len _ _ HL). change (Z.pos (2 ^ 72)) with 0x1000000000000000000. unfold invalid in *. lia.
  - intros b s' [-> Hq]. by apply wp_ret.
  - done.
Qed.

(** ** The partition *)

(** The ranges follow each other without a gap from [a] to [b]. *)
Fixpoint tiles (L : list range_t) (a b : Z) : Prop :=
  match L with
  | [] => a = b
  | r :: L' => r_base r = a /\ 0x1000 <= r_size r /\ tiles L' (r_end r) b
  end.

Lemma in_order_strong L : Forall fine L -> in_order L -> StronglySorted apart L.
Proof.
  induction L as [|r L IH]; intros Hf Ho; [constructor|]. apply Forall_cons in Hf as [F Hf].
  assert (StronglySorted apart L) as Hs. { apply IH; [done|]. intros i r1 r2 H1 H2. by apply (Ho (S i)). }
  constructor; [done|]. destruct L as [|r2 L]; [constructor|].
  assert (apart r r2) as Hr by by apply (Ho 0%nat). constructor; [done|].
  apply StronglySorted_inv in Hs as [_ Hs]. rewrite Forall_forall in *. intros r3 H3. specialize (Hs r3 H3).
  assert (fine r2) as [] by (apply Hf; by left). unfold apart, r_end in *. lia.
Qed.

Lemma order_tiles L a b : Forall fine L -> StronglySorted apart L -> L <> [] ->
  (forall x, covered L x <-> a <= x < b) -> tiles L a b.
Proof.
  intros Hf Hs. revert a. induction Hs as [|r L Hs IH Hr]; intros a Hn Hc; [done|]. clear Hn.
  apply Forall_cons in Hf as [[F1 F2 F3] Hf]. rewrite Forall_forall in Hr.
  assert (a <= r_base r < b) as Hab by (apply Hc; exists r; split; [by left|unfold r_end; lia]).
  assert (r_base r = a) as <-.
  { destruct (proj2 (Hc a) ltac:(lia)) as (r' & [->|Hr']%elem_of_cons & Hx); [lia|].
    specialize (Hr r' Hr'). unfold apart, r_end in *. lia. }
  cbn [tiles]. split_and!; [done|done|]. destruct L as [|r2 L].
  - cbn [tiles]. destruct (proj2 (Hc (b - 1)) ltac:(lia)) as (r' & Hr' & Hx). apply list_elem_of_singleton in Hr' as ->.
    assert (r_base r <= r_end r - 1 < b); [|lia]. apply Hc. exists r. split; [by left|unfold r_end; lia].
  - apply IH; [done|done|]. intros x. split.
    + intros (r' & Hr' & Hx). pose proof (Hr r' Hr') as Hap. unfold apart in Hap. split; [lia|].
      apply Hc. exists r'. split; [by right|done].
    + intros Hx. destruct (proj2 (Hc x)) as (r' & [->|Hr']%elem_of_cons & Hx'); [unfold r_end in *; lia|lia|].
      by exists r'.
Qed.

(** ** The constructor *)

Lemma listed_none : listed [] no_mtrrs.
Proof. split; [done|cbn; lia|done|constructor]. Qed.

Lemma all_fine t : fine (Range t 0 invalid).
Proof. split; unfold r_end; cbn; unfold invalid; lia. Qed.

Lemma listed_settling L s : listed L s -> L <> [] -> settling L s.
Proof. intros HL Hn. exists L. split; [by apply listed_scattered|]. split; [apply cut_refl|done]. Qed.

(** Cutting a part of a list. *)
Lemma cut_app L0 L r : cut L0 L -> cut (L0 ++ [r]) (L ++ [r]).
Proof.
  intros [Hc Hi]. split.
  - intros x. assert (forall K, covered (K ++ [r]) x <-> covered K x \/ r_base r <= x < r_end r) as He.
    { intros K. unfold covered. setoid_rewrite elem_of_app. setoid_rewrite list_elem_of_singleton. naive_solver. }
    by rewrite !He, Hc.
  - intros r' [Hr|Hr]%elem_of_app.
    + destruct (Hi r' Hr) as (r0 & ? & ?). exists r0. set_solver.
    + apply list_elem_of_singleton in Hr as ->. exists r. split; [set_solver|by unfold inside].
Qed.

Section Registers.
Context (rdmsr : Z -> Z) (addr_size : Z).

Definition variable_range (k : Z) : option range_t :=
  let physbase := rdmsr (ia32_mtrr_physbase + 2 * k) in
  let physmask := rdmsr (ia32_mtrr_physmask + 2 * k) in
  if is_disabled mtrr_valid physmask then None else
  Some (Range (mtrr_type (field_get mtrr_type_mask physbase)) (physbase_to_base (field_get mtrr_base_mask physbase))
    (physmask_to_size addr_size (field_get mtrr_base_mask physmask))).

(** The ranges the registers describe. *)
Definition described : list range_t :=
  if is_disabled mtrr_enable (rdmsr ia32_mtrr_def_type) then [Range write_back 0 invalid] else
  [Range uncacheable 0 0x100000] ++ omap variable_range (seqZ 0 (field_get vcnt (rdmsr ia32_mtrrcap))) ++
  [Range (mtrr_type (field_get def_type_mask (rdmsr ia32_mtrr_def_type))) 0 invalid].

Hypothesis Hsize : 12 <= addr_size <= 52.

Lemma base_field x : 0 <= field_get mtrr_base_mask x < 2 ^ 40.
Proof using.
  unfold field_get, get_bits. cbn [field_mask field_from mtrr_base_mask].
  change 0x000FFFFFFFFFF000 with (Z.shiftl (Z.ones 40) 12). rewrite Z.shiftr_land, Z.shiftr_shiftl_l, Z.sub_diag, Z.shiftl_0_r by lia.
  rewrite Z.land_ones by lia. apply Z.mod_pos_bound. lia.
Qed.

Lemma not64_sub x : u64 x -> not64 x = 2 ^ 64 - 1 - x.
Proof using.
  intros [H0 H1]. unfold not64. rewrite <- Z.sub_nocarry_ldiff; [done|]. apply Z.ldiff_ones_r_low; [done|].
  destruct (decide (x = 0)) as [->|]; [done|]. apply Z.log2_lt_pow2; lia.
Qed.

Lemma mask_size m : 0 <= m < 2 ^ 40 -> 0x1000 <= physmask_to_size addr_size m <= 2 ^ addr_size.
Proof using Hsize.
  intros Hm. unfold physmask_to_size. rewrite sub64_shl64_ones, Z.land_ones by lia.
  assert (shl64 m 12 = m * 0x1000) as ->.
  { unfold shl64. rewrite Z.shiftl_mul_pow2 by lia. apply w64_small. unfold u64. lia. }
  rewrite not64_sub by (unfold u64; lia). set (y := 2 ^ 64 - 1 - m * 0x1000).
  pose proof (Z.mod_pos_bound y (2 ^ addr_size) ltac:(lia)) as Hy.
  assert (y mod 2 ^ addr_size mod 2 ^ 12 = 0xFFF) as Hlow.
  { replace addr_size with (12 + (addr_size - 12)) by lia. rewrite Z.pow_add_r by lia.
    rewrite <- Znumtheory.Zmod_div_mod by (try lia; exists (2 ^ (addr_size - 12)); lia).
    unfold y. replace (2 ^ 64 - 1 - m * 0x1000) with (0xFFF + (2 ^ 52 - 1 - m) * 2 ^ 12) by lia.
    rewrite Z.mod_add by lia. done. }
  assert (2 ^ addr_size <= 2 ^ 52) by (apply Z.pow_le_mono_r; lia).
  assert (0xFFF <= y mod 2 ^ addr_size) by (rewrite <- Hlow; apply Z.mod_le; lia).
  unfold add64. rewrite w64_small by (unfold u64; lia). lia.
Qed.

Lemma variable_fine k r : variable_range k = Some r -> fine r.
Proof using Hsize.
  unfold variable_range. destruct (is_disabled _ _); [done|]. intros [= <-].
  set (pb := rdmsr _). set (pm := rdmsr _). pose proof (base_field pb) as Hb. pose proof (mask_size _ (base_field pm)).
  assert (2 ^ addr_size <= 2 ^ 52) by (apply Z.pow_le_mono_r; lia).
  assert (physbase_to_base (field_get mtrr_base_mask pb) = field_get mtrr_base_mask pb * 0x1000) as Eb.
  { unfold physbase_to_base, shl64. rewrite Z.shiftl_mul_pow2 by lia. apply w64_small. unfold u64. lia. }
  split; unfold r_end; cbn [r_base r_size]; rewrite ?Eb; unfold invalid; lia.
Qed.

Lemma add_ok L s r : listed L s -> fine r -> wp (add_range r) (fun _ s' => listed (L ++ [r]) s') (fun e _ => bad e) s.
Proof using.
  intros HL Hr. unfold wp. destruct (add_range_ok L s r HL Hr) as [[-> _]|(s' & -> & ?)]; [by left|done].
Qed.

Lemma get_variable_ok L s : listed L s -> wp (get_variable_ranges rdmsr addr_size)
  (fun _ s' => listed (L ++ omap variable_range (seqZ 0 (field_get vcnt (rdmsr ia32_mtrrcap)))) s') (fun e _ => bad e) s.
Proof using Hsize.
  intros HL. unfold get_variable_ranges. generalize (seqZ 0 (field_get vcnt (rdmsr ia32_mtrrcap))). intros l.
  revert L s HL. induction l as [|k l IH]; intros L s HL; cbn [for_each].
  { apply wp_ret. by rewrite app_nil_r. }
  apply wp_bind. cbn [omap list_omap]. pose proof (variable_fine k) as Hf. unfold variable_range at 1. unfold variable_range in Hf.
  cbv zeta in *. destruct (is_disabled _ _).
  - apply wp_ret. by apply IH.
  - unfold add_variable. eapply wp_mono; [apply add_ok; [done|by apply Hf]| |done]. intros [] s' HL'. cbv beta in HL'.
    eapply wp_mono; [by apply IH| |done]. intros [] s2. cbv beta. by rewrite <- app_assoc.
Qed.

(** The default range covers all of memory. *)
Lemma described_cover x : covered described x <-> 0 <= x < invalid.
Proof using Hsize.
  assert (forall r, r ∈ described -> fine r) as Hf.
  { unfold described. destruct (is_disabled _ _).
    - intros r Hr. apply list_elem_of_singleton in Hr as ->. apply all_fine.
    - intros r. rewrite !elem_of_app, !list_elem_of_singleton. intros [->|[Hr| ->]].
      + split; unfold r_end; cbn; unfold invalid; lia.
      + apply list_elem_of_omap in Hr as (k & _ & Hk). by eapply variable_fine.
      + apply all_fine. }
  split.
  - intros (r & Hr & Hx). destruct (Hf r Hr). lia.
  - intros Hx. unfold covered, described. destruct (is_disabled _ _).
    + exists (Range write_back 0 invalid). split; [by left|]. unfold r_end. cbn [r_base r_size]. lia.
    + eexists. split; [apply elem_of_app; right; apply elem_of_app; right; by left|]. unfold r_end. cbn [r_base r_size]. lia.
Qed.

Lemma read_ranges_ok : wp (read_ranges rdmsr addr_size)
  (fun _ s => exists L, listed L s /\ L <> [] /\ in_order L /\ cut described L) (fun e _ => bad e) no_mtrrs.
Proof using Hsize.
  unfold read_ranges, described. destruct (is_disabled _ _).
  { eapply wp_mono; [apply add_ok; [apply listed_none|apply all_fine]| |done]. intros [] s HL. cbv beta in HL.
    eexists. split; [exact HL|]. split; [done|]. split; [by intros [|i] r1 r2|apply cut_refl]. }
  unfold get_fixed_ranges. apply wp_bind. eapply wp_mono; [apply add_ok; [apply listed_none|]| |done].
  { split; unfold r_end; cbn; unfold invalid; lia. }
  intros [] s1 HL1. cbv beta in HL1. apply wp_bind. eapply wp_mono; [by apply get_variable_ok| |done].
  intros [] s2 HL2. cbv beta in HL2. apply wp_bind. eapply wp_mono; [apply settle_ok; by apply listed_settling| |done].
  intros [] s3 (L & HL3 & Hc & Hn & _). apply wp_bind. eapply wp_mono; [apply add_ok; [exact HL3|apply all_fine]| |done].
  intros [] s4 HL4. cbv beta in HL4. eapply wp_mono; [apply settle_ok, (listed_settling _ _ HL4); by destruct L| |done].
  intros [] s5 (L' & HL5 & Hc' & Hn' & Ho). exists L'. split_and!; try done.
  rewrite app_assoc. eapply cut_trans; [|exact Hc']. by apply cut_app.
Qed.

(** C17: The constructor of the memory type ranges returns: its loops end.  What
    it leaves is a partition of the addresses from 0 to 2^64 - 1 into ranges of
    at least a page, in order and without gaps, each of them a part of a range
    the registers describe and of that range's type; or, where the registers
    describe overlapping ranges it cannot separate or too many, no range at
    all. *)
Theorem mtrrs_partition : exists s, mtrrs_new rdmsr addr_size = Ok tt s /\
  ((tiles (ranges s) 0 invalid /\ forall r, r ∈ ranges s -> exists r0, r0 ∈ described /\ inside r r0) \/
   (s = no_mtrrs /\ exists e s', read_ranges rdmsr addr_size no_mtrrs = Err e s' /\ bad e)).
Proof using Hsize.
  pose proof read_ranges_ok as Hr. unfold wp in Hr. unfold mtrrs_new, catch.
  destruct (read_ranges rdmsr addr_size no_mtrrs) as [[] s|e s].
  2: { exists no_mtrrs. split; [done|]. right. split; [done|]. by exists e, s. }
  destruct Hr as (L & HL & Hn & Ho & Hc & Hi). exists s. split; [done|]. left. rewrite (listed_ranges L s HL). split; [|done].
  pose proof (li_fine _ _ HL) as Hf. apply order_tiles; [done|by apply in_order_strong|done|].
  intros x. rewrite Hc. by apply described_cover.
Qed.
End Registers.
End Proofs.

(** ** A machine *)

(** An instance of the library's sort. *)
#[export] Instance before_dec : RelDecision before.
Proof. intros a b. unfold before. apply _. Defined.
#[export] Instance before_trans : Transitive before.
Proof.
  intros a b c. unfold before, compare. destruct (Z.eqb_spec (r_base b) (r_base a)), (Z.eqb_spec (r_base c) (r_base b)),
    (Z.eqb_spec (r_base c) (r_base a)); lia.
Qed.
#[export] Instance before_total : Total before.
Proof.
  intros a b. unfold before, compare. destruct (Z.eqb_spec (r_base b) (r_base a)), (Z.eqb_spec (r_base a) (r_base b)); lia.
Qed.
#[export, refine] Instance merge_sorting : Sort := { std_sort := merge_sort before }.
Proof.
  - apply merge_sort_Permutation.
  - apply (StronglySorted_merge_sort before).
Defined.

(** 36 address bits; write-back memory up to 1 GB with an uncacheable window of
    256 MB at its end, uncacheable elsewhere. *)
Definition sample_msr (a : Z) : Z :=
  if a =? 0x2FF then 0xC00 else if a =? 0xFE then 2
  else if a =? 0x200 then 6 else if a =? 0x201 then 0xFC0000800
  else if a =? 0x202 then 0x30000000 else if a =? 0x203 then 0xFF0000800 else 0.

Lemma sample_ranges : ranges (out_state (mtrrs_new sample_msr 36)) =
  [Range uncacheable 0 0x100000; Range write_back 0x100000 0x2FF00000; Range uncacheable 0x30000000 0x10000000;
   Range uncacheable 0x40000000 0xFFFFFFFFBFFFFFFF].
Proof. vm_compute. reflexivity. Qed.

Lemma mtrrs_partition_witness : exists s, mtrrs_new sample_msr 36 = Ok tt s /\
  ((tiles (ranges s) 0 invalid /\ forall r, r ∈ ranges s -> exists r0, r0 ∈ described sample_msr 36 /\ inside r r0) \/
   (s = no_mtrrs /\ exists e s', read_ranges sample_msr 36 no_mtrrs = Err e s' /\ bad e)).
Proof. apply (mtrrs_partition sample_msr 36). lia. Defined.
