(* ===== verification/EptHelpers.v ===== *)
(** * Identity maps

    Models [extended_apis/bfvmm/include/hve/arch/intel_x64/ept/helpers.h]: maps,
    unmaps and releases of address ranges in an EPT map, the conversion of a
    map's granularity, and the map of all of memory by memory type. *)
From S2P Require Import Prelude Bits EptEntry PageSource EptMmap Mtrrs.
Open Scope Z_scope.

(** [for (auto gpa = saddr; gpa < eaddr; gpa += step)], for bounds that are
    multiples of [step]. *)
Definition pages_of (saddr eaddr step : Z) : list Z :=
  (fun k => saddr + step * k) <$> seqZ 0 ((eaddr - saddr) / step).

(** The [while (!range->contains(saddr)) range++;] of [identity_map]: the
    ranges from the one that is found on. *)
Fixpoint next_range (l : list range_t) (addr : Z) : option (list range_t) :=
  match l with
  | [] => None
  | r :: l' => if contains r addr then Some l else next_range l' addr
  end.

Section Helpers.
Context {A : Type} `{PageSource A}.
Local Open Scope vmm_scope.

(** [expects(bfn::lower(saddr, from) == 0)] on both bounds. *)
Definition expects_aligned (saddr eaddr from : Z) : M (mmap A) unit :=
  expects (lower saddr from =? 0) ;;; expects (lower eaddr from =? 0).

Definition identity_map_1g (saddr eaddr : Z) (attr : attr_type) (cache : memory_type) : M (mmap A) unit :=
  expects_aligned saddr eaddr pdpt.from ;;;
  for_each (pages_of saddr eaddr pdpt.page_size) (fun gpa => map_1g gpa gpa attr cache ;;; ret tt).

Definition identity_map_2m (saddr eaddr : Z) (attr : attr_type) (cache : memory_type) : M (mmap A) unit :=
  expects_aligned saddr eaddr pd.from ;;;
  for_each (pages_of saddr eaddr pd.page_size) (fun gpa => map_2m gpa gpa attr cache ;;; ret tt).

Definition identity_map_4k (saddr eaddr : Z) (attr : attr_type) (cache : memory_type) : M (mmap A) unit :=
  expects_aligned saddr eaddr pt.from ;;;
  for_each (pages_of saddr eaddr pt.page_size) (fun gpa => map_4k gpa gpa attr cache ;;; ret tt).

Definition identity_unmap_1g (saddr eaddr : Z) : M (mmap A) unit :=
  expects_aligned saddr eaddr pdpt.from ;;; for_each (pages_of saddr eaddr pdpt.page_size) unmap.

Definition identity_unmap_2m (saddr eaddr : Z) : M (mmap A) unit :=
  expects_aligned saddr eaddr pd.from ;;; for_each (pages_of saddr eaddr pd.page_size) unmap.

Definition identity_unmap_4k (saddr eaddr : Z) : M (mmap A) unit :=
  expects_aligned saddr eaddr pt.from ;;; for_each (pages_of saddr eaddr pt.page_size) unmap.

Definition identity_release_1g (saddr eaddr : Z) : M (mmap A) unit :=
  expects_aligned saddr eaddr pdpt.from ;;; for_each (pages_of saddr eaddr pdpt.page_size) release.

Definition identity_release_2m (saddr eaddr : Z) : M (mmap A) unit :=
  expects_aligned saddr eaddr pd.from ;;; for_each (pages_of saddr eaddr pd.page_size) release.

Definition identity_release_4k (saddr eaddr : Z) : M (mmap A) unit :=
  expects_aligned saddr eaddr pt.from ;;; for_each (pages_of saddr eaddr pt.page_size) release.

Definition identity_map_convert_1g_to_2m (addr : Z) (attr : attr_type) (cache : memory_type) : M (mmap A) unit :=
  expects (lower addr pdpt.from =? 0) ;;;
  b <- is_1g addr ;; expects b ;;;
  unmap addr ;;;
  identity_map_2m addr (add64 addr pdpt.page_size) attr cache.

Definition identity_map_convert_1g_to_4k (addr : Z) (attr : attr_type) (cache : memory_type) : M (mmap A) unit :=
  expects (lower addr pdpt.from =? 0) ;;;
  b <- is_1g addr ;; expects b ;;;
  unmap addr ;;;
  identity_map_4k addr (add64 addr pdpt.page_size) attr cache.

Definition identity_map_convert_2m_to_1g (addr : Z) (attr : attr_type) (cache : memory_type) : M (mmap A) unit :=
  expects (lower addr pdpt.from =? 0) ;;;
  b <- is_2m addr ;; expects b ;;;
  identity_release_2m addr (add64 addr pdpt.page_size) ;;;
  map_1g addr addr attr cache ;;; ret tt.

Definition identity_map_convert_4k_to_1g (addr : Z) (attr : attr_type) (cache : memory_type) : M (mmap A) unit :=
  expects (lower addr pdpt.from =? 0) ;;;
  b <- is_4k addr ;; expects b ;;;
  identity_release_4k addr (add64 addr pdpt.page_size) ;;;
  map_1g addr addr attr cache ;;; ret tt.

Definition identity_map_convert_2m_to_4k (addr : Z) (attr : attr_type) (cache : memory_type) : M (mmap A) unit :=
  expects (lower addr pd.from =? 0) ;;;
  b <- is_2m addr ;; expects b ;;;
  unmap addr ;;;
  identity_map_4k addr (add64 addr pd.page_size) attr cache.

Definition identity_map_convert_4k_to_2m (addr : Z) (attr : attr_type) (cache : memory_type) : M (mmap A) unit :=
  expects (lower addr pd.from =? 0) ;;;
  b <- is_4k addr ;; expects b ;;;
  identity_release_4k addr (add64 addr pd.page_size) ;;;
  map_2m addr addr attr cache ;;; ret tt.

(** The loop of [identity_map]; [fuel] bounds the pages that are left.  The
    iterator may run off the array of ranges. *)
Fixpoint identity_loop (fuel : nat) (saddr eaddr : Z) (l : list range_t) (attr : attr_type) : M (mmap A) unit :=
  if saddr <? eaddr then
    match fuel with
    | O => throw diverges
    | S fuel' =>
      match next_range l saddr with
      | Some (range :: l') =>
        if (lower saddr pd.from =? 0) && (pd.page_size <=? Z.min (distance range saddr) (sub64 eaddr saddr)) then
          map_2m saddr saddr attr (r_type range) ;;;
          identity_loop fuel' (add64 saddr pd.page_size) eaddr (range :: l') attr
        else
          map_4k saddr saddr attr (r_type range) ;;;
          identity_loop fuel' (add64 saddr pt.page_size) eaddr (range :: l') attr
      | _ => throw segfault
      end
    end
  else ret tt.

Definition identity_map (m : mtrrs) (saddr eaddr : Z) (attr : attr_type) : M (mmap A) unit :=
  expects (negb (m_num m =? 0)) ;;;
  expects_aligned saddr eaddr pd.from ;;;
  identity_loop (Z.to_nat ((eaddr - saddr) / pt.page_size)) saddr eaddr (m_ranges m) attr.
End Helpers.
