(* ===== verification/EptHelpersProofs.v ===== *)
(** * Correctness of the identity maps

    A range of pages mapped, unmapped or released page by page, and the change
    of granularity of a 2 MB page, which keeps every translation. *)
From S2P Require Import Prelude Bits EptEntry Buddy PageSource MemMgr MemMgrProofs Malloc EptMmap EptTables EptProofs EptSpec.
From S2P Require Import Mtrrs MtrrsProofs EptHelpers.
Open Scope Z_scope.

(** The 48 bits of a guest address that a walk looks at. *)
Definition lin (va : Z) : Z := va mod 2 ^ 48.

Definition span (l : nat) : Z := 2 ^ (12 + 9 * Z.of_nat l).

Lemma span_cases l : (l <= 2)%nat -> span l = 0x1000 \/ span l = 0x200000 \/ span l = 0x40000000.
Proof. intros Hl. destruct l as [|[|[|l]]]; [left|right; left|right; right|lia]; done. Qed.

Lemma span_pages l a : (l <= 2)%nat -> a mod span l = 0 -> a mod 0x1000 = 0 /\ (a + span l) mod 0x1000 = 0.
Proof.
  intros Hl Hm. destruct (span_cases l Hl) as [E|[E|E]]; rewrite E in *;
    split; Z.to_euclidean_division_equations; lia.
Qed.

(** The addresses of a page. *)
Lemma same_page l a va : (l <= 2)%nat -> 0 <= a < 2 ^ 48 -> a mod span l = 0 ->
  same_entry l a va <-> a <= lin va < a + span l.
Proof.
  intros Hl Ha Hm. rewrite same_entry_page by lia. unfold page_number. fold (lin va) (lin a). fold (span l).
  assert (lin a = a) as -> by (by apply Z.mod_small).
  pose proof (Z.mod_pos_bound va (2 ^ 48) ltac:(lia)) as Hv. fold (lin va) in Hv.
  pose proof (span_cases l Hl) as Hs. assert (0 < span l) as Hpos by lia.
  pose proof (Z.div_mod a (span l) ltac:(lia)) as Ea. rewrite Hm, Z.add_0_r in Ea. split.
  - intros E. pose proof (Z.div_mod (lin va) (span l) ltac:(lia)) as Ev. rewrite <- E in Ev.
    pose proof (Z.mod_pos_bound (lin va) (span l) Hpos). lia.
  - intros Hr. apply (Z.div_unique (lin va) (span l) (a / span l) (lin va - a)); lia.
Qed.

(** The address of entry [j] of the page table of [a]. *)
Lemma entry_address a j : 0 <= a < 2 ^ 48 -> 0 <= j < 512 ->
  let va := a / 0x200000 * 0x200000 + j * 0x1000 in same_entry 1 a va /\ pt.index va = j.
Proof.
  intros Ha Hj va. assert (0 <= va < 2 ^ 48) as Hva by (unfold va; Z.to_euclidean_division_equations; lia).
  destruct (page_number_digits va) as (_ & _ & E1 & E0). rewrite <- E1 in E0. rewrite same_entry_page by lia.
  unfold page_number in *. rewrite !Z.mod_small in * by done. change (2 ^ (12 + 9 * Z.of_nat 1)) with 0x200000 in *.
  change (2 ^ (12 + 9 * Z.of_nat 0)) with 0x1000 in *. subst va. split; Z.to_euclidean_division_equations; lia.
Qed.

Section Proofs.
Context {A : Type} `{PageSourceLaws A}.
Context (pv : Z -> option Z) (root : Z) (others : gset Z).
Local Open Scope vmm_scope.
Implicit Types s : mmap A.
Notation walk := (walk pv root).
Notation ok := (mmap_ok pv root others).

(** The mapping of [s] with the addresses from [a] to [b] mapped as [f] says. *)
Definition over (a b : Z) (f : Z -> option (nat * Z)) s (va : Z) : option (nat * Z) :=
  if decide (a <= lin va < b) then f va else walk (heap s) va.

(** A run over the pages from [a] to [b]: all of them are done, or the memory
    manager runs out of pages after some of them. *)
Definition ranged (a b : Z) (f : Z -> option (nat * Z)) (o : outcome (mmap A) unit) s : Prop :=
  (exists s1 c, o = Err null_deref s1 /\ ok s1 /\ a <= c <= b /\ forall va, walk (heap s1) va = over a c f s va) \/
  exists s', o = Ok tt s' /\ ok s' /\ forall va, walk (heap s') va = over a b f s va.

(** What a page's addresses are mapped to when it is mapped to itself. *)
Definition identity (l : nat) (attr : attr_type) (mt : memory_type) (va : Z) : option (nat * Z) :=
  let e := leaf_entry l (lin va / span l * span l) attr mt in if e =? 0 then None else Some (l, e).

Lemma page_addr_aligned a : 0 <= a < 2 ^ 48 -> a mod 0x1000 = 0 -> page_addr a.
Proof. intros Ha Hm. split; [done|]. rewrite lower12_lower, lower_mod by lia. done. Qed.

Lemma page_base l a va : (l <= 2)%nat -> a mod span l = 0 -> a <= lin va < a + span l -> lin va / span l * span l = a.
Proof.
  intros Hl Hm Hr. pose proof (span_cases l Hl). pose proof (Z.div_mod a (span l) ltac:(lia)) as Ea.
  rewrite <- (Z.div_unique (lin va) (span l) (a / span l) (lin va - a)); lia.
Qed.

(** The loop over the pages, one page done by [body]. *)
Lemma page_loop (body : Z -> M (mmap A) unit) f a d s : 0 <= a -> a mod 0x1000 = 0 -> a + 0x1000 * Z.of_nat d <= 2 ^ 48 ->
  ok s ->
  (forall p s1, ok s1 -> a <= p < a + 0x1000 * Z.of_nat d -> p mod 0x1000 = 0 ->
     (forall va, walk (heap s1) va = over a p f s va) -> ranged p (p + 0x1000) f (body p s1) s1) ->
  forall k s1, (k <= d)%nat -> ok s1 -> (forall va, walk (heap s1) va = over a (a + 0x1000 * Z.of_nat k) f s va) ->
  ranged a (a + 0x1000 * Z.of_nat d) f
    (for_each ((fun k => a + 0x1000 * k) <$> seqZ (Z.of_nat k) (Z.of_nat (d - k))) body s1) s.
Proof.
  intros Ha Hm Hb Hok Hbody k. remember (d - k)%nat as n eqn:En. revert k En. induction n as [|n IH]; intros k En s1 Hk Hok1 Hw.
  - right. exists s1. replace k with d in Hw by lia. done.
  - rewrite seqZ_cons by lia. cbn [fmap list_fmap for_each]. set (p := a + 0x1000 * Z.of_nat k) in *.
    assert (p mod 0x1000 = 0) as Hp by (unfold p; rewrite Z.mul_comm, Z.mod_add; [done|lia]).
    destruct (Hbody p s1 Hok1) as [(s2 & c & E & Hok2 & Hc & Hw2)|(s2 & E & Hok2 & Hw2)];
      [unfold p; lia|done|done| |].
    + left. exists s2, c. unfold bind. rewrite E. split_and!; [done|done|unfold p in *; lia|unfold p in *; lia|].
      intros va. rewrite Hw2. unfold over in *. rewrite Hw. repeat case_decide; done || lia.
    + erewrite bind_ok by exact E. replace (Z.succ (Z.of_nat k)) with (Z.of_nat (S k)) by lia.
      replace (Z.pred (Z.of_nat (S n))) with (Z.of_nat n) by lia. apply (IH (S k)); [lia|lia|done|].
      intros va. rewrite Hw2. replace (a + 0x1000 * Z.of_nat (S k)) with (p + 0x1000) by (unfold p; lia).
      unfold over in *. rewrite Hw. repeat case_decide; done || lia.
Qed.

(** Both loops over a range of pages, from the start. *)
Lemma page_range (body : Z -> M (mmap A) unit) f a b s : 0 <= a <= b -> a mod 0x1000 = 0 -> b mod 0x1000 = 0 -> b <= 2 ^ 48 ->
  ok s ->
  (forall p s1, ok s1 -> a <= p < b -> p mod 0x1000 = 0 ->
     (forall va, walk (heap s1) va = over a p f s va) -> ranged p (p + 0x1000) f (body p s1) s1) ->
  ranged a b f ((expects_aligned a b 12 ;;; for_each (pages_of a b 0x1000) body) s) s.
Proof.
  intros Ha Hma Hmb Hb Hok Hbody. unfold expects_aligned. rewrite !lower_mod by lia.
  change (2 ^ 12) with 0x1000. rewrite Hma, Hmb. change (0 =? 0) with true. unfold expects. cbv iota.
  rewrite bind_assoc. erewrite bind_ok by done. erewrite bind_ok by done.
  pose proof (Z.div_mod (b - a) 0x1000 ltac:(lia)) as Ed.
  rewrite Zminus_mod, Hma, Hmb in Ed. change ((0 - 0) mod 0x1000) with 0 in Ed. rewrite Z.add_0_r in Ed.
  assert (0 <= (b - a) / 0x1000) by (apply Z.div_pos; lia).
  set (d := Z.to_nat ((b - a) / 0x1000)). assert (a + 0x1000 * Z.of_nat d = b) as Eb by (unfold d; lia).
  unfold pages_of. replace ((b - a) / 0x1000) with (Z.of_nat (d - 0)) by (unfold d; lia). change 0 with (Z.of_nat 0) at 1.
  rewrite <- Eb. apply (page_loop body f a d s) with (k := 0%nat); try done; [lia|lia| |lia|].
  - intros p s1. rewrite Eb. apply Hbody.
  - intros va. unfold over. rewrite decide_False by lia. done.
Qed.

(** No table hangs below the lowest level. *)
Lemma taken_4k va s : ok s -> taken_at pv root 0 va s -> exists e, walk (heap s) va = Some (0%nat, e).
Proof.
  intros Hok [?|[v Hv]]; [done|]. apply tbl_depth in Hv. rewrite length_path in Hv. lia.
Qed.

(** One page that nothing maps, mapped to itself. *)
Lemma map_4k_page p attr mt s : ok s -> 0 <= p < 2 ^ 48 -> p mod 0x1000 = 0 -> walk (heap s) p = None ->
  ranged p (p + 0x1000) (identity 0 attr mt) ((map_4k p p attr mt ;;; ret tt) s) s.
Proof.
  intros Hok Hp Hm Hn.
  destruct (map_4k_spec pv root others p p attr mt s Hok) as [Ho|[(s' & what & _ & Hs & Ht)|(s' & v & E & Hok' & _ & _ & _ & Hw)]].
  - intros l e. by rewrite Hn.
  - destruct (bind_oom pv root others _ (fun _ => ret tt) s s Ho) as (s1 & E & _ & Hs).
    left. exists s1, p. split_and!; [done|apply Hs|lia|lia|]. intros va. rewrite (sm_walk _ _ _ _ _ Hs).
    unfold over. by rewrite decide_False by lia.
  - apply taken_4k in Ht as [e Ht]; [|done]. by rewrite Hn in Ht.
  - right. exists s'. erewrite bind_ok by exact E. split_and!; [done|done|]. intros va. rewrite Hw. unfold over, identity.
    pose proof (same_page 0 p va ltac:(lia) Hp Hm) as Hsp. change (span 0) with 0x1000 in *.
    destruct (decide (p <= lin va < p + 0x1000)) as [Hr|Hr]; [|by rewrite decide_False by tauto].
    rewrite decide_True by tauto. pose proof (page_base 0 p va ltac:(lia) Hm Hr) as Hb.
    change (span 0) with 0x1000 in Hb. by rewrite Hb.
Qed.

(** A range that nothing maps, mapped to itself page by page. *)
Lemma identity_map_4k_spec a b attr mt s : ok s -> 0 <= a <= b -> b <= 2 ^ 48 -> a mod 0x1000 = 0 -> b mod 0x1000 = 0 ->
  (forall va, a <= lin va < b -> walk (heap s) va = None) ->
  ranged a b (identity 0 attr mt) (identity_map_4k a b attr mt s) s.
Proof.
  intros Hok Ha Hb Hma Hmb Hn. apply page_range; try done.
  intros p s1 Hok1 Hp Hmp Hw. apply map_4k_page; [done|lia|done|]. rewrite Hw. unfold over.
  assert (lin p = p) as Hlp by (apply Z.mod_small; lia). rewrite decide_False by lia. apply Hn. lia.
Qed.

(** What a conversion of the addresses of the page of level [l] at [a] to pages
    of level [l'] leaves: the addresses mapped to themselves by such pages, or,
    where the memory manager runs out of pages, a part of them; and every other
    address as it was. *)
Definition converted (l l' : nat) (a : Z) (attr : attr_type) (mt : memory_type) (o : outcome (mmap A) unit) s : Prop :=
  (exists s1, o = Err null_deref s1 /\ ok s1 /\ forall va, ~ a <= lin va < a + span l -> walk (heap s1) va = walk (heap s) va) \/
  exists s', o = Ok tt s' /\ ok s' /\ forall va, walk (heap s') va = over a (a + span l) (identity l' attr mt) s va.

(** The steps that [identity_map_convert_1g_to_4k] and
    [identity_map_convert_2m_to_4k] share. *)
Definition convert_4k (l : nat) (addr : Z) (attr : attr_type) (mt : memory_type) : M (mmap A) unit :=
  expects (lower addr (12 + 9 * Z.of_nat l) =? 0) ;;;
  b <- (f <- from addr ;; ret (f =? 12 + 9 * Z.of_nat l)) ;; expects b ;;;
  unmap addr ;;;
  identity_map_4k addr (add64 addr (span l)) attr mt.

Lemma oom_converted l l' a attr mt o s : oom pv root others o s -> converted l l' a attr mt o s.
Proof. intros (s1 & -> & _ & []). left. exists s1. split_and!; eauto. Qed.

Lemma convert_4k_spec l a e attr mt s : (1 <= l <= 2)%nat -> ok s -> 0 <= a -> a + span l <= 2 ^ 48 -> a mod span l = 0 ->
  walk (heap s) a = Some (l, e) -> converted l 0 a attr mt (convert_4k l a attr mt s) s.
Proof.
  intros Hl Hok Ha Hb Hm Hw. pose proof (span_cases l ltac:(lia)) as Hsp.
  unfold convert_4k. rewrite lower_mod by lia. fold (span l). rewrite Hm. unfold expects. cbn [Z.eqb]. erewrite bind_ok by done.
  rewrite !bind_assoc.
  destruct (proj2 (proj2 (lookup_spec pv root others a s Hok))) as [Ho|(s1 & Hs1 & Hf)]; [by apply oom_converted, bind_oom|].
  rewrite Hw in Hf. erewrite bind_ok by exact Hf. erewrite bind_ok by done. rewrite Z.eqb_refl. erewrite bind_ok by done.
  destruct (unmap_spec pv root others a s1 (sm_ok _ _ _ _ _ Hs1)) as [Ho|(s2 & E & Hok2 & Hw2)].
  { eapply oom_converted, bind_oom, (oom_trans pv root others _ s s1); done. }
  erewrite bind_ok by exact E. unfold add64, w64. rewrite Z.mod_small by lia.
  assert (forall va, walk (heap s2) va = over a (a + span l) (fun _ => None) s va) as Hw2'.
  { intros va. rewrite Hw2, (unmapped_same pv root others s s1) by exact Hs1. unfold unmapped, over. rewrite Hw.
    pose proof (same_page l a va ltac:(lia) ltac:(lia) Hm). repeat case_decide; tauto || done. }
  assert (a mod 0x1000 = 0 /\ (a + span l) mod 0x1000 = 0) as [Hma Hmb] by (by apply span_pages; [lia|]).
  destruct (identity_map_4k_spec a (a + span l) attr mt s2) as [(s3 & c & E3 & Hok3 & Hc & Hw3)|(s3 & E3 & Hok3 & Hw3)];
    [done|lia|done|done|done| |left|right]; [|exists s3; split_and!; [done|done|]..].
  - intros va Hr. rewrite Hw2'. unfold over. by rewrite decide_True.
  - intros va Hr. rewrite Hw3. unfold over. rewrite decide_False by lia. rewrite Hw2'. unfold over. by rewrite decide_False.
  - intros va. rewrite Hw3. unfold over. case_decide; [done|]. rewrite Hw2'. unfold over. by rewrite decide_False.
Qed.

(** Addresses of one 4 KB page have one walk. *)
Lemma walk_same_page h va va' : same_entry 0 va va' -> walk h va' = walk h va.
Proof.
  unfold same_entry. cbn [Nat.sub path]. intros [= E0 E1 E2 E3].
  unfold EptTables.walk. cbn [walk_at level_index] in *. rewrite E0, E1, E2, E3. done.
Qed.

(** One page released that a 4 KB page maps, or nothing. *)
Lemma release_page p s : ok s -> 0 <= p < 2 ^ 48 -> p mod 0x1000 = 0 -> fits pv root 0 p s ->
  oom pv root others (release p s) s \/
  exists s', release p s = Ok tt s' /\ ok s' /\ (forall va, walk (heap s') va = over p (p + 0x1000) (fun _ => None) s va) /\
    forall n v, (1 <= n)%nat -> tbl pv root (heap s') (path p n) = Some v -> ~ empty_table s' v.
Proof.
  intros Hok Hp Hm Hf. destruct (release_spec pv root others p s Hok) as [?|(s' & ? & ? & Hw & ?)]; [by left|right].
  exists s'. split_and!; try done. intros va. rewrite Hw. unfold unmapped, over.
  pose proof (same_page 0 p va ltac:(lia) Hp Hm) as Hsp. change (span 0) with 0x1000 in Hsp.
  destruct (EptTables.walk pv root (heap s) p) as [[l e]|] eqn:E.
  - apply Hf in E. assert (l = 0%nat) as -> by lia. repeat case_decide; tauto || done.
  - case_decide; [|done]. rewrite <- E. apply walk_same_page. tauto.
Qed.

Lemma release_ranged p s : ok s -> 0 <= p < 2 ^ 48 -> p mod 0x1000 = 0 -> fits pv root 0 p s ->
  ranged p (p + 0x1000) (fun _ => None) (release p s) s.
Proof.
  intros Hok Hp Hm Hf. destruct (release_page p s Hok Hp Hm Hf) as [(s1 & E & _ & Hs)|(s' & ? & ? & ? & _)].
  - left. exists s1, p. split_and!; [done|apply Hs|lia|lia|]. intros va. unfold over. rewrite decide_False by lia. apply Hs.
  - right. by exists s'.
Qed.

(** A page table's addresses are mapped by 4 KB pages, if at all. *)
Lemma table_fits a va e s : ok s -> walk (heap s) a = Some (0%nat, e) -> same_entry 1 a va -> fits pv root 0 va s.
Proof.
  intros Hok Hw Hs l' e' Hw'. destruct (walk_found pv root (heap s) a 0 e Hw) as (v & Hv & _).
  assert (tbl pv root (heap s) (path va 3) = Some v) as Hva by (rewrite <- Hv; f_equal; exact Hs).
  rewrite (walk_down pv root (heap s) va 3 v ltac:(lia) Hva) in Hw'. apply walk_at_level in Hw'. lia.
Qed.

(** An empty table is not there any more where no address it serves is mapped
    and no empty table is left. *)
Lemma table_gone a s : ok s -> 0 <= a < 2 ^ 48 ->
  (forall v, tbl pv root (heap s) (path a 3) = Some v -> ~ empty_table s v) ->
  (forall va, same_entry 1 a va -> walk (heap s) va = None) -> tbl pv root (heap s) (path a 3) = None.
Proof.
  intros Hok Ha Hne Hn. destruct (EptTables.tbl pv root (heap s) (path a 3)) as [v|] eqn:Hv; [|done].
  destruct (Hne v eq_refl). intros j e He. destruct (decide (e = 0)) as [|Hnz]; [done|].
  destruct (t_page _ _ _ (mo_tables _ _ _ _ Hok) _ _ Hv) as (t & Hh & Hl & _).
  assert (0 <= j < 512) as Hj.
  { unfold entry_at in He. destruct (Z.leb_spec 0 j); [|done]. rewrite Hh in He. apply lookup_lt_Some in He. lia. }
  destruct (entry_address a j Ha Hj) as [Hs Hi]. specialize (Hn _ Hs).
  rewrite (walk_entry pv root (heap s) _ 3 v e) in Hn; [by replace (e =? 0) with false in Hn by lia|lia| | |by right].
  - rewrite <- Hv. f_equal. exact Hs.
  - cbn [Nat.sub level_index]. by rewrite Hi.
Qed.


Lemma fits_over a p s s1 : 0 <= p < 2 ^ 48 -> (forall va, walk (heap s1) va = over a p (fun _ => None) s va) ->
  fits pv root 0 p s -> fits pv root 0 p s1.
Proof.
  intros Hp Hw Hf l e. rewrite Hw. unfold over. rewrite decide_False; [apply Hf|].
  unfold lin. rewrite Z.mod_small by done. lia.
Qed.

(** The 4 KB pages of a 2 MB page released: its page table goes with them. *)
Lemma release_2m_spec a e s : ok s -> 0 <= a -> a + 0x200000 <= 2 ^ 48 -> a mod 0x200000 = 0 ->
  walk (heap s) a = Some (0%nat, e) ->
  (exists s1, identity_release_4k a (a + 0x200000) s = Err null_deref s1 /\ ok s1 /\
     forall va, ~ a <= lin va < a + 0x200000 -> walk (heap s1) va = walk (heap s) va) \/
  exists s', identity_release_4k a (a + 0x200000) s = Ok tt s' /\ ok s' /\
    (forall va, walk (heap s') va = over a (a + 0x200000) (fun _ => None) s va) /\
    tbl pv root (heap s') (path a 3) = None.
Proof.
  intros Hok Ha Hb Hm Hw. destruct (span_pages 1 a ltac:(lia) Hm) as [Hma Hmb]. change (span 1) with 0x200000 in Hmb.
  assert (forall p, a <= p < a + 0x200000 -> fits pv root 0 p s) as Hfit.
  { intros p Hp. apply (table_fits a p e); [done|done|]. apply (same_page 1); [lia|lia|done|].
    unfold lin. rewrite Z.mod_small by lia. done. }
  unfold identity_release_4k, expects_aligned. change pt.from with 12. change pt.page_size with 0x1000.
  rewrite !lower_mod by lia. change (2 ^ 12) with 0x1000. rewrite Hma, Hmb. change (0 =? 0) with true. unfold expects. cbv iota.
  rewrite bind_assoc. erewrite bind_ok by done. erewrite bind_ok by done.
  unfold pages_of. replace (a + 0x200000 - a) with 0x200000 by lia. change (0x200000 / 0x1000) with (511 + 1).
  rewrite seqZ_app by lia. rewrite fmap_app, for_each_app. change (seqZ (0 + 511) 1) with [511]. cbn [fmap list_fmap for_each].
  set (q := a + 0x1000 * 511).
  destruct (page_loop release (fun _ => None) a 511 s) with (k := 0%nat) (s1 := s)
    as [(s1 & c & E & Hok1 & Hc & Hw1)|(s1 & E & Hok1 & Hw1)]; try done; try lia.
  { intros p s1 Hok1 Hp Hmp Hw1. apply release_ranged; [done|lia|done|]. apply (fits_over a p s); [lia|done|apply Hfit; lia]. }
  { intros va. unfold over. by rewrite decide_False by lia. }
  all: change (Z.of_nat 511) with 511 in *; change (Z.of_nat (511 - 0)) with 511 in E; change (Z.of_nat 0) with 0 in E.
  { left. exists s1. unfold bind. rewrite E. split_and!; [done|done|]. intros va Hv. rewrite Hw1. unfold over. by rewrite decide_False by lia. }
  fold q in Hw1. erewrite bind_ok by exact E. assert (q mod 0x1000 = 0) as Hq by (unfold q; Z.to_euclidean_division_equations; lia).
  destruct (release_page q s1 Hok1 ltac:(unfold q; lia) Hq) as [Ho|(s2 & E2 & Hok2 & Hw2 & Htr)].
  - apply (fits_over a q s); [unfold q; lia|done|apply Hfit; unfold q; lia].
  - apply (bind_oom pv root others _ (fun _ => ret tt)) in Ho as (s2 & E2 & _ & Hs). left. exists s2.
    split_and!; [done|apply Hs|]. intros va Hv. rewrite (sm_walk _ _ _ _ _ Hs), Hw1. unfold over. by rewrite decide_False by (unfold q; lia).
  - right. exists s2. erewrite bind_ok by exact E2.
    assert (forall va, walk (heap s2) va = over a (a + 0x200000) (fun _ => None) s va) as Hw3.
    { intros va. rewrite Hw2. unfold over in *. rewrite Hw1. unfold q. repeat case_decide; done || lia. }
    split_and!; [done|done|done|]. apply table_gone; [done|lia| |].
    + intros v Hv. apply (Htr 3%nat); [lia|]. rewrite <- Hv. f_equal.
      apply (same_page 1 a q); [lia|lia|done|]. unfold lin. rewrite Z.mod_small by (unfold q; lia).
      change (span 1) with 0x200000. unfold q. lia.
    + intros va Hva. rewrite Hw3. unfold over. apply (same_page 1) in Hva; [|lia|lia|done]. change (span 1) with 0x200000 in Hva.
      by rewrite decide_True.
Qed.

Lemma convert_4k_to_2m_spec a e attr mt s : ok s -> 0 <= a -> a + 0x200000 <= 2 ^ 48 -> a mod 0x200000 = 0 ->
  walk (heap s) a = Some (0%nat, e) -> converted 1 1 a attr mt (identity_map_convert_4k_to_2m a attr mt s) s.
Proof.
  intros Hok Ha Hb Hm Hw. unfold identity_map_convert_4k_to_2m, is_4k. change pd.from with 21. change pd.page_size with 0x200000.
  rewrite lower_mod by lia. change (2 ^ 21) with 0x200000. rewrite Hm. unfold expects. cbn [Z.eqb]. erewrite bind_ok by done.
  rewrite !bind_assoc.
  destruct (proj2 (proj2 (lookup_spec pv root others a s Hok))) as [Ho|(s1 & Hs1 & Hf)]; [by apply oom_converted, bind_oom|].
  rewrite Hw in Hf. erewrite bind_ok by exact Hf. erewrite bind_ok by done. change (12 + _ =? pt.from) with true. erewrite bind_ok by done.
  unfold add64, w64. rewrite Z.mod_small by lia. rewrite <- (sm_walk _ _ _ _ _ Hs1) in Hw. unfold converted, span.
  change (2 ^ (12 + 9 * Z.of_nat 1)) with 0x200000.
  destruct (release_2m_spec a e s1 (sm_ok _ _ _ _ _ Hs1) Ha Hb Hm Hw) as [(s2 & E & Hok2 & Hw2)|(s2 & E & Hok2 & Hw2 & Hn)].
  { left. exists s2. unfold bind. rewrite E. split_and!; [done|done|]. intros va Hv. rewrite Hw2 by done. apply Hs1. }
  erewrite bind_ok by exact E.
  assert (forall va, walk (heap s2) va = over a (a + 0x200000) (fun _ => None) s va) as Hw2'.
  { intros va. rewrite Hw2. unfold over. by rewrite (sm_walk _ _ _ _ _ Hs1). }
  assert (walk (heap s2) a = None) as Han.
  { rewrite Hw2'. unfold over, lin. rewrite Z.mod_small by lia. by rewrite decide_True by lia. }
  destruct (map_2m_spec pv root others a a attr mt s2 Hok2) as [Ho|[(s3 & what & _ & _ & Ht)|(s3 & v & E3 & Hok3 & _ & _ & _ & Hw3)]].
  - intros l e'. by rewrite Han.
  - apply (bind_oom pv root others _ (fun _ => ret tt)) in Ho as (s3 & E3 & _ & Hs). left. exists s3.
    split_and!; [done|apply Hs|]. intros va Hv. rewrite (sm_walk _ _ _ _ _ Hs), Hw2'. unfold over. by rewrite decide_False.
  - destruct Ht as [[e' Ht]|[v Hv]]; [by rewrite Han in Ht|]. change (4 - 1)%nat with 3%nat in Hv. by rewrite Hn in Hv.
  - right. exists s3. erewrite bind_ok by exact E3. split_and!; [done|done|]. intros va. rewrite Hw3. unfold over, identity.
    pose proof (same_page 1 a va ltac:(lia) ltac:(lia) Hm) as Hsp. change (span 1) with 0x200000 in *.
    destruct (decide (a <= lin va < a + 0x200000)) as [Hr|Hr].
    + rewrite decide_True by tauto. pose proof (page_base 1 a va ltac:(lia) Hm Hr) as Hst. change (span 1) with 0x200000 in Hst. by rewrite Hst.
    + rewrite decide_False by tauto. rewrite Hw2'. unfold over. by rewrite decide_False.
Qed.

(** C16: [identity_map_convert_2m_to_4k] and [identity_map_convert_1g_to_4k] on
    the address of a mapped page of that size leave each of its addresses
    mapped to itself by a 4 KB page with the permissions and the memory type
    asked for; [identity_map_convert_4k_to_2m] on an address mapped by a 4 KB
    page leaves the 2 MB from it mapped to themselves by a 2 MB page; every
    address outside the page stays as it was.  The one way to fail is that the
    memory manager has no page left, and then too no address outside the page
    changes. *)
Theorem convert_correct a e attr mt s : ok s -> 0 <= a ->
  (walk (heap s) a = Some (1%nat, e) -> a mod 0x200000 = 0 -> a + 0x200000 <= 2 ^ 48 ->
     converted 1 0 a attr mt (identity_map_convert_2m_to_4k a attr mt s) s) /\
  (walk (heap s) a = Some (2%nat, e) -> a mod 0x40000000 = 0 -> a + 0x40000000 <= 2 ^ 48 ->
     converted 2 0 a attr mt (identity_map_convert_1g_to_4k a attr mt s) s) /\
  (walk (heap s) a = Some (0%nat, e) -> a mod 0x200000 = 0 -> a + 0x200000 <= 2 ^ 48 ->
     converted 1 1 a attr mt (identity_map_convert_4k_to_2m a attr mt s) s).
Proof.
  intros Hok Ha. split_and!; intros Hw Hm Hb;
    [apply (convert_4k_spec 1 a e)|apply (convert_4k_spec 2 a e)|by apply (convert_4k_to_2m_spec a e)]; done || lia.
Qed.
End Proofs.

(** ** The map of memory by type *)

(** The search for the range of an address finds it in ranges without gaps. *)
Lemma next_range_found L rest x c : tiles L x invalid -> 0 <= x <= c -> c < invalid ->
  exists r L', next_range (L ++ rest) c = Some (r :: L' ++ rest) /\ tiles (r :: L') (r_base r) invalid /\
    0 <= r_base r <= c /\ c <= r_end r <= invalid /\ r :: L' ⊆ L.
Proof.
  revert x. induction L as [|r L IH]; intros x Ht Hx Hc; cbn [tiles] in Ht; [lia|].
  destruct Ht as (Hb & Hs & Ht). assert (r_end r <= invalid) as He.
  { clear -Ht. revert Ht. generalize (r_end r). induction L as [|r2 L IH]; intros y Hy; cbn [tiles] in Hy; [lia|].
    destruct Hy as (? & ? & Hy%IH). unfold r_end in Hy. lia. }
  cbn [app next_range]. unfold contains, add64, w64. fold (r_end r).
  rewrite Z.mod_small by (unfold r_end, invalid in *; lia).
  destruct (Z.leb_spec (r_base r) c), (Z.leb_spec c (r_end r)); cbn [andb]; try lia.
  - exists r, L. split_and!; [done|cbn [tiles]; by split_and!|lia|done|done|done|done].
  - destruct (IH (r_end r) Ht ltac:(unfold r_end in *; lia) Hc) as (r' & L' & E & ? & ? & ? & Hsub).
    exists r', L'. split_and!; try done; set_solver.
Qed.

Section Typed.
Context {A : Type} `{PageSourceLaws A}.
Context (pv : Z -> option Z) (root : Z) (others : gset Z).
Local Open Scope vmm_scope.
Implicit Types s : mmap A.
Notation walk := (walk pv root).
Notation tbl := (tbl pv root).
Notation ok := (mmap_ok pv root others).

(** The start of the page of level [l] that holds [va]. *)
Definition start (l : nat) (va : Z) : Z := lin va / span l * span l.

(** [va] is mapped to itself, by a 2 MB page that lies in a range of [L] of its
    memory type, or by a 4 KB page that starts in or at the end of one. *)
Definition mapped_by (L : list range_t) (attr : attr_type) s (va : Z) : Prop := exists l r,
  (l <= 1)%nat /\ r ∈ L /\ r_base r <= start l va /\
  start l va + (if l is O then 0 else span l) <= r_end r /\
  walk (heap s) va = identity l attr (r_type r) va.

(** [s1] is [s] with the addresses from [a] to [c] mapped. *)
Record typed (L : list range_t) (attr : attr_type) (a c : Z) s s1 : Prop := {
  ty_ok : ok s1;
  ty_in va : a <= lin va < c -> mapped_by L attr s1 va;
  ty_out va : ~ a <= lin va < c -> walk (heap s1) va = walk (heap s) va;
}.

(** No page table is in the way of a 2 MB page from [c] to [b]. *)
Definition free (c b : Z) s : Prop :=
  forall va, c <= start 1 va -> lin va < b -> tbl (heap s) (path va 3) = None.

Lemma lin_range va : 0 <= lin va < 2 ^ 48.
Proof. apply Z.mod_pos_bound. lia. Qed.

Lemma lin_small c : 0 <= c < 2 ^ 48 -> lin c = c.
Proof. apply Z.mod_small. Qed.

Lemma start_range l va : (l <= 2)%nat -> start l va <= lin va < start l va + span l.
Proof.
  intros Hl. unfold start. pose proof (span_cases l Hl). pose proof (Z.div_mod (lin va) (span l) ltac:(lia)).
  pose proof (Z.mod_pos_bound (lin va) (span l) ltac:(lia)). lia.
Qed.

(** Addresses of different 2 MB pages have different paths to their page
    tables. *)
Lemma path_differs c va n : 0 <= c < start 1 va -> c < 2 ^ 48 -> (n <= 3)%nat -> path va 3 <> path c n.
Proof.
  intros Hc Hc' Hn E. assert (n = 3%nat) as -> by (apply (f_equal length) in E; rewrite !length_path in E; lia).
  assert (same_entry 1 c va) as Hs by exact E. apply same_entry_page in Hs; [|lia].
  unfold page_number in Hs. fold (lin c) (lin va) in Hs. rewrite lin_small in Hs by lia.
  unfold start, span in Hc. change (12 + 9 * Z.of_nat 1) with 21 in *. rewrite <- Hs in Hc.
  pose proof (Z.mul_div_le c (2 ^ 21) ltac:(lia)). lia.
Qed.

(** One more page of level [l]. *)
Lemma reach_page L attr a b c r l s s1 s2 : (l <= 1)%nat -> 0 <= a <= c -> c + span l <= b -> b <= 2 ^ 48 ->
  c mod span l = 0 -> r ∈ L -> r_base r <= c -> c + (if l is O then 0 else span l) <= r_end r ->
  typed L attr a c s s1 -> free c b s1 -> ok s2 -> along pv root l c s1 s2 ->
  (forall va, walk (heap s2) va =
     if decide (same_entry l c va)
     then (if leaf_entry l c attr (r_type r) =? 0 then None else Some (l, leaf_entry l c attr (r_type r)))
     else walk (heap s1) va) ->
  typed L attr a (c + span l) s s2 /\ free (c + span l) b s2.
Proof.
  intros Hl Ha Hc Hb Hm Hr Hr1 Hr2 [Hok Hin Hout] Hfree Hok2 Hal Hw. pose proof (span_cases l ltac:(lia)) as Hsp.
  assert (forall va, same_entry l c va <-> c <= lin va < c + span l) as Hse by (intros va; apply same_page; lia).
  assert (forall va, ~ c <= lin va < c + span l -> walk (heap s2) va = walk (heap s1) va) as Hkeep.
  { intros va Hv. rewrite Hw, decide_False; [done|]. by rewrite Hse. }
  split; [split; [done| |]|].
  - intros va Hv. destruct (decide (c <= lin va < c + span l)) as [Hc1|Hc1].
    + pose proof (page_base l c va ltac:(lia) Hm Hc1) as Hst. exists l, r. unfold start. rewrite Hst.
      split_and!; try done. rewrite Hw, decide_True by (by apply Hse). unfold identity. by rewrite Hst.
    + destruct (Hin va) as (l' & r' & ? & ? & ? & ? & Hw'); [lia|]. exists l', r'. split_and!; try done.
      by rewrite Hkeep.
  - intros va Hv. rewrite Hkeep by lia. apply Hout. lia.
  - intros va Hv Hvb. rewrite Hal; [apply Hfree; lia|]. intros n Hn. destruct l as [|l].
    + apply path_differs; lia.
    + intros E. apply (f_equal length) in E. rewrite !length_path in E. lia.
Qed.

Lemma same_typed L attr a c s s1 s2 : typed L attr a c s s1 -> same_map pv root others s1 s2 -> typed L attr a c s s2.
Proof.
  intros [Hok Hin Hout] [Hok2 _ Hw]. split; [done| |intros va Hv; rewrite Hw; auto].
  intros va Hv. destruct (Hin va Hv) as (l & r & ? & ? & ? & ? & E). exists l, r. by rewrite Hw.
Qed.

(** The result of the loop: everything is mapped, or the memory manager runs
    out of pages on the way. *)
Definition identity_result (L : list range_t) (attr : attr_type) (a c b : Z) (o : outcome (mmap A) unit) s : Prop :=
  (exists s2 c', o = Err null_deref s2 /\ c <= c' <= b /\ typed L attr a c' s s2) \/
  exists s2, o = Ok tt s2 /\ typed L attr a b s s2.

Lemma identity_result_le L attr a c c1 b o s : c <= c1 -> identity_result L attr a c1 b o s -> identity_result L attr a c b o s.
Proof. intros Hc [(s2 & c' & ? & ? & ?)|?]; [left; exists s2, c'; split_and!; done || lia|by right]. Qed.

(** One step of the loop, then the rest of it. *)
Lemma identity_step L attr a b c r l (m : M (mmap A) eref) (k : M (mmap A) unit) s s1 :
  (l <= 1)%nat -> 0 <= a <= c -> c + span l <= b -> b <= 2 ^ 48 -> c mod span l = 0 ->
  r ∈ L -> r_base r <= c -> c + (if l is O then 0 else span l) <= r_end r ->
  (forall va, a <= lin va < b -> walk (heap s) va = None) ->
  typed L attr a c s s1 -> free c b s1 ->
  ((forall l' e, walk (heap s1) c = Some (l', e) -> (l' <= l)%nat) ->
     map_result pv root others l c c attr (r_type r) (m s1) s1) ->
  (forall s2, typed L attr a (c + span l) s s2 -> free (c + span l) b s2 ->
     identity_result L attr a (c + span l) b (k s2) s) ->
  identity_result L attr a c b ((m ;;; k) s1) s.
Proof.
  intros Hl Ha Hc Hb Hm Hr Hr1 Hr2 Hn Hty Hfree Hmap Hk. pose proof (span_cases l ltac:(lia)) as Hsp.
  assert (walk (heap s1) c = None) as Hcn.
  { rewrite (ty_out _ _ _ _ _ _ Hty); [apply Hn|]; rewrite lin_small by lia; lia. }
  destruct Hmap as [Ho|[(s2 & what & _ & _ & Ht)|(s2 & v & E & Hok2 & _ & _ & Hal & Hw)]].
  - intros l' e. by rewrite Hcn.
  - apply (bind_oom pv root others _ (fun _ => k)) in Ho as (s2 & E & _ & Hs). left. exists s2, c.
    split_and!; [done|lia|lia|]. by eapply same_typed.
  - destruct Ht as [[e Ht]|[v Hv]]; [by rewrite Hcn in Ht|]. destruct l as [|l].
    + apply tbl_depth in Hv. rewrite length_path in Hv. lia.
    + assert (l = 0%nat) as -> by lia. change (4 - 1)%nat with 3%nat in Hv. rewrite (Hfree c) in Hv; [done| |rewrite lin_small; lia].
      unfold start. rewrite lin_small by lia. pose proof (Z.div_mod c (span 1) ltac:(lia)). lia.
  - erewrite bind_ok by exact E. destruct (reach_page L attr a b c r l s s1 s2) as [Hty2 Hfr2]; try done.
    eapply identity_result_le; [|by apply Hk]. lia.
Qed.

Lemma sub64_small x y : 0 <= y <= x -> x < 2 ^ 64 -> sub64 x y = x - y.
Proof. intros. unfold sub64, w64. apply Z.mod_small. lia. Qed.

Lemma distance_in r c : 0 <= r_base r <= c -> c <= r_end r <= invalid -> distance r c = r_end r - c.
Proof.
  unfold r_end, invalid. intros. unfold distance. rewrite (sub64_small c) by lia. rewrite sub64_small by lia. lia.
Qed.

Lemma identity_loop_ok L rest attr a b s : 0 <= a -> b <= 2 ^ 48 -> b mod 0x200000 = 0 ->
  (forall va, a <= lin va < b -> walk (heap s) va = None) ->
  forall fuel c L1 x s1, (b - c) / 0x1000 <= Z.of_nat fuel -> a <= c <= b -> c mod 0x1000 = 0 ->
  tiles L1 x invalid -> 0 <= x <= c -> L1 ⊆ L -> typed L attr a c s s1 -> free c b s1 ->
  identity_result L attr a c b (identity_loop fuel c b (L1 ++ rest) attr s1) s.
Proof.
  intros Ha Hb Hbm Hn fuel. induction fuel as [|fuel IH]; intros c L1 x s1 Hf Hc Hcm Ht Hx Hsub Hty Hfr; cbn [identity_loop].
  all: destruct (Z.ltb_spec c b) as [Hlt|]; [|right; exists s1; by replace b with c by lia].
  { exfalso. Z.to_euclidean_division_equations. lia. }
  destruct (next_range_found L1 rest x c Ht Hx) as (r & L' & -> & Ht' & Hr & Hr2 & Hsub'); [unfold invalid; lia|].
  assert (r ∈ L) as HrL by set_solver.
  assert (c + 0x1000 <= b) by (Z.to_euclidean_division_equations; lia).
  assert (forall l, (l <= 1)%nat -> add64 c (span l) = c + span l) as Hadd.
  { intros l Hl. pose proof (span_cases l ltac:(lia)). unfold add64, w64. apply Z.mod_small. lia. }
  assert (forall l s2, (l <= 1)%nat -> c + span l <= b -> typed L attr a (c + span l) s s2 -> free (c + span l) b s2 ->
    identity_result L attr a (c + span l) b (identity_loop fuel (add64 c (span l)) b (r :: L' ++ rest) attr s2) s) as Hrec.
  { intros l s2 Hl Hcb Hty2 Hfr2. rewrite Hadd by lia. pose proof (span_cases l ltac:(lia)) as Hsp.
    assert ((c + span l) mod 0x1000 = 0 /\ (b - (c + span l)) / 0x1000 <= Z.of_nat fuel) as [? ?].
    { destruct Hsp as [E|[E|E]]; rewrite E in *; split; Z.to_euclidean_division_equations; lia. }
    apply (IH _ (r :: L') (r_base r)); try done; lia || set_solver. }
  destruct ((lower c pd.from =? 0) && _) eqn:E.
  - apply andb_true_iff in E as [E1 E2]. rewrite lower_mod in E1 by (done || cbn; lia). change (2 ^ pd.from) with (span 1) in E1.
    rewrite distance_in, sub64_small in E2 by (unfold invalid in *; lia). change pd.page_size with (span 1) in *.
    assert (c + span 1 <= b /\ c + span 1 <= r_end r) as [? ?] by lia.
    apply (identity_step L attr a b c r 1); try done; try lia; [|intros s2; by apply (Hrec 1%nat)].
    intros. by apply map_2m_spec; [apply Hty|..].
  - change pt.page_size with (span 0). assert (c + span 0 <= b) by done.
    apply (identity_step L attr a b c r 0); try done; try lia; [|intros s2; apply (Hrec 0%nat); done || lia].
    intros. by apply map_4k_spec; [apply Hty|..].
Qed.

(** C4: [identity_map] over memory whose types are a partition of the address
    space, on a map that holds nothing there, ends and leaves every address of
    the range mapped to itself with the permissions asked for, by a 2 MB page
    that lies in one of the ranges and has its type, or by a 4 KB page that
    starts in a range of its type or where that range ends; every other
    address is as it was.  The one way to fail is that the memory manager has
    no page left; the addresses up to some point are mapped then. *)
Theorem identity_map_correct m attr a b s : ok s -> tiles (ranges m) 0 invalid ->
  0 <= a <= b -> b <= 2 ^ 48 -> a mod 0x200000 = 0 -> b mod 0x200000 = 0 ->
  (forall va, a <= lin va < b -> walk (heap s) va = None) -> free a b s ->
  identity_result (ranges m) attr a a b (identity_map m a b attr s) s.
Proof.
  intros Hok Ht Ha Hb Hma Hmb Hn Hfr.
  assert (m_num m =? 0 = false) as En.
  { destruct (Z.eqb_spec (m_num m) 0) as [E|]; [|done]. unfold ranges in Ht. rewrite E in Ht. done. }
  unfold identity_map, expects_aligned, expects. rewrite En. cbn [negb]. erewrite bind_ok by done.
  change pd.from with 21. rewrite !lower_mod by lia. change (2 ^ 21) with 0x200000. rewrite Hma, Hmb. change (0 =? 0) with true.
  cbv iota. erewrite bind_ok by (by erewrite bind_ok by done).
  rewrite <- (take_drop (Z.to_nat (m_num m)) (m_ranges m)). fold (ranges m).
  assert (a mod 0x1000 = 0) by (by apply (span_pages 1) in Hma as [? _]; [|lia]).
  apply (identity_loop_ok (ranges m) _ attr a b s) with (x := 0); try done; try lia.
  - change pt.page_size with 0x1000. assert (0 <= (b - a) / 0x1000) by (apply Z.div_pos; lia). lia.
  - split; [done|lia|done].
Qed.
End Typed.

(** ** A concrete conversion *)

#[local] Instance small_source : PageSourceLaws pages := pages_laws 2 0x100000.

(** The second 2 MB of guest memory mapped to themselves. *)
Definition large_map : mmap pages := ept_run (Map2m 0x200000 0x200000 read_write write_back) small_map.

Lemma large_map_ok : mmap_ok (ps_virt small_pages) 0x100000 ∅ large_map.
Proof.
  apply ept_run_ok; [apply small_map_ok|]. intros l e E. by rewrite (proj2 small_map_ok) in E.
Qed.

Lemma convert_correct_witness :
  walk (ps_virt small_pages) 0x100000 (heap large_map) 0x200000 = Some (1%nat, 0x2000B3) /\
  converted (ps_virt small_pages) 0x100000 ∅ 1 0 0x200000 execute_only uncacheable
    (identity_map_convert_2m_to_4k 0x200000 execute_only uncacheable large_map) large_map.
Proof.
  assert (walk (ps_virt small_pages) 0x100000 (heap large_map) 0x200000 = Some (1%nat, 0x2000B3)) as E
    by (vm_compute; reflexivity).
  split; [exact E|].
  apply (proj1 (convert_correct (ps_virt small_pages) 0x100000 ∅ 0x200000 0x2000B3 execute_only uncacheable
    large_map large_map_ok ltac:(lia))); [exact E|done|lia].
Defined.

(** ** A concrete map of the first 2 MB *)

Lemma small_map_free : free (ps_virt small_pages) 0x100000 0 0x200000 small_map.
Proof.
  intros va _ _. assert (heap small_map = {[ 0x100000 := zero_page ]}) as -> by (vm_compute; reflexivity).
  assert (forall i, child (ps_virt small_pages) {[ 0x100000 := zero_page ]} 3 0x100000 i = None) as Hc.
  { intros i. unfold child, entry_at. destruct (0 <=? i); [|done]. rewrite lookup_singleton_eq. cbn [mbind option_bind].
    unfold zero_page. destruct (replicate 512 0 !! _) as [e|] eqn:E; [|done]. by apply lookup_replicate in E as [-> _]. }
  cbn [path EptTables.tbl length Nat.sub mbind option_bind]. by rewrite Hc.
Qed.

Lemma identity_map_correct_witness :
  identity_result (ps_virt small_pages) 0x100000 ∅ (ranges (out_state (mtrrs_new sample_msr 36))) read_write_execute
    0 0 0x200000 (identity_map (out_state (mtrrs_new sample_msr 36)) 0 0x200000 read_write_execute small_map) small_map.
Proof.
  apply (identity_map_correct (ps_virt small_pages) 0x100000 ∅);
    [apply small_map_ok| |lia|lia|reflexivity|reflexivity|intros va _; apply small_map_ok|apply small_map_free].
  rewrite sample_ranges. unfold tiles, r_end, invalid. cbn [r_base r_size]. lia.
Defined.
