(* ===== verification/X64Entry.v ===== *)
(** * Layout of the x64 page-table entries

    Models [bareflank/bfintrinsics/include/arch/x64/paging.h], in the same way
    as the extended page-table entries: a namespace of one bit is a [flag], a
    namespace of several a [field].  The index into the page attribute table
    is spread over up to three bits. *)
From S2P Require Import Prelude Bits EptEntry.
Open Scope Z_scope.

(** Two and three bits of an entry set to those of [index]; an index that does
    not fit sets them all. *)
Definition set_two (pwt pcd : flag) (entry index : Z) : Z :=
  if index =? 0 then disable pcd (disable pwt entry)
  else if index =? 1 then disable pcd (enable pwt entry)
  else if index =? 2 then enable pcd (disable pwt entry)
  else enable pcd (enable pwt entry).

Definition set_three (pwt pcd pat : flag) (entry index : Z) : Z :=
  if index =? 0 then disable pat (disable pcd (disable pwt entry))
  else if index =? 1 then disable pat (disable pcd (enable pwt entry))
  else if index =? 2 then disable pat (enable pcd (disable pwt entry))
  else if index =? 3 then disable pat (enable pcd (enable pwt entry))
  else if index =? 4 then enable pat (disable pcd (disable pwt entry))
  else if index =? 5 then enable pat (disable pcd (enable pwt entry))
  else if index =? 6 then enable pat (enable pcd (disable pwt entry))
  else enable pat (enable pcd (enable pwt entry)).

Definition bit_value (f : flag) (entry v : Z) : Z := if is_enabled f entry then v else 0.

Module x64.

(** ** PML4 tables *)
Module pml4.

Definition num_entries : Z := 512.
Definition from : Z := 39.
Definition index (virt : Z) : Z :=
  Z.shiftr (Z.land virt (shl64 0x1FF from)) from.
Definition present : flag := Flag 0x0000000000000001 0.
Definition rw : flag := Flag 0x0000000000000002 1.
Definition us : flag := Flag 0x0000000000000004 2.
Definition pwt : flag := Flag 0x0000000000000008 3.
Definition pcd : flag := Flag 0x0000000000000010 4.
Definition accessed : flag := Flag 0x0000000000000020 5.
Definition ps : flag := Flag 0x0000000000000080 7.
Definition phys_addr : field := Field 0x000FFFFFFFFFF000 0.
Definition xd : flag := Flag 0x8000000000000000 63.
Definition pat_index_get (entry : Z) : Z := bit_value pwt entry 1 + bit_value pcd entry 2.
Definition pat_index_set (entry index : Z) : Z := set_two pwt pcd entry index.

End pml4.

(** ** Page-directory-pointer tables *)
Module pdpt.

Definition num_entries : Z := 512.
Definition from : Z := 30.
Definition page_size : Z := 0x40000000.
Definition index (virt : Z) : Z :=
  Z.shiftr (Z.land virt (shl64 0x1FF from)) from.
Definition present : flag := Flag 0x0000000000000001 0.
Definition rw : flag := Flag 0x0000000000000002 1.
Definition us : flag := Flag 0x0000000000000004 2.
Definition pwt : flag := Flag 0x0000000000000008 3.
Definition pcd : flag := Flag 0x0000000000000010 4.
Definition accessed : flag := Flag 0x0000000000000020 5.
Definition dirty : flag := Flag 0x0000000000000040 6.
Definition ps : flag := Flag 0x0000000000000080 7.
Definition g : flag := Flag 0x0000000000000100 8.
Definition pat : flag := Flag 0x0000000000001000 12.
Definition phys_addr : field := Field 0x000FFFFFFFFFF000 0.
Definition protection_key : field := Field 0x7800000000000000 59.
Definition xd : flag := Flag 0x8000000000000000 63.
Definition pat_index_get (entry : Z) : Z :=
  bit_value pwt entry 1 + bit_value pcd entry 2 + (if is_enabled ps entry then bit_value pat entry 4 else 0).
Definition pat_index_set (entry index : Z) : Z :=
  if is_enabled ps entry then set_three pwt pcd pat entry index else set_two pwt pcd entry index.

End pdpt.

(** ** Page directories *)
Module pd.

Definition num_entries : Z := 512.
Definition from : Z := 21.
Definition page_size : Z := 0x200000.
Definition index (virt : Z) : Z :=
  Z.shiftr (Z.land virt (shl64 0x1FF from)) from.
Definition present : flag := Flag 0x0000000000000001 0.
Definition rw : flag := Flag 0x0000000000000002 1.
Definition us : flag := Flag 0x0000000000000004 2.
Definition pwt : flag := Flag 0x0000000000000008 3.
Definition pcd : flag := Flag 0x0000000000000010 4.
Definition accessed : flag := Flag 0x0000000000000020 5.
Definition dirty : flag := Flag 0x0000000000000040 6.
Definition ps : flag := Flag 0x0000000000000080 7.
Definition g : flag := Flag 0x0000000000000100 8.
Definition pat : flag := Flag 0x0000000000001000 12.
Definition phys_addr : field := Field 0x000FFFFFFFFFF000 0.
Definition protection_key : field := Field 0x7800000000000000 59.
Definition xd : flag := Flag 0x8000000000000000 63.
Definition pat_index_get (entry : Z) : Z :=
  bit_value pwt entry 1 + bit_value pcd entry 2 + (if is_enabled ps entry then bit_value pat entry 4 else 0).
Definition pat_index_set (entry index : Z) : Z :=
  if is_enabled ps entry then set_three pwt pcd pat entry index else set_two pwt pcd entry index.

End pd.

(** ** Page tables *)
Module pt.

Definition num_entries : Z := 512.
Definition from : Z := 12.
Definition page_size : Z := 0x1000.
Definition index (virt : Z) : Z :=
  Z.shiftr (Z.land virt (shl64 0x1FF from)) from.
Definition present : flag := Flag 0x0000000000000001 0.
Definition rw : flag := Flag 0x0000000000000002 1.
Definition us : flag := Flag 0x0000000000000004 2.
Definition pwt : flag := Flag 0x0000000000000008 3.
Definition pcd : flag := Flag 0x0000000000000010 4.
Definition accessed : flag := Flag 0x0000000000000020 5.
Definition dirty : flag := Flag 0x0000000000000040 6.
Definition pat : flag := Flag 0x0000000000000080 7.
Definition g : flag := Flag 0x0000000000000100 8.
Definition phys_addr : field := Field 0x000FFFFFFFFFF000 0.
Definition protection_key : field := Field 0x7800000000000000 59.
Definition xd : flag := Flag 0x8000000000000000 63.
Definition pat_index_get (entry : Z) : Z :=
  bit_value pwt entry 1 + bit_value pcd entry 2 + bit_value pat entry 4.
Definition pat_index_set (entry index : Z) : Z := set_three pwt pcd pat entry index.

End pt.

End x64.

(** ** Properties *)

(** The bits of an entry after [set_two] and [set_three]. *)
Lemma set_two_bits pwt pcd e i g : u64 e -> flag_wf pwt -> flag_wf pcd -> flag_wf g -> flag_from pwt <> flag_from pcd -> 0 <= i < 4 ->
  is_enabled g (set_two pwt pcd e i) =
    if flag_from g =? flag_from pwt then Z.testbit i 0
    else if flag_from g =? flag_from pcd then Z.testbit i 1 else is_enabled g e.
Proof.
  intros He H1 H2 Hg Hd Hi. assert (i = 0 \/ i = 1 \/ i = 2 \/ i = 3) as Hc by lia.
  destruct Hc as [->|[->|[->| ->]]]; cbn [set_two Z.eqb Pos.eqb Z.testbit Pos.testbit];
    repeat first [rewrite is_enabled_enable by done | rewrite is_enabled_disable by eauto 6 with bits];
    destruct (Z.eqb_spec (flag_from g) (flag_from pwt)), (Z.eqb_spec (flag_from g) (flag_from pcd)); try lia; by destruct (is_enabled g e).
Qed.

Lemma set_three_bits pwt pcd pat e i g : u64 e -> flag_wf pwt -> flag_wf pcd -> flag_wf pat -> flag_wf g ->
  flag_from pwt <> flag_from pcd -> flag_from pwt <> flag_from pat -> flag_from pcd <> flag_from pat -> 0 <= i < 8 ->
  is_enabled g (set_three pwt pcd pat e i) =
    if flag_from g =? flag_from pwt then Z.testbit i 0
    else if flag_from g =? flag_from pcd then Z.testbit i 1
    else if flag_from g =? flag_from pat then Z.testbit i 2 else is_enabled g e.
Proof.
  intros He H1 H2 H3 Hg D1 D2 D3 Hi. assert (i = 0 \/ i = 1 \/ i = 2 \/ i = 3 \/ i = 4 \/ i = 5 \/ i = 6 \/ i = 7) as Hc by lia.
  destruct Hc as [->|[->|[->|[->|[->|[->|[->| ->]]]]]]]; cbn [set_three Z.eqb Pos.eqb Z.testbit Pos.testbit];
    repeat first [rewrite is_enabled_enable by done | rewrite is_enabled_disable by eauto 6 with bits];
    destruct (Z.eqb_spec (flag_from g) (flag_from pwt)), (Z.eqb_spec (flag_from g) (flag_from pcd)),
      (Z.eqb_spec (flag_from g) (flag_from pat)); try lia; by destruct (is_enabled g e).
Qed.

(** An index from its bits. *)
Lemma two_bits i : 0 <= i < 4 -> (if Z.testbit i 0 then 1 else 0) + (if Z.testbit i 1 then 2 else 0) = i.
Proof. intros Hi. assert (i = 0 \/ i = 1 \/ i = 2 \/ i = 3) as Hc by lia. by destruct Hc as [->|[->|[->| ->]]]. Qed.

Lemma three_bits i : 0 <= i < 8 ->
  (if Z.testbit i 0 then 1 else 0) + (if Z.testbit i 1 then 2 else 0) + (if Z.testbit i 2 then 4 else 0) = i.
Proof.
  intros Hi. assert (i = 0 \/ i = 1 \/ i = 2 \/ i = 3 \/ i = 4 \/ i = 5 \/ i = 6 \/ i = 7) as Hc by lia.
  by destruct Hc as [->|[->|[->|[->|[->|[->|[->| ->]]]]]]].
Qed.

(** The index into the page attribute table that is set in an entry is the
    one that is read back, at every level and page size: two bits where the
    entry points to a table, three where it maps a page. *)
Theorem pat_index_roundtrip e i : u64 e ->
  (0 <= i < 4 -> x64.pml4.pat_index_get (x64.pml4.pat_index_set e i) = i) /\
  (0 <= i < (if is_enabled x64.pdpt.ps e then 8 else 4) -> x64.pdpt.pat_index_get (x64.pdpt.pat_index_set e i) = i) /\
  (0 <= i < (if is_enabled x64.pd.ps e then 8 else 4) -> x64.pd.pat_index_get (x64.pd.pat_index_set e i) = i) /\
  (0 <= i < 8 -> x64.pt.pat_index_get (x64.pt.pat_index_set e i) = i).
Proof.
  intros He. split_and!; intros Hi.
  - unfold x64.pml4.pat_index_get, x64.pml4.pat_index_set, bit_value. rewrite !set_two_bits by (done || lia). by apply two_bits.
  - unfold x64.pdpt.pat_index_get, x64.pdpt.pat_index_set, bit_value. destruct (is_enabled x64.pdpt.ps e) eqn:E.
    + rewrite !set_three_bits by (done || lia). simpl. rewrite E. by apply three_bits.
    + rewrite !set_two_bits by (done || lia). simpl. rewrite E, Z.add_0_r. by apply two_bits.
  - unfold x64.pd.pat_index_get, x64.pd.pat_index_set, bit_value. destruct (is_enabled x64.pd.ps e) eqn:E.
    + rewrite !set_three_bits by (done || lia). simpl. rewrite E. by apply three_bits.
    + rewrite !set_two_bits by (done || lia). simpl. rewrite E, Z.add_0_r. by apply two_bits.
  - unfold x64.pt.pat_index_get, x64.pt.pat_index_set, bit_value. rewrite !set_three_bits by (done || lia). by apply three_bits.
Qed.

Lemma pat_index_roundtrip_witness :
  x64.pd.pat_index_set 0x200083 5 = 0x20108B /\ x64.pd.pat_index_get (x64.pd.pat_index_set 0x200083 5) = 5.
Proof.
  split; [reflexivity|]. apply (proj1 (proj2 (proj2 (pat_index_roundtrip 0x200083 5 ltac:(unfold u64; lia))))). done.
Defined.
