(* ===== verification/GuestPaging.v ===== *)
(** * The guest's page tables

    Models [gevisor/vmm/paging_utils.h]: the location of the enclave page
    cache, the translation of a guest address through the guest's own tables,
    and the search of those tables for the pages of an enclave.

    The tables are in guest memory; [read64] is the 64-bit word that the
    processor reads at a physical address.  A page is mapped with
    [make_unique_map] before it is read: its preconditions are kept, the
    mapping in the host's own tables is not modelled.  An entry is copied from
    the page before it is looked at or changed ([auto pt_pte = ...]), so what
    is changed is the copy. *)
From S2P Require Import Prelude Bits EptEntry X64Entry.
Open Scope Z_scope.

Definition SGX_PAGES : Z := 100000.

(** The variables the functions share with the hooks. *)
Record epc_state := Epc {
  epc_base_address : Z;
  epc_size : Z;
  modified_pages : Z;
  sgx_paddrs : gmap Z Z;
  global_pml4 : Z;
  global_pdpt : Z;
  global_pdt : Z;
  global_pt : Z;
}.

Definition with_epc (base size : Z) (s : epc_state) : epc_state :=
  Epc base size (modified_pages s) (sgx_paddrs s) (global_pml4 s) (global_pdpt s) (global_pdt s) (global_pt s).
Definition with_pages (n : Z) (a : gmap Z Z) (s : epc_state) : epc_state :=
  Epc (epc_base_address s) (epc_size s) n a (global_pml4 s) (global_pdpt s) (global_pdt s) (global_pt s).
Definition with_globals (l4 l3 l2 l1 : Z) (s : epc_state) : epc_state :=
  Epc (epc_base_address s) (epc_size s) (modified_pages s) (sgx_paddrs s) l4 l3 l2 l1.

(** [locate_epc], with the four registers that [cpuid] returns. *)
Definition locate_epc (eax ebx ecx edx : Z) : M epc_state unit :=
  modify (with_epc (add64 (shl64 (Z.land ebx 0xfffff) 32) (Z.land eax 0xfffff000))
                   (add64 (shl64 (Z.land edx 0xfffff) 32) (Z.land ecx 0xfffff000))).

Section Guest.
Context (read64 : Z -> Z).
Local Open Scope vmm_scope.

(** The preconditions of [unique_map_ptr] on the physical address. *)
Definition make_unique_map {S} (phys : Z) : M S Z :=
  expects (negb (phys =? 0)) ;;; expects (lower12 phys =? 0) ;;; ret phys.

(** [map.get()[idx]] *)
Definition word (page idx : Z) : Z := read64 (page + 8 * idx).

Definition custom_virt_to_phys_with_cr3 {S} (virt cr3 : Z) : M S Z :=
  expects (negb (cr3 =? 0)) ;;;
  expects (negb (virt =? 0)) ;;;
  pml4_map <- make_unique_map (upper12 cr3) ;;
  let pml4_pte := word pml4_map (x64.pml4.index virt) in
  if (field_get x64.pml4.phys_addr pml4_pte =? 0) || negb (is_enabled x64.pml4.present pml4_pte) then ret 0 else
  pdpt_map <- make_unique_map (field_get x64.pml4.phys_addr pml4_pte) ;;
  let pdpt_pte := word pdpt_map (x64.pdpt.index virt) in
  if (field_get x64.pdpt.phys_addr pdpt_pte =? 0) || negb (is_enabled x64.pdpt.present pdpt_pte) then ret 0 else
  if is_enabled x64.pdpt.ps pdpt_pte then
    ret (Z.lor (upper (field_get x64.pdpt.phys_addr pdpt_pte) x64.pdpt.from) (lower virt x64.pdpt.from))
  else
  pd_map <- make_unique_map (field_get x64.pdpt.phys_addr pdpt_pte) ;;
  let pd_pte := word pd_map (x64.pd.index virt) in
  if (field_get x64.pd.phys_addr pd_pte =? 0) || negb (is_enabled x64.pd.present pd_pte) then ret 0 else
  if is_enabled x64.pd.ps pd_pte then
    ret (Z.lor (upper (field_get x64.pd.phys_addr pd_pte) x64.pd.from) (lower virt x64.pd.from))
  else
  pt_map <- make_unique_map (field_get x64.pd.phys_addr pd_pte) ;;
  let pt_pte := word pt_map (x64.pt.index virt) in
  if (field_get x64.pt.phys_addr pt_pte =? 0) || negb (is_enabled x64.pt.present pt_pte) then ret 0 else
  ret (Z.lor (upper (field_get x64.pt.phys_addr pt_pte) x64.pt.from) (lower virt x64.pt.from)).

Definition change_phy_addr {S} (virt phy cr3 : Z) : M S bool :=
  expects (negb (cr3 =? 0)) ;;;
  expects (negb (virt =? 0)) ;;;
  pml4_map <- make_unique_map (upper12 cr3) ;;
  let pml4_pte := word pml4_map (x64.pml4.index virt) in
  if (field_get x64.pml4.phys_addr pml4_pte =? 0) || negb (is_enabled x64.pml4.present pml4_pte) then ret false else
  pdpt_map <- make_unique_map (field_get x64.pml4.phys_addr pml4_pte) ;;
  let pdpt_pte := word pdpt_map (x64.pdpt.index virt) in
  if (field_get x64.pdpt.phys_addr pdpt_pte =? 0) || negb (is_enabled x64.pdpt.present pdpt_pte) then ret false else
  if is_enabled x64.pdpt.ps pdpt_pte then
    let pdpt_pte := field_set x64.pdpt.phys_addr pdpt_pte phy in ret true
  else
  pd_map <- make_unique_map (field_get x64.pdpt.phys_addr pdpt_pte) ;;
  let pd_pte := word pd_map (x64.pd.index virt) in
  if (field_get x64.pd.phys_addr pd_pte =? 0) || negb (is_enabled x64.pd.present pd_pte) then ret false else
  if is_enabled x64.pd.ps pd_pte then
    let pd_pte := field_set x64.pd.phys_addr pd_pte phy in ret true
  else
  pt_map <- make_unique_map (field_get x64.pd.phys_addr pd_pte) ;;
  let pt_pte := word pt_map (x64.pt.index virt) in
  if (field_get x64.pt.phys_addr pt_pte =? 0) || negb (is_enabled x64.pt.present pt_pte) then ret false else
  let pt_pte := field_set x64.pt.phys_addr pt_pte phy in ret true.

Definition change_page_to_user_mode {S} (virt cr3 : Z) : M S unit :=
  expects (negb (cr3 =? 0)) ;;;
  expects (negb (virt =? 0)) ;;;
  pml4_map <- make_unique_map (upper12 cr3) ;;
  let pml4_pte := word pml4_map (x64.pml4.index virt) in
  if (field_get x64.pml4.phys_addr pml4_pte =? 0) || negb (is_enabled x64.pml4.present pml4_pte) then ret tt else
  pdpt_map <- make_unique_map (field_get x64.pml4.phys_addr pml4_pte) ;;
  let pdpt_pte := word pdpt_map (x64.pdpt.index virt) in
  if (field_get x64.pdpt.phys_addr pdpt_pte =? 0) || negb (is_enabled x64.pdpt.present pdpt_pte) then ret tt else
  if is_enabled x64.pdpt.ps pdpt_pte then ret tt else
  pd_map <- make_unique_map (field_get x64.pdpt.phys_addr pdpt_pte) ;;
  let pd_pte := word pd_map (x64.pd.index virt) in
  if (field_get x64.pd.phys_addr pd_pte =? 0) || negb (is_enabled x64.pd.present pd_pte) then ret tt else
  if is_enabled x64.pd.ps pd_pte then ret tt else
  pt_map <- make_unique_map (field_get x64.pd.phys_addr pd_pte) ;;
  let pt_pte := word pt_map (x64.pt.index virt) in
  if (field_get x64.pt.phys_addr pt_pte =? 0) || negb (is_enabled x64.pt.present pt_pte) then ret tt else
  let pt_pte := enable x64.pt.us pt_pte in ret tt.

(** The loop of [access_all_pt] over the entries that are left; [flag] is its
    local variable. *)
Fixpoint pt_loop (l : list Z) (pt_map : Z) (flag : bool) : M epc_state bool :=
  match l with
  | [] => ret flag
  | pt_idx :: l' =>
    s <- get ;;
    let pt_pte := word pt_map pt_idx in
    let pt_paddr := field_get x64.pt.phys_addr pt_pte in
    flag <- (if negb (pt_paddr =? 0) &&
                ((epc_base_address s <=? pt_paddr) && (pt_paddr <=? add64 (epc_base_address s) (epc_size s))) then
        let pt_pte := enable x64.pt.accessed pt_pte in
        modify (fun s => with_pages (add64 (modified_pages s) 1)
          (if modified_pages s <? SGX_PAGES then <[modified_pages s := pt_paddr]> (sgx_paddrs s) else sgx_paddrs s) s) ;;;
        ret true
      else ret flag) ;;
    modify (fun s => with_globals (global_pml4 s) (global_pdpt s) (global_pdt s) (global_pt s + 1) s) ;;;
    pt_loop l' pt_map flag
  end.

Definition access_all_pt (pd_pte : Z) : M epc_state bool :=
  pt_map <- make_unique_map (field_get x64.pd.phys_addr pd_pte) ;;
  modify (fun s => with_globals (global_pml4 s) (global_pdpt s) (global_pdt s) 0 s) ;;;
  pt_loop (seqZ 0 512) pt_map false.

Definition access_all_pdt (pdpt_pte : Z) : M epc_state unit :=
  pd_map <- make_unique_map (field_get x64.pdpt.phys_addr pdpt_pte) ;;
  modify (fun s => with_globals (global_pml4 s) (global_pdpt s) 0 (global_pt s) s) ;;;
  for_each (seqZ 0 512) (fun pd_idx =>
    let pd_pte := word pd_map pd_idx in
    (if negb (field_get x64.pd.phys_addr pd_pte =? 0) && is_enabled x64.pd.present pd_pte then
       if negb (is_enabled x64.pd.ps pd_pte) then
         flag <- access_all_pt pd_pte ;;
         let pd_pte := if flag : bool then disable x64.pd.rw pd_pte else pd_pte in ret tt
       else ret tt
     else ret tt) ;;;
    modify (fun s => with_globals (global_pml4 s) (global_pdpt s) (global_pdt s + 1) (global_pt s) s)).

Definition access_all_pdpt (pml4_pte : Z) : M epc_state unit :=
  pdpt_map <- make_unique_map (field_get x64.pml4.phys_addr pml4_pte) ;;
  modify (fun s => with_globals (global_pml4 s) 0 (global_pdt s) (global_pt s) s) ;;;
  for_each (seqZ 0 512) (fun pdpt_idx =>
    let pdpt_pte := word pdpt_map pdpt_idx in
    (if negb (field_get x64.pdpt.phys_addr pdpt_pte =? 0) && is_enabled x64.pdpt.present pdpt_pte then
       if negb (is_enabled x64.pdpt.ps pdpt_pte) then access_all_pdt pdpt_pte else ret tt
     else ret tt) ;;;
    modify (fun s => with_globals (global_pml4 s) (global_pdpt s + 1) (global_pdt s) (global_pt s) s)).

Definition access_all_pml4 (cr3 : Z) : M epc_state unit :=
  expects (negb (cr3 =? 0)) ;;;
  pml4_map <- make_unique_map (upper12 cr3) ;;
  modify (fun s => with_globals 0 (global_pdpt s) (global_pdt s) (global_pt s) s) ;;;
  for_each (seqZ 0 512) (fun pml4_idx =>
    let pml4_pte := word pml4_map pml4_idx in
    (if negb (field_get x64.pml4.phys_addr pml4_pte =? 0) && is_enabled x64.pml4.present pml4_pte then
       access_all_pdpt pml4_pte
     else ret tt) ;;;
    modify (fun s => with_globals (global_pml4 s + 1) (global_pdpt s) (global_pdt s) (global_pt s) s)).
End Guest.
