(* ===== verification/GuestPagingProofs.v ===== *)
(** * Correctness of the walk of the guest's page tables

    The translation is compared with the processor's own walk of the tables,
    written with arithmetic on addresses: they agree on every address whose
    walk meets no entry for frame 0.  The search for enclave pages records the
    frames of the page tables that lie in the enclave page cache, and the frame
    after it. *)
From S2P Require Import Prelude Bits EptEntry X64Entry GuestPaging.
Open Scope Z_scope.

(** ** The fields of an entry and of an address, as arithmetic *)

(** The nine bits of [va] that index a table of level [l], 0 being the page
    tables. *)
Definition digit (l : nat) (va : Z) : Z := va / 2 ^ (12 + 9 * Z.of_nat l) mod 512.

Lemma digit_range l va : 0 <= digit l va < 512.
Proof. apply Z.mod_pos_bound. lia. Qed.

(** An address whose index into a table of level [l] is [i], and whose indices
    below it are those of [va]. *)
Lemma digit_above l i va : 0 <= i < 512 ->
  exists va', digit l va' = i /\ forall k, (k < l)%nat -> digit k va' = digit k va.
Proof.
  intros Hi. set (n := 12 + 9 * Z.of_nat l). assert (0 < 2 ^ n) by (apply Z.pow_pos_nonneg; lia).
  exists (va mod 2 ^ n + i * 2 ^ n). unfold digit. fold n. split.
  - rewrite Z.div_add, Z.div_small, Z.mod_small by (try apply Z.mod_pos_bound; lia). lia.
  - intros k Hk. rewrite <- !Z.shiftr_div_pow2 by lia. change 512 with (2 ^ 9). rewrite <- !(Z.land_ones _ 9) by lia.
    apply Z.bits_inj'. intros j Hj. rewrite !Z.land_spec, !Z.shiftr_spec by lia.
    destruct (Z.ltb_spec j 9); [|by rewrite !Z.ones_spec_high, !andb_false_r by lia].
    f_equal. rewrite <- (Z.mod_pow2_bits_low va n) by lia.
    rewrite <- (Z.mod_pow2_bits_low (va mod 2 ^ n + i * 2 ^ n) n) by lia.
    by rewrite Z.mod_add, Z.mod_mod by lia.
Qed.

Lemma digit_index i : 0 <= i < 512 -> digit 0 (i * 2 ^ 12) = i.
Proof. intros Hi. unfold digit. change (12 + 9 * Z.of_nat 0) with 12. rewrite Z.div_mul by lia. by apply Z.mod_small. Qed.

(** The page frame that an entry points to: bits 12 to 51. *)
Definition frame (e : Z) : Z := e / 2 ^ 12 mod 2 ^ 40 * 2 ^ 12.

(** An entry that is present and points somewhere. *)
Definition usable (e : Z) : bool := Z.testbit e 0 && negb (frame e =? 0).

Lemma frame_get e : field_get x64.pt.phys_addr e = frame e.
Proof.
  unfold field_get, get_bits, frame. cbn [field_from field_mask x64.pt.phys_addr]. rewrite Z.shiftr_0_r.
  rewrite <- Z.shiftr_div_pow2, <- Z.land_ones, <- Z.shiftl_mul_pow2 by lia.
  rewrite Z.shiftl_land. change (Z.shiftl (Z.ones 40) 12) with 0x000FFFFFFFFFF000.
  bits_ext i Hi. destruct (Z.leb_spec 12 i).
  - cbn [andb]. rewrite Z.shiftr_spec by lia. by replace (i - 12 + 12) with i by lia.
  - assert (Z.testbit 0x000FFFFFFFFFF000 i = false) as ->; [|by rewrite !andb_false_r].
    change 0x000FFFFFFFFFF000 with (Z.shiftl (Z.ones 40) 12). apply Z.shiftl_spec_low. lia.
Qed.

Lemma frame_range e : 0 <= frame e < 2 ^ 52 /\ frame e mod 2 ^ 12 = 0.
Proof.
  unfold frame. pose proof (Z.mod_pos_bound (e / 2 ^ 12) (2 ^ 40) ltac:(lia)). split; [lia|]. apply Z.mod_mul. lia.
Qed.

(** A page base and an offset put together. *)
Lemma lor_page p v f : u64 p -> 0 <= f < 64 -> Z.lor (upper p f) (lower v f) = p / 2 ^ f * 2 ^ f + v mod 2 ^ f.
Proof.
  intros Hp Hf. assert (0 < 2 ^ f) by (apply Z.pow_pos_nonneg; lia).
  assert (Z.land (upper p f) (lower v f) = 0) as Hd.
  { unfold upper, lower. rewrite sub64_shl64_ones by lia. bits_ext i Hi.
    destruct (i <? f), (i <? 64), (Z.testbit v i), (Z.testbit p i); done. }
  pose proof (Z.add_lor_land (upper p f) (lower v f)) as E. rewrite Hd in E.
  rewrite upper_sub, lower_mod in E |- * by done. pose proof (Z.div_mod p (2 ^ f) ltac:(lia)). lia.
Qed.

(** ** The processor's walk *)

Section Walk.
Context (read64 : Z -> Z).

(** An entry of a table of level [l] that maps a page of its own: the tables of
    level 3 have no such entries, those of level 0 no other ones. *)
Definition maps_page (l : nat) (e : Z) : bool := (l =? 0)%nat || (l <? 3)%nat && Z.testbit e 7.

(** The address that the processor finds for [va] below the table of level [l] at
    [table], by the present bits of the entries.  Access rights and the faults on
    reserved bits are no part of it. *)
Fixpoint hw_walk (l : nat) (table va : Z) : option Z :=
  let e := read64 (table + 8 * digit l va) in
  let size := 2 ^ (12 + 9 * Z.of_nat l) in
  if negb (Z.testbit e 0) then None else
  if maps_page l e then Some (frame e / size * size + va mod size) else
  match l with
  | O => None
  | S l' => hw_walk l' (frame e) va
  end.

(** The walk meets a present entry whose frame is 0. *)
Fixpoint meets_zero (l : nat) (table va : Z) : bool :=
  let e := read64 (table + 8 * digit l va) in
  Z.testbit e 0 && ((frame e =? 0) || negb (maps_page l e) &&
    match l with O => false | S l' => meets_zero l' (frame e) va end).

Lemma map_ok {S} p (s : S) : p <> 0 -> p mod 2 ^ 12 = 0 -> make_unique_map p s = Ok p s.
Proof.
  intros Hp Hm. unfold make_unique_map, expects. replace (p =? 0) with false by lia.
  rewrite lower12_lower, lower_mod, Hm by lia. done.
Qed.

Lemma map_frame {S} e (s : S) : frame e <> 0 -> make_unique_map (frame e) s = Ok (frame e) s.
Proof. intros He. apply map_ok; [done|apply frame_range]. Qed.

Lemma not_usable e f : flag_from f = 0 -> (frame e =? 0) || negb (is_enabled f e) = negb (usable e).
Proof.
  intros Hf. unfold usable, is_enabled. rewrite Hf, is_bit_set_testbit by lia.
  by destruct (frame e =? 0), (Z.testbit e 0).
Qed.

Lemma usable_frame e : usable e = true -> frame e <> 0.
Proof. unfold usable. destruct (Z.eqb_spec (frame e) 0); [by rewrite andb_false_r|done]. Qed.

Lemma usable_present e : usable e = true -> Z.testbit e 0 = true /\ (frame e =? 0) = false.
Proof. unfold usable. by destruct (Z.testbit e 0), (frame e =? 0). Qed.

Lemma unusable_stops e : usable e = false -> Z.testbit e 0 = false \/ Z.testbit e 0 = true /\ (frame e =? 0) = true.
Proof. unfold usable. destruct (Z.testbit e 0), (frame e =? 0); auto. Qed.

Lemma word_digit l f table va : f = 12 + 9 * Z.of_nat l -> (l <= 3)%nat ->
  word read64 table (Z.shiftr (Z.land va (shl64 0x1FF f)) f) = read64 (table + 8 * digit l va).
Proof. intros -> Hl. unfold word, digit. by rewrite index_div by lia. Qed.

Lemma ps_bit e f : flag_from f = 7 -> is_enabled f e = Z.testbit e 7.
Proof. intros Hf. unfold is_enabled. rewrite Hf. by rewrite is_bit_set_testbit by lia. Qed.

Lemma large_page e va l f : f = 12 + 9 * Z.of_nat l -> (l <= 3)%nat ->
  Z.lor (upper (frame e) f) (lower va f) = frame e / 2 ^ (12 + 9 * Z.of_nat l) * 2 ^ (12 + 9 * Z.of_nat l) + va mod 2 ^ (12 + 9 * Z.of_nat l).
Proof. intros -> Hl. pose proof (frame_range e). apply lor_page; [unfold u64; lia|lia]. Qed.

(** One table of the walk: its entry is read; where it is not present, or for
    frame 0, the code stops. *)
Ltac guest_level l E :=
  rewrite ?frame_get, ?not_usable by done;
  rewrite (word_digit l) by (done || lia);
  match goal with |- context [negb (usable ?e)] =>
    destruct (usable e) eqn:E; [destruct (usable_present e E) as [-> ->]|destruct (unusable_stops e E) as [->|[-> ->]]; done]
  end; cbn [negb andb orb].

Ltac guest_enter E := erewrite bind_ok by (apply map_frame, usable_frame, E).

Ltac guest_large l :=
  rewrite ps_bit by done; cbn [maps_page Nat.eqb Nat.ltb Nat.leb andb orb];
  match goal with |- context [Z.testbit ?e 7] => destruct (Z.testbit e 7); [by rewrite (large_page _ _ l) by (done || lia)|] end;
  cbn [negb andb].

(** C18: For any address and CR3 that pass its own preconditions
    [custom_virt_to_phys_with_cr3] does not throw and leaves the state alone.  It
    returns the address that the processor's walk of the tables at the guest's CR3
    finds, through 1 GB, 2 MB and 4 KB pages, and 0 where an entry on the way is
    not present.  Where the walk meets a present entry for frame 0 it returns 0
    too, although the processor goes on there. *)
Theorem guest_translation {S} virt cr3 (s : S) : u64 cr3 -> cr3 / 2 ^ 12 <> 0 -> virt <> 0 ->
  let table := cr3 / 2 ^ 12 * 2 ^ 12 in
  custom_virt_to_phys_with_cr3 read64 virt cr3 s =
    Ok (if meets_zero 3 table virt then 0 else default 0 (hw_walk 3 table virt)) s.
Proof.
  intros Hc Hc0 Hv table. unfold custom_virt_to_phys_with_cr3, expects.
  assert (cr3 <> 0) by (intros ->; done). replace (cr3 =? 0) with false by lia. replace (virt =? 0) with false by lia.
  cbn [negb]. erewrite bind_ok by done. erewrite bind_ok by done.
  assert (upper12 cr3 = table) as ->.
  { unfold table. rewrite upper12_upper, upper_sub, Z.mod_eq by (done || lia). lia. }
  erewrite bind_ok by (apply map_ok; [unfold table; lia|apply Z.mod_mul; lia]).
  change x64.pml4.phys_addr with x64.pt.phys_addr. change x64.pdpt.phys_addr with x64.pt.phys_addr.
  change x64.pd.phys_addr with x64.pt.phys_addr. cbn [hw_walk meets_zero].
  unfold x64.pml4.index, x64.pdpt.index, x64.pd.index, x64.pt.index.
  guest_level 3%nat E3. guest_enter E3. cbn [maps_page Nat.eqb Nat.ltb Nat.leb andb orb negb].
  guest_level 2%nat E2. guest_large 2%nat. guest_enter E2.
  guest_level 1%nat E1. guest_large 1%nat. guest_enter E1.
  guest_level 0%nat E0. by rewrite (large_page _ _ 0) by (done || lia).
Qed.

(** ** The pages of an enclave *)

Context (base size : Z).

(** The enclave page cache, and the addresses that the search takes for it: the
    one after the cache counts too. *)
Definition in_epc (p : Z) : Prop := base <= p < base + size.
Definition searched (p : Z) : bool := (base <=? p) && (p <=? add64 base size).

(** The frames that the search records below a table, in the order of the tables.
    Entries of page tables count whether they are present or not. *)
Definition pt_frames (t : Z) : list Z :=
  i ← seqZ 0 512; let p := frame (word read64 t i) in if negb (p =? 0) && searched p then [p] else [].
Definition pd_frames (t : Z) : list Z :=
  i ← seqZ 0 512; let e := word read64 t i in if usable e && negb (Z.testbit e 7) then pt_frames (frame e) else [].
Definition pdpt_frames (t : Z) : list Z :=
  i ← seqZ 0 512; let e := word read64 t i in if usable e && negb (Z.testbit e 7) then pd_frames (frame e) else [].
Definition pml4_frames (t : Z) : list Z :=
  i ← seqZ 0 512; let e := word read64 t i in if usable e then pdpt_frames (frame e) else [].

(** The array with [L] stored from index [n] on, as far as it reaches. *)
Fixpoint stored (n : Z) (L : list Z) (a : gmap Z Z) : gmap Z Z :=
  match L with
  | [] => a
  | p :: L' => stored (n + 1) L' (if n <? SGX_PAGES then <[n := p]> a else a)
  end.

Lemma stored_app L1 L2 n a : stored n (L1 ++ L2) a = stored (n + Z.of_nat (length L1)) L2 (stored n L1 a).
Proof.
  revert n a. induction L1 as [|p L1 IH]; intros n a; cbn [app stored length]; [f_equal; lia|].
  rewrite IH. f_equal. lia.
Qed.

Record room (L : list Z) (s : epc_state) : Prop := {
  ro_base : epc_base_address s = base;
  ro_size : epc_size s = size;
  ro_num : 0 <= modified_pages s;
  ro_max : modified_pages s + Z.of_nat (length L) < 2 ^ 64;
}.

(** [s'] is [s] with the pages [L] recorded. *)
Record recorded (L : list Z) (s s' : epc_state) : Prop := {
  rc_base : epc_base_address s' = epc_base_address s;
  rc_size : epc_size s' = epc_size s;
  rc_num : modified_pages s' = modified_pages s + Z.of_nat (length L);
  rc_paddrs : sgx_paddrs s' = stored (modified_pages s) L (sgx_paddrs s);
}.

Lemma recorded_nil s s' : epc_base_address s' = epc_base_address s -> epc_size s' = epc_size s ->
  modified_pages s' = modified_pages s -> sgx_paddrs s' = sgx_paddrs s -> recorded [] s s'.
Proof. intros. split; try done. cbn [length]. lia. Qed.

Lemma recorded_trans L1 L2 s1 s2 s3 : recorded L1 s1 s2 -> recorded L2 s2 s3 -> recorded (L1 ++ L2) s1 s3.
Proof.
  intros [A1 A2 A3 A4] [B1 B2 B3 B4]. split; [congruence..| |].
  - rewrite length_app. lia.
  - rewrite stored_app, B4, A3, A4. done.
Qed.

Lemma room_left L1 L2 s : room (L1 ++ L2) s -> room L1 s.
Proof. intros []. split; try done. rewrite length_app in *. lia. Qed.

Lemma room_right L1 L2 s s' : room (L1 ++ L2) s -> recorded L1 s s' -> room L2 s'.
Proof. intros [] []. rewrite length_app in *. split; lia || congruence. Qed.

(** A function that records [L]. *)
Definition records {B} (L : list Z) (m : M epc_state B) : Prop :=
  forall s, room L s -> exists b s', m s = Ok b s' /\ recorded L s s'.

Lemma records_bind {B C} L1 L2 (m : M epc_state B) (k : B -> M epc_state C) :
  records L1 m -> (forall b, records L2 (k b)) -> records (L1 ++ L2) (bind m k).
Proof.
  intros Hm Hk s Hr. destruct (Hm s (room_left _ _ _ Hr)) as (b & s1 & E & H1).
  destruct (Hk b s1 (room_right _ _ _ _ Hr H1)) as (c & s2 & E2 & H2). exists c, s2.
  erewrite bind_ok by exact E. eauto using recorded_trans.
Qed.

Lemma records_first {B C} L (m : M epc_state B) (k : B -> M epc_state C) :
  records L m -> (forall b, records [] (k b)) -> records L (bind m k).
Proof. intros. rewrite <- (app_nil_r L). by apply records_bind. Qed.

Lemma records_ret {B} (b : B) : records [] (ret b).
Proof. intros s _. exists b, s. split; [done|]. by apply recorded_nil. Qed.

Lemma records_globals f4 f3 f2 f1 : records [] (modify (fun s => with_globals (f4 s) (f3 s) (f2 s) (f1 s) s)).
Proof. intros s _. eexists _, _. split; [done|]. by apply recorded_nil. Qed.

Lemma records_each f (body : Z -> M epc_state unit) l :
  (forall i, records (f i) (body i)) -> records (l ≫= f) (for_each l body).
Proof.
  intros Hb. induction l as [|i l IH]; [apply records_ret|]. cbn [for_each mbind list_bind].
  by apply records_bind.
Qed.

Lemma records_map {B} L t (k : Z -> M epc_state B) : t <> 0 -> t mod 2 ^ 12 = 0 -> records L (k t) ->
  records L (bind (make_unique_map t) k).
Proof.
  intros Ht Hm Hk s Hr. destruct (Hk s Hr) as (b & s' & E & H1). exists b, s'.
  erewrite bind_ok by (by apply map_ok). done.
Qed.

(** One page recorded. *)
Lemma records_page p : searched p = true ->
  records [p] (modify (fun s => with_pages (add64 (modified_pages s) 1)
    (if modified_pages s <? SGX_PAGES then <[modified_pages s := p]> (sgx_paddrs s) else sgx_paddrs s) s)).
Proof.
  intros _ s [_ _ Hn Hm]. cbn [length] in Hm. eexists _, _. split; [done|]. split; try done.
  cbn [modified_pages with_pages length]. unfold add64, w64. rewrite Z.mod_small; lia.
Qed.

Lemma records_pre {B} L (m m' : M epc_state B) : (forall s, room L s -> m s = m' s) -> records L m' -> records L m.
Proof. intros He Hm s Hr. rewrite (He s Hr). by apply Hm. Qed.

Lemma records_then {B C} L (m : M epc_state B) (k : B -> M epc_state C) :
  records [] m -> (forall b, records L (k b)) -> records L (bind m k).
Proof. intros Hm Hk. by apply (records_bind [] L). Qed.

Lemma pt_loop_records l t flag :
  records (i ← l; let p := frame (word read64 t i) in if negb (p =? 0) && searched p then [p] else []) (pt_loop read64 l t flag).
Proof.
  revert flag. induction l as [|i l IH]; intros flag; [apply records_ret|]. cbn [pt_loop mbind list_bind].
  set (p := frame (word read64 t i)). eapply records_pre.
  { intros s Hr. rewrite bind_get, frame_get, (ro_base _ _ Hr), (ro_size _ _ Hr). fold (searched (frame (word read64 t i))).
    fold p. reflexivity. }
  apply records_bind.
  - destruct (negb (p =? 0) && searched p) eqn:E; [|apply records_ret]. apply records_first; [|intros; apply records_ret].
    apply records_page. by apply andb_true_iff in E as [_ ?].
  - intros b. apply records_then; [apply records_globals|]. intros _. apply IH.
Qed.

Lemma usable_get e f : flag_from f = 0 -> negb (frame e =? 0) && is_enabled f e = usable e.
Proof.
  intros Hf. unfold usable, is_enabled. rewrite Hf, is_bit_set_testbit by lia. apply andb_comm.
Qed.

Lemma access_all_pt_records e : usable e = true -> records (pt_frames (frame e)) (access_all_pt read64 e).
Proof.
  intros He. unfold access_all_pt. change x64.pd.phys_addr with x64.pt.phys_addr. rewrite frame_get.
  apply records_map; [by apply usable_frame|apply frame_range|].
  apply records_then; [apply records_globals|]. intros _. apply pt_loop_records.
Qed.

Lemma access_all_pdt_records e : usable e = true -> records (pd_frames (frame e)) (access_all_pdt read64 e).
Proof.
  intros He. unfold access_all_pdt. change x64.pdpt.phys_addr with x64.pt.phys_addr. change x64.pd.phys_addr with x64.pt.phys_addr.
  rewrite frame_get. apply records_map; [by apply usable_frame|apply frame_range|].
  apply records_then; [apply records_globals|]. intros _. apply records_each. intros i.
  rewrite frame_get, usable_get, ps_bit by done. apply records_first; [|intros; apply records_globals].
  cbv zeta. set (w := word _ _ i). destruct (usable w) eqn:E; [|apply records_ret]. destruct (Z.testbit w 7); [apply records_ret|].
  apply records_first; [by apply access_all_pt_records|]. intros. apply records_ret.
Qed.

Lemma access_all_pdpt_records e : usable e = true -> records (pdpt_frames (frame e)) (access_all_pdpt read64 e).
Proof.
  intros He. unfold access_all_pdpt. change x64.pdpt.phys_addr with x64.pt.phys_addr. change x64.pml4.phys_addr with x64.pt.phys_addr.
  rewrite frame_get. apply records_map; [by apply usable_frame|apply frame_range|].
  apply records_then; [apply records_globals|]. intros _. apply records_each. intros i.
  rewrite frame_get, usable_get, ps_bit by done. apply records_first; [|intros; apply records_globals].
  cbv zeta. set (w := word _ _ i). destruct (usable w) eqn:E; [|apply records_ret]. destruct (Z.testbit w 7); [apply records_ret|].
  by apply access_all_pdt_records.
Qed.

Lemma pml4_search cr3 s : u64 cr3 -> cr3 / 2 ^ 12 <> 0 ->
  room (pml4_frames (cr3 / 2 ^ 12 * 2 ^ 12)) s ->
  exists s', access_all_pml4 read64 cr3 s = Ok tt s' /\ recorded (pml4_frames (cr3 / 2 ^ 12 * 2 ^ 12)) s s'.
Proof.
  intros Hc Hc0 Hr. assert (records (pml4_frames (cr3 / 2 ^ 12 * 2 ^ 12)) (access_all_pml4 read64 cr3)) as Hx.
  2: { by destruct (Hx s Hr) as ([] & s' & ? & ?); exists s'. }
  unfold access_all_pml4, expects. assert (cr3 <> 0) by (intros ->; done). replace (cr3 =? 0) with false by lia.
  apply records_then; [apply records_ret|]. intros _.
  assert (upper12 cr3 = cr3 / 2 ^ 12 * 2 ^ 12) as ->.
  { rewrite upper12_upper, upper_sub, Z.mod_eq by (done || lia). lia. }
  apply records_map; [lia|apply Z.mod_mul; lia|]. apply records_then; [apply records_globals|]. intros _.
  apply records_each. intros i. change x64.pml4.phys_addr with x64.pt.phys_addr. rewrite frame_get, usable_get by done.
  apply records_first; [|intros; apply records_globals].
  cbv zeta. set (w := word _ _ i). destruct (usable w) eqn:E; [by apply access_all_pdpt_records|apply records_ret].
Qed.

(** *** The recorded frames, by the addresses that reach them *)

(** The entry of a page table that the walk of [va] ends in, reached through
    present entries that point to tables other than at 0. *)
Fixpoint pt_entry (l : nat) (table va : Z) : option Z :=
  let e := read64 (table + 8 * digit l va) in
  match l with
  | O => Some e
  | S l' => if usable e && negb (maps_page l e) then pt_entry l' (frame e) va else None
  end.

Lemma pt_entry_ext l table va va' : (forall k, (k <= l)%nat -> digit k va = digit k va') -> pt_entry l table va = pt_entry l table va'.
Proof.
  revert table. induction l as [|l IH]; intros table Hd; cbn [pt_entry]; rewrite (Hd _ (le_n _)); [done|].
  case_match; [|done]. apply IH. intros k Hk. apply Hd. lia.
Qed.

(** The tables below the entries of a table, one for each index. *)
Definition reached (l : nat) (table : Z) (p : Z) : Prop :=
  exists va e, pt_entry l table va = Some e /\ p = frame e /\ p <> 0 /\ searched p = true.

Lemma reached_page t p : p ∈ pt_frames t <-> reached 0 t p.
Proof.
  unfold pt_frames, reached. rewrite list_elem_of_bind. split.
  - intros (i & Hp & Hi%elem_of_seqZ). exists (i * 2 ^ 12), (word read64 t i). cbn [pt_entry]. rewrite digit_index by lia.
    destruct (Z.eqb_spec (frame (word read64 t i)) 0); [by apply elem_of_nil in Hp|]. cbn [negb andb] in Hp.
    destruct (searched _) eqn:E; [|by apply elem_of_nil in Hp]. apply list_elem_of_singleton in Hp as ->. done.
  - intros (va & e & [= He] & -> & Hnz & Hs). exists (digit 0 va). rewrite elem_of_seqZ. split; [|pose proof (digit_range 0 va); lia].
    unfold word. rewrite He. replace (frame e =? 0) with false by lia. rewrite Hs. by apply list_elem_of_singleton.
Qed.

Lemma reached_table l t p (F : Z -> list Z) : (forall t, forall p, p ∈ F t <-> reached l t p) ->
  p ∈ (i ← seqZ 0 512; let e := word read64 t i in if usable e && negb (maps_page (S l) e) then F (frame e) else []) <-> reached (S l) t p.
Proof.
  intros HF. rewrite list_elem_of_bind. unfold reached. split.
  - intros (i & Hp & Hi%elem_of_seqZ). cbv zeta in Hp. case_match eqn:E; [|by apply elem_of_nil in Hp].
    apply HF in Hp as (va & e & He & Hp). destruct (digit_above (S l) i va ltac:(lia)) as (va' & Htop & Hlow).
    exists va', e. split; [|done]. cbn [pt_entry]. rewrite Htop. unfold word in E. rewrite E. rewrite <- He.
    apply pt_entry_ext. intros k Hk. apply Hlow. lia.
  - intros (va & e & He & Hp). cbn [pt_entry] in He. case_match eqn:E; [|done]. exists (digit (S l) va). split.
    + unfold word. rewrite E. apply HF. by exists va, e.
    + apply elem_of_seqZ. pose proof (digit_range (S l) va). lia.
Qed.

Lemma reached_pml4 t p : p ∈ pml4_frames t <-> reached 3 t p.
Proof.
  assert (forall t p, p ∈ pd_frames t <-> reached 1 t p) as H1 by (intros; by apply (reached_table 0), reached_page).
  assert (forall t p, p ∈ pdpt_frames t <-> reached 2 t p) as H2 by (intros; by apply (reached_table 1)).
  rewrite <- (reached_table 2 t p pdpt_frames H2). unfold pml4_frames. rewrite !list_elem_of_bind.
  by setoid_rewrite andb_true_r.
Qed.

(** C19: [access_all_pml4] returns, and the count of pages grows by the number of
    frames that it finds in the guest's tables, which the array holds from the old
    count on, as far as it reaches.  It finds, in the order of the tables, the
    frames other than 0 of all entries of page tables, present or not, that an
    address reaches through present entries and that lie in the enclave page
    cache; the frame directly after the cache is taken for one of it. *)
Theorem epc_search cr3 s : u64 cr3 -> cr3 / 2 ^ 12 <> 0 -> 0 <= base -> 0 <= size -> base + size < 2 ^ 64 ->
  let table := cr3 / 2 ^ 12 * 2 ^ 12 in
  room (pml4_frames table) s ->
  (exists s', access_all_pml4 read64 cr3 s = Ok tt s' /\ recorded (pml4_frames table) s s') /\
  forall p, p ∈ pml4_frames table <-> exists va e, pt_entry 3 table va = Some e /\ p = frame e /\ p <> 0 /\ (in_epc p \/ p = base + size).
Proof.
  intros Hc Hc0 Hb Hs Hm table Hr. split; [by apply pml4_search|]. intros p. rewrite reached_pml4. unfold reached.
  assert (searched p = true <-> in_epc p \/ p = base + size) as Hp.
  { unfold searched, in_epc, add64, w64. rewrite Z.mod_small by lia. lia. }
  by setoid_rewrite Hp.
Qed.
End Walk.

(** ** A small guest *)

(** Tables at 0x1000 to 0x4000, with one page of the enclave page cache mapped
    at the guest address 0x5000, and frame 0 at 0x6000. *)
Definition guest_memory (a : Z) : Z :=
  if a =? 0x1000 then 0x2007 else if a =? 0x2000 then 0x3007 else if a =? 0x3000 then 0x4007
  else if a =? 0x4028 then 0x70200067 else if a =? 0x4030 then 0x67 else 0.

Definition guest_epc : epc_state := Epc 0x70200000 0x5d80000 0 ∅ 0 0 0 0.

(** The address 0x5123 is translated; 0x6000, a page of frame 0, is not, although
    the processor finds it. *)
Lemma guest_translation_witness :
  custom_virt_to_phys_with_cr3 guest_memory 0x5123 0x1000 tt = Ok 0x70200123 tt /\
  custom_virt_to_phys_with_cr3 guest_memory 0x6000 0x1000 tt = Ok 0 tt /\
  meets_zero guest_memory 3 0x1000 0x6000 = true /\ hw_walk guest_memory 3 0x1000 0x6000 = Some 0 /\
  custom_virt_to_phys_with_cr3 guest_memory 0x5123 0x1000 tt =
    Ok (if meets_zero guest_memory 3 (0x1000 / 2 ^ 12 * 2 ^ 12) 0x5123 then 0
        else default 0 (hw_walk guest_memory 3 (0x1000 / 2 ^ 12 * 2 ^ 12) 0x5123)) tt.
Proof.
  do 4 (split; [vm_compute; reflexivity|]). apply guest_translation; [unfold u64; lia|done|done].
Defined.

Lemma guest_frames : pml4_frames guest_memory 0x70200000 0x5d80000 (0x1000 / 2 ^ 12 * 2 ^ 12) = [0x70200000].
Proof. vm_compute. reflexivity. Qed.

Lemma epc_search_witness : let T := 0x1000 / 2 ^ 12 * 2 ^ 12 in let L := pml4_frames guest_memory 0x70200000 0x5d80000 T in
  (exists s', access_all_pml4 guest_memory 0x1000 guest_epc = Ok tt s' /\ recorded L guest_epc s') /\
  (forall p, p ∈ L <-> exists va e, pt_entry guest_memory 3 T va = Some e /\ p = frame e /\ p <> 0 /\
     (in_epc 0x70200000 0x5d80000 p \/ p = 0x70200000 + 0x5d80000)).
Proof.
  apply epc_search; [unfold u64; lia|done|done|done|done|]. rewrite guest_frames. split; done.
Defined.
