(* ===== verification/Hook.v ===== *)
(** * The hooks of GEVisor

    Models [gevisor/vmm/vcpu_factory_hook.cpp]: the map of guest memory that all
    virtual CPUs share, the tables of enclave pages and of protected GPU
    buffers, and the exit handlers that change permissions in the map.

    The map is the one of [EptMmap.v]; its exceptions are the exceptions here.
    A write or read outside one of the fixed arrays is [segfault], a use of the
    channel's page before it is mapped is [null_deref].  What the handlers do
    to the processor (the EPT pointer, the invalidation of cached
    translations, the ENCLS bitmap, interrupts, the step over an instruction) is
    recorded in [hw], in order.
    The registers of the guest that a handler reads are its arguments; the
    debug output and the PCI probe are left out. *)
From S2P Require Import Prelude Guard Bits EptEntry X64Entry PageSource EptMmap Mtrrs EptHelpers GuestPaging.
Open Scope Z_scope.

Definition GPU_BUFFER_NUM : Z := 100.
Definition GPU_PADDR_NUM : Z := 1024 * 1024.
Definition ENCLU : Z := 0xd7010f.
Definition MAX_PHYS_ADDR : Z := 0x1200000000.
Definition EINIT_EXIT : Z := 2.
Definition EREMOVE_EXIT : Z := 3.
Definition ERESUME_EXIT : Z := 3.

Definition ALIGN (x a : Z) : Z := mul64 (x / a) a.

Record gpu_buffer_t := Gpu_buffer { gb_vaddr : Z; gb_paddr : Z; gb_size : Z; gb_num_pages : Z }.

Record gpu_state := Gpu {
  count_gpu_buffers : Z;
  gpu_buffers : gmap Z gpu_buffer_t;
  count_gpu_paddrs : Z;
  gpu_paddrs : gmap Z Z;
}.

Record enclave_state := Enclave {
  current_enclave_cr3 : Z;
  enclave_vcpuid : Z;
  enclave_aep : Z;
  enclave_running : bool;
  page_num : Z;
  count_sgx_paddrs : Z;
  sgx_vaddrs : gmap Z Z;
  sgx_guest_pte_shadow : gmap Z Z;
  channel_paddr : Z;
  channel_map : option (list Z);
}.

(** What is done to the processor. *)
Inductive hw_event :=
| Enable_encls
| Enable_ept
| Set_eptp (phys : Z)
| Invept_global
| Set_encls_bitmap (v : Z)
| Enable_monitor_trap
| Inject_interrupt (vector : Z)
| Trap_next_window
| Ipi_init_all_not_self
| Advance.

Record hook (A : Type) := Hook {
  g_guest_map : mmap A;
  epc : epc_state;
  gpu : gpu_state;
  enclave : enclave_state;
  ept_pointer : Z;
  flag_epc : bool;
  flag_ept : bool;
  m_vectors : list Z;
  hw : list hw_event;
}.
Arguments Hook {A}. Arguments g_guest_map {A}. Arguments epc {A}. Arguments gpu {A}. Arguments enclave {A}.
Arguments ept_pointer {A}. Arguments flag_epc {A}. Arguments flag_ept {A}. Arguments m_vectors {A}. Arguments hw {A}.

(** A conversion to [int], and back to 64 bits in a comparison. *)
Definition to_int (x : Z) : Z := (x + 2 ^ 31) mod 2 ^ 32 - 2 ^ 31.

Section Hook.
Context {A : Type} `{PageSource A}.
Context (read64 : Z -> Z).
Local Open Scope vmm_scope.
Notation hook := (hook A).

Definition with_map (m : mmap A) (h : hook) : hook :=
  Hook m (epc h) (gpu h) (enclave h) (ept_pointer h) (flag_epc h) (flag_ept h) (m_vectors h) (hw h).
Definition with_epcs (e : epc_state) (h : hook) : hook :=
  Hook (g_guest_map h) e (gpu h) (enclave h) (ept_pointer h) (flag_epc h) (flag_ept h) (m_vectors h) (hw h).
Definition with_gpu (g : gpu_state) (h : hook) : hook :=
  Hook (g_guest_map h) (epc h) g (enclave h) (ept_pointer h) (flag_epc h) (flag_ept h) (m_vectors h) (hw h).
Definition with_enclave (e : enclave_state) (h : hook) : hook :=
  Hook (g_guest_map h) (epc h) (gpu h) e (ept_pointer h) (flag_epc h) (flag_ept h) (m_vectors h) (hw h).
Definition with_pointer (p : Z) (h : hook) : hook :=
  Hook (g_guest_map h) (epc h) (gpu h) (enclave h) p (flag_epc h) (flag_ept h) (m_vectors h) (hw h).
Definition with_flags (f1 f2 : bool) (h : hook) : hook :=
  Hook (g_guest_map h) (epc h) (gpu h) (enclave h) (ept_pointer h) f1 f2 (m_vectors h) (hw h).
Definition with_vectors (v : list Z) (h : hook) : hook :=
  Hook (g_guest_map h) (epc h) (gpu h) (enclave h) (ept_pointer h) (flag_epc h) (flag_ept h) v (hw h).
Definition with_hw (l : list hw_event) (h : hook) : hook :=
  Hook (g_guest_map h) (epc h) (gpu h) (enclave h) (ept_pointer h) (flag_epc h) (flag_ept h) (m_vectors h) l.

Definition set_running (b : bool) (h : hook) : hook :=
  let e := enclave h in
  with_enclave (Enclave (current_enclave_cr3 e) (enclave_vcpuid e) (enclave_aep e) b (page_num e) (count_sgx_paddrs e)
    (sgx_vaddrs e) (sgx_guest_pte_shadow e) (channel_paddr e) (channel_map e)) h.
Definition set_channel (p : Z) (c : option (list Z)) (h : hook) : hook :=
  let e := enclave h in
  with_enclave (Enclave (current_enclave_cr3 e) (enclave_vcpuid e) (enclave_aep e) (enclave_running e) (page_num e)
    (count_sgx_paddrs e) (sgx_vaddrs e) (sgx_guest_pte_shadow e) p c) h.

Definition emit (e : hw_event) : M hook unit := modify (fun h => with_hw (hw h ++ [e]) h).

(** An operation on the map, or on the search of the guest's tables. *)
Definition on_map {B} (m : M (mmap A) B) : M hook B := fun h =>
  match m (g_guest_map h) with Ok b s => Ok b (with_map s h) | Err e s => Err e (with_map s h) end.
Definition on_epc {B} (m : M epc_state B) : M hook B := fun h =>
  match m (epc h) with Ok b s => Ok b (with_epcs s h) | Err e s => Err e (with_epcs s h) end.

(** [a[i]] of an array of [n] elements. *)
Definition load (n : Z) (a : gmap Z Z) (i : Z) : M hook Z :=
  if (0 <=? i) && (i <? n) then ret (default 0 (a !! i)) else throw segfault.

(** [eapis()->set_eptp(g_guest_map)] *)
Definition set_eptp : M hook unit :=
  h <- get ;;
  (if ept_pointer h =? 0 then emit Enable_ept else ret tt) ;;;
  p <- on_map eptp ;;
  modify (with_pointer p) ;;;
  emit (Set_eptp p).

(** [tmp_pte = g_guest_map.entry(addr); flag(tmp_pte);] for the one or more
    flags that [f] changes in the entry. *)
Definition change_entry (addr : Z) (f : Z -> Z) : M hook unit :=
  on_map (tmp_pte <- entry addr ;; e <- read tmp_pte ;; write tmp_pte (f e)).

Definition enable_rw (e : Z) : Z := enable pt.write_access (enable pt.read_access e).
Definition disable_rw (e : Z) : Z := disable pt.write_access (disable pt.read_access e).

Definition remove_permission_gpu_buffers : M hook bool :=
  h <- get ;;
  for_each (seqZ 0 (count_gpu_paddrs (gpu h))) (fun k =>
    addr <- load GPU_PADDR_NUM (gpu_paddrs (gpu h)) k ;; change_entry addr disable_rw) ;;;
  set_eptp ;;; emit Invept_global ;;; ret true.

Definition grant_permission_gpu_buffers : M hook bool :=
  h <- get ;;
  for_each (seqZ 0 (count_gpu_paddrs (gpu h))) (fun k =>
    addr <- load GPU_PADDR_NUM (gpu_paddrs (gpu h)) k ;; change_entry addr enable_rw) ;;;
  set_eptp ;;; emit Invept_global ;;; ret true.

Definition grant_permission_channel : M hook bool :=
  h <- get ;;
  change_entry (channel_paddr (enclave h)) enable_rw ;;;
  set_eptp ;;; emit Invept_global ;;; ret true.

Definition remove_permission_channel : M hook bool :=
  h <- get ;;
  change_entry (channel_paddr (enclave h)) disable_rw ;;;
  set_eptp ;;; emit Invept_global ;;; ret true.

Definition remove_permission_bars : M hook bool :=
  for_each (seqZ 0 10) (fun k => change_entry (0xa0000000 + 4096 * k) disable_rw) ;;;
  set_eptp ;;; emit Invept_global ;;; ret true.

Definition grant_permission_bars : M hook bool :=
  for_each (seqZ 0 10) (fun k => change_entry (0xa0000000 + 4096 * k) enable_rw) ;;;
  set_eptp ;;; emit Invept_global ;;; ret true.

Definition add_sgx_paddr (paddr : Z) : M hook unit :=
  h <- get ;;
  let n := count_sgx_paddrs (enclave h) in
  if (0 <=? n) && (n <? SGX_PAGES) then
    modify (fun h => with_epcs (with_pages (modified_pages (epc h)) (<[n := paddr]> (sgx_paddrs (epc h))) (epc h)) h) ;;;
    modify (fun h => let e := enclave h in
      with_enclave (Enclave (current_enclave_cr3 e) (enclave_vcpuid e) (enclave_aep e) (enclave_running e) (page_num e)
        (n + 1) (sgx_vaddrs e) (sgx_guest_pte_shadow e) (channel_paddr e) (channel_map e)) h)
  else throw segfault.

(** The change of granularity before a page is put into a table. *)
Definition to_4k (paddr : Z) : M hook unit :=
  b <- on_map (is_2m (upper paddr pd.from)) ;;
  if b : bool then on_map (identity_map_convert_2m_to_4k (upper paddr pd.from) read_write_execute write_back) else ret tt.
Definition to_2m (paddr : Z) : M hook unit :=
  b <- on_map (is_4k (upper paddr pd.from)) ;;
  if b : bool then on_map (identity_map_convert_4k_to_2m (upper paddr pd.from) read_write_execute write_back) else ret tt.

Definition add_epc_address : M hook bool :=
  h <- get ;;
  let size := epc_size (epc h) in
  let pages := if negb (size mod 4096 =? 0) then size / 4096 + 1 else size / 4096 in
  for_each (seqZ 0 pages) (fun i =>
    let cur_paddr := add64 (epc_base_address (epc h)) (4096 * i) in
    to_4k cur_paddr ;;; add_sgx_paddr cur_paddr) ;;;
  ret true.

Definition add_epc_address_2m : M hook bool :=
  h <- get ;;
  let size := epc_size (epc h) in
  let pages := if negb (size mod (4096 * 512) =? 0) then size / (4096 * 512) + 1 else size / (4096 * 512) in
  for_each (seqZ 0 pages) (fun i =>
    let cur_paddr := add64 (epc_base_address (epc h)) (4096 * 512 * i) in
    to_2m cur_paddr ;;; add_sgx_paddr cur_paddr) ;;;
  ret true.

(** [sgx_guest_pte_shadow[k] = ...] *)
Definition shadow (k e : Z) : M hook unit :=
  modify (fun h => let c := enclave h in
    with_enclave (Enclave (current_enclave_cr3 c) (enclave_vcpuid c) (enclave_aep c) (enclave_running c) (page_num c)
      (count_sgx_paddrs c) (sgx_vaddrs c) (<[k := e]> (sgx_guest_pte_shadow c)) (channel_paddr c) (channel_map c)) h).

(** The loop that the three variants of [trap_enclave_entry] share: [convert]
    is the change of granularity, [n] the number of pages. *)
Definition trap_pages (convert : Z -> M hook unit) (n : Z) : M hook unit :=
  for_each (seqZ 0 n) (fun k =>
    h <- get ;;
    paddr <- load SGX_PAGES (sgx_paddrs (epc h)) k ;;
    convert paddr ;;;
    tmp_pte <- on_map (entry paddr) ;;
    r <- on_map (entry paddr) ;;
    e <- on_map (read r) ;;
    shadow k e ;;;
    on_map (e <- read tmp_pte ;; write tmp_pte (disable pt.execute_access e))) ;;;
  set_eptp ;;; emit Invept_global.

Definition trap_enclave_entry_new_2m : M hook unit :=
  h <- get ;; trap_pages to_2m (count_sgx_paddrs (enclave h)).
Definition trap_enclave_entry_new : M hook unit :=
  h <- get ;; trap_pages to_4k (count_sgx_paddrs (enclave h)).
Definition trap_enclave_entry : M hook unit :=
  h <- get ;; trap_pages to_4k (modified_pages (epc h)).

Definition find_enclave_channel (guest_cr3 : Z) (page : list Z) : M hook bool :=
  p <- custom_virt_to_phys_with_cr3 read64 0x100000 guest_cr3 ;;
  h <- get ;;
  modify (set_channel p (channel_map (enclave h))) ;;;
  if p =? 0 then ret false else
  make_unique_map p ;;;
  modify (set_channel p (Some page)) ;;;
  ret true.

(** ** GPU buffers *)

(** [gpu_buffers[i]]; an element that was never written is zero. *)
Definition buffer_at (h : hook) (i : Z) : gpu_buffer_t := default (Gpu_buffer 0 0 0 0) (gpu_buffers (gpu h) !! i).

(** The loop of [check_buffer_exists] at the indices that are left. *)
Fixpoint buffer_loop (l : list Z) (vaddr : Z) : M hook bool :=
  match l with
  | [] => ret false
  | i :: l' =>
    h <- get ;;
    if (0 <=? i) && (i <? GPU_BUFFER_NUM) then
      if gb_vaddr (buffer_at h i) =? vaddr then ret true else buffer_loop l' vaddr
    else throw segfault
  end.

Definition check_buffer_exists (vaddr : Z) : M hook bool :=
  h <- get ;; buffer_loop (seqZ 0 (count_gpu_buffers (gpu h))) vaddr.

Definition add_gpu_paddr (paddr : Z) : M hook unit :=
  h <- get ;;
  let g := gpu h in
  let n := count_gpu_paddrs g in
  if (0 <=? n) && (n <? GPU_PADDR_NUM) then
    modify (with_gpu (Gpu (count_gpu_buffers g) (gpu_buffers g) (n + 1) (<[n := paddr]> (gpu_paddrs g))))
  else throw segfault.

(** [gpu_buffers[count_gpu_buffers] = b] *)
Definition store_buffer (b : gpu_buffer_t) : M hook unit :=
  h <- get ;;
  let g := gpu h in
  let n := count_gpu_buffers g in
  if (0 <=? n) && (n <? GPU_BUFFER_NUM) then
    modify (with_gpu (Gpu n (<[n := b]> (gpu_buffers g)) (count_gpu_paddrs g) (gpu_paddrs g)))
  else throw segfault.

Definition next_buffer : M hook unit :=
  modify (fun h => let g := gpu h in
    with_gpu (Gpu (count_gpu_buffers g + 1) (gpu_buffers g) (count_gpu_paddrs g) (gpu_paddrs g)) h).

(** The body that [add_gpu_buffer] and [add_gpu_buffer_2m] share: [pages] pages
    of [step] bytes.  The record is written first without its number of pages,
    whose old value it keeps. *)
Definition add_buffer (convert : Z -> M hook unit) (vaddr paddr size pages step : Z) : M hook bool :=
  h <- get ;;
  store_buffer (Gpu_buffer vaddr paddr size (gb_num_pages (buffer_at h (count_gpu_buffers (gpu h))))) ;;;
  for_each (seqZ 0 pages) (fun i =>
    let cur_paddr := add64 paddr (step * i) in
    convert cur_paddr ;;; add_gpu_paddr cur_paddr) ;;;
  store_buffer (Gpu_buffer vaddr paddr size pages) ;;;
  next_buffer ;;;
  ret true.

Definition add_gpu_buffer (vaddr paddr size : Z) : M hook bool :=
  if negb (paddr =? 0) then
    let pages := if negb (size mod 4096 =? 0) then size / 4096 + 1 else size / 4096 in
    add_buffer to_4k vaddr paddr size pages 4096
  else ret false.

Definition add_gpu_buffer_2m (vaddr paddr size : Z) : M hook bool :=
  if negb (paddr =? 0) then
    let pages := mul64 (size / 4096) 512 in
    let pages := if negb (size mod (4096 * 512) =? 0) then add64 pages 1 else pages in
    add_buffer to_2m vaddr paddr size pages (4096 * 512)
  else ret false.

Definition debug_dma (buf size guest_cr3 : Z) : M hook unit :=
  let num_pages := if negb (size mod 4096 =? 0) then size / 4096 + 1 else size / 4096 in
  for_each (seqZ 0 num_pages) (fun i =>
    paddr <- custom_virt_to_phys_with_cr3 read64 (add64 buf (i * 4096)) guest_cr3 ;;
    add_gpu_paddr paddr).

(** ** The channel between an enclave and the hypervisor *)

(** The channel's page as 64-bit words ([channel_map.get()] is a
    [uintptr_t *]); the first byte is the command. *)
Definition channel : M hook (list Z) :=
  h <- get ;; match channel_map (enclave h) with Some w => ret w | None => throw null_deref end.
Definition channel_word (w : list Z) (i : nat) : Z := default 0 (w !! i).
Definition answer : M hook unit :=
  w <- channel ;;
  h <- get ;;
  modify (set_channel (channel_paddr (enclave h))
    (Some (<[0%nat := Z.lor (Z.land (channel_word w 0) (not64 0xFF)) 0x6f]> w))).

Definition read_enclave_channel (guest_cr3 : Z) : M hook bool :=
  w <- channel ;;
  let t := Z.land (channel_word w 0) 0xFF in
  (if t =? 0x65 then
     remove_permission_gpu_buffers ;;; answer
   else if t =? 0x6d then
     let buf := channel_word w 1 in
     let size := channel_word w (1 + 8) in
     b <- check_buffer_exists buf ;;
     (if b : bool then ret tt else
        paddr <- custom_virt_to_phys_with_cr3 read64 buf guest_cr3 ;;
        add_gpu_buffer_2m buf paddr size ;;; ret tt) ;;;
     answer
   else if t =? 0x6e then
     emit Ipi_init_all_not_self ;;; grant_permission_gpu_buffers ;;; answer
   else if t =? 0x69 then answer
   else if t =? 0x64 then answer
   else ret tt) ;;;
  ret true.

(** ** Exit handlers *)

Definition gpu_prog_init (cr3 : Z) : M hook unit := on_epc (access_all_pml4 read64 cr3).

(** [guard_exceptions] keeps an exception from leaving the handler, not a fault;
    then the guest is moved past the instruction. *)
Definition vmcall_handler (rax cr3 : Z) : M hook bool :=
  guard_exceptions 0 (if rax =? 0 then gpu_prog_init cr3 else ret tt) ;;;
  emit Advance ;;; ret true.

(** The result is whether the handler asks not to disable the exit. *)
Definition interrupt_window_handler : M hook bool :=
  h <- get ;;
  match last (m_vectors h) with
  | None => throw segfault
  | Some v =>
    emit (Inject_interrupt v) ;;;
    modify (with_vectors (take (length (m_vectors h) - 1) (m_vectors h))) ;;;
    h <- get ;; ret (negb (bool_decide (m_vectors h = [])))
  end.

Definition external_interrupt_handler (vcpuid vector cr3 : Z) (window_open : bool) : M hook bool :=
  h <- get ;;
  (if enclave_running (enclave h) && (vcpuid =? w64 (enclave_vcpuid (enclave h))) then
     read_enclave_channel cr3 ;;; trap_enclave_entry_new_2m ;;; modify (set_running false)
   else ret tt) ;;;
  (if window_open then emit (Inject_interrupt vector)
   else emit Trap_next_window ;;; modify (fun h => with_vectors (m_vectors h ++ [vector]) h)) ;;;
  ret true.

(** [sgx_vaddrs[i] = 0; sgx_paddrs[i] = 0;] *)
Definition clear_page (i : Z) : M hook unit :=
  if (0 <=? i) && (i <? SGX_PAGES) then
    modify (fun h => let e := enclave h in
      with_epcs (with_pages (modified_pages (epc h)) (<[i := 0]> (sgx_paddrs (epc h))) (epc h))
        (with_enclave (Enclave (current_enclave_cr3 e) (enclave_vcpuid e) (enclave_aep e) (enclave_running e) (page_num e)
          (count_sgx_paddrs e) (<[i := 0]> (sgx_vaddrs e)) (sgx_guest_pte_shadow e) (channel_paddr e) (channel_map e)) h))
  else throw segfault.

Definition encls_handler (rax cr3 : Z) : M hook bool :=
  if rax =? EREMOVE_EXIT then
    modify (set_running false) ;;;
    emit (Set_encls_bitmap (shl64 1 EINIT_EXIT)) ;;;
    modify (fun h => let e := enclave h in
      with_epcs (with_globals 0 0 0 0 (epc h))
        (with_enclave (Enclave 0 (enclave_vcpuid e) (enclave_aep e) (enclave_running e) 0 (count_sgx_paddrs e)
          (sgx_vaddrs e) (sgx_guest_pte_shadow e) (channel_paddr e) (channel_map e)) h)) ;;;
    h <- get ;;
    for_each (seqZ 0 (modified_pages (epc h))) clear_page ;;;
    modify (fun h => let g := gpu h in with_gpu (Gpu 0 (gpu_buffers g) 0 (gpu_paddrs g)) h) ;;;
    modify (fun h => let e := enclave h in
      with_epcs (with_pages 0 (sgx_paddrs (epc h)) (epc h))
        (with_enclave (Enclave (current_enclave_cr3 e) (-1) (enclave_aep e) (enclave_running e) (page_num e) 0
          (sgx_vaddrs e) (sgx_guest_pte_shadow e) (channel_paddr e) (channel_map e)) h)) ;;;
    ret true
  else
    modify (fun h => let e := enclave h in
      with_epcs (with_pages 0 (sgx_paddrs (epc h)) (epc h))
        (with_enclave (Enclave cr3 (enclave_vcpuid e) (enclave_aep e) (enclave_running e) (page_num e) (count_sgx_paddrs e)
          (sgx_vaddrs e) (sgx_guest_pte_shadow e) (channel_paddr e) (channel_map e)) h)) ;;;
    add_epc_address_2m ;;;
    modify (set_running false) ;;;
    trap_enclave_entry_new_2m ;;;
    remove_permission_channel ;;;
    emit (Set_encls_bitmap (shl64 1 EREMOVE_EXIT)) ;;;
    ret true.

Definition monitor_trap_handler : M hook bool := ret true.

Definition ept_write_violation_handler (gpa rax rip : Z) : M hook bool :=
  (if (ENCLU =? Z.land rip 0xffffff) && (rax =? ERESUME_EXIT) then grant_permission_channel ;;; ret tt else ret tt) ;;;
  grant_permission_channel ;;;
  emit Enable_monitor_trap ;;;
  change_entry (ALIGN gpa 4096) (enable pt.write_access) ;;;
  set_eptp ;;; emit Invept_global ;;; ret true.

Definition ept_read_violation_handler (gpa : Z) : M hook bool :=
  emit Enable_monitor_trap ;;;
  change_entry (ALIGN gpa 4096) (enable pt.read_access) ;;;
  set_eptp ;;; emit Invept_global ;;; ret true.

Definition ept_execute_violation_handler (gpa vcpuid rip : Z) : M hook bool :=
  modify (fun h => let e := enclave h in
    with_enclave (Enclave (current_enclave_cr3 e) (to_int vcpuid) rip true (page_num e) (count_sgx_paddrs e)
      (sgx_vaddrs e) (sgx_guest_pte_shadow e) (channel_paddr e) (channel_map e)) h) ;;;
  h <- get ;;
  for_each (seqZ 0 (modified_pages (epc h))) (fun i =>
    addr <- load SGX_PAGES (sgx_paddrs (epc h)) i ;;
    change_entry addr (enable pt.execute_access) ;;; set_eptp) ;;;
  change_entry (ALIGN gpa 4096) (enable pt.execute_access) ;;;
  set_eptp ;;; emit Invept_global ;;; ret true.

(** [val] is the new CR3, [cr3] the guest's. *)
Definition wrcr3_handler (val cr3 : Z) : M hook bool :=
  h <- get ;;
  if val =? current_enclave_cr3 (enclave h) then ret false else
  (if enclave_running (enclave h) && (cr3 =? current_enclave_cr3 (enclave h)) then modify (set_running false) else ret tt) ;;;
  ret false.

(** The parts of the constructor that touch the shared state.  [m] is the
    memory types of the machine, the registers are what [cpuid] returns. *)
Definition vcpu_new (m : mtrrs) (eax ebx ecx edx : Z) : M hook unit :=
  emit Enable_encls ;;;
  emit (Set_encls_bitmap (Z.lor (shl64 1 EINIT_EXIT) (shl64 1 EREMOVE_EXIT))) ;;;
  h <- get ;;
  (if flag_epc h then ret tt else
     on_epc (locate_epc eax ebx ecx edx) ;;; modify (fun h => with_flags true (flag_ept h) h)) ;;;
  (if flag_ept h then ret tt else
     on_map (identity_map m 0 MAX_PHYS_ADDR read_write_execute) ;;; modify (fun h => with_flags (flag_epc h) true h)) ;;;
  set_eptp ;;;
  remove_permission_channel ;;; ret tt.
End Hook.

(** ** Encryption of a buffer *)

(** The key: the letters A to I and the terminator of the string. *)
Definition key : list Z := [65; 66; 67; 68; 69; 70; 71; 72; 73; 0].

(** The bytes of [src] encrypted into a new buffer. *)
Definition encrypt (src : list Z) : list Z :=
  imap (fun i b => Z.lxor b (default 0 (key !! (i mod 10)%nat))) src.
Definition decrypt (src : list Z) : list Z := encrypt src.
