(* ===== verification/HookProofs.v ===== *)
(** * Correctness of the hooks

    What the handlers do to the permissions of guest memory, which pages they
    leave alone, and the state of the channel between enclave and hypervisor. *)
From S2P Require Import Prelude Bits EptEntry PageSource EptMmap EptTables EptProofs EptSpec EptAccess.
From S2P Require Import Mtrrs EptHelpers GuestPaging Hook.
Open Scope Z_scope.

(** ** Changes of an entry's permissions *)

(** A function on entries that sets some permission bits, the lowest three, to
    fixed values. *)
Class Permission (f : Z -> Z) := {
  pe_mask : Z -> option bool;
  pe_u64 e : u64 e -> u64 (f e);
  pe_bits e b : u64 e -> 0 <= b -> Z.testbit (f e) b = match pe_mask b with Some v => v | None => Z.testbit e b end;
  pe_low b : 3 <= b -> pe_mask b = None;
}.

Definition permission (g : flag) : bool := (0 <=? flag_from g) && (flag_from g <=? 2).

Lemma permission_wf g : permission g = true -> 0 <= flag_from g <= 2 /\ flag_wf g.
Proof. unfold permission, flag_wf. lia. Qed.

#[export, refine] Instance enable_permission g (Hg : permission g = true) : Permission (enable g) :=
  { pe_mask := fun b => if b =? flag_from g then Some true else None }.
Proof.
  - intros e He. by apply u64_enable.
  - intros e b He Hb. destruct (permission_wf g Hg) as [_ Hw]. unfold enable. rewrite testbit_set_bit by done. by destruct (b =? flag_from g).
  - intros b Hb. destruct (permission_wf g Hg) as [Hr _]. by replace (b =? flag_from g) with false by lia.
Defined.

#[export, refine] Instance disable_permission g (Hg : permission g = true) : Permission (disable g) :=
  { pe_mask := fun b => if b =? flag_from g then Some false else None }.
Proof.
  - intros e He. by apply u64_disable.
  - intros e b He Hb. destruct (permission_wf g Hg) as [_ Hw]. unfold disable. rewrite testbit_clear_bit by done. by destruct (b =? flag_from g).
  - intros b Hb. destruct (permission_wf g Hg) as [Hr _]. by replace (b =? flag_from g) with false by lia.
Defined.

#[export, refine] Instance compose_permission f1 f2 `{Permission f1, Permission f2} : Permission (fun e => f2 (f1 e)) :=
  { pe_mask := fun b => match pe_mask (f := f2) b with Some v => Some v | None => pe_mask (f := f1) b end }.
Proof.
  - intros e He. by apply pe_u64, pe_u64.
  - intros e b He Hb. rewrite !pe_bits by (done || by apply pe_u64). by destruct (pe_mask (f := f2) b).
  - intros b Hb. by rewrite !pe_low.
Defined.

#[export] Instance enable_rw_permission : Permission enable_rw :=
  compose_permission _ _ (H := enable_permission pt.read_access eq_refl) (H0 := enable_permission pt.write_access eq_refl).
#[export] Instance disable_rw_permission : Permission disable_rw :=
  compose_permission _ _ (H := disable_permission pt.read_access eq_refl) (H0 := disable_permission pt.write_access eq_refl).

Section Bits.
Context (f : Z -> Z) `{Permission f}.

Lemma pe_large l e : u64 e -> large l (f e) = large l e.
Proof.
  intros He. destruct l as [|[|[|l]]]; try done; unfold large;
    rewrite !is_enabled_testbit by (unfold flag_wf; cbn; lia); rewrite pe_bits by (done || cbn; lia); by rewrite pe_low by (cbn; lia).
Qed.

Lemma pe_idem e : u64 e -> f (f e) = f e.
Proof.
  intros He. apply Z.bits_inj'. intros b Hb. rewrite !pe_bits by (done || by apply pe_u64). by destruct (pe_mask b).
Qed.

Lemma pe_frame e : u64 e -> frame_of (f e) = frame_of e.
Proof.
  intros He. unfold frame_of, field_get, get_bits. f_equal. apply Z.bits_inj'. intros b Hb. rewrite !Z.land_spec, pe_bits by done.
  destruct (decide (3 <= b)) as [Hl|Hl]; [by rewrite pe_low|].
  assert (b = 0 \/ b = 1 \/ b = 2) as Hc by lia. destruct Hc as [->|[->| ->]]; by rewrite !andb_false_r.
Qed.
End Bits.

(** ** Permissions of guest memory *)

Section Map.
Context {A : Type} `{PageSourceLaws A}.
Context (pv : Z -> option Z) (root : Z) (others : gset Z).
Local Open Scope vmm_scope.
Implicit Types h : hook A.
Notation walk := (walk pv root).
Notation ok := (mmap_ok pv root others).

(** The mapping of a state, and the pages of [w] that hold an address of [P]. *)
Definition mapping h : Z -> option (nat * Z) := walk (heap (g_guest_map h)).

Definition touched (w : Z -> option (nat * Z)) (P : list Z) (va : Z) : bool :=
  existsb (fun k => match w k with Some (l, _) => bool_decide (same_entry l k va) | None => false end) P.

(** The mapping [w] with the entries of the pages of [P] changed by [f]. *)
Definition permitted (f : Z -> Z) (w : Z -> option (nat * Z)) (P : list Z) (va : Z) : option (nat * Z) :=
  match w va with
  | Some (l, e) => if touched w P va then Some (l, f e) else Some (l, e)
  | None => None
  end.

(** Addresses of one page have one walk. *)
Lemma walk_page t va va' l e : walk t va = Some (l, e) -> same_entry l va va' -> walk t va' = Some (l, e).
Proof.
  intros Hw Hs. destruct (walk_found _ _ _ _ _ _ Hw) as (v & Hv & He). destruct (walk_level _ _ _ _ _ _ Hw) as (Hl & Hlg & Hnz).
  apply same_entry_inv in Hs as [E1 E2]; [|lia]. rewrite <- E1 in Hv. rewrite <- E2 in He.
  assert (3 - (3 - l) = l)%nat as El by lia.
  pose proof (walk_entry pv root t va' (3 - l) v e ltac:(lia) Hv) as Hx. rewrite El in Hx.
  rewrite Hx by (done || by right). by replace (e =? 0) with false by lia.
Qed.

Lemma walk_u64 s va l e : ok s -> walk (heap s) va = Some (l, e) -> u64 e.
Proof.
  intros Hok Hw. destruct (walk_found _ _ _ _ _ _ Hw) as (v & Hv & He).
  destruct (t_page _ _ _ (mo_tables _ _ _ _ Hok) _ _ Hv) as (t & Hh & _ & Hu). unfold entry_at in He.
  destruct (0 <=? _); [|done]. rewrite Hh in He. cbn [mbind option_bind] in He. by eapply Forall_lookup_1 in He.
Qed.

Lemma touched_mapped t P va : touched (walk t) P va = true -> exists k l e,
  k ∈ P /\ walk t k = Some (l, e) /\ same_entry l k va /\ walk t va = Some (l, e).
Proof.
  unfold touched. intros Hx. apply existsb_exists in Hx as (k & Hk & Hx). apply list_elem_of_In in Hk.
  destruct (EptTables.walk pv root t k) as [[l e]|] eqn:E; [|done]. apply bool_decide_eq_true in Hx.
  exists k, l, e. split_and!; try done. by eapply walk_page.
Qed.

(** A change of the permissions of one mapped page. *)
Lemma change_entry_ok f `{!Permission f} va l e h : ok (g_guest_map h) -> mapping h va = Some (l, e) -> f e <> 0 ->
  exists s', change_entry va f h = Ok tt (with_map s' h) /\ ok s' /\
    forall va', walk (heap s') va' = if decide (same_entry l va va') then Some (l, f e) else mapping h va'.
Proof.
  intros Hok Hw Hnz. unfold change_entry, on_map.
  destruct (entry_found pv root others va l e (g_guest_map h) Hok Hw) as (s1 & v & E1 & Hok1 & Hh1 & Hv & He).
  destruct (walk_level _ _ _ _ _ _ Hw) as (Hl & Hlg & _). pose proof (walk_u64 _ _ _ _ Hok Hw) as Hu.
  erewrite bind_ok by exact E1. erewrite bind_ok by (apply read_ok; [apply level_index_range|by rewrite Hh1]).
  destruct (write_found pv root others va l e v (f e) s1) as (s2 & E2 & Hok2 & Hw2); try done; [by rewrite Hh1|by rewrite Hh1| | |].
  - right. by rewrite (pe_large f).
  - by apply pe_u64.
  - rewrite E2. exists s2. split_and!; [done|done|]. intros va'. rewrite Hw2, Hh1. by replace (f e =? 0) with false by lia.
Qed.

(** What the pages of a list must be for [f] to be applied to them: mapped, and
    not left without any content. *)
Definition changeable (f : Z -> Z) (w : Z -> option (nat * Z)) (P : list Z) : Prop :=
  forall k, k ∈ P -> exists l e, w k = Some (l, e) /\ f e <> 0.

Lemma change_step f `{!Permission f} w P va l e h : ok (g_guest_map h) ->
  (forall va', mapping h va' = permitted f w P va') -> (exists s0, ok s0 /\ w = walk (heap s0)) ->
  w va = Some (l, e) -> f e <> 0 ->
  exists s', change_entry va f h = Ok tt (with_map s' h) /\ ok s' /\
    forall va', walk (heap s') va' = permitted f w (P ++ [va]) va'.
Proof.
  intros Hok Hp (s0 & Hok0 & ->) Hw Hnz. pose proof (walk_u64 _ _ _ _ Hok0 Hw) as Hu.
  set (e1 := if touched (walk (heap s0)) P va then f e else e).
  assert (mapping h va = Some (l, e1)) as Hm.
  { rewrite Hp. unfold permitted, e1. rewrite Hw. by destruct (touched _ P va). }
  assert (f e1 = f e) as Hf by (unfold e1; destruct (touched _ P va); [by rewrite (pe_idem f)|done]).
  destruct (change_entry_ok f va l e1 h Hok Hm) as (s' & E & Hok' & Hw'); [by rewrite Hf|].
  exists s'. split_and!; [done|done|]. intros va'. rewrite Hw', Hf. unfold permitted, touched. rewrite existsb_app.
  cbn [existsb]. rewrite Hw, orb_false_r. destruct (decide (same_entry l va va')) as [Hs|Hs].
  - rewrite (walk_page _ _ _ _ _ Hw Hs). rewrite (bool_decide_true _ Hs), orb_true_r. done.
  - rewrite (bool_decide_false _ Hs), orb_false_r. rewrite Hp. done.
Qed.

(** The same change to a list of pages. *)
Lemma change_each f `{!Permission f} w (g : Z -> Z) (body : Z -> M (hook A) unit) l : (exists s0, ok s0 /\ w = walk (heap s0)) ->
  changeable f w (g <$> l) -> (forall k h, k ∈ l -> body k h = change_entry (g k) f h) -> forall P h, ok (g_guest_map h) ->
  (forall va', mapping h va' = permitted f w P va') ->
  exists s', for_each l body h = Ok tt (with_map s' h) /\ ok s' /\ forall va', walk (heap s') va' = permitted f w (P ++ (g <$> l)) va'.
Proof.
  intros Hw. induction l as [|k l IH]; intros Hc Hb P h Hok Hm.
  - exists (g_guest_map h). split_and!; [by destruct h|done|]. intros va'. rewrite app_nil_r. apply Hm.
  - destruct (Hc (g k)) as (l0 & e & Hk & Hnz); [apply list_elem_of_here|].
    destruct (change_step f w P (g k) l0 e h Hok Hm Hw Hk Hnz) as (s1 & E1 & Hok1 & Hm1).
    destruct (IH) with (P := P ++ [g k]) (h := with_map s1 h) as (s2 & E2 & Hok2 & Hm2); [..|done|done|].
    + intros x Hx. apply Hc. by apply list_elem_of_further.
    + intros x h' Hx. apply Hb. by apply list_elem_of_further.
    + exists s2. cbn [for_each]. unfold bind. rewrite Hb by apply list_elem_of_here. rewrite E1. split_and!; [done|done|].
      intros va'. rewrite Hm2, <- app_assoc. done.
Qed.

(** [set_eptp] and the invalidation of cached translations: the processor runs
    on the map as it is, and nothing else changes. *)
Record published h h' : Prop := {
  pu_ok : ok (g_guest_map h');
  pu_map va : mapping h' va = mapping h va;
  pu_epc : epc h' = epc h;
  pu_gpu : gpu h' = gpu h;
  pu_enclave : enclave h' = enclave h;
  pu_vectors : m_vectors h' = m_vectors h;
  pu_hw : exists l, hw h' = hw h ++ l ++ [Set_eptp (ept_pointer h'); Invept_global];
}.

Lemma set_eptp_ok h : ok (g_guest_map h) -> exists s p, set_eptp h =
  Ok tt (Hook s (epc h) (gpu h) (enclave h) p (flag_epc h) (flag_ept h) (m_vectors h)
    (hw h ++ (if ept_pointer h =? 0 then [Enable_ept] else []) ++ [Set_eptp p])) /\ ok s /\ heap s = heap (g_guest_map h).
Proof.
  intros Hok. destruct (eptp_ok pv root others (g_guest_map h) Hok) as (p & E & Hok' & Hh).
  exists (out_state (eptp (g_guest_map h))), p. split_and!; [|done|done]. unfold set_eptp. rewrite bind_get.
  destruct (ept_pointer h =? 0).
  - unfold emit. erewrite bind_ok by done. unfold on_map. unfold bind at 1. cbn [g_guest_map with_hw]. rewrite E. cbn [out_state].
    unfold bind, modify, with_pointer, with_map, with_hw. cbn. by rewrite <- app_assoc.
  - erewrite bind_ok by done. unfold on_map. unfold bind at 1. rewrite E. done.
Qed.

Lemma publish h : ok (g_guest_map h) ->
  exists h', (set_eptp ;;; emit Invept_global ;;; ret true) h = Ok true h' /\ published h h'.
Proof.
  intros Hok. destruct (set_eptp_ok h Hok) as (s & p & E & Hok' & Hh). erewrite bind_ok by exact E. eexists. split; [done|].
  split; try done.
  - intros va. unfold mapping. cbn. by rewrite Hh.
  - exists (if ept_pointer h =? 0 then [Enable_ept] else []). cbn. by rewrite <- !app_assoc.
Qed.

(** The pages of the protected GPU buffers. *)
Definition gpu_addrs h : list Z :=
  (fun k => default 0 (gpu_paddrs (gpu h) !! k)) <$> seqZ 0 (count_gpu_paddrs (gpu h)).

(** [h'] is [h] with the permissions of the pages of [P] changed by [f], the
    processor told, and nothing else. *)
Record changed (f : Z -> Z) (P : list Z) h h' : Prop := {
  ch_ok : ok (g_guest_map h');
  ch_map va : mapping h' va = permitted f (mapping h) P va;
  ch_epc : epc h' = epc h;
  ch_gpu : gpu h' = gpu h;
  ch_enclave : enclave h' = enclave h;
  ch_vectors : m_vectors h' = m_vectors h;
  ch_hw : exists l, hw h' = hw h ++ l ++ [Set_eptp (ept_pointer h'); Invept_global];
}.

Lemma change_list f `{!Permission f} (g : Z -> Z) (body : Z -> M (hook A) unit) l h : ok (g_guest_map h) ->
  changeable f (mapping h) (g <$> l) -> (forall k h', k ∈ l -> body k h' = change_entry (g k) f h') ->
  exists h', (for_each l body ;;; set_eptp ;;; emit Invept_global ;;; ret true) h = Ok true h' /\ changed f (g <$> l) h h'.
Proof.
  intros Hok Hc Hb.
  destruct (change_each f (mapping h) g body l (ex_intro _ (g_guest_map h) (conj Hok eq_refl)) Hc Hb [] h Hok) as (s' & E & Hok' & Hm).
  { intros va. unfold permitted. by destruct (mapping h va) as [[]|]. }
  erewrite bind_ok by exact E. destruct (publish (with_map s' h) Hok') as (h' & E' & []). exists h'. split; [done|].
  split; try done. intros va. rewrite pu_map0. apply Hm.
Qed.

Lemma gpu_change f `{!Permission f} h : ok (g_guest_map h) -> count_gpu_paddrs (gpu h) <= GPU_PADDR_NUM ->
  changeable f (mapping h) (gpu_addrs h) ->
  exists h', (for_each (seqZ 0 (count_gpu_paddrs (gpu h))) (fun k =>
      addr <- load GPU_PADDR_NUM (gpu_paddrs (gpu h)) k ;; change_entry addr f) ;;;
    set_eptp ;;; emit Invept_global ;;; ret true) h = Ok true h' /\ changed f (gpu_addrs h) h h'.
Proof.
  intros Hok Hn Hc. apply (change_list f (fun k => default 0 (gpu_paddrs (gpu h) !! k))); [done|done|]. intros k h' Hk. apply elem_of_seqZ in Hk.
  unfold load. by replace ((0 <=? k) && (k <? GPU_PADDR_NUM)) with true by lia.
Qed.

(** Which pages a list touches depends on the sizes of the pages alone. *)
Lemma touched_level (w w' : Z -> option (nat * Z)) P va : (forall k, fst <$> w k = fst <$> w' k) -> touched w P va = touched w' P va.
Proof.
  intros Hl. unfold touched. induction P as [|k P IH]; [done|]. cbn [existsb]. rewrite IH. f_equal.
  specialize (Hl k). destruct (w k) as [[]|], (w' k) as [[]|]; cbn in Hl; by simplify_eq.
Qed.

Lemma permitted_level f w P va : fst <$> permitted f w P va = fst <$> w va.
Proof. unfold permitted. destruct (w va) as [[]|]; [|done]. by destruct (touched w P va). Qed.

Lemma rw_restored e : u64 e -> is_enabled pt.read_access e = true -> is_enabled pt.write_access e = true ->
  enable_rw (disable_rw e) = e.
Proof.
  intros He Hr Hw. rewrite is_enabled_testbit in Hr, Hw by done. cbn in Hr, Hw. apply Z.bits_inj'. intros b Hb.
  rewrite (pe_bits (f := enable_rw)) by (done || by apply (pe_u64 (f := disable_rw))). rewrite (pe_bits (f := disable_rw)) by done. cbn.
  destruct (Z.eqb_spec b 1) as [->|]; [done|]. by destruct (Z.eqb_spec b 0) as [->|].
Qed.

(** C3: [remove_permission_gpu_buffers], where the pages of the listed buffers
    are mapped, returns and takes the read and the write permission from the
    entry of every address that shares a page with a listed one, keeping its
    frame and its execute permission; every other address keeps its entry; and
    the last thing it does is to load the map and invalidate the cached
    translations. *)
Theorem gpu_buffers_locked h : ok (g_guest_map h) -> count_gpu_paddrs (gpu h) <= GPU_PADDR_NUM ->
  changeable disable_rw (mapping h) (gpu_addrs h) ->
  exists h', remove_permission_gpu_buffers h = Ok true h' /\ changed disable_rw (gpu_addrs h) h h' /\
    forall va l e, mapping h va = Some (l, e) -> exists e', mapping h' va = Some (l, e') /\
      if touched (mapping h) (gpu_addrs h) va
      then is_enabled pt.read_access e' = false /\ is_enabled pt.write_access e' = false /\
           is_enabled pt.execute_access e' = is_enabled pt.execute_access e /\ frame_of e' = frame_of e
      else e' = e.
Proof.
  intros Hok Hn Hc. destruct (gpu_change disable_rw h Hok Hn Hc) as (h' & E & Hch). exists h'.
  split_and!; [exact E|done|]. intros va l e Hw. rewrite (ch_map _ _ _ _ Hch). unfold permitted. rewrite Hw.
  pose proof (walk_u64 _ _ _ _ Hok Hw) as Hu. destruct (touched _ _ _); [|by eexists].
  eexists. split; [done|]. split_and!; [..|by apply (pe_frame disable_rw)];
    rewrite !is_enabled_testbit by done; rewrite (pe_bits (f := disable_rw)) by done; done.
Qed.

(** Where every page of the listed buffers can be read and written,
    [grant_permission_gpu_buffers] after [remove_permission_gpu_buffers] gives
    every address of guest memory the entry it had before. *)
Theorem gpu_permissions_restored h : ok (g_guest_map h) -> count_gpu_paddrs (gpu h) <= GPU_PADDR_NUM ->
  changeable disable_rw (mapping h) (gpu_addrs h) ->
  (forall k l e, k ∈ gpu_addrs h -> mapping h k = Some (l, e) ->
     is_enabled pt.read_access e = true /\ is_enabled pt.write_access e = true) ->
  exists h', (remove_permission_gpu_buffers ;;; grant_permission_gpu_buffers) h = Ok true h' /\
    forall va, mapping h' va = mapping h va.
Proof.
  intros Hok Hn Hc Hrw. destruct (gpu_change disable_rw h Hok Hn Hc) as (h1 & E1 & Hch).
  assert (gpu_addrs h1 = gpu_addrs h) as Ha by (unfold gpu_addrs; by rewrite (ch_gpu _ _ _ _ Hch)).
  destruct (gpu_change enable_rw h1) as (h2 & E2 & Hch2).
  - apply Hch.
  - by rewrite (ch_gpu _ _ _ _ Hch).
  - rewrite Ha. intros k Hk. destruct (Hc k Hk) as (l & e & Hw & _). rewrite (ch_map _ _ _ _ Hch). unfold permitted. rewrite Hw.
    destruct (touched _ _ _); eexists _, _; (split; [done|]); unfold enable_rw; by apply enable_nonzero.
  - exists h2. erewrite bind_ok by exact E1. split; [exact E2|]. intros va. rewrite (ch_map _ _ _ _ Hch2), Ha.
    unfold permitted at 1. rewrite (ch_map _ _ _ _ Hch). unfold permitted. destruct (mapping h va) as [[l e]|] eqn:Hw; [|done].
    rewrite (touched_level (mapping h1) (mapping h)) by (intros k; rewrite (ch_map _ _ _ _ Hch); apply permitted_level).
    destruct (touched (mapping h) (gpu_addrs h) va) eqn:Ht; [|done]. do 2 f_equal.
    destruct (touched_mapped _ _ _ Ht) as (k & l' & e' & Hk & Hwk & _ & Hwv). unfold mapping in Hw. rewrite Hwv in Hw. injection Hw as -> ->.
    destruct (Hrw k l e Hk Hwk) as [Hr Hwr]. by apply rw_restored; [eapply walk_u64|..].
Qed.

(** ** Traps on the entry of an enclave *)

Notation no_exec := (disable pt.execute_access).
#[local] Instance no_exec_permission : Permission no_exec := disable_permission pt.execute_access eq_refl.

Lemma same_2m a : u64 a -> same_entry 1 a (upper a pd.from).
Proof.
  intros Ha. change pd.from with 21. rewrite upper_sub by (done || lia). rewrite same_entry_page by lia. unfold page_number.
  change (12 + 9 * Z.of_nat 1) with 21. unfold u64 in Ha. Z.to_euclidean_division_equations. lia.
Qed.

(** A 2 MB page keeps its page-size bit, so it cannot become empty. *)
Lemma large_nonzero f `{!Permission f} e : u64 e -> large 1 e = true -> f e <> 0.
Proof. intros He Hl. apply (flag_bit_nonzero pd.ps); [done|]. rewrite <- Hl. apply (pe_large f 1 e He). Qed.

(** Nothing is converted where 2 MB pages are. *)
Lemma to_2m_ok paddr e h : ok (g_guest_map h) -> u64 paddr -> mapping h paddr = Some (1%nat, e) ->
  exists s', to_2m paddr h = Ok tt (with_map s' h) /\ ok s' /\ heap s' = heap (g_guest_map h).
Proof.
  intros Hok Hu Hw. pose proof (walk_page _ _ _ _ _ Hw (same_2m paddr Hu)) as Hw'.
  destruct (from_found pv root others _ _ _ _ Hok Hw') as (s' & E & Hok' & Hh). exists s'. split_and!; [|done|done].
  unfold to_2m, is_4k, on_map, bind. rewrite E. done.
Qed.

(** The state with an entry saved. *)
Definition shadowed (k e : Z) h : hook A := out_state (shadow k e h).

Lemma trap_step k paddr e h : ok (g_guest_map h) -> 0 <= k < SGX_PAGES -> default 0 (sgx_paddrs (epc h) !! k) = paddr ->
  u64 paddr -> mapping h paddr = Some (1%nat, e) ->
  exists s', (h <- get ;;
    paddr <- load SGX_PAGES (sgx_paddrs (epc h)) k ;;
    to_2m paddr ;;;
    tmp_pte <- on_map (entry paddr) ;;
    r <- on_map (entry paddr) ;;
    e <- on_map (read r) ;;
    shadow k e ;;;
    on_map (e <- read tmp_pte ;; write tmp_pte (no_exec e))) h = Ok tt (shadowed k e (with_map s' h)) /\ ok s' /\
    forall va', walk (heap s') va' = if decide (same_entry 1 paddr va') then Some (1%nat, no_exec e) else mapping h va'.
Proof.
  intros Hok Hk Hp Hu Hw. rewrite bind_get. unfold load. replace ((0 <=? k) && (k <? SGX_PAGES)) with true by lia.
  erewrite bind_ok by done. rewrite Hp. destruct (to_2m_ok paddr e h Hok Hu Hw) as (s1 & E1 & Hok1 & Hh1).
  erewrite bind_ok by exact E1. unfold mapping in Hw. rewrite <- Hh1 in Hw.
  destruct (entry_found pv root others paddr 1 e s1 Hok1 Hw) as (s2 & v & E2 & Hok2 & Hh2 & Hv & He).
  erewrite bind_ok by (unfold on_map; cbn [g_guest_map with_map]; rewrite E2; reflexivity). rewrite <- Hh2 in Hw, Hv, He.
  destruct (entry_found pv root others paddr 1 e s2 Hok2 Hw) as (s3 & v' & E3 & Hok3 & Hh3 & Hv' & He').
  assert (v' = v) as -> by congruence.
  erewrite bind_ok by (unfold on_map; cbn [g_guest_map with_map]; rewrite E3; reflexivity). rewrite <- Hh3 in Hw, Hv, He.
  pose proof (read_ok s3 v (level_index 1 paddr) e (proj1 (level_index_range 1 paddr)) He) as Er.
  erewrite bind_ok by (unfold on_map; cbn [g_guest_map with_map]; rewrite Er; reflexivity).
  erewrite bind_ok by reflexivity.
  destruct (walk_level _ _ _ _ _ _ Hw) as (_ & Hlg & _). pose proof (walk_u64 _ _ _ _ Hok3 Hw) as Hue.
  destruct (write_found pv root others paddr 1 e v (no_exec e) s3) as (s4 & E4 & Hok4 & Hw4); try done.
  { right. by rewrite (pe_large no_exec). }
  { by apply pe_u64. }
  exists s4. unfold on_map. cbn [g_guest_map with_map with_enclave]. erewrite bind_ok by exact Er. rewrite E4.
  split_and!; [done|done|]. intros va'. rewrite Hw4. unfold mapping. rewrite Hh3, Hh2, Hh1.
  pose proof (large_nonzero no_exec e Hue Hlg) as Hnz. by replace (no_exec e =? 0) with false by lia.
Qed.

(** The pages of the enclave, all of them 2 MB pages. *)
Definition sgx_addrs h : list Z :=
  (fun k => default 0 (sgx_paddrs (epc h) !! k)) <$> seqZ 0 (count_sgx_paddrs (enclave h)).

Definition all_2m (w : Z -> option (nat * Z)) (P : list Z) : Prop :=
  forall k, k ∈ P -> u64 k /\ exists e, w k = Some (1%nat, e).

(** What the traps leave alone. *)
Record trapping h h' : Prop := {
  tr_epc : epc h' = epc h;
  tr_gpu : gpu h' = gpu h;
  tr_pages : count_sgx_paddrs (enclave h') = count_sgx_paddrs (enclave h);
  tr_running : enclave_running (enclave h') = enclave_running (enclave h);
  tr_channel : channel_map (enclave h') = channel_map (enclave h);
}.

Lemma trap_loop s0 a l : ok s0 -> all_2m (walk (heap s0)) ((fun k => default 0 (a !! k)) <$> l) ->
  (forall k, k ∈ l -> 0 <= k < SGX_PAGES) -> forall P h, ok (g_guest_map h) -> sgx_paddrs (epc h) = a ->
  (forall va', mapping h va' = permitted no_exec (walk (heap s0)) P va') ->
  exists h', for_each l (fun k =>
    h <- get ;;
    paddr <- load SGX_PAGES (sgx_paddrs (epc h)) k ;;
    to_2m paddr ;;;
    tmp_pte <- on_map (entry paddr) ;;
    r <- on_map (entry paddr) ;;
    e <- on_map (read r) ;;
    shadow k e ;;;
    on_map (e <- read tmp_pte ;; write tmp_pte (no_exec e))) h = Ok tt h' /\ ok (g_guest_map h') /\ trapping h h' /\ hw h' = hw h /\
    forall va', mapping h' va' = permitted no_exec (walk (heap s0)) (P ++ ((fun k => default 0 (a !! k)) <$> l)) va'.
Proof.
  intros Hok0. induction l as [|k l IH]; intros H2m Hl P h Hok Ha Hm.
  - exists h. split_and!; try done. intros va'. by rewrite app_nil_r.
  - set (p := default 0 (a !! k)) in *. destruct (H2m p) as (Hu & e & Hw); [apply list_elem_of_here|].
    set (e1 := if touched (walk (heap s0)) P p then no_exec e else e).
    assert (mapping h p = Some (1%nat, e1)) as Hmp.
    { rewrite Hm. unfold permitted, e1. rewrite Hw. by destruct (touched _ P p). }
    pose proof (walk_u64 _ _ _ _ Hok0 Hw) as Hue.
    assert (no_exec e1 = no_exec e) as Hf by (unfold e1; destruct (touched _ P p); [by rewrite (pe_idem no_exec)|done]).
    destruct (trap_step k p e1 h Hok) as (s1 & E1 & Hok1 & Hw1); [apply Hl, list_elem_of_here|by rewrite Ha|done|done|].
    destruct IH with (P := P ++ [p]) (h := shadowed k e1 (with_map s1 h)) as (h2 & E2 & Hok2 & Htr2 & Hhw2 & Hm2).
    + intros x Hx. apply H2m. by apply list_elem_of_further.
    + intros x Hx. apply Hl. by apply list_elem_of_further.
    + done.
    + done.
    + intros va'. change (mapping (shadowed k e1 (with_map s1 h)) va') with (walk (heap s1) va'). rewrite Hw1, Hf.
      unfold permitted, touched. rewrite existsb_app. cbn [existsb]. rewrite Hw, orb_false_r.
      destruct (decide (same_entry 1 p va')) as [Hs|Hs].
      * rewrite (walk_page _ _ _ _ _ Hw Hs). rewrite (bool_decide_true _ Hs), orb_true_r. done.
      * rewrite (bool_decide_false _ Hs), orb_false_r. rewrite Hm. done.
    + exists h2. cbn [for_each]. erewrite bind_ok by exact E1. split_and!; [done|done| |by rewrite Hhw2|].
      * destruct Htr2 as [T1 T2 T3 T4 T5]. by split; rewrite ?T1, ?T2, ?T3, ?T4, ?T5.
      * intros va'. rewrite Hm2, <- app_assoc. done.
Qed.

(** C7: [trap_enclave_entry_new_2m], on an enclave whose pages are mapped by
    2 MB pages, returns and takes the execute permission, and nothing else,
    from the entry of every address of those pages, so that the next entry of
    the enclave is trapped; every other address keeps its entry, and the map
    is loaded and cached translations are invalidated last. *)
Theorem enclave_trapped h : ok (g_guest_map h) -> count_sgx_paddrs (enclave h) <= SGX_PAGES ->
  all_2m (mapping h) (sgx_addrs h) ->
  exists h', trap_enclave_entry_new_2m h = Ok tt h' /\ ok (g_guest_map h') /\ trapping h h' /\
    (forall va l e, mapping h va = Some (l, e) -> exists e', mapping h' va = Some (l, e') /\
      if touched (mapping h) (sgx_addrs h) va
      then is_enabled pt.execute_access e' = false /\ is_enabled pt.read_access e' = is_enabled pt.read_access e /\
           is_enabled pt.write_access e' = is_enabled pt.write_access e /\ frame_of e' = frame_of e
      else e' = e) /\
    exists l, hw h' = hw h ++ l ++ [Set_eptp (ept_pointer h'); Invept_global].
Proof.
  intros Hok Hn H2m. unfold trap_enclave_entry_new_2m, trap_pages. rewrite bind_get.
  destruct (trap_loop (g_guest_map h) (sgx_paddrs (epc h)) (seqZ 0 (count_sgx_paddrs (enclave h))) Hok H2m)
    with (P := @nil Z) (h := h) as (h1 & E1 & Hok1 & [] & Hhw & Hm1); [|done|done|..].
  { intros k Hk. apply elem_of_seqZ in Hk. lia. }
  { intros va. unfold permitted. by destruct (mapping h va) as [[]|] eqn:E; unfold mapping in E; rewrite E. }
  erewrite bind_ok by exact E1. destruct (set_eptp_ok h1 Hok1) as (s & p & E2 & Hok2 & Hh). erewrite bind_ok by exact E2.
  eexists. split; [done|]. split_and!; [done|by split| |].
  - intros va l e Hw. unfold mapping at 1. cbn [g_guest_map with_hw]. rewrite Hh. fold (mapping h1 va). rewrite Hm1.
    unfold permitted. change (EptTables.walk pv root (heap (g_guest_map h)) va) with (mapping h va). rewrite Hw.
    pose proof (walk_u64 _ _ _ _ Hok Hw) as Hu. cbn [app]. fold (sgx_addrs h). fold (mapping h).
    destruct (touched _ _ va); [|by eexists]. eexists. split; [done|]. split_and!; [..|by apply (pe_frame no_exec)];
      rewrite !is_enabled_testbit by done; rewrite (pe_bits (f := no_exec)) by done; done.
  - exists (if ept_pointer h1 =? 0 then [Enable_ept] else []). cbn. by rewrite Hhw, <- !app_assoc.
Qed.

(** ** Adding a GPU buffer *)












End Map.
