(* ===== verification/HookSteps.v ===== *)
(** * The hooks as a transition system

    The exits that the hypervisor handles, in any order, and what stays true of
    the state they share. *)
From S2P Require Import Prelude Guard Bits EptEntry PageSource EptMmap.
From S2P Require Import Mtrrs EptHelpers GuestPaging Hook.
Open Scope Z_scope.

Section Steps.
Context {A : Type} `{PageSource A}.
Context (read64 : Z -> Z).
Local Open Scope vmm_scope.
Implicit Types h : hook A.

(** The constructor of a virtual CPU and the exits whose handlers it
    registers, with the guest's registers. *)
Inductive hook_op :=
| New_vcpu (m : mtrrs) (eax ebx ecx edx : Z)
| Vmcall (rax cr3 : Z)
| Interrupt_window
| External_interrupt (vcpuid vector cr3 : Z) (window_open : bool)
| Encls (rax cr3 : Z)
| Monitor_trap
| Write_violation (gpa rax rip : Z)
| Read_violation (gpa : Z)
| Execute_violation (gpa vcpuid rip : Z).

Definition hook_run (op : hook_op) : M (hook A) bool :=
  match op with
  | New_vcpu m eax ebx ecx edx => vcpu_new m eax ebx ecx edx ;;; ret true
  | Vmcall rax cr3 => vmcall_handler read64 rax cr3
  | Interrupt_window => interrupt_window_handler
  | External_interrupt vcpuid vector cr3 b => external_interrupt_handler read64 vcpuid vector cr3 b
  | Encls rax cr3 => encls_handler rax cr3
  | Monitor_trap => monitor_trap_handler
  | Write_violation gpa rax rip => ept_write_violation_handler gpa rax rip
  | Read_violation gpa => ept_read_violation_handler gpa
  | Execute_violation gpa vcpuid rip => ept_execute_violation_handler gpa vcpuid rip
  end.

(** An exit that is handled, also one whose handler throws; a handler that
    accesses an array outside its bounds may do anything, and is not
    followed. *)
Definition in_bounds {B} (o : outcome (hook A) B) : Prop :=
  match o with Err segfault _ => False | _ => True end.

Inductive hook_step h : hook A -> Prop :=
| hook_do op : in_bounds (hook_run op h) -> hook_step h (out_state (hook_run op h)).

(** ** What a handler keeps *)

Section Keeps.
Context (I : hook A -> Prop).

Definition keeps {B} (m : M (hook A) B) : Prop := forall h, I h -> I (out_state (m h)).

Lemma stays_ret {B} (b : B) : keeps (ret b).
Proof using. by intros h. Qed.
Lemma stays_throw {B} e : keeps (throw e : M (hook A) B).
Proof using. by intros h. Qed.
Lemma stays_get : keeps get.
Proof using. by intros h. Qed.
Lemma stays_bind {B C} (m : M (hook A) B) (k : B -> M (hook A) C) : keeps m -> (forall b, keeps (k b)) -> keeps (bind m k).
Proof using.
  intros Hm Hk h Hh. specialize (Hm h Hh). unfold bind. destruct (m h) as [b h'|e h']; [by apply Hk|done].
Qed.
Lemma stays_modify f : (forall h, I h -> I (f h)) -> keeps (modify f).
Proof using. intros Hf h Hh. by apply Hf. Qed.
Lemma stays_each {B} (l : list B) (body : B -> M (hook A) unit) : (forall x, keeps (body x)) -> keeps (for_each l body).
Proof using. intros Hb. induction l as [|x l IH]; [apply stays_ret|]. by apply stays_bind. Qed.
Lemma stays_catch {B} (m : M (hook A) B) k : keeps m -> (forall e, keeps (k e)) -> keeps (catch m k).
Proof using.
  intros Hm Hk h Hh. specialize (Hm h Hh). unfold catch. destruct (m h) as [b h'|e h']; [done|by apply Hk].
Qed.
Lemma stays_guard {B} code (m : M (hook A) B) : keeps m -> keeps (guard_exceptions code m).
Proof using.
  intros Hm. apply stays_catch; [apply stays_bind; [done|intros _; apply stays_ret]|].
  intros []; first [apply stays_ret | apply stays_throw].
Qed.
Lemma stays_load n a i : keeps (load n a i).
Proof using. unfold load. case_match; [apply stays_ret|apply stays_throw]. Qed.
End Keeps.

(** ** The channel's page *)

(** Nothing has mapped the channel's page or found its address. *)
Definition quiet h : Prop := channel_map (enclave h) = None /\ channel_paddr (enclave h) = 0.

Lemma quiet_on_map {B} (m : M (mmap A) B) : keeps quiet (on_map m).
Proof using. intros h Hh. unfold on_map. by destruct (m (g_guest_map h)). Qed.
Lemma quiet_on_epc {B} (m : M epc_state B) : keeps quiet (on_epc m).
Proof using. intros h Hh. unfold on_epc. by destruct (m (epc h)). Qed.
Lemma quiet_channel {B} (k : list Z -> M (hook A) B) h : quiet h -> bind channel k h = Err null_deref h.
Proof using. intros [Hc _]. unfold channel, bind, get. by rewrite Hc. Qed.
Lemma quiet_after_channel {B} (k : list Z -> M (hook A) B) : keeps quiet (bind channel k).
Proof using. intros h Hh. by rewrite quiet_channel. Qed.
End Steps.

#[export] Hint Resolve stays_ret stays_throw stays_get stays_load quiet_on_map quiet_on_epc quiet_after_channel : keeps.

(** The parts of a handler, one after the other. *)
Ltac stays_step :=
  first
    [ solve [eauto with keeps]
    | apply stays_bind; [|intros ?]
    | apply stays_each; intros ?
    | apply stays_guard
    | apply stays_catch; [|intros ?]
    | apply stays_modify; intros ? Hq; first [done | destruct Hq; by split]
    | match goal with |- keeps _ (if ?b then _ else _) => destruct b end
    | match goal with |- keeps _ (match ?x with Some _ => _ | None => _ end) => destruct x end ].

Section Quiet.
Context {A : Type} `{PageSource A}.
Context (read64 : Z -> Z).
Local Open Scope vmm_scope.
Implicit Types h : hook A.

Lemma quiet_set_eptp : keeps quiet (set_eptp (A := A)).
Proof using. unfold set_eptp, emit. repeat stays_step. Qed.
#[local] Hint Resolve quiet_set_eptp : keeps.

Lemma quiet_change addr f : keeps quiet (change_entry (A := A) addr f).
Proof using. unfold change_entry. repeat stays_step. Qed.
#[local] Hint Resolve quiet_change : keeps.

Lemma quiet_grant_channel : keeps quiet (grant_permission_channel (A := A)).
Proof using. unfold grant_permission_channel, emit. repeat stays_step. Qed.
Lemma quiet_remove_channel : keeps quiet (remove_permission_channel (A := A)).
Proof using. unfold remove_permission_channel, emit. repeat stays_step. Qed.
Lemma quiet_to_2m p : keeps quiet (to_2m (A := A) p).
Proof using. unfold to_2m. repeat stays_step. Qed.
#[local] Hint Resolve quiet_grant_channel quiet_remove_channel quiet_to_2m : keeps.

Lemma quiet_add_sgx p : keeps quiet (add_sgx_paddr (A := A) p).
Proof using. unfold add_sgx_paddr. repeat stays_step. Qed.
#[local] Hint Resolve quiet_add_sgx : keeps.

Lemma quiet_add_epc : keeps quiet (add_epc_address_2m (A := A)).
Proof using. unfold add_epc_address_2m. repeat stays_step. Qed.
Lemma quiet_trap : keeps quiet (trap_enclave_entry_new_2m (A := A)).
Proof using. unfold trap_enclave_entry_new_2m, trap_pages, shadow, emit. repeat stays_step. Qed.
Lemma quiet_read_channel cr3 : keeps quiet (read_enclave_channel (A := A) read64 cr3).
Proof using. apply quiet_after_channel. Qed.
#[local] Hint Resolve quiet_add_epc quiet_trap quiet_read_channel : keeps.

Lemma quiet_encls rax cr3 : keeps quiet (encls_handler (A := A) rax cr3).
Proof using. unfold encls_handler, clear_page, emit. repeat stays_step. Qed.

Lemma quiet_run op : keeps quiet (hook_run (A := A) read64 op).
Proof using.
  destruct op as [m eax ebx ecx edx|rax cr3| |vcpuid vector cr3 b|rax cr3| |gpa rax rip|gpa|gpa vcpuid rip]; unfold hook_run.
  - unfold vcpu_new, emit. repeat stays_step.
  - unfold vmcall_handler, gpu_prog_init, emit. repeat stays_step.
  - unfold interrupt_window_handler, emit. repeat stays_step.
  - unfold external_interrupt_handler, emit. repeat stays_step.
  - apply quiet_encls.
  - apply stays_ret.
  - unfold ept_write_violation_handler, emit. repeat stays_step.
  - unfold ept_read_violation_handler, emit. repeat stays_step.
  - unfold ept_execute_violation_handler, emit. repeat stays_step.
Qed.

(** C8: The page of the channel is never mapped: after any number of exits,
    handled in any order without an access outside an array, from a state where
    it is not, its address is still 0 and an external interrupt that finds the
    enclave running on its own virtual CPU dereferences a null pointer before
    anything else. *)
Theorem channel_never_mapped h h' : quiet h -> rtc (hook_step read64) h h' ->
  quiet h' /\ forall vcpuid vector cr3 b, enclave_running (enclave h') = true -> vcpuid = w64 (enclave_vcpuid (enclave h')) ->
    external_interrupt_handler read64 vcpuid vector cr3 b h' = Err null_deref h'.
Proof using.
  intros Hq Hr. assert (quiet h') as Hq'.
  { induction Hr as [|h1 h2 h3 [op _] _ IH]; [done|]. by apply IH, quiet_run. }
  split; [done|]. intros vcpuid vector cr3 b Hrun ->. unfold external_interrupt_handler. rewrite bind_get, Hrun, Z.eqb_refl.
  cbn [andb]. unfold bind at 1. unfold bind at 1. unfold read_enclave_channel. by rewrite quiet_channel.
Qed.
End Quiet.

(** ** The tables of pages and buffers *)

Section Bounded.
Context {A : Type} `{PageSource A}.
Context (read64 : Z -> Z).
Local Open Scope vmm_scope.
Implicit Types h : hook A.

(** The counts stay within the arrays. *)
Record bounded h : Prop := {
  bo_buffers : 0 <= count_gpu_buffers (gpu h) <= GPU_BUFFER_NUM;
  bo_paddrs : 0 <= count_gpu_paddrs (gpu h) <= GPU_PADDR_NUM;
  bo_sgx : 0 <= count_sgx_paddrs (enclave h) <= SGX_PAGES;
}.

Lemma bounded_on_map {B} (m : M (mmap A) B) : keeps bounded (on_map m).
Proof using. intros h []. unfold on_map. by destruct (m (g_guest_map h)); split. Qed.
Lemma bounded_on_epc {B} (m : M epc_state B) : keeps bounded (on_epc m).
Proof using. intros h []. unfold on_epc. by destruct (m (epc h)); split. Qed.
#[local] Hint Resolve bounded_on_map bounded_on_epc : keeps.

Lemma bounded_set_eptp : keeps bounded (set_eptp (A := A)).
Proof using. unfold set_eptp, emit. repeat stays_step. Qed.
#[local] Hint Resolve bounded_set_eptp : keeps.

Lemma bounded_change addr f : keeps bounded (change_entry (A := A) addr f).
Proof using. unfold change_entry. repeat stays_step. Qed.
#[local] Hint Resolve bounded_change : keeps.

Lemma bounded_grant_channel : keeps bounded (grant_permission_channel (A := A)).
Proof using. unfold grant_permission_channel, emit. repeat stays_step. Qed.
Lemma bounded_remove_channel : keeps bounded (remove_permission_channel (A := A)).
Proof using. unfold remove_permission_channel, emit. repeat stays_step. Qed.
Lemma bounded_grant : keeps bounded (grant_permission_gpu_buffers (A := A)).
Proof using. unfold grant_permission_gpu_buffers, emit. repeat stays_step. Qed.
Lemma bounded_remove : keeps bounded (remove_permission_gpu_buffers (A := A)).
Proof using. unfold remove_permission_gpu_buffers, emit. repeat stays_step. Qed.
Lemma bounded_to_2m p : keeps bounded (to_2m (A := A) p).
Proof using. unfold to_2m. repeat stays_step. Qed.
#[local] Hint Resolve bounded_grant_channel bounded_remove_channel bounded_grant bounded_remove bounded_to_2m : keeps.

(** A page is added where the array has room for it. *)
Lemma bounded_add_sgx p : keeps bounded (add_sgx_paddr (A := A) p).
Proof using.
  intros h Hh. unfold add_sgx_paddr. rewrite bind_get. destruct (_ && _) eqn:E; [|done].
  destruct Hh. split; cbn; done || lia.
Qed.
Lemma bounded_add_gpu p : keeps bounded (add_gpu_paddr (A := A) p).
Proof using.
  intros h Hh. unfold add_gpu_paddr. rewrite bind_get. destruct (_ && _) eqn:E; [|done].
  destruct Hh. split; cbn; done || lia.
Qed.
Lemma bounded_store b : keeps bounded (store_buffer (A := A) b).
Proof using.
  intros h Hh. unfold store_buffer. rewrite bind_get. destruct (_ && _) eqn:E; [|done].
  destruct Hh. split; cbn; done || lia.
Qed.
#[local] Hint Resolve bounded_add_sgx bounded_add_gpu bounded_store : keeps.

(** The count of buffers grows after a buffer was stored at it. *)
Lemma bounded_next b : keeps bounded (store_buffer (A := A) b ;;; next_buffer ;;; ret true).
Proof using.
  intros h Hh. unfold store_buffer. rewrite bind_assoc, bind_get. destruct (_ && _) eqn:E; [|done].
  destruct Hh. split; cbn; done || lia.
Qed.

Lemma bounded_add_buffer c v p size pages step : (forall p, keeps bounded (c p)) ->
  keeps bounded (add_buffer (A := A) c v p size pages step).
Proof using. intros Hc. unfold add_buffer. repeat first [apply bounded_next | apply Hc | stays_step]. Qed.

Lemma bounded_find_buffer l v : keeps bounded (buffer_loop (A := A) l v).
Proof using. induction l as [|i l IH]; cbn [buffer_loop]; repeat first [apply IH | stays_step]. Qed.

Lemma bounded_translate virt cr3 : keeps bounded (custom_virt_to_phys_with_cr3 (S := hook A) read64 virt cr3).
Proof using. unfold custom_virt_to_phys_with_cr3, make_unique_map, expects. repeat stays_step. Qed.

Lemma bounded_channel : keeps bounded (channel (A := A)).
Proof using. unfold channel. repeat stays_step. Qed.
#[local] Hint Resolve bounded_find_buffer bounded_translate bounded_channel : keeps.

Lemma bounded_answer : keeps bounded (answer (A := A)).
Proof using. unfold answer. repeat stays_step. Qed.
#[local] Hint Resolve bounded_answer : keeps.

Lemma bounded_read_channel cr3 : keeps bounded (read_enclave_channel (A := A) read64 cr3).
Proof using.
  unfold read_enclave_channel, check_buffer_exists, add_gpu_buffer_2m, emit.
  repeat first [apply bounded_add_buffer, bounded_to_2m | stays_step].
Qed.
Lemma bounded_add_epc : keeps bounded (add_epc_address_2m (A := A)).
Proof using. unfold add_epc_address_2m. repeat stays_step. Qed.
Lemma bounded_trap : keeps bounded (trap_enclave_entry_new_2m (A := A)).
Proof using. unfold trap_enclave_entry_new_2m, trap_pages, shadow, emit. repeat stays_step. Qed.
#[local] Hint Resolve bounded_read_channel bounded_add_epc bounded_trap : keeps.

Lemma bounded_encls rax cr3 : keeps bounded (encls_handler (A := A) rax cr3).
Proof using. unfold encls_handler, clear_page, emit. repeat stays_step. Qed.

Lemma bounded_run op : keeps bounded (hook_run (A := A) read64 op).
Proof using.
  destruct op as [m eax ebx ecx edx|rax cr3| |vcpuid vector cr3 b|rax cr3| |gpa rax rip|gpa|gpa vcpuid rip]; unfold hook_run.
  - unfold vcpu_new, emit. repeat stays_step.
  - unfold vmcall_handler, gpu_prog_init, emit. repeat stays_step.
  - unfold interrupt_window_handler, emit. repeat stays_step.
  - unfold external_interrupt_handler, emit. repeat stays_step.
  - apply bounded_encls.
  - apply stays_ret.
  - unfold ept_write_violation_handler, emit. repeat stays_step.
  - unfold ept_read_violation_handler, emit. repeat stays_step.
  - unfold ept_execute_violation_handler, emit. repeat stays_step.
Qed.

(** The counts of enclave pages, GPU pages and GPU buffers are within the arrays
    they index as long as no handler has accessed an array outside its
    bounds: no handler checks a count before it uses it. *)
Lemma hook_tables_bounded h h' : bounded h -> rtc (hook_step read64) h h' -> bounded h'.
Proof using. intros Hb Hr. induction Hr as [|h1 h2 h3 [op _] _ IH]; [done|]. by apply IH, bounded_run. Qed.
End Bounded.
