(* ===== verification/HookWitness.v ===== *)
(** * A small machine for the hooks

    Concrete states at which the theorems on the hooks apply, and the
    encryption of buffers. *)
From S2P Require Import Prelude Bits EptEntry Buddy PageSource MemMgr MemMgrProofs Malloc EptMmap EptTables EptProofs EptSpec EptAccess.
From S2P Require Import Mtrrs EptHelpers EptHelpersProofs GuestPaging GuestPagingProofs Hook HookProofs HookSteps.
Open Scope Z_scope.

#[local] Instance hook_source : PageSourceLaws pages := pages_laws 2 0x100000.

(** The second 2 MB of guest memory hold an enclave page and a GPU buffer. *)
Definition small_hook : hook pages :=
  Hook large_map (Epc 0x200000 0x200000 0 {[ 0 := 0x200000 ]} 0 0 0 0)
    (Gpu 0 ∅ 2 {[ 0 := 0x200000; 1 := 0x201000 ]})
    (Enclave 0 (-1) 0 false 0 1 ∅ ∅ 0 None) 0 false false [] [].

Notation small_mapping := (mapping (ps_virt small_pages) 0x100000 small_hook).

Lemma small_hook_mapping a : a = 0x200000 \/ a = 0x201000 -> small_mapping a = Some (1%nat, 0x2000B3).
Proof. intros [->| ->]; vm_compute; reflexivity. Qed.

Lemma small_hook_addrs : gpu_addrs small_hook = [0x200000; 0x201000] /\ sgx_addrs small_hook = [0x200000].
Proof. split; vm_compute; reflexivity. Qed.

Lemma two_cases k : k ∈ [0x200000; 0x201000] -> k = 0x200000 \/ k = 0x201000.
Proof. rewrite !elem_of_cons, elem_of_nil. tauto. Qed.

Lemma small_hook_changeable : changeable disable_rw small_mapping (gpu_addrs small_hook).
Proof.
  rewrite (proj1 small_hook_addrs). intros k Hk. exists 1%nat, 0x2000B3. split; [|by compute]. apply small_hook_mapping.
  exact (two_cases k Hk).
Qed.

Lemma two_paddrs : count_gpu_paddrs (gpu small_hook) <= GPU_PADDR_NUM.
Proof. change (2 <= GPU_PADDR_NUM). unfold GPU_PADDR_NUM. lia. Qed.
Lemma one_page : count_sgx_paddrs (enclave small_hook) <= SGX_PAGES.
Proof. change (1 <= SGX_PAGES). unfold SGX_PAGES. lia. Qed.

Lemma gpu_buffers_locked_witness : exists h', remove_permission_gpu_buffers small_hook = Ok true h' /\
  changed (ps_virt small_pages) 0x100000 ∅ disable_rw (gpu_addrs small_hook) small_hook h'.
Proof.
  destruct (gpu_buffers_locked (ps_virt small_pages) 0x100000 ∅ small_hook large_map_ok) as (h' & E & Hc & _);
    [exact two_paddrs|exact small_hook_changeable|]. exists h'. exact (conj E Hc).
Defined.

Lemma gpu_permissions_restored_witness : exists h',
  bind remove_permission_gpu_buffers (fun _ => grant_permission_gpu_buffers) small_hook = Ok true h' /\
  forall va, mapping (ps_virt small_pages) 0x100000 h' va = small_mapping va.
Proof.
  apply (gpu_permissions_restored (ps_virt small_pages) 0x100000 ∅ small_hook large_map_ok); [exact two_paddrs|exact small_hook_changeable|].
  rewrite (proj1 small_hook_addrs). intros k l e Hk Hw. rewrite small_hook_mapping in Hw; [by injection Hw as <- <-|].
  exact (two_cases k Hk).
Defined.

Lemma enclave_trapped_witness : exists h', trap_enclave_entry_new_2m small_hook = Ok tt h' /\ trapping small_hook h'.
Proof.
  destruct (enclave_trapped (ps_virt small_pages) 0x100000 ∅ small_hook large_map_ok) as (h' & E & _ & Ht & _); [exact one_page| |].
  - rewrite (proj2 small_hook_addrs). intros k Hk. apply list_elem_of_singleton in Hk as ->. split; [unfold u64; lia|].
    exists 0x2000B3. apply small_hook_mapping. by left.
  - exists h'. exact (conj E Ht).
Defined.

Notation small_walk := (walk (ps_virt small_pages) 0x100000).






(** The enclave is entered on virtual CPU 0, then an interrupt arrives. *)
Definition entered_hook : hook pages := out_state (hook_run guest_memory (Execute_violation 0x200000 0 0x1234) small_hook).

Lemma entered_steps : rtc (hook_step guest_memory) small_hook entered_hook.
Proof.
  apply rtc_once. constructor.
  assert (out_value (hook_run guest_memory (Execute_violation 0x200000 0 0x1234) small_hook) = Some true) as E
    by (vm_compute; reflexivity).
  destruct (hook_run guest_memory (Execute_violation 0x200000 0 0x1234) small_hook); [exact I|discriminate E].
Qed.

Lemma entered_running : enclave_running (enclave entered_hook) = true /\ enclave_vcpuid (enclave entered_hook) = 0.
Proof. split; vm_compute; reflexivity. Qed.

Lemma channel_never_mapped_witness :
  external_interrupt_handler guest_memory 0 0x20 0x1000 true entered_hook = Err null_deref entered_hook.
Proof.
  apply (channel_never_mapped guest_memory small_hook entered_hook); [split; reflexivity|exact entered_steps|exact (proj1 entered_running)|].
  rewrite (proj2 entered_running). reflexivity.
Defined.

(** ** Encryption *)

(** Decrypting an encrypted buffer gives the buffer back, of the same
    length. *)
Theorem decrypt_encrypt l : decrypt (encrypt l) = l /\ length (encrypt l) = length l.
Proof.
  unfold decrypt, encrypt. split; [|apply length_imap]. apply list_eq. intros i. rewrite !list_lookup_imap.
  destruct (l !! i) as [b|]; [|done]. cbn. f_equal. by rewrite Z.lxor_assoc, Z.lxor_nilpotent, Z.lxor_0_r.
Qed.
