(* ===== verification/Elf.v ===== *)
(** * The ELF loader: files, memory and parsing

    Models [bareflank/bfelf_loader/include/bfelf_loader.h] and
    [bfelf_loader_reloc_x64.h], the C code with which the driver loads the
    hypervisor's modules.  The memory the code reads and writes through
    pointers is a map from addresses to bytes; the structures it keeps are
    records.  An access outside the memory is [Err segfault], a loop that does
    not end is [Err diverges]; the theorems of the files [Elf*.v] say when neither
    happens. *)
From S2P Require Import Prelude.

Definition BFELF_MAX_NEEDED : Z := 25.
Definition BFELF_MAX_SEGMENTS : Z := 4.
Definition MAX_NUM_MODULES : Z := 75.

(** The error codes, as [int64_t] bit patterns. *)
Definition BFELF_SUCCESS : Z := 0.
Definition BFELF_ERROR_INVALID_ARG : Z := 0x8000000000100000.
Definition BFELF_ERROR_INVALID_INDEX : Z := 0x8000000000300000.
Definition BFELF_ERROR_INVALID_SIGNATURE : Z := 0x8000000000500000.
Definition BFELF_ERROR_UNSUPPORTED_FILE : Z := 0x8000000000600000.
Definition BFELF_ERROR_LOADER_FULL : Z := 0x8000000000900000.
Definition BFELF_ERROR_NO_SUCH_SYMBOL : Z := 0x8000000000A00000.
Definition BFELF_ERROR_MISMATCH : Z := 0x8000000000B00000.
Definition BFELF_ERROR_UNSUPPORTED_RELA : Z := 0x8000000000C00000.
Definition BFELF_ERROR_OUT_OF_MEMORY : Z := 0x8000000000E00000.

(** ** The structures of the loader *)

(** The setter of a field, from the record rebuilt field by field. *)
Ltac record_set eta proj e x :=
  let b := eval cbv delta [eta] in eta in
  let p := eval pattern proj in b in
  match p with ?F _ => let r := eval cbv beta in (F (fun _ => x) e) in exact r end.

Record bfelf_load_instr := LoadInstr {
  perm : Z; mem_offset : Z; file_offset : Z; memsz : Z; seg_filesz : Z; seg_virt_addr : Z;
}.

Record bfelf_file_t := EF {
  filesz : Z; file : Z; exec_addr : Z; exec_virt : Z; entry : Z; num_load_instr : Z; load_instr :
  list bfelf_load_instr; num_loadable_segments : Z; loadable_segments : list Z; start_addr : Z;
  total_memsz : Z; num_needed : Z; needed : list Z; ehdr : Z; phdrtab : Z; shdrtab : Z; dynoff : Z;
  strtab : Z; strtab_offset : Z; shstrtab : Z; nbucket : Z; nchain : Z; bucket : Z; chain : Z; hash
  : Z; dynnum : Z; dyntab : Z; symnum : Z; symtab : Z; relanum_dyn : Z; relatab_dyn : Z; relanum_plt
  : Z; relatab_plt : Z; init : Z; fini : Z; init_array : Z; init_arraysz : Z; fini_array : Z;
  fini_arraysz : Z; eh_frame : Z; eh_framesz : Z; flags_1 : Z; stack_flags : Z; relaro_vaddr : Z;
  relaro_memsz : Z; added : Z;
}.

Definition file_zero : bfelf_file_t := EF 0 0 0 0 0 0 (replicate (Z.to_nat BFELF_MAX_SEGMENTS)
  (LoadInstr 0 0 0 0 0 0)) 0 (replicate (Z.to_nat BFELF_MAX_SEGMENTS) 0) 0 0 0 (replicate (Z.to_nat
  BFELF_MAX_NEEDED) 0) 0 0 0 0 0 0 0 0 0 0 0 0 0 0 0 0 0 0 0 0 0 0 0 0 0 0 0 0 0 0 0 0 0.

Definition file_eta (e : bfelf_file_t) : bfelf_file_t := EF (filesz e) (file e) (exec_addr e)
  (exec_virt e) (entry e) (num_load_instr e) (load_instr e) (num_loadable_segments e)
  (loadable_segments e) (start_addr e) (total_memsz e) (num_needed e) (needed e) (ehdr e)
  (phdrtab e) (shdrtab e) (dynoff e) (strtab e) (strtab_offset e) (shstrtab e) (nbucket e)
  (nchain e) (bucket e) (chain e) (hash e) (dynnum e) (dyntab e) (symnum e) (symtab e)
  (relanum_dyn e) (relatab_dyn e) (relanum_plt e) (relatab_plt e) (init e) (fini e) (init_array e)
  (init_arraysz e) (fini_array e) (fini_arraysz e) (eh_frame e) (eh_framesz e) (flags_1 e)
  (stack_flags e) (relaro_vaddr e) (relaro_memsz e) (added e).

Definition set_filesz e x : bfelf_file_t := ltac:(record_set file_eta filesz e x).
Definition set_file e x : bfelf_file_t := ltac:(record_set file_eta file e x).
Definition set_exec_addr e x : bfelf_file_t := ltac:(record_set file_eta exec_addr e x).
Definition set_exec_virt e x : bfelf_file_t := ltac:(record_set file_eta exec_virt e x).
Definition set_entry e x : bfelf_file_t := ltac:(record_set file_eta entry e x).
Definition set_num_load_instr e x : bfelf_file_t := ltac:(record_set file_eta num_load_instr e x).
Definition set_load_instr e x : bfelf_file_t := ltac:(record_set file_eta load_instr e x).
Definition set_num_loadable_segments e x : bfelf_file_t := ltac:(record_set file_eta num_loadable_segments e x).
Definition set_loadable_segments e x : bfelf_file_t := ltac:(record_set file_eta loadable_segments e x).
Definition set_start_addr e x : bfelf_file_t := ltac:(record_set file_eta start_addr e x).
Definition set_total_memsz e x : bfelf_file_t := ltac:(record_set file_eta total_memsz e x).
Definition set_num_needed e x : bfelf_file_t := ltac:(record_set file_eta num_needed e x).
Definition set_needed e x : bfelf_file_t := ltac:(record_set file_eta needed e x).
Definition set_ehdr e x : bfelf_file_t := ltac:(record_set file_eta ehdr e x).
Definition set_phdrtab e x : bfelf_file_t := ltac:(record_set file_eta phdrtab e x).
Definition set_shdrtab e x : bfelf_file_t := ltac:(record_set file_eta shdrtab e x).
Definition set_dynoff e x : bfelf_file_t := ltac:(record_set file_eta dynoff e x).
Definition set_strtab e x : bfelf_file_t := ltac:(record_set file_eta strtab e x).
Definition set_strtab_offset e x : bfelf_file_t := ltac:(record_set file_eta strtab_offset e x).
Definition set_shstrtab e x : bfelf_file_t := ltac:(record_set file_eta shstrtab e x).
Definition set_nbucket e x : bfelf_file_t := ltac:(record_set file_eta nbucket e x).
Definition set_nchain e x : bfelf_file_t := ltac:(record_set file_eta nchain e x).
Definition set_bucket e x : bfelf_file_t := ltac:(record_set file_eta bucket e x).
Definition set_chain e x : bfelf_file_t := ltac:(record_set file_eta chain e x).
Definition set_hash e x : bfelf_file_t := ltac:(record_set file_eta hash e x).
Definition set_dynnum e x : bfelf_file_t := ltac:(record_set file_eta dynnum e x).
Definition set_dyntab e x : bfelf_file_t := ltac:(record_set file_eta dyntab e x).
Definition set_symnum e x : bfelf_file_t := ltac:(record_set file_eta symnum e x).
Definition set_symtab e x : bfelf_file_t := ltac:(record_set file_eta symtab e x).
Definition set_relanum_dyn e x : bfelf_file_t := ltac:(record_set file_eta relanum_dyn e x).
Definition set_relatab_dyn e x : bfelf_file_t := ltac:(record_set file_eta relatab_dyn e x).
Definition set_relanum_plt e x : bfelf_file_t := ltac:(record_set file_eta relanum_plt e x).
Definition set_relatab_plt e x : bfelf_file_t := ltac:(record_set file_eta relatab_plt e x).
Definition set_init e x : bfelf_file_t := ltac:(record_set file_eta init e x).
Definition set_fini e x : bfelf_file_t := ltac:(record_set file_eta fini e x).
Definition set_init_array e x : bfelf_file_t := ltac:(record_set file_eta init_array e x).
Definition set_init_arraysz e x : bfelf_file_t := ltac:(record_set file_eta init_arraysz e x).
Definition set_fini_array e x : bfelf_file_t := ltac:(record_set file_eta fini_array e x).
Definition set_fini_arraysz e x : bfelf_file_t := ltac:(record_set file_eta fini_arraysz e x).
Definition set_eh_frame e x : bfelf_file_t := ltac:(record_set file_eta eh_frame e x).
Definition set_eh_framesz e x : bfelf_file_t := ltac:(record_set file_eta eh_framesz e x).
Definition set_flags_1 e x : bfelf_file_t := ltac:(record_set file_eta flags_1 e x).
Definition set_stack_flags e x : bfelf_file_t := ltac:(record_set file_eta stack_flags e x).
Definition set_relaro_vaddr e x : bfelf_file_t := ltac:(record_set file_eta relaro_vaddr e x).
Definition set_relaro_memsz e x : bfelf_file_t := ltac:(record_set file_eta relaro_memsz e x).
Definition set_added e x : bfelf_file_t := ltac:(record_set file_eta added e x).

(** [efs] holds pointers to the [ef] of the binaries: their indices. *)
Record bfelf_loader_t := Loader { num : Z; relocated : Z; efs : list nat }.
Definition loader_zero : bfelf_loader_t := Loader 0 0 [].

Record bfelf_binary_t := Binary {
  exec : Z; bin_file : Z; exec_size : Z; file_size : Z; ef : bfelf_file_t }.
Definition binary_zero : bfelf_binary_t := Binary 0 0 0 0 file_zero.

Record section_info_t := SectionInfo {
  init_addr : Z; fini_addr : Z; init_array_addr : Z; init_array_size : Z;
  fini_array_addr : Z; fini_array_size : Z; eh_frame_addr : Z; eh_frame_size : Z }.

Record crt_info_t := CrtInfo {
  arg_type : Z; argc : Z; argv : Z; request : Z; arg1 : Z; arg2 : Z; arg3 : Z;
  info : list section_info_t }.
Definition crt_zero : crt_info_t := CrtInfo 0 0 0 0 0 0 0 [].

(** ** Memory *)

(** What the platform provides to the loader.  [vmalloc] is the kernel's: it
    answers with a block's address and contents, or with the null pointer. *)
Class Platform (P : Type) := {
  p_alloc : Z -> P -> option (Z * list Z) * P;
  p_free : Z -> P -> P;
}.

(** [bytes] is the memory pointers reach; [live] the blocks obtained from the
    platform and not given back, with their lengths. *)
Record env (P : Type) := Env {
  bytes : gmap Z Z;
  live : gmap Z Z;
  plat : P;
  bins : list bfelf_binary_t;
  ldr : bfelf_loader_t;
  crt : crt_info_t;
  start_func : Z;
}.
Arguments Env {P}.
Arguments bytes {P}.
Arguments live {P}.
Arguments plat {P}.
Arguments bins {P}.
Arguments ldr {P}.
Arguments crt {P}.
Arguments start_func {P}.

Section Elf.
Context {P : Type} `{Platform P}.
Local Open Scope vmm_scope.
Implicit Types e : bfelf_file_t.

Definition set_bytes (s : env P) m := Env m (live s) (plat s) (bins s) (ldr s) (crt s) (start_func s).
Definition set_bins (s : env P) b := Env (bytes s) (live s) (plat s) b (ldr s) (crt s) (start_func s).
Definition set_ldr (s : env P) l := Env (bytes s) (live s) (plat s) (bins s) l (crt s) (start_func s).
Definition set_crt (s : env P) c := Env (bytes s) (live s) (plat s) (bins s) (ldr s) c (start_func s).
Definition set_start (s : env P) f := Env (bytes s) (live s) (plat s) (bins s) (ldr s) (crt s) f.

(** The bytes of an integer, least significant first. *)
Definition le_value (l : list Z) : Z := foldr (fun b v => b + 256 * v) 0 l.
Fixpoint le_bytes (n : nat) (v : Z) : list Z :=
  match n with O => [] | S n' => v mod 256 :: le_bytes n' (v / 256) end.

(** The [n] bytes at [a], where all of them are mapped. *)
Fixpoint fetch (m : gmap Z Z) (n : nat) (a : Z) : option (list Z) :=
  match n with
  | O => Some []
  | S n' => b ← m !! a; l ← fetch m n' (a + 1); Some (b :: l)
  end.
Definition peek (m : gmap Z Z) (n : nat) (a : Z) : option Z := le_value <$> fetch m n a.

(** Reads of 1, 2, 4 and 8 bytes, and writes of 8. *)
Definition rd (n : nat) (a : Z) : M (env P) Z := fun s =>
  match peek (bytes s) n a with Some v => Ok v s | None => Err segfault s end.
Definition rd8 := rd 1.
Definition rd16 := rd 2.
Definition rd32 := rd 4.
Definition rd64 := rd 8.

(** Write of a list of bytes. *)
Fixpoint mapped (m : gmap Z Z) (n : nat) (a : Z) : bool :=
  match n with
  | O => true
  | S n' => match m !! a with Some _ => mapped m n' (a + 1) | None => false end
  end.
Definition wr (a : Z) (l : list Z) : M (env P) unit := fun s =>
  if mapped (bytes s) (length l) a
  then Ok tt (set_bytes s (map_seqZ a l ∪ bytes s))
  else Err segfault s.
Definition wr64 (a v : Z) : M (env P) unit := wr a (le_bytes 8 v).

(** Read of [n] bytes. *)
Definition rd_bytes (a n : Z) : M (env P) (list Z) := fun s =>
  match fetch (bytes s) (Z.to_nat n) a with
  | Some l => Ok l s | None => Err segfault s end.

(** [platform_memset] and [platform_memcpy] do nothing on a null pointer. *)
Definition platform_memset (ptr value n : Z) : M (env P) unit :=
  if ptr =? 0 then ret tt else wr ptr (replicate (Z.to_nat n) value).
Definition platform_memcpy (dst src n : Z) : M (env P) unit :=
  if (dst =? 0) || (src =? 0) then ret tt else l <- rd_bytes src n ;; wr dst l.

(** [platform_alloc_rw] and [platform_alloc_rwe]: the null pointer for an
    empty block, else what the kernel answers. *)
Definition platform_alloc (len : Z) : M (env P) Z := fun s =>
  if len =? 0 then Ok 0 s else
  match p_alloc len (plat s) with
  | (Some (a, l), p) =>
      Ok a (Env (map_seqZ a l ∪ bytes s) (<[a := len]> (live s)) p (bins s) (ldr s) (crt s) (start_func s))
  | (None, p) => Ok 0 (Env (bytes s) (live s) p (bins s) (ldr s) (crt s) (start_func s))
  end.

(** [platform_free_rw] and [platform_free_rwe] *)
Definition platform_free (a len : Z) : M (env P) unit := fun s =>
  if a =? 0 then Ok tt s else
  match live s !! a with
  | Some n => Ok tt (Env (bytes s ∖ map_seqZ a (replicate (Z.to_nat n) 0)) (delete a (live s))
                         (p_free a (plat s)) (bins s) (ldr s) (crt s) (start_func s))
  | None => Err bad_free s
  end.

(** The structure a pointer [&binaries[i].ef] points to. *)
Definition get_bin (i : nat) : M (env P) bfelf_binary_t := fun s =>
  match bins s !! i with Some b => Ok b s | None => Err segfault s end.
Definition set_bin (i : nat) (f : bfelf_binary_t -> bfelf_binary_t) : M (env P) unit :=
  b <- get_bin i ;; modify (fun s => set_bins s (<[i := f b]> (bins s))).
Definition get_ef (i : nat) : M (env P) bfelf_file_t := b <- get_bin i ;; ret (ef b).
Definition set_ef (i : nat) (f : bfelf_file_t -> bfelf_file_t) : M (env P) unit :=
  set_bin i (fun b => Binary (exec b) (bin_file b) (exec_size b) (file_size b) (f (ef b))).

(** ** Strings *)

(** The bytes a [const char *] points to, and those of a literal. *)
Definition str (p : Z) : Z -> M (env P) Z := fun k => rd8 (p + k).
Definition lit (l : list Z) : Z -> M (env P) Z := fun k =>
  match (l ++ [0]) !! Z.to_nat k with Some c => ret c | None => throw segfault end.

Fixpoint strcmp_loop (fuel : nat) (s1 s2 : Z -> M (env P) Z) (k : Z) : M (env P) Z :=
  match fuel with
  | O => throw diverges
  | S fuel' =>
    c1 <- s1 k ;;
    c2 <- s2 k ;;
    if negb (c1 =? 0) && (c1 =? c2) then strcmp_loop fuel' s1 s2 (k + 1)
    else ret (if c1 =? c2 then BFELF_SUCCESS else BFELF_ERROR_MISMATCH)
  end.

(** A string is shorter than the memory. *)
Definition string_fuel (s : env P) : nat := S (size (bytes s)).

Definition private_strcmp (s1 s2 : Z -> M (env P) Z) : M (env P) Z :=
  s <- get ;; strcmp_loop (string_fuel s) s1 s2 0.

(** One round of [private_hash] on the byte [uc]: [char] is signed, and a byte
    above 127 is subtracted. *)
Definition hash_step (h uc : Z) : Z :=
  let h := if uc <? 128 then add64 (shl64 h 4) uc else sub64 (shl64 h 4) uc in
  let g := Z.land h 0xF0000000 in
  let h := if negb (g =? 0) then Z.lxor h (Z.shiftr g 24) else h in
  Z.land h 0x0FFFFFFF.

Fixpoint hash_loop (fuel : nat) (name : Z) (h : Z) : M (env P) Z :=
  match fuel with
  | O => throw diverges
  | S fuel' =>
    c <- rd8 name ;;
    if c =? 0 then ret h else hash_loop fuel' (name + 1) (hash_step h c)
  end.

Definition private_hash (name : Z) : M (env P) Z :=
  s <- get ;; hash_loop (string_fuel s) name 0.

(** ** Symbols *)

Definition sym_size : Z := 24.
Definition st_name (sym : Z) : M (env P) Z := rd32 sym.
Definition st_info (sym : Z) : M (env P) Z := rd8 (sym + 4).
Definition st_value (sym : Z) : M (env P) Z := rd64 (sym + 8).
Definition BFELF_SYM_BIND (x : Z) : Z := Z.shiftr x 4.
Definition bfstb_weak : Z := 2.

(** [&ef->symtab[i]] and [&ef->strtab[sym->st_name]] *)
Definition sym_at e (i : Z) : Z := add64 (symtab e) (sym_size * i).
Definition sym_str e (sym : Z) : M (env P) Z := n <- st_name sym ;; ret (add64 (strtab e) n).

(** The search functions answer with the symbol they leave in [*sym] where
    they return [BFELF_SUCCESS], and with [None] for
    [BFELF_ERROR_NO_SUCH_SYMBOL]. *)
Fixpoint chain_loop (fuel : nat) e (name i : Z) : M (env P) (option Z) :=
  match fuel with
  | O => throw diverges
  | S fuel' =>
    if (0 <? i) && (i <? nchain e) then
      str2 <- sym_str e (sym_at e i) ;;
      r <- private_strcmp (str name) (str str2) ;;
      if r =? BFELF_ERROR_MISMATCH then
        i' <- rd32 (add64 (chain e) (4 * i)) ;; chain_loop fuel' e name i'
      else ret (Some (sym_at e i))
    else ret None
  end.

Definition private_get_sym_by_hash e (name : Z) : M (env P) (option Z) :=
  x <- private_hash name ;;
  if nbucket e =? 0 then throw segfault else
  i <- rd32 (add64 (bucket e) (4 * (x mod nbucket e))) ;;
  chain_loop (S (Z.to_nat (nchain e))) e name i.

Fixpoint sym_loop (l : list Z) e (name : Z) : M (env P) (option Z) :=
  match l with
  | [] => ret None
  | i :: l' =>
    str2 <- sym_str e (sym_at e i) ;;
    r <- private_strcmp (str name) (str str2) ;;
    if r =? BFELF_ERROR_MISMATCH then sym_loop l' e name else ret (Some (sym_at e i))
  end.

Definition private_get_sym_by_name e (name : Z) : M (env P) (option Z) :=
  if negb (hash e =? 0) then private_get_sym_by_hash e name
  else sym_loop (seqZ 0 (symnum e)) e name.

(** The loop over [loader->efs]; [found] is the pair [*ef_found], [*sym]. *)
Fixpoint global_loop (l : list nat) (name : Z) (ignore : option nat) (found : option (nat * Z))
    : M (env P) (option (nat * Z)) :=
  match l with
  | [] => ret found
  | j :: l' =>
    if bool_decide (ignore = Some j) then global_loop l' name ignore found else
    e <- get_ef j ;;
    r <- private_get_sym_by_name e name ;;
    match r with
    | None => global_loop l' name ignore found
    | Some sym =>
      v <- st_value sym ;;
      if v =? 0 then global_loop l' name ignore found else
      i <- st_info sym ;;
      if BFELF_SYM_BIND i =? bfstb_weak then global_loop l' name ignore (Some (j, sym))
      else ret (Some (j, sym))
    end
  end.

Definition private_get_sym_global (name : Z) (ef_found : option nat) : M (env P) (option (nat * Z)) :=
  s <- get ;; global_loop (take (Z.to_nat (num (ldr s))) (efs (ldr s))) name ef_found None.

(** ** Relocations *)

Definition BFR_X86_64_64 : Z := 1.
Definition BFR_X86_64_GLOB_DAT : Z := 6.
Definition BFR_X86_64_JUMP_SLOT : Z := 7.
Definition BFR_X86_64_RELATIVE : Z := 8.
Definition rela_size : Z := 24.
Definition r_offset (rela : Z) : M (env P) Z := rd64 rela.
Definition r_info (rela : Z) : M (env P) Z := rd64 (rela + 8).
Definition r_addend (rela : Z) : M (env P) Z := rd64 (rela + 16).
Definition BFELF_REL_SYM (i : Z) : Z := Z.shiftr i 32.
Definition BFELF_REL_TYPE (i : Z) : Z := Z.land i 0xFFFFFFFF.

(** What a relocation of type [ty] stores once its symbol is known. *)
Definition store_symbol (ptr ty rela value : Z) : M (env P) Z :=
  wr64 ptr value ;;;
  if ty =? BFR_X86_64_64 then
    a <- r_addend rela ;; wr64 ptr (add64 value a) ;;; ret BFELF_SUCCESS
  else if (ty =? BFR_X86_64_GLOB_DAT) || (ty =? BFR_X86_64_JUMP_SLOT) then ret BFELF_SUCCESS
  else ret BFELF_ERROR_UNSUPPORTED_RELA.

Definition private_relocate_symbol (i : nat) (rela : Z) : M (env P) Z :=
  e <- get_ef i ;;
  off <- r_offset rela ;;
  r <- r_info rela ;;
  let ptr := sub64 (add64 (exec_addr e) off) (start_addr e) in
  let ty := BFELF_REL_TYPE r in
  if ty =? BFR_X86_64_RELATIVE then
    a <- r_addend rela ;;
    wr64 ptr (add64 (exec_virt e) a) ;;; ret BFELF_SUCCESS
  else
    let sym := sym_at e (BFELF_REL_SYM r) in
    inf <- st_info sym ;;
    v <- st_value sym ;;
    let weak := BFELF_SYM_BIND inf =? bfstb_weak in
    if (v =? 0) || weak then
      name <- sym_str e sym ;;
      f <- private_get_sym_global name (if weak then None else Some i) ;;
      match f with
      | None => ret BFELF_ERROR_NO_SUCH_SYMBOL
      | Some (j, sym') =>
        e' <- get_ef j ;;
        v' <- st_value sym' ;;
        store_symbol ptr ty rela (add64 (exec_virt e') v')
      end
    else store_symbol ptr ty rela (add64 (exec_virt e) v).

Definition private_relocate_symbols (i : nat) : M (env P) Z :=
  e <- get_ef i ;;
  until_error (seqZ 0 (relanum_dyn e))
    (fun k => private_relocate_symbol i (add64 (relatab_dyn e) (rela_size * k))) !;;
  until_error (seqZ 0 (relanum_plt e))
    (fun k => private_relocate_symbol i (add64 (relatab_plt e) (rela_size * k))).

(** ** Parsing of a file *)

(** Fields of the ELF header at [ehdr], of a program header and of a section
    header. *)
Definition e_ident (h k : Z) : M (env P) Z := rd8 (h + k).
Definition e_type (h : Z) : M (env P) Z := rd16 (h + 16).
Definition e_machine (h : Z) : M (env P) Z := rd16 (h + 18).
Definition e_version (h : Z) : M (env P) Z := rd32 (h + 20).
Definition e_entry (h : Z) : M (env P) Z := rd64 (h + 24).
Definition e_phoff (h : Z) : M (env P) Z := rd64 (h + 32).
Definition e_shoff (h : Z) : M (env P) Z := rd64 (h + 40).
Definition e_flags (h : Z) : M (env P) Z := rd32 (h + 48).
Definition e_phnum (h : Z) : M (env P) Z := rd16 (h + 56).
Definition e_shnum (h : Z) : M (env P) Z := rd16 (h + 60).
Definition e_shstrndx (h : Z) : M (env P) Z := rd16 (h + 62).
Definition ehdr_size : Z := 64.

Definition p_type (h : Z) : M (env P) Z := rd32 h.
Definition p_flags (h : Z) : M (env P) Z := rd32 (h + 4).
Definition p_offset (h : Z) : M (env P) Z := rd64 (h + 8).
Definition p_vaddr (h : Z) : M (env P) Z := rd64 (h + 16).
Definition p_filesz (h : Z) : M (env P) Z := rd64 (h + 32).
Definition p_memsz (h : Z) : M (env P) Z := rd64 (h + 40).
Definition phdr_size : Z := 56.
Definition bfpt_load : Z := 1.
Definition bfpt_dynamic : Z := 2.
Definition bfpt_gnu_stack : Z := 0x6474E551.
Definition bfpt_gnu_relro : Z := 0x6474E552.
Definition bfpf_x : Z := 1.

Definition sh_name (h : Z) : M (env P) Z := rd32 h.
Definition sh_addr (h : Z) : M (env P) Z := rd64 (h + 16).
Definition sh_offset (h : Z) : M (env P) Z := rd64 (h + 24).
Definition sh_size (h : Z) : M (env P) Z := rd64 (h + 32).
Definition shdr_size : Z := 64.

Definition dyn_size : Z := 16.
Definition d_tag (d : Z) : M (env P) Z := rd64 d.
Definition d_val (d : Z) : M (env P) Z := rd64 (d + 8).

(** The comparison of a field with the value it must have. *)
Definition require (m : M (env P) Z) (p : Z -> bool) (code : Z) : M (env P) Z :=
  v <- m ;; ret (if p v then BFELF_SUCCESS else code).

Definition private_check_signature (i : nat) : M (env P) Z :=
  e <- get_ef i ;;
  require (e_ident (ehdr e) 0) (Z.eqb 0x7F) BFELF_ERROR_INVALID_SIGNATURE !;;
  require (e_ident (ehdr e) 1) (Z.eqb 0x45) BFELF_ERROR_INVALID_SIGNATURE !;;
  require (e_ident (ehdr e) 2) (Z.eqb 0x4C) BFELF_ERROR_INVALID_SIGNATURE !;;
  require (e_ident (ehdr e) 3) (Z.eqb 0x46) BFELF_ERROR_INVALID_SIGNATURE.

Definition bfet_exec : Z := 2.
Definition bfet_dyn : Z := 3.
Definition bfem_x86_64 : Z := 62.

Definition private_check_support (i : nat) : M (env P) Z :=
  e <- get_ef i ;;
  require (e_ident (ehdr e) 4) (Z.eqb 2) BFELF_ERROR_UNSUPPORTED_FILE !;;
  require (e_ident (ehdr e) 5) (Z.eqb 1) BFELF_ERROR_UNSUPPORTED_FILE !;;
  require (e_ident (ehdr e) 6) (Z.eqb 1) BFELF_ERROR_UNSUPPORTED_FILE !;;
  require (e_ident (ehdr e) 7) (Z.eqb 0) BFELF_ERROR_UNSUPPORTED_FILE !;;
  require (e_ident (ehdr e) 8) (Z.eqb 0) BFELF_ERROR_UNSUPPORTED_FILE !;;
  require (e_type (ehdr e)) (fun t => (t =? bfet_dyn) || (t =? bfet_exec)) BFELF_ERROR_UNSUPPORTED_FILE !;;
  require (e_machine (ehdr e)) (Z.eqb bfem_x86_64) BFELF_ERROR_UNSUPPORTED_FILE !;;
  require (e_version (ehdr e)) (Z.eqb 1) BFELF_ERROR_UNSUPPORTED_FILE !;;
  require (e_flags (ehdr e)) (Z.eqb 0) BFELF_ERROR_UNSUPPORTED_FILE.

(** The body of the loop over the program headers. *)
Definition process_phdr (i : nat) (k : Z) : M (env P) unit :=
  e <- get_ef i ;;
  let phdr := add64 (phdrtab e) (phdr_size * k) in
  t <- p_type phdr ;;
  if t =? bfpt_load then
    if num_loadable_segments e <? BFELF_MAX_SEGMENTS then
      va <- p_vaddr phdr ;;
      ms <- p_memsz phdr ;;
      set_ef i (fun e => set_total_memsz e (add64 va ms)) ;;;
      set_ef i (fun e => set_loadable_segments e
        (<[Z.to_nat (num_loadable_segments e) := phdr]> (loadable_segments e))) ;;;
      set_ef i (fun e => set_num_loadable_segments e (num_loadable_segments e + 1))
    else ret tt
  else if t =? bfpt_dynamic then
    off <- p_offset phdr ;;
    sz <- p_filesz phdr ;;
    set_ef i (fun e => set_dynnum (set_dynoff e off) (sz / dyn_size))
  else if t =? bfpt_gnu_stack then
    fl <- p_flags phdr ;; set_ef i (fun e => set_stack_flags e fl)
  else if t =? bfpt_gnu_relro then
    va <- p_vaddr phdr ;;
    ms <- p_memsz phdr ;;
    set_ef i (fun e => set_relaro_memsz (set_relaro_vaddr e va) ms)
  else ret tt.

(** [ef->loadable_segments[k]] *)
Definition segment e (k : Z) : M (env P) Z :=
  match loadable_segments e !! Z.to_nat k with Some p => ret p | None => throw segfault end.

Definition process_load (i : nat) (k : Z) : M (env P) unit :=
  e <- get_ef i ;;
  phdr <- segment e k ;;
  fl <- p_flags phdr ;;
  va <- p_vaddr phdr ;;
  off <- p_offset phdr ;;
  ms <- p_memsz phdr ;;
  fs <- p_filesz phdr ;;
  set_ef i (fun e => set_num_load_instr
    (set_load_instr e (<[Z.to_nat k := LoadInstr fl (sub64 va (start_addr e)) off ms fs va]> (load_instr e)))
    (num_load_instr e + 1)).

Definition private_process_segments (i : nat) : M (env P) unit :=
  e <- get_ef i ;;
  n <- e_phnum (ehdr e) ;;
  for_each (seqZ 0 n) (process_phdr i) ;;;
  e <- get_ef i ;;
  (if 0 <? num_loadable_segments e then
     phdr <- segment e 0 ;;
     va <- p_vaddr phdr ;;
     set_ef i (fun e => set_start_addr e va) ;;;
     set_ef i (fun e => set_total_memsz e (sub64 (total_memsz e) (start_addr e)))
   else ret tt) ;;;
  for_each (seqZ 0 (num_loadable_segments e)) (process_load i).

(** The tags of the dynamic section that the loader uses. *)
Definition bfdt_null := 0.
Definition bfdt_needed := 1.
Definition bfdt_pltrelsz := 2.
Definition bfdt_hash := 4.
Definition bfdt_strtab := 5.
Definition bfdt_symtab := 6.
Definition bfdt_rela := 7.
Definition bfdt_relasz := 8.
Definition bfdt_init := 12.
Definition bfdt_fini := 13.
Definition bfdt_jmprel := 23.
Definition bfdt_init_array := 25.
Definition bfdt_fini_array := 26.
Definition bfdt_init_arraysz := 27.
Definition bfdt_fini_arraysz := 28.
Definition bfdt_flags_1 := 0x6FFFFFFB.

(** The [switch] on the tag, [bfdt_null] apart. *)
Definition process_dyn (tag v : Z) e : bfelf_file_t :=
  if tag =? bfdt_needed then
    if num_needed e <? BFELF_MAX_NEEDED
    then set_num_needed (set_needed e (<[Z.to_nat (num_needed e) := v]> (needed e))) (num_needed e + 1)
    else e
  else if tag =? bfdt_pltrelsz then set_relanum_plt e (v / rela_size)
  else if tag =? bfdt_hash then set_hash e v
  else if tag =? bfdt_strtab then set_strtab_offset e v
  else if tag =? bfdt_symtab then set_symtab e v
  else if tag =? bfdt_rela then set_relatab_dyn e v
  else if tag =? bfdt_relasz then set_relanum_dyn e (v / rela_size)
  else if tag =? bfdt_init then set_init e v
  else if tag =? bfdt_fini then set_fini e v
  else if tag =? bfdt_jmprel then set_relatab_plt e v
  else if tag =? bfdt_init_array then set_init_array e v
  else if tag =? bfdt_fini_array then set_fini_array e v
  else if tag =? bfdt_init_arraysz then set_init_arraysz e v
  else if tag =? bfdt_fini_arraysz then set_fini_arraysz e v
  else if tag =? bfdt_flags_1 then set_flags_1 e v
  else e.

Fixpoint dyn_loop (l : list Z) (i : nat) (dyntab : Z) : M (env P) unit :=
  match l with
  | [] => ret tt
  | k :: l' =>
    let dyn := add64 dyntab (dyn_size * k) in
    tag <- d_tag dyn ;;
    if tag =? bfdt_null then ret tt else
    v <- d_val dyn ;;
    set_ef i (process_dyn tag v) ;;;
    dyn_loop l' i dyntab
  end.

Definition private_process_dynamic_section (i : nat) : M (env P) unit :=
  e <- get_ef i ;;
  if (dynnum e =? 0) || (dynoff e =? 0) then ret tt else
  set_ef i (fun e => set_dyntab (set_num_needed e 0) (add64 (file e) (dynoff e))) ;;;
  dyn_loop (seqZ 0 (dynnum e)) i (add64 (file e) (dynoff e)).

(** ".eh_frame", ".ctors" and ".dtors" *)
Definition eh_frame_name : list Z := [0x2E; 0x65; 0x68; 0x5F; 0x66; 0x72; 0x61; 0x6D; 0x65].
Definition ctors_name : list Z := [0x2E; 0x63; 0x74; 0x6F; 0x72; 0x73].
Definition dtors_name : list Z := [0x2E; 0x64; 0x74; 0x6F; 0x72; 0x73].

(** The body of the loop over the section headers. *)
Definition process_shdr (i : nat) (k : Z) : M (env P) unit :=
  e <- get_ef i ;;
  let shdr := add64 (shdrtab e) (shdr_size * k) in
  n <- sh_name shdr ;;
  let name := add64 (shstrtab e) n in
  r <- private_strcmp (str name) (lit eh_frame_name) ;;
  if r =? BFELF_SUCCESS then
    a <- sh_addr shdr ;; z <- sh_size shdr ;; set_ef i (fun e => set_eh_framesz (set_eh_frame e a) z)
  else
  r <- private_strcmp (str name) (lit ctors_name) ;;
  if r =? BFELF_SUCCESS then
    a <- sh_addr shdr ;; z <- sh_size shdr ;; set_ef i (fun e => set_init_arraysz (set_init_array e a) z)
  else
  r <- private_strcmp (str name) (lit dtors_name) ;;
  if r =? BFELF_SUCCESS then
    a <- sh_addr shdr ;; z <- sh_size shdr ;; set_ef i (fun e => set_fini_arraysz (set_fini_array e a) z)
  else ret tt.

Definition bfelf_file_init (fil fsz : Z) (i : nat) : M (env P) Z :=
  if fil =? 0 then ret BFELF_ERROR_INVALID_ARG else
  if fsz <? ehdr_size then ret BFELF_ERROR_INVALID_ARG else
  set_ef i (fun e => set_ehdr (set_filesz (set_file e fil) fsz) fil) ;;;
  ph <- e_phoff fil ;;
  set_ef i (fun e => set_phdrtab e (add64 fil ph)) ;;;
  sh <- e_shoff fil ;;
  set_ef i (fun e => set_shdrtab e (add64 fil sh)) ;;;
  private_check_signature i !;;
  private_check_support i !;;
  private_process_segments i ;;;
  private_process_dynamic_section i ;;;
  en <- e_entry fil ;;
  set_ef i (fun e => set_entry e en) ;;;
  x <- e_shstrndx fil ;;
  o <- sh_offset (add64 (add64 fil sh) (shdr_size * x)) ;;
  set_ef i (fun e => set_shstrtab e (add64 fil o)) ;;;
  n <- e_shnum fil ;;
  for_each (seqZ 0 n) (process_shdr i) ;;;
  set_ef i (fun e => set_strtab e (add64 (strtab_offset e) fil)) ;;;
  ret BFELF_SUCCESS.

(** ** What a parsed file answers *)

Definition bfelf_file_get_num_load_instrs e : Z := num_load_instr e.

Definition bfelf_file_get_load_instr e (index : Z) : Z * option bfelf_load_instr :=
  if num_load_instr e <=? index then (BFELF_ERROR_INVALID_INDEX, None)
  else (BFELF_SUCCESS, load_instr e !! Z.to_nat index).

(** [section_info] is left alone, and so indeterminate, when the file was not
    added. *)
Definition bfelf_file_get_section_info e : Z * option section_info_t :=
  if added e =? 0 then (BFELF_ERROR_INVALID_ARG, None) else
  let at_virt x := if x =? 0 then 0 else add64 x (exec_virt e) in
  let size_of x n := if x =? 0 then 0 else n in
  (BFELF_SUCCESS, Some (SectionInfo (at_virt (init e)) (at_virt (fini e))
     (at_virt (init_array e)) (size_of (init_array e) (init_arraysz e))
     (at_virt (fini_array e)) (size_of (fini_array e) (fini_arraysz e))
     (at_virt (eh_frame e)) (size_of (eh_frame e) (eh_framesz e)))).

Definition bfelf_file_get_entry e : Z * option Z :=
  if added e =? 0 then (BFELF_ERROR_INVALID_ARG, None)
  else (BFELF_SUCCESS, Some (add64 (entry e) (exec_virt e))).

Definition bfelf_file_get_stack_perm e : Z := stack_flags e.

Definition bfelf_file_get_relro e : Z * option (Z * Z) :=
  if added e =? 0 then (BFELF_ERROR_INVALID_ARG, None)
  else (BFELF_SUCCESS, Some (add64 (relaro_vaddr e) (exec_virt e), relaro_memsz e)).

Definition bfelf_file_get_num_needed e : Z := num_needed e.

Definition bfelf_file_get_needed e (index : Z) : Z * option Z :=
  if num_needed e <=? index then (BFELF_ERROR_INVALID_INDEX, None)
  else (BFELF_SUCCESS, (fun n => add64 (strtab e) n) <$> needed e !! Z.to_nat index).

Definition bfelf_file_get_total_size e : Z := total_memsz e.

Definition bfelf_file_get_pic_pie e : Z := if start_addr e =? 0 then 1 else 0.

(** ** The loader *)

(** The pointers of a file that is added, moved to where it is loaded. *)
Definition place e (exec_address exec_virtual : Z) : bfelf_file_t :=
  let e := set_exec_addr e exec_address in
  let e := if start_addr e =? 0 then set_exec_virt e exec_virtual else e in
  let start := sub64 (exec_addr e) (start_addr e) in
  let e := set_hash e (add64 (hash e) start) in
  let e := set_strtab e (add64 (strtab_offset e) start) in
  let e := set_symtab e (add64 (symtab e) start) in
  let e := set_relatab_dyn e (add64 (relatab_dyn e) start) in
  set_relatab_plt e (add64 (relatab_plt e) start).

Definition bfelf_loader_add (i : nat) (exec_address exec_virtual : Z) : M (env P) Z :=
  if exec_address =? 0 then ret BFELF_ERROR_INVALID_ARG else
  s <- get ;;
  if MAX_NUM_MODULES <=? num (ldr s) then ret BFELF_ERROR_LOADER_FULL else
  e <- get_ef i ;;
  set_ef i (fun e => set_added e (w32 (added e + 1))) ;;;
  if negb (added e =? 0) then ret BFELF_ERROR_INVALID_ARG else
  set_ef i (fun e => place e exec_address exec_virtual) ;;;
  e <- get_ef i ;;
  nb <- rd32 (hash e) ;;
  nc <- rd32 (add64 (hash e) 4) ;;
  set_ef i (fun e =>
    let e := set_nchain (set_nbucket e nb) nc in
    let e := set_bucket e (add64 (hash e) (4 * 2)) in
    let e := set_chain e (add64 (hash e) (4 * w32 (2 + nb))) in
    set_symnum e (sub64 (strtab e) (symtab e) / sym_size)) ;;;
  modify (fun s => set_ldr s (Loader (num (ldr s) + 1) (relocated (ldr s)) (efs (ldr s) ++ [i]))) ;;;
  ret BFELF_SUCCESS.

Definition bfelf_loader_relocate : M (env P) Z :=
  s <- get ;;
  if relocated (ldr s) =? 1 then ret BFELF_SUCCESS else
  until_error (take (Z.to_nat (num (ldr s))) (efs (ldr s))) private_relocate_symbols !;;
  modify (fun s => set_ldr s (Loader (num (ldr s)) 1 (efs (ldr s)))) ;;;
  ret BFELF_SUCCESS.

(** The address left in [*addr], where the symbol is found. *)
Definition bfelf_loader_resolve_symbol (name : Z) : M (env P) (Z * option Z) :=
  if name =? 0 then ret (BFELF_ERROR_INVALID_ARG, None) else
  f <- private_get_sym_global name None ;;
  match f with
  | None => ret (BFELF_ERROR_NO_SUCH_SYMBOL, None)
  | Some (j, sym) =>
    e <- get_ef j ;; v <- st_value sym ;; ret (BFELF_SUCCESS, Some (add64 (exec_virt e) v))
  end.

(** ** Loading of the modules *)

(** The body of the loop that copies the segments. *)
Definition copy_segment (i : nat) (k : Z) : M (env P) unit :=
  b <- get_bin i ;;
  match snd (bfelf_file_get_load_instr (ef b) k) with
  | None => ret tt
  | Some instr =>
    platform_memcpy (add64 (exec b) (mem_offset instr)) (add64 (bin_file b) (file_offset instr))
      (seg_filesz instr)
  end.

Definition private_load_binary (i : nat) : M (env P) Z :=
  b <- get_bin i ;;
  (if file (ef b) =? 0 then bfelf_file_init (bin_file b) (file_size b) i else ret 0) !;;
  e <- get_ef i ;;
  let sz := bfelf_file_get_total_size e in
  set_bin i (fun b => Binary (exec b) (bin_file b) sz (file_size b) (ef b)) ;;;
  a <- platform_alloc sz ;;
  set_bin i (fun b => Binary a (bin_file b) (exec_size b) (file_size b) (ef b)) ;;;
  if a =? 0 then ret BFELF_ERROR_OUT_OF_MEMORY else
  platform_memset a 0 sz ;;;
  for_each (seqZ 0 (bfelf_file_get_num_load_instrs e)) (copy_segment i) ;;;
  ret BFELF_SUCCESS.

Definition private_relocate_binaries (num_binaries : Z) : M (env P) Z :=
  for_each (seqZ 0 num_binaries) (fun k =>
    b <- get_bin (Z.to_nat k) ;;
    bfelf_loader_add (Z.to_nat k) (exec b) (exec b) ;;; ret tt) ;;;
  bfelf_loader_relocate.

(** The push of an indeterminate [section_info] has no defined behaviour. *)
Definition private_crt_info (num_binaries : Z) : M (env P) Z :=
  for_each (seqZ 0 num_binaries) (fun k =>
    e <- get_ef (Z.to_nat k) ;;
    match snd (bfelf_file_get_section_info e) with
    | None => throw segfault
    | Some si => modify (fun s => set_crt s
        (CrtInfo (arg_type (crt s)) (argc (crt s)) (argv (crt s)) (request (crt s)) (arg1 (crt s))
           (arg2 (crt s)) (arg3 (crt s)) (info (crt s) ++ [si])))
    end) ;;;
  ret BFELF_SUCCESS.

Definition bfelf_load (num_binaries : Z) : M (env P) Z :=
  if (num_binaries =? 0) || (MAX_NUM_MODULES <=? num_binaries) then ret BFELF_ERROR_INVALID_ARG else
  until_error (seqZ 0 num_binaries) (fun k => private_load_binary (Z.to_nat k)) !;;
  private_relocate_binaries num_binaries !;;
  private_crt_info num_binaries ;;;
  e <- get_ef (Z.to_nat (num_binaries - 1)) ;;
  match snd (bfelf_file_get_entry e) with
  | None => ret tt
  | Some a => modify (fun s => set_start s a)
  end ;;;
  ret BFELF_SUCCESS.

Definition bfelf_set_args (c v : Z) : M (env P) Z :=
  modify (fun s => set_crt s (CrtInfo 0 c v (request (crt s)) (arg1 (crt s)) (arg2 (crt s))
    (arg3 (crt s)) (info (crt s)))) ;;;
  ret BFELF_SUCCESS.

Definition bfelf_set_integer_args (req a1 a2 a3 : Z) : M (env P) Z :=
  modify (fun s => set_crt s (CrtInfo 1 (argc (crt s)) (argv (crt s)) req a1 a2 a3 (info (crt s)))) ;;;
  ret BFELF_SUCCESS.
End Elf.
