(* ===== verification/ElfFrame.v ===== *)
(** * The ELF loader: what it leaves alone

    The code of the loader, allocation of the images apart, keeps the live
    blocks, the platform, the addresses that are mapped and the buffers the
    binaries own, and stops in no other way than by an access to memory that is
    not mapped or by a loop that does not end.  [Framed] is resolved like a type
    class, from the structure of the program. *)
From S2P Require Import Prelude Elf.

(** The part of a binary that is not the parsed file. *)
Definition shape (b : bfelf_binary_t) : Z * Z * Z * Z := (exec b, bin_file b, exec_size b, file_size b).

Definition fault (e : exn) : Prop := e = segfault \/ e = diverges.

Section Frame.
Context {P : Type} `{Platform P}.
Local Open Scope vmm_scope.

Record frame (s s' : env P) : Prop := {
  fr_live : live s' = live s;
  fr_plat : plat s' = plat s;
  fr_dom : dom (bytes s') = dom (bytes s);
  fr_bins : shape <$> bins s' = shape <$> bins s;
}.

#[export] Instance frame_refl : Reflexive frame.
Proof. by split. Qed.
#[export] Instance frame_trans : Transitive frame.
Proof. intros s1 s2 s3 [] []. split; congruence. Qed.

Class Framed {B} (m : M (env P) B) : Prop := framed s :
  match m s with Ok _ s' => frame s s' | Err e _ => fault e end.

#[export] Instance framed_ret {B} (b : B) : Framed (ret b).
Proof. intros s. exact (frame_refl s). Qed.
#[export] Instance framed_segfault {B} : Framed (throw (A := B) segfault).
Proof. intros s. by left. Qed.
#[export] Instance framed_diverges {B} : Framed (throw (A := B) diverges).
Proof. intros s. by right. Qed.
#[export] Instance framed_get : Framed get.
Proof. intros s. exact (frame_refl s). Qed.

#[export] Instance framed_bind {B C} (m : M (env P) B) (k : B -> M (env P) C) :
  Framed m -> (forall b, Framed (k b)) -> Framed (bind m k).
Proof.
  intros Hm Hk s. unfold bind. specialize (Hm s). destruct (m s) as [b s'|e s']; [|done].
  specialize (Hk b s'). destruct (k b s'); [by etrans|done].
Qed.

#[export] Instance framed_or_return (m k : M (env P) Z) : Framed m -> Framed k -> Framed (or_return m k).
Proof. intros ? ?. apply framed_bind; [done|]. intros b. destruct (b =? 0); [done|apply framed_ret]. Qed.

#[export] Instance framed_for_each {A} (l : list A) (body : A -> M (env P) unit) :
  (forall x, Framed (body x)) -> Framed (for_each l body).
Proof. intros Hb. induction l as [|x l IH]; simpl; apply _. Qed.

#[export] Instance framed_until_error {A} (l : list A) (body : A -> M (env P) Z) :
  (forall x, Framed (body x)) -> Framed (until_error l body).
Proof. intros Hb. induction l as [|x l IH]; simpl; apply _. Qed.

#[export] Instance framed_rd n a : Framed (rd n a).
Proof. intros s. unfold rd. destruct (peek _ _ _); [exact (frame_refl s)|by left]. Qed.

#[export] Instance framed_rd_bytes a n : Framed (rd_bytes a n).
Proof. intros s. unfold rd_bytes. destruct (fetch _ _ _); [exact (frame_refl s)|by left]. Qed.

(** What a fetch reads. *)
Lemma fetch_some (m : gmap Z Z) n a l : fetch m n a = Some l <->
  length l = n /\ forall i x, l !! i = Some x -> m !! (a + Z.of_nat i) = Some x.
Proof.
  revert a l. induction n as [|n IH]; intros a l; cbn [fetch].
  { split; [by intros [= <-]|]. by intros [->%nil_length_inv _]. }
  rewrite bind_Some. setoid_rewrite bind_Some. setoid_rewrite IH. split.
  - intros (b & Hb & l' & [Hl Hm] & [= <-]). split; [simpl; lia|]. intros [|i] x Hx.
    + injection Hx as <-. by rewrite Z.add_0_r.
    + replace (a + Z.of_nat (S i)) with (a + 1 + Z.of_nat i) by lia. by apply Hm.
  - intros [Hl Hm]. destruct l as [|b l]; [done|]. exists b. split; [rewrite <- (Z.add_0_r a); by apply (Hm 0%nat)|].
    exists l. split; [|done]. split; [simpl in Hl; lia|]. intros i x Hx.
    replace (a + 1 + Z.of_nat i) with (a + Z.of_nat (S i)) by lia. by apply Hm.
Qed.

Lemma fetch_agree (m m' : gmap Z Z) n a : (forall i, 0 <= i < Z.of_nat n -> m' !! (a + i) = m !! (a + i)) ->
  fetch m' n a = fetch m n a.
Proof.
  revert a. induction n as [|n IH]; intros a Hm; [done|]. cbn [fetch].
  assert (m' !! a = m !! a) as -> by (rewrite <- (Z.add_0_r a); apply Hm; lia). rewrite IH; [done|].
  intros i Hi. replace (a + 1 + i) with (a + (i + 1)) by lia. apply Hm. lia.
Qed.

Lemma dom_write (m : gmap Z Z) a (l : list Z) :
  (forall i, 0 <= i < Z.of_nat (length l) -> is_Some (m !! (a + i))) ->
  dom (map_seqZ (M := gmap Z Z) a l ∪ m) = dom m.
Proof.
  intros Hm. rewrite dom_union_L. apply subseteq_union_1_L. intros x Hx. apply elem_of_dom in Hx as [v Hx].
  apply lookup_map_seqZ_Some in Hx as [? Hx]. apply lookup_lt_Some in Hx.
  apply elem_of_dom. replace x with (a + (x - a)) by lia. apply Hm. lia.
Qed.

Lemma mapped_true (m : gmap Z Z) n a : mapped m n a = true <->
  forall i, 0 <= i < Z.of_nat n -> is_Some (m !! (a + i)).
Proof.
  revert a. induction n as [|n IH]; intros a; cbn [mapped]; [split; [lia|done]|].
  destruct (m !! a) as [v|] eqn:E.
  - rewrite IH. split; intros Hm i Hi.
    + destruct (decide (i = 0)) as [->|]; [rewrite Z.add_0_r; eauto|].
      replace (a + i) with (a + 1 + (i - 1)) by lia. apply Hm. lia.
    + replace (a + 1 + i) with (a + (i + 1)) by lia. apply Hm. lia.
  - split; [done|]. intros Hm. destruct (Hm 0) as [v Hv]; [lia|]. rewrite Z.add_0_r in Hv. congruence.
Qed.

#[export] Instance framed_wr a l : Framed (wr a l).
Proof.
  intros s. unfold wr. destruct (mapped _ _ _) eqn:E; [|by left]. rewrite mapped_true in E.
  split; try done. by apply dom_write.
Qed.

#[export] Instance framed_get_bin i : Framed (get_bin i).
Proof. intros s. unfold get_bin. destruct (bins s !! i); [exact (frame_refl s)|by left]. Qed.

Lemma framed_set_bin i f : (forall b, shape (f b) = shape b) -> Framed (set_bin i f).
Proof.
  intros Hf s. unfold set_bin, bind, get_bin, modify. destruct (bins s !! i) as [b|] eqn:E; [|by left].
  split; try done. cbn [bins set_bins]. rewrite list_fmap_insert, Hf. apply list_insert_id.
  by rewrite list_lookup_fmap, E.
Qed.

#[export] Instance framed_set_ef i f : Framed (set_ef i f).
Proof. by apply framed_set_bin. Qed.
#[export] Instance framed_get_ef i : Framed (get_ef i).
Proof. apply _. Qed.

Lemma framed_modify (f : env P -> env P) : (forall s, frame s (f s)) -> Framed (modify f).
Proof. intros Hf s. apply Hf. Qed.
End Frame.

(** Case analysis on what a program branches on. *)
#[export] Hint Extern 2 (Framed (match ?x with _ => _ end)) => destruct x : typeclass_instances.
#[export] Hint Extern 2 (Framed (modify _)) => (apply framed_modify; intros ?; by split) : typeclass_instances.
#[export] Hint Extern 1 (Framed (let x := _ in _)) => (cbv zeta) : typeclass_instances.

(** The structure of a longer program, followed step by step. *)
Ltac frames :=
  repeat match goal with
  | |- Framed (bind _ _) => apply framed_bind; [|intros ?]
  | |- Framed (or_return _ _) => apply framed_or_return
  | |- Framed (let x := _ in _) => cbv zeta
  | |- Framed (match ?x with _ => _ end) => destruct x
  | |- Framed (for_each _ _) => apply framed_for_each; intros ?
  | |- Framed (until_error _ _) => apply framed_until_error; intros ?
  end; try apply _.

Section Loader.
Context {P : Type} `{Platform P}.
Local Open Scope vmm_scope.

#[export] Instance framed_str p k : Framed (P := P) (str p k).
Proof. apply _. Qed.
#[export] Instance framed_lit l k : Framed (P := P) (lit l k).
Proof. unfold lit. apply _. Qed.

#[export] Instance framed_strcmp_loop fuel s1 s2 k : (forall j, Framed (P := P) (s1 j)) -> (forall j, Framed (P := P) (s2 j)) ->
  Framed (P := P) (strcmp_loop fuel s1 s2 k).
Proof. intros ? ?. revert k. induction fuel as [|fuel IH]; intros k; simpl; apply _. Qed.

#[export] Instance framed_strcmp s1 s2 : (forall j, Framed (P := P) (s1 j)) -> (forall j, Framed (P := P) (s2 j)) ->
  Framed (P := P) (private_strcmp s1 s2).
Proof. intros ? ?. unfold private_strcmp. apply _. Qed.

#[export] Instance framed_hash_loop fuel name h : Framed (P := P) (hash_loop fuel name h).
Proof. revert name h. induction fuel as [|fuel IH]; intros; simpl; apply _. Qed.

#[export] Instance framed_sym_str e sym : Framed (P := P) (sym_str e sym).
Proof. unfold sym_str. apply _. Qed.

#[export] Instance framed_chain_loop fuel e name i : Framed (P := P) (chain_loop fuel e name i).
Proof. revert i. induction fuel as [|fuel IH]; intros; simpl; apply _. Qed.

#[export] Instance framed_sym_loop l e name : Framed (P := P) (sym_loop l e name).
Proof. induction l as [|i l IH]; simpl; apply _. Qed.

#[export] Instance framed_get_sym_by_name e name : Framed (P := P) (private_get_sym_by_name e name).
Proof. unfold private_get_sym_by_name, private_get_sym_by_hash, private_hash. frames. Qed.

#[export] Instance framed_global_loop l name ignore found : Framed (P := P) (global_loop l name ignore found).
Proof. revert found. induction l as [|j l IH]; intros; simpl; apply _. Qed.

#[export] Instance framed_get_sym_global name found : Framed (P := P) (private_get_sym_global name found).
Proof. unfold private_get_sym_global. apply _. Qed.

#[export] Instance framed_relocate_symbol i rela : Framed (P := P) (private_relocate_symbol i rela).
Proof. unfold private_relocate_symbol, store_symbol, wr64. frames. Qed.

#[export] Instance framed_relocate_symbols i : Framed (P := P) (private_relocate_symbols i).
Proof. unfold private_relocate_symbols. frames. Qed.

#[export] Instance framed_require m p code : Framed (P := P) m -> Framed (P := P) (require m p code).
Proof. intros ?. unfold require. apply _. Qed.

#[export] Instance framed_process_segments i : Framed (P := P) (private_process_segments i).
Proof. unfold private_process_segments, process_phdr, process_load, segment. frames. Qed.

#[export] Instance framed_dyn_loop l i t : Framed (P := P) (dyn_loop l i t).
Proof. induction l as [|k l IH]; simpl; apply _. Qed.

#[export] Instance framed_file_init fil fsz i : Framed (P := P) (bfelf_file_init fil fsz i).
Proof.
  unfold bfelf_file_init, private_check_signature, private_check_support, private_process_dynamic_section,
    process_shdr. frames.
Qed.

#[export] Instance framed_memcpy dst src n : Framed (P := P) (platform_memcpy dst src n).
Proof. unfold platform_memcpy. apply _. Qed.
#[export] Instance framed_memset p v n : Framed (P := P) (platform_memset p v n).
Proof. unfold platform_memset. apply _. Qed.
#[export] Instance framed_copy_segment i k : Framed (P := P) (copy_segment i k).
Proof. unfold copy_segment. apply _. Qed.

#[export] Instance framed_loader_add i a v : Framed (P := P) (bfelf_loader_add i a v).
Proof. unfold bfelf_loader_add. frames. Qed.

#[export] Instance framed_relocate_binaries n : Framed (P := P) (private_relocate_binaries n).
Proof. unfold private_relocate_binaries, bfelf_loader_relocate. apply _. Qed.

#[export] Instance framed_crt_info n : Framed (P := P) (private_crt_info n).
Proof. unfold private_crt_info. apply _. Qed.
End Loader.

(** ** Words in memory *)

Lemma length_le_bytes n v : length (le_bytes n v) = n.
Proof. revert v. induction n as [|n IH]; intros v; simpl; [done|]. by rewrite IH. Qed.

Lemma le_value_bytes n v : 0 <= v < 256 ^ Z.of_nat n -> le_value (le_bytes n v) = v.
Proof.
  revert v. induction n as [|n IH]; intros v Hv.
  { simpl in Hv. unfold le_value. simpl. lia. }
  rewrite Nat2Z.inj_succ, Z.pow_succ_r in Hv by lia. cbn [le_bytes le_value foldr]. fold (le_value (le_bytes n (v / 256))).
  rewrite IH; [pose proof (Z.div_mod v 256 ltac:(lia)); lia|].
  split; [apply Z.div_pos; lia|]. apply Z.div_lt_upper_bound; lia.
Qed.

Lemma peek_le (m : gmap Z Z) n a l : length l = n -> (forall i x, l !! i = Some x -> m !! (a + Z.of_nat i) = Some x) ->
  peek m n a = Some (le_value l).
Proof.
  intros Hl Hm. unfold peek. by rewrite (proj2 (fetch_some m n a l)).
Qed.

(** What was written is read back. *)
Lemma peek_written (m : gmap Z Z) a v : u64 v -> peek (map_seqZ a (le_bytes 8 v) ∪ m) 8 a = Some v.
Proof.
  intros Hv. rewrite (peek_le _ 8 a (le_bytes 8 v)).
  - rewrite le_value_bytes; [done|]. exact Hv.
  - by rewrite length_le_bytes.
  - intros i x Hx. apply lookup_union_Some_l, lookup_map_seqZ_Some. split; [lia|].
    by replace (a + Z.of_nat i - a) with (Z.of_nat i) by lia; rewrite Nat2Z.id.
Qed.

(** A write elsewhere does not change what is read. *)
Lemma peek_other (m : gmap Z Z) a b v : b + 8 <= a \/ a + 8 <= b ->
  peek (map_seqZ a (le_bytes 8 v) ∪ m) 8 b = peek m 8 b.
Proof.
  intros Hd. unfold peek. f_equal. apply fetch_agree. intros i Hi.
  rewrite lookup_union_r; [done|]. apply lookup_map_seqZ_None. rewrite length_le_bytes. lia.
Qed.

(** A write of as many bytes hides an earlier one. *)
Lemma write_twice (m : gmap Z Z) a (l l' : list Z) : length l = length l' ->
  map_seqZ a l' ∪ (map_seqZ a l ∪ m) = map_seqZ a l' ∪ m.
Proof.
  intros El. apply map_eq. intros x. rewrite !lookup_union.
  destruct (map_seqZ a l' !! x) as [v|] eqn:E; [by rewrite !union_Some_l|]. rewrite !(left_id_L None _).
  apply lookup_map_seqZ_None in E. rewrite (proj2 (lookup_map_seqZ_None a l x)) by lia. by rewrite (left_id_L None _).
Qed.

Lemma rd_ok {P} (s : env P) n a v : peek (bytes s) n a = Some v -> rd n a s = Ok v s.
Proof. intros E. unfold rd. by rewrite E. Qed.

(** ** The structures of the modules *)

Lemma get_bin_ok {P} (s : env P) i b : bins s !! i = Some b -> get_bin i s = Ok b s.
Proof. intros E. unfold get_bin. by rewrite E. Qed.

Lemma set_bin_ok {P} (s : env P) i b f : bins s !! i = Some b ->
  set_bin i f s = Ok tt (set_bins s (<[i := f b]> (bins s))).
Proof. intros E. unfold set_bin. by erewrite bind_ok by by apply get_bin_ok. Qed.

Lemma get_ef_ok {P} (s : env P) i b : bins s !! i = Some b -> get_ef i s = Ok (ef b) s.
Proof. intros E. unfold get_ef. by erewrite bind_ok by by apply get_bin_ok. Qed.
