(* ===== verification/ElfSyms.v ===== *)
(** * The ELF loader: strings, hashes and symbols

    The comparison and the hash of C strings in memory, and the search of a
    symbol in the hash table of a module against the plain search of its symbol
    table. *)
From S2P Require Import Prelude Elf ElfFrame.

(** ** The hash of the System V ABI *)

(** One round on the byte [c], on 32-bit integers. *)
Definition sysv_step (h c : Z) : Z :=
  let h := w32 (w32 (Z.shiftl h 4) + c) in
  let g := Z.land h 0xF0000000 in
  let h := if negb (g =? 0) then Z.lxor h (Z.shiftr g 24) else h in
  Z.land h (w32 (Z.lnot g)).

Definition sysv_hash (l : list Z) : Z := foldl sysv_step 0 l.
Definition hash_bytes (l : list Z) : Z := foldl hash_step 0 l.

Lemma testbit_w32 x i : 0 <= i -> Z.testbit (w32 x) i = (i <? 32) && Z.testbit x i.
Proof.
  intros Hi. unfold w32. destruct (Z.ltb_spec i 32); [by rewrite Z.mod_pow2_bits_low by lia|].
  by rewrite Z.mod_pow2_bits_high by lia.
Qed.

Lemma testbit_f0000000 i : 0 <= i -> Z.testbit 0xF0000000 i = (28 <=? i) && (i <? 32).
Proof.
  intros Hi. change 0xF0000000 with (Z.shiftl (Z.ones 4) 28). rewrite Z.shiftl_spec by lia.
  destruct (Z.leb_spec 28 i); [|by rewrite Z.testbit_neg_r by lia].
  rewrite testbit_ones by lia. cbn. destruct (Z.ltb_spec (i - 28) 4), (Z.ltb_spec i 32); try done; lia.
Qed.

Lemma hash_step_range h c : 0 <= hash_step h c < 2 ^ 28.
Proof.
  unfold hash_step. change 0x0FFFFFFF with (Z.ones 28). rewrite land_ones_mod by lia.
  apply Z.mod_pos_bound. lia.
Qed.

(** For the characters of ASCII, one round of the code's hash is one of the
    ABI's. *)
Lemma hash_step_sysv h c : 0 <= h < 2 ^ 28 -> 0 <= c < 128 -> hash_step h c = sysv_step h c.
Proof.
  intros Hh Hc. unfold hash_step, sysv_step. replace (c <? 128) with true by lia.
  rewrite Z.shiftl_mul_pow2 by lia.
  replace (shl64 h 4) with (h * 2 ^ 4).
  2: { unfold shl64. rewrite Z.shiftl_mul_pow2 by lia. symmetry. apply w64_small. unfold u64. lia. }
  replace (add64 (h * 2 ^ 4) c) with (h * 2 ^ 4 + c) by (symmetry; apply w64_small; unfold u64; lia).
  replace (w32 (h * 2 ^ 4)) with (h * 2 ^ 4) by (symmetry; apply Z.mod_small; lia).
  set (t := h * 2 ^ 4 + c). assert (Z.land t 0xF0000000 = Z.land (w32 t) 0xF0000000) as Eg.
  { apply Z.bits_inj'. intros i Hi. rewrite !Z.land_spec, testbit_w32, testbit_f0000000 by lia.
    destruct (i <? 32) eqn:E; [done|]. by rewrite !andb_false_r. }
  rewrite Eg. set (g := Z.land (w32 t) 0xF0000000).
  assert (forall x, (if negb (g =? 0) then Z.lxor x (Z.shiftr g 24) else x) = Z.lxor x (Z.shiftr g 24)) as Hy.
  { intros x. destruct (Z.eqb_spec g 0) as [E0|]; [|done]. cbn. by rewrite E0, Z.shiftr_0_l, Z.lxor_0_r. }
  rewrite !Hy. apply Z.bits_inj'. intros i Hi. rewrite !Z.land_spec, !Z.lxor_spec, !testbit_w32, Z.lnot_spec by lia.
  change 0x0FFFFFFF with (Z.ones 28). rewrite testbit_ones by lia.
  assert (Z.testbit g i = (28 <=? i) && (i <? 32) && Z.testbit t i) as Hg.
  { unfold g. rewrite Z.land_spec, testbit_w32, testbit_f0000000 by lia. destruct (i <? 32), (28 <=? i), (Z.testbit t i); done. }
  rewrite Hg. rewrite Z.shiftr_spec by lia.
  assert (Z.testbit g (i + 24) = (4 <=? i) && (i <? 8) && Z.testbit t (i + 24)) as Hg24.
  { unfold g. rewrite Z.land_spec, testbit_w32, testbit_f0000000 by lia.
    destruct (Z.leb_spec 28 (i + 24)), (Z.leb_spec 4 i); try lia; destruct (Z.ltb_spec (i + 24) 32), (Z.ltb_spec i 8); try lia;
      by rewrite ?andb_false_r, ?andb_true_r. }
  rewrite Hg24. destruct (Z.ltb_spec i 28), (Z.ltb_spec i 32), (Z.leb_spec 28 i); try lia; cbn;
    rewrite ?andb_true_r, ?andb_false_r; try done.
  destruct (Z.ltb_spec i 8); [lia|]. rewrite andb_false_r. cbn. by destruct (Z.testbit t i).
Qed.

Lemma hash_bytes_snoc l c : hash_bytes (l ++ [c]) = hash_step (hash_bytes l) c.
Proof. unfold hash_bytes. by rewrite foldl_app. Qed.

Lemma hash_bytes_range l : 0 <= hash_bytes l < 2 ^ 28.
Proof.
  destruct (decide (l = [])) as [->|Hn]; [unfold hash_bytes; cbn; lia|].
  apply exists_last in Hn as (l' & c & ->). rewrite hash_bytes_snoc. apply hash_step_range.
Qed.

Lemma hash_bytes_sysv l : Forall (fun c => 0 <= c < 128) l -> hash_bytes l = sysv_hash l.
Proof.
  induction l as [|c l IH] using rev_ind; [done|]. intros [Hl Hc]%Forall_app. rewrite Forall_singleton in Hc.
  rewrite hash_bytes_snoc. unfold sysv_hash. rewrite foldl_app. cbn [foldl]. change (foldl sysv_step 0 l) with (sysv_hash l).
  rewrite <- (IH Hl). apply hash_step_sysv; [apply hash_bytes_range|exact Hc].
Qed.

(** ** Strings *)

(** The C string [l] is at [p]. *)
Definition cstr (m : gmap Z Z) (p : Z) (l : list Z) : Prop :=
  Forall (fun c => 0 < c < 256) l /\ fetch m (S (length l)) p = Some (l ++ [0]).

Section Strings.
Context {P : Type} `{Platform P}.
Local Open Scope vmm_scope.
Implicit Types s : env P.

Lemma cstr_lookup m p l i c : cstr m p l -> (l ++ [0]) !! i = Some c -> m !! (p + Z.of_nat i) = Some c.
Proof. intros [_ [_ Hm]%fetch_some]. apply Hm. Qed.

Lemma cstr_byte m p l i c : cstr m p l -> l !! i = Some c -> 0 < c < 256.
Proof. intros [Hl _] Hc. by eapply Forall_lookup_1 in Hl. Qed.

Lemma size_map_seqZ (a : Z) (l : list Z) : size (map_seqZ a l : gmap Z Z) = length l.
Proof.
  revert a. induction l as [|x l IH]; intros a; [apply map_size_empty|]. rewrite map_seqZ_cons.
  rewrite map_size_insert_None; [by rewrite IH|]. apply lookup_map_seqZ_None. lia.
Qed.

(** A string is shorter than the memory it is in. *)
Lemma cstr_fuel s p l : cstr (bytes s) p l -> (length l < string_fuel s)%nat.
Proof.
  intros Hc. unfold string_fuel. assert (map_seqZ p (l ++ [0]) ⊆ bytes s) as Hs.
  { apply map_subseteq_spec. intros a c [Ha Hx]%lookup_map_seqZ_Some.
    pose proof (cstr_lookup _ _ _ _ _ Hc Hx) as Hm. by replace (p + Z.of_nat (Z.to_nat (a - p))) with a in Hm by lia. }
  apply map_subseteq_size in Hs. rewrite size_map_seqZ, length_app in Hs. simpl in Hs. lia.
Qed.

Lemma rd8_byte s a c : bytes s !! a = Some c -> rd8 a s = Ok c s.
Proof. intros Ha. unfold rd8, rd, peek. cbn [fetch]. rewrite Ha. cbn. by rewrite Z.mul_0_r, Z.add_0_r. Qed.

Lemma str_at s p l k c : cstr (bytes s) p l -> (l ++ [0]) !! k = Some c -> str p (Z.of_nat k) s = Ok c s.
Proof. intros Hs Hk. apply rd8_byte. by eapply cstr_lookup. Qed.

(** What reads the bytes of the string [l]. *)
Definition reads_string s (q : Z -> M (env P) Z) (l : list Z) : Prop :=
  Forall (fun c => 0 < c < 256) l /\ forall k c, (l ++ [0]) !! k = Some c -> q (Z.of_nat k) s = Ok c s.

Lemma str_reads s p l : cstr (bytes s) p l -> reads_string s (str p) l.
Proof. intros Hc. split; [apply Hc|]. intros k c Hk. by eapply str_at. Qed.

Lemma lit_reads s l : Forall (fun c => 0 < c < 256) l -> reads_string s (lit l) l.
Proof. intros Hl. split; [done|]. intros k c Hk. unfold lit. by rewrite Nat2Z.id, Hk. Qed.

(** The comparison from the [k]-th byte on, where the bytes before agree. *)
Lemma strcmp_loop_ok s p1 l1 q l2 fuel k : cstr (bytes s) p1 l1 -> reads_string s q l2 ->
  (k <= length l1)%nat -> (length l1 - k < fuel)%nat -> take k l1 = take k l2 -> (k <= length l2)%nat ->
  strcmp_loop fuel (str p1) q (Z.of_nat k) s =
    Ok (if decide (l1 = l2) then BFELF_SUCCESS else BFELF_ERROR_MISMATCH) s.
Proof.
  intros H1 H2. revert k. induction fuel as [|fuel IH]; intros k Hk Hf Ht Hk2; [lia|]. cbn [strcmp_loop].
  destruct (lookup_lt_is_Some_2 (l1 ++ [0]) k) as [c1 E1]; [rewrite length_app; simpl; lia|].
  destruct (lookup_lt_is_Some_2 (l2 ++ [0]) k) as [c2 E2]; [rewrite length_app; simpl; lia|].
  erewrite bind_ok by by eapply str_at. erewrite bind_ok by by apply (proj2 H2).
  assert (forall l c, (l ++ [0]) !! k = Some c -> (k <= length l)%nat ->
    (k = length l /\ c = 0) \/ (k < length l)%nat /\ l !! k = Some c) as Hcase.
  { intros l c Hc Hle. destruct (decide (k = length l)) as [->|]; [left|right].
    - rewrite lookup_app_r, Nat.sub_diag in Hc by lia. by injection Hc as <-.
    - rewrite lookup_app_l in Hc by lia. split; [lia|done]. }
  destruct (Hcase l1 c1 E1 Hk) as [[-> ->]|[Hlt1 E1']], (Hcase l2 c2 E2 Hk2) as [[Ek2 ->]|[Hlt2 E2']].
  - cbn [negb andb Z.eqb]. rewrite firstn_all, Ek2, firstn_all in Ht. by rewrite decide_True.
  - pose proof (Forall_lookup_1 _ _ _ _ (proj1 H2) E2') as Hb. cbn in Hb. replace (0 =? c2) with false by lia. cbn [negb andb Z.eqb].
    rewrite decide_False; [done|].
    intros ->. lia.
  - pose proof (cstr_byte _ _ _ _ _ H1 E1') as Hb. replace (c1 =? 0) with false by lia. cbn. rewrite decide_False; [done|].
    intros ->. lia.
  - pose proof (cstr_byte _ _ _ _ _ H1 E1') as Hb. destruct (Z.eqb_spec c1 c2) as [->|Hne].
    + replace (c2 =? 0) with false by lia. cbn [negb andb]. replace (Z.of_nat k + 1) with (Z.of_nat (S k)) by lia.
      apply IH; [lia|lia| |lia]. by rewrite (take_S_r _ _ _ E1'), (take_S_r _ _ _ E2'), Ht.
    + rewrite andb_false_r. rewrite decide_False; [done|]. intros ->. congruence.
Qed.

Lemma strcmp_reads s p1 l1 q l2 : cstr (bytes s) p1 l1 -> reads_string s q l2 ->
  private_strcmp (str p1) q s = Ok (if decide (l1 = l2) then BFELF_SUCCESS else BFELF_ERROR_MISMATCH) s.
Proof.
  intros H1 H2. unfold private_strcmp. rewrite bind_get. pose proof (cstr_fuel s p1 l1 H1).
  apply (strcmp_loop_ok s p1 l1 q l2 _ 0); done || lia.
Qed.

Lemma strcmp_ok s p1 l1 p2 l2 : cstr (bytes s) p1 l1 -> cstr (bytes s) p2 l2 ->
  private_strcmp (str p1) (str p2) s = Ok (if decide (l1 = l2) then BFELF_SUCCESS else BFELF_ERROR_MISMATCH) s.
Proof. intros H1 H2. by apply strcmp_reads; [|apply str_reads]. Qed.

Lemma hash_loop_ok s p l fuel k : cstr (bytes s) p l -> (k <= length l)%nat -> (length l - k < fuel)%nat ->
  hash_loop fuel (p + Z.of_nat k) (hash_bytes (take k l)) s = Ok (hash_bytes l) s.
Proof.
  intros Hc. revert k. induction fuel as [|fuel IH]; intros k Hk Hf; [lia|]. cbn [hash_loop].
  destruct (decide (k = length l)) as [->|].
  - erewrite bind_ok. 2: { eapply (str_at s p l (length l)); [done|]. by rewrite lookup_app_r, Nat.sub_diag. }
    cbn [Z.eqb]. by rewrite firstn_all.
  - destruct (lookup_lt_is_Some_2 l k) as [c E]; [lia|]. pose proof (cstr_byte _ _ _ _ _ Hc E).
    erewrite bind_ok by (eapply (str_at s p l k); [done|by rewrite lookup_app_l by lia]).
    replace (c =? 0) with false by lia. rewrite <- hash_bytes_snoc, <- (take_S_r _ _ _ E).
    replace (p + Z.of_nat k + 1) with (p + Z.of_nat (S k)) by lia. apply IH; lia.
Qed.

Lemma private_hash_ok s p l : cstr (bytes s) p l -> private_hash p s = Ok (hash_bytes l) s.
Proof.
  intros Hc. unfold private_hash. rewrite bind_get. pose proof (cstr_fuel s p l Hc).
  pose proof (hash_loop_ok s p l (string_fuel s) 0 Hc) as Hl. rewrite Z.add_0_r in Hl. apply Hl; lia.
Qed.

(** ** The symbols of a module *)

(** The symbol table holds symbols with these names. *)
Definition symbols (m : gmap Z Z) (e : bfelf_file_t) (names : list (list Z)) : Prop :=
  forall k w, names !! k = Some w ->
    exists n, peek m 4 (sym_at e (Z.of_nat k)) = Some n /\ cstr m (add64 (strtab e) n) w.

(** The indices a chain of the hash table goes through. *)
Inductive chain_path (m : gmap Z Z) (e : bfelf_file_t) : Z -> list Z -> Prop :=
| cp_end i : ~ (0 < i < nchain e) -> chain_path m e i []
| cp_next i j l : 0 < i < nchain e -> peek m 4 (add64 (chain e) (4 * i)) = Some j -> chain_path m e j l ->
    chain_path m e i (i :: l).

(** The hash table is the one of these names: every chain ends, and every
    symbol but the null one is on the chain of its hash. *)
Record hash_table (m : gmap Z Z) (e : bfelf_file_t) (names : list (list Z)) : Prop := {
  ht_buckets : 0 < nbucket e;
  ht_names : nchain e = Z.of_nat (length names);
  ht_symbols : symbols m e names;
  ht_chains b : 0 <= b < nbucket e -> exists i l,
    peek m 4 (add64 (bucket e) (4 * b)) = Some i /\ chain_path m e i l /\
    forall k w, (0 < k)%nat -> names !! k = Some w -> hash_bytes w mod nbucket e = b -> Z.of_nat k ∈ l;
}.

Lemma chain_path_det m e i l l' : chain_path m e i l -> chain_path m e i l' -> l = l'.
Proof.
  intros Hp. revert l'. induction Hp as [i Hi|i j l Hi Hj Hp IH]; intros l' Hp'; inversion Hp'; subst; try done.
  f_equal. apply IH. congruence.
Qed.

Lemma chain_path_from m e i l l1 k l2 : chain_path m e i l -> l = l1 ++ k :: l2 -> chain_path m e k (k :: l2).
Proof.
  intros Hp. revert l1. induction Hp as [i Hi|i j l Hi Hj Hp IH]; intros l1 E; [by destruct l1|].
  destruct l1 as [|x l1]; injection E as -> ->; [by econstructor|]. by eapply IH.
Qed.

(** A chain that ends goes through no index twice. *)
Lemma chain_path_nodup m e i l : chain_path m e i l -> NoDup l.
Proof.
  induction 1 as [i Hi|i j l Hi Hj Hp IH]; [constructor|]. constructor; [|done].
  intros (l1 & l2 & E)%list_elem_of_split. assert (chain_path m e i (i :: l)) as Hi' by by econstructor.
  pose proof (chain_path_from _ _ _ _ (i :: l1) i l2 Hi' ltac:(by rewrite E)) as Hs.
  pose proof (chain_path_det _ _ _ _ _ Hi' Hs) as Hd. injection Hd as Hd. subst l.
  apply (f_equal length) in Hd. rewrite length_app in Hd. simpl in Hd. lia.
Qed.

Lemma chain_path_range m e i l k : chain_path m e i l -> k ∈ l -> 0 < k < nchain e.
Proof.
  induction 1 as [|i j l Hi Hj Hp IH]; [set_solver|]. intros [->|Hk]%elem_of_cons; [done|auto].
Qed.

Lemma chain_path_length m e i l : chain_path m e i l -> (length l <= Z.to_nat (nchain e))%nat.
Proof.
  intros Hp. rewrite <- (length_seqZ 0 (nchain e)). apply submseteq_length, NoDup_submseteq.
  - by eapply chain_path_nodup.
  - intros k Hk. apply elem_of_seqZ. pose proof (chain_path_range _ _ _ _ _ Hp Hk). lia.
Qed.

(** The test of one symbol against the name. *)
Lemma symbol_test s e names k u name w {B} (K : Z -> M (env P) B) : symbols (bytes s) e names -> names !! k = Some u ->
  cstr (bytes s) name w ->
  (str2 <- sym_str e (sym_at e (Z.of_nat k)) ;; r <- private_strcmp (str name) (str str2) ;; K r) s =
  K (if decide (w = u) then BFELF_SUCCESS else BFELF_ERROR_MISMATCH) s.
Proof.
  intros Hs Hk Hw. destruct (Hs k u Hk) as (n & Hn & Hu). unfold sym_str, st_name, rd32.
  rewrite bind_assoc. erewrite bind_ok by by apply rd_ok. erewrite bind_ok by done.
  erewrite bind_ok by by apply strcmp_ok. done.
Qed.

Lemma chain_loop_ok s e names name w i l fuel : symbols (bytes s) e names -> nchain e = Z.of_nat (length names) ->
  cstr (bytes s) name w -> chain_path (bytes s) e i l -> (length l < fuel)%nat ->
  exists r, chain_loop fuel e name i s = Ok r s /\
    match r with
    | Some sym => exists k, (0 < k)%nat /\ names !! k = Some w /\ sym = sym_at e (Z.of_nat k)
    | None => forall k, Z.of_nat k ∈ l -> names !! k <> Some w
    end.
Proof.
  intros Hs Hn Hw Hp. revert fuel. induction Hp as [i Hi|i j l Hi Hj Hp IH]; intros fuel Hf.
  - destruct fuel as [|fuel]; [simpl in Hf; lia|]. cbn [chain_loop]. exists None.
    replace ((0 <? i) && (i <? nchain e)) with false by lia. split; [done|]. set_solver.
  - destruct fuel as [|fuel]; [simpl in Hf; lia|]. simpl in Hf. cbn [chain_loop].
    replace ((0 <? i) && (i <? nchain e)) with true by lia.
    destruct (lookup_lt_is_Some_2 names (Z.to_nat i)) as [u Hu]; [lia|].
    destruct (Z_of_nat_complete i) as [n ->]; [lia|]. rewrite Nat2Z.id in Hu. cbv zeta.
    rewrite (symbol_test s e names n u name w) by done. destruct (decide (w = u)) as [->|Hne].
    + cbn [Z.eqb BFELF_SUCCESS BFELF_ERROR_MISMATCH]. eexists. split; [done|]. exists n. split; [lia|]. done.
    + change (BFELF_ERROR_MISMATCH =? BFELF_ERROR_MISMATCH) with true. cbv iota.
      erewrite bind_ok by by apply rd_ok.
      destruct (IH fuel ltac:(lia)) as (r & Er & Hr). exists r. split; [done|]. destruct r as [sym|]; [done|].
      intros k [Ek|Hk]%elem_of_cons; [|by apply Hr]. replace k with n by lia. congruence.
Qed.

(** The search by hash finds a symbol of that name exactly if there is one. *)
Lemma by_hash_ok s e names name w : hash_table (bytes s) e names -> cstr (bytes s) name w ->
  exists r, private_get_sym_by_hash e name s = Ok r s /\
    match r with
    | Some sym => exists k, (0 < k)%nat /\ names !! k = Some w /\ sym = sym_at e (Z.of_nat k)
    | None => forall k, (0 < k)%nat -> names !! k <> Some w
    end.
Proof.
  intros [Hb Hn Hs Hc] Hw. unfold private_get_sym_by_hash. erewrite bind_ok by by apply private_hash_ok.
  replace (nbucket e =? 0) with false by lia.
  destruct (Hc (hash_bytes w mod nbucket e)) as (i & l & Hi & Hp & Hl); [apply Z.mod_pos_bound; lia|].
  erewrite bind_ok by by apply rd_ok. pose proof (chain_path_length _ _ _ _ Hp).
  destruct (chain_loop_ok s e names name w i l (S (Z.to_nat (nchain e)))) as (r & Er & Hr); [done..|lia|].
  exists r. split; [done|]. destruct r as [sym|]; [done|]. intros k Hk Ek. by apply (Hr k (Hl k w Hk Ek eq_refl)).
Qed.

(** The plain search finds the first symbol of that name. *)
Lemma sym_loop_ok s e names name w k : symbols (bytes s) e names -> cstr (bytes s) name w -> (k <= length names)%nat ->
  exists r, sym_loop (seqZ (Z.of_nat k) (Z.of_nat (length names) - Z.of_nat k)) e name s = Ok r s /\
    match r with
    | Some sym => exists j, (k <= j)%nat /\ names !! j = Some w /\ sym = sym_at e (Z.of_nat j) /\
        forall i, (k <= i < j)%nat -> names !! i <> Some w
    | None => forall j, (k <= j)%nat -> names !! j <> Some w
    end.
Proof.
  intros Hs Hw. remember (length names - k)%nat as d eqn:Ed. revert k Ed. induction d as [|d IH]; intros k Ed Hk.
  - rewrite seqZ_nil by lia. exists None. split; [done|]. intros j Hj. rewrite lookup_ge_None_2 by lia. done.
  - rewrite seqZ_cons by lia. cbn [sym_loop]. destruct (lookup_lt_is_Some_2 names k) as [u Hu]; [lia|].
    rewrite (symbol_test s e names k u name w) by done. destruct (decide (w = u)) as [->|Hne].
    + cbn [Z.eqb BFELF_SUCCESS BFELF_ERROR_MISMATCH]. eexists. split; [done|]. exists k. split_and!; try done. lia.
    + change (BFELF_ERROR_MISMATCH =? BFELF_ERROR_MISMATCH) with true. cbv iota.
      replace (Z.succ (Z.of_nat k)) with (Z.of_nat (S k)) by lia.
      replace (Z.pred (Z.of_nat (length names) - Z.of_nat k)) with (Z.of_nat (length names) - Z.of_nat (S k)) by lia.
      destruct (IH (S k)) as (r & Er & Hr); [lia|lia|]. exists r. split; [done|]. destruct r as [sym|].
      * destruct Hr as (j & Hj & Ej & -> & Hf). exists j. split_and!; [lia|done|done|]. intros i Hi.
        destruct (decide (i = k)) as [->|]; [congruence|]. apply Hf. lia.
      * intros j Hj. destruct (decide (j = k)) as [->|]; [congruence|]. apply Hr. lia.
Qed.

(** ** The two searches *)

(** What a search of the name [w] among [names] answers. *)
Definition search_spec e (names : list (list Z)) (w : list Z) : option Z :=
  (fun k => sym_at e (Z.of_nat k.1)) <$> list_find (eq w) names.

Lemma search_found e names w k : NoDup names -> names !! k = Some w ->
  search_spec e names w = Some (sym_at e (Z.of_nat k)).
Proof.
  intros Hd Hk. unfold search_spec. assert (list_find (eq w) names = Some (k, w)) as ->; [|done].
  apply list_find_Some. split_and!; [done..|]. intros j y Hj Hjk <-. pose proof (NoDup_lookup _ _ _ _ Hd Hj Hk). lia.
Qed.

Lemma search_none e names w : (forall k, names !! k <> Some w) -> search_spec e names w = None.
Proof.
  intros Hn. unfold search_spec. rewrite (proj2 (list_find_None (eq w) names)); [done|].
  apply Forall_lookup. intros k x Hk ->. by apply (Hn k).
Qed.

Lemma by_hash_spec s e names name w : hash_table (bytes s) e names -> NoDup names -> names !! 0%nat <> Some w ->
  cstr (bytes s) name w -> private_get_sym_by_hash e name s = Ok (search_spec e names w) s.
Proof.
  intros Ht Hd H0 Hw. destruct (by_hash_ok s e names name w Ht Hw) as ([sym|] & -> & Hr).
  - destruct Hr as (k & _ & Hk & ->). by rewrite (search_found e names w k).
  - rewrite search_none; [done|]. intros [|k]; [done|]. apply Hr. lia.
Qed.

Lemma plain_spec s e names name w : symbols (bytes s) e names -> NoDup names -> cstr (bytes s) name w ->
  sym_loop (seqZ 0 (Z.of_nat (length names))) e name s = Ok (search_spec e names w) s.
Proof.
  intros Hs Hd Hw. destruct (sym_loop_ok s e names name w 0 Hs Hw) as ([sym|] & Er & Hr); [lia|..];
    rewrite Z.sub_0_r in Er; change (Z.of_nat 0) with 0 in Er; rewrite Er; [|by rewrite search_none by (intros k; apply Hr; lia)].
  destruct Hr as (k & _ & Hk & -> & _). by rewrite (search_found e names w k).
Qed.

Lemma by_name_spec s e names name w : hash e <> 0 -> hash_table (bytes s) e names -> NoDup names ->
  names !! 0%nat <> Some w -> cstr (bytes s) name w ->
  private_get_sym_by_name e name s = Ok (search_spec e names w) s.
Proof.
  intros Hh. intros. unfold private_get_sym_by_name. replace (hash e =? 0) with false by lia. by apply by_hash_spec.
Qed.

(** For a name of ASCII characters [private_hash] ends, reads only the
    name, and returns the hash of the System V ABI, although it computes in 64
    bits and on signed characters. *)
Theorem elf_hash s p l : cstr (bytes s) p l -> Forall (fun c => c < 128) l ->
  private_hash p s = Ok (sysv_hash l) s.
Proof.
  intros Hc Ha. rewrite (private_hash_ok s p l Hc), hash_bytes_sysv; [done|]. destruct Hc as [Hl _].
  rewrite Forall_lookup in *. intros i c Hi. specialize (Hl i c Hi). specialize (Ha i c Hi). cbv beta in *. lia.
Qed.

(** C35: Where the hash table of a module is well formed and its symbols have
    distinct names, the search through the hash table ends and finds exactly
    what the plain search of the symbol table finds: the symbol of that name,
    or none if there is none.  (The null symbol is not on any chain, and the
    names it could be confused with are excluded.) *)
Theorem sym_search_equiv s e names name w :
  hash e <> 0 -> hash_table (bytes s) e names -> symnum e = nchain e -> NoDup names ->
  names !! 0%nat <> Some w -> cstr (bytes s) name w ->
  private_get_sym_by_name e name s = Ok (search_spec e names w) s /\
  private_get_sym_by_name (set_hash e 0) name s = private_get_sym_by_name e name s.
Proof.
  intros Hh Ht Hn Hd H0 Hw. pose proof (by_name_spec s e names name w Hh Ht Hd H0 Hw) as Hs. split; [done|].
  rewrite Hs. unfold private_get_sym_by_name. cbn [hash set_hash Z.eqb negb symnum]. rewrite Hn, (ht_names _ _ _ Ht).
  apply (plain_spec s (set_hash e 0) names name w); [|done..]. exact (ht_symbols _ _ _ Ht).
Qed.
End Strings.
