(* ===== verification/ElfResolve.v ===== *)
(** * The ELF loader: resolution and relocation

    Which definition a name is bound to when the modules are linked, and what a
    relocation writes. *)
From S2P Require Import Prelude Elf ElfFrame ElfSyms.

(** What the [o_file]-th module offers for a name. *)
Record offer := Offer { o_file : nat; o_sym : Z; o_value : Z; o_info : Z }.

Definition strong (o : offer) : bool := negb (BFELF_SYM_BIND (o_info o) =? bfstb_weak).

(** Of the offers in the order of the modules: the first strong one, else the
    last of the weak ones. *)
Definition bound (os : list offer) : option offer :=
  match filter (fun o => strong o) os with o :: _ => Some o | [] => last os end.

Lemma bound_cons o os : bound (o :: os) =
  if strong o then Some o else match bound os with Some o' => Some o' | None => Some o end.
Proof.
  unfold bound. destruct (strong o) eqn:E.
  - by rewrite filter_cons_True by (rewrite E; exact I).
  - rewrite filter_cons_False by (rewrite E; intros []). destruct (filter _ os); [|done].
    destruct os as [|o' os]; [done|]. rewrite last_cons_cons. by destruct (last (o' :: os)) eqn:El; [|apply last_None in El].
Qed.

(** The words of the x86-64 ABI: [S] is the symbol's address, [A] the addend
    and [B] the load address. *)
Definition abi_word (ty S A B : Z) : option Z :=
  if ty =? BFR_X86_64_64 then Some (add64 S A)
  else if (ty =? BFR_X86_64_GLOB_DAT) || (ty =? BFR_X86_64_JUMP_SLOT) then Some S
  else if ty =? BFR_X86_64_RELATIVE then Some (add64 B A)
  else None.

Section Resolve.
Context {P : Type} `{Platform P}.
Local Open Scope vmm_scope.
Implicit Types s : env P.

(** A module as the search expects it, with the names of its symbols. *)
Record linkable s (t : nat * list (list Z)) : Prop := {
  lk_file b : bins s !! t.1 = Some b -> hash (ef b) <> 0 /\ hash_table (bytes s) (ef b) t.2 /\
    forall k, (k < length t.2)%nat ->
      is_Some (peek (bytes s) 8 (sym_at (ef b) (Z.of_nat k) + 8)) /\
      is_Some (peek (bytes s) 1 (sym_at (ef b) (Z.of_nat k) + 4));
  lk_bin : is_Some (bins s !! t.1);
  lk_nodup : NoDup t.2;
  lk_null : t.2 !! 0%nat = Some [];
}.

(** The offer of one module, a symbol without value being none. *)
Definition candidate s (w : list Z) (t : nat * list (list Z)) : option offer :=
  b ← bins s !! t.1;
  sym ← search_spec (ef b) t.2 w;
  v ← peek (bytes s) 8 (sym + 8);
  i ← peek (bytes s) 1 (sym + 4);
  if v =? 0 then None else Some (Offer t.1 sym v i).

Definition candidates s w (ignore : option nat) (l : list (nat * list (list Z))) : list offer :=
  omap (fun t => if bool_decide (ignore = Some t.1) then None else candidate s w t) l.

Lemma search_inv e names w sym : search_spec e names w = Some sym ->
  exists k, (k < length names)%nat /\ sym = sym_at e (Z.of_nat k).
Proof.
  unfold search_spec. destruct (list_find _ _) as [[k x]|] eqn:E; [|done]. intros [= <-].
  apply list_find_Some in E as (Hk & _). exists k. split; [by eapply lookup_lt_Some|done].
Qed.

Definition target (o : offer) : nat * Z := (o_file o, o_sym o).

(** The loop, with the weak definition found before it. *)
Lemma global_loop_ok s name w ignore l found : w <> [] -> cstr (bytes s) name w -> Forall (linkable s) l ->
  global_loop l.*1 name ignore found s =
    Ok (match bound (candidates s w ignore l) with Some o => Some (target o) | None => found end) s.
Proof.
  intros Hw0 Hw Hl. revert found. induction Hl as [|t l Ht Hl IH]; intros found; [done|].
  cbn [fmap list_fmap global_loop]. unfold candidates. cbn [omap list_omap]. fold (candidates s w ignore l).
  destruct (bool_decide _) eqn:Ei; [by rewrite IH|].
  destruct Ht as [Hf [b Hb] Hd H0]. destruct (Hf b Hb) as (Hh & Ht & Hv).
  erewrite bind_ok. 2: { unfold get_ef. erewrite bind_ok; [|unfold get_bin; by rewrite Hb]. done. }
  erewrite bind_ok. 2: { eapply (by_name_spec s (ef b) t.2 name w); try done. congruence. }
  unfold candidate at 1. rewrite Hb. cbn [mbind option_bind].
  destruct (search_spec (ef b) t.2 w) as [sym|] eqn:Es; [|by rewrite IH].
  destruct (search_inv _ _ _ _ Es) as (k & Hk & ->). destruct (Hv k Hk) as [[v Ev] [i Ei']].
  erewrite bind_ok by by apply rd_ok. cbn [mbind option_bind]. rewrite Ev, Ei'. cbn [mbind option_bind].
  destruct (v =? 0); [by rewrite IH|]. erewrite bind_ok by by apply rd_ok.
  rewrite bound_cons. unfold strong. cbn [o_info]. destruct (_ =? bfstb_weak); [|done].
  rewrite IH. by destruct (bound (candidates s w ignore l)).
Qed.

(** The modules of the loader, with their symbols. *)
Record linked s (l : list (nat * list (list Z))) : Prop := {
  li_files : take (Z.to_nat (num (ldr s))) (efs (ldr s)) = l.*1;
  li_ok : Forall (linkable s) l;
}.

Lemma sym_global_spec s name w ignore l : w <> [] -> cstr (bytes s) name w -> linked s l ->
  private_get_sym_global name ignore s = Ok (target <$> bound (candidates s w ignore l)) s.
Proof.
  intros Hw0 Hw [Hf Hl]. unfold private_get_sym_global. rewrite bind_get, Hf, (global_loop_ok s name w ignore l None) by done.
  by destruct (bound _).
Qed.

(** ** Relocation *)

(** The fields of a relocation entry, the word it relocates and the symbol it
    names.  The word is apart from the entry. *)
Record entry_at s (i : nat) (rela : Z) (e : bfelf_file_t) (ptr r a : Z) : Prop := {
  en_file : exists b, bins s !! i = Some b /\ ef b = e;
  en_offset : exists off, peek (bytes s) 8 rela = Some off /\ ptr = sub64 (add64 (exec_addr e) off) (start_addr e);
  en_info : peek (bytes s) 8 (rela + 8) = Some r;
  en_addend : peek (bytes s) 8 (rela + 16) = Some a;
  en_word j : 0 <= j < 8 -> is_Some (bytes s !! (ptr + j));
  en_apart : ptr + 8 <= rela + 16 \/ rela + 24 <= ptr;
}.

Record symbol_at s (e : bfelf_file_t) (sym v inf : Z) (w : list Z) : Prop := {
  sy_value : peek (bytes s) 8 (sym + 8) = Some v;
  sy_info : peek (bytes s) 1 (sym + 4) = Some inf;
  sy_name : exists n, peek (bytes s) 4 sym = Some n /\ cstr (bytes s) (add64 (strtab e) n) w;
  sy_named : w <> [];
}.

(** The address a symbol of the [i]-th module stands for: its own definition
    where that is a strong one, else the one the name is bound to. *)
Definition symbol_address s (i : nat) (e : bfelf_file_t) (v inf : Z) (w : list Z) (l : list (nat * list (list Z)))
    : option Z :=
  let weak := BFELF_SYM_BIND inf =? bfstb_weak in
  if (v =? 0) || weak then
    o ← bound (candidates s w (if weak then None else Some i) l);
    b ← bins s !! o_file o;
    Some (add64 (exec_virt (ef b)) (o_value o))
  else Some (add64 (exec_virt e) v).

(** Memory with a word stored in it. *)
Definition word_stored s (ptr v : Z) : env P := set_bytes s (map_seqZ ptr (le_bytes 8 v) ∪ bytes s).

Lemma wr64_ok s ptr v : (forall j, 0 <= j < 8 -> is_Some (bytes s !! (ptr + j))) -> wr64 ptr v s = Ok tt (word_stored s ptr v).
Proof.
  intros Hm. unfold wr64, wr. rewrite length_le_bytes.
  by replace (mapped _ _ _) with true by (symmetry; by apply mapped_true).
Qed.

Lemma stored_mapped s ptr v x : is_Some (bytes s !! x) -> is_Some (bytes (word_stored s ptr v) !! x).
Proof. intros Hx. apply lookup_union_is_Some. by right. Qed.

Lemma stored_twice s ptr v v' : word_stored (word_stored s ptr v) ptr v' = word_stored s ptr v'.
Proof.
  unfold word_stored, set_bytes. cbn [bytes live plat bins ldr crt start_func]. f_equal.
  apply write_twice. by rewrite !length_le_bytes.
Qed.

(** A word of an unknown type is the symbol's address. *)
Lemma store_symbol_ok s i rela e ptr r a ty v : entry_at s i rela e ptr r a -> ty <> BFR_X86_64_RELATIVE ->
  store_symbol ptr ty rela v s =
    match abi_word ty v a 0 with
    | Some x => Ok BFELF_SUCCESS (word_stored s ptr x)
    | None => Ok BFELF_ERROR_UNSUPPORTED_RELA (word_stored s ptr v)
    end.
Proof.
  intros He Hty. unfold store_symbol, abi_word. replace (ty =? BFR_X86_64_RELATIVE) with false by lia.
  erewrite bind_ok by (apply wr64_ok; apply (en_word _ _ _ _ _ _ _ He)).
  destruct (ty =? BFR_X86_64_64); [|by destruct (_ || _)].
  erewrite bind_ok. 2: { apply rd_ok. cbn [bytes word_stored set_bytes]. rewrite peek_other; [apply He|].
    destruct (en_apart _ _ _ _ _ _ _ He); lia. }
  erewrite bind_ok. 2: { apply wr64_ok. intros j Hj. apply stored_mapped, (en_word _ _ _ _ _ _ _ He), Hj. }
  by rewrite stored_twice.
Qed.

Lemma bound_none os : bound os = None <-> os = [].
Proof.
  split; [|by intros ->]. destruct os as [|o os]; [done|]. rewrite bound_cons.
  destruct (strong o); [done|]. by destruct (bound os).
Qed.

Lemma candidate_inv s w ignore l o : o ∈ candidates s w ignore l ->
  is_Some (bins s !! o_file o) /\ peek (bytes s) 8 (o_sym o + 8) = Some (o_value o).
Proof.
  intros (t & _ & Ht)%list_elem_of_omap. destruct (bool_decide _); [done|]. unfold candidate in Ht.
  apply bind_Some in Ht as (b & Hb & Ht). apply bind_Some in Ht as (sym & _ & Ht).
  apply bind_Some in Ht as (v & Hv & Ht). apply bind_Some in Ht as (i & _ & Ht).
  destruct (v =? 0); [done|]. injection Ht as <-. cbn. by eauto.
Qed.

Lemma bound_elem os o : bound os = Some o -> o ∈ os.
Proof.
  induction os as [|o' os IH]; [done|]. rewrite bound_cons. destruct (strong o'); [intros [= ->]; by left|].
  destruct (bound os); intros [= ->]; [right; by apply IH|by left].
Qed.

(** The last two steps of a relocation against a symbol found elsewhere. *)
Lemma found_ok s w ignore l o b : bound (candidates s w ignore l) = Some o -> bins s !! o_file o = Some b ->
  forall {B} (K : bfelf_file_t -> Z -> M (env P) B),
  (e' <- get_ef (o_file o) ;; v' <- st_value (o_sym o) ;; K e' v') s = K (ef b) (o_value o) s.
Proof.
  intros Hb Eb B K. destruct (candidate_inv s w ignore l o (bound_elem _ _ Hb)) as [_ Hv].
  erewrite bind_ok by by apply get_ef_ok. by erewrite bind_ok by by apply rd_ok.
Qed.

Lemma relocate_relative s i rela e ptr r a : entry_at s i rela e ptr r a ->
  BFELF_REL_TYPE r = BFR_X86_64_RELATIVE ->
  private_relocate_symbol i rela s = Ok BFELF_SUCCESS (word_stored s ptr (add64 (exec_virt e) a)).
Proof.
  intros He Hty. pose proof He as [(b & Hb & <-) (off & Hoff & ->) Hr Ha Hm _]. unfold private_relocate_symbol.
  erewrite bind_ok by by apply get_ef_ok. erewrite bind_ok by by apply rd_ok. erewrite bind_ok by by apply rd_ok.
  cbv zeta. rewrite Hty. cbn [Z.eqb BFR_X86_64_RELATIVE Pos.eqb]. erewrite bind_ok by by apply rd_ok.
  by erewrite bind_ok by by apply wr64_ok.
Qed.

Lemma relocate_symbolic s i rela e ptr r a v inf w l : entry_at s i rela e ptr r a ->
  BFELF_REL_TYPE r <> BFR_X86_64_RELATIVE -> symbol_at s e (sym_at e (BFELF_REL_SYM r)) v inf w -> linked s l ->
  private_relocate_symbol i rela s =
    match symbol_address s i e v inf w l with
    | Some x => store_symbol ptr (BFELF_REL_TYPE r) rela x s
    | None => Ok BFELF_ERROR_NO_SUCH_SYMBOL s
    end.
Proof.
  intros He Hty Hs Hl. pose proof He as [(b & Hb & <-) (off & Hoff & ->) Hr Ha _ _]. unfold private_relocate_symbol.
  erewrite bind_ok by by apply get_ef_ok. erewrite bind_ok by by apply rd_ok. erewrite bind_ok by by apply rd_ok.
  cbv zeta. replace (_ =? BFR_X86_64_RELATIVE) with false by lia. destruct Hs as [Hv Hi (n & Hn & Hc) Hw].
  erewrite bind_ok by by apply rd_ok. erewrite bind_ok by by apply rd_ok. unfold symbol_address. cbv zeta.
  destruct (_ || _); [|done].
  erewrite bind_ok. 2: { unfold sym_str. erewrite bind_ok by by apply rd_ok. done. }
  erewrite bind_ok by by apply (sym_global_spec s _ w _ l).
  destruct (bound _) as [o|] eqn:Eo; [|done]. cbn [mbind option_bind fmap option_fmap option_map target].
  destruct (candidate_inv _ _ _ _ _ (bound_elem _ _ Eo)) as [[b' Eb] _]. rewrite Eb. cbn [mbind option_bind].
  by rewrite (found_ok s w _ l o b' Eo Eb (fun e' v' => store_symbol _ _ rela (add64 (exec_virt e') v'))).
Qed.

(** C34: With well-formed modules, [private_get_sym_global] ends and binds a name
    to the definition of the first module that defines it strongly, else to the
    last weak definition; symbols without value and the module to be ignored do
    not count, and it fails exactly if no module has a definition. *)
Theorem sym_global_bound s name w ignore l : w <> [] -> cstr (bytes s) name w -> linked s l ->
  private_get_sym_global name ignore s = Ok (target <$> bound (candidates s w ignore l)) s /\
  (bound (candidates s w ignore l) = None <-> forall t, t ∈ l -> ignore <> Some t.1 -> candidate s w t = None).
Proof.
  intros Hw0 Hw Hl. split; [by apply sym_global_spec|]. rewrite bound_none. unfold candidates. split.
  - intros E t Ht Hi. destruct (candidate s w t) as [o|] eqn:Eo; [|done]. assert (o ∈ ([] : list offer)); [|set_solver].
    rewrite <- E. apply list_elem_of_omap. exists t. by rewrite bool_decide_eq_false_2.
  - intros Hn. destruct (omap _ l) as [|o os] eqn:E; [done|]. assert (o ∈ o :: os) as Ho by by left.
    rewrite <- E in Ho. apply list_elem_of_omap in Ho as (t & Ht & Ho). case_bool_decide as Hi; [done|].
    by rewrite (Hn t Ht Hi) in Ho.
Qed.

(** C33: A relocation of a supported type stores the word the x86-64 ABI asks for
    ([S + A], [S] or [B + A]) and changes nothing else; one whose symbol has no
    definition changes nothing and fails with [BFELF_ERROR_NO_SUCH_SYMBOL]; one
    of another type fails with [BFELF_ERROR_UNSUPPORTED_RELA], the symbol's
    address stored. *)
Theorem relocation_correct s i rela e ptr r a v inf w l : entry_at s i rela e ptr r a ->
  (BFELF_REL_TYPE r <> BFR_X86_64_RELATIVE -> symbol_at s e (sym_at e (BFELF_REL_SYM r)) v inf w) -> linked s l ->
  private_relocate_symbol i rela s =
    if BFELF_REL_TYPE r =? BFR_X86_64_RELATIVE then Ok BFELF_SUCCESS (word_stored s ptr (add64 (exec_virt e) a)) else
    match symbol_address s i e v inf w l with
    | None => Ok BFELF_ERROR_NO_SUCH_SYMBOL s
    | Some x =>
      match abi_word (BFELF_REL_TYPE r) x a (exec_virt e) with
      | Some word => Ok BFELF_SUCCESS (word_stored s ptr word)
      | None => Ok BFELF_ERROR_UNSUPPORTED_RELA (word_stored s ptr x)
      end
    end.
Proof.
  intros He Hs Hl. destruct (Z.eqb_spec (BFELF_REL_TYPE r) BFR_X86_64_RELATIVE) as [Hty|Hty];
    [by eapply (relocate_relative s i rela e ptr r a)|].
  specialize (Hs Hty). rewrite (relocate_symbolic s i rela e ptr r a v inf w l) by done. destruct (symbol_address _ _ _ _ _ _ _) as [x|]; [|done].
  rewrite (store_symbol_ok s i rela e ptr r a) by done. unfold abi_word. rewrite (proj2 (Z.eqb_neq _ _) Hty).
  by destruct (_ =? BFR_X86_64_64); [|destruct (_ || _)].
Qed.
End Resolve.
