(* ===== verification/ElfImage.v ===== *)
(** * The ELF loader: the image of a module

    What [private_load_binary] leaves in memory: a fresh block that holds the
    file's segments at their places, and zeros elsewhere. *)
From S2P Require Import Prelude Elf ElfFrame.

(** The byte at the offset [o] of an image in which the segments, each with its
    place and its contents, are laid over zeros in order. *)
Definition overlay (f : Z -> Z) (seg : Z * list Z) : Z -> Z := fun o =>
  if (seg.1 <=? o) && (o <? seg.1 + Z.of_nat (length seg.2)) then nth (Z.to_nat (o - seg.1)) seg.2 0 else f o.
Definition image (segs : list (Z * list Z)) : Z -> Z := foldl overlay (fun _ => 0) segs.

Section Image.
Context {P : Type} `{Platform P}.
Local Open Scope vmm_scope.
Implicit Types s : env P.

(** A segment of a parsed file: where it goes, and the bytes the file has for
    it. *)
Record segment_of (m : gmap Z Z) (b : bfelf_binary_t) (seg : Z * list Z) (instr : bfelf_load_instr) : Prop := {
  sg_place : mem_offset instr = seg.1;
  sg_size : seg_filesz instr = Z.of_nat (length seg.2);
  sg_file : 0 < bin_file b /\ 0 <= file_offset instr /\ bin_file b + file_offset instr + seg_filesz instr < 2 ^ 64;
  sg_bytes : fetch m (length seg.2) (bin_file b + file_offset instr) = Some seg.2;
  sg_fits : 0 <= seg.1 /\ seg.1 + Z.of_nat (length seg.2) <= total_memsz (ef b);
}.

(** The segments of a parsed file. *)
Record segments_of (m : gmap Z Z) (b : bfelf_binary_t) (segs : list (Z * list Z)) : Prop := {
  so_num : num_load_instr (ef b) = Z.of_nat (length segs);
  so_seg k seg : segs !! k = Some seg ->
    exists instr, load_instr (ef b) !! k = Some instr /\ segment_of m b seg instr;
}.

(** The memory while the segments are copied: the image so far at [a], the rest
    as in [m]. *)
Record copied (m : gmap Z Z) (a sz : Z) (f : Z -> Z) s : Prop := {
  co_image o : 0 <= o < sz -> bytes s !! (a + o) = Some (f o);
  co_rest x : ~ (a <= x < a + sz) -> bytes s !! x = m !! x;
}.

Lemma nth_lookup_Some (l : list Z) i : (i < length l)%nat -> l !! i = Some (nth i l 0).
Proof. intros Hi. rewrite nth_lookup. destruct (lookup_lt_is_Some_2 l i Hi) as [x ->]. done. Qed.

(** Writing a list of bytes into the image. *)
Lemma copied_write m a sz f s seg : copied m a sz f s -> 0 <= seg.1 -> seg.1 + Z.of_nat (length seg.2) <= sz ->
  exists s', wr (a + seg.1) seg.2 s = Ok tt s' /\ copied m a sz (overlay f seg) s' /\ s' = set_bytes s (bytes s').
Proof.
  intros [Hi Hr] H0 Hs. unfold wr.
  replace (mapped _ _ _) with true.
  2: { symmetry. apply mapped_true. intros i Hlt. replace (a + seg.1 + i) with (a + (seg.1 + i)) by lia.
       rewrite Hi by lia. by eexists. }
  eexists. split; [done|]. split; [split|done]; cbn [bytes set_bytes]; intros x Hx; rewrite lookup_union.
  - unfold overlay. destruct (_ && _) eqn:E.
    + rewrite (proj2 (lookup_map_seqZ_Some (a + seg.1) seg.2 (a + x) (nth (Z.to_nat (x - seg.1)) seg.2 0))).
      { by rewrite union_Some_l. }
      split; [lia|]. replace (a + x - (a + seg.1)) with (x - seg.1) by lia. apply nth_lookup_Some. lia.
    + rewrite (proj2 (lookup_map_seqZ_None _ _ _)) by lia. rewrite (left_id_L None _). by apply Hi.
  - rewrite (proj2 (lookup_map_seqZ_None _ _ _)) by lia. rewrite (left_id_L None _). by apply Hr.
Qed.

(** One segment is copied. *)
Lemma copy_segment_ok m a s i b f k seg segs : copied m a (total_memsz (ef b)) f s -> segments_of m b segs ->
  bins s !! i = Some b -> exec b = a -> 0 < a -> a + total_memsz (ef b) < 2 ^ 64 -> segs !! k = Some seg ->
  (forall x, is_Some (m !! x) -> a <= x < a + total_memsz (ef b) -> False) ->
  exists s', copy_segment i (Z.of_nat k) s = Ok tt s' /\ copied m a (total_memsz (ef b)) (overlay f seg) s' /\
    s' = set_bytes s (bytes s').
Proof.
  intros Hc [Hn Hs] Hb Ha Hpos Hend Hk Hfresh. destruct (Hs k seg Hk) as (instr & Hi & [Hp Hz (Hf0 & Hf1 & Hf2) Hby [Hg1 Hg2]]).
  unfold copy_segment. erewrite bind_ok by (unfold get_bin; by rewrite Hb).
  unfold bfelf_file_get_load_instr. rewrite Hn. apply lookup_lt_Some in Hk. replace (_ <=? _) with false by lia.
  cbn [snd]. rewrite Nat2Z.id, Hi, Hp, Hz, Ha. unfold platform_memcpy.
  assert (add64 a seg.1 = a + seg.1) as -> by (apply w64_small; unfold u64; lia).
  assert (add64 (bin_file b) (file_offset instr) = bin_file b + file_offset instr) as -> by (apply w64_small; unfold u64; lia).
  replace (_ || _) with false by lia. erewrite bind_ok; [by apply copied_write|].
  unfold rd_bytes. rewrite Nat2Z.id. erewrite (fetch_agree m (bytes s)); [by rewrite Hby|].
  intros j Hj. apply (co_rest _ _ _ _ _ Hc). intros Hx. apply fetch_some in Hby as [_ Hby].
  destruct (lookup_lt_is_Some_2 seg.2 (Z.to_nat j)) as [c Hcj]; [lia|].
  apply Hby in Hcj. rewrite Z2Nat.id in Hcj by lia. by apply (Hfresh _ (ex_intro _ c Hcj)).
Qed.

(** The loop over the segments. *)
Lemma copy_loop_ok m a s i b segs segs1 segs2 : segs = segs1 ++ segs2 ->
  copied m a (total_memsz (ef b)) (image segs1) s -> segments_of m b segs ->
  bins s !! i = Some b -> exec b = a -> 0 < a -> a + total_memsz (ef b) < 2 ^ 64 ->
  (forall x, is_Some (m !! x) -> a <= x < a + total_memsz (ef b) -> False) ->
  exists s', for_each (seqZ (Z.of_nat (length segs1)) (Z.of_nat (length segs2))) (copy_segment i) s = Ok tt s' /\
    copied m a (total_memsz (ef b)) (image segs) s' /\ s' = set_bytes s (bytes s').
Proof.
  intros Eseg Hc Hs Hb Ha Hpos Hend Hf. revert s segs1 Eseg Hc Hb. induction segs2 as [|seg segs2 IH]; intros s segs1 Eseg Hc Hb.
  - rewrite app_nil_r in Eseg. subst segs1. exists s. split; [done|]. split; [done|]. by destruct s.
  - cbn [length]. rewrite seqZ_cons by lia. cbn [for_each].
    assert (segs !! length segs1 = Some seg) as Hk by (by rewrite Eseg, list_lookup_middle).
    destruct (copy_segment_ok m a s i b _ (length segs1) seg segs Hc Hs Hb Ha Hpos Hend Hk Hf) as (s1 & E1 & Hc1 & Es1).
    erewrite bind_ok by exact E1. destruct (IH s1 (segs1 ++ [seg])) as (s' & E' & Hc' & Es').
    + by rewrite <- app_assoc.
    + unfold image. by rewrite foldl_app.
    + by rewrite Es1.
    + exists s'. rewrite length_app in E'. cbn [length] in E'.
      replace (Z.succ (Z.of_nat (length segs1))) with (Z.of_nat (length segs1 + 1)) by lia.
      replace (Z.pred (Z.of_nat (S (length segs2)))) with (Z.of_nat (length segs2)) by lia.
      split; [done|]. split; [done|]. rewrite Es', Es1. done.
Qed.

(** The platform's answer to a request for [sz] bytes, as the loader relies on
    it: fresh memory of that size. *)
Definition fresh_block s (sz : Z) : Prop := forall a l p, p_alloc sz (plat s) = (Some (a, l), p) ->
  0 < a /\ a + sz < 2 ^ 64 /\ Z.of_nat (length l) = sz /\ forall x, is_Some (bytes s !! x) -> a <= x < a + sz -> False.

Lemma platform_alloc_some s sz a l p : 0 < sz -> p_alloc sz (plat s) = (Some (a, l), p) ->
  platform_alloc sz s =
    Ok a (Env (map_seqZ a l ∪ bytes s) (<[a := sz]> (live s)) p (bins s) (ldr s) (crt s) (start_func s)).
Proof. intros Hs E. unfold platform_alloc. replace (sz =? 0) with false by lia. by rewrite E. Qed.

Lemma platform_alloc_none s sz p : 0 < sz -> p_alloc sz (plat s) = (None, p) ->
  platform_alloc sz s = Ok 0 (Env (bytes s) (live s) p (bins s) (ldr s) (crt s) (start_func s)).
Proof. intros Hs E. unfold platform_alloc. replace (sz =? 0) with false by lia. by rewrite E. Qed.

(** The block is cleared. *)
Lemma memset_ok s m a l sz : bytes s = map_seqZ a l ∪ m -> Z.of_nat (length l) = sz -> 0 < a ->
  exists s', platform_memset a 0 sz s = Ok tt s' /\ copied m a sz (image []) s' /\ s' = set_bytes s (bytes s').
Proof.
  intros Eb El Ha. unfold platform_memset. replace (a =? 0) with false by lia. unfold wr. rewrite length_replicate.
  replace (mapped _ _ _) with true.
  2: { symmetry. apply mapped_true. intros j Hj. rewrite Eb. apply lookup_union_is_Some. left.
       apply lookup_map_seqZ_is_Some. lia. }
  eexists. split; [done|]. split; [split|done]; cbn [bytes set_bytes]; intros x Hx; rewrite lookup_union.
  - rewrite (proj2 (lookup_map_seqZ_Some a (replicate (Z.to_nat sz) 0) (a + x) 0)); [by rewrite union_Some_l|].
    split; [lia|]. apply lookup_replicate. split; [done|]. lia.
  - rewrite (proj2 (lookup_map_seqZ_None _ _ _)) by (rewrite length_replicate; lia). rewrite (left_id_L None _), Eb, lookup_union.
    rewrite (proj2 (lookup_map_seqZ_None _ _ _)) by lia. by rewrite (left_id_L None _).
Qed.

(** C32: Loading of a parsed file: if the platform has the memory, the module's
    new block holds at every offset the byte that the segments' file contents
    laid over zeros give there, and no other memory changes; if not, the loader
    fails with [BFELF_ERROR_OUT_OF_MEMORY], no byte changes and the module has
    no image. *)
Theorem load_binary_image s i b segs : bins s !! i = Some b -> file (ef b) <> 0 ->
  segments_of (bytes s) b segs -> 0 < total_memsz (ef b) -> fresh_block s (total_memsz (ef b)) ->
  match p_alloc (total_memsz (ef b)) (plat s) with
  | (Some (a, _), _) => exists s', private_load_binary i s = Ok BFELF_SUCCESS s' /\
      bins s' = <[i := Binary a (bin_file b) (total_memsz (ef b)) (file_size b) (ef b)]> (bins s) /\
      copied (bytes s) a (total_memsz (ef b)) (image segs) s'
  | (None, _) => exists s', private_load_binary i s = Ok BFELF_ERROR_OUT_OF_MEMORY s' /\
      bins s' = <[i := Binary 0 (bin_file b) (total_memsz (ef b)) (file_size b) (ef b)]> (bins s) /\
      bytes s' = bytes s
  end.
Proof.
  intros Hb Hfile Hs Hsz Hfr. set (sz := total_memsz (ef b)) in *.
  assert (i < length (bins s))%nat as Hlt by by eapply lookup_lt_Some.
  assert (private_load_binary i s = (a <- platform_alloc sz ;;
    set_bin i (fun b => Binary a (bin_file b) (exec_size b) (file_size b) (ef b)) ;;;
    if a =? 0 then ret BFELF_ERROR_OUT_OF_MEMORY else
    platform_memset a 0 sz ;;; for_each (seqZ 0 (num_load_instr (ef b))) (copy_segment i) ;;; ret BFELF_SUCCESS)
    (set_bins s (<[i := Binary (exec b) (bin_file b) sz (file_size b) (ef b)]> (bins s)))) as ->.
  { unfold private_load_binary. erewrite bind_ok by by apply get_bin_ok. replace (file (ef b) =? 0) with false by lia.
    unfold or_return. erewrite bind_ok by done. cbn [Z.eqb]. unfold get_ef. rewrite bind_assoc.
    erewrite bind_ok by by apply get_bin_ok. erewrite bind_ok by done. cbv zeta.
    by erewrite bind_ok by by apply set_bin_ok. }
  set (s0 := set_bins s _). assert (bins s0 !! i = Some (Binary (exec b) (bin_file b) sz (file_size b) (ef b))) as Hb0
    by by apply list_lookup_insert_eq.
  destruct (p_alloc sz (plat s)) as [[[a l]|] p] eqn:Ep.
  - destruct (Hfr a l p Ep) as (Ha & Hend & Hl & Hf). erewrite bind_ok by by apply platform_alloc_some.
    erewrite bind_ok by (apply set_bin_ok; exact Hb0).
    replace (a =? 0) with false by lia. cbn [exec_size bin_file file_size ef]. set (b' := Binary a _ _ _ _).
    match goal with |- context [bind (platform_memset _ _ _) _ ?st] =>
      destruct (memset_ok st (bytes s) a l sz) as (s1 & E1 & Hc1 & Es1); [done..|] end. erewrite bind_ok by exact E1.
    assert (bins s1 !! i = Some b') as Hb1.
    { rewrite Es1. apply list_lookup_insert_eq. cbn [bins s0 set_bins]. by rewrite length_insert. }
    rewrite (so_num _ _ _ Hs). destruct (copy_loop_ok (bytes s) a s1 i b' segs [] segs) as (s2 & E2 & Hc2 & Es2); try done.
    { split; [apply Hs|]. intros k seg Hk. destruct (so_seg _ _ _ Hs k seg Hk) as (ins & ? & []). by exists ins. }
    change (Z.of_nat (length [])) with 0 in E2. erewrite bind_ok by exact E2. exists s2. split; [done|]. split; [|done].
    rewrite Es2, Es1. apply list_insert_insert_eq.
  - erewrite bind_ok by (apply platform_alloc_none; [lia|exact Ep]).
    erewrite bind_ok by (apply set_bin_ok; exact Hb0). cbn [Z.eqb]. eexists. split; [done|]. split; [|done].
    apply list_insert_insert_eq.
Qed.
End Image.
