(* ===== verification/ElfParse.v ===== *)
(** * The ELF loader: what it takes from a file

    The part of [bfelf_file_init] after its checks, on a file whose tables are in
    memory: it returns, and the structure it fills in is the one that the tables
    describe. *)
From S2P Require Import Prelude Elf ElfFrame ElfSyms.

(** The integer of [n] bytes at the offset [off] of a header. *)
Definition field (h : list Z) (off n : nat) : Z := le_value (take n (drop off h)).

Lemma peek_field m a n h off k : fetch m n a = Some h -> (off + k <= n)%nat -> peek m k (a + Z.of_nat off) = Some (field h off k).
Proof.
  intros [Hl Hm]%fetch_some Hk. apply peek_le; [rewrite length_take, length_drop; lia|].
  intros i x [Hx Hi]%lookup_take_Some. rewrite lookup_drop in Hx. rewrite <- Z.add_assoc, <- Nat2Z.inj_add. by apply Hm.
Qed.

(** ** The tables *)

(** A program header with its address; its fields. *)
Notation header := (Z * list Z)%type.
Definition ph_type (p : list Z) : Z := field p 0 4.
Definition ph_flags (p : list Z) : Z := field p 4 4.
Definition ph_offset (p : list Z) : Z := field p 8 8.
Definition ph_vaddr (p : list Z) : Z := field p 16 8.
Definition ph_filesz (p : list Z) : Z := field p 32 8.
Definition ph_memsz (p : list Z) : Z := field p 40 8.

(** The headers of segments to load, as many as there is room for; the last
    header of a type. *)
Definition loads (ps : list header) : list header :=
  take (Z.to_nat BFELF_MAX_SEGMENTS) (filter (fun a => ph_type a.2 = bfpt_load) ps).
Definition last_of (t : Z) (ps : list header) : option header := last (filter (fun a => ph_type a.2 = t) ps).

(** The dynamic section, where a header names one: its offset and number of entries. *)
Definition dyn_offset (ps : list header) : Z := match last_of bfpt_dynamic ps with Some a => ph_offset a.2 | None => 0 end.
Definition dyn_count (ps : list header) : Z := match last_of bfpt_dynamic ps with Some a => ph_filesz a.2 / dyn_size | None => 0 end.

(** The tables of the file at [fil] with the ELF header [h]: the program headers
    [ps], the entries [ds] of the dynamic section up to the one that ends it, and
    the section headers with their names [ss].  [o] is the offset of the names. *)
Record tables (m : gmap Z Z) (fil : Z) (h : list Z) (ps : list header) (ds : list (Z * Z)) (o : Z) (ss : list (list Z * list Z)) : Prop := {
  tb_phnum : Z.of_nat (length ps) = field h 56 2;
  tb_phdr k a : ps !! k = Some a -> a.1 = add64 (add64 fil (field h 32 8)) (phdr_size * Z.of_nat k) /\ fetch m 56 a.1 = Some a.2;
  tb_none : dyn_count ps = 0 \/ dyn_offset ps = 0 -> ds = [];
  tb_dyn k d : ds !! k = Some d -> d.1 <> bfdt_null /\
    let p := add64 (add64 fil (dyn_offset ps)) (dyn_size * Z.of_nat k) in peek m 8 p = Some d.1 /\ peek m 8 (p + 8) = Some d.2;
  tb_end : dyn_count ps <> 0 -> dyn_offset ps <> 0 -> Z.of_nat (length ds) = dyn_count ps \/
    Z.of_nat (length ds) < dyn_count ps /\
    peek m 8 (add64 (add64 fil (dyn_offset ps)) (dyn_size * Z.of_nat (length ds))) = Some bfdt_null;
  tb_names : peek m 8 (add64 (add64 fil (field h 40 8)) (shdr_size * field h 62 2) + 24) = Some o;
  tb_shnum : Z.of_nat (length ss) = field h 60 2;
  tb_shdr k x : ss !! k = Some x -> fetch m 64 (add64 (add64 fil (field h 40 8)) (shdr_size * Z.of_nat k)) = Some x.1 /\
    cstr m (add64 (add64 fil o) (field x.1 0 4)) x.2;
}.

(** ** What the loader keeps of them *)

(** The instruction to load a segment, into an image that starts at [start]. *)
Definition instr_of (start : Z) (p : list Z) : bfelf_load_instr :=
  LoadInstr (ph_flags p) (sub64 (ph_vaddr p) start) (ph_offset p) (ph_memsz p) (ph_filesz p) (ph_vaddr p).
Definition first_vaddr (ps : list header) : Z := match head (loads ps) with Some a => ph_vaddr a.2 | None => 0 end.
Definition last_end (ps : list header) : Z := match last (loads ps) with Some a => add64 (ph_vaddr a.2) (ph_memsz a.2) | None => 0 end.

(** The value of the last entry of the dynamic section with a tag, and the address
    and size of the last section of a name. *)
Definition dyn_value (t : Z) (ds : list (Z * Z)) : Z :=
  match last (filter (fun d => d.1 = t) ds) with Some d => d.2 | None => 0 end.
Definition section_named (n : list Z) (ss : list (list Z * list Z)) : option (list Z * list Z) := last (filter (fun x => x.2 = n) ss).

Record parsed (fil fsz : Z) (h : list Z) (ps : list header) (ds : list (Z * Z)) (ss : list (list Z * list Z)) (e : bfelf_file_t) : Prop := {
  pd_file : file e = fil /\ filesz e = fsz;
  pd_entry : entry e = field h 24 8;
  pd_num : num_load_instr e = Z.of_nat (length (loads ps));
  pd_instrs : take (length (loads ps)) (load_instr e) = (fun a => instr_of (first_vaddr ps) a.2) <$> loads ps;
  pd_image : start_addr e = first_vaddr ps /\ total_memsz e = sub64 (last_end ps) (first_vaddr ps);
  pd_symbols : hash e = dyn_value bfdt_hash ds /\ symtab e = dyn_value bfdt_symtab ds /\
    strtab e = add64 (dyn_value bfdt_strtab ds) fil;
  pd_relocations : relatab_dyn e = dyn_value bfdt_rela ds /\ relanum_dyn e = dyn_value bfdt_relasz ds / rela_size /\
    relatab_plt e = dyn_value bfdt_jmprel ds /\ relanum_plt e = dyn_value bfdt_pltrelsz ds / rela_size;
  pd_init : init e = dyn_value bfdt_init ds /\ fini e = dyn_value bfdt_fini ds;
  pd_ctors : (init_array e, init_arraysz e) = match section_named ctors_name ss with
    | Some x => (field x.1 16 8, field x.1 32 8)
    | None => (dyn_value bfdt_init_array ds, dyn_value bfdt_init_arraysz ds) end;
  pd_dtors : (fini_array e, fini_arraysz e) = match section_named dtors_name ss with
    | Some x => (field x.1 16 8, field x.1 32 8)
    | None => (dyn_value bfdt_fini_array ds, dyn_value bfdt_fini_arraysz ds) end;
  pd_frames : (eh_frame e, eh_framesz e) = match section_named eh_frame_name ss with
    | Some x => (field x.1 16 8, field x.1 32 8) | None => (0, 0) end;
}.

(** ** Steps on the structure *)

(** The steps of the parse as functions of the structure. *)
Definition phdr_edit (e : bfelf_file_t) (a : header) : bfelf_file_t :=
  let p := a.2 in
  if ph_type p =? bfpt_load then
    if num_loadable_segments e <? BFELF_MAX_SEGMENTS then
      let e := set_total_memsz e (add64 (ph_vaddr p) (ph_memsz p)) in
      let e := set_loadable_segments e (<[Z.to_nat (num_loadable_segments e) := a.1]> (loadable_segments e)) in
      set_num_loadable_segments e (num_loadable_segments e + 1)
    else e
  else if ph_type p =? bfpt_dynamic then set_dynnum (set_dynoff e (ph_offset p)) (ph_filesz p / dyn_size)
  else if ph_type p =? bfpt_gnu_stack then set_stack_flags e (ph_flags p)
  else if ph_type p =? bfpt_gnu_relro then set_relaro_memsz (set_relaro_vaddr e (ph_vaddr p)) (ph_memsz p)
  else e.

Definition load_edit (e : bfelf_file_t) (x : nat * header) : bfelf_file_t :=
  set_num_load_instr (set_load_instr e (<[x.1 := instr_of (start_addr e) x.2.2]> (load_instr e))) (num_load_instr e + 1).

Definition start_edit (ps : list header) (e : bfelf_file_t) : bfelf_file_t :=
  match head (loads ps) with
  | None => e
  | Some a => let e := set_start_addr e (ph_vaddr a.2) in set_total_memsz e (sub64 (total_memsz e) (start_addr e))
  end.

Definition dyn_edit (e : bfelf_file_t) (d : Z * Z) : bfelf_file_t := process_dyn d.1 d.2 e.

Definition shdr_edit (e : bfelf_file_t) (x : list Z * list Z) : bfelf_file_t :=
  let a := field x.1 16 8 in let z := field x.1 32 8 in
  if decide (x.2 = eh_frame_name) then set_eh_framesz (set_eh_frame e a) z else
  if decide (x.2 = ctors_name) then set_init_arraysz (set_init_array e a) z else
  if decide (x.2 = dtors_name) then set_fini_arraysz (set_fini_array e a) z else e.

Definition numbered {A} (l : list A) : list (nat * A) := zip (seq 0 (length l)) l.

(** ** What repeated steps leave *)

Section Folds.
Context {E A : Type} (step : E -> A -> E).

Lemma fold_keep {V} (f : E -> V) l : (forall e a, f (step e a) = f e) -> forall e, f (foldl step e l) = f e.
Proof using. intros Hf. induction l as [|a l IH]; intros e; [done|]. simpl. by rewrite IH, Hf. Qed.

Lemma fold_last {V} (f : E -> V) (Q : A -> Prop) `{forall a, Decision (Q a)} (g : A -> V) l :
  (forall e a, f (step e a) = if decide (Q a) then g a else f e) ->
  forall e, f (foldl step e l) = match last (filter Q l) with Some a => g a | None => f e end.
Proof using.
  intros Hf. induction l as [|a l IH] using rev_ind; intros e; [done|].
  rewrite foldl_app. simpl. rewrite Hf, filter_app, filter_cons, filter_nil.
  case_decide; [by rewrite last_snoc|]. by rewrite app_nil_r, IH.
Qed.
End Folds.

(** One more element of a list that is filled from the front. *)
Lemma fill_next {A} (xs old : list A) x : (length xs < length old)%nat ->
  <[length xs := x]> (xs ++ drop (length xs) old) = (xs ++ [x]) ++ drop (length (xs ++ [x])) old.
Proof.
  intros Hl. rewrite <- (Nat.add_0_r (length xs)) at 1. rewrite insert_app_r, length_app, Nat.add_1_r, <- app_assoc. f_equal.
  destruct (drop (length xs) old) as [|y l] eqn:Ed; [apply (f_equal length) in Ed; rewrite length_drop in Ed; simpl in Ed; lia|].
  assert (drop (S (length xs)) old = l) as ->; [|done].
  by rewrite <- Nat.add_1_r, <- drop_drop, Ed.
Qed.

Lemma loads_snoc ps a : loads (ps ++ [a]) =
  if decide (ph_type a.2 = bfpt_load /\ (length (loads ps) < Z.to_nat BFELF_MAX_SEGMENTS)%nat) then loads ps ++ [a] else loads ps.
Proof.
  unfold loads. rewrite filter_app, filter_cons, filter_nil. generalize (filter (fun a => ph_type a.2 = bfpt_load) ps) as l.
  generalize (Z.to_nat BFELF_MAX_SEGMENTS) as n. intros n l. rewrite length_take. destruct (decide (ph_type a.2 = _)) as [Ht|Ht].
  - case_decide as Hn.
    + by rewrite !take_ge by (rewrite ?length_app; simpl; lia).
    + rewrite take_app_le by lia. done.
  - rewrite app_nil_r, decide_False by tauto. done.
Qed.

(** The segments that are listed, from a structure that lists none. *)
Lemma phdrs_loads ps e0 : num_loadable_segments e0 = 0 -> length (loadable_segments e0) = Z.to_nat BFELF_MAX_SEGMENTS ->
  let e := foldl phdr_edit e0 ps in
  num_loadable_segments e = Z.of_nat (length (loads ps)) /\
  loadable_segments e = (fst <$> loads ps) ++ drop (length (fst <$> loads ps)) (loadable_segments e0) /\
  total_memsz e = match last (loads ps) with Some a => add64 (ph_vaddr a.2) (ph_memsz a.2) | None => total_memsz e0 end.
Proof.
  intros Hn Hl. cbv zeta. induction ps as [|a ps (IHn & IHl & IHt)] using rev_ind; [split_and!; [exact Hn|done|done]|].
  rewrite foldl_app, loads_snoc. cbn [foldl]. set (e := foldl phdr_edit e0 ps) in *. unfold phdr_edit. cbv zeta.
  destruct (Z.eqb_spec (ph_type a.2) bfpt_load) as [Ht|Ht].
  - destruct (Z.ltb_spec (num_loadable_segments e) BFELF_MAX_SEGMENTS) as [Hm|Hm].
    + rewrite decide_True by (split; [done|lia]). cbn [num_loadable_segments loadable_segments total_memsz set_num_loadable_segments
        set_loadable_segments set_total_memsz]. rewrite fmap_app, last_snoc, length_app, IHn, Nat2Z.id. cbn [length fmap list_fmap].
      split_and!; [lia| |done]. rewrite IHl. rewrite <- (length_fmap fst (loads ps)) at 1. apply fill_next.
      rewrite length_fmap, Hl. lia.
    + rewrite decide_False by (intros []; lia). done.
  - rewrite decide_False by tauto. repeat case_match; done.
Qed.

(** The instructions that are listed. *)
Lemma loads_listed L : forall e0, (length L <= length (load_instr e0))%nat ->
  let e := foldl load_edit e0 (numbered L) in
  num_load_instr e = num_load_instr e0 + Z.of_nat (length L) /\
  load_instr e = ((fun a : header => instr_of (start_addr e0) a.2) <$> L) ++ drop (length ((fun a : header => instr_of (start_addr e0) a.2) <$> L)) (load_instr e0).
Proof.
  intros e0. cbv zeta. induction L as [|a L IH] using rev_ind; intros Hl; [split; [cbn; lia|done]|].
  rewrite length_app in Hl. cbn [length] in Hl. destruct IH as [IHn IHl]; [lia|].
  assert (numbered (L ++ [a]) = numbered L ++ [(length L, a)]) as ->.
  { unfold numbered. rewrite length_app, seq_app, zip_with_app by (by rewrite length_seq). done. }
  rewrite foldl_app. cbn [foldl]. set (e := foldl load_edit e0 (numbered L)) in *.
  assert (start_addr e = start_addr e0) as Es by (by apply fold_keep).
  unfold load_edit. cbn [num_load_instr load_instr set_num_load_instr set_load_instr fst snd].
  rewrite fmap_app, length_app, IHn, IHl, Es. cbn [length fmap list_fmap]. split; [lia|].
  rewrite <- (length_fmap (fun a : header => instr_of (start_addr e0) a.2) L) at 1. apply fill_next. rewrite length_fmap. lia.
Qed.

(** ** The program does the steps *)

(** A step on a field: it is set for one kind of element, and left alone for the
    others. *)
Ltac kinds :=
  intros; unfold phdr_edit, load_edit, start_edit, dyn_edit, process_dyn, shdr_edit; cbv zeta;
  repeat match goal with
  | |- context [?x =? ?y] => destruct (Z.eqb_spec x y)
  | |- context [?x <? ?y] => destruct (Z.ltb_spec x y)
  | |- context [decide ?Q] => destruct (decide Q)
  | |- context [match head ?l with _ => _ end] => destruct (head l)
  end; try done; exfalso;
  unfold bfpt_load, bfpt_dynamic, bfpt_gnu_stack, bfpt_gnu_relro, bfdt_needed, bfdt_pltrelsz, bfdt_hash, bfdt_strtab, bfdt_symtab,
    bfdt_rela, bfdt_relasz, bfdt_init, bfdt_fini, bfdt_jmprel, bfdt_init_array, bfdt_fini_array, bfdt_init_arraysz,
    bfdt_fini_arraysz, bfdt_flags_1, eh_frame_name, ctors_name, dtors_name in *; first [lia | congruence].

Section Parse.
Context {P : Type} `{Platform P}.
Local Open Scope vmm_scope.
Context (i : nat) (m : gmap Z Z).
Implicit Types (s : env P) (e : bfelf_file_t) (pre : bfelf_file_t -> Prop).

Definition with_ef (b : bfelf_binary_t) e : bfelf_binary_t := Binary (exec b) (bin_file b) (exec_size b) (file_size b) e.
Definition updated s b e : env P := set_bins s (<[i := with_ef b e]> (bins s)).

(** On the memory [m], the program changes the structure of module [i] with [f],
    and nothing else, and returns [r]. *)
Definition edits_to {B} (r : B) pre (prog : M (env P) B) (f : bfelf_file_t -> bfelf_file_t) : Prop :=
  forall s b, bytes s = m -> bins s !! i = Some b -> pre (ef b) -> prog s = Ok r (updated s b (f (ef b))).
Notation edits := (edits_to tt).

Lemma updated_at s b e : bins s !! i = Some b -> bins (updated s b e) !! i = Some (with_ef b e).
Proof using. intros Hb. apply list_lookup_insert_eq. by eapply lookup_lt_Some. Qed.

Lemma updated_twice s b e e' : updated (updated s b e) (with_ef b e) e' = updated s b e'.
Proof using. unfold updated. cbn. by rewrite list_insert_insert_eq. Qed.

Lemma edits_ret {B} (r : B) pre : edits_to r pre (ret r) (fun e => e).
Proof using.
  intros s b _ Hb _. unfold updated, ret. f_equal. replace (with_ef b (ef b)) with b by (by destruct b).
  rewrite list_insert_id by done. by destruct s.
Qed.

Lemma edits_set pre f : edits pre (set_ef i f) f.
Proof using. intros s b _ Hb _. unfold set_ef. by rewrite (set_bin_ok s i b). Qed.

Lemma edits_seq {B} (r : B) pre pre' p1 f1 p2 f2 : edits pre p1 f1 -> (forall e, pre e -> pre' (f1 e)) -> edits_to r pre' p2 f2 ->
  edits_to r pre (p1 ;;; p2) (fun e => f2 (f1 e)).
Proof using.
  intros H1 Hp H2 s b Hm Hb He. erewrite bind_ok by by apply H1.
  rewrite (H2 _ (with_ef b (f1 (ef b)))); [|done|by apply updated_at|by apply Hp]. by rewrite updated_twice.
Qed.

Lemma edits_read {B} (r : B) pre n a v (k : Z -> M (env P) B) f : peek m n a = Some v -> edits_to r pre (k v) f ->
  edits_to r pre (v <- rd n a ;; k v) f.
Proof using. intros Hv Hk s b Hm Hb He. erewrite bind_ok by (apply rd_ok; by rewrite Hm). by apply Hk. Qed.

Lemma edits_ef pre (k : bfelf_file_t -> M (env P) unit) f : (forall e0, pre e0 -> edits (fun e => e = e0) (k e0) f) -> edits pre (e <- get_ef i ;; k e) f.
Proof using. intros Hk s b Hm Hb He. erewrite bind_ok by by apply get_ef_ok. by apply (Hk (ef b)). Qed.

Lemma edits_ext {B} (r : B) pre p f g : edits_to r pre p f -> (forall e, pre e -> f e = g e) -> edits_to r pre p g.
Proof using. intros Hp Hf s b Hm Hb He. rewrite <- Hf by done. by apply Hp. Qed.

Lemma edits_pre {B} (r : B) pre pre' p f : edits_to r pre' p f -> (forall e, pre e -> pre' e) -> edits_to r pre p f.
Proof using. intros Hp Hpre s b Hm Hb He. apply Hp; auto. Qed.

Lemma edits_each {A B} pre (l : list A) (L : list B) body g : Forall2 (fun k x => edits pre (body k) (fun e => g e x)) l L ->
  (forall e x, x ∈ L -> pre e -> pre (g e x)) -> edits pre (for_each l body) (fun e => foldl g e L).
Proof using.
  intros Hl. induction Hl as [|k x l L Hk _ IH]; intros Hp; [apply edits_ret|]. cbn [for_each foldl].
  apply (edits_seq tt pre pre _ (fun e => g e x) _ (fun e => foldl g e L)); [done| |].
  - intros e. apply Hp, list_elem_of_here.
  - apply IH. intros e y Hy. apply Hp. by apply list_elem_of_further.
Qed.

(** A field of a header that is in memory. *)
Lemma edits_field {B} (r : B) pre n a p off k (K : Z -> M (env P) B) f : fetch m n a = Some p -> (off + k <= n)%nat ->
  edits_to r pre (K (field p off k)) f -> edits_to r pre (v <- rd k (a + Z.of_nat off) ;; K v) f.
Proof using. intros Hf Hk HK. eapply edits_read; [by eapply peek_field|done]. Qed.

Lemma edits_first pre n a p k (K : Z -> M (env P) unit) f : fetch m n a = Some p -> (k <= n)%nat ->
  edits pre (K (field p 0 k)) f -> edits pre (v <- rd k a ;; K v) f.
Proof using. intros Hf Hk HK. rewrite <- (Z.add_0_r a). by apply (edits_field tt pre n a p 0). Qed.

(** *** Segments *)

Lemma phdr_edits k a base : a.1 = add64 base (phdr_size * k) -> fetch m 56 a.1 = Some a.2 ->
  edits (fun e => phdrtab e = base) (process_phdr i k) (fun e => phdr_edit e a).
Proof using.
  intros Ea Hf. unfold process_phdr. apply edits_ef. intros e0 Hb. cbv zeta. rewrite Hb, <- Ea.
  pose proof (fun off n K f => edits_field tt (fun e => e = e0) 56 a.1 a.2 off n K f Hf) as Hfield.
  eapply edits_first; [done|lia|]. fold (ph_type a.2).
  destruct (ph_type a.2 =? bfpt_load) eqn:E1; [destruct (num_loadable_segments e0 <? BFELF_MAX_SEGMENTS) eqn:E2|
    destruct (ph_type a.2 =? bfpt_dynamic) eqn:E3; [|destruct (ph_type a.2 =? bfpt_gnu_stack) eqn:E4;
      [|destruct (ph_type a.2 =? bfpt_gnu_relro) eqn:E5]]].
  - apply (Hfield 16%nat); [lia|]. apply (Hfield 40%nat); [lia|].
    eapply edits_ext; [apply (edits_seq tt _ (fun _ => True)); [apply edits_set|done|apply (edits_seq tt _ (fun _ => True)); [apply edits_set|done|apply edits_set]]|].
    intros e ->. unfold phdr_edit. by rewrite E1, E2.
  - eapply edits_ext; [apply edits_ret|]. intros e ->. unfold phdr_edit. by rewrite E1, E2.
  - apply (Hfield 8%nat); [lia|]. apply (Hfield 32%nat); [lia|]. eapply edits_ext; [apply edits_set|].
    intros e ->. unfold phdr_edit. by rewrite E1, E3.
  - apply (Hfield 4%nat); [lia|]. eapply edits_ext; [apply edits_set|]. intros e ->. unfold phdr_edit. by rewrite E1, E3, E4.
  - apply (Hfield 16%nat); [lia|]. apply (Hfield 40%nat); [lia|]. eapply edits_ext; [apply edits_set|].
    intros e ->. unfold phdr_edit. by rewrite E1, E3, E4, E5.
  - eapply edits_ext; [apply edits_ret|]. intros e ->. unfold phdr_edit. by rewrite E1, E3, E4, E5.
Qed.

Lemma load_edits (k : nat) a segs : segs !! k = Some a.1 -> fetch m 56 a.1 = Some a.2 ->
  edits (fun e => loadable_segments e = segs) (process_load i (Z.of_nat k)) (fun e => load_edit e (k, a)).
Proof using.
  intros Ek Hf. unfold process_load. apply edits_ef. intros e0 Hb. unfold segment. rewrite Hb, Nat2Z.id, Ek.
  pose proof (fun off n K f => edits_field tt (fun e => e = e0) 56 a.1 a.2 off n K f Hf) as Hfield.
  change (bind (ret a.1) ?K) with (K a.1). cbv beta.
  apply (Hfield 4%nat); [lia|]. apply (Hfield 16%nat); [lia|]. apply (Hfield 8%nat); [lia|].
  apply (Hfield 40%nat); [lia|]. apply (Hfield 32%nat); [lia|].
  eapply edits_ext; [apply edits_set|]. intros e ->. cbn beta. unfold load_edit. cbn [fst snd]. done.
Qed.

(** The headers that are loaded are in memory, as are their addresses in the list. *)
Lemma loads_in ps a : a ∈ loads ps -> a ∈ ps.
Proof using.
  unfold loads. intros [k Hk]%list_elem_of_lookup_1. apply lookup_take_Some in Hk as [Hk _].
  apply list_elem_of_lookup_2, list_elem_of_filter in Hk. tauto.
Qed.

Definition segments_edit (ps : list header) e : bfelf_file_t :=
  foldl load_edit (start_edit ps (foldl phdr_edit e ps)) (numbered (loads ps)).

Lemma segments_edits fil h ps ds o ss : tables m fil h ps ds o ss -> fetch m 64 fil = Some h ->
  edits (fun e => ehdr e = fil /\ phdrtab e = add64 fil (field h 32 8) /\ num_loadable_segments e = 0 /\
      length (loadable_segments e) = Z.to_nat BFELF_MAX_SEGMENTS)
    (private_process_segments i) (segments_edit ps).
Proof using.
  intros Ht Hh. unfold private_process_segments. apply edits_ef. intros e0 (Eh & Ep & En & El).
  unfold e_phnum, rd16. rewrite Eh. apply (edits_field tt _ 64 fil h 56 2); [done|lia|].
  assert (forall a, a ∈ ps -> fetch m 56 a.1 = Some a.2) as Hin.
  { intros a [k Hk]%list_elem_of_lookup_1. by apply (tb_phdr _ _ _ _ _ _ _ Ht k a Hk). }
  pose proof (phdrs_loads ps e0 En El) as (Hn & Hs & _). set (e1 := foldl phdr_edit e0 ps) in *.
  apply (edits_seq tt _ (fun e => e = e1) _ (fun e => foldl phdr_edit e ps) _
    (fun e => foldl load_edit (start_edit ps e) (numbered (loads ps)))); [|by intros e ->|].
  { apply (edits_pre tt _ (fun e => phdrtab e = add64 fil (field h 32 8))); [|by intros e ->].
    apply edits_each.
    - rewrite <- (tb_phnum _ _ _ _ _ _ _ Ht). apply Forall2_same_length_lookup. split; [rewrite length_seqZ; lia|].
      intros k z a Hz Ha. apply lookup_seqZ in Hz as [-> _]. rewrite Z.add_0_l.
      destruct (tb_phdr _ _ _ _ _ _ _ Ht k a Ha). by apply phdr_edits.
    - intros e a _ He. unfold phdr_edit. repeat case_match; done. }
  apply edits_ef. intros e2 ->. rewrite Hn.
  apply (edits_seq tt _ (fun e => loadable_segments e = loadable_segments e1) _ (start_edit ps) _
    (fun e => foldl load_edit e (numbered (loads ps)))).
  - destruct (loads ps) as [|a L] eqn:EL.
    + eapply edits_ext; [apply edits_ret|]. intros e ->. unfold start_edit. by rewrite EL.
    + replace (0 <? Z.of_nat (length (a :: L))) with true by (symmetry; apply Z.ltb_lt; cbn [length]; lia). unfold segment. rewrite Hs.
      cbn [fmap list_fmap app Z.to_nat lookup list_lookup]. change (bind (ret a.1) ?K) with (K a.1). cbv beta.
      apply (edits_field tt _ 56 a.1 a.2 16 8); [apply Hin, loads_in; rewrite EL; apply list_elem_of_here|lia|].
      eapply edits_ext; [apply (edits_seq tt _ (fun _ => True)); [apply edits_set|done|apply edits_set]|].
      intros e ->. unfold start_edit. by rewrite EL.
  - intros e ->. unfold start_edit. by destruct (head (loads ps)).
  - apply edits_each.
    + apply Forall2_same_length_lookup. unfold numbered. rewrite length_zip_with_l_eq, length_seqZ, length_seq by (by rewrite length_seq).
      split; [lia|]. intros k z [k' a] Hz Ha. apply lookup_seqZ in Hz as [-> _]. rewrite Z.add_0_l.
      apply lookup_zip_Some in Ha as [Hk' Ha]. apply lookup_seq in Hk' as [-> _]. apply load_edits.
      * rewrite Hs. apply lookup_app_l_Some. change (0 + k)%nat with k. by rewrite list_lookup_fmap, Ha.
      * apply Hin, loads_in. by eapply list_elem_of_lookup_2.
    + intros e x _ He. done.
Qed.

(** *** The dynamic section *)

Lemma dyn_loop_edits base ds : forall n, (n = length ds \/ (length ds < n)%nat /\ peek m 8 (add64 base (dyn_size * Z.of_nat (length ds))) = Some bfdt_null) ->
  (forall k d, ds !! k = Some d -> d.1 <> bfdt_null /\
     let p := add64 base (dyn_size * Z.of_nat k) in peek m 8 p = Some d.1 /\ peek m 8 (p + 8) = Some d.2) ->
  forall pre, edits pre (dyn_loop (seqZ 0 (Z.of_nat n)) i base) (fun e => foldl dyn_edit e ds).
Proof using.
  intros n Hn Hd pre.
  assert (forall j ds', drop j ds = ds' -> (j <= length ds)%nat -> forall pre, edits pre (dyn_loop (seqZ (Z.of_nat j) (Z.of_nat n - Z.of_nat j)) i base) (fun e => foldl dyn_edit e ds')) as Hj.
  2: { pose proof (Hj 0%nat ds eq_refl ltac:(lia) pre) as H0. by rewrite Z.sub_0_r in H0. }
  clear pre. intros j ds'. revert j. induction ds' as [|d ds' IH]; intros j Ej Hj pre.
  - assert (j = length ds) as -> by (apply (f_equal length) in Ej; rewrite length_drop in Ej; cbn [length] in Ej; lia).
    destruct Hn as [->|[Hlt Hnull]]; [rewrite seqZ_nil by lia; apply edits_ret|].
    rewrite seqZ_cons by lia. cbn [dyn_loop]. unfold d_tag, rd64. eapply edits_read; [exact Hnull|]. apply edits_ret.
  - assert (ds !! j = Some d) as Hjd by (by rewrite <- (Nat.add_0_r j), <- lookup_drop, Ej).
    pose proof (lookup_lt_Some _ _ _ Hjd) as Hlt. assert (length ds <= n)%nat by (destruct Hn; lia).
    destruct (Hd j d Hjd) as (Ht & Hp1 & Hp2). rewrite seqZ_cons by lia. cbn [dyn_loop foldl]. unfold d_tag, d_val, rd64.
    eapply edits_read; [exact Hp1|]. replace (d.1 =? bfdt_null) with false by lia. eapply edits_read; [exact Hp2|].
    apply (edits_seq tt pre (fun _ => True) _ (fun e => dyn_edit e d) _ (fun e => foldl dyn_edit e ds')); [apply edits_set|done|].
    replace (Z.succ (Z.of_nat j)) with (Z.of_nat (S j)) by lia.
    replace (Z.pred (Z.of_nat n - Z.of_nat j)) with (Z.of_nat n - Z.of_nat (S j)) by lia.
    apply IH; [|lia]. by rewrite <- Nat.add_1_r, <- drop_drop, Ej.
Qed.

Definition dynamic_edit (fil : Z) (ds : list (Z * Z)) e : bfelf_file_t :=
  if (dynnum e =? 0) || (dynoff e =? 0) then e else foldl dyn_edit (set_dyntab (set_num_needed e 0) (add64 fil (dynoff e))) ds.

Lemma dynamic_edits fil h ps ds o ss : tables m fil h ps ds o ss ->
  edits (fun e => file e = fil /\ dynoff e = dyn_offset ps /\ dynnum e = dyn_count ps)
    (private_process_dynamic_section i) (dynamic_edit fil ds).
Proof using.
  intros Ht. unfold private_process_dynamic_section. apply edits_ef. intros e0 (Ef & Eo & En).
  destruct ((dynnum e0 =? 0) || (dynoff e0 =? 0)) eqn:E.
  { eapply edits_ext; [apply edits_ret|]. intros e ->. unfold dynamic_edit. by rewrite E. }
  assert (dyn_count ps <> 0 /\ dyn_offset ps <> 0) as [Hc Ho] by lia.
  eapply edits_ext.
  - apply (edits_seq tt _ (fun _ => True)); [apply edits_set|done|]. rewrite Ef, Eo, En.
    assert (0 <= dyn_count ps).
    { destruct (tb_end _ _ _ _ _ _ _ Ht Hc Ho) as [<-|[? _]]; lia. }
    rewrite <- (Z2Nat.id (dyn_count ps)) by done. apply (dyn_loop_edits _ ds).
    + destruct (tb_end _ _ _ _ _ _ _ Ht Hc Ho) as [He|[He Hp]]; [left; lia|right]. split; [lia|done].
    + apply (tb_dyn _ _ _ _ _ _ _ Ht).
  - intros e ->. cbn beta. unfold dynamic_edit. by rewrite E, Ef, Eo.
Qed.

(** *** Sections *)

Lemma shdr_edits k x base names : fetch m 64 (add64 base (shdr_size * k)) = Some x.1 -> cstr m (add64 names (field x.1 0 4)) x.2 ->
  edits (fun e => shdrtab e = base /\ shstrtab e = names) (process_shdr i k) (fun e => shdr_edit e x).
Proof using.
  intros Hf Hc. unfold process_shdr. apply edits_ef. intros e0 [Eb En]. cbv zeta. rewrite Eb, En.
  unfold sh_name, sh_addr, sh_size, rd32, rd64.
  pose proof (fun off n K f => edits_field tt (fun e => e = e0) 64 _ x.1 off n K f Hf) as Hfield.
  assert (forall l K f, Forall (fun c => 0 < c < 256) l -> edits (fun e => e = e0) (K (if decide (x.2 = l) then BFELF_SUCCESS else BFELF_ERROR_MISMATCH)) f ->
    edits (fun e => e = e0) (r <- private_strcmp (str (add64 names (field x.1 0 4))) (lit l) ;; K r) f) as Hcmp.
  { intros l K f Hl HK s b Hm Hb He. erewrite bind_ok; [by apply HK|]. apply strcmp_reads; [by rewrite Hm|by apply lit_reads]. }
  eapply edits_first; [done|lia|].
  apply Hcmp; [repeat constructor; lia|]. destruct (decide (x.2 = eh_frame_name)) as [E1|E1].
  { cbn [Z.eqb BFELF_SUCCESS]. apply (Hfield 16%nat); [lia|]. apply (Hfield 32%nat); [lia|]. eapply edits_ext; [apply edits_set|].
    intros e ->. unfold shdr_edit. by rewrite decide_True. }
  change (BFELF_ERROR_MISMATCH =? BFELF_SUCCESS) with false. cbv iota.
  apply Hcmp; [repeat constructor; lia|]. destruct (decide (x.2 = ctors_name)) as [E2|E2].
  { cbn [Z.eqb BFELF_SUCCESS]. apply (Hfield 16%nat); [lia|]. apply (Hfield 32%nat); [lia|]. eapply edits_ext; [apply edits_set|].
    intros e ->. unfold shdr_edit. by rewrite (decide_False (P := x.2 = eh_frame_name)), decide_True. }
  change (BFELF_ERROR_MISMATCH =? BFELF_SUCCESS) with false. cbv iota.
  apply Hcmp; [repeat constructor; lia|]. destruct (decide (x.2 = dtors_name)) as [E3|E3].
  { cbn [Z.eqb BFELF_SUCCESS]. apply (Hfield 16%nat); [lia|]. apply (Hfield 32%nat); [lia|]. eapply edits_ext; [apply edits_set|].
    intros e ->. unfold shdr_edit. by rewrite !(decide_False (P := x.2 = _)), decide_True by done. }
  change (BFELF_ERROR_MISMATCH =? BFELF_SUCCESS) with false. cbv iota.
  eapply edits_ext; [apply edits_ret|]. intros e ->. unfold shdr_edit. by rewrite !decide_False by done.
Qed.

(** *** The whole parse *)

(** What [bfelf_file_init] does after its checks. *)
Definition parse_rest (fil sh : Z) : M (env P) Z :=
  private_process_segments i ;;;
  private_process_dynamic_section i ;;;
  en <- e_entry fil ;;
  set_ef i (fun e => set_entry e en) ;;;
  x <- e_shstrndx fil ;;
  o <- sh_offset (add64 (add64 fil sh) (shdr_size * x)) ;;
  set_ef i (fun e => set_shstrtab e (add64 fil o)) ;;;
  n <- e_shnum fil ;;
  for_each (seqZ 0 n) (process_shdr i) ;;;
  set_ef i (fun e => set_strtab e (add64 (strtab_offset e) fil)) ;;;
  ret BFELF_SUCCESS.

Definition sections_edit (fil o : Z) (h : list Z) (ss : list (list Z * list Z)) e : bfelf_file_t :=
  let e := foldl shdr_edit (set_shstrtab (set_entry e (field h 24 8)) (add64 fil o)) ss in
  set_strtab e (add64 (strtab_offset e) fil).
Definition parse_edit (fil o : Z) (h : list Z) (ps : list header) (ds : list (Z * Z)) (ss : list (list Z * list Z)) e : bfelf_file_t :=
  sections_edit fil o h ss (dynamic_edit fil ds (segments_edit ps e)).

(** Fields that the segments, or the dynamic section, leave alone. *)
Lemma segments_keep {V} (f : bfelf_file_t -> V) ps e : (forall e a, f (phdr_edit e a) = f e) -> (forall e x, f (load_edit e x) = f e) ->
  (forall e, f (start_edit ps e) = f e) -> f (segments_edit ps e) = f e.
Proof using. intros H1 H2 H3. unfold segments_edit. by rewrite (fold_keep _ f _ H2), H3, (fold_keep _ f _ H1). Qed.

Lemma dynamic_keep {V} (f : bfelf_file_t -> V) fil ds e : (forall e d, f (dyn_edit e d) = f e) ->
  (forall e x y, f (set_dyntab (set_num_needed e x) y) = f e) -> f (dynamic_edit fil ds e) = f e.
Proof using. intros H1 H2. unfold dynamic_edit. case_match; [done|]. by rewrite (fold_keep _ f _ H1), H2. Qed.

Lemma segments_dynamic ps e : dynoff e = 0 -> dynnum e = 0 ->
  dynoff (segments_edit ps e) = dyn_offset ps /\ dynnum (segments_edit ps e) = dyn_count ps.
Proof using.
  intros Ho Hn. unfold segments_edit, dyn_offset, dyn_count, last_of.
  split; rewrite (fold_keep load_edit) by kinds; unfold start_edit.
  - trans (dynoff (foldl phdr_edit e ps)); [by destruct (head (loads ps))|].
    rewrite (fold_last phdr_edit dynoff (fun a => ph_type a.2 = bfpt_dynamic) (fun a => ph_offset a.2)) by kinds. by rewrite Ho.
  - trans (dynnum (foldl phdr_edit e ps)); [by destruct (head (loads ps))|].
    rewrite (fold_last phdr_edit dynnum (fun a => ph_type a.2 = bfpt_dynamic) (fun a => ph_filesz a.2 / dyn_size)) by kinds. by rewrite Hn.
Qed.

(** The structure before the parse: zero but for the pointers to the tables. *)
Definition parse_from (fil fsz ph sh : Z) e : bfelf_file_t :=
  set_shdrtab (set_phdrtab (set_ehdr (set_filesz (set_file e fil) fsz) fil) (add64 fil ph)) (add64 fil sh).

Lemma parse_edits fil fsz h ps ds o ss : tables m fil h ps ds o ss -> fetch m 64 fil = Some h ->
  edits_to BFELF_SUCCESS (fun e => e = parse_from fil fsz (field h 32 8) (field h 40 8) file_zero)
    (parse_rest fil (field h 40 8)) (parse_edit fil o h ps ds ss).
Proof using.
  intros Ht Hh. unfold parse_rest, parse_edit. set (e0 := parse_from _ _ _ _ _).
  set (e1 := segments_edit ps e0). set (e2 := dynamic_edit fil ds e1).
  apply (edits_seq BFELF_SUCCESS _ (fun e => e = e1) _ (segments_edit ps) _ (fun e => sections_edit fil o h ss (dynamic_edit fil ds e)));
    [|by intros e ->|].
  { eapply edits_pre; [by eapply segments_edits|]. intros e ->. by split_and!. }
  apply (edits_seq BFELF_SUCCESS _ (fun e => e = e2) _ (dynamic_edit fil ds) _ (sections_edit fil o h ss)); [|by intros e ->|].
  { eapply edits_pre; [by eapply dynamic_edits|]. intros e ->. split; [by apply (segments_keep file); kinds|].
    by apply segments_dynamic. }
  assert (shdrtab e2 = add64 fil (field h 40 8)) as Es.
  { unfold e2. rewrite (dynamic_keep shdrtab) by kinds. unfold e1. by rewrite (segments_keep shdrtab) by kinds. }
  unfold e_entry, e_shstrndx, sh_offset, e_shnum, rd64, rd16.
  apply (edits_field _ _ 64 fil h 24 8); [done|lia|].
  eapply edits_ext.
  - apply (edits_seq BFELF_SUCCESS _ (fun e => e = set_entry e2 (field h 24 8))); [apply edits_set|by intros e ->|].
    apply (edits_field _ _ 64 fil h 62 2); [done|lia|]. eapply edits_read; [apply (tb_names _ _ _ _ _ _ _ Ht)|].
    apply (edits_seq BFELF_SUCCESS _ (fun e => shdrtab e = add64 fil (field h 40 8) /\ shstrtab e = add64 fil o)); [apply edits_set|by intros e ->|].
    apply (edits_field _ _ 64 fil h 60 2); [done|lia|].
    apply (edits_seq BFELF_SUCCESS _ (fun _ => True)); [|done|apply (edits_seq BFELF_SUCCESS _ (fun _ => True)); [apply edits_set|done|apply edits_ret]].
    apply (edits_each _ _ ss _ shdr_edit).
    + rewrite <- (tb_shnum _ _ _ _ _ _ _ Ht). apply Forall2_same_length_lookup. split; [rewrite length_seqZ; lia|].
      intros k z x Hz Hx. apply lookup_seqZ in Hz as [-> _]. rewrite Z.add_0_l.
      destruct (tb_shdr _ _ _ _ _ _ _ Ht k x Hx). by apply shdr_edits.
    + intros e x _ He. unfold shdr_edit. repeat case_decide; done.
  - intros e ->. done.
Qed.
End Parse.

(** ** The structure describes the file *)

Lemma sections_keep {V} (f : bfelf_file_t -> V) fil o h ss e : (forall e x, f (shdr_edit e x) = f e) ->
  (forall e x y, f (set_shstrtab (set_entry e x) y) = f e) -> (forall e x, f (set_strtab e x) = f e) ->
  f (sections_edit fil o h ss e) = f e.
Proof. intros H1 H2 H3. unfold sections_edit. by rewrite H3, (fold_keep shdr_edit f ss H1), H2. Qed.

Lemma dynamic_value (f : bfelf_file_t -> Z) t (g : Z -> Z) fil ds e :
  (forall e d, f (dyn_edit e d) = if decide (d.1 = t) then g d.2 else f e) ->
  (forall e x y, f (set_dyntab (set_num_needed e x) y) = f e) ->
  (dynnum e = 0 \/ dynoff e = 0 -> ds = []) -> f e = g 0 -> f (dynamic_edit fil ds e) = g (dyn_value t ds).
Proof.
  intros H1 H2 Hn He. unfold dynamic_edit, dyn_value. destruct ((dynnum e =? 0) || (dynoff e =? 0)) eqn:E.
  - rewrite Hn by lia. exact He.
  - rewrite (fold_last dyn_edit f (fun d => d.1 = t) (fun d => g d.2)) by apply H1. rewrite H2, He. by destruct (last _).
Qed.

(** A pair of fields that the last section of a name decides. *)
Lemma section_pair (f : bfelf_file_t -> Z * Z) n fil o h ss e :
  (forall e x, f (shdr_edit e x) = if decide (x.2 = n) then (field x.1 16 8, field x.1 32 8) else f e) ->
  (forall e x y, f (set_shstrtab (set_entry e x) y) = f e) -> (forall e x, f (set_strtab e x) = f e) ->
  f (sections_edit fil o h ss e) = match section_named n ss with Some x => (field x.1 16 8, field x.1 32 8) | None => f e end.
Proof.
  intros H1 H2 H3. unfold sections_edit, section_named.
  rewrite H3, (fold_last shdr_edit f (fun x => x.2 = n) (fun x => (field x.1 16 8, field x.1 32 8))) by apply H1. by rewrite H2.
Qed.

Section Parsed.
Context (m : gmap Z Z) (fil fsz : Z) (h : list Z) (ps : list header) (ds : list (Z * Z)) (o : Z) (ss : list (list Z * list Z)).
Context (Ht : tables m fil h ps ds o ss).
Let e0 := parse_from fil fsz (field h 32 8) (field h 40 8) file_zero.
Let e1 := segments_edit ps e0.
Let e2 := dynamic_edit fil ds e1.
Let e := parse_edit fil o h ps ds ss e0.

Lemma segments_done : num_load_instr e1 = Z.of_nat (length (loads ps)) /\
  take (length (loads ps)) (load_instr e1) = (fun a => instr_of (first_vaddr ps) a.2) <$> loads ps /\
  start_addr e1 = first_vaddr ps /\ total_memsz e1 = sub64 (last_end ps) (first_vaddr ps).
Proof using.
  destruct (phdrs_loads ps e0) as (_ & _ & Ht1); [done|done|].
  set (e' := start_edit ps (foldl phdr_edit e0 ps)).
  assert (load_instr e' = replicate (Z.to_nat BFELF_MAX_SEGMENTS) (LoadInstr 0 0 0 0 0 0) /\ num_load_instr e' = 0) as [El En].
  { unfold e', start_edit. split; [trans (load_instr (foldl phdr_edit e0 ps))|trans (num_load_instr (foldl phdr_edit e0 ps))];
      first [by destruct (head (loads ps)) | by rewrite (fold_keep phdr_edit) by kinds]. }
  assert (start_addr (foldl phdr_edit e0 ps) = 0) as Es0 by (by rewrite (fold_keep phdr_edit) by kinds).
  assert (start_addr e' = first_vaddr ps /\ total_memsz e' = sub64 (last_end ps) (first_vaddr ps)) as [Es Et].
  { unfold e', start_edit, first_vaddr, last_end. destruct (loads ps) as [|a L] eqn:E; cbn [head]; [by rewrite Ht1|].
    cbn [start_addr total_memsz set_start_addr set_total_memsz]. split; [done|]. rewrite Ht1.
    by destruct (last (a :: L)) eqn:E'; [|apply last_None in E']. }
  unfold e1, segments_edit. fold e'.
  destruct (loads_listed (loads ps) e') as [Hn Hl].
  { rewrite El, length_replicate. unfold loads. rewrite length_take. lia. }
  rewrite Hn, Hl, En, Es. split_and!; [lia| | |].
  - rewrite <- (length_fmap (fun a : header => instr_of (first_vaddr ps) a.2) (loads ps)) at 1. by rewrite take_app_length.
  - by rewrite (fold_keep load_edit) by kinds.
  - by rewrite (fold_keep load_edit) by kinds.
Qed.

Lemma no_dynamic : dynnum e1 = 0 \/ dynoff e1 = 0 -> ds = [].
Proof using Ht. unfold e1. destruct (segments_dynamic ps e0 eq_refl eq_refl) as [-> ->]. apply (tb_none _ _ _ _ _ _ _ Ht). Qed.

(** A field that only the dynamic section sets. *)
Lemma dynamic_field (f : bfelf_file_t -> Z) t (g : Z -> Z) :
  (forall e d, f (dyn_edit e d) = if decide (d.1 = t) then g d.2 else f e) ->
  (forall e x y, f (set_dyntab (set_num_needed e x) y) = f e) ->
  (forall e a, f (phdr_edit e a) = f e) -> (forall e x, f (load_edit e x) = f e) -> (forall e, f (start_edit ps e) = f e) ->
  f e0 = g 0 -> f e2 = g (dyn_value t ds).
Proof using Ht.
  intros H1 H2 H3 H4 H5 H0. apply dynamic_value; [done|done|exact no_dynamic|]. unfold e1. by rewrite (segments_keep f).
Qed.

Lemma parse_parsed : parsed fil fsz h ps ds ss e.
Proof using Ht.
  destruct segments_done as (Hn & Hi & Hs & Hm).
  assert (forall {V} (f : bfelf_file_t -> V), (forall e x, f (shdr_edit e x) = f e) -> (forall e d, f (dyn_edit e d) = f e) ->
    (forall e x y, f (set_dyntab (set_num_needed e x) y) = f e) ->
    (forall e x y, f (set_shstrtab (set_entry e x) y) = f e) -> (forall e x, f (set_strtab e x) = f e) -> f e = f e1) as Hkeep.
  { intros V f H1 H2 H3 H4 H5. unfold e, parse_edit. by rewrite sections_keep, dynamic_keep. }
  assert (forall (f : bfelf_file_t -> Z) t (g : Z -> Z), (forall e d, f (dyn_edit e d) = if decide (d.1 = t) then g d.2 else f e) ->
    (forall e x y, f (set_dyntab (set_num_needed e x) y) = f e) ->
    (forall e a, f (phdr_edit e a) = f e) -> (forall e x, f (load_edit e x) = f e) -> (forall e, f (start_edit ps e) = f e) ->
    f e0 = g 0 -> (forall e x, f (shdr_edit e x) = f e) -> (forall e x y, f (set_shstrtab (set_entry e x) y) = f e) ->
    (forall e x, f (set_strtab e x) = f e) -> f e = g (dyn_value t ds)) as Hdyn.
  { intros f t g H1 H2 H3 H4 H5 H0 H6 H7 H8. unfold e, parse_edit. rewrite sections_keep by done. by apply dynamic_field. }
  assert (e = sections_edit fil o h ss e2) as Ee by done.
  split.
  - split; [rewrite (Hkeep _ file) by kinds; unfold e1; rewrite (segments_keep file) by kinds; done|].
    rewrite (Hkeep _ filesz) by kinds. unfold e1. by rewrite (segments_keep filesz) by kinds.
  - rewrite Ee. unfold sections_edit. cbv zeta. cbn [entry set_strtab]. by rewrite (fold_keep shdr_edit entry) by kinds.
  - rewrite (Hkeep _ num_load_instr) by kinds. exact Hn.
  - rewrite (Hkeep _ load_instr) by kinds. exact Hi.
  - split; [rewrite (Hkeep _ start_addr) by kinds; exact Hs|rewrite (Hkeep _ total_memsz) by kinds; exact Hm].
  - split_and!; [apply (Hdyn hash _ (fun v => v)); kinds|apply (Hdyn symtab _ (fun v => v)); kinds|].
    rewrite Ee. unfold sections_edit. cbv zeta. cbn [strtab set_strtab]. rewrite (fold_keep shdr_edit strtab_offset) by kinds.
    cbn [strtab_offset set_shstrtab set_entry]. by rewrite (dynamic_field strtab_offset bfdt_strtab (fun v => v)) by kinds.
  - split_and!; [apply (Hdyn relatab_dyn _ (fun v => v)); kinds|apply (Hdyn relanum_dyn _ (fun v => v / rela_size)); kinds|
      apply (Hdyn relatab_plt _ (fun v => v)); kinds|apply (Hdyn relanum_plt _ (fun v => v / rela_size)); kinds].
  - split; [apply (Hdyn init _ (fun v => v)); kinds|apply (Hdyn fini _ (fun v => v)); kinds].
  - rewrite Ee. rewrite (section_pair (fun e => (init_array e, init_arraysz e)) ctors_name) by kinds.
    by rewrite (dynamic_field init_array bfdt_init_array (fun v => v)), (dynamic_field init_arraysz bfdt_init_arraysz (fun v => v)) by kinds.
  - rewrite Ee. rewrite (section_pair (fun e => (fini_array e, fini_arraysz e)) dtors_name) by kinds.
    by rewrite (dynamic_field fini_array bfdt_fini_array (fun v => v)), (dynamic_field fini_arraysz bfdt_fini_arraysz (fun v => v)) by kinds.
  - rewrite Ee. rewrite (section_pair (fun e => (eh_frame e, eh_framesz e)) eh_frame_name) by kinds. unfold e2.
    rewrite (dynamic_keep (fun e => (eh_frame e, eh_framesz e))) by kinds. unfold e1.
    by rewrite (segments_keep (fun e => (eh_frame e, eh_framesz e))) by kinds.
Qed.
End Parsed.
