(* ===== verification/ElfHeader.v ===== *)
(** * The ELF loader: which files it accepts

    The checks of the ELF header by [bfelf_file_init], against a predicate on
    the header's bytes, and with the parse of [ElfParse.v] the whole function. *)
From S2P Require Import Prelude Elf ElfFrame ElfSyms ElfParse ElfResolve ElfImage.

Definition signature_ok (h : list Z) : bool := bool_decide (take 4 h = [0x7F; 0x45; 0x4C; 0x46]).

(** 64-bit, little-endian, version 1, System V ABI; an executable or a shared
    object for x86-64 without flags. *)
Definition supported (h : list Z) : bool :=
  bool_decide (take 5 (drop 4 h) = [2; 1; 1; 0; 0]) &&
  ((field h 16 2 =? bfet_dyn) || (field h 16 2 =? bfet_exec)) && (field h 18 2 =? bfem_x86_64) &&
  (field h 20 4 =? 1) && (field h 48 4 =? 0).

(** The verdict on a header. *)
Definition header_code (h : list Z) : Z :=
  if negb (signature_ok h) then BFELF_ERROR_INVALID_SIGNATURE
  else if negb (supported h) then BFELF_ERROR_UNSUPPORTED_FILE else BFELF_SUCCESS.

Section Header.
Context {P : Type} `{Platform P}.
Local Open Scope vmm_scope.
Implicit Types s : env P.

Lemma require_ok s m p code v : m s = Ok v s -> require m p code s = Ok (if p v then BFELF_SUCCESS else code) s.
Proof. intros E. unfold require. by erewrite bind_ok. Qed.

(** One check and those after it. *)
Lemma check_ok s m p code v K c : m s = Ok v s -> code <> 0 -> K s = Ok c s ->
  (require m p code !;; K) s = Ok (if p v then c else code) s.
Proof.
  intros Em Hc EK. unfold or_return. erewrite bind_ok by by apply require_ok.
  destruct (p v); [exact EK|]. by replace (code =? 0) with false by lia.
Qed.

(** The first bytes of a list. *)
Lemma bytes_eqb_cons x l y l' : bool_decide ((x : Z) :: l = y :: l') = (y =? x) && bool_decide (l = l').
Proof. destruct (Z.eqb_spec y x) as [->|Hne]; cbn [andb]; [apply bool_decide_ext|apply bool_decide_eq_false]; naive_solver. Qed.

Lemma e_ident_ok s fil h k : fetch (bytes s) 64 fil = Some h -> (k < 64)%nat ->
  e_ident fil (Z.of_nat k) s = Ok (field h k 1) s.
Proof. intros Hh Hk. unfold e_ident. apply rd_ok. eapply peek_field; [done|lia]. Qed.

(** The bytes of the header up to the padding. *)
Lemma header_split (h : list Z) : length h = 64%nat -> exists b0 b1 b2 b3 b4 b5 b6 b7 b8 t,
  h = b0 :: b1 :: b2 :: b3 :: b4 :: b5 :: b6 :: b7 :: b8 :: t.
Proof. intros Hl. do 9 (destruct h as [|? h]; [done|]). by repeat eexists. Qed.

Lemma check_signature_ok s i b h : bins s !! i = Some b -> fetch (bytes s) 64 (ehdr (ef b)) = Some h ->
  private_check_signature i s = Ok (if signature_ok h then BFELF_SUCCESS else BFELF_ERROR_INVALID_SIGNATURE) s.
Proof.
  intros Hb Hh. unfold private_check_signature. erewrite bind_ok by by apply get_ef_ok.
  pose proof (fun k => e_ident_ok s _ h k Hh) as Hi.
  erewrite check_ok; [|apply (Hi 0%nat); lia|done|]. 2: { eapply check_ok; [apply (Hi 1%nat); lia|done|].
    eapply check_ok; [apply (Hi 2%nat); lia|done|]. apply require_ok, (Hi 3%nat). lia. }
  f_equal. pose proof Hh as [Hl _]%fetch_some. destruct (header_split h Hl) as (b0 & b1 & b2 & b3 & ? & ? & ? & ? & ? & t & ->).
  unfold signature_ok, field. cbn [take drop le_value foldr firstn skipn]. rewrite !bytes_eqb_cons, !Z.mul_0_r, !Z.add_0_r.
  by repeat destruct (_ =? _).
Qed.

Lemma check_support_ok s i b h : bins s !! i = Some b -> fetch (bytes s) 64 (ehdr (ef b)) = Some h ->
  private_check_support i s = Ok (if supported h then BFELF_SUCCESS else BFELF_ERROR_UNSUPPORTED_FILE) s.
Proof.
  intros Hb Hh. unfold private_check_support. erewrite bind_ok by by apply get_ef_ok.
  pose proof (fun k => e_ident_ok s _ h k Hh) as Hi.
  assert (forall off k, (off + k <= 64)%nat -> rd k (ehdr (ef b) + Z.of_nat off) s = Ok (field h off k) s) as Hf
    by (intros off k Hk; apply rd_ok; by eapply peek_field).
  erewrite check_ok; [|apply (Hi 4%nat); lia|done|].
  2: { eapply check_ok; [apply (Hi 5%nat); lia|done|]. eapply check_ok; [apply (Hi 6%nat); lia|done|].
    eapply check_ok; [apply (Hi 7%nat); lia|done|]. eapply check_ok; [apply (Hi 8%nat); lia|done|].
    eapply check_ok; [apply (Hf 16%nat 2%nat); lia|done|]. eapply check_ok; [apply (Hf 18%nat 2%nat); lia|done|].
    eapply check_ok; [apply (Hf 20%nat 4%nat); lia|done|]. apply require_ok. apply (Hf 48%nat 4%nat); lia. }
  f_equal. unfold supported. generalize (field h 16 2) (field h 18 2) (field h 20 4) (field h 48 4).
  intros ty mach ver fl. rewrite (Z.eqb_sym mach), (Z.eqb_sym ver), (Z.eqb_sym fl).
  pose proof Hh as [Hl _]%fetch_some. destruct (header_split h Hl) as (? & ? & ? & ? & b4 & b5 & b6 & b7 & b8 & t & ->).
  unfold field. cbn [take drop le_value foldr firstn skipn]. rewrite !bytes_eqb_cons, !Z.mul_0_r, !Z.add_0_r.
  by repeat destruct (_ =? _).
Qed.

(** Programs that write no memory. *)
Class Quiet {B} (m : M (env P) B) : Prop := quiet s :
  match m s with Ok _ s' => bytes s' = bytes s | Err _ _ => True end.

#[local] Instance quiet_ret {B} (b : B) : Quiet (ret b).
Proof. done. Qed.
#[local] Instance quiet_throw {B} e : Quiet (throw (A := B) e).
Proof. done. Qed.
#[local] Instance quiet_get : Quiet get.
Proof. done. Qed.
#[local] Instance quiet_rd n a : Quiet (rd n a).
Proof. intros s. unfold rd. by destruct (peek _ _ _). Qed.
#[local] Instance quiet_get_bin i : Quiet (get_bin i).
Proof. intros s. unfold get_bin. by destruct (bins s !! i). Qed.
#[local] Instance quiet_bind {B C} (m : M (env P) B) (k : B -> M (env P) C) : Quiet m -> (forall b, Quiet (k b)) -> Quiet (bind m k).
Proof.
  intros Hm Hk s. unfold bind. specialize (Hm s). destruct (m s) as [b s'|]; [|done].
  specialize (Hk b s'). destruct (k b s'); [congruence|done].
Qed.
#[local] Instance quiet_set_ef i f : Quiet (set_ef i f).
Proof. unfold set_ef, set_bin. apply quiet_bind; [apply _|]. intros b s. done. Qed.
#[local] Instance quiet_for_each {A} (l : list A) body : (forall x, Quiet (body x)) -> Quiet (for_each l body).
Proof. intros Hb. induction l as [|x l IH]; simpl; apply _. Qed.
#[local] Instance quiet_strcmp (p q : Z -> M (env P) Z) :
  (forall k, Quiet (p k)) -> (forall k, Quiet (q k)) -> Quiet (private_strcmp p q).
Proof.
  intros H1 H2. unfold private_strcmp. apply quiet_bind; [apply _|]. intros st. generalize 0, (string_fuel st).
  intros k fuel. revert k. induction fuel as [|fuel IH]; intros k; cbn [strcmp_loop]; [apply _|].
  apply quiet_bind; [apply _|]. intros c1. apply quiet_bind; [apply _|]. intros c2. destruct (_ && _); apply _.
Qed.

(** The structure of a program, followed step by step. *)
Ltac quiets := repeat match goal with
  | |- Quiet (bind _ _) => apply quiet_bind; [|intros ?]
  | |- Quiet (for_each _ _) => apply quiet_for_each; intros ?
  | |- Quiet (let x := _ in _) => cbv zeta
  | |- Quiet (match ?x with _ => _ end) => destruct x
  end; try apply _.

#[local] Instance quiet_process_segments i : Quiet (private_process_segments i).
Proof. unfold private_process_segments, process_phdr, process_load, segment, get_ef. quiets. Qed.
#[local] Instance quiet_dyn_loop l i t : Quiet (dyn_loop l i t).
Proof. induction l as [|k l IH]; cbn [dyn_loop]; quiets. Qed.
#[local] Instance quiet_process_dynamic i : Quiet (private_process_dynamic_section i).
Proof. unfold private_process_dynamic_section, get_ef. quiets. Qed.
#[local] Instance quiet_process_shdr i k : Quiet (process_shdr i k).
Proof.
  unfold process_shdr, get_ef. quiets; apply quiet_strcmp; intros k'; unfold str, lit; quiets.
Qed.

(** A program that returns no other code than [c] and writes no memory. *)
Definition returns (c : Z) (m : M (env P) Z) : Prop :=
  forall s, match m s with Ok r s' => r = c /\ bytes s' = bytes s | Err _ _ => True end.

Lemma returns_ret c : returns c (ret c).
Proof. done. Qed.
Lemma returns_bind {B} c (m : M (env P) B) k : Quiet m -> (forall b, returns c (k b)) -> returns c (bind m k).
Proof.
  intros Hm Hk s. unfold bind. specialize (Hm s). destruct (m s) as [b s'|]; [|done].
  specialize (Hk b s'). destruct (k b s'); [|done]. destruct Hk. split; congruence.
Qed.

(** What [bfelf_file_init] does before the checks. *)
Definition parse_start (s : env P) (i : nat) (fil fsz ph sh : Z) (b : bfelf_binary_t) : env P :=
  updated i s b (parse_from fil fsz ph sh (ef b)).

Lemma parse_rest_returns i fil sh : returns BFELF_SUCCESS (parse_rest i fil sh).
Proof. unfold parse_rest. repeat (apply returns_bind; [apply _|intros ?]). apply returns_ret. Qed.

Lemma file_init_split s i b fil fsz h : bins s !! i = Some b -> fetch (bytes s) 64 fil = Some h -> fil <> 0 ->
  ehdr_size <= fsz -> bfelf_file_init fil fsz i s =
    (private_check_signature i !;; private_check_support i !;; parse_rest i fil (field h 40 8))
      (parse_start s i fil fsz (field h 32 8) (field h 40 8) b).
Proof.
  intros Hb Hh Hf Hsz. assert (i < length (bins s))%nat as Hi by by eapply lookup_lt_Some.
  assert (forall off (st : env P), (off + 8 <= 64)%nat -> bytes st = bytes s ->
    rd64 (fil + Z.of_nat off) st = Ok (field h off 8) st) as Hrd
    by (intros off st Hoff Est; apply rd_ok; rewrite Est; by eapply peek_field).
  assert (forall f (st : env P) b', bins st = <[i := b']> (bins s) ->
    set_ef i f st = Ok tt (set_bins st (<[i := Binary (exec b') (bin_file b') (exec_size b') (file_size b') (f (ef b'))]> (bins s)))) as Hset.
  { intros f st b' Est. unfold set_ef. rewrite (set_bin_ok st i b') by (by rewrite Est, list_lookup_insert_eq).
    by rewrite Est, list_insert_insert_eq. }
  unfold bfelf_file_init. replace (fil =? 0) with false by lia. replace (fsz <? ehdr_size) with false by lia.
  erewrite bind_ok by by apply set_bin_ok. erewrite bind_ok by by apply (Hrd 32%nat); [lia|].
  erewrite bind_ok by by apply Hset. erewrite bind_ok by by apply (Hrd 40%nat); [lia|].
  by erewrite bind_ok by by apply Hset.
Qed.

(** The outcome by the verdict on the header. *)
Lemma file_init_cases s i b fil fsz h : bins s !! i = Some b -> fetch (bytes s) 64 fil = Some h -> fil <> 0 -> ehdr_size <= fsz ->
  let s1 := parse_start s i fil fsz (field h 32 8) (field h 40 8) b in
  bfelf_file_init fil fsz i s = if header_code h =? BFELF_SUCCESS then parse_rest i fil (field h 40 8) s1 else Ok (header_code h) s1.
Proof.
  intros Hb Hh Hf Hsz s1. rewrite (file_init_split s i b fil fsz h) by done. fold s1. unfold header_code.
  assert (exists b1, bins s1 !! i = Some b1 /\ ehdr (ef b1) = fil) as (b1 & Hb1 & Eh).
  { eexists. split; [by apply updated_at|done]. }
  assert (fetch (bytes s1) 64 (ehdr (ef b1)) = Some h) as Hh1 by by rewrite Eh.
  unfold or_return. erewrite bind_ok by by apply (check_signature_ok s1 i b1 h).
  destruct (signature_ok h); cbn [negb]; [|done]. cbn [Z.eqb BFELF_SUCCESS].
  erewrite bind_ok by by apply (check_support_ok s1 i b1 h). by destruct (supported h).
Qed.

(** C36: The verdict of [bfelf_file_init] on a file of at least 64 bytes is the
    one on its header: [BFELF_ERROR_INVALID_SIGNATURE] or
    [BFELF_ERROR_UNSUPPORTED_FILE] where the magic bytes or the kind of file are
    not the supported ones, in that order.  A null file and a shorter one are
    refused with [BFELF_ERROR_INVALID_ARG], nothing changed.  An accepted file
    whose program headers, dynamic section, section headers and section names are
    in memory is parsed into a fresh structure: the function returns
    [BFELF_SUCCESS], and the structure has the entry point, the instructions to
    load the segments, the size of the image, the tables of symbols and
    relocations and the arrays of constructors that these tables describe.  If
    they are not in memory it may fault.  It never writes memory. *)
Theorem file_init_verdict s i b fil fsz h : bins s !! i = Some b -> fetch (bytes s) 64 fil = Some h -> fil <> 0 ->
  match bfelf_file_init fil fsz i s with
  | Ok r s' => r = (if fsz <? ehdr_size then BFELF_ERROR_INVALID_ARG else header_code h) /\ bytes s' = bytes s
  | Err e _ => ehdr_size <= fsz /\ header_code h = BFELF_SUCCESS /\ fault e
  end /\ bfelf_file_init 0 fsz i s = Ok BFELF_ERROR_INVALID_ARG s /\
  forall ps ds o ss, ehdr_size <= fsz -> header_code h = BFELF_SUCCESS -> ef b = file_zero -> tables (bytes s) fil h ps ds o ss ->
    exists e, bfelf_file_init fil fsz i s = Ok BFELF_SUCCESS (updated i s b e) /\ parsed fil fsz h ps ds ss e.
Proof.
  intros Hb Hh Hf. split; [|split; [done|]].
  - destruct (Z.ltb_spec fsz ehdr_size) as [Hsz|Hsz].
    { unfold bfelf_file_init. replace (fil =? 0) with false by lia. by replace (fsz <? ehdr_size) with true by lia. }
    pose proof (framed_file_init fil fsz i s) as Hfr. rewrite (file_init_cases s i b fil fsz h) in * by done.
    set (s1 := parse_start _ _ _ _ _ _ _) in *. destruct (Z.eqb_spec (header_code h) BFELF_SUCCESS) as [->|]; [|done].
    pose proof (parse_rest_returns i fil (field h 40 8) s1) as Hr. by destruct (parse_rest _ _ _ _).
  - intros ps ds o ss Hsz Hc He Ht. rewrite (file_init_cases s i b fil fsz h) by done. rewrite Hc. cbn [Z.eqb BFELF_SUCCESS].
    set (e0 := parse_from fil fsz (field h 32 8) (field h 40 8) file_zero).
    exists (parse_edit fil o h ps ds ss e0). split; [|by eapply parse_parsed].
    unfold parse_start. rewrite He. fold e0.
    rewrite (parse_edits i (bytes s) fil fsz h ps ds o ss Ht Hh _ (with_ef b e0)); [|done|by apply updated_at|done].
    by rewrite updated_twice.
Qed.
End Header.
