(* ===== verification/Driver.v ===== *)
(** * The driver's common code

    Models [bareflank/bfdriver/src/common.c] with the Linux platform functions
    of [platform/linux/platform.c] it calls: the global state of the driver,
    the loading of the modules, and the calls into the hypervisor. *)
From S2P Require Import Prelude Elf.

Definition VMM_UNLOADED : Z := 10.
Definition VMM_LOADED : Z := 11.
Definition VMM_RUNNING : Z := 12.
Definition VMM_CORRUPT : Z := 100.

Definition BF_SUCCESS : Z := 0.
Definition BF_ERROR_INVALID_ARG : Z := 0x8000000010000000.
Definition BF_ERROR_NO_MODULES_ADDED : Z := 0x8000000030000000.
Definition BF_ERROR_MAX_MODULES_REACHED : Z := 0x8000000040000000.
Definition BF_ERROR_VMM_INVALID_STATE : Z := 0x8000000050000000.
Definition BF_ERROR_OUT_OF_MEMORY : Z := 0x8000000080000000.
Definition BF_ERROR_VMM_CORRUPTED : Z := 0x8000000090000000.
Definition BF_ERROR_UNKNOWN : Z := 0x80000000A0000000.

Definition BF_REQUEST_INIT : Z := 0.
Definition BF_REQUEST_FINI : Z := 1.
Definition BF_REQUEST_VMM_INIT : Z := 2.
Definition BF_REQUEST_VMM_FINI : Z := 3.
Definition BF_REQUEST_ADD_MDL : Z := 4.
Definition BF_REQUEST_GET_DRR : Z := 5.
Definition BF_REQUEST_SET_RSDP : Z := 6.

Definition STACK_SIZE : Z := 0x8000.
Definition THREAD_LOCAL_STORAGE_SIZE : Z := 0x1000.
Definition PAGE_SIZE : Z := 0x1000.
Definition MEMORY_TYPE_R : Z := 1.
Definition MEMORY_TYPE_W : Z := 2.
Definition MEMORY_TYPE_E : Z := 4.
Definition tc_size : Z := 32.

(** An argument of a request: an integer, or a pointer to a memory descriptor
    on the driver's stack. *)
Inductive vmm_arg := Int (z : Z) | Md (virt phys type : Z).

(** A call into the hypervisor, with the code it returned. *)
Record call := Call { c_cpu : Z; c_request : Z; c_arg1 : vmm_arg; c_arg2 : Z; c_ret : Z }.

(** What the kernel provides besides memory: the number of CPUs, the
    scheduler, the translation of addresses, and the jump to the code that was
    loaded ([_start_func]), which answers with a code.  [md_addr] is the
    address of the local descriptor. *)
Class Kernel (P : Type) `{Platform P} := {
  num_online_cpus : P -> Z;
  set_cpu_affinity : Z -> P -> bool * P;
  kallsyms_sched_setaffinity : P -> Z;
  virt_to_phys_k : P -> Z -> Z;
  run_vmm : Z -> Z -> crt_info_t -> vmm_arg -> P -> Z * P;
  md_addr : Z;
}.

(** The largest number of CPUs a kernel is built for. *)
Definition NR_CPUS : Z := 8192.

(** The globals of [common.c]: [g_modules], [g_loader], [g_info] and
    [_start_func] are in the loader's state; [trace] records the calls into
    the hypervisor, the last one first. *)
Record drv (P : Type) := Drv {
  e_env : env P;
  g_num_modules : Z;
  g_num_cpus_started : Z;
  g_vmm_status : Z;
  g_tls : Z;
  g_stack : Z;
  g_tls_size : Z;
  g_stack_size : Z;
  g_stack_top : Z;
  g_rsdp : Z;
  trace : list call;
}.
Arguments Drv {P}.
Arguments e_env {P}.
Arguments g_num_modules {P}.
Arguments g_num_cpus_started {P}.
Arguments g_vmm_status {P}.
Arguments g_tls {P}.
Arguments g_stack {P}.
Arguments g_tls_size {P}.
Arguments g_stack_size {P}.
Arguments g_stack_top {P}.
Arguments g_rsdp {P}.
Arguments trace {P}.

Section Driver.
Context {P : Type} `{Kernel P}.
Local Open Scope vmm_scope.
Implicit Types s : drv P.

Definition drv_eta s : drv P :=
  Drv (e_env s) (g_num_modules s) (g_num_cpus_started s) (g_vmm_status s) (g_tls s) (g_stack s)
    (g_tls_size s) (g_stack_size s) (g_stack_top s) (g_rsdp s) (trace s).
Definition set_env s x : drv P := ltac:(record_set drv_eta (@e_env P) s x).
Definition set_num_modules s x : drv P := ltac:(record_set drv_eta (@g_num_modules P) s x).
Definition set_cpus_started s x : drv P := ltac:(record_set drv_eta (@g_num_cpus_started P) s x).
Definition set_status s x : drv P := ltac:(record_set drv_eta (@g_vmm_status P) s x).
Definition set_tls s x : drv P := ltac:(record_set drv_eta (@g_tls P) s x).
Definition set_stack s x : drv P := ltac:(record_set drv_eta (@g_stack P) s x).
Definition set_tls_size s x : drv P := ltac:(record_set drv_eta (@g_tls_size P) s x).
Definition set_stack_size s x : drv P := ltac:(record_set drv_eta (@g_stack_size P) s x).
Definition set_stack_top s x : drv P := ltac:(record_set drv_eta (@g_stack_top P) s x).
Definition set_rsdp s x : drv P := ltac:(record_set drv_eta (@g_rsdp P) s x).
Definition set_trace s x : drv P := ltac:(record_set drv_eta (@trace P) s x).

(** Code of the loader, run on the driver's globals. *)
Definition elf {B} (m : M (env P) B) : M (drv P) B := fun s =>
  match m (e_env s) with
  | Ok b e => Ok b (set_env s e)
  | Err x e => Err x (set_env s e)
  end.

(** ** The platform *)

Definition platform_init : M (drv P) Z :=
  s <- get ;;
  ret (if kallsyms_sched_setaffinity (plat (e_env s)) =? 0 then -1 else BF_SUCCESS).

Definition platform_num_cpus s : Z :=
  let n := num_online_cpus (plat (e_env s)) in if n <? 0 then 0 else n.

Definition platform_get_rsdp : Z := 0.

Definition platform_virt_to_phys (virt : Z) s : Z := virt_to_phys_k (plat (e_env s)) virt.

Definition set_plat (s : env P) (p : P) : env P :=
  Env (bytes s) (live s) p (bins s) (ldr s) (crt s) (start_func s).

Definition arg_word (a : vmm_arg) : Z := match a with Int z => z | Md _ _ _ => md_addr end.

(** [_start_func]: the jump into the code that was loaded *)
Definition _start_func (stack cpuid req : Z) (a1 : vmm_arg) (a2 : Z) : M (drv P) Z := fun s =>
  if start_func (e_env s) =? 0 then Err segfault s else
  let '(r, p) := run_vmm (start_func (e_env s)) stack (crt (e_env s)) a1 (plat (e_env s)) in
  Ok r (set_trace (set_env s (set_plat (e_env s) p)) (Call cpuid req a1 a2 r :: trace s)).

Definition common_call_vmm (cpuid req : Z) (a1 : vmm_arg) (a2 : Z) : M (drv P) Z :=
  s <- get ;;
  let tc := sub64 (g_stack_top s) tc_size in
  elf (bfelf_set_integer_args req (arg_word a1) a2 0) ;;;
  elf (wr64 tc cpuid) ;;;
  elf (wr64 (tc + 8) (add64 (g_tls s) (mul64 THREAD_LOCAL_STORAGE_SIZE cpuid))) ;;;
  _start_func (sub64 (sub64 (g_stack_top s) tc_size) 1) cpuid req a1 a2.

Definition platform_call_vmm_on_core (cpuid req : Z) (a1 : vmm_arg) (a2 : Z) : M (drv P) Z :=
  s <- get ;;
  let '(ok, p) := set_cpu_affinity cpuid (plat (e_env s)) in
  modify (fun s => set_env s (set_plat (e_env s) p)) ;;;
  if ok then common_call_vmm cpuid req a1 a2 else ret BF_ERROR_UNKNOWN.

(** ** Helpers of [common.c] *)

Definition private_setup_stack : M (drv P) Z :=
  modify (fun s => set_stack_size s (mul64 STACK_SIZE 2)) ;;;
  s <- get ;;
  a <- elf (platform_alloc (g_stack_size s)) ;;
  modify (fun s => set_stack s a) ;;;
  if a =? 0 then ret BF_ERROR_OUT_OF_MEMORY else
  modify (fun s => set_stack_top s (add64 (g_stack s) (g_stack_size s))) ;;;
  modify (fun s => set_stack_top s (sub64 (Z.land (g_stack_top s) (not64 (STACK_SIZE - 1))) 1)) ;;;
  s <- get ;;
  elf (platform_memset (g_stack s) 0 (g_stack_size s)) ;;;
  ret BF_SUCCESS.

Definition private_setup_tls : M (drv P) Z :=
  modify (fun s => set_tls_size s (mul64 THREAD_LOCAL_STORAGE_SIZE (platform_num_cpus s))) ;;;
  s <- get ;;
  a <- elf (platform_alloc (g_tls_size s)) ;;
  modify (fun s => set_tls s a) ;;;
  if a =? 0 then ret BF_ERROR_OUT_OF_MEMORY else
  elf (platform_memset a 0 (g_tls_size s)) ;;;
  ret BF_SUCCESS.

Definition private_setup_rsdp : M (drv P) Z :=
  modify (fun s => set_rsdp s platform_get_rsdp) ;;; ret BF_SUCCESS.

Definition private_add_raw_md_to_memory_manager (virt type : Z) : M (drv P) Z :=
  s <- get ;;
  platform_call_vmm_on_core 0 BF_REQUEST_ADD_MDL (Md virt (platform_virt_to_phys virt s) type) 0.

(** [for (; exec_s <= exec_e; exec_s += BAREFLANK_PAGE_SIZE)] *)
Fixpoint md_loop (fuel : nat) (exec_s exec_e type : Z) : M (drv P) Z :=
  if exec_s <=? exec_e then
    match fuel with
    | O => throw diverges
    | S fuel' =>
      private_add_raw_md_to_memory_manager exec_s type !;;
      md_loop fuel' (add64 exec_s PAGE_SIZE) exec_e type
    end
  else ret BF_SUCCESS.

Definition add_segment_md (exec : Z) (instr : bfelf_load_instr) : M (drv P) Z :=
  let exec_s := Z.land (add64 exec (mem_offset instr)) (not64 (PAGE_SIZE - 1)) in
  let exec_e := Z.land (add64 (add64 exec (mem_offset instr)) (memsz instr)) (not64 (PAGE_SIZE - 1)) in
  md_loop (S (Z.to_nat ((exec_e - exec_s) / PAGE_SIZE))) exec_s exec_e
    (if negb (Z.land (perm instr) bfpf_x =? 0) then Z.lor MEMORY_TYPE_R MEMORY_TYPE_E
     else Z.lor MEMORY_TYPE_R MEMORY_TYPE_W).

Definition private_add_md_to_memory_manager (i : nat) : M (drv P) Z :=
  b <- elf (get_bin i) ;;
  until_error (seqZ 0 (bfelf_file_get_num_load_instrs (ef b))) (fun k =>
    match snd (bfelf_file_get_load_instr (ef b) k) with
    | None => throw segfault
    | Some instr => add_segment_md (exec b) instr
    end).

Definition private_add_tss_mdl : M (drv P) Z :=
  s <- get ;;
  until_error (seqZ 0 ((g_tls_size s + PAGE_SIZE - 1) / PAGE_SIZE)) (fun k =>
    private_add_raw_md_to_memory_manager (add64 (g_tls s) (PAGE_SIZE * k))
      (Z.lor MEMORY_TYPE_R MEMORY_TYPE_W)).

Definition private_add_modules_mdl : M (drv P) Z :=
  s <- get ;;
  until_error (seqZ 0 (g_num_modules s)) (fun k => private_add_md_to_memory_manager (Z.to_nat k)).

(** ** The operations *)

Definition common_vmm_status s : Z := g_vmm_status s.

Definition zero_modules : list bfelf_binary_t := replicate (Z.to_nat MAX_NUM_MODULES) binary_zero.

Definition common_reset : M (drv P) unit :=
  s <- get ;;
  for_each (seqZ 0 (g_num_modules s)) (fun k =>
    b <- elf (get_bin (Z.to_nat k)) ;;
    if negb (exec b =? 0) then elf (platform_free (exec b) (exec_size b)) else ret tt) ;;;
  elf (modify (fun e => set_start (set_crt (set_ldr (set_bins e zero_modules) loader_zero) crt_zero) 0)) ;;;
  modify (fun s => set_status (set_cpus_started (set_num_modules s 0) 0) VMM_UNLOADED) ;;;
  (if negb (g_tls s =? 0) then elf (platform_free (g_tls s) (g_tls_size s)) else ret tt) ;;;
  (if negb (g_stack s =? 0) then elf (platform_free (g_stack s) (g_stack_size s)) else ret tt) ;;;
  modify (fun s => set_rsdp (set_stack_top (set_stack (set_tls s 0) 0) 0) 0).

Definition common_init : M (drv P) Z :=
  platform_init !;; (common_reset ;;; ret BF_SUCCESS).

Definition common_add_module (fil fsize : Z) : M (drv P) Z :=
  if (fil =? 0) || (fsize =? 0) then ret BF_ERROR_INVALID_ARG else
  s <- get ;;
  let st := common_vmm_status s in
  if st =? VMM_CORRUPT then ret BF_ERROR_VMM_CORRUPTED else
  if (st =? VMM_LOADED) || (st =? VMM_RUNNING) then ret BF_ERROR_VMM_INVALID_STATE else
  if MAX_NUM_MODULES <=? g_num_modules s then ret BF_ERROR_MAX_MODULES_REACHED else
  elf (set_bin (Z.to_nat (g_num_modules s)) (fun b => Binary (exec b) fil (exec_size b) fsize (ef b))) ;;;
  modify (fun s => set_num_modules s (g_num_modules s + 1)) ;;;
  ret BF_SUCCESS.

Definition common_unload_vmm : M (drv P) Z :=
  s <- get ;;
  let st := common_vmm_status s in
  if st =? VMM_CORRUPT then ret BF_ERROR_VMM_CORRUPTED else
  if st =? VMM_RUNNING then ret BF_ERROR_VMM_INVALID_STATE else
  r <- (if st =? VMM_UNLOADED then ret BF_SUCCESS
        else platform_call_vmm_on_core 0 BF_REQUEST_FINI (Int 0) 0) ;;
  if r =? BF_SUCCESS then
    common_reset ;;; modify (fun s => set_status s VMM_UNLOADED) ;;; ret BF_SUCCESS
  else modify (fun s => set_status s VMM_CORRUPT) ;;; ret r.

(** The steps of [common_load_vmm] up to its [failure] label. *)
Definition load_steps : M (drv P) Z :=
  private_setup_stack !;;
  private_setup_tls !;;
  private_setup_rsdp !;;
  (s <- get ;; elf (bfelf_load (g_num_modules s))) !;;
  platform_call_vmm_on_core 0 BF_REQUEST_INIT (Int 0) 0 !;;
  (s <- get ;; platform_call_vmm_on_core 0 BF_REQUEST_SET_RSDP (Int (g_rsdp s)) 0) !;;
  private_add_modules_mdl !;;
  private_add_tss_mdl.

Definition common_load_vmm : M (drv P) Z :=
  s <- get ;;
  let st := common_vmm_status s in
  if st =? VMM_CORRUPT then ret BF_ERROR_VMM_CORRUPTED else
  if st =? VMM_LOADED then ret BF_SUCCESS else
  if st =? VMM_RUNNING then ret BF_ERROR_VMM_INVALID_STATE else
  if g_num_modules s =? 0 then ret BF_ERROR_NO_MODULES_ADDED else
  r <- load_steps ;;
  if r =? BF_SUCCESS then modify (fun s => set_status s VMM_LOADED) ;;; ret BF_SUCCESS
  else common_unload_vmm ;;; ret r.

(** [for (cpuid = g_num_cpus_started - 1; cpuid >= 0; cpuid--)] *)
Definition stop_loop : M (drv P) Z :=
  s <- get ;;
  until_error (reverse (seqZ 0 (g_num_cpus_started s))) (fun cpuid =>
    platform_call_vmm_on_core cpuid BF_REQUEST_VMM_FINI (Int cpuid) 0 !;;
    (modify (fun s => set_cpus_started s (g_num_cpus_started s - 1)) ;;; ret BF_SUCCESS)).

Definition common_stop_vmm : M (drv P) Z :=
  s <- get ;;
  let st := common_vmm_status s in
  if st =? VMM_CORRUPT then ret BF_ERROR_VMM_CORRUPTED else
  if st =? VMM_UNLOADED then ret BF_ERROR_VMM_INVALID_STATE else
  r <- stop_loop ;;
  if r =? BF_SUCCESS then modify (fun s => set_status s VMM_LOADED) ;;; ret BF_SUCCESS
  else modify (fun s => set_status s VMM_CORRUPT) ;;; ret r.

(** [for (cpuid = 0; cpuid < platform_num_cpus(); cpuid++)] *)
Fixpoint start_loop (fuel : nat) (cpuid : Z) : M (drv P) Z :=
  s <- get ;;
  if cpuid <? platform_num_cpus s then
    match fuel with
    | O => throw diverges
    | S fuel' =>
      platform_call_vmm_on_core cpuid BF_REQUEST_VMM_INIT (Int cpuid) 0 !;;
      (modify (fun s => set_cpus_started s (g_num_cpus_started s + 1)) ;;;
       start_loop fuel' (cpuid + 1))
    end
  else ret BF_SUCCESS.

Definition common_start_vmm : M (drv P) Z :=
  s <- get ;;
  let st := common_vmm_status s in
  if st =? VMM_CORRUPT then ret BF_ERROR_VMM_CORRUPTED else
  if st =? VMM_RUNNING then ret BF_SUCCESS else
  if st =? VMM_UNLOADED then ret BF_ERROR_VMM_INVALID_STATE else
  modify (fun s => set_cpus_started s 0) ;;;
  r <- start_loop (Z.to_nat NR_CPUS) 0 ;;
  if r =? BF_SUCCESS then modify (fun s => set_status s VMM_RUNNING) ;;; ret BF_SUCCESS
  else common_stop_vmm ;;; ret r.

Definition common_dump_vmm (drr vcpuid : Z) : M (drv P) Z :=
  if drr =? 0 then ret BF_ERROR_INVALID_ARG else
  s <- get ;;
  if common_vmm_status s =? VMM_UNLOADED then ret BF_ERROR_VMM_INVALID_STATE else
  platform_call_vmm_on_core 0 BF_REQUEST_GET_DRR (Int vcpuid) drr.

Definition common_fini : M (drv P) Z :=
  s <- get ;;
  (if common_vmm_status s =? VMM_RUNNING then common_stop_vmm else ret BF_SUCCESS) ;;;
  s <- get ;;
  (if common_vmm_status s =? VMM_LOADED then common_unload_vmm else ret BF_SUCCESS) ;;;
  s <- get ;;
  if common_vmm_status s =? VMM_CORRUPT then ret BF_ERROR_VMM_CORRUPTED else
  (if 0 <? g_num_modules s then common_reset else ret tt) ;;;
  ret BF_SUCCESS.
End Driver.
