(* ===== verification/LinuxEntry.v ===== *)
(** * The Linux driver's entry points

    Models [bareflank/bfdriver/src/platform/linux/entry.c]: the ioctl handlers
    of the misc device, which keep the module buffers ([pmodules]) the common
    code points to, and the module's init, exit and reboot hooks. *)
From S2P Require Import Prelude Elf Driver.

Definition BF_IOCTL_SUCCESS : Z := 0.
Definition BF_IOCTL_FAILURE : Z := -1.
Definition EPERM : Z := 1.
Definition EINVAL : Z := 22.
Definition NOTIFY_DONE : Z := 0.

(** [_IOC] of the kernel: direction, size of the argument, type and number. *)
Definition BAREFLANK_MAJOR : Z := 150.
Definition _IOC (dir nr size : Z) : Z :=
  Z.lor (Z.lor (Z.shiftl dir 30) (Z.shiftl BAREFLANK_MAJOR 8)) (Z.lor nr (Z.shiftl size 16)).
Definition _IO (nr : Z) := _IOC 0 nr 0.
Definition _IOW (nr size : Z) := _IOC 1 nr size.
Definition _IOR (nr size : Z) := _IOC 2 nr size.

Definition IOCTL_ADD_MODULE_LENGTH : Z := _IOW 0x801 8.
Definition IOCTL_ADD_MODULE : Z := _IOW 0x802 8.
Definition IOCTL_LOAD_VMM : Z := _IO 0x803.
Definition IOCTL_UNLOAD_VMM : Z := _IO 0x804.
Definition IOCTL_START_VMM : Z := _IO 0x805.
Definition IOCTL_STOP_VMM : Z := _IO 0x806.
Definition IOCTL_DUMP_VMM : Z := _IOR 0x807 8.
Definition IOCTL_VMM_STATUS : Z := _IOR 0x808 8.
Definition IOCTL_SET_VCPUID : Z := _IOW 0x80A 8.

(** What the kernel provides to the entry points.  [copy_from_user] answers
    with the number of bytes it could not copy and the bytes the destination
    holds afterwards; [copy_to_user] with the number not copied.  [drr_addr] is
    the local pointer the hypervisor is asked to set, [drr_contents] the debug
    ring it then points to. *)
Class UserSpace (P : Type) := {
  copy_from_user : P -> Z -> Z -> Z * list Z;
  copy_to_user : Z -> list Z -> P -> Z * P;
  misc_register : P -> Z * P;
  drr_addr : Z;
  drr_contents : P -> list Z;
}.

Record pmodule_t := PModule { pdata : Z; psz : Z }.

Record lin (P : Type) := Lin {
  l_drv : drv P;
  g_vcpuid : Z;
  g_module_length : Z;
  pmodules : list pmodule_t;   (** the first [g_num_pmodules] entries *)
}.
Arguments Lin {P}.
Arguments l_drv {P}.
Arguments g_vcpuid {P}.
Arguments g_module_length {P}.
Arguments pmodules {P}.

Section Entry.
Context {P : Type} `{Kernel P} `{UserSpace P}.
Local Open Scope vmm_scope.
Implicit Types s : lin P.

Definition g_num_pmodules s : Z := Z.of_nat (length (pmodules s)).
Definition set_drv s d : lin P := Lin d (g_vcpuid s) (g_module_length s) (pmodules s).
Definition set_vcpuid s v : lin P := Lin (l_drv s) v (g_module_length s) (pmodules s).
Definition set_module_length s v : lin P := Lin (l_drv s) (g_vcpuid s) v (pmodules s).
Definition set_pmodules s v : lin P := Lin (l_drv s) (g_vcpuid s) (g_module_length s) v.
Definition plat_of s : P := plat (e_env (l_drv s)).

(** A call of the common code. *)
Definition com {B} (m : M (drv P) B) : M (lin P) B := fun s =>
  match m (l_drv s) with
  | Ok b d => Ok b (set_drv s d)
  | Err x d => Err x (set_drv s d)
  end.

Definition copy_out (dst : Z) (l : list Z) : M (lin P) Z := fun s =>
  let '(r, p) := copy_to_user dst l (plat_of s) in
  Ok r (set_drv s (set_env (l_drv s) (set_plat (e_env (l_drv s)) p))).

(** [failed:] of [ioctl_add_module] *)
Definition add_module_failed (buf : Z) : M (lin P) Z :=
  s <- get ;;
  com (elf (platform_free buf (g_module_length s))) ;;; ret BF_IOCTL_FAILURE.

Definition ioctl_add_module (file : Z) : M (lin P) Z :=
  s <- get ;;
  if MAX_NUM_MODULES <=? g_num_pmodules s then ret BF_IOCTL_FAILURE else
  buf <- com (elf (platform_alloc (g_module_length s))) ;;
  if buf =? 0 then ret BF_IOCTL_FAILURE else
  s <- get ;;
  let '(r, l) := copy_from_user (plat_of s) file (g_module_length s) in
  com (elf (wr buf l)) ;;;
  if negb (r =? 0) then add_module_failed buf else
  r <- com (common_add_module buf (g_module_length s)) ;;
  if negb (r =? BF_SUCCESS) then add_module_failed buf else
  modify (fun s => set_pmodules s (pmodules s ++ [PModule buf (g_module_length s)])) ;;;
  ret BF_IOCTL_SUCCESS.

Definition ioctl_add_module_length (len : Z) : M (lin P) Z :=
  if len =? 0 then ret BF_IOCTL_FAILURE else
  s <- get ;;
  let '(r, l) := copy_from_user (plat_of s) len 8 in
  modify (fun s => set_module_length s (le_value l)) ;;;
  ret (if negb (r =? 0) then BF_IOCTL_FAILURE else BF_IOCTL_SUCCESS).

Definition free_pmodules : M (lin P) unit :=
  s <- get ;;
  for_each (pmodules s) (fun m => com (elf (platform_free (pdata m) (psz m)))) ;;;
  modify (fun s => set_pmodules s []).

Definition ioctl_unload_vmm : M (lin P) Z :=
  r <- com common_unload_vmm ;;
  free_pmodules ;;;
  ret (if negb (r =? BF_SUCCESS) then BF_IOCTL_FAILURE else BF_IOCTL_SUCCESS).

Definition ioctl_load_vmm : M (lin P) Z :=
  r <- com common_load_vmm ;;
  if negb (r =? BF_SUCCESS) then ioctl_unload_vmm ;;; ret BF_IOCTL_FAILURE
  else ret BF_IOCTL_SUCCESS.

Definition ioctl_stop_vmm : M (lin P) Z :=
  r <- com common_stop_vmm ;;
  ret (if negb (r =? BF_SUCCESS) then BF_IOCTL_FAILURE else BF_IOCTL_SUCCESS).

Definition ioctl_start_vmm : M (lin P) Z :=
  r <- com common_start_vmm ;;
  if negb (r =? BF_SUCCESS) then ioctl_stop_vmm ;;; ret BF_IOCTL_FAILURE
  else ret BF_IOCTL_SUCCESS.

Definition ioctl_dump_vmm (user_drr : Z) : M (lin P) Z :=
  s <- get ;;
  r <- com (common_dump_vmm drr_addr (g_vcpuid s)) ;;
  if negb (r =? BF_SUCCESS) then ret BF_IOCTL_FAILURE else
  s <- get ;;
  r <- copy_out user_drr (drr_contents (plat_of s)) ;;
  ret (if negb (r =? 0) then BF_IOCTL_FAILURE else BF_IOCTL_SUCCESS).

Definition ioctl_vmm_status (status : Z) : M (lin P) Z :=
  s <- get ;;
  if status =? 0 then ret BF_IOCTL_FAILURE else
  r <- copy_out status (le_bytes 8 (common_vmm_status (l_drv s))) ;;
  ret (if negb (r =? 0) then BF_IOCTL_FAILURE else BF_IOCTL_SUCCESS).

Definition ioctl_set_vcpuid (vcpuid : Z) : M (lin P) Z :=
  if vcpuid =? 0 then ret BF_IOCTL_FAILURE else
  s <- get ;;
  let '(r, l) := copy_from_user (plat_of s) vcpuid 8 in
  modify (fun s => set_vcpuid s (le_value l)) ;;;
  ret (if negb (r =? 0) then BF_IOCTL_FAILURE else BF_IOCTL_SUCCESS).

Definition dev_unlocked_ioctl (cmd arg : Z) : M (lin P) Z :=
  if cmd =? IOCTL_ADD_MODULE then ioctl_add_module arg else
  if cmd =? IOCTL_ADD_MODULE_LENGTH then ioctl_add_module_length arg else
  if cmd =? IOCTL_LOAD_VMM then ioctl_load_vmm else
  if cmd =? IOCTL_UNLOAD_VMM then ioctl_unload_vmm else
  if cmd =? IOCTL_START_VMM then ioctl_start_vmm else
  if cmd =? IOCTL_STOP_VMM then ioctl_stop_vmm else
  if cmd =? IOCTL_DUMP_VMM then ioctl_dump_vmm arg else
  if cmd =? IOCTL_VMM_STATUS then ioctl_vmm_status arg else
  if cmd =? IOCTL_SET_VCPUID then ioctl_set_vcpuid arg else
  ret (- EINVAL).

Definition dev_reboot : M (lin P) Z := com common_fini ;;; ret NOTIFY_DONE.

Definition dev_init : M (lin P) Z := fun s =>
  let '(r, p) := misc_register (plat_of s) in
  let s := set_drv s (set_env (l_drv s) (set_plat (e_env (l_drv s)) p)) in
  (if negb (r =? 0) then ret (- EPERM) else
   r <- com common_init ;;
   ret (if negb (r =? 0) then - EPERM else 0)) s.

Definition dev_exit : M (lin P) unit := com common_fini ;;; ret tt.
End Entry.
