(* ===== verification/DriverMem.v ===== *)
(** * The driver's memory

    What the driver relies on from the kernel, and the invariant of its memory:
    the live blocks are exactly the buffers the driver holds, they are mapped
    and they do not overlap. *)
From S2P Require Import Prelude Elf ElfFrame Driver.

(** What the driver relies on from [vmalloc] and [vfree]: [p_ok p L] says that
    [L] are the blocks the driver holds, with their lengths. *)
Class KernelLaws (P : Type) `{Kernel P} := {
  p_ok : P -> gmap Z Z -> Prop;
  p_alloc_some p L len a l p' : p_ok p L -> len <> 0 -> p_alloc len p = (Some (a, l), p') ->
    p_ok p' (<[a := len]> L) /\ L !! a = None /\ 0 < a /\ Z.of_nat (length l) = len /\
    a + len < 2 ^ 64 /\ (forall b n, L !! b = Some n -> b + n <= a \/ a + len <= b);
  p_alloc_none p L len p' : p_ok p L -> p_alloc len p = (None, p') -> p_ok p' L;
  p_free_ok p L a n : p_ok p L -> L !! a = Some n -> p_ok (p_free a p) (delete a L);
  (** the scheduler and the hypervisor leave the driver's blocks alone *)
  affinity_ok p L c : p_ok p L -> p_ok (snd (set_cpu_affinity c p)) L;
  run_ok p L f st c a : p_ok p L -> p_ok (snd (run_vmm f st c a p)) L;
  (** no CPU is plugged or unplugged *)
  cpus_range p : 0 <= num_online_cpus p <= NR_CPUS;
  cpus_alloc p len : num_online_cpus (snd (p_alloc len p)) = num_online_cpus p;
  cpus_free p a : num_online_cpus (p_free a p) = num_online_cpus p;
  cpus_affinity p c : num_online_cpus (snd (set_cpu_affinity c p)) = num_online_cpus p;
  cpus_run p f st c a : num_online_cpus (snd (run_vmm f st c a p)) = num_online_cpus p;
}.

(** A buffer of the driver: none when its pointer is null. *)
Definition block (a n : Z) : list (Z * Z) := if a =? 0 then [] else [(a, n)].

Definition execs {P} (s : env P) : list (Z * Z) :=
  flat_map (fun b => block (exec b) (exec_size b)) (bins s).

Section Mem.
Context {P : Type} `{KernelLaws P}.
Local Open Scope vmm_scope.
Context (ncpu : Z).
Implicit Types s : env P.

Record env_ok s : Prop := {
  eo_plat : p_ok (plat s) (live s);
  eo_cpus : num_online_cpus (plat s) = ncpu;
  eo_range a n : live s !! a = Some n -> 0 < a /\ 0 < n /\ a + n < 2 ^ 64;
  eo_mapped a n i : live s !! a = Some n -> 0 <= i < n -> is_Some (bytes s !! (a + i));
  eo_apart a n b m : live s !! a = Some n -> live s !! b = Some m -> a <> b -> a + n <= b \/ b + m <= a;
}.

(** The live blocks are [L] and the images of the modules. *)
Record env_inv (L : list (Z * Z)) s : Prop := {
  ei_ok : env_ok s;
  ei_live : map_to_list (live s) ≡ₚ L ++ execs s;
}.

Lemma execs_shape s s' : shape <$> bins s' = shape <$> bins s -> execs s' = execs s.
Proof.
  unfold execs. generalize (bins s). induction (bins s') as [|b l IH]; intros [|b' l'] E; try done.
  cbn in E. apply (inj2 cons) in E as [E El]. unfold shape in E. simplify_eq. simpl. rewrite (IH l') by done. by f_equal; f_equal.
Qed.

Lemma env_ok_frame s s' : env_ok s -> frame s s' -> env_ok s'.
Proof.
  intros [? ? ? Hm ?] [El Ep Ed _]. split; rewrite ?El, ?Ep; try done. intros a n i Ha Hi.
  specialize (Hm a n i Ha Hi). rewrite <- elem_of_dom in *. by rewrite Ed.
Qed.

Lemma env_inv_frame L s s' : env_inv L s -> frame s s' -> env_inv L s'.
Proof.
  intros [Ho Hl] Hf. split; [by eapply env_ok_frame|]. rewrite (fr_live _ _ Hf), Hl.
  by rewrite (execs_shape s s') by apply Hf.
Qed.

(** Code that is framed keeps the invariant. *)
Lemma env_inv_framed {B} L (m : M (env P) B) s : Framed m -> env_inv L s ->
  match m s with Ok _ s' => frame s s' /\ env_inv L s' | Err e _ => fault e end.
Proof.
  intros Hm Hi. specialize (Hm s). destruct (m s) as [b s'|]; [|done]. split; [done|]. by eapply env_inv_frame.
Qed.

Lemma live_block s a n L : env_ok s -> map_to_list (live s) ≡ₚ (a, n) :: L -> live s !! a = Some n.
Proof. intros _ Hl. apply elem_of_map_to_list. rewrite Hl. by left. Qed.

(** [platform_alloc] *)
Lemma platform_alloc_ok len s : env_ok s -> exists a s', platform_alloc len s = Ok a s' /\ env_ok s' /\
  bins s' = bins s /\ ldr s' = ldr s /\ crt s' = crt s /\ start_func s' = start_func s /\
  map_to_list (live s') ≡ₚ block a len ++ map_to_list (live s) /\
  (forall x, is_Some (bytes s !! x) -> is_Some (bytes s' !! x)).
Proof.
  intros Hok. unfold platform_alloc. destruct (Z.eqb_spec len 0) as [->|Hlen].
  { exists 0, s. by split_and!. }
  destruct (p_alloc len (plat s)) as [[[a l]|] p] eqn:E.
  - destruct (p_alloc_some _ _ _ _ _ _ (eo_plat s Hok) Hlen E) as (Hp & Hf & Ha & Hll & Hr & Hap).
    eexists _, _. split; [done|]. cbn [bins ldr crt start_func live bytes]. split_and!; try done.
    + split; cbn [plat live bytes]; try done.
      * rewrite <- (eo_cpus s Hok). change p with (snd (Some (a, l), p)). rewrite <- E. apply cpus_alloc.
      * intros b n [[<- <-]|[? Hb]]%lookup_insert_Some; [lia|]. by apply (eo_range s Hok).
      * intros b n i Hb Hi. apply lookup_union_is_Some. apply lookup_insert_Some in Hb as [[<- <-]|[? Hb]].
        -- left. destruct (lookup_lt_is_Some_2 l (Z.to_nat i)) as [v Hv]; [lia|]. exists v.
           apply lookup_map_seqZ_Some. split; [lia|]. by replace (a + i - a) with i by lia.
        -- right. by eapply (eo_mapped s Hok).
      * intros b n c m [[<- <-]|[? Hb]]%lookup_insert_Some [[<- <-]|[? Hc]]%lookup_insert_Some Hbc; [done|..].
        -- destruct (Hap _ _ Hc); lia.
        -- destruct (Hap _ _ Hb); lia.
        -- by eapply (eo_apart s Hok).
    + rewrite map_to_list_insert by done. unfold block. by replace (a =? 0) with false by lia.
    + intros x Hx. apply lookup_union_is_Some. by right.
  - eexists 0, _. split; [done|]. cbn [bins ldr crt start_func live bytes]. split_and!; try done.
    pose proof (cpus_alloc (plat s) len) as Hn. rewrite E in Hn.
    destruct Hok. split; cbn [plat live bytes]; try done; [by eapply p_alloc_none|]. simpl in Hn. congruence.
Qed.

(** [platform_free] of a block that is held *)
Lemma platform_free_ok a n len L s : env_ok s -> map_to_list (live s) ≡ₚ (a, n) :: L ->
  exists s', platform_free a len s = Ok tt s' /\ env_ok s' /\ map_to_list (live s') ≡ₚ L /\
    bins s' = bins s /\ ldr s' = ldr s /\ crt s' = crt s /\ start_func s' = start_func s.
Proof.
  intros Hok Hl. pose proof (live_block _ _ _ _ Hok Hl) as Ha.
  destruct (eo_range s Hok a n Ha) as (? & ? & ?).
  unfold platform_free. replace (a =? 0) with false by lia. rewrite Ha. eexists. split; [done|].
  cbn [bins ldr crt start_func live]. split_and!; try done.
  - split; cbn [plat live bytes].
    + eapply p_free_ok; [apply Hok|done].
    + rewrite cpus_free. apply Hok.
    + intros b m [_ Hb]%lookup_delete_Some. by apply (eo_range s Hok).
    + intros b m i [Hne Hb]%lookup_delete_Some Hi. destruct (eo_mapped s Hok b m i Hb Hi) as [v Hv]. exists v.
      apply lookup_difference_Some. split; [done|]. apply lookup_map_seqZ_None. rewrite length_replicate.
      destruct (eo_apart s Hok a n b m Ha Hb ltac:(done)); lia.
    + intros b m c m' [? Hb]%lookup_delete_Some [? Hc]%lookup_delete_Some. by apply (eo_apart s Hok).
  - apply (Permutation_cons_inv (a := (a, n))). rewrite <- Hl. by apply map_to_list_delete.
Qed.

(** ** Loading of the images *)

(** A binary without an image obtains one. *)
Lemma execs_insert s s' (k : nat) b a n : bins s !! k = Some b -> exec b = 0 ->
  (fun b => (exec b, exec_size b)) <$> bins s' = <[k := (a, n)]> ((fun b => (exec b, exec_size b)) <$> bins s) ->
  execs s' ≡ₚ block a n ++ execs s.
Proof.
  unfold execs. intros Hb He. assert (forall l, flat_map (fun b => block (exec b) (exec_size b)) l =
    flat_map (fun x => block x.1 x.2) ((fun b => (exec b, exec_size b)) <$> l)) as Hf.
  { induction l as [|x l IH]; [done|]. simpl. by rewrite IH. }
  rewrite !Hf. intros ->. assert (((fun b => (exec b, exec_size b)) <$> bins s) !! k = Some (0, exec_size b)) as Hk.
  { rewrite list_lookup_fmap, Hb. simpl. by rewrite He. }
  revert Hk. generalize ((fun b => (exec b, exec_size b)) <$> bins s). intros l Hk. clear -Hk.
  revert k Hk. induction l as [|x l IH]; intros [|k] Hk; simpl in *; try done.
  - by injection Hk as ->.
  - rewrite (IH _ Hk). rewrite !app_assoc. by rewrite (Permutation_app_comm (block x.1 x.2)).
Qed.

(** Binaries from [k] on have no image. *)
Definition no_image (k : nat) s : Prop := forall i b, (k <= i)%nat -> bins s !! i = Some b -> exec b = 0.

Lemma no_image_frame k s s' : frame s s' -> no_image k s -> no_image k s'.
Proof.
  intros Hf Hn i b Hi Hb. assert (shape <$> bins s !! i = Some (shape b)) as E.
  { by rewrite <- list_lookup_fmap, <- (fr_bins _ _ Hf), list_lookup_fmap, Hb. }
  destruct (bins s !! i) as [b'|] eqn:E'; [|done]. injection E as E _. rewrite <- E. by eapply Hn.
Qed.

Lemma frame_length s s' : frame s s' -> length (bins s') = length (bins s).
Proof. intros Hf. rewrite <- (length_fmap shape), (fr_bins _ _ Hf). apply length_fmap. Qed.

Lemma wp_framed {B} L (m : M (env P) B) (Q : B -> env P -> Prop) s : Framed m -> env_inv L s ->
  (forall b s', frame s s' -> env_inv L s' -> Q b s') -> wp m Q (fun e _ => fault e) s.
Proof.
  intros Hm Hi HQ. unfold wp. pose proof (env_inv_framed L m s Hm Hi) as Hf.
  destruct (m s) as [b s'|]; [|done]. destruct Hf. by apply HQ.
Qed.

(** The image a binary obtains: its size, the block, its pointer. *)
Lemma attach_image {B} L k s b sz (K : Z -> M (env P) B) Q E : env_inv L s -> bins s !! k = Some b -> exec b = 0 ->
  (forall a s', env_inv L s' ->
     bins s' = <[k := Binary a (bin_file b) sz (file_size b) (ef b)]> (bins s) -> wp (K a) Q E s') ->
  wp (set_bin k (fun b => Binary (exec b) (bin_file b) sz (file_size b) (ef b)) ;;;
      a <- platform_alloc sz ;;
      set_bin k (fun b => Binary a (bin_file b) (exec_size b) (file_size b) (ef b)) ;;; K a) Q E s.
Proof.
  intros [Hok Hl] Hb He HK. unfold wp. pose proof (lookup_lt_Some _ _ _ Hb).
  erewrite bind_ok by by apply set_bin_ok.
  set (s1 := set_bins s _). assert (env_ok s1) as Hok1 by by destruct Hok.
  destruct (platform_alloc_ok sz s1 Hok1) as (a & s2 & E2 & Hok2 & Eb & _ & _ & _ & Hl2 & _).
  erewrite bind_ok by exact E2. erewrite bind_ok by (apply set_bin_ok; rewrite Eb; by apply list_lookup_insert_eq).
  cbn [exec bin_file exec_size file_size ef]. apply HK.
  - split; [by destruct Hok2|]. cbn [live set_bins]. rewrite Hl2. cbn [live set_bins s1]. rewrite Hl.
    rewrite Permutation_app_swap_app. apply Permutation_app_head. symmetry. eapply execs_insert; [done|done|].
    cbn [bins set_bins]. rewrite Eb. cbn [bins set_bins s1]. by rewrite list_insert_insert_eq, list_fmap_insert.
  - cbn [bins set_bins]. rewrite Eb. cbn [bins set_bins s1]. by rewrite list_insert_insert_eq.
Qed.

Lemma load_binary_ok L k s : env_inv L s -> no_image k s ->
  wp (private_load_binary k)
    (fun _ s' => env_inv L s' /\ no_image (S k) s' /\ length (bins s') = length (bins s))
    (fun e _ => fault e) s.
Proof.
  intros Hi Hn. unfold private_load_binary. apply wp_bind. eapply wp_framed; [apply _|done|].
  intros b0 s0 Hf0 Hi0. pose proof (no_image_frame _ _ _ Hf0 Hn) as Hn0.
  unfold or_return. apply wp_bind. eapply wp_framed; [frames|done|].
  intros r s1 Hf1 Hi1. pose proof (no_image_frame _ _ _ Hf1 Hn0) as Hn1.
  assert (length (bins s1) = length (bins s)) as Hlen by (erewrite frame_length by done; by apply frame_length).
  destruct (r =? 0); [|apply wp_ret; split_and!; [done| |done]; intros i b ?; apply Hn1; lia].
  apply wp_bind. unfold wp at 1, get_ef, get_bin, bind, ret. destruct (bins s1 !! k) as [b|] eqn:Eb; [|by left].
  eapply attach_image; [done|done|by apply (Hn1 k b)|].
  intros a s2 Hi2 Eb2. assert (no_image (S k) s2) as Hn2.
  { intros i b' Hik. rewrite Eb2, list_lookup_insert_ne by lia. apply Hn1. lia. }
  assert (length (bins s2) = length (bins s)) as Hlen2 by by rewrite Eb2, length_insert.
  destruct (a =? 0); [by apply wp_ret|].
  eapply (wp_framed L); [apply _|done|]. intros _ s3 Hf3 Hi3. split_and!; [done|by eapply no_image_frame|].
  by rewrite (frame_length _ _ Hf3).
Qed.

(** ** [bfelf_load] *)

Lemma bfelf_load_ok L n s : 0 <= n -> env_inv L s -> no_image 0 s ->
  wp (bfelf_load n)
    (fun _ s' => env_inv L s' /\ no_image (Z.to_nat n) s' /\ length (bins s') = length (bins s))
    (fun e _ => fault e) s.
Proof.
  intros Hn0 Hi Hn. assert (forall k s', no_image 0 s' -> no_image k s') as Hno by (intros k s' H' ? ? ?; apply H'; lia).
  unfold bfelf_load. destruct (_ || _) eqn:E; [by apply wp_ret; auto|].
  apply orb_false_iff in E as [E1 E2]. unfold or_return at 1. apply wp_bind.
  apply (wp_until_error _ (fun l s' => env_inv L s' /\ length (bins s') = length (bins s) /\
    exists k, 0 <= k <= n /\ l = seqZ k (n - k) /\ no_image (Z.to_nat k) s')).
  - split_and!; try done. exists 0. split_and!; [lia|lia| |done]. f_equal. lia.
  - intros s1 (Hi1 & Hl1 & k & Hk & Hs & Hn1). apply (f_equal length) in Hs. rewrite length_seqZ in Hs. simpl in Hs.
    replace k with n in Hn1 by lia. eapply (wp_framed L); [frames|done|].
    intros r s2 Hf2 Hi2. split_and!; [done|by eapply no_image_frame|]. by rewrite (frame_length _ _ Hf2).
  - intros x l s1 (Hi1 & Hl1 & k & Hk & Hs & Hn1).
    assert (k < n) by (destruct (decide (k < n)); [done|]; rewrite seqZ_nil in Hs by lia; done).
    rewrite seqZ_cons in Hs by lia. injection Hs as -> ->.
    eapply wp_mono; [by apply (load_binary_ok L)| |done]. intros r s2 (Hi2 & Hn2 & Hl2). cbv beta.
    assert (Z.to_nat (Z.succ k) = S (Z.to_nat k)) as Ek by lia.
    destruct (r =? 0) eqn:Er.
    + split_and!; [done|congruence|]. exists (Z.succ k). rewrite Ek. split_and!; [lia|lia|f_equal; lia|done].
    + apply wp_ret. split_and!; [done| |congruence]. intros i b ?. apply Hn2. lia.
Qed.
End Mem.
