(* ===== verification/DriverProofs.v ===== *)
(** * The driver: its operations

    Every operation of [common.c] against the invariant of the driver's state:
    which buffers it holds in which phase, and what it calls in the hypervisor. *)
From S2P Require Import Prelude Elf ElfFrame Driver DriverMem.

(** Where [private_setup_stack] puts the top of a stack at [a]. *)
Definition stack_top (a : Z) : Z := sub64 (Z.land (add64 a 0x10000) (not64 (STACK_SIZE - 1))) 1.

Lemma stack_top_value a : 0 < a -> a + 0x10000 < 2 ^ 64 ->
  stack_top a = (a + 0x10000) / 0x8000 * 0x8000 - 1.
Proof.
  intros Ha Hr. unfold stack_top, add64, sub64. rewrite (w64_small (a + _)) by (unfold u64; lia).
  change (STACK_SIZE - 1) with (Z.ones 15). rewrite land_not64_ones by (unfold u64; lia). change (2 ^ 15) with 0x8000.
  apply w64_small. unfold u64. pose proof (Z.div_mod (a + 0x10000) 0x8000 ltac:(lia)).
  pose proof (Z.mod_pos_bound (a + 0x10000) 0x8000 ltac:(lia)). lia.
Qed.

Lemma stack_top_range a : 0 < a -> a + 0x10000 < 2 ^ 64 ->
  a + 0x8000 <= stack_top a < a + 0x10000.
Proof.
  intros Ha Hr. rewrite stack_top_value by done.
  pose proof (Z.div_mod (a + 0x10000) 0x8000 ltac:(lia)).
  pose proof (Z.mod_pos_bound (a + 0x10000) 0x8000 ltac:(lia)). lia.
Qed.

Lemma fmap_bind_one {A B} (f : A -> B) l : f <$> l = l ≫= (fun x => [f x]).
Proof. induction l as [|x l IH]; [done|]. cbn. by rewrite <- IH. Qed.

(** Tests of the status against its values. *)
Ltac status :=
  cbn [Z.eqb Pos.eqb VMM_UNLOADED VMM_LOADED VMM_RUNNING VMM_CORRUPT orb andb negb].

Section Driver.
Context {P : Type} `{KernelLaws P}.
Local Open Scope vmm_scope.
Context (ncpu : Z).
Implicit Types s : drv P.
Notation env_ok := (env_ok ncpu).
Notation env_inv := (env_inv ncpu).

(** ** Calls into the hypervisor *)

(** The globals of [common.c] that are not part of the loader's state. *)
Definition globs s := (g_num_modules s, g_num_cpus_started s, g_vmm_status s, g_tls s, g_stack s,
  g_tls_size s, g_stack_size s, g_stack_top s, g_rsdp s).

(** A call changes memory that is mapped, the crt info, the platform and the
    trace, and nothing else. *)
Record called s s' : Prop := {
  cd_globs : globs s' = globs s;
  cd_live : live (e_env s') = live (e_env s);
  cd_bins : bins (e_env s') = bins (e_env s);
  cd_start : start_func (e_env s') = start_func (e_env s);
  cd_ok : env_ok (e_env s) -> env_ok (e_env s');
}.

#[export] Instance called_refl : Reflexive called.
Proof. intros []. by split. Qed.
#[export] Instance called_trans : Transitive called.
Proof. intros s1 s2 s3 [] []. split; [congruence..|auto]. Qed.

Lemma elf_ok {B} (m : M (env P) B) s b e : m (e_env s) = Ok b e -> elf m s = Ok b (set_env s e).
Proof. intros E. unfold elf. by rewrite E. Qed.

(** The stack is there for the call. *)
Definition has_stack s : Prop :=
  live (e_env s) !! g_stack s = Some 0x10000 /\ g_stack_top s = stack_top (g_stack s).

Lemma env_ok_parts (e e' : env P) : env_ok e -> dom (bytes e') = dom (bytes e) -> live e' = live e ->
  p_ok (plat e') (live e) -> num_online_cpus (plat e') = ncpu -> env_ok e'.
Proof.
  intros [? ? ? Hm ?] Ed El Ep En. split; rewrite ?El; try done. intros a n i Ha Hi.
  specialize (Hm a n i Ha Hi). rewrite <- elem_of_dom in *. by rewrite Ed.
Qed.

(** A write into a live block. *)
Lemma wr64_live (e : env P) a n o v : env_ok e -> live e !! a = Some n -> 0 <= o -> o + 8 <= n ->
  exists m, wr64 (a + o) v e = Ok tt (set_bytes e m) /\ dom m = dom (bytes e).
Proof.
  intros Hok Ha Ho Hn. unfold wr64, wr. rewrite length_le_bytes.
  assert (forall i, 0 <= i < 8 -> is_Some (bytes e !! (a + o + i))) as Hm.
  { intros i Hi. replace (a + o + i) with (a + (o + i)) by lia. eapply (eo_mapped _ _ Hok); [done|lia]. }
  replace (mapped _ _ _) with true by (symmetry; apply mapped_true; exact Hm).
  eexists. split; [done|]. apply dom_write. by rewrite length_le_bytes.
Qed.

Lemma common_call_ok cpuid req a1 a2 s : env_ok (e_env s) -> has_stack s ->
  match common_call_vmm cpuid req a1 a2 s with
  | Ok r s' => called s s' /\ trace s' = Call cpuid req a1 a2 r :: trace s /\ start_func (e_env s) <> 0
  | Err e _ => e = segfault /\ start_func (e_env s) = 0
  end.
Proof.
  intros Hok [Hst Htop]. destruct (eo_range _ _ Hok _ _ Hst) as (? & _ & ?).
  pose proof (stack_top_range (g_stack s) ltac:(lia) ltac:(lia)) as Ht. rewrite <- Htop in Ht.
  unfold common_call_vmm. rewrite bind_get. cbv zeta.
  replace (sub64 (g_stack_top s) tc_size) with (g_stack s + (g_stack_top s - tc_size - g_stack s)).
  2: { unfold sub64, tc_size. rewrite w64_small by (unfold u64; lia). lia. }
  erewrite bind_ok by by apply elf_ok.
  set (e1 := set_crt _ _). assert (env_ok e1) as Hok1 by (by eapply env_ok_parts; [exact Hok|..]; try apply Hok).
  destruct (wr64_live e1 (g_stack s) 0x10000 (g_stack_top s - tc_size - g_stack s) cpuid) as (m2 & E2 & Ed2);
    [done|done|unfold tc_size; lia..|].
  erewrite bind_ok by by apply elf_ok. cbn [e_env set_env].
  set (e2' := set_bytes e1 m2) in *.
  assert (env_ok e2') as Hok2 by (by eapply env_ok_parts; [exact Hok1|..]; try apply Hok1).
  rewrite <- Z.add_assoc.
  destruct (wr64_live e2' (g_stack s) 0x10000 (g_stack_top s - tc_size - g_stack s + 8)
    (add64 (g_tls s) (mul64 THREAD_LOCAL_STORAGE_SIZE cpuid))) as (m3 & E3 & Ed3);
    [done|done|unfold tc_size; lia..|].
  erewrite bind_ok by (apply elf_ok; exact E3). unfold _start_func. cbn [e_env set_env start_func set_bytes e2' e1 set_crt].
  destruct (Z.eqb_spec (start_func (e_env s)) 0) as [E|E]; [done|].
  destruct (run_vmm _ _ _ _ _) as [r p] eqn:Er. split_and!; [|done|done].
  split; try done. intros _. eapply (env_ok_parts e2'); [done|done|done|..]; cbn [plat set_plat e_env set_env set_trace].
  - change p with (snd (r, p)). rewrite <- Er. apply run_ok, Hok.
  - change p with (snd (r, p)). rewrite <- Er, cpus_run. apply Hok.
Qed.

(** What a call returned, and what it left in the trace: a call that could not
    be scheduled leaves nothing. *)
Definition call_result cpuid req a1 a2 (r : Z) s s' : Prop :=
  called s s' /\
  (trace s' = trace s /\ r = BF_ERROR_UNKNOWN \/
   trace s' = Call cpuid req a1 a2 r :: trace s /\ start_func (e_env s) <> 0).

Lemma call_ok cpuid req a1 a2 s : env_ok (e_env s) -> has_stack s ->
  match platform_call_vmm_on_core cpuid req a1 a2 s with
  | Ok r s' => call_result cpuid req a1 a2 r s s'
  | Err e _ => e = segfault /\ start_func (e_env s) = 0
  end.
Proof.
  intros Hok Hst. unfold platform_call_vmm_on_core. rewrite bind_get.
  destruct (set_cpu_affinity cpuid (plat (e_env s))) as [ok p] eqn:E.
  pose proof (affinity_ok (plat (e_env s)) _ cpuid (eo_plat _ _ Hok)) as Hp.
  pose proof (cpus_affinity (plat (e_env s)) cpuid) as Hc. rewrite E in Hp, Hc. simpl in Hp, Hc.
  erewrite bind_ok by done. set (s1 := set_env s (set_plat (e_env s) p)).
  assert (called s s1) as Hs1.
  { split; try done. intros _. eapply (env_ok_parts (e_env s)); try done. cbn. rewrite Hc. apply Hok. }
  destruct ok.
  - pose proof (common_call_ok cpuid req a1 a2 s1 (cd_ok _ _ Hs1 Hok) Hst) as Hcall.
    destruct (common_call_vmm _ _ _ _ s1) as [r s'|e s']; [|done]. destruct Hcall as (? & ? & ?).
    split; [by etrans|by right].
  - split; [done|by left].
Qed.

(** ** [common_reset] *)

Definition globals s : list (Z * Z) := block (g_stack s) (g_stack_size s) ++ block (g_tls s) (g_tls_size s).

(** The buffers held by the driver, whatever its phase; [others] are blocks of
    the kernel side that the driver does not manage. *)
Record holds (others : list (Z * Z)) s : Prop := {
  ho_env : env_inv (others ++ globals s) (e_env s);
  ho_bins : length (bins (e_env s)) = Z.to_nat MAX_NUM_MODULES;
  ho_count : 0 <= g_num_modules s <= MAX_NUM_MODULES;
  ho_tail : no_image (Z.to_nat (g_num_modules s)) (e_env s);
}.

(** Nothing is loaded. *)
Record clean s : Prop := {
  cl_status : g_vmm_status s = VMM_UNLOADED;
  cl_stack : g_stack s = 0;
  cl_tls : g_tls s = 0;
  cl_images : no_image 0 (e_env s);
  cl_cpus : g_num_cpus_started s = 0;
}.

Definition images (l : list bfelf_binary_t) : list (Z * Z) :=
  flat_map (fun b => block (exec b) (exec_size b)) l.

Lemma images_none l : (forall i b, l !! i = Some b -> exec b = 0) -> images l = [].
Proof.
  induction l as [|b l IH]; intros Hl; [done|]. simpl. rewrite (Hl 0%nat b eq_refl). apply IH.
  intros i. apply (Hl (S i)).
Qed.

(** The loop that frees the images. *)
Lemma free_images_ok others s : holds others s ->
  wp (for_each (seqZ 0 (g_num_modules s)) (fun k =>
        b <- elf (get_bin (Z.to_nat k)) ;;
        if negb (exec b =? 0) then elf (platform_free (exec b) (exec_size b)) else ret tt))
     (fun _ s' => s' = set_env s (e_env s') /\ env_ok (e_env s') /\
        map_to_list (live (e_env s')) ≡ₚ others ++ globals s)
     (fun _ _ => False) s.
Proof.
  intros [[Hok Hl] Hb Hc Ht]. set (n := g_num_modules s) in *.
  eapply (wp_mono _ _ _ (fun _ _ => False)); [apply (wp_for_each _ (fun l s' => exists k, 0 <= k <= n /\ l = seqZ k (n - k) /\
     s' = set_env s (e_env s') /\ env_ok (e_env s') /\ bins (e_env s') = bins (e_env s) /\
     map_to_list (live (e_env s')) ≡ₚ (others ++ globals s) ++ images (drop (Z.to_nat k) (bins (e_env s)))))| |done].
  - exists 0. split_and!; try done; try lia; [f_equal; lia|by destruct s].
  - intros k l s' (k0 & Hk & Hs & E & Hok' & Eb & Hl').
    assert (k0 < n) by (destruct (decide (k0 < n)); [done|]; rewrite seqZ_nil in Hs by lia; done).
    rewrite seqZ_cons in Hs by lia. injection Hs as -> ->.
    destruct (lookup_lt_is_Some_2 (bins (e_env s)) (Z.to_nat k0)) as [b Eb0]; [rewrite Hb; lia|].
    rewrite (drop_S _ _ _ Eb0) in Hl'. simpl in Hl'.
    apply wp_bind. unfold wp at 1, elf at 1, get_bin. rewrite Eb, Eb0.
    replace (set_env s' (e_env s')) with s' by by destruct s'.
    assert (forall e, exists k, 0 <= k <= n /\ seqZ (Z.succ k0) (Z.pred (n - k0)) = seqZ k (n - k) /\
       set_env s' e = set_env s e /\ Z.to_nat k = S (Z.to_nat k0)) as Hnext.
    { intros e. exists (Z.succ k0). split_and!; try lia; [f_equal; lia|by rewrite E]. }
    destruct (Z.eqb_spec (exec b) 0) as [E0|E0]; cbn [negb].
    + apply wp_ret. destruct (Hnext (e_env s')) as (k & ? & ? & ? & Ek). exists k. rewrite E0 in Hl'. simpl in Hl'.
      rewrite Ek. split_and!; done || lia.
    + unfold block in Hl'. replace (exec b =? 0) with false in Hl' by lia.
      destruct (platform_free_ok ncpu (exec b) (exec_size b) (exec_size b)
        ((others ++ globals s) ++ images (drop (S (Z.to_nat k0)) (bins (e_env s)))) (e_env s')) as
        (e' & Ef & Hoke & Hle & Ebe & _); [done|rewrite Hl'; symmetry; apply Permutation_middle|].
      unfold wp, elf. rewrite Ef. destruct (Hnext e') as (k & ? & ? & ? & Ek). exists k.
      cbn [e_env set_env]. rewrite Ek. split_and!; done || lia || congruence.
  - intros _ s' (k & Hk & Hs & ? & ? & ? & Hl'). split_and!; [done|done|].
    apply (f_equal length) in Hs. rewrite length_seqZ in Hs. simpl in Hs. rewrite Hl', images_none, app_nil_r; [done|].
    intros i b. rewrite lookup_drop. apply Ht. lia.
Qed.

Lemma free_block_ok a n L s : env_ok (e_env s) -> map_to_list (live (e_env s)) ≡ₚ block a n ++ L ->
  exists e, (if negb (a =? 0) then elf (platform_free a n) else ret tt) s = Ok tt (set_env s e) /\
    env_ok e /\ map_to_list (live e) ≡ₚ L /\ bins e = bins (e_env s) /\ start_func e = start_func (e_env s).
Proof.
  intros Hok Hl. unfold block in Hl. destruct (Z.eqb_spec a 0) as [E|E]; cbn [negb].
  - exists (e_env s). split_and!; try done. by destruct s.
  - destruct (platform_free_ok ncpu a n n L (e_env s) Hok Hl) as (e & Ef & ? & ? & ? & _ & _ & ?).
    exists e. split_and!; try done. by apply elf_ok.
Qed.

Lemma zero_modules_no_image (e : env P) : bins e = zero_modules -> no_image 0 e.
Proof. intros E i b _. rewrite E. unfold zero_modules. by intros [-> _]%lookup_replicate_1. Qed.

Lemma reset_ok others s : holds others s ->
  exists s', common_reset s = Ok tt s' /\ holds others s' /\ clean s' /\ g_num_modules s' = 0 /\
    map_to_list (live (e_env s')) ≡ₚ others /\ trace s' = trace s /\
    bins (e_env s') = zero_modules /\ start_func (e_env s') = 0.
Proof.
  intros Hh. pose proof (free_images_ok others s Hh) as Hw. unfold wp in Hw.
  unfold common_reset. rewrite bind_get.
  destruct (for_each _ _ s) as [[] s1|] eqn:E1; [|done]. destruct Hw as (Es1 & Hok1 & Hl1).
  erewrite bind_ok by exact E1. erewrite bind_ok by by apply elf_ok. erewrite bind_ok by done.
  set (e2 := set_start _ _). set (s2 := set_status _ _).
  assert (env_ok (e_env s2)) as Hok2 by (by eapply (env_ok_parts (e_env s1)); [exact Hok1|..]; try apply Hok1).
  destruct (free_block_ok (g_tls s) (g_tls_size s) (others ++ block (g_stack s) (g_stack_size s)) s2 Hok2)
    as (e3 & E3 & Hok3 & Hl3 & Eb3 & Es3).
  { change (live (e_env s2)) with (live (e_env s1)). rewrite Hl1. unfold globals.
    rewrite app_assoc. apply Permutation_app_comm. }
  erewrite bind_ok by exact E3.
  destruct (free_block_ok (g_stack s) (g_stack_size s) others (set_env s2 e3) Hok3) as (e4 & E4 & Hok4 & Hl4 & Eb4 & Es4).
  { cbn [e_env set_env]. rewrite Hl3. apply Permutation_app_comm. }
  erewrite bind_ok by exact E4. cbn [e_env set_env] in *.
  assert (bins e4 = zero_modules) as Ez by (rewrite Eb4, Eb3; done).
  pose proof (zero_modules_no_image e4 Ez) as Hz.
  eexists. split; [done|]. cbn. split_and!; try done.
  - split; cbn; [|by rewrite Ez|unfold MAX_NUM_MODULES; lia|intros i b _; apply Hz; lia]. split; [done|].
    cbn. unfold execs. fold (images (bins e4)). rewrite images_none by (intros i b; apply Hz; lia).
    by rewrite !app_nil_r.
  - by rewrite Es1.
  - rewrite Es4, Es3. done.
Qed.

(** ** Phases *)

(** The hypervisor is in memory and can be called. *)
Record ready s : Prop := {
  rd_stack : g_stack s <> 0;
  rd_size : g_stack_size s = 0x10000;
  rd_top : g_stack_top s = stack_top (g_stack s);
  rd_start : start_func (e_env s) <> 0;
  rd_tls : g_tls s <> 0;
  rd_tls_size : g_tls_size s = 0x1000 * ncpu;
}.

Definition phase s : Prop :=
  clean s \/
  ready s /\ (g_vmm_status s = VMM_LOADED /\ g_num_cpus_started s = 0 \/
              g_vmm_status s = VMM_RUNNING /\ g_num_cpus_started s = ncpu \/
              g_vmm_status s = VMM_CORRUPT /\ 0 <= g_num_cpus_started s <= ncpu).

Definition drv_inv (others : list (Z * Z)) s : Prop := holds others s /\ phase s.

Lemma holds_called others s s' : called s s' -> holds others s -> holds others s'.
Proof.
  intros [E El Eb _ Hok] [[Ho Hl] Hb Hc Ht]. unfold globs in E. simplify_eq. split.
  - split; [by apply Hok|]. unfold execs. rewrite El, Eb, Hl. by replace (globals s') with (globals s) by (unfold globals; congruence).
  - congruence.
  - congruence.
  - intros i b. rewrite Eb. replace (g_num_modules s') with (g_num_modules s) by congruence. apply Ht.
Qed.

Lemma ready_called s s' : called s s' -> ready s -> ready s'.
Proof. intros [E _ _ Es _] []. unfold globs in E. simplify_eq. split; congruence. Qed.

Lemma held_stack others s : holds others s -> g_stack s <> 0 -> g_stack_size s = 0x10000 ->
  live (e_env s) !! g_stack s = Some 0x10000.
Proof.
  intros [[_ Hl] _ _ _] Hn Hz. apply elem_of_map_to_list. rewrite Hl. unfold globals, block.
  replace (g_stack s =? 0) with false by lia. rewrite Hz. rewrite !elem_of_app. left. right. left. by left.
Qed.

Lemma held_tls others s : holds others s -> g_tls s <> 0 -> live (e_env s) !! g_tls s = Some (g_tls_size s).
Proof.
  intros [[_ Hl] _ _ _] Hn. apply elem_of_map_to_list. rewrite Hl. unfold globals, block.
  replace (g_tls s =? 0) with false by lia. rewrite !elem_of_app. left. right. right. by left.
Qed.

Lemma ready_has_stack others s : holds others s -> ready s -> has_stack s.
Proof. intros Hh []. split; [|done]. by eapply held_stack. Qed.

(** A call while the hypervisor is ready always returns. *)
Lemma ready_call others cpuid req a1 a2 s : holds others s -> ready s ->
  exists r s', platform_call_vmm_on_core cpuid req a1 a2 s = Ok r s' /\ holds others s' /\ ready s' /\
    call_result cpuid req a1 a2 r s s'.
Proof.
  intros Hh Hr. pose proof (call_ok cpuid req a1 a2 s (ei_ok _ _ _ (ho_env _ _ Hh)) (ready_has_stack _ _ Hh Hr)) as Hc.
  destruct (platform_call_vmm_on_core _ _ _ _ _) as [r s'|e s'].
  - exists r, s'. split_and!; try done; [by eapply holds_called; [apply Hc|]|by eapply ready_called; [apply Hc|]].
  - destruct Hc as [_ Hc]. by destruct (rd_start s Hr).
Qed.

Lemma holds_status others s st : holds others s -> holds others (set_status s st).
Proof. by intros []. Qed.
Lemma holds_cpus others s n : holds others s -> holds others (set_cpus_started s n).
Proof. by intros []. Qed.
Lemma ready_status s st : ready s -> ready (set_status s st).
Proof. by intros []. Qed.
Lemma ready_cpus s n : ready s -> ready (set_cpus_started s n).
Proof. by intros []. Qed.

(** ** [common_unload_vmm] *)

Lemma unload_ok others s : drv_inv others s ->
  exists r s', common_unload_vmm s = Ok r s' /\ drv_inv others s' /\
    (g_vmm_status s = VMM_CORRUPT /\ r = BF_ERROR_VMM_CORRUPTED /\ s' = s \/
     g_vmm_status s = VMM_RUNNING /\ r = BF_ERROR_VMM_INVALID_STATE /\ s' = s \/
     (g_vmm_status s = VMM_UNLOADED \/ g_vmm_status s = VMM_LOADED) /\ r = BF_SUCCESS /\ clean s' /\
       g_num_modules s' = 0 /\ map_to_list (live (e_env s')) ≡ₚ others \/
     g_vmm_status s = VMM_LOADED /\ r <> BF_SUCCESS /\ g_vmm_status s' = VMM_CORRUPT).
Proof.
  intros [Hh Hp]. unfold common_unload_vmm. rewrite bind_get. cbv zeta. unfold common_vmm_status.
  assert (forall s1, holds others s1 -> exists s', (common_reset ;;; modify (fun s => set_status s VMM_UNLOADED) ;;;
    ret BF_SUCCESS) s1 = Ok BF_SUCCESS s' /\ drv_inv others s' /\ clean s' /\ g_num_modules s' = 0 /\
    map_to_list (live (e_env s')) ≡ₚ others) as Hreset.
  { intros s1 H1'. destruct (reset_ok others s1 H1') as (s2 & E2 & Hh2 & Hc2 & ? & ? & _).
    erewrite bind_ok by exact E2. eexists. split; [done|].
    assert (clean (set_status s2 VMM_UNLOADED)) by by destruct Hc2.
    split_and!; try done. split; [by apply holds_status|by left]. }
  destruct Hp as [Hc|[Hr [[Est Hn]|[[Est Hn]|[Est Hn]]]]].
  - rewrite (cl_status s Hc). status. erewrite bind_ok by done. cbn [Z.eqb BF_SUCCESS].
    destruct (Hreset s Hh) as (s' & E & ? & ? & ? & ?). exists BF_SUCCESS, s'. split; [exact E|]. split; [done|].
    right. right. left. auto.
  - rewrite Est. status.
    destruct (ready_call others 0 BF_REQUEST_FINI (Int 0) 0 s Hh Hr) as (r & s1 & E1 & Hh1 & Hr1 & [Hc1 _]).
    erewrite bind_ok by exact E1. destruct (Z.eqb_spec r BF_SUCCESS) as [->|Hnz].
    + destruct (Hreset s1 Hh1) as (s' & E & ? & ? & ? & ?). exists BF_SUCCESS, s'. split; [exact E|]. split; [done|].
      right. right. left. auto.
    + eexists _, _. split; [done|]. split; [|by do 3 right].
      split; [by apply holds_status|]. right. split; [by apply ready_status|]. do 2 right. split; [done|].
      pose proof (cd_globs _ _ Hc1) as Eg. unfold globs in Eg. cbn. replace (g_num_cpus_started s1) with 0 by congruence. pose proof (cpus_range (plat (e_env s))).
      rewrite (eo_cpus _ _ (ei_ok _ _ _ (ho_env _ _ Hh))) in *. lia.
  - rewrite Est. status. eexists _, _. split; [done|]. split; [|by right; left]. split; [done|]. right. auto 7.
  - rewrite Est. status. eexists _, _. split; [done|]. split; [|by left]. split; [done|]. right. auto 7.
Qed.

(** ** Starting and stopping the CPUs *)

Definition init_call (cpuid r : Z) : call := Call cpuid BF_REQUEST_VMM_INIT (Int cpuid) 0 r.
Definition fini_call (cpuid r : Z) : call := Call cpuid BF_REQUEST_VMM_FINI (Int cpuid) 0 r.

(** A failed request is in the trace unless it could not be scheduled. *)
Definition attempt (c : call) (l : list call) : Prop := l = [c] \/ l = [] /\ c_ret c = BF_ERROR_UNKNOWN.

(** Everything but the number of CPUs that run. *)
Definition same_phase s s' : Prop :=
  g_vmm_status s' = g_vmm_status s /\ g_num_modules s' = g_num_modules s.

Lemma call_phase cpuid req a1 a2 r s s' : call_result cpuid req a1 a2 r s s' ->
  same_phase s s' /\ g_num_cpus_started s' = g_num_cpus_started s /\
  (r <> 0 -> exists l, attempt (Call cpuid req a1 a2 r) l /\ trace s' = l ++ trace s) /\
  (r = 0 -> trace s' = Call cpuid req a1 a2 0 :: trace s).
Proof.
  intros [[E _ _ _ _] Ht]. unfold globs in E. unfold same_phase. split_and!; try congruence.
  - intros _. destruct Ht as [[-> ->]|[-> _]]; [exists []; split; [by right|done]|].
    eexists [_]. split; [by left|done].
  - intros ->. by destruct Ht as [[_ [=]]|[-> _]].
Qed.

Lemma stop_loop_ok others (n : nat) s : holds others s -> ready s -> g_num_cpus_started s = Z.of_nat n ->
  exists r s' k, until_error (reverse (seqZ 0 (Z.of_nat n))) (fun cpuid =>
      platform_call_vmm_on_core cpuid BF_REQUEST_VMM_FINI (Int cpuid) 0 !;;
      (modify (fun s => set_cpus_started s (g_num_cpus_started s - 1)) ;;; ret BF_SUCCESS)) s = Ok r s' /\
    holds others s' /\ ready s' /\ same_phase s s' /\
    0 <= k <= Z.of_nat n /\ g_num_cpus_started s' = k /\
    (r = 0 -> k = 0 /\ trace s' = ((fun c => fini_call c 0) <$> seqZ 0 (Z.of_nat n)) ++ trace s) /\
    (r <> 0 -> 0 < k /\ exists l, attempt (fini_call (k - 1) r) l /\
       trace s' = l ++ ((fun c => fini_call c 0) <$> seqZ k (Z.of_nat n - k)) ++ trace s).
Proof.
  revert s. induction n as [|n IH]; intros s Hh Hr Hn.
  { exists 0, s, 0. split_and!; done. }
  replace (seqZ 0 (Z.of_nat (S n))) with (seqZ 0 (Z.of_nat n) ++ [Z.of_nat n]).
  2: { by rewrite seqZ_S. }
  rewrite reverse_snoc. cbn [until_error]. unfold or_return.
  destruct (ready_call others (Z.of_nat n) BF_REQUEST_VMM_FINI (Int (Z.of_nat n)) 0 s Hh Hr)
    as (r & s1 & E1 & Hh1 & Hr1 & Hc1).
  destruct (call_phase _ _ _ _ _ _ _ Hc1) as (Hp1 & Hn1 & Hf1 & Ht1).
  rewrite bind_assoc. erewrite bind_ok by exact E1. destruct (Z.eqb_spec r 0) as [->|Hne].
  - erewrite bind_ok by done. cbn [Z.eqb].
    destruct (IH (set_cpus_started s1 (g_num_cpus_started s1 - 1))) as (r' & s' & k & E' & ? & ? & Hp' & ? & ? & Hz & Hnz).
    { by apply holds_cpus. } { by apply ready_cpus. } { cbn. lia. }
    exists r', s', k. split; [exact E'|]. cbn [trace set_cpus_started g_vmm_status g_num_modules] in *.
    split_and!; try done; try lia.
    + unfold same_phase in *. cbn in Hp'. destruct Hp', Hp1. split; congruence.
    + intros ->. destruct (Hz eq_refl) as [-> ->]. split; [done|]. rewrite Ht1 by done.
      by rewrite fmap_app, <- app_assoc.
    + intros Hne. destruct (Hnz Hne) as (? & l & ? & ->). split; [done|]. exists l. split; [done|]. f_equal.
      rewrite Ht1 by done. replace (Z.of_nat (S n) - k) with (Z.of_nat n - k + 1) by lia.
      rewrite seqZ_app, fmap_app, <- app_assoc by lia. simpl. by replace (k + (Z.of_nat n - k)) with (Z.of_nat n) by lia.
  - erewrite bind_ok by done. replace (r =? 0) with false by lia.
    exists r, s1, (Z.of_nat (S n)). split; [done|]. split_and!; try done; try lia. intros _. split; [lia|].
    destruct (Hf1 Hne) as (l & ? & ->). exists l. replace (Z.of_nat (S n) - 1) with (Z.of_nat n) by lia.
    split; [done|]. by rewrite Z.sub_diag.
Qed.

Lemma stop_ok others n s : holds others s -> ready s -> g_num_cpus_started s = n -> 0 <= n <= ncpu ->
  g_vmm_status s = VMM_LOADED \/ g_vmm_status s = VMM_RUNNING ->
  exists r s', common_stop_vmm s = Ok r s' /\ drv_inv others s' /\ g_num_modules s' = g_num_modules s /\
    (r = 0 /\ g_vmm_status s' = VMM_LOADED /\
       trace s' = ((fun c => fini_call c 0) <$> seqZ 0 n) ++ trace s \/
     r <> 0 /\ g_vmm_status s' = VMM_CORRUPT /\ exists k l, 0 < k <= n /\ attempt (fini_call (k - 1) r) l /\
       g_num_cpus_started s' = k /\
       trace s' = l ++ ((fun c => fini_call c 0) <$> seqZ k (n - k)) ++ trace s).
Proof.
  intros Hh Hr En Hn Hst. unfold common_stop_vmm. rewrite bind_get. unfold common_vmm_status. cbv zeta.
  assert ((g_vmm_status s =? VMM_CORRUPT) = false /\ (g_vmm_status s =? VMM_UNLOADED) = false) as [-> ->].
  { by destruct Hst as [-> | ->]. }
  destruct (stop_loop_ok others (Z.to_nat n) s Hh Hr) as (r & s1 & k & E & Hh1 & Hr1 & [? Hm] & Hk & En1 & Hz & Hnz).
  { lia. } rewrite !Z2Nat.id in * by lia.
  unfold stop_loop. rewrite bind_assoc, bind_get, En. erewrite bind_ok by exact E.
  destruct (Z.eqb_spec r BF_SUCCESS) as [->|Hne].
  - destruct (Hz eq_refl) as [-> Ht]. eexists _, _. split; [done|]. split_and!; [|done|by left].
    split; [by apply holds_status|]. right. split; [by apply ready_status|]. by left.
  - destruct (Hnz Hne) as (? & l & ? & Ht). eexists _, _. split; [done|]. split_and!; [|done|].
    + split; [by apply holds_status|]. right. split; [by apply ready_status|]. right. right. split; [done|]. cbn. lia.
    + right. split_and!; [done|done|]. exists k, l. split_and!; done || lia.
Qed.

Lemma num_cpus others s : holds others s -> platform_num_cpus s = ncpu /\ 0 <= ncpu <= NR_CPUS.
Proof.
  intros Hh. unfold platform_num_cpus. rewrite (eo_cpus _ _ (ei_ok _ _ _ (ho_env _ _ Hh))).
  pose proof (cpus_range (plat (e_env s))) as Hc. rewrite (eo_cpus _ _ (ei_ok _ _ _ (ho_env _ _ Hh))) in Hc.
  by replace (ncpu <? 0) with false by lia.
Qed.

Lemma start_loop_ok others fuel c s : holds others s -> ready s -> g_num_cpus_started s = c ->
  0 <= c <= ncpu -> ncpu - c <= Z.of_nat fuel ->
  exists r s' k, start_loop fuel c s = Ok r s' /\ holds others s' /\ ready s' /\ same_phase s s' /\
    c <= k <= ncpu /\ g_num_cpus_started s' = k /\
    (r = 0 -> k = ncpu /\ trace s' = reverse ((fun c => init_call c 0) <$> seqZ c (ncpu - c)) ++ trace s) /\
    (r <> 0 -> k < ncpu /\ exists l, attempt (init_call k r) l /\
       trace s' = l ++ reverse ((fun c => init_call c 0) <$> seqZ c (k - c)) ++ trace s).
Proof.
  revert c s. induction fuel as [|fuel IH]; intros c s Hh Hr En Hc Hf;
    destruct (num_cpus others s Hh) as [Hnc _]; cbn [start_loop]; rewrite bind_get, Hnc;
    destruct (Z.ltb_spec c ncpu) as [Hlt|Hge]; try lia.
  1,3: exists 0, s, c; replace (ncpu - c) with 0 by lia; split_and!; try done; try lia; split; [lia|done].
  destruct (ready_call others c BF_REQUEST_VMM_INIT (Int c) 0 s Hh Hr) as (r & s1 & E1 & Hh1 & Hr1 & Hc1).
  destruct (call_phase _ _ _ _ _ _ _ Hc1) as (Hp1 & Hn1 & Hf1 & Ht1).
  unfold or_return. erewrite bind_ok by exact E1. destruct (Z.eqb_spec r 0) as [->|Hne].
  - erewrite bind_ok by done.
    destruct (IH (c + 1) (set_cpus_started s1 (g_num_cpus_started s1 + 1))) as (r' & s' & k & E' & ? & ? & Hp' & ? & ? & Hz & Hnz).
    { by apply holds_cpus. } { by apply ready_cpus. } { cbn. lia. } { lia. } { lia. }
    exists r', s', k. split; [exact E'|]. cbn [trace set_cpus_started g_vmm_status g_num_modules] in *.
    split_and!; try done; try lia.
    + unfold same_phase in *. cbn in Hp'. destruct Hp', Hp1. split; congruence.
    + intros ->. destruct (Hz eq_refl) as [-> ->]. split; [done|]. rewrite Ht1 by done.
      rewrite (seqZ_cons c) by lia. rewrite fmap_cons, reverse_cons, <- app_assoc.
      by replace (Z.pred (ncpu - c)) with (ncpu - (c + 1)) by lia.
    + intros Hne. destruct (Hnz Hne) as (? & l & ? & ->). split; [done|]. exists l. split; [done|]. f_equal.
      rewrite Ht1 by done. rewrite (seqZ_cons c) by lia. rewrite fmap_cons, reverse_cons, <- app_assoc.
      by replace (Z.pred (k - c)) with (k - (c + 1)) by lia.
  - exists r, s1, c. split; [done|]. split_and!; try done; try lia. intros _. split; [lia|].
    destruct (Hf1 Hne) as (l & ? & ->). exists l. split; [done|]. by rewrite Z.sub_diag.
Qed.

(** ** Loading *)

Lemma wp_elf {B} (m : M (env P) B) Q E s :
  wp m (fun b e => Q b (set_env s e)) (fun x e => E x (set_env s e)) (e_env s) -> wp (elf m) Q E s.
Proof. unfold wp, elf. by destruct (m (e_env s)). Qed.

(** While [common_load_vmm] runs. *)
Record loading others s : Prop := {
  lo_holds : holds others s;
  lo_status : g_vmm_status s = VMM_UNLOADED;
  lo_cpus : g_num_cpus_started s = 0;
}.

Lemma loading_called others s s' : called s s' -> loading others s -> loading others s'.
Proof.
  intros Hc []. pose proof (cd_globs _ _ Hc) as E. unfold globs in E.
  split; [by eapply holds_called|congruence..].
Qed.

(** The stack and the thread-local storage are set up. *)
Definition stacked s : Prop :=
  g_stack s <> 0 /\ g_stack_size s = 0x10000 /\ g_stack_top s = stack_top (g_stack s).
Definition stored s : Prop := g_tls s <> 0 /\ g_tls_size s = 0x1000 * ncpu.

Lemma stacked_called s s' : called s s' -> stacked s -> stacked s'.
Proof. intros [E _ _ _ _]. unfold globs in E. unfold stacked. simplify_eq. intuition congruence. Qed.
Lemma stored_called s s' : called s s' -> stored s -> stored s'.
Proof. intros [E _ _ _ _]. unfold globs in E. unfold stored. simplify_eq. intuition congruence. Qed.

(** Framed code of the loader, run by the driver. *)
Lemma framed_loading others {B} (m : M (env P) B) (Q : B -> drv P -> Prop) s : Framed m -> loading others s ->
  (forall b e, frame (e_env s) e -> loading others (set_env s e) -> Q b (set_env s e)) ->
  wp (elf m) Q (fun x _ => fault x) s.
Proof.
  intros Hm [[He Hb Hc Ht] Hs Hn] HQ. apply wp_elf. eapply wp_framed; [done|done|]. intros b e Hf Hi. apply HQ; [done|].
  split; [|done|done]. split; [done| |done|by eapply no_image_frame].
  cbn. by rewrite (frame_length _ _ Hf).
Qed.

Lemma setup_stack_ok others s : loading others s -> g_stack s = 0 -> no_image 0 (e_env s) ->
  wp private_setup_stack (fun r s' => loading others s' /\ no_image 0 (e_env s') /\
       g_tls s' = g_tls s /\ g_num_modules s' = g_num_modules s /\ trace s' = trace s /\ (r = 0 -> stacked s'))
     (fun x _ => fault x) s.
Proof.
  intros [[He Hb Hc Ht] Hs Hn] Hst Him. unfold private_setup_stack. apply wp_modify, wp_get.
  cbn [g_stack_size set_stack_size]. change (mul64 STACK_SIZE 2) with 0x10000.
  destruct (platform_alloc_ok ncpu 0x10000 (e_env s)) as (a & e & E & Hok & Eb & _ & _ & _ & Hl & _); [apply He|].
  eapply wp_step; [by apply elf_ok|]. apply wp_modify.
  assert (env_inv (others ++ block a 0x10000 ++ block (g_tls s) (g_tls_size s)) e) as Hi.
  { split; [done|]. rewrite Hl, (ei_live _ _ _ He). unfold globals, execs. rewrite Hst, Eb.
    change (block 0 (g_stack_size s)) with (@nil (Z * Z)). rewrite app_nil_l, <- !app_assoc.
    apply Permutation_app_swap_app. }
  assert (no_image 0 e) as Him' by by (unfold no_image; rewrite Eb).
  assert (forall k, no_image k e) as Him'' by (intros k i b _; apply Him'; lia).
  destruct (Z.eqb_spec a 0) as [->|Hne].
  - apply wp_ret. split_and!; try done. split; try done. split; try done. by cbn; rewrite Eb.
  - apply wp_modify, wp_modify, wp_get. apply wp_bind.
    match goal with |- wp _ _ _ ?x => set (s1 := x) end.
    assert (loading others s1) as Hlo by (split; try done; split; try done; by cbn; rewrite Eb).
    eapply (framed_loading others); [apply _|done|]. intros [] e' Hf Hlo'. apply wp_ret. split_and!; try done.
    by eapply no_image_frame.
Qed.

Lemma setup_tls_ok others s : loading others s -> g_tls s = 0 -> no_image 0 (e_env s) ->
  wp private_setup_tls (fun r s' => loading others s' /\ no_image 0 (e_env s') /\
       g_num_modules s' = g_num_modules s /\ trace s' = trace s /\ (stacked s -> stacked s') /\ (r = 0 -> stored s'))
     (fun x _ => fault x) s.
Proof.
  intros [Hh Hs Hn] Htl Him. destruct (num_cpus others s Hh) as [Enc Hnc]. destruct Hh as [He Hb Hc Ht].
  unfold private_setup_tls. apply wp_modify, wp_get. cbn [g_tls_size set_tls_size]. rewrite Enc.
  replace (mul64 THREAD_LOCAL_STORAGE_SIZE ncpu) with (0x1000 * ncpu).
  2: { unfold NR_CPUS in Hnc. symmetry. apply w64_small. unfold u64, THREAD_LOCAL_STORAGE_SIZE. lia. }
  destruct (platform_alloc_ok ncpu (0x1000 * ncpu) (e_env s)) as (a & e & E & Hok & Eb & _ & _ & _ & Hl & _); [apply He|].
  eapply wp_step; [by apply elf_ok|]. apply wp_modify.
  assert (env_inv (others ++ block (g_stack s) (g_stack_size s) ++ block a (0x1000 * ncpu)) e) as Hi.
  { split; [done|]. rewrite Hl, (ei_live _ _ _ He). unfold globals, execs. rewrite Htl, Eb.
    change (block 0 (g_tls_size s)) with (@nil (Z * Z)). rewrite app_nil_r.
    rewrite (app_assoc others (block _ _) (block a _)), <- (app_assoc (others ++ _)).
    apply Permutation_app_swap_app. }
  assert (no_image 0 e) as Him' by by (unfold no_image; rewrite Eb).
  assert (forall k, no_image k e) as Him'' by (intros k i b _; apply Him'; lia).
  destruct (Z.eqb_spec a 0) as [->|Hne].
  - apply wp_ret. split_and!; try done. split; try done. split; try done. by cbn; rewrite Eb.
  - apply wp_bind. match goal with |- wp _ _ _ ?x => set (s1 := x) end.
    assert (loading others s1) as Hlo by (split; try done; split; try done; by cbn; rewrite Eb).
    eapply (framed_loading others); [apply _|done|]. intros [] e' Hf Hlo'. apply wp_ret. split_and!; try done.
    by eapply no_image_frame.
Qed.

(** ** The requests of [common_load_vmm] *)

(** What the hypervisor is asked for while it is loaded, on CPU 0. *)
Inductive load_request := Ask_init | Ask_rsdp (rsdp : Z) | Ask_md (virt type : Z).

(** [c] made the request, and the hypervisor accepted it; the physical address of
    a page is the one that the kernel gave. *)
Definition answers (c : call) (q : load_request) : Prop :=
  match q with
  | Ask_init => c = Call 0 BF_REQUEST_INIT (Int 0) 0 BF_SUCCESS
  | Ask_rsdp rsdp => c = Call 0 BF_REQUEST_SET_RSDP (Int rsdp) 0 BF_SUCCESS
  | Ask_md virt type => exists p : P, c = Call 0 BF_REQUEST_ADD_MDL (Md virt (virt_to_phys_k p virt) type) 0 BF_SUCCESS
  end.

(** The pages from the one of [first] to the one of [last]. *)
Definition pages_of (first last : Z) : list Z :=
  (fun k => first / 0x1000 * 0x1000 + 0x1000 * k) <$> seqZ 0 (last / 0x1000 - first / 0x1000 + 1).

(** A segment at its place in the image [exec]: executable, or else writable. *)
Definition segment_requests (exec : Z) (i : bfelf_load_instr) : list load_request :=
  (fun v => Ask_md v (if Z.land (perm i) bfpf_x =? 0 then Z.lor MEMORY_TYPE_R MEMORY_TYPE_W else Z.lor MEMORY_TYPE_R MEMORY_TYPE_E)) <$>
    pages_of (add64 exec (mem_offset i)) (add64 (add64 exec (mem_offset i)) (memsz i)).

Definition module_requests (b : bfelf_binary_t) : list load_request :=
  k ← seqZ 0 (num_load_instr (ef b));
  match load_instr (ef b) !! Z.to_nat k with Some i => segment_requests (exec b) i | None => [] end.

Definition tls_requests s : list load_request :=
  (fun k => Ask_md (add64 (g_tls s) (0x1000 * k)) (Z.lor MEMORY_TYPE_R MEMORY_TYPE_W)) <$>
    seqZ 0 ((g_tls_size s + 0xFFF) / 0x1000).

Definition load_requests s : list load_request :=
  [Ask_init; Ask_rsdp (g_rsdp s)] ++
  (k ← seqZ 0 (g_num_modules s); match bins (e_env s) !! Z.to_nat k with Some b => module_requests b | None => [] end) ++
  tls_requests s.

Lemma load_requests_called s s' : called s s' -> load_requests s' = load_requests s.
Proof.
  intros [Eg _ Eb _ _]. unfold globs in Eg. unfold load_requests, tls_requests. rewrite Eb.
  replace (g_rsdp s') with (g_rsdp s) by congruence. replace (g_num_modules s') with (g_num_modules s) by congruence.
  replace (g_tls s') with (g_tls s) by congruence. by replace (g_tls_size s') with (g_tls_size s) by congruence.
Qed.

Lemma stacked_has_stack others s : loading others s -> stacked s -> has_stack s.
Proof. intros [Hh _ _] (? & ? & ?). split; [|done]. by eapply held_stack. Qed.

Section Requests.
Context (others : list (Z * Z)) (s0 : drv P) (Hl0 : loading others s0) (Hs0 : stacked s0).

(** Code that only calls the hypervisor: if it succeeds, with the requests [q]. *)
Definition asks (q : list load_request) (m : M (drv P) Z) : Prop := forall s, called s0 s ->
  wp m (fun r s' => called s0 s' /\ exists l, trace s' = rev l ++ trace s /\ (r = 0 -> Forall2 answers l q)) (fun x _ => fault x) s.

Lemma asks_or_return q1 q2 m k : asks q1 m -> asks q2 k -> asks (q1 ++ q2) (or_return m k).
Proof using.
  intros Hm Hk s Hc. unfold or_return. apply wp_bind. eapply wp_mono; [by apply Hm| |done].
  intros r s1 (Hc1 & l1 & E1 & H1'). cbv beta. destruct (Z.eqb_spec r 0) as [->|Hne].
  - eapply wp_mono; [by apply Hk| |done]. intros r s2 (Hc2 & l2 & E2 & H2'). split; [done|].
    exists (l1 ++ l2). rewrite rev_app_distr, <- app_assoc, <- E1. split; [done|]. auto using Forall2_app.
  - apply wp_ret. split; [done|]. by exists l1.
Qed.

Lemma asks_ret r : asks [] (ret r).
Proof using. intros s Hc. apply wp_ret. split; [done|]. by exists []. Qed.

Lemma asks_fault q x : fault x -> asks q (throw x).
Proof using. by intros Hx s _. Qed.

Lemma asks_until_error {A} (l : list A) f body : (forall x, asks (f x) (body x)) -> asks (l ≫= f) (until_error l body).
Proof using.
  intros Hb. induction l as [|x l IH]; [apply asks_ret|]. cbn [until_error mbind list_bind]. by apply asks_or_return.
Qed.

Lemma asks_call req a1 q : (answers (Call 0 req a1 0 BF_SUCCESS) q) -> asks [q] (platform_call_vmm_on_core 0 req a1 0).
Proof using Hl0 Hs0.
  intros Hq s Hc. pose proof (loading_called _ _ _ Hc Hl0) as Hl. pose proof (stacked_called _ _ Hc Hs0) as Hs.
  pose proof (call_ok 0 req a1 0 s (ei_ok _ _ _ (ho_env _ _ (lo_holds _ _ Hl))) (stacked_has_stack _ _ Hl Hs)) as Hcall.
  revert Hcall. unfold wp. destruct (platform_call_vmm_on_core _ _ _ _ _) as [r s'|]; [|by intros [-> _]; left].
  intros [Hc' Ht]. split; [exact (called_trans _ _ _ Hc Hc')|]. destruct Ht as [[-> ->]|[-> _]].
  - by exists [].
  - exists [Call 0 req a1 0 r]. split; [done|]. intros ->. by repeat constructor.
Qed.

Lemma asks_raw_md virt type : asks [Ask_md virt type] (private_add_raw_md_to_memory_manager virt type).
Proof using Hl0 Hs0.
  intros s Hc. unfold private_add_raw_md_to_memory_manager. apply wp_get.
  apply (asks_call BF_REQUEST_ADD_MDL (Md virt (platform_virt_to_phys virt s) type) (Ask_md virt type)); [|done].
  by exists (plat (e_env s)).
Qed.

Lemma md_loop_more n a b type : a <= b -> md_loop (S n) a b type =
  (private_add_raw_md_to_memory_manager a type !;; md_loop n (add64 a PAGE_SIZE) b type).
Proof using. intros Hab. cbn [md_loop]. by replace (a <=? b) with true by lia. Qed.

(** The loop over the pages of a segment, with as much fuel as it has pages. *)
Lemma asks_md_loop type n : forall a b, 0 <= a -> b < 2 ^ 64 -> a mod 0x1000 = 0 -> b = a + 0x1000 * Z.of_nat n ->
  asks ((fun k => Ask_md (a + 0x1000 * k) type) <$> seqZ 0 (Z.of_nat n + 1)) (md_loop (S n) a b type).
Proof using Hl0 Hs0.
  induction n as [|n IH]; intros a b Ha Hb Hm Eb; rewrite md_loop_more by lia; rewrite seqZ_cons by lia;
    cbn [fmap list_fmap]; rewrite Z.mul_0_r, Z.add_0_r; apply (asks_or_return [_]); try apply asks_raw_md.
  - rewrite seqZ_nil by lia. cbn [md_loop]. destruct (_ <=? _); [apply asks_fault; by right|apply asks_ret].
  - assert (add64 a PAGE_SIZE = a + 0x1000) as -> by (apply w64_small; unfold u64, PAGE_SIZE; lia).
    replace (_ <$> seqZ _ _) with ((fun k => Ask_md (a + 0x1000 + 0x1000 * k) type) <$> seqZ 0 (Z.of_nat n + 1)).
    { apply IH; try lia. rewrite <- Z.add_mod_idemp_l, Hm by lia. done. }
    replace (Z.pred _) with (Z.of_nat n + 1) by lia. change (Z.succ 0) with (1 + 0).
    rewrite <- fmap_add_seqZ, <- list_fmap_compose. apply list_fmap_ext. intros i k _. simpl. f_equal. lia.
Qed.

Lemma asks_segment exec i : asks (segment_requests exec i) (add_segment_md exec i).
Proof using Hl0 Hs0.
  unfold add_segment_md, segment_requests, pages_of. change (PAGE_SIZE - 1) with (Z.ones 12). change PAGE_SIZE with 0x1000.
  set (a := add64 exec (mem_offset i)). set (b := add64 a (memsz i)).
  assert (u64 a) as Ua by apply u64_w64. assert (u64 b) as Ub by apply u64_w64.
  rewrite !land_not64_ones by (done || lia). change (2 ^ 12) with 0x1000. unfold u64 in *.
  replace (b / 0x1000 * 0x1000 - a / 0x1000 * 0x1000) with ((b / 0x1000 - a / 0x1000) * 0x1000) by lia. rewrite Z.div_mul by lia.
  set (t := if negb _ then _ else _). replace (if _ =? 0 then _ else _) with t by (unfold t; by destruct (_ =? 0)).
  assert (0 <= a / 0x1000) by (apply Z.div_pos; lia). assert (b / 0x1000 * 0x1000 <= b) by (rewrite Z.mul_comm; apply Z.mul_div_le; lia).
  rewrite <- list_fmap_compose. destruct (Z.leb_spec (a / 0x1000) (b / 0x1000)) as [Hab|Hab].
  - replace (b / 0x1000 - a / 0x1000 + 1) with (Z.of_nat (Z.to_nat (b / 0x1000 - a / 0x1000)) + 1) by lia.
    apply (asks_md_loop t); [lia|lia|apply Z.mod_mul; lia|lia].
  - replace (seqZ 0 _) with (@nil Z) by (symmetry; apply seqZ_nil; lia). cbn [fmap list_fmap md_loop].
    replace (_ <=? _) with false by lia. apply asks_ret.
Qed.

Lemma asks_module i b : bins (e_env s0) !! i = Some b -> asks (module_requests b) (private_add_md_to_memory_manager i).
Proof using Hl0 Hs0.
  intros Eb s Hc. unfold private_add_md_to_memory_manager. apply wp_bind. unfold wp at 1, elf, get_bin.
  rewrite (cd_bins _ _ Hc), Eb. replace (set_env s (e_env s)) with s by by destruct s.
  apply asks_until_error; [|done]. intros k. unfold bfelf_file_get_load_instr.
  destruct (num_load_instr (ef b) <=? k); [apply asks_fault; by left|]. cbn [snd].
  destruct (load_instr (ef b) !! Z.to_nat k); [apply asks_segment|apply asks_fault; by left].
Qed.

Lemma asks_load : asks (load_requests s0)
  (platform_call_vmm_on_core 0 BF_REQUEST_INIT (Int 0) 0 !;;
   (s <- get ;; platform_call_vmm_on_core 0 BF_REQUEST_SET_RSDP (Int (g_rsdp s)) 0) !;;
   private_add_modules_mdl !;; private_add_tss_mdl).
Proof using Hl0 Hs0.
  unfold load_requests. cbn [app]. apply (asks_or_return [Ask_init]); [by apply asks_call|].
  apply (asks_or_return [Ask_rsdp (g_rsdp s0)]); [|apply asks_or_return].
  - intros s Hc. apply wp_get. apply asks_call; [|done]. pose proof (cd_globs _ _ Hc) as E. unfold globs in E. cbn. congruence.
  - intros s Hc. unfold private_add_modules_mdl. apply wp_get. pose proof (cd_globs _ _ Hc) as E. unfold globs in E.
    replace (g_num_modules s) with (g_num_modules s0) by congruence. apply asks_until_error; [|done]. intros k.
    destruct (bins (e_env s0) !! Z.to_nat k) as [b|] eqn:Eb; [by apply asks_module|].
    intros s1 Hc1. unfold private_add_md_to_memory_manager. apply wp_bind. unfold wp, elf, get_bin.
    rewrite (cd_bins _ _ Hc1), Eb. by left.
  - intros s Hc. unfold private_add_tss_mdl, tls_requests. apply wp_get. pose proof (cd_globs _ _ Hc) as E. unfold globs in E.
    replace (g_tls_size s) with (g_tls_size s0) by congruence. replace (g_tls s) with (g_tls s0) by congruence.
    change (g_tls_size s0 + PAGE_SIZE - 1) with (g_tls_size s0 + 0x1000 - 1). replace (g_tls_size s0 + 0x1000 - 1) with (g_tls_size s0 + 0xFFF) by lia.
    change PAGE_SIZE with 0x1000. rewrite fmap_bind_one. apply asks_until_error; [|done]. intros k. apply asks_raw_md.
Qed.
End Requests.

(** The calls that end [common_load_vmm]. *)
Lemma load_calls_ok others s : loading others s -> stacked s ->
  wp (platform_call_vmm_on_core 0 BF_REQUEST_INIT (Int 0) 0 !;;
      (s <- get ;; platform_call_vmm_on_core 0 BF_REQUEST_SET_RSDP (Int (g_rsdp s)) 0) !;;
      private_add_modules_mdl !;; private_add_tss_mdl)
     (fun r s' => called s s' /\ (r = 0 -> start_func (e_env s) <> 0) /\
        exists l, trace s' = rev l ++ trace s /\ (r = 0 -> Forall2 answers l (load_requests s'))) (fun x _ => fault x) s.
Proof.
  intros Hl Hs. pose proof (asks_load others s Hl Hs s (called_refl s)) as Ha.
  pose proof (call_ok 0 BF_REQUEST_INIT (Int 0) 0 s (ei_ok _ _ _ (ho_env _ _ (lo_holds _ _ Hl))) (stacked_has_stack _ _ Hl Hs)) as Hc.
  unfold wp in *. destruct (or_return _ _ s) as [r s'|] eqn:E; [|done]. destruct Ha as (Hc' & l & Et & Hq). split; [done|]. split.
  - intros ->. revert E. unfold or_return at 1, bind at 1. destruct (platform_call_vmm_on_core 0 BF_REQUEST_INIT (Int 0) 0 s) as [r s1|]; [|done].
    destruct Hc as [_ [[_ ->]|[_ ?]]]; [done|done].
  - exists l. split; [done|]. rewrite (load_requests_called _ _ Hc'). done.
Qed.

Lemma load_steps_ok others s : holds others s -> clean s ->
  wp load_steps (fun r s' => loading others s' /\ (r = 0 -> ready s' /\
    exists l, trace s' = rev l ++ trace s /\ Forall2 answers l (load_requests s'))) (fun x _ => fault x) s.
Proof.
  intros Hh [Hs Hst Htl Him Hn]. assert (loading others s) as Hl by done.
  unfold load_steps. unfold or_return at 1. apply wp_bind. eapply wp_mono; [by apply (setup_stack_ok others)| |done].
  intros r s1 (Hl1 & Him1 & Et1 & En1 & Tr1 & Hsk1). cbv beta. destruct (Z.eqb_spec r 0) as [->|?]; [|by apply wp_ret].
  specialize (Hsk1 eq_refl). unfold or_return at 1. apply wp_bind.
  eapply wp_mono; [apply (setup_tls_ok others); [done|congruence|done]| |done].
  intros r s2 (Hl2 & Him2 & En2 & Tr2 & Hsk2 & Hsd2). cbv beta. destruct (Z.eqb_spec r 0) as [->|?]; [|by apply wp_ret].
  specialize (Hsk2 Hsk1). specialize (Hsd2 eq_refl).
  unfold or_return at 1. apply wp_bind. unfold private_setup_rsdp. apply wp_modify, wp_ret. cbn [Z.eqb BF_SUCCESS].
  unfold or_return at 1. apply wp_bind, wp_get. set (s3 := set_rsdp s2 _).
  assert (loading others s3) as Hl3 by (destruct Hl2 as [[] ? ?]; done). cbn [g_num_modules set_rsdp s3].
  destruct (lo_holds _ _ Hl3) as [He3 Hb3 Hc3 Ht3].
  apply wp_elf. eapply wp_mono; [by eapply (bfelf_load_ok ncpu); [apply Hc3|exact He3|]| |done].
  intros r e4 (He4 & Him4 & Elen). cbv beta.
  assert (loading others (set_env s3 e4)) as Hl4.
  { split; [split; try done; cbn; congruence|exact (lo_status _ _ Hl3)|exact (lo_cpus _ _ Hl3)]. }
  destruct (Z.eqb_spec r 0) as [->|?]; [|by apply wp_ret].
  eapply wp_mono; [by apply (load_calls_ok others)| |done]. intros r s5 (Hc5 & Hz & l & Tr & Hq). split; [exact (loading_called _ _ _ Hc5 Hl4)|].
  intros ->. split.
  - eapply (ready_called (set_env s3 e4)); [done|]. destruct Hsk2 as (? & ? & ?), Hsd2. split; try done. by apply Hz.
  - exists l. split; [|by apply Hq]. rewrite Tr. cbn. congruence.
Qed.

Lemma load_ok others s : holds others s -> clean s -> g_num_modules s <> 0 ->
  match common_load_vmm s with
  | Ok r s' => drv_inv others s' /\
      (r = 0 /\ g_vmm_status s' = VMM_LOADED /\
         (exists l, trace s' = rev l ++ trace s /\ Forall2 answers l (load_requests s')) \/
       r <> 0 /\ clean s' /\ g_num_modules s' = 0 /\ map_to_list (live (e_env s')) ≡ₚ others)
  | Err x _ => fault x
  end.
Proof.
  intros Hh Hc Hm. unfold common_load_vmm. rewrite bind_get. unfold common_vmm_status. rewrite (cl_status s Hc).
  status. replace (g_num_modules s =? 0) with false by lia.
  pose proof (load_steps_ok others s Hh Hc) as Hw. unfold wp in Hw. unfold bind at 1.
  destruct (load_steps s) as [r s1|]; [|done]. destruct Hw as [[Hh1 Hs1 Hn1] Hr].
  destruct (Z.eqb_spec r BF_SUCCESS) as [->|Hne].
  - cbn. destruct (Hr eq_refl) as [Hr1 Hl]. split; [|by left]. split; [by apply holds_status|]. right. split; [by apply ready_status|]. by left.
  - unfold common_unload_vmm. rewrite bind_assoc, bind_get. unfold common_vmm_status. rewrite Hs1. status.
    rewrite bind_assoc. erewrite bind_ok by done. cbn [Z.eqb BF_SUCCESS]. rewrite bind_assoc.
    destruct (reset_ok others s1 Hh1) as (s2 & E2 & Hh2 & Hc2 & ? & ? & _). erewrite bind_ok by exact E2.
    cbn. assert (clean (set_status s2 VMM_UNLOADED)) by by destruct Hc2. split.
    + split; [by apply holds_status|by left].
    + right. split_and!; done.
Qed.
End Driver.
