(* ===== verification/ThreadContext.v ===== *)
(** * The thread context on the driver's stack

    The driver leaves the CPU's number and its thread-local storage at the top
    of the stack it enters the hypervisor on ([common_call_vmm]); the code of
    [bfruntime/src/pthread/threadcontext.asm] finds them from the stack pointer
    alone. *)
From S2P Require Import Prelude Elf ElfFrame Driver DriverMem DriverProofs.

(** [rsp & ~(0x8000 - 1)] plus [0x8000 - 1], less the offset of the field *)
Definition context_field (rsp off : Z) : Z :=
  sub64 (add64 (Z.land rsp (not64 (0x8000 - 1))) (0x8000 - 1)) off.

Definition _thread_context_tlsptr {P} (rsp : Z) : M (env P) Z := rd64 (context_field rsp 24).
Definition _thread_context_cpuid {P} (rsp : Z) : M (env P) Z := rd64 (context_field rsp 32).

(** ** The context of a call *)

Section Context_.
Context {P : Type} `{KernelLaws P}.
Local Open Scope vmm_scope.
Context (ncpu : Z) (others : list (Z * Z)).

(** Both fields of the context are where the stack pointer says, for every
    stack pointer in the 32 KB below the top. *)
Lemma context_field_top a rsp off : 0 < a -> a + 0x10000 < 2 ^ 64 ->
  stack_top a - 0x7FFF <= rsp <= stack_top a -> 0 <= off <= 32 ->
  context_field rsp off = stack_top a - off.
Proof.
  intros Ha Hr Hrsp Hoff. rewrite (stack_top_value a Ha Hr) in *.
  set (q := (a + 0x10000) / 0x8000) in *.
  assert (0 < q) by (apply Z.div_str_pos; lia).
  assert (q * 0x8000 <= a + 0x10000) by (pose proof (Z.mul_div_le (a + 0x10000) 0x8000 ltac:(lia)); lia).
  assert (u64 rsp) as Hu by (unfold u64; lia).
  unfold context_field. change (0x8000 - 1) with (Z.ones 15). rewrite land_not64_ones by (done || lia).
  change (2 ^ 15) with 0x8000. replace (rsp / 0x8000) with (q - 1) by (apply (Z.div_unique _ _ _ (rsp - (q - 1) * 0x8000)); lia).
  change (Z.ones 15) with 0x7FFF. unfold sub64, add64. rewrite (w64_small (_ + _)) by (unfold u64; lia).
  rewrite w64_small by (unfold u64; lia). lia.
Qed.

(** The memory after the driver has set up the context. *)
Lemma call_memory cpuid req a1 a2 (s : drv P) r s' : env_ok ncpu (e_env s) -> has_stack s ->
  common_call_vmm cpuid req a1 a2 s = Ok r s' ->
  bytes (e_env s') =
    map_seqZ (stack_top (g_stack s) - 24) (le_bytes 8 (add64 (g_tls s) (mul64 THREAD_LOCAL_STORAGE_SIZE cpuid))) ∪
    (map_seqZ (stack_top (g_stack s) - 32) (le_bytes 8 cpuid) ∪ bytes (e_env s)).
Proof.
  intros Hok [Hst Htop]. destruct (eo_range _ _ Hok _ _ Hst) as (? & _ & ?).
  pose proof (stack_top_range (g_stack s) ltac:(lia) ltac:(lia)) as Ht.
  unfold common_call_vmm. rewrite bind_get, Htop. cbv zeta.
  replace (sub64 (stack_top (g_stack s)) tc_size) with (stack_top (g_stack s) - 32).
  2: { unfold sub64, tc_size. rewrite w64_small by (unfold u64; lia). lia. }
  erewrite bind_ok by by apply elf_ok. unfold bind, elf, wr64, wr. cbn [e_env set_env bytes set_crt].
  destruct (mapped _ _ _); [|done]. cbn [e_env set_env bytes set_bytes]. destruct (mapped _ _ _); [|done].
  unfold _start_func. destruct (_ =? 0); [done|]. destruct (run_vmm _ _ _ _ _) as [r' p]. intros [= _ <-]. cbn.
  by replace (stack_top (g_stack s) - 32 + 8) with (stack_top (g_stack s) - 24) by lia.
Qed.

(** C22: In a call on CPU [cpuid], the hypervisor finds the CPU's number and the
    CPU's own page of thread-local storage from any stack pointer in the
    32 KB below the top of the stack the driver enters it on; that stack
    pointer and the page lie inside the blocks the driver holds, and the pages
    of two CPUs are disjoint. *)
Theorem call_thread_context cpuid req a1 a2 (s : drv P) r s' rsp :
  holds ncpu others s -> ready ncpu s -> 0 <= cpuid < ncpu ->
  common_call_vmm cpuid req a1 a2 s = Ok r s' ->
  stack_top (g_stack s) - 0x7FFF <= rsp <= stack_top (g_stack s) ->
  _thread_context_cpuid rsp (e_env s') = Ok cpuid (e_env s') /\
  _thread_context_tlsptr rsp (e_env s') = Ok (g_tls s + 0x1000 * cpuid) (e_env s') /\
  g_stack s <= rsp < g_stack s + 0x10000 /\ live (e_env s) !! g_stack s = Some 0x10000 /\
  live (e_env s) !! g_tls s = Some (0x1000 * ncpu) /\
  g_tls s <= g_tls s + 0x1000 * cpuid /\ g_tls s + 0x1000 * cpuid + 0x1000 <= g_tls s + 0x1000 * ncpu.
Proof.
  intros Hh Hr Hc E Hrsp. pose proof (ei_ok _ _ _ (ho_env _ _ _ Hh)) as Hok.
  pose proof (ready_has_stack _ _ _ Hh Hr) as [Hst Htop].
  assert (live (e_env s) !! g_tls s = Some (0x1000 * ncpu)) as Htl.
  { rewrite <- (rd_tls_size _ _ Hr). by eapply held_tls; [|apply Hr]. }
  destruct (eo_range _ _ Hok _ _ Hst) as (? & _ & ?). destruct (eo_range _ _ Hok _ _ Htl) as (? & _ & ?).
  destruct (num_cpus ncpu others s Hh) as [_ Hn]. unfold NR_CPUS in Hn.
  pose proof (stack_top_range (g_stack s) ltac:(lia) ltac:(lia)) as Ht.
  pose proof (call_memory _ _ _ _ _ _ _ Hok (conj Hst Htop) E) as Em.
  replace (add64 (g_tls s) (mul64 THREAD_LOCAL_STORAGE_SIZE cpuid)) with (g_tls s + 0x1000 * cpuid) in Em.
  2: { unfold add64, mul64, THREAD_LOCAL_STORAGE_SIZE. rewrite (w64_small (_ * _)) by (unfold u64; lia).
       rewrite w64_small by (unfold u64; lia). done. }
  unfold _thread_context_cpuid, _thread_context_tlsptr, rd64.
  rewrite !(context_field_top (g_stack s)) by lia. split_and!; try done; try lia.
  - apply rd_ok. rewrite Em, peek_other by lia. apply peek_written. unfold u64. lia.
  - apply rd_ok. rewrite Em. apply peek_written. unfold u64. lia.
Qed.
End Context_.
