(* ===== verification/DriverSpec.v ===== *)
(** * The contract of the driver

    The life cycle of the hypervisor as an abstract state machine, and the
    driver as a refinement of it; the buffers the driver holds in each state;
    the order in which the CPUs are started and stopped. *)
From S2P Require Import Prelude Elf ElfFrame Driver DriverMem DriverProofs.

(** ** The operations, and what they do to the life cycle *)

Inductive vmm_op :=
| AddModule (file fsize : Z) | Load | Unload | Start | Stop | Dump (drr vcpuid : Z) | Fini.

Inductive vmm_state := AUnloaded (modules : Z) | ALoaded | ARunning | ACorrupt.

(** The transitions: the operation, the state, the code returned and the next
    state. *)
Inductive vmm_trans : vmm_op -> vmm_state -> Z -> vmm_state -> Prop :=
| t_add_arg f n a : f = 0 \/ n = 0 -> vmm_trans (AddModule f n) a BF_ERROR_INVALID_ARG a
| t_add f n k : f <> 0 -> n <> 0 -> k < MAX_NUM_MODULES ->
    vmm_trans (AddModule f n) (AUnloaded k) BF_SUCCESS (AUnloaded (k + 1))
| t_add_full f n k : f <> 0 -> n <> 0 -> MAX_NUM_MODULES <= k ->
    vmm_trans (AddModule f n) (AUnloaded k) BF_ERROR_MAX_MODULES_REACHED (AUnloaded k)
| t_add_loaded f n a : f <> 0 -> n <> 0 -> a = ALoaded \/ a = ARunning ->
    vmm_trans (AddModule f n) a BF_ERROR_VMM_INVALID_STATE a
| t_add_corrupt f n : f <> 0 -> n <> 0 -> vmm_trans (AddModule f n) ACorrupt BF_ERROR_VMM_CORRUPTED ACorrupt
| t_load_none : vmm_trans Load (AUnloaded 0) BF_ERROR_NO_MODULES_ADDED (AUnloaded 0)
| t_load k : k <> 0 -> vmm_trans Load (AUnloaded k) BF_SUCCESS ALoaded
| t_load_fail k r : k <> 0 -> r <> BF_SUCCESS -> vmm_trans Load (AUnloaded k) r (AUnloaded 0)
| t_load_again : vmm_trans Load ALoaded BF_SUCCESS ALoaded
| t_load_running : vmm_trans Load ARunning BF_ERROR_VMM_INVALID_STATE ARunning
| t_load_corrupt : vmm_trans Load ACorrupt BF_ERROR_VMM_CORRUPTED ACorrupt
| t_unload a k : a = AUnloaded k \/ a = ALoaded -> vmm_trans Unload a BF_SUCCESS (AUnloaded 0)
| t_unload_fail r : r <> BF_SUCCESS -> vmm_trans Unload ALoaded r ACorrupt
| t_unload_running : vmm_trans Unload ARunning BF_ERROR_VMM_INVALID_STATE ARunning
| t_unload_corrupt : vmm_trans Unload ACorrupt BF_ERROR_VMM_CORRUPTED ACorrupt
| t_start : vmm_trans Start ALoaded BF_SUCCESS ARunning
| t_start_fail r a : r <> BF_SUCCESS -> a = ALoaded \/ a = ACorrupt -> vmm_trans Start ALoaded r a
| t_start_again : vmm_trans Start ARunning BF_SUCCESS ARunning
| t_start_unloaded k : vmm_trans Start (AUnloaded k) BF_ERROR_VMM_INVALID_STATE (AUnloaded k)
| t_start_corrupt : vmm_trans Start ACorrupt BF_ERROR_VMM_CORRUPTED ACorrupt
| t_stop a : a = ALoaded \/ a = ARunning -> vmm_trans Stop a BF_SUCCESS ALoaded
| t_stop_fail r : r <> BF_SUCCESS -> vmm_trans Stop ARunning r ACorrupt
| t_stop_unloaded k : vmm_trans Stop (AUnloaded k) BF_ERROR_VMM_INVALID_STATE (AUnloaded k)
| t_stop_corrupt : vmm_trans Stop ACorrupt BF_ERROR_VMM_CORRUPTED ACorrupt
| t_dump_arg v a : vmm_trans (Dump 0 v) a BF_ERROR_INVALID_ARG a
| t_dump_unloaded d v k : d <> 0 -> vmm_trans (Dump d v) (AUnloaded k) BF_ERROR_VMM_INVALID_STATE (AUnloaded k)
| t_dump d v a r : d <> 0 -> a = ALoaded \/ a = ARunning \/ a = ACorrupt -> vmm_trans (Dump d v) a r a
| t_fini a : a <> ACorrupt -> vmm_trans Fini a BF_SUCCESS (AUnloaded 0)
| t_fini_fail a : a = ALoaded \/ a = ARunning \/ a = ACorrupt -> vmm_trans Fini a BF_ERROR_VMM_CORRUPTED ACorrupt.

Section Spec.
Context {P : Type} `{KernelLaws P}.
Local Open Scope vmm_scope.
Context (ncpu : Z) (others : list (Z * Z)).
Implicit Types s : drv P.
Notation inv := (drv_inv ncpu others).

Definition vmm_run (op : vmm_op) : M (drv P) Z :=
  match op with
  | AddModule f n => common_add_module f n
  | Load => common_load_vmm
  | Unload => common_unload_vmm
  | Start => common_start_vmm
  | Stop => common_stop_vmm
  | Dump d v => common_dump_vmm d v
  | Fini => common_fini
  end.

(** The abstract state of a concrete one. *)
Definition abs s : vmm_state :=
  if g_vmm_status s =? VMM_UNLOADED then AUnloaded (g_num_modules s)
  else if g_vmm_status s =? VMM_LOADED then ALoaded
  else if g_vmm_status s =? VMM_RUNNING then ARunning else ACorrupt.

Lemma abs_clean s : clean s -> abs s = AUnloaded (g_num_modules s).
Proof. intros Hc. unfold abs. by rewrite (cl_status s Hc). Qed.
Lemma abs_loaded s : g_vmm_status s = VMM_LOADED -> abs s = ALoaded.
Proof. intros E. unfold abs. by rewrite E. Qed.
Lemma abs_running s : g_vmm_status s = VMM_RUNNING -> abs s = ARunning.
Proof. intros E. unfold abs. by rewrite E. Qed.
Lemma abs_corrupt s : g_vmm_status s = VMM_CORRUPT -> abs s = ACorrupt.
Proof. intros E. unfold abs. by rewrite E. Qed.

(** An operation returns and follows the abstract transition. *)
Definition simulates (op : vmm_op) s (o : outcome (drv P) Z) : Prop :=
  exists r s', o = Ok r s' /\ inv s' /\ vmm_trans op (abs s) r (abs s').

Lemma sim_stay op s r : inv s -> vmm_trans op (abs s) r (abs s) -> simulates op s (Ok r s).
Proof. intros ? ?. by exists r, s. Qed.

Lemma add_module_sim f n s : inv s -> simulates (AddModule f n) s (common_add_module f n s).
Proof.
  intros Hi. unfold common_add_module.
  destruct ((f =? 0) || (n =? 0)) eqn:Ea.
  { apply sim_stay; [done|]. apply t_add_arg. lia. }
  assert (f <> 0 /\ n <> 0) as [Hf Hn] by lia. clear Ea.
  rewrite bind_get. unfold common_vmm_status. cbv zeta.
  destruct Hi as [Hh [Hc|[Hr Hst]]].
  2: { destruct Hst as [[E ?]|[[E ?]|[E ?]]]; rewrite E; status; apply sim_stay; try (by split; [|right; auto 7]).
       - rewrite abs_loaded by done. constructor; auto.
       - rewrite abs_running by done. constructor; auto.
       - rewrite abs_corrupt by done. by constructor. }
  rewrite (cl_status s Hc). status. destruct (Z.leb_spec MAX_NUM_MODULES (g_num_modules s)) as [Hge|Hlt].
  { apply sim_stay; [by split; [|left]|]. rewrite abs_clean by done. by constructor. }
  destruct Hh as [[Ho Hl] Hb Hcount Ht].
  destruct (lookup_lt_is_Some_2 (bins (e_env s)) (Z.to_nat (g_num_modules s))) as [b Eb]; [lia|].
  erewrite bind_ok by (apply elf_ok; by apply set_bin_ok). erewrite bind_ok by done.
  set (b' := Binary _ f _ n _). set (s' := set_num_modules _ _).
  assert (no_image 0 (e_env s')) as Him.
  { intros i b0 _ [(<- & <- & _)|[? Hi]]%list_lookup_insert_Some; [exact (cl_images s Hc _ b ltac:(lia) Eb)|].
    by apply (cl_images s Hc i b0 ltac:(lia)). }
  assert (execs (e_env s') = execs (e_env s)) as Ex.
  { unfold execs. fold (images (bins (e_env s))) (images (bins (e_env s'))). rewrite !images_none; [done|..].
    - intros i b0. apply (cl_images s Hc). lia.
    - intros i b0. apply Him. lia. }
  exists BF_SUCCESS, s'. split; [done|]. assert (clean s') as Hc' by by destruct Hc. split; [split|].
  - split; [|cbn; by rewrite length_insert|cbn; lia|intros i b0 _; apply Him; lia].
    split; [by destruct Ho|]. rewrite Ex. apply Hl.
  - by left.
  - rewrite !abs_clean by done. cbn. by constructor.
Qed.

Lemma unload_sim s : inv s -> simulates Unload s (common_unload_vmm s).
Proof.
  intros Hi. destruct (unload_ok ncpu others s Hi) as (r & s' & E & Hi' & Hr). exists r, s'. split; [done|]. split; [done|].
  destruct Hr as [(Est & -> & ->)|[(Est & -> & ->)|[(Est & -> & Hc & En & _)|(Est & Hne & Est')]]].
  - rewrite abs_corrupt by done. constructor.
  - rewrite abs_running by done. constructor.
  - rewrite (abs_clean s') by done. rewrite En. destruct Est as [Est|Est].
    + unfold abs. rewrite Est. apply (t_unload _ (g_num_modules s)). by left.
    + rewrite abs_loaded by done. apply (t_unload _ 0). by right.
  - rewrite abs_loaded, abs_corrupt by done. by constructor.
Qed.

Lemma load_sim s : inv s ->
  match common_load_vmm s with
  | Ok r s' => inv s' /\ vmm_trans Load (abs s) r (abs s')
  | Err x _ => fault x
  end.
Proof.
  intros Hi. destruct Hi as [Hh [Hc|[Hr Hst]]].
  - destruct (decide (g_num_modules s = 0)) as [E0|Hne].
    + unfold common_load_vmm. rewrite bind_get. unfold common_vmm_status. rewrite (cl_status s Hc). status.
      rewrite E0. cbn [Z.eqb]. split; [by split; [|left]|]. rewrite abs_clean, E0 by done. constructor.
    + pose proof (load_ok ncpu others s Hh Hc Hne) as Hl. rewrite (abs_clean s) by done.
      destruct (common_load_vmm s) as [r s'|]; [|done]. destruct Hl as [Hi' Hr']. split; [done|].
      destruct Hr' as [(-> & Est & _)|(Hr' & Hc' & En & _)].
      * rewrite abs_loaded by done. by constructor.
      * rewrite abs_clean, En by done. by constructor.
  - unfold common_load_vmm. rewrite bind_get. unfold common_vmm_status.
    destruct Hst as [[E ?]|[[E ?]|[E ?]]]; rewrite E; status; (split; [by split; [|right; auto 7]|]).
    + rewrite abs_loaded by done. constructor.
    + rewrite abs_running by done. constructor.
    + rewrite abs_corrupt by done. constructor.
Qed.

(** ** Starting *)

Notation inits l := ((fun c => init_call c 0) <$> l).
Notation finis l := ((fun c => fini_call c 0) <$> l).

(** What a start leaves in the trace (the last call first): every CPU was
    initialised in order; or the [k]-th failed and the ones before it were
    stopped in reverse order; or the stop of one of them failed too. *)
Inductive start_trace : Z -> Z -> list call -> Prop :=
| st_ok : start_trace BF_SUCCESS VMM_RUNNING (reverse (inits (seqZ 0 ncpu)))
| st_undone r k l : r <> BF_SUCCESS -> 0 <= k < ncpu -> attempt (init_call k r) l ->
    start_trace r VMM_LOADED (finis (seqZ 0 k) ++ l ++ reverse (inits (seqZ 0 k)))
| st_corrupt r k l r' j l' : r <> BF_SUCCESS -> 0 <= k < ncpu -> attempt (init_call k r) l ->
    r' <> BF_SUCCESS -> 0 < j <= k -> attempt (fini_call (j - 1) r') l' ->
    start_trace r VMM_CORRUPT (l' ++ finis (seqZ j (k - j)) ++ l ++ reverse (inits (seqZ 0 k))).

Lemma start_ok s : inv s -> g_vmm_status s = VMM_LOADED ->
  exists r s' tr, common_start_vmm s = Ok r s' /\ inv s' /\ trace s' = tr ++ trace s /\
    start_trace r (g_vmm_status s') tr.
Proof.
  intros [Hh [Hc|[Hr Hst]]] Es; [by rewrite (cl_status s Hc) in Es|].
  unfold common_start_vmm. rewrite bind_get. unfold common_vmm_status. rewrite Es. status. erewrite bind_ok by done.
  pose proof (holds_cpus ncpu others s 0 Hh) as Hh0. pose proof (ready_cpus ncpu s 0 Hr) as Hr0.
  destruct (num_cpus ncpu others s Hh) as [_ Hnc].
  destruct (start_loop_ok ncpu others (Z.to_nat NR_CPUS) 0 _ Hh0 Hr0) as
    (r & s1 & k & E1 & Hh1 & Hr1 & [Est1 _] & Hk & Ek & Hz & Hnz); [done|lia|lia|].
  erewrite bind_ok by exact E1. cbn [trace set_cpus_started g_vmm_status] in *. rewrite Z.sub_0_r in *.
  destruct (Z.eqb_spec r BF_SUCCESS) as [->|Hne].
  - destruct (Hz eq_refl) as [-> Ht]. eexists _, _, _. split; [done|]. split_and!; [|exact Ht|constructor].
    split; [by apply holds_status|]. right. split; [by apply ready_status|]. right. by left.
  - destruct (Hnz Hne) as (Hlt & l & Hl & Ht).
    destruct (stop_ok ncpu others k s1 Hh1 Hr1 Ek) as (r' & s' & E' & Hi' & _ & Hcase); [lia|left; congruence|].
    erewrite bind_ok by exact E'.
    destruct Hcase as [(-> & Es' & Ht')|(Hr' & Es' & j & l' & Hj & Hl' & _ & Ht')].
    + eexists _, _, _. split; [done|]. split_and!; [done| |].
      * rewrite Ht', Ht, !app_assoc. reflexivity.
      * rewrite Es', <- !app_assoc. apply st_undone; [done|lia|done].
    + eexists _, _, _. split; [done|]. split_and!; [done| |].
      * rewrite Ht', Ht, !app_assoc. reflexivity.
      * rewrite Es', <- !app_assoc. eapply st_corrupt; try done. lia.
Qed.

Lemma inv_stay s : holds ncpu others s -> ready ncpu s ->
  g_vmm_status s = VMM_LOADED /\ g_num_cpus_started s = 0 \/
  g_vmm_status s = VMM_RUNNING /\ g_num_cpus_started s = ncpu \/
  g_vmm_status s = VMM_CORRUPT /\ 0 <= g_num_cpus_started s <= ncpu -> inv s.
Proof. intros. by split; [|right]. Qed.

Lemma start_sim s : inv s -> simulates Start s (common_start_vmm s).
Proof.
  intros Hi. destruct (decide (g_vmm_status s = VMM_LOADED)) as [Es|Hne].
  - destruct (start_ok s Hi Es) as (r & s' & tr & E & Hi' & _ & Ht). exists r, s'. split; [done|]. split; [done|].
    rewrite (abs_loaded s Es). inversion Ht as [Ex Ey|? ? ? ? ? ? Ex Ey|? ? ? ? ? ? ? ? ? ? ? ? Ex Ey]; subst.
    + rewrite abs_running by done. constructor.
    + rewrite abs_loaded by done. constructor; auto.
    + rewrite abs_corrupt by done. constructor; auto.
  - destruct Hi as [Hh [Hc|[Hr [[E _]|[[E ?]|[E ?]]]]]]; [..|done| |];
      unfold common_start_vmm; rewrite bind_get; unfold common_vmm_status.
    + rewrite (cl_status s Hc). status. apply sim_stay; [by split; [|left]|]. rewrite abs_clean by done. constructor.
    + rewrite E. status. apply sim_stay; [apply inv_stay; auto 7|]. rewrite abs_running by done. constructor.
    + rewrite E. status. apply sim_stay; [apply inv_stay; auto 7|]. rewrite abs_corrupt by done. constructor.
Qed.

Lemma stop_sim s : inv s -> simulates Stop s (common_stop_vmm s).
Proof.
  intros [Hh [Hc|[Hr Hst]]].
  { unfold common_stop_vmm. rewrite bind_get. unfold common_vmm_status. rewrite (cl_status s Hc). status.
    apply sim_stay; [by split; [|left]|]. rewrite abs_clean by done. constructor. }
  destruct (num_cpus ncpu others s Hh) as [_ Hnc]. destruct Hst as [[E En]|[[E En]|[E En]]].
  - destruct (stop_ok ncpu others 0 s Hh Hr En) as (r & s' & E' & Hi' & _ & [(-> & Es' & _)|(_ & _ & k & l & Hk & _)]);
      [lia|auto| |lia].
    exists 0, s'. split; [done|]. split; [done|]. rewrite !abs_loaded by done. apply t_stop. auto.
  - destruct (stop_ok ncpu others ncpu s Hh Hr En) as (r & s' & E' & Hi' & _ & [(-> & Es' & _)|(? & Es' & _)]);
      [lia|auto|..]; (eexists _, s'; split; [done|]; split; [done|]); rewrite (abs_running s) by done.
    + rewrite abs_loaded by done. apply t_stop. auto.
    + rewrite abs_corrupt by done. by constructor.
  - unfold common_stop_vmm. rewrite bind_get. unfold common_vmm_status. rewrite E. status.
    apply sim_stay; [apply inv_stay; auto 7|]. rewrite abs_corrupt by done. constructor.
Qed.

Lemma inv_called s s' : inv s -> ready ncpu s -> called ncpu s s' -> inv s' /\ abs s' = abs s.
Proof.
  intros [Hh Hp] Hr Hc. pose proof (cd_globs _ _ _ Hc) as E. unfold globs in E. split.
  - split; [by eapply holds_called|]. destruct Hp as [Hc'|[_ Hst]]; [by destruct Hr, Hc'|]. right.
    split; [by eapply ready_called|]. simplify_eq.
    replace (g_vmm_status s') with (g_vmm_status s) by congruence.
    replace (g_num_cpus_started s') with (g_num_cpus_started s) by congruence. done.
  - unfold abs. simplify_eq. replace (g_vmm_status s') with (g_vmm_status s) by congruence.
    by replace (g_num_modules s') with (g_num_modules s) by congruence.
Qed.

Lemma dump_sim d v s : inv s -> simulates (Dump d v) s (common_dump_vmm d v s).
Proof.
  intros Hi. unfold common_dump_vmm. destruct (Z.eqb_spec d 0) as [->|Hd]; [apply sim_stay; [done|constructor]|].
  rewrite bind_get. unfold common_vmm_status. pose proof Hi as [Hh [Hc|[Hr Hst]]].
  - rewrite (cl_status s Hc). status. apply sim_stay; [done|]. rewrite abs_clean by done. by constructor.
  - replace (g_vmm_status s =? VMM_UNLOADED) with false by by destruct Hst as [[-> _]|[[-> _]|[-> _]]].
    destruct (ready_call ncpu others 0 BF_REQUEST_GET_DRR (Int v) d s Hh Hr) as (r & s' & E & _ & _ & [Hc _]).
    exists r, s'. split; [done|]. destruct (inv_called s s' Hi Hr Hc) as [? ->]. split; [done|].
    constructor; [done|]. unfold abs. destruct Hst as [[-> _]|[[-> _]|[-> _]]]; auto.
Qed.

(** ** Shutting down *)

Lemma clean_live s : holds ncpu others s -> clean s -> map_to_list (live (e_env s)) ≡ₚ others.
Proof.
  intros [[_ Hl] _ _ _] [_ Es Et Him _]. rewrite Hl. unfold globals. rewrite Es, Et. unfold execs.
  fold (images (bins (e_env s))). rewrite images_none by (intros i b; apply Him; lia). by rewrite !app_nil_r.
Qed.

(** Two values of one status. *)
Ltac status_clash :=
  match goal with
  | H1 : g_vmm_status ?s = _, H2 : g_vmm_status ?s = _ |- _ => rewrite H1 in H2; discriminate H2
  end.

(** Nothing is held any more. *)
Definition released s : Prop := clean s /\ g_num_modules s = 0 /\ map_to_list (live (e_env s)) ≡ₚ others.

(** The end of [common_fini]. *)
Lemma fini_end s : inv s -> g_vmm_status s = VMM_UNLOADED \/ g_vmm_status s = VMM_CORRUPT ->
  exists r s', (s <- get ;;
    if common_vmm_status s =? VMM_CORRUPT then ret BF_ERROR_VMM_CORRUPTED else
    (if 0 <? g_num_modules s then common_reset else ret tt) ;;; ret BF_SUCCESS) s = Ok r s' /\ inv s' /\
    (g_vmm_status s = VMM_UNLOADED /\ r = BF_SUCCESS /\ released s' \/
     g_vmm_status s = VMM_CORRUPT /\ r = BF_ERROR_VMM_CORRUPTED /\ g_vmm_status s' = VMM_CORRUPT).
Proof.
  intros [Hh Hp] Hst. rewrite bind_get. unfold common_vmm_status. destruct Hst as [Es|Es]; rewrite Es; status.
  - assert (clean s) as Hc by (destruct Hp as [?|[_ [[E _]|[[E _]|[E _]]]]]; [done|rewrite Es in E; done..]).
    destruct (Z.ltb_spec 0 (g_num_modules s)).
    + destruct (reset_ok ncpu others s Hh) as (s' & E & Hh' & Hc' & ? & ? & _). erewrite bind_ok by exact E.
      eexists _, s'. split; [done|]. split; [by split; [|left]|]. left. done.
    + eexists _, s. split; [done|]. split; [by split; [|left]|]. left. split_and!; try done.
      split_and!; [done| |by apply clean_live]. pose proof (ho_count _ _ _ Hh). lia.
  - eexists _, s. split; [done|]. split; [done|]. by right.
Qed.

Lemma fini_ok s : inv s ->
  exists r s', common_fini s = Ok r s' /\ inv s' /\
    (g_vmm_status s <> VMM_CORRUPT /\ r = BF_SUCCESS /\ released s' \/
     g_vmm_status s <> VMM_UNLOADED /\ r = BF_ERROR_VMM_CORRUPTED /\ g_vmm_status s' = VMM_CORRUPT).
Proof.
  intros Hi. pose proof Hi as [Hh Hp]. unfold common_fini. rewrite bind_get. unfold common_vmm_status at 1.
  assert (forall s1, inv s1 -> g_vmm_status s1 = VMM_UNLOADED \/ g_vmm_status s1 = VMM_LOADED \/
      g_vmm_status s1 = VMM_CORRUPT -> exists r s', (s <- get ;;
      (if common_vmm_status s =? VMM_LOADED then common_unload_vmm else ret BF_SUCCESS) ;;;
      s <- get ;; if common_vmm_status s =? VMM_CORRUPT then ret BF_ERROR_VMM_CORRUPTED else
      (if 0 <? g_num_modules s then common_reset else ret tt) ;;; ret BF_SUCCESS) s1 = Ok r s' /\ inv s' /\
    (g_vmm_status s1 <> VMM_CORRUPT /\ r = BF_SUCCESS /\ released s' \/
     g_vmm_status s1 <> VMM_UNLOADED /\ r = BF_ERROR_VMM_CORRUPTED /\ g_vmm_status s' = VMM_CORRUPT)) as Hend.
  { intros s1 Hi1 Hst1. rewrite bind_get. unfold common_vmm_status at 1.
    destruct Hst1 as [E1|[E1|E1]]; rewrite E1; status.
    - erewrite bind_ok by done. destruct (fini_end s1 Hi1) as (r & s' & E & ? & [(_ & ? & ?)|(E' & _)]); [auto| |status_clash].
      exists r, s'. split; [exact E|]. split; [done|]. by left.
    - destruct (unload_ok ncpu others s1 Hi1) as (r & s2 & E & Hi2 & Hcase). erewrite bind_ok by exact E.
      destruct Hcase as [(Ex & _)|[(Ex & _)|[(_ & _ & Hc2 & _)|(_ & _ & Es2)]]]; [status_clash..| |].
      + destruct (fini_end s2 Hi2) as (r' & s' & E' & ? & [(_ & ? & ?)|(Ex & _)]); [left; apply Hc2| |].
        * exists r', s'. split; [exact E'|]. split; [done|]. by left.
        * by rewrite (cl_status s2 Hc2) in Ex.
      + destruct (fini_end s2 Hi2) as (r' & s' & E' & ? & [(Ex & _)|(_ & ? & ?)]); [by right|status_clash|].
        exists r', s'. split; [exact E'|]. split; [done|]. by right.
    - erewrite bind_ok by done. destruct (fini_end s1 Hi1) as (r & s' & E & ? & [(Ex & _)|(_ & ? & ?)]); [auto|status_clash|].
      exists r, s'. split; [exact E|]. split; [done|]. by right. }
  destruct (Z.eqb_spec (g_vmm_status s) VMM_RUNNING) as [Er|Hne].
  - destruct Hp as [Hc|[Hr [[E _]|[[_ En]|[E _]]]]]; [rewrite (cl_status s Hc) in Er; done|status_clash| |status_clash].
    destruct (num_cpus ncpu others s Hh) as [_ Hnc].
    destruct (stop_ok ncpu others ncpu s Hh Hr En) as (r & s1 & E1 & Hi1 & _ & Hcase); [lia|auto|].
    erewrite bind_ok by exact E1. destruct (Hend s1 Hi1) as (r' & s' & E' & ? & Hc').
    { destruct Hcase as [(_ & ? & _)|(_ & ? & _)]; auto. }
    exists r', s'. split; [exact E'|]. split; [done|]. rewrite Er.
    destruct Hc' as [(_ & ? & ?)|(_ & ? & ?)]; [by left|by right].
  - erewrite bind_ok by done. apply Hend; [done|].
    destruct Hp as [Hc|[Hr [[E _]|[[E _]|[E _]]]]]; [left; apply Hc|auto|done|auto].
Qed.

Lemma fini_sim s : inv s -> simulates Fini s (common_fini s).
Proof.
  intros Hi. destruct (fini_ok s Hi) as (r & s' & E & Hi' & Hcase). exists r, s'. split; [done|]. split; [done|].
  destruct Hcase as [(Hne & -> & Hc & En & _)|(Hne & -> & Es')].
  - rewrite (abs_clean s'), En by done. apply t_fini. destruct Hi as [_ [Hc'|[_ [[E' _]|[[E' _]|[E' _]]]]]];
      [by rewrite abs_clean|by rewrite abs_loaded|by rewrite abs_running|done].
  - rewrite (abs_corrupt s') by done. apply t_fini_fail. destruct Hi as [_ [Hc'|[_ [[E' _]|[[E' _]|[E' _]]]]]].
    + by destruct Hne, Hc'.
    + left. by apply abs_loaded.
    + right. left. by apply abs_running.
    + right. right. by apply abs_corrupt.
Qed.

Lemma vmm_run_sim op s : inv s ->
  match vmm_run op s with
  | Ok r s' => inv s' /\ vmm_trans op (abs s) r (abs s')
  | Err x _ => op = Load /\ fault x
  end.
Proof using.
  intros Hi. assert (forall op o, simulates op s o ->
    match o with Ok r s' => inv s' /\ vmm_trans op (abs s) r (abs s') | Err x _ => op = Load /\ fault x end) as Hsim.
  { by intros op' o (r & s' & -> & ? & ?). }
  destruct op; cbn [vmm_run].
  - by apply Hsim, add_module_sim.
  - pose proof (load_sim s Hi) as Hl. destruct (common_load_vmm s); [|by split]. done.
  - by apply Hsim, unload_sim.
  - by apply Hsim, start_sim.
  - by apply Hsim, stop_sim.
  - by apply Hsim, dump_sim.
  - by apply Hsim, fini_sim.
Qed.

(** ** Theorems *)

(** C5: The driver refines the life cycle: from every state that satisfies the
    invariant, each operation returns a code and a next state that the abstract
    state machine allows, and the invariant holds again.  Only the load of a
    module whose contents send the loader outside of mapped memory or into an
    endless loop does not return. *)
Theorem driver_refines op s : inv s ->
  match vmm_run op s with
  | Ok r s' => inv s' /\ vmm_trans op (abs s) r (abs s')
  | Err x _ => op = Load /\ fault x
  end.
Proof using.
  apply vmm_run_sim.
Qed.

(** C20: [common_load_vmm] with modules added either leaves the hypervisor
    loaded, its stack, its storage and its images held and ready to be called,
    after it was given, on CPU 0 and in this order, and accepted: the request to
    initialize, the address of the RSDP, every page of every segment of the
    modules with its rights, and every page of the thread-local storage; or
    returns an error with every block it had allocated given back and no module
    left; or faults in a malformed module. *)
Theorem driver_load_correct s : inv s -> abs s <> AUnloaded 0 -> g_vmm_status s = VMM_UNLOADED ->
  match common_load_vmm s with
  | Ok r s' => r = BF_SUCCESS /\ g_vmm_status s' = VMM_LOADED /\ ready ncpu s' /\ holds ncpu others s' /\
                 (exists l, trace s' = rev l ++ trace s /\ Forall2 answers l (load_requests s')) \/
               r <> BF_SUCCESS /\ released s'
  | Err x _ => fault x
  end.
Proof using.
  intros [Hh Hp] Hm Es. assert (clean s) as Hc.
  { destruct Hp as [?|[_ [[E _]|[[E _]|[E _]]]]]; [done|rewrite Es in E; done..]. }
  assert (g_num_modules s <> 0) as Hne by (intros E; apply Hm; by rewrite abs_clean, E).
  pose proof (load_ok ncpu others s Hh Hc Hne) as Hl. destruct (common_load_vmm s) as [r s'|]; [|done].
  destruct Hl as [[Hh' Hp'] [(-> & E & Hq)|(? & ? & ? & ?)]]; [left|right; done]. split_and!; try done.
  destruct Hp' as [Hc'|[? _]]; [by rewrite (cl_status s' Hc') in E|done].
Qed.

(** [common_start_vmm] of a loaded hypervisor initialises the CPUs from 0
    upwards, each once; if one fails, the ones that were initialised, and only
    those, are shut down from the last to the first, and the hypervisor is
    loaded again; it is corrupt only if a shut-down fails, and then nothing
    more is called. *)
Theorem driver_start_order s : inv s -> g_vmm_status s = VMM_LOADED ->
  exists r s' tr, common_start_vmm s = Ok r s' /\ inv s' /\ trace s' = tr ++ trace s /\
    start_trace r (g_vmm_status s') tr.
Proof using. apply start_ok. Qed.

(** C21: [common_stop_vmm] of a running hypervisor shuts every CPU down, from the
    last to the first, or stops at the first failure with the hypervisor
    corrupt and the CPUs below it still counted as started. *)
Theorem driver_stop_order s : inv s -> g_vmm_status s = VMM_RUNNING ->
  exists r s', common_stop_vmm s = Ok r s' /\ inv s' /\
    (r = BF_SUCCESS /\ g_vmm_status s' = VMM_LOADED /\ trace s' = finis (seqZ 0 ncpu) ++ trace s \/
     r <> BF_SUCCESS /\ g_vmm_status s' = VMM_CORRUPT /\
       exists k l, 0 < k <= ncpu /\ attempt (fini_call (k - 1) r) l /\ g_num_cpus_started s' = k /\
         trace s' = l ++ finis (seqZ k (ncpu - k)) ++ trace s).
Proof using.
  intros [Hh [Hc|[Hr Hst]]] Es; [by rewrite (cl_status s Hc) in Es|].
  destruct Hst as [[E _]|[[_ En]|[E _]]]; [by rewrite Es in E| |by rewrite Es in E].
  destruct (num_cpus ncpu others s Hh) as [_ Hnc].
  destruct (stop_ok ncpu others ncpu s Hh Hr En) as (r & s' & E & Hi' & _ & Hcase); [lia|auto|].
  exists r, s'. split_and!; done.
Qed.

(** [common_fini] always returns.  It leaves nothing held, whatever the
    hypervisor was doing, unless the hypervisor is corrupt afterwards. *)
Theorem driver_fini_releases s : inv s ->
  exists r s', common_fini s = Ok r s' /\ inv s' /\
    (g_vmm_status s <> VMM_CORRUPT /\ r = BF_SUCCESS /\ released s' \/
     g_vmm_status s <> VMM_UNLOADED /\ r = BF_ERROR_VMM_CORRUPTED /\ g_vmm_status s' = VMM_CORRUPT).
Proof using. apply fini_ok. Qed.
End Spec.

(** ** Reachable states *)

Section Reach.
Context {P : Type} `{KernelLaws P}.
Local Open Scope vmm_scope.

(** The globals before [common_init]: all zero, the status unloaded. *)
Definition drv_boot (m L : gmap Z Z) (p : P) : drv P :=
  Drv (Env m L p zero_modules loader_zero crt_zero 0) 0 0 VMM_UNLOADED 0 0 0 0 0 0 [].

Inductive drv_step (s : drv P) : drv P -> Prop :=
| drv_do op r s' : vmm_run op s = Ok r s' -> drv_step s s'.

Lemma boot_inv m L p : env_ok (num_online_cpus p) (e_env (drv_boot m L p)) ->
  drv_inv (num_online_cpus p) (map_to_list L) (drv_boot m L p).
Proof.
  intros Hok. assert (no_image 0 (e_env (drv_boot m L p))) as Him by by apply zero_modules_no_image.
  split; [|by left]. split; [|done|cbn; unfold MAX_NUM_MODULES; lia|intros i b _; apply Him; lia].
  split; [done|]. unfold execs. fold (images (bins (e_env (drv_boot m L p)))).
  rewrite images_none by (intros i b; apply Him; lia). by rewrite !app_nil_r.
Qed.

Lemma steps_inv ncpu others s s' : rtc drv_step s s' -> drv_inv ncpu others s -> drv_inv ncpu others s'.
Proof.
  induction 1 as [|s1 s2 s3 [op r s' E] _ IH]; [done|]. intros Hi. apply IH.
  pose proof (vmm_run_sim _ _ op s1 Hi) as Hd. rewrite E in Hd. apply Hd.
Qed.

(** C6: After any sequence of operations from the driver's initial state, the
    blocks that are live are exactly the ones that were there before, the stack,
    the thread-local storage and the images of the modules; no two of them
    overlap, all are mapped, and none is left when the hypervisor is unloaded. *)
Theorem driver_reachable m L (p : P) s : env_ok (num_online_cpus p) (e_env (drv_boot m L p)) ->
  rtc drv_step (drv_boot m L p) s ->
  map_to_list (live (e_env s)) ≡ₚ
    map_to_list L ++ block (g_stack s) (g_stack_size s) ++ block (g_tls s) (g_tls_size s) ++ execs (e_env s) /\
  (forall a n b k, live (e_env s) !! a = Some n -> live (e_env s) !! b = Some k -> a <> b ->
     a + n <= b \/ b + k <= a) /\
  (forall a n i, live (e_env s) !! a = Some n -> 0 <= i < n -> is_Some (bytes (e_env s) !! (a + i))) /\
  (g_vmm_status s = VMM_UNLOADED -> map_to_list (live (e_env s)) ≡ₚ map_to_list L).
Proof.
  intros Hok Hr. assert (drv_inv (num_online_cpus p) (map_to_list L) s) as [Hh Hp].
  { eapply steps_inv; [done|by apply boot_inv]. }
  destruct (ho_env _ _ _ Hh) as [Ho Hl]. split_and!.
  - rewrite Hl. unfold globals. by rewrite <- !app_assoc.
  - intros a n b k. apply (eo_apart _ _ Ho).
  - intros a n i. apply (eo_mapped _ _ Ho).
  - intros Es. apply (clean_live (num_online_cpus p)); [done|].
    destruct Hp as [?|[_ [[E _]|[[E _]|[E _]]]]]; [done|rewrite Es in E; done..].
Qed.
End Reach.
