(* ===== verification/DebugRing.v ===== *)
(** * The debug ring

    Models [bareflank/bfvmm/src/debug/debug_ring/debug_ring.cpp] and the reader
    in [bareflank/bfsdk/include/bfdebugringinterface.h]: a ring of bytes the
    hypervisor writes strings to, the oldest of which make room for new ones,
    and which the driver reads.  Bytes are integers from 0 to 255. *)
From S2P Require Import Prelude.

Definition DEBUG_RING_SIZE : Z := Z.shiftl 1 15.

(** [debug_ring_resources_t] *)
Record debug_ring_resources_t := Drr {
  epos : Z;
  spos : Z;
  tag1 : Z;
  buf : list Z;
  tag2 : Z;
}.

Definition set_epos x r := Drr x (spos r) (tag1 r) (buf r) (tag2 r).
Definition set_spos x r := Drr (epos r) x (tag1 r) (buf r) (tag2 r).
Definition set_buf x r := Drr (epos r) (spos r) (tag1 r) x (tag2 r).

(** What the constructor of [debug_ring] leaves in the memory it allocates,
    which [make_unique] has set to zero. *)
Definition new_ring : debug_ring_resources_t :=
  Drr 0 0 0xDB60DB60DB60DB60 (replicate (Z.to_nat DEBUG_RING_SIZE) 0) 0x06BD06BD06BD06BD.

Local Open Scope vmm_scope.

(** [gsl::at(m_drr->buf, i)], read and written; out of bounds it throws, which
    ends the hypervisor in a [noexcept] function. *)
Definition at_ (i : Z) : M debug_ring_resources_t Z := fun r =>
  match buf r !! Z.to_nat i with
  | Some b => if i <? 0 then Err terminated r else Ok b r
  | None => Err terminated r
  end.
Definition at_set (i b : Z) : M debug_ring_resources_t unit :=
  at_ i ;;; modify (fun r => set_buf (<[Z.to_nat i := b]> (buf r)) r).

(** The loop that makes room for [len] bytes by removing complete strings. *)
Fixpoint make_room (fuel : nat) (len cpos space : Z) : M debug_ring_resources_t unit :=
  match fuel with
  | O => throw diverges
  | S fuel' =>
      if negb (space <=? DEBUG_RING_SIZE) then ret tt else
      let cpos := if DEBUG_RING_SIZE <=? cpos then 0 else cpos in
      let space := add64 space 1 in
      modify (fun r => set_spos (add64 (spos r) 1) r) ;;;
      b <- at_ cpos ;;
      if (b =? 0) && (len <=? space) then ret tt else
      at_set cpos 0 ;;;
      make_room fuel' len (add64 cpos 1) space
  end.

(** The loop that copies the string and its terminator. *)
Fixpoint copy_in (l : list Z) (ep : Z) : M debug_ring_resources_t unit :=
  match l with
  | [] => ret tt
  | b :: l' =>
      let ep := if DEBUG_RING_SIZE <=? ep then 0 else ep in
      at_set ep b ;;;
      modify (fun r => set_epos (add64 (epos r) 1) r) ;;;
      copy_in l' (add64 ep 1)
  end.

(** [debug_ring::write] of a ring whose memory was allocated *)
Definition write (str : list Z) : M debug_ring_resources_t unit :=
  if (length str =? 0)%nat || (DEBUG_RING_SIZE <=? Z.of_nat (length str)) then ret tt else
  let len := Z.of_nat (length str) + 1 in
  r <- get ;;
  let ep := Z.land (epos r) (DEBUG_RING_SIZE - 1) in
  let cpos := Z.land (spos r) (DEBUG_RING_SIZE - 1) in
  let space := sub64 DEBUG_RING_SIZE (sub64 (epos r) (spos r)) in
  (if space <? len
   then make_room (Z.to_nat (DEBUG_RING_SIZE + 2)) len cpos space
   else ret tt) ;;;
  copy_in (str ++ [0]) ep.

(** ** The reader *)

(** The loop of [debug_ring_read]: [i], [count] and the buffer [str] as they
    are when it ends; a store outside of [str] is a wild access. *)
Fixpoint read_loop (n : nat) (r : debug_ring_resources_t) (sp i count : Z) (str : list Z)
    : option (Z * Z * list Z) :=
  match n with
  | O => Some (i, count, str)
  | S n' =>
      match buf r !! Z.to_nat sp with None => None | Some b =>
      if negb (b =? 0) then
        if count <? Z.of_nat (length str)
        then read_loop n' r (Z.rem (sp + 1) DEBUG_RING_SIZE) (i + 1) (count + 1) (<[Z.to_nat count := b]> str)
        else None
      else read_loop n' r (Z.rem (sp + 1) DEBUG_RING_SIZE) (i + 1) count str
      end
  end.

(** [debug_ring_read] with pointers that are not null: the number of bytes
    read and the buffer *)
Definition debug_ring_read (r : debug_ring_resources_t) (str : list Z) (len : Z) : option (Z * list Z) :=
  if len =? 0 then Some (0, str) else
  if epos r <? spos r then Some (0, str) else
  let content := sub64 (epos r) (spos r) in
  match read_loop (Z.to_nat (Z.min content (len - 1))) r (Z.rem (spos r) DEBUG_RING_SIZE) 0 0 str with
  | Some (i, count, str) =>
      if i <? Z.of_nat (length str) then Some (count, <[Z.to_nat i := 0]> str) else None
  | None => None
  end.

(** ** The rings of all CPUs *)

(** [m_vcpuid] and [m_drr] of a [debug_ring] *)
Record debug_ring := Ring { m_vcpuid : Z; m_drr : Z }.

(** The rings in memory by address, and [drr_map()], where 0 is [nullptr]. *)
Record rings := Rings {
  ring_at : gmap Z debug_ring_resources_t;
  g_drrs : gmap Z Z;
}.

(** The constructor, for the address [p] the allocator returned. *)
Definition debug_ring_ctor (p vcpuid : Z) : M rings debug_ring :=
  modify (fun s => Rings (<[p := new_ring]> (ring_at s)) (<[vcpuid := p]> (g_drrs s))) ;;;
  ret (Ring vcpuid p).

(** The destructor; the memory goes with [m_drr]. *)
Definition debug_ring_dtor (d : debug_ring) : M rings unit :=
  modify (fun s => Rings (delete (m_drr d) (ring_at s)) (delete (m_vcpuid d) (g_drrs s))).

(** [write] of an object *)
Definition ring_write (d : debug_ring) (str : list Z) : M rings unit := fun s =>
  if m_drr d =? 0 then Ok tt s else
  match ring_at s !! m_drr d with
  | None => Err segfault s
  | Some r =>
      match write str r with
      | Ok _ r' => Ok tt (Rings (<[m_drr d := r']> (ring_at s)) (g_drrs s))
      | Err e r' => Err e (Rings (<[m_drr d := r']> (ring_at s)) (g_drrs s))
      end
  end.

Definition GET_DRR_SUCCESS : Z := 0.
Definition GET_DRR_FAILURE : Z := 0x8000000000010000.

(** [get_drr]: the code, and what is stored in [*drr].  [operator[]] of the
    map adds a null pointer for an identifier it does not have. *)
Definition get_drr (vcpuid drr : Z) : M rings (Z * option Z) :=
  if drr =? 0 then ret (GET_DRR_FAILURE, None) else
  s <- get ;;
  let found := default 0 (g_drrs s !! vcpuid) in
  put (Rings (ring_at s) (<[vcpuid := found]> (g_drrs s))) ;;;
  if negb (found =? 0) then ret (GET_DRR_SUCCESS, Some found) else ret (GET_DRR_FAILURE, None).
