(* ===== verification/DebugRingProofs.v ===== *)
(** * The debug ring keeps the most recent strings

    The bytes between the two positions are the strings that were written and
    not removed, each with its terminator.  A write removes the oldest strings,
    as few as it can, so that what the ring holds is the longest tail of the
    history that fits, and the reader returns its text. *)
From S2P Require Import Prelude DebugRing.

Notation SZ := DEBUG_RING_SIZE.

Lemma SZ_value : SZ = 32768.
Proof. reflexivity. Qed.

(** ** Contents *)

Definition byte (r : debug_ring_resources_t) (p : Z) : Z := buf r !!! Z.to_nat (p mod SZ).
Definition contents (r : debug_ring_resources_t) : list Z := byte r <$> seqZ (spos r) (epos r - spos r).

Record ring_wf (r : debug_ring_resources_t) : Prop := {
  rw_buf : length (buf r) = Z.to_nat SZ;
  rw_start : 0 <= spos r <= epos r;
  rw_end : epos r < 2 ^ 64;
  rw_size : epos r - spos r <= SZ;
}.

Lemma contents_length r : ring_wf r -> Z.of_nat (length (contents r)) = epos r - spos r.
Proof. intros [_ ? _ _]. unfold contents. rewrite length_fmap, length_seqZ. lia. Qed.

Lemma mask_mod x : Z.land x (SZ - 1) = x mod SZ.
Proof. change (SZ - 1) with (Z.ones 15). by rewrite Z.land_ones. Qed.

Lemma mod_range x : 0 <= x mod SZ < SZ.
Proof. by apply Z.mod_pos_bound. Qed.

Lemma at_mod r q : length (buf r) = Z.to_nat SZ -> at_ (q mod SZ) r = Ok (byte r q) r.
Proof.
  intros Hl. pose proof (mod_range q). unfold at_, byte.
  rewrite (list_lookup_lookup_total_lt (buf r)) by lia. by destruct (Z.ltb_spec (q mod SZ) 0); [lia|].
Qed.

Lemma at_set_mod r q b : length (buf r) = Z.to_nat SZ ->
  at_set (q mod SZ) b r = Ok tt (set_buf (<[Z.to_nat (q mod SZ) := b]> (buf r)) r).
Proof. intros Hl. unfold at_set. by erewrite bind_ok by by apply at_mod. Qed.

(** What a byte is after a store at another position of the same turn. *)
Lemma byte_set r q b x : length (buf r) = Z.to_nat SZ ->
  byte (set_buf (<[Z.to_nat (q mod SZ) := b]> (buf r)) r) x = if decide (x mod SZ = q mod SZ) then b else byte r x.
Proof.
  intros Hl. pose proof (mod_range q). pose proof (mod_range x). unfold byte. simpl. case_decide as E.
  - rewrite E. by rewrite list_lookup_total_insert_eq by lia.
  - by rewrite list_lookup_total_insert_ne by lia.
Qed.

Lemma mod_apart q x : q < x < q + SZ -> x mod SZ <> q mod SZ.
Proof.
  rewrite SZ_value. intros Hx E. pose proof (Z.div_mod x 32768). pose proof (Z.div_mod q 32768).
  assert (x / 32768 = q / 32768 \/ x / 32768 <> q / 32768) as [?|?] by lia; lia.
Qed.

(** The position that wraps at the end of the buffer. *)
Lemma wrap_mod p c : 0 <= c <= SZ -> c mod SZ = p mod SZ -> (if SZ <=? c then 0 else c) = p mod SZ.
Proof.
  intros Hc <-. destruct (Z.leb_spec SZ c).
  - replace c with SZ by lia. by rewrite Z.mod_same.
  - by rewrite Z.mod_small by lia.
Qed.

Lemma next_mod p : add64 (p mod SZ) 1 = p mod SZ + 1 /\ 0 <= p mod SZ + 1 <= SZ /\ (p mod SZ + 1) mod SZ = (p + 1) mod SZ.
Proof.
  pose proof (mod_range p). split; [|split; [lia|by rewrite Zplus_mod_idemp_l]].
  unfold add64. apply w64_small. rewrite SZ_value in *. unfold u64. lia.
Qed.

(** ** Making room *)

(** The bytes left when at least [need] bytes are removed up to the end of a
    string. *)
Fixpoint drop_room (need : Z) (c : list Z) : list Z :=
  match c with
  | [] => []
  | b :: c' => if (b =? 0) && (need <=? 1) then c' else drop_room (need - 1) c'
  end.

Lemma contents_cons r b c : ring_wf r -> contents r = b :: c ->
  spos r < epos r /\ byte r (spos r) = b /\ byte r <$> seqZ (spos r + 1) (epos r - (spos r + 1)) = c.
Proof.
  intros Hw Hc. pose proof (contents_length r Hw) as Hl. rewrite Hc in Hl. simpl in Hl.
  unfold contents in Hc. rewrite seqZ_cons in Hc by lia. simpl in Hc. injection Hc as Hb Hc.
  split; [lia|]. split; [done|]. rewrite <- Hc. f_equal. f_equal; lia.
Qed.

Lemma make_room_ok fuel c len r cpos : ring_wf r -> contents r = c -> last c = Some 0 ->
  0 <= cpos <= SZ -> cpos mod SZ = spos r mod SZ -> 0 < len <= SZ -> (length c < fuel)%nat ->
  exists r', make_room fuel len cpos (SZ - (epos r - spos r)) r = Ok tt r' /\ ring_wf r' /\
    epos r' = epos r /\ contents r' = drop_room (len - (SZ - (epos r - spos r))) c.
Proof.
  revert c r cpos. induction fuel as [|fuel IH]; intros c r cpos Hw Hc Hlast Hcp Hm Hlen Hf; [lia|].
  destruct c as [|b c]; [done|]. destruct (contents_cons r b c Hw Hc) as (Hlt & Hb & Hrest).
  destruct Hw as [Hbuf Hst Hen Hsz]. assert (add64 (spos r) 1 = spos r + 1) as Hs1.
  { apply w64_small. unfold u64. lia. }
  assert (forall k, 0 <= k <= SZ -> add64 (SZ - k) 1 = SZ - k + 1) as Hsp.
  { intros k ?. apply w64_small. rewrite SZ_value in *. unfold u64. lia. }
  cbn [make_room]. destruct (Z.leb_spec (SZ - (epos r - spos r)) SZ); [|lia]. cbn [negb].
  rewrite (wrap_mod _ _ Hcp Hm), Hsp by lia. cbv zeta. unfold bind at 1. cbn [modify]. rewrite Hs1.
  set (r1 := set_spos (spos r + 1) r). assert (length (buf r1) = Z.to_nat SZ) as Hb1 by done.
  erewrite bind_ok by by apply at_mod. change (byte r1 (spos r)) with (byte r (spos r)). rewrite Hb. cbn [drop_room].
  assert (((len <=? SZ - (epos r - spos r) + 1) = (len - (SZ - (epos r - spos r)) <=? 1))) as -> by lia.
  destruct ((b =? 0) && _) eqn:E.
  - exists r1. split; [done|]. split; [by split; simpl; lia|]. split; [done|]. unfold contents. simpl. by rewrite <- Hrest.
  - erewrite bind_ok by by apply at_set_mod. destruct (next_mod (spos r)) as (-> & Hr1 & Hr2).
    set (r2 := set_buf _ r1). assert (c <> []) as Hne.
    { intros ->. injection Hlast as ->. simpl in E. assert (epos r - spos r = 1); [|lia].
      pose proof (contents_length r ltac:(done)) as Hl. rewrite Hc in Hl. simpl in Hl. lia. }
    assert (contents r2 = c) as Hc2.
    { unfold contents. cbn [r2 r1 set_buf set_spos spos epos]. rewrite <- Hrest. apply list_fmap_ext.
      intros i x Hx. apply lookup_seqZ in Hx as [-> ?]. unfold r2. rewrite byte_set by done.
      rewrite decide_False; [done|]. apply mod_apart. lia. }
    destruct (IH c r2 (spos r mod SZ + 1)) as (r' & He & Hw' & Hp & Hc'); try done.
    + split; simpl; [by rewrite length_insert|lia..].
    + rewrite last_cons in Hlast. destruct (last c) eqn:El; [done|]. by apply last_None in El.
    + simpl in Hf. lia.
    + exists r'. replace (SZ - (epos r - spos r) + 1) with (SZ - (epos r2 - spos r2)) by (simpl; lia).
      split; [done|]. split; [done|]. split; [done|]. rewrite Hc'. f_equal. simpl. lia.
Qed.

(** ** Copying *)

Lemma copy_in_ok l r ep : ring_wf r -> 0 <= ep <= SZ -> ep mod SZ = epos r mod SZ ->
  epos r - spos r + Z.of_nat (length l) <= SZ -> epos r + Z.of_nat (length l) < 2 ^ 64 ->
  exists r', copy_in l ep r = Ok tt r' /\ ring_wf r' /\ spos r' = spos r /\ contents r' = contents r ++ l /\
    epos r' = epos r + Z.of_nat (length l).
Proof.
  revert r ep. induction l as [|b l IH]; intros r ep Hw Hep Hm Hfit Hw64.
  - exists r. simpl. rewrite app_nil_r. repeat split; [apply Hw..|lia].
  - destruct Hw as [Hbuf Hst Hen Hsz]. simpl in Hfit, Hw64. cbn [copy_in]. rewrite (wrap_mod _ _ Hep Hm). cbv zeta.
    erewrite bind_ok by by apply at_set_mod. unfold bind. cbn [modify]. set (r1 := set_buf _ r).
    assert (add64 (epos r1) 1 = epos r + 1) as -> by (apply w64_small; simpl; unfold u64; lia).
    destruct (next_mod (epos r)) as (-> & Hr1 & Hr2). set (r2 := set_epos _ r1).
    assert (contents r2 = contents r ++ [b]) as Hc2.
    { unfold contents. cbn [r2 r1 set_buf set_epos spos epos].
      replace (epos r + 1 - spos r) with ((epos r - spos r) + 1) by lia.
      rewrite seqZ_app by lia. rewrite fmap_app. f_equal.
      - apply list_fmap_ext. intros i x Hx. apply lookup_seqZ in Hx as [-> ?].
        change (byte r2) with (byte r1). unfold r1. rewrite byte_set by done. rewrite decide_False; [done|].
        apply not_eq_sym, mod_apart. lia.
      - replace (spos r + (epos r - spos r)) with (epos r) by lia. simpl. change (byte r2) with (byte r1). unfold r1.
        rewrite Z.add_0_l, byte_set by done. by rewrite decide_True. }
    destruct (IH r2 (epos r mod SZ + 1)) as (r' & He & Hw' & Hs & Hc' & Hp); try done.
    + split; simpl; [by rewrite length_insert|lia..].
    + simpl. lia.
    + simpl. lia.
    + exists r'. split; [done|]. split; [done|]. split; [done|]. rewrite Hc', Hc2, <- app_assoc. split; [done|]. rewrite Hp. simpl. lia.
Qed.

(** ** Strings *)

(** The bytes of a queue of strings. *)
Definition encode (q : list (list Z)) : list Z := concat ((fun s => s ++ [0]) <$> q).
Definition no_nul (s : list Z) : Prop := Forall (fun b => b <> 0) s.

(** What [write] accepts. *)
Definition writable (s : list Z) : bool := negb (length s =? 0)%nat && (Z.of_nat (length s) <? SZ).

(** The strings left when at least [need] bytes are removed. *)
Fixpoint drop_strings (need : Z) (q : list (list Z)) : list (list Z) :=
  match q with
  | [] => []
  | s :: q' => if need <=? 0 then q else drop_strings (need - (Z.of_nat (length s) + 1)) q'
  end.

(** The reference: from the newest string on, all strings that fit into
    [room] bytes, up to the first that does not. *)
Fixpoint recent (room : Z) (newest_first : list (list Z)) : list (list Z) :=
  match newest_first with
  | [] => []
  | s :: l => if Z.of_nat (length s) + 1 <=? room then s :: recent (room - (Z.of_nat (length s) + 1)) l else []
  end.

(** What the ring holds of a history, oldest string first. *)
Definition kept (history : list (list Z)) : list (list Z) :=
  rev (recent SZ (rev (base.filter (fun s => writable s = true) history))).

Definition total (q : list (list Z)) : Z := Z.of_nat (length (encode q)).

Lemma total_cons s q : total (s :: q) = Z.of_nat (length s) + 1 + total q.
Proof. unfold total, encode. rewrite fmap_cons. cbn [concat]. rewrite !length_app. cbn [length]. lia. Qed.

Lemma total_nil : total [] = 0.
Proof. reflexivity. Qed.

Lemma ring_total_app q q' : total (q ++ q') = total q + total q'.
Proof. unfold total, encode. rewrite fmap_app, concat_app, length_app. lia. Qed.

Lemma total_pos q : 0 <= total q.
Proof. unfold total. lia. Qed.

Lemma encode_app q q' : encode (q ++ q') = encode q ++ encode q'.
Proof. unfold encode. by rewrite fmap_app, concat_app. Qed.

Lemma encode_last q : q <> [] -> last (encode q) = Some 0.
Proof.
  intros Hq. destruct (exists_last Hq) as (q' & s & ->). rewrite encode_app. unfold encode at 2. simpl.
  rewrite app_nil_r, app_assoc. apply last_snoc.
Qed.

Lemma drop_room_string s c need : no_nul s ->
  drop_room need (s ++ 0 :: c) =
    if need <=? Z.of_nat (length s) + 1 then c else drop_room (need - (Z.of_nat (length s) + 1)) c.
Proof.
  intros Hs. revert need. induction Hs as [|b s Hb Hs IH]; intros need; cbn [app drop_room length].
  - change (0 =? 0) with true. change (Z.of_nat 0 + 1) with 1. done.
  - rewrite (proj2 (Z.eqb_neq b 0)) by done. cbn [andb]. rewrite IH.
    rewrite Nat2Z.inj_succ. destruct (Z.leb_spec (need - 1) (Z.of_nat (length s) + 1)), (Z.leb_spec need (Z.succ (Z.of_nat (length s)) + 1)); try lia; [done|].
    f_equal. lia.
Qed.

Lemma drop_strings_le need q : need <= 0 -> drop_strings need q = q.
Proof. intros ?. destruct q; [done|]. simpl. by destruct (Z.leb_spec need 0); [|lia]. Qed.

Lemma drop_room_encode q need : 0 < need -> Forall no_nul q -> drop_room need (encode q) = encode (drop_strings need q).
Proof.
  revert need. induction q as [|s q IH]; intros need Hn Hq; [done|]. inversion Hq as [|s' q' Hs Hq']; subst.
  unfold encode at 1. simpl. fold (encode q). rewrite <- app_assoc. simpl. rewrite drop_room_string by done.
  destruct (Z.leb_spec need (Z.of_nat (length s) + 1)).
  - simpl. destruct (Z.leb_spec need 0); [lia|]. by rewrite drop_strings_le by lia.
  - simpl. destruct (Z.leb_spec need 0); [lia|]. apply IH; [lia|done].
Qed.

Lemma drop_strings_suffix need q : drop_strings need q `suffix_of` q.
Proof.
  revert need. induction q as [|s q IH]; intros need; [done|]. simpl. destruct (need <=? 0); [done|].
  by apply suffix_cons_r.
Qed.

Lemma recent_all room q s : total (rev q ++ [s]) <= room -> recent room (rev q ++ [s]) = rev q ++ [s].
Proof.
  generalize (rev q ++ [s]). intros l. revert room. induction l as [|x l IH]; intros room Hr; [done|].
  rewrite total_cons in Hr. simpl. pose proof (total_pos l).
  destruct (Z.leb_spec (Z.of_nat (length x) + 1) room); [|lia]. f_equal. apply IH. lia.
Qed.

Lemma recent_snoc room l s : room < total (l ++ [s]) -> recent room (l ++ [s]) = recent room l.
Proof.
  revert room. induction l as [|x l IH]; intros room Hr; simpl.
  - change ([] ++ [s]) with [s] in Hr. rewrite total_cons in Hr. destruct (Z.leb_spec (Z.of_nat (length s) + 1) room); [|done]. rewrite total_nil in Hr. lia.
  - simpl in Hr. rewrite total_cons in Hr. destruct (Z.leb_spec (Z.of_nat (length x) + 1) room); [|done]. f_equal. apply IH. lia.
Qed.

Lemma total_rev q : total (rev q) = total q.
Proof. induction q as [|s q IH]; [done|]. simpl. rewrite ring_total_app, IH, !total_cons, total_nil. lia. Qed.

(** Removing as few of the oldest strings as possible is keeping as many of
    the newest as fit. *)
Lemma drop_is_recent room q : drop_strings (total q - room) q = rev (recent room (rev q)).
Proof.
  induction q as [|s q IH]; [done|]. cbn [drop_strings rev]. destruct (Z.leb_spec (total (s :: q) - room) 0).
  - rewrite recent_all; [by rewrite rev_app_distr, rev_involutive|].
    change (rev q ++ [s]) with (rev (s :: q)). rewrite total_rev. lia.
  - rewrite recent_snoc.
    + rewrite <- IH. f_equal. rewrite total_cons. lia.
    + change (rev q ++ [s]) with (rev (s :: q)). rewrite total_rev. lia.
Qed.

Lemma recent_recent room room' l : room' <= room -> recent room' (recent room l) = recent room' l.
Proof.
  revert room room'. induction l as [|s l IH]; intros room room' Hr; [done|]. simpl.
  destruct (Z.leb_spec (Z.of_nat (length s) + 1) room); simpl.
  - destruct (Z.leb_spec (Z.of_nat (length s) + 1) room'); [|done]. f_equal. apply IH. lia.
  - by destruct (Z.leb_spec (Z.of_nat (length s) + 1) room'); [lia|].
Qed.

Lemma recent_total room l : 0 <= room -> total (recent room l) <= room.
Proof.
  revert room. induction l as [|s l IH]; intros room Hr; [done|]. simpl.
  destruct (Z.leb_spec (Z.of_nat (length s) + 1) room); [|done]. rewrite total_cons.
  specialize (IH (room - (Z.of_nat (length s) + 1)) ltac:(lia)). lia.
Qed.

Lemma recent_forall (P : list Z -> Prop) room l : Forall P l -> Forall P (recent room l).
Proof.
  intros Hl. revert room. induction Hl as [|s l Hs _ IH]; intros room; simpl; [constructor|].
  case_match; by constructor.
Qed.

(** ** Writing *)

Lemma encode_single s : encode [s] = s ++ [0].
Proof. unfold encode. simpl. by rewrite app_nil_r. Qed.

Lemma encode_nil_inv q : encode q = [] -> q = [].
Proof. destruct q as [|s q]; [done|]. unfold encode. simpl. by destruct s. Qed.

Lemma ring_space r : ring_wf r -> sub64 SZ (sub64 (epos r) (spos r)) = SZ - (epos r - spos r).
Proof.
  intros [_ ? ? ?]. rewrite SZ_value in *. unfold sub64. rewrite (w64_small (epos r - spos r)) by (unfold u64; lia).
  apply w64_small. unfold u64. lia.
Qed.

Lemma write_ok r q s : ring_wf r -> contents r = encode q -> Forall no_nul q -> writable s = true ->
  epos r + (Z.of_nat (length s) + 1) < 2 ^ 64 ->
  exists r', write s r = Ok tt r' /\ ring_wf r' /\ epos r' = epos r + (Z.of_nat (length s) + 1) /\
    contents r' = encode (drop_strings (total q - (SZ - (Z.of_nat (length s) + 1))) q ++ [s]).
Proof.
  intros Hw Hc Hq Hs Hb. apply andb_true_iff in Hs as [Hs1 Hs2]. apply negb_true_iff in Hs1.
  pose proof (contents_length r Hw) as Hl. rewrite Hc in Hl. fold (total q) in Hl.
  unfold write. rewrite Hs1. destruct (Z.leb_spec SZ (Z.of_nat (length s))); [lia|]. cbn [orb].
  rewrite bind_get. cbv zeta. rewrite !mask_mod, ring_space by done.
  set (len := Z.of_nat (length s) + 1) in *. set (need := total q - (SZ - len)).
  assert (Z.of_nat (length (s ++ [0])) = len) as Hlen by (rewrite length_app; simpl; lia).
  pose proof (mod_range (epos r)) as He. pose proof (mod_range (spos r)) as Hsp.
  assert (exists r1, (if SZ - (epos r - spos r) <? len
    then make_room (Z.to_nat (SZ + 2)) len (spos r mod SZ) (SZ - (epos r - spos r)) else ret tt) r = Ok tt r1 /\
    ring_wf r1 /\ epos r1 = epos r /\ contents r1 = encode (drop_strings need q)) as (r1 & Hr1 & Hw1 & He1 & Hc1).
  { destruct (Z.ltb_spec (SZ - (epos r - spos r)) len).
    - destruct (make_room_ok (Z.to_nat (SZ + 2)) (encode q) len r (spos r mod SZ)) as (r1 & E & Hw1 & He1 & Hc1); try done.
      + apply encode_last. intros ->. rewrite total_nil in Hl. unfold len in *. lia.
      + lia.
      + by rewrite Z.mod_mod.
      + unfold len in *. lia.
      + destruct Hw. fold (total q) in *. unfold total in *. lia.
      + exists r1. split; [done|]. split; [done|]. split; [done|]. rewrite Hc1.
        replace (len - (SZ - (epos r - spos r))) with need by (unfold need; lia).
        apply drop_room_encode; [unfold need; lia|done].
    - exists r. split; [done|]. split; [done|]. split; [done|]. rewrite Hc, drop_strings_le by (unfold need; lia). done. }
  erewrite bind_ok by apply Hr1. pose proof (contents_length r1 Hw1) as Hl1. rewrite Hc1 in Hl1. fold (total (drop_strings need q)) in Hl1.
  assert (total (drop_strings need q) <= SZ - len) as Hfit.
  { unfold need. rewrite drop_is_recent, total_rev. apply recent_total. unfold len. lia. }
  destruct (copy_in_ok (s ++ [0]) r1 (epos r mod SZ)) as (r' & E & Hw' & _ & Hc' & He'); try done.
  - lia.
  - by rewrite Z.mod_mod, He1.
  - lia.
  - lia.
  - exists r'. split; [done|]. split; [done|]. split; [lia|]. rewrite Hc', Hc1, encode_app, encode_single. done.
Qed.

Lemma write_skip r s : writable s = false -> write s r = Ok tt r.
Proof.
  intros Hs. unfold write. unfold writable in Hs. apply andb_false_iff in Hs as [Hs|Hs].
  - apply negb_false_iff in Hs. by rewrite Hs.
  - destruct (Z.leb_spec SZ (Z.of_nat (length s))); [|lia]. by rewrite orb_true_r.
Qed.

Lemma kept_snoc h s : kept (h ++ [s]) =
  if writable s then drop_strings (total (kept h) - (SZ - (Z.of_nat (length s) + 1))) (kept h) ++ [s] else kept h.
Proof.
  unfold kept. rewrite filter_app, rev_app_distr. destruct (writable s) eqn:E.
  - rewrite filter_cons_True, filter_nil by done. cbn [rev app recent].
    assert (Z.of_nat (length s) + 1 <=? SZ = true) as -> by (unfold writable in E; lia). cbn [rev].
    rewrite drop_is_recent, rev_involutive, recent_recent by lia. done.
  - rewrite filter_cons_False, filter_nil by (by rewrite E). done.
Qed.

Lemma kept_no_nul h : Forall no_nul h -> Forall no_nul (kept h).
Proof.
  intros Hh. unfold kept. apply Forall_rev, recent_forall, Forall_rev.
  apply Forall_forall. intros s [_ Hs]%list_elem_of_filter. by eapply Forall_forall in Hh.
Qed.

(** After any history of writes the ring holds what is kept of it. *)
Lemma writes_ok h : Forall no_nul h -> total h < 2 ^ 64 ->
  exists r, for_each h write new_ring = Ok tt r /\ ring_wf r /\ contents r = encode (kept h) /\ epos r <= total h.
Proof.
  induction h as [|s h IH] using rev_ind; intros Hn Ht.
  - exists new_ring. split; [done|]. split; [|done]. split; [apply length_replicate|simpl; lia..|rewrite SZ_value; simpl; lia].
  - apply Forall_app in Hn as [Hn _]. rewrite ring_total_app, total_cons, total_nil in Ht.
    destruct IH as (r & Hr & Hw & Hc & He); [done|lia|]. rewrite for_each_app, (bind_ok _ _ _ _ _ Hr). cbn [for_each].
    rewrite kept_snoc, ring_total_app, total_cons, total_nil. destruct (writable s) eqn:E.
    + destruct (write_ok r (kept h) s) as (r' & Hr' & Hw' & He' & Hc'); [done..|by apply kept_no_nul|done|lia|].
      exists r'. rewrite (bind_ok _ _ _ _ _ Hr'). split; [done|]. split; [done|]. split; [done|lia].
    + exists r. rewrite (bind_ok _ _ _ _ _ (write_skip r s E)). split; [done|]. split; [done|]. split; [done|lia].
Qed.

(** ** Reading *)

Definition text (c : list Z) : list Z := base.filter (fun b => b <> 0) c.

Lemma text_encode q : Forall no_nul q -> text (encode q) = concat q.
Proof.
  induction 1 as [|s q Hs _ IH]; [done|]. unfold encode, text. rewrite fmap_cons. cbn [concat].
  rewrite !filter_app. f_equal; [|by apply IH]. rewrite filter_cons_False, filter_nil by auto.
  rewrite app_nil_r. induction Hs; [done|]. rewrite filter_cons_True by done. by f_equal.
Qed.

Lemma rem_next p : 0 <= p -> Z.rem (p mod SZ + 1) SZ = (p + 1) mod SZ.
Proof. intros ?. pose proof (mod_range p). rewrite Z.rem_mod_nonneg by (rewrite SZ_value in *; lia). by rewrite Zplus_mod_idemp_l. Qed.

Lemma read_loop_ok n r p i done_ str : length (buf r) = Z.to_nat SZ -> 0 <= p ->
  (length done_ + n <= length str)%nat ->
  read_loop n r (p mod SZ) i (Z.of_nat (length done_)) (done_ ++ drop (length done_) str) =
    Some (i + Z.of_nat n, Z.of_nat (length (done_ ++ text (byte r <$> seqZ p (Z.of_nat n)))),
      (done_ ++ text (byte r <$> seqZ p (Z.of_nat n))) ++ drop (length (done_ ++ text (byte r <$> seqZ p (Z.of_nat n)))) str).
Proof.
  intros Hb. revert p i done_. induction n as [|n IH]; intros p i d Hp Hl.
  - simpl. unfold text. rewrite filter_nil, app_nil_r, Z.add_0_r. done.
  - cbn [read_loop]. pose proof (mod_range p). rewrite (list_lookup_lookup_total_lt (buf r)) by lia. fold (byte r p).
    rewrite rem_next by done. rewrite (seqZ_cons p) by lia. replace (Z.pred (Z.of_nat (S n))) with (Z.of_nat n) by lia.
    replace (Z.succ p) with (p + 1) by lia. rewrite fmap_cons. unfold text. replace (i + Z.of_nat (S n)) with (i + 1 + Z.of_nat n) by lia.
    destruct (Z.eqb_spec (byte r p) 0) as [E|E]; cbn [negb].
    + rewrite filter_cons_False by auto. apply IH; lia.
    + rewrite filter_cons_True by done. rewrite length_app, length_drop.
      destruct (Z.ltb_spec (Z.of_nat (length d)) (Z.of_nat (length d + (length str - length d)))); [|lia].
      rewrite Nat2Z.id, insert_app_r_alt, Nat.sub_diag by lia.
      destruct (drop (length d) str) as [|x rest] eqn:Ed.
      { apply (f_equal length) in Ed. rewrite length_drop in Ed. simpl in Ed. lia. }
      cbn [insert list_insert]. replace (Z.of_nat (length d) + 1) with (Z.of_nat (length (d ++ [byte r p]))) by (rewrite length_app; simpl; lia).
      assert (rest = drop (length (d ++ [byte r p])) str) as ->.
      { rewrite length_app. cbn [length]. rewrite <- drop_drop, Ed. done. }
      replace (d ++ byte r p :: drop (length (d ++ [byte r p])) str) with ((d ++ [byte r p]) ++ drop (length (d ++ [byte r p])) str) by by rewrite <- app_assoc.
      rewrite IH; [|lia|rewrite length_app; simpl; lia]. unfold text. by rewrite <- !app_assoc.
Qed.

Lemma contents_take r n : ring_wf r -> Z.of_nat n <= epos r - spos r -> take n (contents r) = byte r <$> seqZ (spos r) (Z.of_nat n).
Proof.
  intros Hw Hn. unfold contents. rewrite <- fmap_take. f_equal.
  replace (epos r - spos r) with (Z.of_nat n + (epos r - spos r - Z.of_nat n)) by lia.
  rewrite seqZ_app by lia. rewrite take_app_le by (rewrite length_seqZ; lia). rewrite take_ge; [done|]. rewrite length_seqZ. lia.
Qed.

Lemma ring_read_ok r str len : ring_wf r -> 0 < len <= Z.of_nat (length str) ->
  let out := text (take (Z.to_nat (len - 1)) (contents r)) in
  debug_ring_read r str len = Some (Z.of_nat (length out),
    <[Z.to_nat (Z.min (Z.of_nat (length (contents r))) (len - 1)) := 0]> (out ++ drop (length out) str)).
Proof.
  intros Hw Hlen. cbv zeta. pose proof (contents_length r Hw) as Hl. pose proof Hw as [Hb Hs He Hz]. unfold debug_ring_read.
  destruct (Z.eqb_spec len 0) as [?|_]; [lia|]. destruct (Z.ltb_spec (epos r) (spos r)); [lia|].
  assert (sub64 (epos r) (spos r) = epos r - spos r) as -> by (apply w64_small; unfold u64; lia).
  rewrite Z.rem_mod_nonneg by (rewrite ?SZ_value; lia). set (n := Z.to_nat (Z.min (epos r - spos r) (len - 1))).
  pose proof (read_loop_ok n r (spos r) 0 [] str Hb ltac:(lia) ltac:(simpl; lia)) as Hr. cbn [app length drop] in Hr.
  change (Z.of_nat 0) with 0 in Hr. rewrite drop_0 in Hr. rewrite Hr.
  assert (take (Z.to_nat (len - 1)) (contents r) = byte r <$> seqZ (spos r) (Z.of_nat n)) as ->.
  { destruct (Z.le_gt_cases (len - 1) (epos r - spos r)).
    - rewrite contents_take by (done || lia). by replace n with (Z.to_nat (len - 1)) by lia.
    - rewrite take_ge by lia. unfold contents. by replace (epos r - spos r) with (Z.of_nat n) by lia. }
  assert (length (text (byte r <$> seqZ (spos r) (Z.of_nat n))) <= n)%nat as Hn.
  { unfold text. etrans; [apply length_filter|]. rewrite length_fmap, length_seqZ. lia. }
  rewrite length_app, length_drop. destruct (Z.ltb_spec (0 + Z.of_nat n) (Z.of_nat (length (text (byte r <$> seqZ (spos r) (Z.of_nat n))) + (length str - length (text (byte r <$> seqZ (spos r) (Z.of_nat n))))))); [|lia].
  repeat f_equal. rewrite Hl. lia.
Qed.

(** ** The rings of all CPUs *)

Local Open Scope vmm_scope.

Lemma ring_writes d h s r r' : m_drr d <> 0 -> ring_at s !! m_drr d = Some r -> for_each h write r = Ok tt r' ->
  for_each h (ring_write d) s = Ok tt (Rings (<[m_drr d := r']> (ring_at s)) (g_drrs s)).
Proof.
  intros Hd. revert s r. induction h as [|x h IH]; intros s r Hr Hw; cbn [for_each] in *.
  - injection Hw as <-. rewrite insert_id by done. by destruct s.
  - unfold bind in *. unfold ring_write at 1. rewrite (proj2 (Z.eqb_neq _ _)) by done. rewrite Hr.
    destruct (write x r) as [[] r1|e r1] eqn:E; [|done].
    erewrite IH; [|by apply lookup_insert_eq|done]. simpl. by rewrite insert_insert_eq.
Qed.

(** After a ring is gone, its identifier has none. *)
Lemma dtor_forgets d drr s s' : debug_ring_dtor d s = Ok tt s' ->
  exists s'', get_drr (m_vcpuid d) drr s' = Ok (GET_DRR_FAILURE, None) s''.
Proof.
  intros [= <-]. unfold get_drr. destruct (drr =? 0); [by eexists|]. rewrite bind_get. simpl.
  rewrite lookup_delete_eq. simpl. by eexists.
Qed.

(** C31: The driver finds the ring of a CPU by the CPU's identifier, and in it the
    longest tail of everything that was ever written that fits, terminators
    included: the reader returns its text, up to the bytes that the buffer has
    room for, and with a buffer larger than the ring all of it.  Strings that
    are empty or longer than the ring are ignored.  The terminator is stored
    after as many bytes as were looked at, which is later than after the text
    that was copied. *)
Theorem debug_ring_recent p cpu drr h s str len : p <> 0 -> drr <> 0 -> Forall no_nul h -> total h < 2 ^ 64 ->
  0 < len <= Z.of_nat (length str) ->
  let bytes := encode (kept h) in
  let out := text (take (Z.to_nat (len - 1)) bytes) in
  exists s' r,
    (d <- debug_ring_ctor p cpu ;; for_each h (ring_write d) ;;; get_drr cpu drr) s = Ok (GET_DRR_SUCCESS, Some p) s' /\
    ring_at s' = <[p := r]> (ring_at s) /\
    debug_ring_read r str len = Some (Z.of_nat (length out),
      <[Z.to_nat (Z.min (Z.of_nat (length bytes)) (len - 1)) := 0]> (out ++ drop (length out) str)) /\
    (SZ < len -> out = concat (kept h)).
Proof.
  intros Hp Hd Hn Ht Hlen bytes out. destruct (writes_ok h Hn Ht) as (r & Hr & Hw & Hc & _).
  set (s1 := Rings (<[p := new_ring]> (ring_at s)) (<[cpu := p]> (g_drrs s))).
  pose proof (ring_writes (Ring cpu p) h s1 new_ring r Hp (lookup_insert_eq _ _ _) Hr) as Hws.
  unfold bind at 1. change (debug_ring_ctor p cpu s) with (Ok (Ring cpu p) s1). cbv beta iota.
  erewrite bind_ok by apply Hws. unfold get_drr. rewrite (proj2 (Z.eqb_neq drr 0)) by done. rewrite bind_get.
  cbn [s1 g_drrs ring_at]. rewrite lookup_insert_eq. cbn [default]. unfold bind, put. cbn [from_option id].
  rewrite (proj2 (Z.eqb_neq p 0)) by done. cbn [negb]. eexists _, r. split; [done|]. split; [simpl; by rewrite insert_insert_eq|].
  unfold out, bytes. rewrite <- Hc. split; [by apply ring_read_ok|]. intros Hsz. rewrite take_ge.
  - rewrite Hc. by apply text_encode, kept_no_nul.
  - pose proof (contents_length r Hw). destruct Hw. lia.
Qed.

Lemma debug_ring_recent_witness : exists s' r,
  (d <- debug_ring_ctor 0x1000 3 ;; for_each [[72; 105]; []; [33]] (ring_write d) ;;; get_drr 3 0x2000) (Rings ∅ ∅) =
    Ok (GET_DRR_SUCCESS, Some 0x1000) s' /\
  ring_at s' = <[0x1000 := r]> ∅ /\
  debug_ring_read r [1; 1; 1; 1; 1; 1] 6 = Some (3, [72; 105; 33; 1; 1; 0]).
Proof.
  destruct (debug_ring_recent 0x1000 3 0x2000 [[72; 105]; []; [33]] (Rings ∅ ∅) [1; 1; 1; 1; 1; 1] 6)
    as (s' & r & H1 & H2 & H3 & _); [done..|repeat constructor; lia|done|done|].
  by exists s', r.
Defined.
