(* ===== verification/Vcpu.v ===== *)
(** * Virtual CPUs, their manager and the entry point of the hypervisor

    Models [bareflank/bfvmm/src/vcpu/vcpu.cpp] (with [vcpu.h] and
    [bfvcpuid.h]), the generic manager [bareflank/bfsdk/include/bfmanager.h]
    and the requests of [bareflank/bfvmm/src/entry/entry.cpp].  A delegate is a
    computation on the rest of the machine, whose state is a parameter [W]. *)
From S2P Require Import Prelude Guard Bits Buddy MemMgr DebugRing Driver.

Local Open Scope vmm_scope.

(** ** Identifiers *)

Definition vcpuid_reserved : Z := 0x8000000000000000.
Definition vcpuid_guest_mask : Z := 0xFFFFFFFFFFFF0000.
Definition is_bootstrap_vcpu (id : Z) : bool := id =? 0.
Definition is_hvm_vcpu (id : Z) : bool :=
  Z.land id (Z.land vcpuid_guest_mask (not64 vcpuid_reserved)) =? 0.

Section Machine.
Context {W : Type}.

(** A delegate, applied to the [bfobject] that is passed around. *)
Definition delegate : Type := Z -> M W unit.

(** [class vcpu] *)
Record vcpu := Vcpu {
  m_id : Z;
  m_is_running : bool;
  m_is_initialized : bool;
  m_run_delegates : list delegate;
  m_hlt_delegates : list delegate;
  m_init_delegates : list delegate;
  m_fini_delegates : list delegate;
}.

Definition set_running b v := Vcpu (m_id v) b (m_is_initialized v)
  (m_run_delegates v) (m_hlt_delegates v) (m_init_delegates v) (m_fini_delegates v).
Definition set_initialized b v := Vcpu (m_id v) (m_is_running v) b
  (m_run_delegates v) (m_hlt_delegates v) (m_init_delegates v) (m_fini_delegates v).

Definition vcpu_ctor (id : Z) : M W vcpu :=
  if negb (Z.land id vcpuid_reserved =? 0) then throw (invalid_argument "invalid vcpuid")
  else ret (Vcpu id false false [] [] [] []).

(** [push_front] of each list *)
Definition add_run_delegate d v := Vcpu (m_id v) (m_is_running v) (m_is_initialized v)
  (d :: m_run_delegates v) (m_hlt_delegates v) (m_init_delegates v) (m_fini_delegates v).
Definition add_hlt_delegate d v := Vcpu (m_id v) (m_is_running v) (m_is_initialized v)
  (m_run_delegates v) (d :: m_hlt_delegates v) (m_init_delegates v) (m_fini_delegates v).
Definition add_init_delegate d v := Vcpu (m_id v) (m_is_running v) (m_is_initialized v)
  (m_run_delegates v) (m_hlt_delegates v) (d :: m_init_delegates v) (m_fini_delegates v).
Definition add_fini_delegate d v := Vcpu (m_id v) (m_is_running v) (m_is_initialized v)
  (m_run_delegates v) (m_hlt_delegates v) (m_init_delegates v) (d :: m_fini_delegates v).

(** A step of the machine while a virtual CPU is at hand. *)
Definition on_world {A B} (m : M W B) : M (A * W) B := fun s =>
  match m s.2 with Ok b w => Ok b (s.1, w) | Err e w => Err e (s.1, w) end.

Definition on_vcpu (f : vcpu -> vcpu) : M (vcpu * W) unit := modify (fun s => (f s.1, s.2)).

(** [for (const auto &d : delegates) d(obj);] *)
Definition call_all (ds : list delegate) (obj : Z) : M W unit := for_each ds (fun d => d obj).

Definition vcpu_run (obj : Z) : M (vcpu * W) unit :=
  s <- get ;; on_world (call_all (m_run_delegates s.1) obj) ;;; on_vcpu (set_running true).

Definition vcpu_hlt (obj : Z) : M (vcpu * W) unit :=
  s <- get ;; on_world (call_all (m_hlt_delegates s.1) obj) ;;; on_vcpu (set_running false).

Definition vcpu_init (obj : Z) : M (vcpu * W) unit :=
  s <- get ;; on_world (call_all (m_init_delegates s.1) obj) ;;; on_vcpu (set_initialized true).

Definition vcpu_fini (obj : Z) : M (vcpu * W) unit :=
  s <- get ;;
  (if m_is_running s.1 then vcpu_hlt 0 else ret tt) ;;;
  on_world (call_all (m_fini_delegates s.1) obj) ;;;
  on_vcpu (set_initialized false).

(** ** The manager *)

(** The factory, which a hypervisor replaces by its own, and the destructor of
    the objects it makes; a null pointer is [None]. *)
Class Factory := {
  make : Z -> Z -> M W (option vcpu);
  dispose : vcpu -> W -> W;
}.
Context `{Factory}.

(** [m_ts] and the rest of the machine *)
Record manager := Manager { m_ts : gmap Z (option vcpu); world : W }.

(** [operator[]] adds a null pointer for an identifier that is not there. *)
Definition get_t (id : Z) : M manager (option vcpu) := fun s =>
  let t := default None (m_ts s !! id) in
  Ok t (Manager (<[id := t]> (m_ts s)) (world s)).

Definition erase_t (id : Z) : M manager unit := modify (fun s =>
  Manager (delete id (m_ts s))
    (match m_ts s !! id with Some (Some v) => dispose v (world s) | _ => world s end)).

Definition make_t (id obj : Z) : M manager (option vcpu) := fun s =>
  match make id obj (world s) with
  | Ok t w => Ok t (Manager (m_ts s) w)
  | Err e w => Err e (Manager (m_ts s) w)
  end.

Definition add_t (id obj : Z) : M manager (option vcpu) :=
  t <- get_t id ;;
  match t with
  | Some _ => ret t
  | None =>
      t <- make_t id obj ;;
      match t with
      | Some v => modify (fun s => Manager (<[id := Some v]> (m_ts s)) (world s)) ;;; ret t
      | None => throw (runtime_error "make returned a nullptr")
      end
  end.

(** A member function of the object [t] refers to. *)
Definition on_t (id : Z) (t : option vcpu) (f : M (vcpu * W) unit) : M manager unit :=
  match t with
  | None => ret tt
  | Some v => fun s =>
      match f (v, world s) with
      | Ok _ (v', w) => Ok tt (Manager (<[id := Some v']> (m_ts s)) w)
      | Err e (v', w) => Err e (Manager (<[id := Some v']> (m_ts s)) w)
      end
  end.

Definition create (id obj : Z) : M manager unit :=
  on_failure (erase_t id) (t <- add_t id obj ;; on_t id t (vcpu_init obj)).

Definition destroy (id obj : Z) : M manager unit :=
  finally (erase_t id) (t <- get_t id ;; on_t id t (vcpu_fini obj)).

Definition run (id obj : Z) : M manager unit :=
  t <- get_t id ;; on_t id t (vcpu_run obj).

Definition hlt (id obj : Z) : M manager unit :=
  t <- get_t id ;; on_t id t (vcpu_hlt obj).

(** ** Requests *)

(** The machine besides virtual CPUs: what an extension passes to each step,
    and the memory of the driver. *)
Class Extension := {
  pre_create_vcpu : Z -> Z;
  pre_run_vcpu : Z -> Z;
  pre_hlt_vcpu : Z -> Z;
  pre_destroy_vcpu : Z -> Z;
  md_at : W -> Z -> option (Z * Z * Z);
  store_ptr : Z -> Z -> W -> W;
}.
Context `{Extension}.

Definition ENTRY_SUCCESS : Z := 0.
Definition ENTRY_ERROR_VMM_START_FAILED : Z := 0x8000000000000030.
Definition ENTRY_ERROR_VMM_STOP_FAILED : Z := 0x8000000000000040.
Definition ENTRY_ERROR_UNKNOWN : Z := 0x8000000000000050.
Definition MEMORY_MANAGER_FAILURE : Z := 0x8000000001000000.

(** The globals of the hypervisor *)
Record vmm := Vmm {
  g_vcm : manager;
  g_mm : mm;
  h_rsdp : Z;
  h_rings : rings;
}.

Definition in_vcm {A} (m : M manager A) : M vmm A := fun s =>
  match m (g_vcm s) with
  | Ok a x => Ok a (Vmm x (g_mm s) (h_rsdp s) (h_rings s))
  | Err e x => Err e (Vmm x (g_mm s) (h_rsdp s) (h_rings s))
  end.
Definition in_mm {A} (m : M mm A) : M vmm A := fun s =>
  match m (g_mm s) with
  | Ok a x => Ok a (Vmm (g_vcm s) x (h_rsdp s) (h_rings s))
  | Err e x => Err e (Vmm (g_vcm s) x (h_rsdp s) (h_rings s))
  end.
Definition in_rings {A} (m : M rings A) : M vmm A := fun s =>
  match m (h_rings s) with
  | Ok a x => Ok a (Vmm (g_vcm s) (g_mm s) (h_rsdp s) x)
  | Err e x => Err e (Vmm (g_vcm s) (g_mm s) (h_rsdp s) x)
  end.

Definition private_init : M vmm Z := ret ENTRY_SUCCESS.
Definition private_fini : M vmm Z := ret ENTRY_SUCCESS.

Definition private_add_md (md : Z) : M vmm Z :=
  guard_exceptions MEMORY_MANAGER_FAILURE (
    s <- get ;;
    match md_at (world (g_vcm s)) md with
    | None => throw segfault
    | Some (virt, phys, type) => in_mm (add_md virt phys type)
    end).

Definition private_set_rsdp (rsdp : Z) : M vmm Z :=
  modify (fun s => Vmm (g_vcm s) (g_mm s) rsdp (h_rings s)) ;;; ret ENTRY_SUCCESS.

Definition private_init_vmm (arg : Z) : M vmm Z :=
  in_vcm (guard_exceptions ENTRY_ERROR_VMM_START_FAILED (
    create arg (pre_create_vcpu arg) ;;;
    on_failure (destroy arg 0) (run arg (pre_run_vcpu arg)))).

Definition private_fini_vmm (arg : Z) : M vmm Z :=
  in_vcm (guard_exceptions ENTRY_ERROR_VMM_STOP_FAILED (
    hlt arg (pre_hlt_vcpu arg) ;;;
    destroy arg (pre_destroy_vcpu arg))).

(** [get_drr], which stores the address of the ring where the driver asks. *)
Definition private_get_drr (vcpuid drr : Z) : M vmm Z :=
  r <- in_rings (get_drr vcpuid drr) ;;
  match r.2 with
  | None => ret tt
  | Some p => in_vcm (modify (fun s => Manager (m_ts s) (store_ptr drr p (world s))))
  end ;;;
  ret r.1.

Definition bfmain (request arg1 arg2 arg3 : Z) : M vmm Z :=
  if request =? BF_REQUEST_INIT then private_init else
  if request =? BF_REQUEST_FINI then private_fini else
  if request =? BF_REQUEST_ADD_MDL then private_add_md arg1 else
  if request =? BF_REQUEST_SET_RSDP then private_set_rsdp arg1 else
  if request =? BF_REQUEST_GET_DRR then private_get_drr arg1 arg2 else
  if request =? BF_REQUEST_VMM_INIT then private_init_vmm arg1 else
  if request =? BF_REQUEST_VMM_FINI then private_fini_vmm arg1 else
  ret ENTRY_ERROR_UNKNOWN.

End Machine.
Arguments delegate : clear implicits.
Arguments vcpu : clear implicits.
Arguments manager : clear implicits.
Arguments vmm : clear implicits.
Arguments Factory : clear implicits.
Arguments Extension : clear implicits.
