(* ===== verification/VcpuProofs.v ===== *)
(** * The life of virtual CPUs

    Starting and stopping a virtual CPU run its delegates in the order of its
    life cycle, whatever throws; over all requests, the virtual CPUs the manager
    holds are those that are running.  With the driver in front, the virtual
    CPUs are those of the processors it counts as started. *)
From S2P Require Import Prelude Guard Bits Buddy MemMgr DebugRing Driver Vcpu.

Local Open Scope vmm_scope.

Section Machine.
Context {W : Type} `{F : Factory W} `{X : Extension W}.
Implicit Types (v : vcpu W) (s : manager W) (w : W).

(** ** Virtual CPUs *)

Lemma vcpu_run_eq obj v w : vcpu_run obj (v, w) =
  match call_all (m_run_delegates v) obj w with
  | Ok _ w' => Ok tt (set_running true v, w') | Err e w' => Err e (v, w') end.
Proof. unfold vcpu_run, bind, get, on_world. simpl. by destruct (call_all _ _ _). Qed.

Lemma vcpu_hlt_eq obj v w : vcpu_hlt obj (v, w) =
  match call_all (m_hlt_delegates v) obj w with
  | Ok _ w' => Ok tt (set_running false v, w') | Err e w' => Err e (v, w') end.
Proof. unfold vcpu_hlt, bind, get, on_world. simpl. by destruct (call_all _ _ _). Qed.

Lemma vcpu_init_eq obj v w : vcpu_init obj (v, w) =
  match call_all (m_init_delegates v) obj w with
  | Ok _ w' => Ok tt (set_initialized true v, w') | Err e w' => Err e (v, w') end.
Proof. unfold vcpu_init, bind, get, on_world. simpl. by destruct (call_all _ _ _). Qed.

(** A virtual CPU that runs is halted before it is finalized. *)
Lemma vcpu_fini_eq obj v w : vcpu_fini obj (v, w) =
  match (if m_is_running v then call_all (m_hlt_delegates v) 0 w else Ok tt w) with
  | Ok _ w1 =>
      match call_all (m_fini_delegates v) obj w1 with
      | Ok _ w2 => Ok tt (set_initialized false (set_running false v), w2)
      | Err e w2 => Err e (set_running false v, w2)
      end
  | Err e w1 => Err e (v, w1)
  end.
Proof.
  unfold vcpu_fini. rewrite bind_get. cbn [fst]. unfold bind. destruct (m_is_running v) eqn:E.
  - rewrite vcpu_hlt_eq. destruct (call_all _ 0 _) as [[] w1|]; [|done]. unfold on_world. simpl. by destruct (call_all _ _ _).
  - assert (set_running false v = v) as Hv by (destruct v; simpl in *; by rewrite E). rewrite Hv. unfold on_world. simpl. by destruct (call_all _ _ _).
Qed.

(** ** The manager *)

(** The virtual CPU of an identifier, if there is one. *)
Definition vcpu_of s (id : Z) : option (vcpu W) := default None (m_ts s !! id).

Lemma vcpu_of_insert s id j t w : vcpu_of (Manager (<[id := t]> (m_ts s)) w) j = if decide (j = id) then t else vcpu_of s j.
Proof. unfold vcpu_of. simpl. case_decide; subst; [by rewrite lookup_insert_eq|by rewrite lookup_insert_ne]. Qed.

Lemma vcpu_of_delete s id j w : vcpu_of (Manager (delete id (m_ts s)) w) j = if decide (j = id) then None else vcpu_of s j.
Proof. unfold vcpu_of. simpl. case_decide; subst; [by rewrite lookup_delete_eq|by rewrite lookup_delete_ne]. Qed.

(** The same virtual CPUs but for one identifier. *)
Definition becomes (id : Z) (t : option (vcpu W)) s s' : Prop :=
  forall j, vcpu_of s' j = if decide (j = id) then t else vcpu_of s j.

Lemma becomes_trans id t t' s1 s2 s3 : becomes id t s1 s2 -> becomes id t' s2 s3 -> becomes id t' s1 s3.
Proof. intros H1 H2 j. rewrite H2, H1. by case_decide. Qed.

Lemma get_t_ok id s : exists s', get_t id s = Ok (vcpu_of s id) s' /\ becomes id (vcpu_of s id) s s' /\ world s' = world s.
Proof. eexists. split; [done|]. split; [|done]. intros j. apply vcpu_of_insert. Qed.

Lemma erase_t_ok id s : exists s', erase_t id s = Ok tt s' /\ becomes id None s s' /\
  world s' = match vcpu_of s id with Some v => dispose v (world s) | None => world s end.
Proof.
  eexists. split; [done|]. split; [intros j; apply vcpu_of_delete|]. simpl. unfold vcpu_of.
  by destruct (m_ts s !! id) as [[v|]|].
Qed.

(** Calling a member of the virtual CPU of an identifier. *)
Lemma on_t_ok id f s v : match on_t id (Some v) f s with
  | Ok _ s' => exists v', f (v, world s) = Ok tt (v', world s') /\ becomes id (Some v') s s'
  | Err e s' => exists v', f (v, world s) = Err e (v', world s') /\ becomes id (Some v') s s'
  end.
Proof.
  unfold on_t. destruct (f (v, world s)) as [[] [v' w]|e [v' w]]; exists v'; (split; [done|]); intros j; apply vcpu_of_insert.
Qed.

(** The outcome of a member function on a virtual CPU that is there. *)
Lemma on_live_ok id f s v : vcpu_of s id = Some v ->
  match bind (get_t id) (fun t => on_t id t f) s with
  | Ok _ s' => exists v', f (v, world s) = Ok tt (v', world s') /\ becomes id (Some v') s s'
  | Err e s' => exists v', f (v, world s) = Err e (v', world s') /\ becomes id (Some v') s s'
  end.
Proof.
  intros Hv. destruct (get_t_ok id s) as (s1 & E & Hb & Hw). rewrite Hv in E, Hb. erewrite bind_ok by exact E.
  pose proof (on_t_ok id f s1 v) as Hf. rewrite Hw in Hf. destruct (on_t id (Some v) f s1); destruct Hf as (v' & ? & Hb');
    exists v'; (split; [done|]); by eapply becomes_trans.
Qed.

Lemma on_none_ok id f s : vcpu_of s id = None -> exists s', bind (get_t id) (fun t => on_t id t f) s = Ok tt s' /\
  becomes id None s s' /\ world s' = world s.
Proof.
  intros Hn. destruct (get_t_ok id s) as (s1 & E & Hb & Hw). rewrite Hn in E, Hb. exists s1.
  by erewrite bind_ok by exact E.
Qed.

(** [destroy] erases in every case. *)
Lemma destroy_ok id obj s : match destroy id obj s with
  | Ok _ s' => becomes id None s s' /\
      match vcpu_of s id with
      | Some v => exists v' w, vcpu_fini obj (v, world s) = Ok tt (v', w) /\ world s' = dispose v' w
      | None => world s' = world s
      end
  | Err e s' => exists v v' w, vcpu_of s id = Some v /\ vcpu_fini obj (v, world s) = Err e (v', w) /\
      (catchable e = true -> becomes id None s s' /\ world s' = dispose v' w)
  end.
Proof.
  unfold destroy, finally. unfold bind at 1. unfold on_failure, catch at 1. destruct (vcpu_of s id) as [v|] eqn:Hv.
  - pose proof (on_live_ok id (vcpu_fini obj) s v Hv) as Hf. destruct (bind (get_t id) _ s) as [[] s1|e s1].
    + destruct Hf as (v' & Hf & Hb). destruct (erase_t_ok id s1) as (s2 & E & Hb2 & Hw).
      unfold noexcept, catch, bind. rewrite E. simpl. split; [by eapply becomes_trans|].
      rewrite (Hb id), decide_True in Hw by done. by exists v', (world s1).
    + destruct Hf as (v' & Hf & Hb). destruct (catchable e) eqn:Ec.
      * destruct (erase_t_ok id s1) as (s2 & E & Hb2 & Hw). unfold noexcept, catch, bind. rewrite E. simpl.
        rewrite (Hb id), decide_True in Hw by done. exists v, v', (world s1). split; [done|]. split; [done|]. intros _. split; [by eapply becomes_trans|done].
      * simpl. exists v, v', (world s1). split; [done|]. split; [done|congruence].
  - destruct (on_none_ok id (vcpu_fini obj) s Hv) as (s1 & E1 & Hb & Hw1). rewrite E1.
    destruct (erase_t_ok id s1) as (s2 & E & Hb2 & Hw). unfold noexcept, catch, bind. rewrite E. simpl.
    rewrite (Hb id), decide_True in Hw by done. split; [by eapply becomes_trans|congruence].
Qed.

(** Where the virtual CPU of a request comes from: it is there, or it is made. *)
Inductive source s (id obj : Z) : vcpu W -> W -> Prop :=
| src_live v : vcpu_of s id = Some v -> source s id obj v (world s)
| src_made v w : vcpu_of s id = None -> make id obj (world s) = Ok (Some v) w -> source s id obj v w.

(** What [create] can fail with, and the machine it then leaves. *)
Inductive create_fails s (id obj : Z) : exn -> W -> Prop :=
| cf_make e w : vcpu_of s id = None -> make id obj (world s) = Err e w -> create_fails s id obj e w
| cf_null w : vcpu_of s id = None -> make id obj (world s) = Ok None w ->
    create_fails s id obj (runtime_error "make returned a nullptr") w
| cf_init v w e w' : source s id obj v w -> call_all (m_init_delegates v) obj w = Err e w' ->
    create_fails s id obj e (dispose v w').

(** The failure of [add_t], and the object it yields. *)
Lemma add_t_ok id obj s : match add_t id obj s with
  | Ok t s' => exists v, t = Some v /\ source s id obj v (world s') /\ becomes id t s s'
  | Err e s' => create_fails s id obj e (world s') /\ becomes id None s s'
  end.
Proof.
  unfold add_t. destruct (get_t_ok id s) as (s1 & E & Hb & Hw). erewrite bind_ok by exact E.
  destruct (vcpu_of s id) as [v|] eqn:Hv.
  - simpl. exists v. split; [done|]. split; [|done]. rewrite Hw. by constructor.
  - unfold bind at 1, make_t. rewrite Hw. destruct (make id obj (world s)) as [[v|] w|e w] eqn:Em; simpl.
    + exists v. split; [done|]. split; [by constructor|]. intros j. simpl.
      pose proof (vcpu_of_insert s1 id j (Some v) w) as E2. rewrite E2, (Hb j). by case_decide.
    + split; [by constructor|]. done.
    + split; [by constructor|]. done.
Qed.

Lemma create_ok id obj s : match create id obj s with
  | Ok _ s' => exists v w, source s id obj v w /\ call_all (m_init_delegates v) obj w = Ok tt (world s') /\
      becomes id (Some (set_initialized true v)) s s'
  | Err e s' => catchable e = true -> create_fails s id obj e (world s') /\ becomes id None s s'
  end.
Proof.
  unfold create, on_failure, catch at 1. unfold bind at 1. pose proof (add_t_ok id obj s) as Ha.
  destruct (add_t id obj s) as [t s1|e s1].
  - destruct Ha as (v & -> & Hs & Hb). pose proof (on_t_ok id (vcpu_init obj) s1 v) as Hf.
    destruct (on_t id (Some v) (vcpu_init obj) s1) as [[] s2|e s2]; destruct Hf as (v' & Hf & Hb2); rewrite vcpu_init_eq in Hf;
      destruct (call_all _ obj _) as [[] w2|e' w2] eqn:Ec; try done; injection Hf; intros; subst.
    + exists v, (world s1). split; [done|]. split; [done|by eapply becomes_trans].
    + destruct (catchable e) eqn:Ece; [|by simpl; congruence]. destruct (erase_t_ok id s2) as (s3 & E & Hb3 & Hw).
      unfold noexcept, catch, bind. rewrite E. simpl. intros _. rewrite (Hb2 id), decide_True in Hw by done.
      rewrite Hw. split; [by eapply cf_init|]. by do 2 (eapply becomes_trans; [done|]).
  - destruct Ha as [Hf Hb]. destruct (catchable e) eqn:Ece; [|by simpl; congruence].
    destruct (erase_t_ok id s1) as (s3 & E & Hb3 & Hw). unfold noexcept, catch, bind. rewrite E. simpl. intros _.
    rewrite (Hb id), decide_True in Hw by done. rewrite Hw. split; [done|by eapply becomes_trans].
Qed.

(** ** Starting and stopping *)

(** The code that a guarded function returns for an exception. *)
Definition code (error_code : Z) (e : exn) : Z := match e with bad_alloc => BF_BAD_ALLOC | _ => error_code end.

Lemma guard_ok {S A} (c : Z) (m : M S A) (s : S) : match guard_exceptions c m s with
  | Ok r s' => (exists a, m s = Ok a s' /\ r = SUCCESS) \/ (exists e, m s = Err e s' /\ catchable e = true /\ r = code c e)
  | Err e s' => m s = Err e s' /\ catchable e = false
  end.
Proof.
  unfold guard_exceptions, catch, bind. destruct (m s) as [a s'|e s']; [left; by eexists|].
  destruct e; simpl; first [right; by eexists | done].
Qed.

(** The start of the virtual CPU of an identifier: made if there is none,
    initialized, run.  If an init delegate throws, the virtual CPU is destructed
    without being finalized; if a run delegate throws, it is finalized and then
    destructed. *)
Inductive start s (id : Z) : Z -> option (vcpu W) -> W -> Prop :=
| start_done v w1 w2 w3 : source s id (pre_create_vcpu id) v w1 ->
    call_all (m_init_delegates v) (pre_create_vcpu id) w1 = Ok tt w2 ->
    call_all (m_run_delegates v) (pre_run_vcpu id) w2 = Ok tt w3 ->
    start s id SUCCESS (Some (set_running true (set_initialized true v))) w3
| start_not_created e w : create_fails s id (pre_create_vcpu id) e w ->
    start s id (code ENTRY_ERROR_VMM_START_FAILED e) None w
| start_not_run v w1 w2 e w3 v' w4 : source s id (pre_create_vcpu id) v w1 ->
    call_all (m_init_delegates v) (pre_create_vcpu id) w1 = Ok tt w2 ->
    call_all (m_run_delegates v) (pre_run_vcpu id) w2 = Err e w3 ->
    vcpu_fini 0 (set_initialized true v, w3) = Ok tt (v', w4) ->
    start s id (code ENTRY_ERROR_VMM_START_FAILED e) None (dispose v' w4).

Lemma manager_start_ok id s :
  match guard_exceptions ENTRY_ERROR_VMM_START_FAILED (
    create id (pre_create_vcpu id) ;;; on_failure (destroy id 0) (run id (pre_run_vcpu id))) s with
  | Ok r s' => exists t, start s id r t (world s') /\ becomes id t s s'
  | Err e _ => catchable e = false
  end.
Proof.
  match goal with |- context [guard_exceptions ?c ?m s] => pose proof (guard_ok c m s) as Hg; destruct (guard_exceptions c m s) as [r s'|e s'] end;
    [|by destruct Hg].
  unfold bind at 1 2 in Hg. pose proof (create_ok id (pre_create_vcpu id) s) as Hc.
  destruct (create id (pre_create_vcpu id) s) as [[] s1|e s1].
  - destruct Hc as (v & w & Hs & Hi & Hb). unfold on_failure, catch at 1 in Hg. unfold catch at 1 in Hg. unfold run in Hg.
    pose proof (on_live_ok id (vcpu_run (pre_run_vcpu id)) s1 (set_initialized true v)) as Hr.
    specialize (Hr ltac:(rewrite (Hb id); by apply decide_True)).
    destruct (bind (get_t id) _ s1) as [[] s2|e s2]; destruct Hr as (v' & Hr & Hb2); rewrite vcpu_run_eq in Hr; cbn [m_run_delegates set_initialized] in Hr;
      destruct (call_all (m_run_delegates v) _ _) as [[] w2|e' w2] eqn:Er; try done; injection Hr as; subst.
    + destruct Hg as [(a & [= _ <-] & ->)|(e & [=] & _)]. eexists. split; [by eapply start_done|by eapply becomes_trans].
    + destruct (catchable e) eqn:Ee; [|by destruct Hg as [(? & [=] & _)|(? & [= <- <-] & ? & _)]; congruence].
      unfold bind, noexcept, catch in Hg. pose proof (destroy_ok id 0 s2) as Hd. rewrite (Hb2 id), decide_True in Hd by done.
      destruct (destroy id 0 s2) as [[] s3|e3 s3]; simpl in Hg.
      * destruct Hd as (Hb3 & v3 & w3 & Hf & Hw). destruct Hg as [(? & [=] & _)|(? & [= <- <-] & _ & ->)].
        exists None. rewrite Hw. split; [by eapply start_not_run|]. by do 2 (eapply becomes_trans; [done|]).
      * destruct Hg as [(? & [=] & _)|(? & [= <- <-] & Hc & _)]. by destruct (catchable e3) eqn:?; [|congruence].
  - destruct Hg as [(? & [=] & _)|(? & [= <- <-] & He & ->)]. destruct (Hc He) as [Hf Hb].
    exists None. split; [by apply start_not_created|done].
Qed.

(** The stop of a virtual CPU that is running: its halt delegates once, its
    fini delegates, its destructor; one that does not halt stays. *)
Inductive stop (id : Z) (v : vcpu W) (w : W) : Z -> option (vcpu W) -> W -> Prop :=
| stop_done w1 w2 : call_all (m_hlt_delegates v) (pre_hlt_vcpu id) w = Ok tt w1 ->
    call_all (m_fini_delegates v) (pre_destroy_vcpu id) w1 = Ok tt w2 ->
    stop id v w SUCCESS None (dispose (set_initialized false (set_running false v)) w2)
| stop_not_halted e w1 : call_all (m_hlt_delegates v) (pre_hlt_vcpu id) w = Err e w1 ->
    stop id v w (code ENTRY_ERROR_VMM_STOP_FAILED e) (Some v) w1
| stop_not_finalized w1 e w2 : call_all (m_hlt_delegates v) (pre_hlt_vcpu id) w = Ok tt w1 ->
    call_all (m_fini_delegates v) (pre_destroy_vcpu id) w1 = Err e w2 ->
    stop id v w (code ENTRY_ERROR_VMM_STOP_FAILED e) None (dispose (set_running false v) w2).

Lemma manager_stop_ok id s :
  match guard_exceptions ENTRY_ERROR_VMM_STOP_FAILED (
    hlt id (pre_hlt_vcpu id) ;;; destroy id (pre_destroy_vcpu id)) s with
  | Ok r s' => exists t, becomes id t s s' /\
      match vcpu_of s id with
      | Some v => stop id v (world s) r t (world s')
      | None => r = SUCCESS /\ t = None /\ world s' = world s
      end
  | Err e _ => catchable e = false
  end.
Proof.
  match goal with |- context [guard_exceptions ?c ?m s] => pose proof (guard_ok c m s) as Hg; destruct (guard_exceptions c m s) as [r s'|e s'] end;
    [|by destruct Hg].
  unfold bind at 1 2 in Hg. unfold hlt in Hg. destruct (vcpu_of s id) as [v|] eqn:Hv.
  - pose proof (on_live_ok id (vcpu_hlt (pre_hlt_vcpu id)) s v Hv) as Hh.
    destruct (bind (get_t id) _ s) as [[] s1|e s1]; destruct Hh as (v' & Hh & Hb); rewrite vcpu_hlt_eq in Hh;
      destruct (call_all (m_hlt_delegates v) _ _) as [[] w1|e' w1] eqn:Eh; try done; injection Hh as; subst.
    + pose proof (destroy_ok id (pre_destroy_vcpu id) s1) as Hd. rewrite (Hb id), decide_True in Hd by done.
      destruct (destroy id (pre_destroy_vcpu id) s1) as [[] s2|e s2].
      * destruct Hd as (Hb2 & v2 & w2 & Hf & Hw). rewrite vcpu_fini_eq in Hf. cbn [m_is_running set_running m_fini_delegates] in Hf.
        change (set_running false (set_running false v)) with (set_running false v) in Hf.
        destruct (call_all (m_fini_delegates v) _ _) as [[] w3|] eqn:Ef; [|done]. injection Hf as; subst.
        destruct Hg as [(? & [= _ <-] & ->)|(? & [=] & _)]. exists None. split; [by eapply becomes_trans|]. rewrite Hw. by eapply stop_done.
      * destruct Hd as (v1 & v2 & w2 & [= <-] & Hf & Hw). rewrite vcpu_fini_eq in Hf. cbn [m_is_running set_running m_fini_delegates] in Hf.
        change (set_running false (set_running false v)) with (set_running false v) in Hf.
        destruct (call_all (m_fini_delegates v) _ _) as [[] w3|] eqn:Ef; [done|]. injection Hf as; subst.
        destruct Hg as [(? & [=] & _)|(? & [= <- <-] & He & ->)]. destruct (Hw He) as [Hb2 Hw2].
        exists None. split; [by eapply becomes_trans|]. rewrite Hw2. by eapply stop_not_finalized.
    + destruct Hg as [(? & [=] & _)|(? & [= <- <-] & He & ->)]. exists (Some v'). split; [done|]. by apply stop_not_halted.
  - destruct (on_none_ok id (vcpu_hlt (pre_hlt_vcpu id)) s Hv) as (s1 & E & Hb & Hw). rewrite E in Hg.
    pose proof (destroy_ok id (pre_destroy_vcpu id) s1) as Hd. rewrite (Hb id), decide_True in Hd by done.
    destruct (destroy id (pre_destroy_vcpu id) s1) as [[] s2|e s2]; [|by destruct Hd as (? & ? & ? & [=] & _)].
    destruct Hd as [Hb2 Hw2]. destruct Hg as [(? & [= _ <-] & ->)|(? & [=] & _)]. exists None. split; [by eapply becomes_trans|].
    split; [done|]. split; [done|congruence].
Qed.

(** ** Requests *)

(** The identifiers of the virtual CPUs. *)
Definition vcpus s : gset Z := dom (omap (fun t => t) (m_ts s)).

Lemma elem_of_vcpus s id : id ∈ vcpus s <-> is_Some (vcpu_of s id).
Proof.
  unfold vcpus, vcpu_of. rewrite elem_of_dom, lookup_omap. by destruct (m_ts s !! id) as [[v|]|].
Qed.

Lemma becomes_some id v s s' : becomes id (Some v) s s' -> vcpus s' = {[id]} ∪ vcpus s.
Proof.
  intros Hb. apply set_eq. intros j. rewrite elem_of_union, elem_of_singleton, !elem_of_vcpus, (Hb j).
  case_decide; naive_solver.
Qed.

Lemma becomes_none id s s' : becomes id None s s' -> vcpus s' = vcpus s ∖ {[id]}.
Proof.
  intros Hb. apply set_eq. intros j. rewrite elem_of_difference, elem_of_singleton, !elem_of_vcpus, (Hb j).
  case_decide; [|naive_solver]. rewrite is_Some_alt. naive_solver.
Qed.

(** Every virtual CPU the manager holds is initialized and running. *)
Definition all_running s : Prop :=
  forall id v, vcpu_of s id = Some v -> m_is_running v = true /\ m_is_initialized v = true.

Lemma becomes_running id t s s' : becomes id t s s' -> all_running s ->
  (forall v, t = Some v -> m_is_running v = true /\ m_is_initialized v = true) -> all_running s'.
Proof. intros Hb Hs Ht j v. rewrite (Hb j). case_decide; [apply Ht|apply Hs]. Qed.

(** The contract: the set of running virtual CPUs, and what a request and its
    code tell about it. *)
Inductive request_step : Z -> Z -> gset Z -> Z -> gset Z -> Prop :=
| rs_start id S : request_step BF_REQUEST_VMM_INIT id S SUCCESS ({[id]} ∪ S)
| rs_start_fails id S r : r <> SUCCESS -> request_step BF_REQUEST_VMM_INIT id S r (S ∖ {[id]})
| rs_stop id S : request_step BF_REQUEST_VMM_FINI id S SUCCESS (S ∖ {[id]})
| rs_stop_fails id S r S' : r <> SUCCESS -> id ∈ S -> S' = S \/ S' = S ∖ {[id]} ->
    request_step BF_REQUEST_VMM_FINI id S r S'
| rs_other req arg S r : req <> BF_REQUEST_VMM_INIT -> req <> BF_REQUEST_VMM_FINI -> request_step req arg S r S.

Lemma code_failure c e : c <> SUCCESS -> code c e <> SUCCESS.
Proof. by destruct e. Qed.

Lemma in_vcm_ok {A} (m : M (manager W) A) (h : vmm W) :
  match in_vcm m h with
  | Ok a h' => m (g_vcm h) = Ok a (g_vcm h') /\ h' = Vmm (g_vcm h') (g_mm h) (h_rsdp h) (h_rings h)
  | Err e h' => m (g_vcm h) = Err e (g_vcm h')
  end.
Proof. unfold in_vcm. by destruct (m (g_vcm h)). Qed.

(** Requests that do not concern virtual CPUs leave them alone. *)
Lemma add_md_ok md (h : vmm W) : match private_add_md md h with
  | Ok _ h' => g_vcm h' = g_vcm h
  | Err e _ => catchable e = false
  end.
Proof.
  unfold private_add_md. match goal with |- context [guard_exceptions ?c ?m h] => pose proof (guard_ok c m h) as Hg; destruct (guard_exceptions c m h) as [r h'|e h'] end;
    [|by destruct Hg].
  rewrite bind_get in Hg. unfold in_mm in Hg.
  destruct (md_at _ md) as [[[virt phys] type]|]; [destruct (add_md virt phys type (g_mm h))|];
    by destruct Hg as [(? & [= <- <-] & _)|(? & [= <- <-] & _)].
Qed.

Lemma get_drr_total a b (x : rings) : exists r y, get_drr a b x = Ok r y.
Proof. unfold get_drr. destruct (b =? 0); [by eexists _, _|]. rewrite bind_get. unfold bind, put. case_match; by eexists _, _. Qed.

Lemma private_get_drr_ok a b (h : vmm W) : exists r h', private_get_drr a b h = Ok r h' /\ m_ts (g_vcm h') = m_ts (g_vcm h).
Proof.
  unfold private_get_drr, bind, in_rings. destruct (get_drr_total a b (h_rings h)) as ([r [p|]] & y & ->); simpl; by eexists _, _.
Qed.

Lemma init_vmm_ok id (h : vmm W) : match private_init_vmm id h with
  | Ok r h' => h' = Vmm (g_vcm h') (g_mm h) (h_rsdp h) (h_rings h) /\
      exists t, start (g_vcm h) id r t (world (g_vcm h')) /\ becomes id t (g_vcm h) (g_vcm h')
  | Err e _ => catchable e = false
  end.
Proof.
  unfold private_init_vmm. match goal with |- context [in_vcm ?m h] => pose proof (in_vcm_ok m h) as Hi; destruct (in_vcm m h) as [r h'|e h'] end;
    pose proof (manager_start_ok id (g_vcm h)) as Hs.
  - destruct Hi as [Hi Hh]. rewrite Hi in Hs. done.
  - by rewrite Hi in Hs.
Qed.

Lemma fini_vmm_ok id (h : vmm W) : match private_fini_vmm id h with
  | Ok r h' => h' = Vmm (g_vcm h') (g_mm h) (h_rsdp h) (h_rings h) /\
      exists t, becomes id t (g_vcm h) (g_vcm h') /\
        match vcpu_of (g_vcm h) id with
        | Some v => stop id v (world (g_vcm h)) r t (world (g_vcm h'))
        | None => r = SUCCESS /\ t = None /\ world (g_vcm h') = world (g_vcm h)
        end
  | Err e _ => catchable e = false
  end.
Proof.
  unfold private_fini_vmm. match goal with |- context [in_vcm ?m h] => pose proof (in_vcm_ok m h) as Hi; destruct (in_vcm m h) as [r h'|e h'] end;
    pose proof (manager_stop_ok id (g_vcm h)) as Hs.
  - destruct Hi as [Hi Hh]. rewrite Hi in Hs. done.
  - by rewrite Hi in Hs.
Qed.

Lemma start_step s id r t w s' : all_running s -> start s id r t w -> becomes id t s s' ->
  all_running s' /\ request_step BF_REQUEST_VMM_INIT id (vcpus s) r (vcpus s').
Proof.
  intros Hr Hs Hb. destruct Hs.
  - split; [eapply becomes_running; [done..|]; by intros ? [= <-]|]. rewrite (becomes_some _ _ _ _ Hb). constructor.
  - split; [eapply becomes_running; done|]. rewrite (becomes_none _ _ _ Hb). constructor. by apply code_failure.
  - split; [eapply becomes_running; done|]. rewrite (becomes_none _ _ _ Hb). constructor. by apply code_failure.
Qed.

Lemma stop_step s id v r t w s' : all_running s -> vcpu_of s id = Some v -> stop id v w r t (world s') -> becomes id t s s' ->
  all_running s' /\ request_step BF_REQUEST_VMM_FINI id (vcpus s) r (vcpus s').
Proof.
  intros Hr Hv Hs Hb. assert (id ∈ vcpus s) as Hin by (apply elem_of_vcpus; by eexists).
  destruct (Hr _ _ Hv). inversion Hs; subst.
  - split; [eapply becomes_running; done|]. rewrite (becomes_none _ _ _ Hb). constructor.
  - split; [eapply becomes_running; [done..|]; by intros ? [= <-]|]. rewrite (becomes_some _ _ _ _ Hb).
    apply rs_stop_fails; [by apply code_failure|done|]. left. set_solver.
  - split; [eapply becomes_running; done|]. rewrite (becomes_none _ _ _ Hb).
    apply rs_stop_fails; [by apply code_failure|done|]. by right.
Qed.

Lemma same_vcpus req arg s s' r : m_ts s' = m_ts s -> all_running s -> req <> BF_REQUEST_VMM_INIT -> req <> BF_REQUEST_VMM_FINI ->
  all_running s' /\ request_step req arg (vcpus s) r (vcpus s').
Proof.
  intros E Hr H1 H2. split; [intros j v; unfold vcpu_of; rewrite E; apply Hr|]. unfold vcpus. rewrite E. by constructor.
Qed.

Lemma bfmain_step req arg1 arg2 arg3 (h : vmm W) : all_running (g_vcm h) ->
  match bfmain req arg1 arg2 arg3 h with
  | Ok r h' => all_running (g_vcm h') /\ request_step req arg1 (vcpus (g_vcm h)) r (vcpus (g_vcm h'))
  | Err e _ => catchable e = false
  end.
Proof.
  intros Hr. unfold bfmain. repeat match goal with |- context [req =? ?c] => destruct (Z.eqb_spec req c) as [->|?] end.
  1, 2, 4, 8: by apply same_vcpus.
  - pose proof (add_md_ok arg1 h) as Ha. destruct (private_add_md arg1 h) as [r h'|e h']; [|done]. by apply same_vcpus; [rewrite Ha|..].
  - destruct (private_get_drr_ok arg1 arg2 h) as (r & h' & -> & E). by apply same_vcpus.
  - pose proof (init_vmm_ok arg1 h) as Ha. destruct (private_init_vmm arg1 h) as [r h'|e h']; [|done].
    destruct Ha as (_ & t & Hs & Hb). by eapply start_step.
  - pose proof (fini_vmm_ok arg1 h) as Ha. destruct (private_fini_vmm arg1 h) as [r h'|e h']; [|done].
    destruct Ha as (_ & t & Hb & Hs). destruct (vcpu_of (g_vcm h) arg1) as [v|] eqn:Hv; [by eapply stop_step|].
    destruct Hs as (-> & -> & _). split; [by eapply becomes_running|]. rewrite (becomes_none _ _ _ Hb). constructor.
Qed.

(** C29: The hypervisor refines the set of running virtual CPUs: from every state
    in which all virtual CPUs are initialized and running, each request returns
    a code and leaves a set of virtual CPUs that the contract allows for that
    code, all of them initialized and running again.  No exception leaves the
    entry point: what does not return is a fault, or the termination of the
    hypervisor. *)
Theorem bfmain_refines req arg1 arg2 arg3 (h : vmm W) : all_running (g_vcm h) ->
  match bfmain req arg1 arg2 arg3 h with
  | Ok r h' => all_running (g_vcm h') /\ request_step req arg1 (vcpus (g_vcm h)) r (vcpus (g_vcm h'))
  | Err e _ => catchable e = false
  end.
Proof using.
  apply bfmain_step.
Qed.

(** C30: A start request makes the virtual CPU if there is none, runs its init
    delegates and then its run delegates, each in the order of the list, and
    then holds it as initialized and running.  If a step throws, the code tells
    so and the manager holds nothing for the identifier: if an init delegate
    throws, the virtual CPU is destructed and its fini delegates are not run; if
    a run delegate throws, it is finalized and then destructed; if it cannot be
    made there is nothing to destruct.  All other virtual CPUs and the rest of
    the hypervisor are as before.  What does not return is a fault or the
    termination of the hypervisor. *)
Theorem vcpu_start_correct id (h : vmm W) :
  match private_init_vmm id h with
  | Ok r h' => h' = Vmm (g_vcm h') (g_mm h) (h_rsdp h) (h_rings h) /\
      exists t, start (g_vcm h) id r t (world (g_vcm h')) /\ becomes id t (g_vcm h) (g_vcm h')
  | Err e _ => catchable e = false
  end.
Proof using. apply init_vmm_ok. Qed.

(** A stop request runs the halt delegates of the virtual CPU exactly once,
    then its fini delegates, then its destructor, and the manager holds it no
    longer.  A virtual CPU that cannot be halted stays as it is; one that cannot
    be finalized is destructed all the same.  Without a virtual CPU nothing
    happens. *)
Theorem vcpu_stop_correct id (h : vmm W) :
  match private_fini_vmm id h with
  | Ok r h' => h' = Vmm (g_vcm h') (g_mm h) (h_rsdp h) (h_rings h) /\
      exists t, becomes id t (g_vcm h) (g_vcm h') /\
        match vcpu_of (g_vcm h) id with
        | Some v => stop id v (world (g_vcm h)) r t (world (g_vcm h'))
        | None => r = SUCCESS /\ t = None /\ world (g_vcm h') = world (g_vcm h)
        end
  | Err e _ => catchable e = false
  end.
Proof using. apply fini_vmm_ok. Qed.

(** Delegates are called in the reverse of the order they were added in. *)
Lemma run_delegates_order ds v : m_run_delegates (foldl (fun v d => add_run_delegate d v) v ds) = rev ds ++ m_run_delegates v.
Proof.
  revert v. induction ds as [|d ds IH]; intros v; [done|]. simpl. rewrite IH. simpl. by rewrite <- app_assoc.
Qed.
End Machine.
