(* ===== verification/Vmcs.v ===== *)
(** * The processor, its registers and the control structure of a virtual machine

    What the code sees of a processor in root operation: the fields of the
    current VMCS, read and written by [vm::read] and [vm::write] of [vmx.h], the
    model specific registers, the control registers, and the registers of the
    guest that the exit stub saves ([save_state.h]).  On these, the accessors of
    [vmcs/helpers.h] and of the namespaces of the register headers: a namespace
    with an address is a register, one with a mask and a shift a flag or a field
    of it, and its functions take it as an argument.  The headers themselves are
    [VmcsControl.v], [VmcsGuest.v], [VmcsHost.v], [VmcsExit.v] and [MsrFields.v]. *)
From stdpp Require Export functions.
From S2P Require Import Prelude Bits EptEntry.
Open Scope Z_scope.
Open Scope vmm_scope.

(** ** The machine *)

(** The general purpose registers and [rip] and [rsp] of [save_state_t]. *)
Inductive gpr :=
| rax | rbx | rcx | rdx | rbp | rsi | rdi | r08 | r09 | r10 | r11 | r12 | r13 | r14 | r15 | rip | rsp.

#[export] Instance gpr_eq_dec : EqDecision gpr.
Proof. solve_decision. Defined.

(** The control registers of the processor. *)
Inductive creg := CR0 | CR2 | CR3 | CR4 | CR8 | XCR0 | DR7 | RFLAGS.

#[export] Instance creg_eq_dec : EqDecision creg.
Proof. solve_decision. Defined.

(** Instructions that only have an effect outside the model. *)
Inductive instruction :=
| i_wbinvd
| i_invept (type eptp : Z)
| i_invvpid (type vpid addr : Z)
| i_out (port size val : Z)
| i_vmptrld (region : Z)
| i_vmxon (region : Z)
| i_vmxoff.

#[export] Instance instruction_eq_dec : EqDecision instruction.
Proof. solve_decision. Defined.

(** The processor.  [vmcs_fields] has the fields of the current VMCS that the
    processor supports, by encoding, and [msrs] the registers that exist. *)
Record cpu := Cpu {
  vmcs_fields : gmap Z Z;
  msrs : gmap Z Z;
  regs : gpr -> Z;
  cregs : creg -> Z;
  executed : list instruction }.

Definition set_vmcs (f : gmap Z Z -> gmap Z Z) (c : cpu) : cpu :=
  Cpu (f (vmcs_fields c)) (msrs c) (regs c) (cregs c) (executed c).
Definition set_msrs (f : gmap Z Z -> gmap Z Z) (c : cpu) : cpu :=
  Cpu (vmcs_fields c) (f (msrs c)) (regs c) (cregs c) (executed c).
Definition set_reg (r : gpr) (v : Z) (c : cpu) : cpu :=
  Cpu (vmcs_fields c) (msrs c) (<[r := v]> (regs c)) (cregs c) (executed c).
Definition set_creg (r : creg) (v : Z) (c : cpu) : cpu :=
  Cpu (vmcs_fields c) (msrs c) (regs c) (<[r := v]> (cregs c)) (executed c).
Definition execute (i : instruction) (c : cpu) : cpu :=
  Cpu (vmcs_fields c) (msrs c) (regs c) (cregs c) (i :: executed c).

(** What the manuals leave to the processor: the answers of CPUID to a leaf and
    a subleaf, what a register holds after WRMSR of a value if there is no fault,
    what a port reads, whether VMWRITE accepts read-only fields, whether VMPTRLD
    accepts a region, INVEPT its arguments and XSETBV a value, and whether a VM
    entry succeeds. *)
Record cpuid_regs := CpuidRegs { eax : Z; ebx : Z; ecx : Z; edx : Z }.

Class Processor := {
  cpuid_instr : Z -> Z -> cpuid_regs;
  wrmsr_instr : Z -> Z -> Z -> option Z;
  in_instr : list instruction -> Z -> Z -> Z;
  writes_read_only : bool;
  accepts_region : Z -> bool;
  accepts_invept : Z -> Z -> bool;
  accepts_xcr0 : Z -> bool;
  enters_guest : cpu -> bool }.

(** ** Fields of the VMCS *)

(** An encoding has the width of the field in bits 14:13 and its type in
    bits 11:10. *)
Definition width_bits (addr : Z) : Z := Z.land (Z.shiftr addr 13) 3.
Definition type_bits (addr : Z) : Z := Z.land (Z.shiftr addr 10) 3.
Definition width_of (addr : Z) : Z :=
  if width_bits addr =? 0 then 16 else if width_bits addr =? 2 then 32 else 64.

Section Access.
Context `{Processor}.

(** [intel_x64::vm::read] *)
Definition vm_read (addr : Z) : M cpu Z :=
  c <- get ;;
  match vmcs_fields c !! addr with
  | Some v => ret v
  | None => throw (runtime_error "vm::read failed")
  end.

(** [intel_x64::vm::write]: the processor keeps the bits the field has. *)
Definition vm_write (addr val : Z) : M cpu unit :=
  c <- get ;;
  match vmcs_fields c !! addr with
  | Some _ =>
      if (type_bits addr =? 1) && negb writes_read_only then throw (runtime_error "vm::write failed")
      else modify (set_vmcs (<[addr := val mod 2 ^ width_of addr]>))
  | None => throw (runtime_error "vm::write failed")
  end.

(** [_read_msr] and [_write_msr]: the address is 32 bits. *)
Definition read_msr (addr : Z) : M cpu Z :=
  c <- get ;;
  match msrs c !! w32 addr with
  | Some v => ret v
  | None => throw general_protection
  end.

Definition write_msr (addr val : Z) : M cpu unit :=
  c <- get ;;
  match msrs c !! w32 addr with
  | Some old =>
      match wrmsr_instr (w32 addr) old val with
      | Some v => modify (set_msrs (<[w32 addr := v]>))
      | None => throw general_protection
      end
  | None => throw general_protection
  end.

(** Reads and writes of the saved registers of the guest and of the registers of
    the processor *)
Definition get_reg (r : gpr) : M cpu Z := gets (fun c => regs c r).
Definition put_reg (r : gpr) (v : Z) : M cpu unit := modify (set_reg r v).
Definition get_creg (r : creg) : M cpu Z := gets (fun c => cregs c r).
Definition put_creg (r : creg) (v : Z) : M cpu unit := modify (set_creg r v).
Definition exec (i : instruction) : M cpu unit := modify (execute i).

(** [vmx::invept_global] and [xcr0::set] *)
Definition invept_global : M cpu unit :=
  if accepts_invept 2 0 then exec (i_invept 2 0) else throw (runtime_error "vm::invept_global failed").
Definition xcr0_set (val : Z) : M cpu unit :=
  if accepts_xcr0 val then put_creg XCR0 val else throw general_protection.

(** ** Model specific registers *)

(** A namespace of [msrs.h] with an address; a flag and a field of it *)
Record msr := Msr { m_addr : Z; m_name : string }.
Record msr_flag := MsrFlag { mf_reg : msr; mf_name : string; mf : flag }.
Record msr_field := MsrField { ml_reg : msr; ml_name : string; ml : field }.

Definition msr_get (r : msr) : M cpu Z := read_msr (m_addr r).
Definition msr_set (r : msr) (val : Z) : M cpu unit := write_msr (m_addr r) val.

Definition msr_is_enabled (f : msr_flag) : M cpu bool :=
  v <- msr_get (mf_reg f) ;; ret (is_enabled (mf f) v).
Definition msr_is_disabled (f : msr_flag) : M cpu bool :=
  v <- msr_get (mf_reg f) ;; ret (is_disabled (mf f) v).
Definition msr_enable (f : msr_flag) : M cpu unit :=
  v <- msr_get (mf_reg f) ;; msr_set (mf_reg f) (enable (mf f) v).
Definition msr_disable (f : msr_flag) : M cpu unit :=
  v <- msr_get (mf_reg f) ;; msr_set (mf_reg f) (disable (mf f) v).

Definition msr_field_get (f : msr_field) : M cpu Z :=
  v <- msr_get (ml_reg f) ;; ret (field_get (ml f) v).
Definition msr_field_set (f : msr_field) (val : Z) : M cpu unit :=
  v <- msr_get (ml_reg f) ;; msr_set (ml_reg f) (field_set (ml f) v val).

(** In the registers of the VMX capabilities the lower half says which controls
    have to be 1 and the upper half which may be. *)
Definition is_allowed0 (f : msr_flag) : M cpu bool :=
  v <- msr_get (mf_reg f) ;; ret (Z.land v (flag_mask (mf f)) =? 0).
Definition is_allowed1 (f : msr_flag) : M cpu bool :=
  v <- msr_get (mf_reg f) ;; ret (negb (Z.land v (shl64 (flag_mask (mf f)) 32) =? 0)).
Definition allowed0 (r : msr) : M cpu Z :=
  v <- msr_get r ;; ret (Z.land v 0x00000000FFFFFFFF).
Definition allowed1 (r : msr) : M cpu Z :=
  v <- msr_get r ;; ret (Z.shiftr (Z.land v 0xFFFFFFFF00000000) 32).

(** [a && b] *)
Definition and_then (a b : M cpu bool) : M cpu bool :=
  x <- a ;; if x : bool then b else ret false.

(** [a || b] *)
Definition or_else (a b : M cpu bool) : M cpu bool :=
  x <- a ;; if x : bool then ret true else b.

(** ** Registers of the VMCS *)

(** A namespace of the VMCS headers with an address, whether the header has a
    [set] for it, and what its [exists] answers; its flags and fields; the flags
    that are controls have a register that says what they may be. *)
Record vmcs_reg := VmcsReg {
  v_addr : Z; v_name : string; v_settable : bool; v_exists : M cpu bool }.
Record vmcs_flag := VmcsFlag { vf_reg : vmcs_reg; vf_name : string; vf : flag }.
Record vmcs_field := VmcsField { vl_reg : vmcs_reg; vl_name : string; vl : field }.
Record vm_control := VmControl { vc_flag : vmcs_flag; vc_allowed : msr_flag }.

(** A part of a register, as the tables of the headers list them *)
Inductive msr_part := m_flag (f : msr_flag) | m_field (f : msr_field).
Inductive vmcs_part := p_flag (f : vmcs_flag) | p_field (f : vmcs_field) | p_control (f : vm_control).

Definition get_vmcs_field (addr : Z) (name : string) (exists_ : bool) : M cpu Z :=
  if negb exists_ then throw (logic_error ("field doesn't exist: " ++ name)) else vm_read addr.

Definition get_vmcs_field_if_exists (addr : Z) (exists_ : bool) : M cpu Z :=
  if exists_ then vm_read addr else ret 0.

Definition set_vmcs_field (val addr : Z) (name : string) (exists_ : bool) : M cpu unit :=
  if negb exists_ then throw (logic_error ("field doesn't exist: " ++ name)) else vm_write addr val.

Definition set_vmcs_field_if_exists (val addr : Z) (exists_ : bool) : M cpu unit :=
  if exists_ then vm_write addr val else ret tt.

Definition set_vmcs_field_bits (val addr mask from : Z) (name : string) (exists_ : bool) : M cpu unit :=
  field <- get_vmcs_field addr name exists_ ;;
  set_vmcs_field (set_bits field mask (shl64 val from)) addr name exists_.

Definition set_vmcs_field_bits_if_exists (val addr mask from : Z) (exists_ : bool) : M cpu unit :=
  field <- get_vmcs_field_if_exists addr exists_ ;;
  set_vmcs_field_if_exists (set_bits field mask (shl64 val from)) addr exists_.

Definition set_vmcs_field_bit (addr from : Z) (name : string) (exists_ : bool) : M cpu unit :=
  field <- get_vmcs_field addr name exists_ ;; set_vmcs_field (set_bit field from) addr name exists_.

Definition set_vmcs_field_bit_if_exists (addr from : Z) (exists_ : bool) : M cpu unit :=
  field <- get_vmcs_field_if_exists addr exists_ ;; set_vmcs_field_if_exists (set_bit field from) addr exists_.

Definition clear_vmcs_field_bit (addr from : Z) (name : string) (exists_ : bool) : M cpu unit :=
  field <- get_vmcs_field addr name exists_ ;; set_vmcs_field (clear_bit field from) addr name exists_.

Definition clear_vmcs_field_bit_if_exists (addr from : Z) (exists_ : bool) : M cpu unit :=
  field <- get_vmcs_field_if_exists addr exists_ ;; set_vmcs_field_if_exists (clear_bit field from) addr exists_.

Definition enable_vm_control (addr from : Z) (is_allowed1 : bool) (name : string) (exists_ : bool) : M cpu unit :=
  if negb exists_ then throw (logic_error ("field doesn't exist: " ++ name)) else
  if negb is_allowed1 then throw (logic_error ("field is_allowed1 false: " ++ name)) else
  v <- vm_read addr ;; vm_write addr (set_bit v from).

Definition enable_vm_control_if_allowed (addr from : Z) (is_allowed1 exists_ : bool) : M cpu unit :=
  if negb exists_ then ret tt else
  if negb is_allowed1 then ret tt else
  v <- vm_read addr ;; vm_write addr (set_bit v from).

Definition disable_vm_control (addr from : Z) (is_allowed0 : bool) (name : string) (exists_ : bool) : M cpu unit :=
  if negb exists_ then throw (logic_error ("field doesn't exist: " ++ name)) else
  if negb is_allowed0 then throw (logic_error ("field is_allowed0 false: " ++ name)) else
  v <- vm_read addr ;; vm_write addr (clear_bit v from).

Definition disable_vm_control_if_allowed (addr from : Z) (is_allowed0 exists_ : bool) : M cpu unit :=
  if negb exists_ then ret tt else
  if negb is_allowed0 then ret tt else
  v <- vm_read addr ;; vm_write addr (clear_bit v from).

(** [exists], [get], [get_if_exists], [set] and [set_if_exists] of a register *)
Definition vmcs_get (r : vmcs_reg) : M cpu Z :=
  e <- v_exists r ;; get_vmcs_field (v_addr r) (v_name r) e.
Definition vmcs_get_if_exists (r : vmcs_reg) : M cpu Z :=
  e <- v_exists r ;; get_vmcs_field_if_exists (v_addr r) e.
Definition vmcs_set (r : vmcs_reg) (val : Z) : M cpu unit :=
  e <- v_exists r ;; set_vmcs_field val (v_addr r) (v_name r) e.
Definition vmcs_set_if_exists (r : vmcs_reg) (val : Z) : M cpu unit :=
  e <- v_exists r ;; set_vmcs_field_if_exists val (v_addr r) e.

(** The functions of a flag *)
Definition flag_is_enabled (f : vmcs_flag) : M cpu bool :=
  e <- v_exists (vf_reg f) ;; v <- get_vmcs_field (v_addr (vf_reg f)) (vf_name f) e ;;
  ret (is_bit_set v (flag_from (vf f))).
Definition flag_is_enabled_if_exists (f : vmcs_flag) : M cpu bool :=
  e <- v_exists (vf_reg f) ;; v <- get_vmcs_field_if_exists (v_addr (vf_reg f)) e ;;
  ret (is_bit_set v (flag_from (vf f))).
Definition flag_is_disabled (f : vmcs_flag) : M cpu bool :=
  e <- v_exists (vf_reg f) ;; v <- get_vmcs_field (v_addr (vf_reg f)) (vf_name f) e ;;
  ret (is_bit_cleared v (flag_from (vf f))).
Definition flag_is_disabled_if_exists (f : vmcs_flag) : M cpu bool :=
  e <- v_exists (vf_reg f) ;; v <- get_vmcs_field_if_exists (v_addr (vf_reg f)) e ;;
  ret (is_bit_cleared v (flag_from (vf f))).
Definition flag_enable (f : vmcs_flag) : M cpu unit :=
  e <- v_exists (vf_reg f) ;; set_vmcs_field_bit (v_addr (vf_reg f)) (flag_from (vf f)) (vf_name f) e.
Definition flag_enable_if_exists (f : vmcs_flag) : M cpu unit :=
  e <- v_exists (vf_reg f) ;; set_vmcs_field_bit_if_exists (v_addr (vf_reg f)) (flag_from (vf f)) e.
Definition flag_disable (f : vmcs_flag) : M cpu unit :=
  e <- v_exists (vf_reg f) ;; clear_vmcs_field_bit (v_addr (vf_reg f)) (flag_from (vf f)) (vf_name f) e.
Definition flag_disable_if_exists (f : vmcs_flag) : M cpu unit :=
  e <- v_exists (vf_reg f) ;; clear_vmcs_field_bit_if_exists (v_addr (vf_reg f)) (flag_from (vf f)) e.
Definition flag_set (f : vmcs_flag) (val : bool) : M cpu unit :=
  if val then flag_enable f else flag_disable f.
Definition flag_set_if_exists (f : vmcs_flag) (val : bool) : M cpu unit :=
  if val then flag_enable_if_exists f else flag_disable_if_exists f.

(** The functions of a field *)
Definition bits_get (f : vmcs_field) : M cpu Z :=
  e <- v_exists (vl_reg f) ;; v <- get_vmcs_field (v_addr (vl_reg f)) (vl_name f) e ;; ret (field_get (vl f) v).
Definition bits_get_if_exists (f : vmcs_field) : M cpu Z :=
  e <- v_exists (vl_reg f) ;; v <- get_vmcs_field_if_exists (v_addr (vl_reg f)) e ;; ret (field_get (vl f) v).
Definition bits_set (f : vmcs_field) (val : Z) : M cpu unit :=
  e <- v_exists (vl_reg f) ;;
  set_vmcs_field_bits val (v_addr (vl_reg f)) (field_mask (vl f)) (field_from (vl f)) (vl_name f) e.
Definition bits_set_if_exists (f : vmcs_field) (val : Z) : M cpu unit :=
  e <- v_exists (vl_reg f) ;;
  set_vmcs_field_bits_if_exists val (v_addr (vl_reg f)) (field_mask (vl f)) (field_from (vl f)) e.

(** The functions of a control: both arguments are evaluated, in an order that
    does not matter since they only read. *)
Definition control_enable (f : vm_control) : M cpu unit :=
  e <- v_exists (vf_reg (vc_flag f)) ;; a <- is_allowed1 (vc_allowed f) ;;
  enable_vm_control (v_addr (vf_reg (vc_flag f))) (flag_from (vf (vc_flag f))) a (vf_name (vc_flag f)) e.
Definition control_enable_if_allowed (f : vm_control) : M cpu unit :=
  e <- v_exists (vf_reg (vc_flag f)) ;; a <- is_allowed1 (vc_allowed f) ;;
  enable_vm_control_if_allowed (v_addr (vf_reg (vc_flag f))) (flag_from (vf (vc_flag f))) a e.
Definition control_disable (f : vm_control) : M cpu unit :=
  e <- v_exists (vf_reg (vc_flag f)) ;; a <- is_allowed0 (vc_allowed f) ;;
  disable_vm_control (v_addr (vf_reg (vc_flag f))) (flag_from (vf (vc_flag f))) a (vf_name (vc_flag f)) e.
Definition control_disable_if_allowed (f : vm_control) : M cpu unit :=
  e <- v_exists (vf_reg (vc_flag f)) ;; a <- is_allowed0 (vc_allowed f) ;;
  disable_vm_control_if_allowed (v_addr (vf_reg (vc_flag f))) (flag_from (vf (vc_flag f))) a e.
Definition control_set (f : vm_control) (val : bool) : M cpu unit :=
  if val then control_enable f else control_disable f.
Definition control_set_if_allowed (f : vm_control) (val : bool) : M cpu unit :=
  if val then control_enable_if_allowed f else control_disable_if_allowed f.
Definition control_is_enabled (f : vm_control) : M cpu bool := flag_is_enabled (vc_flag f).
Definition control_is_disabled (f : vm_control) : M cpu bool := flag_is_disabled (vc_flag f).

End Access.
