(* ===== verification/MsrFields.v ===== *)
(** * Model specific registers

    The namespaces of [intel_x64/msrs.h] in their order: every register with its
    address, and its flags and fields with their masks. *)
From S2P Require Import Prelude Bits EptEntry Vmcs.

(** ** Registers of Intel processors *)

Module ia32_monitor_filter_size.
Definition reg : msr := Msr 0x00000006 "ia32_monitor_filter_size".
Definition parts : list msr_part := [].
End ia32_monitor_filter_size.

Module ia32_platform_id.
Definition reg : msr := Msr 0x00000017 "ia32_platform_id".
Definition platform_id : msr_field := MsrField reg "platform_id" (Field 0x001C000000000000 50).
Definition parts : list msr_part := [m_field platform_id].
End ia32_platform_id.

Module ia32_feature_control.
Definition reg : msr := Msr 0x0000003A "ia32_feature_control".
Definition lock_bit : msr_flag := MsrFlag reg "lock_bit" (Flag 0x0000000000000001 0).
Definition enable_vmx_inside_smx : msr_flag := MsrFlag reg "enable_vmx_inside_smx" (Flag 0x0000000000000002 1).
Definition enable_vmx_outside_smx : msr_flag := MsrFlag reg "enable_vmx_outside_smx" (Flag 0x0000000000000004 2).
Definition senter_local_function_enable : msr_field := MsrField reg "senter_local_function_enable" (Field 0x0000000000007F00 8).
Definition senter_global_function_enables : msr_flag := MsrFlag reg "senter_global_function_enables" (Flag 0x0000000000008000 15).
Definition sgx_launch_control_enable : msr_flag := MsrFlag reg "sgx_launch_control_enable" (Flag 0x0000000000020000 17).
Definition sgx_global_enable : msr_flag := MsrFlag reg "sgx_global_enable" (Flag 0x0000000000040000 18).
Definition lmce : msr_flag := MsrFlag reg "lmce" (Flag 0x0000000000100000 20).
Definition parts : list msr_part := [m_flag lock_bit; m_flag enable_vmx_inside_smx; m_flag enable_vmx_outside_smx;
   m_field senter_local_function_enable; m_flag senter_global_function_enables;
   m_flag sgx_launch_control_enable; m_flag sgx_global_enable; m_flag lmce].
End ia32_feature_control.

Module ia32_tsc_adjust.
Definition reg : msr := Msr 0x0000003B "ia32_tsc_adjust".
Definition thread_adjust : msr_field := MsrField reg "thread_adjust" (Field 0xFFFFFFFFFFFFFFFF 0).
Definition parts : list msr_part := [m_field thread_adjust].
End ia32_tsc_adjust.

Module ia32_bios_updt_trig.
Definition reg : msr := Msr 0x00000079 "ia32_bios_updt_trig".
Definition parts : list msr_part := [].
End ia32_bios_updt_trig.

Module ia32_bios_sign_id.
Definition reg : msr := Msr 0x0000008B "ia32_bios_sign_id".
Definition bios_sign_id : msr_field := MsrField reg "bios_sign_id" (Field 0xFFFFFFFF00000000 32).
Definition parts : list msr_part := [m_field bios_sign_id].
End ia32_bios_sign_id.

Module ia32_sgxlepubkeyhash0.
Definition reg : msr := Msr 0x0000008C "ia32_sgxlepubkeyhash0".
Definition parts : list msr_part := [].
End ia32_sgxlepubkeyhash0.

Module ia32_sgxlepubkeyhash1.
Definition reg : msr := Msr 0x0000008D "ia32_sgxlepubkeyhash1".
Definition parts : list msr_part := [].
End ia32_sgxlepubkeyhash1.

Module ia32_sgxlepubkeyhash2.
Definition reg : msr := Msr 0x0000008E "ia32_sgxlepubkeyhash2".
Definition parts : list msr_part := [].
End ia32_sgxlepubkeyhash2.

Module ia32_sgxlepubkeyhash3.
Definition reg : msr := Msr 0x0000008F "ia32_sgxlepubkeyhash3".
Definition parts : list msr_part := [].
End ia32_sgxlepubkeyhash3.

Module ia32_smm_monitor_ctl.
Definition reg : msr := Msr 0x0000009B "ia32_smm_monitor_ctl".
Definition valid : msr_flag := MsrFlag reg "valid" (Flag 0x0000000000000001 0).
Definition vmxoff : msr_flag := MsrFlag reg "vmxoff" (Flag 0x0000000000000004 2).
Definition mseg_base : msr_field := MsrField reg "mseg_base" (Field 0x00000000FFFFF000 12).
Definition parts : list msr_part := [m_flag valid; m_flag vmxoff; m_field mseg_base].
End ia32_smm_monitor_ctl.

Module ia32_smbase.
Definition reg : msr := Msr 0x0000009E "ia32_smbase".
Definition parts : list msr_part := [].
End ia32_smbase.

Module ia32_pmc0.
Definition reg : msr := Msr 0x000000C1 "ia32_pmc0".
Definition parts : list msr_part := [].
End ia32_pmc0.

Module ia32_pmc1.
Definition reg : msr := Msr 0x000000C2 "ia32_pmc1".
Definition parts : list msr_part := [].
End ia32_pmc1.

Module ia32_pmc2.
Definition reg : msr := Msr 0x000000C3 "ia32_pmc2".
Definition parts : list msr_part := [].
End ia32_pmc2.

Module ia32_pmc3.
Definition reg : msr := Msr 0x000000C4 "ia32_pmc3".
Definition parts : list msr_part := [].
End ia32_pmc3.

Module ia32_pmc4.
Definition reg : msr := Msr 0x000000C5 "ia32_pmc4".
Definition parts : list msr_part := [].
End ia32_pmc4.

Module ia32_pmc5.
Definition reg : msr := Msr 0x000000C6 "ia32_pmc5".
Definition parts : list msr_part := [].
End ia32_pmc5.

Module ia32_pmc6.
Definition reg : msr := Msr 0x000000C7 "ia32_pmc6".
Definition parts : list msr_part := [].
End ia32_pmc6.

Module ia32_pmc7.
Definition reg : msr := Msr 0x000000C8 "ia32_pmc7".
Definition parts : list msr_part := [].
End ia32_pmc7.

Module ia32_sysenter_cs.
Definition reg : msr := Msr 0x00000174 "ia32_sysenter_cs".
Definition parts : list msr_part := [].
End ia32_sysenter_cs.

Module ia32_sysenter_esp.
Definition reg : msr := Msr 0x00000175 "ia32_sysenter_esp".
Definition parts : list msr_part := [].
End ia32_sysenter_esp.

Module ia32_sysenter_eip.
Definition reg : msr := Msr 0x00000176 "ia32_sysenter_eip".
Definition parts : list msr_part := [].
End ia32_sysenter_eip.

Module ia32_perfevtsel0.
Definition reg : msr := Msr 0x00000186 "ia32_perfevtsel0".
Definition event_select : msr_field := MsrField reg "event_select" (Field 0x00000000000000FF 0).
Definition umask : msr_field := MsrField reg "umask" (Field 0x000000000000FF00 8).
Definition usr : msr_flag := MsrFlag reg "usr" (Flag 0x0000000000010000 16).
Definition os : msr_flag := MsrFlag reg "os" (Flag 0x0000000000020000 17).
Definition edge : msr_flag := MsrFlag reg "edge" (Flag 0x0000000000040000 18).
Definition pc : msr_flag := MsrFlag reg "pc" (Flag 0x0000000000080000 19).
Definition interrupt : msr_flag := MsrFlag reg "interrupt" (Flag 0x0000000000100000 20).
Definition anythread : msr_flag := MsrFlag reg "anythread" (Flag 0x0000000000200000 21).
Definition en : msr_flag := MsrFlag reg "en" (Flag 0x0000000000400000 22).
Definition inv : msr_flag := MsrFlag reg "inv" (Flag 0x0000000000800000 23).
Definition cmask : msr_field := MsrField reg "cmask" (Field 0x00000000FF000000 24).
Definition parts : list msr_part := [m_field event_select; m_field umask; m_flag usr; m_flag os; m_flag edge; m_flag pc;
   m_flag interrupt; m_flag anythread; m_flag en; m_flag inv; m_field cmask].
End ia32_perfevtsel0.

Module ia32_perfevtsel1.
Definition reg : msr := Msr 0x00000187 "ia32_perfevtsel1".
Definition parts : list msr_part := [].
End ia32_perfevtsel1.

Module ia32_perfevtsel2.
Definition reg : msr := Msr 0x00000188 "ia32_perfevtsel2".
Definition parts : list msr_part := [].
End ia32_perfevtsel2.

Module ia32_perfevtsel3.
Definition reg : msr := Msr 0x00000189 "ia32_perfevtsel3".
Definition parts : list msr_part := [].
End ia32_perfevtsel3.

Module ia32_perf_status.
Definition reg : msr := Msr 0x00000198 "ia32_perf_status".
Definition state_value : msr_field := MsrField reg "state_value" (Field 0x000000000000FFFF 0).
Definition parts : list msr_part := [m_field state_value].
End ia32_perf_status.

Module ia32_perf_ctl.
Definition reg : msr := Msr 0x00000199 "ia32_perf_ctl".
Definition state_value : msr_field := MsrField reg "state_value" (Field 0x000000000000FFFF 0).
Definition ida_engage : msr_flag := MsrFlag reg "ida_engage" (Flag 0x0000000100000000 32).
Definition parts : list msr_part := [m_field state_value; m_flag ida_engage].
End ia32_perf_ctl.

Module ia32_clock_modulation.
Definition reg : msr := Msr 0x0000019A "ia32_clock_modulation".
Definition ext_duty_cycle : msr_flag := MsrFlag reg "ext_duty_cycle" (Flag 0x0000000000000001 0).
Definition duty_cycle_values : msr_field := MsrField reg "duty_cycle_values" (Field 0x000000000000000E 1).
Definition enable_modulation : msr_flag := MsrFlag reg "enable_modulation" (Flag 0x0000000000000010 4).
Definition parts : list msr_part := [m_flag ext_duty_cycle; m_field duty_cycle_values; m_flag enable_modulation].
End ia32_clock_modulation.

Module ia32_therm_interrupt.
Definition reg : msr := Msr 0x0000019B "ia32_therm_interrupt".
Definition high_temp : msr_flag := MsrFlag reg "high_temp" (Flag 0x0000000000000001 0).
Definition low_temp : msr_flag := MsrFlag reg "low_temp" (Flag 0x0000000000000002 1).
Definition prochot : msr_flag := MsrFlag reg "prochot" (Flag 0x0000000000000004 2).
Definition forcepr : msr_flag := MsrFlag reg "forcepr" (Flag 0x0000000000000008 3).
Definition crit_temp : msr_flag := MsrFlag reg "crit_temp" (Flag 0x0000000000000010 4).
Definition threshold_1_value : msr_field := MsrField reg "threshold_1_value" (Field 0x0000000000007F00 8).
Definition threshold_1_enable : msr_flag := MsrFlag reg "threshold_1_enable" (Flag 0x0000000000008000 15).
Definition threshold_2_value : msr_field := MsrField reg "threshold_2_value" (Field 0x00000000007F0000 16).
Definition threshold_2_enable : msr_flag := MsrFlag reg "threshold_2_enable" (Flag 0x0000000000800000 23).
Definition power_limit : msr_flag := MsrFlag reg "power_limit" (Flag 0x0000000001000000 24).
Definition parts : list msr_part := [m_flag high_temp; m_flag low_temp; m_flag prochot; m_flag forcepr; m_flag crit_temp;
   m_field threshold_1_value; m_flag threshold_1_enable; m_field threshold_2_value;
   m_flag threshold_2_enable; m_flag power_limit].
End ia32_therm_interrupt.

Module ia32_therm_status.
Definition reg : msr := Msr 0x0000019C "ia32_therm_status".
Definition therm_status : msr_flag := MsrFlag reg "therm_status" (Flag 0x0000000000000001 0).
Definition thermal_status_log : msr_flag := MsrFlag reg "thermal_status_log" (Flag 0x0000000000000002 1).
Definition forcepr_event : msr_flag := MsrFlag reg "forcepr_event" (Flag 0x0000000000000004 2).
Definition forcepr_log : msr_flag := MsrFlag reg "forcepr_log" (Flag 0x0000000000000008 3).
Definition crit_temp_status : msr_flag := MsrFlag reg "crit_temp_status" (Flag 0x0000000000000010 4).
Definition crit_temp_log : msr_flag := MsrFlag reg "crit_temp_log" (Flag 0x0000000000000020 5).
Definition therm_threshold1_status : msr_flag := MsrFlag reg "therm_threshold1_status" (Flag 0x0000000000000040 6).
Definition therm_threshold1_log : msr_flag := MsrFlag reg "therm_threshold1_log" (Flag 0x0000000000000080 7).
Definition therm_threshold2_status : msr_flag := MsrFlag reg "therm_threshold2_status" (Flag 0x0000000000000100 8).
Definition therm_threshold2_log : msr_flag := MsrFlag reg "therm_threshold2_log" (Flag 0x0000000000000200 9).
Definition power_limit_status : msr_flag := MsrFlag reg "power_limit_status" (Flag 0x0000000000000400 10).
Definition power_limit_log : msr_flag := MsrFlag reg "power_limit_log" (Flag 0x0000000000000800 11).
Definition current_limit_status : msr_flag := MsrFlag reg "current_limit_status" (Flag 0x0000000000001000 12).
Definition current_limit_log : msr_flag := MsrFlag reg "current_limit_log" (Flag 0x0000000000002000 13).
Definition cross_domain_status : msr_flag := MsrFlag reg "cross_domain_status" (Flag 0x0000000000004000 14).
Definition cross_domain_log : msr_flag := MsrFlag reg "cross_domain_log" (Flag 0x0000000000008000 15).
Definition digital_readout : msr_field := MsrField reg "digital_readout" (Field 0x00000000007F0000 16).
Definition resolution_celcius : msr_field := MsrField reg "resolution_celcius" (Field 0x0000000078000000 27).
Definition reading_valid : msr_flag := MsrFlag reg "reading_valid" (Flag 0x0000000080000000 31).
Definition parts : list msr_part := [m_flag therm_status; m_flag thermal_status_log; m_flag forcepr_event; m_flag forcepr_log;
   m_flag crit_temp_status; m_flag crit_temp_log; m_flag therm_threshold1_status;
   m_flag therm_threshold1_log; m_flag therm_threshold2_status; m_flag therm_threshold2_log;
   m_flag power_limit_status; m_flag power_limit_log; m_flag current_limit_status;
   m_flag current_limit_log; m_flag cross_domain_status; m_flag cross_domain_log;
   m_field digital_readout; m_field resolution_celcius; m_flag reading_valid].
End ia32_therm_status.

Module ia32_misc_enable.
Definition reg : msr := Msr 0x000001A0 "ia32_misc_enable".
Definition fast_strings : msr_flag := MsrFlag reg "fast_strings" (Flag 0x0000000000000001 0).
Definition auto_therm_control : msr_flag := MsrFlag reg "auto_therm_control" (Flag 0x0000000000000008 3).
Definition perf_monitor : msr_flag := MsrFlag reg "perf_monitor" (Flag 0x0000000000000080 7).
Definition branch_trace_storage : msr_flag := MsrFlag reg "branch_trace_storage" (Flag 0x0000000000000800 11).
Definition processor_sampling : msr_flag := MsrFlag reg "processor_sampling" (Flag 0x0000000000001000 12).
Definition intel_speedstep : msr_flag := MsrFlag reg "intel_speedstep" (Flag 0x0000000000010000 16).
Definition monitor_fsm : msr_flag := MsrFlag reg "monitor_fsm" (Flag 0x0000000000040000 18).
Definition limit_cpuid_maxval : msr_flag := MsrFlag reg "limit_cpuid_maxval" (Flag 0x0000000000400000 22).
Definition xtpr_message : msr_flag := MsrFlag reg "xtpr_message" (Flag 0x0000000000800000 23).
Definition xd_bit : msr_flag := MsrFlag reg "xd_bit" (Flag 0x0000000400000000 34).
Definition parts : list msr_part := [m_flag fast_strings; m_flag auto_therm_control; m_flag perf_monitor;
   m_flag branch_trace_storage; m_flag processor_sampling; m_flag intel_speedstep;
   m_flag monitor_fsm; m_flag limit_cpuid_maxval; m_flag xtpr_message; m_flag xd_bit].
End ia32_misc_enable.

Module ia32_energy_perf_bias.
Definition reg : msr := Msr 0x000001B0 "ia32_energy_perf_bias".
Definition power_policy : msr_field := MsrField reg "power_policy" (Field 0x000000000000000F 0).
Definition parts : list msr_part := [m_field power_policy].
End ia32_energy_perf_bias.

Module ia32_package_therm_status.
Definition reg : msr := Msr 0x000001B1 "ia32_package_therm_status".
Definition pkg_therm_status : msr_flag := MsrFlag reg "pkg_therm_status" (Flag 0x0000000000000001 0).
Definition pkg_therm_log : msr_flag := MsrFlag reg "pkg_therm_log" (Flag 0x0000000000000002 1).
Definition pkg_prochot_event : msr_flag := MsrFlag reg "pkg_prochot_event" (Flag 0x0000000000000004 2).
Definition pkg_prochot_log : msr_flag := MsrFlag reg "pkg_prochot_log" (Flag 0x0000000000000008 3).
Definition pkg_crit_temp_status : msr_flag := MsrFlag reg "pkg_crit_temp_status" (Flag 0x0000000000000010 4).
Definition pkg_crit_temp_log : msr_flag := MsrFlag reg "pkg_crit_temp_log" (Flag 0x0000000000000020 5).
Definition pkg_therm_thresh1_status : msr_flag := MsrFlag reg "pkg_therm_thresh1_status" (Flag 0x0000000000000040 6).
Definition pkg_therm_thresh1_log : msr_flag := MsrFlag reg "pkg_therm_thresh1_log" (Flag 0x0000000000000080 7).
Definition pkg_therm_thresh2_status : msr_flag := MsrFlag reg "pkg_therm_thresh2_status" (Flag 0x0000000000000100 8).
Definition pkg_therm_thresh2_log : msr_flag := MsrFlag reg "pkg_therm_thresh2_log" (Flag 0x0000000000000200 9).
Definition pkg_power_limit_status : msr_flag := MsrFlag reg "pkg_power_limit_status" (Flag 0x0000000000000400 10).
Definition pkg_power_limit_log : msr_flag := MsrFlag reg "pkg_power_limit_log" (Flag 0x0000000000000800 11).
Definition pkg_digital_readout : msr_field := MsrField reg "pkg_digital_readout" (Field 0x00000000007F0000 16).
Definition parts : list msr_part := [m_flag pkg_therm_status; m_flag pkg_therm_log; m_flag pkg_prochot_event;
   m_flag pkg_prochot_log; m_flag pkg_crit_temp_status; m_flag pkg_crit_temp_log;
   m_flag pkg_therm_thresh1_status; m_flag pkg_therm_thresh1_log;
   m_flag pkg_therm_thresh2_status; m_flag pkg_therm_thresh2_log; m_flag pkg_power_limit_status;
   m_flag pkg_power_limit_log; m_field pkg_digital_readout].
End ia32_package_therm_status.

Module ia32_package_therm_interrupt.
Definition reg : msr := Msr 0x000001B2 "ia32_energy_perf_bias".
Definition pkg_high_temp : msr_flag := MsrFlag reg "pkg_high_temp" (Flag 0x0000000000000001 0).
Definition pkg_low_temp : msr_flag := MsrFlag reg "pkg_low_temp" (Flag 0x0000000000000002 1).
Definition pkg_prochot : msr_flag := MsrFlag reg "pkg_prochot" (Flag 0x0000000000000004 2).
Definition pkg_overheat : msr_flag := MsrFlag reg "pkg_overheat" (Flag 0x0000000000000010 4).
Definition pkg_threshold_1_value : msr_field := MsrField reg "pkg_threshold_1_value" (Field 0x0000000000007F00 8).
Definition pkg_threshold_1_enable : msr_flag := MsrFlag reg "pkg_threshold_1_enable" (Flag 0x0000000000008000 15).
Definition pkg_threshold_2_value : msr_field := MsrField reg "pkg_threshold_2_value" (Field 0x00000000007F0000 16).
Definition pkg_threshold_2_enable : msr_flag := MsrFlag reg "pkg_threshold_2_enable" (Flag 0x0000000000800000 23).
Definition pkg_power_limit : msr_flag := MsrFlag reg "pkg_power_limit" (Flag 0x0000000001000000 24).
Definition parts : list msr_part := [m_flag pkg_high_temp; m_flag pkg_low_temp; m_flag pkg_prochot; m_flag pkg_overheat;
   m_field pkg_threshold_1_value; m_flag pkg_threshold_1_enable; m_field pkg_threshold_2_value;
   m_flag pkg_threshold_2_enable; m_flag pkg_power_limit].
End ia32_package_therm_interrupt.

Module ia32_debugctl.
Definition reg : msr := Msr 0x000001D9 "ia32_debugctl".
Definition lbr : msr_flag := MsrFlag reg "lbr" (Flag 0x0000000000000001 0).
Definition btf : msr_flag := MsrFlag reg "btf" (Flag 0x0000000000000002 1).
Definition tr : msr_flag := MsrFlag reg "tr" (Flag 0x0000000000000040 6).
Definition bts : msr_flag := MsrFlag reg "bts" (Flag 0x0000000000000080 7).
Definition btint : msr_flag := MsrFlag reg "btint" (Flag 0x0000000000000100 8).
Definition bt_off_os : msr_flag := MsrFlag reg "bt_off_os" (Flag 0x0000000000000200 9).
Definition bt_off_user : msr_flag := MsrFlag reg "bt_off_user" (Flag 0x0000000000000400 10).
Definition freeze_lbrs_on_pmi : msr_flag := MsrFlag reg "freeze_lbrs_on_pmi" (Flag 0x0000000000000800 11).
Definition freeze_perfmon_on_pmi : msr_flag := MsrFlag reg "freeze_perfmon_on_pmi" (Flag 0x0000000000001000 12).
Definition enable_uncore_pmi : msr_flag := MsrFlag reg "enable_uncore_pmi" (Flag 0x0000000000002000 13).
Definition freeze_while_smm : msr_flag := MsrFlag reg "freeze_while_smm" (Flag 0x0000000000004000 14).
Definition rtm_debug : msr_flag := MsrFlag reg "rtm_debug" (Flag 0x0000000000008000 15).
Definition parts : list msr_part := [m_flag lbr; m_flag btf; m_flag tr; m_flag bts; m_flag btint; m_flag bt_off_os;
   m_flag bt_off_user; m_flag freeze_lbrs_on_pmi; m_flag freeze_perfmon_on_pmi;
   m_flag enable_uncore_pmi; m_flag freeze_while_smm; m_flag rtm_debug].
End ia32_debugctl.

Module ia32_smrr_physbase.
Definition reg : msr := Msr 0x000001F2 "ia32_smrr_physbase".
Definition type : msr_field := MsrField reg "type" (Field 0x00000000000000FF 0).
Definition physbase : msr_field := MsrField reg "physbase" (Field 0x00000000FFFFF000 12).
Definition parts : list msr_part := [m_field type; m_field physbase].
End ia32_smrr_physbase.

Module ia32_smrr_physmask.
Definition reg : msr := Msr 0x000001F3 "ia32_smrr_physmask".
Definition valid : msr_flag := MsrFlag reg "valid" (Flag 0x0000000000000800 11).
Definition physmask : msr_field := MsrField reg "physmask" (Field 0x00000000FFFFF000 12).
Definition parts : list msr_part := [m_flag valid; m_field physmask].
End ia32_smrr_physmask.

Module ia32_platform_dca_cap.
Definition reg : msr := Msr 0x000001F8 "ia32_platform_dca_cap".
Definition parts : list msr_part := [].
End ia32_platform_dca_cap.

Module ia32_cpu_dca_cap.
Definition reg : msr := Msr 0x000001F9 "ia32_cpu_dca_cap".
Definition parts : list msr_part := [].
End ia32_cpu_dca_cap.

Module ia32_dca_0_cap.
Definition reg : msr := Msr 0x000001FA "ia32_dca_0_cap".
Definition dca_active : msr_flag := MsrFlag reg "dca_active" (Flag 0x0000000000000001 0).
Definition transaction : msr_field := MsrField reg "transaction" (Field 0x0000000000000006 1).
Definition dca_type : msr_field := MsrField reg "dca_type" (Field 0x0000000000000078 3).
Definition dca_queue_size : msr_field := MsrField reg "dca_queue_size" (Field 0x0000000000000780 7).
Definition dca_delay : msr_field := MsrField reg "dca_delay" (Field 0x000000000001E000 13).
Definition sw_block : msr_flag := MsrFlag reg "sw_block" (Flag 0x0000000001000000 24).
Definition hw_block : msr_flag := MsrFlag reg "hw_block" (Flag 0x0000000004000000 26).
Definition parts : list msr_part := [m_flag dca_active; m_field transaction; m_field dca_type; m_field dca_queue_size;
   m_field dca_delay; m_flag sw_block; m_flag hw_block].
End ia32_dca_0_cap.

Module ia32_mtrr_physbase.
Definition reg : msr := Msr 0x00000200 "ia32_mtrr_physbase0".
Definition type : msr_field := MsrField reg "type" (Field 0x00000000000000FF 0).
Definition physbase : msr_field := MsrField reg "physbase" (Field 0x000FFFFFFFFFF000 12).
Definition parts : list msr_part := [m_field type; m_field physbase].
End ia32_mtrr_physbase.

Module ia32_mtrr_physmask.
Definition reg : msr := Msr 0x00000201 "ia32_mtrr_physmask0".
Definition valid : msr_flag := MsrFlag reg "valid" (Flag 0x0000000000000800 11).
Definition physmask : msr_field := MsrField reg "physmask" (Field 0x000FFFFFFFFFF000 12).
Definition parts : list msr_part := [m_flag valid; m_field physmask].
End ia32_mtrr_physmask.

Module ia32_mtrr_fix64k_00000.
Definition reg : msr := Msr 0x00000250 "ia32_mtrr_fix64k_00000".
Definition parts : list msr_part := [].
End ia32_mtrr_fix64k_00000.

Module ia32_mtrr_fix16k_80000.
Definition reg : msr := Msr 0x00000258 "ia32_mtrr_fix16k_80000".
Definition parts : list msr_part := [].
End ia32_mtrr_fix16k_80000.

Module ia32_mtrr_fix16k_A0000.
Definition reg : msr := Msr 0x00000259 "ia32_mtrr_fix16k_A0000".
Definition parts : list msr_part := [].
End ia32_mtrr_fix16k_A0000.

Module ia32_mtrr_fix4k_C0000.
Definition reg : msr := Msr 0x00000268 "ia32_mtrr_fix4k_C0000".
Definition parts : list msr_part := [].
End ia32_mtrr_fix4k_C0000.

Module ia32_mtrr_fix4k_C8000.
Definition reg : msr := Msr 0x00000269 "ia32_mtrr_fix4k_C8000".
Definition parts : list msr_part := [].
End ia32_mtrr_fix4k_C8000.

Module ia32_mtrr_fix4k_D0000.
Definition reg : msr := Msr 0x0000026A "ia32_mtrr_fix4k_D0000".
Definition parts : list msr_part := [].
End ia32_mtrr_fix4k_D0000.

Module ia32_mtrr_fix4k_D8000.
Definition reg : msr := Msr 0x0000026B "ia32_mtrr_fix4k_D8000".
Definition parts : list msr_part := [].
End ia32_mtrr_fix4k_D8000.

Module ia32_mtrr_fix4k_E0000.
Definition reg : msr := Msr 0x0000026C "ia32_mtrr_fix4k_E0000".
Definition parts : list msr_part := [].
End ia32_mtrr_fix4k_E0000.

Module ia32_mtrr_fix4k_E8000.
Definition reg : msr := Msr 0x0000026D "ia32_mtrr_fix4k_E8000".
Definition parts : list msr_part := [].
End ia32_mtrr_fix4k_E8000.

Module ia32_mtrr_fix4k_F0000.
Definition reg : msr := Msr 0x0000026E "ia32_mtrr_fix4k_F0000".
Definition parts : list msr_part := [].
End ia32_mtrr_fix4k_F0000.

Module ia32_mtrr_fix4k_F8000.
Definition reg : msr := Msr 0x0000026F "ia32_mtrr_fix4k_F8000".
Definition parts : list msr_part := [].
End ia32_mtrr_fix4k_F8000.

Module ia32_mc0_ctl2.
Definition reg : msr := Msr 0x00000280 "ia32_mc0_ctl2".
Definition error_threshold : msr_field := MsrField reg "error_threshold" (Field 0x0000000000007FFF 0).
Definition cmci_en : msr_flag := MsrFlag reg "cmci_en" (Flag 0x0000000040000000 30).
Definition parts : list msr_part := [m_field error_threshold; m_flag cmci_en].
End ia32_mc0_ctl2.

Module ia32_mc1_ctl2.
Definition reg : msr := Msr 0x00000281 "ia32_mc1_ctl2".
Definition error_threshold : msr_field := MsrField reg "error_threshold" (Field 0x0000000000007FFF 0).
Definition cmci_en : msr_flag := MsrFlag reg "cmci_en" (Flag 0x0000000040000000 30).
Definition parts : list msr_part := [m_field error_threshold; m_flag cmci_en].
End ia32_mc1_ctl2.

Module ia32_mc2_ctl2.
Definition reg : msr := Msr 0x00000282 "ia32_mc2_ctl2".
Definition error_threshold : msr_field := MsrField reg "error_threshold" (Field 0x0000000000007FFF 0).
Definition cmci_en : msr_flag := MsrFlag reg "cmci_en" (Flag 0x0000000040000000 30).
Definition parts : list msr_part := [m_field error_threshold; m_flag cmci_en].
End ia32_mc2_ctl2.

Module ia32_mc3_ctl2.
Definition reg : msr := Msr 0x00000283 "ia32_mc3_ctl2".
Definition error_threshold : msr_field := MsrField reg "error_threshold" (Field 0x0000000000007FFF 0).
Definition cmci_en : msr_flag := MsrFlag reg "cmci_en" (Flag 0x0000000040000000 30).
Definition parts : list msr_part := [m_field error_threshold; m_flag cmci_en].
End ia32_mc3_ctl2.

Module ia32_mc4_ctl2.
Definition reg : msr := Msr 0x00000284 "ia32_mc4_ctl2".
Definition error_threshold : msr_field := MsrField reg "error_threshold" (Field 0x0000000000007FFF 0).
Definition cmci_en : msr_flag := MsrFlag reg "cmci_en" (Flag 0x0000000040000000 30).
Definition parts : list msr_part := [m_field error_threshold; m_flag cmci_en].
End ia32_mc4_ctl2.

Module ia32_mc5_ctl2.
Definition reg : msr := Msr 0x00000285 "ia32_mc5_ctl2".
Definition error_threshold : msr_field := MsrField reg "error_threshold" (Field 0x0000000000007FFF 0).
Definition cmci_en : msr_flag := MsrFlag reg "cmci_en" (Flag 0x0000000040000000 30).
Definition parts : list msr_part := [m_field error_threshold; m_flag cmci_en].
End ia32_mc5_ctl2.

Module ia32_mc6_ctl2.
Definition reg : msr := Msr 0x00000286 "ia32_mc6_ctl2".
Definition error_threshold : msr_field := MsrField reg "error_threshold" (Field 0x0000000000007FFF 0).
Definition cmci_en : msr_flag := MsrFlag reg "cmci_en" (Flag 0x0000000040000000 30).
Definition parts : list msr_part := [m_field error_threshold; m_flag cmci_en].
End ia32_mc6_ctl2.

Module ia32_mc7_ctl2.
Definition reg : msr := Msr 0x00000287 "ia32_mc7_ctl2".
Definition error_threshold : msr_field := MsrField reg "error_threshold" (Field 0x0000000000007FFF 0).
Definition cmci_en : msr_flag := MsrFlag reg "cmci_en" (Flag 0x0000000040000000 30).
Definition parts : list msr_part := [m_field error_threshold; m_flag cmci_en].
End ia32_mc7_ctl2.

Module ia32_mc8_ctl2.
Definition reg : msr := Msr 0x00000288 "ia32_mc8_ctl2".
Definition error_threshold : msr_field := MsrField reg "error_threshold" (Field 0x0000000000007FFF 0).
Definition cmci_en : msr_flag := MsrFlag reg "cmci_en" (Flag 0x0000000040000000 30).
Definition parts : list msr_part := [m_field error_threshold; m_flag cmci_en].
End ia32_mc8_ctl2.

Module ia32_mc9_ctl2.
Definition reg : msr := Msr 0x00000289 "ia32_mc9_ctl2".
Definition error_threshold : msr_field := MsrField reg "error_threshold" (Field 0x0000000000007FFF 0).
Definition cmci_en : msr_flag := MsrFlag reg "cmci_en" (Flag 0x0000000040000000 30).
Definition parts : list msr_part := [m_field error_threshold; m_flag cmci_en].
End ia32_mc9_ctl2.

Module ia32_mc10_ctl2.
Definition reg : msr := Msr 0x0000028A "ia32_mc10_ctl2".
Definition error_threshold : msr_field := MsrField reg "error_threshold" (Field 0x0000000000007FFF 0).
Definition cmci_en : msr_flag := MsrFlag reg "cmci_en" (Flag 0x0000000040000000 30).
Definition parts : list msr_part := [m_field error_threshold; m_flag cmci_en].
End ia32_mc10_ctl2.

Module ia32_mc11_ctl2.
Definition reg : msr := Msr 0x0000028B "ia32_mc11_ctl2".
Definition error_threshold : msr_field := MsrField reg "error_threshold" (Field 0x0000000000007FFF 0).
Definition cmci_en : msr_flag := MsrFlag reg "cmci_en" (Flag 0x0000000040000000 30).
Definition parts : list msr_part := [m_field error_threshold; m_flag cmci_en].
End ia32_mc11_ctl2.

Module ia32_mc12_ctl2.
Definition reg : msr := Msr 0x0000028C "ia32_mc12_ctl2".
Definition error_threshold : msr_field := MsrField reg "error_threshold" (Field 0x0000000000007FFF 0).
Definition cmci_en : msr_flag := MsrFlag reg "cmci_en" (Flag 0x0000000040000000 30).
Definition parts : list msr_part := [m_field error_threshold; m_flag cmci_en].
End ia32_mc12_ctl2.

Module ia32_mc13_ctl2.
Definition reg : msr := Msr 0x0000028D "ia32_mc13_ctl2".
Definition error_threshold : msr_field := MsrField reg "error_threshold" (Field 0x0000000000007FFF 0).
Definition cmci_en : msr_flag := MsrFlag reg "cmci_en" (Flag 0x0000000040000000 30).
Definition parts : list msr_part := [m_field error_threshold; m_flag cmci_en].
End ia32_mc13_ctl2.

Module ia32_mc14_ctl2.
Definition reg : msr := Msr 0x0000028E "ia32_mc14_ctl2".
Definition error_threshold : msr_field := MsrField reg "error_threshold" (Field 0x0000000000007FFF 0).
Definition cmci_en : msr_flag := MsrFlag reg "cmci_en" (Flag 0x0000000040000000 30).
Definition parts : list msr_part := [m_field error_threshold; m_flag cmci_en].
End ia32_mc14_ctl2.

Module ia32_mc15_ctl2.
Definition reg : msr := Msr 0x0000028F "ia32_mc15_ctl2".
Definition error_threshold : msr_field := MsrField reg "error_threshold" (Field 0x0000000000007FFF 0).
Definition cmci_en : msr_flag := MsrFlag reg "cmci_en" (Flag 0x0000000040000000 30).
Definition parts : list msr_part := [m_field error_threshold; m_flag cmci_en].
End ia32_mc15_ctl2.

Module ia32_mc16_ctl2.
Definition reg : msr := Msr 0x00000290 "ia32_mc16_ctl2".
Definition error_threshold : msr_field := MsrField reg "error_threshold" (Field 0x0000000000007FFF 0).
Definition cmci_en : msr_flag := MsrFlag reg "cmci_en" (Flag 0x0000000040000000 30).
Definition parts : list msr_part := [m_field error_threshold; m_flag cmci_en].
End ia32_mc16_ctl2.

Module ia32_mc17_ctl2.
Definition reg : msr := Msr 0x00000291 "ia32_mc17_ctl2".
Definition error_threshold : msr_field := MsrField reg "error_threshold" (Field 0x0000000000007FFF 0).
Definition cmci_en : msr_flag := MsrFlag reg "cmci_en" (Flag 0x0000000040000000 30).
Definition parts : list msr_part := [m_field error_threshold; m_flag cmci_en].
End ia32_mc17_ctl2.

Module ia32_mc18_ctl2.
Definition reg : msr := Msr 0x00000292 "ia32_mc18_ctl2".
Definition error_threshold : msr_field := MsrField reg "error_threshold" (Field 0x0000000000007FFF 0).
Definition cmci_en : msr_flag := MsrFlag reg "cmci_en" (Flag 0x0000000040000000 30).
Definition parts : list msr_part := [m_field error_threshold; m_flag cmci_en].
End ia32_mc18_ctl2.

Module ia32_mc19_ctl2.
Definition reg : msr := Msr 0x00000293 "ia32_mc19_ctl2".
Definition error_threshold : msr_field := MsrField reg "error_threshold" (Field 0x0000000000007FFF 0).
Definition cmci_en : msr_flag := MsrFlag reg "cmci_en" (Flag 0x0000000040000000 30).
Definition parts : list msr_part := [m_field error_threshold; m_flag cmci_en].
End ia32_mc19_ctl2.

Module ia32_mc20_ctl2.
Definition reg : msr := Msr 0x00000294 "ia32_mc20_ctl2".
Definition error_threshold : msr_field := MsrField reg "error_threshold" (Field 0x0000000000007FFF 0).
Definition cmci_en : msr_flag := MsrFlag reg "cmci_en" (Flag 0x0000000040000000 30).
Definition parts : list msr_part := [m_field error_threshold; m_flag cmci_en].
End ia32_mc20_ctl2.

Module ia32_mc21_ctl2.
Definition reg : msr := Msr 0x00000295 "ia32_mc21_ctl2".
Definition error_threshold : msr_field := MsrField reg "error_threshold" (Field 0x0000000000007FFF 0).
Definition cmci_en : msr_flag := MsrFlag reg "cmci_en" (Flag 0x0000000040000000 30).
Definition parts : list msr_part := [m_field error_threshold; m_flag cmci_en].
End ia32_mc21_ctl2.

Module ia32_mc22_ctl2.
Definition reg : msr := Msr 0x00000296 "ia32_mc22_ctl2".
Definition error_threshold : msr_field := MsrField reg "error_threshold" (Field 0x0000000000007FFF 0).
Definition cmci_en : msr_flag := MsrFlag reg "cmci_en" (Flag 0x0000000040000000 30).
Definition parts : list msr_part := [m_field error_threshold; m_flag cmci_en].
End ia32_mc22_ctl2.

Module ia32_mc23_ctl2.
Definition reg : msr := Msr 0x00000297 "ia32_mc23_ctl2".
Definition error_threshold : msr_field := MsrField reg "error_threshold" (Field 0x0000000000007FFF 0).
Definition cmci_en : msr_flag := MsrFlag reg "cmci_en" (Flag 0x0000000040000000 30).
Definition parts : list msr_part := [m_field error_threshold; m_flag cmci_en].
End ia32_mc23_ctl2.

Module ia32_mc24_ctl2.
Definition reg : msr := Msr 0x00000298 "ia32_mc24_ctl2".
Definition error_threshold : msr_field := MsrField reg "error_threshold" (Field 0x0000000000007FFF 0).
Definition cmci_en : msr_flag := MsrFlag reg "cmci_en" (Flag 0x0000000040000000 30).
Definition parts : list msr_part := [m_field error_threshold; m_flag cmci_en].
End ia32_mc24_ctl2.

Module ia32_mc25_ctl2.
Definition reg : msr := Msr 0x00000299 "ia32_mc25_ctl2".
Definition error_threshold : msr_field := MsrField reg "error_threshold" (Field 0x0000000000007FFF 0).
Definition cmci_en : msr_flag := MsrFlag reg "cmci_en" (Flag 0x0000000040000000 30).
Definition parts : list msr_part := [m_field error_threshold; m_flag cmci_en].
End ia32_mc25_ctl2.

Module ia32_mc26_ctl2.
Definition reg : msr := Msr 0x0000029A "ia32_mc26_ctl2".
Definition error_threshold : msr_field := MsrField reg "error_threshold" (Field 0x0000000000007FFF 0).
Definition cmci_en : msr_flag := MsrFlag reg "cmci_en" (Flag 0x0000000040000000 30).
Definition parts : list msr_part := [m_field error_threshold; m_flag cmci_en].
End ia32_mc26_ctl2.

Module ia32_mc27_ctl2.
Definition reg : msr := Msr 0x0000029B "ia32_mc27_ctl2".
Definition error_threshold : msr_field := MsrField reg "error_threshold" (Field 0x0000000000007FFF 0).
Definition cmci_en : msr_flag := MsrFlag reg "cmci_en" (Flag 0x0000000040000000 30).
Definition parts : list msr_part := [m_field error_threshold; m_flag cmci_en].
End ia32_mc27_ctl2.

Module ia32_mc28_ctl2.
Definition reg : msr := Msr 0x0000029C "ia32_mc28_ctl2".
Definition error_threshold : msr_field := MsrField reg "error_threshold" (Field 0x0000000000007FFF 0).
Definition cmci_en : msr_flag := MsrFlag reg "cmci_en" (Flag 0x0000000040000000 30).
Definition parts : list msr_part := [m_field error_threshold; m_flag cmci_en].
End ia32_mc28_ctl2.

Module ia32_mc29_ctl2.
Definition reg : msr := Msr 0x0000029D "ia32_mc29_ctl2".
Definition error_threshold : msr_field := MsrField reg "error_threshold" (Field 0x0000000000007FFF 0).
Definition cmci_en : msr_flag := MsrFlag reg "cmci_en" (Flag 0x0000000040000000 30).
Definition parts : list msr_part := [m_field error_threshold; m_flag cmci_en].
End ia32_mc29_ctl2.

Module ia32_mc30_ctl2.
Definition reg : msr := Msr 0x0000029E "ia32_mc30_ctl2".
Definition error_threshold : msr_field := MsrField reg "error_threshold" (Field 0x0000000000007FFF 0).
Definition cmci_en : msr_flag := MsrFlag reg "cmci_en" (Flag 0x0000000040000000 30).
Definition parts : list msr_part := [m_field error_threshold; m_flag cmci_en].
End ia32_mc30_ctl2.

Module ia32_mc31_ctl2.
Definition reg : msr := Msr 0x0000029F "ia32_mc31_ctl2".
Definition error_threshold : msr_field := MsrField reg "error_threshold" (Field 0x0000000000007FFF 0).
Definition cmci_en : msr_flag := MsrFlag reg "cmci_en" (Flag 0x0000000040000000 30).
Definition parts : list msr_part := [m_field error_threshold; m_flag cmci_en].
End ia32_mc31_ctl2.

Module ia32_mtrr_def_type.
Definition reg : msr := Msr 0x000002FF "ia32_mtrr_def_type".
Definition type : msr_field := MsrField reg "type" (Field 0x0000000000000007 0).
Definition fixed_range_mtrrs_enable : msr_flag := MsrFlag reg "fixed_range_mtrr" (Flag 0x0000000000000400 10).
Definition mtrr_enable : msr_flag := MsrFlag reg "mtrr" (Flag 0x0000000000000800 11).
Definition parts : list msr_part := [m_field type; m_flag fixed_range_mtrrs_enable; m_flag mtrr_enable].
End ia32_mtrr_def_type.

Module ia32_fixed_ctr0.
Definition reg : msr := Msr 0x00000309 "ia32_fixed_ctr0".
Definition parts : list msr_part := [].
End ia32_fixed_ctr0.

Module ia32_fixed_ctr1.
Definition reg : msr := Msr 0x0000030A "ia32_fixed_ctr1".
Definition parts : list msr_part := [].
End ia32_fixed_ctr1.

Module ia32_fixed_ctr2.
Definition reg : msr := Msr 0x0000030B "ia32_fixed_ctr2".
Definition parts : list msr_part := [].
End ia32_fixed_ctr2.

Module ia32_perf_capabilities.
Definition reg : msr := Msr 0x00000345 "ia32_perf_capabilities".
Definition lbo_format : msr_field := MsrField reg "lbo_format" (Field 0x000000000000003F 0).
Definition pebs_trap : msr_flag := MsrFlag reg "pebs_trap" (Flag 0x0000000000000040 6).
Definition pebs_savearchregs : msr_flag := MsrFlag reg "pebs_savearchregs" (Flag 0x0000000000000080 7).
Definition pebs_record_format : msr_field := MsrField reg "pebs_record_format" (Field 0x0000000000000F00 8).
Definition freeze : msr_flag := MsrFlag reg "freeze" (Flag 0x0000000000001000 12).
Definition counter_width : msr_flag := MsrFlag reg "counter_width" (Flag 0x0000000000002000 13).
Definition parts : list msr_part := [m_field lbo_format; m_flag pebs_trap; m_flag pebs_savearchregs; m_field pebs_record_format;
   m_flag freeze; m_flag counter_width].
End ia32_perf_capabilities.

Module ia32_fixed_ctr_ctrl.
Definition reg : msr := Msr 0x0000038D "ia32_fixed_ctr_ctrl".
Definition en0_os : msr_flag := MsrFlag reg "en0_os" (Flag 0x0000000000000001 0).
Definition en0_usr : msr_flag := MsrFlag reg "en0_usr" (Flag 0x0000000000000002 1).
Definition en0_anythread : msr_flag := MsrFlag reg "en0_anythread" (Flag 0x0000000000000004 2).
Definition en0_pmi : msr_flag := MsrFlag reg "en0_pmi" (Flag 0x0000000000000008 3).
Definition en1_os : msr_flag := MsrFlag reg "en1_os" (Flag 0x0000000000000010 4).
Definition en1_usr : msr_flag := MsrFlag reg "en1_usr" (Flag 0x0000000000000020 5).
Definition en1_anythread : msr_flag := MsrFlag reg "en1_anythread" (Flag 0x0000000000000040 6).
Definition en1_pmi : msr_flag := MsrFlag reg "en1_pmi" (Flag 0x0000000000000080 7).
Definition en2_os : msr_flag := MsrFlag reg "en2_os" (Flag 0x0000000000000100 8).
Definition en2_usr : msr_flag := MsrFlag reg "en2_usr" (Flag 0x0000000000000200 9).
Definition en2_anythread : msr_flag := MsrFlag reg "en2_anythread" (Flag 0x0000000000000400 10).
Definition en2_pmi : msr_flag := MsrFlag reg "en2_pmi" (Flag 0x0000000000000800 11).
Definition parts : list msr_part := [m_flag en0_os; m_flag en0_usr; m_flag en0_anythread; m_flag en0_pmi; m_flag en1_os;
   m_flag en1_usr; m_flag en1_anythread; m_flag en1_pmi; m_flag en2_os; m_flag en2_usr;
   m_flag en2_anythread; m_flag en2_pmi].
End ia32_fixed_ctr_ctrl.

Module ia32_perf_global_status.
Definition reg : msr := Msr 0x0000038E "ia32_perf_global_status".
Definition ovf_pmc0 : msr_flag := MsrFlag reg "ovf_pmc0" (Flag 0x0000000000000001 0).
Definition ovf_pmc1 : msr_flag := MsrFlag reg "ovf_pmc1" (Flag 0x0000000000000002 1).
Definition ovf_pmc2 : msr_flag := MsrFlag reg "ovf_pmc2" (Flag 0x0000000000000004 2).
Definition ovf_pmc3 : msr_flag := MsrFlag reg "ovf_pmc3" (Flag 0x0000000000000008 3).
Definition ovf_fixedctr0 : msr_flag := MsrFlag reg "ovf_fixedctr0" (Flag 0x0000000100000000 32).
Definition ovf_fixedctr1 : msr_flag := MsrFlag reg "ovf_fixedctr1" (Flag 0x0000000200000000 33).
Definition ovf_fixedctr2 : msr_flag := MsrFlag reg "ovf_fixedctr2" (Flag 0x0000000400000000 34).
Definition trace_topa_pmi : msr_flag := MsrFlag reg "trace_topa_pmi" (Flag 0x0080000000000000 55).
Definition lbr_frz : msr_flag := MsrFlag reg "lbr_frz" (Flag 0x0400000000000000 58).
Definition ctr_frz : msr_flag := MsrFlag reg "ctr_frz" (Flag 0x0800000000000000 59).
Definition asci : msr_flag := MsrFlag reg "asci" (Flag 0x1000000000000000 60).
Definition ovf_uncore : msr_flag := MsrFlag reg "ovf_uncore" (Flag 0x2000000000000000 61).
Definition ovfbuf : msr_flag := MsrFlag reg "ovfbuf" (Flag 0x4000000000000000 62).
Definition condchgd : msr_flag := MsrFlag reg "condchgd" (Flag 0x8000000000000000 63).
Definition parts : list msr_part := [m_flag ovf_pmc0; m_flag ovf_pmc1; m_flag ovf_pmc2; m_flag ovf_pmc3; m_flag ovf_fixedctr0;
   m_flag ovf_fixedctr1; m_flag ovf_fixedctr2; m_flag trace_topa_pmi; m_flag lbr_frz;
   m_flag ctr_frz; m_flag asci; m_flag ovf_uncore; m_flag ovfbuf; m_flag condchgd].
End ia32_perf_global_status.

Module ia32_perf_global_ctrl.
Definition reg : msr := Msr 0x0000038F "ia32_perf_global_ctrl".
Definition pmc0 : msr_flag := MsrFlag reg "pmc0" (Flag 0x0000000000000001 0).
Definition pmc1 : msr_flag := MsrFlag reg "pmc1" (Flag 0x0000000000000002 1).
Definition pmc2 : msr_flag := MsrFlag reg "pmc2" (Flag 0x0000000000000004 2).
Definition pmc3 : msr_flag := MsrFlag reg "pmc3" (Flag 0x0000000000000008 3).
Definition pmc4 : msr_flag := MsrFlag reg "pmc4" (Flag 0x0000000000000010 4).
Definition pmc5 : msr_flag := MsrFlag reg "pmc5" (Flag 0x0000000000000020 5).
Definition pmc6 : msr_flag := MsrFlag reg "pmc6" (Flag 0x0000000000000040 6).
Definition pmc7 : msr_flag := MsrFlag reg "pmc7" (Flag 0x0000000000000080 7).
Definition fixed_ctr0 : msr_flag := MsrFlag reg "fixed_ctr0" (Flag 0x0000000100000000 32).
Definition fixed_ctr1 : msr_flag := MsrFlag reg "fixed_ctr1" (Flag 0x0000000200000000 33).
Definition fixed_ctr2 : msr_flag := MsrFlag reg "fixed_ctr2" (Flag 0x0000000400000000 34).
Definition parts : list msr_part := [m_flag pmc0; m_flag pmc1; m_flag pmc2; m_flag pmc3; m_flag pmc4; m_flag pmc5; m_flag pmc6;
   m_flag pmc7; m_flag fixed_ctr0; m_flag fixed_ctr1; m_flag fixed_ctr2].
End ia32_perf_global_ctrl.

Module ia32_perf_global_ovf_ctrl.
Definition reg : msr := Msr 0x00000390 "ia32_perf_global_ovf_ctrl".
Definition clear_ovf_pmc0 : msr_flag := MsrFlag reg "clear_ovf_pmc0" (Flag 0x0000000000000001 0).
Definition clear_ovf_pmc1 : msr_flag := MsrFlag reg "clear_ovf_pmc1" (Flag 0x0000000000000002 1).
Definition clear_ovf_pmc2 : msr_flag := MsrFlag reg "clear_ovf_pmc2" (Flag 0x0000000000000004 2).
Definition clear_ovf_fixed_ctr0 : msr_flag := MsrFlag reg "clear_ovf_fixed_ctr0" (Flag 0x0000000100000000 32).
Definition clear_ovf_fixed_ctr1 : msr_flag := MsrFlag reg "clear_ovf_fixed_ctr1" (Flag 0x0000000200000000 33).
Definition clear_ovf_fixed_ctr2 : msr_flag := MsrFlag reg "clear_ovf_fixed_ctr2" (Flag 0x0000000400000000 34).
Definition clear_trace_topa_pmi : msr_flag := MsrFlag reg "clear_trace_topa_pmi" (Flag 0x0080000000000000 55).
Definition lbr_frz : msr_flag := MsrFlag reg "lbr_frz" (Flag 0x0400000000000000 58).
Definition ctr_frz : msr_flag := MsrFlag reg "ctr_frz" (Flag 0x0800000000000000 59).
Definition clear_ovf_uncore : msr_flag := MsrFlag reg "clear_ovf_uncore" (Flag 0x2000000000000000 61).
Definition clear_ovfbuf : msr_flag := MsrFlag reg "clear_ovfbuf" (Flag 0x4000000000000000 62).
Definition clear_condchgd : msr_flag := MsrFlag reg "clear_condchgd" (Flag 0x8000000000000000 63).
Definition parts : list msr_part := [m_flag clear_ovf_pmc0; m_flag clear_ovf_pmc1; m_flag clear_ovf_pmc2;
   m_flag clear_ovf_fixed_ctr0; m_flag clear_ovf_fixed_ctr1; m_flag clear_ovf_fixed_ctr2;
   m_flag clear_trace_topa_pmi; m_flag lbr_frz; m_flag ctr_frz; m_flag clear_ovf_uncore;
   m_flag clear_ovfbuf; m_flag clear_condchgd].
End ia32_perf_global_ovf_ctrl.

Module ia32_perf_global_status_set.
Definition reg : msr := Msr 0x00000391 "ia32_perf_global_status_set".
Definition ovf_pmc0 : msr_flag := MsrFlag reg "ovf_pmc0" (Flag 0x0000000000000001 0).
Definition ovf_pmc1 : msr_flag := MsrFlag reg "ovf_pmc1" (Flag 0x0000000000000002 1).
Definition ovf_pmc2 : msr_flag := MsrFlag reg "ovf_pmc2" (Flag 0x0000000000000004 2).
Definition ovf_fixed_ctr0 : msr_flag := MsrFlag reg "ovf_fixed_ctr0" (Flag 0x0000000100000000 32).
Definition ovf_fixed_ctr1 : msr_flag := MsrFlag reg "ovf_fixed_ctr1" (Flag 0x0000000200000000 33).
Definition ovf_fixed_ctr2 : msr_flag := MsrFlag reg "ovf_fixed_ctr2" (Flag 0x0000000400000000 34).
Definition trace_topa_pmi : msr_flag := MsrFlag reg "trace_topa_pmi" (Flag 0x0080000000000000 55).
Definition lbr_frz : msr_flag := MsrFlag reg "lbr_frz" (Flag 0x0400000000000000 58).
Definition ctr_frz : msr_flag := MsrFlag reg "ctr_frz" (Flag 0x0800000000000000 59).
Definition ovf_uncore : msr_flag := MsrFlag reg "ovf_uncore" (Flag 0x2000000000000000 61).
Definition ovfbuf : msr_flag := MsrFlag reg "clear_ovfbuf" (Flag 0x4000000000000000 62).
Definition parts : list msr_part := [m_flag ovf_pmc0; m_flag ovf_pmc1; m_flag ovf_pmc2; m_flag ovf_fixed_ctr0;
   m_flag ovf_fixed_ctr1; m_flag ovf_fixed_ctr2; m_flag trace_topa_pmi; m_flag lbr_frz;
   m_flag ctr_frz; m_flag ovf_uncore; m_flag ovfbuf].
End ia32_perf_global_status_set.

Module ia32_perf_global_inuse.
Definition reg : msr := Msr 0x00000392 "ia32_perf_global_inuse".
Definition perfevtsel0 : msr_flag := MsrFlag reg "perfevtsel0" (Flag 0x0000000000000001 0).
Definition perfevtsel1 : msr_flag := MsrFlag reg "perfevtsel1" (Flag 0x0000000000000002 1).
Definition perfevtsel2 : msr_flag := MsrFlag reg "perfevtsel2" (Flag 0x0000000000000004 2).
Definition fixed_ctr0 : msr_flag := MsrFlag reg "fixed_ctr0" (Flag 0x0000000100000000 32).
Definition fixed_ctr1 : msr_flag := MsrFlag reg "fixed_ctr1" (Flag 0x0000000200000000 33).
Definition fixed_ctr2 : msr_flag := MsrFlag reg "fixed_ctr2" (Flag 0x0000000400000000 34).
Definition pmi : msr_flag := MsrFlag reg "pmi" (Flag 0x8000000000000000 63).
Definition parts : list msr_part := [m_flag perfevtsel0; m_flag perfevtsel1; m_flag perfevtsel2; m_flag fixed_ctr0;
   m_flag fixed_ctr1; m_flag fixed_ctr2; m_flag pmi].
End ia32_perf_global_inuse.

Module ia32_pebs_enable.
Definition reg : msr := Msr 0x000003F1 "ia32_pebs_enable".
Definition pebs : msr_flag := MsrFlag reg "pebs" (Flag 0x0000000000000001 0).
Definition parts : list msr_part := [m_flag pebs].
End ia32_pebs_enable.

Module ia32_mc6_ctl.
Definition reg : msr := Msr 0x00000418 "ia32_mc6_ctl".
Definition parts : list msr_part := [].
End ia32_mc6_ctl.

Module ia32_mc6_status.
Definition reg : msr := Msr 0x00000419 "ia32_mc6_status".
Definition parts : list msr_part := [].
End ia32_mc6_status.

Module ia32_mc6_addr.
Definition reg : msr := Msr 0x0000041A "ia32_mc6_addr".
Definition parts : list msr_part := [].
End ia32_mc6_addr.

Module ia32_mc6_misc.
Definition reg : msr := Msr 0x0000041B "ia32_mc6_misc".
Definition parts : list msr_part := [].
End ia32_mc6_misc.

Module ia32_mc7_ctl.
Definition reg : msr := Msr 0x0000041C "ia32_mc7_ctl".
Definition parts : list msr_part := [].
End ia32_mc7_ctl.

Module ia32_mc7_status.
Definition reg : msr := Msr 0x0000041D "ia32_mc7_status".
Definition parts : list msr_part := [].
End ia32_mc7_status.

Module ia32_mc7_addr.
Definition reg : msr := Msr 0x0000041E "ia32_mc7_addr".
Definition parts : list msr_part := [].
End ia32_mc7_addr.

Module ia32_mc7_misc.
Definition reg : msr := Msr 0x0000041F "ia32_mc7_misc".
Definition parts : list msr_part := [].
End ia32_mc7_misc.

Module ia32_mc8_ctl.
Definition reg : msr := Msr 0x00000420 "ia32_mc8_ctl".
Definition parts : list msr_part := [].
End ia32_mc8_ctl.

Module ia32_mc8_status.
Definition reg : msr := Msr 0x00000421 "ia32_mc8_status".
Definition parts : list msr_part := [].
End ia32_mc8_status.

Module ia32_mc8_addr.
Definition reg : msr := Msr 0x00000422 "ia32_mc8_addr".
Definition parts : list msr_part := [].
End ia32_mc8_addr.

Module ia32_mc8_misc.
Definition reg : msr := Msr 0x00000423 "ia32_mc8_misc".
Definition parts : list msr_part := [].
End ia32_mc8_misc.

Module ia32_mc9_ctl.
Definition reg : msr := Msr 0x00000424 "ia32_mc9_ctl".
Definition parts : list msr_part := [].
End ia32_mc9_ctl.

Module ia32_mc9_status.
Definition reg : msr := Msr 0x00000425 "ia32_mc9_status".
Definition parts : list msr_part := [].
End ia32_mc9_status.

Module ia32_mc9_addr.
Definition reg : msr := Msr 0x00000426 "ia32_mc9_addr".
Definition parts : list msr_part := [].
End ia32_mc9_addr.

Module ia32_mc9_misc.
Definition reg : msr := Msr 0x00000427 "ia32_mc9_misc".
Definition parts : list msr_part := [].
End ia32_mc9_misc.

Module ia32_mc10_ctl.
Definition reg : msr := Msr 0x00000428 "ia32_mc10_ctl".
Definition parts : list msr_part := [].
End ia32_mc10_ctl.

Module ia32_mc10_status.
Definition reg : msr := Msr 0x00000429 "ia32_mc10_status".
Definition parts : list msr_part := [].
End ia32_mc10_status.

Module ia32_mc10_addr.
Definition reg : msr := Msr 0x0000042A "ia32_mc10_addr".
Definition parts : list msr_part := [].
End ia32_mc10_addr.

Module ia32_mc10_misc.
Definition reg : msr := Msr 0x0000042B "ia32_mc10_misc".
Definition parts : list msr_part := [].
End ia32_mc10_misc.

Module ia32_mc11_ctl.
Definition reg : msr := Msr 0x0000042C "ia32_mc11_ctl".
Definition parts : list msr_part := [].
End ia32_mc11_ctl.

Module ia32_mc11_status.
Definition reg : msr := Msr 0x0000042D "ia32_mc11_status".
Definition parts : list msr_part := [].
End ia32_mc11_status.

Module ia32_mc11_addr.
Definition reg : msr := Msr 0x0000042E "ia32_mc11_addr".
Definition parts : list msr_part := [].
End ia32_mc11_addr.

Module ia32_mc11_misc.
Definition reg : msr := Msr 0x0000042F "ia32_mc11_misc".
Definition parts : list msr_part := [].
End ia32_mc11_misc.

Module ia32_mc12_ctl.
Definition reg : msr := Msr 0x00000430 "ia32_mc12_ctl".
Definition parts : list msr_part := [].
End ia32_mc12_ctl.

Module ia32_mc12_status.
Definition reg : msr := Msr 0x00000431 "ia32_mc12_status".
Definition parts : list msr_part := [].
End ia32_mc12_status.

Module ia32_mc12_addr.
Definition reg : msr := Msr 0x00000432 "ia32_mc12_addr".
Definition parts : list msr_part := [].
End ia32_mc12_addr.

Module ia32_mc12_misc.
Definition reg : msr := Msr 0x00000433 "ia32_mc12_misc".
Definition parts : list msr_part := [].
End ia32_mc12_misc.

Module ia32_mc13_ctl.
Definition reg : msr := Msr 0x00000434 "ia32_mc13_ctl".
Definition parts : list msr_part := [].
End ia32_mc13_ctl.

Module ia32_mc13_status.
Definition reg : msr := Msr 0x00000435 "ia32_mc13_status".
Definition parts : list msr_part := [].
End ia32_mc13_status.

Module ia32_mc13_addr.
Definition reg : msr := Msr 0x00000436 "ia32_mc13_addr".
Definition parts : list msr_part := [].
End ia32_mc13_addr.

Module ia32_mc13_misc.
Definition reg : msr := Msr 0x00000437 "ia32_mc13_misc".
Definition parts : list msr_part := [].
End ia32_mc13_misc.

Module ia32_mc14_ctl.
Definition reg : msr := Msr 0x00000438 "ia32_mc14_ctl".
Definition parts : list msr_part := [].
End ia32_mc14_ctl.

Module ia32_mc14_status.
Definition reg : msr := Msr 0x00000439 "ia32_mc14_status".
Definition parts : list msr_part := [].
End ia32_mc14_status.

Module ia32_mc14_addr.
Definition reg : msr := Msr 0x0000043A "ia32_mc14_addr".
Definition parts : list msr_part := [].
End ia32_mc14_addr.

Module ia32_mc14_misc.
Definition reg : msr := Msr 0x0000043B "ia32_mc14_misc".
Definition parts : list msr_part := [].
End ia32_mc14_misc.

Module ia32_mc15_ctl.
Definition reg : msr := Msr 0x0000043C "ia32_mc15_ctl".
Definition parts : list msr_part := [].
End ia32_mc15_ctl.

Module ia32_mc15_status.
Definition reg : msr := Msr 0x0000043D "ia32_mc15_status".
Definition parts : list msr_part := [].
End ia32_mc15_status.

Module ia32_mc15_addr.
Definition reg : msr := Msr 0x0000043E "ia32_mc15_addr".
Definition parts : list msr_part := [].
End ia32_mc15_addr.

Module ia32_mc15_misc.
Definition reg : msr := Msr 0x0000043F "ia32_mc15_misc".
Definition parts : list msr_part := [].
End ia32_mc15_misc.

Module ia32_mc16_ctl.
Definition reg : msr := Msr 0x00000440 "ia32_mc16_ctl".
Definition parts : list msr_part := [].
End ia32_mc16_ctl.

Module ia32_mc16_status.
Definition reg : msr := Msr 0x00000441 "ia32_mc16_status".
Definition parts : list msr_part := [].
End ia32_mc16_status.

Module ia32_mc16_addr.
Definition reg : msr := Msr 0x00000442 "ia32_mc16_addr".
Definition parts : list msr_part := [].
End ia32_mc16_addr.

Module ia32_mc16_misc.
Definition reg : msr := Msr 0x00000443 "ia32_mc16_misc".
Definition parts : list msr_part := [].
End ia32_mc16_misc.

Module ia32_mc17_ctl.
Definition reg : msr := Msr 0x00000444 "ia32_mc17_ctl".
Definition parts : list msr_part := [].
End ia32_mc17_ctl.

Module ia32_mc17_status.
Definition reg : msr := Msr 0x00000445 "ia32_mc17_status".
Definition parts : list msr_part := [].
End ia32_mc17_status.

Module ia32_mc17_addr.
Definition reg : msr := Msr 0x00000446 "ia32_mc17_addr".
Definition parts : list msr_part := [].
End ia32_mc17_addr.

Module ia32_mc17_misc.
Definition reg : msr := Msr 0x00000447 "ia32_mc17_misc".
Definition parts : list msr_part := [].
End ia32_mc17_misc.

Module ia32_mc18_ctl.
Definition reg : msr := Msr 0x00000448 "ia32_mc18_ctl".
Definition parts : list msr_part := [].
End ia32_mc18_ctl.

Module ia32_mc18_status.
Definition reg : msr := Msr 0x00000449 "ia32_mc18_status".
Definition parts : list msr_part := [].
End ia32_mc18_status.

Module ia32_mc18_addr.
Definition reg : msr := Msr 0x0000044A "ia32_mc18_addr".
Definition parts : list msr_part := [].
End ia32_mc18_addr.

Module ia32_mc18_misc.
Definition reg : msr := Msr 0x0000044B "ia32_mc18_misc".
Definition parts : list msr_part := [].
End ia32_mc18_misc.

Module ia32_mc19_ctl.
Definition reg : msr := Msr 0x0000044C "ia32_mc19_ctl".
Definition parts : list msr_part := [].
End ia32_mc19_ctl.

Module ia32_mc19_status.
Definition reg : msr := Msr 0x0000044D "ia32_mc19_status".
Definition parts : list msr_part := [].
End ia32_mc19_status.

Module ia32_mc19_addr.
Definition reg : msr := Msr 0x0000044E "ia32_mc19_addr".
Definition parts : list msr_part := [].
End ia32_mc19_addr.

Module ia32_mc19_misc.
Definition reg : msr := Msr 0x0000044F "ia32_mc19_misc".
Definition parts : list msr_part := [].
End ia32_mc19_misc.

Module ia32_mc20_ctl.
Definition reg : msr := Msr 0x00000450 "ia32_mc20_ctl".
Definition parts : list msr_part := [].
End ia32_mc20_ctl.

Module ia32_mc20_status.
Definition reg : msr := Msr 0x00000451 "ia32_mc20_status".
Definition parts : list msr_part := [].
End ia32_mc20_status.

Module ia32_mc20_addr.
Definition reg : msr := Msr 0x00000452 "ia32_mc20_addr".
Definition parts : list msr_part := [].
End ia32_mc20_addr.

Module ia32_mc20_misc.
Definition reg : msr := Msr 0x00000453 "ia32_mc20_misc".
Definition parts : list msr_part := [].
End ia32_mc20_misc.

Module ia32_mc21_ctl.
Definition reg : msr := Msr 0x00000454 "ia32_mc21_ctl".
Definition parts : list msr_part := [].
End ia32_mc21_ctl.

Module ia32_mc21_status.
Definition reg : msr := Msr 0x00000455 "ia32_mc21_status".
Definition parts : list msr_part := [].
End ia32_mc21_status.

Module ia32_mc21_addr.
Definition reg : msr := Msr 0x00000456 "ia32_mc21_addr".
Definition parts : list msr_part := [].
End ia32_mc21_addr.

Module ia32_mc21_misc.
Definition reg : msr := Msr 0x00000457 "ia32_mc21_misc".
Definition parts : list msr_part := [].
End ia32_mc21_misc.

Module ia32_mc22_ctl.
Definition reg : msr := Msr 0x00000458 "ia32_mc22_ctl".
Definition parts : list msr_part := [].
End ia32_mc22_ctl.

Module ia32_mc22_status.
Definition reg : msr := Msr 0x00000459 "ia32_mc22_status".
Definition parts : list msr_part := [].
End ia32_mc22_status.

Module ia32_mc22_addr.
Definition reg : msr := Msr 0x0000045A "ia32_mc22_addr".
Definition parts : list msr_part := [].
End ia32_mc22_addr.

Module ia32_mc22_misc.
Definition reg : msr := Msr 0x0000045B "ia32_mc22_misc".
Definition parts : list msr_part := [].
End ia32_mc22_misc.

Module ia32_mc23_ctl.
Definition reg : msr := Msr 0x0000045C "ia32_mc23_ctl".
Definition parts : list msr_part := [].
End ia32_mc23_ctl.

Module ia32_mc23_status.
Definition reg : msr := Msr 0x0000045D "ia32_mc23_status".
Definition parts : list msr_part := [].
End ia32_mc23_status.

Module ia32_mc23_addr.
Definition reg : msr := Msr 0x0000045E "ia32_mc23_addr".
Definition parts : list msr_part := [].
End ia32_mc23_addr.

Module ia32_mc23_misc.
Definition reg : msr := Msr 0x0000045F "ia32_mc23_misc".
Definition parts : list msr_part := [].
End ia32_mc23_misc.

Module ia32_mc24_ctl.
Definition reg : msr := Msr 0x00000460 "ia32_mc24_ctl".
Definition parts : list msr_part := [].
End ia32_mc24_ctl.

Module ia32_mc24_status.
Definition reg : msr := Msr 0x00000461 "ia32_mc24_status".
Definition parts : list msr_part := [].
End ia32_mc24_status.

Module ia32_mc24_addr.
Definition reg : msr := Msr 0x00000462 "ia32_mc24_addr".
Definition parts : list msr_part := [].
End ia32_mc24_addr.

Module ia32_mc24_misc.
Definition reg : msr := Msr 0x00000463 "ia32_mc24_misc".
Definition parts : list msr_part := [].
End ia32_mc24_misc.

Module ia32_mc25_ctl.
Definition reg : msr := Msr 0x00000464 "ia32_mc25_ctl".
Definition parts : list msr_part := [].
End ia32_mc25_ctl.

Module ia32_mc25_status.
Definition reg : msr := Msr 0x00000465 "ia32_mc25_status".
Definition parts : list msr_part := [].
End ia32_mc25_status.

Module ia32_mc25_addr.
Definition reg : msr := Msr 0x00000466 "ia32_mc25_addr".
Definition parts : list msr_part := [].
End ia32_mc25_addr.

Module ia32_mc25_misc.
Definition reg : msr := Msr 0x00000467 "ia32_mc25_misc".
Definition parts : list msr_part := [].
End ia32_mc25_misc.

Module ia32_mc26_ctl.
Definition reg : msr := Msr 0x00000468 "ia32_mc26_ctl".
Definition parts : list msr_part := [].
End ia32_mc26_ctl.

Module ia32_mc26_status.
Definition reg : msr := Msr 0x00000469 "ia32_mc26_status".
Definition parts : list msr_part := [].
End ia32_mc26_status.

Module ia32_mc26_addr.
Definition reg : msr := Msr 0x0000046A "ia32_mc26_addr".
Definition parts : list msr_part := [].
End ia32_mc26_addr.

Module ia32_mc26_misc.
Definition reg : msr := Msr 0x0000046B "ia32_mc26_misc".
Definition parts : list msr_part := [].
End ia32_mc26_misc.

Module ia32_mc27_ctl.
Definition reg : msr := Msr 0x0000046C "ia32_mc27_ctl".
Definition parts : list msr_part := [].
End ia32_mc27_ctl.

Module ia32_mc27_status.
Definition reg : msr := Msr 0x0000046D "ia32_mc27_status".
Definition parts : list msr_part := [].
End ia32_mc27_status.

Module ia32_mc27_addr.
Definition reg : msr := Msr 0x0000046E "ia32_mc27_addr".
Definition parts : list msr_part := [].
End ia32_mc27_addr.

Module ia32_mc27_misc.
Definition reg : msr := Msr 0x0000046F "ia32_mc27_misc".
Definition parts : list msr_part := [].
End ia32_mc27_misc.

Module ia32_mc28_ctl.
Definition reg : msr := Msr 0x00000470 "ia32_mc28_ctl".
Definition parts : list msr_part := [].
End ia32_mc28_ctl.

Module ia32_mc28_status.
Definition reg : msr := Msr 0x00000471 "ia32_mc28_status".
Definition parts : list msr_part := [].
End ia32_mc28_status.

Module ia32_mc28_addr.
Definition reg : msr := Msr 0x00000472 "ia32_mc28_addr".
Definition parts : list msr_part := [].
End ia32_mc28_addr.

Module ia32_mc28_misc.
Definition reg : msr := Msr 0x00000473 "ia32_mc28_misc".
Definition parts : list msr_part := [].
End ia32_mc28_misc.

Module ia32_vmx_basic.
Definition reg : msr := Msr 0x00000480 "ia32_vmx_basic".
Definition revision_id : msr_field := MsrField reg "revision_id" (Field 0x000000007FFFFFFF 0).
Definition vmxon_vmcs_region_size : msr_field := MsrField reg "vmxon_vmcs_region_size" (Field 0x00001FFF00000000 32).
Definition physical_address_width : msr_flag := MsrFlag reg "physical_address_width" (Flag 0x0001000000000000 48).
Definition dual_monitor_mode_support : msr_flag := MsrFlag reg "dual_monitor_mode_support" (Flag 0x0002000000000000 49).
Definition memory_type : msr_field := MsrField reg "memory_type" (Field 0x003C000000000000 50).
Definition ins_outs_exit_information : msr_flag := MsrFlag reg "ins_outs_exit_information" (Flag 0x0040000000000000 54).
Definition true_based_controls : msr_flag := MsrFlag reg "true_based_controls" (Flag 0x0080000000000000 55).
Definition parts : list msr_part := [m_field revision_id; m_field vmxon_vmcs_region_size; m_flag physical_address_width;
   m_flag dual_monitor_mode_support; m_field memory_type; m_flag ins_outs_exit_information;
   m_flag true_based_controls].
End ia32_vmx_basic.

Module ia32_vmx_pinbased_ctls.
Definition reg : msr := Msr 0x00000481 "ia32_vmx_pinbased_ctls".
Definition allowed_0_settings : msr_field := MsrField reg "allowed_0_settings" (Field 0x00000000FFFFFFFF 0).
Definition allowed_1_settings : msr_field := MsrField reg "allowed_1_settings" (Field 0xFFFFFFFF00000000 32).
Definition parts : list msr_part := [m_field allowed_0_settings; m_field allowed_1_settings].
End ia32_vmx_pinbased_ctls.

Module ia32_vmx_procbased_ctls.
Definition reg : msr := Msr 0x00000482 "ia32_vmx_procbased_ctls".
Definition allowed_0_settings : msr_field := MsrField reg "allowed_0_settings" (Field 0x00000000FFFFFFFF 0).
Definition allowed_1_settings : msr_field := MsrField reg "allowed_1_settings" (Field 0xFFFFFFFF00000000 32).
Definition parts : list msr_part := [m_field allowed_0_settings; m_field allowed_1_settings].
End ia32_vmx_procbased_ctls.

Module ia32_vmx_exit_ctls.
Definition reg : msr := Msr 0x00000483 "ia32_vmx_exit_ctls".
Definition allowed_0_settings : msr_field := MsrField reg "allowed_0_settings" (Field 0x00000000FFFFFFFF 0).
Definition allowed_1_settings : msr_field := MsrField reg "allowed_1_settings" (Field 0xFFFFFFFF00000000 32).
Definition parts : list msr_part := [m_field allowed_0_settings; m_field allowed_1_settings].
End ia32_vmx_exit_ctls.

Module ia32_vmx_entry_ctls.
Definition reg : msr := Msr 0x00000484 "ia32_vmx_entry_ctls".
Definition allowed_0_settings : msr_field := MsrField reg "allowed_0_settings" (Field 0x00000000FFFFFFFF 0).
Definition allowed_1_settings : msr_field := MsrField reg "allowed_1_settings" (Field 0xFFFFFFFF00000000 32).
Definition parts : list msr_part := [m_field allowed_0_settings; m_field allowed_1_settings].
End ia32_vmx_entry_ctls.

Module ia32_vmx_misc.
Definition reg : msr := Msr 0x00000485 "ia32_vmx_misc".
Definition preemption_timer_decrement : msr_field := MsrField reg "preemption_timer_decrement" (Field 0x000000000000001F 0).
Definition store_efer_lma_on_vm_exit : msr_flag := MsrFlag reg "store_efer_lma_on_vm_exit" (Flag 0x0000000000000020 5).
Definition activity_state_hlt_support : msr_flag := MsrFlag reg "activity_state_hlt_support" (Flag 0x0000000000000040 6).
Definition activity_state_shutdown_support : msr_flag := MsrFlag reg "activity_state_shutdown_support" (Flag 0x0000000000000080 7).
Definition activity_state_wait_for_sipi_support : msr_flag := MsrFlag reg "activity_state_wait_for_sipi_support" (Flag 0x0000000000000100 8).
Definition processor_trace_support : msr_flag := MsrFlag reg "processor_trace_support" (Flag 0x0000000000004000 14).
Definition rdmsr_in_smm_support : msr_flag := MsrFlag reg "rdmsr_in_smm_support" (Flag 0x0000000000008000 15).
Definition cr3_targets : msr_field := MsrField reg "cr3_targets" (Field 0x0000000001FF0000 16).
Definition max_num_msr_load_store_on_exit : msr_field := MsrField reg "max_num_msr_load_store_on_exit" (Field 0x000000000E000000 25).
Definition vmxoff_blocked_smi_support : msr_flag := MsrFlag reg "vmxoff_blocked_smi_support" (Flag 0x0000000010000000 28).
Definition vmwrite_all_fields_support : msr_flag := MsrFlag reg "vmwrite_all_fields_support" (Flag 0x0000000020000000 29).
Definition injection_with_instruction_length_of_zero : msr_flag := MsrFlag reg "injection_with_instruction_length_of_zero" (Flag 0x0000000040000000 30).
Definition parts : list msr_part := [m_field preemption_timer_decrement; m_flag store_efer_lma_on_vm_exit;
   m_flag activity_state_hlt_support; m_flag activity_state_shutdown_support;
   m_flag activity_state_wait_for_sipi_support; m_flag processor_trace_support;
   m_flag rdmsr_in_smm_support; m_field cr3_targets; m_field max_num_msr_load_store_on_exit;
   m_flag vmxoff_blocked_smi_support; m_flag vmwrite_all_fields_support;
   m_flag injection_with_instruction_length_of_zero].
End ia32_vmx_misc.

Module ia32_vmx_cr0_fixed0.
Definition reg : msr := Msr 0x00000486 "ia32_vmx_cr0_fixed0".
Definition parts : list msr_part := [].
End ia32_vmx_cr0_fixed0.

Module ia32_vmx_cr0_fixed1.
Definition reg : msr := Msr 0x00000487 "ia32_vmx_cr0_fixed1".
Definition parts : list msr_part := [].
End ia32_vmx_cr0_fixed1.

Module ia32_vmx_cr4_fixed0.
Definition reg : msr := Msr 0x00000488 "ia32_vmx_cr4_fixed0".
Definition parts : list msr_part := [].
End ia32_vmx_cr4_fixed0.

Module ia32_vmx_cr4_fixed1.
Definition reg : msr := Msr 0x00000489 "ia32_vmx_cr4_fixed1".
Definition parts : list msr_part := [].
End ia32_vmx_cr4_fixed1.

Module ia32_vmx_vmcs_enum.
Definition reg : msr := Msr 0x0000048A "ia32_vmx_vmcs_enum".
Definition highest_index : msr_field := MsrField reg "highest_index" (Field 0x00000000000003FE 1).
Definition parts : list msr_part := [m_field highest_index].
End ia32_vmx_vmcs_enum.

Module ia32_vmx_procbased_ctls2.
Definition reg : msr := Msr 0x0000048B "ia32_vmx_procbased_ctls2".
Definition virtualize_apic_accesses : msr_flag := MsrFlag reg "virtualize_apic_accesses" (Flag 0x0000000000000001 0).
Definition enable_ept : msr_flag := MsrFlag reg "enable_ept" (Flag 0x0000000000000002 1).
Definition descriptor_table_exiting : msr_flag := MsrFlag reg "descriptor_table_exiting" (Flag 0x0000000000000004 2).
Definition enable_rdtscp : msr_flag := MsrFlag reg "enable_rdtscp" (Flag 0x0000000000000008 3).
Definition virtualize_x2apic_mode : msr_flag := MsrFlag reg "virtualize_x2apic_mode" (Flag 0x0000000000000010 4).
Definition enable_vpid : msr_flag := MsrFlag reg "enable_vpid" (Flag 0x0000000000000020 5).
Definition wbinvd_exiting : msr_flag := MsrFlag reg "wbinvd_exiting" (Flag 0x0000000000000040 6).
Definition unrestricted_guest : msr_flag := MsrFlag reg "unrestricted_guest" (Flag 0x0000000000000080 7).
Definition apic_register_virtualization : msr_flag := MsrFlag reg "apic_register_virtualization" (Flag 0x0000000000000100 8).
Definition virtual_interrupt_delivery : msr_flag := MsrFlag reg "virtual_interrupt_delivery" (Flag 0x0000000000000200 9).
Definition pause_loop_exiting : msr_flag := MsrFlag reg "pause_loop_exiting" (Flag 0x0000000000000400 10).
Definition rdrand_exiting : msr_flag := MsrFlag reg "rdrand_exiting" (Flag 0x0000000000000800 11).
Definition enable_invpcid : msr_flag := MsrFlag reg "enable_invpcid" (Flag 0x0000000000001000 12).
Definition enable_vm_functions : msr_flag := MsrFlag reg "enable_vm_functions" (Flag 0x0000000000002000 13).
Definition vmcs_shadowing : msr_flag := MsrFlag reg "vmcs_shadowing" (Flag 0x0000000000004000 14).
Definition enable_encls_exiting : msr_flag := MsrFlag reg "enable_encls_exiting" (Flag 0x0000000000008000 15).
Definition rdseed_exiting : msr_flag := MsrFlag reg "rdseed_exiting" (Flag 0x0000000000010000 16).
Definition enable_pml : msr_flag := MsrFlag reg "enable_pml" (Flag 0x0000000000020000 17).
Definition ept_violation_ve : msr_flag := MsrFlag reg "ept_violation_ve" (Flag 0x0000000000040000 18).
Definition pt_conceal_nonroot_operation : msr_flag := MsrFlag reg "pt_conceal_nonroot_operation" (Flag 0x0000000000080000 19).
Definition enable_xsaves_xrstors : msr_flag := MsrFlag reg "enable_xsaves_xrstors" (Flag 0x0000000000100000 20).
Definition ept_mode_based_control : msr_flag := MsrFlag reg "ept_mode_based_control" (Flag 0x0000000000400000 22).
Definition use_tsc_scaling : msr_flag := MsrFlag reg "use_tsc_scaling" (Flag 0x0000000002000000 25).
Definition parts : list msr_part := [m_flag virtualize_apic_accesses; m_flag enable_ept; m_flag descriptor_table_exiting;
   m_flag enable_rdtscp; m_flag virtualize_x2apic_mode; m_flag enable_vpid;
   m_flag wbinvd_exiting; m_flag unrestricted_guest; m_flag apic_register_virtualization;
   m_flag virtual_interrupt_delivery; m_flag pause_loop_exiting; m_flag rdrand_exiting;
   m_flag enable_invpcid; m_flag enable_vm_functions; m_flag vmcs_shadowing;
   m_flag enable_encls_exiting; m_flag rdseed_exiting; m_flag enable_pml;
   m_flag ept_violation_ve; m_flag pt_conceal_nonroot_operation; m_flag enable_xsaves_xrstors;
   m_flag ept_mode_based_control; m_flag use_tsc_scaling].
End ia32_vmx_procbased_ctls2.

Module ia32_vmx_ept_vpid_cap.
Definition reg : msr := Msr 0x0000048C "ia32_vmx_ept_vpid_cap".
Definition execute_only_translation : msr_flag := MsrFlag reg "execute_only_translation" (Flag 0x0000000000000001 0).
Definition page_walk_length_of_4 : msr_flag := MsrFlag reg "page_walk_length_of_4" (Flag 0x0000000000000040 6).
Definition memory_type_uncacheable_supported : msr_flag := MsrFlag reg "memory_type_uncacheable_supported" (Flag 0x0000000000000100 8).
Definition memory_type_write_back_supported : msr_flag := MsrFlag reg "memory_type_write_back_supported" (Flag 0x0000000000004000 14).
Definition pde_2mb_support : msr_flag := MsrFlag reg "pde_2mb_support" (Flag 0x0000000000010000 16).
Definition pdpte_1gb_support : msr_flag := MsrFlag reg "pdpte_1gb_support" (Flag 0x0000000000020000 17).
Definition invept_support : msr_flag := MsrFlag reg "invept_support" (Flag 0x0000000000100000 20).
Definition accessed_dirty_support : msr_flag := MsrFlag reg "accessed_dirty_support" (Flag 0x0000000000200000 21).
Definition invept_single_context_support : msr_flag := MsrFlag reg "invept_single_context_support" (Flag 0x0000000002000000 25).
Definition invept_all_context_support : msr_flag := MsrFlag reg "invept_all_context_support" (Flag 0x0000000004000000 26).
Definition invvpid_support : msr_flag := MsrFlag reg "invvpid_support" (Flag 0x0000000100000000 32).
Definition invvpid_individual_address_support : msr_flag := MsrFlag reg "invvpid_individual_address_support" (Flag 0x0000010000000000 40).
Definition invvpid_single_context_support : msr_flag := MsrFlag reg "invvpid_single_context_support" (Flag 0x0000020000000000 41).
Definition invvpid_all_context_support : msr_flag := MsrFlag reg "invvpid_all_context_support" (Flag 0x0000040000000000 42).
Definition invvpid_single_context_retaining_globals_support : msr_flag := MsrFlag reg "invvpid_single_context_retaining_globals_support" (Flag 0x0000080000000000 43).
Definition parts : list msr_part := [m_flag execute_only_translation; m_flag page_walk_length_of_4;
   m_flag memory_type_uncacheable_supported; m_flag memory_type_write_back_supported;
   m_flag pde_2mb_support; m_flag pdpte_1gb_support; m_flag invept_support;
   m_flag accessed_dirty_support; m_flag invept_single_context_support;
   m_flag invept_all_context_support; m_flag invvpid_support;
   m_flag invvpid_individual_address_support; m_flag invvpid_single_context_support;
   m_flag invvpid_all_context_support; m_flag invvpid_single_context_retaining_globals_support].
End ia32_vmx_ept_vpid_cap.

Module ia32_vmx_true_pinbased_ctls.
Definition reg : msr := Msr 0x0000048D "ia32_vmx_true_pinbased_ctls".
Definition external_interrupt_exiting : msr_flag := MsrFlag reg "external_interrupt_exiting" (Flag 0x0000000000000001 0).
Definition nmi_exiting : msr_flag := MsrFlag reg "nmi_exiting" (Flag 0x0000000000000008 3).
Definition virtual_nmis : msr_flag := MsrFlag reg "virtual_nmis" (Flag 0x0000000000000020 5).
Definition activate_vmx_preemption_timer : msr_flag := MsrFlag reg "activate_vmx_preemption_timer" (Flag 0x0000000000000040 6).
Definition process_posted_interrupts : msr_flag := MsrFlag reg "process_posted_interrupts" (Flag 0x0000000000000080 7).
Definition parts : list msr_part := [m_flag external_interrupt_exiting; m_flag nmi_exiting; m_flag virtual_nmis;
   m_flag activate_vmx_preemption_timer; m_flag process_posted_interrupts].
End ia32_vmx_true_pinbased_ctls.

Module ia32_vmx_true_procbased_ctls.
Definition reg : msr := Msr 0x0000048E "ia32_vmx_true_procbased_ctls".
Definition interrupt_window_exiting : msr_flag := MsrFlag reg "interrupt_window_exiting" (Flag 0x0000000000000004 2).
Definition use_tsc_offsetting : msr_flag := MsrFlag reg "use_tsc_offsetting" (Flag 0x0000000000000008 3).
Definition hlt_exiting : msr_flag := MsrFlag reg "hlt_exiting" (Flag 0x0000000000000080 7).
Definition invlpg_exiting : msr_flag := MsrFlag reg "invlpg_exiting" (Flag 0x0000000000000200 9).
Definition mwait_exiting : msr_flag := MsrFlag reg "mwait_exiting" (Flag 0x0000000000000400 10).
Definition rdpmc_exiting : msr_flag := MsrFlag reg "rdpmc_exiting" (Flag 0x0000000000000800 11).
Definition rdtsc_exiting : msr_flag := MsrFlag reg "rdtsc_exiting" (Flag 0x0000000000001000 12).
Definition cr3_load_exiting : msr_flag := MsrFlag reg "cr3_load_exiting" (Flag 0x0000000000008000 15).
Definition cr3_store_exiting : msr_flag := MsrFlag reg "cr3_store_exiting" (Flag 0x0000000000010000 16).
Definition cr8_load_exiting : msr_flag := MsrFlag reg "cr8_load_exiting" (Flag 0x0000000000080000 19).
Definition cr8_store_exiting : msr_flag := MsrFlag reg "cr8_store_exiting" (Flag 0x0000000000100000 20).
Definition use_tpr_shadow : msr_flag := MsrFlag reg "use_tpr_shadow" (Flag 0x0000000000200000 21).
Definition nmi_window_exiting : msr_flag := MsrFlag reg "nmi_window_exiting" (Flag 0x0000000000400000 22).
Definition mov_dr_exiting : msr_flag := MsrFlag reg "mov_dr_exiting" (Flag 0x0000000000800000 23).
Definition unconditional_io_exiting : msr_flag := MsrFlag reg "unconditional_io_exiting" (Flag 0x0000000001000000 24).
Definition use_io_bitmaps : msr_flag := MsrFlag reg "use_io_bitmaps" (Flag 0x0000000002000000 25).
Definition monitor_trap_flag : msr_flag := MsrFlag reg "monitor_trap_flag" (Flag 0x0000000008000000 27).
Definition use_msr_bitmap : msr_flag := MsrFlag reg "use_msr_bitmap" (Flag 0x0000000010000000 28).
Definition monitor_exiting : msr_flag := MsrFlag reg "monitor_exiting" (Flag 0x0000000020000000 29).
Definition pause_exiting : msr_flag := MsrFlag reg "pause_exiting" (Flag 0x0000000040000000 30).
Definition activate_secondary_controls : msr_flag := MsrFlag reg "activate_secondary_controls" (Flag 0x0000000080000000 31).
Definition parts : list msr_part := [m_flag interrupt_window_exiting; m_flag use_tsc_offsetting; m_flag hlt_exiting;
   m_flag invlpg_exiting; m_flag mwait_exiting; m_flag rdpmc_exiting; m_flag rdtsc_exiting;
   m_flag cr3_load_exiting; m_flag cr3_store_exiting; m_flag cr8_load_exiting;
   m_flag cr8_store_exiting; m_flag use_tpr_shadow; m_flag nmi_window_exiting;
   m_flag mov_dr_exiting; m_flag unconditional_io_exiting; m_flag use_io_bitmaps;
   m_flag monitor_trap_flag; m_flag use_msr_bitmap; m_flag monitor_exiting; m_flag pause_exiting;
   m_flag activate_secondary_controls].
End ia32_vmx_true_procbased_ctls.

Module ia32_vmx_true_exit_ctls.
Definition reg : msr := Msr 0x0000048F "ia32_vmx_true_exit_ctls".
Definition save_debug_controls : msr_flag := MsrFlag reg "save_debug_controls" (Flag 0x0000000000000004 2).
Definition host_address_space_size : msr_flag := MsrFlag reg "host_address_space_size" (Flag 0x0000000000000200 9).
Definition load_ia32_perf_global_ctrl : msr_flag := MsrFlag reg "load_ia32_perf_global_ctrl" (Flag 0x0000000000001000 12).
Definition acknowledge_interrupt_on_exit : msr_flag := MsrFlag reg "acknowledge_interrupt_on_exit" (Flag 0x0000000000008000 15).
Definition save_ia32_pat : msr_flag := MsrFlag reg "save_ia32_pat" (Flag 0x0000000000040000 18).
Definition load_ia32_pat : msr_flag := MsrFlag reg "load_ia32_pat" (Flag 0x0000000000080000 19).
Definition save_ia32_efer : msr_flag := MsrFlag reg "save_ia32_efer" (Flag 0x0000000000100000 20).
Definition load_ia32_efer : msr_flag := MsrFlag reg "load_ia32_efer" (Flag 0x0000000000200000 21).
Definition save_vmx_preemption_timer_value : msr_flag := MsrFlag reg "save_vmx_preemption_timer_value" (Flag 0x0000000000400000 22).
Definition clear_ia32_bndcfgs : msr_flag := MsrFlag reg "clear_ia32_bndcfgs" (Flag 0x0000000000800000 23).
Definition parts : list msr_part := [m_flag save_debug_controls; m_flag host_address_space_size; m_flag load_ia32_perf_global_ctrl;
   m_flag acknowledge_interrupt_on_exit; m_flag save_ia32_pat; m_flag load_ia32_pat;
   m_flag save_ia32_efer; m_flag load_ia32_efer; m_flag save_vmx_preemption_timer_value;
   m_flag clear_ia32_bndcfgs].
End ia32_vmx_true_exit_ctls.

Module ia32_vmx_true_entry_ctls.
Definition reg : msr := Msr 0x00000490 "ia32_vmx_true_entry_ctls".
Definition load_debug_controls : msr_flag := MsrFlag reg "load_debug_controls" (Flag 0x0000000000000004 2).
Definition ia_32e_mode_guest : msr_flag := MsrFlag reg "ia_32e_mode_guest" (Flag 0x0000000000000200 9).
Definition entry_to_smm : msr_flag := MsrFlag reg "entry_to_smm" (Flag 0x0000000000000400 10).
Definition deactivate_dual_monitor_treatment : msr_flag := MsrFlag reg "deactivate_dual_monitor_treatment" (Flag 0x0000000000000800 11).
Definition load_ia32_perf_global_ctrl : msr_flag := MsrFlag reg "load_ia32_perf_global_ctrl" (Flag 0x0000000000002000 13).
Definition load_ia32_pat : msr_flag := MsrFlag reg "load_ia32_pat" (Flag 0x0000000000004000 14).
Definition load_ia32_efer : msr_flag := MsrFlag reg "load_ia32_efer" (Flag 0x0000000000008000 15).
Definition load_ia32_bndcfgs : msr_flag := MsrFlag reg "load_ia32_bndcfgs" (Flag 0x0000000000010000 16).
Definition parts : list msr_part := [m_flag load_debug_controls; m_flag ia_32e_mode_guest; m_flag entry_to_smm;
   m_flag deactivate_dual_monitor_treatment; m_flag load_ia32_perf_global_ctrl;
   m_flag load_ia32_pat; m_flag load_ia32_efer; m_flag load_ia32_bndcfgs].
End ia32_vmx_true_entry_ctls.

Module ia32_vmx_vmfunc.
Definition reg : msr := Msr 0x00000491 "ia32_vmx_vmfunc".
Definition eptp_switching : msr_flag := MsrFlag reg "eptp_switching" (Flag 0x0000000000000001 0).
Definition parts : list msr_part := [m_flag eptp_switching].
End ia32_vmx_vmfunc.

Module ia32_a_pmc0.
Definition reg : msr := Msr 0x000004C1 "ia32_a_pmc0".
Definition parts : list msr_part := [].
End ia32_a_pmc0.

Module ia32_a_pmc1.
Definition reg : msr := Msr 0x000004C2 "ia32_a_pmc1".
Definition parts : list msr_part := [].
End ia32_a_pmc1.

Module ia32_a_pmc2.
Definition reg : msr := Msr 0x000004C3 "ia32_a_pmc2".
Definition parts : list msr_part := [].
End ia32_a_pmc2.

Module ia32_a_pmc3.
Definition reg : msr := Msr 0x000004C4 "ia32_a_pmc3".
Definition parts : list msr_part := [].
End ia32_a_pmc3.

Module ia32_a_pmc4.
Definition reg : msr := Msr 0x000004C5 "ia32_a_pmc4".
Definition parts : list msr_part := [].
End ia32_a_pmc4.

Module ia32_a_pmc5.
Definition reg : msr := Msr 0x000004C6 "ia32_a_pmc5".
Definition parts : list msr_part := [].
End ia32_a_pmc5.

Module ia32_a_pmc6.
Definition reg : msr := Msr 0x000004C7 "ia32_a_pmc6".
Definition parts : list msr_part := [].
End ia32_a_pmc6.

Module ia32_a_pmc7.
Definition reg : msr := Msr 0x000004C8 "ia32_a_pmc7".
Definition parts : list msr_part := [].
End ia32_a_pmc7.

Module ia32_mcg_ext_ctl.
Definition reg : msr := Msr 0x000004D0 "ia32_mcg_ext_ctl".
Definition lmce_en : msr_flag := MsrFlag reg "lmce_en" (Flag 0x0000000000000001 0).
Definition parts : list msr_part := [m_flag lmce_en].
End ia32_mcg_ext_ctl.

Module ia32_sgx_svn_sinit.
Definition reg : msr := Msr 0x00000500 "ia32_sgx_svn_sinit".
Definition lock : msr_flag := MsrFlag reg "lock" (Flag 0x0000000000000001 0).
Definition sgx_svn_sinit : msr_field := MsrField reg "sgx_svn_sinit" (Field 0x0000000000FF0000 16).
Definition parts : list msr_part := [m_flag lock; m_field sgx_svn_sinit].
End ia32_sgx_svn_sinit.

Module ia32_rtit_output_base.
Definition reg : msr := Msr 0x00000560 "ia32_rtit_output_base".
Definition base_phys_address : msr_field := MsrField reg "base_phys_address" (Field 0x7FFFFFFFFFFFFF80 7).
Definition parts : list msr_part := [m_field base_phys_address].
End ia32_rtit_output_base.

Module ia32_rtit_output_mask_ptrs.
Definition reg : msr := Msr 0x00000561 "ia32_rtit_output_mask_ptrs".
Definition mask_table_offset : msr_field := MsrField reg "mask_table_offset" (Field 0x00000000FFFFFF80 7).
Definition output_offset : msr_field := MsrField reg "output_offset" (Field 0xFFFFFFFF00000000 32).
Definition parts : list msr_part := [m_field mask_table_offset; m_field output_offset].
End ia32_rtit_output_mask_ptrs.

Module ia32_rtit_ctl.
Definition reg : msr := Msr 0x00000570 "ia32_rtit_ctl".
Definition traceen : msr_flag := MsrFlag reg "traceen" (Flag 0x0000000000000001 0).
Definition cycen : msr_flag := MsrFlag reg "cycen" (Flag 0x0000000000000002 1).
Definition os : msr_flag := MsrFlag reg "os" (Flag 0x0000000000000004 2).
Definition user : msr_flag := MsrFlag reg "user" (Flag 0x0000000000000008 3).
Definition fabricen : msr_flag := MsrFlag reg "fabricen" (Flag 0x0000000000000040 6).
Definition cr3_filter : msr_flag := MsrFlag reg "cr3_filter" (Flag 0x0000000000000080 7).
Definition topa : msr_flag := MsrFlag reg "topa" (Flag 0x0000000000000100 8).
Definition mtcen : msr_flag := MsrFlag reg "mtcen" (Flag 0x0000000000000200 9).
Definition tscen : msr_flag := MsrFlag reg "tscen" (Flag 0x0000000000000400 10).
Definition disretc : msr_flag := MsrFlag reg "disretc" (Flag 0x0000000000000800 11).
Definition branchen : msr_flag := MsrFlag reg "branchen" (Flag 0x0000000000002000 13).
Definition mtcfreq : msr_field := MsrField reg "mtcfreq" (Field 0x000000000003C000 14).
Definition cycthresh : msr_field := MsrField reg "cycthresh" (Field 0x0000000000780000 19).
Definition psbfreq : msr_field := MsrField reg "psbfreq" (Field 0x000000000F000000 24).
Definition addr0_cfg : msr_field := MsrField reg "addr0_cfg" (Field 0x0000000F00000000 32).
Definition addr1_cfg : msr_field := MsrField reg "addr1_cfg" (Field 0x000000F000000000 36).
Definition addr2_cfg : msr_field := MsrField reg "addr2_cfg" (Field 0x00000F0000000000 40).
Definition addr3_cfg : msr_field := MsrField reg "addr3_cfg" (Field 0x0000F00000000000 44).
Definition parts : list msr_part := [m_flag traceen; m_flag cycen; m_flag os; m_flag user; m_flag fabricen; m_flag cr3_filter;
   m_flag topa; m_flag mtcen; m_flag tscen; m_flag disretc; m_flag branchen; m_field mtcfreq;
   m_field cycthresh; m_field psbfreq; m_field addr0_cfg; m_field addr1_cfg; m_field addr2_cfg;
   m_field addr3_cfg].
End ia32_rtit_ctl.

Module ia32_rtit_status.
Definition reg : msr := Msr 0x00000571 "ia32_rtit_status".
Definition filteren : msr_flag := MsrFlag reg "filteren" (Flag 0x0000000000000001 0).
Definition contexen : msr_flag := MsrFlag reg "contexen" (Flag 0x0000000000000002 1).
Definition triggeren : msr_flag := MsrFlag reg "triggeren" (Flag 0x0000000000000004 2).
Definition error : msr_flag := MsrFlag reg "error" (Flag 0x0000000000000010 4).
Definition stopped : msr_flag := MsrFlag reg "stopped" (Flag 0x0000000000000020 5).
Definition packetbytecnt : msr_field := MsrField reg "packetbytecnt" (Field 0x0001FFFF00000000 32).
Definition parts : list msr_part := [m_flag filteren; m_flag contexen; m_flag triggeren; m_flag error; m_flag stopped;
   m_field packetbytecnt].
End ia32_rtit_status.

Module ia32_rtit_cr3_match.
Definition reg : msr := Msr 0x00000572 "ia32_rtit_cr3_match".
Definition cr3 : msr_field := MsrField reg "cr3" (Field 0xFFFFFFFFFFFFFFE0 5).
Definition parts : list msr_part := [m_field cr3].
End ia32_rtit_cr3_match.

Module ia32_rtit_addr0_a.
Definition reg : msr := Msr 0x00000580 "ia32_rtit_addr0_a".
Definition virtual_address : msr_field := MsrField reg "virtual_address" (Field 0x0000FFFFFFFFFFFF 0).
Definition signext_va : msr_field := MsrField reg "signext_va" (Field 0xFFFF000000000000 48).
Definition parts : list msr_part := [m_field virtual_address; m_field signext_va].
End ia32_rtit_addr0_a.

Module ia32_rtit_addr0_b.
Definition reg : msr := Msr 0x00000581 "ia32_rtit_addr0_b".
Definition virtual_address : msr_field := MsrField reg "virtual_address" (Field 0x0000FFFFFFFFFFFF 0).
Definition signext_va : msr_field := MsrField reg "signext_va" (Field 0xFFFF000000000000 48).
Definition parts : list msr_part := [m_field virtual_address; m_field signext_va].
End ia32_rtit_addr0_b.

Module ia32_rtit_addr1_a.
Definition reg : msr := Msr 0x00000582 "ia32_rtit_addr1_a".
Definition virtual_address : msr_field := MsrField reg "virtual_address" (Field 0x0000FFFFFFFFFFFF 0).
Definition signext_va : msr_field := MsrField reg "signext_va" (Field 0xFFFF000000000000 48).
Definition parts : list msr_part := [m_field virtual_address; m_field signext_va].
End ia32_rtit_addr1_a.

Module ia32_rtit_addr1_b.
Definition reg : msr := Msr 0x00000583 "ia32_rtit_addr1_b".
Definition virtual_address : msr_field := MsrField reg "virtual_address" (Field 0x0000FFFFFFFFFFFF 0).
Definition signext_va : msr_field := MsrField reg "signext_va" (Field 0xFFFF000000000000 48).
Definition parts : list msr_part := [m_field virtual_address; m_field signext_va].
End ia32_rtit_addr1_b.

Module ia32_rtit_addr2_a.
Definition reg : msr := Msr 0x00000584 "ia32_rtit_addr2_a".
Definition virtual_address : msr_field := MsrField reg "virtual_address" (Field 0x0000FFFFFFFFFFFF 0).
Definition signext_va : msr_field := MsrField reg "signext_va" (Field 0xFFFF000000000000 48).
Definition parts : list msr_part := [m_field virtual_address; m_field signext_va].
End ia32_rtit_addr2_a.

Module ia32_rtit_addr2_b.
Definition reg : msr := Msr 0x00000585 "ia32_rtit_addr2_b".
Definition virtual_address : msr_field := MsrField reg "virtual_address" (Field 0x0000FFFFFFFFFFFF 0).
Definition signext_va : msr_field := MsrField reg "signext_va" (Field 0xFFFF000000000000 48).
Definition parts : list msr_part := [m_field virtual_address; m_field signext_va].
End ia32_rtit_addr2_b.

Module ia32_rtit_addr3_a.
Definition reg : msr := Msr 0x00000586 "ia32_rtit_addr3_a".
Definition virtual_address : msr_field := MsrField reg "virtual_address" (Field 0x0000FFFFFFFFFFFF 0).
Definition signext_va : msr_field := MsrField reg "signext_va" (Field 0xFFFF000000000000 48).
Definition parts : list msr_part := [m_field virtual_address; m_field signext_va].
End ia32_rtit_addr3_a.

Module ia32_rtit_addr3_b.
Definition reg : msr := Msr 0x00000587 "ia32_rtit_addr3_b".
Definition virtual_address : msr_field := MsrField reg "virtual_address" (Field 0x0000FFFFFFFFFFFF 0).
Definition signext_va : msr_field := MsrField reg "signext_va" (Field 0xFFFF000000000000 48).
Definition parts : list msr_part := [m_field virtual_address; m_field signext_va].
End ia32_rtit_addr3_b.

Module ia32_ds_area.
Definition reg : msr := Msr 0x00000600 "ia32_ds_area".
Definition parts : list msr_part := [].
End ia32_ds_area.

Module ia32_tsc_deadline.
Definition reg : msr := Msr 0x000006E0 "ia32_tsc_deadline".
Definition parts : list msr_part := [].
End ia32_tsc_deadline.

Module ia32_pm_enable.
Definition reg : msr := Msr 0x00000770 "ia32_pm_enable".
Definition hwp : msr_flag := MsrFlag reg "sce" (Flag 0x0000000000000001 0).
Definition parts : list msr_part := [m_flag hwp].
End ia32_pm_enable.

Module ia32_hwp_capabilities.
Definition reg : msr := Msr 0x00000771 "ia32_hwp_capabilities".
Definition highest_perf : msr_field := MsrField reg "highest_perf" (Field 0x00000000000000FF 0).
Definition guaranteed_perf : msr_field := MsrField reg "guaranteed_perf" (Field 0x000000000000FF00 8).
Definition most_efficient_perf : msr_field := MsrField reg "most_efficient_perf" (Field 0x0000000000FF0000 16).
Definition lowest_perf : msr_field := MsrField reg "lowest_perf" (Field 0x00000000FF000000 24).
Definition parts : list msr_part := [m_field highest_perf; m_field guaranteed_perf; m_field most_efficient_perf; m_field lowest_perf].
End ia32_hwp_capabilities.

Module ia32_hwp_request_pkg.
Definition reg : msr := Msr 0x00000772 "ia32_hwp_request_pkg".
Definition min_perf : msr_field := MsrField reg "min_perf" (Field 0x00000000000000FF 0).
Definition max_perf : msr_field := MsrField reg "max_perf" (Field 0x000000000000FF00 8).
Definition desired_perf : msr_field := MsrField reg "desired_perf" (Field 0x0000000000FF0000 16).
Definition energy_perf_pref : msr_field := MsrField reg "energy_perf_pref" (Field 0x00000000FF000000 24).
Definition activity_window : msr_field := MsrField reg "activity_window" (Field 0x000003FF00000000 32).
Definition parts : list msr_part := [m_field min_perf; m_field max_perf; m_field desired_perf; m_field energy_perf_pref;
   m_field activity_window].
End ia32_hwp_request_pkg.

Module ia32_hwp_interrupt.
Definition reg : msr := Msr 0x00000773 "ia32_hwp_interrupt".
Definition perf_change : msr_flag := MsrFlag reg "perf_change" (Flag 0x0000000000000001 0).
Definition excursion_min : msr_flag := MsrFlag reg "excursion_min" (Flag 0x0000000000000002 1).
Definition parts : list msr_part := [m_flag perf_change; m_flag excursion_min].
End ia32_hwp_interrupt.

Module ia32_hwp_request.
Definition reg : msr := Msr 0x00000774 "ia32_hwp_request".
Definition min_perf : msr_field := MsrField reg "min_perf" (Field 0x00000000000000FF 0).
Definition max_perf : msr_field := MsrField reg "max_perf" (Field 0x000000000000FF00 8).
Definition desired_perf : msr_field := MsrField reg "desired_perf" (Field 0x0000000000FF0000 16).
Definition energy_perf_pref : msr_field := MsrField reg "energy_perf_pref" (Field 0x00000000FF000000 24).
Definition activity_window : msr_field := MsrField reg "energy_perf_pref" (Field 0x000003FF00000000 32).
Definition package_control : msr_flag := MsrFlag reg "package_control" (Flag 0x0000040000000000 42).
Definition parts : list msr_part := [m_field min_perf; m_field max_perf; m_field desired_perf; m_field energy_perf_pref;
   m_field activity_window; m_flag package_control].
End ia32_hwp_request.

Module ia32_hwp_status.
Definition reg : msr := Msr 0x00000777 "ia32_hwp_status".
Definition perf_change : msr_flag := MsrFlag reg "perf_change" (Flag 0x0000000000000001 0).
Definition excursion_to_min : msr_flag := MsrFlag reg "excursion_to_min" (Flag 0x0000000000000004 2).
Definition parts : list msr_part := [m_flag perf_change; m_flag excursion_to_min].
End ia32_hwp_status.

Module ia32_debug_interface.
Definition reg : msr := Msr 0x00000C80 "ia32_debug_interface".
Definition enable : msr_flag := MsrFlag reg "enable" (Flag 0x0000000000000001 0).
Definition lock : msr_flag := MsrFlag reg "lock" (Flag 0x0000000040000000 30).
Definition debug_occurred : msr_flag := MsrFlag reg "debug_occurred" (Flag 0x0000000080000000 31).
Definition parts : list msr_part := [m_flag enable; m_flag lock; m_flag debug_occurred].
End ia32_debug_interface.

Module ia32_l3_qos_cfg.
Definition reg : msr := Msr 0x00000C81 "ia32_l3_qos_cfg".
Definition enable : msr_flag := MsrFlag reg "enable" (Flag 0x0000000000000001 0).
Definition parts : list msr_part := [m_flag enable].
End ia32_l3_qos_cfg.

Module ia32_qm_evtsel.
Definition reg : msr := Msr 0x00000C8D "ia32_qm_evtsel".
Definition event_id : msr_field := MsrField reg "event_id" (Field 0x00000000000000FF 0).
Definition resource_monitoring_id : msr_field := MsrField reg "resource_monitoring_id" (Field 0xFFFFFFFF00000000 32).
Definition parts : list msr_part := [m_field event_id; m_field resource_monitoring_id].
End ia32_qm_evtsel.

Module ia32_qm_ctr.
Definition reg : msr := Msr 0x00000C8E "ia32_qm_ctr".
Definition resource_monitored_data : msr_field := MsrField reg "resource_monitored_data" (Field 0x3FFFFFFFFFFFFFFF 0).
Definition unavailable : msr_flag := MsrFlag reg "unavailable" (Flag 0x4000000000000000 62).
Definition error : msr_flag := MsrFlag reg "error" (Flag 0x8000000000000000 63).
Definition parts : list msr_part := [m_field resource_monitored_data; m_flag unavailable; m_flag error].
End ia32_qm_ctr.

Module ia32_pqr_assoc.
Definition reg : msr := Msr 0x00000C8F "ia32_pqr_assoc".
Definition resource_monitoring_id : msr_field := MsrField reg "resource_monitoring_id" (Field 0x00000000FFFFFFFF 0).
Definition cos : msr_field := MsrField reg "cos" (Field 0xFFFFFFFF00000000 32).
Definition parts : list msr_part := [m_field resource_monitoring_id; m_field cos].
End ia32_pqr_assoc.

Module ia32_bndcfgs.
Definition reg : msr := Msr 0x00000D90 "ia32_bndcfgs".
Definition en : msr_flag := MsrFlag reg "en" (Flag 0x0000000000000001 0).
Definition bndpreserve : msr_flag := MsrFlag reg "bndpreserve" (Flag 0x0000000000000002 1).
Definition base_address : msr_field := MsrField reg "base_address" (Field 0xFFFFFFFFFFFFF000 12).
Definition parts : list msr_part := [m_flag en; m_flag bndpreserve; m_field base_address].
End ia32_bndcfgs.

Module ia32_xss.
Definition reg : msr := Msr 0x00000DA0 "ia32_xss".
Definition trace_packet : msr_flag := MsrFlag reg "trace_packet" (Flag 0x0000000000000100 8).
Definition parts : list msr_part := [m_flag trace_packet].
End ia32_xss.

Module ia32_pkg_hdc_ctl.
Definition reg : msr := Msr 0x00000DB0 "ia32_pkg_hdc_ctl".
Definition hdc_pkg_enable : msr_flag := MsrFlag reg "hdc_pkg_enable" (Flag 0x0000000000000001 0).
Definition parts : list msr_part := [m_flag hdc_pkg_enable].
End ia32_pkg_hdc_ctl.

Module ia32_pm_ctl1.
Definition reg : msr := Msr 0x00000DB1 "ia32_pm_ctl1".
Definition hdc_allow_block : msr_flag := MsrFlag reg "hdc_allow_block" (Flag 0x0000000000000001 0).
Definition parts : list msr_part := [m_flag hdc_allow_block].
End ia32_pm_ctl1.

Module ia32_thread_stall.
Definition reg : msr := Msr 0x00000DB2 "ia32_thread_stall".
Definition stall_cycle_cnt : msr_field := MsrField reg "stall_cycle_cnt" (Field 0xFFFFFFFFFFFFFFFF 0).
Definition parts : list msr_part := [m_field stall_cycle_cnt].
End ia32_thread_stall.

Module ia32_efer.
Definition reg : msr := Msr 0xC0000080 "ia32_efer".
Definition sce : msr_flag := MsrFlag reg "sce" (Flag 0x0000000000000001 0).
Definition lme : msr_flag := MsrFlag reg "lme" (Flag 0x0000000000000100 8).
Definition lma : msr_flag := MsrFlag reg "lma" (Flag 0x0000000000000400 10).
Definition nxe : msr_flag := MsrFlag reg "lma" (Flag 0x0000000000000800 11).
Definition parts : list msr_part := [m_flag sce; m_flag lme; m_flag lma; m_flag nxe].
End ia32_efer.

Module ia32_fs_base.
Definition reg : msr := Msr 0xC0000100 "ia32_fs_base".
Definition parts : list msr_part := [].
End ia32_fs_base.

Module ia32_gs_base.
Definition reg : msr := Msr 0xC0000101 "ia32_gs_base".
Definition parts : list msr_part := [].
End ia32_gs_base.

(** The registers of this header and their parts *)
Definition intel_msrs : list (msr * list msr_part) :=
  [(ia32_monitor_filter_size.reg, ia32_monitor_filter_size.parts);
   (ia32_platform_id.reg, ia32_platform_id.parts);
   (ia32_feature_control.reg, ia32_feature_control.parts);
   (ia32_tsc_adjust.reg, ia32_tsc_adjust.parts);
   (ia32_bios_updt_trig.reg, ia32_bios_updt_trig.parts);
   (ia32_bios_sign_id.reg, ia32_bios_sign_id.parts);
   (ia32_sgxlepubkeyhash0.reg, ia32_sgxlepubkeyhash0.parts);
   (ia32_sgxlepubkeyhash1.reg, ia32_sgxlepubkeyhash1.parts);
   (ia32_sgxlepubkeyhash2.reg, ia32_sgxlepubkeyhash2.parts);
   (ia32_sgxlepubkeyhash3.reg, ia32_sgxlepubkeyhash3.parts);
   (ia32_smm_monitor_ctl.reg, ia32_smm_monitor_ctl.parts); (ia32_smbase.reg, ia32_smbase.parts);
   (ia32_pmc0.reg, ia32_pmc0.parts); (ia32_pmc1.reg, ia32_pmc1.parts);
   (ia32_pmc2.reg, ia32_pmc2.parts); (ia32_pmc3.reg, ia32_pmc3.parts);
   (ia32_pmc4.reg, ia32_pmc4.parts); (ia32_pmc5.reg, ia32_pmc5.parts);
   (ia32_pmc6.reg, ia32_pmc6.parts); (ia32_pmc7.reg, ia32_pmc7.parts);
   (ia32_sysenter_cs.reg, ia32_sysenter_cs.parts);
   (ia32_sysenter_esp.reg, ia32_sysenter_esp.parts);
   (ia32_sysenter_eip.reg, ia32_sysenter_eip.parts);
   (ia32_perfevtsel0.reg, ia32_perfevtsel0.parts);
   (ia32_perfevtsel1.reg, ia32_perfevtsel1.parts);
   (ia32_perfevtsel2.reg, ia32_perfevtsel2.parts);
   (ia32_perfevtsel3.reg, ia32_perfevtsel3.parts);
   (ia32_perf_status.reg, ia32_perf_status.parts); (ia32_perf_ctl.reg, ia32_perf_ctl.parts);
   (ia32_clock_modulation.reg, ia32_clock_modulation.parts);
   (ia32_therm_interrupt.reg, ia32_therm_interrupt.parts);
   (ia32_therm_status.reg, ia32_therm_status.parts);
   (ia32_misc_enable.reg, ia32_misc_enable.parts);
   (ia32_energy_perf_bias.reg, ia32_energy_perf_bias.parts);
   (ia32_package_therm_status.reg, ia32_package_therm_status.parts);
   (ia32_package_therm_interrupt.reg, ia32_package_therm_interrupt.parts);
   (ia32_debugctl.reg, ia32_debugctl.parts); (ia32_smrr_physbase.reg, ia32_smrr_physbase.parts);
   (ia32_smrr_physmask.reg, ia32_smrr_physmask.parts);
   (ia32_platform_dca_cap.reg, ia32_platform_dca_cap.parts);
   (ia32_cpu_dca_cap.reg, ia32_cpu_dca_cap.parts); (ia32_dca_0_cap.reg, ia32_dca_0_cap.parts);
   (ia32_mtrr_physbase.reg, ia32_mtrr_physbase.parts);
   (ia32_mtrr_physmask.reg, ia32_mtrr_physmask.parts);
   (ia32_mtrr_fix64k_00000.reg, ia32_mtrr_fix64k_00000.parts);
   (ia32_mtrr_fix16k_80000.reg, ia32_mtrr_fix16k_80000.parts);
   (ia32_mtrr_fix16k_A0000.reg, ia32_mtrr_fix16k_A0000.parts);
   (ia32_mtrr_fix4k_C0000.reg, ia32_mtrr_fix4k_C0000.parts);
   (ia32_mtrr_fix4k_C8000.reg, ia32_mtrr_fix4k_C8000.parts);
   (ia32_mtrr_fix4k_D0000.reg, ia32_mtrr_fix4k_D0000.parts);
   (ia32_mtrr_fix4k_D8000.reg, ia32_mtrr_fix4k_D8000.parts);
   (ia32_mtrr_fix4k_E0000.reg, ia32_mtrr_fix4k_E0000.parts);
   (ia32_mtrr_fix4k_E8000.reg, ia32_mtrr_fix4k_E8000.parts);
   (ia32_mtrr_fix4k_F0000.reg, ia32_mtrr_fix4k_F0000.parts);
   (ia32_mtrr_fix4k_F8000.reg, ia32_mtrr_fix4k_F8000.parts);
   (ia32_mc0_ctl2.reg, ia32_mc0_ctl2.parts); (ia32_mc1_ctl2.reg, ia32_mc1_ctl2.parts);
   (ia32_mc2_ctl2.reg, ia32_mc2_ctl2.parts); (ia32_mc3_ctl2.reg, ia32_mc3_ctl2.parts);
   (ia32_mc4_ctl2.reg, ia32_mc4_ctl2.parts); (ia32_mc5_ctl2.reg, ia32_mc5_ctl2.parts);
   (ia32_mc6_ctl2.reg, ia32_mc6_ctl2.parts); (ia32_mc7_ctl2.reg, ia32_mc7_ctl2.parts);
   (ia32_mc8_ctl2.reg, ia32_mc8_ctl2.parts); (ia32_mc9_ctl2.reg, ia32_mc9_ctl2.parts);
   (ia32_mc10_ctl2.reg, ia32_mc10_ctl2.parts); (ia32_mc11_ctl2.reg, ia32_mc11_ctl2.parts);
   (ia32_mc12_ctl2.reg, ia32_mc12_ctl2.parts); (ia32_mc13_ctl2.reg, ia32_mc13_ctl2.parts);
   (ia32_mc14_ctl2.reg, ia32_mc14_ctl2.parts); (ia32_mc15_ctl2.reg, ia32_mc15_ctl2.parts);
   (ia32_mc16_ctl2.reg, ia32_mc16_ctl2.parts); (ia32_mc17_ctl2.reg, ia32_mc17_ctl2.parts);
   (ia32_mc18_ctl2.reg, ia32_mc18_ctl2.parts); (ia32_mc19_ctl2.reg, ia32_mc19_ctl2.parts);
   (ia32_mc20_ctl2.reg, ia32_mc20_ctl2.parts); (ia32_mc21_ctl2.reg, ia32_mc21_ctl2.parts);
   (ia32_mc22_ctl2.reg, ia32_mc22_ctl2.parts); (ia32_mc23_ctl2.reg, ia32_mc23_ctl2.parts);
   (ia32_mc24_ctl2.reg, ia32_mc24_ctl2.parts); (ia32_mc25_ctl2.reg, ia32_mc25_ctl2.parts);
   (ia32_mc26_ctl2.reg, ia32_mc26_ctl2.parts); (ia32_mc27_ctl2.reg, ia32_mc27_ctl2.parts);
   (ia32_mc28_ctl2.reg, ia32_mc28_ctl2.parts); (ia32_mc29_ctl2.reg, ia32_mc29_ctl2.parts);
   (ia32_mc30_ctl2.reg, ia32_mc30_ctl2.parts); (ia32_mc31_ctl2.reg, ia32_mc31_ctl2.parts);
   (ia32_mtrr_def_type.reg, ia32_mtrr_def_type.parts);
   (ia32_fixed_ctr0.reg, ia32_fixed_ctr0.parts); (ia32_fixed_ctr1.reg, ia32_fixed_ctr1.parts);
   (ia32_fixed_ctr2.reg, ia32_fixed_ctr2.parts);
   (ia32_perf_capabilities.reg, ia32_perf_capabilities.parts);
   (ia32_fixed_ctr_ctrl.reg, ia32_fixed_ctr_ctrl.parts);
   (ia32_perf_global_status.reg, ia32_perf_global_status.parts);
   (ia32_perf_global_ctrl.reg, ia32_perf_global_ctrl.parts);
   (ia32_perf_global_ovf_ctrl.reg, ia32_perf_global_ovf_ctrl.parts);
   (ia32_perf_global_status_set.reg, ia32_perf_global_status_set.parts);
   (ia32_perf_global_inuse.reg, ia32_perf_global_inuse.parts);
   (ia32_pebs_enable.reg, ia32_pebs_enable.parts); (ia32_mc6_ctl.reg, ia32_mc6_ctl.parts);
   (ia32_mc6_status.reg, ia32_mc6_status.parts); (ia32_mc6_addr.reg, ia32_mc6_addr.parts);
   (ia32_mc6_misc.reg, ia32_mc6_misc.parts); (ia32_mc7_ctl.reg, ia32_mc7_ctl.parts);
   (ia32_mc7_status.reg, ia32_mc7_status.parts); (ia32_mc7_addr.reg, ia32_mc7_addr.parts);
   (ia32_mc7_misc.reg, ia32_mc7_misc.parts); (ia32_mc8_ctl.reg, ia32_mc8_ctl.parts);
   (ia32_mc8_status.reg, ia32_mc8_status.parts); (ia32_mc8_addr.reg, ia32_mc8_addr.parts);
   (ia32_mc8_misc.reg, ia32_mc8_misc.parts); (ia32_mc9_ctl.reg, ia32_mc9_ctl.parts);
   (ia32_mc9_status.reg, ia32_mc9_status.parts); (ia32_mc9_addr.reg, ia32_mc9_addr.parts);
   (ia32_mc9_misc.reg, ia32_mc9_misc.parts); (ia32_mc10_ctl.reg, ia32_mc10_ctl.parts);
   (ia32_mc10_status.reg, ia32_mc10_status.parts); (ia32_mc10_addr.reg, ia32_mc10_addr.parts);
   (ia32_mc10_misc.reg, ia32_mc10_misc.parts); (ia32_mc11_ctl.reg, ia32_mc11_ctl.parts);
   (ia32_mc11_status.reg, ia32_mc11_status.parts); (ia32_mc11_addr.reg, ia32_mc11_addr.parts);
   (ia32_mc11_misc.reg, ia32_mc11_misc.parts); (ia32_mc12_ctl.reg, ia32_mc12_ctl.parts);
   (ia32_mc12_status.reg, ia32_mc12_status.parts); (ia32_mc12_addr.reg, ia32_mc12_addr.parts);
   (ia32_mc12_misc.reg, ia32_mc12_misc.parts); (ia32_mc13_ctl.reg, ia32_mc13_ctl.parts);
   (ia32_mc13_status.reg, ia32_mc13_status.parts); (ia32_mc13_addr.reg, ia32_mc13_addr.parts);
   (ia32_mc13_misc.reg, ia32_mc13_misc.parts); (ia32_mc14_ctl.reg, ia32_mc14_ctl.parts);
   (ia32_mc14_status.reg, ia32_mc14_status.parts); (ia32_mc14_addr.reg, ia32_mc14_addr.parts);
   (ia32_mc14_misc.reg, ia32_mc14_misc.parts); (ia32_mc15_ctl.reg, ia32_mc15_ctl.parts);
   (ia32_mc15_status.reg, ia32_mc15_status.parts); (ia32_mc15_addr.reg, ia32_mc15_addr.parts);
   (ia32_mc15_misc.reg, ia32_mc15_misc.parts); (ia32_mc16_ctl.reg, ia32_mc16_ctl.parts);
   (ia32_mc16_status.reg, ia32_mc16_status.parts); (ia32_mc16_addr.reg, ia32_mc16_addr.parts);
   (ia32_mc16_misc.reg, ia32_mc16_misc.parts); (ia32_mc17_ctl.reg, ia32_mc17_ctl.parts);
   (ia32_mc17_status.reg, ia32_mc17_status.parts); (ia32_mc17_addr.reg, ia32_mc17_addr.parts);
   (ia32_mc17_misc.reg, ia32_mc17_misc.parts); (ia32_mc18_ctl.reg, ia32_mc18_ctl.parts);
   (ia32_mc18_status.reg, ia32_mc18_status.parts); (ia32_mc18_addr.reg, ia32_mc18_addr.parts);
   (ia32_mc18_misc.reg, ia32_mc18_misc.parts); (ia32_mc19_ctl.reg, ia32_mc19_ctl.parts);
   (ia32_mc19_status.reg, ia32_mc19_status.parts); (ia32_mc19_addr.reg, ia32_mc19_addr.parts);
   (ia32_mc19_misc.reg, ia32_mc19_misc.parts); (ia32_mc20_ctl.reg, ia32_mc20_ctl.parts);
   (ia32_mc20_status.reg, ia32_mc20_status.parts); (ia32_mc20_addr.reg, ia32_mc20_addr.parts);
   (ia32_mc20_misc.reg, ia32_mc20_misc.parts); (ia32_mc21_ctl.reg, ia32_mc21_ctl.parts);
   (ia32_mc21_status.reg, ia32_mc21_status.parts); (ia32_mc21_addr.reg, ia32_mc21_addr.parts);
   (ia32_mc21_misc.reg, ia32_mc21_misc.parts); (ia32_mc22_ctl.reg, ia32_mc22_ctl.parts);
   (ia32_mc22_status.reg, ia32_mc22_status.parts); (ia32_mc22_addr.reg, ia32_mc22_addr.parts);
   (ia32_mc22_misc.reg, ia32_mc22_misc.parts); (ia32_mc23_ctl.reg, ia32_mc23_ctl.parts);
   (ia32_mc23_status.reg, ia32_mc23_status.parts); (ia32_mc23_addr.reg, ia32_mc23_addr.parts);
   (ia32_mc23_misc.reg, ia32_mc23_misc.parts); (ia32_mc24_ctl.reg, ia32_mc24_ctl.parts);
   (ia32_mc24_status.reg, ia32_mc24_status.parts); (ia32_mc24_addr.reg, ia32_mc24_addr.parts);
   (ia32_mc24_misc.reg, ia32_mc24_misc.parts); (ia32_mc25_ctl.reg, ia32_mc25_ctl.parts);
   (ia32_mc25_status.reg, ia32_mc25_status.parts); (ia32_mc25_addr.reg, ia32_mc25_addr.parts);
   (ia32_mc25_misc.reg, ia32_mc25_misc.parts); (ia32_mc26_ctl.reg, ia32_mc26_ctl.parts);
   (ia32_mc26_status.reg, ia32_mc26_status.parts); (ia32_mc26_addr.reg, ia32_mc26_addr.parts);
   (ia32_mc26_misc.reg, ia32_mc26_misc.parts); (ia32_mc27_ctl.reg, ia32_mc27_ctl.parts);
   (ia32_mc27_status.reg, ia32_mc27_status.parts); (ia32_mc27_addr.reg, ia32_mc27_addr.parts);
   (ia32_mc27_misc.reg, ia32_mc27_misc.parts); (ia32_mc28_ctl.reg, ia32_mc28_ctl.parts);
   (ia32_mc28_status.reg, ia32_mc28_status.parts); (ia32_mc28_addr.reg, ia32_mc28_addr.parts);
   (ia32_mc28_misc.reg, ia32_mc28_misc.parts); (ia32_vmx_basic.reg, ia32_vmx_basic.parts);
   (ia32_vmx_pinbased_ctls.reg, ia32_vmx_pinbased_ctls.parts);
   (ia32_vmx_procbased_ctls.reg, ia32_vmx_procbased_ctls.parts);
   (ia32_vmx_exit_ctls.reg, ia32_vmx_exit_ctls.parts);
   (ia32_vmx_entry_ctls.reg, ia32_vmx_entry_ctls.parts);
   (ia32_vmx_misc.reg, ia32_vmx_misc.parts);
   (ia32_vmx_cr0_fixed0.reg, ia32_vmx_cr0_fixed0.parts);
   (ia32_vmx_cr0_fixed1.reg, ia32_vmx_cr0_fixed1.parts);
   (ia32_vmx_cr4_fixed0.reg, ia32_vmx_cr4_fixed0.parts);
   (ia32_vmx_cr4_fixed1.reg, ia32_vmx_cr4_fixed1.parts);
   (ia32_vmx_vmcs_enum.reg, ia32_vmx_vmcs_enum.parts);
   (ia32_vmx_procbased_ctls2.reg, ia32_vmx_procbased_ctls2.parts);
   (ia32_vmx_ept_vpid_cap.reg, ia32_vmx_ept_vpid_cap.parts);
   (ia32_vmx_true_pinbased_ctls.reg, ia32_vmx_true_pinbased_ctls.parts);
   (ia32_vmx_true_procbased_ctls.reg, ia32_vmx_true_procbased_ctls.parts);
   (ia32_vmx_true_exit_ctls.reg, ia32_vmx_true_exit_ctls.parts);
   (ia32_vmx_true_entry_ctls.reg, ia32_vmx_true_entry_ctls.parts);
   (ia32_vmx_vmfunc.reg, ia32_vmx_vmfunc.parts); (ia32_a_pmc0.reg, ia32_a_pmc0.parts);
   (ia32_a_pmc1.reg, ia32_a_pmc1.parts); (ia32_a_pmc2.reg, ia32_a_pmc2.parts);
   (ia32_a_pmc3.reg, ia32_a_pmc3.parts); (ia32_a_pmc4.reg, ia32_a_pmc4.parts);
   (ia32_a_pmc5.reg, ia32_a_pmc5.parts); (ia32_a_pmc6.reg, ia32_a_pmc6.parts);
   (ia32_a_pmc7.reg, ia32_a_pmc7.parts); (ia32_mcg_ext_ctl.reg, ia32_mcg_ext_ctl.parts);
   (ia32_sgx_svn_sinit.reg, ia32_sgx_svn_sinit.parts);
   (ia32_rtit_output_base.reg, ia32_rtit_output_base.parts);
   (ia32_rtit_output_mask_ptrs.reg, ia32_rtit_output_mask_ptrs.parts);
   (ia32_rtit_ctl.reg, ia32_rtit_ctl.parts); (ia32_rtit_status.reg, ia32_rtit_status.parts);
   (ia32_rtit_cr3_match.reg, ia32_rtit_cr3_match.parts);
   (ia32_rtit_addr0_a.reg, ia32_rtit_addr0_a.parts);
   (ia32_rtit_addr0_b.reg, ia32_rtit_addr0_b.parts);
   (ia32_rtit_addr1_a.reg, ia32_rtit_addr1_a.parts);
   (ia32_rtit_addr1_b.reg, ia32_rtit_addr1_b.parts);
   (ia32_rtit_addr2_a.reg, ia32_rtit_addr2_a.parts);
   (ia32_rtit_addr2_b.reg, ia32_rtit_addr2_b.parts);
   (ia32_rtit_addr3_a.reg, ia32_rtit_addr3_a.parts);
   (ia32_rtit_addr3_b.reg, ia32_rtit_addr3_b.parts); (ia32_ds_area.reg, ia32_ds_area.parts);
   (ia32_tsc_deadline.reg, ia32_tsc_deadline.parts); (ia32_pm_enable.reg, ia32_pm_enable.parts);
   (ia32_hwp_capabilities.reg, ia32_hwp_capabilities.parts);
   (ia32_hwp_request_pkg.reg, ia32_hwp_request_pkg.parts);
   (ia32_hwp_interrupt.reg, ia32_hwp_interrupt.parts);
   (ia32_hwp_request.reg, ia32_hwp_request.parts); (ia32_hwp_status.reg, ia32_hwp_status.parts);
   (ia32_debug_interface.reg, ia32_debug_interface.parts);
   (ia32_l3_qos_cfg.reg, ia32_l3_qos_cfg.parts); (ia32_qm_evtsel.reg, ia32_qm_evtsel.parts);
   (ia32_qm_ctr.reg, ia32_qm_ctr.parts); (ia32_pqr_assoc.reg, ia32_pqr_assoc.parts);
   (ia32_bndcfgs.reg, ia32_bndcfgs.parts); (ia32_xss.reg, ia32_xss.parts);
   (ia32_pkg_hdc_ctl.reg, ia32_pkg_hdc_ctl.parts); (ia32_pm_ctl1.reg, ia32_pm_ctl1.parts);
   (ia32_thread_stall.reg, ia32_thread_stall.parts); (ia32_efer.reg, ia32_efer.parts);
   (ia32_fs_base.reg, ia32_fs_base.parts); (ia32_gs_base.reg, ia32_gs_base.parts)].
