(* ===== verification/X64MsrFields.v ===== *)
(** * Model specific registers of all x64 processors

    The namespaces of [x64/msrs.h] in their order. *)
From S2P Require Import Prelude Bits EptEntry Vmcs.

(** ** Registers of all x64 processors *)

Module ia32_p5_mc_addr.
Definition reg : msr := Msr 0x00000000 "ia32_p5_mc_addr".
Definition parts : list msr_part := [].
End ia32_p5_mc_addr.

Module ia32_p5_mc_type.
Definition reg : msr := Msr 0x00000001 "ia32_p5_mc_type".
Definition parts : list msr_part := [].
End ia32_p5_mc_type.

Module ia32_tsc.
Definition reg : msr := Msr 0x00000010 "ia32_tsc".
Definition parts : list msr_part := [].
End ia32_tsc.

Module ia32_mperf.
Definition reg : msr := Msr 0x000000E7 "ia32_mperf".
Definition tsc_freq_clock_count : msr_field := MsrField reg "tsc_freq_clock_count" (Field 0xFFFFFFFFFFFFFFFF 0).
Definition parts : list msr_part := [m_field tsc_freq_clock_count].
End ia32_mperf.

Module ia32_aperf.
Definition reg : msr := Msr 0x000000E8 "ia32_aperf".
Definition actual_freq_clock_count : msr_field := MsrField reg "actual_freq_clock_count" (Field 0xFFFFFFFFFFFFFFFF 0).
Definition parts : list msr_part := [m_field actual_freq_clock_count].
End ia32_aperf.

Module ia32_mtrrcap.
Definition reg : msr := Msr 0x000000FE "ia32_mtrrcap".
Definition vcnt : msr_field := MsrField reg "vcnt" (Field 0x00000000000000FF 0).
Definition fixed_range_mtrr : msr_flag := MsrFlag reg "fixed_range_mtrr" (Flag 0x0000000000000100 8).
Definition wc : msr_flag := MsrFlag reg "wc" (Flag 0x0000000000000400 10).
Definition smrr : msr_flag := MsrFlag reg "smrr" (Flag 0x0000000000000800 11).
Definition parts : list msr_part := [m_field vcnt; m_flag fixed_range_mtrr; m_flag wc; m_flag smrr].
End ia32_mtrrcap.

Module ia32_sysenter_cs.
Definition reg : msr := Msr 0x00000174 "ia32_sysenter_cs".
Definition cs_selector : msr_field := MsrField reg "cs_selector" (Field 0x000000000000FFFF 0).
Definition parts : list msr_part := [m_field cs_selector].
End ia32_sysenter_cs.

Module ia32_sysenter_esp.
Definition reg : msr := Msr 0x00000175 "ia32_sysenter_esp".
Definition parts : list msr_part := [].
End ia32_sysenter_esp.

Module ia32_sysenter_eip.
Definition reg : msr := Msr 0x00000176 "ia32_sysenter_eip".
Definition parts : list msr_part := [].
End ia32_sysenter_eip.

Module ia32_mcg_cap.
Definition reg : msr := Msr 0x00000179 "ia32_mcg_cap".
Definition count : msr_field := MsrField reg "count" (Field 0x00000000000000FF 0).
Definition mcg_ctl : msr_flag := MsrFlag reg "mcg_ctl" (Flag 0x0000000000000100 8).
Definition mcg_ext : msr_flag := MsrFlag reg "mcg_ext" (Flag 0x0000000000000200 9).
Definition mcg_cmci : msr_flag := MsrFlag reg "mcg_cmci" (Flag 0x0000000000000400 10).
Definition mcg_tes : msr_flag := MsrFlag reg "mcg_tes" (Flag 0x0000000000000800 11).
Definition mcg_ext_cnt : msr_field := MsrField reg "mcg_ext_cnt" (Field 0x0000000000FF0000 16).
Definition mcg_ser : msr_flag := MsrFlag reg "mcg_ser" (Flag 0x0000000001000000 24).
Definition mcg_elog : msr_flag := MsrFlag reg "mcg_elog" (Flag 0x0000000004000000 26).
Definition mcg_lmce : msr_flag := MsrFlag reg "mcg_lmce" (Flag 0x0000000008000000 27).
Definition parts : list msr_part := [m_field count; m_flag mcg_ctl; m_flag mcg_ext; m_flag mcg_cmci; m_flag mcg_tes;
   m_field mcg_ext_cnt; m_flag mcg_ser; m_flag mcg_elog; m_flag mcg_lmce].
End ia32_mcg_cap.

Module ia32_mcg_status.
Definition reg : msr := Msr 0x0000017A "ia32_mcg_status".
Definition ripv : msr_flag := MsrFlag reg "ripv" (Flag 0x0000000000000001 0).
Definition eipv : msr_flag := MsrFlag reg "eipv" (Flag 0x0000000000000002 1).
Definition mcip : msr_flag := MsrFlag reg "mcip" (Flag 0x0000000000000004 2).
Definition lmce_s : msr_flag := MsrFlag reg "lmce_s" (Flag 0x0000000000000008 3).
Definition parts : list msr_part := [m_flag ripv; m_flag eipv; m_flag mcip; m_flag lmce_s].
End ia32_mcg_status.

Module ia32_mcg_ctl.
Definition reg : msr := Msr 0x0000017B "ia32_mcg_ctl".
Definition parts : list msr_part := [].
End ia32_mcg_ctl.

Module ia32_pat.
Definition reg : msr := Msr 0x00000277 "ia32_pat".
Definition pa0 : msr_field := MsrField reg "pa0" (Field 0x0000000000000007 0).
Definition pa1 : msr_field := MsrField reg "pa1" (Field 0x0000000000000700 8).
Definition pa2 : msr_field := MsrField reg "pa2" (Field 0x0000000000070000 16).
Definition pa3 : msr_field := MsrField reg "pa3" (Field 0x0000000007000000 24).
Definition pa4 : msr_field := MsrField reg "pa4" (Field 0x0000000700000000 32).
Definition pa5 : msr_field := MsrField reg "pa5" (Field 0x0000070000000000 40).
Definition pa6 : msr_field := MsrField reg "pa6" (Field 0x0007000000000000 48).
Definition pa7 : msr_field := MsrField reg "pa7" (Field 0x0700000000000000 56).
Definition parts : list msr_part := [m_field pa0; m_field pa1; m_field pa2; m_field pa3; m_field pa4; m_field pa5; m_field pa6;
   m_field pa7].
End ia32_pat.

Module ia32_mc0_ctl.
Definition reg : msr := Msr 0x00000400 "ia32_mc0_ctl".
Definition parts : list msr_part := [].
End ia32_mc0_ctl.

Module ia32_mc0_status.
Definition reg : msr := Msr 0x00000401 "ia32_mc0_status".
Definition parts : list msr_part := [].
End ia32_mc0_status.

Module ia32_mc0_addr.
Definition reg : msr := Msr 0x00000402 "ia32_mc0_addr".
Definition parts : list msr_part := [].
End ia32_mc0_addr.

Module ia32_mc0_misc.
Definition reg : msr := Msr 0x00000403 "ia32_mc0_misc".
Definition parts : list msr_part := [].
End ia32_mc0_misc.

Module ia32_mc1_ctl.
Definition reg : msr := Msr 0x00000404 "ia32_mc1_ctl".
Definition parts : list msr_part := [].
End ia32_mc1_ctl.

Module ia32_mc1_status.
Definition reg : msr := Msr 0x00000405 "ia32_mc1_status".
Definition parts : list msr_part := [].
End ia32_mc1_status.

Module ia32_mc1_addr.
Definition reg : msr := Msr 0x00000406 "ia32_mc1_addr".
Definition parts : list msr_part := [].
End ia32_mc1_addr.

Module ia32_mc1_misc.
Definition reg : msr := Msr 0x00000407 "ia32_mc1_misc".
Definition parts : list msr_part := [].
End ia32_mc1_misc.

Module ia32_mc2_ctl.
Definition reg : msr := Msr 0x00000408 "ia32_mc2_ctl".
Definition parts : list msr_part := [].
End ia32_mc2_ctl.

Module ia32_mc2_status.
Definition reg : msr := Msr 0x00000409 "ia32_mc2_status".
Definition parts : list msr_part := [].
End ia32_mc2_status.

Module ia32_mc2_addr.
Definition reg : msr := Msr 0x0000040A "ia32_mc2_addr".
Definition parts : list msr_part := [].
End ia32_mc2_addr.

Module ia32_mc2_misc.
Definition reg : msr := Msr 0x0000040B "ia32_mc2_misc".
Definition parts : list msr_part := [].
End ia32_mc2_misc.

Module ia32_mc3_ctl.
Definition reg : msr := Msr 0x0000040C "ia32_mc3_ctl".
Definition parts : list msr_part := [].
End ia32_mc3_ctl.

Module ia32_mc3_status.
Definition reg : msr := Msr 0x0000040D "ia32_mc3_status".
Definition parts : list msr_part := [].
End ia32_mc3_status.

Module ia32_mc3_addr.
Definition reg : msr := Msr 0x0000040E "ia32_mc3_addr".
Definition parts : list msr_part := [].
End ia32_mc3_addr.

Module ia32_mc3_misc.
Definition reg : msr := Msr 0x0000040F "ia32_mc3_misc".
Definition parts : list msr_part := [].
End ia32_mc3_misc.

Module ia32_mc4_ctl.
Definition reg : msr := Msr 0x00000410 "ia32_mc4_ctl".
Definition parts : list msr_part := [].
End ia32_mc4_ctl.

Module ia32_mc4_status.
Definition reg : msr := Msr 0x00000411 "ia32_mc4_status".
Definition parts : list msr_part := [].
End ia32_mc4_status.

Module ia32_mc4_addr.
Definition reg : msr := Msr 0x00000412 "ia32_mc4_addr".
Definition parts : list msr_part := [].
End ia32_mc4_addr.

Module ia32_mc4_misc.
Definition reg : msr := Msr 0x00000413 "ia32_mc4_misc".
Definition parts : list msr_part := [].
End ia32_mc4_misc.

Module ia32_mc5_ctl.
Definition reg : msr := Msr 0x00000414 "ia32_mc5_ctl".
Definition parts : list msr_part := [].
End ia32_mc5_ctl.

Module ia32_mc5_status.
Definition reg : msr := Msr 0x00000415 "ia32_mc5_status".
Definition parts : list msr_part := [].
End ia32_mc5_status.

Module ia32_mc5_addr.
Definition reg : msr := Msr 0x00000416 "ia32_mc5_addr".
Definition parts : list msr_part := [].
End ia32_mc5_addr.

Module ia32_mc5_misc.
Definition reg : msr := Msr 0x00000417 "ia32_mc5_misc".
Definition parts : list msr_part := [].
End ia32_mc5_misc.

Module ia32_star.
Definition reg : msr := Msr 0xC0000081 "ia32_fs_base".
Definition parts : list msr_part := [].
End ia32_star.

Module ia32_lstar.
Definition reg : msr := Msr 0xC0000082 "ia32_lstar".
Definition parts : list msr_part := [].
End ia32_lstar.

Module ia32_fmask.
Definition reg : msr := Msr 0xC0000084 "ia32_fmask".
Definition parts : list msr_part := [].
End ia32_fmask.

Module ia32_kernel_gs_base.
Definition reg : msr := Msr 0xC0000102 "ia32_kernel_gs_base".
Definition parts : list msr_part := [].
End ia32_kernel_gs_base.

Module ia32_tsc_aux.
Definition reg : msr := Msr 0xC0000103 "ia32_tsc_aux".
Definition aux : msr_field := MsrField reg "aux" (Field 0x00000000FFFFFFFF 0).
Definition parts : list msr_part := [m_field aux].
End ia32_tsc_aux.

(** The registers of this header and their parts *)
Definition x64_msrs : list (msr * list msr_part) :=
  [(ia32_p5_mc_addr.reg, ia32_p5_mc_addr.parts); (ia32_p5_mc_type.reg, ia32_p5_mc_type.parts);
   (ia32_tsc.reg, ia32_tsc.parts); (ia32_mperf.reg, ia32_mperf.parts);
   (ia32_aperf.reg, ia32_aperf.parts); (ia32_mtrrcap.reg, ia32_mtrrcap.parts);
   (ia32_sysenter_cs.reg, ia32_sysenter_cs.parts);
   (ia32_sysenter_esp.reg, ia32_sysenter_esp.parts);
   (ia32_sysenter_eip.reg, ia32_sysenter_eip.parts); (ia32_mcg_cap.reg, ia32_mcg_cap.parts);
   (ia32_mcg_status.reg, ia32_mcg_status.parts); (ia32_mcg_ctl.reg, ia32_mcg_ctl.parts);
   (ia32_pat.reg, ia32_pat.parts); (ia32_mc0_ctl.reg, ia32_mc0_ctl.parts);
   (ia32_mc0_status.reg, ia32_mc0_status.parts); (ia32_mc0_addr.reg, ia32_mc0_addr.parts);
   (ia32_mc0_misc.reg, ia32_mc0_misc.parts); (ia32_mc1_ctl.reg, ia32_mc1_ctl.parts);
   (ia32_mc1_status.reg, ia32_mc1_status.parts); (ia32_mc1_addr.reg, ia32_mc1_addr.parts);
   (ia32_mc1_misc.reg, ia32_mc1_misc.parts); (ia32_mc2_ctl.reg, ia32_mc2_ctl.parts);
   (ia32_mc2_status.reg, ia32_mc2_status.parts); (ia32_mc2_addr.reg, ia32_mc2_addr.parts);
   (ia32_mc2_misc.reg, ia32_mc2_misc.parts); (ia32_mc3_ctl.reg, ia32_mc3_ctl.parts);
   (ia32_mc3_status.reg, ia32_mc3_status.parts); (ia32_mc3_addr.reg, ia32_mc3_addr.parts);
   (ia32_mc3_misc.reg, ia32_mc3_misc.parts); (ia32_mc4_ctl.reg, ia32_mc4_ctl.parts);
   (ia32_mc4_status.reg, ia32_mc4_status.parts); (ia32_mc4_addr.reg, ia32_mc4_addr.parts);
   (ia32_mc4_misc.reg, ia32_mc4_misc.parts); (ia32_mc5_ctl.reg, ia32_mc5_ctl.parts);
   (ia32_mc5_status.reg, ia32_mc5_status.parts); (ia32_mc5_addr.reg, ia32_mc5_addr.parts);
   (ia32_mc5_misc.reg, ia32_mc5_misc.parts); (ia32_star.reg, ia32_star.parts);
   (ia32_lstar.reg, ia32_lstar.parts); (ia32_fmask.reg, ia32_fmask.parts);
   (ia32_kernel_gs_base.reg, ia32_kernel_gs_base.parts); (ia32_tsc_aux.reg, ia32_tsc_aux.parts)].
