(* ===== verification/VmcsControl.v ===== *)
(** * Control fields of the VMCS

    The namespaces of the headers [vmcs/*_control_fields.h]: every register with
    its encoding and the condition under which it exists, and its parts. *)
From S2P Require Import Prelude Bits EptEntry Vmcs MsrFields.

(** ** 32-bit control fields *)

Module pin_based_vm_execution_controls.
Definition reg : vmcs_reg := VmcsReg 0x0000000000004000 "pin_based_vm_execution_controls" true (ret true).
Definition external_interrupt_exiting : vm_control := VmControl (VmcsFlag reg "external_interrupt_exiting" (Flag 0x0000000000000001 0)) ia32_vmx_true_pinbased_ctls.external_interrupt_exiting.
Definition nmi_exiting : vm_control := VmControl (VmcsFlag reg "nmi_exiting" (Flag 0x0000000000000008 3)) ia32_vmx_true_pinbased_ctls.nmi_exiting.
Definition virtual_nmis : vm_control := VmControl (VmcsFlag reg "virtual_nmis" (Flag 0x0000000000000020 5)) ia32_vmx_true_pinbased_ctls.virtual_nmis.
Definition activate_vmx_preemption_timer : vm_control := VmControl (VmcsFlag reg "activate_vmx_preemption_timer" (Flag 0x0000000000000040 6)) ia32_vmx_true_pinbased_ctls.activate_vmx_preemption_timer.
Definition process_posted_interrupts : vm_control := VmControl (VmcsFlag reg "process_posted_interrupts" (Flag 0x0000000000000080 7)) ia32_vmx_true_pinbased_ctls.process_posted_interrupts.
Definition parts : list vmcs_part := [p_control external_interrupt_exiting; p_control nmi_exiting; p_control virtual_nmis;
   p_control activate_vmx_preemption_timer; p_control process_posted_interrupts].
End pin_based_vm_execution_controls.

Module primary_processor_based_vm_execution_controls.
Definition reg : vmcs_reg := VmcsReg 0x0000000000004002 "primary_processor_based_vm_execution_controls" true (ret true).
Definition interrupt_window_exiting : vm_control := VmControl (VmcsFlag reg "interrupt_window_exiting" (Flag 0x0000000000000004 2)) ia32_vmx_true_procbased_ctls.interrupt_window_exiting.
Definition use_tsc_offsetting : vm_control := VmControl (VmcsFlag reg "use_tsc_offsetting" (Flag 0x0000000000000008 3)) ia32_vmx_true_procbased_ctls.use_tsc_offsetting.
Definition hlt_exiting : vm_control := VmControl (VmcsFlag reg "hlt_exiting" (Flag 0x0000000000000080 7)) ia32_vmx_true_procbased_ctls.hlt_exiting.
Definition invlpg_exiting : vm_control := VmControl (VmcsFlag reg "invlpg_exiting" (Flag 0x0000000000000200 9)) ia32_vmx_true_procbased_ctls.invlpg_exiting.
Definition mwait_exiting : vm_control := VmControl (VmcsFlag reg "mwait_exiting" (Flag 0x0000000000000400 10)) ia32_vmx_true_procbased_ctls.mwait_exiting.
Definition rdpmc_exiting : vm_control := VmControl (VmcsFlag reg "rdpmc_exiting" (Flag 0x0000000000000800 11)) ia32_vmx_true_procbased_ctls.rdpmc_exiting.
Definition rdtsc_exiting : vm_control := VmControl (VmcsFlag reg "rdtsc_exiting" (Flag 0x0000000000001000 12)) ia32_vmx_true_procbased_ctls.rdtsc_exiting.
Definition cr3_load_exiting : vm_control := VmControl (VmcsFlag reg "cr3_load_exiting" (Flag 0x0000000000008000 15)) ia32_vmx_true_procbased_ctls.cr3_load_exiting.
Definition cr3_store_exiting : vm_control := VmControl (VmcsFlag reg "cr3_store_exiting" (Flag 0x0000000000010000 16)) ia32_vmx_true_procbased_ctls.cr3_store_exiting.
Definition cr8_load_exiting : vm_control := VmControl (VmcsFlag reg "cr8_load_exiting" (Flag 0x0000000000080000 19)) ia32_vmx_true_procbased_ctls.cr8_load_exiting.
Definition cr8_store_exiting : vm_control := VmControl (VmcsFlag reg "cr8_store_exiting" (Flag 0x0000000000100000 20)) ia32_vmx_true_procbased_ctls.cr8_store_exiting.
Definition use_tpr_shadow : vm_control := VmControl (VmcsFlag reg "use_tpr_shadow" (Flag 0x0000000000200000 21)) ia32_vmx_true_procbased_ctls.use_tpr_shadow.
Definition nmi_window_exiting : vm_control := VmControl (VmcsFlag reg "nmi_window_exiting" (Flag 0x0000000000400000 22)) ia32_vmx_true_procbased_ctls.nmi_window_exiting.
Definition mov_dr_exiting : vm_control := VmControl (VmcsFlag reg "mov_dr_exiting" (Flag 0x0000000000800000 23)) ia32_vmx_true_procbased_ctls.mov_dr_exiting.
Definition unconditional_io_exiting : vm_control := VmControl (VmcsFlag reg "unconditional_io_exiting" (Flag 0x0000000001000000 24)) ia32_vmx_true_procbased_ctls.unconditional_io_exiting.
Definition use_io_bitmaps : vm_control := VmControl (VmcsFlag reg "use_io_bitmaps" (Flag 0x0000000002000000 25)) ia32_vmx_true_procbased_ctls.use_io_bitmaps.
Definition monitor_trap_flag : vm_control := VmControl (VmcsFlag reg "monitor_trap_flag" (Flag 0x0000000008000000 27)) ia32_vmx_true_procbased_ctls.monitor_trap_flag.
Definition use_msr_bitmap : vm_control := VmControl (VmcsFlag reg "use_msr_bitmap" (Flag 0x0000000010000000 28)) ia32_vmx_true_procbased_ctls.use_msr_bitmap.
Definition monitor_exiting : vm_control := VmControl (VmcsFlag reg "monitor_exiting" (Flag 0x0000000020000000 29)) ia32_vmx_true_procbased_ctls.monitor_exiting.
Definition pause_exiting : vm_control := VmControl (VmcsFlag reg "pause_exiting" (Flag 0x0000000040000000 30)) ia32_vmx_true_procbased_ctls.pause_exiting.
Definition activate_secondary_controls : vm_control := VmControl (VmcsFlag reg "activate_secondary_controls" (Flag 0x0000000080000000 31)) ia32_vmx_true_procbased_ctls.activate_secondary_controls.
Definition parts : list vmcs_part := [p_control interrupt_window_exiting; p_control use_tsc_offsetting; p_control hlt_exiting;
   p_control invlpg_exiting; p_control mwait_exiting; p_control rdpmc_exiting;
   p_control rdtsc_exiting; p_control cr3_load_exiting; p_control cr3_store_exiting;
   p_control cr8_load_exiting; p_control cr8_store_exiting; p_control use_tpr_shadow;
   p_control nmi_window_exiting; p_control mov_dr_exiting; p_control unconditional_io_exiting;
   p_control use_io_bitmaps; p_control monitor_trap_flag; p_control use_msr_bitmap;
   p_control monitor_exiting; p_control pause_exiting; p_control activate_secondary_controls].
End primary_processor_based_vm_execution_controls.

Module exception_bitmap.
Definition reg : vmcs_reg := VmcsReg 0x0000000000004004 "execption_bitmap" true (ret true).
Definition parts : list vmcs_part := [].
End exception_bitmap.

Module page_fault_error_code_mask.
Definition reg : vmcs_reg := VmcsReg 0x0000000000004006 "page_fault_error_code_mask" true (ret true).
Definition parts : list vmcs_part := [].
End page_fault_error_code_mask.

Module page_fault_error_code_match.
Definition reg : vmcs_reg := VmcsReg 0x0000000000004008 "page_fault_error_code_match" true (ret true).
Definition parts : list vmcs_part := [].
End page_fault_error_code_match.

Module cr3_target_count.
Definition reg : vmcs_reg := VmcsReg 0x000000000000400A "cr3_target_count" true (ret true).
Definition parts : list vmcs_part := [].
End cr3_target_count.

Module vm_exit_controls.
Definition reg : vmcs_reg := VmcsReg 0x000000000000400C "vm_exit_controls" true (ret true).
Definition save_debug_controls : vm_control := VmControl (VmcsFlag reg "save_debug_controls" (Flag 0x0000000000000004 2)) ia32_vmx_true_exit_ctls.save_debug_controls.
Definition host_address_space_size : vm_control := VmControl (VmcsFlag reg "host_address_space_size" (Flag 0x0000000000000200 9)) ia32_vmx_true_exit_ctls.host_address_space_size.
Definition load_ia32_perf_global_ctrl : vm_control := VmControl (VmcsFlag reg "load_ia32_perf_global_ctrl" (Flag 0x0000000000001000 12)) ia32_vmx_true_exit_ctls.load_ia32_perf_global_ctrl.
Definition acknowledge_interrupt_on_exit : vm_control := VmControl (VmcsFlag reg "acknowledge_interrupt_on_exit" (Flag 0x0000000000008000 15)) ia32_vmx_true_exit_ctls.acknowledge_interrupt_on_exit.
Definition save_ia32_pat : vm_control := VmControl (VmcsFlag reg "save_ia32_pat" (Flag 0x0000000000040000 18)) ia32_vmx_true_exit_ctls.save_ia32_pat.
Definition load_ia32_pat : vm_control := VmControl (VmcsFlag reg "load_ia32_pat" (Flag 0x0000000000080000 19)) ia32_vmx_true_exit_ctls.load_ia32_pat.
Definition save_ia32_efer : vm_control := VmControl (VmcsFlag reg "save_ia32_efer" (Flag 0x0000000000100000 20)) ia32_vmx_true_exit_ctls.save_ia32_efer.
Definition load_ia32_efer : vm_control := VmControl (VmcsFlag reg "load_ia32_efer" (Flag 0x0000000000200000 21)) ia32_vmx_true_exit_ctls.load_ia32_efer.
Definition save_vmx_preemption_timer_value : vm_control := VmControl (VmcsFlag reg "save_vmx_preemption_timer_value" (Flag 0x0000000000400000 22)) ia32_vmx_true_exit_ctls.save_vmx_preemption_timer_value.
Definition clear_ia32_bndcfgs : vm_control := VmControl (VmcsFlag reg "clear_ia32_bndcfgs" (Flag 0x0000000000800000 23)) ia32_vmx_true_exit_ctls.clear_ia32_bndcfgs.
Definition pt_conceal_vm_exits : vm_control := VmControl (VmcsFlag reg "pt_conceal_vm_exits" (Flag 0x0000000000800000 23)) ia32_vmx_procbased_ctls2.pt_conceal_nonroot_operation.
Definition parts : list vmcs_part := [p_control save_debug_controls; p_control host_address_space_size;
   p_control load_ia32_perf_global_ctrl; p_control acknowledge_interrupt_on_exit;
   p_control save_ia32_pat; p_control load_ia32_pat; p_control save_ia32_efer;
   p_control load_ia32_efer; p_control save_vmx_preemption_timer_value;
   p_control clear_ia32_bndcfgs; p_control pt_conceal_vm_exits].
End vm_exit_controls.

Module vm_exit_msr_store_count.
Definition reg : vmcs_reg := VmcsReg 0x000000000000400E "vm_exit_msr_store_count" true (ret true).
Definition parts : list vmcs_part := [].
End vm_exit_msr_store_count.

Module vm_exit_msr_load_count.
Definition reg : vmcs_reg := VmcsReg 0x0000000000004010 "vm_exit_msr_load_count" true (ret true).
Definition parts : list vmcs_part := [].
End vm_exit_msr_load_count.

Module vm_entry_controls.
Definition reg : vmcs_reg := VmcsReg 0x0000000000004012 "vm_entry_controls" true (ret true).
Definition load_debug_controls : vm_control := VmControl (VmcsFlag reg "load_debug_controls" (Flag 0x0000000000000004 2)) ia32_vmx_true_entry_ctls.load_debug_controls.
Definition ia_32e_mode_guest : vm_control := VmControl (VmcsFlag reg "ia_32e_mode_guest" (Flag 0x0000000000000200 9)) ia32_vmx_true_entry_ctls.ia_32e_mode_guest.
Definition entry_to_smm : vm_control := VmControl (VmcsFlag reg "entry_to_smm" (Flag 0x0000000000000400 10)) ia32_vmx_true_entry_ctls.entry_to_smm.
Definition deactivate_dual_monitor_treatment : vm_control := VmControl (VmcsFlag reg "deactivate_dual_monitor_treatment" (Flag 0x0000000000000800 11)) ia32_vmx_true_entry_ctls.deactivate_dual_monitor_treatment.
Definition load_ia32_perf_global_ctrl : vm_control := VmControl (VmcsFlag reg "load_ia32_perf_global_ctrl" (Flag 0x0000000000002000 13)) ia32_vmx_true_entry_ctls.load_ia32_perf_global_ctrl.
Definition load_ia32_pat : vm_control := VmControl (VmcsFlag reg "load_ia32_pat" (Flag 0x0000000000004000 14)) ia32_vmx_true_entry_ctls.load_ia32_pat.
Definition load_ia32_efer : vm_control := VmControl (VmcsFlag reg "load_ia32_efer" (Flag 0x0000000000008000 15)) ia32_vmx_true_entry_ctls.load_ia32_efer.
Definition load_ia32_bndcfgs : vm_control := VmControl (VmcsFlag reg "load_ia32_bndcfgs" (Flag 0x0000000000010000 16)) ia32_vmx_true_entry_ctls.load_ia32_bndcfgs.
Definition pt_conceal_vm_entries : vm_control := VmControl (VmcsFlag reg "pt_conceal_vm_entries" (Flag 0x0000000000020000 17)) ia32_vmx_procbased_ctls2.pt_conceal_nonroot_operation.
Definition parts : list vmcs_part := [p_control load_debug_controls; p_control ia_32e_mode_guest; p_control entry_to_smm;
   p_control deactivate_dual_monitor_treatment; p_control load_ia32_perf_global_ctrl;
   p_control load_ia32_pat; p_control load_ia32_efer; p_control load_ia32_bndcfgs;
   p_control pt_conceal_vm_entries].
End vm_entry_controls.

Module vm_entry_msr_load_count.
Definition reg : vmcs_reg := VmcsReg 0x0000000000004014 "vm_entry_msr_load_count" true (ret true).
Definition parts : list vmcs_part := [].
End vm_entry_msr_load_count.

Module vm_entry_interruption_information.
Definition reg : vmcs_reg := VmcsReg 0x0000000000004016 "vm_entry_interruption_information" true (ret true).
Definition vector : vmcs_field := VmcsField reg "vector" (Field 0x000000FF 0).
Definition interruption_type : vmcs_field := VmcsField reg "interruption_type" (Field 0x00000700 8).
Definition interruption_type_external_interrupt : Z := 0.
Definition interruption_type_reserved : Z := 1.
Definition interruption_type_non_maskable_interrupt : Z := 2.
Definition interruption_type_hardware_exception : Z := 3.
Definition interruption_type_software_interrupt : Z := 4.
Definition interruption_type_privileged_software_exception : Z := 5.
Definition interruption_type_software_exception : Z := 6.
Definition interruption_type_other_event : Z := 7.
Definition deliver_error_code_bit : vmcs_flag := VmcsFlag reg "deliver_error_code_bit" (Flag 0x00000800 11).
Definition reserved : vmcs_field := VmcsField reg "reserved" (Field 0x7FFFF000 12).
Definition valid_bit : vmcs_flag := VmcsFlag reg "valid_bit" (Flag 0x80000000 31).
Definition parts : list vmcs_part := [p_field vector; p_field interruption_type; p_flag deliver_error_code_bit; p_field reserved;
   p_flag valid_bit].
End vm_entry_interruption_information.

Module vm_entry_exception_error_code.
Definition reg : vmcs_reg := VmcsReg 0x0000000000004018 "vm_entry_exception_error_code" true (ret true).
Definition parts : list vmcs_part := [].
End vm_entry_exception_error_code.

Module vm_entry_instruction_length.
Definition reg : vmcs_reg := VmcsReg 0x000000000000401A "vm_entry_instruction_length" true (ret true).
Definition parts : list vmcs_part := [].
End vm_entry_instruction_length.

Module tpr_threshold.
Definition reg : vmcs_reg := VmcsReg 0x000000000000401C "tpr_threshold" true (is_allowed1 ia32_vmx_true_procbased_ctls.use_tpr_shadow).
Definition parts : list vmcs_part := [].
End tpr_threshold.

Module secondary_processor_based_vm_execution_controls.
Definition reg : vmcs_reg := VmcsReg 0x000000000000401E "secondary_processor_based_vm_execution_controls" true (is_allowed1 ia32_vmx_true_procbased_ctls.activate_secondary_controls).
Definition virtualize_apic_accesses : vm_control := VmControl (VmcsFlag reg "virtualize_apic_accesses" (Flag 0x0000000000000001 0)) ia32_vmx_procbased_ctls2.virtualize_apic_accesses.
Definition enable_ept : vm_control := VmControl (VmcsFlag reg "enable_ept" (Flag 0x0000000000000002 1)) ia32_vmx_procbased_ctls2.enable_ept.
Definition descriptor_table_exiting : vm_control := VmControl (VmcsFlag reg "descriptor_table_exiting" (Flag 0x0000000000000004 2)) ia32_vmx_procbased_ctls2.descriptor_table_exiting.
Definition enable_rdtscp : vm_control := VmControl (VmcsFlag reg "enable_rdtscp" (Flag 0x0000000000000008 3)) ia32_vmx_procbased_ctls2.enable_rdtscp.
Definition virtualize_x2apic_mode : vm_control := VmControl (VmcsFlag reg "virtualize_x2apic_mode" (Flag 0x0000000000000010 4)) ia32_vmx_procbased_ctls2.virtualize_x2apic_mode.
Definition enable_vpid : vm_control := VmControl (VmcsFlag reg "enable_vpid" (Flag 0x0000000000000020 5)) ia32_vmx_procbased_ctls2.enable_vpid.
Definition wbinvd_exiting : vm_control := VmControl (VmcsFlag reg "wbinvd_exiting" (Flag 0x0000000000000040 6)) ia32_vmx_procbased_ctls2.wbinvd_exiting.
Definition unrestricted_guest : vm_control := VmControl (VmcsFlag reg "unrestricted_guest" (Flag 0x0000000000000080 7)) ia32_vmx_procbased_ctls2.unrestricted_guest.
Definition apic_register_virtualization : vm_control := VmControl (VmcsFlag reg "apic_register_virtualization" (Flag 0x0000000000000100 8)) ia32_vmx_procbased_ctls2.apic_register_virtualization.
Definition virtual_interrupt_delivery : vm_control := VmControl (VmcsFlag reg "virtual_interrupt_delivery" (Flag 0x0000000000000200 9)) ia32_vmx_procbased_ctls2.virtual_interrupt_delivery.
Definition pause_loop_exiting : vm_control := VmControl (VmcsFlag reg "pause_loop_exiting" (Flag 0x0000000000000400 10)) ia32_vmx_procbased_ctls2.pause_loop_exiting.
Definition rdrand_exiting : vm_control := VmControl (VmcsFlag reg "rdrand_exiting" (Flag 0x0000000000000800 11)) ia32_vmx_procbased_ctls2.rdrand_exiting.
Definition enable_invpcid : vm_control := VmControl (VmcsFlag reg "enable_invpcid" (Flag 0x0000000000001000 12)) ia32_vmx_procbased_ctls2.enable_invpcid.
Definition enable_vm_functions : vm_control := VmControl (VmcsFlag reg "enable_vm_functions" (Flag 0x0000000000002000 13)) ia32_vmx_procbased_ctls2.enable_vm_functions.
Definition vmcs_shadowing : vm_control := VmControl (VmcsFlag reg "vmcs_shadowing" (Flag 0x0000000000004000 14)) ia32_vmx_procbased_ctls2.vmcs_shadowing.
Definition enable_encls_exiting : vm_control := VmControl (VmcsFlag reg "enable_encls_exiting" (Flag 0x0000000000008000 15)) ia32_vmx_procbased_ctls2.enable_encls_exiting.
Definition rdseed_exiting : vm_control := VmControl (VmcsFlag reg "rdseed_exiting" (Flag 0x0000000000010000 16)) ia32_vmx_procbased_ctls2.rdseed_exiting.
Definition enable_pml : vm_control := VmControl (VmcsFlag reg "enable_pml" (Flag 0x0000000000020000 17)) ia32_vmx_procbased_ctls2.enable_pml.
Definition ept_violation_ve : vm_control := VmControl (VmcsFlag reg "ept_violation_ve" (Flag 0x0000000000040000 18)) ia32_vmx_procbased_ctls2.ept_violation_ve.
Definition pt_conceal_vmx_nonroot_operation : vm_control := VmControl (VmcsFlag reg "pt_conceal_vmx_nonroot_operation" (Flag 0x0000000000080000 19)) ia32_vmx_procbased_ctls2.pt_conceal_nonroot_operation.
Definition enable_xsaves_xrstors : vm_control := VmControl (VmcsFlag reg "enable_xsaves_xrstors" (Flag 0x0000000000100000 20)) ia32_vmx_procbased_ctls2.enable_xsaves_xrstors.
Definition ept_mode_based_control : vm_control := VmControl (VmcsFlag reg "ept_mode_based_control" (Flag 0x0000000000400000 22)) ia32_vmx_procbased_ctls2.ept_mode_based_control.
Definition use_tsc_scaling : vm_control := VmControl (VmcsFlag reg "use_tsc_scaling" (Flag 0x0000000002000000 25)) ia32_vmx_procbased_ctls2.use_tsc_scaling.
Definition parts : list vmcs_part := [p_control virtualize_apic_accesses; p_control enable_ept; p_control descriptor_table_exiting;
   p_control enable_rdtscp; p_control virtualize_x2apic_mode; p_control enable_vpid;
   p_control wbinvd_exiting; p_control unrestricted_guest;
   p_control apic_register_virtualization; p_control virtual_interrupt_delivery;
   p_control pause_loop_exiting; p_control rdrand_exiting; p_control enable_invpcid;
   p_control enable_vm_functions; p_control vmcs_shadowing; p_control enable_encls_exiting;
   p_control rdseed_exiting; p_control enable_pml; p_control ept_violation_ve;
   p_control pt_conceal_vmx_nonroot_operation; p_control enable_xsaves_xrstors;
   p_control ept_mode_based_control; p_control use_tsc_scaling].
End secondary_processor_based_vm_execution_controls.

Module ple_gap.
Definition reg : vmcs_reg := VmcsReg 0x0000000000004020 "ple_gap" true (and_then (v_exists secondary_processor_based_vm_execution_controls.reg) (is_allowed1 ia32_vmx_procbased_ctls2.pause_loop_exiting)).
Definition parts : list vmcs_part := [].
End ple_gap.

Module ple_window.
Definition reg : vmcs_reg := VmcsReg 0x0000000000004022 "ple_window" true (and_then (v_exists secondary_processor_based_vm_execution_controls.reg) (is_allowed1 ia32_vmx_procbased_ctls2.pause_loop_exiting)).
Definition parts : list vmcs_part := [].
End ple_window.

(** The registers of this header and their parts *)
Definition control_32 : list (vmcs_reg * list vmcs_part) :=
  [(pin_based_vm_execution_controls.reg, pin_based_vm_execution_controls.parts);
   (primary_processor_based_vm_execution_controls.reg, primary_processor_based_vm_execution_controls.parts);
   (exception_bitmap.reg, exception_bitmap.parts);
   (page_fault_error_code_mask.reg, page_fault_error_code_mask.parts);
   (page_fault_error_code_match.reg, page_fault_error_code_match.parts);
   (cr3_target_count.reg, cr3_target_count.parts);
   (vm_exit_controls.reg, vm_exit_controls.parts);
   (vm_exit_msr_store_count.reg, vm_exit_msr_store_count.parts);
   (vm_exit_msr_load_count.reg, vm_exit_msr_load_count.parts);
   (vm_entry_controls.reg, vm_entry_controls.parts);
   (vm_entry_msr_load_count.reg, vm_entry_msr_load_count.parts);
   (vm_entry_interruption_information.reg, vm_entry_interruption_information.parts);
   (vm_entry_exception_error_code.reg, vm_entry_exception_error_code.parts);
   (vm_entry_instruction_length.reg, vm_entry_instruction_length.parts);
   (tpr_threshold.reg, tpr_threshold.parts);
   (secondary_processor_based_vm_execution_controls.reg, secondary_processor_based_vm_execution_controls.parts);
   (ple_gap.reg, ple_gap.parts); (ple_window.reg, ple_window.parts)].

(** ** 16-bit control fields *)

Module virtual_processor_identifier.
Definition reg : vmcs_reg := VmcsReg 0x0000000000000000 "virtual_processor_identifier" true (and_then (is_allowed1 ia32_vmx_true_procbased_ctls.activate_secondary_controls) (is_allowed1 ia32_vmx_procbased_ctls2.enable_vpid)).
Definition parts : list vmcs_part := [].
End virtual_processor_identifier.

Module posted_interrupt_notification_vector.
Definition reg : vmcs_reg := VmcsReg 0x0000000000000002 "posted_interrupt_notification_vector" true (is_allowed1 ia32_vmx_true_pinbased_ctls.process_posted_interrupts).
Definition parts : list vmcs_part := [].
End posted_interrupt_notification_vector.

Module eptp_index.
Definition reg : vmcs_reg := VmcsReg 0x0000000000000004 "eptp_index" true (and_then (is_allowed1 ia32_vmx_true_procbased_ctls.activate_secondary_controls) (is_allowed1 ia32_vmx_procbased_ctls2.ept_violation_ve)).
Definition parts : list vmcs_part := [].
End eptp_index.

(** The registers of this header and their parts *)
Definition control_16 : list (vmcs_reg * list vmcs_part) :=
  [(virtual_processor_identifier.reg, virtual_processor_identifier.parts);
   (posted_interrupt_notification_vector.reg, posted_interrupt_notification_vector.parts);
   (eptp_index.reg, eptp_index.parts)].

(** ** 64-bit control fields *)

Module address_of_io_bitmap_a.
Definition reg : vmcs_reg := VmcsReg 0x0000000000002000 "address_of_io_bitmap_a" true (ret true).
Definition parts : list vmcs_part := [].
End address_of_io_bitmap_a.

Module address_of_io_bitmap_b.
Definition reg : vmcs_reg := VmcsReg 0x0000000000002002 "address_of_io_bitmap_b" true (ret true).
Definition parts : list vmcs_part := [].
End address_of_io_bitmap_b.

Module address_of_msr_bitmap.
Definition reg : vmcs_reg := VmcsReg 0x0000000000002004 "address_of_msr_bitmap" true (is_allowed1 ia32_vmx_true_procbased_ctls.use_msr_bitmap).
Definition parts : list vmcs_part := [].
End address_of_msr_bitmap.

Module vm_exit_msr_store_address.
Definition reg : vmcs_reg := VmcsReg 0x0000000000002006 "vm_exit_msr_store_address" true (ret true).
Definition parts : list vmcs_part := [].
End vm_exit_msr_store_address.

Module vm_exit_msr_load_address.
Definition reg : vmcs_reg := VmcsReg 0x0000000000002008 "vm_exit_msr_load_address" true (ret true).
Definition parts : list vmcs_part := [].
End vm_exit_msr_load_address.

Module vm_entry_msr_load_address.
Definition reg : vmcs_reg := VmcsReg 0x000000000000200A "vm_entry_msr_load_address" true (ret true).
Definition parts : list vmcs_part := [].
End vm_entry_msr_load_address.

Module executive_vmcs_pointer.
Definition reg : vmcs_reg := VmcsReg 0x000000000000200C "executive_vmcs_pointer" true (ret true).
Definition parts : list vmcs_part := [].
End executive_vmcs_pointer.

Module pml_address.
Definition reg : vmcs_reg := VmcsReg 0x000000000000200E "pml_address" true (and_then (is_allowed1 ia32_vmx_true_procbased_ctls.activate_secondary_controls) (is_allowed1 ia32_vmx_procbased_ctls2.enable_pml)).
Definition parts : list vmcs_part := [].
End pml_address.

Module tsc_offset.
Definition reg : vmcs_reg := VmcsReg 0x0000000000002010 "tsc_offset" true (ret true).
Definition parts : list vmcs_part := [].
End tsc_offset.

Module virtual_apic_address.
Definition reg : vmcs_reg := VmcsReg 0x0000000000002012 "virtual_apic_address" true (is_allowed1 ia32_vmx_true_procbased_ctls.use_tpr_shadow).
Definition parts : list vmcs_part := [].
End virtual_apic_address.

Module apic_access_address.
Definition reg : vmcs_reg := VmcsReg 0x0000000000002014 "apic_access_address" true (and_then (is_allowed1 ia32_vmx_true_procbased_ctls.activate_secondary_controls) (is_allowed1 ia32_vmx_procbased_ctls2.virtualize_apic_accesses)).
Definition parts : list vmcs_part := [].
End apic_access_address.

Module posted_interrupt_descriptor_address.
Definition reg : vmcs_reg := VmcsReg 0x0000000000002016 "posted_interrupt_descriptor_address" true (is_allowed1 ia32_vmx_true_pinbased_ctls.process_posted_interrupts).
Definition parts : list vmcs_part := [].
End posted_interrupt_descriptor_address.

Module vm_function_controls.
Definition reg : vmcs_reg := VmcsReg 0x0000000000002018 "vm_function_controls" true (and_then (is_allowed1 ia32_vmx_true_procbased_ctls.activate_secondary_controls) (is_allowed1 ia32_vmx_procbased_ctls2.enable_vm_functions)).
Definition msr_addr : Z := 0x00000491.
Definition eptp_switching : vmcs_flag := VmcsFlag reg "eptp_switching" (Flag 0x0000000000000001 0).
Definition reserved : vmcs_field := VmcsField reg "reserved" (Field 0xFFFFFFFFFFFFFFFE 0).
Definition parts : list vmcs_part := [p_flag eptp_switching; p_field reserved].
End vm_function_controls.

Module ept_pointer.
Definition reg : vmcs_reg := VmcsReg 0x000000000000201A "ept_pointer" true (and_then (is_allowed1 ia32_vmx_true_procbased_ctls.activate_secondary_controls) (is_allowed1 ia32_vmx_procbased_ctls2.enable_ept)).
Definition memory_type : vmcs_field := VmcsField reg "memory_type" (Field 0x0000000000000007 0).
Definition memory_type_uncacheable : Z := 0.
Definition memory_type_write_back : Z := 6.
Definition page_walk_length_minus_one : vmcs_field := VmcsField reg "page_walk_length_minus_one" (Field 0x0000000000000038 3).
Definition accessed_and_dirty_flags : vmcs_flag := VmcsFlag reg "accessed_and_dirty_flags" (Flag 0x0000000000000040 6).
Definition phys_addr : vmcs_field := VmcsField reg "phys_addr" (Field 0x0000FFFFFFFFF000 0).
Definition reserved : vmcs_field := VmcsField reg "reserved" (Field 0xFFFF000000000F80 0).
Definition parts : list vmcs_part := [p_field memory_type; p_field page_walk_length_minus_one; p_flag accessed_and_dirty_flags;
   p_field phys_addr; p_field reserved].
End ept_pointer.

Module eoi_exit_bitmap_0.
Definition reg : vmcs_reg := VmcsReg 0x000000000000201C "eoi_exit_bitmap_0" true (and_then (is_allowed1 ia32_vmx_true_procbased_ctls.activate_secondary_controls) (is_allowed1 ia32_vmx_procbased_ctls2.virtual_interrupt_delivery)).
Definition parts : list vmcs_part := [].
End eoi_exit_bitmap_0.

Module eoi_exit_bitmap_1.
Definition reg : vmcs_reg := VmcsReg 0x000000000000201E "eoi_exit_bitmap_1" true (and_then (is_allowed1 ia32_vmx_true_procbased_ctls.activate_secondary_controls) (is_allowed1 ia32_vmx_procbased_ctls2.virtual_interrupt_delivery)).
Definition parts : list vmcs_part := [].
End eoi_exit_bitmap_1.

Module eoi_exit_bitmap_2.
Definition reg : vmcs_reg := VmcsReg 0x0000000000002020 "eoi_exit_bitmap_2" true (and_then (is_allowed1 ia32_vmx_true_procbased_ctls.activate_secondary_controls) (is_allowed1 ia32_vmx_procbased_ctls2.virtual_interrupt_delivery)).
Definition parts : list vmcs_part := [].
End eoi_exit_bitmap_2.

Module eoi_exit_bitmap_3.
Definition reg : vmcs_reg := VmcsReg 0x0000000000002022 "eoi_exit_bitmap_3" true (and_then (is_allowed1 ia32_vmx_true_procbased_ctls.activate_secondary_controls) (is_allowed1 ia32_vmx_procbased_ctls2.virtual_interrupt_delivery)).
Definition parts : list vmcs_part := [].
End eoi_exit_bitmap_3.

Module eptp_list_address.
Definition reg : vmcs_reg := VmcsReg 0x0000000000002024 "eptp_list_address" true (and_then (is_allowed1 ia32_vmx_true_procbased_ctls.activate_secondary_controls) (and_then (is_allowed1 ia32_vmx_procbased_ctls2.enable_vm_functions) (is_allowed1 ia32_vmx_vmfunc.eptp_switching))).
Definition parts : list vmcs_part := [].
End eptp_list_address.

Module vmread_bitmap_address.
Definition reg : vmcs_reg := VmcsReg 0x0000000000002026 "vmread_bitmap_address" true (and_then (is_allowed1 ia32_vmx_true_procbased_ctls.activate_secondary_controls) (is_allowed1 ia32_vmx_procbased_ctls2.vmcs_shadowing)).
Definition parts : list vmcs_part := [].
End vmread_bitmap_address.

Module vmwrite_bitmap_address.
Definition reg : vmcs_reg := VmcsReg 0x0000000000002028 "vmwrite_bitmap_address" true (and_then (is_allowed1 ia32_vmx_true_procbased_ctls.activate_secondary_controls) (is_allowed1 ia32_vmx_procbased_ctls2.vmcs_shadowing)).
Definition parts : list vmcs_part := [].
End vmwrite_bitmap_address.

Module virtualization_exception_information_address.
Definition reg : vmcs_reg := VmcsReg 0x000000000000202A "virtualization_exception_information_address" true (and_then (is_allowed1 ia32_vmx_true_procbased_ctls.activate_secondary_controls) (is_allowed1 ia32_vmx_procbased_ctls2.ept_violation_ve)).
Definition parts : list vmcs_part := [].
End virtualization_exception_information_address.

Module xss_exiting_bitmap.
Definition reg : vmcs_reg := VmcsReg 0x000000000000202C "xss_exiting_bitmap" true (and_then (is_allowed1 ia32_vmx_true_procbased_ctls.activate_secondary_controls) (is_allowed1 ia32_vmx_procbased_ctls2.enable_xsaves_xrstors)).
Definition parts : list vmcs_part := [].
End xss_exiting_bitmap.

Module encls_exiting_bitmap.
Definition reg : vmcs_reg := VmcsReg 0x000000000000202E "encls_exiting_bitmap" true (and_then (is_allowed1 ia32_vmx_true_procbased_ctls.activate_secondary_controls) (is_allowed1 ia32_vmx_procbased_ctls2.enable_encls_exiting)).
Definition parts : list vmcs_part := [].
End encls_exiting_bitmap.

Module tsc_multiplier.
Definition reg : vmcs_reg := VmcsReg 0x0000000000002032 "tsc_multiplier" true (and_then (is_allowed1 ia32_vmx_true_procbased_ctls.activate_secondary_controls) (is_allowed1 ia32_vmx_procbased_ctls2.use_tsc_scaling)).
Definition parts : list vmcs_part := [].
End tsc_multiplier.

(** The registers of this header and their parts *)
Definition control_64 : list (vmcs_reg * list vmcs_part) :=
  [(address_of_io_bitmap_a.reg, address_of_io_bitmap_a.parts);
   (address_of_io_bitmap_b.reg, address_of_io_bitmap_b.parts);
   (address_of_msr_bitmap.reg, address_of_msr_bitmap.parts);
   (vm_exit_msr_store_address.reg, vm_exit_msr_store_address.parts);
   (vm_exit_msr_load_address.reg, vm_exit_msr_load_address.parts);
   (vm_entry_msr_load_address.reg, vm_entry_msr_load_address.parts);
   (executive_vmcs_pointer.reg, executive_vmcs_pointer.parts);
   (pml_address.reg, pml_address.parts); (tsc_offset.reg, tsc_offset.parts);
   (virtual_apic_address.reg, virtual_apic_address.parts);
   (apic_access_address.reg, apic_access_address.parts);
   (posted_interrupt_descriptor_address.reg, posted_interrupt_descriptor_address.parts);
   (vm_function_controls.reg, vm_function_controls.parts); (ept_pointer.reg, ept_pointer.parts);
   (eoi_exit_bitmap_0.reg, eoi_exit_bitmap_0.parts);
   (eoi_exit_bitmap_1.reg, eoi_exit_bitmap_1.parts);
   (eoi_exit_bitmap_2.reg, eoi_exit_bitmap_2.parts);
   (eoi_exit_bitmap_3.reg, eoi_exit_bitmap_3.parts);
   (eptp_list_address.reg, eptp_list_address.parts);
   (vmread_bitmap_address.reg, vmread_bitmap_address.parts);
   (vmwrite_bitmap_address.reg, vmwrite_bitmap_address.parts);
   (virtualization_exception_information_address.reg, virtualization_exception_information_address.parts);
   (xss_exiting_bitmap.reg, xss_exiting_bitmap.parts);
   (encls_exiting_bitmap.reg, encls_exiting_bitmap.parts);
   (tsc_multiplier.reg, tsc_multiplier.parts)].

(** ** Natural-width control fields *)

Module cr0_guest_host_mask.
Definition reg : vmcs_reg := VmcsReg 0x0000000000006000 "cr0_guest_host_mask" true (ret true).
Definition parts : list vmcs_part := [].
End cr0_guest_host_mask.

Module cr4_guest_host_mask.
Definition reg : vmcs_reg := VmcsReg 0x0000000000006002 "cr4_guest_host_mask" true (ret true).
Definition parts : list vmcs_part := [].
End cr4_guest_host_mask.

Module cr0_read_shadow.
Definition reg : vmcs_reg := VmcsReg 0x0000000000006004 "cr0_read_shadow" true (ret true).
Definition parts : list vmcs_part := [].
End cr0_read_shadow.

Module cr4_read_shadow.
Definition reg : vmcs_reg := VmcsReg 0x0000000000006006 "cr4_read_shadow" true (ret true).
Definition parts : list vmcs_part := [].
End cr4_read_shadow.

Module cr3_target_value_0.
Definition reg : vmcs_reg := VmcsReg 0x0000000000006008 "cr3_target_value_0" true (ret true).
Definition parts : list vmcs_part := [].
End cr3_target_value_0.

Module cr3_target_value_1.
Definition reg : vmcs_reg := VmcsReg 0x000000000000600A "cr3_target_value_1" true (ret true).
Definition parts : list vmcs_part := [].
End cr3_target_value_1.

Module cr3_target_value_2.
Definition reg : vmcs_reg := VmcsReg 0x000000000000600C "cr3_target_value_2" true (ret true).
Definition parts : list vmcs_part := [].
End cr3_target_value_2.

Module cr3_target_value_3.
Definition reg : vmcs_reg := VmcsReg 0x000000000000600E "cr3_target_value_3" true (ret true).
Definition parts : list vmcs_part := [].
End cr3_target_value_3.

(** The registers of this header and their parts *)
Definition control_natural : list (vmcs_reg * list vmcs_part) :=
  [(cr0_guest_host_mask.reg, cr0_guest_host_mask.parts);
   (cr4_guest_host_mask.reg, cr4_guest_host_mask.parts);
   (cr0_read_shadow.reg, cr0_read_shadow.parts); (cr4_read_shadow.reg, cr4_read_shadow.parts);
   (cr3_target_value_0.reg, cr3_target_value_0.parts);
   (cr3_target_value_1.reg, cr3_target_value_1.parts);
   (cr3_target_value_2.reg, cr3_target_value_2.parts);
   (cr3_target_value_3.reg, cr3_target_value_3.parts)].
