(* ===== verification/VmcsGuest.v ===== *)
(** * Guest state of the VMCS

    The namespaces of the headers [vmcs/*_guest_state_fields.h].  The masks of
    the PDPTEs depend on the number [phys] of physical address bits. *)
From S2P Require Import Prelude Bits EptEntry Vmcs MsrFields.

(** ** 16-bit guest state *)

Module guest_es_selector.
Definition reg : vmcs_reg := VmcsReg 0x0000000000000800 "guest_es_selector" true (ret true).
Definition rpl : vmcs_field := VmcsField reg "rpl" (Field 0x00000003 0).
Definition ti : vmcs_flag := VmcsFlag reg "ti" (Flag 0x00000004 2).
Definition index : vmcs_field := VmcsField reg "index" (Field 0x0000FFF8 3).
Definition parts : list vmcs_part := [p_field rpl; p_flag ti; p_field index].
End guest_es_selector.

Module guest_cs_selector.
Definition reg : vmcs_reg := VmcsReg 0x0000000000000802 "guest_cs_selector" true (ret true).
Definition rpl : vmcs_field := VmcsField reg "rpl" (Field 0x00000003 0).
Definition ti : vmcs_flag := VmcsFlag reg "ti" (Flag 0x00000004 2).
Definition index : vmcs_field := VmcsField reg "index" (Field 0x0000FFF8 3).
Definition parts : list vmcs_part := [p_field rpl; p_flag ti; p_field index].
End guest_cs_selector.

Module guest_ss_selector.
Definition reg : vmcs_reg := VmcsReg 0x0000000000000804 "guest_ss_selector" true (ret true).
Definition rpl : vmcs_field := VmcsField reg "rpl" (Field 0x00000003 0).
Definition ti : vmcs_flag := VmcsFlag reg "ti" (Flag 0x00000004 2).
Definition index : vmcs_field := VmcsField reg "index" (Field 0x0000FFF8 3).
Definition parts : list vmcs_part := [p_field rpl; p_flag ti; p_field index].
End guest_ss_selector.

Module guest_ds_selector.
Definition reg : vmcs_reg := VmcsReg 0x0000000000000806 "guest_ds_selector" true (ret true).
Definition rpl : vmcs_field := VmcsField reg "rpl" (Field 0x00000003 0).
Definition ti : vmcs_flag := VmcsFlag reg "ti" (Flag 0x00000004 2).
Definition index : vmcs_field := VmcsField reg "index" (Field 0x0000FFF8 3).
Definition parts : list vmcs_part := [p_field rpl; p_flag ti; p_field index].
End guest_ds_selector.

Module guest_fs_selector.
Definition reg : vmcs_reg := VmcsReg 0x0000000000000808 "guest_fs_selector" true (ret true).
Definition rpl : vmcs_field := VmcsField reg "rpl" (Field 0x00000003 0).
Definition ti : vmcs_flag := VmcsFlag reg "ti" (Flag 0x00000004 2).
Definition index : vmcs_field := VmcsField reg "index" (Field 0x0000FFF8 3).
Definition parts : list vmcs_part := [p_field rpl; p_flag ti; p_field index].
End guest_fs_selector.

Module guest_gs_selector.
Definition reg : vmcs_reg := VmcsReg 0x000000000000080A "guest_gs_selector" true (ret true).
Definition rpl : vmcs_field := VmcsField reg "rpl" (Field 0x00000003 0).
Definition ti : vmcs_flag := VmcsFlag reg "ti" (Flag 0x00000004 2).
Definition index : vmcs_field := VmcsField reg "index" (Field 0x0000FFF8 3).
Definition parts : list vmcs_part := [p_field rpl; p_flag ti; p_field index].
End guest_gs_selector.

Module guest_ldtr_selector.
Definition reg : vmcs_reg := VmcsReg 0x000000000000080C "guest_ldtr_selector" true (ret true).
Definition rpl : vmcs_field := VmcsField reg "rpl" (Field 0x00000003 0).
Definition ti : vmcs_flag := VmcsFlag reg "ti" (Flag 0x00000004 2).
Definition index : vmcs_field := VmcsField reg "index" (Field 0x0000FFF8 3).
Definition parts : list vmcs_part := [p_field rpl; p_flag ti; p_field index].
End guest_ldtr_selector.

Module guest_tr_selector.
Definition reg : vmcs_reg := VmcsReg 0x000000000000080E "guest_tr_selector" true (ret true).
Definition rpl : vmcs_field := VmcsField reg "rpl" (Field 0x00000003 0).
Definition ti : vmcs_flag := VmcsFlag reg "ti" (Flag 0x00000004 2).
Definition index : vmcs_field := VmcsField reg "index" (Field 0x0000FFF8 3).
Definition parts : list vmcs_part := [p_field rpl; p_flag ti; p_field index].
End guest_tr_selector.

Module guest_interrupt_status.
Definition reg : vmcs_reg := VmcsReg 0x0000000000000810 "guest_interrupt_status" true (and_then (is_allowed1 ia32_vmx_true_procbased_ctls.activate_secondary_controls) (is_allowed1 ia32_vmx_procbased_ctls2.virtual_interrupt_delivery)).
Definition parts : list vmcs_part := [].
End guest_interrupt_status.

Module pml_index.
Definition reg : vmcs_reg := VmcsReg 0x0000000000000812 "pml_index" true (and_then (is_allowed1 ia32_vmx_true_procbased_ctls.activate_secondary_controls) (is_allowed1 ia32_vmx_procbased_ctls2.enable_pml)).
Definition parts : list vmcs_part := [].
End pml_index.

(** The registers of this header and their parts *)
Definition guest_16 : list (vmcs_reg * list vmcs_part) :=
  [(guest_es_selector.reg, guest_es_selector.parts);
   (guest_cs_selector.reg, guest_cs_selector.parts);
   (guest_ss_selector.reg, guest_ss_selector.parts);
   (guest_ds_selector.reg, guest_ds_selector.parts);
   (guest_fs_selector.reg, guest_fs_selector.parts);
   (guest_gs_selector.reg, guest_gs_selector.parts);
   (guest_ldtr_selector.reg, guest_ldtr_selector.parts);
   (guest_tr_selector.reg, guest_tr_selector.parts);
   (guest_interrupt_status.reg, guest_interrupt_status.parts); (pml_index.reg, pml_index.parts)].

(** ** 32-bit guest state *)

Module guest_es_limit.
Definition reg : vmcs_reg := VmcsReg 0x0000000000004800 "guest_es_limit" true (ret true).
Definition parts : list vmcs_part := [].
End guest_es_limit.

Module guest_cs_limit.
Definition reg : vmcs_reg := VmcsReg 0x0000000000004802 "guest_cs_limit" true (ret true).
Definition parts : list vmcs_part := [].
End guest_cs_limit.

Module guest_ss_limit.
Definition reg : vmcs_reg := VmcsReg 0x0000000000004804 "guest_ss_limit" true (ret true).
Definition parts : list vmcs_part := [].
End guest_ss_limit.

Module guest_ds_limit.
Definition reg : vmcs_reg := VmcsReg 0x0000000000004806 "guest_ds_limit" true (ret true).
Definition parts : list vmcs_part := [].
End guest_ds_limit.

Module guest_fs_limit.
Definition reg : vmcs_reg := VmcsReg 0x0000000000004808 "guest_fs_limit" true (ret true).
Definition parts : list vmcs_part := [].
End guest_fs_limit.

Module guest_gs_limit.
Definition reg : vmcs_reg := VmcsReg 0x000000000000480A "guest_gs_limit" true (ret true).
Definition parts : list vmcs_part := [].
End guest_gs_limit.

Module guest_ldtr_limit.
Definition reg : vmcs_reg := VmcsReg 0x000000000000480C "guest_ldtr_limit" true (ret true).
Definition parts : list vmcs_part := [].
End guest_ldtr_limit.

Module guest_tr_limit.
Definition reg : vmcs_reg := VmcsReg 0x000000000000480E "guest_tr_limit" true (ret true).
Definition parts : list vmcs_part := [].
End guest_tr_limit.

Module guest_gdtr_limit.
Definition reg : vmcs_reg := VmcsReg 0x0000000000004810 "guest_gdtr_limit" true (ret true).
Definition parts : list vmcs_part := [].
End guest_gdtr_limit.

Module guest_idtr_limit.
Definition reg : vmcs_reg := VmcsReg 0x0000000000004812 "guest_idtr_limit" true (ret true).
Definition parts : list vmcs_part := [].
End guest_idtr_limit.

Module guest_es_access_rights.
Definition reg : vmcs_reg := VmcsReg 0x0000000000004814 "guest_es_access_rights" true (ret true).
Definition type : vmcs_field := VmcsField reg "type" (Field 0x000000000000000F 0).
Definition s : vmcs_flag := VmcsFlag reg "s" (Flag 0x0000000000000010 4).
Definition dpl : vmcs_field := VmcsField reg "dpl" (Field 0x0000000000000060 5).
Definition present : vmcs_flag := VmcsFlag reg "present" (Flag 0x0000000000000080 7).
Definition avl : vmcs_flag := VmcsFlag reg "avl" (Flag 0x0000000000001000 12).
Definition l : vmcs_flag := VmcsFlag reg "l" (Flag 0x0000000000002000 13).
Definition db : vmcs_flag := VmcsFlag reg "db" (Flag 0x0000000000004000 14).
Definition granularity : vmcs_flag := VmcsFlag reg "granularity" (Flag 0x0000000000008000 15).
Definition reserved : vmcs_field := VmcsField reg "reserved" (Field 0xFFFFFFFFFFFE0F00 0).
Definition unusable : vmcs_flag := VmcsFlag reg "unusable" (Flag 0x0000000000010000 16).
Definition parts : list vmcs_part := [p_field type; p_flag s; p_field dpl; p_flag present; p_flag avl; p_flag l; p_flag db;
   p_flag granularity; p_field reserved; p_flag unusable].
End guest_es_access_rights.

Module guest_cs_access_rights.
Definition reg : vmcs_reg := VmcsReg 0x0000000000004816 "guest_cs_access_rights" true (ret true).
Definition type : vmcs_field := VmcsField reg "type" (Field 0x000000000000000F 0).
Definition s : vmcs_flag := VmcsFlag reg "s" (Flag 0x0000000000000010 4).
Definition dpl : vmcs_field := VmcsField reg "dpl" (Field 0x0000000000000060 5).
Definition present : vmcs_flag := VmcsFlag reg "present" (Flag 0x0000000000000080 7).
Definition avl : vmcs_flag := VmcsFlag reg "avl" (Flag 0x0000000000001000 12).
Definition l : vmcs_flag := VmcsFlag reg "l" (Flag 0x0000000000002000 13).
Definition db : vmcs_flag := VmcsFlag reg "db" (Flag 0x0000000000004000 14).
Definition granularity : vmcs_flag := VmcsFlag reg "granularity" (Flag 0x0000000000008000 15).
Definition reserved : vmcs_field := VmcsField reg "reserved" (Field 0xFFFFFFFFFFFE0F00 0).
Definition unusable : vmcs_flag := VmcsFlag reg "unusable" (Flag 0x0000000000010000 16).
Definition parts : list vmcs_part := [p_field type; p_flag s; p_field dpl; p_flag present; p_flag avl; p_flag l; p_flag db;
   p_flag granularity; p_field reserved; p_flag unusable].
End guest_cs_access_rights.

Module guest_ss_access_rights.
Definition reg : vmcs_reg := VmcsReg 0x0000000000004818 "guest_ss_access_rights" true (ret true).
Definition type : vmcs_field := VmcsField reg "type" (Field 0x000000000000000F 0).
Definition s : vmcs_flag := VmcsFlag reg "s" (Flag 0x0000000000000010 4).
Definition dpl : vmcs_field := VmcsField reg "dpl" (Field 0x0000000000000060 5).
Definition present : vmcs_flag := VmcsFlag reg "present" (Flag 0x0000000000000080 7).
Definition avl : vmcs_flag := VmcsFlag reg "avl" (Flag 0x0000000000001000 12).
Definition l : vmcs_flag := VmcsFlag reg "l" (Flag 0x0000000000002000 13).
Definition db : vmcs_flag := VmcsFlag reg "db" (Flag 0x0000000000004000 14).
Definition granularity : vmcs_flag := VmcsFlag reg "granularity" (Flag 0x0000000000008000 15).
Definition reserved : vmcs_field := VmcsField reg "reserved" (Field 0xFFFFFFFFFFFE0F00 0).
Definition unusable : vmcs_flag := VmcsFlag reg "unusable" (Flag 0x0000000000010000 16).
Definition parts : list vmcs_part := [p_field type; p_flag s; p_field dpl; p_flag present; p_flag avl; p_flag l; p_flag db;
   p_flag granularity; p_field reserved; p_flag unusable].
End guest_ss_access_rights.

Module guest_ds_access_rights.
Definition reg : vmcs_reg := VmcsReg 0x000000000000481A "guest_ds_access_rights" true (ret true).
Definition type : vmcs_field := VmcsField reg "type" (Field 0x000000000000000F 0).
Definition s : vmcs_flag := VmcsFlag reg "s" (Flag 0x0000000000000010 4).
Definition dpl : vmcs_field := VmcsField reg "dpl" (Field 0x0000000000000060 5).
Definition present : vmcs_flag := VmcsFlag reg "present" (Flag 0x0000000000000080 7).
Definition avl : vmcs_flag := VmcsFlag reg "avl" (Flag 0x0000000000001000 12).
Definition l : vmcs_flag := VmcsFlag reg "l" (Flag 0x0000000000002000 13).
Definition db : vmcs_flag := VmcsFlag reg "db" (Flag 0x0000000000004000 14).
Definition granularity : vmcs_flag := VmcsFlag reg "granularity" (Flag 0x0000000000008000 15).
Definition reserved : vmcs_field := VmcsField reg "reserved" (Field 0xFFFFFFFFFFFE0F00 0).
Definition unusable : vmcs_flag := VmcsFlag reg "unusable" (Flag 0x0000000000010000 16).
Definition parts : list vmcs_part := [p_field type; p_flag s; p_field dpl; p_flag present; p_flag avl; p_flag l; p_flag db;
   p_flag granularity; p_field reserved; p_flag unusable].
End guest_ds_access_rights.

Module guest_fs_access_rights.
Definition reg : vmcs_reg := VmcsReg 0x000000000000481C "guest_fs_access_rights" true (ret true).
Definition type : vmcs_field := VmcsField reg "type" (Field 0x000000000000000F 0).
Definition s : vmcs_flag := VmcsFlag reg "s" (Flag 0x0000000000000010 4).
Definition dpl : vmcs_field := VmcsField reg "dpl" (Field 0x0000000000000060 5).
Definition present : vmcs_flag := VmcsFlag reg "present" (Flag 0x0000000000000080 7).
Definition avl : vmcs_flag := VmcsFlag reg "avl" (Flag 0x0000000000001000 12).
Definition l : vmcs_flag := VmcsFlag reg "l" (Flag 0x0000000000002000 13).
Definition db : vmcs_flag := VmcsFlag reg "db" (Flag 0x0000000000004000 14).
Definition granularity : vmcs_flag := VmcsFlag reg "granularity" (Flag 0x0000000000008000 15).
Definition reserved : vmcs_field := VmcsField reg "reserved" (Field 0xFFFFFFFFFFFE0F00 0).
Definition unusable : vmcs_flag := VmcsFlag reg "unusable" (Flag 0x0000000000010000 16).
Definition parts : list vmcs_part := [p_field type; p_flag s; p_field dpl; p_flag present; p_flag avl; p_flag l; p_flag db;
   p_flag granularity; p_field reserved; p_flag unusable].
End guest_fs_access_rights.

Module guest_gs_access_rights.
Definition reg : vmcs_reg := VmcsReg 0x000000000000481E "guest_gs_access_rights" true (ret true).
Definition type : vmcs_field := VmcsField reg "type" (Field 0x000000000000000F 0).
Definition s : vmcs_flag := VmcsFlag reg "s" (Flag 0x0000000000000010 4).
Definition dpl : vmcs_field := VmcsField reg "dpl" (Field 0x0000000000000060 5).
Definition present : vmcs_flag := VmcsFlag reg "present" (Flag 0x0000000000000080 7).
Definition avl : vmcs_flag := VmcsFlag reg "avl" (Flag 0x0000000000001000 12).
Definition l : vmcs_flag := VmcsFlag reg "l" (Flag 0x0000000000002000 13).
Definition db : vmcs_flag := VmcsFlag reg "db" (Flag 0x0000000000004000 14).
Definition granularity : vmcs_flag := VmcsFlag reg "granularity" (Flag 0x0000000000008000 15).
Definition reserved : vmcs_field := VmcsField reg "reserved" (Field 0xFFFFFFFFFFFE0F00 0).
Definition unusable : vmcs_flag := VmcsFlag reg "unusable" (Flag 0x0000000000010000 16).
Definition parts : list vmcs_part := [p_field type; p_flag s; p_field dpl; p_flag present; p_flag avl; p_flag l; p_flag db;
   p_flag granularity; p_field reserved; p_flag unusable].
End guest_gs_access_rights.

Module guest_ldtr_access_rights.
Definition reg : vmcs_reg := VmcsReg 0x0000000000004820 "guest_ldtr_access_rights" true (ret true).
Definition type : vmcs_field := VmcsField reg "type" (Field 0x000000000000000F 0).
Definition s : vmcs_flag := VmcsFlag reg "s" (Flag 0x0000000000000010 4).
Definition dpl : vmcs_field := VmcsField reg "dpl" (Field 0x0000000000000060 5).
Definition present : vmcs_flag := VmcsFlag reg "present" (Flag 0x0000000000000080 7).
Definition avl : vmcs_flag := VmcsFlag reg "avl" (Flag 0x0000000000001000 12).
Definition l : vmcs_flag := VmcsFlag reg "l" (Flag 0x0000000000002000 13).
Definition db : vmcs_flag := VmcsFlag reg "db" (Flag 0x0000000000004000 14).
Definition granularity : vmcs_flag := VmcsFlag reg "granularity" (Flag 0x0000000000008000 15).
Definition reserved : vmcs_field := VmcsField reg "reserved" (Field 0xFFFFFFFFFFFE0F00 0).
Definition unusable : vmcs_flag := VmcsFlag reg "unusable" (Flag 0x0000000000010000 16).
Definition parts : list vmcs_part := [p_field type; p_flag s; p_field dpl; p_flag present; p_flag avl; p_flag l; p_flag db;
   p_flag granularity; p_field reserved; p_flag unusable].
End guest_ldtr_access_rights.

Module guest_tr_access_rights.
Definition reg : vmcs_reg := VmcsReg 0x0000000000004822 "guest_tr_access_rights" true (ret true).
Definition type : vmcs_field := VmcsField reg "type" (Field 0x000000000000000F 0).
Definition s : vmcs_flag := VmcsFlag reg "s" (Flag 0x0000000000000010 4).
Definition dpl : vmcs_field := VmcsField reg "dpl" (Field 0x0000000000000060 5).
Definition present : vmcs_flag := VmcsFlag reg "present" (Flag 0x0000000000000080 7).
Definition avl : vmcs_flag := VmcsFlag reg "avl" (Flag 0x0000000000001000 12).
Definition l : vmcs_flag := VmcsFlag reg "l" (Flag 0x0000000000002000 13).
Definition db : vmcs_flag := VmcsFlag reg "db" (Flag 0x0000000000004000 14).
Definition granularity : vmcs_flag := VmcsFlag reg "granularity" (Flag 0x0000000000008000 15).
Definition reserved : vmcs_field := VmcsField reg "reserved" (Field 0xFFFFFFFFFFFE0F00 0).
Definition unusable : vmcs_flag := VmcsFlag reg "unusable" (Flag 0x0000000000010000 16).
Definition parts : list vmcs_part := [p_field type; p_flag s; p_field dpl; p_flag present; p_flag avl; p_flag l; p_flag db;
   p_flag granularity; p_field reserved; p_flag unusable].
End guest_tr_access_rights.

Module guest_interruptibility_state.
Definition reg : vmcs_reg := VmcsReg 0x0000000000004824 "guest_interruptibility_state" true (ret true).
Definition blocking_by_sti : vmcs_flag := VmcsFlag reg "blocking_by_sti" (Flag 0x0000000000000001 0).
Definition blocking_by_mov_ss : vmcs_flag := VmcsFlag reg "blocking_by_mov_ss" (Flag 0x0000000000000002 1).
Definition blocking_by_smi : vmcs_flag := VmcsFlag reg "blocking_by_smi" (Flag 0x0000000000000004 2).
Definition blocking_by_nmi : vmcs_flag := VmcsFlag reg "blocking_by_nmi" (Flag 0x0000000000000008 3).
Definition enclave_interruption : vmcs_flag := VmcsFlag reg "enclave_interruption" (Flag 0x0000000000000010 4).
Definition reserved : vmcs_field := VmcsField reg "reserved" (Field 0x00000000FFFFFFE0 5).
Definition parts : list vmcs_part := [p_flag blocking_by_sti; p_flag blocking_by_mov_ss; p_flag blocking_by_smi;
   p_flag blocking_by_nmi; p_flag enclave_interruption; p_field reserved].
End guest_interruptibility_state.

Module guest_activity_state.
Definition reg : vmcs_reg := VmcsReg 0x0000000000004826 "guest_activity_state" true (ret true).
Definition active : Z := 0.
Definition hlt : Z := 1.
Definition shutdown : Z := 2.
Definition wait_for_sipi : Z := 3.
Definition parts : list vmcs_part := [].
End guest_activity_state.

Module guest_smbase.
Definition reg : vmcs_reg := VmcsReg 0x0000000000004828 "guest_smbase" true (ret true).
Definition parts : list vmcs_part := [].
End guest_smbase.

Module guest_ia32_sysenter_cs.
Definition reg : vmcs_reg := VmcsReg 0x000000000000482A "guest_ia32_sysenter_cs" true (ret true).
Definition parts : list vmcs_part := [].
End guest_ia32_sysenter_cs.

Module vmx_preemption_timer_value.
Definition reg : vmcs_reg := VmcsReg 0x000000000000482E "vmx_preemption_timer_value" true (is_allowed1 ia32_vmx_true_pinbased_ctls.activate_vmx_preemption_timer).
Definition parts : list vmcs_part := [].
End vmx_preemption_timer_value.

(** The registers of this header and their parts *)
Definition guest_32 : list (vmcs_reg * list vmcs_part) :=
  [(guest_es_limit.reg, guest_es_limit.parts); (guest_cs_limit.reg, guest_cs_limit.parts);
   (guest_ss_limit.reg, guest_ss_limit.parts); (guest_ds_limit.reg, guest_ds_limit.parts);
   (guest_fs_limit.reg, guest_fs_limit.parts); (guest_gs_limit.reg, guest_gs_limit.parts);
   (guest_ldtr_limit.reg, guest_ldtr_limit.parts); (guest_tr_limit.reg, guest_tr_limit.parts);
   (guest_gdtr_limit.reg, guest_gdtr_limit.parts);
   (guest_idtr_limit.reg, guest_idtr_limit.parts);
   (guest_es_access_rights.reg, guest_es_access_rights.parts);
   (guest_cs_access_rights.reg, guest_cs_access_rights.parts);
   (guest_ss_access_rights.reg, guest_ss_access_rights.parts);
   (guest_ds_access_rights.reg, guest_ds_access_rights.parts);
   (guest_fs_access_rights.reg, guest_fs_access_rights.parts);
   (guest_gs_access_rights.reg, guest_gs_access_rights.parts);
   (guest_ldtr_access_rights.reg, guest_ldtr_access_rights.parts);
   (guest_tr_access_rights.reg, guest_tr_access_rights.parts);
   (guest_interruptibility_state.reg, guest_interruptibility_state.parts);
   (guest_activity_state.reg, guest_activity_state.parts);
   (guest_smbase.reg, guest_smbase.parts);
   (guest_ia32_sysenter_cs.reg, guest_ia32_sysenter_cs.parts);
   (vmx_preemption_timer_value.reg, vmx_preemption_timer_value.parts)].

(** ** 64-bit guest state *)

Module vmcs_link_pointer.
Definition reg : vmcs_reg := VmcsReg 0x0000000000002800 "vmcs_link_pointer" true (ret true).
Definition parts : list vmcs_part := [].
End vmcs_link_pointer.

Module guest_ia32_debugctl.
Definition reg : vmcs_reg := VmcsReg 0x0000000000002802 "guest_ia32_debugctl" true (ret true).
Definition lbr : vmcs_flag := VmcsFlag reg "lbr" (Flag 0x0000000000000001 0).
Definition btf : vmcs_flag := VmcsFlag reg "btf" (Flag 0x0000000000000002 1).
Definition tr : vmcs_flag := VmcsFlag reg "tr" (Flag 0x0000000000000040 6).
Definition bts : vmcs_flag := VmcsFlag reg "bts" (Flag 0x0000000000000080 7).
Definition btint : vmcs_flag := VmcsFlag reg "btint" (Flag 0x0000000000000100 8).
Definition bt_off_os : vmcs_flag := VmcsFlag reg "bt_off_os" (Flag 0x0000000000000200 9).
Definition bt_off_user : vmcs_flag := VmcsFlag reg "bt_off_user" (Flag 0x0000000000000400 10).
Definition freeze_lbrs_on_pmi : vmcs_flag := VmcsFlag reg "freeze_lbrs_on_pmi" (Flag 0x0000000000000800 11).
Definition freeze_perfmon_on_pmi : vmcs_flag := VmcsFlag reg "freeze_perfmon_on_pmi" (Flag 0x0000000000001000 12).
Definition enable_uncore_pmi : vmcs_flag := VmcsFlag reg "enable_uncore_pmi" (Flag 0x0000000000002000 13).
Definition freeze_while_smm : vmcs_flag := VmcsFlag reg "freeze_while_smm" (Flag 0x0000000000004000 14).
Definition rtm_debug : vmcs_flag := VmcsFlag reg "rtm_debug" (Flag 0x0000000000008000 15).
Definition reserved : vmcs_field := VmcsField reg "reserved" (Field 0xFFFFFFFFFFFF003C 0).
Definition parts : list vmcs_part := [p_flag lbr; p_flag btf; p_flag tr; p_flag bts; p_flag btint; p_flag bt_off_os;
   p_flag bt_off_user; p_flag freeze_lbrs_on_pmi; p_flag freeze_perfmon_on_pmi;
   p_flag enable_uncore_pmi; p_flag freeze_while_smm; p_flag rtm_debug; p_field reserved].
End guest_ia32_debugctl.

Module guest_ia32_pat.
Definition reg : vmcs_reg := VmcsReg 0x0000000000002804 "guest_ia32_pat" true (or_else (is_allowed1 ia32_vmx_true_entry_ctls.load_ia32_pat) (is_allowed1 ia32_vmx_true_exit_ctls.save_ia32_pat)).
Definition pa0 : vmcs_field := VmcsField reg "pa0" (Field 0x00000000000000FF 0).
Definition pa0_memory_type : vmcs_field := VmcsField reg "memory_type" (Field 0x0000000000000007 0).
Definition pa0_reserved : vmcs_field := VmcsField reg "reserved" (Field 0x00000000000000F8 3).
Definition pa1 : vmcs_field := VmcsField reg "pa1" (Field 0x000000000000FF00 8).
Definition pa1_memory_type : vmcs_field := VmcsField reg "memory_type" (Field 0x0000000000000700 8).
Definition pa1_reserved : vmcs_field := VmcsField reg "reserved" (Field 0x000000000000F800 11).
Definition pa2 : vmcs_field := VmcsField reg "pa2" (Field 0x0000000000FF0000 16).
Definition pa2_memory_type : vmcs_field := VmcsField reg "memory_type" (Field 0x0000000000070000 16).
Definition pa2_reserved : vmcs_field := VmcsField reg "reserved" (Field 0x0000000000F80000 19).
Definition pa3 : vmcs_field := VmcsField reg "pa3" (Field 0x00000000FF000000 24).
Definition pa3_memory_type : vmcs_field := VmcsField reg "memory_type" (Field 0x0000000007000000 24).
Definition pa3_reserved : vmcs_field := VmcsField reg "reserved" (Field 0x00000000F8000000 27).
Definition pa4 : vmcs_field := VmcsField reg "pa4" (Field 0x000000FF00000000 32).
Definition pa4_memory_type : vmcs_field := VmcsField reg "memory_type" (Field 0x0000000700000000 32).
Definition pa4_reserved : vmcs_field := VmcsField reg "reserved" (Field 0x000000F800000000 35).
Definition pa5 : vmcs_field := VmcsField reg "pa5" (Field 0x0000FF0000000000 40).
Definition pa5_memory_type : vmcs_field := VmcsField reg "memory_type" (Field 0x0000070000000000 40).
Definition pa5_reserved : vmcs_field := VmcsField reg "reserved" (Field 0x0000F80000000000 43).
Definition pa6 : vmcs_field := VmcsField reg "pa6" (Field 0x00FF000000000000 48).
Definition pa6_memory_type : vmcs_field := VmcsField reg "memory_type" (Field 0x0007000000000000 48).
Definition pa6_reserved : vmcs_field := VmcsField reg "reserved" (Field 0x00F8000000000000 51).
Definition pa7 : vmcs_field := VmcsField reg "pa7" (Field 0xFF00000000000000 56).
Definition pa7_memory_type : vmcs_field := VmcsField reg "memory_type" (Field 0x0700000000000000 56).
Definition pa7_reserved : vmcs_field := VmcsField reg "reserved" (Field 0xF800000000000000 59).
Definition parts : list vmcs_part := [p_field pa0; p_field pa1; p_field pa2; p_field pa3; p_field pa4; p_field pa5; p_field pa6;
   p_field pa7].
Definition sub_parts : list vmcs_part := [p_field pa0_memory_type; p_field pa0_reserved; p_field pa1_memory_type; p_field pa1_reserved;
   p_field pa2_memory_type; p_field pa2_reserved; p_field pa3_memory_type; p_field pa3_reserved;
   p_field pa4_memory_type; p_field pa4_reserved; p_field pa5_memory_type; p_field pa5_reserved;
   p_field pa6_memory_type; p_field pa6_reserved; p_field pa7_memory_type; p_field pa7_reserved].
End guest_ia32_pat.

Module guest_ia32_efer.
Definition reg : vmcs_reg := VmcsReg 0x0000000000002806 "guest_ia32_efer" true (or_else (is_allowed1 ia32_vmx_true_entry_ctls.load_ia32_efer) (is_allowed1 ia32_vmx_true_exit_ctls.save_ia32_efer)).
Definition sce : vmcs_flag := VmcsFlag reg "sce" (Flag 0x0000000000000001 0).
Definition lme : vmcs_flag := VmcsFlag reg "lme" (Flag 0x0000000000000100 8).
Definition lma : vmcs_flag := VmcsFlag reg "lma" (Flag 0x0000000000000400 10).
Definition nxe : vmcs_flag := VmcsFlag reg "nxe" (Flag 0x0000000000000800 11).
Definition reserved : vmcs_field := VmcsField reg "reserved" (Field 0xFFFFFFFFFFFFF2FE 0).
Definition parts : list vmcs_part := [p_flag sce; p_flag lme; p_flag lma; p_flag nxe; p_field reserved].
End guest_ia32_efer.

Module guest_ia32_perf_global_ctrl.
Definition reg : vmcs_reg := VmcsReg 0x0000000000002808 "guest_ia32_perf_global_ctrl" true (is_allowed1 ia32_vmx_true_entry_ctls.load_ia32_perf_global_ctrl).
Definition reserved : vmcs_field := VmcsField reg "reserved" (Field 0xFFFFFFF8FFFFFFFC 0).
Definition parts : list vmcs_part := [p_field reserved].
End guest_ia32_perf_global_ctrl.

Module guest_pdpte0.
Definition reg : vmcs_reg := VmcsReg 0x000000000000280A "guest_pdpte0" true (and_then (is_allowed1 ia32_vmx_true_procbased_ctls.activate_secondary_controls) (is_allowed1 ia32_vmx_procbased_ctls2.enable_ept)).
Definition present : vmcs_flag := VmcsFlag reg "present" (Flag 0x0000000000000001 0).
Definition reserved (phys : Z) : vmcs_field := VmcsField reg "reserved" (Field (Z.lor (shl64 0xFFFFFFFFFFFFFFFF phys) 0x1E6) 0).
Definition pwt : vmcs_flag := VmcsFlag reg "pwt" (Flag 0x0000000000000008 3).
Definition pcd : vmcs_flag := VmcsFlag reg "pcd" (Flag 0x0000000000000010 4).
Definition page_directory_addr (phys : Z) : vmcs_field := VmcsField reg "page_directory_addr" (Field (Z.lor (shl64 0xFFFFFFFFFFFFFFFF phys) 0x1E6) 12).
Definition parts : list vmcs_part := [p_flag present; p_flag pwt; p_flag pcd].
End guest_pdpte0.

Module guest_pdpte1.
Definition reg : vmcs_reg := VmcsReg 0x000000000000280C "guest_pdpte1" true (and_then (is_allowed1 ia32_vmx_true_procbased_ctls.activate_secondary_controls) (is_allowed1 ia32_vmx_procbased_ctls2.enable_ept)).
Definition present : vmcs_flag := VmcsFlag reg "present" (Flag 0x0000000000000001 0).
Definition reserved (phys : Z) : vmcs_field := VmcsField reg "reserved" (Field (Z.lor (shl64 0xFFFFFFFFFFFFFFFF phys) 0x1E6) 0).
Definition pwt : vmcs_flag := VmcsFlag reg "pwt" (Flag 0x0000000000000008 3).
Definition pcd : vmcs_flag := VmcsFlag reg "pcd" (Flag 0x0000000000000010 4).
Definition page_directory_addr (phys : Z) : vmcs_field := VmcsField reg "page_directory_addr" (Field (Z.lor (shl64 0xFFFFFFFFFFFFFFFF phys) 0x1E6) 12).
Definition parts : list vmcs_part := [p_flag present; p_flag pwt; p_flag pcd].
End guest_pdpte1.

Module guest_pdpte2.
Definition reg : vmcs_reg := VmcsReg 0x000000000000280E "guest_pdpte2" true (and_then (is_allowed1 ia32_vmx_true_procbased_ctls.activate_secondary_controls) (is_allowed1 ia32_vmx_procbased_ctls2.enable_ept)).
Definition present : vmcs_flag := VmcsFlag reg "present" (Flag 0x0000000000000001 0).
Definition reserved (phys : Z) : vmcs_field := VmcsField reg "reserved" (Field (Z.lor (shl64 0xFFFFFFFFFFFFFFFF phys) 0x1E6) 0).
Definition pwt : vmcs_flag := VmcsFlag reg "pwt" (Flag 0x0000000000000008 3).
Definition pcd : vmcs_flag := VmcsFlag reg "pcd" (Flag 0x0000000000000010 4).
Definition page_directory_addr (phys : Z) : vmcs_field := VmcsField reg "page_directory_addr" (Field (Z.lor (shl64 0xFFFFFFFFFFFFFFFF phys) 0x1E6) 12).
Definition parts : list vmcs_part := [p_flag present; p_flag pwt; p_flag pcd].
End guest_pdpte2.

Module guest_pdpte3.
Definition reg : vmcs_reg := VmcsReg 0x0000000000002810 "guest_pdpte3" true (and_then (is_allowed1 ia32_vmx_true_procbased_ctls.activate_secondary_controls) (is_allowed1 ia32_vmx_procbased_ctls2.enable_ept)).
Definition present : vmcs_flag := VmcsFlag reg "present" (Flag 0x0000000000000001 0).
Definition reserved (phys : Z) : vmcs_field := VmcsField reg "reserved" (Field (Z.lor (shl64 0xFFFFFFFFFFFFFFFF phys) 0x1E6) 0).
Definition pwt : vmcs_flag := VmcsFlag reg "pwt" (Flag 0x0000000000000008 3).
Definition pcd : vmcs_flag := VmcsFlag reg "pcd" (Flag 0x0000000000000010 4).
Definition page_directory_addr (phys : Z) : vmcs_field := VmcsField reg "page_directory_addr" (Field (Z.lor (shl64 0xFFFFFFFFFFFFFFFF phys) 0x1E6) 12).
Definition parts : list vmcs_part := [p_flag present; p_flag pwt; p_flag pcd].
End guest_pdpte3.

Module guest_ia32_bndcfgs.
Definition reg : vmcs_reg := VmcsReg 0x0000000000002812 "guest_ia32_bndcfgs" true (or_else (is_allowed1 ia32_vmx_true_entry_ctls.load_ia32_bndcfgs) (is_allowed1 ia32_vmx_true_exit_ctls.clear_ia32_bndcfgs)).
Definition en : vmcs_flag := VmcsFlag reg "en" (Flag 0x0000000000000001 0).
Definition bndpreserve : vmcs_flag := VmcsFlag reg "bndpreserve" (Flag 0x0000000000000002 1).
Definition reserved : vmcs_field := VmcsField reg "reserved" (Field 0x0000000000000FFC 0).
Definition base_addr_of_bnd_directory : vmcs_field := VmcsField reg "base_addr_of_bnd_directory" (Field 0xFFFFFFFFFFFFF000 12).
Definition parts : list vmcs_part := [p_flag en; p_flag bndpreserve; p_field reserved; p_field base_addr_of_bnd_directory].
End guest_ia32_bndcfgs.

(** The registers of this header and their parts *)
Definition guest_64 : list (vmcs_reg * list vmcs_part) :=
  [(vmcs_link_pointer.reg, vmcs_link_pointer.parts);
   (guest_ia32_debugctl.reg, guest_ia32_debugctl.parts);
   (guest_ia32_pat.reg, guest_ia32_pat.parts); (guest_ia32_pat.reg, guest_ia32_pat.sub_parts);
   (guest_ia32_efer.reg, guest_ia32_efer.parts);
   (guest_ia32_perf_global_ctrl.reg, guest_ia32_perf_global_ctrl.parts);
   (guest_pdpte0.reg, guest_pdpte0.parts); (guest_pdpte1.reg, guest_pdpte1.parts);
   (guest_pdpte2.reg, guest_pdpte2.parts); (guest_pdpte3.reg, guest_pdpte3.parts);
   (guest_ia32_bndcfgs.reg, guest_ia32_bndcfgs.parts)].

(** ** Natural-width guest state *)

Module guest_cr0.
Definition reg : vmcs_reg := VmcsReg 0x0000000000006800 "guest_cr0" true (ret true).
Definition protection_enable : vmcs_flag := VmcsFlag reg "protection_enable" (Flag 0x0000000000000001 0).
Definition monitor_coprocessor : vmcs_flag := VmcsFlag reg "monitor_coprocessor" (Flag 0x0000000000000002 1).
Definition emulation : vmcs_flag := VmcsFlag reg "emulation" (Flag 0x0000000000000004 2).
Definition task_switched : vmcs_flag := VmcsFlag reg "task_switched" (Flag 0x0000000000000008 3).
Definition extension_type : vmcs_flag := VmcsFlag reg "extension_type" (Flag 0x0000000000000010 4).
Definition numeric_error : vmcs_flag := VmcsFlag reg "numeric_error" (Flag 0x0000000000000020 5).
Definition write_protect : vmcs_flag := VmcsFlag reg "write_protect" (Flag 0x0000000000010000 16).
Definition alignment_mask : vmcs_flag := VmcsFlag reg "alignment_mask" (Flag 0x0000000000040000 18).
Definition not_write_through : vmcs_flag := VmcsFlag reg "not_write_through" (Flag 0x0000000020000000 29).
Definition cache_disable : vmcs_flag := VmcsFlag reg "cache_disable" (Flag 0x0000000040000000 30).
Definition paging : vmcs_flag := VmcsFlag reg "paging" (Flag 0x0000000080000000 31).
Definition parts : list vmcs_part := [p_flag protection_enable; p_flag monitor_coprocessor; p_flag emulation; p_flag task_switched;
   p_flag extension_type; p_flag numeric_error; p_flag write_protect; p_flag alignment_mask;
   p_flag not_write_through; p_flag cache_disable; p_flag paging].
End guest_cr0.

Module guest_cr3.
Definition reg : vmcs_reg := VmcsReg 0x0000000000006802 "guest_cr3" true (ret true).
Definition parts : list vmcs_part := [].
End guest_cr3.

Module guest_cr4.
Definition reg : vmcs_reg := VmcsReg 0x0000000000006804 "guest_cr4" true (ret true).
Definition v8086_mode_extensions : vmcs_flag := VmcsFlag reg "v8086_mode_extensions" (Flag 0x0000000000000001 0).
Definition protected_mode_virtual_interrupts : vmcs_flag := VmcsFlag reg "protected_mode_virtual_interrupts" (Flag 0x0000000000000002 1).
Definition time_stamp_disable : vmcs_flag := VmcsFlag reg "time_stamp_disable" (Flag 0x0000000000000004 2).
Definition debugging_extensions : vmcs_flag := VmcsFlag reg "debugging_extensions" (Flag 0x0000000000000008 3).
Definition page_size_extensions : vmcs_flag := VmcsFlag reg "page_size_extensions" (Flag 0x0000000000000010 4).
Definition physical_address_extensions : vmcs_flag := VmcsFlag reg "physical_address_extensions" (Flag 0x0000000000000020 5).
Definition machine_check_enable : vmcs_flag := VmcsFlag reg "machine_check_enable" (Flag 0x0000000000000040 6).
Definition page_global_enable : vmcs_flag := VmcsFlag reg "page_global_enable" (Flag 0x0000000000000080 7).
Definition performance_monitor_counter_enable : vmcs_flag := VmcsFlag reg "performance_monitor_counter_enable" (Flag 0x0000000000000100 8).
Definition osfxsr : vmcs_flag := VmcsFlag reg "osfxsr" (Flag 0x0000000000000200 9).
Definition osxmmexcpt : vmcs_flag := VmcsFlag reg "osxmmexcpt" (Flag 0x0000000000000400 10).
Definition vmx_enable_bit : vmcs_flag := VmcsFlag reg "vmx_enable_bit" (Flag 0x0000000000002000 13).
Definition smx_enable_bit : vmcs_flag := VmcsFlag reg "smx_enable_bit" (Flag 0x0000000000004000 14).
Definition fsgsbase_enable_bit : vmcs_flag := VmcsFlag reg "fsgsbase_enable_bit" (Flag 0x0000000000010000 16).
Definition pcid_enable_bit : vmcs_flag := VmcsFlag reg "pcid_enable_bit" (Flag 0x0000000000020000 17).
Definition osxsave : vmcs_flag := VmcsFlag reg "osxsave" (Flag 0x0000000000040000 18).
Definition smep_enable_bit : vmcs_flag := VmcsFlag reg "smep_enable_bit" (Flag 0x0000000000100000 20).
Definition smap_enable_bit : vmcs_flag := VmcsFlag reg "smap_enable_bit" (Flag 0x0000000000200000 21).
Definition protection_key_enable_bit : vmcs_flag := VmcsFlag reg "protection_key_enable_bit" (Flag 0x0000000000400000 22).
Definition parts : list vmcs_part := [p_flag v8086_mode_extensions; p_flag protected_mode_virtual_interrupts;
   p_flag time_stamp_disable; p_flag debugging_extensions; p_flag page_size_extensions;
   p_flag physical_address_extensions; p_flag machine_check_enable; p_flag page_global_enable;
   p_flag performance_monitor_counter_enable; p_flag osfxsr; p_flag osxmmexcpt;
   p_flag vmx_enable_bit; p_flag smx_enable_bit; p_flag fsgsbase_enable_bit;
   p_flag pcid_enable_bit; p_flag osxsave; p_flag smep_enable_bit; p_flag smap_enable_bit;
   p_flag protection_key_enable_bit].
End guest_cr4.

Module guest_es_base.
Definition reg : vmcs_reg := VmcsReg 0x0000000000006806 "guest_es_base" true (ret true).
Definition parts : list vmcs_part := [].
End guest_es_base.

Module guest_cs_base.
Definition reg : vmcs_reg := VmcsReg 0x0000000000006808 "guest_cs_base" true (ret true).
Definition parts : list vmcs_part := [].
End guest_cs_base.

Module guest_ss_base.
Definition reg : vmcs_reg := VmcsReg 0x000000000000680A "guest_ss_base" true (ret true).
Definition parts : list vmcs_part := [].
End guest_ss_base.

Module guest_ds_base.
Definition reg : vmcs_reg := VmcsReg 0x000000000000680C "guest_ds_base" true (ret true).
Definition parts : list vmcs_part := [].
End guest_ds_base.

Module guest_fs_base.
Definition reg : vmcs_reg := VmcsReg 0x000000000000680E "guest_fs_base" true (ret true).
Definition parts : list vmcs_part := [].
End guest_fs_base.

Module guest_gs_base.
Definition reg : vmcs_reg := VmcsReg 0x0000000000006810 "guest_gs_base" true (ret true).
Definition parts : list vmcs_part := [].
End guest_gs_base.

Module guest_ldtr_base.
Definition reg : vmcs_reg := VmcsReg 0x0000000000006812 "guest_ldtr_base" true (ret true).
Definition parts : list vmcs_part := [].
End guest_ldtr_base.

Module guest_tr_base.
Definition reg : vmcs_reg := VmcsReg 0x0000000000006814 "guest_tr_base" true (ret true).
Definition parts : list vmcs_part := [].
End guest_tr_base.

Module guest_gdtr_base.
Definition reg : vmcs_reg := VmcsReg 0x0000000000006816 "guest_gdtr_base" true (ret true).
Definition parts : list vmcs_part := [].
End guest_gdtr_base.

Module guest_idtr_base.
Definition reg : vmcs_reg := VmcsReg 0x0000000000006818 "guest_idtr_base" true (ret true).
Definition parts : list vmcs_part := [].
End guest_idtr_base.

Module guest_dr7.
Definition reg : vmcs_reg := VmcsReg 0x000000000000681A "guest_dr7" true (ret true).
Definition parts : list vmcs_part := [].
End guest_dr7.

Module guest_rsp.
Definition reg : vmcs_reg := VmcsReg 0x000000000000681C "guest_rsp" true (ret true).
Definition parts : list vmcs_part := [].
End guest_rsp.

Module guest_rip.
Definition reg : vmcs_reg := VmcsReg 0x000000000000681E "guest_rip" true (ret true).
Definition parts : list vmcs_part := [].
End guest_rip.

Module guest_rflags.
Definition reg : vmcs_reg := VmcsReg 0x0000000000006820 "guest_rflags" true (ret true).
Definition carry_flag : vmcs_flag := VmcsFlag reg "carry_flag" (Flag 0x0000000000000001 0).
Definition parity_flag : vmcs_flag := VmcsFlag reg "parity_flag" (Flag 0x0000000000000004 2).
Definition auxiliary_carry_flag : vmcs_flag := VmcsFlag reg "auxiliary_carry_flag" (Flag 0x0000000000000010 4).
Definition zero_flag : vmcs_flag := VmcsFlag reg "zero_flag" (Flag 0x0000000000000040 6).
Definition sign_flag : vmcs_flag := VmcsFlag reg "sign_flag" (Flag 0x0000000000000080 7).
Definition trap_flag : vmcs_flag := VmcsFlag reg "trap_flag" (Flag 0x0000000000000100 8).
Definition interrupt_enable_flag : vmcs_flag := VmcsFlag reg "interrupt_enable_flag" (Flag 0x0000000000000200 9).
Definition direction_flag : vmcs_flag := VmcsFlag reg "direction_flag" (Flag 0x0000000000000400 10).
Definition overflow_flag : vmcs_flag := VmcsFlag reg "overflow_flag" (Flag 0x0000000000000800 11).
Definition privilege_level : vmcs_field := VmcsField reg "privilege_level" (Field 0x0000000000003000 12).
Definition nested_task : vmcs_flag := VmcsFlag reg "nested_task" (Flag 0x0000000000004000 14).
Definition resume_flag : vmcs_flag := VmcsFlag reg "resume_flag" (Flag 0x0000000000010000 16).
Definition virtual_8086_mode : vmcs_flag := VmcsFlag reg "virtual_8086_mode" (Flag 0x0000000000020000 17).
Definition alignment_check_access_control : vmcs_flag := VmcsFlag reg "alignment_check_access_control" (Flag 0x0000000000040000 18).
Definition virtual_interrupt_flag : vmcs_flag := VmcsFlag reg "virtual_interrupt_flag" (Flag 0x0000000000080000 19).
Definition virtual_interrupt_pending : vmcs_flag := VmcsFlag reg "virtual_interrupt_pending" (Flag 0x0000000000100000 20).
Definition id_flag : vmcs_flag := VmcsFlag reg "id_flag" (Flag 0x0000000000200000 21).
Definition reserved : vmcs_field := VmcsField reg "reserved" (Field 0xFFFFFFFFFFC08028 0).
Definition always_disabled : vmcs_field := VmcsField reg "always_disabled" (Field 0xFFFFFFFFFFC08028 0).
Definition always_enabled : vmcs_field := VmcsField reg "always_enabled" (Field 0x0000000000000002 0).
Definition parts : list vmcs_part := [p_flag carry_flag; p_flag parity_flag; p_flag auxiliary_carry_flag; p_flag zero_flag;
   p_flag sign_flag; p_flag trap_flag; p_flag interrupt_enable_flag; p_flag direction_flag;
   p_flag overflow_flag; p_field privilege_level; p_flag nested_task; p_flag resume_flag;
   p_flag virtual_8086_mode; p_flag alignment_check_access_control;
   p_flag virtual_interrupt_flag; p_flag virtual_interrupt_pending; p_flag id_flag;
   p_field reserved; p_field always_disabled; p_field always_enabled].
End guest_rflags.

Module guest_pending_debug_exceptions.
Definition reg : vmcs_reg := VmcsReg 0x0000000000006822 "guest_pending_debug_exceptions" true (ret true).
Definition b0 : vmcs_flag := VmcsFlag reg "b0" (Flag 0x0000000000000001 0).
Definition b1 : vmcs_flag := VmcsFlag reg "b1" (Flag 0x0000000000000002 1).
Definition b2 : vmcs_flag := VmcsFlag reg "b2" (Flag 0x0000000000000004 2).
Definition b3 : vmcs_flag := VmcsFlag reg "b3" (Flag 0x0000000000000008 3).
Definition reserved : vmcs_field := VmcsField reg "reserved" (Field 0xFFFFFFFFFFFEAFF0 0).
Definition enabled_breakpoint : vmcs_flag := VmcsFlag reg "enabled_breakpoint" (Flag 0x0000000000001000 12).
Definition bs : vmcs_flag := VmcsFlag reg "bs" (Flag 0x0000000000004000 14).
Definition rtm : vmcs_flag := VmcsFlag reg "rtm" (Flag 0x0000000000010000 16).
Definition parts : list vmcs_part := [p_flag b0; p_flag b1; p_flag b2; p_flag b3; p_field reserved; p_flag enabled_breakpoint;
   p_flag bs; p_flag rtm].
End guest_pending_debug_exceptions.

Module guest_ia32_sysenter_esp.
Definition reg : vmcs_reg := VmcsReg 0x0000000000006824 "guest_ia32_sysenter_esp" true (ret true).
Definition parts : list vmcs_part := [].
End guest_ia32_sysenter_esp.

Module guest_ia32_sysenter_eip.
Definition reg : vmcs_reg := VmcsReg 0x0000000000006826 "guest_ia32_sysenter_eip" true (ret true).
Definition parts : list vmcs_part := [].
End guest_ia32_sysenter_eip.

(** The registers of this header and their parts *)
Definition guest_natural : list (vmcs_reg * list vmcs_part) :=
  [(guest_cr0.reg, guest_cr0.parts); (guest_cr3.reg, guest_cr3.parts);
   (guest_cr4.reg, guest_cr4.parts); (guest_es_base.reg, guest_es_base.parts);
   (guest_cs_base.reg, guest_cs_base.parts); (guest_ss_base.reg, guest_ss_base.parts);
   (guest_ds_base.reg, guest_ds_base.parts); (guest_fs_base.reg, guest_fs_base.parts);
   (guest_gs_base.reg, guest_gs_base.parts); (guest_ldtr_base.reg, guest_ldtr_base.parts);
   (guest_tr_base.reg, guest_tr_base.parts); (guest_gdtr_base.reg, guest_gdtr_base.parts);
   (guest_idtr_base.reg, guest_idtr_base.parts); (guest_dr7.reg, guest_dr7.parts);
   (guest_rsp.reg, guest_rsp.parts); (guest_rip.reg, guest_rip.parts);
   (guest_rflags.reg, guest_rflags.parts);
   (guest_pending_debug_exceptions.reg, guest_pending_debug_exceptions.parts);
   (guest_ia32_sysenter_esp.reg, guest_ia32_sysenter_esp.parts);
   (guest_ia32_sysenter_eip.reg, guest_ia32_sysenter_eip.parts)].
