(* ===== verification/VmcsHost.v ===== *)
(** * Host state of the VMCS

    The namespaces of the headers [vmcs/*_host_state_fields.h]. *)
From S2P Require Import Prelude Bits EptEntry Vmcs MsrFields.

(** ** 16-bit host state *)

Module host_es_selector.
Definition reg : vmcs_reg := VmcsReg 0x0000000000000C00 "host_es_selector" true (ret true).
Definition rpl : vmcs_field := VmcsField reg "rpl" (Field 0x00000003 0).
Definition ti : vmcs_flag := VmcsFlag reg "ti" (Flag 0x00000004 2).
Definition index : vmcs_field := VmcsField reg "index" (Field 0x0000FFF8 3).
Definition parts : list vmcs_part := [p_field rpl; p_flag ti; p_field index].
End host_es_selector.

Module host_cs_selector.
Definition reg : vmcs_reg := VmcsReg 0x0000000000000C02 "host_cs_selector" true (ret true).
Definition rpl : vmcs_field := VmcsField reg "rpl" (Field 0x00000003 0).
Definition ti : vmcs_flag := VmcsFlag reg "ti" (Flag 0x00000004 2).
Definition index : vmcs_field := VmcsField reg "index" (Field 0x0000FFF8 3).
Definition parts : list vmcs_part := [p_field rpl; p_flag ti; p_field index].
End host_cs_selector.

Module host_ss_selector.
Definition reg : vmcs_reg := VmcsReg 0x0000000000000C04 "host_ss_selector" true (ret true).
Definition rpl : vmcs_field := VmcsField reg "rpl" (Field 0x00000003 0).
Definition ti : vmcs_flag := VmcsFlag reg "ti" (Flag 0x00000004 2).
Definition index : vmcs_field := VmcsField reg "index" (Field 0x0000FFF8 3).
Definition parts : list vmcs_part := [p_field rpl; p_flag ti; p_field index].
End host_ss_selector.

Module host_ds_selector.
Definition reg : vmcs_reg := VmcsReg 0x0000000000000C06 "host_ds_selector" true (ret true).
Definition rpl : vmcs_field := VmcsField reg "rpl" (Field 0x00000003 0).
Definition ti : vmcs_flag := VmcsFlag reg "ti" (Flag 0x00000004 2).
Definition index : vmcs_field := VmcsField reg "index" (Field 0x0000FFF8 3).
Definition parts : list vmcs_part := [p_field rpl; p_flag ti; p_field index].
End host_ds_selector.

Module host_fs_selector.
Definition reg : vmcs_reg := VmcsReg 0x0000000000000C08 "host_fs_selector" true (ret true).
Definition rpl : vmcs_field := VmcsField reg "rpl" (Field 0x00000003 0).
Definition ti : vmcs_flag := VmcsFlag reg "ti" (Flag 0x00000004 2).
Definition index : vmcs_field := VmcsField reg "index" (Field 0x0000FFF8 3).
Definition parts : list vmcs_part := [p_field rpl; p_flag ti; p_field index].
End host_fs_selector.

Module host_gs_selector.
Definition reg : vmcs_reg := VmcsReg 0x0000000000000C0A "host_gs_selector" true (ret true).
Definition rpl : vmcs_field := VmcsField reg "rpl" (Field 0x00000003 0).
Definition ti : vmcs_flag := VmcsFlag reg "ti" (Flag 0x00000004 2).
Definition index : vmcs_field := VmcsField reg "index" (Field 0x0000FFF8 3).
Definition parts : list vmcs_part := [p_field rpl; p_flag ti; p_field index].
End host_gs_selector.

Module host_tr_selector.
Definition reg : vmcs_reg := VmcsReg 0x0000000000000C0C "host_tr_selector" true (ret true).
Definition rpl : vmcs_field := VmcsField reg "rpl" (Field 0x00000003 0).
Definition ti : vmcs_flag := VmcsFlag reg "ti" (Flag 0x00000004 2).
Definition index : vmcs_field := VmcsField reg "index" (Field 0x0000FFF8 3).
Definition parts : list vmcs_part := [p_field rpl; p_flag ti; p_field index].
End host_tr_selector.

(** The registers of this header and their parts *)
Definition host_16 : list (vmcs_reg * list vmcs_part) :=
  [(host_es_selector.reg, host_es_selector.parts);
   (host_cs_selector.reg, host_cs_selector.parts);
   (host_ss_selector.reg, host_ss_selector.parts);
   (host_ds_selector.reg, host_ds_selector.parts);
   (host_fs_selector.reg, host_fs_selector.parts);
   (host_gs_selector.reg, host_gs_selector.parts); (host_tr_selector.reg, host_tr_selector.parts)].

(** ** 32-bit host state *)

Module host_ia32_sysenter_cs.
Definition reg : vmcs_reg := VmcsReg 0x0000000000004C00 "host_ia32_sysenter_cs" true (ret true).
Definition parts : list vmcs_part := [].
End host_ia32_sysenter_cs.

(** The registers of this header and their parts *)
Definition host_32 : list (vmcs_reg * list vmcs_part) :=
  [(host_ia32_sysenter_cs.reg, host_ia32_sysenter_cs.parts)].

(** ** 64-bit host state *)

Module host_ia32_pat.
Definition reg : vmcs_reg := VmcsReg 0x0000000000002C00 "host_ia32_pat" true (is_allowed1 ia32_vmx_true_exit_ctls.load_ia32_pat).
Definition pa0 : vmcs_field := VmcsField reg "pa0" (Field 0x00000000000000FF 0).
Definition pa0_memory_type : vmcs_field := VmcsField reg "memory_type" (Field 0x0000000000000007 0).
Definition pa0_reserved : vmcs_field := VmcsField reg "reserved" (Field 0x00000000000000F8 3).
Definition pa1 : vmcs_field := VmcsField reg "pa1" (Field 0x000000000000FF00 8).
Definition pa1_memory_type : vmcs_field := VmcsField reg "memory_type" (Field 0x0000000000000700 8).
Definition pa1_reserved : vmcs_field := VmcsField reg "reserved" (Field 0x000000000000F800 11).
Definition pa2 : vmcs_field := VmcsField reg "pa2" (Field 0x0000000000FF0000 16).
Definition pa2_memory_type : vmcs_field := VmcsField reg "memory_type" (Field 0x0000000000070000 16).
Definition pa2_reserved : vmcs_field := VmcsField reg "reserved" (Field 0x0000000000F80000 19).
Definition pa3 : vmcs_field := VmcsField reg "pa3" (Field 0x00000000FF000000 24).
Definition pa3_memory_type : vmcs_field := VmcsField reg "memory_type" (Field 0x0000000007000000 24).
Definition pa3_reserved : vmcs_field := VmcsField reg "reserved" (Field 0x00000000F8000000 27).
Definition pa4 : vmcs_field := VmcsField reg "pa4" (Field 0x000000FF00000000 32).
Definition pa4_memory_type : vmcs_field := VmcsField reg "memory_type" (Field 0x0000000700000000 32).
Definition pa4_reserved : vmcs_field := VmcsField reg "reserved" (Field 0x000000F800000000 35).
Definition pa5 : vmcs_field := VmcsField reg "pa5" (Field 0x0000FF0000000000 40).
Definition pa5_memory_type : vmcs_field := VmcsField reg "memory_type" (Field 0x0000070000000000 40).
Definition pa5_reserved : vmcs_field := VmcsField reg "reserved" (Field 0x0000F80000000000 43).
Definition pa6 : vmcs_field := VmcsField reg "pa6" (Field 0x00FF000000000000 48).
Definition pa6_memory_type : vmcs_field := VmcsField reg "memory_type" (Field 0x0007000000000000 48).
Definition pa6_reserved : vmcs_field := VmcsField reg "reserved" (Field 0x00F8000000000000 51).
Definition pa7 : vmcs_field := VmcsField reg "pa7" (Field 0xFF00000000000000 56).
Definition pa7_memory_type : vmcs_field := VmcsField reg "memory_type" (Field 0x0700000000000000 56).
Definition pa7_reserved : vmcs_field := VmcsField reg "reserved" (Field 0xF800000000000000 59).
Definition parts : list vmcs_part := [p_field pa0; p_field pa1; p_field pa2; p_field pa3; p_field pa4; p_field pa5; p_field pa6;
   p_field pa7].
Definition sub_parts : list vmcs_part := [p_field pa0_memory_type; p_field pa0_reserved; p_field pa1_memory_type; p_field pa1_reserved;
   p_field pa2_memory_type; p_field pa2_reserved; p_field pa3_memory_type; p_field pa3_reserved;
   p_field pa4_memory_type; p_field pa4_reserved; p_field pa5_memory_type; p_field pa5_reserved;
   p_field pa6_memory_type; p_field pa6_reserved; p_field pa7_memory_type; p_field pa7_reserved].
End host_ia32_pat.

Module host_ia32_efer.
Definition reg : vmcs_reg := VmcsReg 0x0000000000002C02 "host_ia32_efer" true (is_allowed1 ia32_vmx_true_exit_ctls.load_ia32_efer).
Definition sce : vmcs_flag := VmcsFlag reg "sce" (Flag 0x0000000000000001 0).
Definition lme : vmcs_flag := VmcsFlag reg "lme" (Flag 0x0000000000000100 8).
Definition lma : vmcs_flag := VmcsFlag reg "lma" (Flag 0x0000000000000400 10).
Definition nxe : vmcs_flag := VmcsFlag reg "nxe" (Flag 0x0000000000000800 11).
Definition reserved : vmcs_field := VmcsField reg "reserved" (Field 0xFFFFFFFFFFFFF2FE 0).
Definition parts : list vmcs_part := [p_flag sce; p_flag lme; p_flag lma; p_flag nxe; p_field reserved].
End host_ia32_efer.

Module host_ia32_perf_global_ctrl.
Definition reg : vmcs_reg := VmcsReg 0x0000000000002C04 "host_ia32_perf_global_ctrl" true (is_allowed1 ia32_vmx_true_exit_ctls.load_ia32_perf_global_ctrl).
Definition reserved : vmcs_field := VmcsField reg "reserved" (Field 0xFFFFFFF8FFFFFFFC 0).
Definition parts : list vmcs_part := [p_field reserved].
End host_ia32_perf_global_ctrl.

(** The registers of this header and their parts *)
Definition host_64 : list (vmcs_reg * list vmcs_part) :=
  [(host_ia32_pat.reg, host_ia32_pat.parts); (host_ia32_pat.reg, host_ia32_pat.sub_parts);
   (host_ia32_efer.reg, host_ia32_efer.parts);
   (host_ia32_perf_global_ctrl.reg, host_ia32_perf_global_ctrl.parts)].

(** ** Natural-width host state *)

Module host_cr0.
Definition reg : vmcs_reg := VmcsReg 0x0000000000006C00 "host_cr0" true (ret true).
Definition protection_enable : vmcs_flag := VmcsFlag reg "protection_enable" (Flag 0x0000000000000001 0).
Definition monitor_coprocessor : vmcs_flag := VmcsFlag reg "monitor_coprocessor" (Flag 0x0000000000000002 1).
Definition emulation : vmcs_flag := VmcsFlag reg "emulation" (Flag 0x0000000000000004 2).
Definition task_switched : vmcs_flag := VmcsFlag reg "task_switched" (Flag 0x0000000000000008 3).
Definition extension_type : vmcs_flag := VmcsFlag reg "extension_type" (Flag 0x0000000000000010 4).
Definition numeric_error : vmcs_flag := VmcsFlag reg "numeric_error" (Flag 0x0000000000000020 5).
Definition write_protect : vmcs_flag := VmcsFlag reg "write_protect" (Flag 0x0000000000010000 16).
Definition alignment_mask : vmcs_flag := VmcsFlag reg "alignment_mask" (Flag 0x0000000000040000 18).
Definition not_write_through : vmcs_flag := VmcsFlag reg "not_write_through" (Flag 0x0000000020000000 29).
Definition cache_disable : vmcs_flag := VmcsFlag reg "cache_disable" (Flag 0x0000000040000000 30).
Definition paging : vmcs_flag := VmcsFlag reg "paging" (Flag 0x0000000080000000 31).
Definition parts : list vmcs_part := [p_flag protection_enable; p_flag monitor_coprocessor; p_flag emulation; p_flag task_switched;
   p_flag extension_type; p_flag numeric_error; p_flag write_protect; p_flag alignment_mask;
   p_flag not_write_through; p_flag cache_disable; p_flag paging].
End host_cr0.

Module host_cr3.
Definition reg : vmcs_reg := VmcsReg 0x0000000000006C02 "host_cr3" true (ret true).
Definition parts : list vmcs_part := [].
End host_cr3.

Module host_cr4.
Definition reg : vmcs_reg := VmcsReg 0x0000000000006C04 "host_cr4" true (ret true).
Definition v8086_mode_extensions : vmcs_flag := VmcsFlag reg "v8086_mode_extensions" (Flag 0x0000000000000001 0).
Definition protected_mode_virtual_interrupts : vmcs_flag := VmcsFlag reg "protected_mode_virtual_interrupts" (Flag 0x0000000000000002 1).
Definition time_stamp_disable : vmcs_flag := VmcsFlag reg "time_stamp_disable" (Flag 0x0000000000000004 2).
Definition debugging_extensions : vmcs_flag := VmcsFlag reg "debugging_extensions" (Flag 0x0000000000000008 3).
Definition page_size_extensions : vmcs_flag := VmcsFlag reg "page_size_extensions" (Flag 0x0000000000000010 4).
Definition physical_address_extensions : vmcs_flag := VmcsFlag reg "physical_address_extensions" (Flag 0x0000000000000020 5).
Definition machine_check_enable : vmcs_flag := VmcsFlag reg "machine_check_enable" (Flag 0x0000000000000040 6).
Definition page_global_enable : vmcs_flag := VmcsFlag reg "page_global_enable" (Flag 0x0000000000000080 7).
Definition performance_monitor_counter_enable : vmcs_flag := VmcsFlag reg "performance_monitor_counter_enable" (Flag 0x0000000000000100 8).
Definition osfxsr : vmcs_flag := VmcsFlag reg "osfxsr" (Flag 0x0000000000000200 9).
Definition osxmmexcpt : vmcs_flag := VmcsFlag reg "osxmmexcpt" (Flag 0x0000000000000400 10).
Definition vmx_enable_bit : vmcs_flag := VmcsFlag reg "vmx_enable_bit" (Flag 0x0000000000002000 13).
Definition smx_enable_bit : vmcs_flag := VmcsFlag reg "smx_enable_bit" (Flag 0x0000000000004000 14).
Definition fsgsbase_enable_bit : vmcs_flag := VmcsFlag reg "fsgsbase_enable_bit" (Flag 0x0000000000010000 16).
Definition pcid_enable_bit : vmcs_flag := VmcsFlag reg "pcid_enable_bit" (Flag 0x0000000000020000 17).
Definition osxsave : vmcs_flag := VmcsFlag reg "osxsave" (Flag 0x0000000000040000 18).
Definition smep_enable_bit : vmcs_flag := VmcsFlag reg "smep_enable_bit" (Flag 0x0000000000100000 20).
Definition smap_enable_bit : vmcs_flag := VmcsFlag reg "smap_enable_bit" (Flag 0x0000000000200000 21).
Definition protection_key_enable_bit : vmcs_flag := VmcsFlag reg "protection_key_enable_bit" (Flag 0x0000000000400000 22).
Definition parts : list vmcs_part := [p_flag v8086_mode_extensions; p_flag protected_mode_virtual_interrupts;
   p_flag time_stamp_disable; p_flag debugging_extensions; p_flag page_size_extensions;
   p_flag physical_address_extensions; p_flag machine_check_enable; p_flag page_global_enable;
   p_flag performance_monitor_counter_enable; p_flag osfxsr; p_flag osxmmexcpt;
   p_flag vmx_enable_bit; p_flag smx_enable_bit; p_flag fsgsbase_enable_bit;
   p_flag pcid_enable_bit; p_flag osxsave; p_flag smep_enable_bit; p_flag smap_enable_bit;
   p_flag protection_key_enable_bit].
End host_cr4.

Module host_fs_base.
Definition reg : vmcs_reg := VmcsReg 0x0000000000006C06 "host_fs_base" true (ret true).
Definition parts : list vmcs_part := [].
End host_fs_base.

Module host_gs_base.
Definition reg : vmcs_reg := VmcsReg 0x0000000000006C08 "host_gs_base" true (ret true).
Definition parts : list vmcs_part := [].
End host_gs_base.

Module host_tr_base.
Definition reg : vmcs_reg := VmcsReg 0x0000000000006C0A "host_tr_base" true (ret true).
Definition parts : list vmcs_part := [].
End host_tr_base.

Module host_gdtr_base.
Definition reg : vmcs_reg := VmcsReg 0x0000000000006C0C "host_gdtr_base" true (ret true).
Definition parts : list vmcs_part := [].
End host_gdtr_base.

Module host_idtr_base.
Definition reg : vmcs_reg := VmcsReg 0x0000000000006C0E "host_idtr_base" true (ret true).
Definition parts : list vmcs_part := [].
End host_idtr_base.

Module host_ia32_sysenter_esp.
Definition reg : vmcs_reg := VmcsReg 0x0000000000006C10 "host_ia32_sysenter_esp" true (ret true).
Definition parts : list vmcs_part := [].
End host_ia32_sysenter_esp.

Module host_ia32_sysenter_eip.
Definition reg : vmcs_reg := VmcsReg 0x0000000000006C12 "host_ia32_sysenter_eip" true (ret true).
Definition parts : list vmcs_part := [].
End host_ia32_sysenter_eip.

Module host_rsp.
Definition reg : vmcs_reg := VmcsReg 0x0000000000006C14 "host_rsp" true (ret true).
Definition parts : list vmcs_part := [].
End host_rsp.

Module host_rip.
Definition reg : vmcs_reg := VmcsReg 0x0000000000006C16 "host_rip" true (ret true).
Definition parts : list vmcs_part := [].
End host_rip.

(** The registers of this header and their parts *)
Definition host_natural : list (vmcs_reg * list vmcs_part) :=
  [(host_cr0.reg, host_cr0.parts); (host_cr3.reg, host_cr3.parts);
   (host_cr4.reg, host_cr4.parts); (host_fs_base.reg, host_fs_base.parts);
   (host_gs_base.reg, host_gs_base.parts); (host_tr_base.reg, host_tr_base.parts);
   (host_gdtr_base.reg, host_gdtr_base.parts); (host_idtr_base.reg, host_idtr_base.parts);
   (host_ia32_sysenter_esp.reg, host_ia32_sysenter_esp.parts);
   (host_ia32_sysenter_eip.reg, host_ia32_sysenter_eip.parts); (host_rsp.reg, host_rsp.parts);
   (host_rip.reg, host_rip.parts)].
