(* ===== verification/VmcsExit.v ===== *)
(** * Exit information of the VMCS

    The namespaces of the headers [vmcs/*_read_only_data_fields.h].  What the
    exit qualification and the instruction information mean depends on the reason
    of the exit: the parts that belong to one reason are a module of their own. *)
From S2P Require Import Prelude Bits EptEntry Vmcs MsrFields.

(** ** 32-bit read-only data *)

Module vm_instruction_error.
Definition reg : vmcs_reg := VmcsReg 0x0000000000004400 "vm_instruction_error" false (ret true).
Definition parts : list vmcs_part := [].
End vm_instruction_error.

Module exit_reason.
Definition reg : vmcs_reg := VmcsReg 0x0000000000004402 "exit_reason" false (ret true).
Definition basic_exit_reason : vmcs_field := VmcsField reg "basic_exit_reason" (Field 0x000000000000FFFF 0).
Definition basic_exit_reason_exception_or_non_maskable_interrupt : Z := 0.
Definition basic_exit_reason_external_interrupt : Z := 1.
Definition basic_exit_reason_triple_fault : Z := 2.
Definition basic_exit_reason_init_signal : Z := 3.
Definition basic_exit_reason_sipi : Z := 4.
Definition basic_exit_reason_smi : Z := 5.
Definition basic_exit_reason_other_smi : Z := 6.
Definition basic_exit_reason_interrupt_window : Z := 7.
Definition basic_exit_reason_nmi_window : Z := 8.
Definition basic_exit_reason_task_switch : Z := 9.
Definition basic_exit_reason_cpuid : Z := 10.
Definition basic_exit_reason_getsec : Z := 11.
Definition basic_exit_reason_hlt : Z := 12.
Definition basic_exit_reason_invd : Z := 13.
Definition basic_exit_reason_invlpg : Z := 14.
Definition basic_exit_reason_rdpmc : Z := 15.
Definition basic_exit_reason_rdtsc : Z := 16.
Definition basic_exit_reason_rsm : Z := 17.
Definition basic_exit_reason_vmcall : Z := 18.
Definition basic_exit_reason_vmclear : Z := 19.
Definition basic_exit_reason_vmlaunch : Z := 20.
Definition basic_exit_reason_vmptrld : Z := 21.
Definition basic_exit_reason_vmptrst : Z := 22.
Definition basic_exit_reason_vmread : Z := 23.
Definition basic_exit_reason_vmresume : Z := 24.
Definition basic_exit_reason_vmwrite : Z := 25.
Definition basic_exit_reason_vmxoff : Z := 26.
Definition basic_exit_reason_vmxon : Z := 27.
Definition basic_exit_reason_control_register_accesses : Z := 28.
Definition basic_exit_reason_mov_dr : Z := 29.
Definition basic_exit_reason_io_instruction : Z := 30.
Definition basic_exit_reason_rdmsr : Z := 31.
Definition basic_exit_reason_wrmsr : Z := 32.
Definition basic_exit_reason_vm_entry_failure_invalid_guest_state : Z := 33.
Definition basic_exit_reason_vm_entry_failure_msr_loading : Z := 34.
Definition basic_exit_reason_mwait : Z := 36.
Definition basic_exit_reason_monitor_trap_flag : Z := 37.
Definition basic_exit_reason_monitor : Z := 39.
Definition basic_exit_reason_pause : Z := 40.
Definition basic_exit_reason_vm_entry_failure_machine_check_event : Z := 41.
Definition basic_exit_reason_tpr_below_threshold : Z := 43.
Definition basic_exit_reason_apic_access : Z := 44.
Definition basic_exit_reason_virtualized_eoi : Z := 45.
Definition basic_exit_reason_access_to_gdtr_or_idtr : Z := 46.
Definition basic_exit_reason_access_to_ldtr_or_tr : Z := 47.
Definition basic_exit_reason_ept_violation : Z := 48.
Definition basic_exit_reason_ept_misconfiguration : Z := 49.
Definition basic_exit_reason_invept : Z := 50.
Definition basic_exit_reason_rdtscp : Z := 51.
Definition basic_exit_reason_vmx_preemption_timer_expired : Z := 52.
Definition basic_exit_reason_invvpid : Z := 53.
Definition basic_exit_reason_wbinvd : Z := 54.
Definition basic_exit_reason_xsetbv : Z := 55.
Definition basic_exit_reason_apic_write : Z := 56.
Definition basic_exit_reason_rdrand : Z := 57.
Definition basic_exit_reason_invpcid : Z := 58.
Definition basic_exit_reason_vmfunc : Z := 59.
Definition basic_exit_reason_encls : Z := 60.
Definition basic_exit_reason_rdseed : Z := 61.
Definition basic_exit_reason_xsaves : Z := 63.
Definition basic_exit_reason_xrstors : Z := 64.
Definition reserved : vmcs_field := VmcsField reg "reserved" (Field 0x0000000047FF0000 0).
Definition vm_exit_incident_to_enclave_mode : vmcs_flag := VmcsFlag reg "vm_exit_incident_to_enclave_mode" (Flag 0x0000000008000000 27).
Definition pending_mtf_vm_exit : vmcs_flag := VmcsFlag reg "pending_mtf_vm_exit" (Flag 0x0000000010000000 28).
Definition vm_exit_from_vmx_root_operation : vmcs_flag := VmcsFlag reg "vm_exit_from_vmx_root_operation" (Flag 0x0000000020000000 29).
Definition vm_entry_failure : vmcs_flag := VmcsFlag reg "vm_entry_failure" (Flag 0x0000000080000000 31).
Definition parts : list vmcs_part := [p_field basic_exit_reason; p_field reserved; p_flag vm_exit_incident_to_enclave_mode;
   p_flag pending_mtf_vm_exit; p_flag vm_exit_from_vmx_root_operation; p_flag vm_entry_failure].
End exit_reason.

Module vm_exit_interruption_information.
Definition reg : vmcs_reg := VmcsReg 0x0000000000004404 "vm_exit_interruption_information" false (ret true).
Definition vector : vmcs_field := VmcsField reg "vector" (Field 0x000000FF 0).
Definition interruption_type : vmcs_field := VmcsField reg "interruption_type" (Field 0x00000700 8).
Definition interruption_type_external_interrupt : Z := 0.
Definition interruption_type_non_maskable_interrupt : Z := 2.
Definition interruption_type_hardware_exception : Z := 3.
Definition interruption_type_software_exception : Z := 6.
Definition error_code_valid : vmcs_flag := VmcsFlag reg "deliver_error_code_bit" (Flag 0x00000800 11).
Definition nmi_unblocking_due_to_iret : vmcs_flag := VmcsFlag reg "nmi_unblocking_due_to_iret" (Flag 0x00001000 12).
Definition reserved : vmcs_field := VmcsField reg "reserved" (Field 0x7FFFE000 0).
Definition valid_bit : vmcs_flag := VmcsFlag reg "valid_bit" (Flag 0x80000000 31).
Definition parts : list vmcs_part := [p_field vector; p_field interruption_type; p_flag error_code_valid;
   p_flag nmi_unblocking_due_to_iret; p_field reserved; p_flag valid_bit].
End vm_exit_interruption_information.

Module vm_exit_interruption_error_code.
Definition reg : vmcs_reg := VmcsReg 0x0000000000004406 "vm_exit_interruption_error_code" false (ret true).
Definition parts : list vmcs_part := [].
End vm_exit_interruption_error_code.

Module idt_vectoring_information.
Definition reg : vmcs_reg := VmcsReg 0x0000000000004408 "idt_vectoring_information_field" false (ret true).
Definition vector : vmcs_field := VmcsField reg "vector" (Field 0x000000FF 0).
Definition interruption_type : vmcs_field := VmcsField reg "interruption_type" (Field 0x00000700 8).
Definition error_code_valid : vmcs_flag := VmcsFlag reg "deliver_error_code_bit" (Flag 0x00000800 11).
Definition reserved : vmcs_field := VmcsField reg "reserved" (Field 0x7FFFE000 0).
Definition valid_bit : vmcs_flag := VmcsFlag reg "valid_bit" (Flag 0x80000000 31).
Definition parts : list vmcs_part := [p_field vector; p_field interruption_type; p_flag error_code_valid; p_field reserved;
   p_flag valid_bit].
End idt_vectoring_information.

Module idt_vectoring_error_code.
Definition reg : vmcs_reg := VmcsReg 0x000000000000440A "idt_vectoring_error_code" false (ret true).
Definition parts : list vmcs_part := [].
End idt_vectoring_error_code.

Module vm_exit_instruction_length.
Definition reg : vmcs_reg := VmcsReg 0x000000000000440C "vm_exit_instruction_length" false (ret true).
Definition parts : list vmcs_part := [].
End vm_exit_instruction_length.

Module vm_exit_instruction_information.
Definition reg : vmcs_reg := VmcsReg 0x000000000000440E "vm_exit_instruction_information" false (ret true).

Module ins.
Definition address_size : vmcs_field := VmcsField reg "address_size" (Field 0x0000000000000380 7).
Definition parts : list vmcs_part := [p_field address_size].
End ins.

Module outs.
Definition address_size : vmcs_field := VmcsField reg "address_size" (Field 0x0000000000000380 7).
Definition segment_register : vmcs_field := VmcsField reg "segment_register" (Field 0x0000000000038000 15).
Definition parts : list vmcs_part := [p_field address_size; p_field segment_register].
End outs.

Module invept.
Definition scaling : vmcs_field := VmcsField reg "scaling" (Field 0x0000000000000003 0).
Definition address_size : vmcs_field := VmcsField reg "address_size" (Field 0x0000000000000380 7).
Definition segment_register : vmcs_field := VmcsField reg "segment_register" (Field 0x0000000000038000 15).
Definition index_reg : vmcs_field := VmcsField reg "index_reg" (Field 0x00000000003C0000 18).
Definition index_reg_invalid : vmcs_flag := VmcsFlag reg "index_reg_invalid" (Flag 0x0000000000400000 22).
Definition base_reg : vmcs_field := VmcsField reg "base_reg" (Field 0x0000000007800000 23).
Definition base_reg_invalid : vmcs_flag := VmcsFlag reg "base_reg_invalid" (Flag 0x0000000008000000 27).
Definition reg2 : vmcs_field := VmcsField reg "reg2" (Field 0x00000000F0000000 28).
Definition parts : list vmcs_part := [p_field scaling; p_field address_size; p_field segment_register; p_field index_reg;
   p_flag index_reg_invalid; p_field base_reg; p_flag base_reg_invalid; p_field reg2].
End invept.

Module invpcid.
Definition scaling : vmcs_field := VmcsField reg "scaling" (Field 0x0000000000000003 0).
Definition address_size : vmcs_field := VmcsField reg "address_size" (Field 0x0000000000000380 7).
Definition segment_register : vmcs_field := VmcsField reg "segment_register" (Field 0x0000000000038000 15).
Definition index_reg : vmcs_field := VmcsField reg "index_reg" (Field 0x00000000003C0000 18).
Definition index_reg_invalid : vmcs_flag := VmcsFlag reg "index_reg_invalid" (Flag 0x0000000000400000 22).
Definition base_reg : vmcs_field := VmcsField reg "base_reg" (Field 0x0000000007800000 23).
Definition base_reg_invalid : vmcs_flag := VmcsFlag reg "base_reg_invalid" (Flag 0x0000000008000000 27).
Definition reg2 : vmcs_field := VmcsField reg "reg2" (Field 0x00000000F0000000 28).
Definition parts : list vmcs_part := [p_field scaling; p_field address_size; p_field segment_register; p_field index_reg;
   p_flag index_reg_invalid; p_field base_reg; p_flag base_reg_invalid; p_field reg2].
End invpcid.

Module invvpid.
Definition scaling : vmcs_field := VmcsField reg "scaling" (Field 0x0000000000000003 0).
Definition address_size : vmcs_field := VmcsField reg "address_size" (Field 0x0000000000000380 7).
Definition segment_register : vmcs_field := VmcsField reg "segment_register" (Field 0x0000000000038000 15).
Definition index_reg : vmcs_field := VmcsField reg "index_reg" (Field 0x00000000003C0000 18).
Definition index_reg_invalid : vmcs_flag := VmcsFlag reg "index_reg_invalid" (Flag 0x0000000000400000 22).
Definition base_reg : vmcs_field := VmcsField reg "base_reg" (Field 0x0000000007800000 23).
Definition base_reg_invalid : vmcs_flag := VmcsFlag reg "base_reg_invalid" (Flag 0x0000000008000000 27).
Definition reg2 : vmcs_field := VmcsField reg "reg2" (Field 0x00000000F0000000 28).
Definition parts : list vmcs_part := [p_field scaling; p_field address_size; p_field segment_register; p_field index_reg;
   p_flag index_reg_invalid; p_field base_reg; p_flag base_reg_invalid; p_field reg2].
End invvpid.

Module lidt.
Definition scaling : vmcs_field := VmcsField reg "scaling" (Field 0x0000000000000003 0).
Definition address_size : vmcs_field := VmcsField reg "address_size" (Field 0x0000000000000380 7).
Definition operand_size : vmcs_field := VmcsField reg "operand_size" (Field 0x0000000000000800 11).
Definition segment_register : vmcs_field := VmcsField reg "segment_register" (Field 0x0000000000038000 15).
Definition index_reg : vmcs_field := VmcsField reg "index_reg" (Field 0x00000000003C0000 18).
Definition index_reg_invalid : vmcs_flag := VmcsFlag reg "index_reg_invalid" (Flag 0x0000000000400000 22).
Definition base_reg : vmcs_field := VmcsField reg "base_reg" (Field 0x0000000007800000 23).
Definition base_reg_invalid : vmcs_flag := VmcsFlag reg "base_reg_invalid" (Flag 0x0000000008000000 27).
Definition instruction_identity : vmcs_field := VmcsField reg "instruction_identity" (Field 0x0000000030000000 28).
Definition parts : list vmcs_part := [p_field scaling; p_field address_size; p_field operand_size; p_field segment_register;
   p_field index_reg; p_flag index_reg_invalid; p_field base_reg; p_flag base_reg_invalid;
   p_field instruction_identity].
End lidt.

Module lgdt.
Definition scaling : vmcs_field := VmcsField reg "scaling" (Field 0x0000000000000003 0).
Definition address_size : vmcs_field := VmcsField reg "address_size" (Field 0x0000000000000380 7).
Definition operand_size : vmcs_field := VmcsField reg "operand_size" (Field 0x0000000000000800 11).
Definition segment_register : vmcs_field := VmcsField reg "segment_register" (Field 0x0000000000038000 15).
Definition index_reg : vmcs_field := VmcsField reg "index_reg" (Field 0x00000000003C0000 18).
Definition index_reg_invalid : vmcs_flag := VmcsFlag reg "index_reg_invalid" (Flag 0x0000000000400000 22).
Definition base_reg : vmcs_field := VmcsField reg "base_reg" (Field 0x0000000007800000 23).
Definition base_reg_invalid : vmcs_flag := VmcsFlag reg "base_reg_invalid" (Flag 0x0000000008000000 27).
Definition instruction_identity : vmcs_field := VmcsField reg "instruction_identity" (Field 0x0000000030000000 28).
Definition parts : list vmcs_part := [p_field scaling; p_field address_size; p_field operand_size; p_field segment_register;
   p_field index_reg; p_flag index_reg_invalid; p_field base_reg; p_flag base_reg_invalid;
   p_field instruction_identity].
End lgdt.

Module sidt.
Definition scaling : vmcs_field := VmcsField reg "scaling" (Field 0x0000000000000003 0).
Definition address_size : vmcs_field := VmcsField reg "address_size" (Field 0x0000000000000380 7).
Definition operand_size : vmcs_field := VmcsField reg "operand_size" (Field 0x0000000000000800 11).
Definition segment_register : vmcs_field := VmcsField reg "segment_register" (Field 0x0000000000038000 15).
Definition index_reg : vmcs_field := VmcsField reg "index_reg" (Field 0x00000000003C0000 18).
Definition index_reg_invalid : vmcs_flag := VmcsFlag reg "index_reg_invalid" (Flag 0x0000000000400000 22).
Definition base_reg : vmcs_field := VmcsField reg "base_reg" (Field 0x0000000007800000 23).
Definition base_reg_invalid : vmcs_flag := VmcsFlag reg "base_reg_invalid" (Flag 0x0000000008000000 27).
Definition instruction_identity : vmcs_field := VmcsField reg "instruction_identity" (Field 0x0000000030000000 28).
Definition parts : list vmcs_part := [p_field scaling; p_field address_size; p_field operand_size; p_field segment_register;
   p_field index_reg; p_flag index_reg_invalid; p_field base_reg; p_flag base_reg_invalid;
   p_field instruction_identity].
End sidt.

Module sgdt.
Definition scaling : vmcs_field := VmcsField reg "scaling" (Field 0x0000000000000003 0).
Definition address_size : vmcs_field := VmcsField reg "address_size" (Field 0x0000000000000380 7).
Definition operand_size : vmcs_field := VmcsField reg "operand_size" (Field 0x0000000000000800 11).
Definition segment_register : vmcs_field := VmcsField reg "segment_register" (Field 0x0000000000038000 15).
Definition index_reg : vmcs_field := VmcsField reg "index_reg" (Field 0x00000000003C0000 18).
Definition index_reg_invalid : vmcs_flag := VmcsFlag reg "index_reg_invalid" (Flag 0x0000000000400000 22).
Definition base_reg : vmcs_field := VmcsField reg "base_reg" (Field 0x0000000007800000 23).
Definition base_reg_invalid : vmcs_flag := VmcsFlag reg "base_reg_invalid" (Flag 0x0000000008000000 27).
Definition instruction_identity : vmcs_field := VmcsField reg "instruction_identity" (Field 0x0000000030000000 28).
Definition parts : list vmcs_part := [p_field scaling; p_field address_size; p_field operand_size; p_field segment_register;
   p_field index_reg; p_flag index_reg_invalid; p_field base_reg; p_flag base_reg_invalid;
   p_field instruction_identity].
End sgdt.

Module lldt.
Definition scaling : vmcs_field := VmcsField reg "scaling" (Field 0x0000000000000003 0).
Definition reg1 : vmcs_field := VmcsField reg "reg1" (Field 0x0000000000000078 3).
Definition address_size : vmcs_field := VmcsField reg "address_size" (Field 0x0000000000000380 7).
Definition mem_reg : vmcs_field := VmcsField reg "mem/reg" (Field 0x0000000000000400 10).
Definition segment_register : vmcs_field := VmcsField reg "segment_register" (Field 0x0000000000038000 15).
Definition index_reg : vmcs_field := VmcsField reg "index_reg" (Field 0x00000000003C0000 18).
Definition index_reg_invalid : vmcs_flag := VmcsFlag reg "index_reg_invalid" (Flag 0x0000000000400000 22).
Definition base_reg : vmcs_field := VmcsField reg "base_reg" (Field 0x0000000007800000 23).
Definition base_reg_invalid : vmcs_flag := VmcsFlag reg "base_reg_invalid" (Flag 0x0000000008000000 27).
Definition instruction_identity : vmcs_field := VmcsField reg "instruction_identity" (Field 0x0000000030000000 28).
Definition parts : list vmcs_part := [p_field scaling; p_field reg1; p_field address_size; p_field mem_reg;
   p_field segment_register; p_field index_reg; p_flag index_reg_invalid; p_field base_reg;
   p_flag base_reg_invalid; p_field instruction_identity].
End lldt.

Module ltr.
Definition scaling : vmcs_field := VmcsField reg "scaling" (Field 0x0000000000000003 0).
Definition reg1 : vmcs_field := VmcsField reg "reg1" (Field 0x0000000000000078 3).
Definition address_size : vmcs_field := VmcsField reg "address_size" (Field 0x0000000000000380 7).
Definition mem_reg : vmcs_field := VmcsField reg "mem/reg" (Field 0x0000000000000400 10).
Definition segment_register : vmcs_field := VmcsField reg "segment_register" (Field 0x0000000000038000 15).
Definition index_reg : vmcs_field := VmcsField reg "index_reg" (Field 0x00000000003C0000 18).
Definition index_reg_invalid : vmcs_flag := VmcsFlag reg "index_reg_invalid" (Flag 0x0000000000400000 22).
Definition base_reg : vmcs_field := VmcsField reg "base_reg" (Field 0x0000000007800000 23).
Definition base_reg_invalid : vmcs_flag := VmcsFlag reg "base_reg_invalid" (Flag 0x0000000008000000 27).
Definition instruction_identity : vmcs_field := VmcsField reg "instruction_identity" (Field 0x0000000030000000 28).
Definition parts : list vmcs_part := [p_field scaling; p_field reg1; p_field address_size; p_field mem_reg;
   p_field segment_register; p_field index_reg; p_flag index_reg_invalid; p_field base_reg;
   p_flag base_reg_invalid; p_field instruction_identity].
End ltr.

Module sldt.
Definition scaling : vmcs_field := VmcsField reg "scaling" (Field 0x0000000000000003 0).
Definition reg1 : vmcs_field := VmcsField reg "reg1" (Field 0x0000000000000078 3).
Definition address_size : vmcs_field := VmcsField reg "address_size" (Field 0x0000000000000380 7).
Definition mem_reg : vmcs_field := VmcsField reg "mem/reg" (Field 0x0000000000000400 10).
Definition segment_register : vmcs_field := VmcsField reg "segment_register" (Field 0x0000000000038000 15).
Definition index_reg : vmcs_field := VmcsField reg "index_reg" (Field 0x00000000003C0000 18).
Definition index_reg_invalid : vmcs_flag := VmcsFlag reg "index_reg_invalid" (Flag 0x0000000000400000 22).
Definition base_reg : vmcs_field := VmcsField reg "base_reg" (Field 0x0000000007800000 23).
Definition base_reg_invalid : vmcs_flag := VmcsFlag reg "base_reg_invalid" (Flag 0x0000000008000000 27).
Definition instruction_identity : vmcs_field := VmcsField reg "instruction_identity" (Field 0x0000000030000000 28).
Definition parts : list vmcs_part := [p_field scaling; p_field reg1; p_field address_size; p_field mem_reg;
   p_field segment_register; p_field index_reg; p_flag index_reg_invalid; p_field base_reg;
   p_flag base_reg_invalid; p_field instruction_identity].
End sldt.

Module str.
Definition scaling : vmcs_field := VmcsField reg "scaling" (Field 0x0000000000000003 0).
Definition reg1 : vmcs_field := VmcsField reg "reg1" (Field 0x0000000000000078 3).
Definition address_size : vmcs_field := VmcsField reg "address_size" (Field 0x0000000000000380 7).
Definition mem_reg : vmcs_field := VmcsField reg "mem/reg" (Field 0x0000000000000400 10).
Definition segment_register : vmcs_field := VmcsField reg "segment_register" (Field 0x0000000000038000 15).
Definition index_reg : vmcs_field := VmcsField reg "index_reg" (Field 0x00000000003C0000 18).
Definition index_reg_invalid : vmcs_flag := VmcsFlag reg "index_reg_invalid" (Flag 0x0000000000400000 22).
Definition base_reg : vmcs_field := VmcsField reg "base_reg" (Field 0x0000000007800000 23).
Definition base_reg_invalid : vmcs_flag := VmcsFlag reg "base_reg_invalid" (Flag 0x0000000008000000 27).
Definition instruction_identity : vmcs_field := VmcsField reg "instruction_identity" (Field 0x0000000030000000 28).
Definition parts : list vmcs_part := [p_field scaling; p_field reg1; p_field address_size; p_field mem_reg;
   p_field segment_register; p_field index_reg; p_flag index_reg_invalid; p_field base_reg;
   p_flag base_reg_invalid; p_field instruction_identity].
End str.

Module rdrand.
Definition destination_register : vmcs_field := VmcsField reg "destination_register" (Field 0x0000000000000078 3).
Definition operand_size : vmcs_field := VmcsField reg "operand_size" (Field 0x0000000000001800 11).
Definition parts : list vmcs_part := [p_field destination_register; p_field operand_size].
End rdrand.

Module rdseed.
Definition destination_register : vmcs_field := VmcsField reg "destination_register" (Field 0x0000000000000078 3).
Definition operand_size : vmcs_field := VmcsField reg "operand_size" (Field 0x0000000000001800 11).
Definition parts : list vmcs_part := [p_field destination_register; p_field operand_size].
End rdseed.

Module vmclear.
Definition scaling : vmcs_field := VmcsField reg "scaling" (Field 0x0000000000000003 0).
Definition address_size : vmcs_field := VmcsField reg "address_size" (Field 0x0000000000000380 7).
Definition segment_register : vmcs_field := VmcsField reg "segment_register" (Field 0x0000000000038000 15).
Definition index_reg : vmcs_field := VmcsField reg "index_reg" (Field 0x00000000003C0000 18).
Definition index_reg_invalid : vmcs_flag := VmcsFlag reg "index_reg_invalid" (Flag 0x0000000000400000 22).
Definition base_reg : vmcs_field := VmcsField reg "base_reg" (Field 0x0000000007800000 23).
Definition base_reg_invalid : vmcs_flag := VmcsFlag reg "base_reg_invalid" (Flag 0x0000000008000000 27).
Definition parts : list vmcs_part := [p_field scaling; p_field address_size; p_field segment_register; p_field index_reg;
   p_flag index_reg_invalid; p_field base_reg; p_flag base_reg_invalid].
End vmclear.

Module vmptrld.
Definition scaling : vmcs_field := VmcsField reg "scaling" (Field 0x0000000000000003 0).
Definition address_size : vmcs_field := VmcsField reg "address_size" (Field 0x0000000000000380 7).
Definition segment_register : vmcs_field := VmcsField reg "segment_register" (Field 0x0000000000038000 15).
Definition index_reg : vmcs_field := VmcsField reg "index_reg" (Field 0x00000000003C0000 18).
Definition index_reg_invalid : vmcs_flag := VmcsFlag reg "index_reg_invalid" (Flag 0x0000000000400000 22).
Definition base_reg : vmcs_field := VmcsField reg "base_reg" (Field 0x0000000007800000 23).
Definition base_reg_invalid : vmcs_flag := VmcsFlag reg "base_reg_invalid" (Flag 0x0000000008000000 27).
Definition parts : list vmcs_part := [p_field scaling; p_field address_size; p_field segment_register; p_field index_reg;
   p_flag index_reg_invalid; p_field base_reg; p_flag base_reg_invalid].
End vmptrld.

Module vmptrst.
Definition scaling : vmcs_field := VmcsField reg "scaling" (Field 0x0000000000000003 0).
Definition address_size : vmcs_field := VmcsField reg "address_size" (Field 0x0000000000000380 7).
Definition segment_register : vmcs_field := VmcsField reg "segment_register" (Field 0x0000000000038000 15).
Definition index_reg : vmcs_field := VmcsField reg "index_reg" (Field 0x00000000003C0000 18).
Definition index_reg_invalid : vmcs_flag := VmcsFlag reg "index_reg_invalid" (Flag 0x0000000000400000 22).
Definition base_reg : vmcs_field := VmcsField reg "base_reg" (Field 0x0000000007800000 23).
Definition base_reg_invalid : vmcs_flag := VmcsFlag reg "base_reg_invalid" (Flag 0x0000000008000000 27).
Definition parts : list vmcs_part := [p_field scaling; p_field address_size; p_field segment_register; p_field index_reg;
   p_flag index_reg_invalid; p_field base_reg; p_flag base_reg_invalid].
End vmptrst.

Module vmxon.
Definition scaling : vmcs_field := VmcsField reg "scaling" (Field 0x0000000000000003 0).
Definition address_size : vmcs_field := VmcsField reg "address_size" (Field 0x0000000000000380 7).
Definition segment_register : vmcs_field := VmcsField reg "segment_register" (Field 0x0000000000038000 15).
Definition index_reg : vmcs_field := VmcsField reg "index_reg" (Field 0x00000000003C0000 18).
Definition index_reg_invalid : vmcs_flag := VmcsFlag reg "index_reg_invalid" (Flag 0x0000000000400000 22).
Definition base_reg : vmcs_field := VmcsField reg "base_reg" (Field 0x0000000007800000 23).
Definition base_reg_invalid : vmcs_flag := VmcsFlag reg "base_reg_invalid" (Flag 0x0000000008000000 27).
Definition parts : list vmcs_part := [p_field scaling; p_field address_size; p_field segment_register; p_field index_reg;
   p_flag index_reg_invalid; p_field base_reg; p_flag base_reg_invalid].
End vmxon.

Module xrstors.
Definition scaling : vmcs_field := VmcsField reg "scaling" (Field 0x0000000000000003 0).
Definition address_size : vmcs_field := VmcsField reg "address_size" (Field 0x0000000000000380 7).
Definition segment_register : vmcs_field := VmcsField reg "segment_register" (Field 0x0000000000038000 15).
Definition index_reg : vmcs_field := VmcsField reg "index_reg" (Field 0x00000000003C0000 18).
Definition index_reg_invalid : vmcs_flag := VmcsFlag reg "index_reg_invalid" (Flag 0x0000000000400000 22).
Definition base_reg : vmcs_field := VmcsField reg "base_reg" (Field 0x0000000007800000 23).
Definition base_reg_invalid : vmcs_flag := VmcsFlag reg "base_reg_invalid" (Flag 0x0000000008000000 27).
Definition parts : list vmcs_part := [p_field scaling; p_field address_size; p_field segment_register; p_field index_reg;
   p_flag index_reg_invalid; p_field base_reg; p_flag base_reg_invalid].
End xrstors.

Module xsaves.
Definition scaling : vmcs_field := VmcsField reg "scaling" (Field 0x0000000000000003 0).
Definition address_size : vmcs_field := VmcsField reg "address_size" (Field 0x0000000000000380 7).
Definition segment_register : vmcs_field := VmcsField reg "segment_register" (Field 0x0000000000038000 15).
Definition index_reg : vmcs_field := VmcsField reg "index_reg" (Field 0x00000000003C0000 18).
Definition index_reg_invalid : vmcs_flag := VmcsFlag reg "index_reg_invalid" (Flag 0x0000000000400000 22).
Definition base_reg : vmcs_field := VmcsField reg "base_reg" (Field 0x0000000007800000 23).
Definition base_reg_invalid : vmcs_flag := VmcsFlag reg "base_reg_invalid" (Flag 0x0000000008000000 27).
Definition parts : list vmcs_part := [p_field scaling; p_field address_size; p_field segment_register; p_field index_reg;
   p_flag index_reg_invalid; p_field base_reg; p_flag base_reg_invalid].
End xsaves.

Module vmread.
Definition scaling : vmcs_field := VmcsField reg "scaling" (Field 0x0000000000000003 0).
Definition reg1 : vmcs_field := VmcsField reg "reg1" (Field 0x0000000000000078 3).
Definition address_size : vmcs_field := VmcsField reg "address_size" (Field 0x0000000000000380 7).
Definition mem_reg : vmcs_field := VmcsField reg "mem/reg" (Field 0x0000000000000400 10).
Definition segment_register : vmcs_field := VmcsField reg "segment_register" (Field 0x0000000000038000 15).
Definition index_reg : vmcs_field := VmcsField reg "index_reg" (Field 0x00000000003C0000 18).
Definition index_reg_invalid : vmcs_flag := VmcsFlag reg "index_reg_invalid" (Flag 0x0000000000400000 22).
Definition base_reg : vmcs_field := VmcsField reg "base_reg" (Field 0x0000000007800000 23).
Definition base_reg_invalid : vmcs_flag := VmcsFlag reg "base_reg_invalid" (Flag 0x0000000008000000 27).
Definition reg2 : vmcs_field := VmcsField reg "reg2" (Field 0x00000000F0000000 28).
Definition parts : list vmcs_part := [p_field scaling; p_field reg1; p_field address_size; p_field mem_reg;
   p_field segment_register; p_field index_reg; p_flag index_reg_invalid; p_field base_reg;
   p_flag base_reg_invalid; p_field reg2].
End vmread.

Module vmwrite.
Definition scaling : vmcs_field := VmcsField reg "scaling" (Field 0x0000000000000003 0).
Definition reg1 : vmcs_field := VmcsField reg "reg1" (Field 0x0000000000000078 3).
Definition address_size : vmcs_field := VmcsField reg "address_size" (Field 0x0000000000000380 7).
Definition mem_reg : vmcs_field := VmcsField reg "mem/reg" (Field 0x0000000000000400 10).
Definition segment_register : vmcs_field := VmcsField reg "segment_register" (Field 0x0000000000038000 15).
Definition index_reg : vmcs_field := VmcsField reg "index_reg" (Field 0x00000000003C0000 18).
Definition index_reg_invalid : vmcs_flag := VmcsFlag reg "index_reg_invalid" (Flag 0x0000000000400000 22).
Definition base_reg : vmcs_field := VmcsField reg "base_reg" (Field 0x0000000007800000 23).
Definition base_reg_invalid : vmcs_flag := VmcsFlag reg "base_reg_invalid" (Flag 0x0000000008000000 27).
Definition reg2 : vmcs_field := VmcsField reg "reg2" (Field 0x00000000F0000000 28).
Definition parts : list vmcs_part := [p_field scaling; p_field reg1; p_field address_size; p_field mem_reg;
   p_field segment_register; p_field index_reg; p_flag index_reg_invalid; p_field base_reg;
   p_flag base_reg_invalid; p_field reg2].
End vmwrite.
Definition parts : list vmcs_part := [].
End vm_exit_instruction_information.

(** The registers of this header and their parts *)
Definition exit_32 : list (vmcs_reg * list vmcs_part) :=
  [(vm_instruction_error.reg, vm_instruction_error.parts); (exit_reason.reg, exit_reason.parts);
   (vm_exit_interruption_information.reg, vm_exit_interruption_information.parts);
   (vm_exit_interruption_error_code.reg, vm_exit_interruption_error_code.parts);
   (idt_vectoring_information.reg, idt_vectoring_information.parts);
   (idt_vectoring_error_code.reg, idt_vectoring_error_code.parts);
   (vm_exit_instruction_length.reg, vm_exit_instruction_length.parts);
   (vm_exit_instruction_information.reg, vm_exit_instruction_information.parts);
   (vm_exit_instruction_information.reg, vm_exit_instruction_information.ins.parts);
   (vm_exit_instruction_information.reg, vm_exit_instruction_information.outs.parts);
   (vm_exit_instruction_information.reg, vm_exit_instruction_information.invept.parts);
   (vm_exit_instruction_information.reg, vm_exit_instruction_information.invpcid.parts);
   (vm_exit_instruction_information.reg, vm_exit_instruction_information.invvpid.parts);
   (vm_exit_instruction_information.reg, vm_exit_instruction_information.lidt.parts);
   (vm_exit_instruction_information.reg, vm_exit_instruction_information.lgdt.parts);
   (vm_exit_instruction_information.reg, vm_exit_instruction_information.sidt.parts);
   (vm_exit_instruction_information.reg, vm_exit_instruction_information.sgdt.parts);
   (vm_exit_instruction_information.reg, vm_exit_instruction_information.lldt.parts);
   (vm_exit_instruction_information.reg, vm_exit_instruction_information.ltr.parts);
   (vm_exit_instruction_information.reg, vm_exit_instruction_information.sldt.parts);
   (vm_exit_instruction_information.reg, vm_exit_instruction_information.str.parts);
   (vm_exit_instruction_information.reg, vm_exit_instruction_information.rdrand.parts);
   (vm_exit_instruction_information.reg, vm_exit_instruction_information.rdseed.parts);
   (vm_exit_instruction_information.reg, vm_exit_instruction_information.vmclear.parts);
   (vm_exit_instruction_information.reg, vm_exit_instruction_information.vmptrld.parts);
   (vm_exit_instruction_information.reg, vm_exit_instruction_information.vmptrst.parts);
   (vm_exit_instruction_information.reg, vm_exit_instruction_information.vmxon.parts);
   (vm_exit_instruction_information.reg, vm_exit_instruction_information.xrstors.parts);
   (vm_exit_instruction_information.reg, vm_exit_instruction_information.xsaves.parts);
   (vm_exit_instruction_information.reg, vm_exit_instruction_information.vmread.parts);
   (vm_exit_instruction_information.reg, vm_exit_instruction_information.vmwrite.parts)].

(** ** 64-bit read-only data *)

Module guest_physical_address.
Definition reg : vmcs_reg := VmcsReg 0x0000000000002400 "guest_physical_address" false (and_then (is_allowed1 ia32_vmx_true_procbased_ctls.activate_secondary_controls) (is_allowed1 ia32_vmx_procbased_ctls2.enable_ept)).
Definition parts : list vmcs_part := [].
End guest_physical_address.

(** The registers of this header and their parts *)
Definition exit_64 : list (vmcs_reg * list vmcs_part) :=
  [(guest_physical_address.reg, guest_physical_address.parts)].

(** ** Natural-width read-only data *)

Module exit_qualification.
Definition reg : vmcs_reg := VmcsReg 0x0000000000006400 "exit_qualification" false (ret true).

Module debug_exception.
Definition b0 : vmcs_flag := VmcsFlag reg "b0" (Flag 0x0000000000000001 0).
Definition b1 : vmcs_flag := VmcsFlag reg "b1" (Flag 0x0000000000000002 1).
Definition b2 : vmcs_flag := VmcsFlag reg "b2" (Flag 0x0000000000000004 2).
Definition b3 : vmcs_flag := VmcsFlag reg "b3" (Flag 0x0000000000000008 3).
Definition reserved : vmcs_field := VmcsField reg "reserved" (Field 0xFFFFFFFFFFFF9FF0 0).
Definition bd : vmcs_flag := VmcsFlag reg "bd" (Flag 0x0000000000002000 13).
Definition bs : vmcs_flag := VmcsFlag reg "bs" (Flag 0x0000000000004000 14).
Definition parts : list vmcs_part := [p_flag b0; p_flag b1; p_flag b2; p_flag b3; p_field reserved; p_flag bd; p_flag bs].
End debug_exception.

Module sipi.
Definition vector : vmcs_field := VmcsField reg "vector" (Field 0x00000000000000FF 0).
Definition parts : list vmcs_part := [p_field vector].
End sipi.

Module task_switch.
Definition tss_selector : vmcs_field := VmcsField reg "tss_selector" (Field 0x000000000000FFFF 0).
Definition reserved : vmcs_field := VmcsField reg "reserved" (Field 0xFFFFFFFF3FFF0000 0).
Definition source_of_task_switch_init : vmcs_field := VmcsField reg "task_switch_init_source" (Field 0x00000000C0000000 30).
Definition parts : list vmcs_part := [p_field tss_selector; p_field reserved; p_field source_of_task_switch_init].
End task_switch.

Module control_register_access.
Definition control_register_number : vmcs_field := VmcsField reg "control_register_number" (Field 0x000000000000000F 0).
Definition access_type : vmcs_field := VmcsField reg "access_type" (Field 0x0000000000000030 4).
Definition access_type_mov_to_cr : Z := 0.
Definition access_type_mov_from_cr : Z := 1.
Definition access_type_clts : Z := 2.
Definition access_type_lmsw : Z := 3.
Definition lmsw_operand_type : vmcs_field := VmcsField reg "lmsw_operand_type" (Field 0x0000000000000040 6).
Definition lmsw_operand_type_reg : Z := 0.
Definition lmsw_operand_type_mem : Z := 1.
Definition reserved : vmcs_field := VmcsField reg "reserved" (Field 0xFFFFFFFF0000F080 0).
Definition general_purpose_register : vmcs_field := VmcsField reg "general_purpose_register" (Field 0x0000000000000F00 8).
Definition general_purpose_register_rax : Z := 0.
Definition general_purpose_register_rcx : Z := 1.
Definition general_purpose_register_rdx : Z := 2.
Definition general_purpose_register_rbx : Z := 3.
Definition general_purpose_register_rsp : Z := 4.
Definition general_purpose_register_rbp : Z := 5.
Definition general_purpose_register_rsi : Z := 6.
Definition general_purpose_register_rdi : Z := 7.
Definition general_purpose_register_r8 : Z := 8.
Definition general_purpose_register_r9 : Z := 9.
Definition general_purpose_register_r10 : Z := 10.
Definition general_purpose_register_r11 : Z := 11.
Definition general_purpose_register_r12 : Z := 12.
Definition general_purpose_register_r13 : Z := 13.
Definition general_purpose_register_r14 : Z := 14.
Definition general_purpose_register_r15 : Z := 15.
Definition source_data : vmcs_field := VmcsField reg "source_data" (Field 0x00000000FFFF0000 16).
Definition parts : list vmcs_part := [p_field control_register_number; p_field access_type; p_field lmsw_operand_type;
   p_field reserved; p_field general_purpose_register; p_field source_data].
End control_register_access.

Module mov_dr.
Definition debug_register_number : vmcs_field := VmcsField reg "debug_register_number" (Field 0x0000000000000007 0).
Definition reserved : vmcs_field := VmcsField reg "reserved" (Field 0xFFFFFFFFFFFFF0E8 0).
Definition direction_of_access : vmcs_field := VmcsField reg "direction_of_access" (Field 0x0000000000000010 4).
Definition direction_of_access_to_dr : Z := 0.
Definition direction_of_access_from_dr : Z := 1.
Definition general_purpose_register : vmcs_field := VmcsField reg "general_purpose_register" (Field 0x0000000000000F00 8).
Definition general_purpose_register_rax : Z := 0.
Definition general_purpose_register_rcx : Z := 1.
Definition general_purpose_register_rdx : Z := 2.
Definition general_purpose_register_rbx : Z := 3.
Definition general_purpose_register_rsp : Z := 4.
Definition general_purpose_register_rbp : Z := 5.
Definition general_purpose_register_rsi : Z := 6.
Definition general_purpose_register_rdi : Z := 7.
Definition general_purpose_register_r8 : Z := 8.
Definition general_purpose_register_r9 : Z := 9.
Definition general_purpose_register_r10 : Z := 10.
Definition general_purpose_register_r11 : Z := 11.
Definition general_purpose_register_r12 : Z := 12.
Definition general_purpose_register_r13 : Z := 13.
Definition general_purpose_register_r14 : Z := 14.
Definition general_purpose_register_r15 : Z := 15.
Definition parts : list vmcs_part := [p_field debug_register_number; p_field reserved; p_field direction_of_access;
   p_field general_purpose_register].
End mov_dr.

Module io_instruction.
Definition size_of_access : vmcs_field := VmcsField reg "size_of_access" (Field 0x0000000000000007 0).
Definition size_of_access_one_byte : Z := 0.
Definition size_of_access_two_byte : Z := 1.
Definition size_of_access_four_byte : Z := 3.
Definition direction_of_access : vmcs_field := VmcsField reg "direction_of_access" (Field 0x0000000000000008 3).
Definition direction_of_access_out : Z := 0.
Definition direction_of_access_in : Z := 1.
Definition string_instruction : vmcs_flag := VmcsFlag reg "string_instruction" (Flag 0x0000000000000010 4).
Definition rep_prefixed : vmcs_flag := VmcsFlag reg "rep_prefixed" (Flag 0x0000000000000020 5).
Definition operand_encoding : vmcs_field := VmcsField reg "operand_encoding" (Field 0x0000000000000040 6).
Definition operand_encoding_dx : Z := 0.
Definition operand_encoding_immediate : Z := 1.
Definition reserved : vmcs_field := VmcsField reg "reserved" (Field 0xFFFFFFFF0000FF80 0).
Definition port_number : vmcs_field := VmcsField reg "port_number" (Field 0x00000000FFFF0000 16).
Definition parts : list vmcs_part := [p_field size_of_access; p_field direction_of_access; p_flag string_instruction;
   p_flag rep_prefixed; p_field operand_encoding; p_field reserved; p_field port_number].
End io_instruction.

Module linear_apic_access.
Definition offset : vmcs_field := VmcsField reg "offset" (Field 0x0000000000000FFF 0).
Definition access_type : vmcs_field := VmcsField reg "access_type" (Field 0x000000000000F000 12).
Definition reserved : vmcs_field := VmcsField reg "reserved" (Field 0xFFFFFFFFFFFF0000 0).
Definition parts : list vmcs_part := [p_field offset; p_field access_type; p_field reserved].
End linear_apic_access.

Module guest_physical_apic_access.
Definition access_type : vmcs_field := VmcsField reg "access_type" (Field 0x000000000000F000 12).
Definition reserved : vmcs_field := VmcsField reg "reserved" (Field 0xFFFFFFFFFFFF0000 0).
Definition parts : list vmcs_part := [p_field access_type; p_field reserved].
End guest_physical_apic_access.

Module ept_violation.
Definition data_read : vmcs_flag := VmcsFlag reg "data_read" (Flag 0x0000000000000001 0).
Definition data_write : vmcs_flag := VmcsFlag reg "data_write" (Flag 0x0000000000000002 1).
Definition instruction_fetch : vmcs_flag := VmcsFlag reg "instruction_fetch" (Flag 0x0000000000000004 2).
Definition readable : vmcs_flag := VmcsFlag reg "readable" (Flag 0x0000000000000008 3).
Definition writeable : vmcs_flag := VmcsFlag reg "writeable" (Flag 0x0000000000000010 4).
Definition executable : vmcs_flag := VmcsFlag reg "executable" (Flag 0x0000000000000020 5).
Definition reserved : vmcs_field := VmcsField reg "reserved" (Field 0xFFFFFFFFFFFFEE40 0).
Definition valid_guest_linear_address : vmcs_flag := VmcsFlag reg "valid_guest_linear_address" (Flag 0x0000000000000080 7).
Definition nmi_unblocking_due_to_iret : vmcs_flag := VmcsFlag reg "nmi_unblocking_due_to_iret" (Flag 0x0000000000001000 12).
Definition parts : list vmcs_part := [p_flag data_read; p_flag data_write; p_flag instruction_fetch; p_flag readable;
   p_flag writeable; p_flag executable; p_field reserved; p_flag valid_guest_linear_address;
   p_flag nmi_unblocking_due_to_iret].
End ept_violation.

Module eoi_virtualization.
Definition vector : vmcs_field := VmcsField reg "vector" (Field 0x00000000000000FF 0).
Definition parts : list vmcs_part := [p_field vector].
End eoi_virtualization.

Module apic_write.
Definition offset : vmcs_field := VmcsField reg "offset" (Field 0x0000000000000FFF 0).
Definition parts : list vmcs_part := [p_field offset].
End apic_write.
Definition parts : list vmcs_part := [].
End exit_qualification.

Module io_rcx.
Definition reg : vmcs_reg := VmcsReg 0x0000000000006402 "io_rcx" false (ret true).
Definition parts : list vmcs_part := [].
End io_rcx.

Module io_rsi.
Definition reg : vmcs_reg := VmcsReg 0x0000000000006404 "io_rsi" false (ret true).
Definition parts : list vmcs_part := [].
End io_rsi.

Module io_rdi.
Definition reg : vmcs_reg := VmcsReg 0x0000000000006406 "io_rdi" false (ret true).
Definition parts : list vmcs_part := [].
End io_rdi.

Module io_rip.
Definition reg : vmcs_reg := VmcsReg 0x0000000000006408 "io_rip" false (ret true).
Definition parts : list vmcs_part := [].
End io_rip.

Module guest_linear_address.
Definition reg : vmcs_reg := VmcsReg 0x000000000000640A "guest_linear_address" false (ret true).
Definition parts : list vmcs_part := [].
End guest_linear_address.

(** The registers of this header and their parts *)
Definition exit_natural : list (vmcs_reg * list vmcs_part) :=
  [(exit_qualification.reg, exit_qualification.parts);
   (exit_qualification.reg, exit_qualification.debug_exception.parts);
   (exit_qualification.reg, exit_qualification.sipi.parts);
   (exit_qualification.reg, exit_qualification.task_switch.parts);
   (exit_qualification.reg, exit_qualification.control_register_access.parts);
   (exit_qualification.reg, exit_qualification.mov_dr.parts);
   (exit_qualification.reg, exit_qualification.io_instruction.parts);
   (exit_qualification.reg, exit_qualification.linear_apic_access.parts);
   (exit_qualification.reg, exit_qualification.guest_physical_apic_access.parts);
   (exit_qualification.reg, exit_qualification.ept_violation.parts);
   (exit_qualification.reg, exit_qualification.eoi_virtualization.parts);
   (exit_qualification.reg, exit_qualification.apic_write.parts); (io_rcx.reg, io_rcx.parts);
   (io_rsi.reg, io_rsi.parts); (io_rdi.reg, io_rdi.parts); (io_rip.reg, io_rip.parts);
   (guest_linear_address.reg, guest_linear_address.parts)].
