(* ===== verification/VmcsProofs.v ===== *)
(** * What the accessors of the VMCS promise

    The encodings of the headers are those of the widths and types of the fields,
    and no two registers share one.  Setting a part of a register stores the
    value in that part, leaves the other parts and all other registers alone, and
    is refused where the register does not exist or the processor does not allow
    the value. *)
From S2P Require Import Prelude Bits EptEntry Vmcs MsrFields VmcsControl VmcsGuest VmcsHost VmcsExit.
Open Scope Z_scope.
Open Scope vmm_scope.

(** ** The table of all registers *)

(** The registers of the headers by type of the encoding ([0] control,
    [1] read-only, [2] guest, [3] host) and width ([0] 16 bits, [1] 64 bits,
    [2] 32 bits, [3] natural). *)
Definition vmcs_headers : list (Z * Z * list (vmcs_reg * list vmcs_part)) :=
  [(0, 0, control_16); (0, 1, control_64); (0, 2, control_32); (0, 3, control_natural);
   (1, 1, exit_64); (1, 2, exit_32); (1, 3, exit_natural);
   (2, 0, guest_16); (2, 1, guest_64); (2, 2, guest_32); (2, 3, guest_natural);
   (3, 0, host_16); (3, 1, host_64); (3, 2, host_32); (3, 3, host_natural)].

Definition vmcs_table : list (vmcs_reg * list vmcs_part) := mjoin (snd <$> vmcs_headers).

(** ** Parts *)

Definition part_reg (p : vmcs_part) : vmcs_reg :=
  match p with p_flag f => vf_reg f | p_field f => vl_reg f | p_control f => vf_reg (vc_flag f) end.
Definition part_name (p : vmcs_part) : string :=
  match p with p_flag f => vf_name f | p_field f => vl_name f | p_control f => vf_name (vc_flag f) end.
Definition part_mask (p : vmcs_part) : Z :=
  match p with p_flag f => flag_mask (vf f) | p_field f => field_mask (vl f) | p_control f => flag_mask (vf (vc_flag f)) end.
Definition part_from (p : vmcs_part) : Z :=
  match p with p_flag f => flag_from (vf f) | p_field f => field_from (vl f) | p_control f => flag_from (vf (vc_flag f)) end.
Definition is_field (p : vmcs_part) : bool := match p with p_field _ => true | _ => false end.

(** The masks that no bit of the part is shifted out of, and for flags the one
    bit the shift names, inside the register. *)
Definition part_ok (r : vmcs_reg) (p : vmcs_part) : bool :=
  (v_addr (part_reg p) =? v_addr r) && (0 <=? part_from p) && (part_from p <? width_of (v_addr r)) &&
  (0 <=? part_mask p) && (part_mask p <? 2 ^ 64) &&
  (if is_field p then Z.land (part_mask p) (Z.ones (part_from p)) =? 0 else part_mask p =? 2 ^ part_from p).

Definition reg_ok (t w : Z) (r : vmcs_reg) : bool :=
  (type_bits (v_addr r) =? t) && (width_bits (v_addr r) =? w) && eqb (v_settable r) (negb (t =? 1)).

Definition clash (p q : vmcs_part) : bool := negb (Z.land (part_mask p) (part_mask q) =? 0).

Fixpoint clashes (ps : list vmcs_part) : list (string * string) :=
  match ps with
  | [] => []
  | p :: ps' => ((fun q => (part_name p, part_name q)) <$> filter (fun q => clash p q = true) ps') ++ clashes ps'
  end.

Section Proofs.
Context `{Processor}.

Definition part_get (p : vmcs_part) : M cpu Z :=
  match p with
  | p_flag f => b <- flag_is_enabled f ;; ret (Z.b2z b)
  | p_field f => bits_get f
  | p_control f => b <- control_is_enabled f ;; ret (Z.b2z b)
  end.

Definition part_set (p : vmcs_part) (v : Z) : M cpu unit :=
  match p with
  | p_flag f => flag_set f (negb (v =? 0))
  | p_field f => bits_set f v
  | p_control f => control_set f (negb (v =? 0))
  end.

(** What the processor says of setting a control to 0 or 1 *)
Definition part_allowed (p : vmcs_part) (v : Z) : M cpu bool :=
  match p with
  | p_control f => if v =? 0 then is_allowed0 (vc_allowed f) else is_allowed1 (vc_allowed f)
  | _ => ret true
  end.

(** The bits of a value that a part can hold *)
Definition part_holds (p : vmcs_part) (v : Z) : Z :=
  if is_field p then
    Z.shiftr (Z.land (Z.land (shl64 v (part_from p)) (part_mask p)) (Z.ones (width_of (v_addr (part_reg p))))) (part_from p)
  else Z.b2z (negb (v =? 0)).

(** Every field of the current VMCS holds as many bits as its encoding says. *)
Definition vmcs_wf (c : cpu) : Prop :=
  forall a v, vmcs_fields c !! a = Some v -> 0 <= v < 2 ^ width_of a.

Definition part_wf (p : vmcs_part) : Prop := part_ok (part_reg p) p = true.

Lemma width_of_cases a : width_of a = 16 \/ width_of a = 32 \/ width_of a = 64.
Proof. unfold width_of. repeat case_match; auto. Qed.

Lemma vmcs_wf_u64 c a v : vmcs_wf c -> vmcs_fields c !! a = Some v -> u64 v.
Proof.
  intros Hwf Hv. apply Hwf in Hv. unfold u64. destruct (width_of_cases a) as [E|[E|E]]; rewrite E in Hv; lia.
Qed.

Lemma vmcs_wf_insert c a v : vmcs_wf c -> vmcs_wf (set_vmcs (<[a := v mod 2 ^ width_of a]>) c).
Proof.
  intros Hwf b x. simpl. intros [[<- <-]|[? ?]]%lookup_insert_Some; [|eauto].
  apply Z.mod_pos_bound. destruct (width_of_cases a) as [->|[->| ->]]; lia.
Qed.

(** ** [exists] only reads the capabilities *)

Definition msr_only (m : M cpu bool) : Prop := forall c c', msrs c = msrs c' ->
  match m c, m c' with
  | Ok b s, Ok b' s' => b = b' /\ s = c /\ s' = c'
  | Err e s, Err e' s' => e = e' /\ s = c /\ s' = c'
  | _, _ => False
  end.

Lemma msr_only_ret b : msr_only (ret b).
Proof. by intros c c' _. Qed.

Lemma msr_only_allowed1 f : msr_only (is_allowed1 f).
Proof.
  intros c c' E. unfold is_allowed1, msr_get, read_msr, bind, get, ret, throw. rewrite E.
  by destruct (msrs c' !! _).
Qed.

Lemma msr_only_and_then a b : msr_only a -> msr_only b -> msr_only (and_then a b).
Proof.
  intros Ha Hb c c' E. specialize (Ha c c' E). unfold and_then, bind.
  destruct (a c) as [x s|e s], (a c') as [x' s'|e' s']; try done.
  destruct Ha as (-> & -> & ->). destruct x'; [by apply Hb|done].
Qed.

Lemma msr_only_or_else a b : msr_only a -> msr_only b -> msr_only (or_else a b).
Proof.
  intros Ha Hb c c' E. specialize (Ha c c' E). unfold or_else, bind.
  destruct (a c) as [x s|e s], (a c') as [x' s'|e' s']; try done.
  destruct Ha as (-> & -> & ->). destruct x'; [done|by apply Hb].
Qed.

End Proofs.

#[export] Hint Resolve msr_only_ret msr_only_allowed1 msr_only_and_then msr_only_or_else : vmcs.

Lemma table_exists : Forall (fun x => msr_only (v_exists x.1)) vmcs_table.
Proof. unfold vmcs_table, vmcs_headers. simpl. repeat constructor; simpl; auto 8 with vmcs. Qed.

(** ** Layout *)

Definition header_ok (h : Z * Z * list (vmcs_reg * list vmcs_part)) : bool :=
  forallb (fun x => reg_ok h.1.1 h.1.2 x.1 && forallb (part_ok x.1) x.2) h.2.

(** Two entries of the table with one encoding are views of one register. *)
Definition table_unique : bool :=
  forallb (fun x => forallb (fun y =>
    implb (v_addr x.1 =? v_addr y.1) (String.eqb (v_name x.1) (v_name y.1))) vmcs_table) vmcs_table.

Definition all_clashes : list (string * (string * string)) :=
  mjoin ((fun x => (fun y => (v_name x.1, y)) <$> clashes x.2) <$> vmcs_table).

Lemma headers_ok : forallb header_ok vmcs_headers = true.
Proof. vm_compute. reflexivity. Qed.

Lemma table_unique_ok : table_unique = true.
Proof. vm_compute. reflexivity. Qed.

Lemma all_clashes_are : all_clashes =
  [("vm_exit_controls", ("clear_ia32_bndcfgs", "pt_conceal_vm_exits"));
   ("guest_rflags", ("reserved", "always_disabled"))]%string.
Proof. vm_compute. reflexivity. Qed.

Lemma header_of r ps : (r, ps) ∈ vmcs_table ->
  exists t w tab, (t, w, tab) ∈ vmcs_headers /\ (r, ps) ∈ tab /\ reg_ok t w r = true /\ forallb (part_ok r) ps = true.
Proof.
  unfold vmcs_table. intros (tab & Hx & ([[t w] tab'] & -> & Hh)%list_elem_of_fmap)%list_elem_of_join.
  exists t, w, tab'. split; [done|]. split; [done|]. pose proof headers_ok as Ho. rewrite forallb_forall in Ho.
  specialize (Ho _ (proj1 (list_elem_of_In _ _) Hh)). unfold header_ok in Ho. simpl in Ho. rewrite forallb_forall in Ho.
  specialize (Ho _ (proj1 (list_elem_of_In _ _) Hx)). by apply andb_true_iff in Ho.
Qed.

Lemma table_part_ok r ps p : (r, ps) ∈ vmcs_table -> p ∈ ps -> part_ok r p = true.
Proof.
  intros (? & ? & ? & _ & _ & _ & Hp)%header_of Hin. rewrite forallb_forall in Hp. by apply Hp, list_elem_of_In.
Qed.

Lemma clashes_spec ps p q : p ∈ ps -> q ∈ ps -> clash p q = true ->
  p = q \/ (part_name p, part_name q) ∈ clashes ps \/ (part_name q, part_name p) ∈ clashes ps.
Proof.
  assert (clash p q = clash q p) as Hs by (unfold clash; by rewrite Z.land_comm).
  intros Hp Hq Hc. induction ps as [|x ps IH]; [by apply elem_of_nil in Hp|]. simpl. rewrite !elem_of_app.
  apply elem_of_cons in Hp as [->|Hp], Hq as [->|Hq]; [by left| | |].
  - right; left; left. apply list_elem_of_fmap. exists q. split; [done|]. by apply list_elem_of_filter.
  - right; right; left. apply list_elem_of_fmap. exists p. split; [done|]. apply list_elem_of_filter. by rewrite <- Hs.
  - destruct (IH Hp Hq) as [?|[?|?]]; auto.
Qed.

(** ** Bits of a part *)

Definition part_value (p : vmcs_part) (x : Z) : Z := Z.shiftr (Z.land x (part_mask p)) (part_from p).

(** The register with the part replaced *)
Definition part_update (p : vmcs_part) (x v : Z) : Z :=
  if is_field p then set_bits x (part_mask p) (shl64 v (part_from p))
  else if v =? 0 then clear_bit x (part_from p) else set_bit x (part_from p).

Lemma part_ok_bounds r p : part_ok r p = true ->
  v_addr (part_reg p) = v_addr r /\ 0 <= part_from p < width_of (v_addr r) /\ u64 (part_mask p) /\
  (if is_field p then Z.land (part_mask p) (Z.ones (part_from p)) = 0 else part_mask p = 2 ^ part_from p).
Proof.
  unfold part_ok, u64. intros Hp. destruct (is_field p); split_and?; lia.
Qed.

Lemma testbit_mod2 a w i : 0 <= w -> 0 <= i -> Z.testbit (a mod 2 ^ w) i = (i <? w) && Z.testbit a i.
Proof.
  intros. destruct (Z.ltb_spec i w); [by rewrite Z.mod_pow2_bits_low|].
  rewrite Z.mod_pow2_bits_high by lia. done.
Qed.

Lemma testbit_part_update r p x v i : part_ok r p = true -> u64 x -> 0 <= i < 64 ->
  Z.testbit (part_update p x v) i =
    if Z.testbit (part_mask p) i then
      if is_field p then Z.testbit (shl64 v (part_from p)) i else negb (v =? 0)
    else Z.testbit x i.
Proof.
  intros (_ & Hf & Hm & Hp)%part_ok_bounds Hx Hi. unfold part_update.
  assert (part_from p < 64) by (destruct (width_of_cases (v_addr r)) as [|[|]]; lia).
  destruct (is_field p); [by rewrite testbit_set_bits|]. rewrite Hp, testbit_pow2 by lia.
  destruct (v =? 0); [rewrite testbit_clear_bit by (done || lia)|rewrite testbit_set_bit by lia]; simpl;
    by destruct (i =? part_from p).
Qed.

Lemma u64_part_update r p x v : part_ok r p = true -> u64 x -> u64 (part_update p x v).
Proof.
  intros (_ & _ & Hm & _)%part_ok_bounds Hx. unfold part_update.
  destruct (is_field p); [by apply u64_set_bits|]. destruct (v =? 0); [by apply u64_clear_bit|by apply u64_set_bit].
Qed.

(** The bits that are stored *)
Lemma testbit_stored r p x v j : part_ok r p = true -> u64 x -> 0 <= j ->
  Z.testbit (part_update p x v mod 2 ^ width_of (v_addr r)) j =
    (j <? width_of (v_addr r)) &&
    (if Z.testbit (part_mask p) j then
       if is_field p then Z.testbit (shl64 v (part_from p)) j else negb (v =? 0)
     else Z.testbit x j).
Proof.
  intros Hok Hx Hj. assert (width_of (v_addr r) <= 64) by (destruct (width_of_cases (v_addr r)) as [|[|]]; lia).
  rewrite testbit_mod2 by (destruct (width_of_cases (v_addr r)) as [|[|]]; lia).
  destruct (Z.ltb_spec j (width_of (v_addr r))); [|done]. simpl. apply (testbit_part_update r); [done|done|lia].
Qed.

(** Reading a part after replacing it, and after replacing another one *)
Lemma part_value_update r p x v : part_ok r p = true -> u64 x ->
  part_value p (part_update p x v mod 2 ^ width_of (v_addr r)) = part_holds p v.
Proof.
  intros Hok Hx. pose proof (part_ok_bounds r p Hok) as (Ha & Hf & Hm & Hp). unfold part_value, part_holds. rewrite Ha.
  apply Z.bits_inj'. intros i Hi. rewrite Z.shiftr_spec, Z.land_spec, (testbit_stored r) by (done || lia).
  destruct (is_field p).
  - rewrite Z.shiftr_spec, !Z.land_spec, testbit_ones by lia. destruct (Z.testbit (part_mask p) _); [|by rewrite !andb_false_r].
    rewrite !andb_true_r. apply andb_comm.
  - rewrite Hp, testbit_b2z, testbit_pow2 by lia. destruct (Z.eqb_spec i 0) as [->|]; simpl.
    + rewrite Z.eqb_refl. replace (part_from p <? _) with true by lia. by rewrite andb_true_r.
    + replace (i + part_from p =? part_from p) with false by lia. by rewrite andb_false_r.
Qed.

Lemma part_value_update_other r p q x v : part_ok r p = true -> part_ok r q = true -> u64 x ->
  x < 2 ^ width_of (v_addr r) -> clash p q = false ->
  part_value q (part_update p x v mod 2 ^ width_of (v_addr r)) = part_value q x.
Proof.
  intros Hp Hq Hx Hlt Hc. pose proof (part_ok_bounds r q Hq) as (_ & Hf & _). unfold part_value.
  apply Z.bits_inj'. intros i Hi. rewrite !Z.shiftr_spec, !Z.land_spec, (testbit_stored r) by (done || lia).
  assert (Z.testbit (part_mask p) (i + part_from q) && Z.testbit (part_mask q) (i + part_from q) = false) as Hd.
  { rewrite <- Z.land_spec. unfold clash in Hc. replace (Z.land _ _) with 0 by lia. apply Z.bits_0. }
  destruct (Z.testbit (part_mask q) _); [|by rewrite !andb_false_r]. rewrite andb_true_r in Hd. rewrite Hd, !andb_true_r.
  destruct (Z.ltb_spec (i + part_from q) (width_of (v_addr r))); [done|]. simpl. symmetry.
  rewrite <- (Z.mod_small x (2 ^ width_of (v_addr r))) by (split; [apply Hx|done]). apply Z.mod_pow2_bits_high. lia.
Qed.

Lemma part_value_flag r p x : part_ok r p = true -> is_field p = false ->
  Z.b2z (is_bit_set x (part_from p)) = part_value p x.
Proof.
  intros (_ & Hf & _ & Hp)%part_ok_bounds Hfl. rewrite Hfl in Hp. unfold part_value. rewrite Hp.
  assert (part_from p < 64) by (destruct (width_of_cases (v_addr r)) as [|[|]]; lia).
  rewrite is_bit_set_testbit by lia. apply Z.bits_inj'. intros i Hi.
  rewrite testbit_b2z, Z.shiftr_spec, Z.land_spec, testbit_pow2 by lia. destruct (Z.eqb_spec i 0) as [->|]; simpl.
  - by rewrite Z.eqb_refl, andb_true_r.
  - replace (i + part_from p =? part_from p) with false by lia. by rewrite andb_false_r.
Qed.

Section Accessors.
Context `{Processor}.

(** ** The processor *)

Lemma vm_read_ok a x c : vmcs_fields c !! a = Some x -> vm_read a c = Ok x c.
Proof. intros E. unfold vm_read. by rewrite bind_get, E. Qed.

Lemma vm_write_ok a x v c : vmcs_fields c !! a = Some x -> type_bits a <> 1 ->
  vm_write a v c = Ok tt (set_vmcs (<[a := v mod 2 ^ width_of a]>) c).
Proof. intros E Ht. unfold vm_write. rewrite bind_get, E. replace (type_bits a =? 1) with false by lia. done. Qed.

Lemma read_msr_ok a v c : msrs c !! w32 a = Some v -> read_msr a c = Ok v c.
Proof. intros E. unfold read_msr. by rewrite bind_get, E. Qed.

(** ** Parts of a register that exists *)

Lemma part_get_ok r p x c : part_ok r p = true -> v_exists (part_reg p) c = Ok true c ->
  vmcs_fields c !! v_addr (part_reg p) = Some x -> part_get p c = Ok (part_value p x) c.
Proof.
  intros Hok He Hx.
  destruct p as [f|f|f]; [|unfold part_get, bits_get; erewrite bind_ok by done; by erewrite bind_ok by (apply (vm_read_ok _ _ _ Hx))|];
    rewrite <- (part_value_flag r) by done; unfold part_get, control_is_enabled, flag_is_enabled;
    rewrite bind_assoc; erewrite bind_ok by done; rewrite bind_assoc; by erewrite bind_ok by (apply (vm_read_ok _ _ _ Hx)).
Qed.

Lemma part_set_ok p v x c : v_exists (part_reg p) c = Ok true c -> part_allowed p v c = Ok true c ->
  vmcs_fields c !! v_addr (part_reg p) = Some x -> type_bits (v_addr (part_reg p)) <> 1 ->
  part_set p v c = Ok tt (set_vmcs (<[v_addr (part_reg p) := part_update p x v mod 2 ^ width_of (v_addr (part_reg p))]>) c).
Proof.
  intros He Hal Hx Ht. pose proof (vm_read_ok _ _ _ Hx) as Hr.
  assert (forall y, vm_write (v_addr (part_reg p)) y c = Ok tt (set_vmcs (<[v_addr (part_reg p) := y mod 2 ^ width_of (v_addr (part_reg p))]>) c)) as Hw
    by (intros y; by eapply vm_write_ok).
  unfold part_update. destruct p as [f|f|f]; simpl in *.
  - unfold flag_set. destruct (v =? 0); unfold flag_enable, flag_disable; simpl; (erewrite bind_ok by done);
      unfold clear_vmcs_field_bit, set_vmcs_field_bit, get_vmcs_field, set_vmcs_field; simpl; by rewrite (bind_ok _ _ _ _ _ Hr).
  - unfold bits_set. erewrite bind_ok by done. unfold set_vmcs_field_bits, get_vmcs_field, set_vmcs_field. simpl.
    by rewrite (bind_ok _ _ _ _ _ Hr).
  - unfold control_set. destruct (v =? 0); simpl; unfold control_enable, control_disable; (erewrite bind_ok by done);
      (erewrite bind_ok by done); unfold disable_vm_control, enable_vm_control; simpl; by rewrite (bind_ok _ _ _ _ _ Hr).
Qed.

(** What is refused, and how *)
Lemma part_set_missing p v b c : v_exists (part_reg p) c = Ok false c -> part_allowed p v c = Ok b c ->
  part_set p v c = Err (logic_error ("field doesn't exist: " ++ part_name p)) c.
Proof.
  intros He Hal. destruct p as [f|f|f]; simpl in *.
  - unfold flag_set. destruct (v =? 0); unfold flag_enable, flag_disable; simpl; by erewrite bind_ok by done.
  - unfold bits_set. by erewrite bind_ok by done.
  - unfold control_set. destruct (v =? 0); simpl; unfold control_enable, control_disable; (erewrite bind_ok by done);
      by erewrite bind_ok by done.
Qed.

Lemma part_set_not_allowed p v c : v_exists (part_reg p) c = Ok true c -> part_allowed p v c = Ok false c ->
  exists what, part_set p v c = Err (logic_error what) c.
Proof.
  intros He Hal. destruct p as [f|f|f]; simpl in *; [done..|].
  unfold control_set. destruct (v =? 0); simpl; unfold control_enable, control_disable; (erewrite bind_ok by done);
    (erewrite bind_ok by done); by eexists.
Qed.

End Accessors.

Lemma table_parts : Forall (fun x => Forall (fun p => part_reg p = x.1) x.2) vmcs_table.
Proof. unfold vmcs_table, vmcs_headers. simpl. repeat constructor. Qed.

Lemma table_part_reg r ps p : (r, ps) ∈ vmcs_table -> p ∈ ps -> part_reg p = r.
Proof.
  intros Hr Hp. pose proof table_parts as Ht. rewrite Forall_forall in Ht. specialize (Ht _ (proj1 (list_elem_of_In _ _) Hr)).
  rewrite Forall_forall in Ht. by apply Ht, list_elem_of_In.
Qed.

Lemma table_exists_same r ps (c c' : cpu) b : (r, ps) ∈ vmcs_table -> msrs c = msrs c' ->
  v_exists r c = Ok b c -> v_exists r c' = Ok b c'.
Proof.
  intros Hr Hm He. pose proof table_exists as Ht. rewrite Forall_forall in Ht. specialize (Ht _ (proj1 (list_elem_of_In _ _) Hr) c c' Hm). simpl in Ht.
  rewrite He in Ht. destruct (v_exists r c'); [|done]. by destruct Ht as (-> & _ & ->).
Qed.

Lemma table_settable r ps : (r, ps) ∈ vmcs_table -> v_settable r = true -> type_bits (v_addr r) <> 1.
Proof.
  intros (t & w & tab & _ & _ & Hr & _)%header_of Hs. unfold reg_ok in Hr. rewrite Hs in Hr.
  destruct (t =? 1) eqn:E; simpl in Hr; [by rewrite !andb_false_r in Hr|]. lia.
Qed.

Lemma clash_listed r ps y : (r, ps) ∈ vmcs_table -> y ∈ clashes ps -> (v_name r, y) ∈ all_clashes.
Proof.
  intros Hr Hy. apply list_elem_of_join. exists ((fun y => (v_name r, y)) <$> clashes ps).
  split; [by apply list_elem_of_fmap_2|]. apply list_elem_of_fmap. by exists (r, ps).
Qed.

(** *** Where the parts lie *)

Definition access_rights : list string :=
  ["guest_es_access_rights"; "guest_cs_access_rights"; "guest_ss_access_rights"; "guest_ds_access_rights";
   "guest_fs_access_rights"; "guest_gs_access_rights"; "guest_ldtr_access_rights"; "guest_tr_access_rights"]%string.

Definition part_inside (r : vmcs_reg) (p : vmcs_part) : bool :=
  (part_mask p <? 2 ^ width_of (v_addr r)) ||
  bool_decide (v_name r ∈ access_rights) && String.eqb (part_name p) "reserved"%string && (part_mask p =? 0xFFFFFFFFFFFE0F00).

Lemma parts_inside : forallb (fun x => forallb (part_inside x.1) x.2) vmcs_table = true.
Proof. vm_compute. reflexivity. Qed.

Lemma table_part_inside r ps p : (r, ps) ∈ vmcs_table -> p ∈ ps ->
  0 <= part_mask p < 2 ^ width_of (v_addr r) \/
  v_name r ∈ access_rights /\ part_name p = "reserved"%string /\ part_mask p = 0xFFFFFFFFFFFE0F00.
Proof.
  intros Hr Hp. pose proof (table_part_ok r ps p Hr Hp) as (_ & _ & Hu & _)%part_ok_bounds.
  pose proof parts_inside as Ho. rewrite forallb_forall in Ho. specialize (Ho _ (proj1 (list_elem_of_In _ _) Hr)).
  simpl in Ho. rewrite forallb_forall in Ho. specialize (Ho _ (proj1 (list_elem_of_In _ _) Hp)).
  unfold part_inside in Ho. unfold u64 in Hu. apply orb_true_iff in Ho as [Ho|Ho]; [left; lia|right].
  rewrite !andb_true_iff, bool_decide_eq_true, String.eqb_eq, Z.eqb_eq in Ho. tauto.
Qed.

(** Each of the eight entries is its memory type and its reserved bits. *)
Definition pat_views (ps sub : list vmcs_part) : Prop :=
  length ps = 8%nat /\ length sub = 16%nat /\ forall i p m r, ps !! i = Some p -> sub !! (2 * i)%nat = Some m -> sub !! (2 * i + 1)%nat = Some r ->
    part_name m = "memory_type"%string /\ part_name r = "reserved"%string /\ Z.lor (part_mask m) (part_mask r) = part_mask p /\
    Z.land (part_mask m) (part_mask r) = 0.
Fixpoint pat_halves (ps sub : list vmcs_part) : bool :=
  match ps, sub with
  | [], [] => true
  | p :: ps', m :: r :: sub' => String.eqb (part_name m) "memory_type"%string && String.eqb (part_name r) "reserved"%string &&
      (Z.lor (part_mask m) (part_mask r) =? part_mask p) && (Z.land (part_mask m) (part_mask r) =? 0) && pat_halves ps' sub'
  | _, _ => false
  end.

Lemma pat_halves_spec ps : forall sub, (length ps =? 8)%nat && (length sub =? 16)%nat && pat_halves ps sub = true -> pat_views ps sub.
Proof.
  assert (forall sub, pat_halves ps sub = true -> forall i p m r, ps !! i = Some p -> sub !! (2 * i)%nat = Some m ->
    sub !! (2 * i + 1)%nat = Some r -> part_name m = "memory_type"%string /\ part_name r = "reserved"%string /\
    Z.lor (part_mask m) (part_mask r) = part_mask p /\ Z.land (part_mask m) (part_mask r) = 0) as Hh.
  { induction ps as [|p ps IH]; intros [|m [|r sub]] Hs i p' m' r' Hp Hm Hr; try done. cbn [pat_halves] in Hs.
    rewrite !andb_true_iff, !String.eqb_eq, !Z.eqb_eq in Hs. destruct Hs as [[[[? ?] ?] ?] Hs]. destruct i as [|i].
    - cbn in *. simplify_eq. done.
    - replace (2 * S i)%nat with (S (S (2 * i))) in Hm by lia. replace (2 * S i + 1)%nat with (S (S (2 * i + 1))) in Hr by lia.
      by apply (IH sub Hs i). }
  intros sub [[Hl Hl']%andb_true_iff Hs]%andb_true_iff. split_and!; [by apply Nat.eqb_eq|by apply Nat.eqb_eq|by apply Hh].
Qed.

Section Theorems.
Context `{Processor}.

(** C12: Every register of the VMCS headers has an encoding of the type and the
    width of the header it is in, and has functions that set it exactly if it is
    not one of the read-only ones.  No encoding is used for two registers.  Every
    part of a register starts inside it and has no bit outside it, except that the
    reserved bits of the eight 32-bit access rights are given bits 32 to 63 too.
    The parts of a register in one view of it are disjoint, but for two pairs: the
    control that conceals exits from the trace has the bit of the one that clears
    the bounds registers, and the reserved bits of the flags are those that are
    always disabled.  The entries of the page attribute tables have a second view,
    in which the memory type and the reserved bits together are the entry. *)
Theorem vmcs_layout :
  (forall t w tab r ps, (t, w, tab) ∈ vmcs_headers -> (r, ps) ∈ tab ->
     type_bits (v_addr r) = t /\ width_bits (v_addr r) = w /\ (v_settable r = true <-> t <> 1)) /\
  (forall r ps r' ps', (r, ps) ∈ vmcs_table -> (r', ps') ∈ vmcs_table -> v_addr r = v_addr r' -> v_name r = v_name r') /\
  (forall r ps p, (r, ps) ∈ vmcs_table -> p ∈ ps -> 0 <= part_from p < width_of (v_addr r) /\
     (0 <= part_mask p < 2 ^ width_of (v_addr r) \/
      v_name r ∈ access_rights /\ part_name p = "reserved"%string /\ part_mask p = 0xFFFFFFFFFFFE0F00)) /\
  (forall r ps p q, (r, ps) ∈ vmcs_table -> p ∈ ps -> q ∈ ps -> Z.land (part_mask p) (part_mask q) <> 0 ->
     p = q \/ (v_name r = "vm_exit_controls"%string /\ {[part_name p; part_name q]} = ({["clear_ia32_bndcfgs"; "pt_conceal_vm_exits"]} : gset string)%string) \/
     (v_name r = "guest_rflags"%string /\ {[part_name p; part_name q]} = ({["reserved"; "always_disabled"]} : gset string)%string)) /\
  pat_views guest_ia32_pat.parts guest_ia32_pat.sub_parts /\ pat_views host_ia32_pat.parts host_ia32_pat.sub_parts.
Proof.
  split; [|split; [|split; [|split]]].
  - intros t w tab r ps Hh Hr. pose proof headers_ok as Ho. rewrite forallb_forall in Ho.
    specialize (Ho _ (proj1 (list_elem_of_In _ _) Hh)). unfold header_ok in Ho. rewrite forallb_forall in Ho.
    specialize (Ho _ (proj1 (list_elem_of_In _ _) Hr)). unfold reg_ok in Ho. simpl in Ho.
    apply andb_true_iff in Ho as [Ho _]. rewrite !andb_true_iff, !Z.eqb_eq, eqb_true_iff in Ho.
    destruct Ho as [[-> ->] ->]. rewrite negb_true_iff, Z.eqb_neq. done.
  - intros r ps r' ps' Hr Hr' E. pose proof table_unique_ok as Hu. unfold table_unique in Hu.
    rewrite forallb_forall in Hu. specialize (Hu _ (proj1 (list_elem_of_In _ _) Hr)). rewrite forallb_forall in Hu.
    specialize (Hu _ (proj1 (list_elem_of_In _ _) Hr')). simpl in Hu. rewrite E, Z.eqb_refl in Hu. by apply String.eqb_eq.
  - intros r ps p Hr Hp. pose proof (table_part_ok r ps p Hr Hp) as (_ & ? & ? & _)%part_ok_bounds. split; [done|].
    by apply table_part_inside with ps.
  - intros r ps p q Hr Hp Hq Hc. destruct (clashes_spec ps p q Hp Hq) as [->|Hcl]; [unfold clash; lia|by left|right].
    assert ((v_name r, (part_name p, part_name q)) ∈ all_clashes \/ (v_name r, (part_name q, part_name p)) ∈ all_clashes) as Ha.
    { destruct Hcl; [left|right]; by eapply clash_listed. }
    rewrite all_clashes_are in Ha. set_unfold. destruct Ha as [[?|[?|[]]]|[?|[?|[]]]]; simplify_eq; naive_solver.
  - split; apply pat_halves_spec; vm_compute; reflexivity.
Qed.

(** C11: Setting a part of a register of the VMCS stores what the part can hold of
    the value: it is read back, parts of the register with other bits and all
    other registers are as before, and fields keep the width of their encoding.
    A register that does not exist, or a control that the processor does not allow
    to have the value, is refused with an exception and nothing is written. *)
Theorem vmcs_part_roundtrip r ps p v x c : (r, ps) ∈ vmcs_table -> p ∈ ps -> v_settable r = true ->
  vmcs_wf c -> vmcs_fields c !! v_addr r = Some x ->
  (v_exists r c = Ok true c -> part_allowed p v c = Ok true c ->
   exists y, let c' := set_vmcs (<[v_addr r := y]>) c in
     part_set p v c = Ok tt c' /\ vmcs_wf c' /\ part_get p c' = Ok (part_holds p v) c' /\
     forall q, q ∈ ps -> clash p q = false -> exists z, part_get q c = Ok z c /\ part_get q c' = Ok z c') /\
  (v_exists r c = Ok true c -> part_allowed p v c = Ok false c -> exists what, part_set p v c = Err (logic_error what) c) /\
  (forall b, v_exists r c = Ok false c -> part_allowed p v c = Ok b c ->
     part_set p v c = Err (logic_error ("field doesn't exist: " ++ part_name p)) c).
Proof.
  intros Hr Hp Hs Hwf Hx. pose proof (table_part_reg r ps p Hr Hp) as Epr. pose proof (table_part_ok r ps p Hr Hp) as Hok.
  pose proof (table_settable r ps Hr Hs) as Ht. rewrite <- Epr in Hx, Ht. split; [|split].
  - intros He Hal. pose proof (vmcs_wf_u64 _ _ _ Hwf Hx) as Hu. rewrite Epr in Hx, Ht.
    exists (part_update p x v mod 2 ^ width_of (v_addr r)). intros c'.
    assert (forall q y, part_ok r q = true -> part_reg q = r -> vmcs_fields c' !! v_addr r = Some y -> part_get q c' = Ok (part_value q y) c') as Hg.
    { intros q y Hq Eqr Hy. apply (part_get_ok r); rewrite ?Eqr; [done|exact (table_exists_same r ps c c' true Hr eq_refl He)|done]. }
    assert (vmcs_fields c' !! v_addr r = Some (part_update p x v mod 2 ^ width_of (v_addr r))) as Hy by apply lookup_insert_eq.
    split; [unfold c'; rewrite <- Epr; apply part_set_ok; by rewrite ?Epr|]. split; [by apply vmcs_wf_insert|]. split.
    + rewrite (Hg p _ Hok Epr Hy). by rewrite (part_value_update r).
    + intros q Hq Hc. pose proof (table_part_reg r ps q Hr Hq) as Eqr. pose proof (table_part_ok r ps q Hr Hq) as Hokq.
      exists (part_value q x). split; [apply (part_get_ok r); by rewrite ?Eqr|].
      rewrite (Hg q _ Hokq Eqr Hy). rewrite (part_value_update_other r); try done. apply Hwf in Hx. lia.
  - intros He Hal. rewrite <- Epr in He. by apply part_set_not_allowed.
  - intros b He Hal. rewrite <- Epr in He. by eapply part_set_missing.
Qed.
End Theorems.
