(* ===== verification/Crs.v ===== *)
(** * Control registers and flags

    The namespaces of [intel_x64/crs.h] and [x64/rflags.h]: the flags of the
    registers of the processor. *)
From S2P Require Import Prelude Bits EptEntry Vmcs.
Open Scope Z_scope.
Open Scope vmm_scope.

(** A flag and a field of a register of the processor *)
Record creg_flag := CregFlag { cf_reg : creg; cf_name : string; cf : flag }.
Record creg_field := CregField { cl_reg : creg; cl_name : string; cl : field }.

Definition creg_is_enabled (f : creg_flag) : M cpu bool := v <- get_creg (cf_reg f) ;; ret (is_enabled (cf f) v).
Definition creg_is_disabled (f : creg_flag) : M cpu bool := v <- get_creg (cf_reg f) ;; ret (is_bit_cleared v (flag_from (cf f))).
Definition creg_enable (f : creg_flag) : M cpu unit :=
  v <- get_creg (cf_reg f) ;; put_creg (cf_reg f) (enable (cf f) v).
Definition creg_disable (f : creg_flag) : M cpu unit :=
  v <- get_creg (cf_reg f) ;; put_creg (cf_reg f) (disable (cf f) v).

(** [enable] and [disable] of a value in [crs.h] write the register of the
    processor and leave the value they are given as it is. *)
Definition creg_enable_value (f : creg_flag) (cr : Z) : M cpu unit := put_creg (cf_reg f) (enable (cf f) cr).
Definition creg_disable_value (f : creg_flag) (cr : Z) : M cpu unit := put_creg (cf_reg f) (disable (cf f) cr).

Module cr0.
Definition reg : creg := CR0.
Definition protection_enable : creg_flag := CregFlag reg "protection_enable" (Flag 0x0000000000000001 0).
Definition monitor_coprocessor : creg_flag := CregFlag reg "monitor_coprocessor" (Flag 0x0000000000000002 1).
Definition emulation : creg_flag := CregFlag reg "emulation" (Flag 0x0000000000000004 2).
Definition task_switched : creg_flag := CregFlag reg "task_switched" (Flag 0x0000000000000008 3).
Definition extension_type : creg_flag := CregFlag reg "extension_type" (Flag 0x0000000000000010 4).
Definition numeric_error : creg_flag := CregFlag reg "numeric_error" (Flag 0x0000000000000020 5).
Definition write_protect : creg_flag := CregFlag reg "write_protect" (Flag 0x0000000000010000 16).
Definition alignment_mask : creg_flag := CregFlag reg "alignment_mask" (Flag 0x0000000000040000 18).
Definition not_write_through : creg_flag := CregFlag reg "not_write_through" (Flag 0x0000000020000000 29).
Definition cache_disable : creg_flag := CregFlag reg "cache_disable" (Flag 0x0000000040000000 30).
Definition paging : creg_flag := CregFlag reg "paging" (Flag 0x0000000080000000 31).
End cr0.

Module cr4.
Definition reg : creg := CR4.
Definition v8086_mode_extensions : creg_flag := CregFlag reg "v8086_mode_extensions" (Flag 0x0000000000000001 0).
Definition protected_mode_virtual_interrupts : creg_flag := CregFlag reg "protected_mode_virtual_interrupts" (Flag 0x0000000000000002 1).
Definition time_stamp_disable : creg_flag := CregFlag reg "time_stamp_disable" (Flag 0x0000000000000004 2).
Definition debugging_extensions : creg_flag := CregFlag reg "debugging_extensions" (Flag 0x0000000000000008 3).
Definition page_size_extensions : creg_flag := CregFlag reg "page_size_extensions" (Flag 0x0000000000000010 4).
Definition physical_address_extensions : creg_flag := CregFlag reg "physical_address_extensions" (Flag 0x0000000000000020 5).
Definition machine_check_enable : creg_flag := CregFlag reg "machine_check_enable" (Flag 0x0000000000000040 6).
Definition page_global_enable : creg_flag := CregFlag reg "page_global_enable" (Flag 0x0000000000000080 7).
Definition performance_monitor_counter_enable : creg_flag := CregFlag reg "performance_monitor_counter_enable" (Flag 0x0000000000000100 8).
Definition osfxsr : creg_flag := CregFlag reg "osfxsr" (Flag 0x0000000000000200 9).
Definition osxmmexcpt : creg_flag := CregFlag reg "osxmmexcpt" (Flag 0x0000000000000400 10).
Definition vmx_enable_bit : creg_flag := CregFlag reg "vmx_enable_bit" (Flag 0x0000000000002000 13).
Definition smx_enable_bit : creg_flag := CregFlag reg "smx_enable_bit" (Flag 0x0000000000004000 14).
Definition fsgsbase_enable_bit : creg_flag := CregFlag reg "fsgsbase_enable_bit" (Flag 0x0000000000010000 16).
Definition pcid_enable_bit : creg_flag := CregFlag reg "pcid_enable_bit" (Flag 0x0000000000020000 17).
Definition osxsave : creg_flag := CregFlag reg "osxsave" (Flag 0x0000000000040000 18).
Definition smep_enable_bit : creg_flag := CregFlag reg "smep_enable_bit" (Flag 0x0000000000100000 20).
Definition smap_enable_bit : creg_flag := CregFlag reg "smap_enable_bit" (Flag 0x0000000000200000 21).
Definition protection_key_enable_bit : creg_flag := CregFlag reg "protection_key_enable_bit" (Flag 0x0000000000400000 22).
End cr4.

Module rflags.
Definition reg : creg := RFLAGS.
Definition carry_flag : creg_flag := CregFlag reg "carry_flag" (Flag 0x0000000000000001 0).
Definition parity_flag : creg_flag := CregFlag reg "parity_flag" (Flag 0x0000000000000004 2).
Definition auxiliary_carry_flag : creg_flag := CregFlag reg "auxiliary_carry_flag" (Flag 0x0000000000000010 4).
Definition zero_flag : creg_flag := CregFlag reg "zero_flag" (Flag 0x0000000000000040 6).
Definition sign_flag : creg_flag := CregFlag reg "sign_flag" (Flag 0x0000000000000080 7).
Definition trap_flag : creg_flag := CregFlag reg "trap_flag" (Flag 0x0000000000000100 8).
Definition interrupt_enable_flag : creg_flag := CregFlag reg "interrupt_enable_flag" (Flag 0x0000000000000200 9).
Definition direction_flag : creg_flag := CregFlag reg "direction_flag" (Flag 0x0000000000000400 10).
Definition overflow_flag : creg_flag := CregFlag reg "overflow_flag" (Flag 0x0000000000000800 11).
Definition privilege_level : creg_field := CregField reg "privilege_level" (Field 0x0000000000003000 12).
Definition nested_task : creg_flag := CregFlag reg "nested_task" (Flag 0x0000000000004000 14).
Definition resume_flag : creg_flag := CregFlag reg "resume_flag" (Flag 0x0000000000010000 16).
Definition virtual_8086_mode : creg_flag := CregFlag reg "virtual_8086_mode" (Flag 0x0000000000020000 17).
Definition alignment_check_access_control : creg_flag := CregFlag reg "alignment_check_access_control" (Flag 0x0000000000040000 18).
Definition virtual_interupt_flag : creg_flag := CregFlag reg "virtual_interupt_flag" (Flag 0x0000000000080000 19).
Definition virtual_interupt_pending : creg_flag := CregFlag reg "virtual_interupt_pending" (Flag 0x0000000000100000 20).
Definition id_flag : creg_flag := CregFlag reg "id_flag" (Flag 0x0000000000200000 21).
End rflags.
