(* ===== verification/Check.v ===== *)
(** * Checks of the VMCS: their language and what they read

    The check functions of [check_vmcs_*_fields.cpp] read registers, return
    early, and throw [std::logic_error].  A statement is a computation that says
    whether the function has returned.  Besides the VMCS and the capabilities,
    the checks use parts of [cpuid.h], [misc.h], [gdt.h] and [paging.h], and the
    memory the memory manager has mapped. *)
From stdpp Require Export pretty.
From S2P Require Import Prelude Bits EptEntry Vmcs.
Open Scope Z_scope.
Open Scope vmm_scope.

(** ** Statements *)

Definition stmt := M cpu bool.

(** The body of a function *)
Definition check (s : stmt) : M cpu unit := s ;;; ret tt.
Definition return_ : stmt := ret true.
Definition seq (s1 s2 : stmt) : stmt := b <- s1 ;; if b : bool then ret true else s2.
Definition when_ (c : M cpu bool) (s : stmt) : stmt := b <- c ;; if b : bool then s else ret false.
Definition if_ (c : M cpu bool) (s1 s2 : stmt) : stmt := b <- c ;; if b : bool then s1 else s2.
Definition return_if (c : M cpu bool) : stmt := when_ c return_.
Definition fails (what : string) : stmt := throw (logic_error what).
Definition throw_if (c : M cpu bool) (what : string) : stmt := when_ c (fails what).

(** Conditions on values that are read *)
Definition test {A B} (p : A -> B) (m : M cpu A) : M cpu B := x <- m ;; ret (p x).
Definition test2 {A A' B} (p : A -> A' -> B) (m : M cpu A) (m' : M cpu A') : M cpu B := x <- m ;; y <- m' ;; ret (p x y).
Definition not_ (m : M cpu bool) : M cpu bool := test negb m.

Notation "s1 ;> s2" := (seq s1 s2) (at level 100, right associativity) : vmm_scope.

(** ** CPUID *)

(** [_cpuid_ebx(addr)] and the like: a leaf, a subleaf and one of the registers
    of the answer *)
Record cpuid_reg := CpuidReg { q_leaf : Z; q_subleaf : Z; q_reg : cpuid_regs -> Z }.

Module feature_information.
Definition addr : Z := 0x00000001.
Definition ecx_reg : cpuid_reg := CpuidReg addr 0 ecx.
Definition vmx : flag := Flag 0x00000020 5.
Definition xsave : flag := Flag 0x04000000 26.
End feature_information.

Module extended_feature_flags.
Definition ebx_reg : cpuid_reg := CpuidReg 0x00000007 0 ebx.
Definition sgx : flag := Flag 0x00000004 2.
Definition smep : flag := Flag 0x00000080 7.
Definition rtm : flag := Flag 0x00000800 11.
Definition smap : flag := Flag 0x00100000 20.
End extended_feature_flags.

Module arch_perf_monitoring.
Definition eax_reg : cpuid_reg := CpuidReg 0x0000000A 0 eax.
Definition version_id : field := Field 0x000000FF 0.
End arch_perf_monitoring.

Module addr_size.
Definition addr : Z := 0x80000008.
Definition eax_reg : cpuid_reg := CpuidReg addr 0 eax.
Definition phys : field := Field 0x000000FF 0.
End addr_size.

(** [intel_x64::cr0] and [x64::access_rights] *)
Module access_rights.
Definition tss_busy : Z := 0x0000000B.
Definition tss_available : Z := 0x00000009.
Definition read_only : Z := 0x00000000.
Definition read_only_accessed : Z := 0x00000001.
Definition read_write : Z := 0x00000002.
Definition read_write_accessed : Z := 0x00000003.
Definition read_only_expand_down : Z := 0x00000004.
Definition read_only_expand_down_accessed : Z := 0x00000005.
Definition read_write_expand_down : Z := 0x00000006.
Definition read_write_expand_down_accessed : Z := 0x00000007.
Definition execute_only : Z := 0x00000008.
Definition execute_only_accessed : Z := 0x00000009.
Definition read_execute : Z := 0x0000000A.
Definition read_execute_accessed : Z := 0x0000000B.
Definition execute_only_conforming : Z := 0x0000000C.
Definition execute_only_conforming_accessed : Z := 0x0000000D.
Definition read_execute_conforming : Z := 0x0000000E.
Definition read_execute_conforming_accessed : Z := 0x0000000F.
Definition ring0_cs_descriptor : Z := 0x0000A09B.
Definition ring0_ss_descriptor : Z := 0x0000C093.
Definition ring0_fs_descriptor : Z := 0x00008093.
Definition ring0_gs_descriptor : Z := 0x00008093.
Definition ring0_tr_descriptor : Z := 0x0000008B.
Definition unusable : Z := 0x00010000.
End access_rights.

Module memory_type.
Definition uncacheable : Z := 0x00000000.
Definition write_combining : Z := 0x00000001.
Definition write_through : Z := 0x00000004.
Definition write_protected : Z := 0x00000005.
Definition write_back : Z := 0x00000006.
Definition uncacheable_minus : Z := 0x00000007.
End memory_type.

(** [x64::exception] *)
Module exception.
Definition divide_error : Z := 0.
Definition debug_exception : Z := 1.
Definition nmi_interrupt : Z := 2.
Definition breakpoint : Z := 3.
Definition overflow : Z := 4.
Definition bound_range_exceeded : Z := 5.
Definition invalid_opcode : Z := 6.
Definition device_not_available : Z := 7.
Definition double_fault : Z := 8.
Definition coprocessor_segment_overrun : Z := 9.
Definition invalid_tss : Z := 10.
Definition segment_not_present : Z := 11.
Definition stack_segment_fault : Z := 12.
Definition general_protection : Z := 13.
Definition page_fault : Z := 14.
Definition floating_point_error : Z := 16.
Definition alignment_check : Z := 17.
Definition machine_check : Z := 18.
Definition simd_floating_point_exception : Z := 19.
Definition virtualization_exception : Z := 20.
End exception.

(** [vmcs::memory_type_reserved] *)
Definition memory_type_reserved (t : Z) : bool :=
  negb (existsb (Z.eqb t)
    [memory_type.uncacheable; memory_type.write_combining; memory_type.write_through;
     memory_type.write_protected; memory_type.write_back; memory_type.uncacheable_minus]).

Definition is_address_canonical (addr : Z) : bool :=
  (addr <=? 0x00007FFFFFFFFFFF) || (0xFFFF800000000000 <=? addr).

Definition is_linear_address_valid (addr : Z) : bool := is_address_canonical addr.

Section Reads.
Context `{Processor}.

Definition cpuid_get (r : cpuid_reg) : Z := q_reg r (cpuid_instr (q_leaf r) (q_subleaf r)).
Definition cpuid_is_enabled (r : cpuid_reg) (f : flag) : bool := is_bit_set (cpuid_get r) (flag_from f).
Definition cpuid_is_disabled (r : cpuid_reg) (f : flag) : bool := is_bit_cleared (cpuid_get r) (flag_from f).
Definition cpuid_field_get (r : cpuid_reg) (f : field) : Z := field_get f (cpuid_get r).

(** [cpuid::addr_size::phys::get] *)
Definition phys_bits : Z := cpuid_field_get addr_size.eax_reg addr_size.phys.

Definition is_physical_address_valid (addr : Z) : bool :=
  let size := phys_bits in
  let mask := shl64 (Z.shiftr 0xFFFFFFFFFFFFFFFF size) size in
  Z.land addr mask =? 0.

(** [x64::pdpt::entry::reserved::mask] *)
Definition pdpte_reserved_mask : Z := Z.lor (shl64 0xFFFFFFFFFFFFFFFF phys_bits) 0x1E6.

End Reads.

(** What the checks see of the host's memory: the translation of the memory
    manager, which may throw, and 64-bit words at virtual addresses. *)
Class HostMemory := {
  physint_to_virtptr : Z -> exn + Z;
  host_word : Z -> Z }.

Definition to_virtptr `{HostMemory} (phys : Z) : M cpu Z :=
  match physint_to_virtptr phys with inl e => throw e | inr p => ret p end.
