(* ===== verification/CheckControl.v ===== *)
(** * Checks of the control fields

    [check_vmcs_control_fields.cpp], in its order: every function as it is written,
    less the debug output. *)
From S2P Require Import Prelude Bits EptEntry Vmcs MsrFields VmcsControl VmcsGuest VmcsHost VmcsExit Crs Check.
Open Scope Z_scope.
Open Scope vmm_scope.

Section Checks.
Context `{Processor} `{HostMemory}.

Definition control_reserved_properly_set (addr ctls : Z) (name : string) : M cpu unit := check (
  a0 <- read_msr addr ;;
  let allowed0 := Z.land (Z.shiftr a0 0) 0x00000000FFFFFFFF in
  a1 <- read_msr addr ;;
  let allowed1 := Z.land (Z.shiftr a1 32) 0x00000000FFFFFFFF in
  let ctls := Z.land ctls 0x00000000FFFFFFFF in
  throw_if (ret (negb (Z.land allowed0 ctls =? allowed0))) ("invalid " ++ name) ;>
  let allowed1_failed := negb (Z.land ctls (not64 allowed1) =? 0) in
  allowed1_failed <- (if m_addr ia32_vmx_procbased_ctls2.reg =? addr then
      and_then (ret allowed1_failed)
        (control_is_enabled primary_processor_based_vm_execution_controls.activate_secondary_controls)
    else ret allowed1_failed) ;;
  throw_if (ret allowed1_failed) ("invalid " ++ name)).

Definition control_pin_based_ctls_reserved_properly_set : M cpu unit := check (
  let addr := (m_addr ia32_vmx_true_pinbased_ctls.reg) in
  ctls <- vmcs_get pin_based_vm_execution_controls.reg ;;
  let name := (v_name pin_based_vm_execution_controls.reg) in
  (control_reserved_properly_set addr ctls name ;;; ret false)).

Definition control_proc_based_ctls_reserved_properly_set : M cpu unit := check (
  let addr := (m_addr ia32_vmx_true_procbased_ctls.reg) in
  ctls <- vmcs_get primary_processor_based_vm_execution_controls.reg ;;
  let name := (v_name primary_processor_based_vm_execution_controls.reg) in
  (control_reserved_properly_set addr ctls name ;;; ret false)).

Definition control_proc_based_ctls2_reserved_properly_set : M cpu unit := check (
  throw_if (not_ (v_exists secondary_processor_based_vm_execution_controls.reg))
    "the secondary controls field doesn't exist" ;>
  let addr := (m_addr ia32_vmx_procbased_ctls2.reg) in
  ctls <- vmcs_get secondary_processor_based_vm_execution_controls.reg ;;
  let name := (v_name secondary_processor_based_vm_execution_controls.reg) in
  (control_reserved_properly_set addr ctls name ;;; ret false)).

Definition control_cr3_count_less_then_4 : M cpu unit := check (
  throw_if (test (fun v => 4 <? v) (vmcs_get cr3_target_count.reg))
    "cr3 target count > 4").

Definition control_io_bitmap_address_bits : M cpu unit := check (
  return_if (control_is_disabled primary_processor_based_vm_execution_controls.use_io_bitmaps) ;>
  addr_a <- vmcs_get address_of_io_bitmap_a.reg ;;
  addr_b <- vmcs_get address_of_io_bitmap_b.reg ;;
  throw_if (ret (negb (Z.land addr_a 0x0000000000000FFF =? 0)))
    "io bitmap a addr not page aligned" ;>
  throw_if (ret (negb (Z.land addr_b 0x0000000000000FFF =? 0)))
    "io bitmap b addr not page aligned" ;>
  throw_if (ret (negb (is_physical_address_valid addr_a)))
    "io bitmap a addr too large" ;>
  throw_if (ret (negb (is_physical_address_valid addr_b)))
    "io bitmap b addr too large").

Definition control_msr_bitmap_address_bits : M cpu unit := check (
  return_if (control_is_disabled primary_processor_based_vm_execution_controls.use_msr_bitmap) ;>
  addr <- vmcs_get address_of_msr_bitmap.reg ;;
  throw_if (ret (negb (Z.land addr 0x0000000000000FFF =? 0)))
    "msr bitmap addr not page aligned" ;>
  throw_if (ret (negb (is_physical_address_valid addr)))
    "msr bitmap addr too large").

Definition control_tpr_shadow_and_virtual_apic : M cpu unit := check (
  secondary_ctls_enabled <- control_is_enabled primary_processor_based_vm_execution_controls.activate_secondary_controls ;;
  if_ (control_is_enabled primary_processor_based_vm_execution_controls.use_tpr_shadow) (
    phys_addr <- vmcs_get virtual_apic_address.reg ;;
    throw_if (ret (phys_addr =? 0))
      "virtual apic physical addr is NULL" ;>
    throw_if (ret (negb (Z.land phys_addr 0x0000000000000FFF =? 0)))
      "virtual apic addr not 4k aligned" ;>
    throw_if (ret (negb (is_physical_address_valid phys_addr)))
      "virtual apic addr too large" ;>
    throw_if (and_then (ret secondary_ctls_enabled) (flag_is_enabled_if_exists (vc_flag secondary_processor_based_vm_execution_controls.virtual_interrupt_delivery)))
      "tpr_shadow is enabled, but virtual interrupt delivery is enabled" ;>
    tpr <- vmcs_get tpr_threshold.reg ;;
    throw_if (ret (negb (Z.land tpr 0xFFFFFFF0 =? 0)))
      "bits 31:4 of the tpr threshold must be 0" ;>
    throw_if (and_then (ret secondary_ctls_enabled) (flag_is_enabled_if_exists (vc_flag secondary_processor_based_vm_execution_controls.virtualize_apic_accesses)))
      "tpr_shadow is enabled, but virtual apic is enabled" ;>
    virt_addr <- to_virtptr phys_addr ;;
    throw_if (ret (virt_addr =? 0))
      "virtual apic virtual addr is NULL" ;>
    let vtpr := Z.land (host_word (add64 virt_addr 0x80)) 0xFF in
    let vtpr_74 := Z.shiftr (Z.land vtpr 0xF0) 4 in
    let tpr_threshold_30 := Z.land tpr 0x0000000F in
    throw_if (ret (vtpr_74 <? tpr_threshold_30))
      "invalid TPR threshold") (
    return_if (control_is_disabled primary_processor_based_vm_execution_controls.activate_secondary_controls) ;>
    throw_if (flag_is_enabled_if_exists (vc_flag secondary_processor_based_vm_execution_controls.virtualize_x2apic_mode))
      "virtualize_x2apic_mode must be disabled if tpr shadow is disabled" ;>
    throw_if (flag_is_enabled_if_exists (vc_flag secondary_processor_based_vm_execution_controls.apic_register_virtualization))
      "apic_register_virtualization must be disabled if tpr shadow is disabled" ;>
    throw_if (flag_is_enabled_if_exists (vc_flag secondary_processor_based_vm_execution_controls.virtual_interrupt_delivery))
      "virtual_interrupt_delivery must be disabled if tpr shadow is disabled")).

Definition control_nmi_exiting_and_virtual_nmi : M cpu unit := check (
  return_if (control_is_enabled pin_based_vm_execution_controls.nmi_exiting) ;>
  throw_if (control_is_enabled pin_based_vm_execution_controls.virtual_nmis)
    "virtual NMI must be 0 if NMI exiting is 0").

Definition control_virtual_nmi_and_nmi_window : M cpu unit := check (
  return_if (control_is_enabled pin_based_vm_execution_controls.virtual_nmis) ;>
  throw_if (control_is_enabled primary_processor_based_vm_execution_controls.nmi_window_exiting)
    "NMI window exiting must be 0 if virtual NMI is 0").

Definition control_virtual_apic_address_bits : M cpu unit := check (
  return_if (control_is_disabled primary_processor_based_vm_execution_controls.activate_secondary_controls) ;>
  return_if (flag_is_disabled_if_exists (vc_flag secondary_processor_based_vm_execution_controls.virtualize_apic_accesses)) ;>
  phys_addr <- vmcs_get_if_exists apic_access_address.reg ;;
  throw_if (ret (phys_addr =? 0))
    "apic access physical addr is NULL" ;>
  throw_if (ret (negb (Z.land phys_addr 0x0000000000000FFF =? 0)))
    "apic access addr not 4k aligned" ;>
  throw_if (ret (negb (is_physical_address_valid phys_addr)))
    "apic access addr too large").

Definition control_x2apic_mode_and_virtual_apic_access : M cpu unit := check (
  return_if (control_is_disabled primary_processor_based_vm_execution_controls.activate_secondary_controls) ;>
  return_if (flag_is_disabled_if_exists (vc_flag secondary_processor_based_vm_execution_controls.virtualize_x2apic_mode)) ;>
  throw_if (flag_is_enabled_if_exists (vc_flag secondary_processor_based_vm_execution_controls.virtualize_apic_accesses))
    "apic accesses must be 0 if x2 apic mode is 1").

Definition control_virtual_interrupt_and_external_interrupt : M cpu unit := check (
  return_if (control_is_disabled primary_processor_based_vm_execution_controls.activate_secondary_controls) ;>
  return_if (flag_is_disabled_if_exists (vc_flag secondary_processor_based_vm_execution_controls.virtual_interrupt_delivery)) ;>
  throw_if (control_is_disabled pin_based_vm_execution_controls.external_interrupt_exiting)
    "external_interrupt_exiting must be 1 if virtual_interrupt_delivery is 1").

Definition control_process_posted_interrupt_checks : M cpu unit := check (
  return_if (control_is_disabled pin_based_vm_execution_controls.process_posted_interrupts) ;>
  throw_if (control_is_disabled primary_processor_based_vm_execution_controls.activate_secondary_controls)
    "virtual interrupt delivery must be 1 if posted interrupts is 1" ;>
  throw_if (flag_is_disabled_if_exists (vc_flag secondary_processor_based_vm_execution_controls.virtual_interrupt_delivery))
    "virtual interrupt delivery must be 1 if posted interrupts is 1" ;>
  throw_if (control_is_disabled vm_exit_controls.acknowledge_interrupt_on_exit)
    "ack interrupt on exit must be 1 if posted interrupts is 1" ;>
  vector <- vmcs_get posted_interrupt_notification_vector.reg ;;
  throw_if (ret (negb (Z.land vector 0x000000000000FF00 =? 0)))
    "bits 15:8 of the notification vector must be 0 if posted interrupts is 1" ;>
  addr <- vmcs_get posted_interrupt_descriptor_address.reg ;;
  throw_if (ret (negb (Z.land addr 0x000000000000003F =? 0)))
    "bits 5:0 of the interrupt descriptor addr must be 0 if posted interrupts is 1" ;>
  throw_if (ret (negb (is_physical_address_valid addr)))
    "interrupt descriptor addr too large").

Definition control_vpid_checks : M cpu unit := check (
  return_if (control_is_disabled primary_processor_based_vm_execution_controls.activate_secondary_controls) ;>
  return_if (flag_is_disabled_if_exists (vc_flag secondary_processor_based_vm_execution_controls.enable_vpid)) ;>
  throw_if (test (fun v => v =? 0) (vmcs_get_if_exists virtual_processor_identifier.reg))
    "vpid cannot equal 0").

Definition control_enable_ept_checks : M cpu unit := check (
  return_if (control_is_disabled primary_processor_based_vm_execution_controls.activate_secondary_controls) ;>
  return_if (flag_is_disabled_if_exists (vc_flag secondary_processor_based_vm_execution_controls.enable_ept)) ;>
  mem_type <- bits_get_if_exists ept_pointer.memory_type ;;
  throw_if (and_then (ret (mem_type =? ept_pointer.memory_type_uncacheable)) (msr_is_disabled ia32_vmx_ept_vpid_cap.memory_type_uncacheable_supported))
    "hardware does not support ept memory type: uncachable" ;>
  throw_if (and_then (ret (mem_type =? ept_pointer.memory_type_write_back)) (msr_is_disabled ia32_vmx_ept_vpid_cap.memory_type_write_back_supported))
    "hardware does not support ept memory type: write-back" ;>
  throw_if (ret ((negb (mem_type =? ept_pointer.memory_type_uncacheable)) && (negb (mem_type =? ept_pointer.memory_type_write_back))))
    "unknown eptp memory type" ;>
  throw_if (test (fun v => negb (v =? 3)) (bits_get_if_exists ept_pointer.page_walk_length_minus_one))
    "the ept walk-through length must be 1 less than 4, i.e. 3" ;>
  throw_if (and_then (flag_is_enabled_if_exists ept_pointer.accessed_and_dirty_flags) (msr_is_disabled ia32_vmx_ept_vpid_cap.accessed_dirty_support))
    "hardware does not support dirty / accessed flags for ept" ;>
  throw_if (test (fun v => negb (v =? 0)) (bits_get_if_exists ept_pointer.reserved))
    "bits 11:7 and 63:48 of the eptp must be 0").

Definition control_enable_pml_checks : M cpu unit := check (
  return_if (control_is_disabled primary_processor_based_vm_execution_controls.activate_secondary_controls) ;>
  return_if (flag_is_disabled_if_exists (vc_flag secondary_processor_based_vm_execution_controls.enable_pml)) ;>
  pml_addr <- vmcs_get_if_exists pml_address.reg ;;
  throw_if (flag_is_disabled_if_exists (vc_flag secondary_processor_based_vm_execution_controls.enable_ept))
    "ept must be enabled if pml is enabled" ;>
  throw_if (ret (negb (is_physical_address_valid pml_addr)))
    "pml address must be a valid physical address" ;>
  throw_if (ret (negb (Z.land pml_addr 0x0000000000000FFF =? 0)))
    "bits 11:0 of the pml address must be 0").

Definition control_unrestricted_guests : M cpu unit := check (
  return_if (control_is_disabled primary_processor_based_vm_execution_controls.activate_secondary_controls) ;>
  return_if (flag_is_disabled_if_exists (vc_flag secondary_processor_based_vm_execution_controls.unrestricted_guest)) ;>
  throw_if (flag_is_disabled_if_exists (vc_flag secondary_processor_based_vm_execution_controls.enable_ept))
    "enable ept must be 1 if unrestricted guest is 1").

Definition control_enable_vm_functions : M cpu unit := check (
  return_if (control_is_disabled primary_processor_based_vm_execution_controls.activate_secondary_controls) ;>
  return_if (flag_is_disabled_if_exists (vc_flag secondary_processor_based_vm_execution_controls.enable_vm_functions)) ;>
  return_if (not_ (v_exists vm_function_controls.reg)) ;>
  throw_if (test2 (fun v v' => negb (Z.land (not64 v) v' =? 0)) (msr_get ia32_vmx_vmfunc.reg) (vmcs_get vm_function_controls.reg))
    "unsupported vm function control bit set" ;>
  return_if (flag_is_disabled vm_function_controls.eptp_switching) ;>
  throw_if (flag_is_disabled_if_exists (vc_flag secondary_processor_based_vm_execution_controls.enable_ept))
    "enable ept must be 1 if eptp switching is 1" ;>
  eptp_list <- vmcs_get_if_exists eptp_list_address.reg ;;
  throw_if (ret (negb (Z.land eptp_list 0x0000000000000FFF =? 0)))
    "bits 11:0 must be 0 for eptp list address" ;>
  throw_if (ret (negb (is_physical_address_valid eptp_list)))
    "eptp list address addr too large").

Definition control_enable_vmcs_shadowing : M cpu unit := check (
  return_if (control_is_disabled primary_processor_based_vm_execution_controls.activate_secondary_controls) ;>
  return_if (flag_is_disabled_if_exists (vc_flag secondary_processor_based_vm_execution_controls.vmcs_shadowing)) ;>
  vmcs_vmread_bitmap_address <- vmcs_get_if_exists vmread_bitmap_address.reg ;;
  vmcs_vmwrite_bitmap_address <- vmcs_get_if_exists vmwrite_bitmap_address.reg ;;
  throw_if (ret (negb (Z.land vmcs_vmread_bitmap_address 0x0000000000000FFF =? 0)))
    "bits 11:0 must be 0 for the vmcs read bitmap address" ;>
  throw_if (ret (negb (Z.land vmcs_vmwrite_bitmap_address 0x0000000000000FFF =? 0)))
    "bits 11:0 must be 0 for the vmcs write bitmap address" ;>
  throw_if (ret (negb (is_physical_address_valid vmcs_vmread_bitmap_address)))
    "vmcs read bitmap address addr too large" ;>
  throw_if (ret (negb (is_physical_address_valid vmcs_vmwrite_bitmap_address)))
    "vmcs write bitmap address addr too large").

Definition control_enable_ept_violation_checks : M cpu unit := check (
  return_if (control_is_disabled primary_processor_based_vm_execution_controls.activate_secondary_controls) ;>
  return_if (flag_is_disabled_if_exists (vc_flag secondary_processor_based_vm_execution_controls.ept_violation_ve)) ;>
  vmcs_virt_except_info_address <- vmcs_get_if_exists virtualization_exception_information_address.reg ;;
  throw_if (ret (negb (Z.land vmcs_virt_except_info_address 0x0000000000000FFF =? 0)))
    "bits 11:0 must be 0 for the vmcs virt except info address" ;>
  throw_if (ret (negb (is_physical_address_valid vmcs_virt_except_info_address)))
    "vmcs virt except info address addr too large").

Definition control_vm_exit_ctls_reserved_properly_set : M cpu unit := check (
  let addr := (m_addr ia32_vmx_true_exit_ctls.reg) in
  ctls <- vmcs_get vm_exit_controls.reg ;;
  let name := (v_name vm_exit_controls.reg) in
  (control_reserved_properly_set addr ctls name ;;; ret false)).

Definition control_activate_and_save_preemption_timer_must_be_0 : M cpu unit := check (
  return_if (control_is_enabled pin_based_vm_execution_controls.activate_vmx_preemption_timer) ;>
  throw_if (control_is_enabled vm_exit_controls.save_vmx_preemption_timer_value)
    "save vmx preemption timer must be 0 if activate vmx preemption timer is 0").

Definition control_exit_msr_store_address : M cpu unit := check (
  msr_store_count <- vmcs_get vm_exit_msr_store_count.reg ;;
  return_if (ret (msr_store_count =? 0)) ;>
  msr_store_addr <- vmcs_get vm_exit_msr_store_address.reg ;;
  throw_if (ret (negb (Z.land msr_store_addr 0x000000000000000F =? 0)))
    "bits 3:0 must be 0 for the exit msr store address" ;>
  throw_if (ret (negb (is_physical_address_valid msr_store_addr)))
    "exit msr store addr too large" ;>
  let msr_store_addr_end := sub64 (add64 msr_store_addr (mul64 msr_store_count 16)) 1 in
  throw_if (ret (negb (is_physical_address_valid msr_store_addr_end)))
    "end of exit msr store area too large").

Definition control_exit_msr_load_address : M cpu unit := check (
  msr_load_count <- vmcs_get vm_exit_msr_load_count.reg ;;
  return_if (ret (msr_load_count =? 0)) ;>
  msr_load_addr <- vmcs_get vm_exit_msr_load_address.reg ;;
  throw_if (ret (negb (Z.land msr_load_addr 0x000000000000000F =? 0)))
    "bits 3:0 must be 0 for the exit msr load address" ;>
  throw_if (ret (negb (is_physical_address_valid msr_load_addr)))
    "exit msr load addr too large" ;>
  let msr_load_addr_end := sub64 (add64 msr_load_addr (mul64 msr_load_count 16)) 1 in
  throw_if (ret (negb (is_physical_address_valid msr_load_addr_end)))
    "end of exit msr load area too large").

Definition control_vm_entry_ctls_reserved_properly_set : M cpu unit := check (
  let addr := (m_addr ia32_vmx_true_entry_ctls.reg) in
  ctls <- vmcs_get vm_entry_controls.reg ;;
  let name := (v_name vm_entry_controls.reg) in
  (control_reserved_properly_set addr ctls name ;;; ret false)).

Definition control_event_injection_type_vector_checks : M cpu unit := check (
  return_if (flag_is_disabled vm_entry_interruption_information.valid_bit) ;>
  vector <- bits_get vm_entry_interruption_information.vector ;;
  type <- bits_get vm_entry_interruption_information.interruption_type ;;
  throw_if (ret (type =? vm_entry_interruption_information.interruption_type_reserved))
    "interrupt information field type of 1 is reserved" ;>
  throw_if (and_then (not_ (is_allowed1 ia32_vmx_true_procbased_ctls.monitor_trap_flag)) (ret (type =? vm_entry_interruption_information.interruption_type_other_event)))
    "interrupt information field type of 7 is reserved on this hardware" ;>
  throw_if (ret ((type =? vm_entry_interruption_information.interruption_type_non_maskable_interrupt) && (negb (vector =? 2))))
    "interrupt information field vector must be 2 if the type field is 2 (NMI)" ;>
  throw_if (ret ((type =? vm_entry_interruption_information.interruption_type_hardware_exception) && (31 <? vector)))
    "interrupt information field vector must be at most 31 if the type field is 3 (HE)" ;>
  throw_if (ret ((type =? vm_entry_interruption_information.interruption_type_other_event) && (negb (vector =? 0))))
    "interrupt information field vector must be 0 if the type field is 7 (other)").

Definition control_event_injection_delivery_ec_checks : M cpu unit := check (
  return_if (flag_is_disabled vm_entry_interruption_information.valid_bit) ;>
  type <- bits_get vm_entry_interruption_information.interruption_type ;;
  vector <- bits_get vm_entry_interruption_information.vector ;;
  when_ (and_then (control_is_enabled secondary_processor_based_vm_execution_controls.unrestricted_guest) (control_is_enabled primary_processor_based_vm_execution_controls.activate_secondary_controls)) (
    throw_if (and_then (flag_is_disabled guest_cr0.protection_enable) (flag_is_enabled vm_entry_interruption_information.deliver_error_code_bit))
      "unrestricted guest must be 0 or PE must be enabled in cr0 if deliver_error_code_bit is set") ;>
  throw_if (and_then (ret (negb (type =? vm_entry_interruption_information.interruption_type_hardware_exception))) (flag_is_enabled vm_entry_interruption_information.deliver_error_code_bit))
    "interrupt information field type must be 3 if deliver_error_code_bit is set" ;>
  (   if (vector =? 8) || (vector =? 10) || (vector =? 11) || (vector =? 12) || (vector =? 13) || (vector =? 14) || (vector =? 17) then
    throw_if (flag_is_disabled vm_entry_interruption_information.deliver_error_code_bit)
      "deliver_error_code_bit must be 1"
   else
    throw_if (flag_is_enabled vm_entry_interruption_information.deliver_error_code_bit)
      "vector must indicate exception that would normally deliver an error code if deliver_error_code_bit is set")).

Definition control_event_injection_reserved_bits_checks : M cpu unit := check (
  return_if (flag_is_disabled vm_entry_interruption_information.valid_bit) ;>
  throw_if (test (fun v => negb (v =? 0)) (bits_get vm_entry_interruption_information.reserved))
    "reserved bits of the interrupt info field must be 0").

Definition control_event_injection_ec_checks : M cpu unit := check (
  return_if (flag_is_disabled vm_entry_interruption_information.valid_bit) ;>
  return_if (flag_is_disabled vm_entry_interruption_information.deliver_error_code_bit) ;>
  throw_if (test (fun v => negb (Z.land v 0x00000000FFFF8000 =? 0)) (vmcs_get vm_entry_exception_error_code.reg))
    "bits 31:15 of the exception error code field must be 0 if deliver error code bit is set in the interrupt info field").

Definition control_event_injection_instr_length_checks : M cpu unit := check (
  return_if (flag_is_disabled vm_entry_interruption_information.valid_bit) ;>
  type <- bits_get vm_entry_interruption_information.interruption_type ;;
  instruction_length <- vmcs_get vm_entry_instruction_length.reg ;;
  (   if (type =? vm_entry_interruption_information.interruption_type_software_interrupt) || (type =? vm_entry_interruption_information.interruption_type_privileged_software_exception) || (type =? vm_entry_interruption_information.interruption_type_software_exception) then
    ret false
   else
    return_) ;>
  throw_if (and_then (ret (instruction_length =? 0)) (msr_is_disabled ia32_vmx_misc.injection_with_instruction_length_of_zero))
    "instruction length must be greater than zero" ;>
  throw_if (ret (15 <? instruction_length))
    "instruction length must be in the range of 0-15 if type is 4, 5, 6").

Definition control_entry_msr_load_address : M cpu unit := check (
  msr_load_count <- vmcs_get vm_entry_msr_load_count.reg ;;
  return_if (ret (msr_load_count =? 0)) ;>
  msr_load_addr <- vmcs_get vm_entry_msr_load_address.reg ;;
  throw_if (ret (negb (Z.land msr_load_addr 0x000000000000000F =? 0)))
    "bits 3:0 must be 0 for the entry msr load address" ;>
  throw_if (ret (negb (is_physical_address_valid msr_load_addr)))
    "entry msr load addr too large" ;>
  let msr_load_addr_end := sub64 (add64 msr_load_addr (mul64 msr_load_count 16)) 1 in
  throw_if (ret (negb (is_physical_address_valid msr_load_addr_end)))
    "end of entry msr load area too large").

End Checks.
