(* ===== verification/CheckGuest.v ===== *)
(** * Checks of the guest state

    [check_vmcs_guest_fields.cpp], in its order: every function as it is written,
    less the debug output. *)
From S2P Require Import Prelude Bits EptEntry Vmcs MsrFields VmcsControl VmcsGuest VmcsHost VmcsExit Crs Check.
Open Scope Z_scope.
Open Scope vmm_scope.

Section Checks.
Context `{Processor} `{HostMemory}.

Definition guest_cr0_for_unsupported_bits : M cpu unit := check (
  cr0 <- vmcs_get guest_cr0.reg ;;
  ia32_vmx_cr0_fixed0 <- msr_get ia32_vmx_cr0_fixed0.reg ;;
  ia32_vmx_cr0_fixed1 <- msr_get ia32_vmx_cr0_fixed1.reg ;;
  b <- flag_is_enabled_if_exists (vc_flag secondary_processor_based_vm_execution_controls.unrestricted_guest) ;;
  let ia32_vmx_cr0_fixed0 := if b : bool then Z.land ia32_vmx_cr0_fixed0 (not64 (Z.lor (flag_mask (cf cr0.paging)) (flag_mask (cf cr0.protection_enable)))) else ia32_vmx_cr0_fixed0 in
  throw_if (ret (negb (0 =? Z.lor (Z.land (not64 cr0) ia32_vmx_cr0_fixed0) (Z.land cr0 (not64 ia32_vmx_cr0_fixed1)))))
    "invalid cr0").

Definition guest_cr0_verify_paging_enabled : M cpu unit := check (
  return_if (flag_is_disabled guest_cr0.paging) ;>
  throw_if (flag_is_disabled guest_cr0.protection_enable)
    "PE must be enabled in cr0 if PG is enabled").

Definition guest_cr4_for_unsupported_bits : M cpu unit := check (
  cr4 <- vmcs_get guest_cr4.reg ;;
  ia32_vmx_cr4_fixed0 <- msr_get ia32_vmx_cr4_fixed0.reg ;;
  ia32_vmx_cr4_fixed1 <- msr_get ia32_vmx_cr4_fixed1.reg ;;
  throw_if (ret (negb (0 =? Z.lor (Z.land (not64 cr4) ia32_vmx_cr4_fixed0) (Z.land cr4 (not64 ia32_vmx_cr4_fixed1)))))
    "invalid cr4").

Definition guest_load_debug_controls_verify_reserved : M cpu unit := check (
  return_if (control_is_disabled vm_entry_controls.load_debug_controls) ;>
  throw_if (test (fun v => negb (v =? 0)) (bits_get guest_ia32_debugctl.reserved))
    "debug ctrl msr reserved bits must be 0").

Definition guest_verify_ia_32e_mode_enabled : M cpu unit := check (
  return_if (control_is_disabled vm_entry_controls.ia_32e_mode_guest) ;>
  throw_if (flag_is_disabled guest_cr0.paging)
    "paging must be enabled if ia 32e ::intel_x64::vmcs::guest mode is enabled" ;>
  throw_if (flag_is_disabled guest_cr4.physical_address_extensions)
    "pae must be enabled if ia 32e ::intel_x64::vmcs::guest mode is enabled").

Definition guest_verify_ia_32e_mode_disabled : M cpu unit := check (
  return_if (control_is_enabled vm_entry_controls.ia_32e_mode_guest) ;>
  throw_if (flag_is_enabled guest_cr4.pcid_enable_bit)
    "pcide in cr4 must be disabled if ia 32e ::intel_x64::vmcs::guest mode is disabled").

Definition guest_cr3_for_unsupported_bits : M cpu unit := check (
  throw_if (test (fun v => negb (is_physical_address_valid v)) (vmcs_get guest_cr3.reg))
    "guest cr3 too large").

Definition guest_load_debug_controls_verify_dr7 : M cpu unit := check (
  return_if (control_is_disabled vm_entry_controls.load_debug_controls) ;>
  dr7 <- vmcs_get guest_dr7.reg ;;
  throw_if (ret (negb (Z.land dr7 0xFFFFFFFF00000000 =? 0)))
    "bits 63:32 of dr7 must be 0 if load debug controls is 1").

Definition guest_ia32_sysenter_esp_canonical_address : M cpu unit := check (
  throw_if (test (fun v => negb (is_address_canonical v)) (vmcs_get guest_ia32_sysenter_esp.reg))
    "guest sysenter esp must be canonical").

Definition guest_ia32_sysenter_eip_canonical_address : M cpu unit := check (
  throw_if (test (fun v => negb (is_address_canonical v)) (vmcs_get guest_ia32_sysenter_eip.reg))
    "guest sysenter eip must be canonical").

Definition guest_verify_load_ia32_perf_global_ctrl : M cpu unit := check (
  return_if (control_is_disabled vm_entry_controls.load_ia32_perf_global_ctrl) ;>
  throw_if (test (fun v => negb (v =? 0)) (bits_get guest_ia32_perf_global_ctrl.reserved))
    "perf global ctrl msr reserved bits must be 0").

Definition guest_verify_load_ia32_pat : M cpu unit := check (
  return_if (control_is_disabled vm_entry_controls.load_ia32_pat) ;>
  throw_if (test (fun v => memory_type_reserved v) (bits_get guest_ia32_pat.pa0_memory_type))
    "pat0 has a reserved memory type" ;>
  throw_if (test (fun v => memory_type_reserved v) (bits_get guest_ia32_pat.pa1_memory_type))
    "pat1 has a reserved memory type" ;>
  throw_if (test (fun v => memory_type_reserved v) (bits_get guest_ia32_pat.pa2_memory_type))
    "pat2 has a reserved memory type" ;>
  throw_if (test (fun v => memory_type_reserved v) (bits_get guest_ia32_pat.pa3_memory_type))
    "pat3 has a reserved memory type" ;>
  throw_if (test (fun v => memory_type_reserved v) (bits_get guest_ia32_pat.pa4_memory_type))
    "pat4 has a reserved memory type" ;>
  throw_if (test (fun v => memory_type_reserved v) (bits_get guest_ia32_pat.pa5_memory_type))
    "pat5 has a reserved memory type" ;>
  throw_if (test (fun v => memory_type_reserved v) (bits_get guest_ia32_pat.pa6_memory_type))
    "pat6 has a reserved memory type" ;>
  throw_if (test (fun v => memory_type_reserved v) (bits_get guest_ia32_pat.pa7_memory_type))
    "pat7 has a reserved memory type").

Definition guest_verify_load_ia32_efer : M cpu unit := check (
  return_if (control_is_disabled vm_entry_controls.load_ia32_efer) ;>
  throw_if (test (fun v => negb (v =? 0)) (bits_get guest_ia32_efer.reserved))
    "ia32 efer msr reserved buts must be 0 if load ia32 efer entry is enabled" ;>
  lma <- flag_is_enabled guest_ia32_efer.lma ;;
  lme <- flag_is_enabled guest_ia32_efer.lme ;;
  throw_if (and_then (control_is_disabled vm_entry_controls.ia_32e_mode_guest) (ret (lma)))
    "ia 32e mode is 0, but efer.lma is 1" ;>
  throw_if (and_then (control_is_enabled vm_entry_controls.ia_32e_mode_guest) (ret (negb lma)))
    "ia 32e mode is 1, but efer.lma is 0" ;>
  return_if (flag_is_disabled guest_cr0.paging) ;>
  throw_if (ret ((negb lme) && lma))
    "efer.lme is 0, but efer.lma is 1" ;>
  throw_if (ret (lme && (negb lma)))
    "efer.lme is 1, but efer.lma is 0").

Definition guest_verify_load_ia32_bndcfgs : M cpu unit := check (
  return_if (control_is_disabled vm_entry_controls.load_ia32_bndcfgs) ;>
  bndcfgs <- vmcs_get guest_ia32_bndcfgs.reg ;;
  throw_if (ret (negb (Z.land bndcfgs 0x0000000000000FFC =? 0)))
    "ia32 bndcfgs msr reserved bits must be 0 if load ia32 bndcfgs entry is enabled" ;>
  let bound_addr := Z.land bndcfgs 0xFFFFFFFFFFFFF000 in
  throw_if (ret (negb (is_address_canonical bound_addr)))
    "bound address in ia32 bndcfgs msr must be canonical if load ia32 bndcfgs entry is enabled").

Definition guest_tr_ti_bit_equals_0 : M cpu unit := check (
  throw_if (flag_is_enabled guest_tr_selector.ti)
    "guest tr's ti flag must be zero").

Definition guest_ldtr_ti_bit_equals_0 : M cpu unit := check (
  return_if (flag_is_enabled guest_ldtr_access_rights.unusable) ;>
  throw_if (flag_is_enabled guest_ldtr_selector.ti)
    "guest ldtr's ti flag must be zero").

Definition guest_ss_and_cs_rpl_are_the_same : M cpu unit := check (
  return_if (flag_is_enabled guest_rflags.virtual_8086_mode) ;>
  return_if (and_then (flag_is_enabled_if_exists (vc_flag secondary_processor_based_vm_execution_controls.unrestricted_guest)) (control_is_enabled primary_processor_based_vm_execution_controls.activate_secondary_controls)) ;>
  throw_if (test2 (fun v v' => negb (v =? v')) (bits_get guest_ss_selector.rpl) (bits_get guest_cs_selector.rpl))
    "ss and cs rpl must be the same").

Definition guest_cs_base_is_shifted : M cpu unit := check (
  return_if (flag_is_disabled guest_rflags.virtual_8086_mode) ;>
  cs <- vmcs_get guest_cs_selector.reg ;;
  throw_if (test (fun v => negb (shl64 cs 4 =? v)) (vmcs_get guest_cs_base.reg))
    "if virtual 8086 mode is enabled, cs base must be cs shifted 4 bits").

Definition guest_ss_base_is_shifted : M cpu unit := check (
  return_if (flag_is_disabled guest_rflags.virtual_8086_mode) ;>
  ss <- vmcs_get guest_ss_selector.reg ;;
  throw_if (test (fun v => negb (shl64 ss 4 =? v)) (vmcs_get guest_ss_base.reg))
    "if virtual 8086 mode is enabled, ss base must be ss shifted 4 bits").

Definition guest_ds_base_is_shifted : M cpu unit := check (
  return_if (flag_is_disabled guest_rflags.virtual_8086_mode) ;>
  ds <- vmcs_get guest_ds_selector.reg ;;
  throw_if (test (fun v => negb (shl64 ds 4 =? v)) (vmcs_get guest_ds_base.reg))
    "if virtual 8086 mode is enabled, ds base must be ds shifted 4 bits").

Definition guest_es_base_is_shifted : M cpu unit := check (
  return_if (flag_is_disabled guest_rflags.virtual_8086_mode) ;>
  es <- vmcs_get guest_es_selector.reg ;;
  throw_if (test (fun v => negb (shl64 es 4 =? v)) (vmcs_get guest_es_base.reg))
    "if virtual 8086 mode is enabled, es base must be es shifted 4 bits").

Definition guest_fs_base_is_shifted : M cpu unit := check (
  return_if (flag_is_disabled guest_rflags.virtual_8086_mode) ;>
  fs <- vmcs_get guest_fs_selector.reg ;;
  throw_if (test (fun v => negb (shl64 fs 4 =? v)) (vmcs_get guest_fs_base.reg))
    "if virtual 8086 mode is enabled, fs base must be fs shifted 4 bits").

Definition guest_gs_base_is_shifted : M cpu unit := check (
  return_if (flag_is_disabled guest_rflags.virtual_8086_mode) ;>
  gs <- vmcs_get guest_gs_selector.reg ;;
  throw_if (test (fun v => negb (shl64 gs 4 =? v)) (vmcs_get guest_gs_base.reg))
    "if virtual 8086 mode is enabled, gs base must be gs shift 4 bits").

Definition guest_tr_base_is_canonical : M cpu unit := check (
  throw_if (test (fun v => negb (is_address_canonical v)) (vmcs_get guest_tr_base.reg))
    "guest tr base non-canonical").

Definition guest_fs_base_is_canonical : M cpu unit := check (
  throw_if (test (fun v => negb (is_address_canonical v)) (vmcs_get guest_fs_base.reg))
    "guest fs base non-canonical").

Definition guest_gs_base_is_canonical : M cpu unit := check (
  throw_if (test (fun v => negb (is_address_canonical v)) (vmcs_get guest_gs_base.reg))
    "guest gs base non-canonical").

Definition guest_ldtr_base_is_canonical : M cpu unit := check (
  return_if (flag_is_enabled guest_ldtr_access_rights.unusable) ;>
  throw_if (test (fun v => negb (is_address_canonical v)) (vmcs_get guest_ldtr_base.reg))
    "guest ldtr base non-canonical").

Definition guest_cs_base_upper_dword_0 : M cpu unit := check (
  throw_if (test (fun v => negb (Z.land v 0xFFFFFFFF00000000 =? 0)) (vmcs_get guest_cs_base.reg))
    "guest cs base bits 63:32 must be 0").

Definition guest_ss_base_upper_dword_0 : M cpu unit := check (
  return_if (flag_is_enabled guest_ss_access_rights.unusable) ;>
  throw_if (test (fun v => negb (Z.land v 0xFFFFFFFF00000000 =? 0)) (vmcs_get guest_ss_base.reg))
    "guest ss base bits 63:32 must be 0").

Definition guest_ds_base_upper_dword_0 : M cpu unit := check (
  return_if (flag_is_enabled guest_ds_access_rights.unusable) ;>
  throw_if (test (fun v => negb (Z.land v 0xFFFFFFFF00000000 =? 0)) (vmcs_get guest_ds_base.reg))
    "guest ds base bits 63:32 must be 0").

Definition guest_es_base_upper_dword_0 : M cpu unit := check (
  return_if (flag_is_enabled guest_es_access_rights.unusable) ;>
  throw_if (test (fun v => negb (Z.land v 0xFFFFFFFF00000000 =? 0)) (vmcs_get guest_es_base.reg))
    "guest es base bits 63:32 must be 0").

Definition guest_cs_limit : M cpu unit := check (
  return_if (flag_is_disabled guest_rflags.virtual_8086_mode) ;>
  cs_limit <- vmcs_get guest_cs_limit.reg ;;
  throw_if (ret (negb (cs_limit =? 0x000000000000FFFF)))
    "if virtual 8086 mode is enabled, cs limit must be 0xFFFF").

Definition guest_ss_limit : M cpu unit := check (
  return_if (flag_is_disabled guest_rflags.virtual_8086_mode) ;>
  ss_limit <- vmcs_get guest_ss_limit.reg ;;
  throw_if (ret (negb (ss_limit =? 0x000000000000FFFF)))
    "if virtual 8086 mode is enabled, ss limit must be 0xFFFF").

Definition guest_ds_limit : M cpu unit := check (
  return_if (flag_is_disabled guest_rflags.virtual_8086_mode) ;>
  ds_limit <- vmcs_get guest_ds_limit.reg ;;
  throw_if (ret (negb (ds_limit =? 0x000000000000FFFF)))
    "if virtual 8086 mode is enabled, ds limit must be 0xFFFF").

Definition guest_es_limit : M cpu unit := check (
  return_if (flag_is_disabled guest_rflags.virtual_8086_mode) ;>
  es_limit <- vmcs_get guest_es_limit.reg ;;
  throw_if (ret (negb (es_limit =? 0x000000000000FFFF)))
    "if virtual 8086 mode is enabled, es limit must be 0xFFFF").

Definition guest_gs_limit : M cpu unit := check (
  return_if (flag_is_disabled guest_rflags.virtual_8086_mode) ;>
  gs_limit <- vmcs_get guest_gs_limit.reg ;;
  throw_if (ret (negb (gs_limit =? 0x000000000000FFFF)))
    "if virtual 8086 mode is enabled, gs limit must be 0xFFFF").

Definition guest_fs_limit : M cpu unit := check (
  return_if (flag_is_disabled guest_rflags.virtual_8086_mode) ;>
  fs_limit <- vmcs_get guest_fs_limit.reg ;;
  throw_if (ret (negb (fs_limit =? 0x000000000000FFFF)))
    "if virtual 8086 mode is enabled, fs limit must be 0xFFFF").

Definition guest_v8086_cs_access_rights : M cpu unit := check (
  return_if (flag_is_disabled guest_rflags.virtual_8086_mode) ;>
  throw_if (test (fun v => negb (v =? 0x00000000000000F3)) (vmcs_get guest_cs_access_rights.reg))
    "if virtual 8086 mode is enabled, cs access rights must be 0x00F3").

Definition guest_v8086_ss_access_rights : M cpu unit := check (
  return_if (flag_is_disabled guest_rflags.virtual_8086_mode) ;>
  throw_if (test (fun v => negb (v =? 0x00000000000000F3)) (vmcs_get guest_ss_access_rights.reg))
    "if virtual 8086 mode is enabled, ss access rights must be 0x00F3").

Definition guest_v8086_ds_access_rights : M cpu unit := check (
  return_if (flag_is_disabled guest_rflags.virtual_8086_mode) ;>
  throw_if (test (fun v => negb (v =? 0x00000000000000F3)) (vmcs_get guest_ds_access_rights.reg))
    "if virtual 8086 mode is enabled, ds access rights must be 0x00F3").

Definition guest_v8086_es_access_rights : M cpu unit := check (
  return_if (flag_is_disabled guest_rflags.virtual_8086_mode) ;>
  throw_if (test (fun v => negb (v =? 0x00000000000000F3)) (vmcs_get guest_es_access_rights.reg))
    "if virtual 8086 mode is enabled, es access rights must be 0x00F3").

Definition guest_v8086_fs_access_rights : M cpu unit := check (
  return_if (flag_is_disabled guest_rflags.virtual_8086_mode) ;>
  throw_if (test (fun v => negb (v =? 0x00000000000000F3)) (vmcs_get guest_fs_access_rights.reg))
    "if virtual 8086 mode is enabled, fs access rights must be 0x00F3").

Definition guest_v8086_gs_access_rights : M cpu unit := check (
  return_if (flag_is_disabled guest_rflags.virtual_8086_mode) ;>
  throw_if (test (fun v => negb (v =? 0x00000000000000F3)) (vmcs_get guest_gs_access_rights.reg))
    "if virtual 8086 mode is enabled, gs access rights must be 0x00F3").

Definition guest_cs_access_rights_type : M cpu unit := check (
  return_if (flag_is_enabled guest_rflags.virtual_8086_mode) ;>
  (v <- bits_get guest_cs_access_rights.type ;;
   if v =? access_rights.read_write_accessed then
     if_ (control_is_disabled primary_processor_based_vm_execution_controls.activate_secondary_controls) (ret false)
       (if_ (flag_is_disabled_if_exists (vc_flag secondary_processor_based_vm_execution_controls.unrestricted_guest)) (ret false)
          return_)
   else if (v =? access_rights.execute_only_accessed) || (v =? access_rights.read_execute_accessed) || (v =? access_rights.execute_only_conforming_accessed) || (v =? access_rights.read_execute_conforming_accessed) then
     return_
   else
     ret false) ;>
  fails "guest cs type must be 9, 11, 13, 15, or 3 (if unrestricted ::intel_x64::vmcs::guest support is enabled)").

Definition guest_ss_access_rights_type : M cpu unit := check (
  return_if (flag_is_enabled guest_rflags.virtual_8086_mode) ;>
  return_if (flag_is_enabled guest_ss_access_rights.unusable) ;>
  (v <- bits_get guest_ss_access_rights.type ;;
   if (v =? access_rights.read_write_accessed) || (v =? access_rights.read_write_expand_down_accessed) then
    return_
   else
    ret false) ;>
  fails "guest ss type must be 3 or 7").

Definition guest_ds_access_rights_type : M cpu unit := check (
  return_if (flag_is_enabled guest_rflags.virtual_8086_mode) ;>
  return_if (flag_is_enabled guest_ds_access_rights.unusable) ;>
  (v <- bits_get guest_ds_access_rights.type ;;
   if (v =? access_rights.read_only_accessed) || (v =? access_rights.read_write_accessed) || (v =? access_rights.read_only_expand_down_accessed) || (v =? access_rights.read_write_expand_down_accessed) || (v =? access_rights.read_execute_accessed) || (v =? access_rights.read_execute_conforming_accessed) then
    return_
   else
    ret false) ;>
  fails "guest ds type must be 1, 3, 5, 7, 11, or 15").

Definition guest_es_access_rights_type : M cpu unit := check (
  return_if (flag_is_enabled guest_rflags.virtual_8086_mode) ;>
  return_if (flag_is_enabled guest_es_access_rights.unusable) ;>
  (v <- bits_get guest_es_access_rights.type ;;
   if (v =? access_rights.read_only_accessed) || (v =? access_rights.read_write_accessed) || (v =? access_rights.read_only_expand_down_accessed) || (v =? access_rights.read_write_expand_down_accessed) || (v =? access_rights.read_execute_accessed) || (v =? access_rights.read_execute_conforming_accessed) then
    return_
   else
    ret false) ;>
  fails "guest ds type must be 1, 3, 5, 7, 11, or 15").

Definition guest_fs_access_rights_type : M cpu unit := check (
  return_if (flag_is_enabled guest_rflags.virtual_8086_mode) ;>
  return_if (flag_is_enabled guest_fs_access_rights.unusable) ;>
  (v <- bits_get guest_fs_access_rights.type ;;
   if (v =? access_rights.read_only_accessed) || (v =? access_rights.read_write_accessed) || (v =? access_rights.read_only_expand_down_accessed) || (v =? access_rights.read_write_expand_down_accessed) || (v =? access_rights.read_execute_accessed) || (v =? access_rights.read_execute_conforming_accessed) then
    return_
   else
    ret false) ;>
  fails "guest fs type must be 1, 3, 5, 7, 11, or 15").

Definition guest_gs_access_rights_type : M cpu unit := check (
  return_if (flag_is_enabled guest_rflags.virtual_8086_mode) ;>
  return_if (flag_is_enabled guest_gs_access_rights.unusable) ;>
  (v <- bits_get guest_gs_access_rights.type ;;
   if (v =? access_rights.read_only_accessed) || (v =? access_rights.read_write_accessed) || (v =? access_rights.read_only_expand_down_accessed) || (v =? access_rights.read_write_expand_down_accessed) || (v =? access_rights.read_execute_accessed) || (v =? access_rights.read_execute_conforming_accessed) then
    return_
   else
    ret false) ;>
  fails "guest gs type must be 1, 3, 5, 7, 11, or 15").

Definition guest_cs_is_not_a_system_descriptor : M cpu unit := check (
  return_if (flag_is_enabled guest_rflags.virtual_8086_mode) ;>
  throw_if (flag_is_disabled guest_cs_access_rights.s)
    "cs must be a code/data descriptor. S should equal 1").

Definition guest_ss_is_not_a_system_descriptor : M cpu unit := check (
  return_if (flag_is_enabled guest_rflags.virtual_8086_mode) ;>
  return_if (flag_is_enabled guest_ss_access_rights.unusable) ;>
  throw_if (flag_is_disabled guest_ss_access_rights.s)
    "ss must be a code/data descriptor. S should equal 1").

Definition guest_ds_is_not_a_system_descriptor : M cpu unit := check (
  return_if (flag_is_enabled guest_rflags.virtual_8086_mode) ;>
  return_if (flag_is_enabled guest_ds_access_rights.unusable) ;>
  throw_if (flag_is_disabled guest_ds_access_rights.s)
    "ds must be a code/data descriptor. S should equal 1").

Definition guest_es_is_not_a_system_descriptor : M cpu unit := check (
  return_if (flag_is_enabled guest_rflags.virtual_8086_mode) ;>
  return_if (flag_is_enabled guest_es_access_rights.unusable) ;>
  throw_if (flag_is_disabled guest_es_access_rights.s)
    "es must be a code/data descriptor. S should equal 1").

Definition guest_fs_is_not_a_system_descriptor : M cpu unit := check (
  return_if (flag_is_enabled guest_rflags.virtual_8086_mode) ;>
  return_if (flag_is_enabled guest_fs_access_rights.unusable) ;>
  throw_if (flag_is_disabled guest_fs_access_rights.s)
    "fs must be a code/data descriptor. S should equal 1").

Definition guest_gs_is_not_a_system_descriptor : M cpu unit := check (
  return_if (flag_is_enabled guest_rflags.virtual_8086_mode) ;>
  return_if (flag_is_enabled guest_gs_access_rights.unusable) ;>
  throw_if (flag_is_disabled guest_gs_access_rights.s)
    "gs must be a code/data descriptor. S should equal 1").

Definition guest_cs_type_not_equal_3 : M cpu unit := check (
  return_if (flag_is_enabled guest_rflags.virtual_8086_mode) ;>
  (v <- bits_get guest_cs_access_rights.type ;;
   if v =? access_rights.read_write_accessed then
    ret false
   else
    return_) ;>
  throw_if (test (fun v => negb (v =? 0)) (bits_get guest_cs_access_rights.dpl))
    "cs dpl must be 0 if type == 3").

Definition guest_cs_dpl_adheres_to_ss_dpl : M cpu unit := check (
  return_if (flag_is_enabled guest_rflags.virtual_8086_mode) ;>
  (v <- bits_get guest_cs_access_rights.type ;;
   if (v =? access_rights.execute_only_accessed) || (v =? access_rights.read_execute_accessed) then
    cs_dpl <- bits_get guest_cs_access_rights.dpl ;;
    ss_dpl <- bits_get guest_ss_access_rights.dpl ;;
    throw_if (ret (negb (cs_dpl =? ss_dpl)))
      "if cs access rights type is 9, 11 cs dpl must equal ss dpl"
   else if (v =? access_rights.execute_only_conforming_accessed) || (v =? access_rights.read_execute_conforming_accessed) then
    cs_dpl <- bits_get guest_cs_access_rights.dpl ;;
    ss_dpl <- bits_get guest_ss_access_rights.dpl ;;
    throw_if (ret (ss_dpl <? cs_dpl))
      "if cs access rights type is 13, 15 cs dpl must not be greater than ss dpl"
   else
    ret false)).

Definition guest_ss_dpl_must_equal_rpl : M cpu unit := check (
  return_if (flag_is_enabled guest_rflags.virtual_8086_mode) ;>
  return_if (and_then (flag_is_enabled_if_exists (vc_flag secondary_processor_based_vm_execution_controls.unrestricted_guest)) (control_is_enabled primary_processor_based_vm_execution_controls.activate_secondary_controls)) ;>
  ss_rpl <- bits_get guest_ss_selector.rpl ;;
  ss_dpl <- bits_get guest_ss_access_rights.dpl ;;
  throw_if (ret (negb (ss_dpl =? ss_rpl)))
    "if unrestricted ::intel_x64::vmcs::guest mode is disabled ss dpl must equal ss rpl").

Definition guest_ss_dpl_must_equal_zero : M cpu unit := check (
  return_if (flag_is_enabled guest_rflags.virtual_8086_mode) ;>
  (v <- bits_get guest_cs_access_rights.type ;;
   if v =? access_rights.read_write_accessed then
    ret false
   else
    return_if (flag_is_enabled guest_cr0.protection_enable)) ;>
  throw_if (test (fun v => negb (v =? 0)) (bits_get guest_ss_access_rights.dpl))
    "if cs type is 3 or protected mode is disabled, ss DPL must be 0").

Definition guest_ds_dpl : M cpu unit := check (
  return_if (flag_is_enabled guest_rflags.virtual_8086_mode) ;>
  return_if (and_then (flag_is_enabled_if_exists (vc_flag secondary_processor_based_vm_execution_controls.unrestricted_guest)) (control_is_enabled primary_processor_based_vm_execution_controls.activate_secondary_controls)) ;>
  return_if (flag_is_enabled guest_ds_access_rights.unusable) ;>
  (v <- bits_get guest_ds_access_rights.type ;;
   if (v =? access_rights.execute_only_conforming) || (v =? access_rights.execute_only_conforming_accessed) || (v =? access_rights.read_execute_conforming) || (v =? access_rights.read_execute_conforming_accessed) then
    return_
   else
    ret false) ;>
  ds_rpl <- bits_get guest_ds_selector.rpl ;;
  ds_dpl <- bits_get guest_ds_access_rights.dpl ;;
  throw_if (ret (ds_dpl <? ds_rpl))
    "if unrestricted ::intel_x64::vmcs::guest mode is disabled, and ds is usable, and the access rights type is in the range 0-11, dpl cannot be less than rpl").

Definition guest_es_dpl : M cpu unit := check (
  return_if (flag_is_enabled guest_rflags.virtual_8086_mode) ;>
  return_if (and_then (flag_is_enabled_if_exists (vc_flag secondary_processor_based_vm_execution_controls.unrestricted_guest)) (control_is_enabled primary_processor_based_vm_execution_controls.activate_secondary_controls)) ;>
  return_if (flag_is_enabled guest_es_access_rights.unusable) ;>
  (v <- bits_get guest_es_access_rights.type ;;
   if (v =? access_rights.execute_only_conforming) || (v =? access_rights.execute_only_conforming_accessed) || (v =? access_rights.read_execute_conforming) || (v =? access_rights.read_execute_conforming_accessed) then
    return_
   else
    ret false) ;>
  es_rpl <- bits_get guest_es_selector.rpl ;;
  es_dpl <- bits_get guest_es_access_rights.dpl ;;
  throw_if (ret (es_dpl <? es_rpl))
    "if unrestricted ::intel_x64::vmcs::guest mode is disabled, and es is usable, and the access rights type is in the range 0-11, dpl cannot be less than rpl").

Definition guest_fs_dpl : M cpu unit := check (
  return_if (flag_is_enabled guest_rflags.virtual_8086_mode) ;>
  return_if (and_then (flag_is_enabled_if_exists (vc_flag secondary_processor_based_vm_execution_controls.unrestricted_guest)) (control_is_enabled primary_processor_based_vm_execution_controls.activate_secondary_controls)) ;>
  return_if (flag_is_enabled guest_fs_access_rights.unusable) ;>
  (v <- bits_get guest_fs_access_rights.type ;;
   if (v =? access_rights.execute_only_conforming) || (v =? access_rights.execute_only_conforming_accessed) || (v =? access_rights.read_execute_conforming) || (v =? access_rights.read_execute_conforming_accessed) then
    return_
   else
    ret false) ;>
  fs_rpl <- bits_get guest_fs_selector.rpl ;;
  fs_dpl <- bits_get guest_fs_access_rights.dpl ;;
  throw_if (ret (fs_dpl <? fs_rpl))
    "if unrestricted ::intel_x64::vmcs::guest mode is disabled, and fs is usable, and the access rights type is in the range 0-11, dpl cannot be less than rpl").

Definition guest_gs_dpl : M cpu unit := check (
  return_if (flag_is_enabled guest_rflags.virtual_8086_mode) ;>
  return_if (and_then (flag_is_enabled_if_exists (vc_flag secondary_processor_based_vm_execution_controls.unrestricted_guest)) (control_is_enabled primary_processor_based_vm_execution_controls.activate_secondary_controls)) ;>
  return_if (flag_is_enabled guest_gs_access_rights.unusable) ;>
  (v <- bits_get guest_gs_access_rights.type ;;
   if (v =? access_rights.execute_only_conforming) || (v =? access_rights.execute_only_conforming_accessed) || (v =? access_rights.read_execute_conforming) || (v =? access_rights.read_execute_conforming_accessed) then
    return_
   else
    ret false) ;>
  gs_rpl <- bits_get guest_gs_selector.rpl ;;
  gs_dpl <- bits_get guest_gs_access_rights.dpl ;;
  throw_if (ret (gs_dpl <? gs_rpl))
    "if unrestricted ::intel_x64::vmcs::guest mode is disabled, and gs is usable, and the access rights type is in the range 0-11, dpl cannot be less than rpl").

Definition guest_cs_must_be_present : M cpu unit := check (
  return_if (flag_is_enabled guest_rflags.virtual_8086_mode) ;>
  throw_if (flag_is_disabled guest_cs_access_rights.present)
    "cs access rights present flag must be 1 ").

Definition guest_ss_must_be_present_if_usable : M cpu unit := check (
  return_if (flag_is_enabled guest_rflags.virtual_8086_mode) ;>
  return_if (flag_is_enabled guest_ss_access_rights.unusable) ;>
  throw_if (flag_is_disabled guest_ss_access_rights.present)
    "ss access rights present flag must be 1 if ss is usable").

Definition guest_ds_must_be_present_if_usable : M cpu unit := check (
  return_if (flag_is_enabled guest_rflags.virtual_8086_mode) ;>
  return_if (flag_is_enabled guest_ds_access_rights.unusable) ;>
  throw_if (flag_is_disabled guest_ds_access_rights.present)
    "ds access rights present flag must be 1 if ds is usable").

Definition guest_es_must_be_present_if_usable : M cpu unit := check (
  return_if (flag_is_enabled guest_rflags.virtual_8086_mode) ;>
  return_if (flag_is_enabled guest_es_access_rights.unusable) ;>
  throw_if (flag_is_disabled guest_es_access_rights.present)
    "es access rights present flag must be 1 if es is usable").

Definition guest_fs_must_be_present_if_usable : M cpu unit := check (
  return_if (flag_is_enabled guest_rflags.virtual_8086_mode) ;>
  return_if (flag_is_enabled guest_fs_access_rights.unusable) ;>
  throw_if (flag_is_disabled guest_fs_access_rights.present)
    "fs access rights present flag must be 1 if fs is usable").

Definition guest_gs_must_be_present_if_usable : M cpu unit := check (
  return_if (flag_is_enabled guest_rflags.virtual_8086_mode) ;>
  return_if (flag_is_enabled guest_gs_access_rights.unusable) ;>
  throw_if (flag_is_disabled guest_gs_access_rights.present)
    "gs access rights present flag must be 1 if gs is usable").

Definition guest_cs_access_rights_reserved_must_be_0 : M cpu unit := check (
  return_if (flag_is_enabled guest_rflags.virtual_8086_mode) ;>
  throw_if (test (fun v => negb (v =? 0)) (bits_get guest_cs_access_rights.reserved))
    "cs access rights reserved bits must be 0 ").

Definition guest_ss_access_rights_reserved_must_be_0 : M cpu unit := check (
  return_if (flag_is_enabled guest_rflags.virtual_8086_mode) ;>
  return_if (flag_is_enabled guest_ss_access_rights.unusable) ;>
  throw_if (test (fun v => negb (v =? 0)) (bits_get guest_ss_access_rights.reserved))
    "ss access rights reserved bits must be 0 if ss is usable").

Definition guest_ds_access_rights_reserved_must_be_0 : M cpu unit := check (
  return_if (flag_is_enabled guest_rflags.virtual_8086_mode) ;>
  return_if (flag_is_enabled guest_ds_access_rights.unusable) ;>
  throw_if (test (fun v => negb (v =? 0)) (bits_get guest_ds_access_rights.reserved))
    "ds access rights reserved bits must be 0 if ds is usable").

Definition guest_es_access_rights_reserved_must_be_0 : M cpu unit := check (
  return_if (flag_is_enabled guest_rflags.virtual_8086_mode) ;>
  return_if (flag_is_enabled guest_es_access_rights.unusable) ;>
  throw_if (test (fun v => negb (v =? 0)) (bits_get guest_es_access_rights.reserved))
    "es access rights reserved bits must be 0 if es is usable").

Definition guest_fs_access_rights_reserved_must_be_0 : M cpu unit := check (
  return_if (flag_is_enabled guest_rflags.virtual_8086_mode) ;>
  return_if (flag_is_enabled guest_fs_access_rights.unusable) ;>
  throw_if (test (fun v => negb (v =? 0)) (bits_get guest_fs_access_rights.reserved))
    "fs access rights reserved bits must be 0 if fs is usable").

Definition guest_gs_access_rights_reserved_must_be_0 : M cpu unit := check (
  return_if (flag_is_enabled guest_rflags.virtual_8086_mode) ;>
  return_if (flag_is_enabled guest_gs_access_rights.unusable) ;>
  throw_if (test (fun v => negb (v =? 0)) (bits_get guest_gs_access_rights.reserved))
    "gs access rights reserved bits must be 0 if gs is usable").

Definition guest_cs_db_must_be_0_if_l_equals_1 : M cpu unit := check (
  return_if (flag_is_enabled guest_rflags.virtual_8086_mode) ;>
  return_if (control_is_disabled vm_entry_controls.ia_32e_mode_guest) ;>
  return_if (flag_is_disabled guest_cs_access_rights.l) ;>
  throw_if (flag_is_enabled guest_cs_access_rights.db)
    "d/b for ::intel_x64::vmcs::guest cs must be 0 if in ia 32e mode and l == 1").

Definition guest_cs_granularity : M cpu unit := check (
  return_if (flag_is_enabled guest_rflags.virtual_8086_mode) ;>
  cs_limit <- vmcs_get guest_cs_limit.reg ;;
  g <- flag_is_enabled guest_cs_access_rights.granularity ;;
  throw_if (ret ((negb (Z.land cs_limit 0x00000FFF =? 0x00000FFF)) && g))
    "guest cs granularity must be 0 if any bit 11:0 is 0" ;>
  throw_if (ret ((negb (Z.land cs_limit 0xFFF00000 =? 0x00000000)) && (negb g)))
    "guest cs granularity must be 1 if any bit 31:20 is 1").

Definition guest_ss_granularity : M cpu unit := check (
  return_if (flag_is_enabled guest_rflags.virtual_8086_mode) ;>
  ss_limit <- vmcs_get guest_ss_limit.reg ;;
  g <- flag_is_enabled guest_ss_access_rights.granularity ;;
  return_if (flag_is_enabled guest_ss_access_rights.unusable) ;>
  throw_if (ret ((negb (Z.land ss_limit 0x00000FFF =? 0x00000FFF)) && g))
    "guest ss granularity must be 0 if any bit 11:0 is 0" ;>
  throw_if (ret ((negb (Z.land ss_limit 0xFFF00000 =? 0x00000000)) && (negb g)))
    "guest ss granularity must be 1 if any bit 31:20 is 1").

Definition guest_ds_granularity : M cpu unit := check (
  return_if (flag_is_enabled guest_rflags.virtual_8086_mode) ;>
  ds_limit <- vmcs_get guest_ds_limit.reg ;;
  g <- flag_is_enabled guest_ds_access_rights.granularity ;;
  return_if (flag_is_enabled guest_ds_access_rights.unusable) ;>
  throw_if (ret ((negb (Z.land ds_limit 0x00000FFF =? 0x00000FFF)) && g))
    "guest ds granularity must be 0 if any bit 11:0 is 0" ;>
  throw_if (ret ((negb (Z.land ds_limit 0xFFF00000 =? 0x00000000)) && (negb g)))
    "guest ds granularity must be 1 if any bit 31:20 is 1").

Definition guest_es_granularity : M cpu unit := check (
  return_if (flag_is_enabled guest_rflags.virtual_8086_mode) ;>
  es_limit <- vmcs_get guest_es_limit.reg ;;
  g <- flag_is_enabled guest_es_access_rights.granularity ;;
  return_if (flag_is_enabled guest_es_access_rights.unusable) ;>
  throw_if (ret ((negb (Z.land es_limit 0x00000FFF =? 0x00000FFF)) && g))
    "guest es granularity must be 0 if any bit 11:0 is 0" ;>
  throw_if (ret ((negb (Z.land es_limit 0xFFF00000 =? 0x00000000)) && (negb g)))
    "guest es granularity must be 1 if any bit 31:20 is 1").

Definition guest_fs_granularity : M cpu unit := check (
  return_if (flag_is_enabled guest_rflags.virtual_8086_mode) ;>
  fs_limit <- vmcs_get guest_fs_limit.reg ;;
  g <- flag_is_enabled guest_fs_access_rights.granularity ;;
  return_if (flag_is_enabled guest_fs_access_rights.unusable) ;>
  throw_if (ret ((negb (Z.land fs_limit 0x00000FFF =? 0x00000FFF)) && g))
    "guest fs granularity must be 0 if any bit 11:0 is 0" ;>
  throw_if (ret ((negb (Z.land fs_limit 0xFFF00000 =? 0x00000000)) && (negb g)))
    "guest fs granularity must be 1 if any bit 31:20 is 1").

Definition guest_gs_granularity : M cpu unit := check (
  return_if (flag_is_enabled guest_rflags.virtual_8086_mode) ;>
  gs_limit <- vmcs_get guest_gs_limit.reg ;;
  g <- flag_is_enabled guest_gs_access_rights.granularity ;;
  return_if (flag_is_enabled guest_gs_access_rights.unusable) ;>
  throw_if (ret ((negb (Z.land gs_limit 0x00000FFF =? 0x00000FFF)) && g))
    "guest gs granularity must be 0 if any bit 11:0 is 0" ;>
  throw_if (ret ((negb (Z.land gs_limit 0xFFF00000 =? 0x00000000)) && (negb g)))
    "guest gs granularity must be 1 if any bit 31:20 is 1").

Definition guest_cs_access_rights_remaining_reserved_bit_0 : M cpu unit := check (
  return_if (flag_is_enabled guest_rflags.virtual_8086_mode) ;>
  throw_if (test (fun v => negb (Z.land v 0xFFFE0000 =? 0)) (vmcs_get guest_cs_access_rights.reg))
    "guest cs access rights bits 31:17 must be 0").

Definition guest_ss_access_rights_remaining_reserved_bit_0 : M cpu unit := check (
  return_if (flag_is_enabled guest_rflags.virtual_8086_mode) ;>
  return_if (flag_is_enabled guest_ss_access_rights.unusable) ;>
  throw_if (test (fun v => negb (Z.land v 0xFFFE0000 =? 0)) (vmcs_get guest_ss_access_rights.reg))
    "guest ss access rights bits 31:17 must be 0").

Definition guest_ds_access_rights_remaining_reserved_bit_0 : M cpu unit := check (
  return_if (flag_is_enabled guest_rflags.virtual_8086_mode) ;>
  return_if (flag_is_enabled guest_ds_access_rights.unusable) ;>
  throw_if (test (fun v => negb (Z.land v 0xFFFE0000 =? 0)) (vmcs_get guest_ds_access_rights.reg))
    "guest ds access rights bits 31:17 must be 0").

Definition guest_es_access_rights_remaining_reserved_bit_0 : M cpu unit := check (
  return_if (flag_is_enabled guest_rflags.virtual_8086_mode) ;>
  return_if (flag_is_enabled guest_es_access_rights.unusable) ;>
  throw_if (test (fun v => negb (Z.land v 0xFFFE0000 =? 0)) (vmcs_get guest_es_access_rights.reg))
    "guest es access rights bits 31:17 must be 0").

Definition guest_fs_access_rights_remaining_reserved_bit_0 : M cpu unit := check (
  return_if (flag_is_enabled guest_rflags.virtual_8086_mode) ;>
  return_if (flag_is_enabled guest_fs_access_rights.unusable) ;>
  throw_if (test (fun v => negb (Z.land v 0xFFFE0000 =? 0)) (vmcs_get guest_fs_access_rights.reg))
    "guest fs access rights bits 31:17 must be 0").

Definition guest_gs_access_rights_remaining_reserved_bit_0 : M cpu unit := check (
  return_if (flag_is_enabled guest_rflags.virtual_8086_mode) ;>
  return_if (flag_is_enabled guest_gs_access_rights.unusable) ;>
  throw_if (test (fun v => negb (Z.land v 0xFFFE0000 =? 0)) (vmcs_get guest_gs_access_rights.reg))
    "guest gs access rights bits 31:17 must be 0").

Definition guest_tr_type_must_be_11 : M cpu unit := check (
  rights <- bits_get guest_tr_access_rights.type ;;
  if rights =? access_rights.read_write_accessed then
    throw_if (control_is_enabled vm_entry_controls.ia_32e_mode_guest)
      "tr type cannot be 3 if ia_32e_mode_guest is enabled" ;>
    return_
  else if rights =? access_rights.read_execute_accessed then return_
  else fails ("tr type must be 3 or 11, received " ++ pretty (Z.land rights 0xF))).

Definition guest_tr_must_be_a_system_descriptor : M cpu unit := check (
  throw_if (flag_is_enabled guest_tr_access_rights.s)
    "tr must be a system descriptor. S should equal 0").

Definition guest_tr_must_be_present : M cpu unit := check (
  throw_if (flag_is_disabled guest_tr_access_rights.present)
    "tr access rights present flag must be 1 ").

Definition guest_tr_access_rights_reserved_must_be_0 : M cpu unit := check (
  throw_if (test (fun v => negb (v =? 0)) (bits_get guest_tr_access_rights.reserved))
    "tr access rights bits 11:8 must be 0").

Definition guest_tr_granularity : M cpu unit := check (
  tr_limit <- vmcs_get guest_tr_limit.reg ;;
  g <- flag_is_enabled guest_tr_access_rights.granularity ;;
  throw_if (ret ((negb (Z.land tr_limit 0x00000FFF =? 0x00000FFF)) && g))
    "guest tr granularity must be 0 if any bit 11:0 is 0" ;>
  throw_if (ret ((negb (Z.land tr_limit 0xFFF00000 =? 0x00000000)) && (negb g)))
    "guest tr granularity must be 1 if any bit 31:20 is 1").

Definition guest_tr_must_be_usable : M cpu unit := check (
  throw_if (flag_is_enabled guest_tr_access_rights.unusable)
    "tr must be usable").

Definition guest_tr_access_rights_remaining_reserved_bit_0 : M cpu unit := check (
  throw_if (test (fun v => negb (v =? 0)) (bits_get guest_tr_access_rights.reserved))
    "guest tr access rights bits 31:17 must be 0").

Definition guest_ldtr_type_must_be_2 : M cpu unit := check (
  return_if (flag_is_enabled guest_ldtr_access_rights.unusable) ;>
  (v <- bits_get guest_ldtr_access_rights.type ;;
   if v =? access_rights.read_write then
    ret false
   else
    fails "guest ldtr type must 2")).

Definition guest_ldtr_must_be_a_system_descriptor : M cpu unit := check (
  return_if (flag_is_enabled guest_ldtr_access_rights.unusable) ;>
  throw_if (flag_is_enabled guest_ldtr_access_rights.s)
    "ldtr must be a system descriptor. S should equal 0").

Definition guest_ldtr_must_be_present : M cpu unit := check (
  return_if (flag_is_enabled guest_ldtr_access_rights.unusable) ;>
  throw_if (flag_is_disabled guest_ldtr_access_rights.present)
    "ldtr access rights present flag must be 1 if ldtr is usable").

Definition guest_ldtr_access_rights_reserved_must_be_0 : M cpu unit := check (
  return_if (flag_is_enabled guest_ldtr_access_rights.unusable) ;>
  throw_if (test (fun v => negb (v =? 0)) (bits_get guest_ldtr_access_rights.reserved))
    "ldtr access rights bits 11:8 must be 0").

Definition guest_ldtr_granularity : M cpu unit := check (
  return_if (flag_is_enabled guest_ldtr_access_rights.unusable) ;>
  ldtr_limit <- vmcs_get guest_ldtr_limit.reg ;;
  g <- flag_is_enabled guest_ldtr_access_rights.granularity ;;
  throw_if (ret ((negb (Z.land ldtr_limit 0x00000FFF =? 0x00000FFF)) && g))
    "guest ldtr granularity must be 0 if any bit 11:0 is 0" ;>
  throw_if (ret ((negb (Z.land ldtr_limit 0xFFF00000 =? 0x00000000)) && (negb g)))
    "guest ldtr granularity must be 1 if any bit 31:20 is 1").

Definition guest_ldtr_access_rights_remaining_reserved_bit_0 : M cpu unit := check (
  return_if (flag_is_enabled guest_ldtr_access_rights.unusable) ;>
  ldtr_access <- vmcs_get guest_ldtr_access_rights.reg ;;
  throw_if (ret (negb (Z.land ldtr_access 0xFFFE0000 =? 0)))
    "guest ldtr access rights bits 31:17 must be 0 if ldtr is usable").

Definition guest_gdtr_base_must_be_canonical : M cpu unit := check (
  throw_if (test (fun v => negb (is_address_canonical v)) (vmcs_get guest_gdtr_base.reg))
    "gdtr base is non-canonical").

Definition guest_idtr_base_must_be_canonical : M cpu unit := check (
  throw_if (test (fun v => negb (is_address_canonical v)) (vmcs_get guest_idtr_base.reg))
    "idtr base is non-canonical").

Definition guest_gdtr_limit_reserved_bits : M cpu unit := check (
  gdtr_limit <- vmcs_get guest_gdtr_limit.reg ;;
  throw_if (ret (negb (Z.land gdtr_limit 0xFFFF0000 =? 0)))
    "gdtr limit bits 31:16 must be 0").

Definition guest_idtr_limit_reserved_bits : M cpu unit := check (
  idtr_limit <- vmcs_get guest_idtr_limit.reg ;;
  throw_if (ret (negb (Z.land idtr_limit 0xFFFF0000 =? 0)))
    "idtr limit bits 31:16 must be 0").

Definition guest_rip_upper_bits : M cpu unit := check (
  cs_l <- flag_is_enabled guest_cs_access_rights.l ;;
  return_if (and_then (control_is_enabled vm_entry_controls.ia_32e_mode_guest) (ret (cs_l))) ;>
  throw_if (test (fun v => negb (Z.land v 0xFFFFFFFF00000000 =? 0)) (vmcs_get guest_rip.reg))
    "rip bits 61:32 must 0 if IA 32e mode is disabled or cs L is disabled").

Definition guest_rip_valid_addr : M cpu unit := check (
  cs_l <- flag_is_enabled guest_cs_access_rights.l ;;
  return_if (control_is_disabled vm_entry_controls.ia_32e_mode_guest) ;>
  return_if (ret (negb cs_l)) ;>
  throw_if (test (fun v => negb (is_linear_address_valid v)) (vmcs_get guest_rip.reg))
    "rip bits must be canonical").

Definition guest_rflags_reserved_bits : M cpu unit := check (
  throw_if (test (fun v => negb (v =? 0)) (bits_get guest_rflags.reserved))
    "reserved bits in rflags must be 0" ;>
  throw_if (test (fun v => v =? 0) (bits_get guest_rflags.always_enabled))
    "always enabled bits in rflags must be 1").

Definition guest_rflags_vm_bit : M cpu unit := check (
  return_if (and_then (control_is_disabled vm_entry_controls.ia_32e_mode_guest) (flag_is_enabled guest_cr0.protection_enable)) ;>
  throw_if (flag_is_enabled guest_rflags.virtual_8086_mode)
    "rflags VM must be 0 if ia 32e mode is 1 or PE is 0").

Definition guest_rflag_interrupt_enable : M cpu unit := check (
  return_if (flag_is_disabled vm_entry_interruption_information.valid_bit) ;>
  return_if (test (fun v => negb (v =? vm_entry_interruption_information.interruption_type_external_interrupt)) (bits_get vm_entry_interruption_information.interruption_type)) ;>
  throw_if (flag_is_disabled guest_rflags.interrupt_enable_flag)
    "rflags IF must be 1 if the valid bit is 1 and interrupt type is external").

Definition guest_valid_activity_state : M cpu unit := check (
  throw_if (test (fun v => 3 <? v) (vmcs_get guest_activity_state.reg))
    "activity state must be 0 - 3").

Definition guest_activity_state_not_hlt_when_dpl_not_0 : M cpu unit := check (
  return_if (test (fun v => negb (v =? guest_activity_state.hlt)) (vmcs_get guest_activity_state.reg)) ;>
  throw_if (test (fun v => negb (v =? 0)) (bits_get guest_ss_access_rights.dpl))
    "ss.dpl must be 0 if activity state is HLT").

Definition guest_must_be_active_if_injecting_blocking_state : M cpu unit := check (
  return_if (test (fun v => v =? guest_activity_state.active) (vmcs_get guest_activity_state.reg)) ;>
  throw_if (flag_is_enabled guest_interruptibility_state.blocking_by_sti)
    "activity state must be active if interruptibility state is sti" ;>
  throw_if (flag_is_enabled guest_interruptibility_state.blocking_by_mov_ss)
    "activity state must be active if interruptibility state is mov-ss").

Definition guest_hlt_valid_interrupts : M cpu unit := check (
  return_if (flag_is_disabled vm_entry_interruption_information.valid_bit) ;>
  return_if (test (fun v => negb (v =? guest_activity_state.hlt)) (vmcs_get guest_activity_state.reg)) ;>
  type <- bits_get vm_entry_interruption_information.interruption_type ;;
  vector <- bits_get vm_entry_interruption_information.vector ;;
  (   if (type =? vm_entry_interruption_information.interruption_type_external_interrupt) || (type =? vm_entry_interruption_information.interruption_type_non_maskable_interrupt) then
    return_
   else if type =? vm_entry_interruption_information.interruption_type_hardware_exception then
    return_if (ret (vector =? exception.debug_exception)) ;>
    return_if (ret (vector =? exception.machine_check))
   else if type =? vm_entry_interruption_information.interruption_type_other_event then
    return_if (ret (vector =? exception.divide_error))
   else
    ret false) ;>
  fails "invalid interruption combination for ::intel_x64::vmcs::guest hlt").

Definition guest_shutdown_valid_interrupts : M cpu unit := check (
  return_if (flag_is_disabled vm_entry_interruption_information.valid_bit) ;>
  return_if (test (fun v => negb (v =? guest_activity_state.shutdown)) (vmcs_get guest_activity_state.reg)) ;>
  type <- bits_get vm_entry_interruption_information.interruption_type ;;
  vector <- bits_get vm_entry_interruption_information.vector ;;
  (   if type =? vm_entry_interruption_information.interruption_type_non_maskable_interrupt then
    return_
   else if type =? vm_entry_interruption_information.interruption_type_hardware_exception then
    return_if (ret (vector =? exception.machine_check))
   else
    ret false) ;>
  fails "invalid interruption combination for ::intel_x64::vmcs::guest shutdown").

Definition guest_sipi_valid_interrupts : M cpu unit := check (
  return_if (flag_is_disabled vm_entry_interruption_information.valid_bit) ;>
  return_if (test (fun v => negb (v =? guest_activity_state.wait_for_sipi)) (vmcs_get guest_activity_state.reg)) ;>
  fails "invalid interruption combination").

Definition guest_valid_activity_state_and_smm : M cpu unit := check (
  return_if (control_is_disabled vm_entry_controls.entry_to_smm) ;>
  return_if (test (fun v => negb (v =? guest_activity_state.wait_for_sipi)) (vmcs_get guest_activity_state.reg)) ;>
  fails "activity state must not equal wait for sipi if entry to smm is enabled").

Definition guest_interruptibility_state_reserved : M cpu unit := check (
  throw_if (test (fun v => negb (v =? 0)) (bits_get guest_interruptibility_state.reserved))
    "interruptibility state reserved bits 31:5 must be 0").

Definition guest_interruptibility_state_sti_mov_ss : M cpu unit := check (
  sti <- flag_is_enabled guest_interruptibility_state.blocking_by_sti ;;
  mov_ss <- flag_is_enabled guest_interruptibility_state.blocking_by_mov_ss ;;
  throw_if (ret (sti && mov_ss))
    "interruptibility state sti and mov ss cannot both be 1").

Definition guest_interruptibility_state_sti : M cpu unit := check (
  return_if (flag_is_enabled guest_rflags.interrupt_enable_flag) ;>
  throw_if (flag_is_enabled guest_interruptibility_state.blocking_by_sti)
    "interruptibility state sti must be 0 if rflags interrupt enabled is 0").

Definition guest_interruptibility_state_external_interrupt : M cpu unit := check (
  return_if (flag_is_disabled vm_entry_interruption_information.valid_bit) ;>
  return_if (test (fun v => negb (v =? vm_entry_interruption_information.interruption_type_external_interrupt)) (bits_get vm_entry_interruption_information.interruption_type)) ;>
  throw_if (flag_is_enabled guest_interruptibility_state.blocking_by_sti)
    "interruptibility state sti must be 0 if interrupt type is external and valid" ;>
  throw_if (flag_is_enabled guest_interruptibility_state.blocking_by_mov_ss)
    "interruptibility state mov_ss must be 0 if interrupt type is external and valid").

Definition guest_interruptibility_state_nmi : M cpu unit := check (
  return_if (flag_is_disabled vm_entry_interruption_information.valid_bit) ;>
  return_if (test (fun v => negb (v =? vm_entry_interruption_information.interruption_type_non_maskable_interrupt)) (bits_get vm_entry_interruption_information.interruption_type)) ;>
  throw_if (flag_is_enabled guest_interruptibility_state.blocking_by_mov_ss)
    "valid interrupt type must not be nmi if interruptibility state is mov-ss").

Definition guest_interruptibility_not_in_smm : M cpu unit := check (
  ret false).

Definition guest_interruptibility_entry_to_smm : M cpu unit := check (
  return_if (control_is_disabled vm_entry_controls.entry_to_smm) ;>
  throw_if (flag_is_disabled guest_interruptibility_state.blocking_by_smi)
    "interruptibility state smi must be enabled if entry to smm is enabled").

Definition guest_interruptibility_state_sti_and_nmi : M cpu unit := check (
  return_if (flag_is_disabled vm_entry_interruption_information.valid_bit) ;>
  return_if (test (fun v => negb (v =? vm_entry_interruption_information.interruption_type_non_maskable_interrupt)) (bits_get vm_entry_interruption_information.interruption_type)) ;>
  throw_if (flag_is_enabled guest_interruptibility_state.blocking_by_sti)
    "some processors require sti to be 0 if the interruption type is nmi").

Definition guest_interruptibility_state_virtual_nmi : M cpu unit := check (
  return_if (control_is_disabled pin_based_vm_execution_controls.virtual_nmis) ;>
  return_if (flag_is_disabled vm_entry_interruption_information.valid_bit) ;>
  return_if (test (fun v => negb (v =? vm_entry_interruption_information.interruption_type_non_maskable_interrupt)) (bits_get vm_entry_interruption_information.interruption_type)) ;>
  throw_if (flag_is_enabled guest_interruptibility_state.blocking_by_nmi)
    "if virtual nmi is enabled, and the interruption type is NMI, blocking by nmi must be disabled").

Definition guest_interruptibility_state_enclave_interrupt : M cpu unit := check (
  return_if (flag_is_disabled guest_interruptibility_state.enclave_interruption) ;>
  throw_if (flag_is_enabled guest_interruptibility_state.blocking_by_mov_ss)
    "blocking by mov ss is enabled but enclave interrupt is also enabled in interruptibility state" ;>
  throw_if (ret (cpuid_is_disabled extended_feature_flags.ebx_reg extended_feature_flags.sgx))
    "enclave interrupt is 1 in interruptibility state but the processor does not support sgx").

Definition guest_pending_debug_exceptions_reserved : M cpu unit := check (
  throw_if (test (fun v => negb (v =? 0)) (bits_get guest_pending_debug_exceptions.reserved))
    "pending debug exception reserved bits must be 0").

Definition guest_pending_debug_exceptions_dbg_ctl : M cpu unit := check (
  sti <- flag_is_enabled guest_interruptibility_state.blocking_by_sti ;;
  mov_ss <- flag_is_enabled guest_interruptibility_state.blocking_by_mov_ss ;;
  activity_state <- vmcs_get guest_activity_state.reg ;;
  return_if (ret (((negb sti) && (negb mov_ss)) && (negb (activity_state =? guest_activity_state.hlt)))) ;>
  bs <- flag_is_enabled guest_pending_debug_exceptions.bs ;;
  tf <- flag_is_enabled guest_rflags.trap_flag ;;
  btf <- flag_is_enabled guest_ia32_debugctl.btf ;;
  throw_if (ret (((negb bs) && tf) && (negb btf)))
    "pending debug exception bs must be 1 if rflags tf is 1 and debugctl btf is 0" ;>
  throw_if (ret ((bs && (negb tf)) && btf))
    "pending debug exception bs must be 0 if rflags tf is 0 and debugctl btf is 1").

Definition guest_pending_debug_exceptions_rtm : M cpu unit := check (
  return_if (flag_is_disabled guest_pending_debug_exceptions.rtm) ;>
  throw_if (test (fun v => negb (Z.land v 0xFFFFFFFFFFFEAFFF =? 0)) (vmcs_get guest_pending_debug_exceptions.reg))
    "pending debug exception reserved bits and bits 3:0 must be 0 if rtm is 1" ;>
  throw_if (flag_is_disabled guest_pending_debug_exceptions.enabled_breakpoint)
    "pending debug exception bit 12 must be 1 if rtm is 1" ;>
  throw_if (ret (cpuid_is_disabled extended_feature_flags.ebx_reg extended_feature_flags.rtm))
    "rtm is set in pending debug exception but rtm is unsupported by the processor" ;>
  throw_if (flag_is_enabled guest_interruptibility_state.blocking_by_mov_ss)
    "interruptibility-state field indicates blocking by mov ss but rtm is set in pending debug exceptions field").

Definition guest_vmcs_link_pointer_bits_11_0 : M cpu unit := check (
  vmcs_link_pointer <- vmcs_get vmcs_link_pointer.reg ;;
  return_if (ret (vmcs_link_pointer =? 0xFFFFFFFFFFFFFFFF)) ;>
  throw_if (ret (negb (Z.land vmcs_link_pointer 0x0000000000000FFF =? 0)))
    "vmcs link pointer bits 11:0 must be 0").

Definition guest_vmcs_link_pointer_valid_addr : M cpu unit := check (
  vmcs_link_pointer <- vmcs_get vmcs_link_pointer.reg ;;
  return_if (ret (vmcs_link_pointer =? 0xFFFFFFFFFFFFFFFF)) ;>
  throw_if (ret (negb (is_physical_address_valid vmcs_link_pointer)))
    "vmcs link pointer invalid physical address").

Definition guest_vmcs_link_pointer_first_word : M cpu unit := check (
  link <- vmcs_get vmcs_link_pointer.reg ;;
  return_if (ret (link =? 0xFFFFFFFFFFFFFFFF)) ;>
  vmcs <- to_virtptr link ;;
  throw_if (ret (vmcs =? 0))
    "invalid vmcs physical address" ;>
  let revision_id := Z.land (host_word vmcs) 0x7FFFFFFF in
  let vmcs_shadow := Z.land (host_word vmcs) 0x80000000 in
  throw_if (test (fun v => negb (revision_id =? v)) (msr_field_get ia32_vmx_basic.revision_id))
    "shadow vmcs must contain CPU's revision id" ;>
  return_if (control_is_disabled primary_processor_based_vm_execution_controls.activate_secondary_controls) ;>
  return_if (flag_is_disabled_if_exists (vc_flag secondary_processor_based_vm_execution_controls.vmcs_shadowing)) ;>
  throw_if (ret (vmcs_shadow =? 0))
    "shadow vmcs bit must be enabled if vmcs shadowing is enabled").

Definition guest_vmcs_link_pointer_not_in_smm : M cpu unit := check (
  ret false).

Definition guest_vmcs_link_pointer_in_smm : M cpu unit := check (
  ret false).

Definition guest_valid_pdpte_with_ept_disabled : M cpu unit := check (
  return_if (flag_is_disabled guest_cr0.paging) ;>
  return_if (flag_is_disabled guest_cr4.physical_address_extensions) ;>
  return_if (control_is_enabled vm_entry_controls.ia_32e_mode_guest) ;>
  return_if (flag_is_enabled_if_exists (vc_flag secondary_processor_based_vm_execution_controls.enable_ept)) ;>
  cr3 <- vmcs_get guest_cr3.reg ;;
  virt_pdpt <- to_virtptr (Z.land cr3 0xFFFFFFE0) ;;
  throw_if (ret (virt_pdpt =? 0))
    "pdpt address is null" ;>
  throw_if (ret (negb (Z.land (host_word virt_pdpt) pdpte_reserved_mask =? 0)))
    "pdpte0 reserved bits set with ept disabled and pae paging enabled" ;>
  throw_if (ret (negb (Z.land (host_word (add64 virt_pdpt 8)) pdpte_reserved_mask =? 0)))
    "pdpte1 reserved bits set with ept disabled and pae paging enabled" ;>
  throw_if (ret (negb (Z.land (host_word (add64 virt_pdpt 16)) pdpte_reserved_mask =? 0)))
    "pdpte2 reserved bits set with ept disabled and pae paging enabled" ;>
  throw_if (ret (negb (Z.land (host_word (add64 virt_pdpt 24)) pdpte_reserved_mask =? 0)))
    "pdpte3 reserved bits set with ept disabled and pae paging enabled").

Definition guest_valid_pdpte_with_ept_enabled : M cpu unit := check (
  return_if (flag_is_disabled guest_cr0.paging) ;>
  return_if (flag_is_disabled guest_cr4.physical_address_extensions) ;>
  return_if (control_is_enabled vm_entry_controls.ia_32e_mode_guest) ;>
  return_if (control_is_disabled primary_processor_based_vm_execution_controls.activate_secondary_controls) ;>
  return_if (flag_is_disabled_if_exists (vc_flag secondary_processor_based_vm_execution_controls.enable_ept)) ;>
  throw_if (test (fun v => negb (v =? 0)) (bits_get (guest_pdpte0.reserved phys_bits)))
    "pdpte0 reserved bits set with ept and pae paging enabled" ;>
  throw_if (test (fun v => negb (v =? 0)) (bits_get (guest_pdpte1.reserved phys_bits)))
    "pdpte1 reserved bits set with ept and pae paging enabled" ;>
  throw_if (test (fun v => negb (v =? 0)) (bits_get (guest_pdpte2.reserved phys_bits)))
    "pdpte2 reserved bits set with ept and pae paging enabled" ;>
  throw_if (test (fun v => negb (v =? 0)) (bits_get (guest_pdpte3.reserved phys_bits)))
    "ppdpte3 reserved bits set with ept and pae paging enabled").

End Checks.
