(* ===== verification/CheckHost.v ===== *)
(** * Checks of the host state

    [check_vmcs_host_fields.cpp], in its order: every function as it is written,
    less the debug output. *)
From S2P Require Import Prelude Bits EptEntry Vmcs MsrFields VmcsControl VmcsGuest VmcsHost VmcsExit Crs Check.
Open Scope Z_scope.
Open Scope vmm_scope.

Section Checks.
Context `{Processor} `{HostMemory}.

Definition host_cr0_for_unsupported_bits : M cpu unit := check (
  cr0 <- vmcs_get host_cr0.reg ;;
  ia32_vmx_cr0_fixed0 <- msr_get ia32_vmx_cr0_fixed0.reg ;;
  ia32_vmx_cr0_fixed1 <- msr_get ia32_vmx_cr0_fixed1.reg ;;
  throw_if (ret (negb (0 =? Z.lor (Z.land (not64 cr0) ia32_vmx_cr0_fixed0) (Z.land cr0 (not64 ia32_vmx_cr0_fixed1)))))
    "invalid cr0").

Definition host_cr4_for_unsupported_bits : M cpu unit := check (
  cr4 <- vmcs_get host_cr4.reg ;;
  ia32_vmx_cr4_fixed0 <- msr_get ia32_vmx_cr4_fixed0.reg ;;
  ia32_vmx_cr4_fixed1 <- msr_get ia32_vmx_cr4_fixed1.reg ;;
  throw_if (ret (negb (0 =? Z.lor (Z.land (not64 cr4) ia32_vmx_cr4_fixed0) (Z.land cr4 (not64 ia32_vmx_cr4_fixed1)))))
    "invalid cr4").

Definition host_cr3_for_unsupported_bits : M cpu unit := check (
  throw_if (test (fun v => negb (is_physical_address_valid v)) (vmcs_get host_cr3.reg))
    "host cr3 too large").

Definition host_ia32_sysenter_esp_canonical_address : M cpu unit := check (
  throw_if (test (fun v => negb (is_address_canonical v)) (vmcs_get host_ia32_sysenter_esp.reg))
    "host sysenter esp must be canonical").

Definition host_ia32_sysenter_eip_canonical_address : M cpu unit := check (
  throw_if (test (fun v => negb (is_address_canonical v)) (vmcs_get host_ia32_sysenter_eip.reg))
    "host sysenter eip must be canonical").

Definition host_verify_load_ia32_perf_global_ctrl : M cpu unit := check (
  return_if (control_is_disabled vm_exit_controls.load_ia32_perf_global_ctrl) ;>
  throw_if (test (fun v => negb (v =? 0)) (bits_get host_ia32_perf_global_ctrl.reserved))
    "host perf global ctrl msr reserved bits must be 0").

Definition host_verify_load_ia32_pat : M cpu unit := check (
  return_if (control_is_disabled vm_exit_controls.load_ia32_pat) ;>
  throw_if (test (fun v => memory_type_reserved v) (bits_get host_ia32_pat.pa0_memory_type))
    "pat0 has a reserved memory type" ;>
  throw_if (test (fun v => memory_type_reserved v) (bits_get host_ia32_pat.pa1_memory_type))
    "pat1 has a reserved memory type" ;>
  throw_if (test (fun v => memory_type_reserved v) (bits_get host_ia32_pat.pa2_memory_type))
    "pat2 has a reserved memory type" ;>
  throw_if (test (fun v => memory_type_reserved v) (bits_get host_ia32_pat.pa3_memory_type))
    "pat3 has a reserved memory type" ;>
  throw_if (test (fun v => memory_type_reserved v) (bits_get host_ia32_pat.pa4_memory_type))
    "pat4 has a reserved memory type" ;>
  throw_if (test (fun v => memory_type_reserved v) (bits_get host_ia32_pat.pa5_memory_type))
    "pat5 has a reserved memory type" ;>
  throw_if (test (fun v => memory_type_reserved v) (bits_get host_ia32_pat.pa6_memory_type))
    "pat6 has a reserved memory type" ;>
  throw_if (test (fun v => memory_type_reserved v) (bits_get host_ia32_pat.pa7_memory_type))
    "pat7 has a reserved memory type").

Definition host_verify_load_ia32_efer : M cpu unit := check (
  return_if (control_is_disabled vm_exit_controls.load_ia32_efer) ;>
  throw_if (test (fun v => negb (v =? 0)) (bits_get host_ia32_efer.reserved))
    "host_ia32_efer reserved bits must be 0 if load_ia32_efer exit control is enabled" ;>
  lma <- flag_is_enabled host_ia32_efer.lma ;;
  lme <- flag_is_enabled host_ia32_efer.lme ;;
  throw_if (and_then (control_is_disabled vm_exit_controls.host_address_space_size) (ret (lma)))
    "host addr space is 0, but efer.lma is 1" ;>
  throw_if (and_then (control_is_enabled vm_exit_controls.host_address_space_size) (ret (negb lma)))
    "host addr space is 1, but efer.lma is 0" ;>
  return_if (flag_is_disabled host_cr0.paging) ;>
  throw_if (ret ((negb lme) && lma))
    "efer.lme is 0, but efer.lma is 1" ;>
  throw_if (ret (lme && (negb lma)))
    "efer.lme is 1, but efer.lma is 0").

Definition host_es_selector_rpl_ti_equal_zero : M cpu unit := check (
  throw_if (flag_is_enabled host_es_selector.ti)
    "host es ti flag must be 0" ;>
  throw_if (test (fun v => negb (v =? 0)) (bits_get host_es_selector.rpl))
    "host es rpl flag must be 0").

Definition host_cs_selector_rpl_ti_equal_zero : M cpu unit := check (
  throw_if (flag_is_enabled host_cs_selector.ti)
    "host cs ti flag must be 0" ;>
  throw_if (test (fun v => negb (v =? 0)) (bits_get host_cs_selector.rpl))
    "host cs rpl flag must be 0").

Definition host_ss_selector_rpl_ti_equal_zero : M cpu unit := check (
  throw_if (flag_is_enabled host_ss_selector.ti)
    "host ss ti flag must be 0" ;>
  throw_if (test (fun v => negb (v =? 0)) (bits_get host_ss_selector.rpl))
    "host ss rpl flag must be 0").

Definition host_ds_selector_rpl_ti_equal_zero : M cpu unit := check (
  throw_if (flag_is_enabled host_ds_selector.ti)
    "host ds ti flag must be 0" ;>
  throw_if (test (fun v => negb (v =? 0)) (bits_get host_ds_selector.rpl))
    "host ds rpl flag must be 0").

Definition host_fs_selector_rpl_ti_equal_zero : M cpu unit := check (
  throw_if (flag_is_enabled host_fs_selector.ti)
    "host fs ti flag must be 0" ;>
  throw_if (test (fun v => negb (v =? 0)) (bits_get host_fs_selector.rpl))
    "host fs rpl flag must be 0").

Definition host_gs_selector_rpl_ti_equal_zero : M cpu unit := check (
  throw_if (flag_is_enabled host_gs_selector.ti)
    "host gs ti flag must be 0" ;>
  throw_if (test (fun v => negb (v =? 0)) (bits_get host_gs_selector.rpl))
    "host gs rpl flag must be 0").

Definition host_tr_selector_rpl_ti_equal_zero : M cpu unit := check (
  throw_if (flag_is_enabled host_tr_selector.ti)
    "host tr ti flag must be 0" ;>
  throw_if (test (fun v => negb (v =? 0)) (bits_get host_tr_selector.rpl))
    "host tr rpl flag must be 0").

Definition host_cs_not_equal_zero : M cpu unit := check (
  throw_if (test (fun v => v =? 0) (vmcs_get host_cs_selector.reg))
    "host cs cannot equal 0").

Definition host_tr_not_equal_zero : M cpu unit := check (
  throw_if (test (fun v => v =? 0) (vmcs_get host_tr_selector.reg))
    "host tr cannot equal 0").

Definition host_ss_not_equal_zero : M cpu unit := check (
  return_if (control_is_enabled vm_exit_controls.host_address_space_size) ;>
  throw_if (test (fun v => v =? 0) (vmcs_get host_ss_selector.reg))
    "host ss cannot equal 0").

Definition host_fs_canonical_base_address : M cpu unit := check (
  throw_if (test (fun v => negb (is_address_canonical v)) (vmcs_get host_fs_base.reg))
    "host fs base must be canonical").

Definition host_gs_canonical_base_address : M cpu unit := check (
  throw_if (test (fun v => negb (is_address_canonical v)) (vmcs_get host_gs_base.reg))
    "host gs base must be canonical").

Definition host_gdtr_canonical_base_address : M cpu unit := check (
  throw_if (test (fun v => negb (is_address_canonical v)) (vmcs_get host_gdtr_base.reg))
    "host gdtr base must be canonical").

Definition host_idtr_canonical_base_address : M cpu unit := check (
  throw_if (test (fun v => negb (is_address_canonical v)) (vmcs_get host_idtr_base.reg))
    "host idtr base must be canonical").

Definition host_tr_canonical_base_address : M cpu unit := check (
  throw_if (test (fun v => negb (is_address_canonical v)) (vmcs_get host_tr_base.reg))
    "host tr base must be canonical").

Definition host_if_outside_ia32e_mode : M cpu unit := check (
  return_if (msr_is_enabled ia32_efer.lma) ;>
  throw_if (control_is_enabled vm_entry_controls.ia_32e_mode_guest)
    "ia 32e mode must be 0 if efer.lma == 0" ;>
  throw_if (control_is_enabled vm_exit_controls.host_address_space_size)
    "host addr space must be 0 if efer.lma == 0").

Definition host_address_space_size_exit_ctl_is_set : M cpu unit := check (
  return_if (not_ (msr_is_enabled ia32_efer.lma)) ;>
  throw_if (control_is_disabled vm_exit_controls.host_address_space_size)
    "host addr space must be 1 if efer.lma == 1").

Definition host_address_space_disabled : M cpu unit := check (
  return_if (control_is_enabled vm_exit_controls.host_address_space_size) ;>
  throw_if (control_is_enabled vm_entry_controls.ia_32e_mode_guest)
    "ia 32e mode must be disabled if host addr space is disabled" ;>
  throw_if (flag_is_enabled host_cr4.pcid_enable_bit)
    "cr4 pcide must be disabled if host addr space is disabled" ;>
  throw_if (test (fun v => negb (Z.land v 0xFFFFFFFF00000000 =? 0)) (vmcs_get host_rip.reg))
    "rip bits 63:32 must be 0 if host addr space is disabled").

Definition host_address_space_enabled : M cpu unit := check (
  return_if (control_is_disabled vm_exit_controls.host_address_space_size) ;>
  throw_if (flag_is_disabled host_cr4.physical_address_extensions)
    "cr4 pae must be enabled if host addr space is enabled" ;>
  throw_if (test (fun v => negb (is_address_canonical v)) (vmcs_get host_rip.reg))
    "host rip must be canonical").

End Checks.
