(* ===== verification/CheckAll.v ===== *)
(** * All checks of the VMCS

    [check::all] of [check.h], which the exit handler runs when a VM entry has
    failed, and that the checks only read. *)
From S2P Require Import Prelude Bits EptEntry Vmcs MsrFields VmcsControl VmcsGuest VmcsHost VmcsExit Crs Check.
From S2P Require Import CheckControl CheckGuest CheckHost.
Open Scope Z_scope.
Open Scope vmm_scope.

Section All.
Context `{Processor} `{HostMemory}.

(** The calls of [check::all], in their order *)
Definition all_checks : list (M cpu unit) :=
  [control_vm_exit_ctls_reserved_properly_set;
   control_activate_and_save_preemption_timer_must_be_0;
   control_exit_msr_store_address;
   control_exit_msr_load_address;
   control_vm_entry_ctls_reserved_properly_set;
   control_event_injection_type_vector_checks;
   control_event_injection_delivery_ec_checks;
   control_event_injection_reserved_bits_checks;
   control_event_injection_ec_checks;
   control_event_injection_instr_length_checks;
   control_entry_msr_load_address;
   control_pin_based_ctls_reserved_properly_set;
   control_proc_based_ctls_reserved_properly_set;
   control_proc_based_ctls2_reserved_properly_set;
   control_cr3_count_less_then_4;
   control_io_bitmap_address_bits;
   control_msr_bitmap_address_bits;
   control_tpr_shadow_and_virtual_apic;
   control_nmi_exiting_and_virtual_nmi;
   control_virtual_nmi_and_nmi_window;
   control_virtual_apic_address_bits;
   control_x2apic_mode_and_virtual_apic_access;
   control_virtual_interrupt_and_external_interrupt;
   control_process_posted_interrupt_checks;
   control_vpid_checks;
   control_enable_ept_checks;
   control_enable_pml_checks;
   control_unrestricted_guests;
   control_enable_vm_functions;
   control_enable_vmcs_shadowing;
   control_enable_ept_violation_checks;
   guest_tr_ti_bit_equals_0;
   guest_ldtr_ti_bit_equals_0;
   guest_ss_and_cs_rpl_are_the_same;
   guest_cs_base_is_shifted;
   guest_ss_base_is_shifted;
   guest_ds_base_is_shifted;
   guest_es_base_is_shifted;
   guest_fs_base_is_shifted;
   guest_gs_base_is_shifted;
   guest_tr_base_is_canonical;
   guest_fs_base_is_canonical;
   guest_gs_base_is_canonical;
   guest_ldtr_base_is_canonical;
   guest_cs_base_upper_dword_0;
   guest_ss_base_upper_dword_0;
   guest_ds_base_upper_dword_0;
   guest_es_base_upper_dword_0;
   guest_cs_limit;
   guest_ss_limit;
   guest_ds_limit;
   guest_es_limit;
   guest_gs_limit;
   guest_fs_limit;
   guest_v8086_cs_access_rights;
   guest_v8086_ss_access_rights;
   guest_v8086_ds_access_rights;
   guest_v8086_es_access_rights;
   guest_v8086_fs_access_rights;
   guest_v8086_gs_access_rights;
   guest_cs_access_rights_type;
   guest_ss_access_rights_type;
   guest_ds_access_rights_type;
   guest_es_access_rights_type;
   guest_fs_access_rights_type;
   guest_gs_access_rights_type;
   guest_cs_is_not_a_system_descriptor;
   guest_ss_is_not_a_system_descriptor;
   guest_ds_is_not_a_system_descriptor;
   guest_es_is_not_a_system_descriptor;
   guest_fs_is_not_a_system_descriptor;
   guest_gs_is_not_a_system_descriptor;
   guest_cs_type_not_equal_3;
   guest_cs_dpl_adheres_to_ss_dpl;
   guest_ss_dpl_must_equal_rpl;
   guest_ss_dpl_must_equal_zero;
   guest_ds_dpl;
   guest_es_dpl;
   guest_fs_dpl;
   guest_gs_dpl;
   guest_cs_must_be_present;
   guest_ss_must_be_present_if_usable;
   guest_ds_must_be_present_if_usable;
   guest_es_must_be_present_if_usable;
   guest_fs_must_be_present_if_usable;
   guest_gs_must_be_present_if_usable;
   guest_cs_access_rights_reserved_must_be_0;
   guest_ss_access_rights_reserved_must_be_0;
   guest_ds_access_rights_reserved_must_be_0;
   guest_es_access_rights_reserved_must_be_0;
   guest_fs_access_rights_reserved_must_be_0;
   guest_gs_access_rights_reserved_must_be_0;
   guest_cs_db_must_be_0_if_l_equals_1;
   guest_cs_granularity;
   guest_ss_granularity;
   guest_ds_granularity;
   guest_es_granularity;
   guest_fs_granularity;
   guest_gs_granularity;
   guest_cs_access_rights_remaining_reserved_bit_0;
   guest_ss_access_rights_remaining_reserved_bit_0;
   guest_ds_access_rights_remaining_reserved_bit_0;
   guest_es_access_rights_remaining_reserved_bit_0;
   guest_fs_access_rights_remaining_reserved_bit_0;
   guest_gs_access_rights_remaining_reserved_bit_0;
   guest_tr_type_must_be_11;
   guest_tr_must_be_a_system_descriptor;
   guest_tr_must_be_present;
   guest_tr_access_rights_reserved_must_be_0;
   guest_tr_granularity;
   guest_tr_must_be_usable;
   guest_tr_access_rights_remaining_reserved_bit_0;
   guest_ldtr_type_must_be_2;
   guest_ldtr_must_be_a_system_descriptor;
   guest_ldtr_must_be_present;
   guest_ldtr_access_rights_reserved_must_be_0;
   guest_ldtr_granularity;
   guest_ldtr_access_rights_remaining_reserved_bit_0;
   guest_gdtr_base_must_be_canonical;
   guest_idtr_base_must_be_canonical;
   guest_gdtr_limit_reserved_bits;
   guest_idtr_limit_reserved_bits;
   guest_rip_upper_bits;
   guest_rip_valid_addr;
   guest_rflags_reserved_bits;
   guest_rflags_vm_bit;
   guest_rflag_interrupt_enable;
   guest_valid_activity_state;
   guest_activity_state_not_hlt_when_dpl_not_0;
   guest_must_be_active_if_injecting_blocking_state;
   guest_hlt_valid_interrupts;
   guest_shutdown_valid_interrupts;
   guest_sipi_valid_interrupts;
   guest_valid_activity_state_and_smm;
   guest_interruptibility_state_reserved;
   guest_interruptibility_state_sti_mov_ss;
   guest_interruptibility_state_sti;
   guest_interruptibility_state_external_interrupt;
   guest_interruptibility_state_nmi;
   guest_interruptibility_not_in_smm;
   guest_interruptibility_entry_to_smm;
   guest_interruptibility_state_sti_and_nmi;
   guest_interruptibility_state_virtual_nmi;
   guest_interruptibility_state_enclave_interrupt;
   guest_pending_debug_exceptions_reserved;
   guest_pending_debug_exceptions_dbg_ctl;
   guest_pending_debug_exceptions_rtm;
   guest_vmcs_link_pointer_bits_11_0;
   guest_vmcs_link_pointer_valid_addr;
   guest_vmcs_link_pointer_first_word;
   guest_vmcs_link_pointer_not_in_smm;
   guest_vmcs_link_pointer_in_smm;
   guest_cr0_for_unsupported_bits;
   guest_cr0_verify_paging_enabled;
   guest_cr4_for_unsupported_bits;
   guest_load_debug_controls_verify_reserved;
   guest_verify_ia_32e_mode_enabled;
   guest_verify_ia_32e_mode_disabled;
   guest_cr3_for_unsupported_bits;
   guest_load_debug_controls_verify_dr7;
   guest_ia32_sysenter_esp_canonical_address;
   guest_ia32_sysenter_eip_canonical_address;
   guest_verify_load_ia32_perf_global_ctrl;
   guest_verify_load_ia32_pat;
   guest_verify_load_ia32_efer;
   guest_verify_load_ia32_bndcfgs;
   guest_valid_pdpte_with_ept_disabled;
   guest_valid_pdpte_with_ept_enabled;
   host_es_selector_rpl_ti_equal_zero;
   host_cs_selector_rpl_ti_equal_zero;
   host_ss_selector_rpl_ti_equal_zero;
   host_ds_selector_rpl_ti_equal_zero;
   host_fs_selector_rpl_ti_equal_zero;
   host_gs_selector_rpl_ti_equal_zero;
   host_tr_selector_rpl_ti_equal_zero;
   host_cs_not_equal_zero;
   host_tr_not_equal_zero;
   host_ss_not_equal_zero;
   host_fs_canonical_base_address;
   host_gs_canonical_base_address;
   host_gdtr_canonical_base_address;
   host_idtr_canonical_base_address;
   host_tr_canonical_base_address;
   host_if_outside_ia32e_mode;
   host_address_space_size_exit_ctl_is_set;
   host_address_space_disabled;
   host_address_space_enabled;
   host_cr0_for_unsupported_bits;
   host_cr4_for_unsupported_bits;
   host_cr3_for_unsupported_bits;
   host_ia32_sysenter_esp_canonical_address;
   host_ia32_sysenter_eip_canonical_address;
   host_verify_load_ia32_perf_global_ctrl;
   host_verify_load_ia32_pat;
   host_verify_load_ia32_efer].

Definition check_all : M cpu unit := for_each all_checks (fun c => c).

End All.

(** ** Checks only read *)

Definition reads {A} (m : M cpu A) : Prop := forall c,
  match m c with Ok _ c' => c' = c | Err _ c' => c' = c end.

Lemma reads_ret {A} (a : A) : reads (ret a).
Proof. done. Qed.

Lemma reads_throw {A} e : reads (throw e : M cpu A).
Proof. done. Qed.

Lemma reads_bind {A B} (m : M cpu A) (k : A -> M cpu B) : reads m -> (forall a, reads (k a)) -> reads (bind m k).
Proof. intros Hm Hk c. specialize (Hm c). unfold bind. destruct (m c) as [a s|e s]; [subst s; apply Hk|done]. Qed.

Lemma reads_get {B} (k : cpu -> M cpu B) : (forall c, reads (k c)) -> reads (bind get k).
Proof. intros Hk c. apply (Hk c c). Qed.

Section Reads.
Context `{Processor} `{HostMemory}.

Lemma reads_vm_read a : reads (vm_read a).
Proof. apply reads_get. intros c. destruct (vmcs_fields c !! a); apply reads_ret || apply reads_throw. Qed.

Lemma reads_read_msr a : reads (read_msr a).
Proof. apply reads_get. intros c. destruct (msrs c !! w32 a); apply reads_ret || apply reads_throw. Qed.

Lemma reads_to_virtptr a : reads (to_virtptr a).
Proof. unfold to_virtptr. destruct (physint_to_virtptr a); apply reads_ret || apply reads_throw. Qed.
End Reads.

#[export] Hint Resolve reads_ret reads_throw reads_vm_read reads_read_msr reads_to_virtptr : reads.

Ltac solve_reads :=
  repeat match goal with
  | |- reads (if ?b then _ else _) => destruct b
  | |- reads (let _ := _ in _) => cbv zeta
  | |- reads (bind _ _) => apply reads_bind; [|intros]
  | |- reads _ => solve [auto with reads nocore]
  end.

Section Accessors.
Context `{Processor} `{HostMemory}.

Lemma reads_msr_get r : reads (msr_get r).
Proof. unfold msr_get. solve_reads. Qed.

Lemma reads_msr_is_enabled f : reads (msr_is_enabled f).
Proof. unfold msr_is_enabled, msr_get. solve_reads. Qed.

Lemma reads_msr_is_disabled f : reads (msr_is_disabled f).
Proof. unfold msr_is_disabled, msr_get. solve_reads. Qed.

Lemma reads_msr_field_get f : reads (msr_field_get f).
Proof. unfold msr_field_get, msr_get. solve_reads. Qed.

Lemma reads_is_allowed1 f : reads (is_allowed1 f).
Proof. unfold is_allowed1, msr_get. solve_reads. Qed.

Lemma reads_get_vmcs_field a n e : reads (get_vmcs_field a n e).
Proof. unfold get_vmcs_field. solve_reads. Qed.

Lemma reads_get_vmcs_field_if_exists a e : reads (get_vmcs_field_if_exists a e).
Proof. unfold get_vmcs_field_if_exists. solve_reads. Qed.

Lemma reads_and_then a b : reads a -> reads b -> reads (and_then a b).
Proof. intros. unfold and_then. solve_reads. Qed.

Lemma reads_or_else a b : reads a -> reads b -> reads (or_else a b).
Proof. intros. unfold or_else. solve_reads. Qed.

Lemma reads_test {A B} (p : A -> B) m : reads m -> reads (test p m).
Proof. intros. unfold test. solve_reads. Qed.

Lemma reads_test2 {A A' B} (p : A -> A' -> B) m m' : reads m -> reads m' -> reads (test2 p m m').
Proof. intros. unfold test2. solve_reads. Qed.

Lemma reads_seq s1 s2 : reads s1 -> reads s2 -> reads (seq s1 s2).
Proof. intros. unfold seq. solve_reads. Qed.

Lemma reads_when c s : reads c -> reads s -> reads (when_ c s).
Proof. intros. unfold when_. solve_reads. Qed.

Lemma reads_if c s1 s2 : reads c -> reads s1 -> reads s2 -> reads (if_ c s1 s2).
Proof. intros. unfold if_. solve_reads. Qed.

Lemma reads_return_if c : reads c -> reads (return_if c).
Proof. intros. apply reads_when; [done|apply reads_ret]. Qed.

Lemma reads_throw_if c w : reads c -> reads (throw_if c w).
Proof. intros. apply reads_when; [done|apply reads_throw]. Qed.

Lemma reads_check s : reads s -> reads (check s).
Proof. intros. unfold check. solve_reads. Qed.
End Accessors.

Section Registers.
Context `{Processor} `{HostMemory}.

Lemma reads_vmcs_get r : reads (v_exists r) -> reads (vmcs_get r).
Proof. intros. apply reads_bind; [done|intros; apply reads_get_vmcs_field]. Qed.

Lemma reads_vmcs_get_if_exists r : reads (v_exists r) -> reads (vmcs_get_if_exists r).
Proof. intros. apply reads_bind; [done|intros; apply reads_get_vmcs_field_if_exists]. Qed.

Lemma reads_flag_is_enabled f : reads (v_exists (vf_reg f)) -> reads (flag_is_enabled f).
Proof. intros. apply reads_bind; [done|intros]. apply reads_bind; [apply reads_get_vmcs_field|intros; apply reads_ret]. Qed.

Lemma reads_flag_is_disabled f : reads (v_exists (vf_reg f)) -> reads (flag_is_disabled f).
Proof. intros. apply reads_bind; [done|intros]. apply reads_bind; [apply reads_get_vmcs_field|intros; apply reads_ret]. Qed.

Lemma reads_flag_is_enabled_if_exists f : reads (v_exists (vf_reg f)) -> reads (flag_is_enabled_if_exists f).
Proof. intros. apply reads_bind; [done|intros]. apply reads_bind; [apply reads_get_vmcs_field_if_exists|intros; apply reads_ret]. Qed.

Lemma reads_flag_is_disabled_if_exists f : reads (v_exists (vf_reg f)) -> reads (flag_is_disabled_if_exists f).
Proof. intros. apply reads_bind; [done|intros]. apply reads_bind; [apply reads_get_vmcs_field_if_exists|intros; apply reads_ret]. Qed.

Lemma reads_bits_get f : reads (v_exists (vl_reg f)) -> reads (bits_get f).
Proof. intros. apply reads_bind; [done|intros]. apply reads_bind; [apply reads_get_vmcs_field|intros; apply reads_ret]. Qed.

Lemma reads_bits_get_if_exists f : reads (v_exists (vl_reg f)) -> reads (bits_get_if_exists f).
Proof. intros. apply reads_bind; [done|intros]. apply reads_bind; [apply reads_get_vmcs_field_if_exists|intros; apply reads_ret]. Qed.

Lemma reads_control_is_enabled f : reads (v_exists (vf_reg (vc_flag f))) -> reads (control_is_enabled f).
Proof. apply reads_flag_is_enabled. Qed.

Lemma reads_control_is_disabled f : reads (v_exists (vf_reg (vc_flag f))) -> reads (control_is_disabled f).
Proof. apply reads_flag_is_disabled. Qed.
End Registers.

#[export] Hint Resolve reads_msr_get reads_msr_is_enabled reads_msr_is_disabled reads_msr_field_get reads_is_allowed1
  reads_and_then reads_or_else reads_test reads_test2 reads_seq reads_when reads_if reads_return_if reads_throw_if reads_check
  reads_vmcs_get reads_vmcs_get_if_exists reads_flag_is_enabled reads_flag_is_disabled reads_flag_is_enabled_if_exists
  reads_flag_is_disabled_if_exists reads_bits_get reads_bits_get_if_exists reads_control_is_enabled
  reads_control_is_disabled : reads.

(** The condition of a register is evaluated, a sequence is taken apart. *)
Ltac reads_step :=
  match goal with
  | |- reads (if ?b then _ else _) => destruct b
  | |- reads (bind _ _) => apply reads_bind; [|intros]
  | |- reads (check _) => apply reads_check
  | |- reads (seq _ _) => apply reads_seq
  | |- reads (if_ _ _ _) => apply reads_if
  | |- reads (when_ _ _) => apply reads_when
  | |- reads (throw_if _ _) => apply reads_throw_if
  | |- reads (return_if _) => apply reads_return_if
  | |- reads (not_ _) => apply reads_test
  | |- reads (fails _) => apply reads_throw
  | |- reads return_ => apply reads_ret
  | |- reads (v_exists _) => cbn
  | |- reads _ => first [apply reads_ret | apply reads_vmcs_get | apply reads_control_is_enabled | apply reads_control_is_disabled
      | apply reads_flag_is_enabled | apply reads_flag_is_disabled | apply reads_flag_is_enabled_if_exists
      | apply reads_flag_is_disabled_if_exists | apply reads_bits_get | apply reads_bits_get_if_exists
      | apply reads_vmcs_get_if_exists | apply reads_test | apply reads_test2 | apply reads_and_then | apply reads_or_else
      | progress cbv zeta | solve [auto with reads nocore]]
  end.

Ltac head_of m := match m with ?f _ => head_of f | _ => m end.

Section ReadAll.
Context `{Processor} `{HostMemory}.

Lemma reads_reserved a v n : reads (control_reserved_properly_set a v n).
Proof. unfold control_reserved_properly_set. repeat reads_step. Qed.

Lemma checks_read : Forall reads all_checks.
Proof.
  unfold all_checks. repeat (apply List.Forall_cons; [match goal with |- reads ?m => let f := head_of m in unfold f end;
    repeat (apply reads_reserved || reads_step)|]). apply List.Forall_nil.
Qed.

Lemma run_checks (l : list (M cpu unit)) c : Forall reads l ->
  match for_each l (fun k => k) c with
  | Ok _ c' => c' = c /\ Forall (fun k => k c = Ok tt c) l
  | Err e c' => c' = c /\ exists l1 k l2, l = l1 ++ k :: l2 /\ Forall (fun k => k c = Ok tt c) l1 /\ k c = Err e c
  end.
Proof.
  induction l as [|k l IH]; intros Hr; [by split; [|constructor]|]. apply Forall_cons_1 in Hr as [Hk Hl].
  simpl. unfold bind. specialize (Hk c). destruct (k c) as [[] c'|e c'] eqn:E; subst c'.
  - specialize (IH Hl). destruct (for_each l (fun k => k) c).
    + destruct IH as [-> Hf]. split; [done|]. by constructor.
    + destruct IH as (-> & l1 & k' & l2 & -> & Hf & Ek). split; [done|]. exists (k :: l1), k', l2. split; [done|]. split; [by constructor|done].
  - split; [done|]. by exists [], k, l.
Qed.

(** The checks of the VMCS change nothing.  They pass exactly if every one of
    the 195 checks passes, and fail with the exception of the first that does not,
    in the order of the list. *)
Theorem check_all_verdict c :
  match check_all c with
  | Ok _ c' => c' = c /\ Forall (fun k => k c = Ok tt c) all_checks
  | Err e c' => c' = c /\ exists l1 k l2, all_checks = l1 ++ k :: l2 /\ Forall (fun k => k c = Ok tt c) l1 /\ k c = Err e c
  end.
Proof. apply run_checks, checks_read. Qed.
End ReadAll.
