(* ===== verification/Descriptors.v ===== *)
(** * Descriptor tables

    The classes [gdt] ([hve/arch/x64/gdt.h]) and [idt] ([hve/arch/x64/idt.h]):
    the register that locates a table and the 64-bit words of its descriptors.
    The theorems say that what is stored in a descriptor is what is read back,
    as far as the descriptor has room for it, and that other descriptors are not
    touched. *)
From S2P Require Import Prelude Bits Check.
Open Scope Z_scope.
Open Scope vmm_scope.

(** [gdt_reg::reg_t] with the words of the table *)
Record table := Table { t_base : Z; t_limit : Z; t_words : list Z }.

(** [std::vector::at] *)
Definition word_at (index : Z) : M table Z :=
  t <- get ;;
  if index <? 0 then throw out_of_range else
  match t_words t !! Z.to_nat index with Some w => ret w | None => throw out_of_range end.

Definition set_word (index v : Z) : M table unit :=
  word_at index ;;; modify (fun t => Table (t_base t) (t_limit t) (<[Z.to_nat index := v]> (t_words t))).

Module gdt.

(** [gdt(size)], with the address of the words *)
Definition gdt_ctor (data size : Z) : table :=
  Table data (Z.land (sub64 (shl64 size 3) 1) 0xFFFF) (replicate (Z.to_nat size) 0).

(** [gdt()]: a copy of the table the processor uses; the base stays its own *)
Definition gdt_copy (base limit : Z) (memory : list Z) : table :=
  Table base limit (take (Z.to_nat (Z.shiftr (limit + 1) 3)) memory).

Definition set_base (index base : Z) : M table unit :=
  expects (negb (index =? 0)) ;;;
  sd1 <- word_at index ;;
  let sd1 := Z.land sd1 0x00FFFF000000FFFF in
  let base_15_00 := shl64 (Z.land base 0x000000000000FFFF) 16 in
  let base_23_16 := shl64 (Z.land base 0x0000000000FF0000) 16 in
  let base_31_24 := shl64 (Z.land base 0x00000000FF000000) 32 in
  let base_63_32 := Z.shiftr (Z.land base 0xFFFFFFFF00000000) 32 in
  if Z.land sd1 0x100000000000 =? 0 then
    sd2 <- word_at (w32 (index + 1)) ;;
    let sd2 := Z.land sd2 0xFFFFFFFF00000000 in
    set_word index (Z.lor (Z.lor (Z.lor sd1 base_31_24) base_23_16) base_15_00) ;;;
    set_word (w32 (index + 1)) (Z.lor sd2 base_63_32)
  else
    set_word index (Z.lor (Z.lor (Z.lor sd1 base_31_24) base_23_16) base_15_00).

Definition base (index : Z) : M table Z :=
  expects (negb (index =? 0)) ;;;
  sd1 <- word_at index ;;
  let base_15_00 := Z.shiftr (Z.land sd1 0x00000000FFFF0000) 16 in
  let base_23_16 := Z.shiftr (Z.land sd1 0x000000FF00000000) 16 in
  let base_31_24 := Z.shiftr (Z.land sd1 0xFF00000000000000) 32 in
  if Z.land sd1 0x100000000000 =? 0 then
    sd2 <- word_at (w32 (index + 1)) ;;
    let base_63_32 := shl64 (Z.land sd2 0x00000000FFFFFFFF) 32 in
    ret (Z.lor (Z.lor (Z.lor base_63_32 base_31_24) base_23_16) base_15_00)
  else ret (Z.lor (Z.lor base_31_24 base_23_16) base_15_00).

Definition set_limit (index limit : Z) : M table unit :=
  expects (negb (index =? 0)) ;;;
  sd1 <- word_at index ;;
  let sd1 := Z.land sd1 0xFFF0FFFFFFFF0000 in
  let limit := if negb (Z.land sd1 0x80000000000000 =? 0) then Z.shiftr limit 12 else limit in
  let limit_15_00 := shl64 (Z.land limit 0x000000000000FFFF) 0 in
  let limit_19_16 := shl64 (Z.land limit 0x00000000000F0000) 32 in
  set_word index (Z.lor (Z.lor sd1 limit_19_16) limit_15_00).

Definition limit (index : Z) : M table Z :=
  expects (negb (index =? 0)) ;;;
  sd1 <- word_at index ;;
  let limit_15_00 := Z.shiftr (Z.land sd1 0x000000000000FFFF) 0 in
  let limit_19_16 := Z.shiftr (Z.land sd1 0x000F000000000000) 32 in
  if negb (Z.land sd1 0x80000000000000 =? 0) then
    ret (Z.lor (shl64 (Z.lor limit_19_16 limit_15_00) 12) 0x0000000000000FFF)
  else ret (Z.lor limit_19_16 limit_15_00).

Definition set_access_rights (index access_rights : Z) : M table unit :=
  expects (negb (index =? 0)) ;;;
  sd1 <- word_at index ;;
  let sd1 := Z.land sd1 0xFF0F00FFFFFFFFFF in
  let access_rights_07_00 := shl64 (Z.land access_rights 0x00000000000000FF) 40 in
  let access_rights_15_12 := shl64 (Z.land access_rights 0x000000000000F000) 40 in
  set_word index (Z.lor (Z.lor sd1 access_rights_15_12) access_rights_07_00).

Definition access_rights (index : Z) : M table Z :=
  expects (negb (index =? 0)) ;;;
  sd1 <- word_at index ;;
  let access_rights_07_00 := Z.shiftr (Z.land sd1 0x0000FF0000000000) 40 in
  let access_rights_15_12 := Z.shiftr (Z.land sd1 0x00F0000000000000) 40 in
  ret (Z.lor access_rights_15_12 access_rights_07_00).

Definition set (index base limit access_rights : Z) : M table unit :=
  set_access_rights index access_rights ;;;
  set_base index base ;;;
  set_limit index limit.

End gdt.

Module idt.

(** [idt(size)]: two words for every descriptor *)
Definition idt_ctor (data size : Z) : table :=
  Table data (Z.land (sub64 (shl64 size 3) 1) 0xFFFF) (replicate (Z.to_nat (size * 2)) 0).

Definition idt_copy (base limit : Z) (memory : list Z) : table :=
  Table base limit (take (Z.to_nat (Z.shiftr (limit + 1) 3)) memory).

Definition set_offset (index off : Z) : M table unit :=
  expects (is_address_canonical off) ;;;
  sd1 <- word_at (w32 (w32 (index * 2) + 0)) ;;
  let sd1 := Z.land sd1 0x0000FFFFFFFF0000 in
  sd2 <- word_at (w32 (w32 (index * 2) + 1)) ;;
  let sd2 := Z.land sd2 0xFFFFFFFF00000000 in
  let offset_15_00 := shl64 (Z.land off 0x000000000000FFFF) 0 in
  let offset_31_16 := shl64 (Z.land off 0x00000000FFFF0000) 32 in
  let offset_63_32 := Z.shiftr (Z.land off 0xFFFFFFFF00000000) 32 in
  set_word (w32 (w32 (index * 2) + 0)) (Z.lor (Z.lor sd1 offset_31_16) offset_15_00) ;;;
  set_word (w32 (w32 (index * 2) + 1)) (Z.lor sd2 offset_63_32).

Definition offset (index : Z) : M table Z :=
  sd1 <- word_at (w32 (w32 (index * 2) + 0)) ;;
  sd2 <- word_at (w32 (w32 (index * 2) + 1)) ;;
  let base_15_00 := Z.shiftr (Z.land sd1 0x000000000000FFFF) 0 in
  let base_31_16 := Z.shiftr (Z.land sd1 0xFFFF000000000000) 32 in
  let base_63_32 := shl64 (Z.land sd2 0x00000000FFFFFFFF) 32 in
  ret (Z.lor (Z.lor base_63_32 base_31_16) base_15_00).

Definition set_selector (index selector : Z) : M table unit :=
  sd1 <- word_at (w32 (index * 2)) ;;
  let sd1 := Z.land sd1 0xFFFFFFFF0000FFFF in
  set_word (w32 (index * 2)) (Z.lor sd1 (shl64 (Z.land selector 0x000000000000FFFF) 16)).

Definition selector (index : Z) : M table Z :=
  sd1 <- word_at (w32 (index * 2)) ;; ret (Z.shiftr (Z.land sd1 0x00000000FFFF0000) 16).

Definition set_present (index : Z) (selector : bool) : M table unit :=
  sd1 <- word_at (w32 (index * 2)) ;;
  let sd1 := Z.land sd1 0xFFFF0000FFFFFFFF in
  set_word (w32 (index * 2)) (if selector then Z.lor sd1 0x00008E0100000000 else sd1).

Definition present (index : Z) : M table bool :=
  sd1 <- word_at (w32 (index * 2)) ;; ret (negb (Z.land sd1 0x0000800000000000 =? 0)).

Definition set (index off selector : Z) : M table unit :=
  set_offset index off ;;;
  set_selector index selector ;;;
  set_present index true.

End idt.

(** ** Words *)

Lemma word_at_ok i w t : 0 <= i -> t_words t !! Z.to_nat i = Some w -> word_at i t = Ok w t.
Proof. intros Hi Hw. unfold word_at. rewrite bind_get. replace (i <? 0) with false by lia. by rewrite Hw. Qed.

Lemma set_word_ok i w v t : 0 <= i -> t_words t !! Z.to_nat i = Some w ->
  set_word i v t = Ok tt (Table (t_base t) (t_limit t) (<[Z.to_nat i := v]> (t_words t))).
Proof. intros Hi Hw. unfold set_word. by rewrite (bind_ok _ _ _ _ _ (word_at_ok _ _ _ Hi Hw)). Qed.

Lemma testbit_shl64 a n i : 0 <= n -> 0 <= i -> Z.testbit (shl64 a n) i = (i <? 64) && ((n <=? i) && Z.testbit a (i - n)).
Proof. intros. unfold shl64. rewrite testbit_w64 by lia. by rewrite testbit_shiftl. Qed.

Lemma testbit_const_bit a k : 0 <= k -> (Z.land a (2 ^ k) =? 0) = negb (Z.testbit a k).
Proof.
  intros Hk. destruct (Z.testbit a k) eqn:E; simpl.
  - apply Z.eqb_neq. intros E0. assert (Z.testbit (Z.land a (2 ^ k)) k = true) as Ht by (rewrite Z.land_spec, E, Z.pow2_bits_true by lia; done).
    by rewrite E0, Z.bits_0 in Ht.
  - apply Z.eqb_eq. apply Z.bits_inj'. intros i Hi. rewrite Z.land_spec, Z.bits_0, testbit_pow2 by lia.
    destruct (Z.eqb_spec i k) as [->|]; [by rewrite E|by rewrite andb_false_r].
Qed.

Ltac bit_value :=
  repeat first [rewrite Z.lor_spec | rewrite Z.land_spec | rewrite testbit_shl64 by lia | rewrite Z.shiftr_spec by lia];
  simpl; rewrite ?andb_true_r, ?andb_false_r, ?orb_false_r, ?orb_true_r; try done.

(** Bits that a mask keeps out of a shifted value, and that a store of other bits keeps *)
Lemma land_shl64 a c n R : 0 <= n -> Z.land (shl64 c n) R = 0 -> Z.land (shl64 (Z.land a c) n) R = 0.
Proof.
  intros Hn E. apply Z.bits_inj'. intros i Hi. assert (Z.testbit (Z.land (shl64 c n) R) i = false) as Hb by (rewrite E; apply Z.bits_0).
  rewrite Z.bits_0. rewrite Z.land_spec in *. rewrite testbit_shl64 in * by lia. rewrite Z.land_spec.
  destruct (i <? 64), (n <=? i), (Z.testbit a (i - n)), (Z.testbit c (i - n)), (Z.testbit R i); simpl in *; done.
Qed.

Lemma land_shiftr a c n R : 0 <= n -> Z.land (Z.shiftr c n) R = 0 -> Z.land (Z.shiftr (Z.land a c) n) R = 0.
Proof.
  intros Hn E. apply Z.bits_inj'. intros i Hi. assert (Z.testbit (Z.land (Z.shiftr c n) R) i = false) as Hb by (rewrite E; apply Z.bits_0).
  rewrite Z.bits_0. rewrite Z.land_spec in *. rewrite Z.shiftr_spec in * by lia. rewrite Z.land_spec.
  destruct (Z.testbit a (i + n)), (Z.testbit c (i + n)), (Z.testbit R i); simpl in *; done.
Qed.

Lemma land_keep w m x R : Z.land m R = R -> Z.land x R = 0 -> Z.land (Z.lor (Z.land w m) x) R = Z.land w R.
Proof. intros Hm Hx. rewrite Z.land_lor_distr_l, Hx, Z.lor_0_r, <- Z.land_assoc, Hm. done. Qed.

Lemma land_lor_0 x y R : Z.land x R = 0 -> Z.land y R = 0 -> Z.land (Z.lor x y) R = 0.
Proof. intros Hx Hy. by rewrite Z.land_lor_distr_l, Hx, Hy. Qed.

Lemma land_land_0 w m R : Z.land m R = 0 -> Z.land (Z.land w m) R = 0.
Proof. intros Hm. by rewrite <- Z.land_assoc, Hm, Z.land_0_r. Qed.

(** A part that is stored at bit [n] is read back from there. *)
Lemma read_back a c n R : 0 <= n -> Z.land (shl64 c n) R = shl64 c n -> Z.shiftr (shl64 c n) n = c ->
  Z.shiftr (Z.land (shl64 (Z.land a c) n) R) n = Z.land a c.
Proof.
  intros Hn HR Hs. apply Z.bits_inj'. intros i Hi. rewrite Z.shiftr_spec, Z.land_spec, testbit_shl64 by lia.
  replace (i + n - n) with i by lia. replace (n <=? i + n) with true by lia. rewrite Z.land_spec.
  apply (f_equal (fun x => Z.testbit x (i + n))) in HR. rewrite Z.land_spec, testbit_shl64 in HR by lia.
  apply (f_equal (fun x => Z.testbit x i)) in Hs. rewrite Z.shiftr_spec, testbit_shl64 in Hs by lia.
  replace (i + n - n) with i in * by lia. replace (n <=? i + n) with true in * by lia.
  destruct (i + n <? 64), (Z.testbit a i), (Z.testbit c i), (Z.testbit R (i + n)); simpl in *; done.
Qed.

(** What a read finds of a word whose parts were stored one by one *)
Ltac read_parts :=
  rewrite !Z.land_lor_distr_l;
  repeat match goal with
  | |- context [Z.land (Z.land ?w ?m) ?R] => rewrite (land_land_0 w m R) by reflexivity
  | |- context [Z.land (shl64 (Z.land ?a ?c) ?n) ?R] => rewrite (land_shl64 a c n R) by (lia || reflexivity)
  end;
  rewrite ?Z.lor_0_l, ?Z.lor_0_r;
  repeat match goal with
  | |- context [Z.shiftr (Z.land (shl64 (Z.land ?a ?c) ?n) ?R) ?n] => rewrite (read_back a c n R) by (lia || reflexivity)
  end;
  rewrite <- ?Z.land_lor_distr_r; reflexivity.

Lemma u64_shl64 a n : u64 (shl64 a n).
Proof. unfold shl64. apply u64_w64. Qed.

Lemma u64_land_r a b : u64 b -> u64 (Z.land a b).
Proof. intros. rewrite Z.land_comm. by apply u64_land_l. Qed.

Lemma u64_shiftr a n : 0 <= n -> u64 a -> u64 (Z.shiftr a n).
Proof.
  intros Hn [? ?]. rewrite Z.shiftr_div_pow2 by done. split; [apply Z.div_pos; [done|]; apply Z.pow_pos_nonneg; lia|].
  apply Z.div_lt_upper_bound; [apply Z.pow_pos_nonneg; lia|]. assert (1 <= 2 ^ n) by (apply (Z.pow_le_mono_r 2 0 n); lia). nia.
Qed.

#[export] Hint Resolve u64_shl64 u64_land_r u64_lor : words.
#[export] Hint Extern 1 (u64 (Z.shiftr _ _)) => apply u64_shiftr; [lia|] : words.
#[export] Hint Extern 1 (u64 (Z.pos _)) => (unfold u64; lia) : words.
#[export] Hint Extern 1 (u64 (Z.land _ _)) => apply u64_land_r : words.

(** ** Descriptors of the GDT *)

(** The words after storing each of the three parts *)
Definition with_rights (w ar : Z) : Z :=
  Z.lor (Z.lor (Z.land w 0xFF0F00FFFFFFFFFF) (shl64 (Z.land ar 0x000000000000F000) 40)) (shl64 (Z.land ar 0x00000000000000FF) 40).
Definition with_base (w b : Z) : Z :=
  Z.lor (Z.lor (Z.lor (Z.land w 0x00FFFF000000FFFF) (shl64 (Z.land b 0x00000000FF000000) 32))
    (shl64 (Z.land b 0x0000000000FF0000) 16)) (shl64 (Z.land b 0x000000000000FFFF) 16).
Definition with_limit (w l : Z) : Z :=
  Z.lor (Z.lor (Z.land w 0xFFF0FFFFFFFF0000) (shl64 (Z.land l 0x00000000000F0000) 32)) (shl64 (Z.land l 0x000000000000FFFF) 0).

Definition rights_of (w : Z) : Z := Z.lor (Z.shiftr (Z.land w 0x00F0000000000000) 40) (Z.shiftr (Z.land w 0x0000FF0000000000) 40).
Definition base_of (w : Z) : Z :=
  Z.lor (Z.lor (Z.shiftr (Z.land w 0xFF00000000000000) 32) (Z.shiftr (Z.land w 0x000000FF00000000) 16)) (Z.shiftr (Z.land w 0x00000000FFFF0000) 16).
Definition limit_of (w : Z) : Z := Z.lor (Z.shiftr (Z.land w 0x000F000000000000) 32) (Z.shiftr (Z.land w 0x000000000000FFFF) 0).

Lemma rights_with_rights w ar : rights_of (with_rights w ar) = Z.land ar 0xF0FF.
Proof. unfold rights_of, with_rights. read_parts. Qed.

Lemma base_with_base w b : base_of (with_base w b) = Z.land b 0xFFFFFFFF.
Proof. unfold base_of, with_base. read_parts. Qed.

Lemma limit_with_limit w l : limit_of (with_limit w l) = Z.land l 0xFFFFF.
Proof. unfold limit_of, with_limit. read_parts. Qed.

(** Bits outside a part are kept. *)
Ltac kept :=
  rewrite <- ?Z.lor_assoc; rewrite !land_keep;
    first done; try reflexivity; repeat apply land_lor_0; apply land_shl64; (lia || reflexivity).

Lemma rights_with_base w b : rights_of (with_base w b) = rights_of w.
Proof.
  unfold rights_of, with_base. kept.
Qed.

Lemma rights_with_limit w l : rights_of (with_limit w l) = rights_of w.
Proof.
  unfold rights_of, with_limit. kept.
Qed.

Lemma base_with_limit w l : base_of (with_limit w l) = base_of w.
Proof.
  unfold base_of, with_limit. kept.
Qed.

(** The bits that say whether a descriptor is of the system and whether its
    limit counts pages *)
Definition is_system (ar : Z) : bool := negb (Z.testbit ar 4).
Definition in_pages (ar : Z) : bool := Z.testbit ar 15.

Lemma system_bit w ar : (Z.land (with_rights w ar) 0x100000000000 =? 0) = is_system ar.
Proof.
  change 0x100000000000 with (2 ^ 44). rewrite testbit_const_bit by lia. unfold with_rights, is_system. f_equal. bit_value.
Qed.

Lemma pages_bit w ar : negb (Z.land (with_rights w ar) 0x80000000000000 =? 0) = in_pages ar.
Proof.
  change 0x80000000000000 with (2 ^ 55). rewrite testbit_const_bit, negb_involutive by lia. unfold with_rights, in_pages. bit_value.
Qed.

(** The upper half of the base of a system descriptor is in the next word. *)
Definition with_upper (w b : Z) : Z := Z.lor (Z.land w 0xFFFFFFFF00000000) (Z.shiftr (Z.land b 0xFFFFFFFF00000000) 32).

Lemma upper_read_back w b : u64 b -> shl64 (Z.land (with_upper w b) 0x00000000FFFFFFFF) 32 = Z.land b 0xFFFFFFFF00000000.
Proof.
  intros Hb. apply Z.bits_inj'. intros i Hi. unfold with_upper. rewrite testbit_shl64, !Z.land_spec by lia.
  change 0xFFFFFFFF with (Z.ones 32). change 0xFFFFFFFF00000000 with (Z.shiftl (Z.ones 32) 32).
  destruct (Z.leb_spec 32 i); simpl.
  - rewrite !Z.lor_spec, !Z.land_spec, Z.shiftr_spec, Z.land_spec by lia. replace (i - 32 + 32) with i by lia.
    destruct (Z.ltb_spec i 64); [|by rewrite (testbit_u64_high b i)].
    rewrite !testbit_shiftl by lia. replace (32 <=? i - 32) with false by lia. replace (32 <=? i) with true by lia. simpl.
    rewrite !testbit_ones by lia. replace (i - 32 <? 32) with true by lia. by rewrite andb_false_r, !andb_true_r.
  - rewrite testbit_shiftl by lia. replace (32 <=? i) with false by lia. by rewrite !andb_false_r.
Qed.

Lemma lower_upper b : u64 b -> Z.lor (Z.land b 0xFFFFFFFF00000000) (Z.land b 0xFFFFFFFF) = b.
Proof.
  intros Hb. rewrite <- Z.land_lor_distr_r. change (Z.lor 0xFFFFFFFF00000000 0xFFFFFFFF) with (Z.ones 64).
  rewrite Z.land_ones, Z.mod_small; [done|apply Hb|lia].
Qed.

Section Gdt.
Implicit Types t : table.

(** A table of the size the classes make *)
Definition table_wf t : Prop := Z.of_nat (length (t_words t)) <= 2 ^ 17.

Definition put_word (i v : Z) (ws : list Z) : list Z := <[Z.to_nat i := v]> ws.

Lemma next_index i t : table_wf t -> 0 <= i -> is_Some (t_words t !! Z.to_nat i) -> w32 (i + 1) = i + 1.
Proof.
  intros Hwf Hi Hs%lookup_lt_is_Some. unfold table_wf in Hwf. unfold w32. apply Z.mod_small. lia.
Qed.

Lemma set_access_rights_ok i ar w t : 0 < i -> t_words t !! Z.to_nat i = Some w ->
  gdt.set_access_rights i ar t = Ok tt (Table (t_base t) (t_limit t) (put_word i (with_rights w ar) (t_words t))).
Proof.
  intros Hi Hw. unfold gdt.set_access_rights. replace (i =? 0) with false by lia. simpl.
  erewrite bind_ok by done. rewrite (bind_ok _ _ _ _ _ (word_at_ok i w t ltac:(lia) Hw)). by erewrite set_word_ok by (done || lia).
Qed.

Lemma set_base_ok i b w t : table_wf t -> 0 < i -> t_words t !! Z.to_nat i = Some w ->
  (Z.land w 0x100000000000 =? 0 = false -> 
    gdt.set_base i b t = Ok tt (Table (t_base t) (t_limit t) (put_word i (with_base w b) (t_words t)))) /\
  (forall w', Z.land w 0x100000000000 =? 0 = true -> t_words t !! Z.to_nat (i + 1) = Some w' ->
    gdt.set_base i b t = Ok tt (Table (t_base t) (t_limit t) (put_word (i + 1) (with_upper w' b) (put_word i (with_base w b) (t_words t))))).
Proof.
  intros Hwf Hi Hw. unfold gdt.set_base. replace (i =? 0) with false by lia. simpl.
  assert (Z.land (Z.land w 0x00FFFF000000FFFF) 0x100000000000 = Z.land w 0x100000000000) as E
    by (rewrite <- Z.land_assoc; done). split.
  - intros Hs. erewrite bind_ok by done. rewrite (bind_ok _ _ _ _ _ (word_at_ok i w t ltac:(lia) Hw)), E, Hs.
    by erewrite set_word_ok by (done || lia).
  - intros w' Hs Hw'. erewrite bind_ok by done. rewrite (bind_ok _ _ _ _ _ (word_at_ok i w t ltac:(lia) Hw)), E, Hs.
    rewrite (next_index i t) by (done || lia || by eexists).
    rewrite (bind_ok _ _ _ _ _ (word_at_ok (i + 1) w' t ltac:(lia) Hw')).
    erewrite bind_ok by (apply (set_word_ok i w); [lia|done]).
    erewrite set_word_ok; [done|lia|]. simpl. rewrite list_lookup_insert_ne by lia. exact Hw'.
Qed.

Lemma set_limit_ok i l w t : 0 < i -> t_words t !! Z.to_nat i = Some w ->
  gdt.set_limit i l t = Ok tt (Table (t_base t) (t_limit t)
    (put_word i (with_limit w (if negb (Z.land w 0x80000000000000 =? 0) then Z.shiftr l 12 else l)) (t_words t))).
Proof.
  intros Hi Hw. unfold gdt.set_limit. replace (i =? 0) with false by lia. simpl. erewrite bind_ok by done.
  rewrite (bind_ok _ _ _ _ _ (word_at_ok i w t ltac:(lia) Hw)).
  assert (Z.land (Z.land w 0xFFF0FFFFFFFF0000) 0x80000000000000 = Z.land w 0x80000000000000) as E
    by (rewrite <- Z.land_assoc; done). rewrite E.
  by erewrite set_word_ok by (done || lia).
Qed.
End Gdt.

Lemma system_bit_kept w b l : Z.land (with_limit (with_base w b) l) 0x100000000000 = Z.land w 0x100000000000.
Proof. unfold with_limit, with_base. kept. Qed.

Lemma system_bit_base w b : Z.land (with_base w b) 0x100000000000 = Z.land w 0x100000000000.
Proof. unfold with_base. kept. Qed.

Lemma pages_bit_kept w b l : Z.land (with_limit (with_base w b) l) 0x80000000000000 = Z.land w 0x80000000000000.
Proof. unfold with_limit, with_base. kept. Qed.

Lemma pages_bit_base w b : Z.land (with_base w b) 0x80000000000000 = Z.land w 0x80000000000000.
Proof. unfold with_base. kept. Qed.

(** The readers, on the word they read *)
Lemma access_rights_ok i w (t : table) : 0 < i -> t_words t !! Z.to_nat i = Some w -> gdt.access_rights i t = Ok (rights_of w) t.
Proof.
  intros Hi Hw. unfold gdt.access_rights. replace (i =? 0) with false by lia. simpl. erewrite bind_ok by done.
  by rewrite (bind_ok _ _ _ _ _ (word_at_ok i w t ltac:(lia) Hw)).
Qed.

Lemma limit_ok i w (t : table) : 0 < i -> t_words t !! Z.to_nat i = Some w ->
  gdt.limit i t = Ok (if negb (Z.land w 0x80000000000000 =? 0) then Z.lor (shl64 (limit_of w) 12) 0xFFF else limit_of w) t.
Proof.
  intros Hi Hw. unfold gdt.limit. replace (i =? 0) with false by lia. simpl. erewrite bind_ok by done.
  rewrite (bind_ok _ _ _ _ _ (word_at_ok i w t ltac:(lia) Hw)). by destruct (negb _).
Qed.

Lemma base_ok i w (t : table) : table_wf t -> 0 < i -> t_words t !! Z.to_nat i = Some w ->
  (Z.land w 0x100000000000 =? 0 = false -> gdt.base i t = Ok (base_of w) t) /\
  (forall w', Z.land w 0x100000000000 =? 0 = true -> t_words t !! Z.to_nat (i + 1) = Some w' ->
    gdt.base i t = Ok (Z.lor (shl64 (Z.land w' 0xFFFFFFFF) 32) (base_of w)) t).
Proof.
  intros Hwf Hi Hw. unfold gdt.base. replace (i =? 0) with false by lia. simpl. split.
  - intros Hs. erewrite bind_ok by done. by rewrite (bind_ok _ _ _ _ _ (word_at_ok i w t ltac:(lia) Hw)), Hs.
  - intros w' Hs Hw'. erewrite bind_ok by done. rewrite (bind_ok _ _ _ _ _ (word_at_ok i w t ltac:(lia) Hw)), Hs.
    rewrite (next_index i t) by (done || lia || by eexists).
    rewrite (bind_ok _ _ _ _ _ (word_at_ok (i + 1) w' t ltac:(lia) Hw')). unfold base_of, ret. by rewrite !Z.lor_assoc.
Qed.

(** The words a descriptor of the given kind leaves *)
Definition descriptor (w b l ar : Z) : Z :=
  with_limit (with_base (with_rights w ar) b) (if in_pages ar then Z.shiftr l 12 else l).

Lemma descriptor_bits w b l ar :
  (Z.land (descriptor w b l ar) 0x100000000000 =? 0) = is_system ar /\
  negb (Z.land (descriptor w b l ar) 0x80000000000000 =? 0) = in_pages ar /\
  rights_of (descriptor w b l ar) = Z.land ar 0xF0FF /\ base_of (descriptor w b l ar) = Z.land b 0xFFFFFFFF /\
  limit_of (descriptor w b l ar) = Z.land (if in_pages ar then Z.shiftr l 12 else l) 0xFFFFF.
Proof.
  unfold descriptor. rewrite system_bit_kept, pages_bit_kept, system_bit, pages_bit, rights_with_limit, rights_with_base,
    rights_with_rights, base_with_limit, base_with_base, limit_with_limit. done.
Qed.

Lemma gdt_set_ok i b l ar w (t : table) : table_wf t -> 0 < i -> t_words t !! Z.to_nat i = Some w ->
  (is_system ar = false -> gdt.set i b l ar t = Ok tt (Table (t_base t) (t_limit t) (put_word i (descriptor w b l ar) (t_words t)))) /\
  (forall w', is_system ar = true -> t_words t !! Z.to_nat (i + 1) = Some w' ->
    gdt.set i b l ar t = Ok tt (Table (t_base t) (t_limit t) (put_word (i + 1) (with_upper w' b) (put_word i (descriptor w b l ar) (t_words t))))).
Proof.
  intros Hwf Hi Hw. unfold gdt.set, put_word. assert (Z.to_nat i < length (t_words t))%nat as Hlt by (by eapply lookup_lt_Some).
  set (t1 := Table (t_base t) (t_limit t) (<[Z.to_nat i := with_rights w ar]> (t_words t))).
  assert (table_wf t1) as Hwf1 by (unfold table_wf, t1; simpl; by rewrite length_insert).
  destruct (set_base_ok i b (with_rights w ar) t1 Hwf1 Hi) as [Hc Hs]; [by apply list_lookup_insert_eq|].
  rewrite system_bit in Hc, Hs. split.
  - intros Es. erewrite bind_ok by (by apply set_access_rights_ok). erewrite bind_ok by (by apply Hc).
    erewrite set_limit_ok; [|done|unfold put_word, t1; simpl; apply list_lookup_insert_eq; by rewrite length_insert].
    rewrite pages_bit_base, pages_bit. unfold put_word, t1; simpl. by rewrite !list_insert_insert_eq.
  - intros w' Es Hw'. assert (Z.to_nat (i + 1) <> Z.to_nat i) as Hne by lia.
    erewrite bind_ok by (by apply set_access_rights_ok).
    erewrite bind_ok by (apply (Hs w'); [done|unfold t1; simpl; by rewrite list_lookup_insert_ne]).
    erewrite set_limit_ok; [|done|].
    2: { unfold put_word, t1; simpl. rewrite list_lookup_insert_ne by done. apply list_lookup_insert_eq. by rewrite length_insert. }
    rewrite pages_bit_base, pages_bit. unfold put_word, t1; simpl. rewrite (list_insert_insert_ne _ (Z.to_nat i) (Z.to_nat (i + 1))) by done.
    by rewrite !list_insert_insert_eq.
Qed.

(** C23: A descriptor that is set is read back: its access rights, its base (32
    bits of it for code and data, all for descriptors of the system, which use the
    next word too) and its limit, which counts 4 KB pages if the rights say so.
    All other words of the table are as before. *)
Theorem gdt_descriptor_roundtrip i b l ar w (t : table) : table_wf t -> 0 < i -> u64 b ->
  t_words t !! Z.to_nat i = Some w -> (is_system ar = true -> is_Some (t_words t !! Z.to_nat (i + 1))) ->
  exists t', gdt.set i b l ar t = Ok tt t' /\
    gdt.base i t' = Ok (if is_system ar then b else Z.land b 0xFFFFFFFF) t' /\
    gdt.limit i t' = Ok (if in_pages ar then Z.lor (shl64 (Z.land (Z.shiftr l 12) 0xFFFFF) 12) 0xFFF else Z.land l 0xFFFFF) t' /\
    gdt.access_rights i t' = Ok (Z.land ar 0xF0FF) t' /\
    forall j, j <> Z.to_nat i -> (is_system ar = true -> j <> Z.to_nat (i + 1)) -> t_words t' !! j = t_words t !! j.
Proof.
  intros Hwf Hi Hb Hw Hn. destruct (gdt_set_ok i b l ar w t Hwf Hi Hw) as [Hc Hs].
  destruct (descriptor_bits w b l ar) as (Bs & Bp & Br & Bb & Bl).
  assert (Z.to_nat i < length (t_words t))%nat as Hlt by (by eapply lookup_lt_Some).
  assert (forall t', table_wf t' -> t_words t' !! Z.to_nat i = Some (descriptor w b l ar) ->
    gdt.limit i t' = Ok (if in_pages ar then Z.lor (shl64 (Z.land (Z.shiftr l 12) 0xFFFFF) 12) 0xFFF else Z.land l 0xFFFFF) t' /\
    gdt.access_rights i t' = Ok (Z.land ar 0xF0FF) t') as Hrd.
  { intros t' _ Hd. rewrite (limit_ok i _ t' Hi Hd), (access_rights_ok i _ t' Hi Hd), Bp, Br, Bl. by destruct (in_pages ar). }
  destruct (is_system ar) eqn:Es.
  - destruct (Hn eq_refl) as [w' Hw']. eexists. split; [by apply Hs|]. assert (Z.to_nat (i + 1) <> Z.to_nat i) as Hne by lia.
    set (t' := Table _ _ _). assert (table_wf t') as Hwf' by (unfold table_wf, t', put_word; simpl; by rewrite !length_insert).
    assert (t_words t' !! Z.to_nat i = Some (descriptor w b l ar)) as Hd.
    { unfold t', put_word; simpl. rewrite list_lookup_insert_ne by done. by apply list_lookup_insert_eq. }
    assert (t_words t' !! Z.to_nat (i + 1) = Some (with_upper w' b)) as Hd'.
    { unfold t', put_word; simpl. apply list_lookup_insert_eq. rewrite length_insert. by eapply lookup_lt_Some. }
    split; [|split; [by apply Hrd|split; [by apply Hrd|]]].
    + rewrite (proj2 (base_ok i _ t' Hwf' Hi Hd) _ Bs Hd'), upper_read_back, Bb, lower_upper by done. done.
    + intros j Hj Hj'. unfold t', put_word; simpl. specialize (Hj' eq_refl). rewrite !list_lookup_insert_ne by done. done.
  - eexists. split; [by apply Hc|]. set (t' := Table _ _ _).
    assert (table_wf t') as Hwf' by (unfold table_wf, t', put_word; simpl; by rewrite !length_insert).
    assert (t_words t' !! Z.to_nat i = Some (descriptor w b l ar)) as Hd by (by apply list_lookup_insert_eq).
    split; [|split; [by apply Hrd|split; [by apply Hrd|]]].
    + by rewrite (proj1 (base_ok i _ t' Hwf' Hi Hd) Bs), Bb.
    + intros j Hj _. unfold t', put_word; simpl. by rewrite list_lookup_insert_ne.
Qed.

(** ** Descriptors of the IDT *)

Definition with_offset (w off : Z) : Z :=
  Z.lor (Z.lor (Z.land w 0x0000FFFFFFFF0000) (shl64 (Z.land off 0x00000000FFFF0000) 32)) (shl64 (Z.land off 0x000000000000FFFF) 0).
Definition with_selector (w sel : Z) : Z := Z.lor (Z.land w 0xFFFFFFFF0000FFFF) (shl64 (Z.land sel 0x000000000000FFFF) 16).
Definition with_present (w : Z) : Z := Z.lor (Z.land w 0xFFFF0000FFFFFFFF) 0x00008E0100000000.
Definition gate (w off sel : Z) : Z := with_present (with_selector (with_offset w off) sel).

Definition offset_of (w : Z) : Z := Z.lor (Z.shiftr (Z.land w 0xFFFF000000000000) 32) (Z.shiftr (Z.land w 0x000000000000FFFF) 0).

Lemma offset_gate w off sel : offset_of (gate w off sel) = Z.land off 0xFFFFFFFF.
Proof.
  transitivity (offset_of (with_offset w off)); [|unfold offset_of, with_offset; read_parts].
  transitivity (offset_of (with_selector (with_offset w off) sel)); [|unfold offset_of; unfold with_selector; by kept].
  unfold gate, offset_of. unfold with_present. rewrite !land_keep; done.
Qed.

Lemma selector_gate w off sel : Z.shiftr (Z.land (gate w off sel) 0xFFFF0000) 16 = Z.land sel 0xFFFF.
Proof. unfold gate. unfold with_present. rewrite land_keep by done. unfold with_selector. read_parts. Qed.

Lemma present_gate w off sel : Z.land (gate w off sel) 0x0000800000000000 <> 0.
Proof.
  unfold gate. unfold with_present. rewrite Z.land_lor_distr_l, <- Z.land_assoc. change (Z.land 0xFFFF0000FFFFFFFF _) with 0.
  rewrite Z.land_0_r, Z.lor_0_l. done.
Qed.

Section Idt.
Context (i : Z) (Hi : 0 <= i < 2 ^ 31).

Lemma gate_index : w32 (i * 2) = i * 2 /\ w32 (i * 2 + 1) = i * 2 + 1 /\ 0 <= i * 2.
Proof using Hi. unfold w32. rewrite !Z.mod_small by lia. lia. Qed.

Lemma set_offset_ok off w w' (t : table) : is_address_canonical off = true ->
  t_words t !! Z.to_nat (i * 2) = Some w -> t_words t !! Z.to_nat (i * 2 + 1) = Some w' ->
  idt.set_offset i off t = Ok tt (Table (t_base t) (t_limit t)
    (put_word (i * 2 + 1) (with_upper w' off) (put_word (i * 2) (with_offset w off) (t_words t)))).
Proof using Hi.
  destruct gate_index as (E0 & E1 & H0). intros Hc Hw Hw'. unfold idt.set_offset. rewrite Hc, Z.add_0_r, !E0, E1. simpl.
  erewrite bind_ok by done. rewrite (bind_ok _ _ _ _ _ (word_at_ok (i * 2) w t H0 Hw)).
  rewrite (bind_ok _ _ _ _ _ (word_at_ok (i * 2 + 1) w' t ltac:(lia) Hw')).
  erewrite bind_ok by (by apply (set_word_ok _ w)).
  erewrite set_word_ok; [done|lia|]. simpl. rewrite list_lookup_insert_ne by lia. exact Hw'.
Qed.

Lemma set_selector_ok sel w (t : table) : t_words t !! Z.to_nat (i * 2) = Some w ->
  idt.set_selector i sel t = Ok tt (Table (t_base t) (t_limit t) (put_word (i * 2) (with_selector w sel) (t_words t))).
Proof using Hi.
  destruct gate_index as (E0 & E1 & H0). intros Hw. unfold idt.set_selector. rewrite E0.
  rewrite (bind_ok _ _ _ _ _ (word_at_ok (i * 2) w t H0 Hw)). by erewrite set_word_ok by done.
Qed.

Lemma set_present_ok w (t : table) : t_words t !! Z.to_nat (i * 2) = Some w ->
  idt.set_present i true t = Ok tt (Table (t_base t) (t_limit t) (put_word (i * 2) (with_present w) (t_words t))).
Proof using Hi.
  destruct gate_index as (E0 & E1 & H0). intros Hw. unfold idt.set_present. rewrite E0.
  rewrite (bind_ok _ _ _ _ _ (word_at_ok (i * 2) w t H0 Hw)). by erewrite set_word_ok by done.
Qed.

Lemma idt_set_ok off sel w w' (t : table) : is_address_canonical off = true ->
  t_words t !! Z.to_nat (i * 2) = Some w -> t_words t !! Z.to_nat (i * 2 + 1) = Some w' ->
  idt.set i off sel t = Ok tt (Table (t_base t) (t_limit t)
    (put_word (i * 2 + 1) (with_upper w' off) (put_word (i * 2) (gate w off sel) (t_words t)))).
Proof using Hi.
  intros Hc Hw Hw'. assert (Z.to_nat (i * 2) <> Z.to_nat (i * 2 + 1)) as Hne by lia.
  assert (Z.to_nat (i * 2) < length (t_words t))%nat as Hl by (by eapply lookup_lt_Some).
  unfold idt.set. erewrite bind_ok by (by apply (set_offset_ok _ w w')).
  erewrite bind_ok by (apply (set_selector_ok _ (with_offset w off)); unfold put_word; simpl; rewrite list_lookup_insert_ne by done; by apply list_lookup_insert_eq).
  erewrite set_present_ok.
  2: { unfold put_word; simpl. apply list_lookup_insert_eq. by rewrite !length_insert. }
  unfold put_word, gate; simpl. rewrite list_insert_insert_eq.
  rewrite (list_insert_insert_ne _ (Z.to_nat (i * 2)) (Z.to_nat (i * 2 + 1))) by done. by rewrite list_insert_insert_eq.
Qed.
End Idt.

(** A gate that is set for a canonical address is read back: its offset, its
    selector and that it is present, and no other gate changes.  An address that
    is not canonical is refused. *)
Theorem idt_gate_roundtrip i off sel w w' (t : table) : 0 <= i < 2 ^ 31 -> u64 off ->
  t_words t !! Z.to_nat (i * 2) = Some w -> t_words t !! Z.to_nat (i * 2 + 1) = Some w' ->
  if is_address_canonical off then
    exists t', idt.set i off sel t = Ok tt t' /\
      idt.offset i t' = Ok off t' /\ idt.selector i t' = Ok (Z.land sel 0xFFFF) t' /\ idt.present i t' = Ok true t' /\
      forall j, j <> Z.to_nat (i * 2) -> j <> Z.to_nat (i * 2 + 1) -> t_words t' !! j = t_words t !! j
  else idt.set i off sel t = Err fail_fast t.
Proof.
  intros Hi Hoff Hw Hw'. destruct (gate_index i Hi) as (E0 & E1 & H0).
  assert (Z.to_nat (i * 2) <> Z.to_nat (i * 2 + 1)) as Hne by lia.
  assert (Z.to_nat (i * 2) < length (t_words t))%nat as Hl by (by eapply lookup_lt_Some).
  assert (Z.to_nat (i * 2 + 1) < length (t_words t))%nat as Hl' by (by eapply lookup_lt_Some).
  destruct (is_address_canonical off) eqn:Ec; [|unfold idt.set, idt.set_offset; by rewrite Ec].
  eexists. split; [by apply (idt_set_ok i Hi off sel w w')|]. set (t' := Table _ _ _).
  assert (t_words t' !! Z.to_nat (i * 2) = Some (gate w off sel)) as Hg
    by (unfold t', put_word; simpl; rewrite list_lookup_insert_ne by done; by apply list_lookup_insert_eq).
  assert (t_words t' !! Z.to_nat (i * 2 + 1) = Some (with_upper w' off)) as Hu
    by (unfold t', put_word; simpl; apply list_lookup_insert_eq; by rewrite length_insert).
  unfold idt.offset, idt.selector, idt.present. rewrite Z.add_0_r, !E0, E1.
  rewrite !(bind_ok _ _ _ _ _ (word_at_ok (i * 2) _ t' H0 Hg)).
  rewrite (bind_ok _ _ _ _ _ (word_at_ok (i * 2 + 1) _ t' ltac:(lia) Hu)).
  split; [|split; [|split]]; unfold ret.
  - rewrite upper_read_back by done. fold (offset_of (gate w off sel)). rewrite <- Z.lor_assoc.
    fold (offset_of (gate w off sel)). by rewrite offset_gate, lower_upper.
  - by rewrite selector_gate.
  - pose proof (present_gate w off sel). by destruct (Z.eqb_spec (Z.land (gate w off sel) 0x0000800000000000) 0).
  - intros j Hj Hj'. unfold t', put_word; simpl. by rewrite !list_lookup_insert_ne.
Qed.

Lemma gdt_descriptor_roundtrip_witness : exists t',
  gdt.set 5 0xFFFF800012345678 103 0x8B (gdt.gdt_ctor 0x1000 512) = Ok tt t' /\
  gdt.base 5 t' = Ok 0xFFFF800012345678 t' /\ gdt.limit 5 t' = Ok 103 t'.
Proof.
  destruct (gdt_descriptor_roundtrip 5 0xFFFF800012345678 103 0x8B 0 (gdt.gdt_ctor 0x1000 512)) as (t' & ? & ? & ? & _).
  - vm_compute. discriminate.
  - lia.
  - unfold u64. lia.
  - reflexivity.
  - intros _. by eexists.
  - exists t'. done.
Defined.

Lemma idt_gate_roundtrip_witness : exists t',
  idt.set 2 0xFFFF800012345678 8 (idt.idt_ctor 0x2000 256) = Ok tt t' /\ idt.offset 2 t' = Ok 0xFFFF800012345678 t'.
Proof.
  destruct (idt_gate_roundtrip 2 0xFFFF800012345678 8 0 0 (idt.idt_ctor 0x2000 256)) as (t' & ? & ? & _).
  - lia.
  - unfold u64. lia.
  - reflexivity.
  - reflexivity.
  - exists t'. done.
Defined.
