(* ===== verification/ExitHandler.v ===== *)
(** * The exit handler

    [exit_handler.cpp] and [nmi.cpp] of [bfvmm/src/hve/arch/intel_x64], with
    [resume], [promote], [launch] and [load] of [vmcs.cpp].  The state is the
    processor and the state [X] of whatever else handlers work on.  A handler is
    a computation that says whether the exit has been dealt with.  Control leaves
    the hypervisor for good by [left resumed] and the like.  The addresses that
    the constructor stores (stacks, tables, the entry stub) and the root and the
    memory types of the host's page tables are arguments; [vmcs_promote], which
    loads the guest's registers into the processor, only leaves. *)
From S2P Require Import Prelude Bits EptEntry Guard Vcpu Vmcs MsrFields X64MsrFields VmcsControl VmcsGuest VmcsHost VmcsExit Crs Check CheckAll.
Open Scope Z_scope.
Open Scope vmm_scope.

(** A virtual machine: the processor, the identifier of the virtual CPU in
    [save_state_t], and the state of the extensions *)
Record vm (X : Type) := Vm { hw : cpu; m_vcpuid : Z; ext : X }.
Arguments Vm {X} hw m_vcpuid ext.
Arguments hw {X} v.
Arguments m_vcpuid {X} v.
Arguments ext {X} v.

Definition with_hw {X} (c : cpu) (v : vm X) : vm X := Vm c (m_vcpuid v) (ext v).

(** An operation of the processor in a machine *)
Definition on_cpu {X A} (m : M cpu A) : M (vm X) A := fun v =>
  match m (hw v) with Ok a c => Ok a (with_hw c v) | Err e c => Err e (with_hw c v) end.

(** [handler_delegate_t] *)
Definition handler (X : Type) := M (vm X) bool.

(** The lists of [exit_handler]; [m_exit_handlers] has one for every reason. *)
Record exit_handler (X : Type) := ExitHandler {
  m_init_handlers : list (handler X);
  m_fini_handlers : list (handler X);
  m_exit_handlers : list (list (handler X)) }.
Arguments ExitHandler {X} m_init_handlers m_fini_handlers m_exit_handlers.
Arguments m_init_handlers {X} e.
Arguments m_fini_handlers {X} e.
Arguments m_exit_handlers {X} e.

Section Handlers.
Context `{Processor}.

(** [halt]: prints the registers and stops the processor. *)
Definition halt : M cpu unit := throw (left halted).

Definition advance : M cpu bool := noexcept (
  len <- vmcs_get vm_exit_instruction_length.reg ;;
  r <- get_reg rip ;; put_reg rip (add64 r len) ;;; ret true).

(** [vmcs_resume] writes the stack pointer and the instruction pointer of the
    guest, whatever VMWRITE says, and enters it. *)
Definition vmwrite_unchecked (addr val : Z) : M cpu unit := catch (vm_write addr val) (fun _ => ret tt).

Definition resume : M cpu unit :=
  sp <- get_reg rsp ;; vmwrite_unchecked 0x0000681C sp ;;;
  ip <- get_reg rip ;; vmwrite_unchecked 0x0000681E ip ;;;
  c <- get ;;
  if enters_guest c then throw (left resumed) else throw (runtime_error "vmcs resume failed").

Definition emulate_rdmsr (m : Z) : M cpu Z :=
  if m =? m_addr ia32_debugctl.reg then vmcs_get guest_ia32_debugctl.reg else
  if m =? m_addr ia32_pat.reg then vmcs_get guest_ia32_pat.reg else
  if m =? m_addr ia32_efer.reg then vmcs_get guest_ia32_efer.reg else
  if m =? m_addr ia32_perf_global_ctrl.reg then vmcs_get_if_exists guest_ia32_perf_global_ctrl.reg else
  if m =? m_addr MsrFields.ia32_sysenter_cs.reg then vmcs_get guest_ia32_sysenter_cs.reg else
  if m =? m_addr MsrFields.ia32_sysenter_esp.reg then vmcs_get guest_ia32_sysenter_esp.reg else
  if m =? m_addr MsrFields.ia32_sysenter_eip.reg then vmcs_get guest_ia32_sysenter_eip.reg else
  if m =? m_addr ia32_fs_base.reg then vmcs_get guest_fs_base.reg else
  if m =? m_addr ia32_gs_base.reg then vmcs_get guest_gs_base.reg else
  if (m =? 0x31) || (m =? 0x39) || (m =? 0x1ae) || (m =? 0x1af) || (m =? 0x602) then ret 0
  else read_msr m.

Definition emulate_wrmsr (m val : Z) : M cpu unit :=
  if m =? m_addr ia32_debugctl.reg then vmcs_set guest_ia32_debugctl.reg val else
  if m =? m_addr ia32_pat.reg then vmcs_set guest_ia32_pat.reg val else
  if m =? m_addr ia32_efer.reg then vmcs_set guest_ia32_efer.reg val else
  if m =? m_addr ia32_perf_global_ctrl.reg then vmcs_set_if_exists guest_ia32_perf_global_ctrl.reg val else
  if m =? m_addr MsrFields.ia32_sysenter_cs.reg then vmcs_set guest_ia32_sysenter_cs.reg val else
  if m =? m_addr MsrFields.ia32_sysenter_esp.reg then vmcs_set guest_ia32_sysenter_esp.reg val else
  if m =? m_addr MsrFields.ia32_sysenter_eip.reg then vmcs_set guest_ia32_sysenter_eip.reg val else
  if m =? m_addr ia32_fs_base.reg then vmcs_set guest_fs_base.reg val else
  if m =? m_addr ia32_gs_base.reg then vmcs_set guest_gs_base.reg val
  else write_msr m val.

(** The register that the exit qualification of a control register access names:
    [emulate_rdgpr] and [emulate_wrgpr] have the same cases. *)
Definition gpr_number (n : Z) : gpr :=
  if n =? exit_qualification.control_register_access.general_purpose_register_rax then rax else
  if n =? exit_qualification.control_register_access.general_purpose_register_rbx then rbx else
  if n =? exit_qualification.control_register_access.general_purpose_register_rcx then rcx else
  if n =? exit_qualification.control_register_access.general_purpose_register_rdx then rdx else
  if n =? exit_qualification.control_register_access.general_purpose_register_rsp then rsp else
  if n =? exit_qualification.control_register_access.general_purpose_register_rbp then rbp else
  if n =? exit_qualification.control_register_access.general_purpose_register_rsi then rsi else
  if n =? exit_qualification.control_register_access.general_purpose_register_rdi then rdi else
  if n =? exit_qualification.control_register_access.general_purpose_register_r8 then r08 else
  if n =? exit_qualification.control_register_access.general_purpose_register_r9 then r09 else
  if n =? exit_qualification.control_register_access.general_purpose_register_r10 then r10 else
  if n =? exit_qualification.control_register_access.general_purpose_register_r11 then r11 else
  if n =? exit_qualification.control_register_access.general_purpose_register_r12 then r12 else
  if n =? exit_qualification.control_register_access.general_purpose_register_r13 then r13 else
  if n =? exit_qualification.control_register_access.general_purpose_register_r14 then r14 else r15.

Definition emulate_rdgpr : M cpu Z :=
  n <- bits_get exit_qualification.control_register_access.general_purpose_register ;; get_reg (gpr_number n).

Definition emulate_wrgpr (val : Z) : M cpu unit :=
  n <- bits_get exit_qualification.control_register_access.general_purpose_register ;; put_reg (gpr_number n) val.

(** [inject_nmi] of [nmi.cpp] *)
Definition inject_nmi : M cpu unit := noexcept (
  let info := 0 in
  let info := field_set (vl vm_entry_interruption_information.vector) info 2 in
  let info := field_set (vl vm_entry_interruption_information.interruption_type) info
    vm_entry_interruption_information.interruption_type_non_maskable_interrupt in
  let info := enable (vf vm_entry_interruption_information.valid_bit) info in
  vmcs_set vm_entry_interruption_information.reg info).

Definition handle_nmi : M cpu bool :=
  control_enable primary_processor_based_vm_execution_controls.nmi_window_exiting ;;; ret true.

Definition handle_nmi_window : M cpu bool :=
  inject_nmi ;;;
  control_disable primary_processor_based_vm_execution_controls.nmi_window_exiting ;;; ret true.

Definition handle_invd : M cpu bool := exec i_wbinvd ;;; advance.

Definition handle_rdmsr : M cpu bool :=
  c <- get_reg rcx ;;
  val <- emulate_rdmsr (w32 c) ;;
  put_reg rax (Z.land (Z.shiftr val 0x00) 0x00000000FFFFFFFF) ;;;
  put_reg rdx (Z.land (Z.shiftr val 0x20) 0x00000000FFFFFFFF) ;;;
  advance.

Definition handle_wrmsr : M cpu bool :=
  a <- get_reg rax ;; d <- get_reg rdx ;; c <- get_reg rcx ;;
  let val := 0 in
  let val := Z.lor val (shl64 (Z.land a 0x00000000FFFFFFFF) 0x00) in
  let val := Z.lor val (shl64 (Z.land d 0x00000000FFFFFFFF) 0x20) in
  emulate_wrmsr (w32 c) val ;;;
  advance.

Definition handle_wrcr4 : M cpu bool :=
  n <- bits_get exit_qualification.control_register_access.control_register_number ;;
  if n =? 4 then
    val <- emulate_rdgpr ;;
    vmcs_set cr4_read_shadow.reg val ;;;
    let val := Z.lor val (flag_mask (cf cr4.vmx_enable_bit)) in
    vmcs_set guest_cr4.reg val ;;;
    advance
  else ret false.

(** [vmcs::promote]: the mapping of the guest's GDT is [make_unique_map] of its
    base, the root of the guest's tables and the size of the table. *)
Definition promote (map : Z -> Z -> Z -> exn + unit) : M cpu unit :=
  base <- vmcs_get guest_gdtr_base.reg ;;
  root <- vmcs_get guest_cr3.reg ;;
  lim <- vmcs_get guest_gdtr_limit.reg ;;
  match map base root (add64 lim 1) with
  | inl e => throw e
  | inr _ => throw (left promoted)
  end.

(** ** Construction *)

(** [g_cr0], [g_cr3], [g_cr4], [g_ia32_pat_msr], [g_ia32_efer_msr] after [setup],
    with the root and the memory types of the map of the host *)
Record host_globals := HostGlobals { g_cr0 : Z; g_cr3 : Z; g_cr4 : Z; g_ia32_pat_msr : Z; g_ia32_efer_msr : Z }.

Definition lor_masks (l : list creg_flag) : Z := foldl (fun v f => Z.lor v (flag_mask (cf f))) 0 l.

Definition setup (mmap_cr3 mmap_pat : Z) : host_globals :=
  let efer := foldl (fun v f => Z.lor v (flag_mask (mf f))) 0 [ia32_efer.lme; ia32_efer.lma; ia32_efer.nxe] in
  let g0 := lor_masks [cr0.protection_enable; cr0.monitor_coprocessor; cr0.extension_type; cr0.numeric_error;
    cr0.write_protect; cr0.paging] in
  let g4 := lor_masks [cr4.v8086_mode_extensions; cr4.protected_mode_virtual_interrupts; cr4.time_stamp_disable;
    cr4.debugging_extensions; cr4.page_size_extensions; cr4.physical_address_extensions; cr4.machine_check_enable;
    cr4.page_global_enable; cr4.performance_monitor_counter_enable; cr4.osfxsr; cr4.osxmmexcpt; cr4.vmx_enable_bit] in
  let g4 := if cpuid_is_enabled feature_information.ecx_reg feature_information.xsave
    then Z.lor g4 (flag_mask (cf cr4.osxsave)) else g4 in
  let g4 := if cpuid_is_enabled extended_feature_flags.ebx_reg extended_feature_flags.smep
    then Z.lor g4 (flag_mask (cf cr4.smep_enable_bit)) else g4 in
  let g4 := if cpuid_is_enabled extended_feature_flags.ebx_reg extended_feature_flags.smap
    then Z.lor g4 (flag_mask (cf cr4.smap_enable_bit)) else g4 in
  HostGlobals g0 mmap_cr3 g4 mmap_pat efer.

(** The addresses the constructor stores: [m_vmcs->save_state()], the base of the
    TSS in the GDT, the GDT, the IDT, [exit_handler_entry] and the top of the stack *)
Record host_addrs := HostAddrs { a_save_state : Z; a_tss : Z; a_gdt : Z; a_idt : Z; a_entry : Z; a_stack : Z }.

Definition write_host_state (g : host_globals) (a : host_addrs) : M cpu unit :=
  vmcs_set host_cs_selector.reg (shl64 1 3) ;;;
  vmcs_set host_ss_selector.reg (shl64 2 3) ;;;
  vmcs_set host_fs_selector.reg (shl64 3 3) ;;;
  vmcs_set host_gs_selector.reg (shl64 4 3) ;;;
  vmcs_set host_tr_selector.reg (shl64 5 3) ;;;
  vmcs_set host_ia32_pat.reg (g_ia32_pat_msr g) ;;;
  vmcs_set host_ia32_efer.reg (g_ia32_efer_msr g) ;;;
  vmcs_set host_cr0.reg (g_cr0 g) ;;;
  vmcs_set host_cr3.reg (g_cr3 g) ;;;
  vmcs_set host_cr4.reg (g_cr4 g) ;;;
  vmcs_set host_gs_base.reg (a_save_state a) ;;;
  vmcs_set host_tr_base.reg (a_tss a) ;;;
  vmcs_set host_gdtr_base.reg (a_gdt a) ;;;
  vmcs_set host_idtr_base.reg (a_idt a) ;;;
  vmcs_set host_rip.reg (a_entry a) ;;;
  vmcs_set host_rsp.reg (a_stack a).

(** [(msr >> 0 & 0xFFFFFFFF) & (msr >> 32 & 0xFFFFFFFF)] *)
Definition required (v : Z) : Z :=
  Z.land (Z.land (Z.shiftr v 0) 0x00000000FFFFFFFF) (Z.land (Z.shiftr v 32) 0x00000000FFFFFFFF).

Definition write_control_state : M cpu unit :=
  pin <- msr_get ia32_vmx_true_pinbased_ctls.reg ;;
  proc <- msr_get ia32_vmx_true_procbased_ctls.reg ;;
  exit <- msr_get ia32_vmx_true_exit_ctls.reg ;;
  entry <- msr_get ia32_vmx_true_entry_ctls.reg ;;
  vmcs_set pin_based_vm_execution_controls.reg (required pin) ;;;
  vmcs_set primary_processor_based_vm_execution_controls.reg (required proc) ;;;
  vmcs_set vm_exit_controls.reg (required exit) ;;;
  vmcs_set vm_entry_controls.reg (required entry) ;;;
  control_enable pin_based_vm_execution_controls.nmi_exiting ;;;
  control_enable pin_based_vm_execution_controls.virtual_nmis ;;;
  control_enable_if_allowed primary_processor_based_vm_execution_controls.activate_secondary_controls ;;;
  control_enable_if_allowed secondary_processor_based_vm_execution_controls.enable_rdtscp ;;;
  control_enable_if_allowed secondary_processor_based_vm_execution_controls.enable_invpcid ;;;
  control_enable_if_allowed secondary_processor_based_vm_execution_controls.enable_xsaves_xrstors ;;;
  control_enable vm_exit_controls.save_debug_controls ;;;
  control_enable vm_exit_controls.host_address_space_size ;;;
  control_enable_if_allowed vm_exit_controls.load_ia32_perf_global_ctrl ;;;
  control_enable vm_exit_controls.save_ia32_pat ;;;
  control_enable vm_exit_controls.load_ia32_pat ;;;
  control_enable vm_exit_controls.save_ia32_efer ;;;
  control_enable vm_exit_controls.load_ia32_efer ;;;
  control_enable vm_entry_controls.load_debug_controls ;;;
  control_enable vm_entry_controls.ia_32e_mode_guest ;;;
  control_enable_if_allowed vm_entry_controls.load_ia32_perf_global_ctrl ;;;
  control_enable vm_entry_controls.load_ia32_pat ;;;
  control_enable vm_entry_controls.load_ia32_efer ;;;
  vmcs_set cr4_guest_host_mask.reg (flag_mask (cf cr4.vmx_enable_bit)).

End Handlers.

(** ** Dispatch *)

Section Dispatch.
Context `{Processor} `{HostMemory} {X : Type}.
Context (map_gdt : Z -> Z -> Z -> exn + unit).

Definition num_reasons : Z := 128.

(** [std::array::at] of the lists of handlers *)
Definition handlers_at (e : exit_handler X) (reason : Z) : option (list (handler X)) :=
  m_exit_handlers e !! Z.to_nat reason.

Definition add_handler (reason : Z) (d : handler X) : M (exit_handler X) unit :=
  e <- get ;;
  match handlers_at e reason with
  | Some ds => Prelude.put (ExitHandler (m_init_handlers e) (m_fini_handlers e)
      (<[Z.to_nat reason := d :: ds]> (m_exit_handlers e)))
  | None => throw out_of_range
  end.

Definition add_init_handler (d : handler X) (e : exit_handler X) : exit_handler X :=
  ExitHandler (d :: m_init_handlers e) (m_fini_handlers e) (m_exit_handlers e).

Definition add_fini_handler (d : handler X) (e : exit_handler X) : exit_handler X :=
  ExitHandler (m_init_handlers e) (d :: m_fini_handlers e) (m_exit_handlers e).

(** [for (const auto &d : handlers) d(vmcs)]: what the handlers answer is ignored. *)
Definition call_handlers (ds : list (handler X)) : M (vm X) unit := for_each ds (fun d => d ;;; ret tt).

(** The lists of initialization and finalization handlers are those of the exit
    handler at the time of the exit. *)
Definition handle_cpuid (e : exit_handler X) : handler X :=
  a <- on_cpu (get_reg rax) ;;
  if a =? 0xBF10 then call_handlers (m_init_handlers e) ;;; on_cpu advance else
  if a =? 0xBF20 then call_handlers (m_fini_handlers e) ;;; on_cpu advance else
  if a =? 0xBF11 then on_cpu advance else
  (if a =? 0xBF21 then on_cpu (promote map_gdt) else ret tt) ;;;
  on_cpu (
    c <- get_reg rcx ;;
    let r := cpuid_instr (w32 a) (w32 c) in
    put_reg rax (eax r) ;;; put_reg rbx (ebx r) ;;; put_reg rcx (ecx r) ;;; put_reg rdx (edx r) ;;;
    advance).

(** [for (const auto &d : handlers) if (d(vmcs)) vmcs->resume()] *)
Fixpoint dispatch (ds : list (handler X)) : M (vm X) unit :=
  match ds with
  | [] => ret tt
  | d :: ds' => b <- d ;; (if b : bool then on_cpu resume else ret tt) ;;; dispatch ds'
  end.

Definition handle_exit (e : exit_handler X) : M (vm X) unit :=
  reason <- on_cpu (bits_get exit_reason.basic_exit_reason) ;;
  match handlers_at e reason with
  | None => throw out_of_range
  | Some ds =>
      dispatch ds ;;;
      failed <- on_cpu (flag_is_enabled exit_reason.vm_entry_failure) ;;
      if failed : bool then on_cpu check_all else ret tt
  end.

(** [exit_handler::handle]: the code it passes to [guard_exceptions] is not used. *)
Definition handle (e : exit_handler X) : M (vm X) unit :=
  noexcept (guard_exceptions SUCCESS (handle_exit e) ;;; on_cpu halt).

(** [vmcs::load] and [vmcs::launch]; on a failure the checks are run, and an
    exception of theirs ends the hypervisor. *)
Definition load (region : Z) : M (vm X) unit :=
  if accepts_region region then on_cpu (exec (i_vmptrld region)) else throw (runtime_error "vm::load failed").

Definition launch (region : Z) : M (vm X) unit :=
  load region ;;;
  on_failure (on_cpu check_all) (
    v <- get ;;
    if enters_guest (hw v) then
      if is_hvm_vcpu (m_vcpuid v) then ret tt else throw (left launched)
    else if is_hvm_vcpu (m_vcpuid v) then throw (runtime_error "vm::launch_demote failed")
    else throw (runtime_error "vmcs launch failed")).

(** The handlers that the constructor registers, in the order of its calls *)
Definition base_handlers (cpuid_handler : handler X) : list (Z * handler X) :=
  [(exit_reason.basic_exit_reason_exception_or_non_maskable_interrupt, on_cpu handle_nmi);
   (exit_reason.basic_exit_reason_nmi_window, on_cpu handle_nmi_window);
   (exit_reason.basic_exit_reason_invd, on_cpu handle_invd);
   (exit_reason.basic_exit_reason_rdmsr, on_cpu handle_rdmsr);
   (exit_reason.basic_exit_reason_wrmsr, on_cpu handle_wrmsr);
   (exit_reason.basic_exit_reason_control_register_accesses, on_cpu handle_wrcr4);
   (exit_reason.basic_exit_reason_cpuid, cpuid_handler)].

Definition empty_handlers : exit_handler X := ExitHandler [] [] (replicate (Z.to_nat num_reasons) []).

Definition register_handlers (l : list (Z * handler X)) : M (exit_handler X) unit :=
  for_each l (fun p => add_handler p.1 p.2).

End Dispatch.
