(* ===== verification/ExitHandlerProofs.v ===== *)
(** * What the exit handler promises

    The dispatch of exits never returns: a handler claims the exit and the guest
    is resumed, or the processor stops.  The emulation of model specific registers
    and of CR4 shows the guest its own values.  The state that the constructor
    writes passes the checks of the processor. *)
From S2P Require Import Prelude Bits EptEntry Guard Vcpu Vmcs MsrFields X64MsrFields VmcsControl VmcsGuest VmcsHost VmcsExit VmcsProofs.
From S2P Require Import Crs Check CheckControl CheckGuest CheckHost CheckAll ExitHandler.
Open Scope Z_scope.
Open Scope vmm_scope.

(** ** Dispatch *)

Section Dispatch.
Context `{Processor} `{HostMemory} {X : Type}.
Implicit Types (v : vm X) (ds : list (handler X)).

(** The processor as it enters the guest: the pointers of the guest are those
    that the handlers left. *)
Definition guest_pointers (c : cpu) : cpu :=
  let write a x c := if bool_decide (is_Some (vmcs_fields c !! a)) then set_vmcs (<[a := x mod 2 ^ 64]>) c else c in
  write 0x0000681E (regs c rip) (write 0x0000681C (regs c rsp) c).

Definition entered (c : cpu) : exn := if enters_guest c then left resumed else left halted.

(** The exit of a machine, by the handlers of its reason: the first one that
    claims it lets the guest go on with what it left; after one that throws, or if
    none claims it, the processor stops.  What is not an exception of C++ passes. *)
Inductive dispatched : list (handler X) -> vm X -> exn -> vm X -> Prop :=
| d_claimed d ds v v' : d v = Ok true v' ->
    dispatched (d :: ds) v (entered (guest_pointers (hw v'))) (with_hw (guest_pointers (hw v')) v')
| d_next d ds v v' r v'' : d v = Ok false v' -> dispatched ds v' r v'' -> dispatched (d :: ds) v r v''
| d_throws d ds v e v' : d v = Err e v' -> catchable e = true -> dispatched (d :: ds) v (left halted) v'
| d_leaves d ds v e v' : d v = Err e v' -> catchable e = false -> dispatched (d :: ds) v e v'
| d_unclaimed v : dispatched [] v (left halted) v
| d_check_fault v e : check_all (hw v) = Err e (hw v) -> catchable e = false -> dispatched [] v e v.

Lemma with_hw_hw v : with_hw (hw v) v = v.
Proof. by destruct v. Qed.

Lemma on_cpu_ok {A} (m : M cpu A) v a c : m (hw v) = Ok a c -> on_cpu m v = Ok a (with_hw c v).
Proof. intros E. unfold on_cpu. by rewrite E. Qed.

Lemma vmwrite_unchecked_ok a x c : type_bits a <> 1 -> width_of a = 64 ->
  vmwrite_unchecked a x c = Ok tt (if bool_decide (is_Some (vmcs_fields c !! a)) then set_vmcs (<[a := x mod 2 ^ 64]>) c else c).
Proof.
  intros Ht Hw. unfold vmwrite_unchecked, catch, vm_write. rewrite bind_get.
  destruct (vmcs_fields c !! a) eqn:E.
  - replace (type_bits a =? 1) with false by lia. simpl. by rewrite Hw.
  - simpl. done.
Qed.

Lemma resume_leaves c : resume c =
  Err (if enters_guest (guest_pointers c) then left resumed else runtime_error "vmcs resume failed") (guest_pointers c).
Proof.
  unfold resume, get_reg. erewrite bind_ok by done. erewrite bind_ok by (by apply vmwrite_unchecked_ok).
  erewrite bind_ok by done. erewrite bind_ok by (by apply vmwrite_unchecked_ok). rewrite bind_get.
  unfold guest_pointers. set (c1 := if bool_decide (is_Some (vmcs_fields c !! 0x681C)) then _ else c).
  assert (regs c1 rip = regs c rip) as -> by (unfold c1; by case_bool_decide).
  cbv zeta. fold c1. set (c2 := if bool_decide _ then _ else c1). by destruct (enters_guest c2).
Qed.

Lemma check_all_state c : out_state (check_all c) = c.
Proof.
  pose proof (run_checks all_checks c checks_read) as Hr. unfold check_all.
  destruct (for_each _ _ c); simpl; [by destruct Hr as [-> _]|by destruct Hr as [-> _]].
Qed.

(** After the handlers: nothing is claimed. *)
Definition after_handlers : M (vm X) unit :=
  failed <- on_cpu (flag_is_enabled exit_reason.vm_entry_failure) ;;
  if failed : bool then on_cpu check_all else ret tt.

(** [guard_exceptions] and then [halt] *)
Definition guarded (o : outcome (vm X) unit) : outcome (vm X) unit :=
  match o with
  | Ok _ v => Err (left halted) v
  | Err e v => if catchable e then Err (left halted) v else Err e v
  end.

Lemma handle_guarded (m : M (vm X) unit) v :
  noexcept (guard_exceptions SUCCESS m ;;; on_cpu halt) v = guarded (m v).
Proof.
  unfold noexcept, catch, guard_exceptions, bind. unfold catch, bind.
  destruct (m v) as [a v'|e v']; [by destruct v'|].
  destruct e; simpl; by destruct v'.
Qed.

Lemma after_handlers_ok v r v' : guarded (after_handlers v) = Err r v' -> dispatched [] v r v'.
Proof.
  pose proof (reads_flag_is_enabled exit_reason.vm_entry_failure (reads_ret true) (hw v)) as Hr.
  unfold after_handlers, on_cpu, bind. destruct (flag_is_enabled _ (hw v)) as [b c|e c] eqn:E; subst c.
  - rewrite with_hw_hw. destruct b; simpl; [|intros [= <- <-]; constructor].
    pose proof (check_all_state (hw v)) as Hs. destruct (check_all (hw v)) as [u c|e c] eqn:Ec; simpl in Hs; subst c; rewrite with_hw_hw; simpl.
    + intros [= <- <-]. constructor.
    + destruct (catchable e) eqn:Hc; intros [= <- <-]; [constructor|by apply d_check_fault].
  - rewrite with_hw_hw. simpl.
    assert (catchable e = true) as ->.
    { revert E. unfold flag_is_enabled, bind, get_vmcs_field, vm_read, bind, get, throw. simpl.
      destruct (vmcs_fields (hw v) !! _); [done|]. by intros [= <-]. }
    intros [= <- <-]. constructor.
Qed.

Lemma dispatch_ok ds v r v' : guarded ((dispatch ds ;;; after_handlers) v) = Err r v' -> dispatched ds v r v'.
Proof.
  revert v. induction ds as [|d ds IH]; intros v; simpl; [apply after_handlers_ok|].
  unfold bind at 1 2. destruct (d v) as [b v1|e v1] eqn:E.
  - destruct b.
    + unfold bind at 1, on_cpu at 1. rewrite resume_leaves. pose proof (d_claimed d ds v v1 E) as Hd. revert Hd. unfold entered.
      destruct (enters_guest _); simpl; intros Hd [= <- <-]; exact Hd.
    + unfold bind at 1. simpl. intros Hg. eapply d_next; [done|]. apply IH. exact Hg.
  - simpl. destruct (catchable e) eqn:Hc; intros [= <- <-]; [by eapply d_throws|by eapply d_leaves].
Qed.

(** The handlers of [l] for [reason], the last one of [l] first. *)
Definition added (reason : Z) (l : list (Z * handler X)) : list (handler X) :=
  rev (snd <$> filter (fun p => Z.to_nat p.1 = Z.to_nat reason) l).

Lemma added_cons reason p l :
  added reason (p :: l) = added reason l ++ (if decide (Z.to_nat p.1 = Z.to_nat reason) then [p.2] else []).
Proof. unfold added. rewrite filter_cons. case_decide; simpl; by rewrite ?app_nil_r. Qed.

Lemma add_handler_at k d (e : exit_handler X) ds : handlers_at e k = Some ds ->
  exists e', add_handler k d e = Ok tt e' /\
    forall reason, handlers_at e' reason =
      (fun ds => (if decide (Z.to_nat k = Z.to_nat reason) then [d] else []) ++ ds) <$> handlers_at e reason.
Proof.
  intros E. unfold add_handler. rewrite bind_get, E. eexists. split; [reflexivity|]. intros reason.
  unfold handlers_at in *. simpl. case_decide as Hk.
  - rewrite <- Hk, list_lookup_insert_eq by (by eapply lookup_lt_Some). by rewrite E.
  - rewrite list_lookup_insert_ne by done. by destruct (m_exit_handlers e !! Z.to_nat reason).
Qed.

Lemma add_handlers_at l : forall e : exit_handler X,
  match register_handlers l e with
  | Ok _ e' => forall reason, handlers_at e' reason = (fun ds => added reason l ++ ds) <$> handlers_at e reason
  | Err ex _ => ex = out_of_range /\ exists p, p ∈ l /\ handlers_at e p.1 = None
  end.
Proof.
  induction l as [|[k d] l IH]; intros e; [intros reason; simpl; by destruct (handlers_at e reason)|].
  unfold register_handlers. cbn [for_each fst snd]. destruct (handlers_at e k) as [ds|] eqn:E.
  - destruct (add_handler_at k d e ds E) as (e1 & E1 & H1). erewrite bind_ok by exact E1.
    specialize (IH e1). unfold register_handlers in IH. destruct (for_each l _ e1) as [[] e2|ex e2].
    + intros reason. rewrite IH, H1, added_cons. simpl. destruct (handlers_at e reason); simpl; [|done].
      by rewrite app_assoc.
    + destruct IH as (-> & p & Hp & Hn). split; [done|]. exists p. split; [by apply list_elem_of_further|].
      rewrite H1 in Hn. by destruct (handlers_at e p.1).
  - unfold bind at 1, add_handler. rewrite bind_get, E. simpl. split; [done|].
    exists (k, d). split; [apply list_elem_of_here|done].
Qed.

(** C9: The handler of exits never returns.  After any number of handlers were
    added with [add_handler], an exit runs those of its reason, the last one added
    first and then the ones that were there before, until one claims it; then the
    guest is entered with the pointers and registers that are left.  If none
    claims it, one throws an exception, the guest cannot be entered, or the reason
    has no list, the processor stops.  A fault in a handler, which is no C++
    exception, is not stopped.  A handler for a reason that has no list is refused
    with [out_of_range]. *)
Theorem handle_dispatches (e0 : exit_handler X) l v :
  match register_handlers l e0 with
  | Ok _ e =>
      match handle e v with
      | Ok _ _ => False
      | Err r v' =>
          match bits_get exit_reason.basic_exit_reason (hw v) with
          | Ok reason _ =>
              match handlers_at e0 reason with
              | Some ds => dispatched (added reason l ++ ds) v r v'
              | None => r = left halted /\ v' = v
              end
          | Err _ _ => r = left halted /\ v' = v
          end
      end
  | Err ex _ => ex = out_of_range /\ exists p, p ∈ l /\ handlers_at e0 p.1 = None
  end.
Proof.
  pose proof (add_handlers_at l e0) as Ha. destruct (register_handlers l e0) as [[] e|]; [|done].
  unfold handle. rewrite handle_guarded. unfold handle_exit, on_cpu, bind.
  pose proof (reads_bits_get exit_reason.basic_exit_reason (reads_ret true) (hw v)) as Hr.
  destruct (bits_get _ (hw v)) as [reason c|ex c] eqn:E; subst c; rewrite with_hw_hw.
  - rewrite Ha. destruct (handlers_at e0 reason) as [ds0|]; [|done]. cbn [fmap option_fmap option_map].
    set (ds := _ ++ ds0). fold (bind (dispatch ds) (fun _ => after_handlers) v).
    destruct (guarded _) as [u v'|r v'] eqn:Eg; [|by apply dispatch_ok].
    unfold guarded in Eg. repeat case_match; done.
  - assert (catchable ex = true) as Hc.
    { revert E. unfold bits_get, bind, get_vmcs_field, vm_read, bind, get, throw. simpl.
      destruct (vmcs_fields (hw v) !! _); [done|]. by intros [= <-]. }
    simpl. by rewrite Hc.
Qed.
End Dispatch.

(** ** Registers the guest sees *)

Section Guest.
Context `{Processor}.

Lemma vmcs_get_ok r x c : v_exists r c = Ok true c -> vmcs_fields c !! v_addr r = Some x -> vmcs_get r c = Ok x c.
Proof. intros He Hx. unfold vmcs_get. erewrite bind_ok by done. by apply vm_read_ok. Qed.

Lemma vmcs_get_if_exists_ok r x c : v_exists r c = Ok true c -> vmcs_fields c !! v_addr r = Some x -> vmcs_get_if_exists r c = Ok x c.
Proof. intros He Hx. unfold vmcs_get_if_exists. erewrite bind_ok by done. by apply vm_read_ok. Qed.

Lemma vmcs_set_ok r v x c : v_exists r c = Ok true c -> vmcs_fields c !! v_addr r = Some x -> type_bits (v_addr r) <> 1 ->
  vmcs_set r v c = Ok tt (set_vmcs (<[v_addr r := v mod 2 ^ width_of (v_addr r)]>) c).
Proof. intros He Hx Ht. unfold vmcs_set. erewrite bind_ok by done. by eapply vm_write_ok. Qed.

Lemma vmcs_set_if_exists_ok r v x c : v_exists r c = Ok true c -> vmcs_fields c !! v_addr r = Some x -> type_bits (v_addr r) <> 1 ->
  vmcs_set_if_exists r v c = Ok tt (set_vmcs (<[v_addr r := v mod 2 ^ width_of (v_addr r)]>) c).
Proof. intros He Hx Ht. unfold vmcs_set_if_exists. erewrite bind_ok by done. by eapply vm_write_ok. Qed.

Lemma bits_get_ok f x c : v_exists (vl_reg f) c = Ok true c -> vmcs_fields c !! v_addr (vl_reg f) = Some x ->
  bits_get f c = Ok (field_get (vl f) x) c.
Proof. intros He Hx. unfold bits_get. erewrite bind_ok by done. by erewrite bind_ok by (by apply vm_read_ok). Qed.

(** The guest goes on after the instruction. *)
Definition advanced (len : Z) (c : cpu) : cpu := set_reg rip (add64 (regs c rip) len) c.

Lemma advance_ok len c : vmcs_fields c !! v_addr vm_exit_instruction_length.reg = Some len -> advance c = Ok true (advanced len c).
Proof.
  intros Hl. unfold advance, noexcept, catch. erewrite bind_ok by (by apply vmcs_get_ok). done.
Qed.

(** The registers of the guest that the VMCS holds, and where *)
Definition guest_msrs : list (Z * vmcs_reg) :=
  [(m_addr ia32_debugctl.reg, guest_ia32_debugctl.reg); (m_addr ia32_pat.reg, guest_ia32_pat.reg);
   (m_addr ia32_efer.reg, guest_ia32_efer.reg); (m_addr ia32_perf_global_ctrl.reg, guest_ia32_perf_global_ctrl.reg);
   (m_addr MsrFields.ia32_sysenter_cs.reg, guest_ia32_sysenter_cs.reg);
   (m_addr MsrFields.ia32_sysenter_esp.reg, guest_ia32_sysenter_esp.reg);
   (m_addr MsrFields.ia32_sysenter_eip.reg, guest_ia32_sysenter_eip.reg);
   (m_addr ia32_fs_base.reg, guest_fs_base.reg); (m_addr ia32_gs_base.reg, guest_gs_base.reg)].

Lemma emulate_rdmsr_ok m r x c : (m, r) ∈ guest_msrs -> v_exists r c = Ok true c -> vmcs_fields c !! v_addr r = Some x ->
  emulate_rdmsr m c = Ok x c.
Proof.
  intros Hm He Hx. unfold guest_msrs in Hm. rewrite !elem_of_cons in Hm.
  destruct Hm as [E|[E|[E|[E|[E|[E|[E|[E|[E|E%elem_of_nil]]]]]]]]]; [..|done]; injection E as -> ->;
    (by apply vmcs_get_ok) || (by apply vmcs_get_if_exists_ok).
Qed.

Lemma emulate_wrmsr_ok m r v x c : (m, r) ∈ guest_msrs -> v_exists r c = Ok true c -> vmcs_fields c !! v_addr r = Some x ->
  emulate_wrmsr m v c = Ok tt (set_vmcs (<[v_addr r := v mod 2 ^ width_of (v_addr r)]>) c).
Proof.
  intros Hm He Hx. unfold guest_msrs in Hm. rewrite !elem_of_cons in Hm.
  destruct Hm as [E|[E|[E|[E|[E|[E|[E|[E|[E|E%elem_of_nil]]]]]]]]]; [..|done]; injection E as -> ->;
    (by eapply vmcs_set_ok) || (by eapply vmcs_set_if_exists_ok).
Qed.

Lemma guest_msrs_small m r : (m, r) ∈ guest_msrs ->
  w32 m = m /\ msr_only (v_exists r) /\ v_addr r <> v_addr vm_exit_instruction_length.reg.
Proof.
  intros Hm. unfold guest_msrs in Hm. rewrite !elem_of_cons in Hm.
  destruct Hm as [E|[E|[E|[E|[E|[E|[E|[E|[E|E%elem_of_nil]]]]]]]]]; [..|done]; injection E as -> ->;
    (split; [reflexivity|split; [cbn; auto 8 with vmcs|discriminate]]).
Qed.

Lemma msr_only_same (m : M cpu bool) b c c' : msr_only m -> msrs c = msrs c' -> m c = Ok b c -> m c' = Ok b c'.
Proof.
  intros Ho Hm E. specialize (Ho c c' Hm). rewrite E in Ho. destruct (m c'); [|done]. by destruct Ho as (-> & _ & ->).
Qed.

(** The value that WRMSR takes from [edx] and [eax] *)
Definition edx_eax (c : cpu) : Z := Z.lor (Z.land (regs c rax) 0xFFFFFFFF) (shl64 (Z.land (regs c rdx) 0xFFFFFFFF) 32).

Lemma shl64_low x : shl64 (Z.land x 0xFFFFFFFF) 0 = Z.land x 0xFFFFFFFF.
Proof.
  unfold shl64. rewrite Z.shiftl_0_r. apply w64_small. change 0xFFFFFFFF with (Z.ones 32). rewrite Z.land_ones by lia.
  pose proof (Z.mod_pos_bound x (2 ^ 32)). unfold u64. lia.
Qed.

Lemma handle_wrmsr_ok m r x len c : (m, r) ∈ guest_msrs -> w32 (regs c rcx) = m -> v_exists r c = Ok true c ->
  vmcs_fields c !! v_addr r = Some x -> vmcs_fields c !! v_addr vm_exit_instruction_length.reg = Some len ->
  handle_wrmsr c = Ok true (advanced len (set_vmcs (<[v_addr r := edx_eax c mod 2 ^ width_of (v_addr r)]>) c)).
Proof.
  intros Hm Hc He Hx Hl. destruct (guest_msrs_small m r Hm) as (_ & _ & Hne). unfold handle_wrmsr, get_reg.
  do 3 (erewrite bind_ok by done). rewrite Hc. cbv zeta. rewrite Z.lor_0_l.
  rewrite shl64_low.
  erewrite bind_ok by (by eapply emulate_wrmsr_ok). apply advance_ok. simpl. by rewrite lookup_insert_ne.
Qed.

Lemma handle_rdmsr_ok m r x len c : (m, r) ∈ guest_msrs -> w32 (regs c rcx) = m -> v_exists r c = Ok true c ->
  vmcs_fields c !! v_addr r = Some x -> vmcs_fields c !! v_addr vm_exit_instruction_length.reg = Some len ->
  handle_rdmsr c = Ok true (advanced len (set_reg rdx (Z.land (Z.shiftr x 32) 0xFFFFFFFF) (set_reg rax (Z.land x 0xFFFFFFFF) c))).
Proof.
  intros Hm Hc He Hx Hl. unfold handle_rdmsr, get_reg. erewrite bind_ok by done. rewrite Hc.
  erewrite bind_ok by (by eapply emulate_rdmsr_ok). rewrite Z.shiftr_0_r. unfold put_reg. do 2 (erewrite bind_ok by done).
  by apply advance_ok.
Qed.

(** C13: A register of the guest that the VMCS holds is emulated: what the guest
    writes by WRMSR is what it reads by RDMSR, cut to the width of the field, both
    instructions are stepped over, and no register of the processor and no other
    field of the VMCS changes. *)
Theorem guest_msr_roundtrip m r x len c : (m, r) ∈ guest_msrs -> w32 (regs c rcx) = m -> v_exists r c = Ok true c ->
  vmcs_fields c !! v_addr r = Some x -> vmcs_fields c !! v_addr vm_exit_instruction_length.reg = Some len ->
  let v := edx_eax c mod 2 ^ width_of (v_addr r) in
  exists c1 c2, handle_wrmsr c = Ok true c1 /\ handle_rdmsr c1 = Ok true c2 /\
    regs c2 rax = Z.land v 0xFFFFFFFF /\ regs c2 rdx = Z.land (Z.shiftr v 32) 0xFFFFFFFF /\
    regs c2 rip = add64 (add64 (regs c rip) len) len /\
    (forall g, g ∉ [rax; rdx; rip] -> regs c2 g = regs c g) /\
    msrs c2 = msrs c /\ vmcs_fields c2 = <[v_addr r := v]> (vmcs_fields c).
Proof.
  intros Hm Hc He Hx Hl v. destruct (guest_msrs_small m r Hm) as (_ & Hex & Hne).
  set (c1 := advanced len (set_vmcs (<[v_addr r := v]>) c)).
  assert (handle_wrmsr c = Ok true c1) as E1 by (by eapply handle_wrmsr_ok).
  eexists c1, _. split; [done|]. split.
  - apply (handle_rdmsr_ok m r v len); [done|done|by apply (msr_only_same _ _ c)| |].
    + unfold c1, advanced; simpl. apply lookup_insert_eq.
    + unfold c1, advanced; simpl. by rewrite lookup_insert_ne.
  - unfold advanced, set_reg, c1; simpl. repeat split.
    intros g Hg. rewrite !not_elem_of_cons in Hg. destruct Hg as (? & ? & ? & _). unfold advanced, set_reg; simpl.
    by rewrite !fn_lookup_insert_ne.
Qed.

(** What the guest reads of CR4: the bits of the mask come from the shadow. *)
Definition guest_reads_cr4 (c : cpu) : option Z :=
  m ← vmcs_fields c !! v_addr cr4_guest_host_mask.reg; s ← vmcs_fields c !! v_addr cr4_read_shadow.reg;
  r ← vmcs_fields c !! v_addr guest_cr4.reg; Some (Z.lor (Z.land s m) (Z.ldiff r m)).

Lemma shadowed val m : Z.lor (Z.land val m) (Z.ldiff (Z.lor val m) m) = val.
Proof.
  apply Z.bits_inj'. intros i Hi. rewrite Z.lor_spec, Z.land_spec, Z.ldiff_spec, Z.lor_spec.
  by destruct (Z.testbit val i), (Z.testbit m i).
Qed.

Lemma guest_reads_cr4_written m val c : vmcs_fields c !! v_addr cr4_guest_host_mask.reg = Some m ->
  vmcs_fields c !! v_addr cr4_read_shadow.reg = Some val -> vmcs_fields c !! v_addr guest_cr4.reg = Some (Z.lor val m) ->
  guest_reads_cr4 c = Some val.
Proof. intros Hm Hs Hg. unfold guest_reads_cr4. rewrite Hm, Hs, Hg. simpl. f_equal. apply shadowed. Qed.

(** C14: When the guest moves a value to CR4, the processor gets the value with the
    bit for virtual machine extensions set, which it has to have, while the guest
    reads back exactly what it wrote.  Accesses to other registers are not
    claimed. *)
Theorem cr4_write_hidden q n len s r4 c :
  let val := regs c (gpr_number (field_get (vl exit_qualification.control_register_access.general_purpose_register) q)) in
  vmcs_fields c !! v_addr exit_qualification.reg = Some q ->
  field_get (vl exit_qualification.control_register_access.control_register_number) q = n ->
  vmcs_fields c !! v_addr vm_exit_instruction_length.reg = Some len ->
  vmcs_fields c !! v_addr cr4_guest_host_mask.reg = Some (flag_mask (cf cr4.vmx_enable_bit)) ->
  vmcs_fields c !! v_addr cr4_read_shadow.reg = Some s -> vmcs_fields c !! v_addr guest_cr4.reg = Some r4 -> u64 val ->
  if n =? 4 then
    exists c', handle_wrcr4 c = Ok true c' /\ guest_reads_cr4 c' = Some val /\
      (exists r4', vmcs_fields c' !! v_addr guest_cr4.reg = Some r4' /\ is_enabled (cf cr4.vmx_enable_bit) r4' = true) /\
      regs c' rip = add64 (regs c rip) len /\ (forall g, g <> rip -> regs c' g = regs c g) /\ msrs c' = msrs c
  else handle_wrcr4 c = Ok false c.
Proof.
  intros val Hq Hn Hl Hm Hs Hr Hval. unfold handle_wrcr4.
  erewrite bind_ok by (by apply bits_get_ok). rewrite Hn. destruct (n =? 4); [|done].
  erewrite bind_ok.
  2: { unfold emulate_rdgpr. erewrite bind_ok by (by apply bits_get_ok). reflexivity. }
  fold val. set (mask := flag_mask (cf cr4.vmx_enable_bit)).
  erewrite bind_ok by (by eapply vmcs_set_ok). erewrite bind_ok by (eapply vmcs_set_ok; [done| |done]; simpl; by rewrite lookup_insert_ne).
  erewrite (advance_ok len) by (simpl; by rewrite !lookup_insert_ne).
  change (width_of (v_addr cr4_read_shadow.reg)) with 64. change (width_of (v_addr guest_cr4.reg)) with 64.
  assert (u64 (Z.lor val mask)) as Hlor by (apply u64_lor; [done|split; by vm_compute]).
  rewrite (Z.mod_small val) by apply Hval. rewrite (Z.mod_small (Z.lor val mask)) by apply Hlor.
  eexists. split; [done|]. split; [|split; [|split; [done|split; [|done]]]].
  - apply (guest_reads_cr4_written mask); simpl.
    + by rewrite !lookup_insert_ne.
    + by rewrite lookup_insert_ne, lookup_insert_eq.
    + apply lookup_insert_eq.
  - eexists. split; [apply lookup_insert_eq|]. rewrite is_enabled_testbit by (unfold flag_wf; simpl; lia).
    rewrite Z.lor_spec. simpl. apply orb_true_r.
  - intros g Hg. unfold advanced, set_reg; simpl. by rewrite fn_lookup_insert_ne.
Qed.
End Guest.
