(* ===== verification/HostState.v ===== *)
(** * The state that the exit handler writes

    [write_host_state] and [write_control_state] of [exit_handler.cpp], run on a
    VMCS whose registers are zero: both return, and what they leave passes every
    check of the control fields and of the host fields.  What the processor has
    to allow for that is named here. *)
From S2P Require Import Prelude Bits EptEntry Guard Vcpu Vmcs MsrFields X64MsrFields VmcsControl VmcsGuest VmcsHost VmcsExit VmcsProofs.
From S2P Require Import Crs Check CheckControl CheckGuest CheckHost CheckAll ExitHandler ExitHandlerProofs.
Open Scope Z_scope.
Open Scope vmm_scope.

(** ** A VMCS with some registers written *)

(** The writes, the last one first *)
Definition store (l : list (Z * Z)) (c : cpu) : cpu := set_vmcs (fun m => foldr (fun p => <[p.1 := p.2]>) m l) c.

Fixpoint stored (l : list (Z * Z)) (a : Z) : option Z :=
  match l with [] => None | (b, x) :: l => if b =? a then Some x else stored l a end.

Lemma lookup_store l c a : vmcs_fields (store l c) !! a = match stored l a with Some x => Some x | None => vmcs_fields c !! a end.
Proof.
  unfold store; simpl. induction l as [|[b x] l IH]; [done|]. simpl. destruct (Z.eqb_spec b a) as [->|Hn].
  - apply lookup_insert_eq.
  - by rewrite lookup_insert_ne.
Qed.

Lemma store_cons a x l c : set_vmcs (<[a := x]>) (store l c) = store ((a, x) :: l) c.
Proof. done. Qed.

(** ** What the processor allows *)

Definition allows0 (v i : Z) : bool := negb (Z.testbit v i).
Definition allows1 (v i : Z) : bool := Z.testbit v (32 + i).

(** A register of capabilities: what has to be 1 may be 1. *)
Definition capabilities (c : cpu) (m : msr) (v : Z) : Prop :=
  msrs c !! w32 (m_addr m) = Some v /\ u64 v /\ forall i, 0 <= i < 32 -> Z.testbit v i = true -> allows1 v i = true.

Section Construct.
Context `{Processor} `{HostMemory}.

Lemma land_pow2_0 v i : 0 <= i -> (Z.land v (2 ^ i) =? 0) = negb (Z.testbit v i).
Proof.
  intros Hi. destruct (Z.testbit v i) eqn:E; simpl.
  - apply Z.eqb_neq. intros E0. assert (Z.testbit (Z.land v (2 ^ i)) i = false) as Hb by (rewrite E0; apply Z.bits_0).
    by rewrite Z.land_spec, Z.pow2_bits_true, E in Hb by lia.
  - apply Z.eqb_eq, Z.bits_inj'. intros j Hj. rewrite Z.land_spec, testbit_pow2, Z.bits_0 by lia.
    destruct (Z.eqb_spec j i) as [->|]; [by rewrite E|apply andb_false_r].
Qed.

Lemma is_allowed1_ok f i v c : flag_mask (mf f) = 2 ^ i -> 0 <= i < 32 -> msrs c !! w32 (m_addr (mf_reg f)) = Some v ->
  is_allowed1 f c = Ok (allows1 v i) c.
Proof.
  intros Hm Hi Hv. unfold is_allowed1, msr_get. erewrite bind_ok by (by apply read_msr_ok). unfold ret. f_equal.
  rewrite Hm. assert (shl64 (2 ^ i) 32 = 2 ^ (32 + i)) as ->.
  { unfold shl64. rewrite Z.shiftl_mul_pow2, <- Z.pow_add_r by lia. rewrite Z.add_comm. apply w64_small.
    split; [lia|]. apply Z.pow_lt_mono_r; lia. }
  rewrite land_pow2_0 by lia. apply negb_involutive.
Qed.

(** A control whose capability has its bit in both halves *)
Definition bit_of (f : vm_control) : Z := flag_from (vf (vc_flag f)).
Definition control_wf (f : vm_control) : bool :=
  (flag_mask (mf (vc_allowed f)) =? 2 ^ bit_of f) && (0 <=? bit_of f) && (bit_of f <? 32) &&
  (width_of (v_addr (vf_reg (vc_flag f))) =? 32) && negb (type_bits (v_addr (vf_reg (vc_flag f))) =? 1).

Definition u32 (x : Z) : Prop := 0 <= x < 2 ^ 32.

Lemma u32_set_bit x i : u32 x -> 0 <= i < 32 -> u32 (set_bit x i).
Proof.
  intros Hx Hi. unfold set_bit. rewrite shl64_1 by lia. unfold u32 in *.
  assert (0 <= Z.lor x (2 ^ i)) as Hp by (apply Z.lor_nonneg; split; [lia|apply Z.pow_nonneg; lia]).
  split; [done|]. destruct (Z.eq_dec (Z.lor x (2 ^ i)) 0) as [->|]; [lia|].
  apply Z.log2_lt_pow2; [lia|]. rewrite Z.log2_lor by (lia || (apply Z.pow_nonneg; lia)).
  rewrite Z.log2_pow2 by lia. apply Z.max_lub_lt; [|lia]. destruct (Z.eq_dec x 0) as [->|]; [simpl; lia|]. apply Z.log2_lt_pow2; lia.
Qed.

(** What a control becomes *)
Definition enabled_if (b : bool) (x i : Z) : Z := if b then set_bit x i else x.

Lemma control_wf_spec f : control_wf f = true ->
  flag_mask (mf (vc_allowed f)) = 2 ^ bit_of f /\ 0 <= bit_of f < 32 /\
  width_of (v_addr (vf_reg (vc_flag f))) = 32 /\ type_bits (v_addr (vf_reg (vc_flag f))) <> 1.
Proof. unfold control_wf. lia. Qed.

Lemma store_same l a x c : vmcs_fields (store l c) !! a = Some x -> store ((a, x) :: l) c = store l c.
Proof. intros Hx. rewrite <- store_cons. unfold set_vmcs. rewrite insert_id by done. done. Qed.

(** Reading a control, setting its bit and writing it back *)
Lemma set_control_store f l x c : control_wf f = true -> u32 x -> vmcs_fields (store l c) !! v_addr (vf_reg (vc_flag f)) = Some x ->
  (v <- vm_read (v_addr (vf_reg (vc_flag f))) ;; vm_write (v_addr (vf_reg (vc_flag f))) (set_bit v (bit_of f))) (store l c) =
    Ok tt (store ((v_addr (vf_reg (vc_flag f)), set_bit x (bit_of f)) :: l) c).
Proof.
  intros (_ & Hb & Hw & Ht)%control_wf_spec Hu Hx.
  erewrite bind_ok by (by apply vm_read_ok). erewrite vm_write_ok by done. rewrite store_cons, Hw.
  rewrite (Z.mod_small (set_bit _ _)); [done|]. by apply u32_set_bit.
Qed.

Lemma control_enable_store f l x v c : control_wf f = true -> u32 x -> v_exists (vf_reg (vc_flag f)) (store l c) = Ok true (store l c) ->
  vmcs_fields (store l c) !! v_addr (vf_reg (vc_flag f)) = Some x ->
  msrs c !! w32 (m_addr (mf_reg (vc_allowed f))) = Some v -> allows1 v (bit_of f) = true ->
  control_enable f (store l c) = Ok tt (store ((v_addr (vf_reg (vc_flag f)), set_bit x (bit_of f)) :: l) c).
Proof.
  intros Hwf Hu He Hx Hv Ha. pose proof (control_wf_spec f Hwf) as (Hm & Hb & _). unfold control_enable.
  erewrite bind_ok by done. erewrite bind_ok by (by apply (is_allowed1_ok _ (bit_of f) v)). rewrite Ha.
  by apply set_control_store.
Qed.

Lemma control_enable_if_allowed_store f l x v c : control_wf f = true -> u32 x -> v_exists (vf_reg (vc_flag f)) (store l c) = Ok true (store l c) ->
  vmcs_fields (store l c) !! v_addr (vf_reg (vc_flag f)) = Some x ->
  msrs c !! w32 (m_addr (mf_reg (vc_allowed f))) = Some v ->
  control_enable_if_allowed f (store l c) =
    Ok tt (store ((v_addr (vf_reg (vc_flag f)), enabled_if (allows1 v (bit_of f)) x (bit_of f)) :: l) c).
Proof.
  intros Hwf Hu He Hx Hv. pose proof (control_wf_spec f Hwf) as (Hm & Hb & _). unfold control_enable_if_allowed.
  erewrite bind_ok by done. erewrite bind_ok by (by apply (is_allowed1_ok _ (bit_of f) v)).
  destruct (allows1 v (bit_of f)); [by apply set_control_store|]. unfold enabled_if. by rewrite store_same.
Qed.

Lemma vmcs_set_store r v l x c : v_exists r (store l c) = Ok true (store l c) -> vmcs_fields (store l c) !! v_addr r = Some x ->
  type_bits (v_addr r) <> 1 ->
  vmcs_set r v (store l c) = Ok tt (store ((v_addr r, v mod 2 ^ width_of (v_addr r)) :: l) c).
Proof. intros He Hx Ht. by rewrite (vmcs_set_ok r v x), store_cons. Qed.

(** ** A processor on which the handler can be built *)

(** The VMCS as VMCLEAR leaves it for the purpose here: every register that
    exists is there, and those that software writes are zero. *)
Definition vmcs_zero (c : cpu) : Prop :=
  forall r ps, (r, ps) ∈ vmcs_table -> v_settable r = true -> v_exists r c = Ok true c -> vmcs_fields c !! v_addr r = Some 0.

(** The controls the constructor needs, and those that it leaves alone and that
    the processor has to let be 0 *)
Definition needed_controls : list vm_control :=
  [pin_based_vm_execution_controls.nmi_exiting; pin_based_vm_execution_controls.virtual_nmis;
   primary_processor_based_vm_execution_controls.activate_secondary_controls;
   vm_exit_controls.save_debug_controls; vm_exit_controls.host_address_space_size;
   vm_exit_controls.save_ia32_pat; vm_exit_controls.load_ia32_pat; vm_exit_controls.save_ia32_efer; vm_exit_controls.load_ia32_efer;
   vm_entry_controls.load_debug_controls; vm_entry_controls.ia_32e_mode_guest; vm_entry_controls.load_ia32_pat;
   vm_entry_controls.load_ia32_efer].
Definition idle_controls : list vm_control :=
  [pin_based_vm_execution_controls.process_posted_interrupts; pin_based_vm_execution_controls.activate_vmx_preemption_timer;
   primary_processor_based_vm_execution_controls.use_io_bitmaps; primary_processor_based_vm_execution_controls.use_msr_bitmap;
   primary_processor_based_vm_execution_controls.use_tpr_shadow; vm_exit_controls.save_vmx_preemption_timer_value].

Definition ctl_msrs : list msr :=
  [ia32_vmx_true_pinbased_ctls.reg; ia32_vmx_true_procbased_ctls.reg; ia32_vmx_true_exit_ctls.reg; ia32_vmx_true_entry_ctls.reg;
   ia32_vmx_procbased_ctls2.reg].

Record capable (c : cpu) : Prop := {
  cap_regs m : m ∈ ctl_msrs -> exists v, capabilities c m v;
  cap_needed f v : f ∈ needed_controls -> msrs c !! w32 (m_addr (mf_reg (vc_allowed f))) = Some v -> allows1 v (bit_of f) = true;
  cap_idle f v : f ∈ idle_controls -> msrs c !! w32 (m_addr (mf_reg (vc_allowed f))) = Some v -> allows0 v (bit_of f) = true;
  cap_secondary v : msrs c !! w32 (m_addr ia32_vmx_procbased_ctls2.reg) = Some v -> Z.land v 0xFFFFFFFF = 0;
  cap_long_mode : exists v, msrs c !! w32 (m_addr ia32_efer.reg) = Some v /\ is_enabled (mf ia32_efer.lma) v = true }.

(** [cr3::mmap::pat] *)
Definition mmap_pat : Z := 0x0606060606060600.

(** The bits of a control register that the processor fixes *)
Definition fixed_bits_fit (c : cpu) (fixed0 fixed1 : msr) (x : Z) : Prop :=
  exists v0 v1, msrs c !! w32 (m_addr fixed0) = Some v0 /\ msrs c !! w32 (m_addr fixed1) = Some v1 /\
    Z.land (not64 x) v0 = 0 /\ Z.land x (not64 v1) = 0.

(** What the addresses of the host have to be *)
Record host_fits (c : cpu) (cr3 : Z) (a : host_addrs) : Prop := {
  fits_cr0 : fixed_bits_fit c ia32_vmx_cr0_fixed0.reg ia32_vmx_cr0_fixed1.reg (g_cr0 (setup cr3 mmap_pat));
  fits_cr4 : fixed_bits_fit c ia32_vmx_cr4_fixed0.reg ia32_vmx_cr4_fixed1.reg (g_cr4 (setup cr3 mmap_pat));
  fits_cr3 : u64 cr3 /\ is_physical_address_valid cr3 = true;
  fits_addrs x : x ∈ [a_save_state a; a_tss a; a_gdt a; a_idt a; a_entry a] -> u64 x /\ is_address_canonical x = true }.

(** The registers that the two functions and the checks use *)
Definition used_registers : list vmcs_reg :=
  [host_es_selector.reg; host_cs_selector.reg; host_ss_selector.reg; host_ds_selector.reg; host_fs_selector.reg; host_gs_selector.reg;
   host_tr_selector.reg; host_ia32_pat.reg; host_ia32_efer.reg; host_ia32_perf_global_ctrl.reg; host_cr0.reg; host_cr3.reg;
   host_cr4.reg; host_fs_base.reg; host_gs_base.reg; host_tr_base.reg; host_gdtr_base.reg; host_idtr_base.reg;
   host_ia32_sysenter_esp.reg; host_ia32_sysenter_eip.reg; host_rsp.reg; host_rip.reg; pin_based_vm_execution_controls.reg;
   primary_processor_based_vm_execution_controls.reg; secondary_processor_based_vm_execution_controls.reg; cr3_target_count.reg;
   vm_exit_controls.reg; vm_exit_msr_store_count.reg; vm_exit_msr_load_count.reg; vm_entry_controls.reg;
   vm_entry_msr_load_count.reg; vm_entry_interruption_information.reg; cr4_guest_host_mask.reg].

Lemma used_in_table : Forall (fun r => v_settable r = true /\ exists ps, (r, ps) ∈ vmcs_table) used_registers.
Proof.
  unfold used_registers, vmcs_table, vmcs_headers. simpl.
  repeat (apply List.Forall_cons; [split; [done|]; eexists; repeat first [apply list_elem_of_here | apply list_elem_of_further]|]).
  apply List.Forall_nil.
Qed.

(** These registers are zero, which is all that is used of the VMCS. *)
Definition used_zeroed (c : cpu) : Prop :=
  forall r, r ∈ used_registers -> v_exists r c = Ok true c -> vmcs_fields c !! v_addr r = Some 0.

Lemma vmcs_zero_used c : vmcs_zero c -> used_zeroed c.
Proof.
  intros Hzero r Hr He. pose proof used_in_table as Hu. rewrite Forall_forall in Hu.
  destruct (Hu r Hr) as [Hs [ps Hin]]. by eapply Hzero.
Qed.

Context (c : cpu) (Hcap : capable c) (used_zero : used_zeroed c).

Context (vp vq vx ve v2 : Z).
Context (Hp : capabilities c ia32_vmx_true_pinbased_ctls.reg vp) (Hq : capabilities c ia32_vmx_true_procbased_ctls.reg vq)
  (Hx : capabilities c ia32_vmx_true_exit_ctls.reg vx) (He : capabilities c ia32_vmx_true_entry_ctls.reg ve)
  (H2 : capabilities c ia32_vmx_procbased_ctls2.reg v2).

(** Whether a register with a condition exists *)
Lemma exists_if f i v l : flag_mask (mf f) = 2 ^ i -> 0 <= i < 32 -> msrs c !! w32 (m_addr (mf_reg f)) = Some v -> allows1 v i = true ->
  is_allowed1 f (store l c) = Ok true (store l c).
Proof. intros Hm Hi Hv Ha. rewrite (is_allowed1_ok f i v) by done. by rewrite Ha. Qed.

Lemma needed f v : f ∈ needed_controls -> msrs c !! w32 (m_addr (mf_reg (vc_allowed f))) = Some v -> allows1 v (bit_of f) = true.
Proof. apply (cap_needed _ Hcap). Qed.

Ltac in_list := unfold used_registers, needed_controls, idle_controls; repeat first [apply list_elem_of_here | apply list_elem_of_further].

Lemma allows_load_pat : allows1 vx 19 = true.
Proof. apply (needed vm_exit_controls.load_ia32_pat); [in_list|apply Hx]. Qed.
Lemma allows_load_efer : allows1 vx 21 = true.
Proof. apply (needed vm_exit_controls.load_ia32_efer); [in_list|apply Hx]. Qed.
Lemma allows_secondary : allows1 vq 31 = true.
Proof. apply (needed primary_processor_based_vm_execution_controls.activate_secondary_controls); [in_list|apply Hq]. Qed.

(** A register of the list exists after any writes *)
Ltac reg_exists :=
  first [reflexivity
    | apply (exists_if _ 19 vx); [reflexivity|lia|apply Hx|apply allows_load_pat]
    | apply (exists_if _ 21 vx); [reflexivity|lia|apply Hx|apply allows_load_efer]
    | apply (exists_if _ 31 vq); [reflexivity|lia|apply Hq|apply allows_secondary]].

Lemma store_nil : store [] c = c.
Proof. by destruct c. Qed.

Lemma used_stored r l : r ∈ used_registers -> v_exists r (store [] c) = Ok true (store [] c) ->
  vmcs_fields (store l c) !! v_addr r = Some (default 0 (stored l (v_addr r))).
Proof.
  intros Hr Hex. rewrite store_nil in Hex. rewrite lookup_store. destruct (stored l (v_addr r)); [done|]. by apply used_zero.
Qed.

Lemma vmcs_set_used r v l : r ∈ used_registers -> (forall l, v_exists r (store l c) = Ok true (store l c)) -> type_bits (v_addr r) <> 1 ->
  vmcs_set r v (store l c) = Ok tt (store ((v_addr r, v mod 2 ^ width_of (v_addr r)) :: l) c).
Proof. intros Hr Hex Ht. eapply vmcs_set_store; [apply Hex|by apply used_stored|done]. Qed.

(** The writes of [write_host_state] *)
Definition host_writes (g : host_globals) (a : host_addrs) : list (Z * Z) :=
  (fun p => (v_addr p.1, p.2 mod 2 ^ width_of (v_addr p.1))) <$>
    [(host_rsp.reg, a_stack a); (host_rip.reg, a_entry a); (host_idtr_base.reg, a_idt a); (host_gdtr_base.reg, a_gdt a);
     (host_tr_base.reg, a_tss a); (host_gs_base.reg, a_save_state a); (host_cr4.reg, g_cr4 g); (host_cr3.reg, g_cr3 g);
     (host_cr0.reg, g_cr0 g); (host_ia32_efer.reg, g_ia32_efer_msr g); (host_ia32_pat.reg, g_ia32_pat_msr g);
     (host_tr_selector.reg, 40); (host_gs_selector.reg, 32); (host_fs_selector.reg, 24); (host_ss_selector.reg, 16); (host_cs_selector.reg, 8)].

Lemma write_host_state_ok g a : write_host_state g a c = Ok tt (store (host_writes g a) c).
Proof.
  rewrite <- store_nil at 1. unfold write_host_state.
  do 15 (erewrite bind_ok by (apply vmcs_set_used; [in_list|intros; reg_exists|done])).
  erewrite vmcs_set_used; [|in_list|intros; reg_exists|done]. reflexivity.
Qed.

(** The values of the controls *)
Definition pin_value : Z := set_bit (set_bit (required vp mod 2 ^ 32) 3) 5.
Definition proc_value : Z := enabled_if (allows1 vq 31) (required vq mod 2 ^ 32) 31.
Definition secondary_value : Z := enabled_if (allows1 v2 20) (enabled_if (allows1 v2 12) (enabled_if (allows1 v2 3) 0 3) 12) 20.
Definition exit_value : Z :=
  set_bit (set_bit (set_bit (set_bit (enabled_if (allows1 vx 12) (set_bit (set_bit (required vx mod 2 ^ 32) 2) 9) 12) 18) 19) 20) 21.
Definition entry_value : Z :=
  set_bit (set_bit (enabled_if (allows1 ve 13) (set_bit (set_bit (required ve mod 2 ^ 32) 2) 9) 13) 14) 15.

Lemma u32_mod x : u32 (x mod 2 ^ 32).
Proof. apply Z.mod_pos_bound. lia. Qed.

Lemma u32_enabled_if b x i : u32 x -> 0 <= i < 32 -> u32 (enabled_if b x i).
Proof. destruct b; [apply u32_set_bit|done]. Qed.

Ltac solve_u32 := repeat first [apply u32_mod | apply u32_set_bit; [|split; [discriminate|reflexivity]] | apply u32_enabled_if; [|split; [discriminate|reflexivity]] | unfold u32; lia].

Ltac lookup_used :=
  rewrite lookup_store; first [reflexivity | apply (used_zero secondary_processor_based_vm_execution_controls.reg); [in_list|rewrite <- store_nil; reg_exists]].

Ltac cap_msr := first [apply Hp | apply Hq | apply Hx | apply He | apply H2].

Ltac enable_step :=
  first [eapply control_enable_store; [reflexivity| |reg_exists|lookup_used|cap_msr|eapply needed; [in_list|cap_msr]]
        |eapply control_enable_if_allowed_store; [reflexivity| |reg_exists|lookup_used|cap_msr]]; solve_u32.

(** The registers that [write_control_state] writes, with their last values *)
Definition control_writes : list (Z * Z) :=
  [(v_addr pin_based_vm_execution_controls.reg, pin_value); (v_addr primary_processor_based_vm_execution_controls.reg, proc_value);
   (v_addr secondary_processor_based_vm_execution_controls.reg, secondary_value); (v_addr vm_exit_controls.reg, exit_value);
   (v_addr vm_entry_controls.reg, entry_value); (v_addr cr4_guest_host_mask.reg, flag_mask (cf cr4.vmx_enable_bit))].

Lemma write_control_state_ok g a : exists l, write_control_state (store (host_writes g a) c) = Ok tt (store l c) /\
  forall b, stored l b = stored (control_writes ++ host_writes g a) b.
Proof.
  unfold write_control_state, msr_get.
  erewrite bind_ok by (apply read_msr_ok, Hp). erewrite bind_ok by (apply read_msr_ok, Hq).
  erewrite bind_ok by (apply read_msr_ok, Hx). erewrite bind_ok by (apply read_msr_ok, He).
  do 4 (erewrite bind_ok by (apply vmcs_set_used; [in_list|intros; reg_exists|done])).
  do 18 (erewrite bind_ok by enable_step).
  erewrite vmcs_set_used; [|in_list|intros; reg_exists|done].
  eexists. split; [reflexivity|]. intros b. unfold control_writes. cbn [stored app v_addr].
  repeat match goal with |- context[if ?a =? b then _ else _] =>
    let n := eval vm_compute in a in progress change a with n end.
  repeat match goal with |- context[if ?n =? b then _ else _] => destruct (Z.eqb_spec n b) as [<-|]; [reflexivity|] end.
  reflexivity.
Qed.

(** ** What the controls are *)

Lemma testbit_required v i : u64 v -> 0 <= i -> (forall j, 0 <= j < 32 -> Z.testbit v j = true -> allows1 v j = true) ->
  Z.testbit (required v mod 2 ^ 32) i = (i <? 32) && Z.testbit v i.
Proof.
  intros Hv Hi Hs. rewrite testbit_mod2 by lia. destruct (Z.ltb_spec i 32); [|done]. simpl. unfold required.
  change 0x00000000FFFFFFFF with (Z.ones 32). rewrite !Z.land_spec, Z.shiftr_0_r, Z.shiftr_spec, !testbit_ones by lia.
  replace (i <? 32) with true by lia. rewrite !andb_true_r. destruct (Z.testbit v i) eqn:E; [|done].
  specialize (Hs i ltac:(lia) E). unfold allows1 in Hs. by rewrite (Z.add_comm i 32), Hs.
Qed.

Lemma testbit_enabled_if b x j i : 0 <= j < 64 -> 0 <= i -> Z.testbit (enabled_if b x j) i = ((i =? j) && b) || Z.testbit x i.
Proof. intros. destruct b; simpl; [rewrite testbit_set_bit by lia|]; by destruct (i =? j). Qed.

(** A value of controls that the processor accepts *)
Definition ctl_sound (v x : Z) : Prop :=
  u32 x /\ forall i, 0 <= i < 32 -> (Z.testbit v i = true -> Z.testbit x i = true) /\ (Z.testbit x i = true -> allows1 v i = true).

Lemma ctl_sound_required m v : capabilities c m v -> ctl_sound v (required v mod 2 ^ 32).
Proof.
  intros (_ & Hu & Hs). split; [apply u32_mod|]. intros i Hi. rewrite testbit_required by (done || lia).
  replace (i <? 32) with true by lia. split; [done|apply (Hs i Hi)].
Qed.

Lemma ctl_sound_enabled_if b v x j : ctl_sound v x -> 0 <= j < 32 -> (b = true -> allows1 v j = true) -> ctl_sound v (enabled_if b x j).
Proof.
  intros [Hu Hs] Hj Hb. split; [by apply u32_enabled_if|]. intros i Hi. rewrite testbit_enabled_if by lia.
  destruct (Z.eqb_spec i j) as [->|]; simpl; [|apply (Hs i Hi)]. destruct b; simpl; [auto|apply (Hs j Hj)].
Qed.

Lemma ctl_sound_set_bit v x j : ctl_sound v x -> 0 <= j < 32 -> allows1 v j = true -> ctl_sound v (set_bit x j).
Proof. intros Hs Hj Ha. by apply (ctl_sound_enabled_if true). Qed.

Lemma ctl_sound_secondary : ctl_sound v2 0.
Proof.
  split; [unfold u32; lia|]. intros i Hi. rewrite Z.bits_0. split; [|done]. intros Hb.
  pose proof (cap_secondary _ Hcap v2 (proj1 H2)) as Hz.
  assert (Z.testbit (Z.land v2 0xFFFFFFFF) i = true) as E; [|by rewrite Hz, Z.bits_0 in E].
  change 0xFFFFFFFF with (Z.ones 32). rewrite Z.land_spec, Hb, testbit_ones by lia. simpl. lia.
Qed.

Ltac solve_sound :=
  repeat first [eapply ctl_sound_required; cap_msr | apply ctl_sound_secondary
    | apply ctl_sound_enabled_if; [|lia|done] | apply ctl_sound_set_bit; [|lia|]].
Ltac solve_needed f := apply (needed f); [in_list|cap_msr].

Lemma pin_sound : ctl_sound vp pin_value.
Proof.
  unfold pin_value. solve_sound;
    [solve_needed pin_based_vm_execution_controls.nmi_exiting|solve_needed pin_based_vm_execution_controls.virtual_nmis].
Qed.

Lemma proc_sound : ctl_sound vq proc_value.
Proof. unfold proc_value. solve_sound. Qed.

Lemma secondary_sound : ctl_sound v2 secondary_value.
Proof. unfold secondary_value. solve_sound. Qed.

Lemma exit_sound : ctl_sound vx exit_value.
Proof.
  unfold exit_value. solve_sound;
    [solve_needed vm_exit_controls.save_debug_controls|solve_needed vm_exit_controls.host_address_space_size
    |solve_needed vm_exit_controls.save_ia32_pat|solve_needed vm_exit_controls.load_ia32_pat
    |solve_needed vm_exit_controls.save_ia32_efer|solve_needed vm_exit_controls.load_ia32_efer].
Qed.

Lemma entry_sound : ctl_sound ve entry_value.
Proof.
  unfold entry_value. solve_sound;
    [solve_needed vm_entry_controls.load_debug_controls|solve_needed vm_entry_controls.ia_32e_mode_guest
    |solve_needed vm_entry_controls.load_ia32_pat|solve_needed vm_entry_controls.load_ia32_efer].
Qed.

(** [control_reserved_properly_set] accepts them. *)
Lemma lower_included v x : ctl_sound v x -> Z.land (Z.land (Z.shiftr v 0) 0xFFFFFFFF) (Z.land x 0xFFFFFFFF) = Z.land (Z.shiftr v 0) 0xFFFFFFFF.
Proof.
  intros [Hu Hs]. change 0xFFFFFFFF with (Z.ones 32). rewrite Z.shiftr_0_r. apply Z.bits_inj'. intros i Hi.
  rewrite !Z.land_spec, testbit_ones by lia. destruct (Z.ltb_spec i 32); [|by rewrite !andb_false_r]. rewrite !andb_true_r.
  destruct (Z.testbit v i) eqn:E; [|done]. simpl. by apply (Hs i).
Qed.

Lemma upper_includes v x : ctl_sound v x -> Z.land (Z.land x 0xFFFFFFFF) (not64 (Z.land (Z.shiftr v 32) 0xFFFFFFFF)) = 0.
Proof.
  intros [Hu Hs]. change 0xFFFFFFFF with (Z.ones 32). apply Z.bits_inj'. intros i Hi. rewrite Z.bits_0, !Z.land_spec, testbit_ones by lia.
  destruct (Z.ltb_spec i 32); [|by rewrite !andb_false_r]. destruct (Z.testbit x i) eqn:E; [|done]. simpl.
  rewrite testbit_not64, Z.land_spec, Z.shiftr_spec, testbit_ones by lia. destruct (Hs i ltac:(lia)) as [_ Ha]. specialize (Ha E).
  unfold allows1 in Ha. rewrite (Z.add_comm i 32), Ha. replace (i <? 32) with true by lia. by rewrite andb_false_r.
Qed.

Lemma reserved_ok l m v x n : msrs c !! w32 (m_addr m) = Some v -> ctl_sound v x ->
  control_reserved_properly_set (m_addr m) x n (store l c) = Ok tt (store l c).
Proof.
  intros Hv Hs. unfold control_reserved_properly_set, check. rewrite !bind_assoc.
  erewrite bind_ok by (by apply read_msr_ok). rewrite bind_assoc. erewrite bind_ok by (by apply read_msr_ok). cbv zeta.
  change 0x00000000FFFFFFFF with 0xFFFFFFFF. rewrite (lower_included v x Hs), (upper_includes v x Hs), Z.eqb_refl.
  destruct (m_addr ia32_vmx_procbased_ctls2.reg =? m_addr m); reflexivity.
Qed.

(** ** Reading the state that is left *)

Section Final.
Context (g : host_globals) (a : host_addrs) (l : list (Z * Z)).
Context (Hl : forall b, stored l b = stored (control_writes ++ host_writes g a) b).
Notation s := (store l c).

Lemma final_lookup r : r ∈ used_registers -> (forall l, v_exists r (store l c) = Ok true (store l c)) ->
  vmcs_fields s !! v_addr r = Some (default 0 (stored (control_writes ++ host_writes g a) (v_addr r))).
Proof. intros Hr Hex. rewrite <- Hl. by apply used_stored. Qed.

(** The value of a register, computed *)
Definition final (r : vmcs_reg) (x : Z) : Prop :=
  stored (control_writes ++ host_writes g a) (v_addr r) = Some x \/ (stored (control_writes ++ host_writes g a) (v_addr r) = None /\ x = 0).

Lemma final_default r x : final r x -> default 0 (stored (control_writes ++ host_writes g a) (v_addr r)) = x.
Proof. intros [->|[-> ->]]; done. Qed.

Lemma final_get r x : r ∈ used_registers -> (forall l, v_exists r (store l c) = Ok true (store l c)) -> final r x -> vmcs_get r s = Ok x s.
Proof. intros Hr Hex <-%final_default. apply vmcs_get_ok; [apply Hex|by apply final_lookup]. Qed.

Lemma final_bits f x : vl_reg f ∈ used_registers -> (forall l, v_exists (vl_reg f) (store l c) = Ok true (store l c)) ->
  final (vl_reg f) x -> bits_get f s = Ok (field_get (vl f) x) s.
Proof. intros Hr Hex <-%final_default. apply bits_get_ok; [apply Hex|by apply final_lookup]. Qed.

Lemma final_flag f b : vf_reg f ∈ used_registers -> (forall l, v_exists (vf_reg f) (store l c) = Ok true (store l c)) -> flag_wf (vf f) ->
  Z.testbit (default 0 (stored (control_writes ++ host_writes g a) (v_addr (vf_reg f)))) (flag_from (vf f)) = b ->
  flag_is_enabled f s = Ok b s /\ flag_is_disabled f s = Ok (negb b) s /\
  flag_is_enabled_if_exists f s = Ok b s /\ flag_is_disabled_if_exists f s = Ok (negb b) s.
Proof.
  intros Hr Hex Hf Hb. pose proof (final_lookup _ Hr Hex) as Hlk. rewrite <- (is_bit_set_testbit _ _ Hf) in Hb. subst b.
  rewrite <- is_bit_cleared_negb.
  unfold flag_is_enabled, flag_is_disabled, flag_is_enabled_if_exists, flag_is_disabled_if_exists.
  repeat split; (erewrite bind_ok by apply Hex); by erewrite bind_ok by (by apply vm_read_ok).
Qed.

(** Controls that are left alone *)
Lemma idle_bit f v : f ∈ idle_controls -> msrs c !! w32 (m_addr (mf_reg (vc_allowed f))) = Some v -> Z.testbit v (bit_of f) = false.
Proof. intros Hf Hv. by apply negb_true_iff, (cap_idle _ Hcap f). Qed.

Lemma pin_bit i : 0 <= i < 32 -> Z.testbit pin_value i = (i =? 5) || ((i =? 3) || Z.testbit vp i).
Proof.
  intros Hi. unfold pin_value. rewrite !testbit_set_bit, testbit_required by (lia || apply Hp). by replace (i <? 32) with true by lia.
Qed.
Lemma proc_bit i : 0 <= i < 32 -> Z.testbit proc_value i = (i =? 31) && allows1 vq 31 || Z.testbit vq i.
Proof.
  intros Hi. unfold proc_value. rewrite testbit_enabled_if, testbit_required by (lia || apply Hq). by replace (i <? 32) with true by lia.
Qed.
Lemma secondary_bit i : 0 <= i < 32 -> i <> 3 -> i <> 12 -> i <> 20 -> Z.testbit secondary_value i = false.
Proof.
  intros. unfold secondary_value. rewrite !testbit_enabled_if, Z.bits_0 by lia.
  by replace (i =? 3) with false by lia; replace (i =? 12) with false by lia; replace (i =? 20) with false by lia.
Qed.
Lemma exit_bit i : 0 <= i < 32 -> Z.testbit exit_value i =
  existsb (Z.eqb i) [2; 9; 18; 19; 20; 21] || ((i =? 12) && allows1 vx 12) || Z.testbit vx i.
Proof.
  intros Hi. unfold exit_value. rewrite !testbit_set_bit, testbit_enabled_if, !testbit_set_bit, testbit_required by (lia || apply Hx).
  replace (i <? 32) with true by lia. simpl. rewrite orb_false_r.
  destruct (i =? 2), (i =? 9), (i =? 12), (i =? 18), (i =? 19), (i =? 20), (i =? 21), (allows1 vx 12); reflexivity || (simpl; by rewrite ?orb_true_r).
Qed.
Lemma entry_bit i : 0 <= i < 32 -> Z.testbit entry_value i =
  existsb (Z.eqb i) [2; 9; 14; 15] || ((i =? 13) && allows1 ve 13) || Z.testbit ve i.
Proof.
  intros Hi. unfold entry_value. rewrite !testbit_set_bit, testbit_enabled_if, !testbit_set_bit, testbit_required by (lia || apply He).
  replace (i <? 32) with true by lia. simpl. rewrite orb_false_r.
  destruct (i =? 2), (i =? 9), (i =? 13), (i =? 14), (i =? 15), (allows1 ve 13); reflexivity || (simpl; by rewrite ?orb_true_r).
Qed.

(** The controls that the checks ask for *)
Definition known_flags : list (vmcs_flag * bool) :=
  [(vc_flag pin_based_vm_execution_controls.nmi_exiting, true);
   (vc_flag pin_based_vm_execution_controls.virtual_nmis, true);
   (vc_flag pin_based_vm_execution_controls.process_posted_interrupts, false);
   (vc_flag pin_based_vm_execution_controls.activate_vmx_preemption_timer, false);
   (vc_flag primary_processor_based_vm_execution_controls.use_io_bitmaps, false);
   (vc_flag primary_processor_based_vm_execution_controls.use_msr_bitmap, false);
   (vc_flag primary_processor_based_vm_execution_controls.use_tpr_shadow, false);
   (vc_flag primary_processor_based_vm_execution_controls.activate_secondary_controls, true);
   (vc_flag secondary_processor_based_vm_execution_controls.virtualize_apic_accesses, false);
   (vc_flag secondary_processor_based_vm_execution_controls.enable_ept, false);
   (vc_flag secondary_processor_based_vm_execution_controls.virtualize_x2apic_mode, false);
   (vc_flag secondary_processor_based_vm_execution_controls.enable_vpid, false);
   (vc_flag secondary_processor_based_vm_execution_controls.unrestricted_guest, false);
   (vc_flag secondary_processor_based_vm_execution_controls.apic_register_virtualization, false);
   (vc_flag secondary_processor_based_vm_execution_controls.virtual_interrupt_delivery, false);
   (vc_flag secondary_processor_based_vm_execution_controls.enable_vm_functions, false);
   (vc_flag secondary_processor_based_vm_execution_controls.vmcs_shadowing, false);
   (vc_flag secondary_processor_based_vm_execution_controls.enable_pml, false);
   (vc_flag secondary_processor_based_vm_execution_controls.ept_violation_ve, false);
   (vc_flag vm_exit_controls.save_vmx_preemption_timer_value, false);
   (vc_flag vm_exit_controls.load_ia32_pat, true);
   (vc_flag vm_exit_controls.load_ia32_efer, true);
   (vc_flag vm_exit_controls.host_address_space_size, true);
   (vc_flag vm_entry_controls.ia_32e_mode_guest, true);
   (vm_entry_interruption_information.valid_bit, false);
   (host_es_selector.ti, false); (host_cs_selector.ti, false); (host_ss_selector.ti, false); (host_ds_selector.ti, false);
   (host_fs_selector.ti, false); (host_gs_selector.ti, false); (host_tr_selector.ti, false)].

Ltac idle f v := simpl; exact (idle_bit f v ltac:(in_list) ltac:(cap_msr)).
Ltac known_bit :=
  first [reflexivity
    | apply secondary_bit; simpl; lia
    | etransitivity; [apply entry_bit; simpl; lia|]; reflexivity
    | etransitivity; [apply exit_bit; simpl; lia|]; first [reflexivity | idle vm_exit_controls.save_vmx_preemption_timer_value vx]
    | etransitivity; [apply pin_bit; simpl; lia|]; first [reflexivity
        | idle pin_based_vm_execution_controls.process_posted_interrupts vp
        | idle pin_based_vm_execution_controls.activate_vmx_preemption_timer vp]
    | etransitivity; [apply proc_bit; simpl; lia|]; simpl; rewrite ?allows_secondary; first [reflexivity
        | idle primary_processor_based_vm_execution_controls.use_io_bitmaps vq
        | idle primary_processor_based_vm_execution_controls.use_msr_bitmap vq
        | idle primary_processor_based_vm_execution_controls.use_tpr_shadow vq]].

Lemma known_flags_bits : Forall (fun p => vf_reg p.1 ∈ used_registers /\ (forall l, v_exists (vf_reg p.1) (store l c) = Ok true (store l c)) /\
  flag_wf (vf p.1) /\ Z.testbit (default 0 (stored (control_writes ++ host_writes g a) (v_addr (vf_reg p.1)))) (flag_from (vf p.1)) = p.2) known_flags.
Proof.
  unfold known_flags. repeat (apply List.Forall_cons; [split_and!; [in_list|intros; reg_exists|split; [discriminate|reflexivity]|known_bit]|]).
  apply List.Forall_nil.
Qed.

Lemma known_flag f b : (f, b) ∈ known_flags -> flag_is_enabled f s = Ok b s /\ flag_is_disabled f s = Ok (negb b) s /\
  flag_is_enabled_if_exists f s = Ok b s /\ flag_is_disabled_if_exists f s = Ok (negb b) s.
Proof.
  intros Hf. pose proof known_flags_bits as Hk. rewrite Forall_forall in Hk. destruct (Hk _ Hf) as (? & ? & ? & ?). by apply final_flag.
Qed.

(** One step of a check: what is read is known. *)
Ltac known := eapply known_flag; unfold known_flags; repeat first [apply list_elem_of_here | apply list_elem_of_further].
Ltac is_final := first [left; reflexivity | right; split; reflexivity].
Ltac check_step :=
  match goal with
  | |- bind (bind _ _) _ _ = _ => rewrite bind_assoc
  | |- bind (ret _) _ _ = _ => erewrite bind_ok by reflexivity
  | |- bind (flag_is_enabled _) _ _ = _ => erewrite bind_ok by known
  | |- bind (flag_is_disabled _) _ _ = _ => erewrite bind_ok by known
  | |- bind (flag_is_enabled_if_exists _) _ _ = _ => erewrite bind_ok by known
  | |- bind (flag_is_disabled_if_exists _) _ _ = _ => erewrite bind_ok by known
  | |- bind (v_exists _) _ _ = _ => erewrite bind_ok by reg_exists
  | |- bind (vmcs_get _) _ _ = _ => erewrite bind_ok by (apply final_get; [in_list|intros; reg_exists|is_final])
  | |- bind (bits_get _) _ _ = _ => erewrite bind_ok by (apply final_bits; [in_list|intros; reg_exists|is_final])
  | |- bind (control_reserved_properly_set _ _ _) _ _ = _ =>
      erewrite bind_ok by (eapply reserved_ok; [cap_msr|first [apply pin_sound | apply proc_sound | apply secondary_sound | apply exit_sound | apply entry_sound]])
  end; cbv beta iota zeta; cbn [negb default].
Ltac run_check :=
  match goal with |- ?k _ = _ => let f := head_of k in unfold f end;
  unfold check, return_if, throw_if, when_, if_, seq, fails, return_, not_, test, and_then, control_is_enabled, control_is_disabled;
  repeat check_step; try reflexivity.

Lemma control_checks_pass : Forall (fun k => k s = Ok tt s) (take 31 all_checks).
Proof. unfold all_checks. cbn [take]. repeat (apply List.Forall_cons; [run_check|]). apply List.Forall_nil. Qed.

(** ** The host fields *)

Context (cr3 : Z) (Hg : g = setup cr3 mmap_pat) (Hfits : host_fits c cr3 a).

Lemma g_cr4_bits : u64 (g_cr4 g) /\ Z.testbit (g_cr4 g) 5 = true.
Proof.
  rewrite Hg. unfold setup. cbv zeta. cbn [g_cr4]. destruct (cpuid_is_enabled _ feature_information.xsave),
    (cpuid_is_enabled _ extended_feature_flags.smep), (cpuid_is_enabled _ extended_feature_flags.smap); split; (done || (split; by vm_compute)).
Qed.

Lemma host_flag f x b : vf_reg f ∈ used_registers -> (forall l, v_exists (vf_reg f) (store l c) = Ok true (store l c)) -> flag_wf (vf f) ->
  final (vf_reg f) (x mod 2 ^ 64) -> u64 x -> Z.testbit x (flag_from (vf f)) = b ->
  flag_is_enabled f s = Ok b s /\ flag_is_disabled f s = Ok (negb b) s.
Proof.
  intros Hr Hex Hf Hx' Hu Hb. apply final_default in Hx'. rewrite (Z.mod_small x) in Hx' by apply Hu.
  destruct (final_flag f b Hr Hex Hf) as (? & ? & _); [by rewrite Hx'|done].
Qed.

Lemma host_pae : flag_is_disabled host_cr4.physical_address_extensions s = Ok false s.
Proof. apply (host_flag _ (g_cr4 g) true); [in_list|done|by split|left; reflexivity|apply g_cr4_bits..]. Qed.

Lemma host_paging : flag_is_disabled host_cr0.paging s = Ok false s.
Proof.
  apply (host_flag _ (g_cr0 g) true); [in_list|done|by split|left; reflexivity| |]; rewrite Hg; [split; by vm_compute|done].
Qed.

Lemma host_lma : flag_is_enabled host_ia32_efer.lma s = Ok true s.
Proof.
  apply (host_flag _ (g_ia32_efer_msr g) true); [in_list|intros; reg_exists|by split|left; reflexivity| |]; rewrite Hg; [split; by vm_compute|done].
Qed.

Lemma host_lme : flag_is_enabled host_ia32_efer.lme s = Ok true s.
Proof.
  apply (host_flag _ (g_ia32_efer_msr g) true); [in_list|intros; reg_exists|by split|left; reflexivity| |]; rewrite Hg; [split; by vm_compute|done].
Qed.

Lemma canonical x : x ∈ [a_save_state a; a_tss a; a_gdt a; a_idt a; a_entry a] -> is_address_canonical (x mod 2 ^ 64) = true.
Proof. intros Hi. destruct (fits_addrs _ _ _ Hfits x Hi) as [Hu Hc]. by rewrite Z.mod_small by apply Hu. Qed.

Lemma lma_enabled : msr_is_enabled ia32_efer.lma s = Ok true s.
Proof.
  destruct (cap_long_mode _ Hcap) as (v & Hv & Hb). unfold msr_is_enabled, msr_get.
  erewrite bind_ok by (by apply read_msr_ok). by rewrite Hb.
Qed.

Lemma fixed_bits x m0 m1 : u64 x -> fixed_bits_fit c m0 m1 x -> exists v0 v1, msr_get m0 s = Ok v0 s /\ msr_get m1 s = Ok v1 s /\
  (0 =? Z.lor (Z.land (not64 (x mod 2 ^ 64)) v0) (Z.land (x mod 2 ^ 64) (not64 v1))) = true.
Proof.
  intros Hu (v0 & v1 & E0 & E1 & Hz & Ho). exists v0, v1. split; [by apply read_msr_ok|]. split; [by apply read_msr_ok|].
  rewrite Z.mod_small by apply Hu. by rewrite Hz, Ho.
Qed.

Ltac host_step :=
  first [check_step
    | match goal with
      | |- bind (msr_is_enabled _) _ _ = _ => erewrite bind_ok by apply lma_enabled
      | |- bind (flag_is_disabled _) _ _ = _ => erewrite bind_ok by (apply host_pae || apply host_paging)
      | |- bind (flag_is_enabled _) _ _ = _ => erewrite bind_ok by (apply host_lma || apply host_lme)
      | |- context[is_address_canonical ?x] => replace (is_address_canonical x) with true by (symmetry; apply canonical; in_list)
      | |- context[memory_type_reserved ?x] => replace (memory_type_reserved x) with false by (rewrite Hg; reflexivity)
      | |- context[field_get ?f ?x =? 0] => replace (field_get f x =? 0) with true by (rewrite Hg; reflexivity)
      end; cbv beta iota zeta; cbn [negb andb]].
Ltac run_host_check := run_check; repeat host_step; try reflexivity.

Ltac use_test Hb := match type of Hb with ?b = true => match goal with |- context[0 =? ?t] => change (0 =? t) with b end; rewrite Hb end.

Lemma cr0_check_passes : host_cr0_for_unsupported_bits s = Ok tt s.
Proof.
  destruct (fixed_bits (g_cr0 g) ia32_vmx_cr0_fixed0.reg ia32_vmx_cr0_fixed1.reg) as (v0 & v1 & E0 & E1 & Hb);
    [rewrite Hg; split; by vm_compute|rewrite Hg; apply Hfits|].
  run_check. rewrite (bind_ok _ _ _ _ _ E0). repeat check_step. rewrite (bind_ok _ _ _ _ _ E1). repeat check_step. by use_test Hb.
Qed.

Lemma cr4_check_passes : host_cr4_for_unsupported_bits s = Ok tt s.
Proof.
  destruct (fixed_bits (g_cr4 g) ia32_vmx_cr4_fixed0.reg ia32_vmx_cr4_fixed1.reg) as (v0 & v1 & E0 & E1 & Hb);
    [apply g_cr4_bits|rewrite Hg; apply Hfits|].
  run_check. rewrite (bind_ok _ _ _ _ _ E0). repeat check_step. rewrite (bind_ok _ _ _ _ _ E1). repeat check_step. by use_test Hb.
Qed.

Lemma cr3_check_passes : host_cr3_for_unsupported_bits s = Ok tt s.
Proof.
  destruct (fits_cr3 _ _ _ Hfits) as [Hu Hv]. run_check.
  match goal with |- context[is_physical_address_valid ?x] => replace x with cr3 end; [by rewrite Hv|]. rewrite Hg. symmetry. by apply Z.mod_small.
Qed.

Lemma perf_check_passes : host_verify_load_ia32_perf_global_ctrl s = Ok tt s.
Proof.
  assert (forall l, is_allowed1 ia32_vmx_true_exit_ctls.load_ia32_perf_global_ctrl (store l c) = Ok (allows1 vx 12) (store l c)) as Hex
    by (intros; by apply (is_allowed1_ok _ 12 vx); [|lia|apply Hx]).
  destruct (final_flag (vc_flag vm_exit_controls.load_ia32_perf_global_ctrl) (allows1 vx 12)) as (_ & Hd & _);
    [in_list|done|by split| |].
  { etransitivity; [apply exit_bit; simpl; lia|]. change ((false || (true && allows1 vx 12)) || Z.testbit vx 12 = allows1 vx 12).
    destruct (allows1 vx 12) eqn:E; [done|]. destruct (Z.testbit vx 12) eqn:Eb; [|done].
    destruct Hx as (_ & _ & Hs). by rewrite (Hs 12 ltac:(lia) Eb) in E. }
  unfold host_verify_load_ia32_perf_global_ctrl, check, seq, return_if, throw_if, when_, control_is_disabled. rewrite !bind_assoc.
  rewrite (bind_ok _ _ _ _ _ Hd). destruct (allows1 vx 12); [|reflexivity]. simpl.
  unfold test. repeat check_step. erewrite bind_ok by (apply final_bits; [in_list|done|is_final]). reflexivity.
Qed.

Lemma host_checks_pass : Forall (fun k => k s = Ok tt s) (drop 168 all_checks).
Proof.
  unfold all_checks. cbn [drop].
  repeat (apply List.Forall_cons;
    [solve [apply cr0_check_passes | apply cr4_check_passes | apply cr3_check_passes | apply perf_check_passes | run_host_check]|]).
  apply List.Forall_nil.
Qed.
End Final.
End Construct.

Section Theorems.
Context `{Processor} `{HostMemory}.

(** On a processor that allows what the hypervisor needs, in long mode and
    with a zeroed VMCS, the functions of the constructor that write the state of
    the host and the controls return, and the state they leave passes all 31
    checks of the control fields and all 27 checks of the host fields, for any
    root of the page tables that is a physical address and any canonical
    addresses.  They write nothing but the VMCS. *)
Theorem constructed_state_valid c cr3 a : capable c -> vmcs_zero c -> host_fits c cr3 a ->
  exists c', (write_host_state (setup cr3 mmap_pat) a ;;; write_control_state) c = Ok tt c' /\
    Forall (fun k => k c' = Ok tt c') (take 31 all_checks ++ drop 168 all_checks) /\
    msrs c' = msrs c /\ regs c' = regs c /\ cregs c' = cregs c /\ executed c' = executed c.
Proof.
  intros Hcap Hused%vmcs_zero_used Hfits.
  destruct (cap_regs _ Hcap ia32_vmx_true_pinbased_ctls.reg) as [vp Hp]; [unfold ctl_msrs; set_solver|].
  destruct (cap_regs _ Hcap ia32_vmx_true_procbased_ctls.reg) as [vq Hq]; [unfold ctl_msrs; set_solver|].
  destruct (cap_regs _ Hcap ia32_vmx_true_exit_ctls.reg) as [vx Hx]; [unfold ctl_msrs; set_solver|].
  destruct (cap_regs _ Hcap ia32_vmx_true_entry_ctls.reg) as [ve He]; [unfold ctl_msrs; set_solver|].
  destruct (cap_regs _ Hcap ia32_vmx_procbased_ctls2.reg) as [v2 H2]; [unfold ctl_msrs; set_solver|].
  destruct (write_control_state_ok c Hcap Hused vp vq vx ve v2 Hp Hq Hx He H2 (setup cr3 mmap_pat) a) as (l & E & Hl).
  exists (store l c). split; [|split; [|done]].
  - by erewrite bind_ok by (by eapply write_host_state_ok).
  - apply Forall_app. split; [by eapply control_checks_pass|by eapply host_checks_pass].
Qed.
End Theorems.
