(* ===== verification/VmcsWitness.v ===== *)
(** * A processor and a VMCS on which the theorems about them apply

    The capabilities are those of a processor of the sixth generation; the VMCS
    has every register, and all of them are zero but those of an exit. *)
From S2P Require Import Prelude Bits EptEntry Guard Vcpu Vmcs MsrFields X64MsrFields VmcsControl VmcsGuest VmcsHost VmcsExit VmcsProofs.
From S2P Require Import Crs Check CheckControl CheckGuest CheckHost CheckAll ExitHandler ExitHandlerProofs HostState.
Open Scope Z_scope.
Open Scope vmm_scope.

#[export] Instance sample_processor : Processor := {|
  cpuid_instr leaf sub := if leaf =? 0x80000008 then CpuidRegs 0x3027 0 0 0 else CpuidRegs 0 0 0 0;
  wrmsr_instr a old v := Some v;
  in_instr _ _ _ := 0;
  writes_read_only := false;
  accepts_region _ := true;
  accepts_invept _ _ := true;
  accepts_xcr0 _ := true;
  enters_guest _ := true |}.

#[export] Instance sample_memory : HostMemory := {| physint_to_virtptr p := inr p; host_word _ := 0 |}.

Definition sample_msrs : gmap Z Z := list_to_map
  [(m_addr ia32_vmx_true_pinbased_ctls.reg, 0x0000007F00000016);
   (m_addr ia32_vmx_true_procbased_ctls.reg, 0xFFF9FFFE04006172);
   (m_addr ia32_vmx_true_exit_ctls.reg, 0x01FFFFFF00036DFB);
   (m_addr ia32_vmx_true_entry_ctls.reg, 0x0003FFFF000011FB);
   (m_addr ia32_vmx_procbased_ctls2.reg, 0x00553CFE00000000);
   (m_addr ia32_vmx_cr0_fixed0.reg, 0x80000021); (m_addr ia32_vmx_cr0_fixed1.reg, 0xFFFFFFFF);
   (m_addr ia32_vmx_cr4_fixed0.reg, 0x2000); (m_addr ia32_vmx_cr4_fixed1.reg, 0x003767FF);
   (m_addr ia32_efer.reg, 0xD01); (m_addr ia32_debugctl.reg, 0); (m_addr ia32_pat.reg, 0x0007040600070406);
   (m_addr ia32_fs_base.reg, 0); (m_addr ia32_gs_base.reg, 0xFFFF888000000000);
   (m_addr MsrFields.ia32_sysenter_cs.reg, 0x10); (m_addr MsrFields.ia32_sysenter_esp.reg, 0xFFFFFE0000002200);
   (m_addr MsrFields.ia32_sysenter_eip.reg, 0xFFFFFFFF81A01000)].

Definition zero_fields : gmap Z Z := list_to_map ((fun x => (v_addr x.1, 0)) <$> vmcs_table).

(** The guest executes an instruction of two bytes with these registers. *)
Definition sample_cpu (rcx_ qualification mask : Z) : cpu :=
  Cpu (<[v_addr vm_exit_instruction_length.reg := 2]> (<[v_addr exit_qualification.reg := qualification]>
        (<[v_addr cr4_guest_host_mask.reg := mask]> zero_fields))) sample_msrs
    (fun r => match r with rcx => rcx_ | rax => 0xD01 | rdx => 0x1 | rip => 0x1000 | rbx => 0x6F8 | _ => 0 end) (fun _ => 0) [].

(** The control registers of a kernel in long mode *)
Definition sample_cregs (r : creg) : Z :=
  match r with CR0 => 0x80050033 | CR3 => 0x1AB000 | CR4 => 0x3606E0 | DR7 => 0x400 | RFLAGS => 0x202 | _ => 0 end.

Definition fresh_cpu : cpu := Cpu zero_fields sample_msrs (fun _ => 0) sample_cregs [].

(** A register of the table that the VMCS holds *)
Lemma zero_fields_all : forallb (fun x => bool_decide (zero_fields !! v_addr x.1 = Some 0)) vmcs_table = true.
Proof. vm_compute. reflexivity. Qed.

Lemma fresh_zero : vmcs_zero fresh_cpu.
Proof.
  intros r ps Hr _ _. pose proof zero_fields_all as Hz. rewrite forallb_forall in Hz.
  specialize (Hz _ (proj1 (list_elem_of_In _ _) Hr)). by apply bool_decide_eq_true in Hz.
Qed.

Definition capabilities_b (c : cpu) (m : msr) (v : Z) : bool :=
  bool_decide (msrs c !! w32 (m_addr m) = Some v) && (0 <=? v) && (v <? 2 ^ 64) &&
  forallb (fun i => implb (Z.testbit v i) (allows1 v i)) (seqZ 0 32).

Lemma capabilities_b_ok c m v : capabilities_b c m v = true -> capabilities c m v.
Proof.
  unfold capabilities_b. rewrite !andb_true_iff, bool_decide_eq_true, Z.leb_le, Z.ltb_lt, forallb_forall.
  intros (((Hm & Hz) & Hv) & Hall). split; [done|]. split; [by split|]. intros i Hi Hb.
  assert (In i (seqZ 0 32)) as Hin by (apply list_elem_of_In, elem_of_seqZ; lia). specialize (Hall i Hin). by rewrite Hb in Hall.
Qed.

Ltac cases H := repeat (apply elem_of_cons in H as [->|H]); [..|by apply elem_of_nil in H].

Lemma fresh_capable : capable fresh_cpu.
Proof.
  split.
  - intros m Hm. unfold ctl_msrs in Hm. exists (default 0 (sample_msrs !! w32 (m_addr m))). apply capabilities_b_ok. cases Hm; vm_compute; reflexivity.
  - intros f v Hf Hv. unfold needed_controls in Hf. cases Hf; vm_compute in Hv; injection Hv as <-; reflexivity.
  - intros f v Hf Hv. unfold idle_controls in Hf. cases Hf; vm_compute in Hv; injection Hv as <-; reflexivity.
  - intros v Hv. vm_compute in Hv. by injection Hv as <-.
  - exists 0xD01. split; vm_compute; reflexivity.
Qed.

Definition sample_addrs : host_addrs :=
  HostAddrs 0xFFFF880000001000 0xFFFF880000002000 0xFFFF880000003000 0xFFFF880000004000 0xFFFF880000005000 0xFFFF880000006000.

Lemma sample_fits : host_fits fresh_cpu 0x1000000 sample_addrs.
Proof.
  split.
  - exists 0x80000021, 0xFFFFFFFF. split_and!; vm_compute; reflexivity.
  - exists 0x2000, 0x003767FF. split_and!; vm_compute; reflexivity.
  - split; [split; by vm_compute|by vm_compute].
  - intros x Hx. simpl in Hx. cases Hx; (split; [split; by vm_compute|by vm_compute]).
Qed.

Lemma constructed_state_valid_witness :
  capable fresh_cpu /\ vmcs_zero fresh_cpu /\ host_fits fresh_cpu 0x1000000 sample_addrs /\
  exists c', (write_host_state (setup 0x1000000 mmap_pat) sample_addrs ;;; write_control_state) fresh_cpu = Ok tt c' /\
    Forall (fun k => k c' = Ok tt c') (take 31 all_checks ++ drop 168 all_checks) /\
    msrs c' = msrs fresh_cpu /\ regs c' = regs fresh_cpu /\ cregs c' = cregs fresh_cpu /\ executed c' = executed fresh_cpu.
Proof.
  split; [exact fresh_capable|]. split; [exact fresh_zero|]. split; [exact sample_fits|].
  exact (constructed_state_valid fresh_cpu 0x1000000 sample_addrs fresh_capable fresh_zero sample_fits).
Defined.

(** WRMSR of the register EFER *)
Lemma guest_msr_roundtrip_witness :
  exists c1 c2, handle_wrmsr (sample_cpu (m_addr ia32_efer.reg) 0 0) = Ok true c1 /\ handle_rdmsr c1 = Ok true c2 /\
    regs c2 rax = 0xD01 /\ regs c2 rdx = 1 /\ regs c2 rip = 0x1004.
Proof.
  destruct (guest_msr_roundtrip (m_addr ia32_efer.reg) guest_ia32_efer.reg 0 2 (sample_cpu (m_addr ia32_efer.reg) 0 0))
    as (c1 & c2 & E1 & E2 & Ha & Hd & Hi & _).
  - unfold guest_msrs. set_solver.
  - reflexivity.
  - vm_compute. reflexivity.
  - vm_compute. reflexivity.
  - vm_compute. reflexivity.
  - exists c1, c2. split; [exact E1|]. split; [exact E2|]. rewrite Ha, Hd, Hi. split_and!; vm_compute; reflexivity.
Defined.

(** MOV of RBX to CR4 *)
Lemma cr4_write_hidden_witness :
  exists c', handle_wrcr4 (sample_cpu 0 0x304 0x2000) = Ok true c' /\ guest_reads_cr4 c' = Some 0x6F8.
Proof.
  destruct (cr4_write_hidden 0x304 4 2 0 0 (sample_cpu 0 0x304 0x2000)) as (c' & E & Hr & _).
  - vm_compute. reflexivity.
  - vm_compute. reflexivity.
  - vm_compute. reflexivity.
  - vm_compute. reflexivity.
  - vm_compute. reflexivity.
  - vm_compute. reflexivity.
  - split; vm_compute; [discriminate|reflexivity].
  - exists c'. split; [exact E|exact Hr].
Defined.

Lemma fresh_wf : vmcs_wf fresh_cpu.
Proof.
  intros b x Hx. simpl in Hx. apply elem_of_list_to_map_2, list_elem_of_fmap in Hx as ((r & ps) & E & _). injection E as -> ->.
  split; [lia|]. apply Z.pow_pos_nonneg; [lia|]. destruct (width_of_cases (v_addr r)) as [|[|]]; lia.
Qed.

Lemma pin_in_table : (pin_based_vm_execution_controls.reg, pin_based_vm_execution_controls.parts) ∈ vmcs_table.
Proof. unfold vmcs_table, vmcs_headers. simpl. repeat first [apply list_elem_of_here | apply list_elem_of_further]. Qed.

(** Setting the control for exits on non-maskable interrupts *)
Lemma vmcs_part_roundtrip_witness :
  exists y, let c' := set_vmcs (<[v_addr pin_based_vm_execution_controls.reg := y]>) fresh_cpu in
    part_set (p_control pin_based_vm_execution_controls.nmi_exiting) 1 fresh_cpu = Ok tt c' /\
    part_get (p_control pin_based_vm_execution_controls.nmi_exiting) c' = Ok 1 c'.
Proof.
  destruct (vmcs_part_roundtrip pin_based_vm_execution_controls.reg pin_based_vm_execution_controls.parts
    (p_control pin_based_vm_execution_controls.nmi_exiting) 1 0 fresh_cpu pin_in_table) as (Hok & _ & _).
  - unfold pin_based_vm_execution_controls.parts. set_solver.
  - reflexivity.
  - exact fresh_wf.
  - vm_compute. reflexivity.
  - destruct Hok as (y & E & _ & Hg & _); [reflexivity|vm_compute; reflexivity|].
    exists y. split; [exact E|exact Hg].
Defined.
