(* ===== verification/GuestState.v ===== *)
(** * The state of the guest

    [exit_handler::write_guest_state] makes the running system the guest: it copies
    the segment registers with their descriptors, the control registers and the
    model specific registers of the processor to the VMCS.  Here are the operation,
    the systems that the theorem of [GuestValid.v] is about, and what the operation
    writes on them. *)
From S2P Require Import Prelude Bits EptEntry Guard Vcpu Vmcs MsrFields X64MsrFields VmcsControl VmcsGuest VmcsHost VmcsExit VmcsProofs.
From S2P Require Import Crs Check CheckControl CheckGuest CheckHost CheckAll Descriptors ExitHandler ExitHandlerProofs HostState.
Open Scope Z_scope.
Open Scope vmm_scope.

(** ** The operation *)

(** The segment registers of the processor and the descriptor tables it uses *)
Record segments := Segments {
  s_es : Z; s_cs : Z; s_ss : Z; s_ds : Z; s_fs : Z; s_gs : Z; s_ldtr : Z; s_tr : Z;
  guest_gdt : table; guest_idt : table }.

(** [es::index::get()] and the like *)
Definition seg_index (selector : Z) : Z := Z.shiftr (Z.land selector 0x0000FFF8) 3.

Section Write.
Context `{Processor}.

(** A function of the table that only reads it *)
Definition of_table {A} (t : table) (m : M table A) : M cpu A :=
  match m t with Ok a _ => ret a | Err e _ => throw e end.

(** [index != 0 ? guest_gdt.limit(index) : 0] and the like *)
Definition seg_limit (y : segments) (index : Z) : M cpu Z :=
  if negb (index =? 0) then of_table (guest_gdt y) (gdt.limit index) else ret 0.
Definition seg_rights (y : segments) (index null : Z) : M cpu Z :=
  if negb (index =? 0) then of_table (guest_gdt y) (gdt.access_rights index) else ret null.
Definition seg_base (y : segments) (index : Z) : M cpu Z :=
  if negb (index =? 0) then of_table (guest_gdt y) (gdt.base index) else ret 0.

(** [reg::set(expression)] *)
Definition set_to (r : vmcs_reg) (m : M cpu Z) : M cpu unit := x <- m ;; vmcs_set r x.

Definition write_guest_state (y : segments) : M cpu unit :=
  let es_index := seg_index (s_es y) in
  let cs_index := seg_index (s_cs y) in
  let ss_index := seg_index (s_ss y) in
  let ds_index := seg_index (s_ds y) in
  let fs_index := seg_index (s_fs y) in
  let gs_index := seg_index (s_gs y) in
  let ldtr_index := seg_index (s_ldtr y) in
  let tr_index := seg_index (s_tr y) in
  vmcs_set vmcs_link_pointer.reg 0xFFFFFFFFFFFFFFFF ;;;
  vmcs_set guest_es_selector.reg (s_es y) ;;;
  vmcs_set guest_cs_selector.reg (s_cs y) ;;;
  vmcs_set guest_ss_selector.reg (s_ss y) ;;;
  vmcs_set guest_ds_selector.reg (s_ds y) ;;;
  vmcs_set guest_fs_selector.reg (s_fs y) ;;;
  vmcs_set guest_gs_selector.reg (s_gs y) ;;;
  vmcs_set guest_ldtr_selector.reg (s_ldtr y) ;;;
  vmcs_set guest_tr_selector.reg (s_tr y) ;;;
  set_to guest_ia32_debugctl.reg (msr_get ia32_debugctl.reg) ;;;
  set_to guest_ia32_pat.reg (msr_get ia32_pat.reg) ;;;
  set_to guest_ia32_efer.reg (msr_get ia32_efer.reg) ;;;
  (if 2 <=? cpuid_field_get arch_perf_monitoring.eax_reg arch_perf_monitoring.version_id then
     x <- msr_get ia32_perf_global_ctrl.reg ;; vmcs_set_if_exists guest_ia32_perf_global_ctrl.reg x
   else ret tt) ;;;
  vmcs_set guest_gdtr_limit.reg (t_limit (guest_gdt y)) ;;;
  vmcs_set guest_idtr_limit.reg (t_limit (guest_idt y)) ;;;
  vmcs_set guest_gdtr_base.reg (t_base (guest_gdt y)) ;;;
  vmcs_set guest_idtr_base.reg (t_base (guest_idt y)) ;;;
  set_to guest_es_limit.reg (seg_limit y es_index) ;;;
  set_to guest_cs_limit.reg (seg_limit y cs_index) ;;;
  set_to guest_ss_limit.reg (seg_limit y ss_index) ;;;
  set_to guest_ds_limit.reg (seg_limit y ds_index) ;;;
  set_to guest_fs_limit.reg (seg_limit y fs_index) ;;;
  set_to guest_gs_limit.reg (seg_limit y gs_index) ;;;
  set_to guest_ldtr_limit.reg (seg_limit y ldtr_index) ;;;
  set_to guest_tr_limit.reg (seg_limit y tr_index) ;;;
  set_to guest_es_access_rights.reg (seg_rights y es_index access_rights.unusable) ;;;
  set_to guest_cs_access_rights.reg (seg_rights y cs_index access_rights.unusable) ;;;
  set_to guest_ss_access_rights.reg (seg_rights y ss_index access_rights.unusable) ;;;
  set_to guest_ds_access_rights.reg (seg_rights y ds_index access_rights.unusable) ;;;
  set_to guest_fs_access_rights.reg (seg_rights y fs_index access_rights.unusable) ;;;
  set_to guest_gs_access_rights.reg (seg_rights y gs_index access_rights.unusable) ;;;
  set_to guest_ldtr_access_rights.reg (seg_rights y ldtr_index access_rights.unusable) ;;;
  set_to guest_tr_access_rights.reg (seg_rights y tr_index (Z.lor access_rights.tss_busy 0x80)) ;;;
  set_to guest_es_base.reg (seg_base y es_index) ;;;
  set_to guest_cs_base.reg (seg_base y cs_index) ;;;
  set_to guest_ss_base.reg (seg_base y ss_index) ;;;
  set_to guest_ds_base.reg (seg_base y ds_index) ;;;
  set_to guest_fs_base.reg (msr_get ia32_fs_base.reg) ;;;
  set_to guest_gs_base.reg (msr_get ia32_gs_base.reg) ;;;
  set_to guest_ldtr_base.reg (seg_base y ldtr_index) ;;;
  set_to guest_tr_base.reg (seg_base y tr_index) ;;;
  set_to guest_cr0.reg (a <- get_creg CR0 ;; b <- msr_get ia32_vmx_cr0_fixed0.reg ;; ret (Z.lor a b)) ;;;
  set_to guest_cr3.reg (get_creg CR3) ;;;
  set_to guest_cr4.reg (a <- get_creg CR4 ;; b <- msr_get ia32_vmx_cr4_fixed0.reg ;; ret (Z.lor a b)) ;;;
  set_to guest_dr7.reg (get_creg DR7) ;;;
  set_to guest_rflags.reg (get_creg RFLAGS) ;;;
  set_to guest_ia32_sysenter_cs.reg (msr_get MsrFields.ia32_sysenter_cs.reg) ;;;
  set_to guest_ia32_sysenter_esp.reg (msr_get MsrFields.ia32_sysenter_esp.reg) ;;;
  set_to guest_ia32_sysenter_eip.reg (msr_get MsrFields.ia32_sysenter_eip.reg) ;;;
  set_to cr4_read_shadow.reg (get_creg CR4).
End Write.

(** ** A system that can become the guest *)

(** What the registers of the processor hold *)
Record values := Values {
  v_debugctl : Z; v_pat : Z; v_efer : Z; v_perf : Z; v_fs_base : Z; v_gs_base : Z;
  v_sysenter_cs : Z; v_sysenter_esp : Z; v_sysenter_eip : Z; v_cr0_fixed0 : Z; v_cr4_fixed0 : Z;
  v_tr_base : Z; v_tr_limit : Z }.

(** A selector of a descriptor with this base, limit and access rights *)
Definition describes (t : table) (selector base limit rights : Z) : Prop :=
  seg_index selector <> 0 /\ gdt.base (seg_index selector) t = Ok base t /\ gdt.limit (seg_index selector) t = Ok limit t /\
  gdt.access_rights (seg_index selector) t = Ok rights t.

Definition canonical64 (x : Z) : Prop := u64 x /\ is_address_canonical x = true.

Definition pat_types : list vmcs_field :=
  [guest_ia32_pat.pa0_memory_type; guest_ia32_pat.pa1_memory_type; guest_ia32_pat.pa2_memory_type; guest_ia32_pat.pa3_memory_type;
   guest_ia32_pat.pa4_memory_type; guest_ia32_pat.pa5_memory_type; guest_ia32_pat.pa6_memory_type; guest_ia32_pat.pa7_memory_type].

Section Kernel.
Context `{Processor}.

(** A kernel in long mode: flat segments for code and stack, null selectors for
    the others, a task register, no local descriptor table; registers that have
    no reserved bit set; and a processor that does not force the two entry
    controls that the constructor leaves alone. *)
Record long_mode_kernel (c : cpu) (y : segments) (k : values) : Prop := {
  k_code : describes (guest_gdt y) (s_cs y) 0 0xFFFFFFFF access_rights.ring0_cs_descriptor;
  k_stack : describes (guest_gdt y) (s_ss y) 0 0xFFFFFFFF access_rights.ring0_ss_descriptor;
  k_task : describes (guest_gdt y) (s_tr y) (v_tr_base k) (v_tr_limit k) access_rights.ring0_tr_descriptor;
  k_task_fits : canonical64 (v_tr_base k) /\ u32 (v_tr_limit k) /\ Z.land (v_tr_limit k) 0xFFF00000 = 0;
  k_null s : s ∈ [s_es y; s_ds y; s_fs y; s_gs y; s_ldtr y] -> seg_index s = 0;
  k_rpl s : s ∈ [s_cs y; s_ss y; s_tr y] -> 0 <= s < 2 ^ 16 /\ Z.land s 7 = 0;
  k_tables t : t ∈ [guest_gdt y; guest_idt y] -> canonical64 (t_base t) /\ 0 <= t_limit t < 2 ^ 16;
  k_msrs : Forall (fun p => msrs c !! m_addr p.1 = Some p.2 /\ u64 p.2)
    [(ia32_debugctl.reg, v_debugctl k); (ia32_pat.reg, v_pat k); (ia32_efer.reg, v_efer k);
     (ia32_fs_base.reg, v_fs_base k); (ia32_gs_base.reg, v_gs_base k);
     (MsrFields.ia32_sysenter_cs.reg, v_sysenter_cs k); (MsrFields.ia32_sysenter_esp.reg, v_sysenter_esp k);
     (MsrFields.ia32_sysenter_eip.reg, v_sysenter_eip k);
     (ia32_vmx_cr0_fixed0.reg, v_cr0_fixed0 k); (ia32_vmx_cr4_fixed0.reg, v_cr4_fixed0 k)];
  k_debugctl : field_get (vl guest_ia32_debugctl.reserved) (v_debugctl k) = 0;
  k_pat f : f ∈ pat_types -> memory_type_reserved (field_get (vl f) (v_pat k)) = false;
  k_efer : field_get (vl guest_ia32_efer.reserved) (v_efer k) = 0 /\ Z.testbit (v_efer k) 8 = true /\ Z.testbit (v_efer k) 10 = true;
  k_perf : 2 <= cpuid_field_get arch_perf_monitoring.eax_reg arch_perf_monitoring.version_id ->
    msrs c !! m_addr ia32_perf_global_ctrl.reg = Some (v_perf k) /\ u64 (v_perf k) /\
    field_get (vl guest_ia32_perf_global_ctrl.reserved) (v_perf k) = 0;
  k_bases x : x ∈ [v_fs_base k; v_gs_base k; v_sysenter_esp k; v_sysenter_eip k] -> is_address_canonical x = true;
  k_cr0 : u64 (cregs c CR0) /\ Z.testbit (cregs c CR0) 0 = true /\ Z.testbit (cregs c CR0) 31 = true /\
    fixed_bits_fit c ia32_vmx_cr0_fixed0.reg ia32_vmx_cr0_fixed1.reg (Z.lor (cregs c CR0) (v_cr0_fixed0 k));
  k_cr3 : u64 (cregs c CR3) /\ is_physical_address_valid (cregs c CR3) = true;
  k_cr4 : u64 (cregs c CR4) /\ Z.testbit (cregs c CR4) 5 = true /\
    fixed_bits_fit c ia32_vmx_cr4_fixed0.reg ia32_vmx_cr4_fixed1.reg (Z.lor (cregs c CR4) (v_cr4_fixed0 k));
  k_dr7 : 0 <= cregs c DR7 < 2 ^ 32;
  k_rflags : u64 (cregs c RFLAGS) /\ field_get (vl guest_rflags.reserved) (cregs c RFLAGS) = 0 /\
    field_get (vl guest_rflags.always_enabled) (cregs c RFLAGS) <> 0 /\ Z.testbit (cregs c RFLAGS) 17 = false;
  k_entry v : msrs c !! m_addr ia32_vmx_true_entry_ctls.reg = Some v -> allows0 v 10 = true /\ allows0 v 16 = true }.
End Kernel.

(** ** The writes *)

(** The registers that the function writes and that always exist, and the two that
    the controls make exist *)
Definition guest_registers : list vmcs_reg :=
  [vmcs_link_pointer.reg; guest_es_selector.reg; guest_cs_selector.reg; guest_ss_selector.reg; guest_ds_selector.reg;
   guest_fs_selector.reg; guest_gs_selector.reg; guest_ldtr_selector.reg; guest_tr_selector.reg; guest_ia32_debugctl.reg;
   guest_ia32_pat.reg; guest_ia32_efer.reg; guest_ia32_perf_global_ctrl.reg; guest_gdtr_limit.reg; guest_idtr_limit.reg;
   guest_gdtr_base.reg; guest_idtr_base.reg; guest_es_limit.reg; guest_cs_limit.reg; guest_ss_limit.reg; guest_ds_limit.reg;
   guest_fs_limit.reg; guest_gs_limit.reg; guest_ldtr_limit.reg; guest_tr_limit.reg; guest_es_access_rights.reg;
   guest_cs_access_rights.reg; guest_ss_access_rights.reg; guest_ds_access_rights.reg; guest_fs_access_rights.reg;
   guest_gs_access_rights.reg; guest_ldtr_access_rights.reg; guest_tr_access_rights.reg; guest_es_base.reg; guest_cs_base.reg;
   guest_ss_base.reg; guest_ds_base.reg; guest_fs_base.reg; guest_gs_base.reg; guest_ldtr_base.reg; guest_tr_base.reg;
   guest_cr0.reg; guest_cr3.reg; guest_cr4.reg; guest_dr7.reg; guest_rflags.reg; guest_ia32_sysenter_cs.reg;
   guest_ia32_sysenter_esp.reg; guest_ia32_sysenter_eip.reg; cr4_read_shadow.reg;
   guest_interruptibility_state.reg; guest_activity_state.reg; guest_pending_debug_exceptions.reg; guest_rip.reg].

Lemma guest_in_table : Forall (fun r => v_settable r = true /\ exists ps, (r, ps) ∈ vmcs_table) guest_registers.
Proof.
  unfold guest_registers, vmcs_table, vmcs_headers. simpl.
  repeat (apply List.Forall_cons; [split; [done|]; eexists; repeat first [apply list_elem_of_here | apply list_elem_of_further]|]).
  apply List.Forall_nil.
Qed.

Definition write (p : vmcs_reg * Z) : Z * Z := (v_addr p.1, p.2 mod 2 ^ width_of (v_addr p.1)).

Lemma store_empty (c : cpu) : store [] c = c.
Proof. by destruct c. Qed.

Section Written.
Context `{Processor} (c : cpu) (y : segments) (k : values) (Hk : long_mode_kernel c y k) (Hcap : capable c) (Hzero : vmcs_zero c).
Context (vx ve : Z) (Hx : capabilities c ia32_vmx_true_exit_ctls.reg vx) (He : capabilities c ia32_vmx_true_entry_ctls.reg ve).

Ltac in_list := unfold guest_registers, needed_controls, pat_types; repeat first [apply list_elem_of_here | apply list_elem_of_further].

(** The writes, the last one first *)
Definition late_writes : list (Z * Z) := write <$>
  [(cr4_read_shadow.reg, cregs c CR4); (guest_ia32_sysenter_eip.reg, v_sysenter_eip k); (guest_ia32_sysenter_esp.reg, v_sysenter_esp k);
   (guest_ia32_sysenter_cs.reg, v_sysenter_cs k); (guest_rflags.reg, cregs c RFLAGS); (guest_dr7.reg, cregs c DR7);
   (guest_cr4.reg, Z.lor (cregs c CR4) (v_cr4_fixed0 k)); (guest_cr3.reg, cregs c CR3);
   (guest_cr0.reg, Z.lor (cregs c CR0) (v_cr0_fixed0 k)); (guest_tr_base.reg, v_tr_base k); (guest_ldtr_base.reg, 0);
   (guest_gs_base.reg, v_gs_base k); (guest_fs_base.reg, v_fs_base k); (guest_ds_base.reg, 0); (guest_ss_base.reg, 0);
   (guest_cs_base.reg, 0); (guest_es_base.reg, 0); (guest_tr_access_rights.reg, access_rights.ring0_tr_descriptor);
   (guest_ldtr_access_rights.reg, access_rights.unusable); (guest_gs_access_rights.reg, access_rights.unusable);
   (guest_fs_access_rights.reg, access_rights.unusable); (guest_ds_access_rights.reg, access_rights.unusable);
   (guest_ss_access_rights.reg, access_rights.ring0_ss_descriptor); (guest_cs_access_rights.reg, access_rights.ring0_cs_descriptor);
   (guest_es_access_rights.reg, access_rights.unusable); (guest_tr_limit.reg, v_tr_limit k); (guest_ldtr_limit.reg, 0);
   (guest_gs_limit.reg, 0); (guest_fs_limit.reg, 0); (guest_ds_limit.reg, 0); (guest_ss_limit.reg, 0xFFFFFFFF);
   (guest_cs_limit.reg, 0xFFFFFFFF); (guest_es_limit.reg, 0); (guest_idtr_base.reg, t_base (guest_idt y));
   (guest_gdtr_base.reg, t_base (guest_gdt y)); (guest_idtr_limit.reg, t_limit (guest_idt y)); (guest_gdtr_limit.reg, t_limit (guest_gdt y))].
Definition perf_writes : list (Z * Z) :=
  if (2 <=? cpuid_field_get arch_perf_monitoring.eax_reg arch_perf_monitoring.version_id) && allows1 ve 13
  then [write (guest_ia32_perf_global_ctrl.reg, v_perf k)] else [].
Definition early_writes : list (Z * Z) := write <$>
  [(guest_ia32_efer.reg, v_efer k); (guest_ia32_pat.reg, v_pat k); (guest_ia32_debugctl.reg, v_debugctl k); (guest_tr_selector.reg, s_tr y);
   (guest_ldtr_selector.reg, s_ldtr y); (guest_gs_selector.reg, s_gs y); (guest_fs_selector.reg, s_fs y); (guest_ds_selector.reg, s_ds y);
   (guest_ss_selector.reg, s_ss y); (guest_cs_selector.reg, s_cs y); (guest_es_selector.reg, s_es y);
   (vmcs_link_pointer.reg, 0xFFFFFFFFFFFFFFFF)].
Definition guest_writes : list (Z * Z) := late_writes ++ perf_writes ++ early_writes.

Lemma allowed1_at f i v l : flag_mask (mf f) = 2 ^ i -> 0 <= i < 32 -> msrs c !! w32 (m_addr (mf_reg f)) = Some v ->
  is_allowed1 f (store l c) = Ok (allows1 v i) (store l c).
Proof. intros. by apply is_allowed1_ok. Qed.

Lemma needed_entry f : f ∈ needed_controls -> m_addr (mf_reg (vc_allowed f)) = m_addr ia32_vmx_true_entry_ctls.reg -> allows1 ve (bit_of f) = true.
Proof. intros Hf E. apply (cap_needed _ Hcap f); [done|]. rewrite E. apply He. Qed.

Lemma pat_exists l : v_exists guest_ia32_pat.reg (store l c) = Ok true (store l c).
Proof.
  simpl. unfold or_else. erewrite bind_ok by (apply (allowed1_at _ 14 ve); [done|lia|apply He]).
  pose proof (needed_entry vm_entry_controls.load_ia32_pat ltac:(in_list) eq_refl) as Ha. change (allows1 ve 14 = true) in Ha. by rewrite Ha.
Qed.
Lemma efer_exists l : v_exists guest_ia32_efer.reg (store l c) = Ok true (store l c).
Proof.
  simpl. unfold or_else. erewrite bind_ok by (apply (allowed1_at _ 15 ve); [done|lia|apply He]).
  pose proof (needed_entry vm_entry_controls.load_ia32_efer ltac:(in_list) eq_refl) as Ha. change (allows1 ve 15 = true) in Ha. by rewrite Ha.
Qed.
Lemma perf_exists l : v_exists guest_ia32_perf_global_ctrl.reg (store l c) = Ok (allows1 ve 13) (store l c).
Proof. apply (allowed1_at _ 13 ve); [done|lia|apply He]. Qed.

Ltac reg_exists := first [reflexivity | apply pat_exists | apply efer_exists].

Lemma guest_zero r l : r ∈ guest_registers -> (forall l, v_exists r (store l c) = Ok true (store l c)) ->
  vmcs_fields (store l c) !! v_addr r = Some (default 0 (stored l (v_addr r))).
Proof.
  intros Hr Hex. specialize (Hex []). pose proof guest_in_table as Ht. rewrite Forall_forall in Ht. destruct (Ht r Hr) as [Hs [ps Hin]].
  rewrite lookup_store. destruct (stored l (v_addr r)); [done|]. rewrite store_empty in Hex. by eapply Hzero.
Qed.

Lemma set_guest r m x l : m (store l c) = Ok x (store l c) -> r ∈ guest_registers -> (forall l, v_exists r (store l c) = Ok true (store l c)) ->
  type_bits (v_addr r) <> 1 -> set_to r m (store l c) = Ok tt (store (write (r, x) :: l) c).
Proof.
  intros Hm Hr Hex Ht. unfold set_to. erewrite bind_ok by done. eapply vmcs_set_store; [apply Hex|by apply guest_zero|done].
Qed.

Lemma vmcs_set_guest r x l : r ∈ guest_registers -> (forall l, v_exists r (store l c) = Ok true (store l c)) ->
  type_bits (v_addr r) <> 1 -> vmcs_set r x (store l c) = Ok tt (store (write (r, x) :: l) c).
Proof. intros Hr Hex Ht. eapply vmcs_set_store; [apply Hex|by apply guest_zero|done]. Qed.

(** What is written *)
Lemma read_seg sel b lim r st : describes (guest_gdt y) sel b lim r ->
  seg_base y (seg_index sel) st = Ok b st /\ seg_limit y (seg_index sel) st = Ok lim st /\ forall z, seg_rights y (seg_index sel) z st = Ok r st.
Proof.
  intros (Hi & Hb & Hl & Hr). unfold seg_base, seg_limit, seg_rights, of_table. apply Z.eqb_neq in Hi. rewrite Hi. simpl.
  by rewrite Hb, Hl, Hr.
Qed.

Lemma read_null sel st : sel ∈ [s_es y; s_ds y; s_fs y; s_gs y; s_ldtr y] ->
  seg_base y (seg_index sel) st = Ok 0 st /\ seg_limit y (seg_index sel) st = Ok 0 st /\ forall z, seg_rights y (seg_index sel) z st = Ok z st.
Proof. intros Hs. by rewrite (k_null _ _ _ Hk sel Hs). Qed.

Lemma kernel_msr m x l : (m, x) ∈ [(ia32_debugctl.reg, v_debugctl k); (ia32_pat.reg, v_pat k); (ia32_efer.reg, v_efer k);
     (ia32_fs_base.reg, v_fs_base k); (ia32_gs_base.reg, v_gs_base k);
     (MsrFields.ia32_sysenter_cs.reg, v_sysenter_cs k); (MsrFields.ia32_sysenter_esp.reg, v_sysenter_esp k);
     (MsrFields.ia32_sysenter_eip.reg, v_sysenter_eip k);
     (ia32_vmx_cr0_fixed0.reg, v_cr0_fixed0 k); (ia32_vmx_cr4_fixed0.reg, v_cr4_fixed0 k)] -> w32 (m_addr m) = m_addr m ->
  msr_get m (store l c) = Ok x (store l c) /\ u64 x.
Proof.
  intros Hm E. pose proof (k_msrs _ _ _ Hk) as Hf. rewrite Forall_forall in Hf. destruct (Hf _ Hm) as [Hv Hu].
  split; [|done]. apply read_msr_ok. by rewrite E.
Qed.

Ltac read_value :=
  first [apply (read_seg _ _ _ _ _ (k_code _ _ _ Hk)) | apply (read_seg _ _ _ _ _ (k_stack _ _ _ Hk)) | apply (read_seg _ _ _ _ _ (k_task _ _ _ Hk))
    | apply read_null; in_list
    | apply kernel_msr; [in_list|done]
    | reflexivity
    | erewrite bind_ok by reflexivity; erewrite bind_ok by (apply kernel_msr; [in_list|done]); reflexivity].
Ltac guest_step := first [eapply vmcs_set_guest; [in_list|intros; reg_exists|done] | eapply set_guest; [read_value|in_list|intros; reg_exists|done]].

Lemma perf_step l : (if 2 <=? cpuid_field_get arch_perf_monitoring.eax_reg arch_perf_monitoring.version_id then
     x <- msr_get ia32_perf_global_ctrl.reg ;; vmcs_set_if_exists guest_ia32_perf_global_ctrl.reg x
   else ret tt) (store l c) = Ok tt (store (perf_writes ++ l) c).
Proof.
  unfold perf_writes. destruct (Z.leb_spec 2 (cpuid_field_get arch_perf_monitoring.eax_reg arch_perf_monitoring.version_id)) as [Hv|]; [|done].
  destruct (k_perf _ _ _ Hk Hv) as (Hm & _). erewrite bind_ok by (by apply read_msr_ok).
  unfold vmcs_set_if_exists. erewrite bind_ok by apply perf_exists. destruct (allows1 ve 13) eqn:E; [|done]. simpl.
  assert (forall l, v_exists guest_ia32_perf_global_ctrl.reg (store l c) = Ok true (store l c)) as Hex by (intros; by rewrite perf_exists, E).
  erewrite vm_write_ok; [|by apply (guest_zero guest_ia32_perf_global_ctrl.reg); [in_list|]|done]. by rewrite store_cons.
Qed.

Lemma write_guest_state_ok l : write_guest_state y (store l c) = Ok tt (store (guest_writes ++ l) c).
Proof.
  unfold write_guest_state. cbv zeta. do 12 (erewrite bind_ok by guest_step). erewrite bind_ok by apply perf_step.
  do 36 (erewrite bind_ok by guest_step). erewrite set_guest; [|read_value|in_list|done|done].
  unfold guest_writes. rewrite <- !app_assoc. reflexivity.
Qed.
End Written.
