(* ===== verification/GuestValid.v ===== *)
(** * The VMCS that the constructor leaves is valid

    On a processor that allows what the hypervisor needs, and a kernel in long mode
    with flat segments, the state of the host, the controls and the guest that the
    constructor of the exit handler writes passes all 195 checks of [check::all]. *)
From S2P Require Import Prelude Bits EptEntry Guard Vcpu Vmcs MsrFields X64MsrFields VmcsControl VmcsGuest VmcsHost VmcsExit VmcsProofs.
From S2P Require Import Crs Check CheckControl CheckGuest CheckHost CheckAll Descriptors ExitHandler ExitHandlerProofs HostState GuestState VmcsWitness.
Open Scope Z_scope.
Open Scope vmm_scope.

(** ** The state that is left *)

Lemma stored_writes_app l1 l2 a : stored (l1 ++ l2) a = match stored l1 a with Some x => Some x | None => stored l2 a end.
Proof. induction l1 as [|[b x] l1 IH]; [done|]. simpl. by destruct (b =? a). Qed.

Lemma stored_single b x a : b <> a -> stored [(b, x)] a = None.
Proof. intros Hn. simpl. by destruct (Z.eqb_spec b a). Qed.

Lemma store_app l1 l2 c : store (l1 ++ l2) c = store l1 (store l2 c).
Proof. unfold store, set_vmcs; simpl. by rewrite foldr_app. Qed.

Lemma store_ext l1 l2 c : (forall a, stored l1 a = stored l2 a) -> store l1 c = store l2 c.
Proof.
  intros Hs. assert (vmcs_fields (store l1 c) = vmcs_fields (store l2 c)) as E.
  { apply map_eq. intros a. by rewrite !lookup_store, Hs. }
  unfold store, set_vmcs in *. simpl in E. by rewrite E.
Qed.

Lemma stored_in l a x : stored l a = Some x -> a ∈ l.*1.
Proof.
  induction l as [|[b z] l IH]; [done|]. simpl. destruct (Z.eqb_spec b a) as [->|]; [intros _; apply list_elem_of_here|].
  intros. apply list_elem_of_further. auto.
Qed.

Lemma high_clear w x m : 0 <= w -> 0 <= x < 2 ^ w -> Z.land m (Z.ones w) = 0 -> Z.land x m = 0.
Proof.
  intros Hw Hx Hm. rewrite <- (Z.mod_small x (2 ^ w)), <- Z.land_ones by lia. by rewrite <- Z.land_assoc, (Z.land_comm _ m), Hm, Z.land_0_r.
Qed.

Lemma registers_apart r u : r ∈ guest_registers -> u ∈ used_registers -> v_addr r <> v_addr u.
Proof.
  intros Hr Hu E. assert (forallb (fun r => forallb (fun u => negb (v_addr r =? v_addr u)) used_registers) guest_registers = true) as Hb
    by (vm_compute; reflexivity).
  rewrite forallb_forall in Hb. specialize (Hb r (proj1 (list_elem_of_In _ _) Hr)). rewrite forallb_forall in Hb.
  specialize (Hb u (proj1 (list_elem_of_In _ _) Hu)). rewrite E, Z.eqb_refl in Hb. done.
Qed.

(** The registers of the guest that are the ones of the running system *)
Definition snapshot (c : cpu) (y : segments) (k : values) : list (vmcs_reg * Z) :=
  [(guest_cs_selector.reg, s_cs y); (guest_ss_selector.reg, s_ss y); (guest_tr_selector.reg, s_tr y); (guest_tr_base.reg, v_tr_base k);
   (guest_fs_base.reg, v_fs_base k); (guest_gs_base.reg, v_gs_base k); (guest_gdtr_base.reg, t_base (guest_gdt y));
   (guest_idtr_base.reg, t_base (guest_idt y)); (guest_cr3.reg, cregs c CR3); (guest_rflags.reg, cregs c RFLAGS);
   (guest_dr7.reg, cregs c DR7); (guest_ia32_efer.reg, v_efer k); (guest_ia32_pat.reg, v_pat k);
   (guest_cr0.reg, Z.lor (cregs c CR0) (v_cr0_fixed0 k)); (guest_cr4.reg, Z.lor (cregs c CR4) (v_cr4_fixed0 k))].

Section Left.
Context `{Processor} `{HostMemory} (c : cpu) (y : segments) (k : values) (Hk : long_mode_kernel c y k) (Hcap : capable c) (Hzero : vmcs_zero c).
Context (vp vq vx ve v2 : Z).
Context (Hp : capabilities c ia32_vmx_true_pinbased_ctls.reg vp) (Hq : capabilities c ia32_vmx_true_procbased_ctls.reg vq)
  (Hx : capabilities c ia32_vmx_true_exit_ctls.reg vx) (He : capabilities c ia32_vmx_true_entry_ctls.reg ve)
  (H2 : capabilities c ia32_vmx_procbased_ctls2.reg v2).
Context (g : host_globals) (a : host_addrs) (l : list (Z * Z)).
Context (Hl : forall b, stored l b = stored (control_writes vp vq vx ve v2 ++ host_writes g a) b).
Notation gw := (guest_writes c y k ve).
Notation c1 := (store gw c).
Notation F := (store (l ++ gw) c).

Ltac in_list := unfold guest_registers, used_registers, needed_controls, pat_types; repeat first [apply list_elem_of_here | apply list_elem_of_further].

Lemma guest_addresses b x : stored gw b = Some x -> exists r, r ∈ guest_registers /\ b = v_addr r.
Proof.
  intros Hs%stored_in. apply list_elem_of_fmap in Hs as ([b' z] & -> & Hin).
  assert (forall ps : list (vmcs_reg * Z), (forall p, p ∈ ps -> p.1 ∈ guest_registers) -> (b', z) ∈ (write <$> ps) ->
    exists r, r ∈ guest_registers /\ b' = v_addr r) as Hw.
  { intros ps Hps ([r w] & E & Hr)%list_elem_of_fmap. injection E as -> ->. exists r. split; [apply (Hps _ Hr)|done]. }
  unfold guest_writes in Hin. rewrite !elem_of_app in Hin. destruct Hin as [Hin|[Hin|Hin]].
  - unfold late_writes in Hin. eapply Hw; [|exact Hin]. clear. intros p Hp. repeat (apply elem_of_cons in Hp as [->|Hp]; [in_list|]). by apply elem_of_nil in Hp.
  - unfold perf_writes in Hin. destruct (_ && _); [|by apply elem_of_nil in Hin]. apply list_elem_of_singleton in Hin. injection Hin as -> ->.
    exists guest_ia32_perf_global_ctrl.reg. split; [in_list|done].
  - unfold early_writes in Hin. eapply Hw; [|exact Hin]. clear. intros p Hp. repeat (apply elem_of_cons in Hp as [->|Hp]; [in_list|]). by apply elem_of_nil in Hp.
Qed.

Lemma control_addresses b x : stored l b = Some x -> exists r, r ∈ used_registers /\ b = v_addr r.
Proof.
  rewrite Hl. intros Hs%stored_in. apply list_elem_of_fmap in Hs as ([b' z] & -> & Hin). cbn [fst]. apply elem_of_app in Hin as [Hin|Hin].
  - assert (b' ∈ (v_addr <$> used_registers)) as (r & -> & Hr)%list_elem_of_fmap; [|by exists r]. unfold control_writes in Hin.
    repeat (apply elem_of_cons in Hin as [E|Hin]; [injection E as -> _; cbn; in_list|]). by apply elem_of_nil in Hin.
  - unfold host_writes in Hin. apply list_elem_of_fmap in Hin as ([r w] & E & Hr). injection E as -> _. exists r. split; [|done].
    repeat (apply elem_of_cons in Hr as [E|Hr]; [injection E as -> _; in_list|]). by apply elem_of_nil in Hr.
Qed.

(** The writes of the two groups do not meet. *)
Lemma writes_commute : store (gw ++ l) c = F.
Proof.
  apply store_ext. intros b. rewrite !stored_writes_app. destruct (stored gw b) eqn:Eg, (stored l b) eqn:El; [|done..].
  apply guest_addresses in Eg as (r & Hr & ->). apply control_addresses in El as (u & Hu & E). exfalso. by eapply registers_apart.
Qed.

Lemma used_zeroed_c1 : used_zeroed c1.
Proof.
  intros u Hu Hex. rewrite lookup_store. destruct (stored gw (v_addr u)) eqn:E.
  - apply guest_addresses in E as (r & Hr & E). exfalso. eapply (registers_apart r u); [done..|]. by rewrite E.
  - pose proof used_in_table as Ht. rewrite Forall_forall in Ht. destruct (Ht u Hu) as [Hs [ps Hin]].
    eapply Hzero; [done..|]. pose proof table_exists as Hm. rewrite Forall_forall in Hm. specialize (Hm _ Hin).
    by apply (msr_only_same _ true c1 c Hm).
Qed.

Lemma capable_c1 : capable c1.
Proof. destruct Hcap. by split. Qed.

(** The registers of the guest *)
Definition held (r : vmcs_reg) (x : Z) : Prop :=
  (stored (late_writes c y k ++ early_writes y k) (v_addr r) = Some (x mod 2 ^ width_of (v_addr r)) /\ 0 <= x < 2 ^ width_of (v_addr r)) \/
  (stored (late_writes c y k ++ early_writes y k) (v_addr r) = None /\ x = 0).

Lemma guest_lookup r x : r ∈ guest_registers -> v_addr r <> v_addr guest_ia32_perf_global_ctrl.reg ->
  (forall l, v_exists r (store l c) = Ok true (store l c)) -> held r x -> vmcs_fields F !! v_addr r = Some x.
Proof.
  intros Hr Hn Hex Hh. rewrite (guest_zero c Hzero r) by done. f_equal. rewrite stored_writes_app.
  destruct (stored l (v_addr r)) eqn:El.
  { apply control_addresses in El as (u & Hu & E). exfalso. by eapply registers_apart. }
  assert (stored gw (v_addr r) = stored (late_writes c y k ++ early_writes y k) (v_addr r)) as ->.
  { unfold guest_writes. rewrite !stored_writes_app. destruct (stored (late_writes c y k) (v_addr r)); [done|].
    unfold perf_writes. destruct (_ && _); [|done]. unfold write at 1. by rewrite stored_single by (intros E; by apply Hn). }
  destruct Hh as [[-> Hf]|[-> ->]]; [|done]. simpl. by apply Z.mod_small.
Qed.

(** ** Reading it *)

Ltac reg_exists := first [reflexivity | apply (pat_exists c Hcap ve He) | apply (efer_exists c Hcap ve He)].

Lemma guest_get r x : r ∈ guest_registers -> v_addr r <> v_addr guest_ia32_perf_global_ctrl.reg ->
  (forall l, v_exists r (store l c) = Ok true (store l c)) -> held r x -> vmcs_get r F = Ok x F.
Proof. intros. apply vmcs_get_ok; [auto|by apply guest_lookup]. Qed.

Lemma guest_bits f x : vl_reg f ∈ guest_registers -> v_addr (vl_reg f) <> v_addr guest_ia32_perf_global_ctrl.reg ->
  (forall l, v_exists (vl_reg f) (store l c) = Ok true (store l c)) -> held (vl_reg f) x -> bits_get f F = Ok (field_get (vl f) x) F.
Proof. intros. apply bits_get_ok; [auto|by apply guest_lookup]. Qed.

Lemma guest_flag f x : vf_reg f ∈ guest_registers -> v_addr (vf_reg f) <> v_addr guest_ia32_perf_global_ctrl.reg ->
  (forall l, v_exists (vf_reg f) (store l c) = Ok true (store l c)) -> held (vf_reg f) x ->
  flag_is_enabled f F = Ok (is_bit_set x (flag_from (vf f))) F /\ flag_is_disabled f F = Ok (negb (is_bit_set x (flag_from (vf f)))) F.
Proof.
  intros Hr Hn Hex Hh. rewrite <- is_bit_cleared_negb. unfold flag_is_enabled, flag_is_disabled.
  split; (erewrite bind_ok by apply Hex); by erewrite bind_ok by (by apply vm_read_ok, guest_lookup).
Qed.

(** The controls *)
Lemma control_flag f b : (f, b) ∈ known_flags -> flag_is_enabled f F = Ok b F /\ flag_is_disabled f F = Ok (negb b) F /\
  flag_is_enabled_if_exists f F = Ok b F /\ flag_is_disabled_if_exists f F = Ok (negb b) F.
Proof.
  intros Hf. rewrite store_app. by apply (known_flag c1 capable_c1 used_zeroed_c1 vp vq vx ve v2 Hp Hq Hx He H2 g a l Hl).
Qed.

Lemma entry_flag f b : vf_reg f = vm_entry_controls.reg -> 0 <= flag_from (vf f) < 32 -> Z.testbit (entry_value ve) (flag_from (vf f)) = b ->
  flag_is_enabled f F = Ok b F /\ flag_is_disabled f F = Ok (negb b) F.
Proof.
  intros Hf Hi Hb. rewrite store_app.
  destruct (final_flag c1 capable_c1 used_zeroed_c1 vp vq vx ve v2 Hp Hq Hx He H2 g a l Hl f b) as (? & ? & _); [rewrite Hf; in_list|by rewrite Hf|unfold flag_wf; lia| |done].
  rewrite Hf. exact Hb.
Qed.

(** ** What the values are *)

Lemma msr_fits m x : (m, x) ∈ [(ia32_debugctl.reg, v_debugctl k); (ia32_pat.reg, v_pat k); (ia32_efer.reg, v_efer k);
     (ia32_fs_base.reg, v_fs_base k); (ia32_gs_base.reg, v_gs_base k);
     (MsrFields.ia32_sysenter_cs.reg, v_sysenter_cs k); (MsrFields.ia32_sysenter_esp.reg, v_sysenter_esp k);
     (MsrFields.ia32_sysenter_eip.reg, v_sysenter_eip k);
     (ia32_vmx_cr0_fixed0.reg, v_cr0_fixed0 k); (ia32_vmx_cr4_fixed0.reg, v_cr4_fixed0 k)] -> u64 x.
Proof. intros Hm. pose proof (k_msrs _ _ _ Hk) as Hf. rewrite Forall_forall in Hf. by destruct (Hf _ Hm). Qed.

Lemma cr0_fits : u64 (Z.lor (cregs c CR0) (v_cr0_fixed0 k)).
Proof. apply u64_lor; [apply (k_cr0 _ _ _ Hk)|]. apply (msr_fits ia32_vmx_cr0_fixed0.reg). in_list. Qed.
Lemma cr4_fits : u64 (Z.lor (cregs c CR4) (v_cr4_fixed0 k)).
Proof. apply u64_lor; [apply (k_cr4 _ _ _ Hk)|]. apply (msr_fits ia32_vmx_cr4_fixed0.reg). in_list. Qed.
Lemma dr7_fits : u64 (cregs c DR7).
Proof. pose proof (k_dr7 _ _ _ Hk). split; lia. Qed.
Lemma selector_fits sel : sel ∈ [s_cs y; s_ss y; s_tr y] -> 0 <= sel < 2 ^ 16.
Proof. intros Hs. apply (k_rpl _ _ _ Hk sel Hs). Qed.
Lemma limit_fits t : t ∈ [guest_gdt y; guest_idt y] -> u32 (t_limit t).
Proof. intros Ht. destruct (k_tables _ _ _ Hk t Ht) as [_ ?]. unfold u32. lia. Qed.
Lemma base_fits t : t ∈ [guest_gdt y; guest_idt y] -> u64 (t_base t).
Proof. intros Ht. by destruct (k_tables _ _ _ Hk t Ht) as [[? _] _]. Qed.

Ltac fits :=
  first [split; [discriminate|reflexivity]
    | apply cr0_fits | apply cr4_fits | apply dr7_fits
    | apply (k_cr3 _ _ _ Hk) | apply (k_rflags _ _ _ Hk)
    | apply (k_task_fits _ _ _ Hk)
    | apply selector_fits; in_list | apply limit_fits; in_list | apply base_fits; in_list
    | eapply msr_fits; in_list].
Ltac is_held := first [left; split; [reflexivity|fits] | right; split; reflexivity].

(** Bits *)
Lemma bit_of_testbit x f b : 0 <= flag_from f < 64 -> Z.testbit x (flag_from f) = b -> is_bit_set x (flag_from f) = b.
Proof. intros Hf <-. by apply is_bit_set_testbit. Qed.

Lemma v8086_off : is_bit_set (cregs c RFLAGS) (flag_from (vf guest_rflags.virtual_8086_mode)) = false.
Proof. apply bit_of_testbit; [by split|apply (k_rflags _ _ _ Hk)]. Qed.
Lemma paging_on : is_bit_set (Z.lor (cregs c CR0) (v_cr0_fixed0 k)) (flag_from (vf guest_cr0.paging)) = true.
Proof. apply bit_of_testbit; [by split|]. rewrite Z.lor_spec. destruct (k_cr0 _ _ _ Hk) as (_ & _ & E & _). simpl flag_from. by rewrite E. Qed.
Lemma protection_on : is_bit_set (Z.lor (cregs c CR0) (v_cr0_fixed0 k)) (flag_from (vf guest_cr0.protection_enable)) = true.
Proof. apply bit_of_testbit; [by split|]. rewrite Z.lor_spec. destruct (k_cr0 _ _ _ Hk) as (_ & E & _). simpl flag_from. by rewrite E. Qed.
Lemma pae_on : is_bit_set (Z.lor (cregs c CR4) (v_cr4_fixed0 k)) (flag_from (vf guest_cr4.physical_address_extensions)) = true.
Proof. apply bit_of_testbit; [by split|]. rewrite Z.lor_spec. destruct (k_cr4 _ _ _ Hk) as (_ & E & _). simpl flag_from. by rewrite E. Qed.
Lemma lma_on : is_bit_set (v_efer k) (flag_from (vf guest_ia32_efer.lma)) = true.
Proof. apply bit_of_testbit; [by split|apply (k_efer _ _ _ Hk)]. Qed.
Lemma lme_on : is_bit_set (v_efer k) (flag_from (vf guest_ia32_efer.lme)) = true.
Proof. apply bit_of_testbit; [by split|apply (k_efer _ _ _ Hk)]. Qed.

Lemma low_bits sel : Z.land sel 7 = 0 -> Z.land sel 3 = 0 /\ Z.testbit sel 2 = false.
Proof.
  intros Hs. split.
  - change 3 with (Z.land 7 3). by rewrite Z.land_assoc, Hs.
  - assert (Z.testbit (Z.land sel 7) 2 = false) as Hb by (by rewrite Hs). rewrite Z.land_spec in Hb. simpl in Hb. by rewrite andb_true_r in Hb.
Qed.
Lemma task_ti_off : is_bit_set (s_tr y) (flag_from (vf guest_tr_selector.ti)) = false.
Proof. apply bit_of_testbit; [by split|]. apply low_bits, (k_rpl _ _ _ Hk). in_list. Qed.
Lemma code_rpl : field_get (vl guest_cs_selector.rpl) (s_cs y) = 0.
Proof. unfold field_get, get_bits; simpl. rewrite Z.shiftr_0_r. apply low_bits, (k_rpl _ _ _ Hk). in_list. Qed.
Lemma stack_rpl : field_get (vl guest_ss_selector.rpl) (s_ss y) = 0.
Proof. unfold field_get, get_bits; simpl. rewrite Z.shiftr_0_r. apply low_bits, (k_rpl _ _ _ Hk). in_list. Qed.

Lemma dr7_low : Z.land (cregs c DR7) 0xFFFFFFFF00000000 = 0.
Proof. apply (high_clear 32); [lia|apply (k_dr7 _ _ _ Hk)|reflexivity]. Qed.
Lemma gdt_limit_low : Z.land (t_limit (guest_gdt y)) 0xFFFF0000 = 0.
Proof. apply (high_clear 16); [lia|apply (k_tables _ _ _ Hk); in_list|reflexivity]. Qed.
Lemma idt_limit_low : Z.land (t_limit (guest_idt y)) 0xFFFF0000 = 0.
Proof. apply (high_clear 16); [lia|apply (k_tables _ _ _ Hk); in_list|reflexivity]. Qed.

Lemma canonical_values x : x ∈ [v_fs_base k; v_gs_base k; v_sysenter_esp k; v_sysenter_eip k; v_tr_base k; t_base (guest_gdt y); t_base (guest_idt y)] ->
  is_address_canonical x = true.
Proof.
  change ([v_fs_base k; v_gs_base k; v_sysenter_esp k; v_sysenter_eip k; v_tr_base k; t_base (guest_gdt y); t_base (guest_idt y)])
    with ([v_fs_base k; v_gs_base k; v_sysenter_esp k; v_sysenter_eip k] ++ [v_tr_base k; t_base (guest_gdt y); t_base (guest_idt y)]).
  intros [Hi|Hi]%elem_of_app; [by apply (k_bases _ _ _ Hk)|]. rewrite !elem_of_cons in Hi. destruct Hi as [->|[->|[->|Hi%elem_of_nil]]]; [..|done].
  - apply (k_task_fits _ _ _ Hk).
  - apply (k_tables _ _ _ Hk). in_list.
  - apply (k_tables _ _ _ Hk). in_list.
Qed.

Lemma always_on : (field_get (vl guest_rflags.always_enabled) (cregs c RFLAGS) =? 0) = false.
Proof. apply Z.eqb_neq, (k_rflags _ _ _ Hk). Qed.

Lemma entry_on f : vf_reg f = vm_entry_controls.reg -> existsb (Z.eqb (flag_from (vf f))) [2; 9; 14; 15] = true ->
  flag_is_enabled f F = Ok true F /\ flag_is_disabled f F = Ok false F.
Proof.
  intros Hf Hb. assert (0 <= flag_from (vf f) < 32) as Hi by (apply existsb_exists in Hb as (i & Hi & ->%Z.eqb_eq); simpl in Hi; lia).
  apply (entry_flag f true Hf Hi). rewrite (entry_bit c ve He) by done. by rewrite Hb.
Qed.

Lemma entry_off f : vf_reg f = vm_entry_controls.reg -> flag_from (vf f) ∈ [10; 16] ->
  flag_is_enabled f F = Ok false F /\ flag_is_disabled f F = Ok true F.
Proof.
  intros Hf Hb. destruct (k_entry _ _ _ Hk ve) as [H10 H16]; [apply He|]. apply negb_true_iff in H10, H16.
  assert (0 <= flag_from (vf f) < 32 /\ existsb (Z.eqb (flag_from (vf f))) [2; 9; 13; 14; 15] = false /\ Z.testbit ve (flag_from (vf f)) = false)
    as (Hi & Hn & Hv) by (rewrite !elem_of_cons in Hb; destruct Hb as [->|[->|Hb%elem_of_nil]]; done).
  apply (entry_flag f false Hf Hi). rewrite (entry_bit c ve He), Hv by done. simpl in *. lia.
Qed.

Lemma entry_perf : flag_is_disabled (vc_flag vm_entry_controls.load_ia32_perf_global_ctrl) F = Ok (negb (allows1 ve 13)) F.
Proof.
  apply (entry_flag _ (allows1 ve 13)); [done|by split|]. rewrite (entry_bit c ve He) by by split.
  change (allows1 ve 13 || Z.testbit ve 13 = allows1 ve 13). destruct (Z.testbit ve 13) eqn:E; [|by rewrite orb_false_r].
  destruct He as (_ & _ & Hs). by rewrite (Hs 13 ltac:(lia) E).
Qed.

(** ** The checks of the guest *)

(** One step: what is read is known, and so is what is asked of it. *)
Ltac known := eapply control_flag; unfold known_flags; repeat first [apply list_elem_of_here | apply list_elem_of_further].
Ltac entry := first [apply entry_on; reflexivity | apply entry_off; [reflexivity|in_list]].
Ltac of_guest := eapply guest_flag; [in_list|discriminate|intros; reg_exists|is_held].
Ltac facts := rewrite ?v8086_off, ?paging_on, ?protection_on, ?pae_on, ?lma_on, ?lme_on, ?task_ti_off, ?code_rpl, ?stack_rpl,
  ?dr7_low, ?gdt_limit_low, ?idt_limit_low, ?(k_debugctl _ _ _ Hk), ?(proj1 (k_efer _ _ _ Hk)), ?(proj1 (proj2 (k_rflags _ _ _ Hk))),
  ?(proj2 (proj2 (k_task_fits _ _ _ Hk))), ?(proj2 (k_cr3 _ _ _ Hk)), ?always_on, ?andb_false_r.
Ltac settle :=
  cbn [negb andb orb fst snd]; facts;
  repeat match goal with
  | |- context[is_bit_set ?x ?n] => first [change (is_bit_set x n) with true | change (is_bit_set x n) with false]
  | |- context[is_address_canonical ?x] => rewrite (canonical_values x) by in_list
  | |- context[memory_type_reserved (field_get (vl ?f) (v_pat k))] => rewrite (k_pat _ _ _ Hk f) by in_list
  end; cbv beta iota zeta; cbn [negb andb orb].
Ltac guest_check_step :=
  match goal with
  | |- bind (bind _ _) _ _ = _ => rewrite bind_assoc
  | |- bind (ret _) _ _ = _ => erewrite bind_ok by reflexivity
  | |- bind (if ?b then _ else _) _ _ = _ => first [change b with true | change b with false | destruct b]
  | |- bind (flag_is_enabled_if_exists _) _ _ = _ => erewrite bind_ok by known
  | |- bind (flag_is_disabled_if_exists _) _ _ = _ => erewrite bind_ok by known
  | |- bind (flag_is_enabled _) _ _ = _ => erewrite bind_ok by first [solve [known] | solve [entry] | solve [of_guest]]
  | |- bind (flag_is_disabled _) _ _ = _ => erewrite bind_ok by first [solve [known] | solve [entry] | solve [of_guest]]
  | |- bind (vmcs_get _) _ _ = _ => erewrite bind_ok by (apply guest_get; [in_list|discriminate|intros; reg_exists|is_held])
  | |- bind (bits_get _) _ _ = _ => erewrite bind_ok by (apply guest_bits; [in_list|discriminate|intros; reg_exists|is_held])
  end; cbv beta iota zeta; settle.
Ltac run_guest_check :=
  match goal with |- ?k _ = _ => let f := head_of k in unfold f end;
  unfold check, return_if, throw_if, when_, if_, seq, fails, return_, not_, test, test2, and_then, control_is_enabled, control_is_disabled;
  repeat guest_check_step; try reflexivity.

(** The bits that the processor fixes *)
Lemma fixed_test m0 m1 v0 x : fixed_bits_fit c m0 m1 x -> w32 (m_addr m0) = m_addr m0 -> msrs c !! m_addr m0 = Some v0 ->
  exists v1, msr_get m0 F = Ok v0 F /\ msr_get m1 F = Ok v1 F /\ (0 =? Z.lor (Z.land (not64 x) v0) (Z.land x (not64 v1))) = true.
Proof.
  intros (w0 & v1 & E0 & E1 & Hz & Ho) Ew Hv. rewrite Ew in E0. rewrite Hv in E0. injection E0 as <-. exists v1.
  split; [apply read_msr_ok; by rewrite Ew|]. split; [by apply read_msr_ok|]. by rewrite Hz, Ho.
Qed.

Lemma kernel_value m x : (m, x) ∈ [(ia32_vmx_cr0_fixed0.reg, v_cr0_fixed0 k); (ia32_vmx_cr4_fixed0.reg, v_cr4_fixed0 k)] -> msrs c !! m_addr m = Some x.
Proof.
  intros Hm. pose proof (k_msrs _ _ _ Hk) as Hf. rewrite Forall_forall in Hf. apply (Hf (m, x)).
  rewrite !elem_of_cons in Hm. destruct Hm as [->|[->|Hm%elem_of_nil]]; [in_list|in_list|done].
Qed.

Lemma cr0_check_passes_guest : guest_cr0_for_unsupported_bits F = Ok tt F.
Proof.
  destruct (fixed_test ia32_vmx_cr0_fixed0.reg ia32_vmx_cr0_fixed1.reg (v_cr0_fixed0 k) _ (proj2 (proj2 (proj2 (k_cr0 _ _ _ Hk)))))
    as (v1 & E0 & E1 & Hb); [done|apply kernel_value; in_list|].
  run_guest_check. rewrite (bind_ok _ _ _ _ _ E0). repeat guest_check_step. rewrite (bind_ok _ _ _ _ _ E1).
  repeat first [rewrite Hb | guest_check_step]. reflexivity.
Qed.

Lemma cr4_check_passes_guest : guest_cr4_for_unsupported_bits F = Ok tt F.
Proof.
  destruct (fixed_test ia32_vmx_cr4_fixed0.reg ia32_vmx_cr4_fixed1.reg (v_cr4_fixed0 k) _ (proj2 (proj2 (k_cr4 _ _ _ Hk))))
    as (v1 & E0 & E1 & Hb); [done|apply kernel_value; in_list|].
  run_guest_check. rewrite (bind_ok _ _ _ _ _ E0). repeat guest_check_step. rewrite (bind_ok _ _ _ _ _ E1).
  repeat first [rewrite Hb | guest_check_step]. reflexivity.
Qed.

(** The register of performance counters is written only if there are counters. *)
Lemma perf_held : allows1 ve 13 = true -> exists x, vmcs_fields F !! v_addr guest_ia32_perf_global_ctrl.reg = Some x /\
  field_get (vl guest_ia32_perf_global_ctrl.reserved) x = 0.
Proof.
  intros Ha. rewrite (guest_zero c Hzero guest_ia32_perf_global_ctrl.reg); [|in_list|intros; by rewrite (perf_exists c ve He), Ha].
  eexists. split; [reflexivity|]. rewrite stored_writes_app. destruct (stored l _) eqn:El.
  { apply control_addresses in El as (u & Hu & E). exfalso. eapply (registers_apart guest_ia32_perf_global_ctrl.reg u); [in_list|done|done]. }
  unfold guest_writes. rewrite stored_writes_app. change (stored (late_writes c y k) (v_addr guest_ia32_perf_global_ctrl.reg)) with (@None Z).
  unfold perf_writes. rewrite Ha, andb_true_r.
  destruct (Z.leb_spec 2 (cpuid_field_get arch_perf_monitoring.eax_reg arch_perf_monitoring.version_id)) as [Hv|]; [|reflexivity].
  destruct (k_perf _ _ _ Hk Hv) as (_ & Hu & Hr).
  change (field_get (vl guest_ia32_perf_global_ctrl.reserved) (v_perf k mod 2 ^ 64) = 0). by rewrite Z.mod_small by apply Hu.
Qed.

Lemma perf_check_passes_guest : guest_verify_load_ia32_perf_global_ctrl F = Ok tt F.
Proof.
  run_guest_check. erewrite bind_ok by apply entry_perf. destruct (allows1 ve 13) eqn:Ha; [|reflexivity].
  destruct (perf_held Ha) as (x & Hx' & Hr). repeat guest_check_step.
  erewrite bind_ok by (apply (bits_get_ok guest_ia32_perf_global_ctrl.reserved x); [by rewrite (perf_exists c ve He), Ha|exact Hx']).
  rewrite Hr. reflexivity.
Qed.

Lemma guest_checks_pass : Forall (fun m => m F = Ok tt F) (take 137 (drop 31 all_checks)).
Proof.
  unfold all_checks. cbn [take drop].
  repeat (apply List.Forall_cons;
    [solve [apply cr0_check_passes_guest | apply cr4_check_passes_guest | apply perf_check_passes_guest | run_guest_check]|]).
  apply List.Forall_nil.
Qed.

(** The guest goes on with the registers of the system. *)
Lemma snapshot_held : Forall (fun p => vmcs_fields F !! v_addr p.1 = Some p.2) (snapshot c y k).
Proof.
  unfold snapshot. repeat (apply List.Forall_cons; [apply guest_lookup; [in_list|discriminate|intros; reg_exists|is_held]|]).
  apply List.Forall_nil.
Qed.
End Left.

Lemma all_pass (ks : list (M cpu unit)) c : Forall (fun m => m c = Ok tt c) ks -> for_each ks (fun m => m) c = Ok tt c.
Proof. induction 1 as [|m ks Hm _ IH]; [done|]. simpl. by rewrite (bind_ok _ _ _ _ _ Hm). Qed.

Section Valid.
Context `{Processor} `{HostMemory}.

(** C10: On a processor that allows what the hypervisor needs and a kernel in long
    mode with flat segments, the functions of the constructor that write the state
    of the host, the controls and the guest return, and the VMCS they leave passes
    all 195 checks that the hypervisor makes of it.  The guest has the segments,
    the tables and the registers of the running system, with the bits that the
    processor fixes in CR0 and CR4, and nothing but the VMCS is written. *)
Theorem constructed_vmcs_valid c cr3 a y k : capable c -> vmcs_zero c -> host_fits c cr3 a -> long_mode_kernel c y k ->
  exists c', (write_host_state (setup cr3 mmap_pat) a ;;; write_control_state ;;; write_guest_state y) c = Ok tt c' /\
    check_all c' = Ok tt c' /\ Forall (fun p => vmcs_fields c' !! v_addr p.1 = Some p.2) (snapshot c y k) /\
    msrs c' = msrs c /\ regs c' = regs c /\ cregs c' = cregs c /\ executed c' = executed c.
Proof.
  intros Hcap Hzero Hfits Hk. pose proof (vmcs_zero_used _ Hzero) as Hused.
  destruct (cap_regs _ Hcap ia32_vmx_true_pinbased_ctls.reg) as [vp Hp]; [unfold ctl_msrs; set_solver|].
  destruct (cap_regs _ Hcap ia32_vmx_true_procbased_ctls.reg) as [vq Hq]; [unfold ctl_msrs; set_solver|].
  destruct (cap_regs _ Hcap ia32_vmx_true_exit_ctls.reg) as [vx Hx]; [unfold ctl_msrs; set_solver|].
  destruct (cap_regs _ Hcap ia32_vmx_true_entry_ctls.reg) as [ve He]; [unfold ctl_msrs; set_solver|].
  destruct (cap_regs _ Hcap ia32_vmx_procbased_ctls2.reg) as [v2 H2]; [unfold ctl_msrs; set_solver|].
  destruct (write_control_state_ok c Hcap Hused vp vq vx ve v2 Hp Hq Hx He H2 (setup cr3 mmap_pat) a) as (l & E & Hl).
  exists (store (l ++ guest_writes c y k ve) c). split; [|split; [|split; [|done]]].
  - erewrite bind_ok by (by eapply write_host_state_ok). rewrite (bind_ok _ _ _ _ _ E).
    erewrite write_guest_state_ok by done. f_equal. by eapply writes_commute.
  - apply all_pass. rewrite <- (take_drop 31 all_checks), <- (take_drop 137 (drop 31 all_checks)), drop_drop.
    apply Forall_app. split; [|apply Forall_app; split].
    + rewrite store_app. eapply control_checks_pass; eauto using capable_c1, used_zeroed_c1.
    + by eapply guest_checks_pass.
    + rewrite store_app. eapply host_checks_pass; eauto using capable_c1, used_zeroed_c1. by destruct Hfits.
  - by eapply snapshot_held.
Qed.
End Valid.

(** A kernel with a table of descriptors for code, stack and task *)
Definition sample_segments : segments :=
  Segments 0 0x10 0x18 0 0 0 0 0x40
    (Table 0xFFFFFE0000001000 0x7F [0; 0; 0x00AF9B000000FFFF; 0x00CF93000000FFFF; 0; 0; 0; 0; 0x00008B003000206F; 0xFFFFFE00])
    (Table 0xFFFFFE0000000000 0xFFF []).
Definition sample_values : values :=
  Values 0 0x0007040600070406 0xD01 0 0 0xFFFF888000000000 0x10 0xFFFFFE0000002200 0xFFFFFFFF81A01000 0x80000021 0x2000 0xFFFFFE0000003000 0x206F.

Lemma sample_kernel : long_mode_kernel fresh_cpu sample_segments sample_values.
Proof.
  split.
  - split; [discriminate|]. split_and!; reflexivity.
  - split; [discriminate|]. split_and!; reflexivity.
  - split; [discriminate|]. split_and!; reflexivity.
  - split; [split; [split; [discriminate|reflexivity]|reflexivity]|]. split; [split; [discriminate|reflexivity]|reflexivity].
  - intros sel Hs. simpl in Hs. cases Hs; reflexivity.
  - intros sel Hs. simpl in Hs. cases Hs; (split; [split; [discriminate|reflexivity]|reflexivity]).
  - intros t Ht. simpl in Ht. cases Ht; (split; [split; [split; [discriminate|reflexivity]|reflexivity]|split; [discriminate|reflexivity]]).
  - repeat (apply List.Forall_cons; [split; [vm_compute; reflexivity|split; [discriminate|reflexivity]]|]). apply List.Forall_nil.
  - reflexivity.
  - intros f Hf. unfold pat_types in Hf. cases Hf; reflexivity.
  - split_and!; reflexivity.
  - intros Hv. exfalso. by apply Hv.
  - intros x Hx. simpl in Hx. cases Hx; reflexivity.
  - split_and!; [split; [discriminate|reflexivity]|reflexivity|reflexivity|].
    exists 0x80000021, 0xFFFFFFFF. split_and!; vm_compute; reflexivity.
  - split; [split; [discriminate|reflexivity]|vm_compute; reflexivity].
  - split_and!; [split; [discriminate|reflexivity]|reflexivity|]. exists 0x2000, 0x003767FF. split_and!; vm_compute; reflexivity.
  - split; [discriminate|reflexivity].
  - split_and!; [split; [discriminate|reflexivity]|reflexivity|discriminate|reflexivity].
  - intros v Hv. vm_compute in Hv. injection Hv as <-. split; reflexivity.
Qed.

Lemma constructed_vmcs_valid_witness :
  exists c', (write_host_state (setup 0x1000000 mmap_pat) sample_addrs ;;; write_control_state ;;; write_guest_state sample_segments) fresh_cpu = Ok tt c' /\
    check_all c' = Ok tt c' /\ vmcs_fields c' !! v_addr guest_cr3.reg = Some 0x1AB000.
Proof.
  destruct (constructed_vmcs_valid fresh_cpu 0x1000000 sample_addrs sample_segments sample_values fresh_capable fresh_zero sample_fits sample_kernel)
    as (c' & E & Hc & Hs & _).
  exists c'. split; [exact E|]. split; [exact Hc|].
  rewrite Forall_forall in Hs. apply (Hs (guest_cr3.reg, 0x1AB000)). repeat first [apply list_elem_of_here | apply list_elem_of_further].
Defined.
