(* ===== verification/Vmexit.v ===== *)
(** * The exit handlers of the extended interface

    The classes of [extended_apis/bfvmm/src/hve/arch/intel_x64/vmexit], with
    [ept.cpp], [vpid.cpp], [encls.cpp] and [microcode.cpp].  A class keeps lists
    of delegates, by register, leaf or port where the exit has one; a delegate
    gets the machine and a structure it may change, and says whether it deals
    with the exit.  The lists are arguments of the functions that walk them; the
    state that virtual CPUs share is part of the machine.  The logs are left
    out.  The memory of the guest that string instructions use, and the wait for
    another processor, are arguments. *)
From S2P Require Import Prelude Bits EptEntry Guard Vcpu Vmcs MsrFields X64MsrFields VmcsControl VmcsGuest VmcsHost VmcsExit Crs Check CheckAll.
From S2P Require Import ExitHandler.
Open Scope Z_scope.
Open Scope vmm_scope.

(** [eapis_vcpu_global_state_t] *)
Record global_state := GlobalState {
  init_called : bool; g_cr0_fixed0 : Z; g_cr4_fixed0 : Z }.

(** A delegate of a class with the structure [I] *)
Definition delegate (X I : Type) := I -> M (vm X) (bool * I).

(** [for (const auto &d : l) if (d(vmcs, info)) ...]: the structure as the first
    delegate that claims the exit left it, or as they all left it *)
Fixpoint ask {X I} (ds : list (delegate X I)) (info : I) : M (vm X) (bool * I) :=
  match ds with
  | [] => ret (false, info)
  | d :: ds' => r <- d info ;; if r.1 : bool then ret r else ask ds' r.2
  end.

(** [m_handlers[k].push_front(d)] *)
Definition push_front {D} (k : Z) (d : D) (m : gmap Z (list D)) : gmap Z (list D) := <[k := d :: default [] (m !! k)]> m.

(** ** The bitmaps *)

(** [gsl::memset] of a part of a view *)
Definition view_fill (from len v : Z) : M (list Z) unit := fun view =>
  if (0 <=? from) && (from + len <=? Z.of_nat (length view))
  then Ok tt (take (Z.to_nat from) view ++ replicate (Z.to_nat len) v ++ drop (Z.to_nat (from + len)) view)
  else Err fail_fast view.

Definition view_size : M (list Z) Z := gets (fun view => Z.of_nat (length view)).

Module msr_bitmap.
(** The functions of [rdmsr_handler] and [wrmsr_handler] differ in where their
    halves of the bitmap begin. *)
Definition change (f : Z -> M (list Z) unit) (low high msr : Z) : M (list Z) unit :=
  if msr <=? 0x00001FFF then f (add64 (sub64 msr 0) low) else
  if (0xC0000000 <=? msr) && (msr <=? 0xC0001FFF) then f (add64 (sub64 msr 0xC0000000) high) else
  throw (runtime_error ("invalid msr: " ++ pretty msr)).

Definition rdmsr_trap_on_access : Z -> M (list Z) unit := change view_set_bit 0 0x2000.
Definition rdmsr_pass_through_access : Z -> M (list Z) unit := change view_clear_bit 0 0x2000.
Definition rdmsr_trap_on_all_accesses : M (list Z) unit := n <- view_size ;; view_fill 0 (Z.shiftr n 1) 0xFF.
Definition rdmsr_pass_through_all_accesses : M (list Z) unit := n <- view_size ;; view_fill 0 (Z.shiftr n 1) 0x00.
Definition wrmsr_trap_on_access : Z -> M (list Z) unit := change view_set_bit 0x4000 0x6000.
Definition wrmsr_pass_through_access : Z -> M (list Z) unit := change view_clear_bit 0x4000 0x6000.
Definition wrmsr_trap_on_all_accesses : M (list Z) unit := n <- view_size ;; view_fill 2048 (Z.shiftr n 1) 0xFF.
Definition wrmsr_pass_through_all_accesses : M (list Z) unit := n <- view_size ;; view_fill 2048 (Z.shiftr n 1) 0x00.
End msr_bitmap.

(** The two bitmaps of ports *)
Definition io_bitmaps := (list Z * list Z)%type.
Definition on_a (m : M (list Z) unit) : M io_bitmaps unit := fun p =>
  match m p.1 with Ok u a => Ok u (a, p.2) | Err e a => Err e (a, p.2) end.
Definition on_b (m : M (list Z) unit) : M io_bitmaps unit := fun p =>
  match m p.2 with Ok u b => Ok u (p.1, b) | Err e b => Err e (p.1, b) end.

Module io_bitmap.
Definition change (f : Z -> M (list Z) unit) (port : Z) : M io_bitmaps unit :=
  if port <? 0x8000 then on_a (f port) else
  if port <? 0x10000 then on_b (f port) else
  throw (runtime_error ("invalid port: " ++ pretty port)).

Definition trap_on_access : Z -> M io_bitmaps unit := change view_set_bit.
Definition pass_through_access : Z -> M io_bitmaps unit := change view_clear_bit.
Definition fill (v : Z) : M (list Z) unit := n <- view_size ;; view_fill 0 n v.
Definition trap_on_all_accesses : M io_bitmaps unit := on_a (fill 0xFF) ;;; on_b (fill 0xFF).
Definition pass_through_all_accesses : M io_bitmaps unit := on_a (fill 0) ;;; on_b (fill 0).
End io_bitmap.

(** ** Structures that the delegates get *)

Record msr_info := MsrInfo { i_msr : Z; i_val : Z; i_ignore_write : bool; i_ignore_advance : bool }.
Record cpuid_info := CpuidInfo { c_rax : Z; c_rbx : Z; c_rcx : Z; c_rdx : Z; c_ignore_write : bool; c_ignore_advance : bool }.
Record cr_info := CrInfo { r_val : Z; r_shadow : Z; r_ignore_write : bool; r_ignore_advance : bool }.
Record io_info := IoInfo {
  o_port : Z; o_size : Z; o_address : Z; o_val : Z; o_ignore_write : bool; o_ignore_advance : bool }.
Record val_info := ValInfo { v_val : Z; v_ignore_write : bool; v_ignore_advance : bool }.
Record ept_info := EptInfo { e_gva : Z; e_gpa : Z; e_qualification : Z; e_ignore_advance : bool }.

Section Handlers.
Context `{Processor} {Y : Type}.
Notation X := (global_state * Y)%type.

Definition get_global : M (vm X) global_state := gets (fun v => (ext v).1).
Definition modify_global (f : global_state -> global_state) : M (vm X) unit :=
  modify (fun v => Vm (hw v) (m_vcpuid v) (f (ext v).1, (ext v).2)).

(** [if (!info.ignore_advance) return advance(vmcs); return true;] *)
Definition advance_unless (ignore : bool) : M (vm X) bool := if ignore then ret true else on_cpu advance.

(** ** RDMSR and WRMSR *)

Definition rdmsr_handle (hs : gmap Z (list (delegate X msr_info))) : handler X :=
  c <- on_cpu (get_reg rcx) ;;
  match hs !! c with
  | None => ret false
  | Some ds =>
      val <- on_cpu (emulate_rdmsr (w32 c)) ;;
      r <- ask ds (MsrInfo c val false false) ;;
      if negb r.1 then ret false else
      (if i_ignore_write r.2 then ret tt
       else on_cpu (put_reg rax (Z.land (Z.shiftr (i_val r.2) 0) 0xFFFFFFFF) ;;;
                    put_reg rdx (Z.land (Z.shiftr (i_val r.2) 32) 0xFFFFFFFF))) ;;;
      advance_unless (i_ignore_advance r.2)
  end.

Definition wrmsr_handle (hs : gmap Z (list (delegate X msr_info))) : handler X :=
  c <- on_cpu (get_reg rcx) ;;
  match hs !! c with
  | None => ret false
  | Some ds =>
      a <- on_cpu (get_reg rax) ;;
      d <- on_cpu (get_reg rdx) ;;
      let val := Z.lor (shl64 (Z.land a 0xFFFFFFFF) 0) (shl64 (Z.land d 0xFFFFFFFF) 32) in
      r <- ask ds (MsrInfo c val false false) ;;
      if negb r.1 then ret false else
      (if i_ignore_write r.2 then ret tt else on_cpu (emulate_wrmsr (w32 (i_msr r.2)) (i_val r.2))) ;;;
      advance_unless (i_ignore_advance r.2)
  end.

(** ** CPUID *)

(** The default handler of the leaf with the features: no virtual machine
    extensions. *)
Definition handle_cpuid_feature_information : delegate X cpuid_info := fun info =>
  ret (true, CpuidInfo (c_rax info) (c_rbx info) (clear_bit (c_rcx info) (flag_from feature_information.vmx)) (c_rdx info)
    (c_ignore_write info) (c_ignore_advance info)).

Definition low32 (r : gpr) (val : Z) : M cpu unit := v <- get_reg r ;; put_reg r (set_bits v 0xFFFFFFFF val).

Definition cpuid_handle (hs : gmap Z (list (delegate X cpuid_info))) : handler X :=
  a <- on_cpu (get_reg rax) ;;
  match hs !! a with
  | None => ret false
  | Some ds =>
      c <- on_cpu (get_reg rcx) ;;
      let q := cpuid_instr (w32 a) (w32 c) in
      r <- ask ds (CpuidInfo (eax q) (ebx q) (ecx q) (edx q) false false) ;;
      if negb r.1 then ret false else
      (if c_ignore_write r.2 then ret tt
       else on_cpu (low32 rax (c_rax r.2) ;;; low32 rbx (c_rbx r.2) ;;; low32 rcx (c_rcx r.2) ;;; low32 rdx (c_rdx r.2))) ;;;
      advance_unless (c_ignore_advance r.2)
  end.

(** ** Control registers *)

Definition emulate_ia_32e_mode_switch (info : cr_info) : M cpu unit :=
  u <- or_else (control_is_disabled secondary_processor_based_vm_execution_controls.unrestricted_guest)
         (flag_is_disabled guest_ia32_efer.lme) ;;
  if u : bool then ret tt else
  if is_bit_set (r_val info) (flag_from (vf guest_cr0.paging)) then
    flag_enable guest_ia32_efer.lma ;;; control_enable vm_entry_controls.ia_32e_mode_guest ;;; invept_global
  else
    flag_disable guest_ia32_efer.lma ;;; control_disable vm_entry_controls.ia_32e_mode_guest ;;; invept_global.

Definition default_wrcr0_handler : delegate X cr_info := fun info =>
  p <- on_cpu (flag_is_enabled guest_cr0.paging) ;;
  (if Bool.eqb p (is_bit_set (r_val info) (flag_from (vf guest_cr0.paging))) then ret tt
   else on_cpu (emulate_ia_32e_mode_switch info)) ;;;
  ret (true, info).

Definition default_rdcr3_handler : delegate X cr_info := fun info => ret (true, info).
Definition default_wrcr3_handler : delegate X cr_info := fun info => on_cpu invept_global ;;; ret (true, info).
Definition default_wrcr4_handler : delegate X cr_info := fun info => ret (true, info).

Definition enable_wrcr0_exiting (mask : Z) : M (vm X) unit :=
  g <- get_global ;;
  on_cpu (vmcs_set cr0_guest_host_mask.reg (Z.lor mask (g_cr0_fixed0 g)) ;;;
          v <- vmcs_get guest_cr0.reg ;; vmcs_set cr0_read_shadow.reg v).
Definition enable_rdcr3_exiting : M cpu unit := control_enable primary_processor_based_vm_execution_controls.cr3_store_exiting.
Definition enable_wrcr3_exiting : M cpu unit := control_enable primary_processor_based_vm_execution_controls.cr3_load_exiting.
Definition enable_wrcr4_exiting (mask : Z) : M (vm X) unit :=
  g <- get_global ;;
  on_cpu (vmcs_set cr4_guest_host_mask.reg (Z.lor mask (g_cr4_fixed0 g)) ;;;
          v <- vmcs_get guest_cr4.reg ;; vmcs_set cr4_read_shadow.reg v).

(** The lists of [control_register_handler] *)
Record cr_handlers := CrHandlers {
  m_wrcr0_handlers : list (delegate X cr_info);
  m_rdcr3_handlers : list (delegate X cr_info);
  m_wrcr3_handlers : list (delegate X cr_info);
  m_wrcr4_handlers : list (delegate X cr_info) }.

(** The constructor, less the registration with the exit handler *)
Definition default_cr_handlers : cr_handlers :=
  CrHandlers [default_wrcr0_handler] [default_rdcr3_handler] [default_wrcr3_handler] [default_wrcr4_handler].
Definition add_wrcr0_handler (d : delegate X cr_info) (hs : cr_handlers) : cr_handlers :=
  CrHandlers (d :: m_wrcr0_handlers hs) (m_rdcr3_handlers hs) (m_wrcr3_handlers hs) (m_wrcr4_handlers hs).
Definition add_rdcr3_handler (d : delegate X cr_info) (hs : cr_handlers) : cr_handlers :=
  CrHandlers (m_wrcr0_handlers hs) (d :: m_rdcr3_handlers hs) (m_wrcr3_handlers hs) (m_wrcr4_handlers hs).
Definition add_wrcr3_handler (d : delegate X cr_info) (hs : cr_handlers) : cr_handlers :=
  CrHandlers (m_wrcr0_handlers hs) (m_rdcr3_handlers hs) (d :: m_wrcr3_handlers hs) (m_wrcr4_handlers hs).
Definition add_wrcr4_handler (d : delegate X cr_info) (hs : cr_handlers) : cr_handlers :=
  CrHandlers (m_wrcr0_handlers hs) (m_rdcr3_handlers hs) (m_wrcr3_handlers hs) (d :: m_wrcr4_handlers hs).

Definition control_register_ctor : M (vm X) unit := enable_wrcr0_exiting 0 ;;; enable_wrcr4_exiting 0.

(** A move to CR0 or CR4: the guest sees what it wrote, the processor gets the
    bits that are fixed to 1 besides. *)
Definition write_shadowed (ds : list (delegate X cr_info)) (shadow guest : vmcs_reg) (fixed0 : global_state -> Z) : handler X :=
  val <- on_cpu emulate_rdgpr ;;
  on_cpu (vmcs_get shadow) ;;;
  g <- get_global ;;
  r <- ask ds (CrInfo (Z.lor val (fixed0 g)) val false false) ;;
  (if r_ignore_write r.2 then ret tt
   else on_cpu (vmcs_set guest (r_val r.2) ;;; vmcs_set shadow (r_shadow r.2))) ;;;
  advance_unless (r_ignore_advance r.2).

Definition cr_handle_wrcr0 (hs : cr_handlers) : handler X :=
  write_shadowed (m_wrcr0_handlers hs) cr0_read_shadow.reg guest_cr0.reg g_cr0_fixed0.
Definition cr_handle_wrcr4 (hs : cr_handlers) : handler X :=
  write_shadowed (m_wrcr4_handlers hs) cr4_read_shadow.reg guest_cr4.reg g_cr4_fixed0.

Definition cr_handle_rdcr3 (hs : cr_handlers) : handler X :=
  val <- on_cpu (vmcs_get guest_cr3.reg) ;;
  r <- ask (m_rdcr3_handlers hs) (CrInfo val 0 false false) ;;
  (if r_ignore_write r.2 then ret tt else on_cpu (emulate_wrgpr (r_val r.2))) ;;;
  advance_unless (r_ignore_advance r.2).

Definition cr_handle_wrcr3 (hs : cr_handlers) : handler X :=
  val <- on_cpu emulate_rdgpr ;;
  r <- ask (m_wrcr3_handlers hs) (CrInfo val 0 false false) ;;
  (if r_ignore_write r.2 then ret tt else on_cpu (vmcs_set guest_cr3.reg (Z.land (r_val r.2) 0x7FFFFFFFFFFFFFFF))) ;;;
  advance_unless (r_ignore_advance r.2).

(** [handle_cr0], [handle_cr3] and [handle_cr4] *)
Definition handle_cr (name : string) (to : handler X) (from : handler X) : handler X :=
  t <- on_cpu (bits_get exit_qualification.control_register_access.access_type) ;;
  if t =? exit_qualification.control_register_access.access_type_mov_to_cr then to else
  if t =? exit_qualification.control_register_access.access_type_mov_from_cr then from else
  if t =? exit_qualification.control_register_access.access_type_clts
  then throw (runtime_error (name ++ ": clts not supported")) else throw (runtime_error (name ++ ": lmsw not supported")).

Definition control_register_handle (hs : cr_handlers) : handler X :=
  let not_supported name := throw (runtime_error (name ++ ": mov_from_cr not supported")) in
  n <- on_cpu (bits_get exit_qualification.control_register_access.control_register_number) ;;
  if n =? 0 then
    handle_cr "control_register_handler::handle_cr0" (cr_handle_wrcr0 hs) (not_supported "control_register_handler::handle_cr0") else
  if n =? 3 then handle_cr "control_register_handler::handle_cr3" (cr_handle_wrcr3 hs) (cr_handle_rdcr3 hs) else
  if n =? 4 then
    handle_cr "control_register_handler::handle_cr4" (cr_handle_wrcr4 hs) (not_supported "control_register_handler::handle_cr4") else
  throw (runtime_error "control_register_handler::handle: invalid cr number").

(** ** Ports *)

(** The memory of the guest: what [make_unique_map] of an address, a root and a
    length gives, and the first element of the type that is read or written *)
Record guest_memory := GuestMemory {
  guest_load : Z -> Z -> Z -> Z -> M (vm X) Z;
  guest_store : Z -> Z -> Z -> Z -> Z -> M (vm X) unit }.

(** The bits of an access *)
Definition access_bits (size : Z) : Z :=
  if size =? exit_qualification.io_instruction.size_of_access_one_byte then 8 else
  if size =? exit_qualification.io_instruction.size_of_access_two_byte then 16 else 32.

(** [emulate_in] and [emulate_out] *)
Definition emulate_in (info : io_info) : M cpu io_info :=
  c <- get ;;
  ret (IoInfo (o_port info) (o_size info) (o_address info) (in_instr (executed c) (o_port info mod 2 ^ 16) (access_bits (o_size info)))
    (o_ignore_write info) (o_ignore_advance info)).
Definition emulate_out (info : io_info) : M cpu unit :=
  exec (i_out (o_port info mod 2 ^ 16) (access_bits (o_size info)) (o_val info mod 2 ^ access_bits (o_size info))).

Definition load_operand (gm : guest_memory) (info : io_info) : M (vm X) io_info :=
  let bits := access_bits (o_size info) in
  val <- (if negb (o_address info =? 0) then
            root <- on_cpu (vmcs_get guest_cr3.reg) ;;
            v <- guest_load gm (o_address info) root (o_size info) bits ;; ret (Z.land v (Z.ones bits))
          else a <- on_cpu (get_reg rax) ;; ret (Z.land a (Z.ones bits))) ;;
  ret (IoInfo (o_port info) (o_size info) (o_address info) val (o_ignore_write info) (o_ignore_advance info)).

Definition store_operand (gm : guest_memory) (info : io_info) : M (vm X) unit :=
  let bits := access_bits (o_size info) in
  if negb (o_address info =? 0) then
    root <- on_cpu (vmcs_get guest_cr3.reg) ;;
    guest_store gm (o_address info) root (o_size info) bits (o_val info mod 2 ^ bits)
  else on_cpu (a <- get_reg rax ;; put_reg rax (set_bits a (Z.ones bits) (o_val info))).

Definition handle_in (gm : guest_memory) (ins : gmap Z (list (delegate X io_info))) (info : io_info) : M (vm X) io_info :=
  match ins !! o_port info with
  | Some ds =>
      info <- on_cpu (emulate_in info) ;;
      r <- ask ds info ;;
      if r.1 : bool then
        (if o_ignore_write r.2 then ret tt else store_operand gm r.2) ;;;
        advance_unless (o_ignore_advance r.2) ;;; ret r.2
      else throw (runtime_error ("io_instruction_handler::handle_in: unhandled io instruction #" ++ pretty (o_port r.2)))
  | None => throw (runtime_error ("io_instruction_handler::handle_in: unhandled io instruction #" ++ pretty (o_port info)))
  end.

(** The lists that are searched are those of [m_in_handlers]. *)
Definition handle_out (gm : guest_memory) (ins : gmap Z (list (delegate X io_info))) (info : io_info) : M (vm X) io_info :=
  match ins !! o_port info with
  | Some ds =>
      info <- load_operand gm info ;;
      r <- ask ds info ;;
      if r.1 : bool then
        (if o_ignore_write r.2 then ret tt else on_cpu (emulate_out r.2)) ;;;
        advance_unless (o_ignore_advance r.2) ;;; ret r.2
      else throw (runtime_error ("io_instruction_handler::handle_out: unhandled io instruction #" ++ pretty (o_port r.2)))
  | None => throw (runtime_error ("io_instruction_handler::handle_out: unhandled io instruction #" ++ pretty (o_port info)))
  end.

Fixpoint io_loop (reps : nat) (one : io_info -> M (vm X) io_info) (info : io_info) : M (vm X) unit :=
  match reps with
  | O => ret tt
  | S n =>
      i <- one info ;;
      io_loop n one (IoInfo (o_port i) (o_size i) (add64 (o_address i) (add64 (o_size i) 1)) (o_val i) (o_ignore_write i) (o_ignore_advance i))
  end.

Definition io_instruction_handle (gm : guest_memory) (ins : gmap Z (list (delegate X io_info))) : handler X :=
  eq <- on_cpu (vmcs_get exit_qualification.reg) ;;
  reps <- (if is_bit_set eq (flag_from (vf exit_qualification.io_instruction.rep_prefixed))
           then c <- on_cpu (get_reg rcx) ;; ret (Z.land c 0xFFFFFFFF) else ret 1) ;;
  let size := field_get (vl exit_qualification.io_instruction.size_of_access) eq in
  port <- (if field_get (vl exit_qualification.io_instruction.operand_encoding) eq =? exit_qualification.io_instruction.operand_encoding_dx
           then d <- on_cpu (get_reg rdx) ;; ret (Z.land d 0xFFFF)
           else ret (field_get (vl exit_qualification.io_instruction.port_number) eq)) ;;
  address <- (if is_bit_set eq (flag_from (vf exit_qualification.io_instruction.string_instruction))
              then on_cpu (vmcs_get guest_linear_address.reg) else ret 0) ;;
  let one := if field_get (vl exit_qualification.io_instruction.direction_of_access) eq =? exit_qualification.io_instruction.direction_of_access_in
             then handle_in gm ins else handle_out gm ins in
  io_loop (Z.to_nat reps) one (IoInfo port size address 0 false false) ;;;
  ret true.

(** ** Debug registers, XCR0 and the monitor trap flag *)

Definition mov_dr_handle (ds : list (delegate X val_info)) : handler X :=
  val <- on_cpu emulate_rdgpr ;;
  r <- ask ds (ValInfo val false false) ;;
  if r.1 : bool then
    (if v_ignore_write r.2 then ret tt else on_cpu (vmcs_set guest_dr7.reg (Z.land (v_val r.2) 0xFFFFFFFF))) ;;;
    advance_unless (v_ignore_advance r.2)
  else throw (runtime_error "mov_dr_handler::unhandled").

Definition xsetbv_handle (ds : list (delegate X val_info)) : handler X :=
  a <- on_cpu (get_reg rax) ;;
  d <- on_cpu (get_reg rdx) ;;
  let val := Z.lor (Z.lor 0 (shl64 (Z.land a 0xFFFFFFFF) 0)) (shl64 (Z.land d 0xFFFFFFFF) 32) in
  r <- ask ds (ValInfo val false false) ;;
  (if v_ignore_write r.2 then ret tt else on_cpu (xcr0_set (v_val r.2))) ;;;
  advance_unless (v_ignore_advance r.2).

(** The structure of the class is the flag [ignore_clear]. *)
Definition monitor_trap_handle (ds : list (delegate X bool)) : handler X :=
  r <- ask ds false ;;
  (if r.2 : bool then ret tt else on_cpu (control_disable primary_processor_based_vm_execution_controls.monitor_trap_flag)) ;;;
  ret true.
Definition monitor_trap_enable : M cpu unit := control_enable primary_processor_based_vm_execution_controls.monitor_trap_flag.

(** ** EPT violations and misconfigurations *)

Record ept_handlers := EptHandlers {
  m_read_handlers : list (delegate X ept_info);
  m_write_handlers : list (delegate X ept_info);
  m_execute_handlers : list (delegate X ept_info) }.

Definition add_read_handler (d : delegate X ept_info) (hs : ept_handlers) : ept_handlers :=
  EptHandlers (d :: m_read_handlers hs) (m_write_handlers hs) (m_execute_handlers hs).
Definition add_write_handler (d : delegate X ept_info) (hs : ept_handlers) : ept_handlers :=
  EptHandlers (m_read_handlers hs) (d :: m_write_handlers hs) (m_execute_handlers hs).
Definition add_execute_handler (d : delegate X ept_info) (hs : ept_handlers) : ept_handlers :=
  EptHandlers (m_read_handlers hs) (m_write_handlers hs) (d :: m_execute_handlers hs).

(** [handle_read], [handle_write] and [handle_execute] *)
Definition handle_violation (ds : list (delegate X ept_info)) (kind : string) (info : ept_info) : handler X :=
  r <- ask ds info ;;
  if r.1 : bool then advance_unless (e_ignore_advance r.2)
  else throw (runtime_error ("ept_violation_handler: unhandled ept " ++ kind ++ " violation")).

Definition ept_violation_handle (hs : ept_handlers) : handler X :=
  qual <- on_cpu (vmcs_get exit_qualification.reg) ;;
  gva <- on_cpu (vmcs_get guest_linear_address.reg) ;;
  gpa <- on_cpu (vmcs_get guest_physical_address.reg) ;;
  let info := EptInfo gva gpa qual true in
  if is_bit_set qual (flag_from (vf exit_qualification.ept_violation.data_read)) then handle_violation (m_read_handlers hs) "read" info else
  if is_bit_set qual (flag_from (vf exit_qualification.ept_violation.data_write)) then handle_violation (m_write_handlers hs) "write" info else
  if is_bit_set qual (flag_from (vf exit_qualification.ept_violation.instruction_fetch))
  then handle_violation (m_execute_handlers hs) "execute" info else
  throw (runtime_error "ept_violation_handler::handle: unhandled ept violation").

Definition ept_misconfiguration_handle (ds : list (delegate X (Z * Z * bool))) : handler X :=
  gva <- on_cpu (vmcs_get guest_linear_address.reg) ;;
  gpa <- on_cpu (vmcs_get guest_physical_address.reg) ;;
  r <- ask ds (gva, gpa, false) ;;
  if r.1 : bool then advance_unless r.2.2
  else throw (runtime_error "ept_misconfiguration_handler::handle: unhandled ept misconfiguration").

(** ** Interrupts *)

Definition enable_external_interrupt_exiting : M cpu unit :=
  control_enable pin_based_vm_execution_controls.external_interrupt_exiting ;;;
  control_enable vm_exit_controls.acknowledge_interrupt_on_exit.
Definition disable_external_interrupt_exiting : M cpu unit :=
  control_disable pin_based_vm_execution_controls.external_interrupt_exiting ;;;
  control_disable vm_exit_controls.acknowledge_interrupt_on_exit.

Definition external_interrupt_handle (ds : list (delegate X Z)) : handler X :=
  vector <- on_cpu (bits_get vm_exit_interruption_information.vector) ;;
  r <- ask ds vector ;;
  if r.1 : bool then ret true else throw (runtime_error ("Unhandled interrupt vector: " ++ pretty r.2)).

Definition enable_interrupt_window_exiting : M cpu unit :=
  control_enable primary_processor_based_vm_execution_controls.interrupt_window_exiting.
Definition disable_interrupt_window_exiting : M cpu unit :=
  control_disable primary_processor_based_vm_execution_controls.interrupt_window_exiting.

Definition is_open : M cpu bool :=
  d <- flag_is_disabled guest_rflags.interrupt_enable_flag ;;
  if d : bool then ret false else
  a <- vmcs_get guest_activity_state.reg ;;
  if negb ((a =? guest_activity_state.active) || (a =? guest_activity_state.hlt)) then ret false else
  state <- vmcs_get guest_interruptibility_state.reg ;;
  ret (negb (is_bit_set state (flag_from (vf guest_interruptibility_state.blocking_by_sti))) &&
       negb (is_bit_set state (flag_from (vf guest_interruptibility_state.blocking_by_mov_ss)))).

Definition inject (vector : Z) : M cpu unit :=
  let info := field_set (vl vm_entry_interruption_information.vector) 0 vector in
  let info := field_set (vl vm_entry_interruption_information.interruption_type) info
    vm_entry_interruption_information.interruption_type_external_interrupt in
  let info := enable (vf vm_entry_interruption_information.valid_bit) info in
  vmcs_set vm_entry_interruption_information.reg info.

(** The structure of the class is the flag [ignore_disable]. *)
Definition interrupt_window_handle (ds : list (delegate X bool)) : handler X :=
  r <- ask ds false ;;
  if r.1 : bool then (if r.2 : bool then ret tt else on_cpu disable_interrupt_window_exiting) ;;; ret true
  else throw (runtime_error "Unhandled interrupt window").

(** ** INIT and SIPI *)

(** The registers of a segment *)
Definition set_segment (sel base limit rights : vmcs_reg) (s b l r : Z) : M cpu unit :=
  vmcs_set sel s ;;; vmcs_set base b ;;; vmcs_set limit l ;;; vmcs_set rights r.

Definition init_signal_handle : handler X :=
  g <- get_global ;;
  on_cpu (
    vmcs_set guest_rflags.reg 0x00000002 ;;;
    put_reg rip 0x0000FFF0 ;;;
    vmcs_set guest_cr0.reg (Z.lor 0x60000010 (g_cr0_fixed0 g)) ;;;
    vmcs_set guest_cr3.reg 0 ;;;
    vmcs_set guest_cr4.reg (Z.lor 0 (g_cr4_fixed0 g)) ;;;
    vmcs_set cr0_read_shadow.reg 0x60000010 ;;;
    vmcs_set cr4_read_shadow.reg 0 ;;;
    set_segment guest_cs_selector.reg guest_cs_base.reg guest_cs_limit.reg guest_cs_access_rights.reg 0xF000 0xFFFF0000 0xFFFF 0x9B ;;;
    set_segment guest_ss_selector.reg guest_ss_base.reg guest_ss_limit.reg guest_ss_access_rights.reg 0 0 0xFFFF 0x93 ;;;
    set_segment guest_ds_selector.reg guest_ds_base.reg guest_ds_limit.reg guest_ds_access_rights.reg 0 0 0xFFFF 0x93 ;;;
    set_segment guest_es_selector.reg guest_es_base.reg guest_es_limit.reg guest_es_access_rights.reg 0 0 0xFFFF 0x93 ;;;
    set_segment guest_fs_selector.reg guest_fs_base.reg guest_fs_limit.reg guest_fs_access_rights.reg 0 0 0xFFFF 0x93 ;;;
    set_segment guest_gs_selector.reg guest_gs_base.reg guest_gs_limit.reg guest_gs_access_rights.reg 0 0 0xFFFF 0x93 ;;;
    put_reg rdx 0x00000600 ;;; put_reg rax 0 ;;; put_reg rbx 0 ;;; put_reg rcx 0 ;;; put_reg rsi 0 ;;; put_reg rdi 0 ;;;
    put_reg rbp 0 ;;; put_reg rsp 0 ;;;
    vmcs_set guest_gdtr_base.reg 0 ;;; vmcs_set guest_gdtr_limit.reg 0xFFFF ;;;
    vmcs_set guest_idtr_base.reg 0 ;;; vmcs_set guest_idtr_limit.reg 0xFFFF ;;;
    set_segment guest_ldtr_selector.reg guest_ldtr_base.reg guest_ldtr_limit.reg guest_ldtr_access_rights.reg 0 0 0xFFFF 0x82 ;;;
    set_segment guest_tr_selector.reg guest_tr_base.reg guest_tr_limit.reg guest_tr_access_rights.reg 0 0 0xFFFF 0x8B ;;;
    vmcs_set guest_dr7.reg 0x00000400 ;;;
    put_reg r08 0 ;;; put_reg r09 0 ;;; put_reg r10 0 ;;; put_reg r11 0 ;;; put_reg r12 0 ;;; put_reg r13 0 ;;; put_reg r14 0 ;;;
    put_reg r15 0 ;;;
    vmcs_set guest_ia32_efer.reg 0 ;;;
    vmcs_set guest_fs_base.reg 0 ;;; vmcs_set guest_gs_base.reg 0 ;;;
    vmcs_set guest_activity_state.reg guest_activity_state.wait_for_sipi ;;;
    control_disable vm_entry_controls.ia_32e_mode_guest) ;;;
  modify_global (fun g => GlobalState true (g_cr0_fixed0 g) (g_cr4_fixed0 g)) ;;;
  ret true.

Definition sipi_signal_handle : handler X := on_cpu (
  a <- vmcs_get guest_activity_state.reg ;;
  if a =? guest_activity_state.active then ret true else
  v <- bits_get exit_qualification.sipi.vector ;;
  let vector_cs_selector := shl64 v 8 in
  v' <- bits_get exit_qualification.sipi.vector ;;
  let vector_cs_base := shl64 v' 12 in
  set_segment guest_cs_selector.reg guest_cs_base.reg guest_cs_limit.reg guest_cs_access_rights.reg
    vector_cs_selector vector_cs_base 0xFFFF 0x9B ;;;
  put_reg rip 0 ;;;
  vmcs_set guest_activity_state.reg guest_activity_state.active ;;;
  ret true).

(** [lapic::icr] and [ia32_x2apic_icr] *)
Definition icr_delivery_mode : field := Field 0x0000000000000700 8.
Definition icr_delivery_mode_init : Z := 5.
Definition icr_level : flag := Flag 0x0000000000004000 14.
Definition ia32_x2apic_icr : Z := 0x00000830.

Definition ignore_write (info : msr_info) : msr_info := MsrInfo (i_msr info) (i_val info) true (i_ignore_advance info).

(** [spin_until_true(init_called)] is the argument: it returns when another
    processor has set it. *)
Definition handle_init_assert (spin_until_true : M (vm X) unit) : delegate X msr_info := fun info =>
  modify_global (fun g => GlobalState false (g_cr0_fixed0 g) (g_cr4_fixed0 g)) ;;;
  on_cpu (write_msr ia32_x2apic_icr (i_val info)) ;;;
  spin_until_true ;;;
  modify_global (fun g => GlobalState false (g_cr0_fixed0 g) (g_cr4_fixed0 g)) ;;;
  ret (true, ignore_write info).

Definition handle_init_deassert : delegate X msr_info := fun info => ret (true, ignore_write info).

Definition handle_icr_write (spin_until_true : M (vm X) unit) : delegate X msr_info := fun info =>
  if negb (field_get icr_delivery_mode (i_val info) =? icr_delivery_mode_init) then ret (false, info) else
  if is_enabled icr_level (i_val info) then handle_init_assert spin_until_true info else handle_init_deassert info.

(** ** EPT, VPID, ENCLS and microcode updates *)

Definition set_fixed0 (f : Z -> Z) : M (vm X) unit :=
  modify_global (fun g => GlobalState (init_called g) (f (g_cr0_fixed0 g)) (g_cr4_fixed0 g)).

Definition ept_set_eptp (eptp : option Z) : M (vm X) unit :=
  match eptp with
  | Some eptp =>
      p <- on_cpu (bits_get ept_pointer.phys_addr) ;;
      (if p =? 0 then
         set_fixed0 (fun x => Z.land x (not64 (flag_mask (cf cr0.paging)))) ;;;
         set_fixed0 (fun x => Z.land x (not64 (flag_mask (cf cr0.protection_enable)))) ;;;
         on_cpu (bits_set ept_pointer.memory_type ept_pointer.memory_type_write_back ;;;
                 flag_disable ept_pointer.accessed_and_dirty_flags ;;;
                 bits_set ept_pointer.page_walk_length_minus_one 3 ;;;
                 control_enable secondary_processor_based_vm_execution_controls.enable_ept ;;;
                 control_enable secondary_processor_based_vm_execution_controls.unrestricted_guest)
       else ret tt) ;;;
      on_cpu (bits_set ept_pointer.phys_addr eptp)
  | None =>
      p <- on_cpu (bits_get ept_pointer.phys_addr) ;;
      (if negb (p =? 0) then
         set_fixed0 (fun x => Z.lor x (flag_mask (cf cr0.paging))) ;;;
         set_fixed0 (fun x => Z.lor x (flag_mask (cf cr0.protection_enable))) ;;;
         on_cpu (bits_set ept_pointer.memory_type 0 ;;;
                 flag_disable ept_pointer.accessed_and_dirty_flags ;;;
                 bits_set ept_pointer.page_walk_length_minus_one 0 ;;;
                 control_disable secondary_processor_based_vm_execution_controls.enable_ept ;;;
                 control_disable secondary_processor_based_vm_execution_controls.unrestricted_guest)
       else ret tt) ;;;
      on_cpu (bits_set ept_pointer.phys_addr 0)
  end.

(** The identifier of a virtual CPU is the static counter, 16 bits. *)
Definition vpid_ctor (s_id : Z) : M cpu (Z * Z) :=
  vmcs_set virtual_processor_identifier.reg s_id ;;; ret (s_id, (s_id + 1) mod 2 ^ 16).
Definition vpid_enable : M cpu unit := control_enable secondary_processor_based_vm_execution_controls.enable_vpid.
Definition vpid_disable : M cpu unit := control_disable secondary_processor_based_vm_execution_controls.enable_vpid.
Definition encls_enable : M cpu unit := control_enable secondary_processor_based_vm_execution_controls.enable_encls_exiting.
Definition encls_disable : M cpu unit := control_disable secondary_processor_based_vm_execution_controls.enable_encls_exiting.

Definition with_val (v : Z) (info : msr_info) : msr_info := MsrInfo (i_msr info) v (i_ignore_write info) (i_ignore_advance info).
Definition ia32_bios_updt_trig__rdmsr_handler : delegate X msr_info := fun info => ret (true, with_val 0 info).
Definition ia32_bios_updt_trig__wrmsr_handler : delegate X msr_info := fun info => ret (true, ignore_write info).
Definition ia32_bios_sign_id__rdmsr_handler : delegate X msr_info := fun info => ret (true, with_val 0xFFFFFFFFFFFFFFFF info).
Definition ia32_bios_sign_id__wrmsr_handler : delegate X msr_info := fun info => ret (true, ignore_write info).

(** ** Registration

    What [apis] keeps for the exits that have a register, a leaf or a port: the
    bitmaps and the lists of delegates. *)
Record apis := Apis {
  m_msr_bitmap : list Z;
  m_io_bitmap : io_bitmaps;
  m_rdmsr_handlers : gmap Z (list (delegate X msr_info));
  m_wrmsr_handlers : gmap Z (list (delegate X msr_info));
  m_cpuid_handlers : gmap Z (list (delegate X cpuid_info));
  m_in_handlers : gmap Z (list (delegate X io_info));
  m_out_handlers : gmap Z (list (delegate X io_info)) }.

Definition on_msr_bitmap (m : M (list Z) unit) : M apis unit := fun a =>
  let up v := Apis v (m_io_bitmap a) (m_rdmsr_handlers a) (m_wrmsr_handlers a) (m_cpuid_handlers a) (m_in_handlers a) (m_out_handlers a) in
  match m (m_msr_bitmap a) with Ok u v => Ok u (up v) | Err e v => Err e (up v) end.
Definition on_io_bitmap (m : M io_bitmaps unit) : M apis unit := fun a =>
  let up v := Apis (m_msr_bitmap a) v (m_rdmsr_handlers a) (m_wrmsr_handlers a) (m_cpuid_handlers a) (m_in_handlers a) (m_out_handlers a) in
  match m (m_io_bitmap a) with Ok u v => Ok u (up v) | Err e v => Err e (up v) end.

Definition add_rdmsr_handler (msr : Z) (d : delegate X msr_info) : M apis unit :=
  on_msr_bitmap (msr_bitmap.rdmsr_trap_on_access msr) ;;;
  modify (fun a => Apis (m_msr_bitmap a) (m_io_bitmap a) (push_front msr d (m_rdmsr_handlers a)) (m_wrmsr_handlers a)
    (m_cpuid_handlers a) (m_in_handlers a) (m_out_handlers a)).
Definition add_wrmsr_handler (msr : Z) (d : delegate X msr_info) : M apis unit :=
  on_msr_bitmap (msr_bitmap.wrmsr_trap_on_access msr) ;;;
  modify (fun a => Apis (m_msr_bitmap a) (m_io_bitmap a) (m_rdmsr_handlers a) (push_front msr d (m_wrmsr_handlers a))
    (m_cpuid_handlers a) (m_in_handlers a) (m_out_handlers a)).
Definition add_cpuid_handler (leaf : Z) (d : delegate X cpuid_info) : M apis unit :=
  modify (fun a => Apis (m_msr_bitmap a) (m_io_bitmap a) (m_rdmsr_handlers a) (m_wrmsr_handlers a)
    (push_front leaf d (m_cpuid_handlers a)) (m_in_handlers a) (m_out_handlers a)).
Definition add_io_instruction_handler (port : Z) (in_d out_d : delegate X io_info) : M apis unit :=
  on_io_bitmap (io_bitmap.trap_on_access port) ;;;
  modify (fun a => Apis (m_msr_bitmap a) (m_io_bitmap a) (m_rdmsr_handlers a) (m_wrmsr_handlers a) (m_cpuid_handlers a)
    (push_front port in_d (m_in_handlers a)) (push_front port out_d (m_out_handlers a))).

(** The constructors of the classes for INIT signals and for microcode updates,
    and the default handler of CPUID *)
Definition init_signal_ctor (spin_until_true : M (vm X) unit) : M apis unit :=
  add_wrmsr_handler ia32_x2apic_icr (handle_icr_write spin_until_true).
Definition microcode_ctor : M apis unit :=
  add_rdmsr_handler (m_addr ia32_bios_updt_trig.reg) ia32_bios_updt_trig__rdmsr_handler ;;;
  add_wrmsr_handler (m_addr ia32_bios_updt_trig.reg) ia32_bios_updt_trig__wrmsr_handler ;;;
  add_rdmsr_handler (m_addr ia32_bios_sign_id.reg) ia32_bios_sign_id__rdmsr_handler ;;;
  add_wrmsr_handler (m_addr ia32_bios_sign_id.reg) ia32_bios_sign_id__wrmsr_handler.
Definition cpuid_ctor : M apis unit := add_cpuid_handler feature_information.addr handle_cpuid_feature_information.
End Handlers.
