(* ===== verification/VmexitProofs.v ===== *)
(** * What the handlers of the extended interface promise

    The bitmaps trap exactly the registers and ports that were asked for, where
    the code can address them; delegates guard a register only if the guest
    leaves the upper half of its number zero. *)
From S2P Require Import Prelude Bits EptEntry Guard Vcpu Vmcs MsrFields X64MsrFields VmcsControl VmcsGuest VmcsHost VmcsExit VmcsProofs.
From S2P Require Import Crs Check CheckControl CheckAll ExitHandler ExitHandlerProofs HostState Vmexit VmcsWitness.
Open Scope Z_scope.
Open Scope vmm_scope.

(** ** Bitmaps *)

(** The registers that the bitmap has a bit for, and whether an access exits *)
Definition controlled (msr : Z) : bool := ((0 <=? msr) && (msr <=? 0x1FFF)) || ((0xC0000000 <=? msr) && (msr <=? 0xC0001FFF)).
Definition msr_bit (write : bool) (msr : Z) : Z :=
  (if write then 0x4000 else 0) + (if msr <=? 0x1FFF then msr else 0x2000 + (msr - 0xC0000000)).
Definition msr_exits (view : list Z) (write : bool) (msr : Z) : bool := negb (controlled msr) || view_bit view (msr_bit write msr).

Definition is_page (view : list Z) : Prop := length view = 4096%nat.

Lemma msr_bit_bound w m : controlled m = true -> 0 <= msr_bit w m < 8 * 4096.
Proof. unfold controlled, msr_bit. intros. destruct w; destruct (Z.leb_spec m 0x1FFF); lia. Qed.

Lemma msr_bit_inj w m w' m' : controlled m = true -> controlled m' = true -> (msr_bit w' m' =? msr_bit w m) = Bool.eqb w' w && (m' =? m).
Proof. unfold controlled, msr_bit. intros. destruct w, w'; destruct (Z.leb_spec m 0x1FFF), (Z.leb_spec m' 0x1FFF); simpl; lia. Qed.

(** The functions that change one bit *)
Definition access_change (f : Z -> M (list Z) unit) (write : bool) : Z -> M (list Z) unit :=
  if write then msr_bitmap.change f 0x4000 0x6000 else msr_bitmap.change f 0 0x2000.

Lemma change_bit f low high m : controlled m = true -> 0 <= low < 2 ^ 16 -> 0 <= high < 2 ^ 16 ->
  msr_bitmap.change f low high m = f (if m <=? 0x1FFF then m + low else m - 0xC0000000 + high).
Proof.
  intros Hc Hl Hh. unfold controlled in Hc. unfold msr_bitmap.change, add64, sub64. destruct (Z.leb_spec m 0x1FFF).
  - rewrite (w64_small (m - 0)), Z.sub_0_r, w64_small by (unfold u64; lia). done.
  - replace ((0xC0000000 <=? m) && (m <=? 0xC0001FFF)) with true by lia.
    rewrite (w64_small (m - 0xC0000000)), w64_small by (unfold u64; lia). done.
Qed.

Lemma access_change_bit f w m : controlled m = true -> access_change f w m = f (msr_bit w m).
Proof.
  intros Hc. unfold access_change, msr_bit. destruct w; rewrite change_bit by (done || lia); f_equal; destruct (m <=? 0x1FFF); lia.
Qed.

Lemma access_change_invalid f w m view : 0 <= m -> controlled m = false ->
  access_change f w m view = Err (runtime_error ("invalid msr: " ++ pretty m)) view.
Proof.
  intros Hm Hc. unfold controlled in Hc. unfold access_change. destruct w; unfold msr_bitmap.change;
    (replace (m <=? 0x1FFF) with false by lia; by replace ((0xC0000000 <=? m) && (m <=? 0xC0001FFF)) with false by lia).
Qed.

(** A half of the bitmap filled *)
Lemma lookup_fill {A} (view : list A) (v : A) i j k : (i + j <= length view)%nat ->
  (take i view ++ replicate j v ++ drop (i + j) view) !! k = if bool_decide (i <= k < i + j)%nat then Some v else view !! k.
Proof.
  intros Hl. assert (length (take i view) = i) as Ht by (rewrite length_take; lia).
  destruct (decide (k < i)%nat).
  - rewrite bool_decide_false, lookup_app_l, lookup_take_lt by lia. done.
  - rewrite lookup_app_r, Ht by lia. destruct (decide (k < i + j)%nat).
    + rewrite bool_decide_true, lookup_app_l, lookup_replicate_2 by (rewrite ?length_replicate; lia). done.
    + rewrite bool_decide_false, lookup_app_r, length_replicate, lookup_drop by (rewrite ?length_replicate; lia). f_equal. lia.
Qed.

Lemma view_fill_ok from len v view : 0 <= from -> 0 <= len -> from + len <= Z.of_nat (length view) ->
  exists view', view_fill from len v view = Ok tt view' /\ length view' = length view /\
    forall b, 0 <= b -> view_bit view' b =
      if (from <=? Z.shiftr b 3) && (Z.shiftr b 3 <? from + len) then Z.testbit v (Z.land b 7) else view_bit view b.
Proof.
  intros Hf Hn Hl. unfold view_fill. replace ((0 <=? from) && (from + len <=? Z.of_nat (length view))) with true by lia.
  rewrite Z2Nat.inj_add by lia.
  eexists. split; [done|]. split; [rewrite !length_app, length_take, length_replicate, length_drop; lia|]. intros b Hb.
  unfold view_bit, byte_at. assert (0 <= Z.shiftr b 3) by (apply Z.shiftr_nonneg; lia). rewrite !decide_True by lia.
  rewrite lookup_fill by lia. case_bool_decide; [by replace (_ && _) with true by lia | by replace (_ && _) with false by lia].
Qed.

(** The functions of both classes, by the access they trap *)
Definition trap_on_access (write : bool) : Z -> M (list Z) unit :=
  if write then msr_bitmap.wrmsr_trap_on_access else msr_bitmap.rdmsr_trap_on_access.
Definition pass_through_access (write : bool) : Z -> M (list Z) unit :=
  if write then msr_bitmap.wrmsr_pass_through_access else msr_bitmap.rdmsr_pass_through_access.
Definition trap_on_all_accesses (write : bool) : M (list Z) unit :=
  if write then msr_bitmap.wrmsr_trap_on_all_accesses else msr_bitmap.rdmsr_trap_on_all_accesses.
Definition pass_through_all_accesses (write : bool) : M (list Z) unit :=
  if write then msr_bitmap.wrmsr_pass_through_all_accesses else msr_bitmap.rdmsr_pass_through_all_accesses.

Lemma trap_on_access_change w : trap_on_access w = access_change view_set_bit w.
Proof. by destruct w. Qed.
Lemma pass_through_access_change w : pass_through_access w = access_change view_clear_bit w.
Proof. by destruct w. Qed.

(** A bitmap after an operation that changes which accesses exit *)
Definition bitmap_after (m : M (list Z) unit) (view : list Z) (exits : bool -> Z -> bool) : Prop :=
  exists view', m view = Ok tt view' /\ is_page view' /\ forall w m, controlled m = true -> msr_exits view' w m = exits w m.

Lemma set_exits w m view : is_page view -> controlled m = true ->
  bitmap_after (trap_on_access w m) view (fun w' m' => (Bool.eqb w' w && (m' =? m)) || msr_exits view w' m').
Proof.
  intros Hp Hc. pose proof (msr_bit_bound w m Hc) as Hb. rewrite trap_on_access_change, access_change_bit by done.
  pose proof (view_bits_spec view (msr_bit w m) ltac:(lia)) as Hv. rewrite decide_True in Hv by (unfold is_page in Hp; lia).
  destruct Hv as ((v1 & E & Hl & Hbits) & _).
  exists v1. split; [done|]. split; [unfold is_page in *; lia|]. intros w' m' Hc'. unfold msr_exits. rewrite Hc', Hbits, msr_bit_inj by done. simpl.
  by destruct (Bool.eqb w' w && (m' =? m)).
Qed.

Lemma clear_exits w m view : is_page view -> controlled m = true ->
  bitmap_after (pass_through_access w m) view (fun w' m' => negb (Bool.eqb w' w && (m' =? m)) && msr_exits view w' m').
Proof.
  intros Hp Hc. pose proof (msr_bit_bound w m Hc) as Hb. rewrite pass_through_access_change, access_change_bit by done.
  pose proof (view_bits_spec view (msr_bit w m) ltac:(lia)) as Hv. rewrite decide_True in Hv by (unfold is_page in Hp; lia).
  destruct Hv as (_ & (v1 & E & Hl & Hbits) & _).
  exists v1. split; [done|]. split; [unfold is_page in *; lia|]. intros w' m' Hc'. unfold msr_exits. rewrite Hc', Hbits, msr_bit_inj by done. simpl.
  by destruct (Bool.eqb w' w && (m' =? m)).
Qed.

Lemma shiftr3_le a b : (a <=? Z.shiftr b 3) = (8 * a <=? b).
Proof.
  rewrite Z.shiftr_div_pow2 by lia. change (2 ^ 3) with 8. pose proof (Z.div_mod b 8). pose proof (Z.mod_pos_bound b 8). lia.
Qed.

Lemma fill_exits (w : bool) v view : is_page view -> v = 0xFF \/ v = 0 ->
  bitmap_after (n <- view_size ;; view_fill (if w then 2048 else 0) (Z.shiftr n 1) v) view
    (fun w' m' => if Bool.eqb w' w then negb (v =? 0) else msr_exits view w' m').
Proof.
  intros Hp Hv. unfold bitmap_after, view_size. erewrite bind_ok by done. unfold is_page in Hp. rewrite Hp.
  change (Z.shiftr (Z.of_nat 4096) 1) with 2048.
  destruct (view_fill_ok (if w then 2048 else 0) 2048 v view) as (v1 & E & Hl & Hbits); [destruct w; lia..|].
  exists v1. split; [done|]. split; [unfold is_page; lia|]. intros w' m' Hc. pose proof (msr_bit_bound w' m' Hc) as Hb.
  unfold msr_exits. rewrite Hc, Hbits by lia. simpl.
  assert (((if w then 2048 else 0) <=? Z.shiftr (msr_bit w' m') 3) && (Z.shiftr (msr_bit w' m') 3 <? (if w then 2048 else 0) + 2048) = Bool.eqb w' w) as ->.
  { rewrite Z.ltb_antisym, !shiftr3_le. unfold controlled, msr_bit in *.
    destruct w, w'; destruct (Z.leb_spec m' 0x1FFF); simpl; lia. }
  destruct (Bool.eqb w' w); [|done]. pose proof (land7_bound (msr_bit w' m')). destruct Hv as [->| ->]; [|apply Z.bits_0].
  change 0xFF with (Z.ones 8). rewrite testbit_ones by lia. simpl. lia.
Qed.

(** C26: The bitmap of model specific registers decides about exactly the accesses
    that the functions name: trapping or passing one register for reads or for
    writes changes that access alone, doing it for all changes all accesses of
    that kind and none of the other.  Registers outside the two ranges the bitmap
    covers are refused, and the bitmap is unchanged. *)
Theorem msr_bitmap_exact (write : bool) (msr : Z) (view : list Z) : is_page view -> 0 <= msr ->
  (if controlled msr then
     bitmap_after (trap_on_access write msr) view (fun w m => (Bool.eqb w write && (m =? msr)) || msr_exits view w m) /\
     bitmap_after (pass_through_access write msr) view (fun w m => negb (Bool.eqb w write && (m =? msr)) && msr_exits view w m)
   else exists what, trap_on_access write msr view = Err (runtime_error what) view /\
     pass_through_access write msr view = Err (runtime_error what) view) /\
  bitmap_after (trap_on_all_accesses write) view (fun w m => if Bool.eqb w write then true else msr_exits view w m) /\
  bitmap_after (pass_through_all_accesses write) view (fun w m => if Bool.eqb w write then false else msr_exits view w m).
Proof.
  intros Hp Hm. split; [|split].
  - destruct (controlled msr) eqn:Hc; [split; [by apply set_exits|by apply clear_exits]|].
    rewrite trap_on_access_change, pass_through_access_change. eexists. by rewrite !access_change_invalid by done.
  - pose proof (fill_exits write 0xFF view Hp ltac:(by left)) as Hf. by destruct write.
  - pose proof (fill_exits write 0 view Hp ltac:(by right)) as Hf. by destruct write.
Qed.

Lemma msr_bitmap_exact_witness :
  exists view, trap_on_access true 0xC0000080 (replicate 4096 0) = Ok tt view /\
    msr_exits view true 0xC0000080 = true /\ msr_exits view false 0xC0000080 = false.
Proof.
  destruct (msr_bitmap_exact true 0xC0000080 (replicate 4096 0)) as [[(view & E & _ & He) _] _].
  - reflexivity.
  - lia.
  - exists view. split; [exact E|]. split; [exact (He true 0xC0000080 eq_refl)|exact (He false 0xC0000080 eq_refl)].
Defined.

(** C27: A port below 0x8000 is trapped by setting its bit in the first bitmap and
    nothing else.  A port from 0x8000 on cannot be trapped: the bit is looked for
    behind the end of the second bitmap, and the function fails without a change. *)
Theorem io_bitmap_exact (port : Z) (a b : list Z) : is_page a -> is_page b -> 0 <= port < 0x10000 ->
  if port <? 0x8000 then
    exists a', io_bitmap.trap_on_access port (a, b) = Ok tt (a', b) /\ is_page a' /\
      forall p, view_bit a' p = if p =? port then true else view_bit a p
  else io_bitmap.trap_on_access port (a, b) = Err fail_fast (a, b).
Proof.
  intros Ha Hb Hp. unfold is_page in *. unfold io_bitmap.trap_on_access, io_bitmap.change, on_a, on_b; simpl.
  destruct (Z.ltb_spec port 0x8000).
  - pose proof (view_bits_spec a port ltac:(lia)) as Hv. rewrite decide_True in Hv by lia. destruct Hv as ((v1 & E & Hl & Hbits) & _).
    exists v1. cbn. rewrite E. split; [done|]. split; [lia|done].
  - replace (port <? 0x10000) with true by lia. pose proof (view_bits_spec b port ltac:(lia)) as Hv.
    rewrite decide_False in Hv by lia. destruct Hv as (E & _). cbn. by rewrite E.
Qed.

Lemma io_bitmap_exact_witness :
  io_bitmap.trap_on_access 0xCF8C (replicate 4096 0, replicate 4096 0) = Err fail_fast (replicate 4096 0, replicate 4096 0).
Proof.
  refine (io_bitmap_exact 0xCF8C (replicate 4096 0) (replicate 4096 0) _ _ _); [reflexivity|reflexivity|lia].
Defined.

(** ** Registers of the processor that are guarded *)

Section Guarded.
Context `{Processor} {Y : Type}.
Notation X := (global_state * Y)%type.
Implicit Types (v : vm X) (a : @apis Y).

(** A delegate that claims every exit, at the head of the list of a register *)
Lemma wrmsr_ignored (hs : gmap Z (list (delegate X msr_info))) (d : delegate X msr_info) ds v len :
  hs !! regs (hw v) rcx = Some (d :: ds) -> (forall i, d i = ret (true, ignore_write i)) ->
  vmcs_fields (hw v) !! v_addr vm_exit_instruction_length.reg = Some len ->
  wrmsr_handle hs v = Ok true (with_hw (advanced len (hw v)) v).
Proof.
  intros Hd Hi Hl. unfold wrmsr_handle. erewrite bind_ok by (by apply on_cpu_ok). cbv beta. rewrite with_hw_hw, Hd.
  do 2 (erewrite bind_ok by (by apply on_cpu_ok); rewrite with_hw_hw). cbv zeta.
  erewrite bind_ok by (simpl; rewrite Hi; reflexivity). simpl. erewrite bind_ok by done. unfold advance_unless.
  by apply on_cpu_ok, advance_ok.
Qed.

Lemma wrmsr_unknown (hs : gmap Z (list (delegate X msr_info))) v : hs !! regs (hw v) rcx = None -> wrmsr_handle hs v = Ok false v.
Proof. intros Hn. unfold wrmsr_handle. erewrite bind_ok by (by apply on_cpu_ok). cbv beta. by rewrite with_hw_hw, Hn. Qed.

Lemma push_front_eq {D} k (d : D) m : push_front k d m !! k = Some (d :: default [] (m !! k)).
Proof. apply lookup_insert_eq. Qed.
Lemma push_front_ne {D} k k' (d : D) m : k <> k' -> push_front k d m !! k' = m !! k'.
Proof. intros. by apply lookup_insert_ne. Qed.

(** The bitmap of an interface *)
Definition traps a (w : bool) (m : Z) : bool := msr_exits (m_msr_bitmap a) w m.

Lemma add_msr_handler_ok (w : bool) m (d : delegate X msr_info) a : is_page (m_msr_bitmap a) -> controlled m = true ->
  exists a', (if w then add_wrmsr_handler m d else add_rdmsr_handler m d) a = Ok tt a' /\ is_page (m_msr_bitmap a') /\
    (forall w' m', controlled m' = true -> traps a' w' m' = (Bool.eqb w' w && (m' =? m)) || traps a w' m') /\
    m_wrmsr_handlers a' = (if w then push_front m d (m_wrmsr_handlers a) else m_wrmsr_handlers a) /\
    m_rdmsr_handlers a' = (if w then m_rdmsr_handlers a else push_front m d (m_rdmsr_handlers a)).
Proof.
  intros Hp Hc. destruct (set_exits w m _ Hp Hc) as (view & E & Hp' & He). unfold trap_on_access in E.
  destruct w; (eexists; split; [unfold add_wrmsr_handler, add_rdmsr_handler; erewrite bind_ok by (unfold on_msr_bitmap; by rewrite E); reflexivity|]);
    (split; [done|]; split; [exact He|]; by split).
Qed.

(** WRMSR that no delegate takes reaches the processor. *)
Lemma emulate_wrmsr_other m val c o : m ∉ guest_msrs.*1 -> write_msr m val c = o -> emulate_wrmsr m val c = o.
Proof.
  intros Hm <-. unfold guest_msrs in Hm. simpl in Hm. rewrite !not_elem_of_cons in Hm. destruct Hm as (? & ? & ? & ? & ? & ? & ? & ? & ? & _).
  unfold emulate_wrmsr. repeat (match goal with |- context[if ?a =? ?b then _ else _] => replace (a =? b) with false by (symmetry; by apply Z.eqb_neq) end).
  done.
Qed.

Lemma base_wrmsr_writes m old new len c : w32 (regs c rcx) = m -> m ∉ guest_msrs.*1 -> msrs c !! m = Some old ->
  wrmsr_instr m old (edx_eax c) = Some new -> vmcs_fields c !! v_addr vm_exit_instruction_length.reg = Some len ->
  handle_wrmsr c = Ok true (advanced len (set_msrs (<[m := new]>) c)).
Proof.
  intros Hc Hm Ho Hn Hl. unfold handle_wrmsr, get_reg. do 3 (erewrite bind_ok by done). rewrite Hc. cbv zeta. rewrite Z.lor_0_l, shl64_low. fold (edx_eax c).
  assert (u32 m) as Hu by (rewrite <- Hc; apply Z.mod_pos_bound; lia).
  erewrite bind_ok by (apply emulate_wrmsr_other; [done..|]; unfold write_msr; rewrite bind_get; unfold w32; rewrite (Z.mod_small m), Ho, Hn by done; reflexivity).
  apply advance_ok. done.
Qed.

(** C25: After the handlers of microcode updates are added, both registers exit on
    reads and writes, and a WRMSR that names one of them by its number writes
    nothing: the guest only goes on after the instruction.  But the number is
    compared with all 64 bits of RCX, where the processor uses the lower 32: with
    another value in the upper half no delegate is found, and the handler of the
    base hypervisor executes the update with the value of the guest. *)
Theorem microcode_guard a0 : is_page (m_msr_bitmap a0) ->
  exists a, microcode_ctor a0 = Ok tt a /\
    (forall w m, m ∈ [0x79; 0x8B] -> traps a w m = true) /\
    (forall v len, regs (hw v) rcx ∈ [0x79; 0x8B] -> vmcs_fields (hw v) !! v_addr vm_exit_instruction_length.reg = Some len ->
       wrmsr_handle (m_wrmsr_handlers a) v = Ok true (with_hw (advanced len (hw v)) v)) /\
    (forall v len old new, w32 (regs (hw v) rcx) = 0x79 -> regs (hw v) rcx <> 0x79 -> m_wrmsr_handlers a0 !! regs (hw v) rcx = None ->
       vmcs_fields (hw v) !! v_addr vm_exit_instruction_length.reg = Some len ->
       msrs (hw v) !! 0x79 = Some old -> wrmsr_instr 0x79 old (edx_eax (hw v)) = Some new ->
       wrmsr_handle (m_wrmsr_handlers a) v = Ok false v /\
       handle_wrmsr (hw v) = Ok true (advanced len (set_msrs (<[0x79 := new]>) (hw v)))).
Proof.
  intros Hp. unfold microcode_ctor.
  destruct (add_msr_handler_ok false 0x79 ia32_bios_updt_trig__rdmsr_handler a0) as (a1 & E1 & Hp1 & Ht1 & Hw1 & _); [done..|].
  destruct (add_msr_handler_ok true 0x79 ia32_bios_updt_trig__wrmsr_handler a1) as (a2 & E2 & Hp2 & Ht2 & Hw2 & _); [done..|].
  destruct (add_msr_handler_ok false 0x8B ia32_bios_sign_id__rdmsr_handler a2) as (a3 & E3 & Hp3 & Ht3 & Hw3 & _); [done..|].
  destruct (add_msr_handler_ok true 0x8B ia32_bios_sign_id__wrmsr_handler a3) as (a4 & E4 & Hp4 & Ht4 & Hw4 & _); [done..|].
  exists a4. split; [by rewrite (bind_ok _ _ _ _ _ E1), (bind_ok _ _ _ _ _ E2), (bind_ok _ _ _ _ _ E3)|].
  assert (m_wrmsr_handlers a4 = push_front 0x8B ia32_bios_sign_id__wrmsr_handler
    (push_front 0x79 ia32_bios_updt_trig__wrmsr_handler (m_wrmsr_handlers a0))) as Hw by (by rewrite Hw4, Hw3, Hw2, Hw1).
  split; [|split].
  - intros w m Hm. rewrite !elem_of_cons in Hm. destruct Hm as [->|[->|Hm%elem_of_nil]]; [..|done];
      (rewrite Ht4, Ht3, Ht2, Ht1 by done; by destruct w).
  - intros v len Hm Hl. rewrite Hw. rewrite !elem_of_cons in Hm. destruct Hm as [Hm|[Hm|Hm%elem_of_nil]]; [| |done].
    + eapply wrmsr_ignored; [rewrite Hm, push_front_ne, push_front_eq by done; done|done|done].
    + eapply wrmsr_ignored; [rewrite Hm, push_front_eq; done|done|done].
  - intros v len old new Hm Hne Hn Hl Ho Hi. split.
    + apply wrmsr_unknown. rewrite Hw, push_front_ne, push_front_ne; [done|done|]. intros E. rewrite <- E in Hm. done.
    + eapply base_wrmsr_writes; [done| |done..]. unfold guest_msrs; simpl; rewrite !not_elem_of_cons; split_and!; try done; apply not_elem_of_nil.
Qed.
End Guarded.

(** The guest writes the register for updates, with the number of the register
    alone and with another bit above it. *)
Definition update_cpu (rcx_ : Z) : cpu := set_msrs (<[0x79 := 0]>) (sample_cpu rcx_ 0 0).

Lemma microcode_guard_witness :
  exists a : @apis unit, microcode_ctor (Apis (replicate 4096 0) (replicate 4096 0, replicate 4096 0) ∅ ∅ ∅ ∅ ∅) = Ok tt a /\
    wrmsr_handle (m_wrmsr_handlers a) (Vm (update_cpu 0x79) 0 (GlobalState false 0 0, tt)) =
      Ok true (Vm (advanced 2 (update_cpu 0x79)) 0 (GlobalState false 0 0, tt)) /\
    handle_wrmsr (update_cpu 0x100000079) = Ok true (advanced 2 (set_msrs (<[0x79 := 0x100000D01]>) (update_cpu 0x100000079))).
Proof.
  destruct (microcode_guard (Y := unit) (Apis (replicate 4096 0) (replicate 4096 0, replicate 4096 0) ∅ ∅ ∅ ∅ ∅)) as (a & E & _ & Hg & Hw).
  - reflexivity.
  - exists a. split; [exact E|]. split.
    + apply (Hg (Vm (update_cpu 0x79) 0 (GlobalState false 0 0, tt)) 2); [apply list_elem_of_here|vm_compute; reflexivity].
    + apply (Hw (Vm (update_cpu 0x100000079) 0 (GlobalState false 0 0, tt)) 2 0 0x100000D01);
        [reflexivity|discriminate|reflexivity|vm_compute; reflexivity..].
Defined.
