(* ===== verification/EptPointer.v ===== *)
(** * Loading a map of guest memory

    [ept_handler::set_eptp] writes the pointer to the tables and the two controls
    that go with it.  A map that is loaded passes the checks of the pointer,
    another map replaces only its address, and without a map the state is what it
    was before the first. *)
From S2P Require Import Prelude Bits EptEntry Guard Vcpu Vmcs MsrFields X64MsrFields VmcsControl VmcsGuest VmcsHost VmcsExit VmcsProofs.
From S2P Require Import Crs Check CheckControl CheckAll ExitHandler ExitHandlerProofs HostState Vmexit VmcsWitness.
Open Scope Z_scope.
Open Scope vmm_scope.

Module secondary := secondary_processor_based_vm_execution_controls.

(** The bits of an address in the pointer, and the pointer to a map: write-back
    and tables of four levels *)
Definition address_mask : Z := 0x0000FFFFFFFFF000.
Definition pointer_word (low eptp : Z) : Z := Z.lor low (Z.land eptp address_mask).

(** The processor with a pointer and secondary controls *)
Definition ept_cpu (p s : Z) (c : cpu) : cpu :=
  set_vmcs (fun m => <[v_addr ept_pointer.reg := p]> (<[v_addr secondary.reg := s]> m)) c.

(** The machine in which a map is loaded *)
Definition ept_loaded {Y} (eptp s : Z) (v : vm (global_state * Y)) : vm (global_state * Y) :=
  let g := (ext v).1 in
  Vm (ept_cpu (pointer_word 0x1E eptp) (set_bit (set_bit s 1) 7) (hw v)) (m_vcpuid v)
    (GlobalState (init_called g) (Z.land (Z.land (g_cr0_fixed0 g) (not64 0x80000000)) (not64 1)) (g_cr4_fixed0 g), (ext v).2).

(** What the processor has to allow, and the state before a map is loaded *)
Record ept_ready {Y} (s : Z) (v : vm (global_state * Y)) : Prop := {
  ready_secondary : exists x, msrs (hw v) !! m_addr ia32_vmx_true_procbased_ctls.reg = Some x /\ allows1 x 31 = true;
  ready_ept : exists x, msrs (hw v) !! m_addr ia32_vmx_procbased_ctls2.reg = Some x /\
    Forall (fun i => allows1 x i = true /\ allows0 x i = true) [1; 7];
  ready_write_back : exists x, msrs (hw v) !! m_addr ia32_vmx_ept_vpid_cap.reg = Some x /\
    is_enabled (mf ia32_vmx_ept_vpid_cap.memory_type_write_back_supported) x = true;
  ready_pointer : vmcs_fields (hw v) !! v_addr ept_pointer.reg = Some 0;
  ready_controls : vmcs_fields (hw v) !! v_addr secondary.reg = Some s /\ u32 s /\ Forall (fun i => Z.testbit s i = false) [1; 7];
  ready_primary : is_Some (vmcs_fields (hw v) !! v_addr primary_processor_based_vm_execution_controls.reg);
  ready_fixed : u64 (g_cr0_fixed0 (ext v).1) /\ Forall (fun i => Z.testbit (g_cr0_fixed0 (ext v).1) i = true) [0; 31] }.

(** ** Words *)

Lemma u64_address e : u64 (Z.land e address_mask).
Proof. rewrite Z.land_comm. apply u64_land_l. by split. Qed.

Lemma u64_pointer_word low e : u64 low -> u64 (pointer_word low e).
Proof. intros. apply u64_lor; [done|apply u64_address]. Qed.

(** A part below the address *)
Lemma set_bits_pointer low e m v : Z.land m address_mask = 0 -> set_bits (pointer_word low e) m v = pointer_word (set_bits low m v) e.
Proof.
  intros Hm. unfold set_bits, pointer_word. rewrite Z.land_lor_distr_l, <- !Z.lor_assoc, (Z.lor_comm (Z.land v m)). f_equal. f_equal.
  rewrite <- Z.land_assoc. f_equal. apply Z.bits_inj'. intros i Hi. rewrite Z.land_spec, testbit_not64 by done. assert (Z.testbit (Z.land m address_mask) i = false) as Hb by (by rewrite Hm, Z.bits_0).
  rewrite Z.land_spec in Hb. destruct (Z.ltb_spec i 64); simpl.
  - destruct (Z.testbit m i), (Z.testbit address_mask i); done.
  - by rewrite (testbit_u64_high address_mask) by (done || lia).
Qed.

Lemma clear_bit_pointer low e b : Z.land (shl64 1 b) address_mask = 0 -> clear_bit (pointer_word low e) b = pointer_word (clear_bit low b) e.
Proof.
  intros Hm. pose proof (set_bits_pointer low e (shl64 1 b) 0 Hm) as Hs. unfold set_bits in Hs. by rewrite Z.land_0_l, !Z.lor_0_r in Hs.
Qed.

(** The address itself *)
Lemma set_address low e e' : u64 e' -> Z.land low address_mask = 0 -> u64 low ->
  set_bits (pointer_word low e) address_mask (shl64 e' 0) = pointer_word low e'.
Proof.
  intros He Hl Hu. unfold shl64. rewrite Z.shiftl_0_r, w64_small by done. unfold set_bits, pointer_word. f_equal.
  apply Z.bits_inj'. intros i Hi. assert (Z.testbit (Z.land low address_mask) i = false) as Hb by (by rewrite Hl, Z.bits_0).
  rewrite Z.land_spec in Hb. rewrite Z.land_spec, Z.lor_spec, Z.land_spec, testbit_not64 by done. destruct (Z.ltb_spec i 64); simpl.
  - by destruct (Z.testbit low i), (Z.testbit e i), (Z.testbit address_mask i).
  - rewrite (testbit_u64_high low) by (done || lia). by rewrite !andb_false_r.
Qed.

Lemma address_of low e : Z.land low address_mask = 0 -> field_get (vl ept_pointer.phys_addr) (pointer_word low e) = Z.land e address_mask.
Proof.
  intros Hl. unfold field_get, get_bits, pointer_word. simpl. change (Z.pos _) with address_mask.
  rewrite Z.shiftr_0_r, Z.land_lor_distr_l, Hl, <- Z.land_assoc, Z.land_diag. done.
Qed.

(** Setting and clearing what was clear, clearing and setting what was set *)
Lemma clear_set_bits s : u64 s -> Z.testbit s 1 = false -> Z.testbit s 7 = false -> clear_bit (clear_bit (set_bit (set_bit s 1) 7) 1) 7 = s.
Proof.
  intros Hu H1 H7. apply Z.bits_inj'. intros i Hi. rewrite !testbit_clear_bit, !testbit_set_bit by (auto using u64_clear_bit, u64_set_bit; lia).
  destruct (Z.eqb_spec i 7) as [->|]; [by rewrite H7|]. destruct (Z.eqb_spec i 1) as [->|]; [by rewrite H1|done].
Qed.

Lemma set_clear_fixed f : u64 f -> Z.testbit f 0 = true -> Z.testbit f 31 = true ->
  Z.lor (Z.lor (Z.land (Z.land f (not64 0x80000000)) (not64 1)) 0x80000000) 1 = f.
Proof.
  intros Hu H0 H31. apply Z.bits_inj'. intros i Hi. change 0x80000000 with (2 ^ 31). change 1 with (2 ^ 0).
  rewrite !Z.lor_spec, !Z.land_spec, !testbit_not64, !testbit_pow2 by lia.
  destruct (Z.eqb_spec i 0) as [->|]; [by rewrite H0|]. destruct (Z.eqb_spec i 31) as [->|]; [by rewrite H31|].
  destruct (Z.ltb_spec i 64); simpl; rewrite ?andb_true_r, ?orb_false_r; [done|]. by rewrite (testbit_u64_high f) by (done || lia).
Qed.

(** ** Steps *)

Section Load.
Context `{Processor} {Y : Type} (s : Z) (v : vm (global_state * Y)) (Hr : ept_ready s v).
Notation c := (hw v).

Lemma ept_cpu_id : ept_cpu 0 s c = c.
Proof.
  destruct (ready_controls _ _ Hr) as [Hs _]. pose proof (ready_pointer _ _ Hr) as Hp. unfold ept_cpu, set_vmcs.
  rewrite (insert_id _ (v_addr secondary.reg)), insert_id by done. by destruct c.
Qed.

Lemma ept_cpu_pointer p s' x : set_vmcs (<[v_addr ept_pointer.reg := x]>) (ept_cpu p s' c) = ept_cpu x s' c.
Proof. unfold ept_cpu, set_vmcs; simpl. by rewrite insert_insert_eq. Qed.

Lemma ept_cpu_controls p s' x : set_vmcs (<[v_addr secondary.reg := x]>) (ept_cpu p s' c) = ept_cpu p x c.
Proof. unfold ept_cpu, set_vmcs; simpl. by rewrite insert_insert_ne, insert_insert_eq. Qed.

Lemma lookup_pointer p s' : vmcs_fields (ept_cpu p s' c) !! v_addr ept_pointer.reg = Some p.
Proof. apply lookup_insert_eq. Qed.
Lemma lookup_controls p s' : vmcs_fields (ept_cpu p s' c) !! v_addr secondary.reg = Some s'.
Proof. unfold ept_cpu; simpl. by rewrite lookup_insert_ne, lookup_insert_eq. Qed.

Lemma allowed_secondary c' : msrs c' = msrs c -> is_allowed1 ia32_vmx_true_procbased_ctls.activate_secondary_controls c' = Ok true c'.
Proof.
  intros E. destruct (ready_secondary _ _ Hr) as (x & Hx & Ha). rewrite <- Ha. apply is_allowed1_ok; [done|lia|]. by rewrite E.
Qed.

Lemma allowed_control f c' : f ∈ [secondary.enable_ept; secondary.unrestricted_guest] -> msrs c' = msrs c ->
  is_allowed1 (vc_allowed f) c' = Ok true c' /\ is_allowed0 (vc_allowed f) c' = Ok true c'.
Proof.
  intros Hf E. destruct (ready_ept _ _ Hr) as (x & Hx & [H1 [H7 _]%Forall_cons]%Forall_cons). rewrite <- E in Hx.
  assert (forall i, flag_mask (mf (vc_allowed f)) = 2 ^ i -> 0 <= i < 32 -> allows1 x i = true /\ allows0 x i = true ->
    m_addr (mf_reg (vc_allowed f)) = m_addr ia32_vmx_procbased_ctls2.reg ->
    is_allowed1 (vc_allowed f) c' = Ok true c' /\ is_allowed0 (vc_allowed f) c' = Ok true c') as Hall.
  { intros i Hm Hi [Ha1 Ha0] Hreg. split; [rewrite <- Ha1; apply is_allowed1_ok; [done|lia|by rewrite Hreg]|].
    unfold is_allowed0, msr_get. rewrite Hreg. erewrite bind_ok by (by apply read_msr_ok). rewrite Hm, land_pow2_0 by lia.
    unfold allows0 in Ha0. by rewrite Ha0. }
  rewrite !elem_of_cons in Hf. destruct Hf as [->|[->|Hf%elem_of_nil]]; [by apply (Hall 1)|by apply (Hall 7)|done].
Qed.

Lemma pointer_exists p s' : v_exists ept_pointer.reg (ept_cpu p s' c) = Ok true (ept_cpu p s' c).
Proof.
  simpl. unfold and_then. erewrite bind_ok by (by apply allowed_secondary).
  apply (allowed_control secondary.enable_ept); [apply list_elem_of_here|done].
Qed.

Lemma bits_set_pointer f x p s' : vl_reg f = ept_pointer.reg ->
  u64 (set_bits p (field_mask (vl f)) (shl64 x (field_from (vl f)))) ->
  bits_set f x (ept_cpu p s' c) = Ok tt (ept_cpu (set_bits p (field_mask (vl f)) (shl64 x (field_from (vl f)))) s' c).
Proof.
  intros Hf Hu. unfold bits_set. rewrite Hf. erewrite bind_ok by apply pointer_exists. unfold set_vmcs_field_bits, get_vmcs_field, set_vmcs_field; simpl.
  erewrite bind_ok by (apply vm_read_ok, lookup_pointer). erewrite vm_write_ok by (done || apply lookup_pointer).
  change (width_of 0x201A) with 64. rewrite (Z.mod_small _ (2 ^ 64)) by apply Hu. by rewrite ept_cpu_pointer.
Qed.

Lemma flag_disable_pointer p s' : u64 p ->
  flag_disable ept_pointer.accessed_and_dirty_flags (ept_cpu p s' c) = Ok tt (ept_cpu (clear_bit p 6) s' c).
Proof.
  intros Hu. unfold flag_disable. erewrite bind_ok by apply pointer_exists. unfold clear_vmcs_field_bit, get_vmcs_field, set_vmcs_field; simpl.
  erewrite bind_ok by (apply vm_read_ok, lookup_pointer). erewrite vm_write_ok by (done || apply lookup_pointer).
  change (width_of 0x201A) with 64. rewrite (Z.mod_small _ (2 ^ 64)) by (by apply u64_clear_bit). by rewrite ept_cpu_pointer.
Qed.

Lemma bits_get_pointer f p s' : vl_reg f = ept_pointer.reg -> bits_get f (ept_cpu p s' c) = Ok (field_get (vl f) p) (ept_cpu p s' c).
Proof. intros Hf. apply bits_get_ok; rewrite Hf; [apply pointer_exists|apply lookup_pointer]. Qed.

(** The two controls *)
Lemma u32_clear_bit x i : u32 x -> u32 (clear_bit x i).
Proof.
  intros Hx. unfold clear_bit. rewrite <- (Z.mod_small x (2 ^ 32)), <- Z.land_ones by (done || lia).
  rewrite <- Z.land_assoc, (Z.land_comm (Z.ones 32)), Z.land_assoc, Z.land_ones by lia. apply Z.mod_pos_bound. lia.
Qed.

Lemma control_set_ept f p s' : f ∈ [secondary.enable_ept; secondary.unrestricted_guest] -> u32 s' ->
  control_enable f (ept_cpu p s' c) = Ok tt (ept_cpu p (set_bit s' (bit_of f)) c) /\
  control_disable f (ept_cpu p s' c) = Ok tt (ept_cpu p (clear_bit s' (bit_of f)) c).
Proof.
  intros Hf Hu. destruct (allowed_control f (ept_cpu p s' c) Hf eq_refl) as [H1 H0].
  assert (vf_reg (vc_flag f) = secondary.reg /\ 0 <= bit_of f < 32) as [Hreg Hb].
  { rewrite !elem_of_cons in Hf. destruct Hf as [->|[->|Hf%elem_of_nil]]; done. }
  unfold control_enable, control_disable. rewrite Hreg. fold (bit_of f).
  split; (erewrite bind_ok by (by apply allowed_secondary)); erewrite bind_ok by done; unfold enable_vm_control, disable_vm_control; simpl;
    (erewrite bind_ok by apply vm_read_ok, lookup_controls); (erewrite vm_write_ok by (done || apply lookup_controls));
    change (width_of 0x401E) with 32; rewrite (Z.mod_small _ (2 ^ 32)) by (by (apply u32_set_bit || apply u32_clear_bit)); by rewrite ept_cpu_controls.
Qed.

(** ** The operation *)

Lemma enable_ept_control f p s' : f ∈ [secondary.enable_ept; secondary.unrestricted_guest] -> u32 s' ->
  control_enable f (ept_cpu p s' c) = Ok tt (ept_cpu p (set_bit s' (bit_of f)) c).
Proof. intros. by apply control_set_ept. Qed.
Lemma disable_ept_control f p s' : f ∈ [secondary.enable_ept; secondary.unrestricted_guest] -> u32 s' ->
  control_disable f (ept_cpu p s' c) = Ok tt (ept_cpu p (clear_bit s' (bit_of f)) c).
Proof. intros. by apply control_set_ept. Qed.

Notation on := (set_bit (set_bit s 1) 7).
Ltac in_list := repeat first [apply list_elem_of_here | apply list_elem_of_further].

Lemma load_steps : u32 s -> (bits_set ept_pointer.memory_type ept_pointer.memory_type_write_back ;;;
    flag_disable ept_pointer.accessed_and_dirty_flags ;;;
    bits_set ept_pointer.page_walk_length_minus_one 3 ;;;
    control_enable secondary.enable_ept ;;; control_enable secondary.unrestricted_guest) c = Ok tt (ept_cpu 0x1E on c).
Proof.
  intros Hu. rewrite <- ept_cpu_id at 1. erewrite bind_ok by (apply bits_set_pointer; [done|by split]).
  erewrite bind_ok by (apply flag_disable_pointer; by split). erewrite bind_ok by (apply bits_set_pointer; [done|by split]).
  erewrite bind_ok by (apply enable_ept_control; [in_list|done]).
  erewrite enable_ept_control by (in_list || by apply u32_set_bit). reflexivity.
Qed.

Lemma unload_steps e : u32 s -> (bits_set ept_pointer.memory_type 0 ;;;
    flag_disable ept_pointer.accessed_and_dirty_flags ;;;
    bits_set ept_pointer.page_walk_length_minus_one 0 ;;;
    control_disable secondary.enable_ept ;;; control_disable secondary.unrestricted_guest) (ept_cpu (pointer_word 0x1E e) on c) =
  Ok tt (ept_cpu (pointer_word 0 e) (clear_bit (clear_bit on 1) 7) c).
Proof.
  intros Hu. assert (u32 on) as Hon by (apply u32_set_bit; [apply u32_set_bit|]; done || lia).
  erewrite bind_ok by (apply bits_set_pointer; [done|]; rewrite set_bits_pointer by done; apply u64_pointer_word; by split).
  rewrite set_bits_pointer by done.
  erewrite bind_ok by (apply flag_disable_pointer; apply u64_pointer_word; by split). rewrite clear_bit_pointer by done.
  erewrite bind_ok by (apply bits_set_pointer; [done|]; rewrite set_bits_pointer by done; apply u64_pointer_word; by split).
  rewrite set_bits_pointer by done.
  erewrite bind_ok by (apply disable_ept_control; [in_list|done]).
  erewrite disable_ept_control by (in_list || by apply u32_clear_bit). reflexivity.
Qed.

Lemma set_address_step low e e' s' : u64 e' -> u64 low -> Z.land low address_mask = 0 ->
  bits_set ept_pointer.phys_addr e' (ept_cpu (pointer_word low e) s' c) = Ok tt (ept_cpu (pointer_word low e') s' c).
Proof.
  intros He Hu Hl. pose proof (set_address low e e' He Hl Hu) as E.
  erewrite bits_set_pointer; [simpl; change (Z.pos _) with address_mask; by rewrite E|done|].
  simpl. change (Z.pos _) with address_mask. rewrite E. by apply u64_pointer_word.
Qed.

Lemma set_eptp_load e : u64 e -> ept_set_eptp (Some e) v = Ok tt (ept_loaded e s v).
Proof.
  intros He. destruct (ready_controls _ _ Hr) as (_ & Hu & _).
  unfold ept_set_eptp. erewrite bind_ok by (apply on_cpu_ok; rewrite <- ept_cpu_id; by apply bits_get_pointer).
  rewrite ept_cpu_id, with_hw_hw. cbn [Z.eqb field_get]. simpl (_ =? 0). cbv iota.
  erewrite bind_ok.
  2: { do 2 (erewrite bind_ok by reflexivity). apply on_cpu_ok. simpl. by apply load_steps. }
  erewrite on_cpu_ok by (simpl; apply (set_address_step 0x1E 0); [done|by split|done]). reflexivity.
Qed.

Lemma get_loaded e : on_cpu (bits_get ept_pointer.phys_addr) (ept_loaded e s v) = Ok (Z.land e address_mask) (ept_loaded e s v).
Proof.
  rewrite <- (address_of 0x1E e) by done. erewrite on_cpu_ok by (by apply bits_get_pointer). reflexivity.
Qed.

Lemma set_eptp_again e e' : u64 e' -> Z.land e address_mask <> 0 -> ept_set_eptp (Some e') (ept_loaded e s v) = Ok tt (ept_loaded e' s v).
Proof.
  intros He Hne. unfold ept_set_eptp. erewrite bind_ok by apply get_loaded. replace (Z.land e address_mask =? 0) with false by (symmetry; by apply Z.eqb_neq).
  erewrite bind_ok by reflexivity. erewrite on_cpu_ok by (apply set_address_step; [done|by split|done]). reflexivity.
Qed.

Lemma set_eptp_unload e : Z.land e address_mask <> 0 -> ept_set_eptp None (ept_loaded e s v) = Ok tt v.
Proof.
  intros Hne. destruct (ready_controls _ _ Hr) as (_ & Hu & [H1 [H7 _]%Forall_cons]%Forall_cons).
  destruct (ready_fixed _ _ Hr) as (Hf & [F0 [F31 _]%Forall_cons]%Forall_cons).
  unfold ept_set_eptp. erewrite bind_ok by apply get_loaded. replace (Z.land e address_mask =? 0) with false by (symmetry; by apply Z.eqb_neq).
  cbn [negb]. erewrite bind_ok.
  2: { do 2 (erewrite bind_ok by reflexivity). apply on_cpu_ok. simpl. by apply unload_steps. }
  erewrite on_cpu_ok by (simpl; apply set_address_step; [by split..|done]).
  rewrite clear_set_bits by (done || (unfold u32 in Hu; split; lia)). unfold with_hw, set_fixed0. simpl.
  change (pointer_word 0 0) with 0. rewrite ept_cpu_id, set_clear_fixed by done. destruct v as [c0 id [[i a b] y]]. done.
Qed.

(** ** The checks *)

Lemma bits_get_if_exists_pointer f p s' : vl_reg f = ept_pointer.reg ->
  bits_get_if_exists f (ept_cpu p s' c) = Ok (field_get (vl f) p) (ept_cpu p s' c).
Proof.
  intros Hf. unfold bits_get_if_exists. rewrite Hf. erewrite bind_ok by apply pointer_exists.
  by erewrite bind_ok by (apply vm_read_ok, lookup_pointer).
Qed.

(** A part that lies below the address *)
Lemma field_get_low f low e : Z.land address_mask (field_mask f) = 0 -> field_get f (pointer_word low e) = field_get f low.
Proof.
  intros Hf. unfold field_get, get_bits, pointer_word. by rewrite Z.land_lor_distr_l, <- Z.land_assoc, Hf, Z.land_0_r, Z.lor_0_r.
Qed.

(** One step of the check: what is read is known. *)
Ltac check_step :=
  match goal with
  | |- bind (bind _ _) _ _ = _ => rewrite bind_assoc
  | |- bind (ret _) _ _ = _ => erewrite bind_ok by reflexivity
  | |- bind (bits_get_if_exists _) _ _ = _ =>
      erewrite bind_ok by (by apply bits_get_if_exists_pointer); rewrite field_get_low by done
  end; cbv beta iota.

Lemma loaded_checks e : control_enable_ept_checks (hw (ept_loaded e s v)) = Ok tt (hw (ept_loaded e s v)).
Proof.
  destruct (ready_primary _ _ Hr) as [p Hp]. destruct (ready_write_back _ _ Hr) as (w & Hw & Hwb). simpl.
  unfold control_enable_ept_checks, check, return_if, throw_if, when_, seq, fails, return_, test, and_then, control_is_disabled.
  repeat check_step. erewrite bind_ok.
  2: { unfold flag_is_disabled. erewrite bind_ok by reflexivity.
       erewrite bind_ok by (apply vm_read_ok; simpl; by rewrite !lookup_insert_ne). reflexivity. }
  destruct (is_bit_cleared _ _); [done|]. repeat check_step. erewrite bind_ok.
  2: { unfold flag_is_disabled_if_exists. erewrite bind_ok by (by apply allowed_secondary).
       erewrite bind_ok by (apply vm_read_ok, lookup_controls). rewrite is_bit_cleared_negb, is_bit_set_testbit, !testbit_set_bit by (simpl; lia). reflexivity. }
  simpl. repeat check_step. change (field_get (vl ept_pointer.memory_type) 30) with 6.
  change (6 =? ept_pointer.memory_type_uncacheable) with false. change (6 =? ept_pointer.memory_type_write_back) with true.
  cbn [negb andb]. repeat check_step. erewrite bind_ok.
  2: { unfold msr_is_disabled, msr_get. erewrite bind_ok by (by apply read_msr_ok). reflexivity. }
  rewrite is_disabled_negb, Hwb. cbn [negb]. repeat check_step.
  change (field_get (vl ept_pointer.page_walk_length_minus_one) 30) with 3. cbn [Z.eqb Pos.eqb negb]. repeat check_step.
  erewrite bind_ok.
  2: { unfold flag_is_enabled_if_exists. erewrite bind_ok by apply pointer_exists.
       erewrite bind_ok by (apply vm_read_ok, lookup_pointer). unfold pointer_word.
       rewrite is_bit_set_testbit, Z.lor_spec, Z.land_spec by (simpl; lia). rewrite andb_false_r. reflexivity. }
  simpl. fold (pointer_word 30 e). repeat check_step. reflexivity.
Qed.

(** C24: On a processor that allows it, loading a map writes the pointer to it with
    write-back tables of four levels and enables the two controls, and nothing
    else of the VMCS; the checks of the pointer then pass.  Loading another map
    replaces the address alone, and unloading leaves exactly the state from before
    the first, the bits of CR0 that the guest must not clear included. *)
Theorem ept_pointer_switch e e' : u64 e -> u64 e' -> Z.land e address_mask <> 0 ->
  ept_set_eptp (Some e) v = Ok tt (ept_loaded e s v) /\
  control_enable_ept_checks (hw (ept_loaded e s v)) = Ok tt (hw (ept_loaded e s v)) /\
  ept_set_eptp (Some e') (ept_loaded e s v) = Ok tt (ept_loaded e' s v) /\
  ept_set_eptp None (ept_loaded e s v) = Ok tt v.
Proof.
  intros He He' Hne. split; [by apply set_eptp_load|]. split; [apply loaded_checks|].
  split; [by apply set_eptp_again|by apply set_eptp_unload].
Qed.
End Load.

(** A processor with the capabilities for it *)
Definition ept_machine : vm (global_state * unit) :=
  Vm (Cpu zero_fields (<[m_addr ia32_vmx_ept_vpid_cap.reg := 0x4000]> (<[m_addr ia32_vmx_procbased_ctls2.reg := 0x000000FE00000000]> sample_msrs))
        (fun _ => 0) (fun _ => 0) []) 0 (GlobalState false 0x80000021 0x2000, tt).

Lemma ept_machine_ready : ept_ready 0 ept_machine.
Proof.
  split.
  - eexists. split; vm_compute; reflexivity.
  - eexists. split; [vm_compute; reflexivity|]. repeat constructor.
  - eexists. split; [vm_compute; reflexivity|]. reflexivity.
  - vm_compute. reflexivity.
  - split; [vm_compute; reflexivity|]. split; [unfold u32; lia|]. repeat constructor.
  - eexists. vm_compute. reflexivity.
  - split; [by split|]. repeat constructor.
Qed.

Lemma ept_pointer_switch_witness :
  ept_set_eptp (Some 0x12345000) ept_machine = Ok tt (ept_loaded 0x12345000 0 ept_machine) /\
  ept_set_eptp None (ept_loaded 0x12345000 0 ept_machine) = Ok tt ept_machine.
Proof.
  destruct (ept_pointer_switch 0 ept_machine ept_machine_ready 0x12345000 0x1000) as (Hload & _ & _ & Hunload).
  - split; [lia|reflexivity].
  - split; [lia|reflexivity].
  - discriminate.
  - split; [exact Hload|exact Hunload].
Defined.
