(* ===== verification/Sample.v ===== *)
(** * A module and a kernel to run the loader on

    [sample_module] is a 64-bit ELF file with one segment, the symbols [foo] and
    [bar] and two relocations; [toy] is a kernel with two CPUs that hands out
    blocks from ever higher addresses and whose hypervisor can be told to refuse
    one request. *)
From S2P Require Import Prelude Elf ElfFrame Driver DriverMem DriverProofs.

Definition sample_module : list Z :=
  [0x7F; 0x45; 0x4C; 0x46; 0x02; 0x01; 0x01; 0; 0; 0; 0; 0; 0; 0; 0; 0;
   0x03; 0; 0x3E; 0; 0x01; 0; 0; 0; 0xD0; 0x01; 0; 0; 0; 0; 0; 0;
   0x40; 0; 0; 0; 0; 0; 0; 0; 0; 0; 0; 0; 0; 0; 0; 0;
   0; 0; 0; 0; 0x40; 0; 0x38; 0; 0x02; 0; 0x40; 0; 0; 0; 0; 0;
   0x01; 0; 0; 0; 0x07; 0; 0; 0; 0; 0; 0; 0; 0; 0; 0; 0;
   0; 0; 0; 0; 0; 0; 0; 0; 0; 0; 0; 0; 0; 0; 0; 0;
   0xD0; 0x01; 0; 0; 0; 0; 0; 0; 0xE0; 0x01; 0; 0; 0; 0; 0; 0;
   0; 0x10; 0; 0; 0; 0; 0; 0; 0x02; 0; 0; 0; 0x06; 0; 0; 0;
   0xB0; 0; 0; 0; 0; 0; 0; 0; 0xB0; 0; 0; 0; 0; 0; 0; 0;
   0xB0; 0; 0; 0; 0; 0; 0; 0; 0x70; 0; 0; 0; 0; 0; 0; 0;
   0x70; 0; 0; 0; 0; 0; 0; 0; 0x08; 0; 0; 0; 0; 0; 0; 0;
   0x04; 0; 0; 0; 0; 0; 0; 0; 0x20; 0x01; 0; 0; 0; 0; 0; 0;
   0x05; 0; 0; 0; 0; 0; 0; 0; 0x80; 0x01; 0; 0; 0; 0; 0; 0;
   0x06; 0; 0; 0; 0; 0; 0; 0; 0x38; 0x01; 0; 0; 0; 0; 0; 0;
   0x07; 0; 0; 0; 0; 0; 0; 0; 0x90; 0x01; 0; 0; 0; 0; 0; 0;
   0x08; 0; 0; 0; 0; 0; 0; 0; 0x30; 0; 0; 0; 0; 0; 0; 0;
   0x09; 0; 0; 0; 0; 0; 0; 0; 0x18; 0; 0; 0; 0; 0; 0; 0;
   0; 0; 0; 0; 0; 0; 0; 0; 0; 0; 0; 0; 0; 0; 0; 0;
   0x01; 0; 0; 0; 0x03; 0; 0; 0; 0x01; 0; 0; 0; 0; 0; 0; 0;
   0x02; 0; 0; 0; 0; 0; 0; 0; 0; 0; 0; 0; 0; 0; 0; 0;
   0; 0; 0; 0; 0; 0; 0; 0; 0; 0; 0; 0; 0; 0; 0; 0;
   0x01; 0; 0; 0; 0x10; 0; 0x01; 0; 0xC0; 0x01; 0; 0; 0; 0; 0; 0;
   0x08; 0; 0; 0; 0; 0; 0; 0; 0x05; 0; 0; 0; 0x10; 0; 0x01; 0;
   0xC8; 0x01; 0; 0; 0; 0; 0; 0; 0x08; 0; 0; 0; 0; 0; 0; 0;
   0; 0x66; 0x6F; 0x6F; 0; 0x62; 0x61; 0x72; 0; 0; 0; 0; 0; 0; 0; 0;
   0xC0; 0x01; 0; 0; 0; 0; 0; 0; 0x08; 0; 0; 0; 0; 0; 0; 0;
   0x20; 0; 0; 0; 0; 0; 0; 0; 0xC8; 0x01; 0; 0; 0; 0; 0; 0;
   0x01; 0; 0; 0; 0x01; 0; 0; 0; 0x04; 0; 0; 0; 0; 0; 0; 0;
   0; 0; 0; 0; 0; 0; 0; 0; 0; 0; 0; 0; 0; 0; 0; 0].

Record toy := Toy { next : Z; held : gmap Z Z; refused : option (Z * Z) }.

#[export] Instance toy_platform : Platform toy := {
  p_alloc len p :=
    if (0 <? len) && (next p + len <? 2 ^ 47)
    then (Some (next p, replicate (Z.to_nat len) 0xCC),
          Toy (next p + len) (<[next p := len]> (held p)) (refused p))
    else (None, p);
  p_free a p := Toy (next p) (delete a (held p)) (refused p);
}.

(** The request and its first argument are in the crt info. *)
#[export] Instance toy_kernel : Kernel toy := {
  num_online_cpus _ := 2;
  set_cpu_affinity _ p := (true, p);
  kallsyms_sched_setaffinity _ := 0x1000;
  virt_to_phys_k _ v := v + 0x100000000;
  run_vmm _ _ c _ p := (if bool_decide (refused p = Some (request c, arg1 c)) then BF_ERROR_UNKNOWN else 0, p);
  md_addr := 0x7000;
}.

Definition toy_ok (p : toy) (L : gmap Z Z) : Prop :=
  held p = L /\ 0 < next p /\ forall a n, L !! a = Some n -> 0 < a /\ 0 < n /\ a + n <= next p.

#[export, refine] Instance toy_laws : KernelLaws toy := { p_ok := toy_ok }.
Proof.
  - intros p L len a l p' (<- & Hn & Hr) _. cbn. destruct (_ && _) eqn:E; [|done]. intros [= <- <- <-].
    apply andb_true_iff in E as [E1 E2]. rewrite length_replicate. split_and!; try lia.
    + split; [done|]. cbn. split; [lia|]. intros a n [[<- <-]|[_ Ha]]%lookup_insert_Some; [lia|].
      specialize (Hr a n Ha). lia.
    + destruct (held p !! next p) as [n|] eqn:Eh; [|done]. specialize (Hr _ _ Eh). lia.
    + intros b n Hb. specialize (Hr b n Hb). lia.
  - intros p L len p' Hp. cbn. by destruct (_ && _); intros [= <-].
  - intros p L a n (<- & Hn & Hr) Ha. split; [done|]. split; [done|]. intros b m [_ Hb]%lookup_delete_Some. by apply Hr.
  - done.
  - done.
  - cbn. unfold NR_CPUS. lia.
  - intros p len. cbn [p_alloc toy_platform num_online_cpus toy_kernel]. done.
  - done.
  - done.
  - done.
Defined.

(** The driver before the hypervisor is loaded: the module is in a block of its
    own, at 0x10000. *)
Definition sample_blocks : gmap Z Z := {[ 0x10000 := 464 ]}.
Definition sample_toy (r : option (Z * Z)) : toy := Toy 0x20000 sample_blocks r.

Definition sample_boot (r : option (Z * Z)) : drv toy :=
  Drv (Env (map_seqZ 0x10000 sample_module) sample_blocks (sample_toy r) zero_modules loader_zero crt_zero 0)
    0 0 VMM_UNLOADED 0 0 0 0 0 0 [].
Definition sample_added (r : option (Z * Z)) : drv toy := out_state (common_add_module 0x10000 464 (sample_boot r)).

Lemma sample_cases a n : sample_blocks !! a = Some n -> a = 0x10000 /\ n = 464.
Proof. unfold sample_blocks. by intros [<- <-]%lookup_singleton_Some. Qed.

Lemma sample_boot_ok r : env_ok 2 (e_env (sample_boot r)).
Proof.
  split; cbn [e_env sample_boot live plat bytes].
  - split; [done|]. split; [done|]. intros a n [-> ->]%sample_cases. cbn. lia.
  - done.
  - intros a n [-> ->]%sample_cases. lia.
  - intros a n i [-> ->]%sample_cases Hi.
    destruct (lookup_lt_is_Some_2 sample_module (Z.to_nat i)) as [v Hv]; [cbn; lia|]. exists v.
    apply lookup_map_seqZ_Some. split; [lia|]. by replace (0x10000 + i - 0x10000) with i by lia.
  - intros a n b m [-> _]%sample_cases [-> _]%sample_cases. done.
Qed.

(** The driver with a hypervisor in memory: its stack at 0x20000 and its
    thread-local storage at 0x30000. *)
Definition up_blocks : gmap Z Z := {[ 0x20000 := 0x10000; 0x30000 := 0x2000 ]}.
Definition sample_up (r : option (Z * Z)) (status cpus : Z) : drv toy :=
  Drv (Env (map_seqZ 0x20000 (replicate (Z.to_nat 0x12000) 0)) up_blocks (Toy 0x40000 up_blocks r)
         zero_modules loader_zero crt_zero 0x40000)
    0 cpus status 0x30000 0x20000 0x2000 0x10000 (stack_top 0x20000) 0 [].

Lemma up_cases a n : up_blocks !! a = Some n -> a = 0x20000 /\ n = 0x10000 \/ a = 0x30000 /\ n = 0x2000.
Proof. unfold up_blocks. intros [[<- <-]|[_ [<- <-]%lookup_singleton_Some]]%lookup_insert_Some; auto. Qed.

Lemma sample_up_holds r status cpus : holds 2 [] (sample_up r status cpus).
Proof.
  split; [split|done|cbn; unfold MAX_NUM_MODULES; lia|].
  - split; cbn [e_env sample_up live plat bytes].
    + split; [done|]. split; [done|]. intros a n [[-> ->]|[-> ->]]%up_cases; cbn; lia.
    + done.
    + intros a n [[-> ->]|[-> ->]]%up_cases; lia.
    + intros a n i Ha Hi. exists 0. apply lookup_map_seqZ_Some. apply up_cases in Ha.
      split; [lia|]. apply lookup_replicate. split; [done|]. lia.
    + intros a n b m [[-> ->]|[-> ->]]%up_cases [[-> ->]|[-> ->]]%up_cases; lia.
  - cbn [live e_env sample_up]. unfold globals, execs. cbn [e_env sample_up bins g_stack g_stack_size g_tls g_tls_size].
    fold (images zero_modules). rewrite images_none; [vm_compute; apply perm_swap|].
    intros i b. apply (zero_modules_no_image (e_env (sample_up r status cpus))); [done|lia].
  - intros i b _. apply (zero_modules_no_image (e_env (sample_up r status cpus))); [done|lia].
Qed.

Lemma sample_up_ready r status cpus : ready 2 (sample_up r status cpus).
Proof. by split. Qed.
