(* ===== verification/ElfWitness.v ===== *)
(** * The ELF loader at work: the sample module, loaded and linked *)
From S2P Require Import Prelude Elf ElfFrame ElfSyms ElfParse ElfResolve ElfImage ElfHeader Driver DriverMem DriverProofs Sample.

(** The sample module as the loader keeps it, its image at 0x20000. *)
Definition linked_file : bfelf_file_t :=
  let e := set_exec_virt (set_exec_addr file_zero 0x20000) 0x20000 in
  let e := set_strtab (set_symtab (set_hash e 0x20120) 0x20138) 0x20180 in
  set_symnum (set_chain (set_bucket (set_nchain (set_nbucket e 1) 3) 0x20128) 0x2012C) 3.

Definition sample_names : list (list Z) := [[]; [0x66; 0x6F; 0x6F]; [0x62; 0x61; 0x72]].

Definition sample_linked : env toy :=
  Env (map_seqZ 0x20000 sample_module) ∅ (sample_toy None) [Binary 0x20000 0x10000 464 464 linked_file]
    (Loader 1 0 [0%nat]) crt_zero 0.

Lemma image_fetch : fetch (bytes sample_linked) 464 0x20000 = Some sample_module.
Proof.
  apply fetch_some. split; [done|]. intros i x Hx. apply lookup_map_seqZ_Some. split; [lia|].
  by replace (Z.to_nat (0x20000 + Z.of_nat i - 0x20000)) with i by lia.
Qed.

Lemma fetch_sub m a n h off k : fetch m n a = Some h -> (off + k <= n)%nat ->
  fetch m k (a + Z.of_nat off) = Some (take k (drop off h)).
Proof.
  intros [Hl Hm]%fetch_some Hk. apply fetch_some. split; [rewrite length_take, length_drop; lia|].
  intros i x [Hx Hi]%lookup_take_Some. rewrite lookup_drop in Hx. rewrite <- Z.add_assoc, <- Nat2Z.inj_add. by apply Hm.
Qed.

(** Integers and strings of the image. *)
Lemma image_peek off k : (off + k <= 464)%nat ->
  peek (bytes sample_linked) k (0x20000 + Z.of_nat off) = Some (field sample_module off k).
Proof. intros Hk. eapply peek_field; [exact image_fetch|done]. Qed.

Lemma image_cstr off l : (off + S (length l) <= 464)%nat -> Forall (fun c => 0 < c < 256) l ->
  take (S (length l)) (drop off sample_module) = l ++ [0] -> cstr (bytes sample_linked) (0x20000 + Z.of_nat off) l.
Proof. intros Hk Hl E. split; [done|]. by rewrite (fetch_sub _ _ _ _ off (S (length l)) image_fetch), E. Qed.

Ltac ascii := repeat constructor; lia.

Lemma foo_cstr : cstr (bytes sample_linked) 0x20181 [0x66; 0x6F; 0x6F].
Proof. apply (image_cstr 385); [cbn; lia|ascii|done]. Qed.
Lemma bar_cstr : cstr (bytes sample_linked) 0x20185 [0x62; 0x61; 0x72].
Proof. apply (image_cstr 389); [cbn; lia|ascii|done]. Qed.
Lemma null_cstr : cstr (bytes sample_linked) 0x20180 [].
Proof. apply (image_cstr 384); [cbn; lia|ascii|done]. Qed.

Lemma sample_table : hash_table (bytes sample_linked) linked_file sample_names.
Proof.
  split; [done|done| |].
  - intros [|[|[|k]]] w Hk; try done; injection Hk as <-.
    + exists 0. split; [exact (image_peek 312 4 ltac:(lia))|exact null_cstr].
    + exists 1. split; [exact (image_peek 336 4 ltac:(lia))|exact foo_cstr].
    + exists 5. split; [exact (image_peek 360 4 ltac:(lia))|exact bar_cstr].
  - cbn [nbucket linked_file]. intros b Hb. assert (b = 0) as -> by (cbn in Hb; lia). exists 1, [1; 2].
    split; [exact (image_peek 296 4 ltac:(lia))|]. split.
    + eapply cp_next; [done|exact (image_peek 304 4 ltac:(lia))|].
      eapply cp_next; [done|exact (image_peek 308 4 ltac:(lia))|]. apply cp_end. vm_compute. by intros [? ?].
    + intros [|[|[|k]]] w Hk E _; [lia|by left|right; by left|done].
Qed.

Lemma sample_linked_ok : linked sample_linked [(0%nat, sample_names)].
Proof.
  split; [done|]. constructor; [|constructor]. split; [|by eexists| |done].
  - intros b [= <-]. split; [done|]. split; [exact sample_table|]. intros [|[|[|k]]] Hk; cbn in Hk; try lia.
    + split; eexists; [exact (image_peek 320 8 ltac:(lia))|exact (image_peek 316 1 ltac:(lia))].
    + split; eexists; [exact (image_peek 344 8 ltac:(lia))|exact (image_peek 340 1 ltac:(lia))].
    + split; eexists; [exact (image_peek 368 8 ltac:(lia))|exact (image_peek 364 1 ltac:(lia))].
  - by apply (bool_decide_unpack _); vm_compute.
Qed.

Lemma elf_hash_witness : private_hash 0x20181 sample_linked = Ok 0x6D5F sample_linked.
Proof. apply (elf_hash sample_linked 0x20181 [0x66; 0x6F; 0x6F]); [exact foo_cstr|ascii]. Defined.

Lemma sym_search_equiv_witness :
  private_get_sym_by_name linked_file 0x20185 sample_linked = Ok (Some 0x20168) sample_linked.
Proof.
  apply (sym_search_equiv sample_linked linked_file sample_names 0x20185 [0x62; 0x61; 0x72]);
    [done|exact sample_table|done| |done|exact bar_cstr].
  by apply (bool_decide_unpack _); vm_compute.
Defined.

Lemma foo_candidate : candidate sample_linked [0x66; 0x6F; 0x6F] (0%nat, sample_names) = Some (Offer 0 0x20150 0x1C0 0x10).
Proof.
  unfold candidate. change (bins _ !! _) with (Some (Binary 0x20000 0x10000 464 464 linked_file)).
  cbn [mbind option_bind]. change (search_spec _ _ _) with (Some 0x20150). cbn [mbind option_bind].
  change (0x20150 + 8) with (0x20000 + Z.of_nat 344). change (0x20150 + 4) with (0x20000 + Z.of_nat 340).
  by rewrite !image_peek by lia.
Qed.

Lemma foo_candidates : candidates sample_linked [0x66; 0x6F; 0x6F] None [(0%nat, sample_names)] =
  [Offer 0 0x20150 0x1C0 0x10].
Proof. unfold candidates. cbn -[candidate]. by rewrite foo_candidate. Qed.

Lemma sym_global_bound_witness :
  private_get_sym_global 0x20181 None sample_linked = Ok (Some (0%nat, 0x20150)) sample_linked.
Proof.
  destruct (sym_global_bound sample_linked 0x20181 [0x66; 0x6F; 0x6F] None [(0%nat, sample_names)]) as [-> _];
    [done|exact foo_cstr|exact sample_linked_ok|]. by rewrite foo_candidates.
Defined.

(** The second relocation of the module, [foo + 4] at 0x201C8. *)
Lemma sample_entry : entry_at sample_linked 0 0x201A8 linked_file 0x201C8 0x100000001 4.
Proof.
  split; [by eexists| | | | |lia].
  - exists 0x1C8. split; [exact (image_peek 424 8 ltac:(lia))|done].
  - exact (image_peek 432 8 ltac:(lia)).
  - exact (image_peek 440 8 ltac:(lia)).
  - intros j Hj. apply lookup_map_seqZ_is_Some. cbn. lia.
Qed.

Lemma relocation_correct_witness :
  private_relocate_symbol 0 0x201A8 sample_linked = Ok BFELF_SUCCESS (word_stored sample_linked 0x201C8 0x201C4).
Proof.
  rewrite (relocation_correct sample_linked 0 0x201A8 linked_file 0x201C8 0x100000001 4 0x1C0 0x10 [0x66; 0x6F; 0x6F]
    [(0%nat, sample_names)] sample_entry); [done| |exact sample_linked_ok].
  intros _. split; [exact (image_peek 344 8 ltac:(lia))|exact (image_peek 340 1 ltac:(lia))| |done].
  exists 1. split; [exact (image_peek 336 4 ltac:(lia))|exact foo_cstr].
Defined.

(** The module in the file buffer at 0x10000, parsed. *)
Definition parsed_file : bfelf_file_t :=
  let e := set_file (set_total_memsz file_zero 480) 0x10000 in
  set_num_load_instr (set_load_instr e [LoadInstr 7 0 0 480 464 0]) 1.
Definition sample_parsed : env toy :=
  Env (map_seqZ 0x10000 sample_module) sample_blocks (sample_toy None) [Binary 0 0x10000 0 464 parsed_file]
    loader_zero crt_zero 0.

Lemma parsed_fetch : fetch (bytes sample_parsed) 464 0x10000 = Some sample_module.
Proof.
  apply fetch_some. split; [done|]. intros i x Hx. apply lookup_map_seqZ_Some. split; [lia|].
  by replace (Z.to_nat (0x10000 + Z.of_nat i - 0x10000)) with i by lia.
Qed.

Lemma load_binary_image_witness : exists s', private_load_binary 0 sample_parsed = Ok BFELF_SUCCESS s' /\
  bytes s' !! 0x20003 = Some 0x46 /\ bytes s' !! 0x201DF = Some 0.
Proof.
  destruct (load_binary_image sample_parsed 0 (Binary 0 0x10000 0 464 parsed_file) [(0, sample_module)])
    as (s' & E & _ & Hc).
  - done.
  - done.
  - split; [done|]. intros [|k] seg Hk; [|done]. injection Hk as <-. eexists. split; [done|].
    split; [done|done|cbn; lia|exact parsed_fetch|cbn; lia].
  - done.
  - intros a l p [= <- <- <-]. split; [done|]. split; [done|]. split; [done|]. intros x Hx Hr.
    cbn [bytes sample_parsed] in Hx. apply lookup_map_seqZ_is_Some in Hx. cbn in Hx, Hr. lia.
  - exists s'. split; [done|]. destruct Hc as [Hi _]. split; [exact (Hi 3 ltac:(cbn; lia))|exact (Hi 0x1DF ltac:(cbn; lia))].
Defined.

(** The sample is accepted and parsed. *)
Definition sample_fresh : env toy :=
  Env (map_seqZ 0x10000 sample_module) ∅ (sample_toy None) [Binary 0 0x10000 0 464 file_zero] loader_zero crt_zero 0.

Definition sample_phdrs : list header := [(0x10040, take 56 (drop 64 sample_module)); (0x10078, take 56 (drop 120 sample_module))].
Definition sample_dyns : list (Z * Z) := [(4, 0x120); (5, 0x180); (6, 0x138); (7, 0x190); (8, 0x30); (9, 0x18)].

Lemma fresh_fetch : fetch (bytes sample_fresh) 464 0x10000 = Some sample_module.
Proof.
  apply fetch_some. split; [done|]. intros i x Hx. apply lookup_map_seqZ_Some. split; [lia|].
  by replace (Z.to_nat (0x10000 + Z.of_nat i - 0x10000)) with i by lia.
Qed.
Lemma fresh_peek off k : (off + k <= 464)%nat -> peek (bytes sample_fresh) k (0x10000 + Z.of_nat off) = Some (field sample_module off k).
Proof. intros Hk. eapply peek_field; [exact fresh_fetch|done]. Qed.

Lemma sample_tables : tables (bytes sample_fresh) 0x10000 (take 64 sample_module) sample_phdrs sample_dyns 464 [].
Proof.
  split; try done.
  - intros [|[|k]] a Ha; try done; injection Ha as <-; (split; [done|]).
    + exact (fetch_sub _ _ _ _ 64 56 fresh_fetch ltac:(lia)).
    + exact (fetch_sub _ _ _ _ 120 56 fresh_fetch ltac:(lia)).
  - intros [E|E]; by vm_compute in E.
  - intros k d Hd. assert (k < 6)%nat as Hk by by apply lookup_lt_Some in Hd.
    do 6 (destruct k as [|k]; [injection Hd as <-; split; [done|]; split;
      match goal with |- peek _ 8 ?p = _ => let q := eval vm_compute in (Z.to_nat (p - 0x10000)) in exact (fresh_peek q 8 ltac:(lia)) end|]).
    lia.
  - intros _ _. right. split; [done|]. exact (fresh_peek 272 8 ltac:(lia)).
Qed.

Lemma file_init_verdict_witness : exists e, bfelf_file_init 0x10000 464 0 sample_fresh =
    Ok BFELF_SUCCESS (updated 0 sample_fresh (Binary 0 0x10000 0 464 file_zero) e) /\
  parsed 0x10000 464 (take 64 sample_module) sample_phdrs sample_dyns [] e.
Proof.
  apply (file_init_verdict sample_fresh 0 (Binary 0 0x10000 0 464 file_zero) 0x10000 464 (take 64 sample_module)
    eq_refl (fetch_sub _ _ _ _ 0 64 fresh_fetch ltac:(lia)) ltac:(lia)) with (o := 464).
  - unfold ehdr_size. lia.
  - vm_compute. reflexivity.
  - reflexivity.
  - exact sample_tables.
Defined.
