(* ===== verification/DriverWitness.v ===== *)
(** * The driver's theorems on concrete states *)
From S2P Require Import Prelude Elf ElfFrame Driver DriverMem DriverProofs ThreadContext DriverSpec Sample.

Lemma sample_boot_inv r : drv_inv 2 (map_to_list sample_blocks) (sample_boot r).
Proof. exact (boot_inv (map_seqZ 0x10000 sample_module) sample_blocks (sample_toy r) (sample_boot_ok r)). Qed.

Lemma sample_added_step r : common_add_module 0x10000 464 (sample_boot r) = Ok BF_SUCCESS (sample_added r).
Proof. reflexivity. Qed.

Lemma sample_added_inv r : drv_inv 2 (map_to_list sample_blocks) (sample_added r).
Proof.
  pose proof (vmm_run_sim 2 (map_to_list sample_blocks) (AddModule 0x10000 464) (sample_boot r) (sample_boot_inv r)) as Hi.
  cbn [vmm_run] in Hi. rewrite sample_added_step in Hi. apply Hi.
Qed.

Lemma sample_up_loaded r : drv_inv 2 [] (sample_up r VMM_LOADED 0).
Proof. split; [apply sample_up_holds|]. right. split; [apply sample_up_ready|by left]. Qed.
Lemma sample_up_running r : drv_inv 2 [] (sample_up r VMM_RUNNING 2).
Proof. split; [apply sample_up_holds|]. right. split; [apply sample_up_ready|]. right. by left. Qed.

(** Add a module, and the hypervisor is still unloaded with one module. *)
Lemma driver_refines_witness :
  vmm_trans (AddModule 0x10000 464) (AUnloaded 0) BF_SUCCESS (AUnloaded 1) /\
  match vmm_run (AddModule 0x10000 464) (sample_boot None) with
  | Ok r s' => drv_inv 2 (map_to_list sample_blocks) s' /\
      vmm_trans (AddModule 0x10000 464) (abs (sample_boot None)) r (abs s')
  | Err x _ => AddModule 0x10000 464 = Load /\ fault x
  end.
Proof.
  split; [apply (t_add 0x10000 464 0); [lia|lia|reflexivity]|].
  apply (driver_refines 2 (map_to_list sample_blocks) (AddModule 0x10000 464) (sample_boot None)).
  apply sample_boot_inv.
Defined.

Definition sample_requests : list load_request :=
  [Ask_init; Ask_rsdp 0; Ask_md 0x32000 5; Ask_md 0x30000 3; Ask_md 0x31000 3].

Lemma sample_load_succeeds : exists s', common_load_vmm (sample_added None) = Ok BF_SUCCESS s' /\ load_requests s' = sample_requests.
Proof.
  assert (out_value (common_load_vmm (sample_added None)) = Some BF_SUCCESS) as Hv by (vm_compute; reflexivity).
  assert (load_requests (out_state (common_load_vmm (sample_added None))) = sample_requests) as Hq by (vm_compute; reflexivity).
  destruct (common_load_vmm (sample_added None)) as [r s'|]; [|discriminate Hv]. injection Hv as ->. by exists s'.
Qed.

Lemma sample_added_before : abs (sample_added None) <> AUnloaded 0 /\ g_vmm_status (sample_added None) = VMM_UNLOADED /\
  trace (sample_added None) = [].
Proof. split; [discriminate|done]. Qed.

(** The module has one segment of code; there are two CPUs. *)
Lemma driver_load_correct_witness : exists s', common_load_vmm (sample_added None) = Ok BF_SUCCESS s' /\
  g_vmm_status s' = VMM_LOADED /\ exists l, trace s' = rev l ++ [] /\ Forall2 answers l sample_requests.
Proof.
  destruct sample_added_before as (Ha & Hs & Ht). destruct sample_load_succeeds as (s' & E & Hq).
  pose proof (driver_load_correct 2 (map_to_list sample_blocks) (sample_added None) (sample_added_inv None) Ha Hs) as Hl.
  rewrite E, Ht, Hq in Hl. exists s'. split; [exact E|].
  destruct Hl as [(_ & Hv & _ & _ & Hl)|[Hr _]]; [exact (conj Hv Hl)|exfalso; by apply Hr].
Defined.

(** The second CPU refuses to start: the first one is shut down. *)
Lemma driver_start_order_witness :
  exists r s' tr, common_start_vmm (sample_up (Some (BF_REQUEST_VMM_INIT, 1)) VMM_LOADED 0) = Ok r s' /\
    drv_inv 2 [] s' /\ trace s' = tr ++ [] /\ start_trace 2 r (g_vmm_status s') tr.
Proof.
  apply (driver_start_order 2 [] (sample_up (Some (BF_REQUEST_VMM_INIT, 1)) VMM_LOADED 0)).
  - apply sample_up_loaded.
  - reflexivity.
Defined.

Lemma driver_stop_order_witness :
  exists r s', common_stop_vmm (sample_up None VMM_RUNNING 2) = Ok r s' /\ drv_inv 2 [] s' /\
    (r = BF_SUCCESS /\ g_vmm_status s' = VMM_LOADED /\
       trace s' = ((fun c => fini_call c 0) <$> seqZ 0 2) ++ [] \/
     r <> BF_SUCCESS /\ g_vmm_status s' = VMM_CORRUPT /\
       exists k l, 0 < k <= 2 /\ attempt (fini_call (k - 1) r) l /\ g_num_cpus_started s' = k /\
         trace s' = l ++ ((fun c => fini_call c 0) <$> seqZ k (2 - k)) ++ []).
Proof.
  apply (driver_stop_order 2 [] (sample_up None VMM_RUNNING 2)).
  - apply sample_up_running.
  - reflexivity.
Defined.

Lemma driver_fini_releases_witness :
  exists r s', common_fini (sample_up None VMM_RUNNING 2) = Ok r s' /\ drv_inv 2 [] s' /\
    (VMM_RUNNING <> VMM_CORRUPT /\ r = BF_SUCCESS /\ released [] s' \/
     VMM_RUNNING <> VMM_UNLOADED /\ r = BF_ERROR_VMM_CORRUPTED /\ g_vmm_status s' = VMM_CORRUPT).
Proof.
  apply (driver_fini_releases 2 [] (sample_up None VMM_RUNNING 2)). apply sample_up_running.
Defined.

Lemma driver_reachable_witness :
  map_to_list (live (e_env (sample_added None))) ≡ₚ map_to_list sample_blocks.
Proof.
  apply (driver_reachable (map_seqZ 0x10000 sample_module) sample_blocks (sample_toy None) (sample_added None)).
  - apply sample_boot_ok.
  - apply rtc_once. apply (drv_do _ (AddModule 0x10000 464) BF_SUCCESS). reflexivity.
  - reflexivity.
Defined.

(** A call on the second CPU. *)
Definition sample_call : outcome (drv toy) Z :=
  common_call_vmm 1 BF_REQUEST_VMM_INIT (Int 1) 0 (sample_up None VMM_LOADED 0).

Lemma sample_call_ok : exists r, common_call_vmm 1 BF_REQUEST_VMM_INIT (Int 1) 0 (sample_up None VMM_LOADED 0) =
  Ok r (out_state sample_call).
Proof.
  pose proof (common_call_ok 2 1 BF_REQUEST_VMM_INIT (Int 1) 0 (sample_up None VMM_LOADED 0)
    (ei_ok _ _ _ (ho_env _ _ _ (sample_up_holds _ _ _))) (ready_has_stack _ _ _ (sample_up_holds _ _ _) (sample_up_ready _ _ _))) as Hc.
  unfold sample_call. destruct (common_call_vmm _ _ _ _ _) as [r s'|]; [by exists r|]. by destruct Hc.
Qed.

Lemma call_thread_context_witness :
  stack_top 0x20000 = 0x2FFFF /\
  _thread_context_tlsptr 0x2FF00 (e_env (out_state sample_call)) = Ok 0x31000 (e_env (out_state sample_call)).
Proof.
  split; [vm_compute; reflexivity|]. destruct sample_call_ok as [r E].
  destruct (call_thread_context 2 [] 1 BF_REQUEST_VMM_INIT (Int 1) 0 (sample_up None VMM_LOADED 0) r
    (out_state sample_call) 0x2FF00) as (_ & Ht & _).
  - apply sample_up_holds.
  - apply sample_up_ready.
  - lia.
  - exact E.
  - vm_compute. split; discriminate.
  - exact Ht.
Defined.
