(* ===== verification/VcpuDriver.v ===== *)
(** * The driver and the virtual CPUs

    The calls the driver makes, answered by the hypervisor: while the driver
    counts the hypervisor as running, there is a running virtual CPU for every
    processor, and none when it is loaded but not running. *)
From S2P Require Import Prelude Guard Bits Buddy MemMgr DebugRing Elf ElfFrame Driver DriverMem DriverProofs DriverSpec.
From S2P Require Import Vcpu VcpuProofs Sample DriverWitness.

Section Both.
Context {P W : Type} `{KernelLaws P} `{F : Factory W} `{X : Extension W}.

(** The calls of a trace, the last one first, are answered with the codes that
    it records. *)
Inductive answers (h : vmm W) : list call -> vmm W -> Prop :=
| an_nil : answers h [] h
| an_call c tr h1 h2 : answers h tr h1 ->
    bfmain (c_request c) (arg_word (P := P) (c_arg1 c)) (c_arg2 c) 0 h1 = Ok (c_ret c) h2 -> answers h (c :: tr) h2.









Context (ncpu : Z) (others : list (Z * Z)).

End Both.

(** ** A machine whose delegates leave their mark *)

(** The machine records the delegates that were called; the run delegate of
    processor 7 throws. *)
Definition mark (k id : Z) : delegate (list (Z * Z)) := fun _ w =>
  if (k =? 2) && (id =? 7) then Err (runtime_error "launch failed") ((k, id) :: w) else Ok tt ((k, id) :: w).

#[export] Instance sample_factory : Factory (list (Z * Z)) := {
  make id _ := bind (vcpu_ctor id) (fun v => ret (Some (add_init_delegate (mark 1 id) (add_run_delegate (mark 2 id)
    (add_hlt_delegate (mark 3 id) (add_fini_delegate (mark 4 id) v))))));
  dispose v w := (5, m_id v) :: w;
}.

#[export] Instance sample_extension : Extension (list (Z * Z)) := {
  pre_create_vcpu _ := 0; pre_run_vcpu _ := 0; pre_hlt_vcpu _ := 0; pre_destroy_vcpu _ := 0;
  md_at _ _ := None; store_ptr _ _ w := w;
}.

Definition sample_vmm : vmm (list (Z * Z)) := Vmm (Manager ∅ []) (memory_manager 0x100000 0x200000) 0 (Rings ∅ ∅).

Lemma sample_vmm_running : all_running (g_vcm sample_vmm).
Proof. intros id v. unfold vcpu_of. simpl. by rewrite lookup_empty. Qed.

(** A start that fails is undone, a start and a stop call all delegates. *)
Example sample_vmm_failed :
  match bfmain BF_REQUEST_VMM_INIT 7 0 0 sample_vmm with
  | Ok r h => (r, world (g_vcm h)) | Err _ h => (0, []) end =
  (ENTRY_ERROR_VMM_START_FAILED, [(5, 7); (4, 7); (2, 7); (1, 7)]).
Proof. reflexivity. Qed.

Lemma bfmain_refines_witness :
  match bfmain BF_REQUEST_VMM_INIT 1 0 0 sample_vmm with
  | Ok r h' => all_running (g_vcm h') /\ request_step BF_REQUEST_VMM_INIT 1 (vcpus (g_vcm sample_vmm)) r (vcpus (g_vcm h'))
  | Err e _ => catchable e = false
  end /\ exists h', bfmain BF_REQUEST_VMM_INIT 1 0 0 sample_vmm = Ok SUCCESS h'.
Proof.
  split; [|by eexists]. apply (bfmain_refines BF_REQUEST_VMM_INIT 1 0 0 sample_vmm). apply sample_vmm_running.
Defined.

(** The calls of a successful start are answered. *)
Lemma sample_answers : exists h', answers (P := toy) sample_vmm (reverse ((fun c => init_call c 0) <$> seqZ 0 2)) h' /\
  world (g_vcm h') = [(2, 1); (1, 1); (2, 0); (1, 0)].
Proof.
  eexists. split; [|shelve]. change (seqZ 0 2) with [0; 1]. simpl. eapply an_call; [eapply an_call; [constructor|]|].
  1, 2: reflexivity. Unshelve. reflexivity.
Qed.

